(* ===== verification/_CoqProject ===== *)
-Q . S2P
Prelude.v
SerialCodec.v
FrameBuff.v
VideoState.v
VideoCtrl.v
VideoCtrlProps.v
VideoDrv.v
VideoIoctl.v
VideoSys.v
VideoSafe.v
VideoProps.v
VideoSettings.v
Detect.v
DetectProps.v
CameraIo.v
CameraLemmas.v
WebSource.v
DetectCam.v
CameraProps.v
Stdio.v
StdioProps.v
Scanf.v
ScanProps.v
Card.v
CardProps.v
IsxRegs.v
Isx012.v
IsxSafe.v
IsxCtrl.v
IsxFrame.v
IsxInit.v
IsxVideo.v
MmHeap.v
MmList.v
MmLayout.v
MmSteps.v
MmSpec.v
MmFree.v
MmInfo.v
MmInit.v
MmProps.v
MmZero.v
MmAlign.v
MmRealloc.v
Serial.v
SerialRing.v
SerialProps.v
SerialSafe.v
CdcDesc.v
CdcAcm.v
CdcCtrl.v
CdcProps.v
UsbSerial.v
UsbSafe.v
UsbCtrl.v
CdcBind.v
WebMain.v
WebLine.v
