(* ===== verification/Prelude.v ===== *)
(** * Sprefence: a verification development

    Sprefence is an electric fence that switches on when it sees a person.  A
    Spresense board runs two programs on NuttX: [web_source] answers commands
    that arrive over a USB serial line (take a picture, store the hazard area,
    switch on), [diff_ditect] compares camera frames with a reference picture
    and drives the fence.  Both take frames from the NuttX video driver
    ([/dev/video]).  A host program (C#) decodes the pictures [web_source]
    sends.  The programs share files on the card: [uyvy.yuv] (the reference
    picture), [hazard.ini] and [switch.ini].

    ** How the code is modelled

    The files of this library follow the code; each is one module of its own
    name.  Code is a function in the monads of this file: [outcome] is a value,
    undefined behaviour of C (with its kind) or a wait nobody ends; [M S] adds
    the state [S].  Null and dangling pointers, reads outside a buffer, [int]
    overflow, division by zero and failed assertions are outcomes, so a theorem
    that something returns excludes them.  Machine integers are [Z] with
    wrap-around written out where the code narrows ([u8], [i32] and the like).
    What the code gets from outside (memory, devices, files, the answers of
    [kmm_malloc], [memalign], [register_driver], [read], [fopen]) is an
    argument.

    - [Prelude]: the monads, total correctness [wp] with its rules, buffers
      ([cbuf]), machine integers, counted loops, tactics and the hint database.
    - [SerialCodec]: [src/sprefence/web_source/web_source_main.c], packing and
      sending of a picture in the [camera] command of [main], and
      [src/SprefenceServer/SprefenceServer/WebServer.cs], [isEnd] and decoding.
    - [FrameBuff]: [src/spresense/nuttx/drivers/video/video_framebuff.c], every
      function, over an explicit heap of containers.  [queue] is the abstract
      specification: captured, vacant and free containers.
    - [VideoState]: the state of [src/spresense/nuttx/drivers/video/video.c]
      ([struct video_mng_s], its two streams, the file-scope variables) and the
      interfaces [imgsensor_ops] and [imgdata_ops] of the devices below, as
      records of functions of the history of calls.
    - [VideoCtrl], [VideoCtrlProps]: control queries, controls, scenes.
    - [VideoDrv]: open, close, buffers, formats, clipping, frame rate,
      streaming, still pictures, [video_complete_capture].
    - [VideoIoctl]: [video_ioctl], [video_register], [video_initialize], the
      registration of devices.
    - [VideoSys], [VideoSafe], [VideoProps]: the driver as a transition system
      of calls, resumptions and interrupts; its invariant; what holds in every
      reachable state.
    - [VideoSettings]: clipping rectangles, closing, registration.
    - [Detect], [DetectProps]: [src/sprefence/diff_ditect/diff_ditect_main.c],
      the two centres of weight, the hazard area (in IEEE arithmetic,
      [SpecFloat]), the fence as a trace of pin writes, the passes of [main].
    - [CameraIo], [CameraLemmas]: the state of a program that uses the camera,
      and [open], [close], [ioctl] of a character device
      ([src/spresense/nuttx/fs/vfs]); the driver with one ring buffer.
    - [WebSource], [DetectCam], [CameraProps]: the two programs with the camera
      functions of each, on top of the driver; what they achieve together.
    - [Stdio], [StdioProps]: the buffered streams of
      [src/spresense/nuttx/libs/libc/stdio] ([fopen], [fread], [fwrite], [fgetc],
      [ungetc], [fflush], [fclose]) over a file whose transfers the file system
      cuts or refuses as it likes; [Scanf], [ScanProps]: [strtod] and the format
      loop of [lib_vscanf] with its conversions to [double], and a grammar of
      the numbers they read.
    - [Card], [CardProps]: [Load_setting], [load_pic] and [main] of
      [diff_ditect], and the line with the borders the host sends
      ([WebServer.cs], [/sethazard]); what the programs learn from each other
      through the files of the card.
    - [IsxRegs], [Isx012]: [src/spresense/nuttx/drivers/video/isx012.c], the
      driver of the camera of the board, with the register lists and tables of
      [isx012_reg.h] and [isx012_range.h].  The sensor, the bus and the power
      lines answer according to the history of what was done to them.
    - [IsxSafe], [IsxCtrl], [IsxFrame], [IsxInit]: what that driver does on its
      own; [IsxVideo]: under the video driver, through the classes
      [FrameSensor] (of [VideoSys]) and [Isx012Sensor].
    - [MmHeap]: [src/spresense/nuttx/mm/mm_heap], the allocator of the kernel
      (one region, 32-bit sizes, one processor).  Memory is a map of 32-bit
      words: headers, links and hooks are words in it, and a word that is not
      there cannot be read or written.
    - [MmList]: the doubly linked list of the free chunks with its hooks;
      [MmLayout]: the headers as a row of chunks; [MmSteps]: taking, splitting
      and merging chunks as steps on both at once.
    - [MmSpec]: the abstract heap, a row of chunks with [release] and
      [malloc_spec]; [MmFree], [MmInfo], [MmInit]: the functions of [MmHeap]
      against it; [MmProps], [MmZero], [MmAlign], [MmRealloc]: what clients rely
      on.
    - [Serial]: [src/spresense/nuttx/drivers/serial/serial.c] and
      [serial_io.c], the upper half of the serial driver, over the class
      [uart_ops] of the operations of a lower half; [CdcAcm]:
      [src/spresense/nuttx/drivers/usbdev/cdcacm.c], the lower half of
      [/dev/ttyACM0], the line [web_source] talks to the host over, with its
      control requests, over the class [controller] of the answers of the USB
      controller; [CdcDesc]: the descriptors of [cdcacm_desc.c].
    - [SerialRing]: the circular buffers as queues; [SerialProps]: what the
      upper half does with the characters, against the class [StreamLower] of
      what a lower half promises; [CdcProps]: [CdcAcm] keeps that promise;
      [UsbSerial]: both together, with the calls of [web_source].
    - [SerialSafe], [UsbSafe]: the same two layers through the class
      [SafeLower], for interrupts that include disconnections.
    - [CdcCtrl], [UsbCtrl]: control requests, the configuration descriptor as
      the host reads it; [CdcBind]: [cdcacm_initialize], [cdcacm_bind],
      [cdcacm_unbind] over the class [lender] of what the controller driver
      grants, and the way from nothing to an open device.
    - [WebMain]: [main] of [web_source_main.c] on its line: connecting the device
      through [boardctl] ([src/spresense/nuttx/boards/boardctl.c]), the terminal
      ([src/spresense/nuttx/libs/libc/termios]), and the loop over serial driver,
      camera and card; [WebLine]: what it does with commands, and how it gets
      to its loop.

    ** What the theorems show

    - Transfer: a picture of a multiple of seven bytes comes back exactly
      ([transfer_roundtrip]), of any other all full groups come back and seven
      more bytes ([SerialCodec.decoded]); the end word is recognised exactly at
      the end.
    - Frame buffers: the pointer code refines the queue for every sequence of
      operations a client may make ([framebuff_simulation]); order in both
      modes ([fifo_order], [ring_keeps_newest]); fresh chains after a request
      ([realloc_fresh]); the dangling chain after a request for none.
    - Driver: [open] establishes the invariant ([video_open_ready]), from then
      on every call, resumption and interrupt returns ([driver_safe]), the
      streams exclude each other ([capture_exclusive]), the address and size the
      hardware was given last are those of a live container
      ([capture_target_live]), a thread that waits for a frame gets the oldest
      one when the capture completes ([dqbuf_delivers_frame]), the last [close]
      undoes [open] ([close_reopen]).
    - Controls: parameters are stored and read back, what the query reports is
      what is accepted, errors are reported at their index, scenes are
      reflected to the sensor (the theorems of [VideoCtrlProps]).
    - Detection: the centres are the centres of weight
      ([black_center_correct], [skin_center_correct]), the fence follows the
      program's state ([fence_follows_state]), a pass reacts to the switch file
      and to the point found ([pass_reacts]).  The last needs more memory behind
      the buffers than the program has: with its own frames of [FSIZE] bytes a
      pass that looks at one reads outside it, which the same theorem shows.
      Other limits of the code: overflow, the null picture.
    - Programs on the driver: a picture request is served (lemma
      [CameraProps.picture_served]), the switch commands ([switch_commands]).
    - The image server as a whole: from nothing to a picture the host has decoded
      ([picture_from_nothing]); a request in any state between two commands
      ([camera_over_line]); the borders from the line to the detector
      ([settings_over_usb], for borders from 0.00 to 9.99); without a device the
      end of [main] uses a handle nothing has set (lemma [WebLine.no_device]).
      The three assume that the word arrives whole and that the controller takes
      every request.
    - The card: a stream that is read is the list of its bytes
      ([stream_reads]), what was written to one is read back
      ([file_roundtrip]); the settings file sets what its numbers say
      ([settings_file_read]) and is read whatever it holds, but for exponents
      of more than nine digits, which overflow where they exceed an [int]
      ([settings_always_read]); what becomes of the borders on
      their way from the host to the detector (lemma
      [CardProps.settings_over_line], [initial_borders_misread],
      [top_border_mirrored]); the stored picture is
      the one the detector compares with ([picture_on_card]); the detector with
      its camera, settings and pictures refines the detection loop
      ([detector_on_card]).
    - Sensor: every request of the driver of the ISX012 but the start of a
      capture returns whatever the sensor answers ([sensor_always_answers],
      [polling_ends]; the two that read the automatic exposure need one below
      2^31 microseconds); the scalar controls accept exactly what they offer
      ([offered_is_accepted]), those of its table are read back
      and do not disturb each other ([control_roundtrip],
      [controls_independent]); which frame settings are
      accepted and which clip registers follow ([frame_setting_exact],
      [clip_registers_fit]); what initialisation programs
      ([init_programs_registers]).  [start_capture_never_ok] is a copy past the
      end of a buffer.  Under the video driver every capture is started with a
      setting the sensor accepts ([captures_accepted]).
    - Heap: the code refines the abstract heap for allocations, frees of tasks
      and of interrupt handlers, stores and checks ([heap_simulation]); from
      [mm_initialize] on it never breaks ([heap_never_breaks]); what clients
      learn from an allocation ([malloc_fresh], [calloc_zeroes]), how aligned
      memory is cut out of a free chunk without loss ([memalign_aligned]), that
      freeing undoes an allocation ([malloc_free_roundtrip]), and what resizing
      does for every size ([realloc_keeps]).
    - Serial line: while the device stays connected to a controller that takes
      every request ([calm_sched]), what is written goes out once and in order,
      what arrives is read once and in order ([usb_write_stream],
      [usb_read_stream]), a drain that succeeds has sent everything
      ([usb_drain], which also shows the lock a drain that times out leaves
      behind), and a picture written through the driver is decoded by the host
      ([picture_over_usb]).  With any controller and any interrupts in between,
      disconnections too but for the choice of configuration 1 and short data of
      a control request, the data stays well formed and nothing undefined
      happens ([usb_never_breaks]).
    - USB device: initialisation, binding, the configuration by the host and the
      first open give the ready device (lemma [CdcBind.usb_boot]); whatever the
      controller driver refuses, all it granted is given back ([bind_returns_loans]); the
      descriptors the host reads are those of the device
      ([configuration_read]); control requests are answered within their bounds
      and change only the line settings, but for one with short data, which
      reads too far ([setup_answered]); the choice of an
      interface leaves the device without configuration
      ([set_interface_unconfigures]).

    ** Bounds and interleaving

    Loops over images are [for_loop]s with the counts of the code; sending and
    receiving recurse over the number of groups.  [dq_loop] has the count of
    the wait semaphore as fuel: every pass lowers the count by one and nothing in
    the loop raises it, so the fuel ends exactly where the wait blocks.
    [chk_loop] of the sensor has the timeout as fuel, of which every turn takes
    at least one.  The walks of the heap have the number of words of the memory
    as fuel: every node, chunk and delayed free has words of its own, and the
    theorems show that the walks end before it is used up.  The endless loops
    of the programs run over lists of passes, one element per pass.

    One step of [VideoSys] is a whole call, the resumption of a thread in
    [VIDIOC_DQBUF], or an interrupt.  [VIDIOC_DQBUF] is cut where it waits;
    other waits (for the state locks of a stream) would make a step [Blocked],
    and [driver_safe] excludes it for steps that do not overlap.  Calls of
    several threads that overlap inside the driver are not covered, nor are
    control and scene requests in the reachable states of [VideoSys] (their
    properties are those of [VideoCtrlProps], on any state).  The operations of
    the heap run under its semaphore: one step of [MmProps] is a whole
    operation, and frees of interrupt handlers come between them.

    A call of the serial driver runs in one task and carries a schedule, a list
    of batches of interrupts: a batch is served wherever the code reads what an
    interrupt handler writes with interrupts enabled ([irq_point]), and batches
    are served while the task waits for a semaphore; with no batch left the wait
    is [Blocked].  The theorems hold for every schedule of their kind; [wpl
    false] is partial correctness, and what returns for certain is stated with
    [wp] for schedules in which transfers keep completing ([prompt]).  [turns]
    bounds the loops that wait: each turn serves a batch or takes from a
    semaphore; the busy wait of a drain takes a tick in every turn.  Two calls
    that overlap are not covered, but for the lock a drain leaves behind.

    A command is read when its characters are in the buffer or come in the next
    packet ([heard]): a driver that hears half a word returns half a word, and
    the loop of [web_source] does not put words together.  Reading takes at most
    257 batches of interrupts, sending a picture its [cost].

    The buffered read of a stream has twice the number of bytes asked for as
    fuel: a turn either takes a byte or fills the buffer, which makes the next
    one take a byte.  A flush that has to be complete has [turns] ([flushes] in
    [WebMain]), and every
    write of a file system that makes progress takes a byte out of the buffer.
    The scans of a format and of its qualifiers have its length as fuel.

    ** Not modelled

    - more than one region of a heap, and the checks that depend
      on the configuration of the kernel (fill patterns, the procfs entry);
    - the other image sensors ([isx019.c], [ov2640.c]) and the CXD56 camera
      interface, which is a device behind [imgdata_ops];
    - of the serial line: DMA, flow control, signals from the terminal, a
      serial console, composite devices, the USB controller itself (its answers
      are arguments); the theorems on streams of characters leave out a
      reconfiguration while packets are pending (an assertion fails there) and
      writes from interrupt handlers (a null pointer is called);
    - the kernel below: scheduler and card drivers; semaphores are their counts;
    - the file system below the streams: the bytes of a file, and how far a
      transfer goes, are arguments; a stream that several tasks use; the
      conversions of [lib_vscanf] to strings, characters, integers and [float],
      which the programs do not use, are an argument of the format loop;
    - [availableForWrite] of [web_source], which nothing calls; whether [fopen]
      can open a file is an argument;
    - HTTP, JSON and the user interface of the host, the web pages, and the
      C++ variant [face_detect]. *)

From stdpp Require Export base tactics numbers list gmap.
From Stdlib Require Export ZArith Lia.

#[global] Open Scope Z_scope.

#[global] Arguments Z.testbit : simpl never.
#[global] Arguments Z.land : simpl never.
#[global] Arguments Z.lor : simpl never.
#[global] Arguments Z.shiftl : simpl never.
#[global] Arguments Z.shiftr : simpl never.
#[global] Arguments Z.mul : simpl never.
#[global] Arguments Z.add : simpl never.
#[global] Arguments Z.sub : simpl never.
#[global] Arguments Z.of_nat : simpl never.
#[global] Arguments Z.to_nat : simpl never.

(** ** Outcomes of C code

    A piece of C code either returns, runs into behaviour the C standard does
    not define (the reason is kept), or waits on a semaphore nobody has posted. *)

Inductive ub_kind : Set :=
  | NullDeref
  | DanglingDeref
  | OutOfBounds
  | SignedOverflow
  | DivByZero
  | AssertFailed.

Inductive outcome (A : Type) : Type :=
  | Ret (a : A)
  | Ub (u : ub_kind)
  | Blocked.
Arguments Ret {A} a.
Arguments Ub {A} u.
Arguments Blocked {A}.

#[global] Instance ub_kind_eq_dec : EqDecision ub_kind.
Proof. solve_decision. Defined.

#[global] Instance outcome_ret : MRet outcome := fun _ a => Ret a.

#[global] Instance outcome_bind : MBind outcome := fun _ _ f m =>
  match m with
  | Ret a => f a
  | Ub u => Ub u
  | Blocked => Blocked
  end.

(** Code that reads and writes a state [S]: explicit state passing. *)

Definition M (S A : Type) : Type := S -> outcome (A * S).

#[global] Instance M_ret {S} : MRet (M S) := fun _ a s => Ret (a, s).

#[global] Instance M_bind {S} : MBind (M S) := fun _ _ f m s =>
  match m s with
  | Ret (a, s') => f a s'
  | Ub u => Ub u
  | Blocked => Blocked
  end.

Definition get {S} : M S S := fun s => Ret (s, s).
Definition put {S} (s : S) : M S unit := fun _ => Ret (tt, s).
Definition modify {S} (f : S -> S) : M S unit := fun s => Ret (tt, f s).
Definition gets {S A} (f : S -> A) : M S A := fun s => Ret (f s, s).
Definition ub {S A} (u : ub_kind) : M S A := fun _ => Ub u.
Definition blocked {S A} : M S A := fun _ => Blocked.
Definition lift {S A} (o : outcome A) : M S A := fun s =>
  match o with
  | Ret a => Ret (a, s)
  | Ub u => Ub u
  | Blocked => Blocked
  end.

(** Running code that lives on a component of a larger state. *)

Definition zoom {S T A} (proj : T -> S) (inj : S -> T -> T) (m : M S A) : M T A :=
  fun t =>
    match m (proj t) with
    | Ret (a, s) => Ret (a, inj s t)
    | Ub u => Ub u
    | Blocked => Blocked
    end.

(** [m] run from [s] returns [a] and leaves [s']. *)

Definition returns {S A} (m : M S A) (s : S) (a : A) (s' : S) : Prop :=
  m s = Ret (a, s').

Lemma bind_returns {S A B} (m : M S A) (f : A -> M S B) s a s' :
  returns m s a s' -> (m ≫= f) s = f a s'.
Proof. unfold returns, mbind, M_bind. by intros ->. Qed.

Lemma bind_inv {S A B} (m : M S A) (f : A -> M S B) s b s'' :
  (m ≫= f) s = Ret (b, s'') ->
  exists a s', m s = Ret (a, s') /\ f a s' = Ret (b, s'').
Proof.
  unfold mbind, M_bind. destruct (m s) as [[a s']| |]; naive_solver.
Qed.

Lemma lift_inv {S A} (o : outcome A) (s s' : S) a :
  lift o s = Ret (a, s') -> o = Ret a /\ s' = s.
Proof. unfold lift. destruct o; naive_solver. Qed.

(** Total correctness: [m] run from [s] returns, with a result and a state in [Q]. *)

Definition wp {S A} (m : M S A) (Q : A -> S -> Prop) (s : S) : Prop :=
  exists a s', m s = Ret (a, s') /\ Q a s'.

Lemma wp_ret {S A} (a : A) (Q : A -> S -> Prop) s : Q a s -> wp (mret a) Q s.
Proof. intros H. by exists a, s. Qed.

Lemma wp_bind {S A B} (m : M S A) (f : A -> M S B) Q s :
  wp m (fun a => wp (f a) Q) s -> wp (m ≫= f) Q s.
Proof.
  intros (a & s' & Hm & b & s'' & Hf & HQ). exists b, s''. split; [|done].
  unfold mbind, M_bind. by rewrite Hm.
Qed.

Lemma wp_mono {S A} (m : M S A) (Q R : A -> S -> Prop) s :
  wp m Q s -> (forall a s', Q a s' -> R a s') -> wp m R s.
Proof. intros (a & s' & Hm & HQ) H. exists a, s'. eauto. Qed.

Lemma wp_run {S A} (m : M S A) (Q : A -> S -> Prop) s a s' :
  m s = Ret (a, s') -> Q a s' -> wp m Q s.
Proof. intros. by exists a, s'. Qed.

Lemma wp_get {S} (Q : S -> S -> Prop) s : Q s s -> wp get Q s.
Proof. intros. by exists s, s. Qed.

Lemma wp_gets {S A} (f : S -> A) (Q : A -> S -> Prop) s : Q (f s) s -> wp (gets f) Q s.
Proof. intros. by exists (f s), s. Qed.

Lemma wp_modify {S} (f : S -> S) (Q : unit -> S -> Prop) s : Q tt (f s) -> wp (modify f) Q s.
Proof. intros. by exists tt, (f s). Qed.

Lemma wp_lift {S A} (o : outcome A) (Q : A -> S -> Prop) s a :
  o = Ret a -> Q a s -> wp (lift o) Q s.
Proof. intros -> H. by exists a, s. Qed.

(** ** Counted loops: [for (i = i0; i < i0 + n; ++i) s = body(i, s)] *)

Fixpoint for_loop {A} (n : nat) (i : Z) (body : Z -> A -> outcome A) (a : A) : outcome A :=
  match n with
  | O => Ret a
  | S n' => body i a ≫= for_loop n' (i + 1) body
  end.

Lemma for_loop_inv {A} (P : Z -> A -> Prop) n i body a :
  P i a ->
  (forall j x, i <= j < i + Z.of_nat n -> P j x ->
     exists x', body j x = Ret x' /\ P (j + 1) x') ->
  exists a', for_loop n i body a = Ret a' /\ P (i + Z.of_nat n) a'.
Proof.
  revert i a. induction n as [|n IH]; intros i a Ha Hstep.
  - exists a. split; [done|]. by replace (i + Z.of_nat 0) with i by lia.
  - destruct (Hstep i a) as (x' & Hb & Hx'); [lia|done|].
    destruct (IH (i + 1) x') as (a' & Hr & Ha'); [done| |].
    + intros j x Hj. apply Hstep. lia.
    + exists a'. simpl. rewrite Hb. split; [done|].
      by replace (i + Z.of_nat (S n)) with (i + 1 + Z.of_nat n) by lia.
Qed.

(** ** Machine integers of the target (32-bit ARM, [int] is 32 bits) *)

Definition INT_MAX : Z := 2147483647.
Definition INT_MIN : Z := -2147483648.
Definition is_i32 (z : Z) : bool := (INT_MIN <=? z) && (z <=? INT_MAX).

(** Unsigned arithmetic wraps, conversions to a narrower type truncate. *)

Definition u8 (z : Z) : Z := z mod 256.
Definition u16 (z : Z) : Z := z mod 65536.
Definition u32 (z : Z) : Z := z mod 4294967296.
Definition u64 (z : Z) : Z := z mod 18446744073709551616.
Definition i32 (z : Z) : Z :=
  let w := u32 z in if w <? 2147483648 then w else w - 4294967296.

(** Signed arithmetic that leaves [int] is undefined. *)

Definition int_ (z : Z) : outcome Z := if is_i32 z then Ret z else Ub SignedOverflow.

Lemma is_i32_spec z : is_i32 z = true <-> INT_MIN <= z <= INT_MAX.
Proof. unfold is_i32. rewrite andb_true_iff, !Z.leb_le. done. Qed.

Lemma int_ok z : INT_MIN <= z <= INT_MAX -> int_ z = Ret z.
Proof. intros H. unfold int_. by rewrite (proj2 (is_i32_spec z)). Qed.

Lemma int_inv z z' : int_ z = Ret z' -> z' = z /\ INT_MIN <= z <= INT_MAX.
Proof.
  unfold int_. destruct (is_i32 z) eqn:E; [|done]. intros [= <-].
  split; [done|]. by apply is_i32_spec.
Qed.

Lemma i32_id z : INT_MIN <= z <= INT_MAX -> i32 z = z.
Proof.
  unfold i32, u32, INT_MIN, INT_MAX. intros H.
  destruct (decide (0 <= z)).
  - rewrite Z.mod_small by lia. case_match eqn:E; [done|]. apply Z.ltb_ge in E. lia.
  - rewrite <- (Z.mod_unique z 4294967296 (-1) (z + 4294967296)) by lia.
    case_match eqn:E; [apply Z.ltb_lt in E|]; lia.
Qed.

Lemma i32_range z : INT_MIN <= i32 z <= INT_MAX.
Proof.
  unfold i32, u32, INT_MIN, INT_MAX.
  pose proof (Z.mod_pos_bound z 4294967296 ltac:(lia)).
  case_match eqn:E; [apply Z.ltb_lt in E|apply Z.ltb_ge in E]; lia.
Qed.

Lemma u8_range z : 0 <= u8 z < 256.
Proof. apply Z.mod_pos_bound. lia. Qed.

Lemma u8_id z : 0 <= z < 256 -> u8 z = z.
Proof. apply Z.mod_small. Qed.

(** ** Error numbers ([include/errno.h]) *)

Definition OK : Z := 0.
Definition ERROR : Z := -1.
Definition EPERM : Z := 1.
Definition EBADF : Z := 9.
Definition ENOMEM : Z := 12.
Definition EBUSY : Z := 16.
Definition ENODEV : Z := 19.
Definition EINVAL : Z := 22.
Definition ENOTTY : Z := 25.
Definition ESHUTDOWN : Z := 110.
Definition ECANCELED : Z := 140.

(** ** Semaphores

    The counting part of [sem_t]: a positive count is the number of waits that
    return at once, a negative one the number of threads that wait.  A wait
    that cannot return at once is [Blocked] where the code has no other thread
    to post it. *)

Definition sem_wait (c : Z) : outcome Z := if 0 <? c then Ret (c - 1) else Blocked.
Definition sem_post (c : Z) : Z := c + 1.

(** ** Tactics and hints of the development *)

Create HintDb vrf.
#[export] Hint Resolve u8_range i32_range : vrf.

(** Unfold the monads' binds and returns. *)

Ltac munfold :=
  unfold mbind, mret, M_bind, M_ret, outcome_bind, outcome_ret,
    get, put, modify, gets, ub, blocked, lift, zoom in *.

(** Case analysis on every match or conditional scrutinee, with its equation. *)

Ltac break_match :=
  repeat (case_match; simplify_eq/=; try done).

(** Boolean comparisons to propositions. *)

Ltac to_prop :=
  repeat match goal with
  | H : (_ && _) = true |- _ => apply andb_true_iff in H as [? ?]
  | H : (_ || _) = false |- _ => apply orb_false_iff in H as [? ?]
  | H : negb _ = true |- _ => apply negb_true_iff in H
  | H : negb _ = false |- _ => apply negb_false_iff in H
  | H : (_ =? _) = true |- _ => apply Z.eqb_eq in H
  | H : (_ =? _) = false |- _ => apply Z.eqb_neq in H
  | H : (_ <? _) = true |- _ => apply Z.ltb_lt in H
  | H : (_ <? _) = false |- _ => apply Z.ltb_ge in H
  | H : (_ <=? _) = true |- _ => apply Z.leb_le in H
  | H : (_ <=? _) = false |- _ => apply Z.leb_gt in H
  | H : bool_decide _ = true |- _ => apply bool_decide_eq_true in H
  | H : bool_decide _ = false |- _ => apply bool_decide_eq_false in H
  end.

(** ** Byte buffers

    A C buffer: its size in bytes and the byte at each offset.  A read outside
    is undefined. *)

Record cbuf := mk_cbuf { cb_len : Z; cb_at : Z -> Z }.

Definition cb_read (b : cbuf) (i : Z) : outcome Z :=
  if (0 <=? i) && (i <? cb_len b) then Ret (cb_at b i) else Ub OutOfBounds.

Definition cbuf_of_list (l : list Z) : cbuf :=
  {| cb_len := Z.of_nat (length l); cb_at i := nth (Z.to_nat i) l 0 |}.

(** Every cell holds an [unsigned char]. *)

Definition cbuf_bytes (b : cbuf) : Prop :=
  forall i, 0 <= i < cb_len b -> 0 <= cb_at b i < 256.

Definition byte (z : Z) : Prop := 0 <= z < 256.

Lemma cb_read_ok b i : 0 <= i < cb_len b -> cb_read b i = Ret (cb_at b i).
Proof.
  intros [H1 H2]. unfold cb_read.
  by rewrite (proj2 (Z.leb_le _ _) H1), (proj2 (Z.ltb_lt _ _) H2).
Qed.

Lemma cb_read_oob b i : ~ (0 <= i < cb_len b) -> cb_read b i = Ub OutOfBounds.
Proof.
  intros H. unfold cb_read.
  destruct (0 <=? i) eqn:E1, (i <? cb_len b) eqn:E2; to_prop; simpl; try done. lia.
Qed.

Lemma cb_read_list l (k : nat) x :
  l !! k = Some x -> cb_read (cbuf_of_list l) (Z.of_nat k) = Ret x.
Proof.
  intros H. pose proof (lookup_lt_Some _ _ _ H).
  rewrite cb_read_ok by (simpl; lia). simpl. rewrite Nat2Z.id.
  f_equal. by apply nth_lookup_Some.
Qed.

Ltac forall_bytes :=
  repeat (apply Forall_cons_2; [unfold byte; lia|]); apply Forall_nil_2.

(** ** Strings *)

(** [!strncmp(a, b, n)] on a buffer and a literal: equal up to the first NUL or
    [n] characters. *)

Fixpoint str_eq (a b : list Z) (n : nat) : bool :=
  match n with
  | O => true
  | S n' =>
    let ca := head a in
    let cb := head b in
    match ca, cb with
    | Some x, Some y => (x =? y) && ((x =? 0) || str_eq (tail a) (tail b) n')
    | _, _ => false
    end
  end.
