(* ===== verification/SerialCodec.v ===== *)
(** * The serial image transfer

    [web_source] sends the camera's JPEG image over the USB serial line as
    7-byte groups packed into 8 printable bytes
    ([src/sprefence/web_source/web_source_main.c], the [camera] branch of
    [main]); the host program unpacks them
    ([src/SprefenceServer/SprefenceServer/WebServer.cs], [isEnd] and the
    [/camera.jpg] branch of [Run]).  Both sides are modelled here, with the
    theorems that relate them. *)

From S2P Require Import Prelude.

Module SerialCodec.

(** ** The sender *)

(** What the sender does to the serial line. *)

Inductive ser_event :=
  | SerWrite (bs : list Z)
  | SerDrain.

(** [tmp += 32; if (tmp >= 127) tmp += 33;] on an [unsigned char] *)

Definition to_printable (tmp : Z) : Z :=
  let tmp := u8 (tmp + 32) in
  if 127 <=? tmp then u8 (tmp + 33) else tmp.

(** One turn of the inner loop: byte [j] of group [i]. *)

Definition pack_step (mem : cbuf) (yuvsize i j : Z) (st : list Z * Z) :
    outcome (list Z * Z) :=
  let '(wbuf, append) := st in
  b ← cb_read mem (i * 7 + j + yuvsize);
  Ret (<[Z.to_nat j := to_printable (Z.land 127 b)]> wbuf,
       Z.lor append (Z.shiftr (Z.land 128 b) (j + 1))).

(** The number of bytes of group [i]: [jpgLen - i * 7], at most 7. *)

Definition group_len (jpgLen i : Z) : Z :=
  let wSize := jpgLen - i * 7 in
  if 7 <? wSize then 7 else wSize.

(** Group [i]: the [wSize] bytes that are written. *)

Definition pack_group (mem : cbuf) (yuvsize jpgLen i : Z) : outcome (list Z) :=
  let wSize := group_len jpgLen i + 1 in
  '(wbuf, append) ← for_loop (Z.to_nat (wSize - 1)) 0 (pack_step mem yuvsize i)
                      (replicate 8 0, 0);
  Ret (take (Z.to_nat wSize) (<[Z.to_nat (wSize - 1) := to_printable append]> wbuf)).

(** The loop over the groups.  [i < jpgLen / 7.0] compares with a quotient of
    doubles; on the frame sizes in use it is the comparison of [7 * i] with
    [jpgLen] (the quotient is not a whole number unless 7 divides [jpgLen], and
    is then exact). *)

Fixpoint send_groups (fuel : nat) (mem : cbuf) (yuvsize jpgLen i : Z) :
    outcome (list ser_event) :=
  match fuel with
  | O => Ret []
  | S fuel' =>
      if i * 7 <? jpgLen then
        wbuf ← pack_group mem yuvsize jpgLen i;
        rest ← send_groups fuel' mem yuvsize jpgLen (i + 1);
        Ret (SerWrite wbuf ::
             (if Z.rem i 75 =? 74 then [SerDrain] else []) ++ rest)
      else Ret []
  end.

(** The trailer: [write(rwfd, "EndOfFile", 10)] sends the terminating NUL too. *)

Definition end_word : list Z := [69; 110; 100; 79; 102; 70; 105; 108; 101; 0].

Definition send_image (mem : cbuf) (yuvsize jpgLen : Z) : outcome (list ser_event) :=
  evs ← send_groups (Z.to_nat jpgLen) mem yuvsize jpgLen 0;
  Ret (evs ++ [SerWrite end_word; SerDrain]).

(** The bytes that go over the line. *)

Definition line_bytes (evs : list ser_event) : list Z :=
  concat (map (fun e => match e with SerWrite bs => bs | SerDrain => [] end) evs).

(** ** The receiver *)

(** [isEnd]: are the last ten bytes of the [size] received the end word? *)

Definition isEnd (m_buffer : cbuf) (size : Z) : outcome bool :=
  for_loop 10 0 (fun i acc =>
    if acc : bool then
      b ← cb_read m_buffer (size - 10 + i);
      Ret (b =? nth (Z.to_nat i) end_word 0)
    else Ret false) true.

(** [m_buffer[k] - 32; if (>= 127) -= 33;] in C#'s [int] *)

Definition from_printable (b : Z) : Z :=
  let d := b - 32 in if 127 <=? d then d - 33 else d.

Definition unpack_step (m_buffer : cbuf) (i a_byte j : Z) (res : list Z) :
    outcome (list Z) :=
  b ← cb_read m_buffer (8 * i + j);
  Ret (res ++ [u8 (Z.lor (from_printable b) (Z.land 128 (Z.shiftl a_byte (j + 1))))]).

Definition unpack_group (m_buffer : cbuf) (size i : Z) (res : list Z) :
    outcome (list Z) :=
  let len := size - i * 8 in
  let len := if 8 <? len then 8 else len in
  a ← cb_read m_buffer (8 * i + len - 1);
  for_loop (Z.to_nat (len - 1)) 0 (unpack_step m_buffer i (from_printable a)) res.

(** [for (int i = 0; i < (size - 10) / 8.0; i++)]: a division by a power of two
    is exact. *)

Fixpoint receive_groups (fuel : nat) (m_buffer : cbuf) (size i : Z) (res : list Z) :
    outcome (list Z) :=
  match fuel with
  | O => Ret res
  | S fuel' =>
      if i * 8 <? size - 10 then
        res ← unpack_group m_buffer size i res;
        receive_groups fuel' m_buffer size (i + 1) res
      else Ret res
  end.

Definition receive_image (m_buffer : cbuf) (size : Z) : outcome (list Z) :=
  receive_groups (Z.to_nat size) m_buffer size 0 [].

Example send_receive_7 :
  (evs ← send_image (cbuf_of_list [255; 216; 255; 224; 0; 16; 74]) 0 7;
   receive_image (cbuf_of_list (line_bytes evs)) (Z.of_nat (length (line_bytes evs))))
  = Ret [255; 216; 255; 224; 0; 16; 74].
Proof. reflexivity. Qed.


(** ** Reference definitions on lists

    A group of at most seven bytes, and the whole image group by group. *)

Fixpoint high_bits (j : Z) (bs : list Z) : Z :=
  match bs with
  | [] => 0
  | b :: bs' => Z.lor (Z.shiftr (Z.land 128 b) (j + 1)) (high_bits (j + 1) bs')
  end.

Definition packed (bs : list Z) : list Z :=
  map (fun b => to_printable (Z.land 127 b)) bs ++ [to_printable (high_bits 0 bs)].

Fixpoint packed_groups (fuel : nat) (bs : list Z) : list (list Z) :=
  match fuel, bs with
  | S fuel', _ :: _ => packed (take 7 bs) :: packed_groups fuel' (drop 7 bs)
  | _, _ => []
  end.

Definition packed_image (bs : list Z) : list Z := concat (packed_groups (length bs) bs).

(** ** Lemmas: bits and printable bytes *)

Lemma land_128 z : Z.land 128 z = if Z.testbit z 7 then 128 else 0.
Proof.
  apply Z.bits_inj'. intros n Hn. rewrite Z.land_spec.
  change 128 with (2 ^ 7). rewrite Z.pow2_bits_eqb by lia.
  destruct (7 =? n) eqn:E; to_prop; [subst n|];
    destruct (Z.testbit z 7) eqn:T; simpl; rewrite ?T; try done;
    rewrite ?Z.testbit_0_l; try done.
  change 128 with (2 ^ 7). rewrite Z.pow2_bits_eqb by lia.
  symmetry. by apply Z.eqb_neq.
Qed.

Lemma split_byte b : byte b -> Z.lor (Z.land 127 b) (Z.land 128 b) = b.
Proof.
  intros Hb. rewrite <- Z.land_lor_distr_l. change (Z.lor 127 128) with (Z.ones 8).
  rewrite Z.land_comm, Z.land_ones by lia. by apply Z.mod_small.
Qed.

Lemma land_127_range b : 0 <= Z.land 127 b < 128.
Proof.
  change 127 with (Z.ones 7). rewrite Z.land_comm, Z.land_ones by lia.
  apply Z.mod_pos_bound. lia.
Qed.

Lemma to_printable_eq v :
  0 <= v < 128 -> to_printable v = if 95 <=? v then v + 65 else v + 32.
Proof.
  intros Hv. unfold to_printable. rewrite (u8_id (v + 32)) by lia.
  destruct (127 <=? v + 32) eqn:E, (95 <=? v) eqn:E'; to_prop; try lia.
  rewrite u8_id by lia. lia.
Qed.

Lemma from_to_printable v : 0 <= v < 128 -> from_printable (to_printable v) = v.
Proof.
  intros Hv. rewrite to_printable_eq by done. unfold from_printable.
  destruct (95 <=? v) eqn:E; to_prop;
    [destruct (127 <=? v + 65 - 32) eqn:E'|destruct (127 <=? v + 32 - 32) eqn:E'];
    to_prop; lia.
Qed.

Lemma high_bits_nonneg j bs : 0 <= high_bits j bs.
Proof.
  revert j. induction bs as [|b bs IH]; intros j; simpl; [done|].
  apply Z.lor_nonneg. split; [|apply IH].
  apply Z.shiftr_nonneg. rewrite land_128. case_match; lia.
Qed.

Lemma high_bits_above j bs k :
  0 <= j -> 6 - j < k -> Z.testbit (high_bits j bs) k = false.
Proof.
  revert j. induction bs as [|b bs IH]; intros j Hj Hk; simpl.
  - apply Z.testbit_0_l.
  - rewrite Z.lor_spec, IH, orb_false_r by lia.
    destruct (Z.ltb_spec k 0); [by rewrite Z.testbit_neg_r|].
    rewrite Z.shiftr_spec, land_128 by lia.
    destruct (Z.testbit b 7); [|apply Z.testbit_0_l].
    change 128 with (2 ^ 7). apply Z.pow2_bits_false. lia.
Qed.

Lemma high_bits_lt_128 bs : 0 <= high_bits 0 bs < 128.
Proof.
  pose proof (high_bits_nonneg 0 bs). split; [done|].
  destruct (decide (high_bits 0 bs = 0)); [lia|].
  change 128 with (2 ^ 7). apply Z.log2_lt_pow2; [lia|].
  destruct (decide (Z.log2 (high_bits 0 bs) < 7)) as [|Hge]; [done|].
  pose proof (Z.bit_log2 (high_bits 0 bs) ltac:(lia)) as Hbit.
  rewrite high_bits_above in Hbit by lia. done.
Qed.

Lemma high_bits_bit m bs (i : nat) b :
  0 <= m -> bs !! i = Some b -> m + Z.of_nat i <= 6 ->
  Z.testbit (high_bits m bs) (6 - (m + Z.of_nat i)) = Z.testbit b 7.
Proof.
  revert m i. induction bs as [|c bs IH]; intros m i Hm Hi Hle; [done|].
  simpl in *. rewrite Z.lor_spec, Z.shiftr_spec, land_128 by lia.
  destruct i as [|i]; simplify_eq/=.
  - rewrite high_bits_above by lia. replace (6 - (m + Z.of_nat 0) + (m + 1)) with 7 by lia.
    rewrite orb_false_r. by destruct (Z.testbit b 7).
  - replace (6 - (m + Z.of_nat (S i))) with (6 - (m + 1 + Z.of_nat i)) by lia.
    rewrite (IH (m + 1) i) by (done || lia).
    replace (Z.testbit (if Z.testbit c 7 then 128 else 0) _) with false; [done|].
    destruct (Z.testbit c 7); [|by rewrite Z.testbit_0_l].
    change 128 with (2 ^ 7). symmetry. apply Z.pow2_bits_false. lia.
Qed.

(** The receiver puts bit 7 of byte [j] of a group back. *)

Lemma high_bit_restored bs (j : nat) b :
  bs !! j = Some b -> (j < 7)%nat ->
  Z.land 128 (Z.shiftl (high_bits 0 bs) (Z.of_nat j + 1)) = Z.land 128 b.
Proof.
  intros Hj Hlt. rewrite !land_128, Z.shiftl_spec by lia.
  replace (7 - (Z.of_nat j + 1)) with (6 - (0 + Z.of_nat j)) by lia.
  by rewrite (high_bits_bit 0 bs j b) by (done || lia).
Qed.

Lemma unpack_byte bs (j : nat) b :
  bs !! j = Some b -> (j < 7)%nat -> byte b ->
  u8 (Z.lor (from_printable (to_printable (Z.land 127 b)))
            (Z.land 128 (Z.shiftl (from_printable (to_printable (high_bits 0 bs)))
                                  (Z.of_nat j + 1)))) = b.
Proof.
  intros Hj Hlt Hb.
  rewrite !from_to_printable by (apply land_127_range || apply high_bits_lt_128).
  rewrite (high_bit_restored bs j b), split_byte by done. by apply u8_id.
Qed.

(** ** The sender's loops compute the reference definitions *)

(** [mem] holds the bytes [bs] from offset [off] on. *)

Definition holds (mem : cbuf) (off : Z) (bs : list Z) : Prop :=
  forall (k : nat) x, bs !! k = Some x -> cb_read mem (Z.of_nat k + off) = Ret x.

Lemma high_bits_snoc j bs b :
  high_bits j (bs ++ [b]) =
  Z.lor (high_bits j bs) (Z.shiftr (Z.land 128 b) (j + Z.of_nat (length bs) + 1)).
Proof.
  revert j. induction bs as [|c bs IH]; intros j; simpl.
  - rewrite Z.lor_0_r, Z.lor_0_l. do 2 f_equal. lia.
  - rewrite IH, Z.lor_assoc. do 2 f_equal. lia.
Qed.

Lemma insert_replicate_tail {A} (l : list A) (n : nat) (x y : A) :
  (0 < n)%nat ->
  <[length l := x]> (l ++ replicate n y) = (l ++ [x]) ++ replicate (n - 1) y.
Proof.
  intros Hn. rewrite insert_app_r_alt by lia. rewrite Nat.sub_diag.
  destruct n as [|n]; [lia|]. simpl. rewrite Nat.sub_0_r. by rewrite <- app_assoc.
Qed.

Lemma pack_loop_spec mem yuvsize i g :
  (length g <= 7)%nat -> holds mem (i * 7 + yuvsize) g ->
  for_loop (length g) 0 (pack_step mem yuvsize i) (replicate 8 0, 0) =
  Ret (map (fun b => to_printable (Z.land 127 b)) g ++ replicate (8 - length g) 0,
       high_bits 0 g).
Proof.
  intros Hlen Hmem.
  destruct (for_loop_inv (fun j st => exists k : nat, j = Z.of_nat k /\
      st = (map (fun b => to_printable (Z.land 127 b)) (take k g) ++ replicate (8 - k) 0,
            high_bits 0 (take k g)))
      (length g) 0 (pack_step mem yuvsize i) (replicate 8 0, 0))
    as (st & Hst & k & Hk & Heq).
  - exists 0%nat. done.
  - intros j st Hj (k & -> & ->).
    destruct (lookup_lt_is_Some_2 g k) as [b Hb]; [lia|].
    pose proof (take_S_r g k b Hb) as Htake.
    eexists. split.
    + unfold pack_step. replace (i * 7 + Z.of_nat k + yuvsize) with
        (Z.of_nat k + (i * 7 + yuvsize)) by lia.
      rewrite (Hmem k b Hb). simpl. reflexivity.
    + exists (S k). split; [lia|]. rewrite Htake, map_app, high_bits_snoc, Nat2Z.id.
      simpl. rewrite length_take_le, Z.add_0_l by lia. f_equal.
      replace k with (length (map (fun b => to_printable (Z.land 127 b)) (take k g))) at 1
        by (rewrite length_map, length_take_le; lia).
      rewrite insert_replicate_tail by lia. do 2 f_equal. lia.
  - rewrite Hst. f_equal. subst st. replace k with (length g) by lia.
    by rewrite firstn_all.
Qed.

Lemma pack_group_spec mem yuvsize bs i :
  0 <= i -> i * 7 < Z.of_nat (length bs) -> holds mem yuvsize bs ->
  pack_group mem yuvsize (Z.of_nat (length bs)) i =
  Ret (packed (take 7 (drop (Z.to_nat (i * 7)) bs))).
Proof.
  intros Hi Hlt Hmem. set (g := take 7 (drop (Z.to_nat (i * 7)) bs)).
  assert (Hg : Z.of_nat (length g) = group_len (Z.of_nat (length bs)) i).
  { unfold g, group_len. rewrite length_take, length_drop. case_match; to_prop; lia. }
  assert (Hg7 : (length g <= 7)%nat) by (unfold g; rewrite length_take; lia).
  unfold pack_group. rewrite <- Hg.
  replace (Z.to_nat (Z.of_nat (length g) + 1 - 1)) with (length g) by lia.
  rewrite pack_loop_spec; [|done|].
  - simpl. f_equal. unfold packed.
    set (m := map _ g). assert (Hm : length m = length g) by apply length_map.
    rewrite <- Hm, insert_replicate_tail by lia.
    replace (Z.to_nat (Z.of_nat (length m) + 1)) with (length (m ++ [to_printable (high_bits 0 g)]))
      by (rewrite length_app; simpl; lia).
    by rewrite take_app_length.
  - intros k x Hk. unfold g in Hk. apply lookup_take_Some in Hk as [Hk _].
    rewrite lookup_drop in Hk. rewrite <- (Hmem _ _ Hk). f_equal. lia.
Qed.

Lemma send_groups_spec fuel mem yuvsize bs i :
  holds mem yuvsize bs -> 0 <= i ->
  exists evs, send_groups fuel mem yuvsize (Z.of_nat (length bs)) i = Ret evs /\
    line_bytes evs = concat (packed_groups fuel (drop (Z.to_nat (i * 7)) bs)).
Proof.
  intros Hmem. revert i. induction fuel as [|fuel IH]; intros i Hi; simpl.
  { by exists []. }
  destruct (i * 7 <? Z.of_nat (length bs)) eqn:E; to_prop.
  - rewrite pack_group_spec by done.
    destruct (IH (i + 1) ltac:(lia)) as (evs & Hev & Hline). rewrite Hev. simpl.
    eexists. split; [reflexivity|].
    destruct (drop (Z.to_nat (i * 7)) bs) as [|b l] eqn:Ed.
    { apply (f_equal length) in Ed. rewrite length_drop in Ed. simpl in Ed. lia. }
    rewrite <- Ed. unfold line_bytes in *. simpl. f_equal.
    rewrite map_app, concat_app, Hline, drop_drop. simpl.
    replace (concat _) with (@nil Z) at 1 by (by case_match). simpl.
    do 2 f_equal. f_equal. lia.
  - exists []. split; [done|]. rewrite drop_ge by lia. by destruct fuel.
Qed.

Lemma send_image_spec mem yuvsize bs :
  holds mem yuvsize bs ->
  exists evs, send_image mem yuvsize (Z.of_nat (length bs)) = Ret evs /\
    line_bytes evs = packed_image bs ++ end_word.
Proof.
  intros Hmem. unfold send_image.
  destruct (send_groups_spec (Z.to_nat (Z.of_nat (length bs))) mem yuvsize bs 0 Hmem)
    as (evs & Hev & Hline); [lia|].
  rewrite Hev. simpl. eexists. split; [reflexivity|].
  unfold line_bytes in *. rewrite map_app, concat_app, Hline.
  unfold packed_image. rewrite Nat2Z.id. simpl. done.
Qed.

(** ** The receiver's loops on a packed stream *)

Lemma length_packed g : length (packed g) = S (length g).
Proof. unfold packed. rewrite length_app, length_map. simpl. lia. Qed.

Lemma packed_lookup g (k : nat) b :
  g !! k = Some b -> packed g !! k = Some (to_printable (Z.land 127 b)).
Proof.
  intros H. unfold packed. rewrite lookup_app_l.
  - rewrite list_lookup_fmap, H. done.
  - rewrite length_map. by eapply lookup_lt_Some.
Qed.

Lemma packed_last g : packed g !! length g = Some (to_printable (high_bits 0 g)).
Proof.
  unfold packed. rewrite lookup_app_r, length_map, Nat.sub_diag; [done|].
  by rewrite length_map.
Qed.

(** [m] holds [s] at the front, the receive buffer may be longer. *)

Lemma holds_app m off s1 s2 :
  holds m off (s1 ++ s2) ->
  holds m off s1 /\ holds m (Z.of_nat (length s1) + off) s2.
Proof.
  intros H. split; intros k x Hk.
  - apply H. rewrite lookup_app_l; [done|]. by eapply lookup_lt_Some.
  - replace (Z.of_nat k + (Z.of_nat (length s1) + off)) with
      (Z.of_nat (length s1 + k) + off) by lia.
    apply H. rewrite lookup_app_r by lia. by replace (length s1 + k - length s1)%nat with k by lia.
Qed.

Lemma unpack_full_group m size i g res :
  length g = 7%nat -> Forall byte g -> 0 <= i ->
  8 * i + 8 <= size -> holds m (8 * i) (packed g) ->
  unpack_group m size i res = Ret (res ++ g).
Proof.
  intros Hlen Hbytes Hi Hsize Hm. unfold unpack_group.
  replace (if 8 <? size - i * 8 then 8 else size - i * 8) with 8
    by (case_match; to_prop; lia).
  pose proof (Hm _ _ (packed_last g)) as Ha. rewrite Hlen in Ha.
  replace (8 * i + 8 - 1) with (Z.of_nat 7 + 8 * i) by lia. rewrite Ha. cbn [mbind outcome_bind].
  destruct (for_loop_inv (fun j r => exists k : nat, j = Z.of_nat k /\ r = res ++ take k g)
      7 0 (unpack_step m i (from_printable (to_printable (high_bits 0 g)))) res)
    as (r & Hr & k & Hk & ->).
  - exists 0%nat. split; [done|]. by rewrite app_nil_r.
  - intros j r Hj (k & -> & ->).
    destruct (lookup_lt_is_Some_2 g k) as [b Hb]; [lia|].
    eexists. split.
    + unfold unpack_step. replace (8 * i + Z.of_nat k) with (Z.of_nat k + 8 * i) by lia.
      rewrite (Hm _ _ (packed_lookup g k b Hb)). simpl.
      rewrite (unpack_byte g k b Hb) by (lia || (eapply Forall_lookup_1; eauto)). reflexivity.
    + exists (S k). split; [lia|]. by rewrite (take_S_r g k b Hb), app_assoc.
  - change (Z.to_nat (8 - 1)) with 7%nat. rewrite Hr. f_equal. f_equal.
    replace k with (length g) by lia. by rewrite firstn_all.
Qed.

Lemma receive_full_groups gs fuel m size i post res :
  Forall (fun g => length g = 7%nat /\ Forall byte g) gs -> 0 <= i ->
  holds m (8 * i) (concat (map packed gs) ++ post) ->
  8 * i + 8 * Z.of_nat (length gs) + 10 <= size ->
  receive_groups (length gs + fuel) m size i res =
  receive_groups fuel m size (i + Z.of_nat (length gs)) (res ++ concat gs).
Proof.
  revert i res. induction gs as [|g gs IH]; intros i res Hgs Hi Hm Hsize; simpl.
  { rewrite app_nil_r. by rewrite Z.add_0_r. }
  inversion_clear Hgs as [|? ? [Hg Hb] Hgs'].
  simpl in Hsize, Hm. rewrite <- app_assoc in Hm.
  apply holds_app in Hm as [Hmg Hmr].
  destruct (i * 8 <? size - 10) eqn:E; to_prop; [|lia].
  rewrite (unpack_full_group m size i g res) by (done || lia). simpl.
  rewrite IH; [|done|lia| |lia].
  - rewrite app_assoc. f_equal. lia.
  - replace (8 * (i + 1)) with (Z.of_nat (length (packed g)) + 8 * i)
      by (rewrite length_packed; lia). done.
Qed.

(** Any group inside the received bytes yields seven bytes. *)

Lemma unpack_group_length m size i res :
  0 <= i -> 8 * i + 8 <= size -> size <= cb_len m ->
  exists t, unpack_group m size i res = Ret (res ++ t) /\ length t = 7%nat.
Proof.
  intros Hi Hs Hm. unfold unpack_group.
  replace (if 8 <? size - i * 8 then 8 else size - i * 8) with 8
    by (case_match; to_prop; lia).
  rewrite cb_read_ok by lia. cbn [mbind outcome_bind]. set (a := from_printable _).
  destruct (for_loop_inv (fun j r => exists t, r = res ++ t /\ Z.of_nat (length t) = j)
      7 0 (unpack_step m i a) res) as (r & Hr & t & -> & Ht).
  - exists []. by rewrite app_nil_r.
  - intros j r Hj (t & -> & Ht). eexists. split.
    + unfold unpack_step. rewrite cb_read_ok by lia. simpl. reflexivity.
    + eexists. rewrite <- app_assoc. split; [reflexivity|]. rewrite length_app. simpl. lia.
  - exists t. split; [exact Hr|lia].
Qed.

(** Splitting an image into its full groups and the rest. *)

Lemma groups_of bs :
  Forall byte bs ->
  exists gs r, bs = concat gs ++ r /\ (length r < 7)%nat /\
    Forall (fun g => length g = 7%nat /\ Forall byte g) gs /\
    packed_image bs = concat (map packed gs) ++ (if r is [] then [] else packed r).
Proof.
  intros Hb. unfold packed_image.
  enough (forall fuel bs, (length bs <= fuel)%nat -> Forall byte bs ->
    exists gs r, bs = concat gs ++ r /\ (length r < 7)%nat /\
      Forall (fun g => length g = 7%nat /\ Forall byte g) gs /\
      concat (packed_groups fuel bs) =
      concat (map packed gs) ++ (if r is [] then [] else packed r)) as H by (by apply H).
  clear. induction fuel as [|fuel IH]; intros bs Hlen Hb.
  { destruct bs; [|simpl in Hlen; lia]. exists [], []. simpl. repeat split; try done. lia. }
  destruct (decide (length bs < 7)%nat) as [Hlt|Hge].
  - exists [], bs. split; [done|]. split; [done|]. split; [done|]. simpl.
    destruct bs as [|b bs']; [done|]. rewrite take_ge, drop_ge by lia. simpl.
    destruct fuel; simpl; by rewrite app_nil_r.
  - destruct (IH (drop 7 bs)) as (gs & r & Heq & Hr & Hgs & Hpk).
    + rewrite length_drop. lia.
    + by apply Forall_drop.
    + exists (take 7 bs :: gs), r. simpl. rewrite <- app_assoc, <- Heq, take_drop.
      split; [done|]. split; [done|]. split.
      * constructor; [|done]. rewrite length_take_le by lia. split; [done|]. by apply Forall_take.
      * destruct bs as [|b bs']; [simpl in Hge; lia|]. rewrite <- app_assoc, <- Hpk. done.
Qed.

Lemma length_concat_7 (gs : list (list Z)) :
  Forall (fun g => length g = 7%nat /\ Forall byte g) gs ->
  length (concat gs) = (7 * length gs)%nat /\
  length (concat (map packed gs)) = (8 * length gs)%nat.
Proof.
  induction 1 as [|g gs [Hg _] _ [IH1 IH2]]; simpl; [done|].
  rewrite !length_app, length_packed. lia.
Qed.

(** What the receiver makes of a packed image: the full groups as sent, then
    seven bytes for a last group of fewer than seven. *)

Lemma receive_spec m bs :
  Forall byte bs -> holds m 0 (packed_image bs ++ end_word) ->
  Z.of_nat (length (packed_image bs ++ end_word)) <= cb_len m ->
  exists gs r t, bs = concat gs ++ r /\ (length r < 7)%nat /\
    length (concat gs) = (7 * length gs)%nat /\
    receive_image m (Z.of_nat (length (packed_image bs ++ end_word))) = Ret (concat gs ++ t) /\
    length t = (if r is [] then 0 else 7)%nat.
Proof.
  intros Hb Hm Hlen. destruct (groups_of bs Hb) as (gs & r & Heq & Hr & Hgs & Hpk).
  destruct (length_concat_7 gs Hgs) as [Hl7 Hl8].
  set (sz := length (packed_image bs ++ end_word)) in *.
  assert (Hsz : sz = (8 * length gs + (if r is [] then 0 else S (length r)) + 10)%nat).
  { unfold sz. rewrite Hpk, !length_app, Hl8. simpl.
    destruct r; [|rewrite length_packed]; simpl; lia. }
  rewrite Hpk, <- app_assoc in Hm.
  assert (Hfuel : exists k, sz = (length gs + S (S k))%nat)
    by (exists (sz - length gs - 2)%nat; lia).
  destruct Hfuel as [k Hk].
  assert (Hrun : receive_image m (Z.of_nat sz) =
    receive_groups (S (S k)) m (Z.of_nat sz) (Z.of_nat (length gs)) (concat gs)).
  { unfold receive_image. rewrite Nat2Z.id.
    transitivity (receive_groups (length gs + S (S k)) m (Z.of_nat sz) 0 []).
    - by rewrite <- Hk.
    - by rewrite (receive_full_groups gs _ m (Z.of_nat sz) 0 _ [] Hgs ltac:(lia) Hm) by lia. }
  rewrite Hrun.
  exists gs, r. destruct r as [|r0 r'].
  - exists []. repeat split; try done. cbn [receive_groups].
    destruct (Z.of_nat (length gs) * 8 <? Z.of_nat sz - 10) eqn:E; to_prop; [lia|].
    by rewrite app_nil_r.
  - destruct (unpack_group_length m (Z.of_nat sz) (Z.of_nat (length gs)) (concat gs))
      as (t & Ht & Htl); [lia| |lia|].
    { simpl in Hsz. lia. }
    exists t. repeat split; try done. cbn [receive_groups].
    destruct (Z.of_nat (length gs) * 8 <? Z.of_nat sz - 10) eqn:E; to_prop;
      [|simpl in Hsz; lia].
    rewrite Ht. simpl.
    destruct ((Z.of_nat (length gs) + 1) * 8 <? Z.of_nat sz - 10) eqn:E'; to_prop; [|done].
    simpl in Hsz, Hr. lia.
Qed.

(** ** The bytes on the line *)

Definition printable (b : Z) : Prop := 32 <= b <= 126 \/ 160 <= b <= 192.

Lemma to_printable_printable v : 0 <= v < 128 -> printable (to_printable v).
Proof.
  intros Hv. rewrite to_printable_eq by done. unfold printable.
  case_match; to_prop; lia.
Qed.

Lemma packed_printable g : Forall printable (packed g).
Proof.
  unfold packed. apply Forall_app. split.
  - apply Forall_fmap, Forall_forall. intros b _. simpl.
    apply to_printable_printable, land_127_range.
  - apply Forall_singleton, to_printable_printable, high_bits_lt_128.
Qed.

Lemma packed_image_printable bs : Forall printable (packed_image bs).
Proof.
  unfold packed_image. generalize (length bs) as fuel. intros fuel. revert bs.
  induction fuel as [|fuel IH]; intros [|b bs]; try apply Forall_nil_2.
  cbn [packed_groups concat]. apply Forall_app. split; [apply packed_printable|apply IH].
Qed.

Lemma isEnd_spec m size :
  10 <= size <= cb_len m ->
  exists r, isEnd m size = Ret r /\
    (r = true <-> forall k, 0 <= k < 10 ->
       cb_at m (size - 10 + k) = nth (Z.to_nat k) end_word 0).
Proof.
  intros Hs. unfold isEnd.
  match goal with |- context [for_loop 10 0 ?f true] => set (body := f) end.
  destruct (for_loop_inv (fun j (acc : bool) => acc = true <-> forall k, 0 <= k < j ->
       cb_at m (size - 10 + k) = nth (Z.to_nat k) end_word 0) 10 0 body true)
    as (r & Hr & HP).
  - split; [intros; lia|done].
  - intros j acc Hj Hacc. unfold body. destruct acc.
    + rewrite cb_read_ok by lia. eexists. split; [reflexivity|].
      rewrite Z.eqb_eq. split.
      * intros Heq k Hk. destruct (decide (k = j)) as [->|]; [done|].
        apply Hacc; [done|lia].
      * intros Hall. apply Hall. lia.
    + eexists. split; [reflexivity|]. split; [done|].
      intros Hall. apply Hacc. intros k Hk. apply Hall. lia.
  - eauto.
Qed.

(** What the host makes of an image: its full groups, and seven bytes for a last
    group of fewer; of an image of whole groups exactly the image. *)

Definition decoded (bs out : list Z) : Prop :=
  take (7 * (length bs / 7)) out = take (7 * (length bs / 7)) bs /\
  Z.of_nat (length out) = 7 * ((Z.of_nat (length bs) + 6) / 7) /\
  (Z.of_nat (length bs) mod 7 = 0 -> out = bs).

Lemma receive_any m bs :
  Forall byte bs -> holds m 0 (packed_image bs ++ end_word) ->
  Z.of_nat (length (packed_image bs ++ end_word)) <= cb_len m ->
  exists out, receive_image m (Z.of_nat (length (packed_image bs ++ end_word))) = Ret out /\
    take (7 * (length bs / 7)) out = take (7 * (length bs / 7)) bs /\
    Z.of_nat (length out) = 7 * ((Z.of_nat (length bs) + 6) / 7).
Proof.
  intros Hbytes Hm Hlen.
  destruct (receive_spec m bs Hbytes Hm Hlen) as (gs & r & t & Heq & Hr & Hl & -> & Ht).
  exists (concat gs ++ t). split; [done|].
  assert (Hq : (length bs / 7 = length gs)%nat).
  { rewrite Heq, length_app, Hl, (Nat.mul_comm 7), Nat.div_add_l, Nat.div_small by lia. lia. }
  rewrite Hq, <- Hl, Heq, !take_app_length. split; [done|].
  rewrite !length_app, Ht, Hl. destruct r as [|x r'].
  - replace (Z.of_nat (7 * length gs + length []) + 6) with (6 + Z.of_nat (length gs) * 7)
      by (simpl; lia).
    rewrite Z.div_add by lia. change (6 / 7) with 0. lia.
  - replace (Z.of_nat (7 * length gs + length (x :: r')) + 6)
      with (Z.of_nat (length r') + (Z.of_nat (length gs) + 1) * 7) by (simpl; lia).
    rewrite Z.div_add, Z.div_small by (simpl in Hr; lia). lia.
Qed.

(** An image of whole groups is decoded exactly. *)

Lemma receive_exact m bs :
  Forall byte bs -> Z.of_nat (length bs) mod 7 = 0 ->
  holds m 0 (packed_image bs ++ end_word) ->
  Z.of_nat (length (packed_image bs ++ end_word)) <= cb_len m ->
  receive_image m (Z.of_nat (length (packed_image bs ++ end_word))) = Ret bs.
Proof.
  intros Hbytes Hseven Hm Hlen.
  destruct (receive_spec m bs Hbytes Hm Hlen) as (gs & r & t & Heq & Hr & Hl & -> & Ht).
  assert (r = []) as ->.
  { rewrite Heq, length_app, Hl in Hseven. destruct r as [|x r']; [done|].
    exfalso. replace (Z.of_nat (7 * length gs + length (x :: r')))
      with (Z.of_nat (length (x :: r')) + Z.of_nat (length gs) * 7) in Hseven by lia.
    rewrite Z.mod_add, Z.mod_small in Hseven by (simpl in *; lia). simpl in Hseven. lia. }
  destruct t; [|done]. by rewrite Heq.
Qed.

Lemma receive_decoded m bs :
  Forall byte bs -> holds m 0 (packed_image bs ++ end_word) ->
  Z.of_nat (length (packed_image bs ++ end_word)) <= cb_len m ->
  exists out, receive_image m (Z.of_nat (length (packed_image bs ++ end_word))) = Ret out /\ decoded bs out.
Proof.
  intros Hb Hm Hl. destruct (receive_any m bs Hb Hm Hl) as (out & E & H1 & H2). exists out.
  split; [done|]. split_and!; [done|done|]. intros H7. rewrite (receive_exact m bs) in E by done. by injection E.
Qed.

(** ** The theorems *)

(** C5: An image whose length is a multiple of seven arrives exactly as it was
    sent: the sender always finishes, and the receiver run on the bytes of the
    line (in whatever larger buffer) returns the image. *)
Theorem transfer_roundtrip mem yuvsize bs
    (Hbytes : Forall byte bs) (Hseven : Z.of_nat (length bs) mod 7 = 0)
    (Hmem : holds mem yuvsize bs) :
  exists evs, send_image mem yuvsize (Z.of_nat (length bs)) = Ret evs /\
    forall m_buffer, holds m_buffer 0 (line_bytes evs) ->
      Z.of_nat (length (line_bytes evs)) <= cb_len m_buffer ->
      receive_image m_buffer (Z.of_nat (length (line_bytes evs))) = Ret bs.
Proof.
  destruct (send_image_spec mem yuvsize bs Hmem) as (evs & Hev & Hline).
  exists evs. split; [done|]. intros m Hm Hlen. rewrite Hline in *. by apply receive_exact.
Qed.

(** Whatever the length [n], the receiver returns the first
    [7 * (n / 7)] bytes as sent; but it returns a whole number of groups of
    seven, so an image whose length is not a multiple of seven comes back
    longer than it was. *)
Theorem transfer_padding mem yuvsize bs
    (Hbytes : Forall byte bs) (Hmem : holds mem yuvsize bs) :
  exists evs, send_image mem yuvsize (Z.of_nat (length bs)) = Ret evs /\
    forall m_buffer, holds m_buffer 0 (line_bytes evs) ->
      Z.of_nat (length (line_bytes evs)) <= cb_len m_buffer ->
      exists out,
        receive_image m_buffer (Z.of_nat (length (line_bytes evs))) = Ret out /\
        take (7 * (length bs / 7)) out = take (7 * (length bs / 7)) bs /\
        Z.of_nat (length out) = 7 * ((Z.of_nat (length bs) + 6) / 7).
Proof.
  destruct (send_image_spec mem yuvsize bs Hmem) as (evs & Hev & Hline).
  exists evs. split; [done|]. intros m Hm Hlen. rewrite Hline in *.
  destruct (receive_any m bs Hbytes Hm Hlen) as (out & Hout & Hd & Hl). by exists out.
Qed.

(** The end of the transfer is recognised exactly when all of it has
    arrived: on every prefix of at least ten bytes of what the sender puts on
    the line, [isEnd] answers, and answers yes only for the whole. *)
Theorem isEnd_framing mem yuvsize bs evs m_buffer (size : Z)
    (Hmem : holds mem yuvsize bs)
    (Hev : send_image mem yuvsize (Z.of_nat (length bs)) = Ret evs)
    (Hbuf : holds m_buffer 0 (line_bytes evs))
    (Hcap : Z.of_nat (length (line_bytes evs)) <= cb_len m_buffer)
    (Hsize : 10 <= size <= Z.of_nat (length (line_bytes evs))) :
  isEnd m_buffer size = Ret (size =? Z.of_nat (length (line_bytes evs))).
Proof.
  destruct (send_image_spec mem yuvsize bs Hmem) as (evs' & Hev' & Hline).
  rewrite Hev in Hev'. simplify_eq. rewrite Hline in *.
  destruct (isEnd_spec m_buffer size ltac:(lia)) as (r & -> & Hr). f_equal.
  assert (Hat : forall k x, (packed_image bs ++ end_word) !! k = Some x ->
                cb_at m_buffer (Z.of_nat k) = x).
  { intros k x Hk. pose proof (lookup_lt_Some _ _ _ Hk). specialize (Hbuf k x Hk).
    rewrite Z.add_0_r, cb_read_ok in Hbuf by lia. by injection Hbuf. }
  rewrite length_app in *. simpl length in *.
  destruct (Z.eqb_spec size (Z.of_nat (length (packed_image bs) + 10))) as [->|Hne].
  - apply Hr. intros k Hk.
    replace (_ - 10 + k) with (Z.of_nat (length (packed_image bs) + Z.to_nat k)) by lia.
    apply Hat. rewrite lookup_app_r by lia.
    replace (length (packed_image bs) + Z.to_nat k - length (packed_image bs))%nat
      with (Z.to_nat k) by lia.
    destruct (nth_lookup_or_length end_word (Z.to_nat k) 0) as [|Hle]; [done|].
    simpl in Hle. lia.
  - apply not_true_is_false. intros Htrue. rewrite Hr in Htrue.
    specialize (Htrue 9 ltac:(lia)). change (nth _ _ _) with 0 in Htrue.
    destruct (lookup_lt_is_Some_2 (packed_image bs ++ end_word) (Z.to_nat (size - 1)))
      as [x Hx]; [rewrite length_app; simpl; lia|].
    pose proof (Hat _ _ Hx) as Hcell.
    replace (Z.of_nat (Z.to_nat (size - 1))) with (size - 10 + 9) in Hcell by lia.
    rewrite Htrue in Hcell. subst x.
    apply lookup_app_Some in Hx as [Hx|[Hge Hx]].
    + pose proof (Forall_lookup_1 _ _ _ _ (packed_image_printable bs) Hx) as Hp.
      unfold printable in Hp. lia.
    + assert (Hb : (Z.to_nat (size - 1) - length (packed_image bs) < 9)%nat) by lia.
      revert Hx Hb. generalize (Z.to_nat (size - 1) - length (packed_image bs))%nat.
      intros n Hx Hn. do 9 (destruct n as [|n]; [done|]). lia.
Qed.

(** Fourteen bytes sent from offset 4 of a buffer. *)

Definition sample_image : list Z := [255; 216; 255; 224; 0; 16; 74; 70; 73; 70; 0; 1; 255; 217].
Definition sample_mem : cbuf := cbuf_of_list ([1; 2; 3; 4] ++ sample_image).

Lemma sample_holds : holds sample_mem 4 sample_image.
Proof.
  intros k x Hk. unfold sample_mem.
  replace (Z.of_nat k + 4) with (Z.of_nat (4 + k)) by lia. by apply cb_read_list.
Qed.

Lemma transfer_roundtrip_witness :
  exists evs, send_image sample_mem 4 14 = Ret evs /\
    receive_image (cbuf_of_list (line_bytes evs)) 26 = Ret sample_image.
Proof.
  destruct (transfer_roundtrip sample_mem 4 sample_image) as (evs & Hev & Hrec).
  - forall_bytes.
  - reflexivity.
  - apply sample_holds.
  - exists evs. split; [exact Hev|].
    assert (Hl : length (line_bytes evs) = 26%nat)
      by (vm_compute in Hev; injection Hev as <-; reflexivity).
    rewrite Hl in Hrec. apply Hrec.
    + intros k x Hk. rewrite Z.add_0_r. by apply cb_read_list.
    + simpl. lia.
Defined.

Lemma transfer_padding_witness :
  exists evs, send_image (cbuf_of_list [128]) 0 1 = Ret evs /\
    exists out, receive_image (cbuf_of_list (line_bytes evs)) 12 = Ret out /\
      Z.of_nat (length out) = 7.
Proof.
  destruct (transfer_padding (cbuf_of_list [128]) 0 [128]) as (evs & Hev & Hrec).
  - forall_bytes.
  - intros k x Hk. rewrite Z.add_0_r. by apply cb_read_list.
  - exists evs. split; [exact Hev|].
    assert (Hl : length (line_bytes evs) = 12%nat)
      by (vm_compute in Hev; injection Hev as <-; reflexivity).
    rewrite Hl in Hrec.
    destruct (Hrec (cbuf_of_list (line_bytes evs))) as (out & Hout & _ & Hlen).
    + intros k x Hk. rewrite Z.add_0_r. by apply cb_read_list.
    + simpl. lia.
    + exists out. split; [exact Hout|]. exact Hlen.
Defined.

Lemma isEnd_framing_witness :
  exists evs, send_image sample_mem 4 14 = Ret evs /\
    isEnd (cbuf_of_list (line_bytes evs)) 20 = Ret false.
Proof.
  destruct (send_image sample_mem 4 14) as [evs| |] eqn:Hev; [|done|done].
  exists evs. split; [reflexivity|].
  assert (Hl : length (line_bytes evs) = 26%nat)
    by (vm_compute in Hev; injection Hev as <-; reflexivity).
  rewrite (isEnd_framing sample_mem 4 sample_image evs (cbuf_of_list (line_bytes evs)) 20).
  - by rewrite Hl.
  - apply sample_holds.
  - exact Hev.
  - intros k x Hk. rewrite Z.add_0_r. by apply cb_read_list.
  - simpl. lia.
  - rewrite Hl. lia.
Defined.

End SerialCodec.
