(* ===== verification/FrameBuff.v ===== *)
(** * The frame buffer chains of the video driver

    [src/spresense/nuttx/drivers/video/video_framebuff.c]: containers obtained
    from the kernel heap, kept in a chain of free containers and in a queue
    that is a ring or a FIFO.  The definitions work on pointers the way the C
    code does; the refinement lemmas relate them to a queue of captured and
    vacant containers. *)

From S2P Require Import Prelude.

Module FrameBuff.

(** ** Data *)

Record v4l2_timecode := {
  tc_type : Z; tc_flags : Z; tc_frames : Z; tc_seconds : Z;
  tc_minutes : Z; tc_hours : Z; tc_userbits : Z * Z * Z * Z
}.

Record v4l2_buffer := mk_buffer {
  b_index : Z;
  b_type : Z;
  b_bytesused : Z;
  b_flags : Z;
  b_field : Z;
  b_timecode : v4l2_timecode;
  b_sequence : Z;
  b_memory : Z;
  b_userptr : Z;
  b_length : Z
}.

Definition zero_timecode : v4l2_timecode := {|
  tc_type := 0; tc_flags := 0; tc_frames := 0; tc_seconds := 0;
  tc_minutes := 0; tc_hours := 0; tc_userbits := (0, 0, 0, 0) |}.

Definition zero_buffer : v4l2_buffer := {|
  b_index := 0; b_type := 0; b_bytesused := 0; b_flags := 0; b_field := 0;
  b_timecode := zero_timecode; b_sequence := 0; b_memory := 0; b_userptr := 0;
  b_length := 0 |}.

(** [enum v4l2_buf_mode] *)

Definition V4L2_BUF_MODE_RING : Z := 0.
Definition V4L2_BUF_MODE_FIFO : Z := 1.
Definition V4L2_REQBUFS_COUNT_MAX : Z := 256.

(** A pointer to a container: the [kmm_malloc] block it lies in and its index
    there; [None] is [NULL]. *)

Definition vptr : Type := nat * nat.

Record vbuf_container := mk_container {
  c_buf : v4l2_buffer;
  c_next : option vptr
}.

(** [struct video_framebuff_s], and the memory it owns: the cells of the live
    blocks, and the number of blocks obtained so far (a block number is never
    used twice, so a pointer into a freed block dangles for ever). *)

Record video_framebuff := mk_framebuff {
  mode : Z;
  lock_empty : Z;
  container_size : Z;
  vbuf_alloced : option vptr;
  vbuf_empty : option vptr;
  vbuf_top : option vptr;
  vbuf_tail : option vptr;
  vbuf_curr : option vptr;
  vbuf_next : option vptr;
  cells : gmap vptr vbuf_container;
  nblocks : nat
}.

(** Field updates. *)

Definition set_mode v f := mk_framebuff v (lock_empty f) (container_size f) (vbuf_alloced f)
  (vbuf_empty f) (vbuf_top f) (vbuf_tail f) (vbuf_curr f) (vbuf_next f) (cells f) (nblocks f).
Definition set_lock_empty v f := mk_framebuff (mode f) v (container_size f) (vbuf_alloced f)
  (vbuf_empty f) (vbuf_top f) (vbuf_tail f) (vbuf_curr f) (vbuf_next f) (cells f) (nblocks f).
Definition set_container_size v f := mk_framebuff (mode f) (lock_empty f) v (vbuf_alloced f)
  (vbuf_empty f) (vbuf_top f) (vbuf_tail f) (vbuf_curr f) (vbuf_next f) (cells f) (nblocks f).
Definition set_alloced v f := mk_framebuff (mode f) (lock_empty f) (container_size f) v
  (vbuf_empty f) (vbuf_top f) (vbuf_tail f) (vbuf_curr f) (vbuf_next f) (cells f) (nblocks f).
Definition set_empty v f := mk_framebuff (mode f) (lock_empty f) (container_size f)
  (vbuf_alloced f) v (vbuf_top f) (vbuf_tail f) (vbuf_curr f) (vbuf_next f) (cells f) (nblocks f).
Definition set_top v f := mk_framebuff (mode f) (lock_empty f) (container_size f)
  (vbuf_alloced f) (vbuf_empty f) v (vbuf_tail f) (vbuf_curr f) (vbuf_next f) (cells f) (nblocks f).
Definition set_tail v f := mk_framebuff (mode f) (lock_empty f) (container_size f)
  (vbuf_alloced f) (vbuf_empty f) (vbuf_top f) v (vbuf_curr f) (vbuf_next f) (cells f) (nblocks f).
Definition set_curr v f := mk_framebuff (mode f) (lock_empty f) (container_size f)
  (vbuf_alloced f) (vbuf_empty f) (vbuf_top f) (vbuf_tail f) v (vbuf_next f) (cells f) (nblocks f).
Definition set_next v f := mk_framebuff (mode f) (lock_empty f) (container_size f)
  (vbuf_alloced f) (vbuf_empty f) (vbuf_top f) (vbuf_tail f) (vbuf_curr f) v (cells f) (nblocks f).
Definition set_cells v f := mk_framebuff (mode f) (lock_empty f) (container_size f)
  (vbuf_alloced f) (vbuf_empty f) (vbuf_top f) (vbuf_tail f) (vbuf_curr f) (vbuf_next f) v (nblocks f).
Definition set_nblocks v f := mk_framebuff (mode f) (lock_empty f) (container_size f)
  (vbuf_alloced f) (vbuf_empty f) (vbuf_top f) (vbuf_tail f) (vbuf_curr f) (vbuf_next f) (cells f) v.

(** A zeroed structure ([memset]) that owns no memory. *)

Definition zero_framebuff : video_framebuff :=
  mk_framebuff 0 0 0 None None None None None None ∅ 0.

Abbreviation FB A := (M video_framebuff A).

(** ** Memory accesses *)

Definition deref (p : option vptr) : FB vptr :=
  match p with
  | None => ub NullDeref
  | Some a => fun f => if cells f !! a is Some _ then Ret (a, f) else Ub DanglingDeref
  end.

(** [p->next] *)

Definition load_next (p : option vptr) : FB (option vptr) :=
  a ← deref p;
  f ← get;
  match cells f !! a with
  | Some c => mret (c_next c)
  | None => ub DanglingDeref
  end.

(** [p->next = v] *)

Definition store_next (p v : option vptr) : FB unit :=
  a ← deref p;
  modify (fun f => set_cells (alter (fun c => mk_container (c_buf c) v) a (cells f)) f).

(** [p->buf], and an assignment to it *)

Definition load_buf (p : option vptr) : FB v4l2_buffer :=
  a ← deref p;
  f ← get;
  match cells f !! a with
  | Some c => mret (c_buf c)
  | None => ub DanglingDeref
  end.

Definition store_buf (p : option vptr) (b : v4l2_buffer) : FB unit :=
  a ← deref p;
  modify (fun f => set_cells (alter (fun c => mk_container b (c_next c)) a (cells f)) f).

(** [sizeof(vbuf_container_t) * n] bytes from the kernel heap: a new block of
    [n] cells whose content is unspecified (here: a fixed pattern that is not
    zero).  [ok] says whether the heap has room. *)

Definition indet_container : vbuf_container :=
  mk_container (mk_buffer 43690 43690 2863311530 43690 43690 zero_timecode 43690 43690
    2863311530 2863311530) (Some (0%nat, 0%nat)).

Fixpoint block_cells (b : nat) (n : nat) (c : vbuf_container)
    (m : gmap vptr vbuf_container) : gmap vptr vbuf_container :=
  match n with
  | O => m
  | S n' => <[(b, n') := c]> (block_cells b n' c m)
  end.

Definition kmm_malloc (ok : bool) (n : Z) : FB (option vptr) :=
  if ok then
    f ← get;
    let b := nblocks f in
    put (set_nblocks (S b)
          (set_cells (block_cells b (Z.to_nat n) indet_container (cells f)) f));;
    mret (Some (b, 0%nat))
  else mret None.

Definition kmm_free (p : option vptr) : FB unit :=
  '(b, _) ← deref p;
  modify (fun f => set_cells (filter (fun kv => kv.1.1 <> b) (cells f)) f).

(** ** Private functions *)

(** The chaining loop of [init_buf_chain]: [tmp->next = &tmp[1]; tmp++;] *)

Fixpoint chain_loop (n : nat) (tmp : option vptr) : FB unit :=
  match n with
  | O => mret tt
  | S n' =>
      let succ := (fun a : vptr => (a.1, S a.2)) <$> tmp in
      store_next tmp succ;;
      chain_loop n' succ
  end.

Definition init_buf_chain : FB unit :=
  f ← get;
  modify (set_empty (vbuf_alloced f));;
  modify (set_next None);;
  modify (set_curr None);;
  modify (set_top None);;
  modify (set_tail None);;
  chain_loop (Z.to_nat (container_size f - 1)) (vbuf_alloced f).

(** [memset(fbuf->vbuf_alloced, 0, sizeof(vbuf_container_t) * n)] *)

Definition zero_container : vbuf_container := mk_container zero_buffer None.

Fixpoint zero_cells (n : nat) (p : option vptr) : FB unit :=
  match n with
  | O => mret tt
  | S n' =>
      a ← deref p;
      modify (fun f => set_cells (<[a := zero_container]> (cells f)) f);;
      zero_cells n' (Some (a.1, S a.2))
  end.

Definition cleanup_container : FB unit :=
  f ← get;
  if vbuf_alloced f is Some _ then
    zero_cells (Z.to_nat (container_size f)) (vbuf_alloced f);;
    init_buf_chain
  else mret tt.

Definition is_last_one (f : video_framebuff) : bool :=
  bool_decide (vbuf_top f = vbuf_tail f).

Definition dequeue_vbuf_unsafe : FB (option vptr) :=
  f ← get;
  let ret := vbuf_top f in
  if is_last_one f then
    modify (set_top None);;
    modify (set_tail None);;
    modify (set_next None);;
    mret ret
  else
    (if mode f =? V4L2_BUF_MODE_RING then
       nxt ← load_next (vbuf_top f);
       store_next (vbuf_tail f) nxt
     else mret tt);;
    nxt ← load_next (vbuf_top f);
    modify (set_top nxt);;
    mret ret.

(** ** Public functions *)

Definition video_framebuff_init : FB unit :=
  modify (set_mode V4L2_BUF_MODE_RING);;
  modify (set_empty None);;
  modify (set_top None);;
  modify (set_tail None);;
  modify (set_next None);;
  modify (set_lock_empty 1).

(** [malloc_ok] is the answer of the kernel heap, should it be asked.  The
    allocation part: replace the block when its size is another one. *)

Definition alloc_new (malloc_ok : bool) (sz : Z) : FB Z :=
  if 0 <? sz then
    p ← kmm_malloc malloc_ok sz;
    modify (set_alloced p);;
    if p is None then mret (- ENOMEM)
    else modify (set_container_size sz);; mret OK
  else modify (set_container_size sz);; mret OK.

Definition realloc_block (malloc_ok : bool) (sz : Z) : FB Z :=
  f ← get;
  if bool_decide (vbuf_alloced f = None) || negb (container_size f =? sz) then
    (if negb (container_size f =? sz) then
       (if vbuf_alloced f is Some _ then kmm_free (vbuf_alloced f) else mret tt);;
       modify (set_alloced None);;
       modify (set_container_size 0)
     else mret tt);;
    alloc_new malloc_ok sz
  else mret OK.

Definition video_framebuff_realloc_container (malloc_ok : bool) (sz : Z) : FB Z :=
  if V4L2_REQBUFS_COUNT_MAX <? sz then mret (- EINVAL)
  else
    err ← realloc_block malloc_ok sz;
    if err =? OK then cleanup_container;; mret OK else mret err.

Definition nxsem_destroy (c : Z) : Z := if 0 <=? c then 1 else c.

Definition video_framebuff_uninit : FB unit :=
  video_framebuff_realloc_container true 0;;
  modify (fun f => set_lock_empty (nxsem_destroy (lock_empty f)) f).

(** The semaphore that guards the free chain. *)

Definition lock : FB unit :=
  f ← get;
  c ← lift (sem_wait (lock_empty f));
  modify (set_lock_empty c).

Definition unlock : FB unit := modify (fun f => set_lock_empty (sem_post (lock_empty f)) f).

Definition video_framebuff_get_container : FB (option vptr) :=
  lock;;
  ret ← gets vbuf_empty;
  (if ret is Some _ then
     nxt ← load_next ret;
     modify (set_empty nxt);;
     store_next ret None
   else mret tt);;
  unlock;;
  mret ret.

Definition video_framebuff_free_container (cnt : option vptr) : FB unit :=
  lock;;
  f ← get;
  store_next cnt (vbuf_empty f);;
  modify (set_empty cnt);;
  unlock.

Definition video_framebuff_queue_container (tgt : option vptr) : FB unit :=
  f ← get;
  (if vbuf_top f is Some _ then
     store_next (vbuf_tail f) tgt;;
     modify (set_tail tgt);;
     if vbuf_next f is None then modify (set_next tgt) else mret tt
   else
     modify (set_tail tgt);;
     modify (set_top tgt);;
     modify (set_next tgt));;
  f ← get;
  if mode f =? V4L2_BUF_MODE_RING then store_next (vbuf_tail f) (vbuf_top f)
  else store_next (vbuf_tail f) None.

Definition video_framebuff_dq_valid_container : FB (option vptr) :=
  f ← get;
  if bool_decide (vbuf_top f <> None) && bool_decide (vbuf_top f <> vbuf_next f)
  then dequeue_vbuf_unsafe
  else mret None.

Definition video_framebuff_get_vacant_container : FB (option vptr) :=
  f ← get;
  modify (set_curr (vbuf_next f));;
  mret (vbuf_next f).

Definition video_framebuff_capture_done : FB unit :=
  modify (set_curr None);;
  f ← get;
  if vbuf_next f is Some _ then
    nxt ← load_next (vbuf_next f);
    modify (set_next nxt);;
    f ← get;
    if bool_decide (vbuf_next f = vbuf_top f) then
      t ← load_next (vbuf_top f);
      modify (set_top t);;
      l ← load_next (vbuf_tail f);
      modify (set_tail l)
    else mret tt
  else mret tt.

Definition video_framebuff_change_mode (m : Z) : FB unit :=
  f ← get;
  if negb (mode f =? m) then
    (if vbuf_tail f is Some _ then
       if m =? V4L2_BUF_MODE_RING then
         store_next (vbuf_tail f) (vbuf_top f);;
         modify (set_next (vbuf_top f))
       else
         store_next (vbuf_tail f) None;;
         modify (set_next (vbuf_top f))
     else mret tt);;
    modify (set_mode m)
  else mret tt.

Definition video_framebuff_pop_curr_container : FB (option vptr) :=
  f ← get;
  if vbuf_top f is Some _ then dequeue_vbuf_unsafe else mret None.

(** ** Specification: captured, vacant and free containers *)

Record queue := mk_queue {
  done_q : list vptr;      (** captured, oldest first *)
  vacant_q : list vptr;    (** waiting for an image *)
  free_q : list vptr       (** not queued *)
}.

Definition spec_get (a : queue) : option vptr * queue :=
  match free_q a with
  | [] => (None, a)
  | x :: r => (Some x, mk_queue (done_q a) (vacant_q a) r)
  end.

Definition spec_free (x : vptr) (a : queue) : queue :=
  mk_queue (done_q a) (vacant_q a) (x :: free_q a).

Definition spec_queue (x : vptr) (a : queue) : queue :=
  mk_queue (done_q a) (vacant_q a ++ [x]) (free_q a).

Definition spec_dq (a : queue) : option vptr * queue :=
  match done_q a with
  | [] => (None, a)
  | d :: ds => (Some d, mk_queue ds (vacant_q a) (free_q a))
  end.

(** A ring without a vacant container gives up its oldest captured one. *)

Definition spec_capture (ring : bool) (a : queue) : queue :=
  match vacant_q a with
  | [] => a
  | v :: vs =>
      if ring && bool_decide (vs = []) then
        match done_q a ++ [v] with
        | [] => a
        | d :: ds => mk_queue ds [d] (free_q a)
        end
      else mk_queue (done_q a ++ [v]) vs (free_q a)
  end.

Definition spec_change (a : queue) : queue :=
  mk_queue [] (done_q a ++ vacant_q a) (free_q a).

Definition spec_pop (a : queue) : option vptr * queue :=
  match done_q a with
  | [] => (head (vacant_q a), mk_queue [] (tail (vacant_q a)) (free_q a))
  | d :: ds => (Some d, mk_queue ds (vacant_q a) (free_q a))
  end.

(** ** The refinement relation *)

Definition next_of (m : gmap vptr vbuf_container) (a : vptr) : option (option vptr) :=
  c_next <$> m !! a.

Definition hd_or (e : option vptr) (q : list vptr) : option vptr :=
  match q with [] => e | b :: _ => Some b end.

(** The [next] pointers run through [q] and then to [e]. *)

Fixpoint path (m : gmap vptr vbuf_container) (q : list vptr) (e : option vptr) : Prop :=
  match q with
  | [] => True
  | a :: q' => next_of m a = Some (hd_or e q') /\ path m q' e
  end.

Definition is_ring (f : video_framebuff) : bool := mode f =? V4L2_BUF_MODE_RING.

Record refines (f : video_framebuff) (a : queue) : Prop := {
  ref_nodup : NoDup ((done_q a ++ vacant_q a) ++ free_q a);
  ref_path : path (cells f) (done_q a ++ vacant_q a)
               (if is_ring f then head (done_q a ++ vacant_q a) else None);
  ref_top : vbuf_top f = head (done_q a ++ vacant_q a);
  ref_tail : vbuf_tail f = last (done_q a ++ vacant_q a);
  ref_next : vbuf_next f = head (vacant_q a);
  ref_ring : is_ring f = true -> vacant_q a = [] -> done_q a = [];
  ref_free : path (cells f) (free_q a) None;
  ref_empty : vbuf_empty f = head (free_q a);
  ref_lock : lock_empty f = 1
}.

(** A container in the caller's hands. *)

Definition detached (f : video_framebuff) (a : queue) (x : vptr) : Prop :=
  is_Some (cells f !! x) /\ x ∉ (done_q a ++ vacant_q a) ++ free_q a.

(** ** Paths *)

Lemma hd_or_app e q1 q2 : hd_or e (q1 ++ q2) = hd_or (hd_or e q2) q1.
Proof. by destruct q1. Qed.

Lemma path_app m q1 q2 e :
  path m (q1 ++ q2) e <-> path m q1 (hd_or e q2) /\ path m q2 e.
Proof.
  induction q1 as [|a q1 IH]; simpl; [tauto|]. rewrite IH, hd_or_app. tauto.
Qed.

Lemma path_frame m q e a (g : vbuf_container -> vbuf_container) :
  a ∉ q -> path m q e -> path (alter g a m) q e.
Proof.
  induction q as [|b q IH]; simpl; [done|]. rewrite not_elem_of_cons.
  intros [Hne Hin] [Hb Hp]. split; [|by apply IH].
  unfold next_of in *. by rewrite lookup_alter_ne.
Qed.

Lemma path_alter_last m q a e v (b : vbuf_container -> v4l2_buffer) :
  NoDup (q ++ [a]) -> path m (q ++ [a]) e ->
  path (alter (fun c => mk_container (b c) v) a m) (q ++ [a]) v.
Proof.
  rewrite NoDup_app, path_app, path_app. simpl. intros (_ & Hd & _) [Hq [Ha _]].
  assert (a ∉ q) by (intros Hin; by apply (Hd a Hin), list_elem_of_singleton).
  split; [by apply path_frame|]. split; [|done].
  unfold next_of in *. rewrite lookup_alter_eq. by destruct (m !! a).
Qed.

Lemma path_lookup m q e a : path m q e -> a ∈ q -> is_Some (m !! a).
Proof.
  induction q as [|b q IH]; simpl; [by rewrite elem_of_nil|].
  intros [Hb Hp] Hin. apply elem_of_cons in Hin as [->|Hin]; [|by apply IH].
  unfold next_of in Hb. by destruct (m !! b).
Qed.

Lemma path_head m a q e : path m (a :: q) e -> next_of m a = Some (hd_or e q).
Proof. by intros [? _]. Qed.

(** ** Memory accesses on known cells *)

Lemma load_next_ok f a v :
  next_of (cells f) a = Some v -> load_next (Some a) f = Ret (v, f).
Proof.
  unfold next_of, load_next. munfold. simpl.
  intros H. destruct (cells f !! a) as [c|] eqn:E; [|done]. simpl in *.
  rewrite E. by injection H as ->.
Qed.

Definition upd_next (a : vptr) (v : option vptr) (f : video_framebuff) : video_framebuff :=
  set_cells (alter (fun c => mk_container (c_buf c) v) a (cells f)) f.

Lemma store_next_ok f a v :
  is_Some (cells f !! a) -> store_next (Some a) v f = Ret (tt, upd_next a v f).
Proof.
  intros [c Hc]. unfold store_next, upd_next. munfold. simpl. by rewrite Hc.
Qed.

(** What the chain operations leave alone: the containers themselves and
    everything but the chain pointers. *)

Record same_bufs (f f' : video_framebuff) : Prop := {
  sb_mode : mode f' = mode f;
  sb_size : container_size f' = container_size f;
  sb_alloced : vbuf_alloced f' = vbuf_alloced f;
  sb_nblocks : nblocks f' = nblocks f;
  sb_bufs : forall x, c_buf <$> cells f' !! x = c_buf <$> cells f !! x
}.

#[global] Instance same_bufs_refl : Reflexive same_bufs.
Proof. by constructor. Qed.

#[global] Instance same_bufs_trans : Transitive same_bufs.
Proof. intros f g h [] []. constructor; intros; congruence. Qed.

Lemma upd_next_same a v f : same_bufs f (upd_next a v f).
Proof.
  constructor; try done. intros x. simpl. rewrite lookup_alter.
  case_decide; [subst|done]. by destruct (cells f !! x).
Qed.

Lemma same_bufs_cell f f' x :
  same_bufs f f' -> is_Some (cells f !! x) -> is_Some (cells f' !! x).
Proof.
  intros [_ _ _ _ H] [c Hc]. specialize (H x). rewrite Hc in H.
  destruct (cells f' !! x); [eauto|done].
Qed.

Lemma same_bufs_ring f f' : same_bufs f f' -> is_ring f' = is_ring f.
Proof. unfold is_ring. by intros [-> _ _ _ _]. Qed.

(** ** Lemmas on the ends of a list *)

Lemma last_cons_ne (x y : vptr) q :
  NoDup (x :: y :: q) -> exists q' z, y :: q = q' ++ [z] /\ last (x :: y :: q) = Some z /\ z <> x.
Proof.
  intros Hnd. destruct (exists_last (l := y :: q)) as (q' & z & Heq); [done|].
  exists q', z. split; [done|]. split.
  - change (x :: y :: q) with ([x] ++ (y :: q)). by rewrite Heq, app_assoc, last_snoc.
  - intros ->. apply NoDup_cons in Hnd as [Hin _]. apply Hin. rewrite Heq.
    apply elem_of_app. right. by apply list_elem_of_singleton.
Qed.

Lemma exists_last_or_nil {A} (l : list A) : l = [] \/ exists l' z, l = l' ++ [z].
Proof.
  destruct l as [|x l]; [by left|right].
  destruct (exists_last (l := x :: l)) as (l' & z & ->); [done|eauto].
Qed.

(** ** [dequeue_vbuf_unsafe] *)

Lemma dequeue_one f x :
  vbuf_top f = Some x -> vbuf_tail f = Some x ->
  dequeue_vbuf_unsafe f =
  Ret (Some x, set_next None (set_tail None (set_top None f))).
Proof.
  intros Ht Hl. unfold dequeue_vbuf_unsafe, is_last_one. munfold. simpl.
  rewrite Ht, Hl, bool_decide_eq_true_2 by done. done.
Qed.

Lemma dequeue_more f x y q :
  NoDup (x :: y :: q) ->
  path (cells f) (x :: y :: q) (if is_ring f then Some x else None) ->
  vbuf_top f = Some x -> vbuf_tail f = last (x :: y :: q) ->
  exists f', dequeue_vbuf_unsafe f = Ret (Some x, f') /\ same_bufs f f' /\
    path (cells f') (y :: q) (if is_ring f then Some y else None) /\
    (forall p e, (forall z, z ∈ p -> z ∉ x :: y :: q) ->
       path (cells f) p e -> path (cells f') p e) /\
    vbuf_top f' = Some y /\ vbuf_tail f' = vbuf_tail f /\ vbuf_next f' = vbuf_next f /\
    vbuf_empty f' = vbuf_empty f /\ lock_empty f' = lock_empty f /\ vbuf_curr f' = vbuf_curr f.
Proof.
  intros Hnd Hp Ht Hl. destruct (last_cons_ne x y q Hnd) as (q' & z & Heq & Hz & Hzx).
  assert (Hnx : next_of (cells f) x = Some (Some y)) by (by apply path_head in Hp).
  assert (Hzc : is_Some (cells f !! z)).
  { eapply path_lookup; [exact Hp|]. apply elem_of_cons. right. rewrite Heq.
    apply elem_of_app. right. by apply list_elem_of_singleton. }
  destruct Hp as [_ Hp].
  assert (Hneq : bool_decide (vbuf_top f = vbuf_tail f) = false).
  { apply bool_decide_eq_false_2. rewrite Ht, Hl, Hz. congruence. }
  unfold dequeue_vbuf_unsafe, is_last_one, is_ring in *.
  destruct (mode f =? V4L2_BUF_MODE_RING) eqn:Em.
  - exists (set_top (Some y) (upd_next z (Some y) f)). split_and!; try done.
    + munfold. simpl. rewrite Hneq, Em. rewrite Ht, Hl, Hz.
      rewrite (load_next_ok f x _ Hnx). simpl.
      rewrite (store_next_ok f z (Some y) Hzc).
      rewrite (load_next_ok (upd_next z (Some y) f) x (Some y)); [done|].
      simpl. unfold next_of. rewrite lookup_alter_ne by done. done.
    + transitivity (upd_next z (Some y) f); [apply upd_next_same|by constructor].
    + cbn [cells set_top upd_next set_cells]. rewrite Heq.
      eapply path_alter_last; [|by rewrite <- Heq].
      rewrite <- Heq. by apply NoDup_cons in Hnd as [_ ?].
    + intros p e Hdis Hpe. simpl. apply path_frame; [|done].
      intros Hin. apply (Hdis z Hin). apply elem_of_cons. right. rewrite Heq.
      apply elem_of_app. right. by apply list_elem_of_singleton.
  - exists (set_top (Some y) f). split_and!; try done.
    munfold. simpl. rewrite Hneq, Em, Ht, (load_next_ok f x _ Hnx). done.
Qed.

(** ** Each operation implements its specification *)

(** The part of [refines] that concerns the free chain. *)

Lemma free_disjoint a x : NoDup ((done_q a ++ vacant_q a) ++ free_q a) ->
  x ∈ free_q a -> x ∉ done_q a ++ vacant_q a.
Proof. rewrite NoDup_app. intros (_ & H & _) Hx Hin. by apply (H x Hin). Qed.

Lemma dequeue_refines f a x q :
  refines f a -> done_q a ++ vacant_q a = x :: q ->
  (done_q a <> [] \/ q = []) ->
  exists f', dequeue_vbuf_unsafe f = Ret (Some x, f') /\
    refines f' (snd (spec_pop a)) /\ fst (spec_pop a) = Some x /\
    same_bufs f f' /\ vbuf_curr f' = vbuf_curr f.
Proof.
  intros [Hnd Hp Ht Hl Hn Hr Hf He Hk] Hq Hside.
  rewrite Hq in *. simpl in Ht.
  assert (Hpop : fst (spec_pop a) = Some x /\
    free_q (snd (spec_pop a)) = free_q a /\
    done_q (snd (spec_pop a)) ++ vacant_q (snd (spec_pop a)) = q).
  { unfold spec_pop. destruct (done_q a) as [|d ds]; simpl in *; simplify_eq; [|done].
    destruct (vacant_q a); simplify_eq/=. done. }
  destruct Hpop as (Hx & Hfree & Hq').
  destruct q as [|y q].
  - rewrite (dequeue_one f x) by done. eexists. split; [done|].
    split_and!; try done.
    apply app_eq_nil in Hq' as [Hd Hv].
    constructor; rewrite ?Hd, ?Hv, ?Hfree; try done.
    by apply NoDup_app in Hnd as (_ & _ & ?).
  - apply NoDup_app in Hnd as (Hndq & Hdis & Hndf).
    destruct (dequeue_more f x y q Hndq Hp Ht Hl)
      as (f' & Hrun & Hsb & Hp' & Hfr & Ht' & Hl' & Hn' & He' & Hk' & Hc').
    exists f'. split_and!; try done.
    assert (Hvac : vacant_q (snd (spec_pop a)) = vacant_q a).
    { unfold spec_pop. destruct Hside as [Hside|]; [|done]. by destruct (done_q a). }
    constructor; rewrite ?Hfree, ?Hq', ?(same_bufs_ring f f' Hsb), ?Hvac;
      try exact Hp'; try congruence.
    + apply NoDup_app. apply NoDup_cons in Hndq as [_ Hndq]. split_and!; try done.
      intros z Hz. apply Hdis. apply elem_of_cons. by right.
    + by rewrite Ht'.
    + by rewrite Hl', Hl.
    + intros Hring Hv. specialize (Hr Hring Hv). destruct Hside; congruence.
    + apply Hfr; [|done]. intros z Hz Hin. by apply (Hdis z).
Qed.

Lemma dq_valid_refines f a :
  refines f a ->
  exists f', video_framebuff_dq_valid_container f = Ret (fst (spec_dq a), f') /\
    refines f' (snd (spec_dq a)) /\ same_bufs f f' /\ vbuf_curr f' = vbuf_curr f.
Proof.
  intros Href. pose proof Href as [Hnd Hp Ht Hl Hn Hr Hf He Hk].
  unfold video_framebuff_dq_valid_container, spec_dq. munfold. simpl. rewrite Ht, Hn.
  destruct (done_q a) as [|d ds] eqn:Ed; simpl.
  - exists f. rewrite (bool_decide_eq_false_2 (head (vacant_q a) <> head (vacant_q a))) by naive_solver.
    rewrite andb_false_r. done.
  - assert (Hne : Some d <> head (vacant_q a)).
    { destruct (vacant_q a) as [|v vs] eqn:Ev; [done|]. intros [= ->].
      apply NoDup_cons in Hnd as [Hnin _]. apply Hnin. set_solver. }
    rewrite (bool_decide_eq_true_2 (Some d <> head (vacant_q a))) by done. simpl.
    destruct (dequeue_refines f a d (ds ++ vacant_q a)) as (f' & -> & Hr' & _ & Hsb & Hc).
    + done.
    + by rewrite Ed.
    + left. by rewrite Ed.
    + exists f'. simpl. unfold spec_pop in Hr'. by rewrite Ed in Hr'.
Qed.

Lemma pop_curr_refines f a :
  refines f a -> (done_q a <> [] \/ (length (vacant_q a) <= 1)%nat) ->
  exists f', video_framebuff_pop_curr_container f = Ret (fst (spec_pop a), f') /\
    refines f' (snd (spec_pop a)) /\ same_bufs f f' /\ vbuf_curr f' = vbuf_curr f.
Proof.
  intros Href Hside. pose proof Href as [Hnd Hp Ht Hl Hn Hr Hf He Hk].
  unfold video_framebuff_pop_curr_container. munfold. simpl. rewrite Ht.
  destruct (done_q a ++ vacant_q a) as [|x q] eqn:Eq; simpl.
  - apply app_eq_nil in Eq as [Hd Hv]. exists f. unfold spec_pop. rewrite Hd, Hv.
    split; [done|]. simpl. split_and!; try done.
    destruct a; simpl in *; by subst.
  - destruct (dequeue_refines f a x q Href Eq) as (f' & -> & Hr' & -> & Hsb & Hc); [|by exists f'].
    destruct Hside as [|Hlen]; [by left|].
    destruct (done_q a) as [|d ds]; [right|by left].
    simpl in Eq. rewrite Eq in Hlen. destruct q; [done|simpl in Hlen; lia].
Qed.

Lemma get_container_refines f a :
  refines f a ->
  exists f', video_framebuff_get_container f = Ret (fst (spec_get a), f') /\
    refines f' (snd (spec_get a)) /\ same_bufs f f' /\ vbuf_curr f' = vbuf_curr f /\
    (forall x, fst (spec_get a) = Some x -> detached f' (snd (spec_get a)) x).
Proof.
  intros [Hnd Hp Ht Hl Hn Hr Hf He Hk].
  unfold video_framebuff_get_container, lock, unlock, spec_get. munfold. simpl.
  rewrite Hk. simpl. rewrite He.
  destruct (free_q a) as [|x r] eqn:Ef; simpl.
  - eexists. split; [reflexivity|]. split_and!; try done.
    constructor; simpl; rewrite ?Ef; try done.
  - assert (Hnx : next_of (cells f) x = Some (head r)) by (by apply path_head in Hf; destruct r).
    assert (Hxc : is_Some (cells f !! x)) by (eapply path_lookup; [exact Hf|set_solver]).
    rewrite (load_next_ok _ x (head r)) by done. simpl.
    rewrite store_next_ok by done. simpl. eexists. split; [reflexivity|].
    apply NoDup_app in Hnd as (Hndq & Hdis & Hndf). apply NoDup_cons in Hndf as [Hxr Hndr].
    assert (Hxq : x ∉ done_q a ++ vacant_q a) by (intros Hin; apply (Hdis x Hin); set_solver).
    split_and!; try done.
    + constructor; simpl; try done.
      * apply NoDup_app. split_and!; try done. intros z Hz Hin. apply (Hdis z Hz). set_solver.
      * by apply path_frame.
      * apply path_frame; [done|]. by destruct Hf.
    + transitivity (upd_next x None f); [apply upd_next_same|by constructor].
    + intros z [= <-]. split; simpl; [|by rewrite elem_of_app; intros [?|?]].
      rewrite lookup_alter_eq. by destruct Hxc as [c ->].
Qed.

Lemma free_container_refines f a x :
  refines f a -> detached f a x ->
  exists f', video_framebuff_free_container (Some x) f = Ret (tt, f') /\
    refines f' (spec_free x a) /\ same_bufs f f' /\ vbuf_curr f' = vbuf_curr f.
Proof.
  intros [Hnd Hp Ht Hl Hn Hr Hf He Hk] [Hxc Hx].
  unfold video_framebuff_free_container, lock, unlock. munfold. simpl.
  rewrite Hk. simpl. rewrite store_next_ok by done. simpl.
  eexists. split; [reflexivity|].
  rewrite elem_of_app in Hx. apply NoDup_app in Hnd as (Hndq & Hdis & Hndf).
  split_and!; try done.
  - constructor; simpl; try done.
    + apply NoDup_app. split_and!; [done| |apply NoDup_cons; naive_solver].
      intros z Hz Hin. apply elem_of_cons in Hin as [->|Hin]; [tauto|]. by apply (Hdis z).
    + apply path_frame; [tauto|done].
    + split; [|apply path_frame; [tauto|done]].
      unfold next_of. rewrite lookup_alter_eq. destruct Hxc as [c ->]. simpl.
      rewrite He. by destruct (free_q a).
  - transitivity (upd_next x (vbuf_empty f) f); [apply upd_next_same|by constructor].
Qed.

Lemma queue_container_refines f a x :
  refines f a -> detached f a x ->
  exists f', video_framebuff_queue_container (Some x) f = Ret (tt, f') /\
    refines f' (spec_queue x a) /\ same_bufs f f' /\ vbuf_curr f' = vbuf_curr f.
Proof.
  intros [Hnd Hp Ht Hl Hn Hr Hf He Hk] [Hxc Hx].
  rewrite elem_of_app in Hx. apply NoDup_app in Hnd as (Hndq & Hdis & Hndf).
  assert (Hnd' : NoDup ((done_q a ++ vacant_q a ++ [x]) ++ free_q a)).
  { rewrite app_assoc. apply NoDup_app. split_and!; [|set_solver|done].
    apply NoDup_app. split_and!; [done|set_solver|apply NoDup_singleton]. }
  unfold video_framebuff_queue_container. munfold. simpl. rewrite Ht, Hl.
  destruct (exists_last_or_nil (done_q a ++ vacant_q a)) as [Eq|(q & z & Eq)].
  - rewrite Eq. simpl. apply app_eq_nil in Eq as [Hd Hv]. unfold is_ring in Hp.
    exists (upd_next x (if is_ring f then Some x else None)
             (set_next (Some x) (set_top (Some x) (set_tail (Some x) f)))).
    unfold is_ring.
    split; [destruct (mode f =? V4L2_BUF_MODE_RING); by rewrite store_next_ok|].
    split_and!; try done.
    + constructor; simpl; rewrite ?Hd, ?Hv in *; simpl; try done.
      * split; [|done]. unfold next_of, is_ring. simpl. rewrite lookup_alter_eq.
        by destruct Hxc as [c ->].
      * by apply path_frame; [tauto|].
    + etransitivity; [|apply upd_next_same]. by constructor.
  - rewrite Eq in *. rewrite last_snoc.
    assert (Hzc : is_Some (cells f !! z)) by (eapply path_lookup; [exact Hp|set_solver]).
    assert (Hxz : x <> z) by (intros ->; set_solver).
    destruct (head (q ++ [z])) as [t|] eqn:Eh; [|by destruct q].
    rewrite store_next_ok by done. simpl.
    set (f1 := set_tail (Some x) (upd_next z (Some x) f)).
    set (f2 := if vbuf_next f is None then set_next (Some x) f1 else f1).
    assert (Hxc1 : is_Some (cells f1 !! x)) by (simpl; rewrite lookup_alter_ne; done).
    exists (upd_next x (if is_ring f then Some t else None) f2).
    assert (Hf2 : cells f2 = cells f1 /\ mode f2 = mode f /\ vbuf_top f2 = Some t /\
      vbuf_tail f2 = Some x /\ vbuf_next f2 = head (vacant_q a ++ [x]) /\
      vbuf_empty f2 = vbuf_empty f /\ lock_empty f2 = 1 /\ vbuf_curr f2 = vbuf_curr f /\
      same_bufs f f2).
    { assert (same_bufs f f1) by (etransitivity; [apply upd_next_same|by constructor]).
      unfold f2. rewrite Hn. destruct (vacant_q a) as [|v vs]; simpl; split_and!; try done.
      transitivity f1; [done|]. by constructor. }
    destruct Hf2 as (Hc2 & Hm2 & Ht2 & Hl2 & Hn2 & He2 & Hk2 & Hcu2 & Hsb2).
    split.
    { unfold is_ring. unfold f2 in *. destruct (vbuf_next f); simpl in *; rewrite ?Ht2;
        destruct (mode f =? V4L2_BUF_MODE_RING); by rewrite store_next_ok. }
    split_and!; try done; [|by transitivity f2; [|apply upd_next_same]].
    assert (Hfin : forall p e, path (cells f) p e -> z ∉ p -> x ∉ p ->
              path (cells (upd_next x (if is_ring f then Some t else None) f2)) p e).
    { intros p e Hpp Hz1 Hx1. simpl. rewrite Hc2. simpl. by apply path_frame, path_frame. }
    constructor; simpl; rewrite ?Hm2, ?Ht2, ?Hl2, ?He2; try done.
    + rewrite app_assoc, Eq. unfold is_ring in *. simpl. rewrite Hm2, Hc2. simpl.
      assert (Hh : head ((q ++ [z]) ++ [x]) = Some t) by (by destruct q).
      rewrite Hh, path_app. simpl. split.
      * apply path_frame; [tauto|]. eapply path_alter_last; [done|exact Hp].
      * split; [|done]. unfold next_of. rewrite lookup_alter_eq.
        simpl in Hxc1. by destruct Hxc1 as [c ->].
    + rewrite app_assoc, Eq. by destruct q.
    + by rewrite app_assoc, last_snoc.
    + intros _ Hv. by destruct (vacant_q a).
    + apply Hfin; [done| |tauto]. intros Hin. apply (Hdis z); [set_solver|done].
Qed.

Lemma capture_done_refines f a :
  refines f a ->
  exists f', video_framebuff_capture_done f = Ret (tt, f') /\
    refines f' (spec_capture (is_ring f) a) /\ same_bufs f f' /\ vbuf_curr f' = None.
Proof.
  intros [Hnd Hp Ht Hl Hn Hr Hf He Hk].
  unfold video_framebuff_capture_done, spec_capture. munfold. simpl. rewrite Hn.
  destruct (vacant_q a) as [|v vs] eqn:Ev; simpl.
  { eexists. split; [reflexivity|]. split_and!; try done.
    constructor; rewrite ?Ev; done. }
  set (e := if is_ring f then head (done_q a ++ v :: vs) else None) in *.
  pose proof Hp as Hpv. rewrite path_app in Hpv. destruct Hpv as [_ [Hnv Hpvs]].
  rewrite (load_next_ok (set_curr None f) v (hd_or e vs)) by done. simpl.
  destruct vs as [|w ws]; simpl.
  - destruct (done_q a ++ [v]) as [|x q0] eqn:Eq; [by destruct (done_q a)|].
    unfold e in *. destruct (is_ring f) eqn:Ering; simpl in *.
    + rewrite Ht. rewrite (bool_decide_eq_true_2 (Some x = Some x)) by done.
      assert (Hnx : next_of (cells f) x = Some (hd_or (Some x) q0)) by (by destruct Hp).
      rewrite (load_next_ok _ x (hd_or (Some x) q0)) by done.
      assert (Hlast : vbuf_tail f = Some v) by (by rewrite Hl, <- Eq, last_snoc).
      rewrite Hlast, (load_next_ok _ v (Some x)) by done.
      eexists. split; [reflexivity|]. split_and!; try done.
      constructor; simpl; unfold is_ring in *; simpl; rewrite ?Ering; try done.
      * apply NoDup_cons in Hnd as [Hx Hnd]. apply NoDup_app in Hnd as (Hndq & Hdis & Hndf).
        apply NoDup_app. split_and!; [|set_solver|done].
        apply NoDup_app. split_and!; [done|set_solver|apply NoDup_singleton].
      * rewrite path_app. simpl. destruct Hp as [_ Hp]. destruct q0; simpl in *; tauto.
      * by destruct q0.
      * by rewrite last_snoc.
    + rewrite Ht, (bool_decide_eq_false_2 (None = Some x)) by done.
      eexists. split; [reflexivity|]. split_and!; try done.
      constructor; simpl; rewrite ?app_nil_r, ?Eq; unfold is_ring in *; simpl; rewrite ?Ering; done.
  - rewrite andb_false_r.
    assert (Hne : Some w <> head (done_q a ++ v :: w :: ws)).
    { intros Hw. apply NoDup_app in Hnd as (Hndq & _ & _).
      destruct (done_q a) as [|d ds]; simplify_eq/=.
      - apply NoDup_cons in Hndq as [Hx _]. set_solver.
      - apply NoDup_cons in Hndq as [Hx _]. set_solver. }
    rewrite Ht, bool_decide_eq_false_2 by done.
    eexists. split; [reflexivity|]. split_and!; try done.
    constructor; simpl; rewrite <- ?(app_assoc (done_q a) [v] (w :: ws)); try done.
Qed.

Lemma change_mode_refines f a m :
  refines f a ->
  exists f', video_framebuff_change_mode m f = Ret (tt, f') /\
    refines f' (if mode f =? m then a else spec_change a) /\ mode f' = m /\
    container_size f' = container_size f /\ vbuf_alloced f' = vbuf_alloced f /\
    nblocks f' = nblocks f /\ vbuf_curr f' = vbuf_curr f /\
    (forall x, c_buf <$> cells f' !! x = c_buf <$> cells f !! x).
Proof.
  intros Href. pose proof Href as [Hnd Hp Ht Hl Hn Hr Hf He Hk].
  unfold video_framebuff_change_mode. munfold. simpl.
  destruct (mode f =? m) eqn:Em; to_prop; simpl; [by exists f|].
  apply NoDup_app in Hnd as (Hndq & Hdis & Hndf).
  rewrite Hl. destruct (exists_last_or_nil (done_q a ++ vacant_q a)) as [Eq|(q & z & Eq)].
  - rewrite Eq. simpl. eexists. split; [reflexivity|]. split_and!; try done.
    constructor; simpl; rewrite ?Eq in *; simpl; try done.
    rewrite Hn. apply app_eq_nil in Eq as [_ ->]. done.
  - rewrite Eq in *. rewrite last_snoc.
    assert (Hzc : is_Some (cells f !! z)) by (eapply path_lookup; [exact Hp|set_solver]).
    set (e := if m =? V4L2_BUF_MODE_RING then vbuf_top f else None).
    exists (set_mode m (set_next (vbuf_top f) (upd_next z e f))). split.
    { unfold e. destruct (m =? V4L2_BUF_MODE_RING); by rewrite store_next_ok. }
    split_and!; try done; [|apply upd_next_same].
    constructor; simpl; rewrite ?Eq; try done.
    + apply NoDup_app. done.
    + unfold is_ring. simpl. fold e. replace (if m =? V4L2_BUF_MODE_RING then head (q ++ [z]) else None)
        with e by (unfold e; by rewrite Ht). by eapply path_alter_last.
    + apply path_frame; [|done]. intros Hin. apply (Hdis z); [set_solver|done].
Qed.

(** ** [video_framebuff_realloc_container] *)

Definition block_list (b i n : nat) : list vptr := (fun j => (b, j)) <$> seq i n.

(** The blocks are those numbered so far; the current one has all its cells. *)

Record heap_ok (f : video_framebuff) : Prop := {
  ho_blocks : forall a, is_Some (cells f !! a) -> (a.1 < nblocks f)%nat;
  ho_alloced : forall p, vbuf_alloced f = Some p ->
    p.2 = 0%nat /\ 1 <= container_size f /\
    forall i, (i < Z.to_nat (container_size f))%nat -> is_Some (cells f !! (p.1, i))
}.

Lemma heap_ok_same f f' : same_bufs f f' -> heap_ok f -> heap_ok f'.
Proof.
  intros [Hm Hs Ha Hn Hb] [H1 H2].
  assert (Hd : forall x, is_Some (cells f' !! x) <-> is_Some (cells f !! x)).
  { intros x. specialize (Hb x). destruct (cells f' !! x), (cells f !! x); naive_solver. }
  constructor.
  - intros x Hx. rewrite Hn. by apply H1, Hd.
  - intros p Hp. rewrite Ha in Hp. destruct (H2 p Hp) as (? & ? & Hc). rewrite Hs.
    split_and!; [done..|]. intros i Hi. by apply Hd, Hc.
Qed.

(** Changing nothing but the cells. *)

Definition only_cells (f f' : video_framebuff) : Prop := f' = set_cells (cells f') f.

Lemma only_cells_trans f g h : only_cells f g -> only_cells g h -> only_cells f h.
Proof. unfold only_cells. intros -> ->. done. Qed.

Lemma deref_ok f a : is_Some (cells f !! a) -> deref (Some a) f = Ret (a, f).
Proof. intros [c Hc]. simpl. by rewrite Hc. Qed.

Lemma zero_cells_spec n b i f :
  (forall j, (i <= j < i + n)%nat -> is_Some (cells f !! (b, j))) ->
  exists f', zero_cells n (Some (b, i)) f = Ret (tt, f') /\ only_cells f f' /\
    (forall j, (i <= j < i + n)%nat -> cells f' !! (b, j) = Some zero_container) /\
    (forall a, (a.1 <> b \/ a.2 < i \/ i + n <= a.2)%nat -> cells f' !! a = cells f !! a) /\
    (forall a, is_Some (cells f' !! a) <-> is_Some (cells f !! a)).
Proof.
  revert i f. induction n as [|n IH]; intros i f Hc; cbn [zero_cells].
  { exists f. split_and!; try done; [by destruct f|intros; lia]. }
  pose proof (Hc i ltac:(lia)) as Hci.
  rewrite (bind_returns _ _ _ _ _ (deref_ok f (b, i) Hci)).
  set (f1 := set_cells (<[(b, i) := zero_container]> (cells f)) f).
  assert (Hd1 : forall a, is_Some (cells f1 !! a) <-> is_Some (cells f !! a)).
  { intros a. simpl. destruct (decide (a = (b, i))) as [->|Hne].
    - rewrite lookup_insert_eq. naive_solver.
    - by rewrite lookup_insert_ne. }
  destruct (IH (S i) f1) as (f' & Hrun & Ho & Hz & Hfr & Hd).
  { intros j Hj. apply Hd1, Hc. lia. }
  exists f'. split_and!; [exact Hrun| | | |].
  - by apply (only_cells_trans f f1).
  - intros j Hj. destruct (decide (j = i)) as [->|]; [|apply Hz; lia].
    rewrite Hfr by (simpl; lia). simpl. by rewrite lookup_insert_eq.
  - intros a Ha. rewrite Hfr by lia. simpl. apply lookup_insert_ne.
    intros <-. simpl in Ha. lia.
  - intros a. by rewrite Hd.
Qed.

Lemma chain_loop_spec n b i f :
  (forall j, (i <= j < i + n)%nat -> is_Some (cells f !! (b, j))) ->
  exists f', chain_loop n (Some (b, i)) f = Ret (tt, f') /\ only_cells f f' /\
    (forall j, (i <= j < i + n)%nat -> next_of (cells f') (b, j) = Some (Some (b, S j))) /\
    (forall a, (a.1 <> b \/ a.2 < i \/ i + n <= a.2)%nat -> cells f' !! a = cells f !! a) /\
    (forall a, c_buf <$> cells f' !! a = c_buf <$> cells f !! a).
Proof.
  revert i f. induction n as [|n IH]; intros i f Hc; simpl.
  { exists f. split_and!; try done; [by destruct f|intros; lia]. }
  pose proof (Hc i ltac:(lia)) as Hci.
  rewrite (bind_returns _ _ f tt (upd_next (b, i) (Some (b, S i)) f)
    (store_next_ok f (b, i) (Some (b, S i)) Hci)).
  set (f1 := upd_next (b, i) (Some (b, S i)) f).
  assert (Hd1 : forall a, is_Some (cells f1 !! a) <-> is_Some (cells f !! a))
    by (intros a; simpl; apply lookup_alter_is_Some).
  destruct (IH (S i) f1) as (f' & Hrun & Ho & Hn & Hfr & Hd).
  { intros j Hj. apply Hd1, Hc. lia. }
  exists f'. split_and!; [exact Hrun| | | |].
  - by apply (only_cells_trans f f1).
  - intros j Hj. destruct (decide (j = i)) as [->|]; [|apply Hn; lia].
    unfold next_of. rewrite Hfr by (simpl; lia). simpl. rewrite lookup_alter_eq.
    by destruct Hci as [c ->].
  - intros a Ha. rewrite Hfr by lia. simpl. apply lookup_alter_ne.
    intros <-. simpl in Ha. lia.
  - intros a. rewrite Hd. apply (sb_bufs f f1), upd_next_same.
Qed.

Lemma path_block m b i n :
  (forall j, (i <= j < i + n)%nat -> next_of m (b, j) = Some (Some (b, S j))) ->
  next_of m (b, (i + n)%nat) = Some None ->
  path m (block_list b i (S n)) None.
Proof.
  revert i. induction n as [|n IH]; intros i Hj Hl.
  - simpl. rewrite Nat.add_0_r in Hl. done.
  - change (block_list b i (S (S n))) with ((b, i) :: block_list b (S i) (S n)).
    split; [rewrite Hj by lia; done|]. apply IH.
    + intros j Hi. apply Hj. lia.
    + rewrite <- Hl. do 2 f_equal. lia.
Qed.

Lemma block_list_nodup b i n : NoDup (block_list b i n).
Proof. apply (NoDup_fmap_2 (fun j => (b, j))). apply NoDup_seq. Qed.

(** The state after a successful [REQBUFS]: every container of block [b] free
    and zeroed, nothing queued. *)

Record fresh_chain (f : video_framebuff) (b n : nat) : Prop := {
  fc_refines : refines f (mk_queue [] [] (block_list b 0 n));
  fc_heap : heap_ok f;
  fc_curr : vbuf_curr f = None;
  fc_alloced : vbuf_alloced f = Some (b, 0%nat);
  fc_size : container_size f = Z.of_nat n;
  fc_zero : forall j, (j < n)%nat -> c_buf <$> cells f !! (b, j) = Some zero_buffer
}.

Lemma cleanup_container_spec f b n :
  (0 < n)%nat -> heap_ok f -> lock_empty f = 1 ->
  vbuf_alloced f = Some (b, 0%nat) -> container_size f = Z.of_nat n ->
  exists f', cleanup_container f = Ret (tt, f') /\ fresh_chain f' b n /\ mode f' = mode f.
Proof.
  intros Hn Hheap Hk Ha Hs.
  destruct (ho_alloced f Hheap _ Ha) as (_ & _ & Hcells). rewrite Hs, Nat2Z.id in Hcells.
  destruct (zero_cells_spec n b 0 f) as (f1 & Hz & Ho1 & Hzero & _ & Hd1).
  { intros j Hj. apply Hcells. lia. }
  unfold cleanup_container. rewrite (bind_returns _ _ _ f f eq_refl), Ha, Hs, Nat2Z.id.
  rewrite (bind_returns _ _ _ _ _ Hz). rewrite Ho1 in Hzero, Hd1 |- *.
  generalize dependent (cells f1). clear f1 Hz Ho1. intros m1 Hzero Hd1.
  unfold init_buf_chain. munfold. simpl in *. rewrite Ha, Hs.
  replace (Z.to_nat (Z.of_nat n - 1)) with (n - 1)%nat by lia.
  match goal with |- context [chain_loop _ _ ?g] => set (f2 := g) end.
  destruct (chain_loop_spec (n - 1) b 0 f2) as (f' & -> & Ho & Hnx & Hfr & Hb).
  { intros j Hj. simpl. rewrite Hd1. apply Hcells. lia. }
  exists f'. split; [done|]. rewrite Ho in Hnx, Hfr, Hb |- *.
  generalize dependent (cells f'). clear f' Ho. intros m2 Hnx Hfr Hb. split; [|done].
  simpl in *.
  assert (Hd2 : forall a, is_Some (m2 !! a) <-> is_Some (m1 !! a)).
  { intros a. specialize (Hb a). destruct (m2 !! a), (m1 !! a); naive_solver. }
  constructor; simpl; try done.
  - constructor; simpl; rewrite ?Ha; try done.
    + apply block_list_nodup.
    + destruct n as [|n]; [lia|]. replace (S n - 1)%nat with n in * by lia.
      apply path_block; [done|]. unfold next_of. rewrite Hfr by (simpl; lia).
      simpl. rewrite Hzero by lia. done.
    + by destruct n; [lia|].
  - constructor; simpl.
    + intros a Hx. apply (ho_blocks f Hheap), Hd1, Hd2, Hx.
    + intros p Hp. rewrite Ha in Hp. injection Hp as <-. rewrite Hs, Nat2Z.id. simpl.
      split_and!; [done|lia|]. intros i Hi. apply Hd2, Hd1, Hcells, Hi.
  - intros j Hj. rewrite Hb, Hzero by lia. done.
Qed.

Lemma block_cells_lookup b n c m a :
  block_cells b n c m !! a =
  if bool_decide (a.1 = b /\ (a.2 < n)%nat) then Some c else m !! a.
Proof.
  induction n as [|n IH]; simpl.
  { rewrite bool_decide_eq_false_2 by lia. done. }
  destruct a as [a1 a2]. rewrite lookup_insert, IH. simpl.
  destruct (decide ((b, n) = (a1, a2))) as [[= -> ->]|Hne].
  - rewrite bool_decide_eq_true_2 by lia. done.
  - replace (bool_decide (a1 = b /\ (a2 < S n)%nat)) with (bool_decide (a1 = b /\ (a2 < n)%nat));
      [done|].
    apply bool_decide_ext. split; [lia|]. intros [-> Hlt]. split; [done|].
    assert (n <> a2) by congruence. lia.
Qed.

(** A block of [n] fresh cells: the heap stays consistent. *)

Lemma kmm_malloc_spec f n :
  (0 < n)%nat -> heap_ok f ->
  exists f', kmm_malloc true (Z.of_nat n) f = Ret (Some (nblocks f, 0%nat), f') /\
    heap_ok (set_container_size (Z.of_nat n) (set_alloced (Some (nblocks f, 0%nat)) f')) /\
    mode f' = mode f /\ lock_empty f' = lock_empty f.
Proof.
  intros Hn [H1 H2]. unfold kmm_malloc. munfold. simpl. eexists. split; [reflexivity|].
  split_and!; try done. constructor; simpl.
  - intros a. rewrite block_cells_lookup. case_bool_decide as Hd; [lia|].
    intros Ha. specialize (H1 a Ha). lia.
  - intros p [= <-]. simpl. rewrite Nat2Z.id. split_and!; [done|lia|].
    intros i Hi. rewrite block_cells_lookup, bool_decide_eq_true_2 by (simpl; lia). eauto.
Qed.

Lemma kmm_free_spec f p :
  heap_ok f -> vbuf_alloced f = Some p ->
  exists f', kmm_free (Some p) f = Ret (tt, f') /\
    heap_ok (set_container_size 0 (set_alloced None f')) /\
    (forall i, cells f' !! (p.1, i) = None) /\
    f' = set_cells (cells f') f.
Proof.
  intros Hheap Hp. pose proof (ho_alloced f Hheap p Hp) as (Hp2 & Hs & Hc).
  destruct p as [b i]. simpl in *. subst i.
  unfold kmm_free. rewrite (bind_returns _ _ _ _ _ (deref_ok f (b, 0%nat) (Hc 0%nat ltac:(lia)))).
  eexists. split; [reflexivity|]. split_and!.
  - constructor; simpl; [|done]. intros a [c Ha].
    apply map_lookup_filter_Some in Ha as [Ha _]. apply (ho_blocks f Hheap). eauto.
  - intros i. simpl. apply map_lookup_filter_None. right. intros c _ Hne. by apply Hne.
  - done.
Qed.

Lemma alloc_new_spec f n :
  (0 < n)%nat -> heap_ok f ->
  exists f' b, alloc_new true (Z.of_nat n) f = Ret (OK, f') /\ heap_ok f' /\
    vbuf_alloced f' = Some (b, 0%nat) /\ container_size f' = Z.of_nat n /\
    lock_empty f' = lock_empty f /\ mode f' = mode f.
Proof.
  intros Hn Hf. unfold alloc_new. rewrite (proj2 (Z.ltb_lt 0 (Z.of_nat n))) by lia.
  destruct (kmm_malloc_spec f n Hn Hf) as (g & Hrun & Hh & Hm & Hl).
  rewrite (bind_returns _ _ _ _ _ Hrun). munfold. simpl.
  eexists _, _. split; [reflexivity|]. split_and!; done.
Qed.

Lemma realloc_block_spec f n :
  (0 < n)%nat -> heap_ok f ->
  exists f' b, realloc_block true (Z.of_nat n) f = Ret (OK, f') /\ heap_ok f' /\
    vbuf_alloced f' = Some (b, 0%nat) /\ container_size f' = Z.of_nat n /\
    lock_empty f' = lock_empty f /\ mode f' = mode f.
Proof.
  intros Hn Hheap. unfold realloc_block. rewrite (bind_returns _ _ _ f f eq_refl).
  destruct (container_size f =? Z.of_nat n) eqn:Es; to_prop; simpl.
  - rewrite orb_false_r. destruct (vbuf_alloced f) as [p|] eqn:Ea; simpl.
    + destruct p as [b i]. exists f, b.
      destruct (ho_alloced f Hheap _ Ea) as (Hi & _ & _). simpl in Hi. subst i. done.
    + rewrite (bind_returns _ _ f tt f eq_refl). by apply alloc_new_spec.
  - rewrite orb_true_r. destruct (vbuf_alloced f) as [p|] eqn:Ea; simpl.
    + destruct (kmm_free_spec f p Hheap Ea) as (g & Hrun & Hh & _ & Hg).
      destruct (alloc_new_spec _ n Hn Hh) as (f1 & b & Hf1 & Hrest).
      exists f1, b. split; [|by rewrite Hg in Hrest].
      rewrite <- Hf1. unfold mbind, M_bind. by rewrite Hrun.
    + destruct (alloc_new_spec (set_container_size 0 (set_alloced None f)) n Hn)
        as (f1 & b & Hf1 & Hrest).
      * destruct Hheap as [H1 H2]. by constructor.
      * exists f1, b. split; [|done]. rewrite <- Hf1. done.
Qed.

Lemma realloc_refines f (n : nat) :
  (0 < n <= 256)%nat -> heap_ok f -> lock_empty f = 1 ->
  exists f' b, video_framebuff_realloc_container true (Z.of_nat n) f = Ret (OK, f') /\
    fresh_chain f' b n /\ mode f' = mode f.
Proof.
  intros Hn Hheap Hk. unfold video_framebuff_realloc_container.
  destruct (V4L2_REQBUFS_COUNT_MAX <? Z.of_nat n) eqn:E1;
    unfold V4L2_REQBUFS_COUNT_MAX in *; to_prop; [lia|].
  destruct (realloc_block_spec f n ltac:(lia) Hheap) as (f1 & b & Hrun & Hh1 & Ha1 & Hs1 & Hk1 & Hm1).
  rewrite (bind_returns _ _ _ _ _ Hrun). simpl.
  destruct (cleanup_container_spec f1 b n) as (f2 & Hc & Hf & Hm); [lia|done|congruence|done..|].
  rewrite (bind_returns _ _ _ _ _ Hc). exists f2, b. split; [done|]. split; [done|congruence].
Qed.


(** ** Clients: sequences of operations

    A client (the video driver) holds the containers it has taken and not yet
    given back. *)

Inductive fb_op :=
  | FGet                  (** take a free container *)
  | FFree (x : vptr)      (** give a held one back *)
  | FQueue (x : vptr)     (** queue a held one for capture *)
  | FDq                   (** take the oldest captured one *)
  | FVacant               (** which one is to be filled next? *)
  | FCapture              (** the image is complete *)
  | FPop.                 (** take the first of the queue *)

Definition run_op (op : fb_op) : FB (option vptr) :=
  match op with
  | FGet => video_framebuff_get_container
  | FFree x => video_framebuff_free_container (Some x);; mret None
  | FQueue x => video_framebuff_queue_container (Some x);; mret None
  | FDq => video_framebuff_dq_valid_container
  | FVacant => video_framebuff_get_vacant_container
  | FCapture => video_framebuff_capture_done;; mret None
  | FPop => video_framebuff_pop_curr_container
  end.

Fixpoint run_ops (ops : list fb_op) : FB (list (option vptr)) :=
  match ops with
  | [] => mret []
  | op :: ops' => r ← run_op op; rs ← run_ops ops'; mret (r :: rs)
  end.

Record client := mk_client { cl_q : queue; cl_held : list vptr }.

Definition release (x : vptr) (l : list vptr) : list vptr := filter (fun y => y <> x) l.

Definition take_held (r : option vptr) (l : list vptr) : list vptr :=
  match r with Some x => x :: l | None => l end.

(** [None]: the client breaks the rules (uses a container it does not hold, or
    pops the container an image is being written to). *)

Definition spec_op (ring : bool) (op : fb_op) (c : client) : option (option vptr * client) :=
  let q := cl_q c in
  match op with
  | FGet => Some (fst (spec_get q), mk_client (snd (spec_get q)) (take_held (fst (spec_get q)) (cl_held c)))
  | FFree x =>
      if bool_decide (x ∈ cl_held c)
      then Some (None, mk_client (spec_free x q) (release x (cl_held c))) else None
  | FQueue x =>
      if bool_decide (x ∈ cl_held c)
      then Some (None, mk_client (spec_queue x q) (release x (cl_held c))) else None
  | FDq => Some (fst (spec_dq q), mk_client (snd (spec_dq q)) (take_held (fst (spec_dq q)) (cl_held c)))
  | FVacant => Some (head (vacant_q q), c)
  | FCapture => Some (None, mk_client (spec_capture ring q) (cl_held c))
  | FPop =>
      if bool_decide (done_q q <> []) || (length (vacant_q q) <=? 1)%nat
      then Some (fst (spec_pop q), mk_client (snd (spec_pop q)) (take_held (fst (spec_pop q)) (cl_held c)))
      else None
  end.

Fixpoint spec_ops (ring : bool) (ops : list fb_op) (c : client) :
    option (list (option vptr) * client) :=
  match ops with
  | [] => Some ([], c)
  | op :: ops' =>
      '(r, c1) ← spec_op ring op c;
      '(rs, c2) ← spec_ops ring ops' c1;
      Some (r :: rs, c2)
  end.

Definition all_of (c : client) : list vptr :=
  ((done_q (cl_q c) ++ vacant_q (cl_q c)) ++ free_q (cl_q c)) ++ cl_held c.

Record refines_client (f : video_framebuff) (c : client) : Prop := {
  rc_refines : refines f (cl_q c);
  rc_nodup : NoDup (all_of c);
  rc_held : forall x, x ∈ cl_held c -> is_Some (cells f !! x)
}.

Lemma held_detached f c x : refines_client f c -> x ∈ cl_held c -> detached f (cl_q c) x.
Proof.
  intros [_ Hnd Hh] Hx. split; [by apply Hh|]. unfold all_of in Hnd.
  apply NoDup_app in Hnd as (_ & Hdis & _). intros Hin. by apply (Hdis x Hin).
Qed.

(** Moving containers around keeps them distinct: every operation permutes. *)

Lemma release_notin x l : x ∉ l -> release x l = l.
Proof.
  unfold release. induction l as [|y l IH]; [done|].
  rewrite not_elem_of_cons, filter_cons. intros [Hne Hin].
  rewrite decide_True by done. by rewrite IH.
Qed.

Lemma release_perm x l : NoDup l -> x ∈ l -> x :: release x l ≡ₚ l.
Proof.
  intros Hnd Hx. induction l as [|y l IH]; [by apply elem_of_nil in Hx|].
  apply NoDup_cons in Hnd as [Hy Hnd]. unfold release. rewrite filter_cons. fold (release x l).
  destruct (decide (y = x)) as [->|Hne].
  - rewrite decide_False by naive_solver. by rewrite (release_notin x l Hy).
  - rewrite decide_True by done. apply elem_of_cons in Hx as [->|Hx]; [done|].
    rewrite Permutation_swap. f_equiv. by apply IH.
Qed.

Lemma spec_capture_perm ring a :
  done_q (spec_capture ring a) ++ vacant_q (spec_capture ring a) ≡ₚ done_q a ++ vacant_q a.
Proof.
  unfold spec_capture. destruct (vacant_q a) as [|v vs] eqn:Ev; [by rewrite Ev|].
  destruct (ring && bool_decide (vs = [])) eqn:E.
  - to_prop. subst vs. destruct (done_q a ++ [v]) as [|d ds] eqn:Eq; simpl.
    + by destruct (done_q a).
    + rewrite Permutation_app_comm. done.
  - simpl. by rewrite <- app_assoc.
Qed.

Lemma spec_capture_free ring a : free_q (spec_capture ring a) = free_q a.
Proof. unfold spec_capture. by repeat case_match. Qed.

Lemma spec_op_perm ring op c r c' :
  NoDup (all_of c) -> spec_op ring op c = Some (r, c') -> all_of c' ≡ₚ all_of c.
Proof.
  intros Hnd. assert (Hh : NoDup (cl_held c)) by (unfold all_of in Hnd; by apply NoDup_app in Hnd as (_ & _ & ?)).
  unfold all_of. destruct op; simpl; intros Hs; simplify_eq/=.
  - unfold spec_get. destruct (free_q (cl_q c)) eqn:Ef; simpl; rewrite ?Ef; [done|].
    rewrite <- !app_assoc. solve_Permutation.
  - case_bool_decide as Hx; simplify_eq/=. rewrite <- (release_perm x (cl_held c) Hh Hx) at 2.
    solve_Permutation.
  - case_bool_decide as Hx; simplify_eq/=. rewrite <- (release_perm x (cl_held c) Hh Hx) at 2.
    solve_Permutation.
  - unfold spec_dq. destruct (done_q (cl_q c)) eqn:Ed; simpl; rewrite ?Ed; [done|]. solve_Permutation.
  - done.
  - by rewrite spec_capture_perm, spec_capture_free.
  - case_match; simplify_eq/=. unfold spec_pop.
    destruct (done_q (cl_q c)) eqn:Ed; simpl; rewrite ?Ed; [|solve_Permutation].
    destruct (vacant_q (cl_q c)); simpl; [done|]. solve_Permutation.
Qed.

Lemma all_cells f c x : refines_client f c -> x ∈ all_of c -> is_Some (cells f !! x).
Proof.
  intros [Href _ Hh] Hx. unfold all_of in Hx. rewrite !elem_of_app in Hx.
  destruct Hx as [[Hx|Hx]|Hx]; [| |by apply Hh].
  - eapply path_lookup; [apply (ref_path _ _ Href)|]. by apply elem_of_app.
  - eapply path_lookup; [apply (ref_free _ _ Href)|done].
Qed.

Lemma run_op_simulates f c op r c' :
  refines_client f c -> spec_op (is_ring f) op c = Some (r, c') ->
  exists f', run_op op f = Ret (r, f') /\ refines_client f' c' /\ same_bufs f f'.
Proof.
  intros Hc Hs. pose proof (rc_refines _ _ Hc) as Href.
  enough (exists f', run_op op f = Ret (r, f') /\ refines f' (cl_q c') /\ same_bufs f f')
    as (f' & Hrun & Href' & Hsb).
  { exists f'. split; [done|]. split; [|done].
    pose proof (spec_op_perm _ _ _ _ _ (rc_nodup _ _ Hc) Hs) as Hperm.
    constructor; [done| |].
    - rewrite Hperm. apply (rc_nodup _ _ Hc).
    - intros x Hx. apply (same_bufs_cell f f' x Hsb), (all_cells f c x Hc).
      rewrite <- Hperm. unfold all_of. apply elem_of_app. by right. }
  destruct op as [|x|x| | | |]; simpl in Hs.
  - simplify_eq. destruct (get_container_refines f (cl_q c) Href) as (f' & ? & ? & ? & _). by exists f'.
  - case_bool_decide as Hx; simplify_eq.
    destruct (free_container_refines f (cl_q c) x Href (held_detached f c x Hc Hx))
      as (f' & Hrun & ? & ? & _).
    exists f'. split; [|done]. simpl. by rewrite (bind_returns _ _ _ _ _ Hrun).
  - case_bool_decide as Hx; simplify_eq.
    destruct (queue_container_refines f (cl_q c) x Href (held_detached f c x Hc Hx))
      as (f' & Hrun & ? & ? & _).
    exists f'. split; [|done]. simpl. by rewrite (bind_returns _ _ _ _ _ Hrun).
  - simplify_eq. destruct (dq_valid_refines f (cl_q c) Href) as (f' & ? & ? & ? & _). by exists f'.
  - simplify_eq. exists (set_curr (vbuf_next f) f). simpl. split_and!.
    + unfold video_framebuff_get_vacant_container. munfold. simpl. by rewrite (ref_next _ _ Href).
    + destruct Href. by constructor.
    + by constructor.
  - simplify_eq. destruct (capture_done_refines f (cl_q c) Href) as (f' & Hrun & ? & ? & _).
    exists f'. split; [|done]. simpl. by rewrite (bind_returns _ _ _ _ _ Hrun).
  - case_match eqn:E; simplify_eq. apply orb_true_iff in E.
    destruct (pop_curr_refines f (cl_q c) Href) as (f' & ? & ? & ? & _); [|by exists f'].
    destruct E as [E|E]; [left; by apply bool_decide_eq_true in E|right; by apply Nat.leb_le in E].
Qed.

Lemma run_ops_simulates ops f c rs c' :
  refines_client f c -> spec_ops (is_ring f) ops c = Some (rs, c') ->
  exists f', run_ops ops f = Ret (rs, f') /\ refines_client f' c' /\ same_bufs f f'.
Proof.
  revert f c rs. induction ops as [|op ops IH]; intros f c rs Hrep Hspec; simpl in *.
  { simplify_eq. by exists f. }
  destruct (spec_op (is_ring f) op c) as [[r c1]|] eqn:E1; [|done]. simpl in Hspec.
  destruct (spec_ops (is_ring f) ops c1) as [[rs1 c2]|] eqn:E2; simplify_eq/=.
  destruct (run_op_simulates f c op r c1 Hrep E1) as (f1 & Hrun & Hrep1 & Hsb1).
  rewrite <- (same_bufs_ring f f1 Hsb1) in E2.
  destruct (IH f1 c1 rs1 Hrep1 E2) as (f2 & Hrun2 & Hrep2 & Hsb2).
  exists f2. rewrite (bind_returns _ _ _ _ _ Hrun), (bind_returns _ _ _ _ _ Hrun2).
  split; [done|]. split; [done|]. by transitivity f1.
Qed.

(** C2: The pointer code implements the queue: whatever a client does with
    the frame buffer, as long as it queues and frees only containers it holds
    and does not pop the container being filled, every call returns, returns
    what the specification says, and leaves chains that represent the
    specification's queue; the content of the containers is not touched. *)
Theorem framebuff_simulation ops f c rs c'
    (Hrep : refines_client f c) (Hspec : spec_ops (is_ring f) ops c = Some (rs, c')) :
  exists f', run_ops ops f = Ret (rs, f') /\ refines_client f' c' /\ same_bufs f f'.
Proof. by apply (run_ops_simulates ops f c). Qed.

(** ** What the queue promises *)

(** The containers a sequence of operations queues, and those it dequeues. *)

Fixpoint queued (ops : list fb_op) : list vptr :=
  match ops with
  | [] => []
  | FQueue x :: ops' => x :: queued ops'
  | _ :: ops' => queued ops'
  end.

Fixpoint dequeued (ops : list fb_op) (rs : list (option vptr)) : list vptr :=
  match ops, rs with
  | FDq :: ops', Some x :: rs' => x :: dequeued ops' rs'
  | FPop :: ops', Some x :: rs' => x :: dequeued ops' rs'
  | _ :: ops', _ :: rs' => dequeued ops' rs'
  | _, _ => []
  end.

Lemma spec_fifo_order ops c rs c' :
  spec_ops false ops c = Some (rs, c') ->
  (done_q (cl_q c) ++ vacant_q (cl_q c)) ++ queued ops =
  dequeued ops rs ++ (done_q (cl_q c') ++ vacant_q (cl_q c')).
Proof.
  revert c rs. induction ops as [|op ops IH]; intros c rs Hs; simpl in *; [simplify_eq; by rewrite app_nil_r|].
  destruct (spec_op false op c) as [[r c1]|] eqn:E1; [|done]. simpl in Hs.
  destruct (spec_ops false ops c1) as [[rs1 c2]|] eqn:E2; simplify_eq/=.
  specialize (IH c1 rs1 E2). destruct op; simpl in *; simplify_eq/=.
  - rewrite <- IH. unfold spec_get. by case_match.
  - case_bool_decide; simplify_eq/=. done.
  - case_bool_decide; simplify_eq/=. rewrite <- IH. by rewrite <- !app_assoc.
  - unfold spec_dq in *. destruct (done_q (cl_q c)) eqn:Ed; simpl in *; rewrite <- ?IH, ?Ed; done.
  - done.
  - rewrite <- IH. unfold spec_capture. destruct (vacant_q (cl_q c)) eqn:Ev; simpl; rewrite ?Ev; [done|].
    by rewrite <- !app_assoc.
  - case_match; simplify_eq/=. unfold spec_pop in *.
    destruct (done_q (cl_q c)) eqn:Ed; simpl in *; [|by rewrite <- IH].
    destruct (vacant_q (cl_q c)) eqn:Ev; simpl in *; by rewrite <- IH.
Qed.

(** A FIFO loses nothing and keeps the order: starting from an empty
    queue, the containers the calls have returned, followed by those still in
    the queue, are the containers that were queued, in that order. *)
Theorem fifo_order ops f c rs c'
    (Hrep : refines_client f c) (Hfifo : is_ring f = false)
    (Hempty : done_q (cl_q c) ++ vacant_q (cl_q c) = [])
    (Hspec : spec_ops false ops c = Some (rs, c')) :
  exists f', run_ops ops f = Ret (rs, f') /\
    exists rest, queued ops = dequeued ops rs ++ rest /\
      path (cells f') rest None /\ vbuf_top f' = head rest.
Proof.
  rewrite <- Hfifo in Hspec.
  destruct (run_ops_simulates ops f c rs c' Hrep Hspec) as (f' & Hrun & [Href _ _] & Hsb).
  exists f'. split; [done|]. exists (done_q (cl_q c') ++ vacant_q (cl_q c')).
  rewrite Hfifo in Hspec. pose proof (spec_fifo_order ops c rs c' Hspec) as Hord.
  rewrite Hempty in Hord. split; [done|].
  pose proof (ref_path _ _ Href) as Hp. rewrite (same_bufs_ring f f' Hsb), Hfifo in Hp.
  split; [done|]. apply (ref_top _ _ Href).
Qed.

(** Captures without a dequeue, in a ring. *)

Definition rot1 (q : list vptr) : list vptr :=
  match q with [] => [] | x :: q' => q' ++ [x] end.

Lemma length_rot1 q : length (rot1 q) = length q.
Proof. destruct q; simpl; [done|]. rewrite length_app. simpl. lia. Qed.

Lemma spec_captures k c :
  vacant_q (cl_q c) <> [] ->
  exists c', spec_ops true (replicate k FCapture) c = Some (replicate k None, c') /\
    done_q (cl_q c') ++ vacant_q (cl_q c') =
      Nat.iter (k - (length (vacant_q (cl_q c)) - 1)) rot1 (done_q (cl_q c) ++ vacant_q (cl_q c)) /\
    length (done_q (cl_q c')) =
      Nat.min (length (done_q (cl_q c)) + k) (length (done_q (cl_q c) ++ vacant_q (cl_q c)) - 1) /\
    vacant_q (cl_q c') <> [].
Proof.
  revert c. induction k as [|k IH]; intros c Hv; simpl.
  { exists c. split_and!; try done. rewrite length_app.
    destruct (vacant_q (cl_q c)); [done|simpl; lia]. }
  destruct (vacant_q (cl_q c)) as [|v vs] eqn:Ev; [done|]. clear Hv.
  set (c1 := mk_client (spec_capture true (cl_q c)) (cl_held c)).
  assert (Hv1 : vacant_q (cl_q c1) <> [] /\
    done_q (cl_q c1) ++ vacant_q (cl_q c1) =
      (if vs is [] then rot1 (done_q (cl_q c) ++ [v]) else done_q (cl_q c) ++ v :: vs) /\
    length (vacant_q (cl_q c1)) = Nat.max 1 (length vs)).
  { unfold c1, spec_capture. rewrite Ev. destruct vs as [|w ws]; simpl.
    - destruct (done_q (cl_q c) ++ [v]) as [|d ds] eqn:Eq; [by destruct (done_q (cl_q c))|]. done.
    - rewrite <- app_assoc. done. }
  destruct Hv1 as (Hne & Hq & Hl).
  destruct (IH c1 Hne) as (c' & Hrun & Hq' & Hl' & Hne').
  exists c'. unfold mbind, option_bind. simpl. rewrite Hrun. split; [done|].
  rewrite Hq', Hl', Hl, Hq. assert (Hlen := f_equal length Hq). rewrite length_app, Hl in Hlen.
  split; [|split; [|done]].
  - destruct vs as [|w ws]; simpl.
    + rewrite !Nat.sub_0_r, <- Nat.iter_succ_r. done.
    + f_equal. lia.
  - destruct vs as [|w ws]; [rewrite length_rot1 in *|]; rewrite !length_app in *; simpl in *; lia.
Qed.

(** A ring always holds the newest images: after any number [k] of
    completed images the queue is the original one advanced by one container
    for each image that found no other vacant container; at most all but one of
    the containers hold images, and there is always one to write the next
    image to. *)
Theorem ring_keeps_newest k f c
    (Hrep : refines_client f c) (Hring : is_ring f = true)
    (Hvac : vacant_q (cl_q c) <> []) :
  exists f' q', run_ops (replicate k FCapture) f = Ret (replicate k None, f') /\
    refines f' q' /\
    done_q q' ++ vacant_q q' =
      Nat.iter (k - (length (vacant_q (cl_q c)) - 1)) rot1 (done_q (cl_q c) ++ vacant_q (cl_q c)) /\
    length (done_q q') =
      Nat.min (length (done_q (cl_q c)) + k) (length (done_q (cl_q c) ++ vacant_q (cl_q c)) - 1) /\
    vbuf_next f' <> None.
Proof.
  destruct (spec_captures k c Hvac) as (c' & Hspec & Hq & Hl & Hne).
  rewrite <- Hring in Hspec.
  destruct (run_ops_simulates _ f c _ c' Hrep Hspec) as (f' & Hrun & [Href _ _] & _).
  exists f', (cl_q c'). split_and!; try done.
  rewrite (ref_next _ _ Href). by destruct (vacant_q (cl_q c')).
Qed.

(** A request for [n] buffers (1 to 256) that the heap can satisfy always
    succeeds, whatever was allocated before, and leaves [n] distinct, zeroed,
    free containers in one block and nothing queued. *)
Theorem realloc_fresh f (n : nat)
    (Hn : (0 < n <= 256)%nat) (Hheap : heap_ok f) (Hlock : lock_empty f = 1) :
  exists f' b, video_framebuff_realloc_container true (Z.of_nat n) f = Ret (OK, f') /\
    fresh_chain f' b n /\ mode f' = mode f.
Proof. by apply realloc_refines. Qed.

(** A request for zero buffers frees the block but leaves the free chain
    pointing into it: the next attempt to take a container reads freed memory. *)
Theorem realloc_zero_dangles f b n malloc_ok
    (Hfresh : fresh_chain f b n) (Hn : (0 < n)%nat) :
  (video_framebuff_realloc_container malloc_ok 0 ≫= fun _ => video_framebuff_get_container) f
  = Ub DanglingDeref.
Proof.
  destruct Hfresh as [Href Hheap _ Ha Hs _].
  destruct (kmm_free_spec f (b, 0%nat) Hheap Ha) as (g & Hrun & _ & Hnone & Hg). simpl in Hnone.
  assert (Hblock : realloc_block malloc_ok 0 f =
    Ret (OK, set_container_size 0 (set_container_size 0 (set_alloced None g)))).
  { unfold realloc_block. rewrite (bind_returns _ _ _ f f eq_refl), Ha, Hs.
    replace (Z.of_nat n =? 0) with false by (symmetry; apply Z.eqb_neq; lia).
    rewrite orb_true_r. cbn [negb].
    rewrite (bind_returns _ _ f tt (set_container_size 0 (set_alloced None g))); [done|].
    unfold returns. by rewrite (bind_returns _ _ _ _ _ Hrun). }
  assert (Hre : video_framebuff_realloc_container malloc_ok 0 f =
    Ret (OK, set_container_size 0 (set_container_size 0 (set_alloced None g)))).
  { unfold video_framebuff_realloc_container. cbn [Z.ltb Z.compare V4L2_REQBUFS_COUNT_MAX].
    by rewrite (bind_returns _ _ _ _ _ Hblock). }
  rewrite (bind_returns _ _ _ _ _ Hre).
  destruct n as [|n]; [lia|].
  unfold video_framebuff_get_container, lock, unlock. munfold.
  rewrite Hg. simpl. rewrite (ref_lock _ _ Href). simpl. rewrite (ref_empty _ _ Href). simpl.
  unfold load_next. munfold. simpl. by rewrite Hnone.
Qed.

(** *** Witnesses: three containers *)

Definition ready (n : Z) : video_framebuff :=
  match (video_framebuff_init;; video_framebuff_realloc_container true n) zero_framebuff with
  | Ret (_, f) => f
  | _ => zero_framebuff
  end.

Lemma zero_heap_ok f : cells f = ∅ -> vbuf_alloced f = None -> heap_ok f.
Proof.
  intros Hc Ha. constructor; [|by rewrite Ha].
  intros a. rewrite Hc, lookup_empty. by intros [? ?].
Qed.

Lemma ready_fresh (n : nat) : (0 < n <= 256)%nat ->
  exists b, fresh_chain (ready (Z.of_nat n)) b n.
Proof.
  intros Hn. set (f0 := set_lock_empty 1 zero_framebuff).
  destruct (realloc_refines f0 n Hn) as (f' & b & Hrun & Hf & _).
  - by apply zero_heap_ok.
  - done.
  - exists b. unfold ready.
    replace ((video_framebuff_init;; video_framebuff_realloc_container true (Z.of_nat n)) zero_framebuff)
      with (video_framebuff_realloc_container true (Z.of_nat n) f0) by done.
    by rewrite Hrun.
Qed.

Lemma ready_client (n : nat) : (0 < n <= 256)%nat ->
  exists b, refines_client (ready (Z.of_nat n)) (mk_client (mk_queue [] [] (block_list b 0 n)) []).
Proof.
  intros Hn. destruct (ready_fresh n Hn) as [b [Href _ _ _ _ _]]. exists b.
  constructor; [done| |].
  - unfold all_of. simpl. rewrite app_nil_r. apply block_list_nodup.
  - intros x Hx. by apply elem_of_nil in Hx.
Qed.

Lemma ready3_client : refines_client (ready 3) (mk_client (mk_queue [] [] (block_list 0 0 3)) []).
Proof.
  destruct (ready_client 3 ltac:(lia)) as [b Hb].
  assert (b = 0%nat) as ->; [|done].
  pose proof (ref_empty _ _ (rc_refines _ _ Hb)) as He. vm_compute in He. congruence.
Qed.

(** Queue two, capture both, take the first one back. *)

Definition demo_ops : list fb_op :=
  [FGet; FGet; FQueue (0, 0)%nat; FQueue (0, 1)%nat; FVacant; FCapture; FVacant; FDq].

Lemma framebuff_simulation_witness :
  exists rs f' c', spec_ops (is_ring (ready 3)) demo_ops
      (mk_client (mk_queue [] [] (block_list 0 0 3)) []) = Some (rs, c') /\
    run_ops demo_ops (ready 3) = Ret (rs, f') /\ last rs = Some (Some (0, 0)%nat).
Proof.
  destruct (spec_ops (is_ring (ready 3)) demo_ops
    (mk_client (mk_queue [] [] (block_list 0 0 3)) [])) as [[rs c']|] eqn:Hs;
    [|vm_compute in Hs; discriminate].
  destruct (framebuff_simulation demo_ops (ready 3) _ rs c' ready3_client Hs) as (f' & Hrun & _ & _).
  exists rs, f', c'. split; [reflexivity|]. split; [exact Hrun|].
  vm_compute in Hs. injection Hs as <- _. reflexivity.
Defined.

Lemma refines_client_mode f m free :
  refines_client f (mk_client (mk_queue [] [] free) []) ->
  refines_client (set_mode m f) (mk_client (mk_queue [] [] free) []).
Proof. intros [[] Hnd Hh]. constructor; [by constructor|done|done]. Qed.

Lemma fifo_client :
  refines_client (set_mode 1 (ready 3)) (mk_client (mk_queue [] [] (block_list 0 0 3)) []).
Proof. apply refines_client_mode, ready3_client. Qed.

Lemma fifo_order_witness :
  exists rs f', run_ops demo_ops (set_mode 1 (ready 3)) = Ret (rs, f') /\
    exists rest, queued demo_ops = dequeued demo_ops rs ++ rest /\ vbuf_top f' = head rest.
Proof.
  destruct (spec_ops false demo_ops (mk_client (mk_queue [] [] (block_list 0 0 3)) []))
    as [[rs c']|] eqn:Hs; [|vm_compute in Hs; discriminate].
  destruct (fifo_order demo_ops (set_mode 1 (ready 3)) _ rs c' fifo_client) as (f' & Hrun & rest & Hq & _ & Ht).
  - reflexivity.
  - reflexivity.
  - exact Hs.
  - exists rs, f'. split; [exact Hrun|]. exists rest. split; [exact Hq|exact Ht].
Defined.

(** Three vacant containers in a ring: queue all, then five images. *)

Definition ring3 : video_framebuff :=
  match run_ops [FGet; FGet; FGet; FQueue (0, 0)%nat; FQueue (0, 1)%nat; FQueue (0, 2)%nat] (ready 3) with
  | Ret (_, f) => f
  | _ => zero_framebuff
  end.

Lemma ring3_client :
  refines_client ring3 (mk_client (mk_queue [] (block_list 0 0 3) []) []).
Proof.
  destruct (run_ops_simulates
    [FGet; FGet; FGet; FQueue (0, 0)%nat; FQueue (0, 1)%nat; FQueue (0, 2)%nat]
    (ready 3) _ [Some (0, 0)%nat; Some (0, 1)%nat; Some (0, 2)%nat; None; None; None]
    (mk_client (mk_queue [] (block_list 0 0 3) []) []) ready3_client) as (f' & Hrun & Hc & _).
  - vm_compute. reflexivity.
  - unfold ring3. by rewrite Hrun.
Qed.

Lemma ring_keeps_newest_witness :
  exists f' q', run_ops (replicate 5 FCapture) ring3 = Ret (replicate 5 None, f') /\
    done_q q' ++ vacant_q q' = [(0, 0); (0, 1); (0, 2)]%nat /\ length (done_q q') = 2%nat.
Proof.
  destruct (ring_keeps_newest 5 ring3 _ ring3_client) as (f' & q' & Hrun & _ & Hq & Hl & _).
  - vm_compute. reflexivity.
  - discriminate.
  - exists f', q'. split; [exact Hrun|]. split; [exact Hq|exact Hl].
Defined.

Lemma realloc_fresh_witness :
  exists f' b, video_framebuff_realloc_container true 5 (ready 3) = Ret (OK, f') /\
    fresh_chain f' b 5.
Proof.
  destruct (ready_fresh 3 ltac:(lia)) as [b0 Hf].
  destruct (realloc_fresh (ready 3) 5) as (f' & b & Hrun & Hfc & _).
  - lia.
  - exact (fc_heap _ _ _ Hf).
  - reflexivity.
  - exists f', b. split; [exact Hrun|exact Hfc].
Defined.

Lemma realloc_zero_dangles_witness :
  (video_framebuff_realloc_container true 0 ≫= fun _ => video_framebuff_get_container) (ready 3)
  = Ub DanglingDeref.
Proof.
  destruct (ready_fresh 3 ltac:(lia)) as [b Hf].
  apply (realloc_zero_dangles (ready 3) b 3 true Hf). lia.
Defined.

End FrameBuff.
