(* ===== verification/VideoState.v ===== *)
(** * The state of the video driver and its devices

    [src/spresense/nuttx/drivers/video/video.c], "Private Types" and "Private
    Data", and the interfaces of the devices below it
    ([include/nuttx/video/imgsensor.h], [imgdata.h]). *)

From S2P Require Import Prelude FrameBuff.
Import FrameBuff.

Module VideoState.

(** ** Constants *)

(** [enum v4l2_buf_type] (the supported ones) *)

Definition V4L2_BUF_TYPE_VIDEO_CAPTURE : Z := 1.
Definition V4L2_BUF_TYPE_STILL_CAPTURE : Z := 129.
Definition V4L2_MEMORY_USERPTR : Z := 2.
Definition V4L2_BUF_FLAG_ERROR : Z := 1.
Definition V4L2_FIELD_ANY : Z := 0.

Definition VIDEO_HSIZE_QVGA : Z := 320.
Definition VIDEO_VSIZE_QVGA : Z := 240.
Definition VIDEO_HSIZE_VGA : Z := 640.
Definition VIDEO_VSIZE_VGA : Z := 480.

(** [v4l2_fourcc] *)

Definition v4l2_fourcc (a b c d : Z) : Z :=
  Z.lor (Z.lor a (Z.shiftl b 8)) (Z.lor (Z.shiftl c 16) (Z.shiftl d 24)).

Definition V4L2_PIX_FMT_UYVY : Z := v4l2_fourcc 85 89 86 89.
Definition V4L2_PIX_FMT_RGB565 : Z := v4l2_fourcc 82 71 66 80.
Definition V4L2_PIX_FMT_JPEG : Z := v4l2_fourcc 74 80 69 71.
Definition V4L2_PIX_FMT_JPEG_WITH_SUBIMG : Z := v4l2_fourcc 74 83 85 66.
Definition V4L2_PIX_FMT_SUBIMG_UYVY : Z := v4l2_fourcc 83 89 85 86.
Definition V4L2_PIX_FMT_SUBIMG_RGB565 : Z := v4l2_fourcc 83 82 71 66.

(** ** Formats *)

Record video_format := mk_format { f_width : Z; f_height : Z; f_pixelformat : Z }.
Record v4l2_rect := mk_rect { r_left : Z; r_top : Z; r_width : Z; r_height : Z }.
Record v4l2_fract := mk_fract { numerator : Z; denominator : Z }.

Definition zero_format : video_format := mk_format 0 0 0.
Definition zero_rect : v4l2_rect := mk_rect 0 0 0 0.
Definition zero_fract : v4l2_fract := mk_fract 0 0.

#[global] Instance video_format_eq_dec : EqDecision video_format.
Proof. solve_decision. Defined.
#[global] Instance v4l2_fract_eq_dec : EqDecision v4l2_fract.
Proof. solve_decision. Defined.

(** ** Controls *)

(** [imgsensor_supported_value_t]: the type and the three members of the union. *)

Record capability_range := mk_range {
  rg_minimum : Z; rg_maximum : Z; rg_step : Z; rg_default : Z }.
Record capability_discrete := mk_discrete { dc_values : list Z; dc_default : Z }.
Record capability_elems := mk_elems {
  el_nr_elems : Z; el_minimum : Z; el_maximum : Z; el_step : Z }.

Record supported_value := mk_supported {
  sv_type : Z;
  sv_range : capability_range;
  sv_discrete : capability_discrete;
  sv_elems : capability_elems
}.

Definition IMGSENSOR_CTRL_TYPE_INTEGER_MENU : Z := 9.
Definition IMGSENSOR_CTRL_TYPE_U8 : Z := 256.
Definition IMGSENSOR_CTRL_TYPE_U16 : Z := 257.
Definition IMGSENSOR_CTRL_TYPE_U32 : Z := 258.

(** [imgsensor_value_t] and the value union of [struct v4l2_ext_control]: its
    64 bits, and the array a pointer member points to. *)

Record value_union := mk_value { v_bits : Z; v_mem : list Z }.

(** The [int32_t] member lies over the low word (the target is little-endian). *)

Definition v_int (v : value_union) : Z := i32 (v_bits v).
Definition v_set_int (x : Z) (v : value_union) : value_union :=
  mk_value (u64 (v_bits v) / 4294967296 * 4294967296 + u32 x) (v_mem v).

(** ** The devices

    A device answers according to its arguments and to the calls it has seen;
    [history] is the list of these calls, the latest first. *)

Inductive dev_call :=
  | SensorInit
  | SensorUninit
  | SensorStart (type nr : Z) (fmts : list video_format) (interval : v4l2_fract)
  | SensorSetValue (id size : Z) (v : value_union)
  | DataInit
  | DataUninit
  | DataStart (nr : Z) (fmts : list video_format) (interval : v4l2_fract)
  | DataSetBuf (addr size : Z)
  | DataStop
  | HeapAlloc (size : Z).

Definition history : Type := list dev_call.

(** [struct imgsensor_ops_s]; a member that may be [NULL] is an option. *)

Record imgsensor_ops := {
  so_is_available : history -> bool;
  so_init : history -> Z;
  so_uninit : history -> Z;
  so_get_driver_name : option (list Z);
  so_validate_frame_setting :
    option (history -> Z -> Z -> list video_format -> v4l2_fract -> Z);
  so_start_capture :
    option (history -> Z -> Z -> list video_format -> v4l2_fract -> Z);
  so_get_frame_interval : option (history -> Z -> Z * v4l2_fract);
  so_get_supported_value : option (history -> Z -> Z * supported_value);
  so_get_value : option (history -> Z -> Z -> value_union -> Z * value_union);
  so_set_value : option (history -> Z -> Z -> value_union -> Z)
}.

(** [struct imgdata_ops_s] (the members the driver uses) *)

Record imgdata_ops := {
  do_init : history -> Z;
  do_uninit : history -> Z;
  do_set_buf : option (history -> Z -> Z -> Z);
  do_validate_frame_setting : option (history -> Z -> list video_format -> v4l2_fract -> Z);
  do_start_capture : option (history -> Z -> list video_format -> v4l2_fract -> Z);
  do_stop_capture : history -> Z
}.

(** ** Scene parameters: [struct video_scene_params_s]

    [gamma_curve] points to a heap block, to nothing, or to a block that was freed. *)

Inductive gamma_ptr :=
  | GammaNull
  | GammaLive (bytes : list Z)
  | GammaFreed.

Record scene_params := mk_scene {
  sc_mode : Z;
  sc_brightness : Z;
  sc_contrast : Z;
  sc_saturation : Z;
  sc_hue : Z;
  sc_awb : bool;
  sc_red : Z;
  sc_blue : Z;
  sc_gamma : Z;
  sc_gamma_curve_sz : Z;
  sc_gamma_curve : gamma_ptr;
  sc_ev : Z;
  sc_hflip_video : bool;
  sc_vflip_video : bool;
  sc_hflip_still : bool;
  sc_vflip_still : bool;
  sc_sharpness : Z;
  sc_colorfx : Z;
  sc_auto_brightness : bool;
  sc_rotate : Z;
  sc_ae : Z;
  sc_exposure_time : Z;
  sc_focus : Z;
  sc_af : bool;
  sc_zoom : Z;
  sc_iris : Z;
  sc_wb : Z;
  sc_wdr : Z;
  sc_stabilization : bool;
  sc_iso_auto : Z;
  sc_iso : Z;
  sc_meter : Z;
  sc_threea_lock : Z;
  sc_led : Z;
  sc_jpeg_quality : Z
}.

(** ** Streams *)

(** [enum video_state_e] *)

Inductive video_state :=
  | VIDEO_STATE_STREAMOFF
  | VIDEO_STATE_STREAMON
  | VIDEO_STATE_CAPTURE.

(** [enum video_state_transition_cause] *)

Inductive transition_cause :=
  | CAUSE_VIDEO_STOP
  | CAUSE_VIDEO_START
  | CAUSE_VIDEO_DQBUF
  | CAUSE_STILL_STOP
  | CAUSE_STILL_START.

(** [enum video_waitend_cause_e] *)

Inductive waitend_cause :=
  | VIDEO_WAITEND_CAUSE_CAPTUREDONE
  | VIDEO_WAITEND_CAUSE_DQCANCEL
  | VIDEO_WAITEND_CAUSE_STILLSTOP.

#[global] Instance video_state_eq_dec : EqDecision video_state.
Proof. solve_decision. Defined.
#[global] Instance waitend_cause_eq_dec : EqDecision waitend_cause.
Proof. solve_decision. Defined.

Definition VIDEO_REMAINING_CAPNUM_INFINITY : Z := -1.

(** [struct video_type_inf_s]; [wait_capture] is spread over three fields. *)

Record video_type_inf := mk_inf {
  lock_state : Z;
  ti_state : video_state;
  remaining_capnum : Z;
  dqbuf_wait_flg : Z;
  done_container : option vptr;
  wait_cause : waitend_cause;
  nr_fmt : Z;
  fmt_main : video_format;
  fmt_sub : video_format;
  ti_clip : v4l2_rect;
  frame_interval : v4l2_fract;
  bufinf : video_framebuff
}.

Definition set_lock_state v t := mk_inf v (ti_state t) (remaining_capnum t) (dqbuf_wait_flg t)
  (done_container t) (wait_cause t) (nr_fmt t) (fmt_main t) (fmt_sub t) (ti_clip t) (frame_interval t) (bufinf t).
Definition set_state v t := mk_inf (lock_state t) v (remaining_capnum t) (dqbuf_wait_flg t)
  (done_container t) (wait_cause t) (nr_fmt t) (fmt_main t) (fmt_sub t) (ti_clip t) (frame_interval t) (bufinf t).
Definition set_capnum v t := mk_inf (lock_state t) (ti_state t) v (dqbuf_wait_flg t)
  (done_container t) (wait_cause t) (nr_fmt t) (fmt_main t) (fmt_sub t) (ti_clip t) (frame_interval t) (bufinf t).
Definition set_wait_flg v t := mk_inf (lock_state t) (ti_state t) (remaining_capnum t) v
  (done_container t) (wait_cause t) (nr_fmt t) (fmt_main t) (fmt_sub t) (ti_clip t) (frame_interval t) (bufinf t).
Definition set_done v t := mk_inf (lock_state t) (ti_state t) (remaining_capnum t) (dqbuf_wait_flg t)
  v (wait_cause t) (nr_fmt t) (fmt_main t) (fmt_sub t) (ti_clip t) (frame_interval t) (bufinf t).
Definition set_cause v t := mk_inf (lock_state t) (ti_state t) (remaining_capnum t) (dqbuf_wait_flg t)
  (done_container t) v (nr_fmt t) (fmt_main t) (fmt_sub t) (ti_clip t) (frame_interval t) (bufinf t).
Definition set_nr_fmt v t := mk_inf (lock_state t) (ti_state t) (remaining_capnum t) (dqbuf_wait_flg t)
  (done_container t) (wait_cause t) v (fmt_main t) (fmt_sub t) (ti_clip t) (frame_interval t) (bufinf t).
Definition set_fmt_main v t := mk_inf (lock_state t) (ti_state t) (remaining_capnum t) (dqbuf_wait_flg t)
  (done_container t) (wait_cause t) (nr_fmt t) v (fmt_sub t) (ti_clip t) (frame_interval t) (bufinf t).
Definition set_fmt_sub v t := mk_inf (lock_state t) (ti_state t) (remaining_capnum t) (dqbuf_wait_flg t)
  (done_container t) (wait_cause t) (nr_fmt t) (fmt_main t) v (ti_clip t) (frame_interval t) (bufinf t).
Definition set_clip v t := mk_inf (lock_state t) (ti_state t) (remaining_capnum t) (dqbuf_wait_flg t)
  (done_container t) (wait_cause t) (nr_fmt t) (fmt_main t) (fmt_sub t) v (frame_interval t) (bufinf t).
Definition set_interval v t := mk_inf (lock_state t) (ti_state t) (remaining_capnum t) (dqbuf_wait_flg t)
  (done_container t) (wait_cause t) (nr_fmt t) (fmt_main t) (fmt_sub t) (ti_clip t) v (bufinf t).
Definition set_bufinf v t := mk_inf (lock_state t) (ti_state t) (remaining_capnum t) (dqbuf_wait_flg t)
  (done_container t) (wait_cause t) (nr_fmt t) (fmt_main t) (fmt_sub t) (ti_clip t) (frame_interval t) v.

(** The two streams of a device, as [get_video_type_inf] selects them. *)

Inductive stream := SVideo | SStill.

#[global] Instance stream_eq_dec : EqDecision stream.
Proof. solve_decision. Defined.

(** [struct video_mng_s] and the file-scope variables, the calls the devices
    have seen, and the user heap: [malloc_ h n] is the block [malloc(n)] gives
    after the calls [h] (its bytes are whatever they were), [None] when it
    gives [NULL]. *)

Record vdrv := mk_drv {
  lock_open_num : Z;
  open_num : Z;
  video_inf : video_type_inf;
  still_inf : video_type_inf;
  g_video_scene_mode : Z;
  g_video_scene_parameter : list scene_params;
  g_video_registered_sensor : list imgsensor_ops;
  g_video_sensor_ops : option imgsensor_ops;
  g_video_data_ops : option imgdata_ops;
  hist : history;
  malloc_ : history -> Z -> option (list Z)
}.

Definition inf (s : stream) (d : vdrv) : video_type_inf :=
  match s with SVideo => video_inf d | SStill => still_inf d end.

Definition set_inf (s : stream) (t : video_type_inf) (d : vdrv) : vdrv :=
  match s with
  | SVideo => mk_drv (lock_open_num d) (open_num d) t (still_inf d) (g_video_scene_mode d)
      (g_video_scene_parameter d) (g_video_registered_sensor d) (g_video_sensor_ops d)
      (g_video_data_ops d) (hist d) (malloc_ d)
  | SStill => mk_drv (lock_open_num d) (open_num d) (video_inf d) t (g_video_scene_mode d)
      (g_video_scene_parameter d) (g_video_registered_sensor d) (g_video_sensor_ops d)
      (g_video_data_ops d) (hist d) (malloc_ d)
  end.

Definition upd_inf (s : stream) (g : video_type_inf -> video_type_inf) (d : vdrv) : vdrv :=
  set_inf s (g (inf s d)) d.

Definition set_lock_open v d := mk_drv v (open_num d) (video_inf d) (still_inf d)
  (g_video_scene_mode d) (g_video_scene_parameter d) (g_video_registered_sensor d)
  (g_video_sensor_ops d) (g_video_data_ops d) (hist d) (malloc_ d).
Definition set_open_num v d := mk_drv (lock_open_num d) v (video_inf d) (still_inf d)
  (g_video_scene_mode d) (g_video_scene_parameter d) (g_video_registered_sensor d)
  (g_video_sensor_ops d) (g_video_data_ops d) (hist d) (malloc_ d).
Definition set_scene_mode v d := mk_drv (lock_open_num d) (open_num d) (video_inf d) (still_inf d)
  v (g_video_scene_parameter d) (g_video_registered_sensor d)
  (g_video_sensor_ops d) (g_video_data_ops d) (hist d) (malloc_ d).
Definition set_scenes v d := mk_drv (lock_open_num d) (open_num d) (video_inf d) (still_inf d)
  (g_video_scene_mode d) v (g_video_registered_sensor d)
  (g_video_sensor_ops d) (g_video_data_ops d) (hist d) (malloc_ d).
Definition set_registered v d := mk_drv (lock_open_num d) (open_num d) (video_inf d) (still_inf d)
  (g_video_scene_mode d) (g_video_scene_parameter d) v
  (g_video_sensor_ops d) (g_video_data_ops d) (hist d) (malloc_ d).
Definition set_sensor v d := mk_drv (lock_open_num d) (open_num d) (video_inf d) (still_inf d)
  (g_video_scene_mode d) (g_video_scene_parameter d) (g_video_registered_sensor d)
  v (g_video_data_ops d) (hist d) (malloc_ d).
Definition set_data v d := mk_drv (lock_open_num d) (open_num d) (video_inf d) (still_inf d)
  (g_video_scene_mode d) (g_video_scene_parameter d) (g_video_registered_sensor d)
  (g_video_sensor_ops d) v (hist d) (malloc_ d).
Definition push_call c d := mk_drv (lock_open_num d) (open_num d) (video_inf d) (still_inf d)
  (g_video_scene_mode d) (g_video_scene_parameter d) (g_video_registered_sensor d)
  (g_video_sensor_ops d) (g_video_data_ops d) (c :: hist d) (malloc_ d).

Abbreviation VD A := (M vdrv A).

(** ** Initial values *)

(** The initializer of [g_video_scene_parameter] (every scene of the build is
    enabled): the modes from [V4L2_SCENE_MODE_NONE] to [V4L2_SCENE_MODE_TEXT],
    the other members zero. *)

Definition zero_scene (mode : Z) : scene_params :=
  mk_scene mode 0 0 0 0 false 0 0 0 0 GammaNull 0 false false false false 0 0 false 0 0 0 0 false
    0 0 0 0 false 0 0 0 0 0 0.

Definition scene_table : list scene_params :=
  zero_scene <$> [0; 1; 2; 3; 4; 5; 6; 7; 8; 9; 10; 11; 12; 13].

(** A [memset] stream, and a [memset] device whose lock [video_register] has
    initialised, before any device is registered. *)

Definition zero_inf : video_type_inf :=
  mk_inf 0 VIDEO_STATE_STREAMOFF 0 0 None VIDEO_WAITEND_CAUSE_CAPTUREDONE 0 zero_format
    zero_format zero_rect zero_fract zero_framebuff.

Definition registered_drv (m : history -> Z -> option (list Z)) : vdrv :=
  mk_drv 1 0 zero_inf zero_inf 0 scene_table [] None None [] m.

(** ** Access to the parts *)

Definition get_inf (s : stream) : VD video_type_inf := gets (inf s).
Definition on_inf (s : stream) (g : video_type_inf -> video_type_inf) : VD unit :=
  modify (upd_inf s g).

(** A frame buffer operation on the chain of stream [s]. *)

Definition fb {A} (s : stream) (m : FB A) : VD A :=
  zoom (fun d => bufinf (inf s d)) (fun b d => upd_inf s (set_bufinf b) d) m.

Definition call (c : dev_call) : VD unit := modify (push_call c).

(** [ASSERT(g_video_sensor_ops)] and the like; a call through a null pointer. *)

Definition sensor : VD imgsensor_ops :=
  d ← get;
  match g_video_sensor_ops d with Some o => mret o | None => ub AssertFailed end.

Definition data_ops : VD imgdata_ops :=
  d ← get;
  match g_video_data_ops d with Some o => mret o | None => ub NullDeref end.

End VideoState.
