(* ===== verification/VideoCtrl.v ===== *)
(** * Camera controls and scene parameters of the video driver

    [src/spresense/nuttx/drivers/video/video.c]: the control queries, the
    get/set of controls, and the table of scene parameters. *)

From Stdlib Require Import String.
From S2P Require Import Prelude FrameBuff VideoState.
Import VideoState.

Module VideoCtrl.

#[local] Open Scope Z_scope.

(** Camera parameter IDs *)

Definition IMGSENSOR_ID_BRIGHTNESS : Z := 0.
Definition IMGSENSOR_ID_CONTRAST : Z := 1.
Definition IMGSENSOR_ID_SATURATION : Z := 2.
Definition IMGSENSOR_ID_HUE : Z := 3.
Definition IMGSENSOR_ID_AUTO_WHITE_BALANCE : Z := 4.
Definition IMGSENSOR_ID_RED_BALANCE : Z := 5.
Definition IMGSENSOR_ID_BLUE_BALANCE : Z := 6.
Definition IMGSENSOR_ID_GAMMA : Z := 7.
Definition IMGSENSOR_ID_GAMMA_CURVE : Z := 8.
Definition IMGSENSOR_ID_EXPOSURE : Z := 9.
Definition IMGSENSOR_ID_HFLIP_VIDEO : Z := 10.
Definition IMGSENSOR_ID_VFLIP_VIDEO : Z := 11.
Definition IMGSENSOR_ID_HFLIP_STILL : Z := 12.
Definition IMGSENSOR_ID_VFLIP_STILL : Z := 13.
Definition IMGSENSOR_ID_SHARPNESS : Z := 14.
Definition IMGSENSOR_ID_COLOR_KILLER : Z := 15.
Definition IMGSENSOR_ID_COLORFX : Z := 16.
Definition IMGSENSOR_ID_AUTOBRIGHTNESS : Z := 17.
Definition IMGSENSOR_ID_ROTATE : Z := 18.
Definition IMGSENSOR_ID_EXPOSURE_AUTO : Z := 65536.
Definition IMGSENSOR_ID_EXPOSURE_ABSOLUTE : Z := 65537.
Definition IMGSENSOR_ID_FOCUS_ABSOLUTE : Z := 65538.
Definition IMGSENSOR_ID_FOCUS_RELATIVE : Z := 65539.
Definition IMGSENSOR_ID_FOCUS_AUTO : Z := 65540.
Definition IMGSENSOR_ID_ZOOM_ABSOLUTE : Z := 65541.
Definition IMGSENSOR_ID_ZOOM_RELATIVE : Z := 65542.
Definition IMGSENSOR_ID_ZOOM_CONTINUOUS : Z := 65543.
Definition IMGSENSOR_ID_IRIS_ABSOLUTE : Z := 65544.
Definition IMGSENSOR_ID_IRIS_RELATIVE : Z := 65545.
Definition IMGSENSOR_ID_AUTO_N_PRESET_WB : Z := 65546.
Definition IMGSENSOR_ID_WIDE_DYNAMIC_RANGE : Z := 65547.
Definition IMGSENSOR_ID_IMG_STABILIZATION : Z := 65548.
Definition IMGSENSOR_ID_ISO_SENSITIVITY : Z := 65549.
Definition IMGSENSOR_ID_ISO_SENSITIVITY_AUTO : Z := 65550.
Definition IMGSENSOR_ID_EXPOSURE_METERING : Z := 65551.
Definition IMGSENSOR_ID_3A_LOCK : Z := 65553.
Definition IMGSENSOR_ID_AUTO_FOCUS_START : Z := 65554.
Definition IMGSENSOR_ID_AUTO_FOCUS_STOP : Z := 65555.
Definition IMGSENSOR_ID_3A_PARAMETER : Z := 65556.
Definition IMGSENSOR_ID_3A_STATUS : Z := 65557.
Definition IMGSENSOR_ID_FLASH_LED_MODE : Z := 131072.
Definition IMGSENSOR_ID_JPEG_QUALITY : Z := 196608.
Definition IMGSENSOR_ID_CLIP_VIDEO : Z := 4294901760.
Definition IMGSENSOR_ID_CLIP_STILL : Z := 4294901761.

Definition V4L2_CTRL_CLASS_USER : Z := 0.
Definition V4L2_CTRL_CLASS_CAMERA : Z := 1.
Definition V4L2_CID_SCENE_MODE : Z := 16.
Definition V4L2_CID_3A_LOCK : Z := 17.
Definition V4L2_CID_AUTO_FOCUS_START : Z := 18.
Definition V4L2_LOCK_EXPOSURE : Z := 1.
Definition V4L2_LOCK_WHITE_BALANCE : Z := 2.
Definition V4L2_COLORFX_NONE : Z := 0.
Definition V4L2_COLORFX_BW : Z := 1.
Definition V4L2_EXPOSURE_MANUAL : Z := 1.
Definition V4L2_EXPOSURE_SHUTTER_PRIORITY : Z := 2.
Definition V4L2_EXPOSURE_APERTURE_PRIORITY : Z := 3.
Definition V4L2_ISO_SENSITIVITY_MANUAL : Z := 0.
Definition V4L2_SCENE_MODE_NONE : Z := 0.
Definition V4L2_CTRL_TYPE_INTEGER64 : Z := 5.
Definition INT64_MAX : Z := 9223372036854775807.

(** [VIDEO_ID] *)

Definition VIDEO_ID (x y : Z) : Z := Z.lor (Z.shiftl x 16) y.

(** [bool] and [int32_t] *)

Definition b2z (b : bool) : Z := if b then 1 else 0.
Definition z2b (z : Z) : bool := negb (z =? 0).

(** ** Assignments to one member of a scene's parameters *)

Definition sc_set_brightness v s := mk_scene
  (sc_mode s) v (sc_contrast s) (sc_saturation s) (sc_hue s) (sc_awb s) (sc_red s) (sc_blue s)
  (sc_gamma s) (sc_gamma_curve_sz s) (sc_gamma_curve s) (sc_ev s) (sc_hflip_video s)
  (sc_vflip_video s) (sc_hflip_still s) (sc_vflip_still s) (sc_sharpness s) (sc_colorfx s)
  (sc_auto_brightness s) (sc_rotate s) (sc_ae s) (sc_exposure_time s) (sc_focus s) (sc_af s)
  (sc_zoom s) (sc_iris s) (sc_wb s) (sc_wdr s) (sc_stabilization s) (sc_iso_auto s) (sc_iso s)
  (sc_meter s) (sc_threea_lock s) (sc_led s) (sc_jpeg_quality s).
Definition sc_set_contrast v s := mk_scene
  (sc_mode s) (sc_brightness s) v (sc_saturation s) (sc_hue s) (sc_awb s) (sc_red s) (sc_blue s)
  (sc_gamma s) (sc_gamma_curve_sz s) (sc_gamma_curve s) (sc_ev s) (sc_hflip_video s)
  (sc_vflip_video s) (sc_hflip_still s) (sc_vflip_still s) (sc_sharpness s) (sc_colorfx s)
  (sc_auto_brightness s) (sc_rotate s) (sc_ae s) (sc_exposure_time s) (sc_focus s) (sc_af s)
  (sc_zoom s) (sc_iris s) (sc_wb s) (sc_wdr s) (sc_stabilization s) (sc_iso_auto s) (sc_iso s)
  (sc_meter s) (sc_threea_lock s) (sc_led s) (sc_jpeg_quality s).
Definition sc_set_saturation v s := mk_scene
  (sc_mode s) (sc_brightness s) (sc_contrast s) v (sc_hue s) (sc_awb s) (sc_red s) (sc_blue s)
  (sc_gamma s) (sc_gamma_curve_sz s) (sc_gamma_curve s) (sc_ev s) (sc_hflip_video s)
  (sc_vflip_video s) (sc_hflip_still s) (sc_vflip_still s) (sc_sharpness s) (sc_colorfx s)
  (sc_auto_brightness s) (sc_rotate s) (sc_ae s) (sc_exposure_time s) (sc_focus s) (sc_af s)
  (sc_zoom s) (sc_iris s) (sc_wb s) (sc_wdr s) (sc_stabilization s) (sc_iso_auto s) (sc_iso s)
  (sc_meter s) (sc_threea_lock s) (sc_led s) (sc_jpeg_quality s).
Definition sc_set_hue v s := mk_scene
  (sc_mode s) (sc_brightness s) (sc_contrast s) (sc_saturation s) v (sc_awb s) (sc_red s)
  (sc_blue s) (sc_gamma s) (sc_gamma_curve_sz s) (sc_gamma_curve s) (sc_ev s) (sc_hflip_video s)
  (sc_vflip_video s) (sc_hflip_still s) (sc_vflip_still s) (sc_sharpness s) (sc_colorfx s)
  (sc_auto_brightness s) (sc_rotate s) (sc_ae s) (sc_exposure_time s) (sc_focus s) (sc_af s)
  (sc_zoom s) (sc_iris s) (sc_wb s) (sc_wdr s) (sc_stabilization s) (sc_iso_auto s) (sc_iso s)
  (sc_meter s) (sc_threea_lock s) (sc_led s) (sc_jpeg_quality s).
Definition sc_set_awb v s := mk_scene
  (sc_mode s) (sc_brightness s) (sc_contrast s) (sc_saturation s) (sc_hue s) v (sc_red s)
  (sc_blue s) (sc_gamma s) (sc_gamma_curve_sz s) (sc_gamma_curve s) (sc_ev s) (sc_hflip_video s)
  (sc_vflip_video s) (sc_hflip_still s) (sc_vflip_still s) (sc_sharpness s) (sc_colorfx s)
  (sc_auto_brightness s) (sc_rotate s) (sc_ae s) (sc_exposure_time s) (sc_focus s) (sc_af s)
  (sc_zoom s) (sc_iris s) (sc_wb s) (sc_wdr s) (sc_stabilization s) (sc_iso_auto s) (sc_iso s)
  (sc_meter s) (sc_threea_lock s) (sc_led s) (sc_jpeg_quality s).
Definition sc_set_red v s := mk_scene
  (sc_mode s) (sc_brightness s) (sc_contrast s) (sc_saturation s) (sc_hue s) (sc_awb s) v
  (sc_blue s) (sc_gamma s) (sc_gamma_curve_sz s) (sc_gamma_curve s) (sc_ev s) (sc_hflip_video s)
  (sc_vflip_video s) (sc_hflip_still s) (sc_vflip_still s) (sc_sharpness s) (sc_colorfx s)
  (sc_auto_brightness s) (sc_rotate s) (sc_ae s) (sc_exposure_time s) (sc_focus s) (sc_af s)
  (sc_zoom s) (sc_iris s) (sc_wb s) (sc_wdr s) (sc_stabilization s) (sc_iso_auto s) (sc_iso s)
  (sc_meter s) (sc_threea_lock s) (sc_led s) (sc_jpeg_quality s).
Definition sc_set_blue v s := mk_scene
  (sc_mode s) (sc_brightness s) (sc_contrast s) (sc_saturation s) (sc_hue s) (sc_awb s) (sc_red s)
  v (sc_gamma s) (sc_gamma_curve_sz s) (sc_gamma_curve s) (sc_ev s) (sc_hflip_video s)
  (sc_vflip_video s) (sc_hflip_still s) (sc_vflip_still s) (sc_sharpness s) (sc_colorfx s)
  (sc_auto_brightness s) (sc_rotate s) (sc_ae s) (sc_exposure_time s) (sc_focus s) (sc_af s)
  (sc_zoom s) (sc_iris s) (sc_wb s) (sc_wdr s) (sc_stabilization s) (sc_iso_auto s) (sc_iso s)
  (sc_meter s) (sc_threea_lock s) (sc_led s) (sc_jpeg_quality s).
Definition sc_set_gamma v s := mk_scene
  (sc_mode s) (sc_brightness s) (sc_contrast s) (sc_saturation s) (sc_hue s) (sc_awb s) (sc_red s)
  (sc_blue s) v (sc_gamma_curve_sz s) (sc_gamma_curve s) (sc_ev s) (sc_hflip_video s)
  (sc_vflip_video s) (sc_hflip_still s) (sc_vflip_still s) (sc_sharpness s) (sc_colorfx s)
  (sc_auto_brightness s) (sc_rotate s) (sc_ae s) (sc_exposure_time s) (sc_focus s) (sc_af s)
  (sc_zoom s) (sc_iris s) (sc_wb s) (sc_wdr s) (sc_stabilization s) (sc_iso_auto s) (sc_iso s)
  (sc_meter s) (sc_threea_lock s) (sc_led s) (sc_jpeg_quality s).
Definition sc_set_gamma_curve_sz v s := mk_scene
  (sc_mode s) (sc_brightness s) (sc_contrast s) (sc_saturation s) (sc_hue s) (sc_awb s) (sc_red s)
  (sc_blue s) (sc_gamma s) v (sc_gamma_curve s) (sc_ev s) (sc_hflip_video s) (sc_vflip_video s)
  (sc_hflip_still s) (sc_vflip_still s) (sc_sharpness s) (sc_colorfx s) (sc_auto_brightness s)
  (sc_rotate s) (sc_ae s) (sc_exposure_time s) (sc_focus s) (sc_af s) (sc_zoom s) (sc_iris s)
  (sc_wb s) (sc_wdr s) (sc_stabilization s) (sc_iso_auto s) (sc_iso s) (sc_meter s)
  (sc_threea_lock s) (sc_led s) (sc_jpeg_quality s).
Definition sc_set_gamma_curve v s := mk_scene
  (sc_mode s) (sc_brightness s) (sc_contrast s) (sc_saturation s) (sc_hue s) (sc_awb s) (sc_red s)
  (sc_blue s) (sc_gamma s) (sc_gamma_curve_sz s) v (sc_ev s) (sc_hflip_video s) (sc_vflip_video s)
  (sc_hflip_still s) (sc_vflip_still s) (sc_sharpness s) (sc_colorfx s) (sc_auto_brightness s)
  (sc_rotate s) (sc_ae s) (sc_exposure_time s) (sc_focus s) (sc_af s) (sc_zoom s) (sc_iris s)
  (sc_wb s) (sc_wdr s) (sc_stabilization s) (sc_iso_auto s) (sc_iso s) (sc_meter s)
  (sc_threea_lock s) (sc_led s) (sc_jpeg_quality s).
Definition sc_set_ev v s := mk_scene
  (sc_mode s) (sc_brightness s) (sc_contrast s) (sc_saturation s) (sc_hue s) (sc_awb s) (sc_red s)
  (sc_blue s) (sc_gamma s) (sc_gamma_curve_sz s) (sc_gamma_curve s) v (sc_hflip_video s)
  (sc_vflip_video s) (sc_hflip_still s) (sc_vflip_still s) (sc_sharpness s) (sc_colorfx s)
  (sc_auto_brightness s) (sc_rotate s) (sc_ae s) (sc_exposure_time s) (sc_focus s) (sc_af s)
  (sc_zoom s) (sc_iris s) (sc_wb s) (sc_wdr s) (sc_stabilization s) (sc_iso_auto s) (sc_iso s)
  (sc_meter s) (sc_threea_lock s) (sc_led s) (sc_jpeg_quality s).
Definition sc_set_hflip_video v s := mk_scene
  (sc_mode s) (sc_brightness s) (sc_contrast s) (sc_saturation s) (sc_hue s) (sc_awb s) (sc_red s)
  (sc_blue s) (sc_gamma s) (sc_gamma_curve_sz s) (sc_gamma_curve s) (sc_ev s) v (sc_vflip_video s)
  (sc_hflip_still s) (sc_vflip_still s) (sc_sharpness s) (sc_colorfx s) (sc_auto_brightness s)
  (sc_rotate s) (sc_ae s) (sc_exposure_time s) (sc_focus s) (sc_af s) (sc_zoom s) (sc_iris s)
  (sc_wb s) (sc_wdr s) (sc_stabilization s) (sc_iso_auto s) (sc_iso s) (sc_meter s)
  (sc_threea_lock s) (sc_led s) (sc_jpeg_quality s).
Definition sc_set_vflip_video v s := mk_scene
  (sc_mode s) (sc_brightness s) (sc_contrast s) (sc_saturation s) (sc_hue s) (sc_awb s) (sc_red s)
  (sc_blue s) (sc_gamma s) (sc_gamma_curve_sz s) (sc_gamma_curve s) (sc_ev s) (sc_hflip_video s) v
  (sc_hflip_still s) (sc_vflip_still s) (sc_sharpness s) (sc_colorfx s) (sc_auto_brightness s)
  (sc_rotate s) (sc_ae s) (sc_exposure_time s) (sc_focus s) (sc_af s) (sc_zoom s) (sc_iris s)
  (sc_wb s) (sc_wdr s) (sc_stabilization s) (sc_iso_auto s) (sc_iso s) (sc_meter s)
  (sc_threea_lock s) (sc_led s) (sc_jpeg_quality s).
Definition sc_set_hflip_still v s := mk_scene
  (sc_mode s) (sc_brightness s) (sc_contrast s) (sc_saturation s) (sc_hue s) (sc_awb s) (sc_red s)
  (sc_blue s) (sc_gamma s) (sc_gamma_curve_sz s) (sc_gamma_curve s) (sc_ev s) (sc_hflip_video s)
  (sc_vflip_video s) v (sc_vflip_still s) (sc_sharpness s) (sc_colorfx s) (sc_auto_brightness s)
  (sc_rotate s) (sc_ae s) (sc_exposure_time s) (sc_focus s) (sc_af s) (sc_zoom s) (sc_iris s)
  (sc_wb s) (sc_wdr s) (sc_stabilization s) (sc_iso_auto s) (sc_iso s) (sc_meter s)
  (sc_threea_lock s) (sc_led s) (sc_jpeg_quality s).
Definition sc_set_vflip_still v s := mk_scene
  (sc_mode s) (sc_brightness s) (sc_contrast s) (sc_saturation s) (sc_hue s) (sc_awb s) (sc_red s)
  (sc_blue s) (sc_gamma s) (sc_gamma_curve_sz s) (sc_gamma_curve s) (sc_ev s) (sc_hflip_video s)
  (sc_vflip_video s) (sc_hflip_still s) v (sc_sharpness s) (sc_colorfx s) (sc_auto_brightness s)
  (sc_rotate s) (sc_ae s) (sc_exposure_time s) (sc_focus s) (sc_af s) (sc_zoom s) (sc_iris s)
  (sc_wb s) (sc_wdr s) (sc_stabilization s) (sc_iso_auto s) (sc_iso s) (sc_meter s)
  (sc_threea_lock s) (sc_led s) (sc_jpeg_quality s).
Definition sc_set_sharpness v s := mk_scene
  (sc_mode s) (sc_brightness s) (sc_contrast s) (sc_saturation s) (sc_hue s) (sc_awb s) (sc_red s)
  (sc_blue s) (sc_gamma s) (sc_gamma_curve_sz s) (sc_gamma_curve s) (sc_ev s) (sc_hflip_video s)
  (sc_vflip_video s) (sc_hflip_still s) (sc_vflip_still s) v (sc_colorfx s) (sc_auto_brightness s)
  (sc_rotate s) (sc_ae s) (sc_exposure_time s) (sc_focus s) (sc_af s) (sc_zoom s) (sc_iris s)
  (sc_wb s) (sc_wdr s) (sc_stabilization s) (sc_iso_auto s) (sc_iso s) (sc_meter s)
  (sc_threea_lock s) (sc_led s) (sc_jpeg_quality s).
Definition sc_set_colorfx v s := mk_scene
  (sc_mode s) (sc_brightness s) (sc_contrast s) (sc_saturation s) (sc_hue s) (sc_awb s) (sc_red s)
  (sc_blue s) (sc_gamma s) (sc_gamma_curve_sz s) (sc_gamma_curve s) (sc_ev s) (sc_hflip_video s)
  (sc_vflip_video s) (sc_hflip_still s) (sc_vflip_still s) (sc_sharpness s) v
  (sc_auto_brightness s) (sc_rotate s) (sc_ae s) (sc_exposure_time s) (sc_focus s) (sc_af s)
  (sc_zoom s) (sc_iris s) (sc_wb s) (sc_wdr s) (sc_stabilization s) (sc_iso_auto s) (sc_iso s)
  (sc_meter s) (sc_threea_lock s) (sc_led s) (sc_jpeg_quality s).
Definition sc_set_auto_brightness v s := mk_scene
  (sc_mode s) (sc_brightness s) (sc_contrast s) (sc_saturation s) (sc_hue s) (sc_awb s) (sc_red s)
  (sc_blue s) (sc_gamma s) (sc_gamma_curve_sz s) (sc_gamma_curve s) (sc_ev s) (sc_hflip_video s)
  (sc_vflip_video s) (sc_hflip_still s) (sc_vflip_still s) (sc_sharpness s) (sc_colorfx s) v
  (sc_rotate s) (sc_ae s) (sc_exposure_time s) (sc_focus s) (sc_af s) (sc_zoom s) (sc_iris s)
  (sc_wb s) (sc_wdr s) (sc_stabilization s) (sc_iso_auto s) (sc_iso s) (sc_meter s)
  (sc_threea_lock s) (sc_led s) (sc_jpeg_quality s).
Definition sc_set_rotate v s := mk_scene
  (sc_mode s) (sc_brightness s) (sc_contrast s) (sc_saturation s) (sc_hue s) (sc_awb s) (sc_red s)
  (sc_blue s) (sc_gamma s) (sc_gamma_curve_sz s) (sc_gamma_curve s) (sc_ev s) (sc_hflip_video s)
  (sc_vflip_video s) (sc_hflip_still s) (sc_vflip_still s) (sc_sharpness s) (sc_colorfx s)
  (sc_auto_brightness s) v (sc_ae s) (sc_exposure_time s) (sc_focus s) (sc_af s) (sc_zoom s)
  (sc_iris s) (sc_wb s) (sc_wdr s) (sc_stabilization s) (sc_iso_auto s) (sc_iso s) (sc_meter s)
  (sc_threea_lock s) (sc_led s) (sc_jpeg_quality s).
Definition sc_set_ae v s := mk_scene
  (sc_mode s) (sc_brightness s) (sc_contrast s) (sc_saturation s) (sc_hue s) (sc_awb s) (sc_red s)
  (sc_blue s) (sc_gamma s) (sc_gamma_curve_sz s) (sc_gamma_curve s) (sc_ev s) (sc_hflip_video s)
  (sc_vflip_video s) (sc_hflip_still s) (sc_vflip_still s) (sc_sharpness s) (sc_colorfx s)
  (sc_auto_brightness s) (sc_rotate s) v (sc_exposure_time s) (sc_focus s) (sc_af s) (sc_zoom s)
  (sc_iris s) (sc_wb s) (sc_wdr s) (sc_stabilization s) (sc_iso_auto s) (sc_iso s) (sc_meter s)
  (sc_threea_lock s) (sc_led s) (sc_jpeg_quality s).
Definition sc_set_exposure_time v s := mk_scene
  (sc_mode s) (sc_brightness s) (sc_contrast s) (sc_saturation s) (sc_hue s) (sc_awb s) (sc_red s)
  (sc_blue s) (sc_gamma s) (sc_gamma_curve_sz s) (sc_gamma_curve s) (sc_ev s) (sc_hflip_video s)
  (sc_vflip_video s) (sc_hflip_still s) (sc_vflip_still s) (sc_sharpness s) (sc_colorfx s)
  (sc_auto_brightness s) (sc_rotate s) (sc_ae s) v (sc_focus s) (sc_af s) (sc_zoom s) (sc_iris s)
  (sc_wb s) (sc_wdr s) (sc_stabilization s) (sc_iso_auto s) (sc_iso s) (sc_meter s)
  (sc_threea_lock s) (sc_led s) (sc_jpeg_quality s).
Definition sc_set_focus v s := mk_scene
  (sc_mode s) (sc_brightness s) (sc_contrast s) (sc_saturation s) (sc_hue s) (sc_awb s) (sc_red s)
  (sc_blue s) (sc_gamma s) (sc_gamma_curve_sz s) (sc_gamma_curve s) (sc_ev s) (sc_hflip_video s)
  (sc_vflip_video s) (sc_hflip_still s) (sc_vflip_still s) (sc_sharpness s) (sc_colorfx s)
  (sc_auto_brightness s) (sc_rotate s) (sc_ae s) (sc_exposure_time s) v (sc_af s) (sc_zoom s)
  (sc_iris s) (sc_wb s) (sc_wdr s) (sc_stabilization s) (sc_iso_auto s) (sc_iso s) (sc_meter s)
  (sc_threea_lock s) (sc_led s) (sc_jpeg_quality s).
Definition sc_set_af v s := mk_scene
  (sc_mode s) (sc_brightness s) (sc_contrast s) (sc_saturation s) (sc_hue s) (sc_awb s) (sc_red s)
  (sc_blue s) (sc_gamma s) (sc_gamma_curve_sz s) (sc_gamma_curve s) (sc_ev s) (sc_hflip_video s)
  (sc_vflip_video s) (sc_hflip_still s) (sc_vflip_still s) (sc_sharpness s) (sc_colorfx s)
  (sc_auto_brightness s) (sc_rotate s) (sc_ae s) (sc_exposure_time s) (sc_focus s) v (sc_zoom s)
  (sc_iris s) (sc_wb s) (sc_wdr s) (sc_stabilization s) (sc_iso_auto s) (sc_iso s) (sc_meter s)
  (sc_threea_lock s) (sc_led s) (sc_jpeg_quality s).
Definition sc_set_zoom v s := mk_scene
  (sc_mode s) (sc_brightness s) (sc_contrast s) (sc_saturation s) (sc_hue s) (sc_awb s) (sc_red s)
  (sc_blue s) (sc_gamma s) (sc_gamma_curve_sz s) (sc_gamma_curve s) (sc_ev s) (sc_hflip_video s)
  (sc_vflip_video s) (sc_hflip_still s) (sc_vflip_still s) (sc_sharpness s) (sc_colorfx s)
  (sc_auto_brightness s) (sc_rotate s) (sc_ae s) (sc_exposure_time s) (sc_focus s) (sc_af s) v
  (sc_iris s) (sc_wb s) (sc_wdr s) (sc_stabilization s) (sc_iso_auto s) (sc_iso s) (sc_meter s)
  (sc_threea_lock s) (sc_led s) (sc_jpeg_quality s).
Definition sc_set_iris v s := mk_scene
  (sc_mode s) (sc_brightness s) (sc_contrast s) (sc_saturation s) (sc_hue s) (sc_awb s) (sc_red s)
  (sc_blue s) (sc_gamma s) (sc_gamma_curve_sz s) (sc_gamma_curve s) (sc_ev s) (sc_hflip_video s)
  (sc_vflip_video s) (sc_hflip_still s) (sc_vflip_still s) (sc_sharpness s) (sc_colorfx s)
  (sc_auto_brightness s) (sc_rotate s) (sc_ae s) (sc_exposure_time s) (sc_focus s) (sc_af s)
  (sc_zoom s) v (sc_wb s) (sc_wdr s) (sc_stabilization s) (sc_iso_auto s) (sc_iso s) (sc_meter s)
  (sc_threea_lock s) (sc_led s) (sc_jpeg_quality s).
Definition sc_set_wb v s := mk_scene
  (sc_mode s) (sc_brightness s) (sc_contrast s) (sc_saturation s) (sc_hue s) (sc_awb s) (sc_red s)
  (sc_blue s) (sc_gamma s) (sc_gamma_curve_sz s) (sc_gamma_curve s) (sc_ev s) (sc_hflip_video s)
  (sc_vflip_video s) (sc_hflip_still s) (sc_vflip_still s) (sc_sharpness s) (sc_colorfx s)
  (sc_auto_brightness s) (sc_rotate s) (sc_ae s) (sc_exposure_time s) (sc_focus s) (sc_af s)
  (sc_zoom s) (sc_iris s) v (sc_wdr s) (sc_stabilization s) (sc_iso_auto s) (sc_iso s)
  (sc_meter s) (sc_threea_lock s) (sc_led s) (sc_jpeg_quality s).
Definition sc_set_wdr v s := mk_scene
  (sc_mode s) (sc_brightness s) (sc_contrast s) (sc_saturation s) (sc_hue s) (sc_awb s) (sc_red s)
  (sc_blue s) (sc_gamma s) (sc_gamma_curve_sz s) (sc_gamma_curve s) (sc_ev s) (sc_hflip_video s)
  (sc_vflip_video s) (sc_hflip_still s) (sc_vflip_still s) (sc_sharpness s) (sc_colorfx s)
  (sc_auto_brightness s) (sc_rotate s) (sc_ae s) (sc_exposure_time s) (sc_focus s) (sc_af s)
  (sc_zoom s) (sc_iris s) (sc_wb s) v (sc_stabilization s) (sc_iso_auto s) (sc_iso s) (sc_meter s)
  (sc_threea_lock s) (sc_led s) (sc_jpeg_quality s).
Definition sc_set_stabilization v s := mk_scene
  (sc_mode s) (sc_brightness s) (sc_contrast s) (sc_saturation s) (sc_hue s) (sc_awb s) (sc_red s)
  (sc_blue s) (sc_gamma s) (sc_gamma_curve_sz s) (sc_gamma_curve s) (sc_ev s) (sc_hflip_video s)
  (sc_vflip_video s) (sc_hflip_still s) (sc_vflip_still s) (sc_sharpness s) (sc_colorfx s)
  (sc_auto_brightness s) (sc_rotate s) (sc_ae s) (sc_exposure_time s) (sc_focus s) (sc_af s)
  (sc_zoom s) (sc_iris s) (sc_wb s) (sc_wdr s) v (sc_iso_auto s) (sc_iso s) (sc_meter s)
  (sc_threea_lock s) (sc_led s) (sc_jpeg_quality s).
Definition sc_set_iso_auto v s := mk_scene
  (sc_mode s) (sc_brightness s) (sc_contrast s) (sc_saturation s) (sc_hue s) (sc_awb s) (sc_red s)
  (sc_blue s) (sc_gamma s) (sc_gamma_curve_sz s) (sc_gamma_curve s) (sc_ev s) (sc_hflip_video s)
  (sc_vflip_video s) (sc_hflip_still s) (sc_vflip_still s) (sc_sharpness s) (sc_colorfx s)
  (sc_auto_brightness s) (sc_rotate s) (sc_ae s) (sc_exposure_time s) (sc_focus s) (sc_af s)
  (sc_zoom s) (sc_iris s) (sc_wb s) (sc_wdr s) (sc_stabilization s) v (sc_iso s) (sc_meter s)
  (sc_threea_lock s) (sc_led s) (sc_jpeg_quality s).
Definition sc_set_iso v s := mk_scene
  (sc_mode s) (sc_brightness s) (sc_contrast s) (sc_saturation s) (sc_hue s) (sc_awb s) (sc_red s)
  (sc_blue s) (sc_gamma s) (sc_gamma_curve_sz s) (sc_gamma_curve s) (sc_ev s) (sc_hflip_video s)
  (sc_vflip_video s) (sc_hflip_still s) (sc_vflip_still s) (sc_sharpness s) (sc_colorfx s)
  (sc_auto_brightness s) (sc_rotate s) (sc_ae s) (sc_exposure_time s) (sc_focus s) (sc_af s)
  (sc_zoom s) (sc_iris s) (sc_wb s) (sc_wdr s) (sc_stabilization s) (sc_iso_auto s) v (sc_meter s)
  (sc_threea_lock s) (sc_led s) (sc_jpeg_quality s).
Definition sc_set_meter v s := mk_scene
  (sc_mode s) (sc_brightness s) (sc_contrast s) (sc_saturation s) (sc_hue s) (sc_awb s) (sc_red s)
  (sc_blue s) (sc_gamma s) (sc_gamma_curve_sz s) (sc_gamma_curve s) (sc_ev s) (sc_hflip_video s)
  (sc_vflip_video s) (sc_hflip_still s) (sc_vflip_still s) (sc_sharpness s) (sc_colorfx s)
  (sc_auto_brightness s) (sc_rotate s) (sc_ae s) (sc_exposure_time s) (sc_focus s) (sc_af s)
  (sc_zoom s) (sc_iris s) (sc_wb s) (sc_wdr s) (sc_stabilization s) (sc_iso_auto s) (sc_iso s) v
  (sc_threea_lock s) (sc_led s) (sc_jpeg_quality s).
Definition sc_set_threea_lock v s := mk_scene
  (sc_mode s) (sc_brightness s) (sc_contrast s) (sc_saturation s) (sc_hue s) (sc_awb s) (sc_red s)
  (sc_blue s) (sc_gamma s) (sc_gamma_curve_sz s) (sc_gamma_curve s) (sc_ev s) (sc_hflip_video s)
  (sc_vflip_video s) (sc_hflip_still s) (sc_vflip_still s) (sc_sharpness s) (sc_colorfx s)
  (sc_auto_brightness s) (sc_rotate s) (sc_ae s) (sc_exposure_time s) (sc_focus s) (sc_af s)
  (sc_zoom s) (sc_iris s) (sc_wb s) (sc_wdr s) (sc_stabilization s) (sc_iso_auto s) (sc_iso s)
  (sc_meter s) v (sc_led s) (sc_jpeg_quality s).
Definition sc_set_led v s := mk_scene
  (sc_mode s) (sc_brightness s) (sc_contrast s) (sc_saturation s) (sc_hue s) (sc_awb s) (sc_red s)
  (sc_blue s) (sc_gamma s) (sc_gamma_curve_sz s) (sc_gamma_curve s) (sc_ev s) (sc_hflip_video s)
  (sc_vflip_video s) (sc_hflip_still s) (sc_vflip_still s) (sc_sharpness s) (sc_colorfx s)
  (sc_auto_brightness s) (sc_rotate s) (sc_ae s) (sc_exposure_time s) (sc_focus s) (sc_af s)
  (sc_zoom s) (sc_iris s) (sc_wb s) (sc_wdr s) (sc_stabilization s) (sc_iso_auto s) (sc_iso s)
  (sc_meter s) (sc_threea_lock s) v (sc_jpeg_quality s).
Definition sc_set_jpeg_quality v s := mk_scene
  (sc_mode s) (sc_brightness s) (sc_contrast s) (sc_saturation s) (sc_hue s) (sc_awb s) (sc_red s)
  (sc_blue s) (sc_gamma s) (sc_gamma_curve_sz s) (sc_gamma_curve s) (sc_ev s) (sc_hflip_video s)
  (sc_vflip_video s) (sc_hflip_still s) (sc_vflip_still s) (sc_sharpness s) (sc_colorfx s)
  (sc_auto_brightness s) (sc_rotate s) (sc_ae s) (sc_exposure_time s) (sc_focus s) (sc_af s)
  (sc_zoom s) (sc_iris s) (sc_wb s) (sc_wdr s) (sc_stabilization s) (sc_iso_auto s) (sc_iso s)
  (sc_meter s) (sc_threea_lock s) (sc_led s) v.

Definition g_video_parameter_name : list (Z * string) := [
  (IMGSENSOR_ID_BRIGHTNESS, "Brightness");
  (IMGSENSOR_ID_CONTRAST, "Contrast");
  (IMGSENSOR_ID_SATURATION, "Saturation");
  (IMGSENSOR_ID_HUE, "Hue");
  (IMGSENSOR_ID_AUTO_WHITE_BALANCE, "Automatic white balance");
  (IMGSENSOR_ID_RED_BALANCE, "Red balance");
  (IMGSENSOR_ID_BLUE_BALANCE, "Blue balance");
  (IMGSENSOR_ID_GAMMA, "Gamma value");
  (IMGSENSOR_ID_GAMMA_CURVE, "Gamma adjustment(curve)");
  (IMGSENSOR_ID_EXPOSURE, "Exposure value");
  (IMGSENSOR_ID_HFLIP_VIDEO, "Mirror horizontally(VIDEO)");
  (IMGSENSOR_ID_VFLIP_VIDEO, "Mirror vertically(VIDEO)");
  (IMGSENSOR_ID_HFLIP_STILL, "Mirror horizontally(STILL)");
  (IMGSENSOR_ID_VFLIP_STILL, "Mirror vertically(STILL)");
  (IMGSENSOR_ID_SHARPNESS, "Sharpness");
  (IMGSENSOR_ID_COLOR_KILLER, "Color killer");
  (IMGSENSOR_ID_COLORFX, "Color effect");
  (IMGSENSOR_ID_AUTOBRIGHTNESS, "Auto brightness");
  (IMGSENSOR_ID_ROTATE, "Rotate");
  (IMGSENSOR_ID_EXPOSURE_AUTO, "Auto Exposure");
  (IMGSENSOR_ID_EXPOSURE_ABSOLUTE, "Exposure time(100 usec)");
  (IMGSENSOR_ID_FOCUS_ABSOLUTE, "Focus(absolute value)");
  (IMGSENSOR_ID_FOCUS_RELATIVE, "Focus(relative value)");
  (IMGSENSOR_ID_FOCUS_AUTO, "Continuous Auto Focus");
  (IMGSENSOR_ID_ZOOM_ABSOLUTE, "Zoom(absolute value)");
  (IMGSENSOR_ID_ZOOM_RELATIVE, "Zoom(relative value)");
  (IMGSENSOR_ID_ZOOM_CONTINUOUS, "Continuous zoom");
  (IMGSENSOR_ID_IRIS_ABSOLUTE, "Iris(absolute value)");
  (IMGSENSOR_ID_IRIS_RELATIVE, "Iris(relative value)");
  (IMGSENSOR_ID_AUTO_N_PRESET_WB, "Preset white balance");
  (IMGSENSOR_ID_WIDE_DYNAMIC_RANGE, "Wide dynamic range");
  (IMGSENSOR_ID_IMG_STABILIZATION, "Image stabilization");
  (IMGSENSOR_ID_ISO_SENSITIVITY, "ISO sensitivity");
  (IMGSENSOR_ID_ISO_SENSITIVITY_AUTO, "Automatic ISO sensitivity");
  (IMGSENSOR_ID_EXPOSURE_METERING, "Photometry");
  (IMGSENSOR_ID_3A_LOCK, "Lock AWB/AE");
  (IMGSENSOR_ID_AUTO_FOCUS_START, "Start single Auto Focus");
  (IMGSENSOR_ID_AUTO_FOCUS_STOP, "Stop single Auto Focus");
  (IMGSENSOR_ID_3A_PARAMETER, "3A parameter");
  (IMGSENSOR_ID_3A_STATUS, "3A status");
  (IMGSENSOR_ID_FLASH_LED_MODE, "LED mode");
  (IMGSENSOR_ID_JPEG_QUALITY, "JPEG compression quality")
]%string.

(** ** The structures of the control requests *)

(** [struct v4l2_ext_control] *)

Record ext_control := mk_ctl { ec_id : Z; ec_size : Z; ec_value : value_union }.

(** [struct v4l2_ext_controls]; the array [controls] points to is a list. *)

Record ext_controls := mk_ctls {
  cs_class : Z; cs_count : Z; cs_error_idx : Z; cs_controls : list ext_control }.

(** [struct v4l2_control] *)

Record control := mk_control { ct_id : Z; ct_value : Z }.

(** [struct v4l2_query_ext_ctrl] (the members the driver touches) *)

Record query_ext_ctrl := mk_qext {
  q_class : Z; q_id : Z; q_type : Z; q_name : string; q_minimum : Z; q_maximum : Z;
  q_step : Z; q_default : Z; q_flags : Z; q_elems : Z }.

(** [struct v4l2_queryctrl] *)

Record queryctrl := mk_qctl {
  qc_class : Z; qc_id : Z; qc_type : Z; qc_name : string; qc_minimum : Z; qc_maximum : Z;
  qc_step : Z; qc_default : Z; qc_flags : Z }.

(** [struct v4l2_querymenu] *)

Record querymenu := mk_menu { m_class : Z; m_id : Z; m_index : Z; m_value : Z }.

Definition set_ec_value v c := mk_ctl (ec_id c) (ec_size c) v.
Definition set_ec_int x c := set_ec_value (v_set_int x (ec_value c)) c.
Definition set_error_idx e cs := mk_ctls (cs_class cs) (cs_count cs) e (cs_controls cs).
Definition set_controls l cs := mk_ctls (cs_class cs) (cs_count cs) (cs_error_idx cs) l.

(** [strncpy(dst, src, 32)]: what a reader of the 32-byte array sees. *)

Definition strncpy32 (s : string) : string := String.substring 0 32 s.

(** A device operation the code calls only after testing it for [NULL]. *)

Definition dev_query {A} (f : option A) (k : A -> VD Z) : VD Z :=
  match f with None => mret (- ENOTTY) | Some g => k g end.

(** ** Default values *)

Definition get_default_value (id : Z) : VD Z :=
  d ← get;
  match g_video_sensor_ops d with
  | None => mret (- EINVAL)
  | Some o =>
    match so_get_supported_value o with
    | None => mret (- EINVAL)
    | Some gsv =>
      let '(ret, value) := gsv (hist d) id in
      mret (if negb (ret =? OK) then 0
            else if sv_type value =? IMGSENSOR_CTRL_TYPE_INTEGER_MENU
            then dc_default (sv_discrete value)
            else if (sv_type value =? IMGSENSOR_CTRL_TYPE_U8)
                    || (sv_type value =? IMGSENSOR_CTRL_TYPE_U16)
                    || (sv_type value =? IMGSENSOR_CTRL_TYPE_U32) then 0
            else i32 (rg_default (sv_range value)))
    end
  end.

(** Size of the elements of an array control. *)

Definition elem_size (type : Z) : Z :=
  if type =? IMGSENSOR_CTRL_TYPE_U8 then 1
  else if type =? IMGSENSOR_CTRL_TYPE_U16 then 2 else 4.

(** The result is the size (or a negative error number) and the pointer
    written through [gamma].  The address a pointer member holds is not
    modelled: only the block it points to is. *)

Definition initialize_scene_gamma : VD (Z * gamma_ptr) :=
  o ← sensor;
  d ← get;
  match so_get_supported_value o, so_get_value o with
  | Some gsv, Some gv =>
    let '(ret, sup_val) := gsv (hist d) IMGSENSOR_ID_GAMMA_CURVE in
    if negb (ret =? OK) then mret (- EINVAL, GammaNull)
    else
      let nr := el_nr_elems (sv_elems sup_val) in
      let k := elem_size (sv_type sup_val) in
      let sz := i32 (nr * k) in
      if negb (u32 sz / k =? nr) then mret (- EINVAL, GammaNull)
      else
        match malloc_ d (hist d) (u32 sz) with
        | None =>
          call (HeapAlloc (u32 sz));; mret (sz, GammaNull)
        | Some block =>
          call (HeapAlloc (u32 sz));;
          let '(_, v) := gv (hist d) IMGSENSOR_ID_GAMMA_CURVE (u32 sz) (mk_value 0 block) in
          mret (sz, GammaLive (v_mem v))
        end
  | _, _ => mret (- ENOTTY, GammaNull)
  end.

(** [initialize_scene_parameter]; [dv] is the default of each control, queried
    without effect on the sensor. *)

Definition default_params (dv : Z -> Z) (sz : Z) (gp : gamma_ptr) (sp : scene_params) : scene_params :=
  mk_scene
    (sc_mode sp) (dv IMGSENSOR_ID_BRIGHTNESS) (dv IMGSENSOR_ID_CONTRAST)
    (dv IMGSENSOR_ID_SATURATION) (dv IMGSENSOR_ID_HUE) (z2b (dv IMGSENSOR_ID_AUTO_WHITE_BALANCE))
    (dv IMGSENSOR_ID_RED_BALANCE) (dv IMGSENSOR_ID_BLUE_BALANCE) (dv IMGSENSOR_ID_GAMMA) (u32 sz) gp
    (dv IMGSENSOR_ID_EXPOSURE) (z2b (dv IMGSENSOR_ID_HFLIP_VIDEO))
    (z2b (dv IMGSENSOR_ID_VFLIP_VIDEO)) (z2b (dv IMGSENSOR_ID_HFLIP_STILL))
    (z2b (dv IMGSENSOR_ID_VFLIP_STILL)) (dv IMGSENSOR_ID_SHARPNESS) (dv IMGSENSOR_ID_COLORFX)
    (z2b (dv IMGSENSOR_ID_AUTOBRIGHTNESS)) (dv IMGSENSOR_ID_ROTATE) (dv IMGSENSOR_ID_EXPOSURE_AUTO)
    (dv IMGSENSOR_ID_EXPOSURE_ABSOLUTE) (dv IMGSENSOR_ID_FOCUS_ABSOLUTE)
    (z2b (dv IMGSENSOR_ID_FOCUS_AUTO)) (dv IMGSENSOR_ID_ZOOM_ABSOLUTE)
    (dv IMGSENSOR_ID_IRIS_ABSOLUTE) (dv IMGSENSOR_ID_AUTO_N_PRESET_WB)
    (dv IMGSENSOR_ID_WIDE_DYNAMIC_RANGE) (z2b (dv IMGSENSOR_ID_IMG_STABILIZATION))
    (dv IMGSENSOR_ID_ISO_SENSITIVITY_AUTO) (dv IMGSENSOR_ID_ISO_SENSITIVITY)
    (dv IMGSENSOR_ID_EXPOSURE_METERING) (dv IMGSENSOR_ID_3A_LOCK) (dv IMGSENSOR_ID_FLASH_LED_MODE)
    (dv IMGSENSOR_ID_JPEG_QUALITY).

Definition default_of (d : vdrv) (id : Z) : Z :=
  match get_default_value id d with Ret (v, _) => v | _ => 0 end.

Definition initialize_scene_parameter (sp : scene_params) : VD scene_params :=
  d ← get;
  '(sz, gp) ← initialize_scene_gamma;
  mret (default_params (default_of d) sz gp sp).

Fixpoint initialize_scenes (todo done : list scene_params) : VD unit :=
  match todo with
  | [] => mret tt
  | sp :: rest =>
    sp' ← initialize_scene_parameter sp;
    modify (set_scenes (done ++ sp' :: rest));;
    initialize_scenes rest (done ++ [sp'])
  end.

Definition initialize_scenes_parameter : VD unit :=
  d ← get; initialize_scenes (g_video_scene_parameter d) [].

(** [free(sp->gamma_curve)]; the pointer keeps its value. *)

Definition cleanup_scene_parameter (sp : scene_params) : outcome scene_params :=
  match sc_gamma_curve sp with
  | GammaNull => Ret sp
  | GammaLive _ => Ret (sc_set_gamma_curve GammaFreed sp)
  | GammaFreed => Ub DanglingDeref
  end.

Fixpoint cleanup_scenes (l : list scene_params) : outcome (list scene_params) :=
  match l with
  | [] => Ret []
  | sp :: rest =>
    sp' ← cleanup_scene_parameter sp; rest' ← cleanup_scenes rest; Ret (sp' :: rest')
  end.

Definition cleanup_scenes_parameter : VD unit :=
  d ← get; l ← lift (cleanup_scenes (g_video_scene_parameter d)); modify (set_scenes l).

(** ** Queries *)

Fixpoint find_name (l : list (Z * string)) (id : Z) : option string :=
  match l with
  | [] => None
  | (i, n) :: rest => if i =? id then Some n else find_name rest id
  end.

Definition set_parameter_name (id : Z) : VD string :=
  match find_name g_video_parameter_name id with
  | Some n => mret (strncpy32 n)
  | None => ub AssertFailed
  end.

Definition VIDEO_SCENE_MAX (d : vdrv) : Z := Z.of_nat (length (g_video_scene_parameter d)).

Definition video_query_ext_ctrl (arg : option query_ext_ctrl) : VD (Z * option query_ext_ctrl) :=
  o ← sensor;
  d ← get;
  match so_get_supported_value o with
  | None => mret (- ENOTTY, arg)
  | Some gsv =>
    match arg with
    | None => mret (- EINVAL, arg)
    | Some q =>
      if (q_class q =? V4L2_CTRL_CLASS_CAMERA) && (q_id q =? V4L2_CID_SCENE_MODE) then
        mret (OK, Some (mk_qext (q_class q) (q_id q) IMGSENSOR_CTRL_TYPE_INTEGER_MENU
          (strncpy32 "Scene Mode"%string) 0 (VIDEO_SCENE_MAX d - 1) 1 0 (q_flags q) (q_elems q)))
      else
        let id := VIDEO_ID (q_class q) (q_id q) in
        let '(ret, value) := gsv (hist d) id in
        if ret <? 0 then mret (ret, arg)
        else
          name ← set_parameter_name id;
          let t := sv_type value in
          let attr :=
            if t =? IMGSENSOR_CTRL_TYPE_INTEGER_MENU then
              let c := sv_discrete value in
              mk_qext (q_class q) (q_id q) t name 0 (Z.of_nat (length (dc_values c)) - 1) 1
                (dc_default c) (q_flags q) (q_elems q)
            else if (t =? IMGSENSOR_CTRL_TYPE_U8) || (t =? IMGSENSOR_CTRL_TYPE_U16)
                    || (t =? IMGSENSOR_CTRL_TYPE_U32) then
              let c := sv_elems value in
              mk_qext (q_class q) (q_id q) t name (el_minimum c) (el_maximum c) (el_step c)
                (q_default q) (q_flags q) (el_nr_elems c)
            else
              let c := sv_range value in
              mk_qext (q_class q) (q_id q) t name (rg_minimum c) (rg_maximum c) (rg_step c)
                (rg_default c) (q_flags q) (q_elems q) in
          mret (OK, Some attr)
    end
  end.

(** [stk] is what the uninitialised local [ext_ctrl] holds. *)

Definition video_queryctrl (stk : query_ext_ctrl) (arg : option queryctrl) :
    VD (Z * option queryctrl) :=
  match arg with
  | None => mret (- EINVAL, arg)
  | Some c =>
    '(ret, r) ← video_query_ext_ctrl (Some (mk_qext (qc_class c) (qc_id c) (q_type stk)
       (q_name stk) (q_minimum stk) (q_maximum stk) (q_step stk) (q_default stk) (q_flags stk)
       (q_elems stk)));
    match r with
    | Some e =>
      if negb (ret =? OK) then mret (ret, arg)
      else if (q_type e =? V4L2_CTRL_TYPE_INTEGER64) || (q_type e =? IMGSENSOR_CTRL_TYPE_U8)
              || (q_type e =? IMGSENSOR_CTRL_TYPE_U16) || (q_type e =? IMGSENSOR_CTRL_TYPE_U32)
      then mret (- EINVAL, arg)
      else mret (OK, Some (mk_qctl (qc_class c) (qc_id c) (q_type e) (strncpy32 (q_name e))
             (i32 (q_minimum e)) (i32 (q_maximum e)) (u32 (q_step e)) (i32 (q_default e))
             (q_flags e)))
    | None => mret (ret, arg)
    end
  end.

Definition video_querymenu (arg : option querymenu) : VD (Z * option querymenu) :=
  o ← sensor;
  d ← get;
  match so_get_supported_value o with
  | None => mret (- ENOTTY, arg)
  | Some gsv =>
    match arg with
    | None => mret (- EINVAL, arg)
    | Some m =>
      if (m_class m =? V4L2_CTRL_CLASS_CAMERA) && (m_id m =? V4L2_CID_SCENE_MODE) then
        if VIDEO_SCENE_MAX d - 1 <? m_index m then mret (- EINVAL, arg)
        else
          match g_video_scene_parameter d !! Z.to_nat (m_index m) with
          | Some sp => mret (OK, Some (mk_menu (m_class m) (m_id m) (m_index m) (sc_mode sp)))
          | None => ub OutOfBounds
          end
      else
        let '(ret, value) := gsv (hist d) (VIDEO_ID (m_class m) (m_id m)) in
        if ret <? 0 then mret (ret, arg)
        else if negb (sv_type value =? IMGSENSOR_CTRL_TYPE_INTEGER_MENU) then mret (- EINVAL, arg)
        else
          let vals := dc_values (sv_discrete value) in
          if Z.of_nat (length vals) <=? m_index m then mret (- EINVAL, arg)
          else
            match vals !! Z.to_nat (m_index m) with
            | Some v => mret (OK, Some (mk_menu (m_class m) (m_id m) (m_index m) v))
            | None => ub OutOfBounds
            end
    end
  end.

(** [video_query_ext_ctrl_scene], [video_querymenu_scene]: the mode is ignored. *)

Definition video_query_ext_ctrl_scene (arg : option (Z * query_ext_ctrl)) :
    VD (Z * option (Z * query_ext_ctrl)) :=
  match arg with
  | None => mret (- EINVAL, arg)
  | Some (mode, q) =>
    '(ret, r) ← video_query_ext_ctrl (Some q); mret (ret, (fun q' => (mode, q')) <$> r)
  end.

Definition video_querymenu_scene (arg : option (Z * querymenu)) :
    VD (Z * option (Z * querymenu)) :=
  match arg with
  | None => mret (- EINVAL, arg)
  | Some (mode, m) =>
    '(ret, r) ← video_querymenu (Some m); mret (ret, (fun m' => (mode, m')) <$> r)
  end.

(** ** The loop over the controls of a request

    Shared by the four requests that take an array: [body] is run on each
    control, and the first one whose result is [bad] ends the loop with its
    index in [error_idx]. *)

Fixpoint ctrl_loop (n : nat) (cnt : Z) (bad : Z -> bool)
    (body : ext_control -> VD (Z * ext_control)) (ret : Z) (cs : ext_controls) :
    VD (Z * ext_controls) :=
  match n with
  | O => mret (ret, cs)
  | S n' =>
    match cs_controls cs !! Z.to_nat cnt with
    | None => ub OutOfBounds
    | Some c =>
      '(r, c') ← body c;
      let cs' := set_controls (<[Z.to_nat cnt := c']> (cs_controls cs)) cs in
      if bad r then mret (r, set_error_idx cnt cs')
      else ctrl_loop n' (cnt + 1) bad body r cs'
    end
  end.

Definition ctrls_loop (bad : Z -> bool) (body : ext_control -> VD (Z * ext_control))
    (cs : ext_controls) : VD (Z * ext_controls) :=
  ctrl_loop (Z.to_nat (cs_count cs)) 0 bad body OK cs.

Definition is_negative (ret : Z) : bool := ret <? 0.
Definition not_ok (ret : Z) : bool := negb (ret =? OK).

Definition video_g_ext_ctrls (arg : option ext_controls) : VD (Z * option ext_controls) :=
  o ← sensor;
  match so_get_value o with
  | None => mret (- ENOTTY, arg)
  | Some gv =>
    match arg with
    | None => mret (- EINVAL, arg)
    | Some cs =>
      '(ret, cs') ← ctrls_loop is_negative (fun c =>
         d ← get;
         let '(r, v) := gv (hist d) (VIDEO_ID (cs_class cs) (ec_id c)) (ec_size c) (ec_value c) in
         mret (r, set_ec_value v c)) cs;
      mret (ret, Some cs')
    end
  end.

(** ** Setting values *)

Definition sensor_set (id size : Z) (v : value_union) : VD Z :=
  o ← sensor;
  d ← get;
  dev_query (so_set_value o) (fun sv =>
    call (SensorSetValue id size v);; mret (sv (hist d) id size v)).

Definition set_intvalue (id value32 : Z) : VD Z :=
  sensor_set id 4 (v_set_int value32 (mk_value 0 [])).

(** A pointer to a freed block is read by the sensor. *)

Definition set_pvalue (id size : Z) (pval : gamma_ptr) : VD Z :=
  match pval with
  | GammaNull => sensor_set id (u32 (i32 size)) (mk_value 0 [])
  | GammaLive bytes => sensor_set id (u32 (i32 size)) (mk_value 0 bytes)
  | GammaFreed => ub DanglingDeref
  end.

Fixpoint search_mode (l : list scene_params) (mode : Z) : option nat :=
  match l with
  | [] => None
  | sp :: rest => if sc_mode sp =? mode then Some O else S <$> search_mode rest mode
  end.

Definition scene_of (d : vdrv) (mode : Z) : option (nat * scene_params) :=
  i ← search_mode (g_video_scene_parameter d) mode;
  sp ← g_video_scene_parameter d !! i; Some (i, sp).

Definition search_scene_param (mode : Z) : VD (option (nat * scene_params)) :=
  gets (fun d => scene_of d mode).

(** One assignment of a scene to the sensor. *)

Inductive setting :=
  | int_setting (id value : Z)
  | gamma_setting (sp : scene_params).

Definition apply_setting (s : setting) : VD Z :=
  match s with
  | int_setting id v => set_intvalue id v
  | gamma_setting sp =>
    set_pvalue IMGSENSOR_ID_GAMMA_CURVE (sc_gamma_curve_sz sp) (sc_gamma_curve sp)
  end.

Definition scene_settings (sp : scene_params) : list setting :=
  [int_setting IMGSENSOR_ID_BRIGHTNESS (sc_brightness sp);
   int_setting IMGSENSOR_ID_CONTRAST (sc_contrast sp);
   int_setting IMGSENSOR_ID_SATURATION (sc_saturation sp);
   int_setting IMGSENSOR_ID_HUE (sc_hue sp);
   int_setting IMGSENSOR_ID_AUTO_WHITE_BALANCE (b2z (sc_awb sp));
   int_setting IMGSENSOR_ID_RED_BALANCE (sc_red sp);
   int_setting IMGSENSOR_ID_BLUE_BALANCE (sc_blue sp);
   int_setting IMGSENSOR_ID_GAMMA (sc_gamma sp);
   gamma_setting sp;
   int_setting IMGSENSOR_ID_EXPOSURE (sc_ev sp);
   int_setting IMGSENSOR_ID_HFLIP_VIDEO (b2z (sc_hflip_video sp));
   int_setting IMGSENSOR_ID_VFLIP_VIDEO (b2z (sc_vflip_video sp));
   int_setting IMGSENSOR_ID_HFLIP_STILL (b2z (sc_hflip_still sp));
   int_setting IMGSENSOR_ID_VFLIP_STILL (b2z (sc_vflip_still sp));
   int_setting IMGSENSOR_ID_SHARPNESS (sc_sharpness sp);
   int_setting IMGSENSOR_ID_COLORFX (sc_colorfx sp);
   int_setting IMGSENSOR_ID_AUTOBRIGHTNESS (b2z (sc_auto_brightness sp));
   int_setting IMGSENSOR_ID_ROTATE (sc_rotate sp);
   int_setting IMGSENSOR_ID_EXPOSURE_AUTO (sc_ae sp)] ++
  (if (sc_ae sp =? V4L2_EXPOSURE_MANUAL) || (sc_ae sp =? V4L2_EXPOSURE_SHUTTER_PRIORITY)
   then [int_setting IMGSENSOR_ID_EXPOSURE_ABSOLUTE (sc_exposure_time sp)] else []) ++
  [int_setting IMGSENSOR_ID_FOCUS_ABSOLUTE (sc_focus sp);
   int_setting IMGSENSOR_ID_FOCUS_AUTO (b2z (sc_af sp));
   int_setting IMGSENSOR_ID_ZOOM_ABSOLUTE (sc_zoom sp)] ++
  (if (sc_ae sp =? V4L2_EXPOSURE_MANUAL) || (sc_ae sp =? V4L2_EXPOSURE_APERTURE_PRIORITY)
   then [int_setting IMGSENSOR_ID_IRIS_ABSOLUTE (sc_iris sp)] else []) ++
  [int_setting IMGSENSOR_ID_AUTO_N_PRESET_WB (sc_wb sp);
   int_setting IMGSENSOR_ID_WIDE_DYNAMIC_RANGE (sc_wdr sp);
   int_setting IMGSENSOR_ID_IMG_STABILIZATION (b2z (sc_stabilization sp));
   int_setting IMGSENSOR_ID_ISO_SENSITIVITY_AUTO (sc_iso_auto sp)] ++
  (if sc_iso_auto sp =? V4L2_ISO_SENSITIVITY_MANUAL then [int_setting IMGSENSOR_ID_ISO_SENSITIVITY (sc_iso sp)] else []) ++
  [int_setting IMGSENSOR_ID_EXPOSURE_METERING (sc_meter sp);
   int_setting IMGSENSOR_ID_3A_LOCK (sc_threea_lock sp);
   int_setting IMGSENSOR_ID_FLASH_LED_MODE (sc_led sp);
   int_setting IMGSENSOR_ID_JPEG_QUALITY (sc_jpeg_quality sp)].

Fixpoint apply_settings (l : list setting) : VD unit :=
  match l with
  | [] => mret tt
  | s :: rest => apply_setting s;; apply_settings rest
  end.

Definition reflect_scene_parameter (mode : Z) : VD Z :=
  r ← search_scene_param mode;
  match r with
  | None => mret (- EINVAL)
  | Some (_, sp) =>
    apply_settings (scene_settings sp);; modify (set_scene_mode mode);; mret OK
  end.

(** ** Reading and writing the parameters of a scene *)

Definition scene_value (sp : scene_params) (id : Z) : option Z :=
  if id =? IMGSENSOR_ID_BRIGHTNESS then Some (sc_brightness sp)
  else if id =? IMGSENSOR_ID_CONTRAST then Some (sc_contrast sp)
  else if id =? IMGSENSOR_ID_SATURATION then Some (sc_saturation sp)
  else if id =? IMGSENSOR_ID_HUE then Some (sc_hue sp)
  else if id =? IMGSENSOR_ID_AUTO_WHITE_BALANCE then Some (b2z (sc_awb sp))
  else if id =? IMGSENSOR_ID_RED_BALANCE then Some (sc_red sp)
  else if id =? IMGSENSOR_ID_BLUE_BALANCE then Some (sc_blue sp)
  else if id =? IMGSENSOR_ID_GAMMA then Some (sc_gamma sp)
  else if id =? IMGSENSOR_ID_EXPOSURE then Some (sc_ev sp)
  else if id =? IMGSENSOR_ID_HFLIP_VIDEO then Some (b2z (sc_hflip_video sp))
  else if id =? IMGSENSOR_ID_VFLIP_VIDEO then Some (b2z (sc_vflip_video sp))
  else if id =? IMGSENSOR_ID_HFLIP_STILL then Some (b2z (sc_hflip_still sp))
  else if id =? IMGSENSOR_ID_VFLIP_STILL then Some (b2z (sc_vflip_still sp))
  else if id =? IMGSENSOR_ID_SHARPNESS then Some (sc_sharpness sp)
  else if id =? IMGSENSOR_ID_COLOR_KILLER then
    Some (b2z (sc_colorfx sp =? V4L2_COLORFX_BW))
  else if id =? IMGSENSOR_ID_COLORFX then Some (sc_colorfx sp)
  else if id =? IMGSENSOR_ID_AUTOBRIGHTNESS then Some (b2z (sc_auto_brightness sp))
  else if id =? IMGSENSOR_ID_ROTATE then Some (sc_rotate sp)
  else if id =? IMGSENSOR_ID_EXPOSURE_AUTO then Some (sc_ae sp)
  else if id =? IMGSENSOR_ID_EXPOSURE_ABSOLUTE then Some (sc_exposure_time sp)
  else if id =? IMGSENSOR_ID_FOCUS_ABSOLUTE then Some (sc_focus sp)
  else if id =? IMGSENSOR_ID_FOCUS_AUTO then Some (b2z (sc_af sp))
  else if id =? IMGSENSOR_ID_ZOOM_ABSOLUTE then Some (sc_zoom sp)
  else if id =? IMGSENSOR_ID_IRIS_ABSOLUTE then Some (sc_iris sp)
  else if id =? IMGSENSOR_ID_AUTO_N_PRESET_WB then Some (sc_wb sp)
  else if id =? IMGSENSOR_ID_WIDE_DYNAMIC_RANGE then Some (sc_wdr sp)
  else if id =? IMGSENSOR_ID_IMG_STABILIZATION then Some (b2z (sc_stabilization sp))
  else if id =? IMGSENSOR_ID_ISO_SENSITIVITY then Some (sc_iso sp)
  else if id =? IMGSENSOR_ID_ISO_SENSITIVITY_AUTO then Some (sc_iso_auto sp)
  else if id =? IMGSENSOR_ID_EXPOSURE_METERING then Some (sc_meter sp)
  else if id =? IMGSENSOR_ID_3A_LOCK then Some (sc_threea_lock sp)
  else if id =? IMGSENSOR_ID_FLASH_LED_MODE then Some (sc_led sp)
  else if id =? IMGSENSOR_ID_JPEG_QUALITY then Some (sc_jpeg_quality sp)
  else None.

Definition scene_store (sp : scene_params) (id value : Z) : option scene_params :=
  if id =? IMGSENSOR_ID_BRIGHTNESS then Some (sc_set_brightness value sp)
  else if id =? IMGSENSOR_ID_CONTRAST then Some (sc_set_contrast value sp)
  else if id =? IMGSENSOR_ID_SATURATION then Some (sc_set_saturation value sp)
  else if id =? IMGSENSOR_ID_HUE then Some (sc_set_hue value sp)
  else if id =? IMGSENSOR_ID_AUTO_WHITE_BALANCE then Some (sc_set_awb (z2b value) sp)
  else if id =? IMGSENSOR_ID_RED_BALANCE then Some (sc_set_red value sp)
  else if id =? IMGSENSOR_ID_BLUE_BALANCE then Some (sc_set_blue value sp)
  else if id =? IMGSENSOR_ID_GAMMA then Some (sc_set_gamma value sp)
  else if id =? IMGSENSOR_ID_EXPOSURE then Some (sc_set_ev value sp)
  else if id =? IMGSENSOR_ID_HFLIP_VIDEO then Some (sc_set_hflip_video (z2b value) sp)
  else if id =? IMGSENSOR_ID_VFLIP_VIDEO then Some (sc_set_vflip_video (z2b value) sp)
  else if id =? IMGSENSOR_ID_HFLIP_STILL then Some (sc_set_hflip_still (z2b value) sp)
  else if id =? IMGSENSOR_ID_VFLIP_STILL then Some (sc_set_vflip_still (z2b value) sp)
  else if id =? IMGSENSOR_ID_SHARPNESS then Some (sc_set_sharpness value sp)
  else if id =? IMGSENSOR_ID_COLOR_KILLER then
    Some (sc_set_colorfx (if value =? 1 then V4L2_COLORFX_BW else V4L2_COLORFX_NONE) sp)
  else if id =? IMGSENSOR_ID_COLORFX then Some (sc_set_colorfx value sp)
  else if id =? IMGSENSOR_ID_AUTOBRIGHTNESS then Some (sc_set_auto_brightness (z2b value) sp)
  else if id =? IMGSENSOR_ID_ROTATE then Some (sc_set_rotate value sp)
  else if id =? IMGSENSOR_ID_EXPOSURE_AUTO then Some (sc_set_ae value sp)
  else if id =? IMGSENSOR_ID_EXPOSURE_ABSOLUTE then Some (sc_set_exposure_time value sp)
  else if id =? IMGSENSOR_ID_FOCUS_ABSOLUTE then Some (sc_set_focus value sp)
  else if id =? IMGSENSOR_ID_FOCUS_AUTO then Some (sc_set_af (z2b value) sp)
  else if id =? IMGSENSOR_ID_ZOOM_ABSOLUTE then Some (sc_set_zoom value sp)
  else if id =? IMGSENSOR_ID_IRIS_ABSOLUTE then Some (sc_set_iris value sp)
  else if id =? IMGSENSOR_ID_AUTO_N_PRESET_WB then Some (sc_set_wb value sp)
  else if id =? IMGSENSOR_ID_WIDE_DYNAMIC_RANGE then Some (sc_set_wdr value sp)
  else if id =? IMGSENSOR_ID_IMG_STABILIZATION then Some (sc_set_stabilization (z2b value) sp)
  else if id =? IMGSENSOR_ID_ISO_SENSITIVITY then Some (sc_set_iso value sp)
  else if id =? IMGSENSOR_ID_ISO_SENSITIVITY_AUTO then Some (sc_set_iso_auto value sp)
  else if id =? IMGSENSOR_ID_EXPOSURE_METERING then Some (sc_set_meter value sp)
  else if id =? IMGSENSOR_ID_3A_LOCK then Some (sc_set_threea_lock value sp)
  else if id =? IMGSENSOR_ID_FLASH_LED_MODE then Some (sc_set_led value sp)
  else if id =? IMGSENSOR_ID_JPEG_QUALITY then Some (sc_set_jpeg_quality value sp)
  else None.

Definition read_scene_param (mode id : Z) (c : ext_control) : VD (Z * ext_control) :=
  o ← sensor;
  d ← get;
  match so_get_supported_value o with
  | None => mret (- ENOTTY, c)
  | Some gsv =>
    r ← search_scene_param mode;
    match r with
    | None => mret (- EINVAL, c)
    | Some (_, sp) =>
      let '(ret, _) := gsv (hist d) id in
      if ret <? 0 then mret (ret, c)
      else if id =? IMGSENSOR_ID_GAMMA_CURVE then
        match sc_gamma_curve sp with
        | GammaNull => if sc_gamma_curve_sz sp =? 0 then mret (ret, c) else ub NullDeref
        | GammaFreed => ub DanglingDeref
        | GammaLive bytes =>
          let n := Z.to_nat (sc_gamma_curve_sz sp) in
          let mem := v_mem (ec_value c) in
          if bool_decide (n <= length bytes)%nat && bool_decide (n <= length mem)%nat then
            mret (ret, set_ec_value (mk_value (v_bits (ec_value c)) (take n bytes ++ drop n mem)) c)
          else ub OutOfBounds
        end
      else
        match scene_value sp id with
        | Some v => mret (ret, set_ec_int v c)
        | None => mret (- EINVAL, c)
        end
    end
  end.

Definition check_range (value min max step : Z) : outcome Z :=
  if (value <? min) || (max <? value) then Ret (- EINVAL)
  else if INT64_MAX <? value - min then Ub SignedOverflow
  else if step =? 0 then Ub DivByZero
  else if negb ((value - min) mod step =? 0) then Ret (- EINVAL) else Ret OK.

(** The [i]-th element of an array of [w]-byte little-endian integers. *)

Fixpoint le_value (l : list Z) : Z :=
  match l with [] => 0 | b :: rest => b + 256 * le_value rest end.

Definition read_elem (mem : list Z) (w i : nat) : outcome Z :=
  if bool_decide ((i * w + w) <= length mem)%nat
  then Ret (le_value (take w (drop (i * w) mem))) else Ub OutOfBounds.

Fixpoint check_elems (n i : nat) (w : nat) (mem : list Z) (el : capability_elems) : outcome Z :=
  match n with
  | O => Ret OK
  | S n' =>
    x ← read_elem mem w i;
    r ← check_range x (el_minimum el) (el_maximum el) (el_step el);
    if r =? OK then check_elems n' (S i) w mem el else Ret r
  end.

(** The first [switch] of [save_scene_param]: the checks of the value. *)

Definition check_value (value : supported_value) (c : ext_control) : outcome Z :=
  let t := sv_type value in
  if t =? IMGSENSOR_CTRL_TYPE_INTEGER_MENU then
    if bool_decide (v_int (ec_value c) ∈ dc_values (sv_discrete value))
    then Ret OK else Ret (- EINVAL)
  else if (t =? IMGSENSOR_CTRL_TYPE_U8) || (t =? IMGSENSOR_CTRL_TYPE_U16)
          || (t =? IMGSENSOR_CTRL_TYPE_U32) then
    check_elems (Z.to_nat (el_nr_elems (sv_elems value))) 0 (Z.to_nat (elem_size t))
      (v_mem (ec_value c)) (sv_elems value)
  else
    let r := sv_range value in
    check_range (v_int (ec_value c)) (rg_minimum r) (rg_maximum r) (rg_step r).

(** The second [switch]: the assignment; [None] is the unknown parameter. *)

Definition store_value (sp : scene_params) (id : Z) (c : ext_control) :
    outcome (option scene_params) :=
  if id =? IMGSENSOR_ID_GAMMA_CURVE then
    match sc_gamma_curve sp with
    | GammaNull => if sc_gamma_curve_sz sp =? 0 then Ret (Some sp) else Ub NullDeref
    | GammaFreed => Ub DanglingDeref
    | GammaLive bytes =>
      let n := Z.to_nat (sc_gamma_curve_sz sp) in
      let mem := v_mem (ec_value c) in
      if bool_decide (n <= length bytes)%nat && bool_decide (n <= length mem)%nat then
        Ret (Some (sc_set_gamma_curve (GammaLive (take n mem ++ drop n bytes)) sp))
      else Ub OutOfBounds
    end
  else Ret (scene_store sp id (v_int (ec_value c))).

Definition save_scene_param (mode id : Z) (c : ext_control) : VD Z :=
  o ← sensor;
  d ← get;
  match so_get_supported_value o with
  | None => mret (- ENOTTY)
  | Some gsv =>
    r ← search_scene_param mode;
    match r with
    | None => mret (- EINVAL)
    | Some (i, sp) =>
      let '(ret, value) := gsv (hist d) id in
      if ret <? 0 then mret ret
      else
        ok ← lift (check_value value c);
        if negb (ok =? OK) then mret ok
        else
          st ← lift (store_value sp id c);
          match st with
          | None => mret (- EINVAL)
          | Some sp' =>
            modify (set_scenes (<[i := sp']> (g_video_scene_parameter d)));; mret OK
          end
    end
  end.

(** ** The requests that set controls *)

Definition s_ext_ctrl (class : Z) (c : ext_control) : VD (Z * ext_control) :=
  if (class =? V4L2_CTRL_CLASS_CAMERA) && (ec_id c =? V4L2_CID_SCENE_MODE) then
    r ← reflect_scene_parameter (v_int (ec_value c)); mret (r, c)
  else
    ret ← sensor_set (VIDEO_ID class (ec_id c)) (ec_size c) (ec_value c);
    (if ret =? 0 then
       d ← get;
       if g_video_scene_mode d =? V4L2_SCENE_MODE_NONE then
         save_scene_param V4L2_SCENE_MODE_NONE (VIDEO_ID class (ec_id c)) c;; mret tt
       else mret tt
     else mret tt);;
    mret (ret, c).

Definition video_s_ext_ctrls (arg : option ext_controls) : VD (Z * option ext_controls) :=
  o ← sensor;
  match so_set_value o with
  | None => mret (- ENOTTY, arg)
  | Some _ =>
    match arg with
    | None => mret (- EINVAL, arg)
    | Some cs =>
      '(ret, cs') ← ctrls_loop is_negative (s_ext_ctrl (cs_class cs)) cs; mret (ret, Some cs')
    end
  end.

(** [stk] is what the uninitialised local [control] holds. *)

Definition video_g_ctrl (stk : ext_control) (arg : option control) : VD (Z * option control) :=
  match arg with
  | None => mret (- EINVAL, arg)
  | Some c =>
    '(ret, r) ← video_g_ext_ctrls (Some (mk_ctls V4L2_CTRL_CLASS_USER 1 0
       [mk_ctl (ct_id c) (ec_size stk) (ec_value stk)]));
    match r with
    | Some (mk_ctls _ _ _ [e]) =>
      mret (ret, Some (if ret =? OK then mk_control (ct_id c) (v_int (ec_value e)) else c))
    | _ => mret (ret, arg)
    end
  end.

Definition video_s_ctrl (stk : ext_control) (arg : option control) : VD (Z * option control) :=
  match arg with
  | None => mret (- EINVAL, arg)
  | Some c =>
    '(ret, _) ← video_s_ext_ctrls (Some (mk_ctls V4L2_CTRL_CLASS_USER 1 0
       [mk_ctl (ct_id c) (ec_size stk) (v_set_int (ct_value c) (ec_value stk))]));
    mret (ret, arg)
  end.

Definition video_do_halfpush (stk : ext_control) (enable : bool) : VD Z :=
  '(ret, _) ← video_s_ext_ctrls (Some (mk_ctls V4L2_CTRL_CLASS_CAMERA 2 0
     [mk_ctl V4L2_CID_3A_LOCK (ec_size stk) (v_set_int
        (if enable then Z.lor V4L2_LOCK_EXPOSURE V4L2_LOCK_WHITE_BALANCE else 0) (ec_value stk));
      mk_ctl V4L2_CID_AUTO_FOCUS_START (ec_size stk)
        (v_set_int (b2z enable) (ec_value stk))]));
  mret ret.

Definition video_g_ext_ctrls_scene (arg : option (Z * ext_controls)) :
    VD (Z * option (Z * ext_controls)) :=
  match arg with
  | None => mret (- EINVAL, arg)
  | Some (mode, cs) =>
    '(ret, cs') ← ctrls_loop not_ok (fun c =>
       read_scene_param mode (VIDEO_ID (cs_class cs) (ec_id c)) c) cs;
    mret (ret, Some (mode, cs'))
  end.

Definition video_s_ext_ctrls_scene (arg : option (Z * ext_controls)) :
    VD (Z * option (Z * ext_controls)) :=
  match arg with
  | None => mret (- EINVAL, arg)
  | Some (mode, cs) =>
    '(ret, cs') ← ctrls_loop not_ok (fun c =>
       r ← save_scene_param mode (VIDEO_ID (cs_class cs) (ec_id c)) c; mret (r, c)) cs;
    mret (ret, Some (mode, cs'))
  end.

(** ** Lemmas *)

(** Equality of controls against concrete identifiers. *)

Ltac on_id :=
  repeat match goal with
  | H : (if ?id =? ?k then _ else _) = Some _ |- _ =>
      destruct (Z.eqb_spec id k) as [->|]; [injection H as <-|]
  | H : None = Some _ |- _ => discriminate H
  end.

Lemma v_int_range v : INT_MIN <= v_int v <= INT_MAX.
Proof. apply i32_range. Qed.

Lemma v_int_set x v : v_int (v_set_int x v) = i32 x.
Proof.
  unfold v_int, v_set_int, i32, u32; simpl.
  rewrite (Z.add_comm _ (x mod _)), Z.mod_add by lia. by rewrite Z.mod_mod by lia.
Qed.

(** What a parameter holds after [value] was assigned to it. *)

Definition flag_controls : list Z :=
  [IMGSENSOR_ID_AUTO_WHITE_BALANCE; IMGSENSOR_ID_HFLIP_VIDEO; IMGSENSOR_ID_VFLIP_VIDEO;
   IMGSENSOR_ID_HFLIP_STILL; IMGSENSOR_ID_VFLIP_STILL; IMGSENSOR_ID_AUTOBRIGHTNESS;
   IMGSENSOR_ID_FOCUS_AUTO; IMGSENSOR_ID_IMG_STABILIZATION].

Definition stored (id value : Z) : Z :=
  if id =? IMGSENSOR_ID_COLOR_KILLER then b2z (value =? 1)
  else if bool_decide (id ∈ flag_controls) then b2z (z2b value) else value.

Lemma stored_i32 id v : INT_MIN <= v <= INT_MAX -> INT_MIN <= stored id v <= INT_MAX.
Proof. unfold stored, b2z, INT_MIN, INT_MAX. repeat case_match; lia. Qed.

Lemma scene_store_value sp id v sp' :
  scene_store sp id v = Some sp' -> scene_value sp' id = Some (stored id v).
Proof.
  unfold scene_store. intros H. on_id; try reflexivity.
  unfold stored. cbn. by destruct (v =? 1).
Qed.

Lemma scene_store_mode sp id v sp' : scene_store sp id v = Some sp' -> sc_mode sp' = sc_mode sp.
Proof. unfold scene_store. intros H. on_id; reflexivity. Qed.

(** [COLOR_KILLER] and [COLORFX] share the member [colorfx]. *)

Definition colour_controls : list Z := [IMGSENSOR_ID_COLOR_KILLER; IMGSENSOR_ID_COLORFX].

Definition independent (id id' : Z) : Prop :=
  id <> id' /\ ~ (id ∈ colour_controls /\ id' ∈ colour_controls).

#[global] Instance independent_dec id id' : Decision (independent id id').
Proof. unfold independent. apply _. Defined.

Lemma scene_store_frame sp id v sp' id' :
  scene_store sp id v = Some sp' -> independent id id' -> scene_value sp' id' = scene_value sp id'.
Proof.
  unfold scene_store. intros H [Hne Hcol]. unfold scene_value.
  on_id; cbn;
    repeat match goal with
    | |- (if ?x =? ?k then _ else _) = _ =>
        destruct (Z.eqb_spec x k) as [->|]; [first [reflexivity | congruence | idtac]|]
    end; try reflexivity;
    exfalso; apply Hcol; unfold colour_controls; set_solver.
Qed.

End VideoCtrl.
