(* ===== verification/VideoCtrlProps.v ===== *)
(** * Correctness of the camera controls and scene parameters

    Theorems on [VideoCtrl]: what the driver stores, reads back, accepts and
    sends to the sensor. *)

From Stdlib Require Import String.
From S2P Require Import Prelude FrameBuff VideoState VideoCtrl.
Import VideoState VideoCtrl.

Module VideoCtrlProps.

(** The search stops at the first scene of the mode. *)

Lemma search_mode_lookup l mode i :
  search_mode l mode = Some i -> exists sp, l !! i = Some sp /\ sc_mode sp = mode.
Proof.
  revert i. induction l as [|sp l IH]; intros i H; simpl in H; [done|].
  destruct (Z.eqb_spec (sc_mode sp) mode).
  - injection H as <-. by exists sp.
  - destruct (search_mode l mode) as [j|] eqn:E; [|done]. injection H as <-.
    destruct (IH j eq_refl) as (sp' & ? & ?). by exists sp'.
Qed.

Lemma search_mode_ext l l' mode :
  sc_mode <$> l = sc_mode <$> l' -> search_mode l mode = search_mode l' mode.
Proof.
  revert l'. induction l as [|sp l IH]; intros [|sp' l'] H; simplify_eq/=; [done|].
  match goal with E : sc_mode sp = _ |- _ => rewrite E end. by rewrite (IH l').
Qed.

Lemma modes_insert (l : list scene_params) (i : nat) sp sp' :
  l !! i = Some sp -> sc_mode sp' = sc_mode sp ->
  sc_mode <$> <[i := sp']> l = sc_mode <$> l.
Proof.
  intros Hi Hm. rewrite list_fmap_insert, list_insert_id; [done|].
  rewrite list_lookup_fmap, Hi. simpl. by rewrite Hm.
Qed.

Lemma scene_of_inv d mode i sp :
  scene_of d mode = Some (i, sp) ->
  search_mode (g_video_scene_parameter d) mode = Some i /\
  g_video_scene_parameter d !! i = Some sp /\ sc_mode sp = mode.
Proof.
  unfold scene_of. intros H. simpl in H.
  destruct (search_mode _ mode) as [j|] eqn:E; simplify_eq/=.
  destruct (search_mode_lookup _ _ _ E) as (sp0 & H0 & Hm).
  rewrite H0 in H. simplify_eq/=. done.
Qed.

Lemma scene_of_update d mode mode' i sp sp' :
  scene_of d mode = Some (i, sp) -> sc_mode sp' = sc_mode sp ->
  scene_of (set_scenes (<[i := sp']> (g_video_scene_parameter d)) d) mode' =
  if mode' =? mode then Some (i, sp') else scene_of d mode'.
Proof.
  intros (Hs & Hl & Hm)%scene_of_inv Hm'. unfold scene_of.
  change (g_video_scene_parameter (set_scenes ?l d)) with l.
  rewrite (search_mode_ext _ (g_video_scene_parameter d)) by by eapply modes_insert.
  destruct (Z.eqb_spec mode' mode) as [->|Hne].
  - rewrite Hs. simpl. by rewrite list_lookup_insert_eq by eauto using lookup_lt_Some.
  - destruct (search_mode _ mode') as [j|] eqn:E; [|done]. simpl.
    destruct (search_mode_lookup _ _ _ E) as (spj & Hj & Hmj).
    rewrite list_lookup_insert_ne; [done|]. intros ->. congruence.
Qed.

(** [save_scene_param], inverted. *)

Lemma save_inv mode id c d r d' :
  save_scene_param mode id c d = Ret (r, d') ->
  exists o, g_video_sensor_ops d = Some o /\
  (r <> OK -> d' = d) /\
  (r = OK -> exists gsv i sp value ret sp',
     so_get_supported_value o = Some gsv /\ scene_of d mode = Some (i, sp) /\
     gsv (hist d) id = (ret, value) /\ 0 <= ret /\
     check_value value c = Ret OK /\ store_value sp id c = Ret (Some sp') /\
     d' = set_scenes (<[i := sp']> (g_video_scene_parameter d)) d).
Proof.
  unfold save_scene_param, sensor, search_scene_param. munfold.
  destruct (g_video_sensor_ops d) as [o|] eqn:Ho; [|done]. intros H. exists o.
  split; [done|].
  destruct (so_get_supported_value o) as [gsv|] eqn:Hg; [|by simplify_eq].
  destruct (scene_of d mode) as [[i sp]|] eqn:Hs; [|by simplify_eq].
  destruct (gsv (hist d) id) as [ret value] eqn:Hq.
  destruct (ret <? 0) eqn:Hr; to_prop; [simplify_eq; split; [done|intros ->; unfold OK in *; lia]|].
  destruct (check_value value c) as [ok| |] eqn:Hc; try done.
  destruct (Z.eqb_spec ok OK) as [->|Hok]; simpl in H; [|simplify_eq; done].
  destruct (store_value sp id c) as [[sp'|]| |] eqn:Hst; simplify_eq; [|done].
  split; [done|]. intros _. by exists gsv, i, sp, value, ret, sp'.
Qed.

Lemma read_scene_value mode id c d o gsv i sp ret value v :
  g_video_sensor_ops d = Some o -> so_get_supported_value o = Some gsv ->
  scene_of d mode = Some (i, sp) -> gsv (hist d) id = (ret, value) -> 0 <= ret ->
  id <> IMGSENSOR_ID_GAMMA_CURVE -> scene_value sp id = Some v ->
  read_scene_param mode id c d = Ret ((ret, set_ec_int v c), d).
Proof.
  intros Ho Hg Hs Hq Hr Hid Hv. unfold read_scene_param, sensor, search_scene_param. munfold.
  rewrite Ho, Hg, Hs, Hq. rewrite (proj2 (Z.ltb_ge _ _) Hr), (proj2 (Z.eqb_neq _ _) Hid).
  by rewrite Hv.
Qed.

Lemma store_value_mode sp id c sp' :
  store_value sp id c = Ret (Some sp') -> sc_mode sp' = sc_mode sp.
Proof.
  unfold store_value. repeat case_match; intros; simplify_eq; try done.
  by eapply scene_store_mode.
Qed.

(** A control saved in a scene is what that scene gives back: after
    [save_scene_param] returned [OK] for an integer control, [read_scene_param]
    of the same scene and control succeeds and delivers the value (a flag
    control delivers its truth value, the colour killer whether it was set to 1). *)
Theorem scene_param_roundtrip mode id c d d'
    (Hsave : save_scene_param mode id c d = Ret (OK, d'))
    (Hid : id <> IMGSENSOR_ID_GAMMA_CURVE) c' :
  exists ret c'', read_scene_param mode id c' d' = Ret ((ret, c''), d') /\ 0 <= ret /\
    v_int (ec_value c'') = stored id (v_int (ec_value c)) /\ ec_id c'' = ec_id c'.
Proof.
  apply save_inv in Hsave as (o & Ho & _ & Hok).
  destruct (Hok eq_refl) as (gsv & i & sp & value & ret & sp' & Hg & Hs & Hq & Hr & _ & Hst & ->).
  pose proof (store_value_mode _ _ _ _ Hst) as Hm.
  unfold store_value in Hst. rewrite (proj2 (Z.eqb_neq _ _) Hid) in Hst. injection Hst as Hst.
  exists ret, (set_ec_int (stored id (v_int (ec_value c))) c'). split_and!; [|done| |done].
  - eapply read_scene_value; [done..| | | | |]; simpl; eauto using scene_store_value.
    rewrite (scene_of_update _ _ _ _ _ _ Hs Hm), Z.eqb_refl. done.
  - simpl. rewrite v_int_set. apply i32_id, stored_i32, v_int_range.
Qed.

(** The gamma curve saved in a scene comes back byte for byte: the
    first [gamma_curve_sz] bytes of the reader's array are those of the
    writer's, whatever follows is untouched. *)
Theorem gamma_curve_roundtrip mode c d d' i sp bytes
    (Hsave : save_scene_param mode IMGSENSOR_ID_GAMMA_CURVE c d = Ret (OK, d'))
    (Hsp : scene_of d mode = Some (i, sp))
    (Hlive : sc_gamma_curve sp = GammaLive bytes) c'
    (Hroom : (Z.to_nat (sc_gamma_curve_sz sp) <= length (v_mem (ec_value c')))%nat) :
  let n := Z.to_nat (sc_gamma_curve_sz sp) in
  exists ret c'', read_scene_param mode IMGSENSOR_ID_GAMMA_CURVE c' d' = Ret ((ret, c''), d') /\
    0 <= ret /\
    v_mem (ec_value c'') = take n (v_mem (ec_value c)) ++ drop n (v_mem (ec_value c')).
Proof.
  intros n. apply save_inv in Hsave as (o & Ho & _ & Hok).
  destruct (Hok eq_refl) as (gsv & i' & sp0 & value & ret & sp' & Hg & Hs & Hq & Hr & _ & Hst & ->).
  rewrite Hsp in Hs. injection Hs as <- <-. pose proof (store_value_mode _ _ _ _ Hst) as Hm.
  unfold store_value in Hst. rewrite Z.eqb_refl, Hlive in Hst.
  destruct (bool_decide _ && bool_decide _) eqn:Hb; [|done]. to_prop. fold n in Hroom.
  injection Hst as <-. eexists ret, _. split_and!; [|done|].
  - unfold read_scene_param, sensor, search_scene_param. munfold. simpl. rewrite Ho, Hg.
    rewrite (scene_of_update _ _ _ _ _ _ Hsp Hm), Z.eqb_refl. change (hist (set_scenes _ d)) with (hist d). rewrite Hq.
    rewrite (proj2 (Z.ltb_ge _ _) Hr). cbn -[take drop Z.to_nat]. fold n.
    rewrite !bool_decide_eq_true_2; [done|done|].
    rewrite length_app, length_take, length_drop. lia.
  - simpl. rewrite take_app_le, take_take; [f_equal; f_equal; lia|].
    rewrite length_take. lia.
Qed.

(** Saving a control changes nothing else: every read of another scene,
    or of an independent control of the same scene, gives what it gave before. *)
Theorem save_scene_param_frame mode id c d d' mode' id' c' r
    (Hsave : save_scene_param mode id c d = Ret (OK, d'))
    (Hother : mode' <> mode \/ independent id id' /\ id' <> IMGSENSOR_ID_GAMMA_CURVE
                               /\ id <> IMGSENSOR_ID_GAMMA_CURVE)
    (Hread : read_scene_param mode' id' c' d = Ret (r, d)) :
  read_scene_param mode' id' c' d' = Ret (r, d').
Proof.
  apply save_inv in Hsave as (o & Ho & _ & Hok).
  destruct (Hok eq_refl) as (gsv & i & sp & value & ret & sp' & Hg & Hs & Hq & Hr & _ & Hst & ->).
  pose proof (store_value_mode _ _ _ _ Hst) as Hm.
  revert Hread. unfold read_scene_param, sensor, search_scene_param. munfold. simpl.
  rewrite Ho, Hg, (scene_of_update _ _ _ _ _ _ Hs Hm).
  change (hist (set_scenes _ d)) with (hist d).
  destruct (Z.eqb_spec mode' mode) as [->|Hne].
  - destruct Hother as [?|(Hind & Hng' & Hng)]; [done|]. rewrite Hs.
    unfold store_value in Hst. rewrite (proj2 (Z.eqb_neq _ _) Hng) in Hst. injection Hst as Hst.
    rewrite (proj2 (Z.eqb_neq _ _) Hng').
    rewrite (scene_store_frame _ _ _ _ _ Hst Hind).
    repeat case_match; first [done | by intros [= <-]].
  - repeat case_match; first [done | by intros [= <-]].
Qed.

(** ** What the driver accepts *)

Lemma check_range_spec v min max step :
  0 < step -> v - min <= INT64_MAX ->
  exists r, check_range v min max step = Ret r /\
    (r = OK <-> min <= v <= max /\ (v - min) mod step = 0).
Proof.
  intros Hst Hd. unfold check_range.
  destruct ((v <? min) || (max <? v)) eqn:E.
  { exists (- EINVAL). split; [done|]. apply orb_true_iff in E as [E|E]; to_prop;
      (split; [done|intros [? _]; lia]). }
  to_prop. rewrite (proj2 (Z.ltb_ge _ _) Hd), (proj2 (Z.eqb_neq step 0)) by lia.
  destruct (Z.eqb_spec ((v - min) mod step) 0); eexists; (split; [reflexivity|]);
    (split; [intros; first [done | lia]|intros [_ ?]; first [done | lia]]).
Qed.

Lemma scene_store_total sp id v : is_Some (scene_value sp id) -> is_Some (scene_store sp id v).
Proof.
  intros [x Hx]. unfold scene_value in Hx. unfold scene_store.
  repeat match goal with
  | H : (if ?id =? ?k then _ else _) = Some _ |- _ =>
      destruct (Z.eqb_spec id k); [by eexists|]
  end. discriminate.
Qed.

Lemma scene_value_gamma sp : scene_value sp IMGSENSOR_ID_GAMMA_CURVE = None.
Proof. reflexivity. Qed.

(** The types whose bounds [VIDIOC_QUERY_EXT_CTRL] reports as a range. *)

Definition range_type (t : Z) : Prop :=
  t <> IMGSENSOR_CTRL_TYPE_INTEGER_MENU /\ t <> IMGSENSOR_CTRL_TYPE_U8 /\
  t <> IMGSENSOR_CTRL_TYPE_U16 /\ t <> IMGSENSOR_CTRL_TYPE_U32.

Lemma query_inv q a d d' :
  video_query_ext_ctrl (Some q) d = Ret ((OK, Some a), d') ->
  ~ (q_class q = V4L2_CTRL_CLASS_CAMERA /\ q_id q = V4L2_CID_SCENE_MODE) ->
  range_type (q_type a) ->
  exists o gsv ret value, g_video_sensor_ops d = Some o /\ so_get_supported_value o = Some gsv /\
    gsv (hist d) (VIDEO_ID (q_class q) (q_id q)) = (ret, value) /\ 0 <= ret /\
    q_type a = sv_type value /\
    q_minimum a = rg_minimum (sv_range value) /\ q_maximum a = rg_maximum (sv_range value) /\
    q_step a = rg_step (sv_range value).
Proof.
  unfold video_query_ext_ctrl, sensor, set_parameter_name. munfold.
  destruct (g_video_sensor_ops d) as [o|] eqn:Ho; [|done].
  destruct (so_get_supported_value o) as [gsv|] eqn:Hg; [|done]. intros H Hns Ht.
  destruct (_ && _) eqn:Hb; [to_prop; exfalso; tauto|].
  destruct (gsv _ _) as [ret value] eqn:Hq. destruct (ret <? 0) eqn:Hr; to_prop.
  { injection H as ??; unfold OK in *; lia. }
  destruct (find_name _ _); [|done]. injection H as <- ->.
  exists o, gsv, ret, value. rewrite Hq.
  destruct Ht as (H1 & H2 & H3 & H4).
  repeat case_match; simpl in *; to_prop; try congruence; try (split_and!; done).
  rewrite !orb_true_iff, !Z.eqb_eq in *. exfalso; tauto.
Qed.

(** The bounds [VIDIOC_QUERY_EXT_CTRL] reports are those
    [save_scene_param] enforces: a value of a range control of an existing
    scene is stored ([OK]) exactly when it lies between [minimum] and
    [maximum] on a multiple of [step], and nothing is stored otherwise. *)
Theorem query_describes_save q a d d0 mode c i sp
    (Hq : video_query_ext_ctrl (Some q) d = Ret ((OK, Some a), d0))
    (Hns : ~ (q_class q = V4L2_CTRL_CLASS_CAMERA /\ q_id q = V4L2_CID_SCENE_MODE))
    (Ht : range_type (q_type a)) (Hstep : 0 < q_step a)
    (Hmin : v_int (ec_value c) - q_minimum a <= INT64_MAX)
    (Hsp : scene_of d mode = Some (i, sp))
    (Hid : is_Some (scene_value sp (VIDEO_ID (q_class q) (q_id q)))) :
  exists r d', save_scene_param mode (VIDEO_ID (q_class q) (q_id q)) c d = Ret (r, d') /\
    (r = OK <-> q_minimum a <= v_int (ec_value c) <= q_maximum a /\
                (v_int (ec_value c) - q_minimum a) mod q_step a = 0) /\
    (r <> OK -> d' = d).
Proof.
  destruct (query_inv _ _ _ _ Hq Hns Ht)
    as (o & gsv & ret & value & Ho & Hg & Hv & Hr & Hty & E1 & E2 & E3).
  set (id := VIDEO_ID _ _) in *. rewrite E1, E2, E3 in *.
  destruct (check_range_spec _ _ (rg_maximum (sv_range value)) _ Hstep Hmin) as (r & Hc & Hiff).
  assert (Hcv : check_value value c = Ret r).
  { unfold check_value. destruct Ht as (H1 & H2 & H3 & H4). rewrite <- Hty.
    rewrite !(proj2 (Z.eqb_neq _ _)) by done. done. }
  assert (id <> IMGSENSOR_ID_GAMMA_CURVE).
  { intros E. rewrite E, scene_value_gamma in Hid. by destruct Hid. }
  destruct (scene_store_total _ _ (v_int (ec_value c)) Hid) as [sp' Hst].
  unfold save_scene_param, sensor, search_scene_param. munfold.
  rewrite Ho, Hg, Hsp, Hv, (proj2 (Z.ltb_ge _ _) Hr), Hcv. unfold store_value.
  rewrite (proj2 (Z.eqb_neq id IMGSENSOR_ID_GAMMA_CURVE)), Hst by done.
  destruct (Z.eqb_spec r OK) as [->|Hne]; simpl.
  - eexists OK, _. split_and!; [done| |done]. tauto.
  - exists r, d. split_and!; [done| |done]. tauto.
Qed.

(** ** Requests with several controls *)

Lemma ctrl_loop_fail bad body n cnt ret0 cs d r cs' d' :
  bad ret0 = false -> bad r = true ->
  ctrl_loop n cnt bad body ret0 cs d = Ret ((r, cs'), d') ->
  exists (k : nat) rk csk dk c c', (k < n)%nat /\ cs_error_idx cs' = cnt + Z.of_nat k /\
    ctrl_loop k cnt bad body ret0 cs d = Ret ((rk, csk), dk) /\ bad rk = false /\
    cs_controls csk !! Z.to_nat (cnt + Z.of_nat k) = Some c /\
    body c dk = Ret ((r, c'), d').
Proof.
  revert cnt ret0 cs d. induction n as [|n IH]; intros cnt ret0 cs d H0 Hr H.
  { simpl in H. injection H as <- <- <-. congruence. }
  simpl in H. destruct (cs_controls cs !! Z.to_nat cnt) as [c|] eqn:Hc; [|done].
  apply bind_inv in H as ([rb cb] & db & Hb & H). destruct (bad rb) eqn:Hbad.
  - injection H as <- <- <-. exists 0%nat, ret0, cs, d, c, cb. rewrite Z.add_0_r.
    split_and!; first [done | lia | idtac].
  - destruct (IH _ _ _ _ Hbad Hr H) as (k & rk & csk & dk & c1 & c1' & ? & He & Hl & ? & Hc1 & ?).
    exists (S k), rk, csk, dk, c1, c1'.
    replace (cnt + Z.of_nat (S k)) with (cnt + 1 + Z.of_nat k) by lia.
    split_and!; first [done | lia | idtac].
    simpl. rewrite Hc. by rewrite (bind_returns _ _ _ _ _ Hb), Hbad.
Qed.

Lemma ctrl_loop_controls bad body n cnt ret cs d r cs' d' :
  (forall c d0 r0 c0 d1, body c d0 = Ret ((r0, c0), d1) -> c0 = c) ->
  ctrl_loop n cnt bad body ret cs d = Ret ((r, cs'), d') -> cs_controls cs' = cs_controls cs.
Proof.
  intros Hb. revert cnt ret cs d. induction n as [|n IH]; intros cnt ret cs d H.
  { by injection H as <- <- <-. }
  simpl in H. destruct (cs_controls cs !! Z.to_nat cnt) as [c|] eqn:Hc; [|done].
  apply bind_inv in H as ([rb cb] & db & Hbd & H). apply Hb in Hbd as ->.
  rewrite list_insert_id in H by done.
  destruct (bad rb); [by injection H as <- <- <-|]. by apply IH in H as ->.
Qed.

Lemma ctrl_loop_count bad body n cnt ret l cl e ct ct' d r cs' d' :
  ctrl_loop n cnt bad body ret (mk_ctls cl ct e l) d = Ret ((r, cs'), d') ->
  exists cs'', ctrl_loop n cnt bad body ret (mk_ctls cl ct' e l) d = Ret ((r, cs''), d') /\
    cs_controls cs'' = cs_controls cs'.
Proof.
  revert cnt ret l d. induction n as [|n IH]; intros cnt ret l d H.
  { injection H as <- <- <-. by eexists. }
  simpl in *. destruct (l !! Z.to_nat cnt) as [c|] eqn:Hc; [|done].
  apply bind_inv in H as ([rb cb] & db & Hbd & H).
  rewrite (bind_returns _ _ _ _ _ Hbd). destruct (bad rb).
  - injection H as <- <- <-. by eexists.
  - by apply IH in H.
Qed.

(** A request [V4SIOC_S_EXT_CTRLS_SCENE] that fails says where and has
    done exactly what precedes: [error_idx] is the index of a control of the
    request, the driver is in the state the same request cut off before that
    control leaves (which succeeds), and saving that control there gives the
    reported error. *)
Theorem scene_request_error_idx mode cs d r cs' d'
    (Hreq : video_s_ext_ctrls_scene (Some (mode, cs)) d = Ret ((r, Some (mode, cs')), d'))
    (Hr : r <> OK) :
  let k := cs_error_idx cs' in
  0 <= k < cs_count cs /\
  (exists cs'', video_s_ext_ctrls_scene
     (Some (mode, mk_ctls (cs_class cs) k (cs_error_idx cs) (cs_controls cs))) d =
     Ret ((OK, Some (mode, cs'')), d')) /\
  (exists c, cs_controls cs !! Z.to_nat k = Some c /\
     save_scene_param mode (VIDEO_ID (cs_class cs) (ec_id c)) c d' = Ret (r, d')).
Proof.
  intros k. unfold video_s_ext_ctrls_scene in Hreq.
  apply bind_inv in Hreq as ([r0 cs0] & d0 & Hl & H0). injection H0 as <- -> <-.
  set (body := fun c => _ ) in Hl. unfold ctrls_loop in Hl.
  assert (Hbody : forall c d0 r0 c0 d1, body c d0 = Ret ((r0, c0), d1) ->
            c0 = c /\ save_scene_param mode (VIDEO_ID (cs_class cs) (ec_id c)) c d0 = Ret (r0, d1)).
  { intros c dd r1 c0 d1 Hb. apply bind_inv in Hb as (r2 & d2 & Hs & Hb). by injection Hb as <- <- <-. }
  destruct (ctrl_loop_fail not_ok body _ _ OK _ _ _ _ _ eq_refl (proj2 (negb_true_iff _)
    (proj2 (Z.eqb_neq _ _) Hr)) Hl) as (n & rn & csn & dn & c & c' & Hn & He & Hln & Hbad & Hc & Hb).
  rewrite Z.add_0_l in *.
  apply Hbody in Hb as [-> Hs].
  destruct (save_inv _ _ _ _ _ _ Hs) as (_ & _ & Hkeep & _). rewrite (Hkeep Hr) in *.
  assert (rn = OK) as ->. { unfold not_ok in Hbad. by to_prop. }
  assert (Hcs : cs_controls csn = cs_controls cs)
    by (eapply ctrl_loop_controls; [|exact Hln]; intros; by eapply Hbody).
  subst k. rewrite He. split_and!; [lia|lia| |].
  - destruct cs as [cl ct e l].
    destruct (ctrl_loop_count _ _ _ _ _ _ _ _ _ (Z.of_nat n) _ _ _ _ Hln) as (cs2 & Hcs2 & _).
    exists cs2. unfold video_s_ext_ctrls_scene, ctrls_loop. simpl. rewrite Nat2Z.id.
    by rewrite (bind_returns _ _ _ _ _ Hcs2).
  - exists c. by rewrite <- Hcs.
Qed.

(** ** Switching scenes *)

(** The value the sensor was last given for a control. *)

Fixpoint last_set (id : Z) (h : history) : option Z :=
  match h with
  | [] => None
  | SensorSetValue id' _ v :: h' => if id' =? id then Some (v_int v) else last_set id h'
  | _ :: h' => last_set id h'
  end.

Definition setting_id (s : setting) : Z :=
  match s with int_setting id _ => id | gamma_setting _ => IMGSENSOR_ID_GAMMA_CURVE end.

(** The call a setting makes. *)

Definition setting_call (s : setting) : dev_call :=
  match s with
  | int_setting id v => SensorSetValue id 4 (v_set_int v (mk_value 0 []))
  | gamma_setting sp =>
    SensorSetValue IMGSENSOR_ID_GAMMA_CURVE (u32 (i32 (sc_gamma_curve_sz sp)))
      (mk_value 0 (match sc_gamma_curve sp with GammaLive b => b | _ => [] end))
  end.

Definition setting_ok (s : setting) : Prop :=
  match s with int_setting _ _ => True | gamma_setting sp => sc_gamma_curve sp <> GammaFreed end.

Fixpoint push_settings (l : list setting) (d : vdrv) : vdrv :=
  match l with [] => d | s :: rest => push_settings rest (push_call (setting_call s) d) end.

Section Switch.

Context (o : imgsensor_ops) (sv : history -> Z -> Z -> value_union -> Z).
Context (Hsv : so_set_value o = Some sv).

Lemma apply_settings_ok l d :
g_video_sensor_ops d = Some o -> Forall setting_ok l ->
apply_settings l d = Ret (tt, push_settings l d).
Proof.
intros Ho Hl. revert d Ho. induction Hl as [|s l Hs _ IH]; intros d Ho; [done|].
assert (Ha : exists r, apply_setting s d = Ret (r, push_call (setting_call s) d)).
{ destruct s as [id v|sp]; simpl in *; unfold set_intvalue, set_pvalue.
  - unfold sensor_set, sensor, dev_query, call. munfold. rewrite Ho, Hsv. by eexists.
  - destruct (sc_gamma_curve sp); [| |done];
      unfold sensor_set, sensor, dev_query, call; munfold; rewrite Ho, Hsv; by eexists. }
destruct Ha as [r Ha]. simpl. rewrite (bind_returns _ _ _ _ _ Ha). by apply IH.
Qed.

End Switch.

Lemma push_settings_frame l d :
  g_video_scene_parameter (push_settings l d) = g_video_scene_parameter d /\
  g_video_sensor_ops (push_settings l d) = g_video_sensor_ops d /\
  g_video_scene_mode (push_settings l d) = g_video_scene_mode d.
Proof. revert d. induction l as [|s l IH]; intros d; [done|]. apply (IH (push_call (setting_call s) d)). Qed.

Lemma last_set_skip l d id :
  id ∉ (setting_id <$> l) -> last_set id (hist (push_settings l d)) = last_set id (hist d).
Proof.
  revert d. induction l as [|s l IH]; intros d Hn; [done|].
  apply not_elem_of_cons in Hn as [Hne Hn]. simpl. rewrite (IH _ Hn).
  destruct s; cbn [hist push_call setting_call setting_id last_set] in *; by rewrite (proj2 (Z.eqb_neq _ _)) by done.
Qed.

Lemma last_set_settings l d id v :
  NoDup (setting_id <$> l) -> int_setting id v ∈ l ->
  last_set id (hist (push_settings l d)) = Some (i32 v).
Proof.
  revert d. induction l as [|s l IH]; intros d Hnd Hin; [by apply elem_of_nil in Hin|].
  simpl in Hnd. apply NoDup_cons in Hnd as [Hn Hnd].
  apply elem_of_cons in Hin as [<-|Hin]; [|by apply IH].
  simpl. rewrite last_set_skip by done. simpl. by rewrite Z.eqb_refl, v_int_set.
Qed.

(** The controls a scene sends: all that it stores, except the colour killer
    (the colour effect stands for it) and those the exposure and ISO modes
    leave to the sensor. *)

Definition reflected (sp : scene_params) (id : Z) : bool :=
  if id =? IMGSENSOR_ID_COLOR_KILLER then false
  else if id =? IMGSENSOR_ID_EXPOSURE_ABSOLUTE then
    (sc_ae sp =? V4L2_EXPOSURE_MANUAL) || (sc_ae sp =? V4L2_EXPOSURE_SHUTTER_PRIORITY)
  else if id =? IMGSENSOR_ID_IRIS_ABSOLUTE then
    (sc_ae sp =? V4L2_EXPOSURE_MANUAL) || (sc_ae sp =? V4L2_EXPOSURE_APERTURE_PRIORITY)
  else if id =? IMGSENSOR_ID_ISO_SENSITIVITY then sc_iso_auto sp =? V4L2_ISO_SENSITIVITY_MANUAL
  else true.

Lemma scene_settings_nodup sp : NoDup (setting_id <$> scene_settings sp).
Proof.
  unfold scene_settings. do 3 case_match; apply (bool_decide_unpack _); vm_compute; exact I.
Qed.

Ltac elem_of_head :=
  first [apply list_elem_of_here | apply list_elem_of_further; elem_of_head].

Lemma scene_settings_complete sp id v :
  scene_value sp id = Some v -> reflected sp id = true -> int_setting id v ∈ scene_settings sp.
Proof.
  unfold scene_value, reflected. intros Hv Hr. unfold scene_settings.
  on_id; try discriminate Hr; cbn in Hr; try rewrite Hr;
    repeat case_match; cbn [app]; elem_of_head.
Qed.

Lemma scene_settings_ok sp : sc_gamma_curve sp <> GammaFreed -> Forall setting_ok (scene_settings sp).
Proof.
  intros Hg. unfold scene_settings. do 3 case_match; cbn [app];
    repeat (apply Forall_cons_2; [exact I || exact Hg|]); apply Forall_nil_2.
Qed.

Lemma reflect_run mode d o sv i sp :
  g_video_sensor_ops d = Some o -> so_set_value o = Some sv ->
  scene_of d mode = Some (i, sp) -> sc_gamma_curve sp <> GammaFreed ->
  reflect_scene_parameter mode d =
    Ret (OK, set_scene_mode mode (push_settings (scene_settings sp) d)).
Proof.
  intros Ho Hsv Hsp Hg. unfold reflect_scene_parameter, search_scene_param.
  unfold mbind at 1, M_bind at 1, gets. rewrite Hsp.
  by rewrite (bind_returns _ _ _ _ _
    (apply_settings_ok o sv Hsv _ _ Ho (scene_settings_ok _ Hg))).
Qed.

(** Selecting a scene always succeeds when the scene exists, and leaves
    the sensor with the scene's parameters: every control the scene sends was
    last set to the stored value; the stored scenes themselves are unchanged. *)
Theorem scene_switch_reflects mode d o sv i sp
    (Ho : g_video_sensor_ops d = Some o) (Hsv : so_set_value o = Some sv)
    (Hsp : scene_of d mode = Some (i, sp)) (Hg : sc_gamma_curve sp <> GammaFreed) :
  exists d', reflect_scene_parameter mode d = Ret (OK, d') /\
    g_video_scene_mode d' = mode /\
    g_video_scene_parameter d' = g_video_scene_parameter d /\
    forall id v, scene_value sp id = Some v -> reflected sp id = true ->
      last_set id (hist d') = Some (i32 v).
Proof.
  eexists. split; [by eapply reflect_run|]. split_and!; [done|apply push_settings_frame|].
  intros id v Hv Hr. change (hist (set_scene_mode _ ?x)) with (hist x). apply last_set_settings; [apply scene_settings_nodup|].
  by apply scene_settings_complete.
Qed.

(** A manual setting survives a visit to another scene: a control set
    with [VIDIOC_S_EXT_CTRLS] while no scene is selected, and saved, is what
    the sensor holds again after selecting another scene and deselecting it. *)
Theorem scene_visit_restores class c d d1 o sv m i sp i0 sp0
    (Ho : g_video_sensor_ops d = Some o) (Hsv : so_set_value o = Some sv)
    (Hnone : g_video_scene_mode d = V4L2_SCENE_MODE_NONE)
    (Hctl : ~ (class = V4L2_CTRL_CLASS_CAMERA /\ ec_id c = V4L2_CID_SCENE_MODE))
    (Hid : VIDEO_ID class (ec_id c) <> IMGSENSOR_ID_GAMMA_CURVE)
    (Hset : sv (hist d) (VIDEO_ID class (ec_id c)) (ec_size c) (ec_value c) = 0)
    (Hsave : save_scene_param V4L2_SCENE_MODE_NONE (VIDEO_ID class (ec_id c)) c
       (push_call (SensorSetValue (VIDEO_ID class (ec_id c)) (ec_size c) (ec_value c)) d)
       = Ret (OK, d1))
    (Hm : scene_of d1 m = Some (i, sp)) (Hg : sc_gamma_curve sp <> GammaFreed)
    (H0 : scene_of d1 V4L2_SCENE_MODE_NONE = Some (i0, sp0))
    (Hg0 : sc_gamma_curve sp0 <> GammaFreed)
    (Hrefl : reflected sp0 (VIDEO_ID class (ec_id c)) = true) :
  exists d3, (s_ext_ctrl class c ≫= fun _ => reflect_scene_parameter m ≫= fun _ =>
       reflect_scene_parameter V4L2_SCENE_MODE_NONE) d = Ret (OK, d3) /\
    last_set (VIDEO_ID class (ec_id c)) (hist d3) =
      Some (stored (VIDEO_ID class (ec_id c)) (v_int (ec_value c))).
Proof.
  set (id := VIDEO_ID class (ec_id c)) in *. set (d0 := push_call _ d) in Hsave.
  assert (H1 : s_ext_ctrl class c d = Ret ((0, c), d1)).
  { unfold s_ext_ctrl. destruct (_ && _) eqn:Hb; [to_prop; exfalso; tauto|].
    unfold sensor_set, sensor, dev_query, call. munfold. rewrite Ho, Hsv. fold id.
    rewrite Hset, Z.eqb_refl. fold d0.
    replace (g_video_scene_mode d0) with V4L2_SCENE_MODE_NONE by done.
    rewrite Z.eqb_refl. by rewrite Hsave. }
  apply save_inv in Hsave as (o' & Ho' & _ & Hok).
  destruct (Hok eq_refl) as (gsv & j & spj & value & ret & sp' & _ & Hs & _ & _ & _ & Hst & ->).
  replace o' with o in * by (simpl in Ho'; congruence).
  pose proof (scene_of_update _ _ V4L2_SCENE_MODE_NONE _ _ _ Hs (store_value_mode _ _ _ _ Hst)) as H2.
  rewrite Z.eqb_refl, H0 in H2. injection H2 as -> ->.
  unfold store_value in Hst. rewrite (proj2 (Z.eqb_neq _ _) Hid) in Hst. injection Hst as Hst.
  apply scene_store_value in Hst. rewrite (bind_returns _ _ _ _ _ H1).
  rewrite (bind_returns _ _ _ _ _ (reflect_run m (set_scenes _ d0) o sv i sp Ho Hsv Hm Hg)).
  set (d2 := set_scene_mode _ _).
  destruct (push_settings_frame (scene_settings sp) (set_scenes (<[j:=sp']>
    (g_video_scene_parameter d0)) d0)) as (F1 & F2 & _).
  eexists. split.
  - apply (reflect_run _ _ o sv j sp'); [by etrans|done| |done].
    rewrite <- H0. unfold scene_of. by rewrite <- F1.
  - change (hist (set_scene_mode _ ?x)) with (hist x). erewrite last_set_settings; [|apply scene_settings_nodup|by apply scene_settings_complete].
    f_equal. apply i32_id, stored_i32, v_int_range.
Qed.

(** ** A concrete sensor *)

(** Brightness from -128 to 127, a gamma curve of four bytes, two levels for
    the flash, everything else from 0 to 10. *)

Definition ex_supported (id : Z) : Z * supported_value :=
  let r := mk_range 0 10 1 5 in
  let dc := mk_discrete [0; 2] 0 in
  let el := mk_elems 4 0 255 1 in
  if id =? IMGSENSOR_ID_BRIGHTNESS then (0, mk_supported 1 (mk_range (-128) 127 1 0) dc el)
  else if id =? IMGSENSOR_ID_GAMMA_CURVE then (0, mk_supported IMGSENSOR_CTRL_TYPE_U8 r dc el)
  else if id =? IMGSENSOR_ID_FLASH_LED_MODE
  then (0, mk_supported IMGSENSOR_CTRL_TYPE_INTEGER_MENU r dc el)
  else (0, mk_supported 1 r dc el).

Definition ex_sensor : imgsensor_ops := {|
  so_is_available := fun _ => true; so_init := fun _ => 0; so_uninit := fun _ => 0;
  so_get_driver_name := Some [105; 115; 120];
  so_validate_frame_setting := Some (fun _ _ _ _ _ => 0);
  so_start_capture := Some (fun _ _ _ _ _ => 0);
  so_get_frame_interval := None;
  so_get_supported_value := Some (fun _ id => ex_supported id);
  so_get_value := Some (fun _ _ _ v => (0, mk_value (v_bits v) [1; 2; 3; 4]));
  so_set_value := Some (fun _ _ _ _ => 0) |}.

Definition ex_heap : history -> Z -> option (list Z) :=
  fun _ n => if n <=? 4096 then Some (replicate (Z.to_nat n) 170) else None.

(** The driver after the sensor was found and the scenes were initialised. *)

Definition ex_drv : vdrv :=
  match initialize_scenes_parameter (set_sensor (Some ex_sensor) (registered_drv ex_heap)) with
  | Ret (_, d) => d
  | _ => registered_drv ex_heap
  end.

Definition ex_ctl (id v : Z) : ext_control := mk_ctl id 4 (v_set_int v (mk_value 0 [])).

(** The state after a call that returned. *)

Definition after {A} (m : VD A) (d : vdrv) : vdrv :=
  match m d with Ret (_, d') => d' | _ => d end.

Definition ex_saved : vdrv := after (save_scene_param 3 IMGSENSOR_ID_BRIGHTNESS (ex_ctl 0 (-7))) ex_drv.

Lemma scene_param_roundtrip_witness :
  exists ret c'', read_scene_param 3 IMGSENSOR_ID_BRIGHTNESS (ex_ctl 0 99) ex_saved =
      Ret ((ret, c''), ex_saved) /\
    0 <= ret /\ v_int (ec_value c'') = -7 /\ ec_id c'' = 0.
Proof.
  apply (scene_param_roundtrip 3 IMGSENSOR_ID_BRIGHTNESS (ex_ctl 0 (-7)) ex_drv ex_saved).
  - vm_compute. reflexivity.
  - discriminate.
Defined.

Definition ex_curve : ext_control := mk_ctl 8 4 (mk_value 0 [9; 8; 7; 6]).
Definition ex_curved : vdrv := after (save_scene_param 1 IMGSENSOR_ID_GAMMA_CURVE ex_curve) ex_drv.
Definition ex_scene (mode : Z) (d : vdrv) : scene_params :=
  match scene_of d mode with Some (_, sp) => sp | None => zero_scene 0 end.

Lemma gamma_curve_roundtrip_witness :
  exists ret c'', read_scene_param 1 IMGSENSOR_ID_GAMMA_CURVE
      (mk_ctl 8 4 (mk_value 0 [0; 0; 0; 0; 5])) ex_curved = Ret ((ret, c''), ex_curved) /\
    0 <= ret /\ v_mem (ec_value c'') = [9; 8; 7; 6; 5].
Proof.
  apply (gamma_curve_roundtrip 1 ex_curve ex_drv ex_curved 1%nat (ex_scene 1 ex_drv) [1; 2; 3; 4]);
    [vm_compute; reflexivity..|]. vm_compute. lia.
Defined.

Lemma save_scene_param_frame_witness :
  read_scene_param 3 IMGSENSOR_ID_CONTRAST (ex_ctl 1 0) ex_saved =
    Ret ((0, ex_ctl 1 5), ex_saved).
Proof.
  apply (save_scene_param_frame 3 IMGSENSOR_ID_BRIGHTNESS (ex_ctl 0 (-7)) ex_drv ex_saved).
  - vm_compute. reflexivity.
  - right. split_and!; [|discriminate|discriminate]. apply (bool_decide_unpack _). vm_compute. exact I.
  - vm_compute. reflexivity.
Defined.

Definition ex_query : query_ext_ctrl := mk_qext 0 0 0 String.EmptyString 0 0 0 0 0 0.

Lemma query_describes_save_witness :
  exists r d', save_scene_param 0 IMGSENSOR_ID_BRIGHTNESS (ex_ctl 0 128) ex_drv = Ret (r, d') /\
    (r = OK <-> -128 <= 128 <= 127 /\ (128 - -128) mod 1 = 0) /\ (r <> OK -> d' = ex_drv).
Proof.
  apply (query_describes_save ex_query
    (mk_qext 0 0 1 (strncpy32 "Brightness"%string) (-128) 127 1 0 0 0) ex_drv ex_drv 0 (ex_ctl 0 128) 0%nat
    (ex_scene 0 ex_drv)).
  - vm_compute. reflexivity.
  - intros [H _]. discriminate H.
  - vm_compute. split_and!; discriminate.
  - vm_compute. reflexivity.
  - vm_compute. discriminate.
  - vm_compute. reflexivity.
  - eexists. vm_compute. reflexivity.
Defined.

Definition ex_request : ext_controls :=
  mk_ctls 0 3 7 [ex_ctl 0 20; ex_ctl 1 11; ex_ctl 2 4].
Definition ex_failed : vdrv := after (video_s_ext_ctrls_scene (Some (2, ex_request))) ex_drv.

Lemma scene_request_error_idx_witness :
  0 <= 1 < 3 /\
  (exists cs'', video_s_ext_ctrls_scene
     (Some (2, mk_ctls 0 1 7 [ex_ctl 0 20; ex_ctl 1 11; ex_ctl 2 4])) ex_drv =
     Ret ((OK, Some (2, cs'')), ex_failed)) /\
  (exists c, [ex_ctl 0 20; ex_ctl 1 11; ex_ctl 2 4] !! 1%nat = Some c /\
     save_scene_param 2 (VIDEO_ID 0 (ec_id c)) c ex_failed = Ret (- EINVAL, ex_failed)).
Proof.
  apply (scene_request_error_idx 2 ex_request ex_drv (- EINVAL) (set_error_idx 1 ex_request)
    ex_failed).
  - vm_compute. reflexivity.
  - discriminate.
Defined.

Lemma scene_switch_reflects_witness :
  exists d', reflect_scene_parameter 3 ex_saved = Ret (OK, d') /\
    g_video_scene_mode d' = 3 /\
    g_video_scene_parameter d' = g_video_scene_parameter ex_saved /\
    forall id v, scene_value (ex_scene 3 ex_saved) id = Some v ->
      reflected (ex_scene 3 ex_saved) id = true -> last_set id (hist d') = Some (i32 v).
Proof.
  apply (scene_switch_reflects 3 ex_saved ex_sensor (fun _ _ _ _ => 0) 3%nat (ex_scene 3 ex_saved));
    [vm_compute; reflexivity..|]. vm_compute. discriminate.
Defined.

Definition ex_manual : vdrv := after (s_ext_ctrl 0 (ex_ctl 0 33)) ex_drv.

Lemma scene_visit_restores_witness :
  exists d3, (s_ext_ctrl 0 (ex_ctl 0 33) ≫= fun _ => reflect_scene_parameter 5 ≫= fun _ =>
       reflect_scene_parameter 0) ex_drv = Ret (OK, d3) /\
    last_set 0 (hist d3) = Some 33.
Proof.
  apply (scene_visit_restores 0 (ex_ctl 0 33) ex_drv ex_manual ex_sensor (fun _ _ _ _ => 0) 5
    5%nat (ex_scene 5 ex_manual) 0%nat (ex_scene 0 ex_manual));
    first [vm_compute; reflexivity | vm_compute; discriminate | idtac].
  vm_compute. intros [? _]. discriminate.
Defined.

End VideoCtrlProps.
