(* ===== verification/VideoDrv.v ===== *)
(** * The streams of the video driver

    [src/spresense/nuttx/drivers/video/video.c]: opening and closing, buffers,
    formats, the video and still streams, and the callback of a completed
    capture.  Critical sections and the scheduler are not state: each function
    is one step, and [video_dqbuf] is cut where it waits. *)

From S2P Require Import Prelude FrameBuff VideoState VideoCtrl.
Import FrameBuff VideoState VideoCtrl.

Module VideoDrv.

(** ** Locks *)

Definition video_lock_open : VD unit :=
  d ← get; c ← lift (sem_wait (lock_open_num d)); modify (set_lock_open c).

Definition video_unlock_open : VD unit :=
  modify (fun d => set_lock_open (sem_post (lock_open_num d)) d).

Definition video_lock (s : stream) : VD unit :=
  t ← get_inf s; c ← lift (sem_wait (lock_state t)); on_inf s (set_lock_state c).

Definition video_unlock (s : stream) : VD unit :=
  on_inf s (fun t => set_lock_state (sem_post (lock_state t)) t).

(** ** Streams and their states *)

(** The parameter is a [uint8_t]. *)

Definition get_video_type_inf (type : Z) : option stream :=
  let t := u8 type in
  if t =? V4L2_BUF_TYPE_VIDEO_CAPTURE then Some SVideo
  else if t =? V4L2_BUF_TYPE_STILL_CAPTURE then Some SStill
  else None.

Definition is_taking_still_picture (d : vdrv) : bool :=
  bool_decide (ti_state (still_inf d) = VIDEO_STATE_STREAMON)
  || bool_decide (ti_state (still_inf d) = VIDEO_STATE_CAPTURE).

Definition estimate_next_video_state (d : vdrv) (cause : transition_cause) : video_state :=
  let current_state := ti_state (video_inf d) in
  match cause with
  | CAUSE_VIDEO_STOP => VIDEO_STATE_STREAMOFF
  | CAUSE_VIDEO_START =>
    if is_taking_still_picture d then VIDEO_STATE_STREAMON else VIDEO_STATE_CAPTURE
  | CAUSE_STILL_STOP =>
    if bool_decide (current_state = VIDEO_STATE_STREAMON)
    then VIDEO_STATE_CAPTURE else current_state
  | CAUSE_STILL_START =>
    if bool_decide (current_state = VIDEO_STATE_CAPTURE)
    then VIDEO_STATE_STREAMON else current_state
  | CAUSE_VIDEO_DQBUF =>
    if bool_decide (current_state = VIDEO_STATE_STREAMON) && negb (is_taking_still_picture d)
    then VIDEO_STATE_CAPTURE else current_state
  end.

(** ** Formats *)

(** [convert_to_imgdatafmt] and [convert_to_imgsensorfmt]: the codes of the two
    devices are the same. *)

Definition IMG_PIX_FMT_UYVY : Z := 0.
Definition IMG_PIX_FMT_RGB565 : Z := 1.
Definition IMG_PIX_FMT_JPEG : Z := 2.
Definition IMG_PIX_FMT_JPEG_WITH_SUBIMG : Z := 3.

Definition convert_to_imgfmt (v : video_format) : video_format :=
  mk_format (f_width v) (f_height v)
    (if f_pixelformat v =? V4L2_PIX_FMT_UYVY then IMG_PIX_FMT_UYVY
     else if f_pixelformat v =? V4L2_PIX_FMT_RGB565 then IMG_PIX_FMT_RGB565
     else if f_pixelformat v =? V4L2_PIX_FMT_JPEG then IMG_PIX_FMT_JPEG
     else IMG_PIX_FMT_JPEG_WITH_SUBIMG).

Definition is_clipped (clip : v4l2_rect) : bool :=
  negb (r_left clip =? 0) || negb (r_top clip =? 0)
  || negb (r_width clip =? 0) || negb (r_height clip =? 0).

(** [a * b / c] in [uint32_t], assigned to a [uint16_t]. *)

Definition scale (a b c : Z) : outcome Z :=
  if c =? 0 then Ub DivByZero else Ret (u16 (u32 (a * b) / c)).

(** The first [nr_fmt] elements of [c_fmt] (the others are indeterminate). *)

Definition get_clipped_format (nr : Z) (main sub : video_format) (clip : v4l2_rect) :
    outcome (list video_format) :=
  if is_clipped clip then
    let c_main := mk_format (u16 (r_width clip)) (u16 (r_height clip)) (f_pixelformat main) in
    if 1 <? nr then
      w ← scale (f_width sub) (r_width clip) (f_width main);
      h ← scale (f_height sub) (r_height clip) (f_height main);
      Ret [c_main; mk_format w h (f_pixelformat sub)]
    else Ret (take (Z.to_nat nr) [c_main])
  else Ret (take (Z.to_nat nr) [main; sub]).

(** ** Starting and stopping the devices *)

Definition IMGSENSOR_STREAM_TYPE_VIDEO : Z := 0.
Definition IMGSENSOR_STREAM_TYPE_STILL : Z := 1.

(** [ASSERT(g_video_sensor_ops && g_video_data_ops)] *)

Definition both_ops : VD (imgsensor_ops * imgdata_ops) :=
  o ← sensor;
  d ← get;
  match g_video_data_ops d with Some dt => mret (o, dt) | None => ub AssertFailed end.

Definition start_capture (type nr : Z) (main sub : video_format) (clip : v4l2_rect)
    (interval : v4l2_fract) (bufaddr bufsize : Z) : VD Z :=
  '(o, dt) ← both_ops;
  match so_start_capture o, do_start_capture dt, do_set_buf dt with
  | Some _, Some _, Some _ =>
    c_fmt ← lift (get_clipped_format nr main sub clip);
    call (SensorStart
      (if type =? V4L2_BUF_TYPE_VIDEO_CAPTURE
       then IMGSENSOR_STREAM_TYPE_VIDEO else IMGSENSOR_STREAM_TYPE_STILL)
      nr (convert_to_imgfmt <$> take (Z.to_nat nr) [main; sub]) interval);;
    call (DataStart nr (convert_to_imgfmt <$> c_fmt) interval);;
    call (DataSetBuf bufaddr bufsize);;
    mret OK
  | _, _, _ => mret (- ENOTTY)
  end.

(** [start_capture] with the settings of stream [s] and the buffer of a container. *)

Definition start_stream (s : stream) (type : Z) (container : option vptr) : VD Z :=
  t ← get_inf s;
  b ← fb s (load_buf container);
  start_capture type (nr_fmt t) (fmt_main t) (fmt_sub t) (ti_clip t) (frame_interval t)
    (b_userptr b) (b_length b).

(** [g_video_data_ops->stop_capture()]; the result is ignored. *)

Definition stop_capture : VD unit :=
  data_ops;; call DataStop.

Definition change_video_state (next_state : video_state) : VD unit :=
  t ← get_inf SVideo;
  let current_state := ti_state t in
  (if bool_decide (current_state <> VIDEO_STATE_CAPTURE)
      && bool_decide (next_state = VIDEO_STATE_CAPTURE) then
     container ← fb SVideo video_framebuff_get_vacant_container;
     match container with
     | Some _ =>
       start_stream SVideo V4L2_BUF_TYPE_VIDEO_CAPTURE container;;
       on_inf SVideo (set_state next_state)
     | None => on_inf SVideo (set_state VIDEO_STATE_STREAMON)
     end
   else
     (if bool_decide (current_state = VIDEO_STATE_CAPTURE)
         && bool_decide (next_state <> VIDEO_STATE_CAPTURE)
      then stop_capture else mret tt);;
     on_inf SVideo (set_state next_state)).

(** [estimate_next_video_state] followed by [change_video_state] *)

Definition move_video (cause : transition_cause) : VD unit :=
  d ← get; change_video_state (estimate_next_video_state d cause).

(** ** Resources *)

(** [memset] of the frame buffer structure: the heap is not touched. *)

Definition memset_framebuff (b : video_framebuff) : video_framebuff :=
  mk_framebuff 0 0 0 None None None None None None (cells b) (nblocks b).

Definition memset_inf (t : video_type_inf) : video_type_inf :=
  set_bufinf (memset_framebuff (bufinf t)) zero_inf.

(** Initial setting: QVGA YUV4:2:2 15FPS. *)

Definition initialize_frame_setting (t : video_type_inf) : video_type_inf :=
  set_interval (mk_fract 1 15)
    (set_fmt_main (mk_format VIDEO_HSIZE_QVGA VIDEO_VSIZE_QVGA V4L2_PIX_FMT_UYVY)
      (set_nr_fmt 1 t)).

Definition initialize_streamresources (s : stream) : VD unit :=
  on_inf s memset_inf;;
  on_inf s (set_capnum VIDEO_REMAINING_CAPNUM_INFINITY);;
  on_inf s (set_lock_state 1);;
  on_inf s (set_wait_flg 0);;
  on_inf s initialize_frame_setting;;
  fb s video_framebuff_init.

Definition initialize_resources : VD unit :=
  initialize_streamresources SVideo;;
  initialize_streamresources SStill;;
  initialize_scenes_parameter.

Definition cleanup_streamresources (s : stream) : VD unit :=
  fb s video_framebuff_uninit;;
  on_inf s (fun t => set_wait_flg (nxsem_destroy (dqbuf_wait_flg t)) t);;
  on_inf s (fun t => set_lock_state (nxsem_destroy (lock_state t)) t);;
  on_inf s memset_inf;;
  on_inf s (set_capnum VIDEO_REMAINING_CAPNUM_INFINITY).

Definition cleanup_resources : VD unit :=
  d ← get;
  (if bool_decide (ti_state (video_inf d) = VIDEO_STATE_CAPTURE)
      || bool_decide (ti_state (still_inf d) = VIDEO_STATE_CAPTURE)
   then stop_capture else mret tt);;
  cleanup_streamresources SVideo;;
  cleanup_streamresources SStill;;
  cleanup_scenes_parameter.

Definition is_sem_waited (semcount : Z) : bool := semcount <? 0.

Fixpoint find_available (h : history) (l : list imgsensor_ops) : option imgsensor_ops :=
  match l with
  | [] => None
  | o :: rest => if so_is_available o h then Some o else find_available h rest
  end.

Definition get_connected_imgsensor : VD (option imgsensor_ops) :=
  gets (fun d => find_available (hist d) (g_video_registered_sensor d)).

(** ** [open] and [close] *)

Definition device_init : VD Z :=
  o ← sensor;
  d ← get;
  call SensorInit;;
  let ret := so_init o (hist d) in
  if ret =? OK then
    dt ← data_ops;
    d ← get;
    call DataInit;;
    let ret := do_init dt (hist d) in
    (if ret =? OK then initialize_resources else mret tt);;
    mret ret
  else mret ret.

Definition video_open : VD Z :=
  video_lock_open;;
  d ← get;
  ret ← (if open_num d =? 0 then
           ops ← get_connected_imgsensor;
           modify (set_sensor ops);;
           match ops with Some _ => device_init | None => mret (- ENODEV) end
         else mret OK);
  (if ret =? OK then modify (fun d => set_open_num (u8 (open_num d + 1)) d) else mret tt);;
  video_unlock_open;;
  mret ret.

(** The early return keeps the lock. *)

Definition video_close : VD Z :=
  video_lock_open;;
  d ← get;
  if open_num d =? 0 then mret OK
  else
    modify (fun d => set_open_num (u8 (open_num d - 1)) d);;
    d ← get;
    (if open_num d =? 0 then
       cleanup_resources;;
       d ← get;
       match g_video_sensor_ops d with
       | None => ub NullDeref
       | Some _ => call SensorUninit;; data_ops;; call DataUninit
       end
     else mret tt);;
    video_unlock_open;;
    mret ERROR.

(** ** Capabilities and buffers *)

(** [struct v4l2_capability]: the driver name; the rest is zeroed. *)

Definition video_querycap (arg : option (list Z)) : VD (Z * option (list Z)) :=
  o ← sensor;
  match arg, so_get_driver_name o with
  | None, _ => mret (- EINVAL, arg)
  | Some _, None => mret (- ENOTTY, arg)
  | Some _, Some name =>
    let n := take 15 name in mret (OK, Some (n ++ replicate (16 - length n) 0))
  end.

(** [struct v4l2_requestbuffers] *)

Record requestbuffers := mk_reqbufs { rb_count : Z; rb_type : Z; rb_memory : Z; rb_mode : Z }.

(** [malloc_ok] is the answer of the kernel heap. *)

Definition video_reqbufs (malloc_ok : bool) (arg : option requestbuffers) : VD Z :=
  match arg with
  | None => mret (- EINVAL)
  | Some r =>
    match get_video_type_inf (rb_type r) with
    | None => mret (- EINVAL)
    | Some s =>
      t ← get_inf s;
      if bool_decide (ti_state t = VIDEO_STATE_CAPTURE) then mret (- EPERM)
      else
        fb s (video_framebuff_change_mode (rb_mode r));;
        fb s (video_framebuff_realloc_container malloc_ok (i32 (rb_count r)))
    end
  end.

Definition is_bufsize_sufficient (bufsize : Z) : bool := true.

Definition video_qbuf (arg : option v4l2_buffer) : VD Z :=
  match arg with
  | None => mret (- EINVAL)
  | Some buf =>
    match get_video_type_inf (b_type buf) with
    | None => mret (- EINVAL)
    | Some s =>
      if negb (is_bufsize_sufficient (b_length buf)) then mret (- EINVAL)
      else
        container ← fb s video_framebuff_get_container;
        match container with
        | None => mret (- ENOMEM)
        | Some _ =>
          fb s (store_buf container buf);;
          fb s (video_framebuff_queue_container container);;
          video_lock s;;
          t ← get_inf s;
          (if bool_decide (ti_state t = VIDEO_STATE_STREAMON) then
             if b_type buf =? V4L2_BUF_TYPE_VIDEO_CAPTURE then
               video_lock SStill;;
               move_video CAUSE_VIDEO_START;;
               video_unlock SStill
             else
               container ← fb s video_framebuff_get_vacant_container;
               match container with
               | Some _ =>
                 start_stream s (b_type buf) container;;
                 on_inf s (set_state VIDEO_STATE_CAPTURE)
               | None => mret tt
               end
           else mret tt);;
          video_unlock s;;
          mret OK
        end
    end
  end.

(** ** Taking a buffer back *)

(** What [video_dqbuf] has come to: it returned (with the buffer written, if
    any), or its thread waits on [dqbuf_wait_flg] of a stream. *)

Inductive dq_result :=
  | DqReturn (ret : Z) (buf : option v4l2_buffer)
  | DqWait.

(** The end of the function: copy the container out and free it. *)

Definition dq_deliver (s : stream) (container : option vptr) : VD dq_result :=
  b ← fb s (load_buf container);
  fb s (video_framebuff_free_container container);;
  mret (DqReturn OK (Some b)).

(** After the loop. *)

Definition dq_finish (s : stream) : VD dq_result :=
  t ← get_inf s;
  if bool_decide (done_container t = None)
     && bool_decide (wait_cause t = VIDEO_WAITEND_CAUSE_DQCANCEL)
  then mret (DqReturn (- ECANCELED) None)
  else
    on_inf s (set_done None);;
    dq_deliver s (done_container t).

(** The loop.  A count above zero lets the wait pass; each pass lowers it, so
    [n] is the count at the start. *)

Fixpoint dq_loop (n : nat) (s : stream) (type : Z) : VD dq_result :=
  (if type =? V4L2_BUF_TYPE_VIDEO_CAPTURE then move_video CAUSE_VIDEO_DQBUF else mret tt);;
  t ← get_inf s;
  on_inf s (set_wait_flg (dqbuf_wait_flg t - 1));;
  match n with
  | O => mret DqWait
  | S n' =>
    if bool_decide (wait_cause t = VIDEO_WAITEND_CAUSE_STILLSTOP)
    then dq_loop n' s type else dq_finish s
  end.

Definition dq_wait (s : stream) (type : Z) : VD dq_result :=
  t ← get_inf s; dq_loop (Z.to_nat (dqbuf_wait_flg t)) s type.

(** The thread goes on after its wait was posted. *)

Definition dq_resume (s : stream) (type : Z) : VD dq_result :=
  t ← get_inf s;
  if bool_decide (wait_cause t = VIDEO_WAITEND_CAUSE_STILLSTOP)
  then dq_wait s type else dq_finish s.

Definition video_dqbuf (arg : option v4l2_buffer) : VD dq_result :=
  match arg with
  | None => mret (DqReturn (- EINVAL) None)
  | Some buf =>
    match get_video_type_inf (b_type buf) with
    | None => mret (DqReturn (- EINVAL) None)
    | Some s =>
      container ← fb s video_framebuff_dq_valid_container;
      match container with
      | Some _ => dq_deliver s container
      | None => dq_wait s (b_type buf)
      end
    end
  end.

Definition video_cancel_dqbuf (type : Z) : VD Z :=
  match get_video_type_inf type with
  | None => mret (- EINVAL)
  | Some s =>
    t ← get_inf s;
    if negb (is_sem_waited (dqbuf_wait_flg t)) then mret OK
    else
      on_inf s (set_cause VIDEO_WAITEND_CAUSE_DQCANCEL);;
      on_inf s (fun t => set_wait_flg (sem_post (dqbuf_wait_flg t)) t);;
      mret OK
  end.

(** ** Formats, clipping and frame rate *)

Definition validate_frame_setting (type nr : Z) (vfmt : list video_format)
    (interval : v4l2_fract) : VD Z :=
  '(o, dt) ← both_ops;
  d ← get;
  match so_validate_frame_setting o, do_validate_frame_setting dt with
  | Some sv, Some dv =>
    let fmts := convert_to_imgfmt <$> vfmt in
    let ret := sv (hist d) type nr fmts interval in
    mret (if negb (ret =? OK) then ret else dv (hist d) nr fmts interval)
  | _, _ => mret (- ENOTTY)
  end.

(** [pos] is an [int32_t], [c_sz] a [uint32_t], [frm_sz] a [uint16_t]. *)

Definition validate_clip_range (pos c_sz frm_sz : Z) : bool :=
  negb ((pos <? 0) || (frm_sz <? c_sz) || (frm_sz <? u32 (pos + c_sz))).

Definition validate_clip_setting (clip : v4l2_rect) (fmt : video_format) : bool :=
  validate_clip_range (r_left clip) (r_width clip) (f_width fmt)
  && validate_clip_range (r_top clip) (r_height clip) (f_height fmt).

(** [struct v4l2_selection] (the members used) *)

Record selection := mk_sel { sel_type : Z; sel_r : v4l2_rect }.

(** The bytes of a [uint32_t]. *)

Definition le32 (z : Z) : list Z :=
  [u8 z; u8 (Z.shiftr (u32 z) 8); u8 (Z.shiftr (u32 z) 16); u8 (Z.shiftr (u32 z) 24)].

Definition clip_value (r : v4l2_rect) : value_union :=
  mk_value 0 (le32 (r_left r) ++ le32 (r_top r) ++ le32 (r_width r) ++ le32 (r_height r)).

Definition video_s_selection (arg : option selection) : VD Z :=
  o ← sensor;
  match so_set_value o with
  | None => mret (- ENOTTY)
  | Some _ =>
    match arg with
    | None => mret (- EINVAL)
    | Some clip =>
      match get_video_type_inf (sel_type clip) with
      | None => mret (- EINVAL)
      | Some s =>
        t ← get_inf s;
        if bool_decide (ti_state t <> VIDEO_STATE_STREAMOFF) then mret (- EBUSY)
        else if negb (validate_clip_setting (sel_r clip) (fmt_main t)) then mret (- EINVAL)
        else
          c_fmt ← lift (get_clipped_format (nr_fmt t) (fmt_main t) (fmt_sub t) (sel_r clip));
          ret ← validate_frame_setting (sel_type clip) (nr_fmt t) c_fmt (frame_interval t);
          if negb (ret =? OK) then mret ret
          else
            ret ← sensor_set
              (if sel_type clip =? V4L2_BUF_TYPE_VIDEO_CAPTURE
               then IMGSENSOR_ID_CLIP_VIDEO else IMGSENSOR_ID_CLIP_STILL)
              16 (clip_value (sel_r clip));
            if negb (ret =? OK) then mret ret
            else on_inf s (set_clip (sel_r clip));; mret ret
      end
    end
  end.

Definition video_g_selection (arg : option selection) : VD (Z * option selection) :=
  match arg with
  | None => mret (- EINVAL, arg)
  | Some clip =>
    match get_video_type_inf (sel_type clip) with
    | None => mret (- EINVAL, arg)
    | Some s => t ← get_inf s; mret (OK, Some (mk_sel (sel_type clip) (ti_clip t)))
    end
  end.

(** [struct v4l2_format] (the members used) *)

Record v4l2_format := mk_v4l2fmt { vf_type : Z; vf_pix : video_format }.

Definition is_subimg (pix : Z) : bool :=
  (pix =? V4L2_PIX_FMT_SUBIMG_UYVY) || (pix =? V4L2_PIX_FMT_SUBIMG_RGB565).

Definition is_mainimg (pix : Z) : bool :=
  (pix =? V4L2_PIX_FMT_UYVY) || (pix =? V4L2_PIX_FMT_RGB565) || (pix =? V4L2_PIX_FMT_JPEG)
  || (pix =? V4L2_PIX_FMT_JPEG_WITH_SUBIMG).

(** The format of a subimage request. *)

Definition subimg_format (v : video_format) : video_format :=
  mk_format (f_width v) (f_height v)
    (if f_pixelformat v =? V4L2_PIX_FMT_SUBIMG_UYVY
     then V4L2_PIX_FMT_UYVY else V4L2_PIX_FMT_RGB565).

Definition video_try_fmt (arg : option v4l2_format) : VD Z :=
  '(o, dt) ← both_ops;
  match so_validate_frame_setting o, do_validate_frame_setting dt with
  | Some _, Some _ =>
    match arg with
    | None => mret (- EINVAL)
    | Some v =>
      match get_video_type_inf (vf_type v) with
      | None => mret (- EINVAL)
      | Some s =>
        t ← get_inf s;
        let pix := f_pixelformat (vf_pix v) in
        if is_subimg pix then
          if negb (f_pixelformat (fmt_main t) =? V4L2_PIX_FMT_JPEG_WITH_SUBIMG)
          then mret (- EPERM)
          else validate_frame_setting (vf_type v) 2
                 [fmt_main t; subimg_format (vf_pix v)] (frame_interval t)
        else if is_mainimg pix then
          validate_frame_setting (vf_type v) 1 [vf_pix v] (frame_interval t)
        else mret (- EINVAL)
      end
    end
  | _, _ => mret (- ENOTTY)
  end.

Definition video_s_fmt (arg : option v4l2_format) : VD Z :=
  ret ← video_try_fmt arg;
  if negb (ret =? 0) then mret ret
  else
    match arg with
    | None => ub NullDeref
    | Some v =>
      match get_video_type_inf (vf_type v) with
      | None => mret (- EINVAL)
      | Some s =>
        t ← get_inf s;
        if bool_decide (ti_state t <> VIDEO_STATE_STREAMOFF) then mret (- EBUSY)
        else if is_subimg (f_pixelformat (vf_pix v)) then
          if negb (f_pixelformat (fmt_main t) =? V4L2_PIX_FMT_JPEG_WITH_SUBIMG)
          then mret (- EPERM)
          else
            on_inf s (set_fmt_sub (subimg_format (vf_pix v)));; on_inf s (set_nr_fmt 2);; mret OK
        else
          on_inf s (set_fmt_main (vf_pix v));; on_inf s (set_nr_fmt 1);; mret OK
      end
    end.

(** [struct v4l2_streamparm]: the time per frame, and the other members of
    [struct v4l2_captureparm]. *)

Record streamparm := mk_parm { pm_type : Z; pm_timeperframe : v4l2_fract; pm_other : list Z }.

Definition video_s_parm (arg : option streamparm) : VD Z :=
  '(o, dt) ← both_ops;
  match so_validate_frame_setting o, do_validate_frame_setting dt, arg with
  | Some _, Some _, Some p =>
    match get_video_type_inf (pm_type p) with
    | None => mret (- EINVAL)
    | Some s =>
      t ← get_inf s;
      if bool_decide (ti_state t <> VIDEO_STATE_STREAMOFF) then mret (- EBUSY)
      else
        ret ← validate_frame_setting (pm_type p) (nr_fmt t)
          (take (Z.to_nat (nr_fmt t)) [fmt_main t; fmt_sub t]) (pm_timeperframe p);
        if negb (ret =? OK) then mret ret
        else on_inf s (set_interval (pm_timeperframe p));; mret ret
    end
  | _, _, _ => mret (- EINVAL)
  end.

Definition video_g_parm (arg : option streamparm) : VD (Z * option streamparm) :=
  o ← sensor;
  match arg with
  | None => ub NullDeref
  | Some p =>
    match get_video_type_inf (pm_type p) with
    | None => mret (- EINVAL, arg)
    | Some s =>
      d ← get;
      let t := inf s d in
      let stored q := mk_parm (pm_type q) (frame_interval t) (pm_other q) in
      match so_get_frame_interval o with
      | Some gfi =>
        if bool_decide (ti_state t = VIDEO_STATE_CAPTURE) then
          let '(ret, fr) := gfi (hist d) (pm_type p) in
          let q := mk_parm (pm_type p) fr [0; 0; 0; 0] in
          mret (OK, Some (if negb (ret =? OK) then stored q else q))
        else mret (OK, Some (stored p))
      | None => mret (OK, Some (stored p))
      end
    end
  end.

(** ** Streaming and taking pictures *)

Definition video_streamon (arg : option Z) : VD Z :=
  match arg with
  | None => mret (- EINVAL)
  | Some type =>
    match get_video_type_inf type with
    | None => mret (- EINVAL)
    | Some s =>
      if negb (type =? V4L2_BUF_TYPE_VIDEO_CAPTURE) then mret OK
      else
        video_lock s;;
        t ← get_inf s;
        ret ← (if bool_decide (ti_state t <> VIDEO_STATE_STREAMOFF) then mret (- EPERM)
               else move_video CAUSE_VIDEO_START;; mret OK);
        video_unlock s;;
        mret ret
    end
  end.

Definition video_streamoff (arg : option Z) : VD Z :=
  match arg with
  | None => mret (- EINVAL)
  | Some type =>
    match get_video_type_inf type with
    | None => mret (- EINVAL)
    | Some s =>
      if negb (type =? V4L2_BUF_TYPE_VIDEO_CAPTURE) then mret OK
      else
        t ← get_inf s;
        if bool_decide (ti_state t = VIDEO_STATE_STREAMOFF) then mret (- EPERM)
        else move_video CAUSE_VIDEO_STOP;; mret OK
    end
  end.

Definition video_takepict_start (capture_num : Z) : VD Z :=
  video_lock SStill;;
  t ← get_inf SStill;
  ret ← (if bool_decide (ti_state t <> VIDEO_STATE_STREAMOFF) then mret (- EPERM)
         else
           on_inf SStill (set_capnum
             (if 0 <? capture_num then capture_num else VIDEO_REMAINING_CAPNUM_INFINITY));;
           move_video CAUSE_STILL_START;;
           (container ← fb SStill video_framebuff_get_vacant_container;
            match container with
            | Some _ =>
              start_stream SStill V4L2_BUF_TYPE_STILL_CAPTURE container;;
              on_inf SStill (set_state VIDEO_STATE_CAPTURE)
            | None => on_inf SStill (set_state VIDEO_STATE_STREAMON)
            end);;
           mret OK);
  video_unlock SStill;;
  mret ret.

Definition video_takepict_stop (halfpush : bool) : VD Z :=
  video_lock SStill;;
  t ← get_inf SStill;
  ret ← (if bool_decide (ti_state t = VIDEO_STATE_STREAMOFF)
            && (remaining_capnum t =? VIDEO_REMAINING_CAPNUM_INFINITY) then mret (- EPERM)
         else
           (if bool_decide (ti_state t = VIDEO_STATE_CAPTURE) then stop_capture else mret tt);;
           on_inf SStill (set_state VIDEO_STATE_STREAMOFF);;
           on_inf SStill (set_capnum VIDEO_REMAINING_CAPNUM_INFINITY);;
           video_lock SVideo;;
           move_video CAUSE_STILL_STOP;;
           video_unlock SVideo;;
           mret OK);
  video_unlock SStill;;
  mret ret.

(** ** Completion of a capture *)

Definition buf_done (err_code datasize : Z) (b : v4l2_buffer) : v4l2_buffer :=
  mk_buffer (b_index b) (b_type b) datasize
    (if err_code =? 0 then 0 else V4L2_BUF_FLAG_ERROR) (b_field b) (b_timecode b)
    (b_sequence b) (b_memory b) (b_userptr b) (b_length b).

(** Post a waiting [video_dqbuf] of stream [s]. *)

Definition notify (s : stream) (cause : waitend_cause) : VD unit :=
  on_inf s (set_cause cause);;
  on_inf s (fun t => set_wait_flg (sem_post (dqbuf_wait_flg t)) t).

(** The first half of [video_complete_capture]: the container that was being
    filled is complete, and goes to the thread that waits for one. *)

Definition capture_frame (s : stream) (err_code datasize : Z) : VD unit :=
  t ← get_inf s;
  let curr := vbuf_curr (bufinf t) in
  b ← fb s (load_buf curr);
  fb s (store_buf curr (buf_done err_code datasize b));;
  (if (err_code =? 0) && (0 <? remaining_capnum t)
   then on_inf s (set_capnum (remaining_capnum t - 1)) else mret tt);;
  fb s video_framebuff_capture_done;;
  if is_sem_waited (dqbuf_wait_flg t) then
    c ← fb s video_framebuff_pop_curr_container;
    on_inf s (set_done c);;
    notify s VIDEO_WAITEND_CAUSE_CAPTUREDONE
  else mret tt.

(** The second half: stop, or go on with the next vacant container. *)

Definition capture_next (s : stream) : VD unit :=
  t ← get_inf s;
  if remaining_capnum t =? 0 then
    stop_capture;;
    on_inf s (set_state VIDEO_STATE_STREAMOFF);;
    v ← get_inf SVideo;
    if bool_decide (s = SStill) && is_sem_waited (dqbuf_wait_flg v)
    then notify SVideo VIDEO_WAITEND_CAUSE_STILLSTOP else mret tt
  else
    container ← fb s video_framebuff_get_vacant_container;
    match container with
    | None => stop_capture;; on_inf s (set_state VIDEO_STATE_STREAMON)
    | Some _ =>
      b ← fb s (load_buf container);
      dt ← data_ops;
      match do_set_buf dt with
      | None => ub NullDeref
      | Some _ => call (DataSetBuf (b_userptr b) (b_length b))
      end
    end.

Definition video_complete_capture (err_code datasize : Z) : VD Z :=
  d ← get;
  let s := if bool_decide (ti_state (still_inf d) = VIDEO_STATE_CAPTURE)
           then SStill else SVideo in
  capture_frame s err_code datasize;;
  capture_next s;;
  mret OK.

End VideoDrv.
