(* ===== verification/VideoIoctl.v ===== *)
(** * The interface of the video driver

    [src/spresense/nuttx/drivers/video/video.c]: the dispatch of [ioctl], the
    registration of the device node and of the sensor and data devices. *)

From S2P Require Import Prelude FrameBuff VideoState VideoCtrl VideoDrv.
Import FrameBuff VideoState VideoCtrl VideoDrv.

Module VideoIoctl.

(** ** Requests

    One constructor per command, with the structure its argument points to
    ([None] is a null pointer). *)

Inductive request :=
  | VIDIOC_QUERYCAP (cap : option (list Z))
  | VIDIOC_REQBUFS (malloc_ok : bool) (r : option requestbuffers)
  | VIDIOC_QBUF (b : option v4l2_buffer)
  | VIDIOC_DQBUF (b : option v4l2_buffer)
  | VIDIOC_CANCEL_DQBUF (type : Z)
  | VIDIOC_STREAMON (type : option Z)
  | VIDIOC_STREAMOFF (type : option Z)
  | VIDIOC_DO_HALFPUSH (arg : Z)
  | VIDIOC_TAKEPICT_START (arg : Z)
  | VIDIOC_TAKEPICT_STOP (arg : Z)
  | VIDIOC_S_SELECTION (c : option selection)
  | VIDIOC_G_SELECTION (c : option selection)
  | VIDIOC_TRY_FMT (f : option v4l2_format)
  | VIDIOC_S_FMT (f : option v4l2_format)
  | VIDIOC_S_PARM (p : option streamparm)
  | VIDIOC_G_PARM (p : option streamparm)
  | VIDIOC_QUERYCTRL (c : option queryctrl)
  | VIDIOC_QUERY_EXT_CTRL (c : option query_ext_ctrl)
  | VIDIOC_QUERYMENU (m : option querymenu)
  | VIDIOC_G_CTRL (c : option control)
  | VIDIOC_S_CTRL (c : option control)
  | VIDIOC_G_EXT_CTRLS (c : option ext_controls)
  | VIDIOC_S_EXT_CTRLS (c : option ext_controls)
  | V4SIOC_QUERY_EXT_CTRL_SCENE (c : option (Z * query_ext_ctrl))
  | V4SIOC_QUERYMENU_SCENE (m : option (Z * querymenu))
  | V4SIOC_G_EXT_CTRLS_SCENE (c : option (Z * ext_controls))
  | V4SIOC_S_EXT_CTRLS_SCENE (c : option (Z * ext_controls))
  | UnrecognizedCmd (cmd : Z).

(** What the uninitialised locals of a call hold. *)

Record stack := mk_stack { stk_control : ext_control; stk_query : query_ext_ctrl }.

(** The call returned a value and left the argument's structure as given, or
    its thread waits in [VIDIOC_DQBUF]. *)

Inductive io_result :=
  | IoReturn (ret : Z) (arg : request)
  | IoWait (buf_type : Z).

Definition plain (arg : request) (m : VD Z) : VD io_result :=
  ret ← m; mret (IoReturn ret arg).

Definition inout {A} (k : A -> request) (m : VD (Z * A)) : VD io_result :=
  '(ret, a) ← m; mret (IoReturn ret (k a)).

Definition dq_reply (b : option v4l2_buffer) (type : Z) (r : dq_result) : io_result :=
  match r with
  | DqReturn ret None => IoReturn ret (VIDIOC_DQBUF b)
  | DqReturn ret (Some b') => IoReturn ret (VIDIOC_DQBUF (Some b'))
  | DqWait => IoWait type
  end.

Definition video_ioctl (stk : stack) (req : request) : VD io_result :=
  match req with
  | VIDIOC_QUERYCAP cap => inout VIDIOC_QUERYCAP (video_querycap cap)
  | VIDIOC_REQBUFS ok r => plain req (video_reqbufs ok r)
  | VIDIOC_QBUF b => plain req (video_qbuf b)
  | VIDIOC_DQBUF b =>
    r ← video_dqbuf b;
    mret (dq_reply b (match b with Some b => b_type b | None => 0 end) r)
  | VIDIOC_CANCEL_DQBUF type => plain req (video_cancel_dqbuf type)
  | VIDIOC_STREAMON type => plain req (video_streamon type)
  | VIDIOC_STREAMOFF type => plain req (video_streamoff type)
  | VIDIOC_DO_HALFPUSH arg => plain req (video_do_halfpush (stk_control stk) (z2b arg))
  | VIDIOC_TAKEPICT_START arg => plain req (video_takepict_start (i32 arg))
  | VIDIOC_TAKEPICT_STOP arg => plain req (video_takepict_stop (z2b arg))
  | VIDIOC_S_SELECTION c => plain req (video_s_selection c)
  | VIDIOC_G_SELECTION c => inout VIDIOC_G_SELECTION (video_g_selection c)
  | VIDIOC_TRY_FMT f => plain req (video_try_fmt f)
  | VIDIOC_S_FMT f => plain req (video_s_fmt f)
  | VIDIOC_S_PARM p => plain req (video_s_parm p)
  | VIDIOC_G_PARM p => inout VIDIOC_G_PARM (video_g_parm p)
  | VIDIOC_QUERYCTRL c => inout VIDIOC_QUERYCTRL (video_queryctrl (stk_query stk) c)
  | VIDIOC_QUERY_EXT_CTRL c => inout VIDIOC_QUERY_EXT_CTRL (video_query_ext_ctrl c)
  | VIDIOC_QUERYMENU m => inout VIDIOC_QUERYMENU (video_querymenu m)
  | VIDIOC_G_CTRL c => inout VIDIOC_G_CTRL (video_g_ctrl (stk_control stk) c)
  | VIDIOC_S_CTRL c => inout VIDIOC_S_CTRL (video_s_ctrl (stk_control stk) c)
  | VIDIOC_G_EXT_CTRLS c => inout VIDIOC_G_EXT_CTRLS (video_g_ext_ctrls c)
  | VIDIOC_S_EXT_CTRLS c => inout VIDIOC_S_EXT_CTRLS (video_s_ext_ctrls c)
  | V4SIOC_QUERY_EXT_CTRL_SCENE c =>
    inout V4SIOC_QUERY_EXT_CTRL_SCENE (video_query_ext_ctrl_scene c)
  | V4SIOC_QUERYMENU_SCENE m => inout V4SIOC_QUERYMENU_SCENE (video_querymenu_scene m)
  | V4SIOC_G_EXT_CTRLS_SCENE c => inout V4SIOC_G_EXT_CTRLS_SCENE (video_g_ext_ctrls_scene c)
  | V4SIOC_S_EXT_CTRLS_SCENE c => inout V4SIOC_S_EXT_CTRLS_SCENE (video_s_ext_ctrls_scene c)
  | UnrecognizedCmd _ => mret (IoReturn (- ENOTTY) req)
  end.

(** ** Registration of the devices *)

Definition imgsensor_register (ops : imgsensor_ops) : VD Z :=
  d ← get;
  let size := u32 (4 * (Z.of_nat (length (g_video_registered_sensor d)) + 1)) in
  call (HeapAlloc size);;
  match malloc_ d (hist d) size with
  | None => mret (- ENOMEM)
  | Some _ => modify (set_registered (g_video_registered_sensor d ++ [ops]));; mret OK
  end.

Definition imgdata_register (ops : imgdata_ops) : VD unit := modify (set_data (Some ops)).

(** ** Registration of the device node

    The driver's own state ([is_initialized], [video_handler]) and the paths
    that name a registered device. *)

Record vmodule := mk_module {
  is_initialized : bool; video_handler : option (list Z); nodes : list (list Z) }.

Definition MAX_VIDEO_FILE_PATH : nat := 32.

(** [strnlen]: the number of bytes before the first NUL, at most [max]. *)

Fixpoint strnlen (b : cbuf) (i : Z) (max : nat) : outcome nat :=
  match max with
  | O => Ret O
  | S max' =>
    c ← cb_read b i;
    if c =? 0 then Ret O else n ← strnlen b (i + 1) max'; Ret (S n)
  end.

Fixpoint read_bytes (b : cbuf) (i : Z) (n : nat) : outcome (list Z) :=
  match n with
  | O => Ret []
  | S n' => c ← cb_read b i; l ← read_bytes b (i + 1) n'; Ret (c :: l)
  end.

(** [ok1] and [ok2] answer the two [kmm_malloc]; [reg] is the result of
    [register_driver] on the path.  The result is the path of the new device,
    or [None] for [NULL]. *)

Definition video_register (ok1 ok2 : bool) (reg : list Z -> Z) (devpath : option cbuf) :
    outcome (option (list Z)) :=
  match devpath with
  | None => Ret None
  | Some p =>
    allocsize ← strnlen p 0 (MAX_VIDEO_FILE_PATH - 1);
    if (allocsize <? 2)%nat then Ret None
    else
      c0 ← cb_read p 0;
      if negb (c0 =? 47) then Ret None
      else
        long ← (if (allocsize =? MAX_VIDEO_FILE_PATH - 1)%nat then
                  c ← cb_read p (Z.of_nat MAX_VIDEO_FILE_PATH); Ret (negb (c =? 0))
                else Ret false);
        if (long : bool) then Ret None
        else if negb ok1 then Ret None
        else if negb ok2 then Ret None
        else
          path ← read_bytes p 0 allocsize;
          Ret (if reg path <? 0 then None else Some path)
  end.

Definition remove_node (p : list Z) (l : list (list Z)) : list (list Z) :=
  filter (fun q => q <> p) l.

Definition video_unregister (v_mgr : option (list Z)) (m : vmodule) : Z * vmodule :=
  match v_mgr with
  | None => (- ENODEV, m)
  | Some p => (OK, mk_module (is_initialized m) (video_handler m) (remove_node p (nodes m)))
  end.

Definition video_initialize (ok1 ok2 : bool) (reg : list Z -> Z) (devpath : option cbuf) :
    M vmodule Z :=
  m ← get;
  if is_initialized m then mret OK
  else
    h ← lift (video_register ok1 ok2 reg devpath);
    put (mk_module true h (match h with Some p => p :: nodes m | None => nodes m end));;
    mret OK.

Definition video_uninitialize : M vmodule Z :=
  m ← get;
  if is_initialized m then mret OK
  else
    let '(_, m') := video_unregister (video_handler m) m in
    put (mk_module false (video_handler m') (nodes m'));;
    mret OK.

End VideoIoctl.
