(* ===== verification/VideoSys.v ===== *)
(** * The video driver as a system

    The threads that call the driver and the interrupt that reports a
    completed capture, as a transition system over [video_ioctl], [dq_resume]
    and [video_complete_capture]; its invariant and its safety.

    The unit of interleaving is one call, one resumption of a waiting
    [VIDIOC_DQBUF], or one interrupt. *)

From S2P Require Import Prelude FrameBuff VideoState VideoCtrl VideoDrv VideoIoctl.
Import FrameBuff VideoState VideoCtrl VideoDrv VideoIoctl.

Module VideoSys.

(** ** The capture hardware

    It runs from [start_capture] to [stop_capture], and raises interrupts only
    while it runs. *)

Fixpoint hw_running (h : history) : bool :=
  match h with
  | [] => false
  | DataStart _ _ _ :: _ => true
  | DataStop :: _ => false
  | _ :: h' => hw_running h'
  end.

(** The memory it writes to: address and size of the last buffer it was given. *)

Fixpoint hw_target (h : history) : option (Z * Z) :=
  match h with
  | [] => None
  | DataSetBuf addr size :: _ => Some (addr, size)
  | _ :: h' => hw_target h'
  end.

(** ** The system *)

(** [in_dq s]: a thread is inside [VIDIOC_DQBUF] of stream [s], blocked or on
    its way out. *)

Record sys := mk_sys { s_drv : vdrv; in_dq : stream -> bool }.

Inductive action :=
  | AIoctl (req : request)
  | AResume (s : stream)
  | AIrq (err_code datasize : Z).

Definition buf_type_of (s : stream) : Z :=
  match s with
  | SVideo => V4L2_BUF_TYPE_VIDEO_CAPTURE
  | SStill => V4L2_BUF_TYPE_STILL_CAPTURE
  end.

(** One value per stream, changed for one of them. *)

Definition supd {T} (s : stream) (v : T) (f : stream -> T) : stream -> T :=
  fun s' => if bool_decide (s' = s) then v else f s'.

Definition dq_stream (req : request) : option stream :=
  match req with
  | VIDIOC_DQBUF (Some b) => get_video_type_inf (b_type b)
  | _ => None
  end.

(** The thread that called [VIDIOC_DQBUF] stays inside when it has to wait. *)

Definition exec (stk : stack) (a : action) (x : sys) : outcome sys :=
  match a with
  | AIoctl req =>
    '(r, d) ← video_ioctl stk req (s_drv x);
    Ret (mk_sys d (match r, dq_stream req with
                   | IoWait _, Some s => supd s true (in_dq x)
                   | _, _ => in_dq x
                   end))
  | AResume s =>
    '(r, d) ← dq_resume s (buf_type_of s) (s_drv x);
    Ret (mk_sys d (match r with DqWait => in_dq x | DqReturn _ _ => supd s false (in_dq x) end))
  | AIrq err_code datasize =>
    '(_, d) ← video_complete_capture err_code datasize (s_drv x);
    Ret (mk_sys d (in_dq x))
  end.

(** ** What the clients and the hardware may do *)

Definition valid_type (type : Z) : bool := (0 <=? type) && (type <? 256).

Definition idle (x : sys) (type : Z) : bool :=
  match get_video_type_inf type with Some s => negb (in_dq x s) | None => true end.

(** The stream requests, with these restrictions: a buffer type fits a byte
    (the driver looks at its low byte only); one thread at a time waits on a
    stream; the buffers of a stream are not requested anew while a thread
    waits for one, their number is one the driver supports and the kernel heap
    has room for it; [VIDIOC_G_PARM] gets a structure. *)

Definition enabled (a : action) (x : sys) : bool :=
  match a with
  | AIoctl req =>
    match req with
    | VIDIOC_QUERYCAP _ => true
    | VIDIOC_REQBUFS ok r =>
      match r with
      | Some r => ok && (1 <=? rb_count r) && (rb_count r <=? V4L2_REQBUFS_COUNT_MAX)
                  && idle x (rb_type r)
      | None => true
      end
    | VIDIOC_QBUF b => match b with Some b => valid_type (b_type b) | None => true end
    | VIDIOC_DQBUF b =>
      match b with Some b => valid_type (b_type b) && idle x (b_type b) | None => true end
    | VIDIOC_CANCEL_DQBUF type => true
    | VIDIOC_STREAMON type | VIDIOC_STREAMOFF type =>
      match type with Some t => valid_type t | None => true end
    | VIDIOC_TAKEPICT_START _ | VIDIOC_TAKEPICT_STOP _ => true
    | VIDIOC_S_SELECTION _ | VIDIOC_G_SELECTION _ | VIDIOC_TRY_FMT _ | VIDIOC_S_FMT _
    | VIDIOC_S_PARM _ => true
    | VIDIOC_G_PARM p => match p with Some _ => true | None => false end
    | UnrecognizedCmd _ => true
    | _ => false
    end
  | AResume s => in_dq x s && (dqbuf_wait_flg (inf s (s_drv x)) =? 0)
  | AIrq _ _ => hw_running (hist (s_drv x))
  end.

Inductive steps (stk : stack) (x : sys) : sys -> Prop :=
  | steps_refl : steps stk x x
  | steps_step y a z :
      steps stk x y -> enabled a y = true -> exec stk a y = Ret z -> steps stk x z.

(** ** The invariant *)

Definition fmt_ok (t : video_type_inf) : Prop :=
  (nr_fmt t = 1 \/ nr_fmt t = 2) /\ f_width (fmt_main t) <> 0 /\ f_height (fmt_main t) <> 0.

(** A stream represents a queue; [b] says whether a thread is in its
    [VIDIOC_DQBUF]: blocked, or woken with a container or with another cause. *)

Record stream_rep (t : video_type_inf) (b : bool) (a : queue) : Prop := {
  sr_ref : refines (bufinf t) a;
  sr_heap : heap_ok (bufinf t);
  sr_fmt : fmt_ok t;
  sr_cap : ti_state t = VIDEO_STATE_CAPTURE ->
    vacant_q a <> [] /\ vbuf_curr (bufinf t) = head (vacant_q a);
  sr_out : b = false -> dqbuf_wait_flg t = 0 /\ done_container t = None;
  sr_in : b = true ->
    (dqbuf_wait_flg t = -1 /\ done_container t = None) \/
    (dqbuf_wait_flg t = 0 /\
      ((exists x, done_container t = Some x /\ detached (bufinf t) a x /\
                  wait_cause t = VIDEO_WAITEND_CAUSE_CAPTUREDONE) \/
       (done_container t = None /\ wait_cause t <> VIDEO_WAITEND_CAUSE_CAPTUREDONE)))
}.

Definition nonempty_fmt (f : video_format) : Prop := f_width f <> 0 /\ f_height f <> 0.

(** What the driver relies on in a sensor: it can capture, and it does not accept
    an empty frame (it is given as many formats as it is told). *)

Class FrameSensor (o : imgsensor_ops) : Prop := {
  fs_start : is_Some (so_start_capture o);
  fs_nonempty : forall sv h type nr main rest i, so_validate_frame_setting o = Some sv ->
    (Z.to_nat nr <= S (length rest))%nat -> sv h type nr (main :: rest) i = OK -> nonempty_fmt main
}.

(** The devices are complete. *)

Record devices_ok (d : vdrv) (o : imgsensor_ops) (dt : imgdata_ops) : Prop := {
  dv_sensor : g_video_sensor_ops d = Some o;
  dv_data : g_video_data_ops d = Some dt;
  dv_contract : FrameSensor o;
  dv_dstart : is_Some (do_start_capture dt);
  dv_setbuf : is_Some (do_set_buf dt)
}.

(** The memory of the container a stream fills, and that the hardware writes to
    the memory of the stream that captures. *)

Definition aim (f : video_framebuff) : option (Z * Z) :=
  x ← vbuf_curr f; b ← c_buf <$> cells f !! x; Some (b_userptr b, b_length b).

Definition aimed (d : vdrv) : Prop :=
  forall s, ti_state (inf s d) = VIDEO_STATE_CAPTURE -> hw_target (hist d) = aim (bufinf (inf s d)).

Record drv_rep (d : vdrv) (B : stream -> bool) (A : stream -> queue) : Prop := {
  dr_video : stream_rep (video_inf d) (B SVideo) (A SVideo);
  dr_still : stream_rep (still_inf d) (B SStill) (A SStill);
  dr_excl : ti_state (video_inf d) = VIDEO_STATE_CAPTURE ->
            ti_state (still_inf d) = VIDEO_STATE_STREAMOFF;
  dr_hw : hw_running (hist d) = true <->
          ti_state (video_inf d) = VIDEO_STATE_CAPTURE \/
          ti_state (still_inf d) = VIDEO_STATE_CAPTURE;
  dr_vnum : remaining_capnum (video_inf d) = VIDEO_REMAINING_CAPNUM_INFINITY;
  dr_snum : ti_state (still_inf d) <> VIDEO_STATE_STREAMOFF -> remaining_capnum (still_inf d) <> 0;
  dr_dev : exists o dt, devices_ok d o dt;
  dr_aim : aimed d
}.

Definition locks (d : vdrv) (v s : Z) : Prop :=
  lock_state (video_inf d) = v /\ lock_state (still_inf d) = s.

Record sys_inv (x : sys) : Prop := {
  si_rep : exists A, drv_rep (s_drv x) (in_dq x) A;
  si_locks : locks (s_drv x) 1 1
}.

(** ** Frame buffer lemmas *)

Lemma dr_stream d B A s : drv_rep d B A -> stream_rep (inf s d) (B s) (A s).
Proof. intros []. by destruct s. Qed.

Lemma wp_fb {R} s (m : FB R) Q d r f' :
  m (bufinf (inf s d)) = Ret (r, f') ->
  Q r (upd_inf s (set_bufinf f') d) -> wp (fb s m) Q d.
Proof.
  intros Hm HQ. exists r, (upd_inf s (set_bufinf f') d). split; [|done].
  unfold fb, zoom. by rewrite Hm.
Qed.

Lemma load_buf_ok f x : is_Some (cells f !! x) ->
  exists b, load_buf (Some x) f = Ret (b, f) /\ c_buf <$> cells f !! x = Some b.
Proof.
  intros [c Hc]. exists (c_buf c). unfold load_buf. munfold. simpl. rewrite Hc. by rewrite Hc.
Qed.

(** Writing the buffer of a container leaves the chains alone. *)

Definition upd_buf (x : vptr) (b : v4l2_buffer) (f : video_framebuff) : video_framebuff :=
  set_cells (alter (fun c => mk_container b (c_next c)) x (cells f)) f.

Lemma store_buf_ok f x b : is_Some (cells f !! x) -> store_buf (Some x) b f = Ret (tt, upd_buf x b f).
Proof. intros [c Hc]. unfold store_buf, upd_buf. munfold. simpl. by rewrite Hc. Qed.

Lemma upd_buf_cell f x b y : is_Some (cells (upd_buf x b f) !! y) <-> is_Some (cells f !! y).
Proof. simpl. rewrite lookup_alter. case_decide; [subst|done]. destruct (cells f !! y); naive_solver. Qed.

Lemma next_of_upd_buf f x b y : next_of (cells (upd_buf x b f)) y = next_of (cells f) y.
Proof.
  unfold next_of. simpl. rewrite lookup_alter. case_decide; [subst|done].
  by destruct (cells f !! y).
Qed.

Lemma path_upd_buf f x b q e : path (cells f) q e -> path (cells (upd_buf x b f)) q e.
Proof.
  induction q as [|y q IH]; cbn [path]; [done|]. intros [Hy Hp].
  split; [by rewrite next_of_upd_buf|by apply IH].
Qed.

Lemma upd_buf_refines f a x b : refines f a -> refines (upd_buf x b f) a.
Proof. intros []. constructor; try done; by apply path_upd_buf. Qed.

Lemma upd_buf_heap f x b : heap_ok f -> heap_ok (upd_buf x b f).
Proof.
  intros [H1 H2]. constructor.
  - intros y Hy. apply H1. by apply upd_buf_cell in Hy.
  - intros p Hp. destruct (H2 p Hp) as (? & ? & H). split_and!; [done..|].
    intros i Hi. by apply upd_buf_cell, H.
Qed.

Lemma set_curr_refines f a c : refines f a -> refines (set_curr c f) a.
Proof. intros []. by constructor. Qed.

Lemma set_curr_heap f c : heap_ok f -> heap_ok (set_curr c f).
Proof. intros []. by constructor. Qed.

Lemma get_vacant_ok f a : refines f a ->
  video_framebuff_get_vacant_container f =
    Ret (head (vacant_q a), set_curr (head (vacant_q a)) f).
Proof.
  intros Hr. unfold video_framebuff_get_vacant_container. munfold. by rewrite (ref_next _ _ Hr).
Qed.

Lemma vacant_cell f a x : refines f a -> x ∈ vacant_q a -> is_Some (cells f !! x).
Proof.
  intros Hr Hx. eapply path_lookup; [apply (ref_path _ _ Hr)|]. apply elem_of_app. by right.
Qed.

Lemma head_cell f a x : refines f a -> head (vacant_q a) = Some x -> is_Some (cells f !! x).
Proof.
  intros Hr Hx. eapply vacant_cell; [done|]. destruct (vacant_q a); simplify_eq/=. apply list_elem_of_here.
Qed.


(** ** The devices *)

Lemma devices_step d d' o dt :
  g_video_sensor_ops d' = g_video_sensor_ops d -> g_video_data_ops d' = g_video_data_ops d ->
  devices_ok d o dt -> devices_ok d' o dt.
Proof. intros H1 H2 []. constructor; congruence || done. Qed.

Lemma wp_stop d o dt Q : devices_ok d o dt -> Q tt (push_call DataStop d) -> wp stop_capture Q d.
Proof.
  intros Hd HQ. exists tt, (push_call DataStop d). split; [|done].
  unfold stop_capture, data_ops, call. munfold. by rewrite (dv_data _ _ _ Hd).
Qed.

Lemma clipped_ok t clip : fmt_ok t ->
  exists l, get_clipped_format (nr_fmt t) (fmt_main t) (fmt_sub t) clip = Ret l.
Proof.
  intros (_ & Hw & Hh). unfold get_clipped_format, scale.
  rewrite !(proj2 (Z.eqb_neq _ _)) by done. repeat case_match; by eexists.
Qed.

(** The calls that start a capture into container [x] of the chain [f]: the last
    but one starts the hardware, the last one gives it the memory. *)

Definition started (f : video_framebuff) (x : vptr) (d d' : vdrv) : Prop :=
  exists c1 nr l i b, c_buf <$> cells f !! x = Some b /\
    d' = push_call (DataSetBuf (b_userptr b) (b_length b)) (push_call (DataStart nr l i) (push_call c1 d)).

Lemma aim_curr f x b : vbuf_curr f = Some x -> c_buf <$> cells f !! x = Some b ->
  aim f = Some (b_userptr b, b_length b).
Proof. intros H1 H2. unfold aim. rewrite H1. simpl. by rewrite H2. Qed.

Lemma aim_same f f' : vbuf_curr f' = vbuf_curr f ->
  (forall x, vbuf_curr f = Some x -> c_buf <$> cells f' !! x = c_buf <$> cells f !! x) -> aim f' = aim f.
Proof.
  intros H1 H2. unfold aim. rewrite H1. destruct (vbuf_curr f) as [x|]; [|done]. simpl. by rewrite H2.
Qed.

Lemma aim_bufs f f' : same_bufs f f' -> vbuf_curr f' = vbuf_curr f -> aim f' = aim f.
Proof. intros Hs Hc. apply aim_same; [done|]. intros x _. apply (sb_bufs _ _ Hs). Qed.

Lemma wp_start_stream s type x d o dt Q :
  devices_ok d o dt -> fmt_ok (inf s d) -> is_Some (cells (bufinf (inf s d)) !! x) ->
  (forall d', started (bufinf (inf s d)) x d d' -> Q OK d') ->
  wp (start_stream s type (Some x)) Q d.
Proof.
  intros Hdev Hf Hx HQ. unfold start_stream.
  destruct (load_buf_ok _ _ Hx) as (b & Hb & Hbx).
  destruct (clipped_ok _ (ti_clip (inf s d)) Hf) as [l Hl].
  destruct Hdev as [Ho Hdt [[f1 H1] _] [f2 H2] [f3 H3]].
  apply wp_bind, wp_gets, wp_bind. eapply wp_fb; [exact Hb|].
  replace (upd_inf s (set_bufinf (bufinf (inf s d))) d) with d
    by (destruct d as [??[][]??????], s; done).
  eexists OK, _. split.
  - unfold start_capture, both_ops, sensor, call. munfold. rewrite Ho, Hdt, H1, H2, H3, Hl. done.
  - apply HQ. by eexists _, _, _, _, b.
Qed.

(** ** State changes of one stream *)

Lemma sr_state_curr t b a st c :
  stream_rep t b a ->
  (st = VIDEO_STATE_CAPTURE -> vacant_q a <> [] /\ c = head (vacant_q a)) ->
  stream_rep (set_state st (set_bufinf (set_curr c (bufinf t)) t)) b a.
Proof.
  intros [Hr Hh Hf Hc Ho Hi] Hst. constructor; simpl; try done.
  - by apply set_curr_refines.
  - by apply set_curr_heap.
Qed.

Lemma sr_state t b a st :
  stream_rep t b a -> (st = VIDEO_STATE_CAPTURE -> ti_state t = VIDEO_STATE_CAPTURE) ->
  stream_rep (set_state st t) b a.
Proof. intros [Hr Hh Hf Hc Ho Hi] Hst. constructor; simpl; try done. intros ->. by apply Hc, Hst. Qed.

Lemma sr_capnum t b a n : stream_rep t b a -> stream_rep (set_capnum n t) b a.
Proof. by intros []. Qed.

Lemma sr_lock t b a n : stream_rep t b a -> stream_rep (set_lock_state n t) b a.
Proof. by intros []. Qed.

(** What a change of state does not touch. *)

Definition kept (t t' : video_type_inf) : Prop :=
  lock_state t' = lock_state t /\ dqbuf_wait_flg t' = dqbuf_wait_flg t /\
  done_container t' = done_container t /\ wait_cause t' = wait_cause t.

(** A driver whose streams are replaced. *)

Lemma drv_rep_intro d d' B A B' A' :
  drv_rep d B A ->
  stream_rep (video_inf d') (B' SVideo) (A' SVideo) ->
  stream_rep (still_inf d') (B' SStill) (A' SStill) ->
  (ti_state (video_inf d') = VIDEO_STATE_CAPTURE ->
   ti_state (still_inf d') = VIDEO_STATE_STREAMOFF) ->
  (hw_running (hist d') = true <-> ti_state (video_inf d') = VIDEO_STATE_CAPTURE \/
                                   ti_state (still_inf d') = VIDEO_STATE_CAPTURE) ->
  remaining_capnum (video_inf d') = remaining_capnum (video_inf d) ->
  (ti_state (still_inf d') <> VIDEO_STATE_STREAMOFF -> remaining_capnum (still_inf d') <> 0) ->
  g_video_sensor_ops d' = g_video_sensor_ops d -> g_video_data_ops d' = g_video_data_ops d ->
  aimed d' -> drv_rep d' B' A'.
Proof.
  intros Hd Hv Hs He Hh Hvn Hsn H1 H2 Ha. destruct (dr_dev _ _ _ Hd) as (o & dt & Hdev).
  constructor; try done.
  - rewrite Hvn. apply (dr_vnum _ _ _ Hd).
  - exists o, dt. by eapply devices_step.
Qed.

(** The hardware keeps its target while it gets no other one and the capturing
    stream fills the same container. *)

Lemma aimed_same d d' : aimed d -> hw_target (hist d') = hw_target (hist d) ->
  (forall s, ti_state (inf s d') = VIDEO_STATE_CAPTURE ->
     ti_state (inf s d) = VIDEO_STATE_CAPTURE /\ aim (bufinf (inf s d')) = aim (bufinf (inf s d))) ->
  aimed d'.
Proof. intros Ha Ht Hs s Hc. destruct (Hs s Hc) as [H1 ->]. by rewrite Ht, (Ha s). Qed.

(** A stream that starts, or gets another container, while the other one stands. *)

Lemma aimed_at s d' x b : ti_state (inf (match s with SVideo => SStill | SStill => SVideo end) d') <> VIDEO_STATE_CAPTURE ->
  hw_target (hist d') = Some (b_userptr b, b_length b) -> vbuf_curr (bufinf (inf s d')) = Some x ->
  c_buf <$> cells (bufinf (inf s d')) !! x = Some b -> aimed d'.
Proof.
  intros Ho Ht Hc Hb s' Hs'. assert (s' = s) as -> by (destruct s, s'; done).
  by rewrite Ht, (aim_curr _ x b).
Qed.

Lemma aimed_stopped d' : (forall s, ti_state (inf s d') <> VIDEO_STATE_CAPTURE) -> aimed d'.
Proof. intros H s Hs. by destruct (H s). Qed.

(** Nothing but the locks changed. *)

Lemma drv_rep_lock d B A s n : drv_rep d B A -> drv_rep (upd_inf s (set_lock_state n) d) B A.
Proof.
  intros H. pose proof H as []. destruct s; apply (drv_rep_intro d _ B A); simpl; try done;
    try (by apply sr_lock); (eapply aimed_same; [done|done|]); by intros [].
Qed.

Lemma wp_change next d B A Q :
  drv_rep d B A ->
  (next = VIDEO_STATE_CAPTURE -> ti_state (still_inf d) = VIDEO_STATE_STREAMOFF) ->
  (forall d', drv_rep d' B A -> still_inf d' = still_inf d ->
     kept (video_inf d) (video_inf d') ->
     (next <> VIDEO_STATE_CAPTURE -> ti_state (video_inf d') = next) -> Q tt d') ->
  wp (change_video_state next) Q d.
Proof.
  intros Hrep Hnext HQ. pose proof Hrep as [Hv Hs He Hh Hvn Hsn (o & dt & Hdev) Ha].
  unfold change_video_state. apply wp_bind, wp_gets.
  change (inf SVideo d) with (video_inf d).
  destruct (bool_decide (ti_state (video_inf d) <> _) && _) eqn:E1.
  - to_prop. subst next. specialize (Hnext eq_refl). pose proof (sr_ref _ _ _ Hv) as Hr.
    apply wp_bind. eapply wp_fb; [by apply get_vacant_ok|].
    destruct (head (vacant_q (A SVideo))) as [x|] eqn:Ex.
    + apply wp_bind. eapply wp_start_stream.
      * eapply devices_step; [..|exact Hdev]; done.
      * apply (sr_fmt _ _ _ Hv).
      * simpl. by eapply head_cell.
      * intros d' (c1 & nr & l & i & b & Hb & ->). apply wp_modify, HQ; try done.
        apply (drv_rep_intro d _ B A); try done; simpl; [|tauto|];
          [|eapply (aimed_at SVideo _ x b); [simpl; congruence|done..]].
        apply sr_state_curr; [done|]. intros _. rewrite Ex. split; [|done].
        by intros E; rewrite E in Ex.
    + apply wp_modify, HQ; try done. apply (drv_rep_intro d _ B A); simpl; try done.
      * by apply sr_state_curr.
      * rewrite Hh. naive_solver.
      * apply aimed_stopped. intros []; simpl; congruence.
  - apply wp_bind. destruct (bool_decide (ti_state (video_inf d) = _) && _) eqn:E2.
    + to_prop. eapply wp_stop; [exact Hdev|]. apply wp_modify, HQ; try done.
      apply (drv_rep_intro d _ B A); simpl; try done.
      * by apply sr_state.
      * split; [done|]. rewrite He by done. intros [?|?]; done.
      * apply aimed_stopped. intros []; simpl; [done|]. by rewrite He.
    + apply wp_ret, wp_modify, HQ; try done. apply andb_false_iff in E1, E2.
      assert (Hsame : next = VIDEO_STATE_CAPTURE <-> ti_state (video_inf d) = VIDEO_STATE_CAPTURE).
      { destruct E1, E2; to_prop; destruct next, (ti_state (video_inf d)); naive_solver. }
      apply (drv_rep_intro d _ B A); simpl; try done.
      * apply sr_state; [done|]. by rewrite Hsame.
      * rewrite Hh, Hsame. done.
      * eapply aimed_same; [exact Ha|done|]. intros []; simpl; [|done]. by rewrite Hsame.
Qed.

Lemma wp_move cause d B A Q :
  drv_rep d B A ->
  (cause = CAUSE_STILL_STOP -> ti_state (still_inf d) = VIDEO_STATE_STREAMOFF) ->
  (forall d', drv_rep d' B A -> still_inf d' = still_inf d ->
     kept (video_inf d) (video_inf d') ->
     (cause = CAUSE_STILL_START -> ti_state (video_inf d') <> VIDEO_STATE_CAPTURE) ->
     Q tt d') ->
  wp (move_video cause) Q d.
Proof.
  intros Hrep Hc HQ. unfold move_video. apply wp_bind, wp_get.
  pose proof (dr_excl _ _ _ Hrep) as He. unfold estimate_next_video_state.
  eapply wp_change; [exact Hrep| |].
  - destruct cause; unfold is_taking_still_picture; repeat case_bool_decide; simpl; try done; intros _.
    all: try (by apply Hc); try (by apply He).
    all: by destruct (ti_state (still_inf d)).
  - intros d' H1 H2 H3 H4. apply HQ; try done. intros ->.
    case_bool_decide as E; rewrite H4; done.
Qed.

(** ** Operations on the chain of a stream *)

Lemma upd_upd s g h d : upd_inf s g (upd_inf s h d) = upd_inf s (fun t => g (h t)) d.
Proof. by destruct s. Qed.

Lemma inf_upd s g d : inf s (upd_inf s g d) = g (inf s d).
Proof. by destruct s. Qed.

Lemma supd_same {T} s (v : T) f : supd s v f s = v.
Proof. unfold supd. by rewrite bool_decide_eq_true_2. Qed.

(** A stream whose chain now represents another queue. *)

Lemma drv_rep_stream d B A s t' b' a' :
  drv_rep d B A -> stream_rep t' b' a' ->
  ti_state t' = ti_state (inf s d) -> remaining_capnum t' = remaining_capnum (inf s d) ->
  (ti_state (inf s d) = VIDEO_STATE_CAPTURE -> aim (bufinf t') = aim (bufinf (inf s d))) ->
  drv_rep (set_inf s t' d) (supd s b' B) (supd s a' A).
Proof.
  intros Hrep Ht Hst Hn Hta. pose proof Hrep as [Hv Hs He Hh Hvn Hsn _ Ha].
  destruct s; simpl in *; apply (drv_rep_intro d _ B A); simpl; rewrite ?Hst, ?Hn; try done;
    (eapply aimed_same; [exact Ha|done|]); intros []; simpl; rewrite ?Hst; auto.
Qed.

Lemma drv_rep_ext d B A B' : (forall s, B s = B' s) -> drv_rep d B A -> drv_rep d B' A.
Proof. intros HB []. constructor; rewrite <- ?HB; done. Qed.

Lemma supd_id {T} s (f : stream -> T) s' : supd s (f s) f s' = f s'.
Proof. unfold supd. by case_bool_decide; subst. Qed.

Lemma drv_rep_chain d B A s f' a' :
  drv_rep d B A -> refines f' a' -> heap_ok f' ->
  (ti_state (inf s d) = VIDEO_STATE_CAPTURE ->
     vacant_q a' <> [] /\ vbuf_curr f' = head (vacant_q a')) ->
  (forall x, done_container (inf s d) = Some x -> detached f' a' x) ->
  (ti_state (inf s d) = VIDEO_STATE_CAPTURE -> aim f' = aim (bufinf (inf s d))) ->
  drv_rep (upd_inf s (set_bufinf f') d) B (supd s a' A).
Proof.
  intros Hrep Hr Hh Hc Hd Ha. pose proof (dr_stream _ _ _ s Hrep) as [_ _ Hf _ Ho Hi].
  apply (drv_rep_ext _ (supd s (B s) B)); [apply supd_id|].
  apply drv_rep_stream; try done. constructor; simpl; try done.
  intros HB. destruct (Hi HB) as [?|[? [(x & Hx & _ & ?)|?]]]; [by left| |]; right.
  - split; [done|]. left. exists x. split_and!; [done|by apply Hd|done].
  - split; [done|]. by right.
Qed.

(** The containers of a chain before and after. *)

Lemma detached_same f f' a a' x :
  (forall y, is_Some (cells f !! y) -> is_Some (cells f' !! y)) ->
  (forall y, y ∈ (done_q a' ++ vacant_q a') ++ free_q a' ->
             y ∈ (done_q a ++ vacant_q a) ++ free_q a) ->
  detached f a x -> detached f' a' x.
Proof. intros Hc Hq [H1 H2]. split; [by apply Hc|]. intros Hin. by apply H2, Hq. Qed.

(** Taking a free container, filling in its buffer and queueing it. *)

Lemma enqueue_ok f a x r buf :
  refines f a -> heap_ok f -> free_q a = x :: r ->
  exists f1 f3, video_framebuff_get_container f = Ret (Some x, f1) /\
    store_buf (Some x) buf f1 = Ret (tt, upd_buf x buf f1) /\
    video_framebuff_queue_container (Some x) (upd_buf x buf f1) = Ret (tt, f3) /\
    refines f3 (mk_queue (done_q a) (vacant_q a ++ [x]) r) /\ heap_ok f3 /\
    vbuf_curr f3 = vbuf_curr f /\
    (forall y, is_Some (cells f !! y) -> is_Some (cells f3 !! y)) /\
    c_buf <$> cells f3 !! x = Some buf /\
    (forall y, y <> x -> c_buf <$> cells f3 !! y = c_buf <$> cells f !! y) /\
    mode f3 = mode f /\ container_size f3 = container_size f /\ vbuf_alloced f3 = vbuf_alloced f.
Proof.
  intros Hr Hh Hfr.
  destruct (get_container_refines f a Hr) as (f1 & Hg & Hr1 & Hs1 & Hc1 & Hd1).
  assert (Hsg : spec_get a = (Some x, mk_queue (done_q a) (vacant_q a) r))
    by (unfold spec_get; by rewrite Hfr).
  rewrite Hsg in *. simpl in *. specialize (Hd1 x eq_refl).
  assert (Hd2 : detached (upd_buf x buf f1) (mk_queue (done_q a) (vacant_q a) r) x)
    by (destruct Hd1; split; [by apply upd_buf_cell|done]).
  destruct (queue_container_refines _ _ x (upd_buf_refines _ _ x buf Hr1) Hd2)
    as (f3 & Hq & Hr3 & Hs3 & Hc3).
  exists f1, f3. split_and!; try done.
  - apply store_buf_ok. apply Hd1.
  - apply (heap_ok_same _ _ Hs3), upd_buf_heap, (heap_ok_same _ _ Hs1 Hh).
  - by rewrite Hc3, <- Hc1.
  - intros y Hy. apply (same_bufs_cell _ _ _ Hs3), upd_buf_cell, (same_bufs_cell _ _ _ Hs1 Hy).
  - rewrite (sb_bufs _ _ Hs3). simpl. rewrite lookup_alter_eq. destruct Hd1 as [[c ->] _]. done.
  - intros y Hy. rewrite (sb_bufs _ _ Hs3). simpl. rewrite lookup_alter_ne by done. apply (sb_bufs _ _ Hs1).
  - rewrite (sb_mode _ _ Hs3). apply (sb_mode _ _ Hs1).
  - rewrite (sb_size _ _ Hs3). apply (sb_size _ _ Hs1).
  - rewrite (sb_alloced _ _ Hs3). apply (sb_alloced _ _ Hs1).
Qed.

End VideoSys.
