(* ===== verification/VideoSafe.v ===== *)
(** * Safety of the video driver

    Every call, resumption and interrupt returns and keeps the invariant of
    [VideoSys]; what follows for every reachable state. *)

From S2P Require Import Prelude FrameBuff VideoState VideoCtrl VideoDrv VideoIoctl VideoSys.
Import FrameBuff VideoState VideoCtrl VideoDrv VideoIoctl VideoSys.

Module VideoSafe.

(** The invariant of the driver, with the threads inside [VIDIOC_DQBUF]. *)

Definition inv (B : stream -> bool) (d : vdrv) : Prop :=
  (exists A, drv_rep d B A) /\ locks d 1 1.

Lemma inv_intro B A d : drv_rep d B A -> locks d 1 1 -> inv B d.
Proof. intros. split; [by exists A|done]. Qed.

(** ** Locks *)

Lemma wp_lock s d Q :
  lock_state (inf s d) = 1 -> Q tt (upd_inf s (set_lock_state 0) d) -> wp (video_lock s) Q d.
Proof.
  intros Hl HQ. eexists tt, _. split; [|exact HQ].
  unfold video_lock, get_inf, on_inf. munfold. by rewrite Hl.
Qed.

Lemma wp_unlock s d Q :
  Q tt (upd_inf s (set_lock_state (lock_state (inf s d) + 1)) d) -> wp (video_unlock s) Q d.
Proof. intros HQ. by apply wp_modify. Qed.

(** ** [VIDIOC_QBUF] *)

(** Start the still stream on its next vacant container, if there is one. *)

Lemma wp_start_still type k d B A Q :
  drv_rep d B A -> ti_state (video_inf d) <> VIDEO_STATE_CAPTURE ->
  remaining_capnum (still_inf d) <> 0 ->
  (forall d', drv_rep d' B A -> lock_state (video_inf d') = lock_state (video_inf d) ->
     lock_state (still_inf d') = lock_state (still_inf d) -> Q tt d') ->
  (forall f', refines f' (A SStill) -> heap_ok f' -> vacant_q (A SStill) = [] ->
     cells f' = cells (bufinf (still_inf d)) -> wp k Q (upd_inf SStill (set_bufinf f') d)) ->
  wp (container ← fb SStill video_framebuff_get_vacant_container;
      match container with
      | Some _ => start_stream SStill type container;; on_inf SStill (set_state VIDEO_STATE_CAPTURE)
      | None => k
      end) Q d.
Proof.
  intros Hrep Hv Hn HQ Hk. pose proof Hrep as [Hvr Hs He Hh Hvn Hsn (o & dt & Hdev) _].
  pose proof (sr_ref _ _ _ Hs) as Hr.
  apply wp_bind. eapply wp_fb; [by apply get_vacant_ok|].
  destruct (head (vacant_q (A SStill))) as [x|] eqn:Ex.
  - apply wp_bind. eapply wp_start_stream.
    + eapply devices_step; [..|exact Hdev]; done.
    + apply (sr_fmt _ _ _ Hs).
    + simpl. by eapply head_cell.
    + intros d' (c1 & nr & l & i & b & Hb & ->). apply wp_modify, HQ; try done.
      apply (drv_rep_intro d _ B A); simpl; try done; [|tauto|];
        [|eapply (aimed_at SStill _ x b); done].
      apply sr_state_curr; [done|]. intros _. rewrite Ex. split; [|done].
      by intros E; rewrite E in Ex.
  - apply Hk; [by apply set_curr_refines|by apply set_curr_heap, (sr_heap _ _ _ Hs)| |done].
    by destruct (vacant_q (A SStill)).
Qed.

Lemma type_stream type s :
  valid_type type = true -> get_video_type_inf type = Some s -> type = buf_type_of s.
Proof.
  unfold valid_type, get_video_type_inf. intros Hv. to_prop. rewrite u8_id by lia.
  destruct (Z.eqb_spec type V4L2_BUF_TYPE_VIDEO_CAPTURE); [intros [= <-]; done|].
  destruct (Z.eqb_spec type V4L2_BUF_TYPE_STILL_CAPTURE); [intros [= <-]; done|done].
Qed.

(** A container kept for a woken thread is in no chain. *)

Lemma done_detached t b a y :
  stream_rep t b a -> done_container t = Some y -> detached (bufinf t) a y.
Proof.
  intros Hs Hy. destruct b.
  - destruct (sr_in _ _ _ Hs eq_refl) as [[_ ?]|[_ [(z & ? & Hz & _)|[? _]]]]; congruence.
  - destruct (sr_out _ _ _ Hs eq_refl). congruence.
Qed.

Lemma qbuf_ok buf d B :
  inv B d -> valid_type (b_type buf) = true ->
  wp (video_qbuf (Some buf)) (fun _ => inv B) d.
Proof.
  intros [[A Hrep] [Hlv Hls]] Ht. unfold video_qbuf.
  destruct (get_video_type_inf (b_type buf)) as [s|] eqn:Es;
    [|apply wp_ret; by eapply inv_intro].
  pose proof (type_stream _ _ Ht Es) as Hty. cbn [negb is_bufsize_sufficient].
  pose proof (dr_stream _ _ _ s Hrep) as Hsr. pose proof (sr_ref _ _ _ Hsr) as Hr.
  destruct (free_q (A s)) as [|x r] eqn:Efr.
  { destruct (get_container_refines _ _ Hr) as (f1 & Hg & Hr1 & Hs1 & Hc1 & _).
    unfold spec_get in *. rewrite Efr in *. simpl in *.
    apply wp_bind. eapply wp_fb; [exact Hg|]. apply wp_ret.
    eapply inv_intro; [|by destruct s].
    eapply drv_rep_chain; [done|done|by apply (heap_ok_same _ _ Hs1), (sr_heap _ _ _ Hsr)| | |].
    - rewrite Hc1. apply (sr_cap _ _ _ Hsr).
    - intros y Hy. eapply detached_same; [|done|by eapply done_detached].
      intros. by eapply same_bufs_cell.
    - intros _. by apply aim_bufs. }
  destruct (enqueue_ok _ _ _ _ buf Hr (sr_heap _ _ _ Hsr) Efr)
    as (f1 & f3 & Hg & Hst & Hq & Hr3 & Hh3 & Hc3 & Hcells & _ & Hother & _).
  apply wp_bind. eapply wp_fb; [exact Hg|].
  apply wp_bind. eapply wp_fb; [rewrite inf_upd; exact Hst|].
  apply wp_bind. eapply wp_fb; [rewrite inf_upd; exact Hq|]. rewrite !upd_upd.
  change (fun t => set_bufinf f3 _) with (set_bufinf f3).
  set (a' := mk_queue _ _ _) in Hr3. set (d1 := upd_inf s (set_bufinf f3) d).
  assert (Hrep1 : drv_rep d1 B (supd s a' A)).
  { apply drv_rep_chain; try done.
    - rewrite Hc3. intros Hcap. destruct (sr_cap _ _ _ Hsr Hcap) as [Hne ->]. simpl.
      split; [by destruct (vacant_q (A s))|]. by destruct (vacant_q (A s)).
    - intros y Hy. eapply detached_same; [exact Hcells| |by eapply done_detached].
      subst a'. simpl. rewrite Efr. set_solver.
    - intros Hcap. apply aim_same; [done|]. intros y Hy. apply Hother. intros ->.
      destruct (sr_cap _ _ _ Hsr Hcap) as [_ Hcur]. rewrite Hy in Hcur.
      pose proof (ref_nodup _ _ Hr) as Hnd. rewrite Efr in Hnd.
      apply NoDup_app in Hnd as (_ & Hnd & _). apply (Hnd x); [|by left].
      apply elem_of_app. right. destruct (vacant_q (A s)); simplify_eq/=. by left. }
  apply wp_bind, wp_lock; [by destruct s|].
  apply (drv_rep_lock _ _ _ s 0) in Hrep1. set (d2 := upd_inf s (set_lock_state 0) d1) in *.
  apply wp_bind, wp_gets, wp_bind.
  assert (Hl2 : lock_state (inf s d2) = 0) by by destruct s.
  case_bool_decide as Hon.
  - destruct s; simpl in Hty; rewrite Hty.
    + cbn [Z.eqb V4L2_BUF_TYPE_VIDEO_CAPTURE Pos.eqb].
      apply wp_bind, wp_lock; [done|].
      apply (drv_rep_lock _ _ _ SStill 0) in Hrep1.
      apply wp_bind. eapply wp_move; [exact Hrep1|done|].
      intros d3 Hrep3 E1 (E2 & _) _. apply wp_unlock. apply wp_bind, wp_unlock, wp_ret.
      eapply inv_intro; [by repeat apply drv_rep_lock|].
      split; simpl; rewrite ?E1, ?E2; done.
    + cbn [Z.eqb V4L2_BUF_TYPE_VIDEO_CAPTURE V4L2_BUF_TYPE_STILL_CAPTURE Pos.eqb].
      eapply wp_start_still; [exact Hrep1| | | |].
      * intros Hcap. pose proof (dr_excl _ _ _ Hrep1 Hcap) as E. simpl in Hon, E. congruence.
      * apply (dr_snum _ _ _ Hrep1). simpl in Hon. simpl. by rewrite Hon.
      * intros d3 Hrep3 E1 E2. apply wp_bind, wp_unlock, wp_ret.
        eapply inv_intro; [by apply drv_rep_lock|]. split; simpl; rewrite ?E1, ?E2; done.
      * intros f' Hr' Hh' Hv'. rewrite supd_same in Hv'. subst a'. simpl in Hv'.
        by destruct (vacant_q (A SStill)).
  - apply wp_ret, wp_bind, wp_unlock, wp_ret. eapply inv_intro; [by apply drv_rep_lock|].
    by destruct s.
Qed.

(** ** [VIDIOC_REQBUFS] *)

Lemma change_mode_heap f f' :
  container_size f' = container_size f -> vbuf_alloced f' = vbuf_alloced f ->
  nblocks f' = nblocks f -> (forall x, c_buf <$> cells f' !! x = c_buf <$> cells f !! x) ->
  heap_ok f -> heap_ok f'.
Proof.
  intros H1 H2 H3 Hb Hh. apply (heap_ok_same (set_mode (mode f') f)); [by constructor|].
  by destruct Hh.
Qed.

Lemma reqbufs_ok r d B :
  inv B d -> 1 <= rb_count r <= V4L2_REQBUFS_COUNT_MAX ->
  (forall s, get_video_type_inf (rb_type r) = Some s -> B s = false) ->
  wp (video_reqbufs true (Some r)) (fun _ => inv B) d.
Proof.
  intros [[A Hrep] [Hlv Hls]] Hn Hidle. unfold video_reqbufs.
  destruct (get_video_type_inf (rb_type r)) as [s|] eqn:Es; [|apply wp_ret; by eapply inv_intro].
  specialize (Hidle s eq_refl). pose proof (dr_stream _ _ _ s Hrep) as Hsr.
  apply wp_bind, wp_gets. case_bool_decide as Hcap; [apply wp_ret; by eapply inv_intro|].
  destruct (change_mode_refines _ _ (rb_mode r) (sr_ref _ _ _ Hsr))
    as (f1 & H1 & Hr1 & _ & Hs1 & Ha1 & Hb1 & _ & Hc1).
  pose proof (change_mode_heap _ _ Hs1 Ha1 Hb1 Hc1 (sr_heap _ _ _ Hsr)) as Hh1.
  destruct (realloc_refines f1 (Z.to_nat (rb_count r))) as (f2 & b & H2 & [Hr2 Hh2 _ _ _ _] & _);
    [unfold V4L2_REQBUFS_COUNT_MAX in *; lia|done|by apply (ref_lock _ _ Hr1)|].
  apply wp_bind. eapply wp_fb; [exact H1|]. eapply wp_fb.
  { rewrite inf_upd. replace (i32 (rb_count r)) with (Z.of_nat (Z.to_nat (rb_count r)));
      [exact H2|]. rewrite i32_id; unfold INT_MIN, INT_MAX, V4L2_REQBUFS_COUNT_MAX in *; lia. }
  rewrite upd_upd. change (fun t => set_bufinf f2 _) with (set_bufinf f2).
  eapply inv_intro; [|by destruct s].
  apply drv_rep_chain; [exact Hrep|exact Hr2|done|done| |done].
  intros y Hy. rewrite Hidle in Hsr. destruct (sr_out _ _ _ Hsr eq_refl). congruence.
Qed.

(** ** [VIDIOC_DQBUF] *)

(** A thread that leaves, or does not enter, [VIDIOC_DQBUF]. *)

Definition dq_post (s : stream) (B : stream -> bool) (r : dq_result) (d : vdrv) : Prop :=
  inv (supd s (match r with DqWait => true | DqReturn _ _ => false end) B) d.

(** Deliver a container that is in no chain. *)

Lemma wp_deliver s x d B A :
  drv_rep d B A -> locks d 1 1 -> B s = false -> detached (bufinf (inf s d)) (A s) x ->
  wp (dq_deliver s (Some x)) (dq_post s B) d.
Proof.
  intros Hrep [Hlv Hls] HB Hx. pose proof (dr_stream _ _ _ s Hrep) as Hsr. unfold dq_deliver.
  destruct (load_buf_ok _ _ (proj1 Hx)) as (b & Hb & _).
  destruct (free_container_refines _ _ _ (sr_ref _ _ _ Hsr) Hx) as (f' & Hf & Hr' & Hs' & Hc').
  apply wp_bind. eapply wp_fb; [exact Hb|]. apply wp_bind.
  eapply wp_fb; [rewrite inf_upd; exact Hf|]. rewrite upd_upd.
  change (fun t => set_bufinf f' _) with (set_bufinf f').
  apply wp_ret. apply (inv_intro _ (supd s (spec_free x (A s)) A)); [|by destruct s].
  apply (drv_rep_ext _ B); [intros s'; rewrite <- HB; symmetry; apply supd_id|].
  apply drv_rep_chain; [done|done|by apply (heap_ok_same _ _ Hs'), (sr_heap _ _ _ Hsr)| | |].
  - rewrite Hc'. apply (sr_cap _ _ _ Hsr).
  - intros y Hy. rewrite HB in Hsr. destruct (sr_out _ _ _ Hsr eq_refl). congruence.
  - intros _. by apply aim_bufs.
Qed.

(** Block: the count goes from 0 to -1. *)

Lemma wp_block s d B A :
  drv_rep d B A -> locks d 1 1 -> dqbuf_wait_flg (inf s d) = 0 ->
  done_container (inf s d) = None ->
  wp (dq_wait s (buf_type_of s)) (dq_post s B) d.
Proof.
  intros Hrep [Hlv Hls] Hf Hd. unfold dq_wait. apply wp_bind, wp_gets. rewrite Hf.
  change (Z.to_nat 0) with 0%nat. cbn [dq_loop].
  assert (Hend : forall d', drv_rep d' B A -> locks d' 1 1 ->
    dqbuf_wait_flg (inf s d') = 0 -> done_container (inf s d') = None ->
    wp (t ← get_inf s; on_inf s (set_wait_flg (dqbuf_wait_flg t - 1));; mret DqWait)
      (dq_post s B) d').
  { intros d' Hrep' [Hlv' Hls'] Hf' Hd'. apply wp_bind, wp_gets, wp_bind, wp_modify, wp_ret.
    rewrite Hf'. apply (inv_intro _ (supd s (A s) A)); [|by destruct s].
    pose proof (dr_stream _ _ _ s Hrep') as [Hr Hh Hfm Hc _ _].
    apply drv_rep_stream; try done. constructor; simpl; try done. intros _. by left. }
  destruct s; cbn [buf_type_of].
  - rewrite Z.eqb_refl. apply wp_bind. eapply wp_move; [exact Hrep|done|].
    intros d' Hrep' E (K1 & K2 & K3 & _) _. apply Hend; [done| | |].
    + split; [by rewrite K1|by rewrite E].
    + simpl in *. congruence.
    + simpl in *. congruence.
  - apply wp_bind, wp_ret. by apply Hend.
Qed.

Lemma dqbuf_ok buf d B :
  inv B d -> valid_type (b_type buf) = true ->
  (forall s, get_video_type_inf (b_type buf) = Some s -> B s = false) ->
  wp (video_dqbuf (Some buf)) (fun r d' =>
    match get_video_type_inf (b_type buf) with
    | Some s => dq_post s B r d'
    | None => inv B d' /\ exists v, r = DqReturn v None
    end) d.
Proof.
  intros [[A Hrep] Hl] Ht Hidle. unfold video_dqbuf.
  destruct (get_video_type_inf (b_type buf)) as [s|] eqn:Es;
    [|apply wp_ret; split; [by eapply inv_intro|by eexists]].
  pose proof (type_stream _ _ Ht Es) as ->. specialize (Hidle s eq_refl).
  pose proof (dr_stream _ _ _ s Hrep) as Hsr. rewrite Hidle in Hsr.
  destruct (sr_out _ _ _ Hsr eq_refl) as [Hf Hd].
  destruct (dq_valid_refines _ _ (sr_ref _ _ _ Hsr)) as (f' & Hq & Hr' & Hs' & Hc').
  apply wp_bind. eapply wp_fb; [exact Hq|].
  assert (Hrep' : drv_rep (upd_inf s (set_bufinf f') d) B (supd s (spec_dq (A s)).2 A)).
  { apply drv_rep_chain; [done|done|by apply (heap_ok_same _ _ Hs'), (sr_heap _ _ _ Hsr)| | |].
    - rewrite Hc'. intros Hcap. destruct (sr_cap _ _ _ Hsr Hcap).
      unfold spec_dq. destruct (done_q (A s)); done.
    - intros y Hy. congruence.
    - intros _. by apply aim_bufs. }
  assert (Hl' : locks (upd_inf s (set_bufinf f') d) 1 1) by by destruct s.
  destruct ((spec_dq (A s)).1) as [x|] eqn:Ex.
  - eapply wp_deliver; [exact Hrep'|done|done|]. rewrite inf_upd, supd_same. simpl.
    unfold spec_dq in *. destruct (done_q (A s)) as [|y ds] eqn:Ed; simplify_eq/=.
    destruct (sr_ref _ _ _ Hsr) as [Hnd Hp _ _ _ _ _ _ _]. rewrite Ed in *. simpl in Hnd.
    split.
    + apply (same_bufs_cell _ _ _ Hs'). eapply path_lookup; [exact Hp|]. apply list_elem_of_here.
    + by apply NoDup_cons in Hnd as [? _].
  - eapply wp_block; [exact Hrep'|done|by rewrite inf_upd|by rewrite inf_upd].
Qed.

Lemma resume_ok s d B :
  inv B d -> B s = true -> dqbuf_wait_flg (inf s d) = 0 ->
  wp (dq_resume s (buf_type_of s)) (dq_post s B) d.
Proof.
  intros [[A Hrep] Hl] HB Hf. unfold dq_resume. apply wp_bind, wp_gets.
  pose proof (dr_stream _ _ _ s Hrep) as Hsr. rewrite HB in Hsr.
  pose proof (sr_in _ _ _ Hsr eq_refl) as Hin.
  destruct Hin as [[? _]|[_ Hin]]; [lia|].
  case_bool_decide as Hc.
  - destruct Hin as [(x & _ & _ & ?)|[Hd _]]; [congruence|]. by eapply wp_block.
  - unfold dq_finish. apply wp_bind, wp_gets.
    assert (Hout : drv_rep (upd_inf s (set_done None) d) (supd s false B) (supd s (A s) A)).
    { destruct Hsr as [Hr Hh Hfm Hcp _ _]. by apply drv_rep_stream. }
    destruct Hin as [(x & Hd & Hx & Hca)|[Hd Hca]]; rewrite Hd.
    + rewrite bool_decide_eq_false_2 by done. cbn [andb]. apply wp_bind, wp_modify.
      eapply (wp_mono _ (dq_post s (supd s false B))).
      * eapply wp_deliver; [exact Hout|by destruct s, Hl|apply supd_same|].
        by rewrite inf_upd, supd_same.
      * intros r d' Hpost. unfold dq_post in *. destruct Hpost as [[A' H'] ?].
        split; [|done]. exists A'. eapply drv_rep_ext; [|exact H'].
        intros s'. unfold supd. by case_bool_decide.
    + assert (wait_cause (inf s d) = VIDEO_WAITEND_CAUSE_DQCANCEL) as ->
        by (destruct (wait_cause (inf s d)); done).
      rewrite !bool_decide_eq_true_2 by done. apply wp_ret.
      apply (inv_intro _ (supd s (A s) A)); [|done].
      assert (Hsame : upd_inf s (set_done None) d = d).
      { destruct s, d as [? ? [] [] ? ? ? ? ? ? ?]; simpl in Hd; by subst. }
      by rewrite <- Hsame.
Qed.

Lemma cancel_ok type d B : inv B d -> wp (video_cancel_dqbuf type) (fun _ => inv B) d.
Proof.
  intros Hinv. pose proof Hinv as [[A Hrep] [Hlv Hls]]. unfold video_cancel_dqbuf.
  destruct (get_video_type_inf type) as [s|]; [|by apply wp_ret].
  apply wp_bind, wp_gets. unfold is_sem_waited.
  destruct (dqbuf_wait_flg (inf s d) <? 0) eqn:Ew; [|by apply wp_ret]. to_prop.
  apply wp_bind, wp_modify, wp_bind, wp_modify, wp_ret. rewrite upd_upd.
  apply (inv_intro _ (supd s (A s) A)); [|by destruct s].
  apply (drv_rep_ext _ (supd s (B s) B)); [apply supd_id|].
  pose proof (dr_stream _ _ _ s Hrep) as [Hr Hh Hfm Hcp Ho Hi].
  apply drv_rep_stream; try done. constructor; simpl; try done.
  - intros HB. destruct (Ho HB). lia.
  - intros HB. destruct (Hi HB) as [[E1 E2]|[? _]]; [|lia]. right. rewrite E1.
    split; [done|]. by right.
Qed.

(** ** Streaming *)

Lemma streamon_ok type d B : inv B d -> wp (video_streamon type) (fun _ => inv B) d.
Proof.
  intros Hinv. pose proof Hinv as [[A Hrep] [Hlv Hls]]. unfold video_streamon.
  destruct type as [type|]; [|by apply wp_ret].
  destruct (get_video_type_inf type) as [s|] eqn:Es; [|by apply wp_ret].
  destruct (Z.eqb_spec type V4L2_BUF_TYPE_VIDEO_CAPTURE) as [->|]; [|by apply wp_ret].
  injection Es as <-. apply wp_bind, wp_lock; [done|].
  pose proof (drv_rep_lock _ _ _ SVideo 0 Hrep) as Hrep1.
  apply wp_bind, wp_gets, wp_bind. case_bool_decide.
  - apply wp_ret, wp_bind, wp_unlock, wp_ret. eapply inv_intro; [by apply drv_rep_lock|done].
  - apply wp_bind. eapply wp_move; [exact Hrep1|done|]. intros d' Hrep' E (K & _) _.
    apply wp_ret, wp_bind, wp_unlock, wp_ret. eapply inv_intro; [by apply drv_rep_lock|].
    split; simpl; rewrite ?E, ?K; done.
Qed.

Lemma streamoff_ok type d B : inv B d -> wp (video_streamoff type) (fun _ => inv B) d.
Proof.
  intros Hinv. pose proof Hinv as [[A Hrep] [Hlv Hls]]. unfold video_streamoff.
  destruct type as [type|]; [|by apply wp_ret].
  destruct (get_video_type_inf type) as [s|] eqn:Es; [|by apply wp_ret].
  destruct (Z.eqb_spec type V4L2_BUF_TYPE_VIDEO_CAPTURE) as [->|]; [|by apply wp_ret].
  injection Es as <-. apply wp_bind, wp_gets. case_bool_decide; [by apply wp_ret|].
  apply wp_bind. eapply wp_move; [exact Hrep|done|]. intros d' Hrep' E (K & _) _.
  apply wp_ret. eapply inv_intro; [done|]. split; rewrite ?E, ?K; done.
Qed.

(** ** Still pictures *)

Lemma takepict_start_ok n d B : inv B d -> wp (video_takepict_start n) (fun _ => inv B) d.
Proof.
  intros Hinv. pose proof Hinv as [[A Hrep] [Hlv Hls]]. unfold video_takepict_start.
  apply wp_bind, wp_lock; [done|]. apply wp_bind, wp_gets, wp_bind.
  pose proof (drv_rep_lock _ _ _ SStill 0 Hrep) as Hrep1.
  case_bool_decide as Hst.
  { apply wp_ret, wp_bind, wp_unlock, wp_ret. eapply inv_intro; [by apply drv_rep_lock|done]. }
  simpl in Hst. set (d1 := upd_inf _ _ d) in *.
  set (m := if 0 <? n then n else _).
  assert (Hm : m <> 0) by (subst m; destruct (0 <? n) eqn:E; to_prop; [lia|done]).
  assert (Hrep2 : drv_rep (upd_inf SStill (set_capnum m) d1) B A).
  { pose proof Hrep1 as [Hv Hs He Hh Hvn Hsn _ Ha]. apply (drv_rep_intro d1 _ B A); try done.
    - by apply sr_capnum.
    - by apply (aimed_same d1); [..|intros []]. }
  apply wp_bind, wp_modify, wp_bind. eapply wp_move; [exact Hrep2|done|].
  intros d2 Hr2 E2 (K2 & _) Hnc. specialize (Hnc eq_refl).
  assert (Hn2 : remaining_capnum (still_inf d2) <> 0) by by rewrite E2.
  apply wp_bind. eapply wp_start_still; [exact Hr2|done|done| |].
  - intros d3 Hr3 E3 E3'. apply wp_ret, wp_bind, wp_unlock, wp_ret.
    eapply inv_intro; [by apply drv_rep_lock|].
    split; simpl; rewrite ?E3, ?E3', ?E2, ?K2; done.
  - intros f' Hr' Hh' Hv' Hc'. apply wp_modify, wp_ret, wp_bind, wp_unlock, wp_ret.
    pose proof Hr2 as [Hv Hs He Hh Hvn Hsn _ Ha].
    eapply inv_intro; [|split; simpl; rewrite ?E2, ?K2; done]. apply drv_rep_lock.
    apply (drv_rep_intro d2 _ B A); simpl; try done.
    + destruct Hs as [_ _ Hfm _ Ho Hi]. constructor; simpl; try done.
      intros HB. destruct (Hi HB) as [?|[? [(x & ? & [Hx1 Hx2] & ?)|?]]]; [by left| |]; right;
        (split; [done|]); [left|by right]. exists x. split_and!; [done| |done].
      split; [by rewrite Hc'|done].
    + rewrite Hh. rewrite E2. simpl. rewrite Hst. naive_solver.
    + by apply (aimed_same d2); [..|intros []].
Qed.

Lemma takepict_stop_ok h d B : inv B d -> wp (video_takepict_stop h) (fun _ => inv B) d.
Proof.
  intros Hinv. pose proof Hinv as [[A Hrep] [Hlv Hls]]. unfold video_takepict_stop.
  apply wp_bind, wp_lock; [done|]. apply wp_bind, wp_gets, wp_bind.
  pose proof (drv_rep_lock _ _ _ SStill 0 Hrep) as Hrep1.
  set (d1 := upd_inf _ _ d) in *. change (inf SStill d1) with (still_inf d1).
  destruct (_ && _) eqn:Eb.
  { apply wp_ret, wp_bind, wp_unlock, wp_ret. eapply inv_intro; [by apply drv_rep_lock|done]. }
  assert (Hgo : forall d2, drv_rep d2 B A -> ti_state (still_inf d2) = VIDEO_STATE_STREAMOFF ->
    locks d2 1 0 ->
    wp (video_lock SVideo;; move_video CAUSE_STILL_STOP;; video_unlock SVideo;; mret OK)
      (fun ret => wp (video_unlock SStill;; mret ret) (fun _ => inv B)) d2).
  { intros d2 Hr2 Hoff [L1 L2]. apply wp_bind, wp_lock; [done|].
    apply wp_bind. eapply wp_move; [by apply drv_rep_lock|done|].
    intros d3 Hr3 E (K & _) _. apply wp_bind, wp_unlock, wp_ret, wp_bind, wp_unlock, wp_ret.
    eapply inv_intro; [by repeat apply drv_rep_lock|].
    split; simpl; rewrite ?E, ?K; simpl; [done|]. by rewrite L2. }
  pose proof Hrep1 as [Hv Hs He Hh Hvn Hsn (o & dt & Hdev) Ha].
  clear Eb. apply wp_bind. case_bool_decide as Hcap.
  - eapply wp_stop; [exact Hdev|]. apply wp_bind, wp_modify, wp_bind, wp_modify, Hgo; try done.
    apply (drv_rep_intro d1 _ B A); simpl; try done; [by apply sr_capnum, sr_state| |].
    + split; [done|]. intros [E|?]; [|done]. specialize (He E). congruence.
    + apply aimed_stopped. intros []; simpl; [|done]. intros E. specialize (He E). congruence.
  - apply wp_ret, wp_bind, wp_modify, wp_bind, wp_modify, Hgo; try done.
    apply (drv_rep_intro d1 _ B A); simpl; try done; [by apply sr_capnum, sr_state| |].
    + etransitivity; [exact Hh|]. subst d1. simpl in *. naive_solver.
    + by apply (aimed_same d1); [..|intros []].
Qed.

(** ** Formats *)

Lemma validate_ok type nr l i d o dt Q :
  devices_ok d o dt ->
  (forall r, (r = OK -> forall main rest, l = main :: rest ->
     (Z.to_nat nr <= S (length rest))%nat -> nonempty_fmt main) -> Q r d) ->
  wp (validate_frame_setting type nr l i) Q d.
Proof.
  intros [Ho Hdt [_ Hne] _ _] HQ. unfold validate_frame_setting, both_ops, sensor.
  destruct (so_validate_frame_setting o) as [sv|] eqn:Esv, (do_validate_frame_setting dt) as [dv|] eqn:Edv.
  2-4: eexists _, d; (split; [munfold; rewrite Ho, Hdt, Esv, ?Edv; reflexivity|by apply HQ]).
  eexists _, d. split; [munfold; rewrite Ho, Hdt, Esv, Edv; reflexivity|].
  apply HQ. destruct (Z.eqb_spec (sv (hist d) type nr (convert_to_imgfmt <$> l) i) OK) as [E|E];
    simpl; [|done].
  intros _ main rest -> Hl.
  apply (Hne sv (hist d) type nr (convert_to_imgfmt main) (convert_to_imgfmt <$> rest) i eq_refl); [|exact E].
  by rewrite length_fmap.
Qed.

(** A change of the settings of a stopped stream. *)

Lemma inv_setting B d s g :
  inv B d ->
  (forall t b a, stream_rep t b a -> stream_rep (g t) b a) ->
  (forall t, ti_state (g t) = ti_state t) -> (forall t, remaining_capnum (g t) = remaining_capnum t) ->
  (forall t, lock_state (g t) = lock_state t) -> (forall t, bufinf (g t) = bufinf t) ->
  inv B (upd_inf s g d).
Proof.
  intros [[A Hrep] [Hlv Hls]] Hg Hst Hn Hl Hb.
  apply (inv_intro _ (supd s (A s) A)).
  - apply (drv_rep_ext _ (supd s (B s) B)); [apply supd_id|].
    apply drv_rep_stream; [done|by apply Hg, dr_stream|done|done|by rewrite Hb].
  - destruct s; split; simpl; rewrite ?Hl; done.
Qed.

Lemma inv_push B c d :
  inv B d -> hw_running (c :: hist d) = hw_running (hist d) ->
  hw_target (c :: hist d) = hw_target (hist d) -> inv B (push_call c d).
Proof.
  intros [[A Hrep] [Hlv Hls]] Hc Ht. eapply inv_intro; [|done].
  pose proof Hrep as [Hv Hs He Hh Hvn Hsn _ Ha]. apply (drv_rep_intro d _ B A); try done.
  - change (hist (push_call c d)) with (c :: hist d). by rewrite Hc.
  - by apply (aimed_same d); [..|intros []].
Qed.

Lemma try_fmt_ok f d B Q :
  inv B d -> (forall r, (r = 0 -> exists v s, f = Some v /\
      get_video_type_inf (vf_type v) = Some s /\
      (is_subimg (f_pixelformat (vf_pix v)) = false -> nonempty_fmt (vf_pix v))) -> Q r d) ->
  wp (video_try_fmt f) Q d.
Proof.
  intros [[A Hrep] _] HQ. destruct (dr_dev _ _ _ Hrep) as (o & dt & Hdev). unfold video_try_fmt.
  apply wp_bind. eapply (wp_run _ _ _ (o, dt)).
  { unfold both_ops, sensor. munfold.
    by rewrite (dv_sensor _ _ _ Hdev), (dv_data _ _ _ Hdev). }
  destruct (so_validate_frame_setting o), (do_validate_frame_setting dt);
    try (apply wp_ret, HQ; discriminate).
  destruct f as [v|]; [|apply wp_ret, HQ; discriminate].
  destruct (get_video_type_inf (vf_type v)) as [s|] eqn:Es; [|apply wp_ret, HQ; discriminate].
  apply wp_bind, wp_gets. destruct (is_subimg _) eqn:Esub.
  - destruct (negb _); [apply wp_ret, HQ; discriminate|]. eapply validate_ok; [done|].
    intros r _. apply HQ. intros _. exists v, s. split_and!; [done..|]. by rewrite Esub.
  - destruct (is_mainimg _); [|apply wp_ret, HQ; discriminate]. eapply validate_ok; [done|].
    intros r Hr. apply HQ. intros E. exists v, s. split_and!; [done..|]. intros _.
    by apply (Hr E _ _ eq_refl).
Qed.

Lemma s_fmt_ok f d B : inv B d -> wp (video_s_fmt f) (fun _ => inv B) d.
Proof.
  intros Hinv. unfold video_s_fmt. apply wp_bind. eapply try_fmt_ok; [done|]. intros r Hr.
  destruct (Z.eqb_spec r 0) as [E|]; [|by apply wp_ret].
  destruct (Hr E) as (v & s & -> & -> & Hne). cbn [negb].
  apply wp_bind, wp_gets. case_bool_decide; [by apply wp_ret|].
  destruct (is_subimg _) eqn:Esub.
  - destruct (negb _); [by apply wp_ret|].
    apply wp_bind, wp_modify, wp_bind, wp_modify, wp_ret. rewrite upd_upd.
    apply inv_setting; try done. intros t b a [? ? (? & ? & ?) ? ? ?].
    constructor; try done. split; simpl; [by right|done].
  - apply wp_bind, wp_modify, wp_bind, wp_modify, wp_ret. rewrite upd_upd.
    apply inv_setting; try done. intros t b a [? ? ? ? ? ?].
    constructor; try done. split; simpl; [by left|by apply Hne].
Qed.

Lemma s_parm_ok p d B : inv B d -> wp (video_s_parm p) (fun _ => inv B) d.
Proof.
  intros Hinv. pose proof Hinv as [[A Hrep] _].
  destruct (dr_dev _ _ _ Hrep) as (o & dt & Hdev). unfold video_s_parm.
  apply wp_bind. eapply (wp_run _ _ _ (o, dt)).
  { unfold both_ops, sensor. munfold. by rewrite (dv_sensor _ _ _ Hdev), (dv_data _ _ _ Hdev). }
  destruct (so_validate_frame_setting o), (do_validate_frame_setting dt), p as [p|];
    try (by apply wp_ret).
  destruct (get_video_type_inf (pm_type p)) as [s|]; [|by apply wp_ret].
  apply wp_bind, wp_gets. case_bool_decide; [by apply wp_ret|].
  apply wp_bind. eapply validate_ok; [done|]. intros r _.
  destruct (negb _); [by apply wp_ret|]. apply wp_bind, wp_modify, wp_ret.
  apply inv_setting; try done. by intros t b a [].
Qed.

Lemma s_selection_ok c d B : inv B d -> wp (video_s_selection c) (fun _ => inv B) d.
Proof.
  intros Hinv. pose proof Hinv as [[A Hrep] _].
  destruct (dr_dev _ _ _ Hrep) as (o & dt & Hdev). unfold video_s_selection.
  apply wp_bind. eapply (wp_run _ _ _ o).
  { unfold sensor. munfold. by rewrite (dv_sensor _ _ _ Hdev). }
  destruct (so_set_value o) as [sv|] eqn:Esv; [|by apply wp_ret].
  destruct c as [c|]; [|by apply wp_ret].
  destruct (get_video_type_inf (sel_type c)) as [s|]; [|by apply wp_ret].
  apply wp_bind, wp_gets. case_bool_decide; [by apply wp_ret|].
  destruct (negb _); [by apply wp_ret|].
  destruct (clipped_ok (inf s d) (sel_r c) (sr_fmt _ _ _ (dr_stream _ _ _ s Hrep))) as [l Hl].
  apply wp_bind. eapply wp_lift; [exact Hl|]. apply wp_bind. eapply validate_ok; [done|].
  intros r _. destruct (negb _); [by apply wp_ret|].
  set (id := if sel_type c =? _ then _ else _). set (v := clip_value _).
  apply wp_bind. eapply (wp_run _ _ _ (sv (hist d) id 16 v)).
  { unfold sensor_set, sensor, dev_query, call. munfold.
    rewrite (dv_sensor _ _ _ Hdev), Esv. reflexivity. }
  assert (Hp : inv B (push_call (SensorSetValue id 16 v) d)) by by apply inv_push.
  destruct (negb _); [by apply wp_ret|]. apply wp_bind, wp_modify, wp_ret.
  apply inv_setting; try done. by intros t b a [].
Qed.

(** ** Completion of a capture *)

(** After a capture a container can be popped: one is complete, or the ring
    has a single one. *)

Lemma pop_after_capture ring a :
  vacant_q a <> [] ->
  let a' := spec_capture ring a in
  (done_q a' <> [] \/ (length (vacant_q a') <= 1)%nat) /\ exists y, (spec_pop a').1 = Some y.
Proof.
  intros Hv. unfold spec_capture, spec_pop. destruct (vacant_q a) as [|v vs]; [done|].
  destruct (ring && _); [destruct (done_q a ++ [v]) as [|x ds] eqn:E|]; simpl.
  - by destruct (done_q a).
  - destruct ds; simpl; (split; [|by eexists]); [by right; lia|by left].
  - destruct (done_q a); simpl; (split; [by left|by eexists]).
Qed.

Lemma pop_in a y z :
  (spec_pop a).1 = Some y ->
  z ∈ (done_q (spec_pop a).2 ++ vacant_q (spec_pop a).2) ++ free_q (spec_pop a).2 ->
  z ∈ (done_q a ++ vacant_q a) ++ free_q a.
Proof.
  unfold spec_pop. destruct (done_q a); simpl; intros Hy; [|set_solver].
  destruct (vacant_q a); simplify_eq/=. set_solver.
Qed.

Lemma pop_notin a y :
  NoDup ((done_q a ++ vacant_q a) ++ free_q a) -> (spec_pop a).1 = Some y ->
  (y ∉ (done_q (spec_pop a).2 ++ vacant_q (spec_pop a).2) ++ free_q (spec_pop a).2) /\
  (y ∈ done_q a ++ vacant_q a).
Proof.
  unfold spec_pop. destruct (done_q a) as [|x ds]; simpl; intros Hnd Hy.
  - destruct (vacant_q a) as [|x vs]; simplify_eq/=. apply NoDup_cons in Hnd as [? _].
    split; [done|apply list_elem_of_here].
  - simplify_eq. apply NoDup_cons in Hnd as [? _]. split; [done|apply list_elem_of_here].
Qed.

Lemma spec_capture_in ring a z :
  (z ∈ (done_q (spec_capture ring a) ++ vacant_q (spec_capture ring a)) ++
       free_q (spec_capture ring a))
  <-> (z ∈ (done_q a ++ vacant_q a) ++ free_q a).
Proof.
  rewrite spec_capture_free. rewrite !(elem_of_app _ (free_q a)). by rewrite spec_capture_perm.
Qed.

(** The state between the two halves: the stream is as a stopped one. *)

Definition captured (s : stream) (err size : Z) (d : vdrv) (B : stream -> bool) (q : queue)
    (d' : vdrv) : Prop :=
  exists t a, d' = set_inf s t d /\ ti_state t = VIDEO_STATE_CAPTURE /\
    lock_state t = lock_state (inf s d) /\
    (remaining_capnum (inf s d) < 0 -> remaining_capnum t = remaining_capnum (inf s d)) /\
    stream_rep (set_state VIDEO_STATE_STREAMOFF t) (B s) a /\
    (dqbuf_wait_flg (inf s d) < 0 ->
       done_container t = (spec_pop (spec_capture (is_ring (bufinf (inf s d))) q)).1 /\
       wait_cause t = VIDEO_WAITEND_CAUSE_CAPTUREDONE) /\
    (forall x b, c_buf <$> cells (bufinf (inf s d)) !! x = Some b ->
       c_buf <$> cells (bufinf t) !! x =
         Some (if bool_decide (vbuf_curr (bufinf (inf s d)) = Some x) then buf_done err size b else b)).

Lemma capture_frame_ok s err size d B A :
  drv_rep d B A -> ti_state (inf s d) = VIDEO_STATE_CAPTURE ->
  wp (capture_frame s err size) (fun _ => captured s err size d B (A s)) d.
Proof.
  intros Hrep Hst. pose proof (dr_stream _ _ _ s Hrep) as Hsr.
  destruct (sr_cap _ _ _ Hsr Hst) as [Hne Hcurr].
  destruct (vacant_q (A s)) as [|x vs] eqn:Ev; [done|]. simpl in Hcurr.
  pose proof (sr_ref _ _ _ Hsr) as Hr.
  assert (Hx : is_Some (cells (bufinf (inf s d)) !! x))
    by (eapply head_cell; [exact Hr|by rewrite Ev]).
  destruct (load_buf_ok _ _ Hx) as (b & Hb & Hbx).
  set (f1 := upd_buf x (buf_done err size b) (bufinf (inf s d))).
  pose proof (upd_buf_refines _ _ x (buf_done err size b) Hr) as Hr1.
  pose proof (upd_buf_heap _ x (buf_done err size b) (sr_heap _ _ _ Hsr)) as Hh1.
  destruct (capture_done_refines _ _ Hr1) as (f2 & Hcd & Hr2 & Hs2 & Hc2). fold f1 in Hr1, Hh1, Hcd, Hs2, Hr2.
  set (a2 := spec_capture (is_ring f1) (A s)) in *.
  pose proof (heap_ok_same _ _ Hs2 Hh1) as Hh2.
  assert (Hcells : forall y, is_Some (cells (bufinf (inf s d)) !! y) -> is_Some (cells f2 !! y))
    by (intros y Hy; by apply (same_bufs_cell _ _ _ Hs2), upd_buf_cell).
  assert (Hbuf2 : forall z bz, c_buf <$> cells (bufinf (inf s d)) !! z = Some bz ->
    c_buf <$> cells f2 !! z = Some (if bool_decide (vbuf_curr (bufinf (inf s d)) = Some z) then buf_done err size bz else bz)).
  { intros z bz Hz. rewrite (sb_bufs _ _ Hs2), Hcurr. simpl. case_bool_decide as E.
    - injection E as <-. rewrite lookup_alter_eq. destruct Hx as [c Hx]. rewrite Hx in *. simpl in *. congruence.
    - rewrite lookup_alter_ne by congruence. done. }
  unfold capture_frame. apply wp_bind, wp_gets. rewrite Hcurr.
  apply wp_bind. eapply wp_fb; [exact Hb|].
  apply wp_bind. eapply wp_fb; [rewrite inf_upd; by apply store_buf_ok|]. rewrite upd_upd.
  change (fun t => set_bufinf ?f _) with (set_bufinf f). fold f1.
  set (m := if (err =? 0) && (0 <? remaining_capnum (inf s d))
            then remaining_capnum (inf s d) - 1 else remaining_capnum (inf s d)).
  apply wp_bind.
  apply (wp_mono _ (fun _ d' => d' = upd_inf s (fun t => set_capnum m (set_bufinf f1 t)) d)).
  { subst m. destruct (_ && _).
    - apply wp_modify. by rewrite upd_upd.
    - apply wp_ret. destruct s, d as [? ? [] [] ? ? ? ? ? ? ?]; done. }
  intros _ ? ->. apply wp_bind. eapply wp_fb; [rewrite inf_upd; exact Hcd|]. rewrite upd_upd.
  assert (Hm : remaining_capnum (inf s d) < 0 -> m = remaining_capnum (inf s d)).
  { intros. subst m. rewrite (proj2 (Z.ltb_ge 0 _)) by lia. by rewrite andb_false_r. }
  unfold is_sem_waited. destruct (dqbuf_wait_flg (inf s d) <? 0) eqn:Ew; to_prop.
  - destruct (pop_after_capture (is_ring f1) (A s)) as [Hside [y Hy]]; [by rewrite Ev|].
    fold a2 in Hside, Hy.
    destruct (pop_curr_refines _ _ Hr2 Hside) as (f3 & Hpop & Hr3 & Hs3 & Hc3).
    destruct (pop_notin a2 y (ref_nodup _ _ Hr2) Hy) as [Hy3 Hyin].
    apply wp_bind. eapply wp_fb; [rewrite inf_upd; exact Hpop|]. rewrite upd_upd.
    apply wp_bind, wp_modify. rewrite upd_upd. unfold notify.
    apply wp_bind, wp_modify. rewrite upd_upd. apply wp_modify. rewrite upd_upd.
    eexists _, (spec_pop a2).2. split; [reflexivity|]. simpl.
    split_and!; [done|done|done| |done|].
    2: { intros z bz Hz. rewrite (sb_bufs _ _ Hs3). by apply Hbuf2. }
    destruct Hsr as [_ _ Hfm _ Ho Hi]. constructor; simpl; try done.
    + by apply (heap_ok_same _ _ Hs3).
    + intros HB. destruct (Ho HB). lia.
    + intros HB. destruct (Hi HB) as [[E1 _]|[E1 _]]; [|lia]. right. rewrite E1.
      split; [done|]. left. exists y. split_and!; [done| |done].
      split; [|done]. apply (same_bufs_cell _ _ _ Hs3).
      eapply path_lookup; [apply (ref_path _ _ Hr2)|done].
  - apply wp_ret. eexists _, a2. split; [reflexivity|]. simpl.
    split_and!; [done|done|done| |lia|].
    2: { exact Hbuf2. }
    pose proof Hsr as [_ _ Hfm _ Ho Hi]. constructor; simpl; try done.
    intros HB. destruct (Hi HB) as [[E1 _]|[E1 [(z & E2 & Hz & E3)|E2]]]; [lia| |]; right;
      (split; [done|]); [left|by right]. exists z. split_and!; [done| |done].
    eapply detached_same; [exact Hcells| |exact Hz]. intros w Hw. by apply spec_capture_in in Hw.
Qed.

(** Waking the video thread because the still stream ended. *)

Lemma inv_stillstop B d :
  inv B d -> dqbuf_wait_flg (video_inf d) < 0 ->
  wp (notify SVideo VIDEO_WAITEND_CAUSE_STILLSTOP) (fun _ => inv B) d.
Proof.
  intros [[A Hrep] [Hlv Hls]] Hf. apply wp_bind, wp_modify, wp_modify. rewrite upd_upd.
  apply (inv_intro _ (supd SVideo (A SVideo) A)); [|done].
  apply (drv_rep_ext _ (supd SVideo (B SVideo) B)); [apply supd_id|].
  pose proof (dr_video _ _ _ Hrep) as [Hr Hh Hfm Hcp Ho Hi].
  apply drv_rep_stream; try done. constructor; simpl; try done.
  - intros HB. destruct (Ho HB). lia.
  - intros HB. destruct (Hi HB) as [[E1 E2]|[? _]]; [|lia]. right. rewrite E1.
    split; [done|]. by right.
Qed.

Lemma capture_next_ok s d B A d' :
  drv_rep d B A -> locks d 1 1 -> ti_state (inf s d) = VIDEO_STATE_CAPTURE ->
  (s = SVideo -> ti_state (still_inf d) <> VIDEO_STATE_CAPTURE) ->
  (exists err size q, captured s err size d B q d') -> wp (capture_next s) (fun _ => inv B) d'.
Proof.
  intros Hrep [Hlv Hls] Hst Hnot (err & size & q & t & a & -> & Ht & Hl & Hm & Hsr & _).
  pose proof Hrep as [Hv Hs He Hh Hvn Hsn (o & dt & Hdev) Ha].
  assert (Hdev' : devices_ok (set_inf s t d) o dt) by (eapply devices_step; [..|exact Hdev]; by destruct s).
  assert (Hexcl : s = SStill -> ti_state (video_inf d) <> VIDEO_STATE_CAPTURE).
  { intros -> E. apply He in E. simpl in Hst. congruence. }
  assert (Hstop : forall st, st <> VIDEO_STATE_CAPTURE ->
    (s = SStill -> st <> VIDEO_STATE_STREAMOFF -> remaining_capnum t <> 0) ->
    inv B (upd_inf s (set_state st) (push_call DataStop (set_inf s t d)))).
  { intros st Hs1 Hs2. apply (inv_intro _ (supd s a A)); [|destruct s; split; simpl in *; congruence].
    assert (Hsr' : stream_rep (set_state st t) (B s) a).
    { change (set_state st t) with (set_state st (set_state VIDEO_STATE_STREAMOFF t)).
      by apply sr_state. }
    destruct s; simpl in *.
    - apply (drv_rep_intro d _ B A); simpl; try done.
      + split; [done|]. intros [?|?]; [done|]. by destruct (Hnot eq_refl).
      + apply Hm. by rewrite Hvn.
      + apply aimed_stopped. intros []; simpl; [done|]. by apply Hnot.
    - apply (drv_rep_intro d _ B A); simpl; try done.
      + intros E. by destruct (Hexcl eq_refl).
      + split; [done|]. intros [?|?]; [|done]. by destruct (Hexcl eq_refl).
      + by apply Hs2.
      + apply aimed_stopped. intros []; simpl; [|done]. by apply Hexcl. }
  unfold capture_next. apply wp_bind, wp_gets.
  replace (inf s (set_inf s t d)) with t by by destruct s.
  destruct (Z.eqb_spec (remaining_capnum t) 0) as [E0|E0].
  - apply wp_bind. eapply wp_stop; [exact Hdev'|]. apply wp_bind, wp_modify, wp_bind, wp_gets.
    assert (Hoff := Hstop VIDEO_STATE_STREAMOFF ltac:(done) ltac:(done)).
    destruct (_ && _) eqn:Eb; [|by apply wp_ret]. to_prop. apply inv_stillstop; [done|].
    unfold is_sem_waited in *. by to_prop.
  - apply wp_bind. eapply wp_fb; [replace (inf s (set_inf s t d)) with t by (by destruct s);
      apply get_vacant_ok, (sr_ref _ _ _ Hsr)|].
    assert (Hupd : upd_inf s (set_bufinf (set_curr (head (vacant_q a)) (bufinf t))) (set_inf s t d) =
      set_inf s (set_bufinf (set_curr (head (vacant_q a)) (bufinf t)) t) d) by by destruct s.
    rewrite Hupd. clear Hupd.
    destruct (head (vacant_q a)) as [x|] eqn:Ex.
    + assert (Hx : is_Some (cells (bufinf t) !! x)) by (eapply head_cell; [apply (sr_ref _ _ _ Hsr)|done]).
      destruct (load_buf_ok (set_curr (Some x) (bufinf t)) x Hx) as (b & Hb & Hbx).
      apply wp_bind. eapply wp_fb; [destruct s; exact Hb|].
      apply wp_bind. eapply (wp_run _ _ _ dt).
      { unfold data_ops. munfold. replace (g_video_data_ops _) with (Some dt);
          [reflexivity|]. destruct s; simpl; by rewrite (dv_data _ _ _ Hdev). }
      destruct (dv_setbuf _ _ _ Hdev) as [sb ->]. apply wp_modify.
      apply (inv_intro _ (supd s a A)); [|destruct s; split; simpl in *; congruence].
      assert (Hsr' : stream_rep (set_bufinf (set_curr (Some x) (bufinf t)) t) (B s) a).
      { replace (set_bufinf (set_curr (Some x) (bufinf t)) t) with
          (set_state VIDEO_STATE_CAPTURE (set_bufinf (set_curr (Some x) (bufinf t))
            (set_state VIDEO_STATE_STREAMOFF t))) by (destruct t; simpl in Ht; by subst).
        apply (sr_state_curr (set_state VIDEO_STATE_STREAMOFF t)); [done|]. intros _.
        rewrite Ex. split; [|done]. by intros E; rewrite E in Ex. }
      destruct s; simpl in *.
      * apply (drv_rep_intro d _ B A); simpl; try done; rewrite ?Ht; try done.
        -- intros _. by apply He.
        -- by rewrite Hh, Hst.
        -- apply Hm. by rewrite Hvn.
        -- eapply (aimed_at SVideo _ x b); [by apply Hnot|done..].
      * apply (drv_rep_intro d _ B A); simpl; try done; rewrite ?Ht; try done.
        -- intros E. by destruct (Hexcl eq_refl).
        -- by rewrite Hh, Hst.
        -- eapply (aimed_at SStill _ x b); [by apply Hexcl|done..].
    + apply wp_bind. eapply wp_stop; [eapply devices_step; [..|exact Hdev]; by destruct s|].
      apply wp_modify.
      set (t' := set_bufinf _ t).
      assert (Hsr' : stream_rep (set_state VIDEO_STATE_STREAMON t') (B s) a).
      { subst t'. change (set_state VIDEO_STATE_STREAMON (set_bufinf ?f t)) with
          (set_state VIDEO_STATE_STREAMON (set_bufinf f (set_state VIDEO_STATE_STREAMOFF t))).
        by apply (sr_state_curr (set_state VIDEO_STATE_STREAMOFF t)). }
      apply (inv_intro _ (supd s a A)); [|destruct s; split; simpl in *; congruence].
      destruct s; simpl in *.
      * apply (drv_rep_intro d _ B A); simpl; try done.
        -- split; [done|]. intros [?|?]; [done|]. by destruct (Hnot eq_refl).
        -- apply Hm. by rewrite Hvn.
        -- apply aimed_stopped. intros []; simpl; [done|]. by apply Hnot.
      * apply (drv_rep_intro d _ B A); simpl; try done.
        -- intros E. by destruct (Hexcl eq_refl).
        -- split; [done|]. intros [?|?]; [|done]. by destruct (Hexcl eq_refl).
        -- apply aimed_stopped. intros []; simpl; [|done]. by apply Hexcl.
Qed.

Lemma irq_ok err size d B :
  inv B d -> hw_running (hist d) = true ->
  wp (video_complete_capture err size) (fun _ => inv B) d.
Proof.
  intros [[A Hrep] Hl] Hhw. unfold video_complete_capture. apply wp_bind, wp_get.
  set (s := if bool_decide _ then _ else _).
  assert (Hs : ti_state (inf s d) = VIDEO_STATE_CAPTURE /\
               (s = SVideo -> ti_state (still_inf d) <> VIDEO_STATE_CAPTURE)).
  { subst s. case_bool_decide as E; [done|]. split; [|done].
    apply (dr_hw _ _ _ Hrep) in Hhw as [?|?]; done. }
  destruct Hs as [Hst Hn]. apply wp_bind. eapply wp_mono; [by eapply capture_frame_ok|].
  intros [] d' Hc. apply wp_bind. eapply wp_mono; [eapply capture_next_ok; eauto|].
  intros [] d'' ?. by apply wp_ret.
Qed.

(** ** The system *)

(** A request that leaves the driver as it is. *)

Lemma g_selection_ok c d B : inv B d -> wp (video_g_selection c) (fun _ => inv B) d.
Proof.
  intros Hinv. unfold video_g_selection. destruct c as [c|]; [|by apply wp_ret].
  destruct (get_video_type_inf _); [|by apply wp_ret]. by apply wp_bind, wp_gets, wp_ret.
Qed.

Lemma wp_sensor d B A Q :
  drv_rep d B A -> (forall o, Q o d) -> wp sensor Q d.
Proof.
  intros Hrep HQ. destruct (dr_dev _ _ _ Hrep) as (o & dt & Hdev).
  exists o, d. split; [|done]. unfold sensor. munfold. by rewrite (dv_sensor _ _ _ Hdev).
Qed.

Lemma g_parm_ok p d B : inv B d -> wp (video_g_parm (Some p)) (fun _ => inv B) d.
Proof.
  intros Hinv. pose proof Hinv as [[A Hrep] _]. unfold video_g_parm.
  apply wp_bind. eapply wp_sensor; [done|]. intros o.
  destruct (get_video_type_inf _) as [s|]; [|by apply wp_ret].
  apply wp_bind, wp_get. repeat case_match; by apply wp_ret.
Qed.

Lemma querycap_ok c d B : inv B d -> wp (video_querycap c) (fun _ => inv B) d.
Proof.
  intros Hinv. pose proof Hinv as [[A Hrep] _]. unfold video_querycap.
  apply wp_bind. eapply wp_sensor; [done|]. intros o. repeat case_match; by apply wp_ret.
Qed.

Lemma wp_plain arg m d B : wp m (fun _ => inv B) d ->
  wp (plain arg m) (fun r d' => inv B d' /\ exists v q, r = IoReturn v q) d.
Proof.
  intros H. apply wp_bind. eapply wp_mono; [exact H|]. intros v d' Hi.
  apply wp_ret. split; [done|]. by eexists _, _.
Qed.

Lemma wp_inout {T} (k : T -> request) m d B : wp m (fun _ => inv B) d ->
  wp (inout k m) (fun r d' => inv B d' /\ exists v q, r = IoReturn v q) d.
Proof.
  intros H. apply wp_bind. eapply wp_mono; [exact H|]. intros [v q] d' Hi.
  apply wp_ret. split; [done|]. by eexists _, _.
Qed.

Lemma idle_spec x type : idle x type = true ->
  forall s, get_video_type_inf type = Some s -> in_dq x s = false.
Proof. unfold idle. intros H s Hs. rewrite Hs in H. by to_prop. Qed.

(** Requests other than [VIDIOC_DQBUF] return. *)

Definition is_dqbuf (req : request) : bool :=
  match req with VIDIOC_DQBUF _ => true | _ => false end.

Lemma ioctl_ok stk req x :
  sys_inv x -> enabled (AIoctl req) x = true -> is_dqbuf req = false ->
  wp (video_ioctl stk req) (fun r d' => inv (in_dq x) d' /\ exists v q, r = IoReturn v q) (s_drv x).
Proof.
  intros [HA Hl] Hen Hdq. assert (Hinv : inv (in_dq x) (s_drv x)) by done.
  destruct req; simpl in Hen; try done; unfold video_ioctl;
    try (apply wp_plain); try (apply wp_inout).
  - by apply querycap_ok.
  - destruct r as [r|]; [|by apply wp_ret]. to_prop. subst malloc_ok.
    apply reqbufs_ok; [done|lia|by apply idle_spec].
  - destruct b as [b|]; [|by apply wp_ret]. by apply qbuf_ok.
  - by apply cancel_ok.
  - by apply streamon_ok.
  - by apply streamoff_ok.
  - by apply takepict_start_ok.
  - by apply takepict_stop_ok.
  - by apply s_selection_ok.
  - by apply g_selection_ok.
  - eapply try_fmt_ok; done.
  - by apply s_fmt_ok.
  - by apply s_parm_ok.
  - destruct p as [p|]; [|done]. by apply g_parm_ok.
  - apply wp_ret. split; [done|]. by eexists _, _.
Qed.

Lemma inv_ext B B' d : (forall s, B s = B' s) -> inv B d -> inv B' d.
Proof. intros H [[A HA] Hl]. split; [|done]. exists A. by eapply drv_rep_ext. Qed.

Lemma exec_dqbuf stk b x :
  sys_inv x -> enabled (AIoctl (VIDIOC_DQBUF b)) x = true ->
  exists y, exec stk (AIoctl (VIDIOC_DQBUF b)) x = Ret y /\ sys_inv y.
Proof.
  intros [HA Hl] Hen. assert (Hinv : inv (in_dq x) (s_drv x)) by done. simpl in *.
  destruct b as [b|]; simpl in *; [|by eexists]. to_prop.
  pose proof (idle_spec x (b_type b) ltac:(done)) as Hidle.
  destruct (dqbuf_ok b (s_drv x) (in_dq x) Hinv ltac:(done) Hidle) as (r & d' & Hrun & Hpost).
  rewrite (bind_returns _ _ _ _ _ Hrun). simpl. eexists. split; [reflexivity|].
  destruct (get_video_type_inf (b_type b)) as [s|] eqn:Es.
  - apply (inv_ext _ (match dq_reply (Some b) (b_type b) r with
      IoWait _ => supd s true (in_dq x) | _ => in_dq x end)) in Hpost.
    + destruct Hpost as [HA' Hl']. by destruct r as [? [?|]|].
    + intros s'. destruct r as [? [?|]|]; simpl; try done;
        rewrite <- (Hidle s eq_refl); apply supd_id.
  - destruct Hpost as [[HA' Hl'] [v ->]]. done.
Qed.

Lemma exec_ok stk a x :
  sys_inv x -> enabled a x = true -> exists y, exec stk a x = Ret y /\ sys_inv y.
Proof.
  intros Hsys Hen. pose proof Hsys as [HA Hl]. assert (Hinv : inv (in_dq x) (s_drv x)) by done.
  destruct a as [req|s|err size].
  - destruct (is_dqbuf req) eqn:Eq; [destruct req; try done; by apply exec_dqbuf|].
    destruct (ioctl_ok stk req x Hsys Hen Eq) as (r & d' & Hrun & [HA' Hl'] & v & q & ->).
    unfold exec. rewrite Hrun. eexists. split; [reflexivity|]. done.
  - simpl in *. to_prop.
    destruct (resume_ok s (s_drv x) (in_dq x) Hinv ltac:(done) ltac:(done)) as (r & d' & -> & Hpost).
    simpl. eexists. split; [reflexivity|]. destruct r; [by destruct Hpost|].
    apply (inv_ext _ (in_dq x)) in Hpost; [by destruct Hpost|].
    intros s'. replace true with (in_dq x s) by done. apply supd_id.
  - simpl in *. destruct (irq_ok err size (s_drv x) (in_dq x) Hinv Hen) as (r & d' & -> & [HA' Hl']).
    simpl. by eexists.
Qed.

Lemma steps_inv stk x y : sys_inv x -> steps stk x y -> sys_inv y.
Proof.
  intros Hx Hs. induction Hs as [|y a z _ IH Hen Hex]; [done|].
  destruct (exec_ok stk a y IH Hen) as (z' & Hz & Hi). congruence.
Qed.

End VideoSafe.
