(* ===== verification/VideoProps.v ===== *)
(** * Properties of the video driver

    Opening the device, safety of every reachable state, exclusion of the two
    streams, delivery of captured frames, settings, registration. *)

From Stdlib Require Import String.
From S2P Require Import Prelude FrameBuff VideoState VideoCtrl VideoDrv VideoIoctl VideoSys VideoSafe.
Import FrameBuff VideoState VideoCtrl VideoDrv VideoIoctl VideoSys VideoSafe.

Module VideoProps.

(** ** Opening *)

(** What initialising the scenes leaves alone. *)

Record same_streams (d d' : vdrv) : Prop := {
  ss_video : video_inf d' = video_inf d;
  ss_still : still_inf d' = still_inf d;
  ss_lock : lock_open_num d' = lock_open_num d;
  ss_open : open_num d' = open_num d;
  ss_sensor : g_video_sensor_ops d' = g_video_sensor_ops d;
  ss_data : g_video_data_ops d' = g_video_data_ops d;
  ss_hw : hw_running (hist d') = hw_running (hist d)
}.

#[global] Instance same_streams_refl : Reflexive same_streams.
Proof. by constructor. Qed.

#[global] Instance same_streams_trans : Transitive same_streams.
Proof. intros d1 d2 d3 [] []. constructor; congruence. Qed.

(** A scene's gamma curve is a block that can be used and freed, or none. *)

Definition gamma_ok (sp : scene_params) : Prop := sc_gamma_curve sp <> GammaFreed.

#[global] Instance gamma_ok_dec sp : Decision (gamma_ok sp).
Proof. unfold gamma_ok. destruct (sc_gamma_curve sp); [left|left|right]; congruence. Defined.

Lemma initialize_gamma_ok d o :
  g_video_sensor_ops d = Some o ->
  wp initialize_scene_gamma (fun r d' => same_streams d d' /\ r.2 <> GammaFreed) d.
Proof.
  intros Ho. unfold initialize_scene_gamma. apply wp_bind.
  eapply (wp_run _ _ _ o); [unfold sensor; munfold; by rewrite Ho|]. apply wp_bind, wp_get.
  destruct (so_get_supported_value o) as [gsv|], (so_get_value o) as [gv|]; try (by apply wp_ret).
  destruct (gsv _ _) as [ret v]. destruct (negb _); [by apply wp_ret|].
  destruct (negb _); [by apply wp_ret|].
  destruct (malloc_ d _ _) as [blk|].
  - apply wp_bind, wp_modify. destruct (gv _ _ _) as [r w]. by apply wp_ret.
  - by apply wp_bind, wp_modify, wp_ret.
Qed.

Lemma initialize_scenes_ok todo pre d o :
  g_video_sensor_ops d = Some o ->
  g_video_scene_parameter d = pre ++ todo -> Forall gamma_ok pre ->
  wp (initialize_scenes todo pre) (fun _ d' => same_streams d d' /\
    Forall gamma_ok (g_video_scene_parameter d')) d.
Proof.
  revert pre d. induction todo as [|sp todo IH]; intros pre d Ho Hs Hp.
  { apply wp_ret. rewrite Hs, app_nil_r. done. }
  cbn [initialize_scenes]. apply wp_bind. unfold initialize_scene_parameter.
  apply wp_bind, wp_get, wp_bind. eapply wp_mono; [by eapply initialize_gamma_ok|].
  intros [sz gp] d1 [H1 Hg]. apply wp_ret, wp_bind, wp_modify.
  set (d2 := set_scenes _ d1). assert (H2 : same_streams d d2) by (etrans; [exact H1|by constructor]).
  eapply wp_mono; [apply IH|].
  - by rewrite (ss_sensor _ _ H2).
  - simpl. by rewrite <- (assoc_L (++)).
  - apply Forall_app. split; [done|]. by apply Forall_singleton.
  - intros [] d3 [H3 Hf]. split; [by etrans|done].
Qed.

(** A driver that has a connected camera and was not opened yet. *)

Record camera_ready (d : vdrv) (o : imgsensor_ops) (dt : imgdata_ops) : Prop := {
  cr_lock : lock_open_num d = 1;
  cr_closed : open_num d = 0;
  cr_found : find_available (hist d) (g_video_registered_sensor d) = Some o;
  cr_dev : devices_ok (set_sensor (Some o) d) o dt;
  cr_init : so_init o (hist d) = OK;
  cr_dinit : do_init dt (SensorInit :: hist d) = OK;
  cr_hw : hw_running (hist d) = false;
  cr_heapv : forall a, is_Some (cells (bufinf (video_inf d)) !! a) ->
    (a.1 < nblocks (bufinf (video_inf d)))%nat;
  cr_heaps : forall a, is_Some (cells (bufinf (still_inf d)) !! a) ->
    (a.1 < nblocks (bufinf (still_inf d)))%nat
}.

(** The state [initialize_streamresources] gives a stream. *)

Definition fresh_inf (t : video_type_inf) : video_type_inf :=
  let f := memset_framebuff (bufinf t) in
  set_bufinf (set_lock_empty 1 f)
    (initialize_frame_setting
      (set_lock_state 1 (set_capnum VIDEO_REMAINING_CAPNUM_INFINITY (memset_inf t)))).

Lemma fresh_inf_rep t :
  (forall a, is_Some (cells (bufinf t) !! a) -> (a.1 < nblocks (bufinf t))%nat) ->
  stream_rep (fresh_inf t) false (mk_queue [] [] []).
Proof.
  intros H. constructor; simpl; try done.
  - constructor; simpl; try done. constructor.
  - split; simpl; [by left|done].
Qed.

Lemma initialize_stream_run s d :
  initialize_streamresources s d = Ret (tt, upd_inf s fresh_inf d).
Proof. by destruct s, d as [? ? [] [] ? ? ? ? ? ? ?]. Qed.

(** What a successful [open] leaves. *)

Record opened (d d' : vdrv) (o : imgsensor_ops) (dt : imgdata_ops) : Prop := {
  op_num : open_num d' = 1;
  op_lock : lock_open_num d' = 1;
  op_video : video_inf d' = fresh_inf (video_inf d);
  op_still : still_inf d' = fresh_inf (still_inf d);
  op_dev : devices_ok d' o dt;
  op_hw : hw_running (hist d') = false;
  op_scenes : Forall gamma_ok (g_video_scene_parameter d')
}.

Lemma open_run d o dt :
  camera_ready d o dt -> wp video_open (fun r d' => r = OK /\ opened d d' o dt) d.
Proof.
  intros [Hlk Hcl Hfd Hdev Hi Hdi Hhw Hhv Hhs]. unfold video_open.
  apply wp_bind. eapply wp_run; [unfold video_lock_open; munfold; rewrite Hlk; reflexivity|].
  apply wp_bind, wp_get. simpl. rewrite Hcl. simpl. apply wp_bind, wp_bind, wp_gets. simpl.
  rewrite Hfd. apply wp_bind, wp_modify. unfold device_init.
  apply wp_bind. eapply (wp_run _ _ _ o); [reflexivity|]. apply wp_bind, wp_get, wp_bind, wp_modify.
  simpl. rewrite Hi, Z.eqb_refl. apply wp_bind. eapply (wp_run _ _ _ dt).
  { unfold data_ops. munfold. simpl. pose proof (dv_data _ _ _ Hdev) as E. simpl in E. by rewrite E. }
  apply wp_bind, wp_get, wp_bind, wp_modify. simpl. rewrite Hdi, Z.eqb_refl.
  apply wp_bind. unfold initialize_resources.
  set (d1 := push_call _ _).
  apply wp_bind. eapply wp_run; [apply initialize_stream_run|].
  apply wp_bind. eapply wp_run; [apply initialize_stream_run|].
  unfold initialize_scenes_parameter. apply wp_bind, wp_get.
  eapply wp_mono; [by eapply (initialize_scenes_ok _ _ _ o)|].
  intros [] d2 [[E1 E2 E3 E4 E5 E6 E7] Hsc].
  apply wp_ret, wp_bind. rewrite Z.eqb_refl. apply wp_modify, wp_bind, wp_modify, wp_ret.
  split; [done|]. simpl in *. constructor; simpl; rewrite ?E1, ?E2, ?E3, ?E4, ?E7, ?Hcl; try done.
  eapply devices_step; [..|exact Hdev]; simpl; congruence.
Qed.

Lemma opened_inv d d' o dt :
  camera_ready d o dt -> opened d d' o dt -> sys_inv (mk_sys d' (fun _ => false)).
Proof.
  intros Hr [_ _ E1 E2 Hdev Hhw _]. constructor; simpl.
  - exists (fun _ => mk_queue [] [] []). constructor; simpl; rewrite ?E1, ?E2; simpl; try done.
    + apply fresh_inf_rep, (cr_heapv _ _ _ Hr).
    + apply fresh_inf_rep, (cr_heaps _ _ _ Hr).
    + rewrite Hhw. split; [done|]. by intros [?|?].
    + by exists o, dt.
    + apply aimed_stopped. intros []; simpl; by rewrite ?E1, ?E2.
  - split; simpl; by rewrite ?E1, ?E2.
Qed.

Lemma open_ok d o dt :
  camera_ready d o dt ->
  wp video_open (fun r d' => r = OK /\ open_num d' = 1 /\ lock_open_num d' = 1 /\
     sys_inv (mk_sys d' (fun _ => false))) d.
Proof.
  intros Hr. eapply wp_mono; [by apply open_run|]. intros r d' [-> H].
  split; [done|]. pose proof H as [? ? _ _ _ _ _]. split_and!; [done|done|]. by eapply opened_inv.
Qed.

(** C33: opening a device whose camera is connected and starts up succeeds,
    counts the opener, gives the lock back, and puts both streams and the
    devices in the state the invariant of the driver describes. *)
Theorem video_open_ready d o dt (Hready : camera_ready d o dt) :
  exists d', video_open d = Ret (OK, d') /\ open_num d' = 1 /\ lock_open_num d' = 1 /\
    sys_inv (mk_sys d' (fun _ => false)).
Proof. destruct (open_ok d o dt Hready) as (r & d' & Hrun & -> & ?). by exists d'. Qed.

(** ** Every reachable state *)

Section Reachable.

Context (stk : stack) (d0 d1 : vdrv) (o : imgsensor_ops) (dt : imgdata_ops) (x : sys).
Context (Hready : camera_ready d0 o dt) (Hopen : video_open d0 = Ret (OK, d1)).
Context (Hsteps : steps stk (mk_sys d1 (fun _ => false)) x).

Lemma reachable_inv : sys_inv x.
Proof using All.
  destruct (open_ok _ _ _ Hready) as (r & d' & Hrun & _ & _ & _ & Hi).
  rewrite Hopen in Hrun. injection Hrun as <- <-. by eapply steps_inv.
Qed.

(** C1: the driver is safe: after [open], whatever calls, resumptions and
    interrupts came in whatever order, the next one the clients and the
    hardware are allowed to make returns: no null or dangling pointer is used,
    no assertion fails, nothing is divided by zero, no lock is waited for. *)
Theorem driver_safe a (Hen : enabled a x = true) : exists y, exec stk a x = Ret y.
Proof using All. destruct (exec_ok stk a x reachable_inv Hen) as (y & Hy & _). by exists y. Qed.

(** C18: the two streams never capture at the same time: while video frames
    are captured no still picture is being taken, and the hardware runs
    exactly when one of the streams is in the capture state. *)
Theorem capture_exclusive :
  ~ (ti_state (video_inf (s_drv x)) = VIDEO_STATE_CAPTURE /\
     ti_state (still_inf (s_drv x)) <> VIDEO_STATE_STREAMOFF) /\
  (hw_running (hist (s_drv x)) = true <->
   ti_state (video_inf (s_drv x)) = VIDEO_STATE_CAPTURE \/
   ti_state (still_inf (s_drv x)) = VIDEO_STATE_CAPTURE).
Proof using All.
  destruct reachable_inv as [[A Hrep] _]. split; [|apply (dr_hw _ _ _ Hrep)].
  intros [Hv Hs]. by apply Hs, (dr_excl _ _ _ Hrep).
Qed.

(** C31: the hardware writes where the driver expects it: while it runs, the
    address and size it was given last are those of the buffer in the container
    the capturing stream fills, and that container is a live one, the first of
    those waiting for an image, and neither a free nor a delivered one. *)
Theorem capture_target_live (Hhw : hw_running (hist (s_drv x)) = true) :
  exists s p a b, ti_state (inf s (s_drv x)) = VIDEO_STATE_CAPTURE /\
    vbuf_curr (bufinf (inf s (s_drv x))) = Some p /\
    c_buf <$> cells (bufinf (inf s (s_drv x))) !! p = Some b /\
    hw_target (hist (s_drv x)) = Some (b_userptr b, b_length b) /\
    refines (bufinf (inf s (s_drv x))) a /\ head (vacant_q a) = Some p /\
    (p ∉ done_q a ++ free_q a) /\ done_container (inf s (s_drv x)) <> Some p.
Proof using All.
  destruct reachable_inv as [[A Hrep] _].
  assert (exists s, ti_state (inf s (s_drv x)) = VIDEO_STATE_CAPTURE) as [s Hs].
  { apply (dr_hw _ _ _ Hrep) in Hhw as [?|?]; [by exists SVideo|by exists SStill]. }
  pose proof (dr_stream _ _ _ s Hrep) as Hsr. destruct (sr_cap _ _ _ Hsr Hs) as [Hne Hc].
  pose proof (sr_ref _ _ _ Hsr) as Hr. pose proof (ref_nodup _ _ Hr) as Hnd.
  destruct (vacant_q (A s)) as [|p vs] eqn:Ev; [done|]. simpl in Hc.
  destruct (head_cell _ _ p Hr ltac:(by rewrite Ev)) as [c Hcell].
  assert (Hb : c_buf <$> cells (bufinf (inf s (s_drv x))) !! p = Some (c_buf c)) by by rewrite Hcell.
  exists s, p, (A s), (c_buf c). rewrite Ev. split_and!; try done.
  - by rewrite (dr_aim _ _ _ Hrep s Hs), (aim_curr _ p (c_buf c)).
  - rewrite Permutation_app_comm, (Permutation_app_comm (done_q (A s))) in Hnd. simpl in Hnd.
    rewrite Permutation_app_comm in Hnd. simpl in Hnd. apply NoDup_cons in Hnd as [Hp _].
    rewrite !elem_of_app in *. tauto.
  - intros Hd. destruct (done_detached _ _ _ _ Hsr Hd) as [_ Hn]. apply Hn.
    rewrite Ev, !elem_of_app. left; right. apply list_elem_of_here.
Qed.

(** Locks and wait counts stay balanced: between calls both state locks
    are free, and the wait count of a stream is -1 when a thread is blocked in
    its [VIDIOC_DQBUF], 0 otherwise; only a thread inside can be blocked. *)
Theorem locks_balanced s :
  lock_state (inf s (s_drv x)) = 1 /\
  (dqbuf_wait_flg (inf s (s_drv x)) = 0 \/
   dqbuf_wait_flg (inf s (s_drv x)) = -1 /\ in_dq x s = true).
Proof using All.
  destruct reachable_inv as [[A Hrep] [Hv Hs]]. split; [by destruct s|].
  pose proof (dr_stream _ _ _ s Hrep) as Hsr. destruct (in_dq x s).
  - destruct (sr_in _ _ _ Hsr eq_refl) as [[? _]|[? _]]; tauto.
  - left. by destruct (sr_out _ _ _ Hsr eq_refl).
Qed.

End Reachable.

(** ** Delivery of a frame *)

(** Going on with the next container does not touch what is kept for the
    waiting thread. *)

Lemma capture_next_keeps s d r d' :
  capture_next s d = Ret (r, d') ->
  done_container (inf s d') = done_container (inf s d) /\
  wait_cause (inf s d') = wait_cause (inf s d) /\
  cells (bufinf (inf s d')) = cells (bufinf (inf s d)) /\
  (s = SStill -> dqbuf_wait_flg (inf s d') = dqbuf_wait_flg (inf s d)) /\
  (s = SVideo -> dqbuf_wait_flg (inf s d') = dqbuf_wait_flg (inf s d)).
Proof.
  unfold capture_next, stop_capture, data_ops, notify, get_inf, on_inf, fb, call, is_sem_waited,
    video_framebuff_get_vacant_container, load_buf, deref.
  munfold. destruct s; simpl; intros H; repeat (case_match; simplify_eq/=; try done).
Qed.

Lemma resume_delivers s ty d r d' x b :
  dq_resume s ty d = Ret (r, d') -> done_container (inf s d) = Some x ->
  wait_cause (inf s d) = VIDEO_WAITEND_CAUSE_CAPTUREDONE ->
  c_buf <$> cells (bufinf (inf s d)) !! x = Some b -> r = DqReturn OK (Some b).
Proof.
  intros H Hd Hc Hb. unfold dq_resume, dq_finish, dq_deliver in H.
  apply bind_inv in H as (t & ? & [= <- <-] & H). rewrite Hc in H.
  rewrite bool_decide_eq_false_2 in H by done.
  apply bind_inv in H as (t & ? & [= <- <-] & H). rewrite Hd in H.
  rewrite (bool_decide_eq_false_2 (Some x = None)) in H by done. cbn [andb] in H.
  apply bind_inv in H as ([] & ? & [= <-] & H).
  apply bind_inv in H as (b' & d2 & H1 & H).
  apply bind_inv in H as ([] & d3 & H2 & H). injection H as <- _.
  do 2 f_equal. revert H1. unfold fb, zoom. rewrite inf_upd.
  change (bufinf (set_done None (inf s d))) with (bufinf (inf s d)).
  destruct (cells (bufinf (inf s d)) !! x) as [c|] eqn:Ec; [|done]. simpl in Hb.
  unfold load_buf. munfold. simpl. rewrite Ec. simpl. rewrite Ec. congruence.
Qed.

(** The container a capture makes the queue hand out: one of the stream, and the
    one that was being filled where nothing older is queued. *)

Lemma popped_cell s d B A x vs : drv_rep d B A -> vacant_q (A s) = x :: vs ->
  exists y b, (spec_pop (spec_capture (is_ring (bufinf (inf s d))) (A s))).1 = Some y /\
    (done_q (A s) = [] -> y = x) /\ c_buf <$> cells (bufinf (inf s d)) !! y = Some b.
Proof.
  intros Hrep Hvac. set (ring := is_ring _).
  destruct (pop_after_capture ring (A s)) as [_ [y Hy]]; [by rewrite Hvac|].
  pose proof (sr_ref _ _ _ (dr_stream _ _ _ s Hrep)) as Hr.
  assert (Hin : y ∈ done_q (A s) ++ vacant_q (A s)).
  { rewrite <- (spec_capture_perm ring). unfold spec_pop in Hy.
    destruct (done_q (spec_capture ring (A s))) as [|z ds]; [destruct (vacant_q (spec_capture ring (A s)))|];
      simplify_eq/=; by left. }
  destruct (path_lookup _ _ _ _ (ref_path _ _ Hr) Hin) as [c Hc].
  exists y, (c_buf c). split_and!; [done| |by rewrite Hc].
  intros E. revert Hy. unfold spec_capture, spec_pop. rewrite Hvac, E. destruct (_ && _); simpl; congruence.
Qed.

(** C19: a frame reaches the thread that waits for it: when a thread is
    blocked in [VIDIOC_DQBUF] of the capturing stream, which fills container
    [x], the interrupt followed by the thread's resumption makes the call return
    [OK] with the buffer of the container the queue hands out once [x] is
    complete.  It is [x] where nothing older is queued, and then it has the size
    and the error flag the hardware reported; the thread has left and the
    invariant holds. *)
Theorem dqbuf_delivers_frame s err size d B A x vs
    (Hrep : drv_rep d B A) (Hlocks : locks d 1 1)
    (Hcap : ti_state (inf s d) = VIDEO_STATE_CAPTURE)
    (Hwait : B s = true) (Hflg : dqbuf_wait_flg (inf s d) = -1) (Hvac : vacant_q (A s) = x :: vs) :
  exists d' y b, (video_complete_capture err size ≫= fun _ => dq_resume s (buf_type_of s)) d =
      Ret (DqReturn OK (Some (if bool_decide (y = x) then buf_done err size b else b)), d') /\
    (spec_pop (spec_capture (is_ring (bufinf (inf s d))) (A s))).1 = Some y /\
    (done_q (A s) = [] -> y = x) /\
    c_buf <$> cells (bufinf (inf s d)) !! y = Some b /\
    inv (supd s false B) d'.
Proof.
  assert (Hsel : (if bool_decide (ti_state (still_inf d) = VIDEO_STATE_CAPTURE)
                  then SStill else SVideo) = s).
  { destruct s; simpl in Hcap; case_bool_decide as E; try done.
    apply (dr_excl _ _ _ Hrep) in Hcap. congruence. }
  destruct (capture_frame_ok s err size d B A Hrep Hcap) as ([] & d1 & H1 & Hc1).
  destruct (capture_next_ok s d B A d1 Hrep Hlocks Hcap) as ([] & d2 & H2 & Hinv2); [| by eauto |].
  { intros ->. simpl in Hcap. apply (dr_excl _ _ _ Hrep) in Hcap. by rewrite Hcap. }
  destruct (capture_next_keeps _ _ _ _ H2) as (K1 & K2 & K3 & K4 & K5).
  destruct Hc1 as (t & a & -> & Ht & _ & _ & Hsr & Hw & Hb1).
  replace (inf s (set_inf s t d)) with t in * by by destruct s.
  destruct (Hw ltac:(lia)) as [Hd Hca].
  destruct (popped_cell s d B A x vs Hrep Hvac) as (y & b & Hpop & Hone & Hbuf).
  rewrite Hpop in Hd.
  pose proof (dr_stream _ _ _ s Hrep) as Hs0. destruct (sr_cap _ _ _ Hs0 Hcap) as [_ Hcurr].
  rewrite Hvac in Hcurr. specialize (Hb1 y b Hbuf). rewrite Hcurr in Hb1. simpl in Hb1.
  assert (Hf2 : dqbuf_wait_flg (inf s d2) = 0).
  { transitivity (dqbuf_wait_flg t); [destruct s; [by apply K5|by apply K4]|].
    rewrite Hwait in Hsr. destruct (sr_in _ _ _ Hsr eq_refl) as [[_ E]|[E _]]; simpl in E; congruence. }
  destruct (resume_ok s d2 B Hinv2 Hwait Hf2) as (r & d3 & H3 & Hpost).
  assert (r = DqReturn OK (Some (if bool_decide (y = x) then buf_done err size b else b))) as ->.
  { apply (resume_delivers s _ _ _ _ y _ H3); [by rewrite K1|congruence|].
    rewrite K3, Hb1. f_equal. destruct (decide (y = x)) as [->|Hn]; [by rewrite !bool_decide_eq_true_2|rewrite !bool_decide_eq_false_2; congruence]. }
  exists d3, y, b. split; [|done]. unfold video_complete_capture.
  rewrite (bind_returns _ _ _ OK d2); [done|]. unfold returns.
  rewrite (bind_returns _ _ d d d eq_refl). cbv zeta. rewrite Hsel.
  rewrite (bind_returns _ _ _ _ _ H1), (bind_returns _ _ _ _ _ H2). done.
Qed.

(** ** A concrete camera *)

Definition ex_cam : imgsensor_ops := {|
  so_is_available := fun _ => true; so_init := fun _ => 0; so_uninit := fun _ => 0;
  so_get_driver_name := Some [105; 115; 120];
  so_validate_frame_setting := Some (fun _ _ _ l _ =>
    if forallb (fun f => negb (f_width f =? 0) && negb (f_height f =? 0)) l then 0 else - EINVAL);
  so_start_capture := Some (fun _ _ _ _ _ => 0);
  so_get_frame_interval := None; so_get_supported_value := None; so_get_value := None;
  so_set_value := Some (fun _ _ _ _ => 0) |}.

Definition ex_data : imgdata_ops := {|
  do_init := fun _ => 0; do_uninit := fun _ => 0; do_set_buf := Some (fun _ _ _ => 0);
  do_validate_frame_setting := Some (fun _ _ _ _ => 0);
  do_start_capture := Some (fun _ _ _ _ => 0); do_stop_capture := fun _ => 0 |}.

Definition ex_drv : vdrv :=
  set_data (Some ex_data) (set_registered [ex_cam] (registered_drv (fun _ _ => None))).

#[export] Instance ex_frame_sensor : FrameSensor ex_cam.
Proof.
  split; [by eexists|]. intros sv h type nr main rest i [= <-] _. cbn [forallb].
  case_match; [|done]. by to_prop.
Qed.

Lemma ex_ready : camera_ready ex_drv ex_cam ex_data.
Proof.
  constructor; try done.
  - by constructor; try done; simpl; [apply _|eexists..].
  - intros a [c Hc]. change (cells (bufinf _)) with (∅ : gmap vptr vbuf_container) in Hc.
    by rewrite lookup_empty in Hc.
  - intros a [c Hc]. change (cells (bufinf _)) with (∅ : gmap vptr vbuf_container) in Hc.
    by rewrite lookup_empty in Hc.
Qed.

Definition ex_open : vdrv :=
  match video_open ex_drv with Ret (_, d) => d | _ => ex_drv end.

Lemma ex_opened : video_open ex_drv = Ret (OK, ex_open).
Proof. vm_compute. reflexivity. Qed.

Definition ex_stack : stack :=
  mk_stack (mk_ctl 0 0 (mk_value 0 [])) (mk_qext 0 0 0 String.EmptyString 0 0 0 0 0 0).

(** Running a list of actions, each of which must be allowed. *)

Fixpoint run_actions (stk : stack) (l : list action) (x : sys) : option sys :=
  match l with
  | [] => Some x
  | a :: rest =>
    if enabled a x then
      match exec stk a x with Ret y => run_actions stk rest y | _ => None end
    else None
  end.

Lemma run_actions_steps stk l x y z :
  steps stk x y -> run_actions stk l y = Some z -> steps stk x z.
Proof.
  revert y. induction l as [|a l IH]; intros y Hs Hr; simpl in Hr; [by simplify_eq|].
  destruct (enabled a y) eqn:En; [|done]. destruct (exec stk a y) as [w| |] eqn:Ex; try done.
  eapply IH; [|exact Hr]. by eapply steps_step.
Qed.

Definition ex_buf (type i : Z) : v4l2_buffer :=
  mk_buffer i type 0 0 0 zero_timecode 0 V4L2_MEMORY_USERPTR (4096 * (i + 1)) 153600.

Definition ex_start : sys := mk_sys ex_open (fun _ => false).

(** Two video buffers queued, the stream on, a thread waiting for a frame. *)

Definition ex_actions : list action :=
  [AIoctl (VIDIOC_REQBUFS true (Some (mk_reqbufs 2 1 2 0)));
   AIoctl (VIDIOC_QBUF (Some (ex_buf 1 0))); AIoctl (VIDIOC_QBUF (Some (ex_buf 1 1)));
   AIoctl (VIDIOC_STREAMON (Some 1)); AIoctl (VIDIOC_DQBUF (Some (ex_buf 1 0)))].

Definition ex_state (l : list action) : sys :=
  match run_actions ex_stack l ex_start with Some x => x | None => ex_start end.

Lemma video_open_ready_witness :
  exists d', video_open ex_drv = Ret (OK, d') /\ open_num d' = 1 /\ lock_open_num d' = 1 /\
    sys_inv (mk_sys d' (fun _ => false)).
Proof. apply (video_open_ready ex_drv ex_cam ex_data). exact ex_ready. Defined.

Lemma ex_reach l : is_Some (run_actions ex_stack l ex_start) ->
  steps ex_stack ex_start (ex_state l).
Proof.
  intros [y Hy]. unfold ex_state. rewrite Hy. eapply run_actions_steps; [apply steps_refl|done].
Qed.

Lemma driver_safe_witness : exists y, exec ex_stack (AIrq 0 5000) (ex_state ex_actions) = Ret y.
Proof.
  apply (driver_safe ex_stack ex_drv ex_open ex_cam ex_data _ ex_ready ex_opened).
  - apply ex_reach. eexists. vm_compute. reflexivity.
  - vm_compute. reflexivity.
Defined.

Lemma capture_exclusive_witness :
  ~ (ti_state (video_inf (s_drv (ex_state ex_actions))) = VIDEO_STATE_CAPTURE /\
     ti_state (still_inf (s_drv (ex_state ex_actions))) <> VIDEO_STATE_STREAMOFF) /\
  (hw_running (hist (s_drv (ex_state ex_actions))) = true <->
   ti_state (video_inf (s_drv (ex_state ex_actions))) = VIDEO_STATE_CAPTURE \/
   ti_state (still_inf (s_drv (ex_state ex_actions))) = VIDEO_STATE_CAPTURE).
Proof.
  apply (capture_exclusive ex_stack ex_drv ex_open ex_cam ex_data _ ex_ready ex_opened).
  apply ex_reach. eexists. vm_compute. reflexivity.
Defined.

Lemma capture_target_live_witness :
  let d := s_drv (ex_state ex_actions) in
  exists s p a b, ti_state (inf s d) = VIDEO_STATE_CAPTURE /\
    vbuf_curr (bufinf (inf s d)) = Some p /\ c_buf <$> cells (bufinf (inf s d)) !! p = Some b /\
    hw_target (hist d) = Some (b_userptr b, b_length b) /\
    refines (bufinf (inf s d)) a /\ head (vacant_q a) = Some p /\
    (p ∉ done_q a ++ free_q a) /\ done_container (inf s d) <> Some p.
Proof.
  apply (capture_target_live ex_stack ex_drv ex_open ex_cam ex_data _ ex_ready ex_opened).
  - apply ex_reach. eexists. vm_compute. reflexivity.
  - vm_compute. reflexivity.
Defined.

Lemma locks_balanced_witness :
  let x := ex_state ex_actions in
  lock_state (inf SVideo (s_drv x)) = 1 /\
  (dqbuf_wait_flg (inf SVideo (s_drv x)) = 0 \/
   dqbuf_wait_flg (inf SVideo (s_drv x)) = -1 /\ in_dq x SVideo = true).
Proof.
  apply (locks_balanced ex_stack ex_drv ex_open ex_cam ex_data _ ex_ready ex_opened).
  apply ex_reach. eexists. vm_compute. reflexivity.
Defined.

(** The first container to be filled is the first of the queue: nothing is
    captured yet. *)

Lemma top_next_nothing_done f a x :
  refines f a -> vbuf_top f = Some x -> vbuf_next f = Some x ->
  done_q a = [] /\ exists vs, vacant_q a = x :: vs.
Proof.
  intros [Hnd _ Ht _ Hn _ _ _ _] E1 E2. rewrite E1 in Ht. rewrite E2 in Hn.
  destruct (vacant_q a) as [|v vs] eqn:Ev; simplify_eq/=.
  destruct (done_q a) as [|y ds]; [split; [done|by exists vs]|]. simplify_eq/=.
  apply NoDup_cons in Hnd as [Hin _]. exfalso. apply Hin. set_solver.
Qed.

Lemma dqbuf_delivers_frame_witness :
  exists d', (video_complete_capture 0 5000 ≫= fun _ => dq_resume SVideo 1)
      (s_drv (ex_state ex_actions)) =
      Ret (DqReturn OK (Some (buf_done 0 5000 (ex_buf 1 0))), d') /\
    inv (supd SVideo false (in_dq (ex_state ex_actions))) d'.
Proof.
  destruct (reachable_inv ex_stack ex_drv ex_open ex_cam ex_data (ex_state ex_actions)
    ex_ready ex_opened) as [[A Hrep] Hl]; [apply ex_reach; eexists; vm_compute; reflexivity|].
  destruct (top_next_nothing_done _ _ (0, 0)%nat (sr_ref _ _ _ (dr_video _ _ _ Hrep)))
    as [Hd [vs Hv]]; [vm_compute; reflexivity..|].
  destruct (dqbuf_delivers_frame SVideo 0 5000 _ (in_dq (ex_state ex_actions)) A (0, 0)%nat vs Hrep Hl)
    as (d' & y & b & Hrun & _ & Hy & Hb & Hi); [vm_compute; reflexivity..|exact Hv|].
  exists d'. split; [|exact Hi]. rewrite (Hy Hd) in Hrun, Hb. vm_compute in Hb. injection Hb as <-. exact Hrun.
Defined.

(** ** Corner cases of the two streams *)

(** The still stream captures, the video stream is on without a buffer. *)

Definition alias_actions : list action :=
  [AIoctl (VIDIOC_REQBUFS true (Some (mk_reqbufs 1 1 2 0)));
   AIoctl (VIDIOC_REQBUFS true (Some (mk_reqbufs 1 129 2 0)));
   AIoctl (VIDIOC_QBUF (Some (ex_buf 129 0)));
   AIoctl (VIDIOC_STREAMON (Some 1)); AIoctl (VIDIOC_TAKEPICT_START 0)].

(** The exclusion depends on the restriction to byte-sized buffer types:
    [VIDIOC_QBUF] selects the stream by the low byte of the type but compares
    the whole type, so a buffer of type 0x101 is queued to the video stream
    and starts it as if it were the still stream, while a still picture is
    being taken. *)
Theorem qbuf_type_alias :
  exists x y, steps ex_stack ex_start x /\
    exec ex_stack (AIoctl (VIDIOC_QBUF (Some (ex_buf 257 1)))) x = Ret y /\
    ti_state (still_inf (s_drv x)) = VIDEO_STATE_CAPTURE /\
    ti_state (still_inf (s_drv y)) = VIDEO_STATE_CAPTURE /\
    ti_state (video_inf (s_drv y)) = VIDEO_STATE_CAPTURE.
Proof.
  exists (ex_state alias_actions).
  eexists. split; [apply ex_reach; eexists; vm_compute; reflexivity|].
  split; [vm_compute; reflexivity|]. split_and!; vm_compute; reflexivity.
Qed.

(** One thread waits for a video frame while another takes a single picture,
    then queues a buffer (first in, first out) before the first thread runs. *)

Definition missed_actions : list action :=
  [AIoctl (VIDIOC_REQBUFS true (Some (mk_reqbufs 1 1 2 1)));
   AIoctl (VIDIOC_REQBUFS true (Some (mk_reqbufs 1 129 2 0)));
   AIoctl (VIDIOC_QBUF (Some (ex_buf 129 0)));
   AIoctl (VIDIOC_STREAMON (Some 1)); AIoctl (VIDIOC_TAKEPICT_START 1);
   AIoctl (VIDIOC_DQBUF (Some (ex_buf 1 0))); AIrq 0 100;
   AIoctl (VIDIOC_QBUF (Some (ex_buf 1 1))); AIrq 0 200; AResume SVideo].

(** A thread can stay blocked in [VIDIOC_DQBUF] although its frame is
    there: the loop waits again after the end of a still picture without
    looking at the queue, so a frame captured in between is not taken, and
    with no vacant buffer the hardware has stopped and nobody wakes the thread. *)
Theorem dqbuf_misses_ready_frame :
  exists x c f, steps ex_stack ex_start x /\ in_dq x SVideo = true /\
    dqbuf_wait_flg (video_inf (s_drv x)) = -1 /\ hw_running (hist (s_drv x)) = false /\
    video_framebuff_dq_valid_container (bufinf (video_inf (s_drv x))) = Ret (Some c, f).
Proof.
  exists (ex_state missed_actions). eexists _, _.
  split; [apply ex_reach; eexists; vm_compute; reflexivity|].
  split_and!; vm_compute; reflexivity.
Qed.

End VideoProps.
