(* ===== verification/VideoSettings.v ===== *)
(** * Settings, closing and registration of the video driver

    Clipping rectangles, formats and frame rates of a stream; [close]; the
    registration of the device node. *)

From S2P Require Import Prelude FrameBuff VideoState VideoCtrl VideoDrv VideoIoctl VideoSys VideoSafe VideoProps.
Import FrameBuff VideoState VideoCtrl VideoDrv VideoIoctl VideoSys VideoSafe VideoProps.

Module VideoSettings.

(** ** Clipping *)

(** The types of the members. *)

Definition rect_typed (r : v4l2_rect) : Prop :=
  INT_MIN <= r_left r <= INT_MAX /\ INT_MIN <= r_top r <= INT_MAX /\
  0 <= r_width r < 2 ^ 32 /\ 0 <= r_height r < 2 ^ 32.

Definition fmt_typed (f : video_format) : Prop :=
  0 <= f_width f < 65536 /\ 0 <= f_height f < 65536.

Lemma clip_range_spec pos c_sz frm :
  INT_MIN <= pos <= INT_MAX -> 0 <= c_sz < 2 ^ 32 -> 0 <= frm < 65536 ->
  validate_clip_range pos c_sz frm = true <-> 0 <= pos /\ pos + c_sz <= frm.
Proof.
  intros Hp Hc Hf. unfold validate_clip_range, INT_MIN, INT_MAX in *.
  rewrite negb_true_iff, !orb_false_iff, !Z.ltb_ge. split.
  - intros [[H1 H2] H3]. split; [done|]. unfold u32 in H3. rewrite Z.mod_small in H3; lia.
  - intros [H1 H2]. unfold u32. rewrite Z.mod_small; lia.
Qed.

(** The clipping check is exact: a rectangle is accepted if and only if
    it lies inside the frame, for every value of its 32-bit members (the
    addition that could wrap around is guarded by the comparison before it). *)
Theorem clip_setting_exact clip fmt (Hc : rect_typed clip) (Hf : fmt_typed fmt) :
  validate_clip_setting clip fmt = true <->
  0 <= r_left clip /\ r_left clip + r_width clip <= f_width fmt /\
  0 <= r_top clip /\ r_top clip + r_height clip <= f_height fmt.
Proof.
  destruct Hc as (? & ? & ? & ?), Hf as [? ?]. unfold validate_clip_setting.
  rewrite andb_true_iff, !clip_range_spec by done. tauto.
Qed.

Lemma scale_exact a b c :
  0 <= a < 65536 -> 0 <= b <= c -> 0 < c < 65536 ->
  exists w, scale a b c = Ret w /\ w = a * b / c /\ 0 <= w <= a.
Proof.
  intros Ha Hb Hc. unfold scale. rewrite (proj2 (Z.eqb_neq _ _)) by lia.
  assert (a * b <= a * c) by nia.
  assert (Hq : 0 <= a * b / c <= a).
  { split; [apply Z.div_pos; nia|]. apply Z.div_le_upper_bound; nia. }
  eexists. split; [reflexivity|]. unfold u16, u32. rewrite (Z.mod_small (a * b)) by nia.
  rewrite Z.mod_small by lia. done.
Qed.

(** A checked clip gives formats that fit: with a clip that passed the
    check, the clipped main image is the clip's size, the thumbnail is scaled
    by the same ratio, rounded down, computed without wrap-around, and neither
    is larger than the unclipped one. *)
Theorem clipped_format_fits main sub clip
    (Hc : rect_typed clip) (Hm : fmt_typed main) (Hs : fmt_typed sub)
    (Hv : validate_clip_setting clip main = true) (Hclip : is_clipped clip = true)
    (Hne : nonempty_fmt main) :
  exists w h, get_clipped_format 2 main sub clip =
      Ret [mk_format (r_width clip) (r_height clip) (f_pixelformat main);
           mk_format w h (f_pixelformat sub)] /\
    w = f_width sub * r_width clip / f_width main /\
    h = f_height sub * r_height clip / f_height main /\
    0 <= w <= f_width sub /\ 0 <= h <= f_height sub /\
    r_width clip <= f_width main /\ r_height clip <= f_height main.
Proof.
  unfold validate_clip_setting in Hv. apply andb_true_iff in Hv as [V1 V2].
  destruct Hc as (? & ? & ? & ?), Hm as [? ?], Hs as [? ?], Hne as [? ?].
  apply clip_range_spec in V1 as [? ?], V2 as [? ?]; try done.
  destruct (scale_exact (f_width sub) (r_width clip) (f_width main)) as (w & Hw & Ew & ?); [lia..|].
  destruct (scale_exact (f_height sub) (r_height clip) (f_height main)) as (h & Hh & Eh & ?); [lia..|].
  exists w, h. unfold get_clipped_format. rewrite Hclip. cbn [Z.ltb Z.compare Pos.compare Pos.compare_cont].
  rewrite Hw, Hh. unfold u16. rewrite !Z.mod_small by lia. simpl. split_and!; try done; lia.
Qed.

(** ** Reading settings back *)

Lemma sensor_inv d o d' : sensor d = Ret (o, d') -> g_video_sensor_ops d = Some o /\ d' = d.
Proof. unfold sensor. munfold. destruct (g_video_sensor_ops d); naive_solver. Qed.

Lemma validate_keeps type nr l i d r d' : validate_frame_setting type nr l i d = Ret (r, d') -> d' = d.
Proof.
  unfold validate_frame_setting, both_ops, sensor. munfold.
  repeat case_match; intros; by simplify_eq.
Qed.

Lemma sensor_set_keeps id size v d r d' : sensor_set id size v d = Ret (r, d') ->
  video_inf d' = video_inf d /\ still_inf d' = still_inf d.
Proof.
  unfold sensor_set, sensor, dev_query, call. munfold. repeat case_match; intros; by simplify_eq.
Qed.

(** A clip that [VIDIOC_S_SELECTION] accepted is what
    [VIDIOC_G_SELECTION] returns, and it passed the check against the current
    format; a refused one changes nothing of the streams. *)
Theorem selection_roundtrip c c' s d r d'
    (Hty : get_video_type_inf (sel_type c) = Some s) (Hty' : sel_type c' = sel_type c)
    (Hset : video_s_selection (Some c) d = Ret (r, d')) :
  (r = OK -> video_g_selection (Some c') d' = Ret ((OK, Some (mk_sel (sel_type c') (sel_r c))), d') /\
             validate_clip_setting (sel_r c) (fmt_main (inf s d)) = true /\
             ti_state (inf s d) = VIDEO_STATE_STREAMOFF) /\
  (r <> OK -> video_inf d' = video_inf d /\ still_inf d' = still_inf d).
Proof.
  unfold video_s_selection in Hset.
  apply bind_inv in Hset as (o & d0 & Ho & Hset).
  apply sensor_inv in Ho as [_ ->].
  destruct (so_set_value o) as [sv|] eqn:Esv; [|by injection Hset as <- <-].
  rewrite Hty in Hset. apply bind_inv in Hset as (t & d0 & [= <- <-] & Hset).
  case_bool_decide as Hst; [by injection Hset as <- <-|].
  destruct (validate_clip_setting _ _) eqn:Ev; cbn [negb] in Hset; [|by injection Hset as <- <-].
  apply bind_inv in Hset as (l & d0 & Hl & Hset).
  apply lift_inv in Hl as [_ ->].
  apply bind_inv in Hset as (r1 & d0 & Hval & Hset).
  apply validate_keeps in Hval as ->.
  destruct (Z.eqb_spec r1 OK); cbn [negb] in Hset; [|by injection Hset as <- <-].
  apply bind_inv in Hset as (r2 & d2 & Hss & Hset).
  apply sensor_set_keeps in Hss as Hd2.
  destruct (Z.eqb_spec r2 OK) as [->|]; cbn [negb] in Hset; [|by injection Hset as <- <-].
  apply bind_inv in Hset as ([] & d3 & [= <-] & Hset). injection Hset as <- <-.
  split; [|done]. intros _. split_and!; [|done|by destruct (ti_state _)].
  unfold video_g_selection. rewrite Hty', Hty. by destruct s.
Qed.

(** ** [close] *)

(** The frame buffer's block is freed, whatever it holds. *)

Lemma uninit_ok f :
  heap_ok f ->
  exists f', video_framebuff_uninit f = Ret (tt, f') /\
    forall a, is_Some (cells f' !! a) -> (a.1 < nblocks f')%nat.
Proof.
  intros Hh. pose proof (ho_blocks _ Hh) as Hb. unfold video_framebuff_uninit.
  unfold video_framebuff_realloc_container, realloc_block. simpl.
  destruct (vbuf_alloced f) as [p|] eqn:Ea.
  - destruct (kmm_free_spec f p Hh Ea) as (g & Hrun & Hg & _ & _).
    destruct (ho_alloced _ Hh _ Ea) as (_ & Hs & _).
    eexists. split.
    + unfold mbind at 1 2 3 4, M_bind at 1 2 3 4. munfold. simpl. rewrite Ea.
      rewrite (proj2 (Z.eqb_neq _ 0)) by lia. simpl. rewrite Hrun. simpl. reflexivity.
    + intros a Ha. apply (ho_blocks _ Hg). exact Ha.
  - unfold cleanup_container. munfold. simpl. rewrite Ea.
    destruct (container_size f =? 0); simpl; rewrite ?Ea; (eexists; split; [reflexivity|exact Hb]).
Qed.

(** What the last [close] leaves: the streams are off and zeroed, the hardware
    stands still, the registered devices are kept. *)

Record closed (d d' : vdrv) : Prop := {
  cl_num : open_num d' = 0;
  cl_lock : lock_open_num d' = 1;
  cl_hw : hw_running (hist d') = false;
  cl_video : ti_state (video_inf d') = VIDEO_STATE_STREAMOFF;
  cl_still : ti_state (still_inf d') = VIDEO_STATE_STREAMOFF;
  cl_heapv : forall a, is_Some (cells (bufinf (video_inf d')) !! a) ->
    (a.1 < nblocks (bufinf (video_inf d')))%nat;
  cl_heaps : forall a, is_Some (cells (bufinf (still_inf d')) !! a) ->
    (a.1 < nblocks (bufinf (still_inf d')))%nat;
  cl_registered : g_video_registered_sensor d' = g_video_registered_sensor d;
  cl_data : g_video_data_ops d' = g_video_data_ops d
}.

Lemma cleanup_stream_run s d :
  heap_ok (bufinf (inf s d)) ->
  exists t, cleanup_streamresources s d = Ret (tt, set_inf s t d) /\
    ti_state t = VIDEO_STATE_STREAMOFF /\
    forall a, is_Some (cells (bufinf t) !! a) -> (a.1 < nblocks (bufinf t))%nat.
Proof.
  intros Hh. destruct (uninit_ok _ Hh) as (f' & Hrun & Hb).
  unfold cleanup_streamresources. eexists. split.
  - rewrite (bind_returns _ _ d tt (upd_inf s (set_bufinf f') d)); [|unfold returns, fb, zoom; by rewrite Hrun].
    munfold. unfold on_inf, modify. rewrite !upd_upd. unfold upd_inf. reflexivity.
  - simpl. done.
Qed.

Lemma cleanup_scenes_ok l : Forall gamma_ok l -> exists l', cleanup_scenes l = Ret l'.
Proof.
  induction 1 as [|sp l Hsp _ [l' IH]]; [by eexists|]. simpl. unfold cleanup_scene_parameter.
  unfold gamma_ok in Hsp. destruct (sc_gamma_curve sp); [..|done]; simpl; rewrite IH; by eexists.
Qed.

Lemma close_ok B d :
  inv B d -> open_num d = 1 -> lock_open_num d = 1 -> Forall gamma_ok (g_video_scene_parameter d) ->
  wp video_close (fun r d' => r = ERROR /\ closed d d') d.
Proof.
  intros [[A Hrep] _] Ho Hlk Hsc. destruct (dr_dev _ _ _ Hrep) as (o & dt & Hdev).
  unfold video_close. apply wp_bind. eapply wp_run; [unfold video_lock_open; munfold; rewrite Hlk; reflexivity|].
  apply wp_bind, wp_get. simpl. rewrite Ho. simpl. apply wp_bind, wp_modify, wp_bind, wp_get. simpl.
  rewrite Ho. simpl. apply wp_bind, wp_bind. unfold cleanup_resources. apply wp_bind, wp_get. simpl.
  set (d1 := set_open_num _ _). apply wp_bind.
  apply (wp_mono _ (fun _ d2 => exists h, hw_running h = false /\
    d2 = mk_drv 0 (u8 (1 - 1)) (video_inf d) (still_inf d) (g_video_scene_mode d) (g_video_scene_parameter d)
      (g_video_registered_sensor d) (g_video_sensor_ops d) (g_video_data_ops d) h (malloc_ d))).
  { destruct (bool_decide _ || bool_decide _) eqn:Ec.
    - apply (wp_stop _ o dt); [by apply (devices_step d)|]. by exists (DataStop :: hist d).
    - apply wp_ret. exists (hist d). split; [|done]. to_prop.
      destruct (hw_running (hist d)) eqn:E; [|done]. by apply (dr_hw _ _ _ Hrep) in E as []. }
  intros [] d2 (h & Hh & ->).
  destruct (cleanup_stream_run SVideo (mk_drv 0 (u8 (1 - 1)) (video_inf d) (still_inf d)
    (g_video_scene_mode d) (g_video_scene_parameter d) (g_video_registered_sensor d)
    (g_video_sensor_ops d) (g_video_data_ops d) h (malloc_ d)) (sr_heap _ _ _ (dr_video _ _ _ Hrep)))
    as (tv & Hv & Hv1 & Hv2).
  apply wp_bind. eapply wp_run; [exact Hv|]. simpl.
  match goal with |- wp _ _ ?g => destruct (cleanup_stream_run SStill g
    (sr_heap _ _ _ (dr_still _ _ _ Hrep))) as (ts & Hs & Hs1 & Hs2) end.
  apply wp_bind. eapply wp_run; [exact Hs|]. simpl.
  destruct (cleanup_scenes_ok _ Hsc) as [l Hl].
  unfold cleanup_scenes_parameter. apply wp_bind, wp_get, wp_bind. eapply wp_lift; [exact Hl|].
  apply wp_modify, wp_bind, wp_get. simpl. rewrite (dv_sensor _ _ _ Hdev).
  apply wp_bind, wp_modify, wp_bind. eapply wp_run.
  { unfold data_ops. munfold. simpl. rewrite (dv_data _ _ _ Hdev). reflexivity. }
  apply wp_modify, wp_bind, wp_modify, wp_ret. split; [done|]. constructor; simpl; try done.
  by rewrite (dv_data _ _ _ Hdev).
Qed.

(** C34: the last [close] gives everything back, from any state the driver can
    be in, and the device can be opened again: the streams are off, the hardware
    is stopped, the lock is free; when a sensor is still connected and starts
    up, [open] succeeds and leads to a state of the invariant.  (The result of
    [close] is [ERROR] all the same.) *)
Theorem close_reopen B d dt
    (Hinv : inv B d) (Hopen : open_num d = 1) (Hlock : lock_open_num d = 1)
    (Hscenes : Forall gamma_ok (g_video_scene_parameter d)) :
  exists d', video_close d = Ret (ERROR, d') /\ closed d d' /\
    forall o, find_available (hist d') (g_video_registered_sensor d') = Some o ->
      devices_ok (set_sensor (Some o) d') o dt ->
      so_init o (hist d') = OK -> do_init dt (SensorInit :: hist d') = OK ->
      exists d'', video_open d' = Ret (OK, d'') /\ open_num d'' = 1 /\
        sys_inv (mk_sys d'' (fun _ => false)).
Proof.
  destruct (close_ok B d Hinv Hopen Hlock Hscenes) as (r & d' & Hrun & -> & Hcl).
  exists d'. split; [done|]. split; [done|]. intros o Hfd Hdev Hi Hdi.
  pose proof Hcl as [? ? ? _ _ ? ? _ _].
  destruct (open_ok d' o dt) as (r & d'' & Hop & -> & ? & _ & ?); [by constructor|].
  by exists d''.
Qed.

(** [close] reports failure even when it succeeds, and a [close] of a
    device nobody has open leaves the open count locked for ever: every later
    [open] and [close] waits. *)
Theorem close_results d (Hlock : lock_open_num d = 1) :
  (1 < open_num d < 256 -> exists d', video_close d = Ret (ERROR, d') /\
     open_num d' = open_num d - 1 /\ lock_open_num d' = 1) /\
  (open_num d = 0 -> exists d', video_close d = Ret (OK, d') /\
     video_open d' = Blocked /\ video_close d' = Blocked).
Proof.
  assert (Hl : video_lock_open d = Ret (tt, set_lock_open 0 d))
    by (unfold video_lock_open; munfold; by rewrite Hlock).
  split; intros Ho; unfold video_close at 1.
  - rewrite (bind_returns _ _ _ _ _ Hl).
    rewrite (bind_returns _ _ _ _ _ (eq_refl : get _ = Ret (set_lock_open 0 d, _))).
    cbn [open_num set_lock_open]. rewrite (proj2 (Z.eqb_neq (open_num d) 0)) by lia.
    eexists. split.
    + munfold. cbn [open_num set_open_num set_lock_open].
      rewrite (proj2 (Z.eqb_neq _ 0)); [reflexivity|]. rewrite u8_id; lia.
    + simpl. rewrite u8_id by lia. done.
  - rewrite (bind_returns _ _ _ _ _ Hl).
    rewrite (bind_returns _ _ _ _ _ (eq_refl : get _ = Ret (set_lock_open 0 d, _))).
    cbn [open_num set_lock_open]. rewrite Ho, Z.eqb_refl. by exists (set_lock_open 0 d).
Qed.

(** ** Registration *)

(** [video_initialize] registers once, [video_uninitialize] never undoes
    it: after an initialisation that ran, a second one changes nothing, and
    neither does [video_uninitialize], whose guard is inverted; the failure of
    the registration itself is not reported. *)
Theorem initialize_uninitialize ok1 ok2 reg path m r m'
    (Hinit : video_initialize ok1 ok2 reg path m = Ret (r, m')) ok1' ok2' reg' path' :
  r = OK /\ is_initialized m' = true /\
  video_initialize ok1' ok2' reg' path' m' = Ret (OK, m') /\
  video_uninitialize m' = Ret (OK, m').
Proof.
  revert Hinit. unfold video_initialize, video_uninitialize. munfold.
  destruct (is_initialized m) eqn:E.
  - intros [= <- <-]. by rewrite E.
  - destruct (video_register _ _ _ _) as [h| |]; try done. intros [= <- <-]. done.
Qed.

(** The check for an over-long device path looks one byte too far: a path
    of exactly 31 characters in a buffer that ends with its terminator makes
    [video_register] read beyond the buffer. *)
Theorem register_reads_past_path path ok1 ok2 reg
    (Hlen : length path = 31%nat) (Hc : Forall (fun c => 0 < c < 256) path)
    (Hslash : head path = Some 47) :
  video_register ok1 ok2 reg (Some (cbuf_of_list (path ++ [0]))) = Ub OutOfBounds.
Proof.
  assert (Hn : forall max i, (i + max <= 31)%nat ->
    strnlen (cbuf_of_list (path ++ [0])) (Z.of_nat i) max = Ret max).
  { induction max as [|max IH]; intros i Hi; [done|]. cbn [strnlen].
    destruct (lookup_lt_is_Some_2 path i) as [c Hi']; [lia|].
    rewrite (cb_read_list _ _ c) by (by apply lookup_app_l_Some). cbn [mbind outcome_bind].
    pose proof (Forall_lookup_1 _ _ _ _ Hc Hi') as [? ?].
    rewrite (proj2 (Z.eqb_neq c 0)) by lia.
    replace (Z.of_nat i + 1) with (Z.of_nat (S i)) by lia. rewrite IH by lia. done. }
  pose proof (Hn 31%nat 0%nat ltac:(lia)) as Hs.
  assert (H0 : cb_read (cbuf_of_list (path ++ [0])) (Z.of_nat 0) = Ret 47)
    by (apply cb_read_list; destruct path; [done|by injection Hslash as ->]).
  change (Z.of_nat 0) with 0 in Hs, H0. unfold video_register.
  change (MAX_VIDEO_FILE_PATH - 1)%nat with 31%nat. rewrite Hs.
  cbn [mbind outcome_bind Nat.ltb Nat.leb]. rewrite H0. cbn [mbind outcome_bind].
  change (negb (47 =? 47)) with false.
  cbn [negb Nat.eqb].
  rewrite cb_read_oob; [done|]. simpl. rewrite length_app. simpl in *.
  unfold MAX_VIDEO_FILE_PATH. lia.
Qed.

(** ** Witnesses *)

Definition ex_clip : v4l2_rect := mk_rect 100 50 320 240.
Definition ex_main : video_format := mk_format 1280 960 V4L2_PIX_FMT_JPEG_WITH_SUBIMG.
Definition ex_sub : video_format := mk_format 160 120 V4L2_PIX_FMT_UYVY.

Lemma ex_clip_typed : rect_typed ex_clip.
Proof. vm_compute. repeat split; discriminate. Qed.

Lemma clip_setting_exact_witness :
  validate_clip_setting ex_clip ex_main = true <->
  0 <= 100 /\ 100 + 320 <= 1280 /\ 0 <= 50 /\ 50 + 240 <= 960.
Proof.
  apply (clip_setting_exact ex_clip ex_main ex_clip_typed). vm_compute. repeat split; discriminate.
Defined.

Lemma clipped_format_fits_witness :
  exists w h, get_clipped_format 2 ex_main ex_sub ex_clip =
      Ret [mk_format 320 240 V4L2_PIX_FMT_JPEG_WITH_SUBIMG; mk_format w h V4L2_PIX_FMT_UYVY] /\
    w = 160 * 320 / 1280 /\ h = 120 * 240 / 960 /\ 0 <= w <= 160 /\ 0 <= h <= 120 /\
    320 <= 1280 /\ 240 <= 960.
Proof.
  apply (clipped_format_fits ex_main ex_sub ex_clip ex_clip_typed); try reflexivity;
    vm_compute; repeat split; discriminate.
Defined.

Definition ex_sel : selection := mk_sel 1 (mk_rect 0 0 160 120).
Definition ex_selected : vdrv :=
  match video_s_selection (Some ex_sel) ex_open with Ret (_, d) => d | _ => ex_open end.

Lemma selection_roundtrip_witness :
  (OK = OK -> video_g_selection (Some (mk_sel 1 zero_rect)) ex_selected =
                Ret ((OK, Some (mk_sel 1 (mk_rect 0 0 160 120))), ex_selected) /\
             validate_clip_setting (mk_rect 0 0 160 120) (fmt_main (inf SVideo ex_open)) = true /\
             ti_state (inf SVideo ex_open) = VIDEO_STATE_STREAMOFF) /\
  (OK <> OK -> video_inf ex_selected = video_inf ex_open /\ still_inf ex_selected = still_inf ex_open).
Proof.
  apply (selection_roundtrip ex_sel (mk_sel 1 zero_rect) SVideo ex_open OK ex_selected eq_refl eq_refl).
  vm_compute. reflexivity.
Defined.

(** Open, a thread waiting for a frame, and closed under it. *)

Lemma close_reopen_witness :
  exists d', video_close (s_drv (ex_state ex_actions)) = Ret (ERROR, d') /\
    closed (s_drv (ex_state ex_actions)) d' /\
    forall o, find_available (hist d') (g_video_registered_sensor d') = Some o ->
      devices_ok (set_sensor (Some o) d') o ex_data ->
      so_init o (hist d') = OK -> do_init ex_data (SensorInit :: hist d') = OK ->
      exists d'', video_open d' = Ret (OK, d'') /\ open_num d'' = 1 /\
        sys_inv (mk_sys d'' (fun _ => false)).
Proof.
  destruct (reachable_inv ex_stack ex_drv ex_open ex_cam ex_data (ex_state ex_actions)
    ex_ready ex_opened) as [[A Hrep] Hl]; [apply ex_reach; eexists; vm_compute; reflexivity|].
  apply (close_reopen (in_dq (ex_state ex_actions))); [by eapply inv_intro|vm_compute; reflexivity..|].
  apply (bool_decide_unpack _). vm_compute. exact I.
Defined.

Lemma close_results_witness :
  (1 < open_num ex_drv < 256 -> exists d', video_close ex_drv = Ret (ERROR, d') /\
     open_num d' = open_num ex_drv - 1 /\ lock_open_num d' = 1) /\
  (open_num ex_drv = 0 -> exists d', video_close ex_drv = Ret (OK, d') /\
     video_open d' = Blocked /\ video_close d' = Blocked).
Proof. apply (close_results ex_drv). reflexivity. Defined.

(** "/dev/video" *)

Definition ex_path : cbuf := cbuf_of_list [47; 100; 101; 118; 47; 118; 105; 100; 101; 111; 0].
Definition ex_module : vmodule := mk_module false None [].
Definition ex_registered : vmodule :=
  match video_initialize true true (fun _ => 0) (Some ex_path) ex_module with
  | Ret (_, m) => m
  | _ => ex_module
  end.

Lemma initialize_uninitialize_witness :
  OK = OK /\ is_initialized ex_registered = true /\
  video_initialize true true (fun _ => 0) None ex_registered = Ret (OK, ex_registered) /\
  video_uninitialize ex_registered = Ret (OK, ex_registered).
Proof.
  apply (initialize_uninitialize true true (fun _ => 0) (Some ex_path) ex_module OK ex_registered).
  vm_compute. reflexivity.
Defined.

Lemma register_reads_past_path_witness :
  video_register true true (fun _ => 0) (Some (cbuf_of_list ((47 :: replicate 30 97) ++ [0])))
  = Ub OutOfBounds.
Proof.
  apply (register_reads_past_path (47 :: replicate 30 97)); [reflexivity| |reflexivity].
  apply Forall_cons. split; [lia|]. apply Forall_replicate. lia.
Defined.

End VideoSettings.
