(* ===== verification/Detect.v ===== *)
(** * Detection of a person and control of the fence

    [src/sprefence/diff_ditect/diff_ditect_main.c]: the centre of what is
    darker or of skin colour against the reference picture, the hazard area,
    the fence, and the main loop. *)

From Stdlib Require Import SpecFloat.
From S2P Require Import Prelude.

Module Detect.

(** ** Constants *)

Definition VIDEO_HSIZE_QVGA : Z := 320.
Definition VIDEO_VSIZE_QVGA : Z := 240.
Definition FSIZE : Z := VIDEO_HSIZE_QVGA * VIDEO_VSIZE_QVGA * 2.
Definition YWIDTH : Z := VIDEO_HSIZE_QVGA.
Definition YHEIGHT : Z := VIDEO_VSIZE_QVGA.
Definition UVWIDTH : Z := VIDEO_HSIZE_QVGA / 2.
Definition UVHEIGHT : Z := VIDEO_VSIZE_QVGA.
Definition UCENTER : Z := 157.
Definition VCENTER : Z := 110.
Definition URANGE : Z := 20.
Definition VRANGE : Z := 25.
Definition FENCE_ON_DURATION : Z := 30.

(** ** Centres of weight *)

(** The nested loops over an image of [h] rows and [w] columns. *)

Definition rows {A} (h w : Z) (body : Z -> Z -> A -> outcome A) (a : A) : outcome A :=
  for_loop (Z.to_nat h) 0 (fun i => for_loop (Z.to_nat w) 0 (body i)) a.

(** [weight], [x_sum], [y_sum].  Differences, products and squares of bytes
    stay far inside [int]; the sums need not. *)

Record sums := mk_sums { s_weight : Z; s_x : Z; s_y : Z }.

Definition add_weighted (tmp i j : Z) (a : sums) : outcome sums :=
  w ← int_ (s_weight a + tmp);
  px ← int_ (tmp * j);
  x ← int_ (s_x a + px);
  py ← int_ (tmp * i);
  y ← int_ (s_y a + py);
  Ret (mk_sums w x y).

Definition diff_pixel (pic cam : cbuf) (i j : Z) (diff : Z) : outcome Z :=
  p ← cb_read pic (2 * (YWIDTH * i + j));
  c ← cb_read cam (2 * (YWIDTH * i + j) + 1);
  int_ (diff + (p - c)).

Definition black_pixel (diff : Z) (pic cam : cbuf) (i j : Z) (a : sums) : outcome sums :=
  c ← cb_read cam (2 * (YWIDTH * i + j) + 1);
  t ← int_ (c + diff);
  p ← cb_read pic (2 * (YWIDTH * i + j) + 1);
  tmp ← int_ (t - p);
  add_weighted (if tmp <? 25 then 0 else tmp) i j a.

Definition find_black_center (pic cam : cbuf) : outcome (Z * Z) :=
  sum ← rows YHEIGHT YWIDTH (diff_pixel pic cam) 0;
  let diff := Z.quot sum (YHEIGHT * YWIDTH) in
  a ← rows YHEIGHT YWIDTH (black_pixel diff pic cam) (mk_sums 0 0 0);
  if s_weight a <=? 0 then Ret (-1, -1)
  else Ret (Z.quot (s_x a) (s_weight a), Z.quot (s_y a) (s_weight a)).

Definition is_skin (u v : Z) : bool :=
  negb ((u <? UCENTER - URANGE) || (UCENTER + URANGE <? u))
  && negb ((v <? VCENTER - VRANGE) || (VCENTER + VRANGE <? v)).

Definition skin_pixel (pic cam : cbuf) (i j : Z) (a : sums) : outcome sums :=
  u ← cb_read cam (4 * (YWIDTH * i + j));
  v ← cb_read cam (4 * (YWIDTH * i + j) + 2);
  if is_skin u v then
    up ← cb_read pic (4 * (YWIDTH * i + j));
    vp ← cb_read pic (4 * (YWIDTH * i + j) + 2);
    add_weighted ((u - up) * (u - up) + (v - vp) * (v - vp)) i j a
  else Ret a.

Definition find_skin_center (pic cam : cbuf) : outcome (Z * Z) :=
  a ← rows UVHEIGHT UVWIDTH (skin_pixel pic cam) (mk_sums 0 0 0);
  if s_weight a <=? 0 then Ret (-1, -1)
  else Ret (Z.quot (s_x a) (s_weight a) * 2, Z.quot (s_y a) (s_weight a)).

(** ** The hazard area *)

(** IEEE arithmetic of the target: [float] and [double]. *)

Definition float_of_int (z : Z) : spec_float := binary_normalize 24 128 z 0 false.
Definition double_of_int (z : Z) : spec_float := binary_normalize 53 1024 z 0 false.

Definition double_of_float (f : spec_float) : spec_float :=
  match f with
  | S754_finite s m e => binary_normalize 53 1024 (cond_Zopp s (Z.pos m)) e s
  | _ => f
  end.

Definition dadd : spec_float -> spec_float -> spec_float := SFadd 53 1024.
Definition dsub : spec_float -> spec_float -> spec_float := SFsub 53 1024.
Definition dmul : spec_float -> spec_float -> spec_float := SFmul 53 1024.
Definition ddiv : spec_float -> spec_float -> spec_float := SFdiv 53 1024.

(** A division of [float]s by an [int] constant. *)

Definition fdiv (x : spec_float) (n : Z) : spec_float := SFdiv 24 128 x (float_of_int n).

(** The literals [0.001], [1.0]: the nearest [double]. *)

Definition d_milli : spec_float := ddiv (double_of_int 1) (double_of_int 1000).
Definition d_one : spec_float := double_of_int 1.

Record hazard := mk_hazard {
  hazardLT : spec_float; hazardRT : spec_float; hazardLB : spec_float; hazardRB : spec_float }.

Definition default_hazard : hazard :=
  let q n := ddiv (double_of_int n) (double_of_int 4) in
  mk_hazard (q 1) (q 3) (q 1) (q 3).

(** [d > -0.001 && d < 0.001] *)

Definition nearly_zero (d : spec_float) : bool :=
  SFltb (SFopp d_milli) d && SFltb d d_milli.

(** The abscissa of a border at height [y]. *)

Definition border (top bottom y : spec_float) : spec_float :=
  let d := dsub top bottom in
  if nearly_zero d then bottom else dadd bottom (dmul (ddiv d_one d) y).

Definition IsHazard (h : hazard) (x y : spec_float) : bool :=
  let x := double_of_float x in
  let y := double_of_float y in
  if SFltb x (border (hazardLT h) (hazardLB h) y) then true
  else if SFltb (border (hazardRT h) (hazardRB h) y) x then true
  else false.

(** ** The fence *)

Inductive pin := PIN_SPI4_SCK | PIN_SPI4_MISO.

#[global] Instance pin_eq_dec : EqDecision pin.
Proof. solve_decision. Defined.

Inductive event :=
  | GpioConfig (p : pin) (mode : Z) (input drive : bool) (pull : Z)
  | Gpio (p : pin) (value : Z)
  | Usleep (us : Z)
  | RemoveSwitch.

(** The driving strength [PIN_FLOAT] is defined with the chip. *)

Definition GPIO_init (PIN_FLOAT : Z) : list event :=
  [GpioConfig PIN_SPI4_SCK 0 false false PIN_FLOAT;
   GpioConfig PIN_SPI4_MISO 0 false true PIN_FLOAT;
   Gpio PIN_SPI4_SCK 1; Gpio PIN_SPI4_MISO 1].

Definition Fence_on : list event :=
  [Gpio PIN_SPI4_SCK 0; Gpio PIN_SPI4_MISO 0; Usleep (100 * 1000); Gpio PIN_SPI4_MISO 1;
   Usleep (FENCE_ON_DURATION * 1000 * 1000);
   Gpio PIN_SPI4_MISO 0; Usleep (100 * 1000); Gpio PIN_SPI4_MISO 1].

Definition Fence_off : list event := [Gpio PIN_SPI4_SCK (-1)].

(** ** The main loop *)

Definition lit_on : list Z := [111; 110; 0].
Definition lit_off : list Z := [111; 102; 102; 0].

(** The local variables of [main]; [st_pic] is what [pic] points to. *)

Record detector := mk_detector {
  isLoaded : bool; isOn : bool; st_i : Z; bx : Z; by_ : Z; sx : Z; sy : Z; st_pic : option cbuf }.

Definition start : detector := mk_detector false false 0 (-1) (-1) (-1) (-1) None.

(** What one pass of the loop meets: the switch file (its bytes), the stack
    bytes under [cbuff], the result of [load_pic], of [set_camimage], and the
    frame of [get_camimage] ([None] is [NULL]). *)

Record world := mk_world {
  w_switch : option (list Z); w_stack : list Z; w_pic : option cbuf; w_set : Z;
  w_cam : option cbuf }.

Inductive pass :=
  | Next (st : detector) (tr : list event)
  | Return (ret : Z) (tr : list event).

Definition cbuff (w : world) (content : list Z) : list Z :=
  take 5 content ++ drop (length (take 5 content)) (w_stack w).

Definition set_on (b : bool) (st : detector) : detector :=
  mk_detector (isLoaded st) b (st_i st) (bx st) (by_ st) (sx st) (sy st) (st_pic st).

(** [pic = load_pic(&err)]: a failed load returns a null pointer. *)

Definition set_pic (p : option cbuf) (st : detector) : detector :=
  mk_detector (isLoaded st) (isOn st) (st_i st) (bx st) (by_ st) (sx st) (sy st) p.

Definition set_loaded (st : detector) : detector :=
  mk_detector true (isOn st) (st_i st) (bx st) (by_ st) (sx st) (sy st) (st_pic st).

(** [i += 1; i %= 60; usleep(1000000)] *)

Definition end_pass (st : detector) (tr : list event) : pass :=
  Next (mk_detector (isLoaded st) (isOn st) (Z.rem (st_i st + 1) 60) (bx st) (by_ st) (sx st)
          (sy st) (st_pic st)) (tr ++ [Usleep 1000000]).

Definition switch_pass (w : world) (content : list Z) (st : detector) : pass :=
  let b := cbuff w content in
  if str_eq b lit_on 3 then end_pass (set_on true st) (Fence_on ++ [RemoveSwitch])
  else if str_eq b lit_off 4 then end_pass (set_on false st) (Fence_off ++ [RemoveSwitch])
  else end_pass st [RemoveSwitch].

(** The point the two centres stand for. *)

Definition combine (bx by_ sx sy : Z) : option (Z * Z) :=
  if (bx <? 0) && (sx <? 0) then None
  else if bx <? 0 then Some (sx, sy)
  else if sx <? 0 then Some (bx, by_)
  else Some (Z.quot (bx + sx) 2, Z.quot (by_ + sy) 2).

(** Drive the fence: [fx] and [fy] are computed and not used. *)

Definition drive (h : hazard) (pt : Z * Z) (on : bool) : bool * list event :=
  if IsHazard h (float_of_int pt.1) (float_of_int pt.2)
  then (true, if on then [] else Fence_on)
  else (false, if on then Fence_off else []).

Definition camera_pass (h : hazard) (w : world) (st : detector) : outcome pass :=
  if w_set w <? 0 then Ret (Return (w_set w) [])
  else
    match st_pic st, w_cam w with
    | Some pic, Some cam =>
      '(bx', by') ← find_black_center pic cam;
      '(sx', sy') ← find_skin_center pic cam;
      let '(on, tr) :=
        match combine bx' by' sx' sy' with
        | None => (isOn st, [])
        | Some pt => drive h pt (isOn st)
        end in
      Ret (end_pass (mk_detector (isLoaded st) on (st_i st) bx' by' sx' sy' (st_pic st))
             (Usleep 1000 :: replicate (Z.to_nat UVHEIGHT) (Usleep 10000) ++ tr))
    | _, _ => Ub NullDeref
    end.

Definition detect_pass (h : hazard) (w : world) (st : detector) : outcome pass :=
  match w_switch w with
  | Some content => Ret (switch_pass w content st)
  | None =>
    if negb (isLoaded st) || (st_i st =? 0) then
      match w_pic w with
      | None => Ret (Next (set_pic None st) [])
      | Some pic => camera_pass h w (set_loaded (set_pic (Some pic) st))
      end
    else camera_pass h w st
  end.

(** The loop over a sequence of worlds. *)

Fixpoint detect_loop (h : hazard) (ws : list world) (st : detector) (tr : list event) :
    outcome pass :=
  match ws with
  | [] => Ret (Next st tr)
  | w :: rest =>
    p ← detect_pass h w st;
    match p with
    | Next st' tr' => detect_loop h rest st' (tr ++ tr')
    | Return r tr' => Ret (Return r (tr ++ tr'))
    end
  end.

End Detect.
