(* ===== verification/DetectProps.v ===== *)
(** * Correctness of the detector

    The centres of weight against their definition, the bounds under which no
    sum overflows, the hazard area, the fence as a state machine. *)

From Stdlib Require Import SpecFloat.
From S2P Require Import Prelude Detect.
Import Detect.

Module DetectProps.

(** ** Sums over an image *)

Fixpoint zsum (n : nat) (f : Z -> Z) : Z :=
  match n with O => 0 | S n' => zsum n' f + f (Z.of_nat n') end.

Definition image_sum (h w : Z) (f : Z -> Z -> Z) : Z :=
  zsum (Z.to_nat h) (fun i => zsum (Z.to_nat w) (f i)).

Lemma zsum_nonneg n f : (forall k, 0 <= k < Z.of_nat n -> 0 <= f k) -> 0 <= zsum n f.
Proof.
  induction n as [|n IH]; intros H; simpl; [lia|].
  pose proof (H (Z.of_nat n) ltac:(lia)). assert (0 <= zsum n f) by (apply IH; intros; apply H; lia). lia.
Qed.

Lemma zsum_le_total n m f : (n <= m)%nat -> (forall k, 0 <= k < Z.of_nat m -> 0 <= f k) ->
  zsum n f <= zsum m f.
Proof.
  intros Hle. induction Hle as [|m Hle IH]; intros H; simpl; [lia|].
  pose proof (H (Z.of_nat m) ltac:(lia)). assert (zsum n f <= zsum m f) by (apply IH; intros; apply H; lia). lia.
Qed.

Lemma zsum_ext n f g : (forall k, 0 <= k < Z.of_nat n -> f k = g k) -> zsum n f = zsum n g.
Proof.
  induction n as [|n IH]; intros H; simpl; [done|].
  rewrite IH by (intros; apply H; lia). by rewrite H by lia.
Qed.

Lemma zsum_bound n f a b : (forall k, 0 <= k < Z.of_nat n -> a <= f k <= b) ->
  Z.of_nat n * a <= zsum n f <= Z.of_nat n * b.
Proof.
  induction n as [|n IH]; intros H; simpl; [lia|].
  pose proof (H (Z.of_nat n) ltac:(lia)). assert (Z.of_nat n * a <= zsum n f <= Z.of_nat n * b)
    by (apply IH; intros; apply H; lia). lia.
Qed.

(** [for] loops that accumulate a sum inside a bound. *)

Lemma for_loop_zsum {A} n (body : Z -> A -> outcome A) (step : Z -> A -> A) a
    (P : nat -> A -> Prop) :
  P 0%nat a ->
  (forall k x, (k < n)%nat -> P k x -> body (Z.of_nat k) x = Ret (step (Z.of_nat k) x) /\
     P (S k) (step (Z.of_nat k) x)) ->
  exists a', for_loop n 0 body a = Ret a' /\ P n a'.
Proof.
  intros H0 Hs.
  destruct (for_loop_inv (fun i x => exists k, i = Z.of_nat k /\ P k x) n 0 body a)
    as (a' & Hr & k & Hk & Hp).
  - by exists 0%nat.
  - intros j x Hj (k & -> & Hp). destruct (Hs k x) as [Hb Hp']; [lia|done|].
    eexists. split; [exact Hb|]. exists (S k). split; [lia|done].
  - exists a'. split; [done|]. assert (k = n) as -> by lia. done.
Qed.

(** ** Weighted sums of a nonnegative weight *)

(** The invariant of the loops: sums of a weight so far, with coordinates up to [m]. *)

Definition inside (m : Z) (a : sums) : Prop :=
  0 <= s_weight a /\ 0 <= s_x a <= m * s_weight a /\ 0 <= s_y a <= m * s_weight a.

Section Weighted.

Context (h w m : Z) (f : Z -> Z -> Z) (body : Z -> Z -> sums -> outcome sums).
Context (Hh : 0 <= h <= m + 1) (Hw : 0 <= w <= m + 1) (Hm : 1 <= m).
Context (Hf : forall i j, 0 <= i < h -> 0 <= j < w -> 0 <= f i j).
Context (Hbody : forall i j a, 0 <= i < h -> 0 <= j < w -> inside m a ->
  s_weight a * m <= INT_MAX -> body i j a = add_weighted (f i j) i j a).

(** One addition inside the bound. *)

Lemma add_weighted_ok v i j a :
  0 <= v -> 0 <= i <= m -> 0 <= j <= m -> 0 <= s_weight a ->
  0 <= s_x a <= m * s_weight a -> 0 <= s_y a <= m * s_weight a ->
  (s_weight a + v) * m <= INT_MAX ->
  add_weighted v i j a = Ret (mk_sums (s_weight a + v) (s_x a + v * j) (s_y a + v * i)).
Proof using Hm.
  clear Hh Hw Hf Hbody. intros Hv Hi Hj Hwt Hx Hy Hb. unfold add_weighted.
  assert (0 <= v * j <= v * m) by nia. assert (0 <= v * i <= v * m) by nia.
  assert (s_weight a + v <= INT_MAX) by nia. unfold INT_MAX in *.
  rewrite int_ok by (unfold INT_MIN, INT_MAX; lia). cbn [mbind outcome_bind].
  rewrite int_ok by (unfold INT_MIN, INT_MAX; nia). cbn [mbind outcome_bind].
  rewrite int_ok by (unfold INT_MIN, INT_MAX; nia). cbn [mbind outcome_bind].
  rewrite int_ok by (unfold INT_MIN, INT_MAX; nia). cbn [mbind outcome_bind].
  by rewrite int_ok by (unfold INT_MIN, INT_MAX; nia).
Qed.

Lemma weighted_row i a :
  0 <= i < h -> inside m a -> (s_weight a + zsum (Z.to_nat w) (f i)) * m <= INT_MAX ->
  exists b, for_loop (Z.to_nat w) 0 (body i) a = Ret b /\ inside m b /\
    b = mk_sums (s_weight a + zsum (Z.to_nat w) (f i))
                (s_x a + zsum (Z.to_nat w) (fun j => f i j * j))
                (s_y a + zsum (Z.to_nat w) (fun j => f i j * i)).
Proof using All.
  intros Hi Ha Hb. set (n := Z.to_nat w) in *.
  destruct (for_loop_zsum n (body i)
    (fun j a => mk_sums (s_weight a + f i j) (s_x a + f i j * j) (s_y a + f i j * i)) a
    (fun k b => inside m b /\ b = mk_sums (s_weight a + zsum k (f i))
       (s_x a + zsum k (fun j => f i j * j)) (s_y a + zsum k (fun j => f i j * i))))
    as (b & Hr & Hin & ->); [|intros k x Hk [Hin Ex]|by eexists].
  - simpl. rewrite !Z.add_0_r. by destruct a.
  - assert (Hv : 0 <= f i (Z.of_nat k)) by (apply Hf; lia).
    assert (Hle : s_weight x + f i (Z.of_nat k) <= s_weight a + zsum n (f i)).
    { subst x. cbn [s_weight]. transitivity (s_weight a + zsum (S k) (f i)); [simpl; lia|].
      apply Zplus_le_compat_l, zsum_le_total; [lia|]. intros; apply Hf; lia. }
    rewrite Hbody; [|lia|lia|done|nia].
    destruct Hin as (H1 & H2 & H3). rewrite add_weighted_ok; try lia; [|nia].
    split; [done|]. split.
    + unfold inside. cbn [s_weight s_x s_y]. split_and!; nia.
    + subst x. cbn [s_weight s_x s_y zsum]. f_equal; lia.
Qed.

Lemma weighted_rows :
  image_sum h w f * m <= INT_MAX ->
  rows h w body (mk_sums 0 0 0) =
    Ret (mk_sums (image_sum h w f) (image_sum h w (fun i j => f i j * j))
           (image_sum h w (fun i j => f i j * i))).
Proof using All.
  intros Hb. unfold rows. set (n := Z.to_nat h).
  set (g := fun i => zsum (Z.to_nat w) (f i)).
  assert (Hg : forall k, 0 <= k < h -> 0 <= g k) by (intros; apply zsum_nonneg; intros; apply Hf; lia).
  destruct (for_loop_inv (fun i a => inside m a /\ 0 <= i /\ a = mk_sums (zsum (Z.to_nat i) g)
      (zsum (Z.to_nat i) (fun i => zsum (Z.to_nat w) (fun j => f i j * j)))
      (zsum (Z.to_nat i) (fun i => zsum (Z.to_nat w) (fun j => f i j * i)))) n 0
      (fun i => for_loop (Z.to_nat w) 0 (body i)) (mk_sums 0 0 0)) as (a & Hr & _ & _ & ->).
  - split; [unfold inside; simpl; lia|]. done.
  - intros i x Hi (Hin & _ & Ex).
    assert (Hs : Z.to_nat (i + 1) = S (Z.to_nat i)) by lia.
    assert (Hle : s_weight x + g i <= image_sum h w f).
    { subst x. cbn [s_weight]. transitivity (zsum (S (Z.to_nat i)) g).
      - simpl. rewrite Z2Nat.id by lia. lia.
      - apply zsum_le_total; [lia|]. intros k Hk. apply Hg. lia. }
    destruct (weighted_row i x) as (b & Hrow & Hin' & Eb); [lia|done|fold (g i); nia|].
    exists b. split; [exact Hrow|]. split; [done|]. split; [lia|].
    rewrite Eb, Ex, Hs. cbn [zsum s_weight s_x s_y]. by rewrite Z2Nat.id by lia.
  - rewrite Hr. subst n. by rewrite Z.add_0_l, Nat2Z.id.
Qed.

(** The centre lies inside the image. *)

Lemma image_sum_scaled (c : Z -> Z -> Z) b :
  (forall i j, 0 <= i < h -> 0 <= j < w -> 0 <= c i j <= b) ->
  0 <= image_sum h w (fun i j => f i j * c i j) <= image_sum h w f * b.
Proof using Hf.
  clear Hh Hw Hm Hbody. intros Hc. unfold image_sum.
  assert (Hrow : forall i n, 0 <= i < h -> (Z.of_nat n <= w) ->
    0 <= zsum n (fun j => f i j * c i j) <= zsum n (f i) * b).
  { intros i n Hi Hn. induction n as [|n IH]; simpl; [lia|].
    pose proof (Hf i (Z.of_nat n) ltac:(lia) ltac:(lia)).
    pose proof (Hc i (Z.of_nat n) ltac:(lia) ltac:(lia)). specialize (IH ltac:(lia)). nia. }
  assert (Hall : forall n, (Z.of_nat n <= Z.max h 0) ->
    0 <= zsum n (fun i => zsum (Z.to_nat w) (fun j => f i j * c i j)) <=
      zsum n (fun i => zsum (Z.to_nat w) (f i)) * b).
  { intros n Hn. induction n as [|n IH]; simpl; [lia|].
    destruct (decide (0 <= w)) as [Hw0|Hw0].
    - pose proof (Hrow (Z.of_nat n) (Z.to_nat w) ltac:(lia) ltac:(lia)). specialize (IH ltac:(lia)). lia.
    - replace (Z.to_nat w) with 0%nat in * by lia. simpl in *. specialize (IH ltac:(lia)). lia. }
  apply Hall. lia.
Qed.

End Weighted.

(** A plain sum of small terms. *)

Lemma plain_rows h w (g : Z -> Z -> Z) (body : Z -> Z -> Z -> outcome Z) :
  0 <= h <= 1024 -> 0 <= w <= 1024 ->
  (forall i j, 0 <= i < h -> 0 <= j < w -> -255 <= g i j <= 255) ->
  (forall i j d, 0 <= i < h -> 0 <= j < w -> body i j d = int_ (d + g i j)) ->
  rows h w body 0 = Ret (image_sum h w g).
Proof.
  intros Hh Hw Hg Hb. unfold rows.
  set (r := fun i => zsum (Z.to_nat w) (g i)).
  assert (Hr : forall i n, 0 <= i < h -> Z.of_nat n <= w ->
    Z.of_nat n * -255 <= zsum n (g i) <= Z.of_nat n * 255)
    by (intros; apply zsum_bound; intros; apply Hg; lia).
  destruct (for_loop_inv (fun i d => 0 <= i /\ d = zsum (Z.to_nat i) r) (Z.to_nat h) 0
    (fun i => for_loop (Z.to_nat w) 0 (body i)) 0) as (d & Hrun & _ & ->); [done| |].
  - intros i d Hi [_ ->]. set (d0 := zsum (Z.to_nat i) r).
    assert (Hd0 : -1024 * 1024 * 255 <= d0 <= 1024 * 1024 * 255).
    { destruct (zsum_bound (Z.to_nat i) r (w * -255) (w * 255)) as [H1 H2].
      - intros k Hk. subst r. cbv beta. pose proof (Hr k (Z.to_nat w) ltac:(lia) ltac:(lia)). lia.
      - fold d0 in H1, H2. nia. }
    destruct (for_loop_inv (fun j d => 0 <= j /\ d = d0 + zsum (Z.to_nat j) (g i)) (Z.to_nat w) 0
      (body i) d0) as (d & Hrow & _ & ->); [split; [done|simpl; lia]| |].
    + intros j d Hj [_ ->]. assert (Hs : Z.to_nat (j + 1) = S (Z.to_nat j)) by lia.
      eexists. rewrite Hb by lia. pose proof (Hr i (Z.to_nat j) ltac:(lia) ltac:(lia)).
      pose proof (Hg i j ltac:(lia) ltac:(lia)).
      rewrite int_ok by (unfold INT_MIN, INT_MAX; nia). split; [reflexivity|]. split; [lia|].
      rewrite Hs. cbn [zsum]. rewrite Z2Nat.id by lia. lia.
    + rewrite Z.add_0_l, Nat2Z.id in Hrow. exists (d0 + r i). split; [exact Hrow|].
      split; [lia|]. replace (Z.to_nat (i + 1)) with (S (Z.to_nat i)) by lia.
      cbn [zsum]. by rewrite Z2Nat.id by lia.
  - rewrite Hrun. by rewrite Z.add_0_l, Nat2Z.id.
Qed.

(** ** The centre of what became darker *)

(** The mean difference the code computes (the first byte of a pixel of the
    picture against the second of the frame), and the weight of a pixel. *)

Definition mean_diff (pic cam : cbuf) : Z :=
  Z.quot (image_sum YHEIGHT YWIDTH (fun i j =>
    cb_at pic (2 * (YWIDTH * i + j)) - cb_at cam (2 * (YWIDTH * i + j) + 1))) (YHEIGHT * YWIDTH).

Strategy expand [mean_diff].
Strategy 100 [Z.quot image_sum zsum rows for_loop].

Definition black_weight (pic cam : cbuf) (i j : Z) : Z :=
  let k := 2 * (YWIDTH * i + j) + 1 in
  let t := cb_at cam k + mean_diff pic cam - cb_at pic k in
  if t <? 25 then 0 else t.

Definition frame_ok (b : cbuf) : Prop := FSIZE <= cb_len b /\ cbuf_bytes b.

Lemma mean_diff_range pic cam : frame_ok pic -> frame_ok cam -> -255 <= mean_diff pic cam <= 255.
Proof.
  intros [Lp Bp] [Lc Bc]. unfold FSIZE, VIDEO_HSIZE_QVGA, VIDEO_VSIZE_QVGA in *. unfold mean_diff.
  set (g := fun i j => _). set (T := image_sum _ _ g).
  assert (HT : 76800 * -255 <= T <= 76800 * 255).
  { subst T. unfold image_sum, YHEIGHT, YWIDTH, VIDEO_HSIZE_QVGA, VIDEO_VSIZE_QVGA in *.
    change (Z.to_nat 320) with 320%nat. change (Z.to_nat 240) with 240%nat.
    destruct (zsum_bound 240 (fun i => zsum 320 (g i)) (320 * -255) (320 * 255)) as [H1 H2]; [|lia].
    intros i Hi. apply (zsum_bound 320 (g i)). intros j Hj. subst g. cbv beta.
    pose proof (Bp (2 * (320 * i + j)) ltac:(lia)). pose proof (Bc (2 * (320 * i + j) + 1) ltac:(lia)). lia. }
  change (YHEIGHT * YWIDTH) with 76800. split.
  - change (-255) with (Z.quot (76800 * -255) 76800). apply Z.quot_le_mono; lia.
  - change 255 with (Z.quot (76800 * 255) 76800). apply Z.quot_le_mono; lia.
Qed.

Lemma frame_read b i j k : frame_ok b -> 0 <= i < YHEIGHT -> 0 <= j < YWIDTH -> 0 <= k <= 1 ->
  cb_read b (2 * (YWIDTH * i + j) + k) = Ret (cb_at b (2 * (YWIDTH * i + j) + k)) /\
  0 <= cb_at b (2 * (YWIDTH * i + j) + k) < 256.
Proof.
  unfold frame_ok, FSIZE, YHEIGHT, YWIDTH, VIDEO_HSIZE_QVGA, VIDEO_VSIZE_QVGA.
  intros [L B] Hi Hj Hk. split; [apply cb_read_ok; lia|apply B; lia].
Qed.

Lemma black_rows pic cam :
  frame_ok pic -> frame_ok cam ->
  image_sum YHEIGHT YWIDTH (black_weight pic cam) * 319 <= INT_MAX ->
  rows YHEIGHT YWIDTH (diff_pixel pic cam) 0 =
    Ret (image_sum YHEIGHT YWIDTH (fun i j =>
      cb_at pic (2 * (YWIDTH * i + j)) - cb_at cam (2 * (YWIDTH * i + j) + 1))) /\
  rows YHEIGHT YWIDTH (black_pixel (mean_diff pic cam) pic cam) (mk_sums 0 0 0) =
    Ret (mk_sums (image_sum YHEIGHT YWIDTH (black_weight pic cam))
           (image_sum YHEIGHT YWIDTH (fun i j => black_weight pic cam i j * j))
           (image_sum YHEIGHT YWIDTH (fun i j => black_weight pic cam i j * i))).
Proof.
  intros Hp Hc Hb. split.
  - apply plain_rows; [done|done| |].
    + intros i j Hi Hj. pose proof (frame_read pic i j 0 Hp Hi Hj ltac:(lia)) as [_ H1].
      pose proof (frame_read cam i j 1 Hc Hi Hj ltac:(lia)) as [_ H2]. rewrite Z.add_0_r in H1. lia.
    + intros i j d Hi Hj. unfold diff_pixel.
      pose proof (frame_read pic i j 0 Hp Hi Hj ltac:(lia)) as [H1 _]. rewrite Z.add_0_r in H1.
      pose proof (frame_read cam i j 1 Hc Hi Hj ltac:(lia)) as [H2 _]. by rewrite H1, H2.
  - pose proof (mean_diff_range pic cam Hp Hc).
    apply (weighted_rows YHEIGHT YWIDTH 319 (black_weight pic cam));
      [unfold YHEIGHT, VIDEO_VSIZE_QVGA; lia|unfold YWIDTH, VIDEO_HSIZE_QVGA; lia|lia| | |exact Hb].
    + intros i j Hi Hj. unfold black_weight. case_match eqn:E; to_prop; lia.
    + intros i j a Hi Hj _ _. unfold black_pixel.
      destruct (frame_read pic i j 1 Hp Hi Hj ltac:(lia)) as [E1 R1].
      destruct (frame_read cam i j 1 Hc Hi Hj ltac:(lia)) as [E2 R2].
      rewrite E2. cbn [mbind outcome_bind]. rewrite int_ok by (unfold INT_MIN, INT_MAX; lia).
      cbn [mbind outcome_bind]. rewrite E1. cbn [mbind outcome_bind].
      rewrite int_ok by (unfold INT_MIN, INT_MAX; lia). done.
Qed.

Lemma black_run pic cam :
  frame_ok pic -> frame_ok cam ->
  image_sum YHEIGHT YWIDTH (black_weight pic cam) * 319 <= INT_MAX ->
  find_black_center pic cam =
    if image_sum YHEIGHT YWIDTH (black_weight pic cam) <=? 0 then Ret (-1, -1)
    else Ret (Z.quot (image_sum YHEIGHT YWIDTH (fun i j => black_weight pic cam i j * j))
                (image_sum YHEIGHT YWIDTH (black_weight pic cam)),
              Z.quot (image_sum YHEIGHT YWIDTH (fun i j => black_weight pic cam i j * i))
                (image_sum YHEIGHT YWIDTH (black_weight pic cam))).
Proof.
  intros Hp Hc Hb. destruct (black_rows pic cam Hp Hc Hb) as [E1 E2].
  unfold find_black_center. rewrite E1. cbn [mbind outcome_bind].
  unfold mean_diff in E2. rewrite E2. cbn [mbind outcome_bind s_weight s_x s_y]. exact eq_refl.
Qed.

(** A centre of weight, from its three sums. *)

Lemma centre_bounds W X Y w h k :
  0 <= W -> 0 <= X <= W * (w - 1) -> 0 <= Y <= W * (h - 1) ->
  (W = 0 -> (if W <=? 0 then Ret (-1, -1) else Ret (Z.quot X W * k, Z.quot Y W)) = Ret (-1, -1)) /\
  (0 < W -> (if W <=? 0 then Ret (-1, -1) else Ret (Z.quot X W * k, Z.quot Y W)) =
              Ret (X / W * k, Y / W) /\ 0 <= X / W < w /\ 0 <= Y / W < h) /\ 0 <= W.
Proof.
  intros HW HX HY. split_and!; [by intros ->|intros HW1|done].
  rewrite (proj2 (Z.leb_gt W 0)) by lia. rewrite !Z.quot_div_nonneg by lia. split; [done|].
  split; (split; [apply Z.div_pos; lia|apply Z.div_lt_upper_bound; lia]).
Qed.

Lemma black_weight_nonneg pic cam i j : 0 <= black_weight pic cam i j.
Proof. unfold black_weight. case_match eqn:E; to_prop; lia. Qed.

(** C39: [find_black_center] computes the centre of weight: on two frames whose
    total change is small enough for the sums to fit [int] (total weight at
    most INT_MAX / 319), no operation overflows or leaves the frames, the
    result is -1, -1 exactly when no pixel changed by 25 or more, and otherwise
    the centre of weight rounded down, which lies in the image. *)
Theorem black_center_correct pic cam W X Y
    (Hp : frame_ok pic) (Hc : frame_ok cam)
    (EW : W = image_sum YHEIGHT YWIDTH (black_weight pic cam))
    (EX : X = image_sum YHEIGHT YWIDTH (fun i j => black_weight pic cam i j * j))
    (EY : Y = image_sum YHEIGHT YWIDTH (fun i j => black_weight pic cam i j * i))
    (Hb : W * 319 <= INT_MAX) :
  (W = 0 -> find_black_center pic cam = Ret (-1, -1)) /\
  (0 < W -> find_black_center pic cam = Ret (X / W, Y / W) /\
            0 <= X / W < YWIDTH /\ 0 <= Y / W < YHEIGHT) /\ 0 <= W.
Proof.
  assert (Hpos : forall i j, 0 <= i < YHEIGHT -> 0 <= j < YWIDTH -> 0 <= black_weight pic cam i j)
    by (intros; apply black_weight_nonneg).
  pose proof (image_sum_scaled _ _ _ Hpos (fun _ j => j) 319) as HX.
  pose proof (image_sum_scaled _ _ _ Hpos (fun i _ => i) 239) as HY.
  cbv beta in HX, HY. rewrite <- EX, <- EW in HX. rewrite <- EY, <- EW in HY.
  rewrite EW in Hb. rewrite (black_run pic cam Hp Hc Hb). rewrite <- EW, <- EX, <- EY.
  clear EW EX EY Hb. unfold YHEIGHT, YWIDTH, VIDEO_HSIZE_QVGA, VIDEO_VSIZE_QVGA in *.
  specialize (HX ltac:(lia)). specialize (HY ltac:(lia)).
  pose proof (centre_bounds W X Y 320 240 1 ltac:(lia) ltac:(lia) ltac:(lia)) as H.
  by rewrite !Z.mul_1_r in H.
Qed.

(** A loop that meets a step without a result has none. *)

Lemma for_loop_stuck {A} n i (body : Z -> A -> outcome A) a k r :
  i <= k < i + Z.of_nat n -> (forall x y, body k x <> Ret y) ->
  for_loop n i body a <> Ret r.
Proof.
  revert i a. induction n as [|n IH]; intros i a Hk Hs; [lia|]. cbn [for_loop].
  destruct (decide (i = k)) as [->|Hne].
  - destruct (body k a) eqn:E; [by destruct (Hs a a0)|done|done].
  - destruct (body i a); [|done|done]. simpl. apply IH; [lia|done].
Qed.

(** [find_skin_center] leaves the frame: it steps through the chroma
    bytes with the stride of a full row of luma, so with a frame of [FSIZE]
    bytes it reads beyond the end from row 120 on and never completes within
    the frame, whatever the frame shows. *)
Theorem skin_center_out_of_frame pic cam (Hlen : cb_len cam = FSIZE) r :
  find_skin_center pic cam <> Ret r.
Proof.
  unfold find_skin_center, rows. intros H.
  set (m := for_loop _ _ _ _) in H.
  assert (Hm : forall a, m <> Ret a).
  { intros a. apply (for_loop_stuck _ _ _ _ 120).
    - unfold UVHEIGHT, VIDEO_VSIZE_QVGA. lia.
    - intros x y. apply (for_loop_stuck _ _ _ _ 0).
      + change (Z.of_nat (Z.to_nat UVWIDTH)) with 160. lia.
      + intros x' y'. unfold skin_pixel. rewrite (cb_read_oob cam (4 * (YWIDTH * 120 + 0))); [done|].
        rewrite Hlen. unfold FSIZE, YWIDTH, VIDEO_HSIZE_QVGA, VIDEO_VSIZE_QVGA. lia. }
  destruct m as [a| |]; [by destruct (Hm a)|done|done].
Qed.

(** ** The centre of skin colour, on memory that covers its reads *)

Definition skin_weight (pic cam : cbuf) (i j : Z) : Z :=
  let k := 4 * (YWIDTH * i + j) in
  let u := cb_at cam k in
  let v := cb_at cam (k + 2) in
  if is_skin u v
  then (u - cb_at pic k) * (u - cb_at pic k) + (v - cb_at pic (k + 2)) * (v - cb_at pic (k + 2))
  else 0.

(** The bytes [find_skin_center] reads. *)

Definition SKIN_SPAN : Z := 4 * (YWIDTH * (UVHEIGHT - 1) + UVWIDTH).

Lemma skin_weight_nonneg pic cam i j : 0 <= skin_weight pic cam i j.
Proof. unfold skin_weight. case_match; [apply Z.add_nonneg_nonneg; apply Z.square_nonneg|lia]. Qed.

Lemma add_zero m i j a : 1 <= m -> inside m a -> s_weight a * m <= INT_MAX ->
  add_weighted 0 i j a = Ret a.
Proof.
  intros Hm (H1 & H2 & H3) Hb.
  assert (s_weight a <= INT_MAX) by nia. assert (INT_MIN <= 0) by done.
  unfold add_weighted. rewrite !Z.mul_0_l, Z.add_0_r.
  rewrite (int_ok (s_weight a)) by lia. cbn [mbind outcome_bind].
  change (int_ 0) with (Ret 0). cbn [mbind outcome_bind].
  rewrite !Z.add_0_r. rewrite (int_ok (s_x a)) by nia. cbn [mbind outcome_bind].
  rewrite (int_ok (s_y a)) by nia. by destruct a.
Qed.

Lemma skin_rows pic cam :
  SKIN_SPAN <= cb_len pic -> SKIN_SPAN <= cb_len cam ->
  image_sum UVHEIGHT UVWIDTH (skin_weight pic cam) * 239 <= INT_MAX ->
  rows UVHEIGHT UVWIDTH (skin_pixel pic cam) (mk_sums 0 0 0) =
    Ret (mk_sums (image_sum UVHEIGHT UVWIDTH (skin_weight pic cam))
           (image_sum UVHEIGHT UVWIDTH (fun i j => skin_weight pic cam i j * j))
           (image_sum UVHEIGHT UVWIDTH (fun i j => skin_weight pic cam i j * i))).
Proof.
  intros Lp Lc Hb. change SKIN_SPAN with 306560 in *.
  apply (weighted_rows UVHEIGHT UVWIDTH 239 (skin_weight pic cam));
    [unfold UVHEIGHT, VIDEO_VSIZE_QVGA; lia|change UVWIDTH with 160; lia|lia| | |exact Hb].
  - intros. apply skin_weight_nonneg.
  - change UVWIDTH with 160. unfold UVHEIGHT, VIDEO_VSIZE_QVGA.
    intros i j a Hi Hj Hin Ha. unfold skin_pixel, skin_weight, YWIDTH, VIDEO_HSIZE_QVGA.
    rewrite !cb_read_ok by lia. cbn [mbind outcome_bind].
    destruct (is_skin _ _); [done|]. symmetry. by apply (add_zero 239).
Qed.

(** Where the memory after the frame can be read, [find_skin_center] is
    the centre of weight of the samples it takes: on buffers that cover all
    its reads and with a total weight of at most INT_MAX / 239, it does not
    overflow and returns -1, -1 when no sample of skin colour changed, and
    otherwise twice the mean column and the mean row of the changed samples. *)
Theorem skin_center_correct pic cam W X Y
    (Hp : SKIN_SPAN <= cb_len pic) (Hc : SKIN_SPAN <= cb_len cam)
    (EW : W = image_sum UVHEIGHT UVWIDTH (skin_weight pic cam))
    (EX : X = image_sum UVHEIGHT UVWIDTH (fun i j => skin_weight pic cam i j * j))
    (EY : Y = image_sum UVHEIGHT UVWIDTH (fun i j => skin_weight pic cam i j * i))
    (Hb : W * 239 <= INT_MAX) :
  (W = 0 -> find_skin_center pic cam = Ret (-1, -1)) /\
  (0 < W -> find_skin_center pic cam = Ret (X / W * 2, Y / W) /\
            0 <= X / W < UVWIDTH /\ 0 <= Y / W < UVHEIGHT) /\ 0 <= W.
Proof.
  assert (Hpos : forall i j, 0 <= i < UVHEIGHT -> 0 <= j < UVWIDTH -> 0 <= skin_weight pic cam i j)
    by (intros; apply skin_weight_nonneg).
  pose proof (image_sum_scaled _ _ _ Hpos (fun _ j => j) 159) as HX.
  pose proof (image_sum_scaled _ _ _ Hpos (fun i _ => i) 239) as HY.
  cbv beta in HX, HY. rewrite <- EX, <- EW in HX. rewrite <- EY, <- EW in HY.
  rewrite EW in Hb. unfold find_skin_center. rewrite (skin_rows pic cam Hp Hc Hb).
  cbn [mbind outcome_bind s_weight s_x s_y]. rewrite <- EW, <- EX, <- EY.
  clear EW EX EY Hb. change UVWIDTH with 160 in *. unfold UVHEIGHT, VIDEO_VSIZE_QVGA in *.
  specialize (HX ltac:(lia)). specialize (HY ltac:(lia)). apply centre_bounds; lia.
Qed.

(** Without that bound the sums do overflow: a bright frame against a dark
    picture with bright chroma makes [x_sum] exceed [int]. *)
Theorem black_center_overflows :
  find_black_center (mk_cbuf FSIZE (fun k => if Z.even k then 255 else 0))
    (mk_cbuf FSIZE (fun _ => 255)) = Ub SignedOverflow.
Proof. vm_compute. reflexivity. Qed.

(** ** The hazard area *)

(** A vertical border is a plain threshold: when top and bottom of both
    borders differ by less than 0.001, a point is in the hazard area exactly
    when it lies left of the left bottom or right of the right bottom value,
    whatever its height. *)
Theorem hazard_vertical h x y
    (HL : nearly_zero (dsub (hazardLT h) (hazardLB h)) = true)
    (HR : nearly_zero (dsub (hazardRT h) (hazardRB h)) = true) :
  IsHazard h x y =
    SFltb (double_of_float x) (hazardLB h) || SFltb (hazardRB h) (double_of_float x).
Proof.
  unfold IsHazard, border. rewrite HL, HR. destruct (SFltb _ _); [done|]. by destruct (SFltb _ _).
Qed.

(** All columns of the image. *)

Definition columns : list Z := Z.of_nat <$> seq 0 320.

Lemma in_columns x : 0 <= x < 320 -> x ∈ columns.
Proof.
  intros Hx. apply list_elem_of_fmap. exists (Z.to_nat x). split; [lia|]. apply elem_of_seq. lia.
Qed.

Lemma columns_check (p : Z -> bool) x : forallb p columns = true -> 0 <= x < 320 -> p x = true.
Proof.
  intros H Hx. rewrite forallb_forall in H. apply H, list_elem_of_In. by apply in_columns.
Qed.

(** With the default settings and coordinates relative to the image
    width, the hazard area is what the settings say: the left quarter and the
    right quarter of the image. *)
Theorem default_hazard_quarters x y (Hx : 0 <= x < VIDEO_HSIZE_QVGA) :
  IsHazard default_hazard (fdiv (float_of_int x) VIDEO_HSIZE_QVGA) y = (x <? 80) || (240 <? x).
Proof.
  rewrite hazard_vertical by (vm_compute; reflexivity).
  apply eqb_prop. revert x Hx.
  change (forall x, 0 <= x < 320 -> (fun x => Bool.eqb
    (SFltb (double_of_float (fdiv (float_of_int x) VIDEO_HSIZE_QVGA)) (hazardLB default_hazard)
     || SFltb (hazardRB default_hazard) (double_of_float (fdiv (float_of_int x) VIDEO_HSIZE_QVGA)))
    ((x <? 80) || (240 <? x))) x = true).
  intros x. apply columns_check. vm_compute. reflexivity.
Qed.

(** The main loop passes pixel coordinates instead of the relative ones
    it has computed, so with the default settings every detected point of the
    image is in the hazard area. *)
Theorem default_hazard_everywhere x y (Hx : 0 <= x < VIDEO_HSIZE_QVGA) on :
  drive default_hazard (x, y) on = (true, if on then [] else Fence_on).
Proof.
  unfold drive. cbn [fst snd]. rewrite hazard_vertical by (vm_compute; reflexivity).
  replace (_ || _) with true; [done|]. symmetry. revert x Hx.
  change (forall x, 0 <= x < 320 -> (fun x =>
    SFltb (double_of_float (float_of_int x)) (hazardLB default_hazard)
    || SFltb (hazardRB default_hazard) (double_of_float (float_of_int x))) x = true).
  intros x. apply columns_check. vm_compute. reflexivity.
Qed.

(** A slanted border does not pass through its own corners: it is drawn
    with the inverse of its slope, so with the left border set from 0.25
    (bottom) to 0.5 (top) the code puts it at 4.25, outside the image, at the
    height where the setting says 0.5. *)
Theorem slanted_border_misses_corner :
  let q n := ddiv (double_of_int n) (double_of_int 4) in
  border (q 2) (q 1) (double_of_int 0) = q 1 /\
  border (q 2) (q 1) (double_of_int 1) = q 17 /\ q 17 <> q 2.
Proof. vm_compute. split_and!; [reflexivity|reflexivity|discriminate]. Qed.

(** ** The fence *)

(** The last value written to a pin. *)

Fixpoint level (p : pin) (tr : list event) (v : option Z) : option Z :=
  match tr with
  | [] => v
  | Gpio q x :: rest => level p rest (if bool_decide (q = p) then Some x else v)
  | _ :: rest => level p rest v
  end.

Lemma level_app p t1 t2 v : level p (t1 ++ t2) v = level p t2 (level p t1 v).
Proof. revert v. induction t1 as [|[| | |] t1 IH]; intros v; simpl; [done|apply IH..]. Qed.

(** The relay is closed exactly when the program believes the fence is on, and
    the strobe line rests at 1. *)

Definition fence_ok (on : bool) (tr : list event) : Prop :=
  (level PIN_SPI4_SCK tr None = Some 0 <-> on = true) /\
  level PIN_SPI4_MISO tr None = Some 1.

(** What a piece of trace does to the fence. *)

Lemma fence_step on tr on' t :
  fence_ok on tr ->
  (forall v, level PIN_SPI4_MISO t (Some v) = Some 1 \/ level PIN_SPI4_MISO t (Some v) = Some v) ->
  (on' = on /\ (forall v, level PIN_SPI4_SCK t v = v) \/
   on' = true /\ (forall v, level PIN_SPI4_SCK t v = Some 0) \/
   on' = false /\ (forall v, level PIN_SPI4_SCK t v = Some (-1))) ->
  fence_ok on' (tr ++ t).
Proof.
  intros [H1 H2] HM HS. unfold fence_ok. rewrite !level_app. split.
  - destruct HS as [[-> HS]|[[-> HS]|[-> HS]]]; rewrite HS; [done|done|]. split; done.
  - rewrite H2. by destruct (HM 1) as [->| ->].
Qed.

Lemma pass_fence h w st st' tr t :
  fence_ok (isOn st) tr -> detect_pass h w st = Ret (Next st' t) -> fence_ok (isOn st') (tr ++ t).
Proof.
  intros Hf. unfold detect_pass.
  assert (Hcam : forall s, isOn s = isOn st -> camera_pass h w s = Ret (Next st' t) ->
    fence_ok (isOn st') (tr ++ t)).
  { intros s Es. unfold camera_pass. destruct (w_set w <? 0); [done|].
    destruct (st_pic s), (w_cam w); try done.
    destruct (find_black_center _ _) as [[b1 b2]| |]; try done. simpl.
    destruct (find_skin_center _ _) as [[s1 s2]| |]; try done. simpl.
    destruct (combine _ _ _ _) as [pt|].
    - unfold drive. destruct (IsHazard _ _ _), (isOn s) eqn:Eo; intros [= <- <-];
        (eapply fence_step; [exact Hf|intros v; first [by left|by right]|]);
        rewrite <- Es; [by left|right; by left|right; by right|by left].
    - intros [= <- <-]. eapply fence_step; [exact Hf|by right|]. left. by rewrite <- Es. }
  destruct (w_switch w) as [content|].
  - intros [= H]. unfold switch_pass in H.
    destruct (str_eq _ lit_on 3); [|destruct (str_eq _ lit_off 4)]; injection H as <- <-;
      (eapply fence_step; [exact Hf|intros v; first [by left|by right]|]);
      [right; by left|right; by right|by left].
  - destruct (negb _ || _).
    + destruct (w_pic w); [by apply Hcam|]. intros [= <- <-].
      eapply fence_step; [exact Hf|by right|by left].
    + by apply Hcam.
Qed.

(** C32: the fence follows the program's state: after any number of passes,
    from the initialisation on, the relay output is closed (0) exactly when
    [isOn] holds, and the strobe output is back at its rest level. *)
Theorem fence_follows_state pull h ws st tr
    (Hrun : detect_loop h ws start (GPIO_init pull) = Ret (Next st tr)) :
  (level PIN_SPI4_SCK tr None = Some 0 <-> isOn st = true) /\
  level PIN_SPI4_MISO tr None = Some 1.
Proof.
  assert (Hgen : forall ws st0 tr0, fence_ok (isOn st0) tr0 ->
    detect_loop h ws st0 tr0 = Ret (Next st tr) -> fence_ok (isOn st) tr).
  { intros ws'. induction ws' as [|w ws' IH]; intros st0 tr0 H0 H; simpl in H.
    - by injection H as <- <-.
    - destruct (detect_pass h w st0) as [[st1 t1|r t1]| |] eqn:E; try done. simpl in H.
      eapply IH; [|exact H]. by eapply pass_fence. }
  by apply (Hgen ws start (GPIO_init pull)).
Qed.

(** ** Reaction of one pass *)

(** The picture a pass compares with: loaded again in the first pass and in
    every sixtieth, else the one of the passes before. *)

Definition shown (w : world) (st : detector) : option cbuf :=
  if negb (isLoaded st) || (st_i st =? 0) then w_pic w else st_pic st.

(** The state of the fence after the two centres [b] and [s] were found. *)

Definition on_after (h : hazard) (b s : Z * Z) (on : bool) : bool :=
  match combine b.1 b.2 s.1 s.2 with
  | Some pt => IsHazard h (float_of_int pt.1) (float_of_int pt.2)
  | None => on
  end.

(** The sums over a frame and a picture fit an [int]. *)

Definition sums_fit (pic cam : cbuf) : Prop :=
  image_sum YHEIGHT YWIDTH (black_weight pic cam) * 319 <= INT_MAX /\
  image_sum UVHEIGHT UVWIDTH (skin_weight pic cam) * 239 <= INT_MAX.

(** Memory that covers what both centres read. *)

Definition covers (b : cbuf) : Prop := frame_ok b /\ SKIN_SPAN <= cb_len b.

Lemma centres_found pic cam : covers pic -> covers cam -> sums_fit pic cam ->
  exists b s, find_black_center pic cam = Ret b /\ find_skin_center pic cam = Ret s.
Proof.
  intros [Hp Hp2] [Hc Hc2] [Hb Hs].
  assert (exists b, find_black_center pic cam = Ret b) as [b Eb].
  { rewrite (black_run pic cam Hp Hc Hb). case_match; by eexists. }
  exists b. unfold find_skin_center. rewrite (skin_rows pic cam Hp2 Hc2 Hs).
  cbn [mbind outcome_bind s_weight s_x s_y]. case_match; by eexists.
Qed.

(** A pass that looks at a frame. *)

Lemma frame_pass h w st pic : w_switch w = None -> shown w st = Some pic ->
  exists st0, detect_pass h w st = camera_pass h w st0 /\ st_pic st0 = Some pic /\ isOn st0 = isOn st.
Proof.
  unfold shown, detect_pass. intros -> Hs. destruct (_ || _); [|by exists st].
  rewrite Hs. by eexists.
Qed.

Lemma camera_pass_run h w st pic cam b s : 0 <= w_set w -> st_pic st = Some pic -> w_cam w = Some cam ->
  find_black_center pic cam = Ret b -> find_skin_center pic cam = Ret s ->
  exists st' t, camera_pass h w st = Ret (Next st' t) /\ isOn st' = on_after h b s (isOn st).
Proof.
  intros Hset Hp Hc Hb Hs. unfold camera_pass, on_after. rewrite (proj2 (Z.ltb_ge _ _) Hset), Hp, Hc, Hb.
  cbn [mbind outcome_bind]. rewrite Hs. destruct b as [b1 b2], s as [s1 s2]. cbn [mbind outcome_bind fst snd].
  destruct (combine b1 b2 s1 s2) as [pt|]; [|by eexists _, _].
  unfold drive. destruct (IsHazard _ _ _); by eexists _, _.
Qed.

Lemma camera_pass_stuck h w st pic cam r : 0 <= w_set w -> st_pic st = Some pic -> w_cam w = Some cam ->
  (forall s, find_skin_center pic cam <> Ret s) -> camera_pass h w st <> Ret r.
Proof.
  intros Hset Hp Hc Hs. unfold camera_pass. rewrite (proj2 (Z.ltb_ge _ _) Hset), Hp, Hc.
  destruct (find_black_center pic cam) as [[b1 b2]| |]; cbn [mbind outcome_bind]; [|done|done].
  destruct (find_skin_center pic cam) as [[s1 s2]| |] eqn:E; [by destruct (Hs (s1, s2))|done|done].
Qed.

(** C40: What one pass does.  With a switch file it returns; [on] switches the
    fence on, [off] switches it off, any other content leaves it.  Without one,
    with a picture to compare with (loaded in this pass or before) and a frame
    of the camera, which was asked for without an error: when the memory of the
    picture and of the frame covers what [find_skin_center] reads ([SKIN_SPAN],
    306560 bytes) and the weighted sums fit [int], the pass returns, and the
    fence is on afterwards exactly when the point found is in the hazard area,
    or stays as it was where none was found.  In all these cases the outputs
    agree with the new state.  But the buffers of the program have [FSIZE],
    153600 bytes, and with a frame of that size no such pass returns: it reads
    beyond the frame. *)
Theorem pass_reacts h w st :
  (forall content, w_switch w = Some content ->
     exists st' t, detect_pass h w st = Ret (Next st' t) /\
       isOn st' = (if str_eq (cbuff w content) lit_on 3 then true
                   else if str_eq (cbuff w content) lit_off 4 then false else isOn st) /\
       (forall tr, fence_ok (isOn st) tr -> fence_ok (isOn st') (tr ++ t))) /\
  (forall pic cam, w_switch w = None -> shown w st = Some pic -> 0 <= w_set w -> w_cam w = Some cam ->
     (covers pic -> covers cam -> sums_fit pic cam ->
        exists st' t b s, detect_pass h w st = Ret (Next st' t) /\
          find_black_center pic cam = Ret b /\ find_skin_center pic cam = Ret s /\
          isOn st' = on_after h b s (isOn st) /\
          (forall tr, fence_ok (isOn st) tr -> fence_ok (isOn st') (tr ++ t))) /\
     (cb_len cam = FSIZE -> forall r, detect_pass h w st <> Ret r)).
Proof.
  split.
  - intros content Hw. assert (exists st' t, detect_pass h w st = Ret (Next st' t) /\
        isOn st' = (if str_eq (cbuff w content) lit_on 3 then true
                    else if str_eq (cbuff w content) lit_off 4 then false else isOn st)) as (st' & t & E & Hon).
    { unfold detect_pass, switch_pass. rewrite Hw. repeat case_match; by do 2 eexists. }
    exists st', t. split_and!; [done..|]. intros tr Hf. by eapply pass_fence.
  - intros pic cam Hw Hs Hset Hc. destruct (frame_pass h w st pic Hw Hs) as (st0 & E & Ep & Eo). split.
    + intros Cp Cc Hf. destruct (centres_found pic cam Cp Cc Hf) as (b & s & Eb & Es).
      destruct (camera_pass_run h w st0 pic cam b s Hset Ep Hc Eb Es) as (st' & t & Ec & Hon).
      rewrite Eo in Hon. rewrite <- E in Ec. exists st', t, b, s. split_and!; [done..|].
      intros tr Hok. by eapply pass_fence.
    + intros Hl r. rewrite E. apply (camera_pass_stuck h w st0 pic cam r Hset Ep Hc). intros s.
      by apply skin_center_out_of_frame.
Qed.

(** A failed reload of the picture can crash the detector: it stores a
    null pointer but keeps [isLoaded], and a switch command in the next pass
    moves the counter past zero, so the pass after it uses the null pointer. *)
Theorem failed_reload_null_picture h w1 w2 w3 st tr content
    (Hi : st_i st = 0) (Hl : isLoaded st = true)
    (H1 : w_switch w1 = None) (H1' : w_pic w1 = None) (H2 : w_switch w2 = Some content)
    (H3 : w_switch w3 = None) (H3' : 0 <= w_set w3) :
  detect_loop h [w1; w2; w3] st tr = Ub NullDeref.
Proof.
  assert (E1 : detect_pass h w1 st = Ret (Next (set_pic None st) [])).
  { unfold detect_pass. by rewrite H1, Hl, Hi, H1'. }
  assert (E2 : detect_pass h w2 (set_pic None st) = Ret (switch_pass w2 content (set_pic None st))).
  { unfold detect_pass. by rewrite H2. }
  assert (exists st2 t2, switch_pass w2 content (set_pic None st) = Next st2 t2 /\
    st_i st2 = 1 /\ isLoaded st2 = true /\ st_pic st2 = None) as (st2 & t2 & Esw & Ei & El & Ep).
  { unfold switch_pass, end_pass.
    repeat case_match; (eexists _, _; split; [reflexivity|]); simpl; rewrite ?Hi; done. }
  assert (E3 : detect_pass h w3 st2 = Ub NullDeref).
  { unfold detect_pass. rewrite H3, El, Ei. cbn [negb orb Z.eqb]. unfold camera_pass.
    by rewrite (proj2 (Z.ltb_ge _ _) H3'), Ep. }
  simpl. rewrite E1. simpl. rewrite E2, Esw. simpl. by rewrite E3.
Qed.

(** ** Witnesses *)

(** A uniform picture, and a frame with one bright point at column 50, row 100. *)

Definition grey : cbuf := mk_cbuf 400000 (fun _ => 100).
Definition spot : cbuf :=
  mk_cbuf 400000 (fun k => if k =? 2 * (320 * 100 + 50) + 1 then 200 else 100).

Lemma grey_ok : frame_ok grey.
Proof. split; [vm_compute; discriminate|]. intros i _. simpl. lia. Qed.

Lemma spot_ok : frame_ok spot.
Proof. split; [vm_compute; discriminate|]. intros i _. simpl. case_match; lia. Qed.

Lemma mean_spot : mean_diff grey spot = 0.
Proof. vm_compute. reflexivity. Qed.

Lemma black_center_correct_witness :
  (100 = 0 -> find_black_center grey spot = Ret (-1, -1)) /\
  (0 < 100 -> find_black_center grey spot = Ret (5000 / 100, 10000 / 100) /\
     0 <= 5000 / 100 < YWIDTH /\ 0 <= 10000 / 100 < YHEIGHT) /\ 0 <= 100.
Proof.
  apply (black_center_correct grey spot 100 5000 10000 grey_ok spot_ok);
    unfold black_weight; rewrite ?mean_spot; vm_compute; first [reflexivity | discriminate].
Defined.

Lemma skin_center_out_of_frame_witness :
  find_skin_center (mk_cbuf FSIZE (fun _ => 0)) (mk_cbuf FSIZE (fun _ => 0)) <> Ret (-1, -1).
Proof. apply (skin_center_out_of_frame _ (mk_cbuf FSIZE (fun _ => 0))). reflexivity. Defined.

(** One sample of skin colour at sample column 40, row 60. *)

Definition skin : cbuf :=
  mk_cbuf 400000 (fun k => if k =? 4 * (320 * 60 + 40) then 157
                           else if k =? 4 * (320 * 60 + 40) + 2 then 110 else 100).

Lemma skin_center_correct_witness :
  (3349 = 0 -> find_skin_center grey skin = Ret (-1, -1)) /\
  (0 < 3349 -> find_skin_center grey skin = Ret (133960 / 3349 * 2, 200940 / 3349) /\
     0 <= 133960 / 3349 < UVWIDTH /\ 0 <= 200940 / 3349 < UVHEIGHT) /\ 0 <= 3349.
Proof.
  apply (skin_center_correct grey skin 3349 133960 200940);
    vm_compute; first [reflexivity | discriminate].
Defined.

Lemma hazard_vertical_witness :
  IsHazard default_hazard (float_of_int 0) (float_of_int 7) =
    SFltb (double_of_float (float_of_int 0)) (hazardLB default_hazard)
    || SFltb (hazardRB default_hazard) (double_of_float (float_of_int 0)).
Proof. apply (hazard_vertical default_hazard); vm_compute; reflexivity. Defined.

Lemma default_hazard_quarters_witness :
  IsHazard default_hazard (fdiv (float_of_int 100) VIDEO_HSIZE_QVGA) (float_of_int 0) =
    (100 <? 80) || (240 <? 100).
Proof. apply (default_hazard_quarters 100). unfold VIDEO_HSIZE_QVGA. lia. Defined.

Lemma default_hazard_everywhere_witness :
  drive default_hazard (160, 120) false = (true, Fence_on).
Proof. apply (default_hazard_everywhere 160 120). unfold VIDEO_HSIZE_QVGA. lia. Defined.

Definition ex_world (sw : option (list Z)) : world :=
  mk_world sw [0; 0; 0; 0; 0] (Some grey) 0 (Some spot).
Definition ex_loaded : detector := mk_detector true false 1 (-1) (-1) (-1) (-1) (Some grey).

(** A command "on", then a frame. *)

Definition final (p : outcome pass) : detector * list event :=
  match p with Ret (Next st tr) => (st, tr) | _ => (start, []) end.
Definition ex_run : detector * list event :=
  final (detect_loop default_hazard [ex_world (Some [111; 110; 0]); ex_world None] start (GPIO_init 0)).

Lemma fence_follows_state_witness :
  (level PIN_SPI4_SCK ex_run.2 None = Some 0 <-> isOn ex_run.1 = true) /\
  level PIN_SPI4_MISO ex_run.2 None = Some 1.
Proof.
  apply (fence_follows_state 0 default_hazard
    [ex_world (Some [111; 110; 0]); ex_world None] ex_run.1 ex_run.2).
  vm_compute. reflexivity.
Defined.

Lemma spot_covered : covers grey /\ covers spot /\ sums_fit grey spot.
Proof.
  split_and!; [split; [exact grey_ok|vm_compute; discriminate]|split; [exact spot_ok|vm_compute; discriminate]|].
  split; [unfold black_weight; rewrite mean_spot|]; vm_compute; discriminate.
Qed.

(** A frame in memory that covers the reads, and one as the program has it. *)

Definition own_frame : cbuf := mk_cbuf FSIZE (fun _ => 100).

Lemma pass_reacts_witness :
  (exists st' t b s, detect_pass default_hazard (ex_world None) ex_loaded = Ret (Next st' t) /\
     find_black_center grey spot = Ret b /\ find_skin_center grey spot = Ret s /\
     isOn st' = on_after default_hazard b s false /\
     (forall tr, fence_ok false tr -> fence_ok (isOn st') (tr ++ t))) /\
  (forall r, detect_pass default_hazard (mk_world None [] None 0 (Some own_frame)) ex_loaded <> Ret r) /\
  exists st' t, detect_pass default_hazard (ex_world (Some [111; 110; 0])) ex_loaded = Ret (Next st' t) /\ isOn st' = true.
Proof.
  destruct spot_covered as (Cp & Cc & Hf). split_and!.
  - apply (proj1 (proj2 (pass_reacts default_hazard (ex_world None) ex_loaded) grey spot eq_refl eq_refl
      ltac:(vm_compute; discriminate) eq_refl) Cp Cc Hf).
  - apply (proj2 (proj2 (pass_reacts default_hazard (mk_world None [] None 0 (Some own_frame)) ex_loaded) grey own_frame
      eq_refl eq_refl ltac:(vm_compute; discriminate) eq_refl) eq_refl).
  - destruct (proj1 (pass_reacts default_hazard (ex_world (Some [111; 110; 0])) ex_loaded) _ eq_refl)
      as (st' & t & E & Hon & _). exists st', t. split; [exact E|exact Hon].
Defined.

Lemma failed_reload_null_picture_witness :
  detect_loop default_hazard
    [mk_world None [] None 0 None; ex_world (Some [111; 110; 0]); ex_world None]
    (mk_detector true false 0 (-1) (-1) (-1) (-1) (Some grey)) [] = Ub NullDeref.
Proof.
  apply (failed_reload_null_picture default_hazard _ _ _ _ _ [111; 110; 0]); first [reflexivity | simpl; lia].
Defined.

End DetectProps.
