(* ===== verification/CameraIo.v ===== *)
(** * The camera as an application sees it

    The state of a program that uses the video driver, and the system calls
    between the two: [open], [close] and [ioctl] on a character device
    ([src/spresense/nuttx/fs/vfs/fs_open.c], [fs_close.c], [fs_ioctl.c],
    [src/spresense/nuttx/fs/inode/fs_files.c]), with the driver below them. *)

From Stdlib Require Import Ascii String.
From S2P Require Import Prelude FrameBuff VideoState VideoCtrl VideoDrv VideoIoctl VideoSys.
Import FrameBuff VideoState VideoCtrl VideoDrv VideoIoctl VideoSys.

#[local] Open Scope Z_scope.

Module CameraIo.

Definition ENOENT : Z := 2.

(** The bytes of a C string literal, with its NUL. *)

Definition c_string (s : string) : list Z :=
  ((fun c => Z.of_N (N_of_ascii c)) <$> list_ascii_of_string s) ++ [0].

(** ** The state

    The registration of the device and the device itself, the descriptors that
    are open on it, [errno], the live blocks of the user heap, and the static
    variables both programs have. *)

Record app := mk_app {
  a_mod : vmodule;
  a_drv : vdrv;
  a_files : list Z;
  a_errno : Z;
  a_heap : list Z;
  video_fd : Z;
  frame_mem : option Z;
  pic_mem : option Z
}.

Abbreviation AP A := (M app A).

Definition set_mod v a := mk_app v (a_drv a) (a_files a) (a_errno a) (a_heap a) (video_fd a) (frame_mem a) (pic_mem a).
Definition set_drv v a := mk_app (a_mod a) v (a_files a) (a_errno a) (a_heap a) (video_fd a) (frame_mem a) (pic_mem a).
Definition set_files v a := mk_app (a_mod a) (a_drv a) v (a_errno a) (a_heap a) (video_fd a) (frame_mem a) (pic_mem a).
Definition set_errno v a := mk_app (a_mod a) (a_drv a) (a_files a) v (a_heap a) (video_fd a) (frame_mem a) (pic_mem a).
Definition set_heap v a := mk_app (a_mod a) (a_drv a) (a_files a) (a_errno a) v (video_fd a) (frame_mem a) (pic_mem a).
Definition set_fd v a := mk_app (a_mod a) (a_drv a) (a_files a) (a_errno a) (a_heap a) v (frame_mem a) (pic_mem a).
Definition set_frame v a := mk_app (a_mod a) (a_drv a) (a_files a) (a_errno a) (a_heap a) (video_fd a) v (pic_mem a).
Definition set_picmem v a := mk_app (a_mod a) (a_drv a) (a_files a) (a_errno a) (a_heap a) (video_fd a) (frame_mem a) v.

(** What the system answers: the heaps, [register_driver], the descriptor
    [files_allocate] finds (negative when there is none), the blocks
    [memalign] gives, the uninitialised locals of the driver. *)

Record env := mk_env {
  e_malloc1 : bool; e_malloc2 : bool; e_register : list Z -> Z; e_newfd : Z; e_reqmalloc : bool;
  e_frame : option Z; e_pic : option Z; e_stack : stack }.

(** ** System calls *)

Definition on_drv {A} (m : VD A) : AP A := zoom a_drv set_drv m.

(** A result below zero becomes [ERROR], with its negation in [errno]. *)

Definition sys_result (ret : Z) : AP Z :=
  if ret <? 0 then modify (set_errno (- ret));; mret ERROR else mret ret.

(** [open(path, 0)]: the device must be registered; when no descriptor is left
    the device is closed again. *)

Definition open_ (e : env) (path : list Z) : AP Z :=
  a ← get;
  if bool_decide (path ∈ nodes (a_mod a)) then
    ret ← on_drv video_open;
    if ret <? 0 then sys_result ret
    else if e_newfd e <? 0 then on_drv video_close;; sys_result (e_newfd e)
    else modify (fun a => set_files (e_newfd e :: a_files a) a);; mret (e_newfd e)
  else sys_result (- ENOENT).

(** The descriptor is released before the driver is told. *)

Definition close_ (fd : Z) : AP Z :=
  a ← get;
  if bool_decide (fd ∈ a_files a) then
    modify (fun a => set_files (filter (fun x => x <> fd) (a_files a)) a);;
    ret ← on_drv video_close; sys_result ret
  else sys_result (- EBADF).

(** ** Interrupts

    A frame that completes: its error code and its size.  The hardware raises
    the interrupt only while it runs. *)

Definition irq (fr : Z * Z) : VD unit :=
  d ← get;
  if hw_running (hist d) then video_complete_capture fr.1 fr.2;; mret tt else mret tt.

Fixpoint irqs (l : list (Z * Z)) : VD unit :=
  match l with [] => mret tt | fr :: rest => irq fr;; irqs rest end.

(** The thread waits in [VIDIOC_DQBUF] of the video stream while [frames]
    complete; it goes on when its semaphore has been posted. *)

Fixpoint await (frames : list (Z * Z)) : VD (Z * option v4l2_buffer) :=
  match frames with
  | [] => blocked
  | fr :: rest =>
    irq fr;;
    t ← get_inf SVideo;
    if dqbuf_wait_flg t <? 0 then await rest
    else
      r ← dq_resume SVideo V4L2_BUF_TYPE_VIDEO_CAPTURE;
      match r with
      | DqWait => await rest
      | DqReturn ret b => mret (ret, b)
      end
  end.

(** [ioctl]: the result, and the structure its argument points to afterwards. *)

Definition ioctl (e : env) (frames : list (Z * Z)) (fd : Z) (req : request) : AP (Z * request) :=
  a ← get;
  if bool_decide (fd ∈ a_files a) then
    r ← on_drv (video_ioctl (e_stack e) req);
    match r with
    | IoReturn ret arg => z ← sys_result ret; mret (z, arg)
    | IoWait _ =>
      '(ret, b) ← on_drv (await frames);
      z ← sys_result ret;
      mret (z, match b with Some b => VIDIOC_DQBUF (Some b) | None => req end)
    end
  else z ← sys_result (- EBADF); mret (z, req).

(** An [ioctl] of which only the result is looked at. *)

Definition ioctl_z (e : env) (fd : Z) (req : request) : AP Z :=
  '(z, _) ← ioctl e [] fd req; mret z.

(** ** Registration and memory *)

(** A device that has just been registered is zeroed but for its lock. *)

Definition fresh_device (d : vdrv) : vdrv :=
  mk_drv 1 0 zero_inf zero_inf (g_video_scene_mode d) (g_video_scene_parameter d)
    (g_video_registered_sensor d) (g_video_sensor_ops d) (g_video_data_ops d) (hist d) (malloc_ d).

Definition initialize (e : env) (path : list Z) : AP Z :=
  m ← gets a_mod;
  ret ← zoom a_mod set_mod
          (video_initialize (e_malloc1 e) (e_malloc2 e) (e_register e) (Some (cbuf_of_list path)));
  m' ← gets a_mod;
  (if negb (is_initialized m) && bool_decide (video_handler m' <> None)
   then modify (fun a => set_drv (fresh_device (a_drv a)) a) else mret tt);;
  mret ret.

Definition uninitialize : AP Z := zoom a_mod set_mod video_uninitialize.

Definition memalign (block : option Z) : AP (option Z) :=
  match block with
  | None => mret None
  | Some p => modify (fun a => set_heap (p :: a_heap a) a);; mret (Some p)
  end.

Definition free_ (p : option Z) : AP unit :=
  match p with
  | None => mret tt
  | Some p =>
    a ← get;
    if bool_decide (p ∈ a_heap a)
    then modify (fun a => set_heap (filter (fun x => x <> p) (a_heap a)) a)
    else ub DanglingDeref
  end.

Definition dev_video : list Z := c_string "/dev/video".

(** The path a node is found under: without its NUL. *)

Definition dev_path : list Z := removelast dev_video.

(** The structures the programs pass to the driver. *)

Definition frame_request : requestbuffers :=
  mk_reqbufs 1 V4L2_BUF_TYPE_VIDEO_CAPTURE V4L2_MEMORY_USERPTR V4L2_BUF_MODE_RING.

Definition set_format (w h pix : Z) : request :=
  VIDIOC_S_FMT (Some (mk_v4l2fmt V4L2_BUF_TYPE_VIDEO_CAPTURE (mk_format w h pix))).

Definition frame_buffer (addr size : Z) : v4l2_buffer :=
  mk_buffer 0 V4L2_BUF_TYPE_VIDEO_CAPTURE 0 0 0 zero_timecode 0 V4L2_MEMORY_USERPTR addr size.

(** The buffer of [get_camimage]. *)

Definition dq_buffer : v4l2_buffer := frame_buffer 0 0.

End CameraIo.
