(* ===== verification/CameraLemmas.v ===== *)
(** * The driver with a single ring buffer

    Both programs ask for one container in ring mode and use the video stream
    only.  The exact states the driver goes through then, and the operations
    between them. *)

From S2P Require Import Prelude FrameBuff VideoState VideoCtrl VideoDrv VideoIoctl VideoSys VideoSafe VideoProps VideoSettings CameraIo.
Import FrameBuff VideoState VideoCtrl VideoDrv VideoIoctl VideoSys VideoSafe VideoProps
  VideoSettings CameraIo.

Module CameraLemmas.

(** The driver while only the video stream is in use: [q] is the queue of
    containers, [st] the state of the stream, [w] the semaphore of
    [VIDIOC_DQBUF]. *)

Record one_cam (q : queue) (st : video_state) (w : Z) (d : vdrv) (o : imgsensor_ops)
    (dt : imgdata_ops) : Prop := {
  oc_dev : devices_ok d o dt;
  oc_stillrep : stream_rep (still_inf d) false (mk_queue [] [] []);
  oc_still : ti_state (still_inf d) = VIDEO_STATE_STREAMOFF;
  oc_stilllock : lock_state (still_inf d) = 1;
  oc_lock : lock_state (video_inf d) = 1;
  oc_num : remaining_capnum (video_inf d) = VIDEO_REMAINING_CAPNUM_INFINITY;
  oc_fmt : fmt_ok (video_inf d);
  oc_flg : dqbuf_wait_flg (video_inf d) = w;
  oc_done : done_container (video_inf d) = None;
  oc_state : ti_state (video_inf d) = st;
  oc_hw : hw_running (hist d) = bool_decide (st = VIDEO_STATE_CAPTURE);
  oc_ring : is_ring (bufinf (video_inf d)) = true;
  oc_ref : refines (bufinf (video_inf d)) q;
  oc_heap : heap_ok (bufinf (video_inf d))
}.

(** The container [x] is free, and the stream waits for a buffer. *)

Definition one_idle (x : vptr) (d : vdrv) o dt : Prop :=
  one_cam (mk_queue [] [] [x]) VIDEO_STATE_STREAMON 0 d o dt.

(** The container holds buffer [b], and the hardware fills it. *)

Definition one_filling (x : vptr) (b : v4l2_buffer) (w : Z) (d : vdrv) o dt : Prop :=
  one_cam (mk_queue [] [x] []) VIDEO_STATE_CAPTURE w d o dt /\
  vbuf_curr (bufinf (video_inf d)) = Some x /\
  c_buf <$> cells (bufinf (video_inf d)) !! x = Some b.

(** These states satisfy the invariant of the driver. *)

Lemma one_inv q st w d o dt :
  one_cam q st w d o dt -> (st = VIDEO_STATE_CAPTURE -> vacant_q q <> [] /\
    vbuf_curr (bufinf (video_inf d)) = head (vacant_q q) /\ aimed d) ->
  w = 0 \/ w = -1 -> exists B, inv B d.
Proof.
  intros [Hdev Hsr Hst Hsl Hl Hn Hf Hw Hd Hs Hhw Hm Hr Hh] Hcap Hw2.
  exists (supd SVideo (w =? -1) (fun _ => false)). split; [|done].
  exists (supd SVideo q (fun _ => mk_queue [] [] [])). constructor; simpl; try done.
  - constructor; try done; [rewrite Hs; naive_solver|..]; destruct (w =? -1) eqn:E; to_prop; try done.
    + intros _. destruct Hw2; [|done]. subst w. done.
    + intros _. left. by subst w.
  - rewrite Hhw, Hs, Hst. rewrite bool_decide_eq_true. split; [by left|]. by intros [?|?].
  - by exists o, dt.
  - destruct (decide (st = VIDEO_STATE_CAPTURE)) as [E|E]; [by apply Hcap|].
    apply aimed_stopped. intros []; simpl; congruence.
Qed.

(** What these operations leave alone. *)

Record same_drv (d d' : vdrv) : Prop := {
  sd_still : still_inf d' = still_inf d;
  sd_lock : lock_open_num d' = lock_open_num d;
  sd_open : open_num d' = open_num d;
  sd_scenes : g_video_scene_parameter d' = g_video_scene_parameter d;
  sd_alloced : vbuf_alloced (bufinf (video_inf d')) = vbuf_alloced (bufinf (video_inf d));
  sd_size : container_size (bufinf (video_inf d')) = container_size (bufinf (video_inf d))
}.

#[global] Instance same_drv_refl : Reflexive same_drv.
Proof. by constructor. Qed.
#[global] Instance same_drv_trans : Transitive same_drv.
Proof. intros x y z [] []. constructor; etransitivity; eauto. Qed.

Lemma wp_data_ops d dt Q : g_video_data_ops d = Some dt -> Q dt d -> wp data_ops Q d.
Proof. intros E HQ. exists dt, d. split; [|done]. unfold data_ops. munfold. by rewrite E. Qed.

Lemma relock t : lock_state t = 1 -> set_lock_state (0 + 1) (set_lock_state 0 t) = t.
Proof. by destruct t; simpl; intros ->. Qed.

(** The device has been opened. *)

Lemma open_one d d' o dt :
  camera_ready d o dt -> opened d d' o dt ->
  one_cam (mk_queue [] [] []) VIDEO_STATE_STREAMOFF 0 d' o dt.
Proof.
  intros Hr [_ _ E1 E2 Hdev Hhw _].
  pose proof (fresh_inf_rep _ (cr_heapv _ _ _ Hr)) as Hv.
  pose proof (fresh_inf_rep _ (cr_heaps _ _ _ Hr)) as Hs.
  constructor; rewrite ?E1, ?E2; simpl; try done; apply Hv.
Qed.

Lemma reqbufs_one q d o dt :
  one_cam q VIDEO_STATE_STREAMOFF 0 d o dt ->
  wp (video_reqbufs true (Some frame_request)) (fun r d' => r = OK /\ exists x f',
    d' = upd_inf SVideo (set_bufinf f') d /\
    one_cam (mk_queue [] [] [x]) VIDEO_STATE_STREAMOFF 0 d' o dt) d.
Proof.
  intros [Hdev Hsr Hst Hsl Hl Hn Hf Hw Hd Hs Hhw Hm Hr Hh].
  destruct (change_mode_refines _ _ V4L2_BUF_MODE_RING Hr)
    as (f1 & Hch & Hr1 & Hm1 & Hz1 & Ha1 & Hnb & _ & Hb1).
  pose proof (change_mode_heap _ _ Hz1 Ha1 Hnb Hb1 Hh) as Hh1.
  destruct (realloc_refines f1 1 ltac:(lia) Hh1 (ref_lock _ _ Hr1)) as (f2 & b & Hre & Hfc & Hm2).
  unfold video_reqbufs. simpl. apply wp_bind, wp_gets. simpl. rewrite Hs. simpl.
  apply wp_bind. eapply wp_fb; [exact Hch|]. eapply wp_fb; [rewrite inf_upd; exact Hre|].
  split; [done|]. exists (b, 0%nat), f2. rewrite upd_upd. split; [done|].
  constructor; simpl; try done.
  - by apply (devices_step d).
  - unfold is_ring. by rewrite Hm2, Hm1.
  - apply (fc_refines _ _ _ Hfc).
  - apply (fc_heap _ _ _ Hfc).
Qed.

(** A setting of the video stream changes. *)

Lemma one_setting q d o dt g :
  one_cam q VIDEO_STATE_STREAMOFF 0 d o dt ->
  (forall t, lock_state (g t) = lock_state t /\ ti_state (g t) = ti_state t /\
     remaining_capnum (g t) = remaining_capnum t /\ dqbuf_wait_flg (g t) = dqbuf_wait_flg t /\
     done_container (g t) = done_container t /\ bufinf (g t) = bufinf t) ->
  fmt_ok (g (video_inf d)) ->
  one_cam q VIDEO_STATE_STREAMOFF 0 (upd_inf SVideo g d) o dt.
Proof.
  intros [Hdev Hsr Hst Hsl Hl Hn Hf Hw Hd Hs Hhw Hm Hr Hh] Hg Hfm.
  destruct (Hg (video_inf d)) as (E1 & E2 & E3 & E4 & E5 & E6).
  constructor; simpl; rewrite ?E1, ?E2, ?E3, ?E4, ?E5, ?E6; try done. by apply (devices_step d).
Qed.

(** The stream is turned on, with no buffer queued. *)

Lemma streamon_one x d o dt :
  one_cam (mk_queue [] [] [x]) VIDEO_STATE_STREAMOFF 0 d o dt ->
  wp (video_streamon (Some V4L2_BUF_TYPE_VIDEO_CAPTURE)) (fun r d' => r = OK /\
    one_idle x d' o dt /\ same_drv d d') d.
Proof.
  intros [Hdev Hsr Hst Hsl Hl Hn Hf Hw Hd Hs Hhw Hm Hr Hh].
  unfold video_streamon. simpl. apply wp_bind, wp_lock; [exact Hl|].
  apply wp_bind, wp_gets. simpl. rewrite Hs. simpl. apply wp_bind, wp_bind. unfold move_video.
  apply wp_bind, wp_get. unfold estimate_next_video_state, is_taking_still_picture. simpl. rewrite Hst. simpl.
  unfold change_video_state. apply wp_bind, wp_gets. simpl. rewrite Hs. simpl.
  apply wp_bind. eapply wp_fb; [simpl; by apply get_vacant_ok|]. simpl.
  apply wp_modify, wp_ret. apply wp_bind, wp_unlock, wp_ret. split; [done|].
  split; [|by constructor]. constructor; simpl; try done.
  - by apply (devices_step d).
  - by apply set_curr_refines.
  - by apply set_curr_heap.
Qed.

(** A buffer is queued and its capture starts. *)

Lemma qbuf_one x buf d o dt :
  one_idle x d o dt -> b_type buf = V4L2_BUF_TYPE_VIDEO_CAPTURE ->
  wp (video_qbuf (Some buf)) (fun r d' => r = OK /\ one_filling x buf 0 d' o dt /\ same_drv d d') d.
Proof.
  intros [Hdev Hsr Hst Hsl Hl Hn Hf Hw Hd Hs Hhw Hm Hr Hh] Hb.
  destruct (enqueue_ok _ _ x [] buf Hr Hh eq_refl)
    as (f1 & f3 & Hg & Hsb & Hq & Hr3 & Hh3 & Hc3 & Hcells & Hbx & _ & Hm3 & Hz3 & Ha3).
  unfold video_qbuf. rewrite Hb. simpl.
  apply wp_bind. eapply wp_fb; [exact Hg|].
  apply wp_bind. eapply wp_fb; [rewrite inf_upd; exact Hsb|].
  apply wp_bind. eapply wp_fb; [rewrite inf_upd; exact Hq|]. rewrite !upd_upd.
  change (fun t => set_bufinf f3 _) with (set_bufinf f3). set (d1 := upd_inf SVideo (set_bufinf f3) d).
  apply wp_bind, wp_lock; [exact Hl|]. apply wp_bind, wp_gets. simpl. rewrite Hs. simpl.
  apply wp_bind, wp_bind, wp_lock; [exact Hsl|]. apply wp_bind. unfold move_video.
  apply wp_bind, wp_get. unfold estimate_next_video_state, is_taking_still_picture. simpl. rewrite Hst. simpl.
  unfold change_video_state. apply wp_bind, wp_gets. simpl. rewrite Hs. simpl.
  apply wp_bind. eapply wp_fb; [simpl; by apply get_vacant_ok|]. simpl.
  apply wp_bind. apply (wp_start_stream _ _ _ _ o dt); [by apply (devices_step d)|done| |].
  { simpl. by destruct (cells f3 !! x); [eexists|]. }
  intros d2 (c1 & nr & l & i & bb & _ & ->).
  apply wp_modify, wp_unlock. apply wp_bind, wp_unlock, wp_ret. split; [done|]. simpl.
  rewrite (relock _ Hsl).
  split; [|constructor; simpl; done]. split; [|done]. constructor; simpl; try done.
  - by apply (devices_step d).
  - unfold is_ring in *. simpl. by rewrite Hm3.
  - by apply set_curr_refines.
  - by apply set_curr_heap.
Qed.

(** The container is complete: its buffer is updated, and the ring keeps it. *)

Lemma frame_done x b err n f :
  refines f (mk_queue [] [x] []) -> heap_ok f -> is_ring f = true ->
  c_buf <$> cells f !! x = Some b ->
  exists f2, load_buf (Some x) f = Ret (b, f) /\
    store_buf (Some x) (buf_done err n b) f = Ret (tt, upd_buf x (buf_done err n b) f) /\
    video_framebuff_capture_done (upd_buf x (buf_done err n b) f) = Ret (tt, f2) /\
    refines f2 (mk_queue [] [x] []) /\ heap_ok f2 /\ mode f2 = mode f /\
    vbuf_alloced f2 = vbuf_alloced f /\ container_size f2 = container_size f /\
    c_buf <$> cells f2 !! x = Some (buf_done err n b).
Proof.
  intros Hr Hh Hm Hbx.
  assert (Hx : is_Some (cells f !! x)) by (destruct (cells f !! x); [by eexists|done]).
  pose proof (upd_buf_refines _ _ x (buf_done err n b) Hr) as Hr1.
  destruct (capture_done_refines _ _ Hr1) as (f2 & Hcd & Hr2 & [Em Es Ea En Eb] & Hc2).
  change (is_ring (upd_buf _ _ ?f)) with (is_ring f) in Hr2. rewrite Hm in Hr2.
  destruct (load_buf_ok _ _ Hx) as (b' & Hb' & Hbx'). rewrite Hbx in Hbx'. injection Hbx' as <-.
  exists f2. split_and!; try done.
  - by apply store_buf_ok.
  - apply (heap_ok_same (upd_buf x (buf_done err n b) f)); [by constructor|by apply upd_buf_heap].
  - rewrite Eb. simpl. rewrite lookup_alter_eq. by destruct Hx as [c ->].
Qed.

(** A complete container is taken out, delivered and freed. *)

Lemma frame_deliver x b f :
  refines f (mk_queue [] [x] []) -> heap_ok f -> c_buf <$> cells f !! x = Some b ->
  exists f3 f5, video_framebuff_pop_curr_container f = Ret (Some x, f3) /\
    refines f3 (mk_queue [] [] []) /\ load_buf (Some x) (set_curr None f3) = Ret (b, set_curr None f3) /\
    video_framebuff_free_container (Some x) (set_curr None f3) = Ret (tt, f5) /\
    refines f5 (mk_queue [] [] [x]) /\ heap_ok f5 /\ mode f5 = mode f /\
    vbuf_alloced f5 = vbuf_alloced f /\ container_size f5 = container_size f.
Proof.
  intros Hr Hh Hbx. destruct (pop_curr_refines _ _ Hr ltac:(by right)) as (f3 & Hpop & Hr3 & Hs3 & _).
  simpl in Hpop, Hr3. set (f4 := set_curr None f3).
  assert (Hx3 : c_buf <$> cells f4 !! x = Some b) by (simpl; by rewrite (sb_bufs _ _ Hs3)).
  assert (Hx : is_Some (cells f4 !! x)) by (destruct (cells f4 !! x); [by eexists|done]).
  destruct (load_buf_ok f4 x Hx) as (b2 & Hb2 & Hbx2). rewrite Hx3 in Hbx2. injection Hbx2 as <-.
  destruct (free_container_refines f4 (mk_queue [] [] []) x) as (f5 & Hfc & Hr5 & Hs5 & _).
  { by apply set_curr_refines. } { split; [done|set_solver]. }
  exists f3, f5. split_and!; try done.
  - by apply (heap_ok_same _ _ Hs5), set_curr_heap, (heap_ok_same _ _ Hs3).
  - rewrite (sb_mode _ _ Hs5). apply (sb_mode _ _ Hs3).
  - rewrite (sb_alloced _ _ Hs5). apply (sb_alloced _ _ Hs3).
  - rewrite (sb_size _ _ Hs5). apply (sb_size _ _ Hs3).
Qed.

(** A frame that completes while nobody waits: the ring hands the same
    container to the hardware again. *)

Lemma irq_one x b fr d o dt :
  one_filling x b 0 d o dt ->
  wp (irq fr) (fun _ d' => one_filling x (buf_done fr.1 fr.2 b) 0 d' o dt /\ same_drv d d') d.
Proof.
  intros [[Hdev Hsr Hst Hsl Hl Hn Hf Hw Hd Hs Hhw Hm Hr Hh] [Hcu Hbx]].
  destruct (frame_done x b fr.1 fr.2 _ Hr Hh Hm Hbx)
    as (f2 & Hlb & Hsb & Hcd & Hr2 & Hh2 & Em & Ea & Es & Hx2).
  unfold irq. apply wp_bind, wp_get. rewrite Hhw. simpl.
  apply wp_bind. unfold video_complete_capture. apply wp_bind, wp_get. rewrite Hst. simpl.
  apply wp_bind. unfold capture_frame. apply wp_bind, wp_gets. simpl. rewrite Hcu.
  apply wp_bind. eapply wp_fb; [exact Hlb|].
  apply wp_bind. eapply wp_fb; [rewrite inf_upd; exact Hsb|]. rewrite upd_upd.
  rewrite Hn, andb_false_r. apply wp_bind, wp_ret, wp_bind. eapply wp_fb; [simpl; exact Hcd|].
  rewrite Hw. simpl. apply wp_ret.
  apply wp_bind. unfold capture_next. apply wp_bind, wp_gets. simpl. rewrite Hn. simpl.
  apply wp_bind. eapply wp_fb; [simpl; by apply get_vacant_ok|]. simpl.
  destruct (load_buf_ok (set_curr (Some x) f2) x) as (b2 & Hb2 & _).
  { simpl. by destruct (cells f2 !! x); [eexists|]. }
  apply wp_bind. eapply wp_fb; [simpl; exact Hb2|].
  apply wp_bind. eapply wp_data_ops; [exact (dv_data _ _ _ Hdev)|].
  destruct (dv_setbuf _ _ _ Hdev) as [sb ->]. apply wp_modify, wp_ret, wp_ret. simpl.
  split; [|by constructor]. split; [|done]. constructor; simpl; try done.
  - by apply (devices_step d).
  - unfold is_ring in *. simpl. by rewrite Em.
  - by apply set_curr_refines.
  - by apply set_curr_heap.
Qed.

Lemma irqs_one x l b d o dt :
  one_filling x b 0 d o dt ->
  wp (irqs l) (fun _ d' => exists b', one_filling x b' 0 d' o dt /\ same_drv d d' /\
    b_userptr b' = b_userptr b) d.
Proof.
  revert b d. induction l as [|fr l IH]; intros b d H; simpl.
  - apply wp_ret. by exists b.
  - apply wp_bind. eapply wp_mono; [by apply irq_one|]. intros _ d1 [H1 S1].
    eapply wp_mono; [by apply IH|]. intros _ d2 (b' & H2 & S2 & E). exists b'.
    split; [done|]. split; [by etransitivity|done].
Qed.

(** [VIDIOC_DQBUF]: nothing is captured, the thread waits. *)

Lemma dqbuf_one x b buf d o dt :
  one_filling x b 0 d o dt -> b_type buf = V4L2_BUF_TYPE_VIDEO_CAPTURE ->
  wp (video_dqbuf (Some buf)) (fun r d' => r = DqWait /\ one_filling x b (-1) d' o dt /\
    same_drv d d') d.
Proof.
  intros [[Hdev Hsr Hst Hsl Hl Hn Hf Hw Hd Hs Hhw Hm Hr Hh] [Hcu Hbx]] Hb.
  destruct (dq_valid_refines _ _ Hr) as (f1 & Hdq & Hr1 & Hs1 & Hc1).
  unfold video_dqbuf. rewrite Hb. simpl. apply wp_bind. eapply wp_fb; [exact Hdq|]. simpl.
  unfold dq_wait. apply wp_bind, wp_gets. simpl. rewrite Hw. simpl. unfold move_video.
  apply wp_bind, wp_bind, wp_get. unfold estimate_next_video_state. simpl. rewrite Hs. simpl.
  unfold change_video_state. apply wp_bind, wp_gets. simpl. rewrite Hs. simpl.
  apply wp_bind, wp_ret, wp_modify, wp_bind, wp_gets, wp_bind, wp_modify, wp_ret. simpl.
  split; [done|]. split; [|constructor; simpl; try done].
  - split; [constructor; simpl; try done|simpl; split].
    + by apply (devices_step d).
    + by rewrite Hw.
    + unfold is_ring in *. by rewrite (sb_mode _ _ Hs1).
    + by apply (heap_ok_same _ _ Hs1).
    + by rewrite Hc1.
    + by rewrite (sb_bufs _ _ Hs1).
  - by rewrite (sb_alloced _ _ Hs1).
  - by rewrite (sb_size _ _ Hs1).
Qed.

(** The next frame that completes is handed over: the wait ends, the container
    is free again. *)

Lemma await_one x b fr rest d o dt :
  one_filling x b (-1) d o dt ->
  wp (await (fr :: rest)) (fun r d' => r = (OK, Some (buf_done fr.1 fr.2 b)) /\
    one_idle x d' o dt /\ same_drv d d') d.
Proof.
  intros [[Hdev Hsr Hst Hsl Hl Hn Hf Hw Hd Hs Hhw Hm Hr Hh] [Hcu Hbx]].
  destruct (frame_done x b fr.1 fr.2 _ Hr Hh Hm Hbx)
    as (f2 & Hlb & Hsb & Hcd & Hr2 & Hh2 & Em & Ea & Es & Hx2).
  destruct (frame_deliver x _ f2 Hr2 Hh2 Hx2)
    as (f3 & f5 & Hpop & Hr3 & Hb2 & Hfc & Hr5 & Hh5 & Em5 & Ea5 & Es5).
  simpl. apply wp_bind. unfold irq. apply wp_bind, wp_get. rewrite Hhw. simpl.
  apply wp_bind. unfold video_complete_capture. apply wp_bind, wp_get. rewrite Hst. simpl.
  apply wp_bind. unfold capture_frame. apply wp_bind, wp_gets. simpl. rewrite Hcu.
  apply wp_bind. eapply wp_fb; [exact Hlb|].
  apply wp_bind. eapply wp_fb; [rewrite inf_upd; exact Hsb|]. rewrite upd_upd.
  rewrite Hn, andb_false_r. apply wp_bind, wp_ret, wp_bind. eapply wp_fb; [simpl; exact Hcd|].
  rewrite Hw. simpl. apply wp_bind. eapply wp_fb; [simpl; exact Hpop|].
  apply wp_bind, wp_modify, wp_bind, wp_modify, wp_modify.
  apply wp_bind. unfold capture_next. apply wp_bind, wp_gets. simpl. rewrite Hn. simpl.
  apply wp_bind. eapply wp_fb; [simpl; by apply get_vacant_ok|]. simpl.
  apply wp_bind, (wp_stop _ o dt); [by apply (devices_step d)|]. apply wp_modify, wp_ret, wp_ret.
  apply wp_bind, wp_gets. simpl. rewrite Hw. simpl.
  unfold dq_resume. apply wp_bind, wp_bind, wp_gets. simpl.
  unfold dq_finish. apply wp_bind, wp_gets. simpl. apply wp_bind, wp_modify. unfold dq_deliver.
  apply wp_bind. eapply wp_fb; [simpl; exact Hb2|].
  apply wp_bind. eapply wp_fb; [simpl; exact Hfc|]. apply wp_ret, wp_ret.
  split; [done|]. split; [|constructor; simpl; congruence].
  constructor; simpl; try done.
  - by apply (devices_step d).
  - unfold is_ring in *. by rewrite Em5, Em.
Qed.

End CameraLemmas.
