(* ===== verification/WebSource.v ===== *)
(** * The image server on the camera board

    [src/sprefence/web_source/web_source_main.c]: the commands that arrive over
    the USB serial line.  [camera] takes a picture and sends it, [set] stores
    the hazard area, [on] asks for the fence.  What goes over the line and to
    the card are events here; [WebMain] connects them to the line and the card. *)

From Stdlib Require Import Ascii String.
From S2P Require Import Prelude SerialCodec FrameBuff VideoState VideoDrv VideoIoctl VideoSys CameraIo.
Import SerialCodec FrameBuff VideoState VideoDrv VideoIoctl VideoSys CameraIo.

#[local] Open Scope Z_scope.

Module WebSource.

Definition FSIZE : Z := VIDEO_HSIZE_QVGA * VIDEO_VSIZE_QVGA * 2 * 2.
Definition YUVSIZE : Z := VIDEO_HSIZE_QVGA * VIDEO_VSIZE_QVGA * 2.

(** ** The camera *)

(** [close(video_fd); video_uninitialize();] *)

Definition shut : AP unit :=
  a ← get; close_ (video_fd a);; uninitialize;; mret tt.

(** One [ioctl] of [camera_prepare]: a failure shuts the camera and returns. *)

Definition step (e : env) (req : request) (k : AP Z) : AP Z :=
  a ← get;
  ret ← ioctl_z e (video_fd a) req;
  if ret <? 0 then shut;; mret ret else k.

Definition camera_prepare (e : env) : AP Z :=
  a ← get;
  if 0 <=? video_fd a then mret 0
  else
    ret ← initialize e dev_video;
    if negb (ret =? 0) then mret (-1)
    else
      fd ← open_ e dev_path;
      modify (set_fd fd);;
      if fd <? 0 then uninitialize;; mret (-1)
      else
        step e (VIDIOC_REQBUFS (e_reqmalloc e) (Some frame_request))
          (step e (set_format VIDEO_HSIZE_VGA VIDEO_VSIZE_VGA V4L2_PIX_FMT_JPEG_WITH_SUBIMG)
            (step e (set_format VIDEO_HSIZE_QVGA VIDEO_VSIZE_QVGA V4L2_PIX_FMT_SUBIMG_UYVY)
              (step e (VIDIOC_STREAMON (Some V4L2_BUF_TYPE_VIDEO_CAPTURE)) (mret 0)))).

Definition set_camimage (e : env) : AP Z :=
  p ← memalign (e_frame e);
  modify (set_frame p);;
  match p with
  | None => shut;; mret (-1)
  | Some addr =>
    a ← get;
    ret ← ioctl_z e (video_fd a) (VIDIOC_QBUF (Some (frame_buffer addr FSIZE)));
    if negb (ret =? 0) then
      close_ (video_fd a);; free_ p;; uninitialize;; mret ERROR
    else mret OK
  end.

(** The address of the frame and its size (an [int]), or [None] for [NULL];
    [frames] complete while the thread waits. *)

Definition get_camimage (e : env) (frames : list (Z * Z)) : AP (option (Z * Z)) :=
  a ← get;
  '(ret, arg) ← ioctl e frames (video_fd a) (VIDIOC_DQBUF (Some dq_buffer));
  if negb (ret =? 0) then mret None
  else
    match arg with
    | VIDIOC_DQBUF (Some b) => mret (Some (b_userptr b, i32 (b_bytesused b)))
    | _ => mret None
    end.

(** ** The commands *)

Inductive wfile := PIC_uyvy | CONFIG_hazard | CONFIG_switch.

(** What a pass does to the serial line and to the card. *)

Inductive wevent :=
  | WSer (ev : ser_event)
  | WFile (f : wfile) (content : list Z).

Inductive wresult :=
  | WNext
  | WReturn (ret : Z).

(** The variables of [main] that outlive a pass. *)

Record web := mk_web { w_app : app; w_ret : Z; w_usedLen : Z }.

Definition set_app v w := mk_web v (w_ret w) (w_usedLen w).
Definition set_ret v w := mk_web (w_app w) v (w_usedLen w).
Definition set_usedLen v w := mk_web (w_app w) (w_ret w) v.

Definition on_app {A} (m : AP A) : M web A := zoom w_app set_app m.

(** What a pass meets: the bytes [read] gives ([None] for a failure), the
    answers of the system, the frames that complete before and during
    [VIDIOC_DQBUF], what the frame's memory then holds, and whether [fopen]
    succeeds. *)

Record wpass := mk_wpass {
  p_read : option (list Z); p_env : env; p_before : list (Z * Z); p_frames : list (Z * Z);
  p_image : cbuf; p_fopen : bool }.

(** Sending the image and storing the reference picture. *)

Definition send_picture (p : wpass) (mem : option Z) (usedLen : Z) :
    outcome (list wevent * bool) :=
  let jpgLen := usedLen - YUVSIZE in
  match mem with
  | None =>
    if 0 <? jpgLen then Ub NullDeref
    else if p_fopen p then Ub NullDeref
    else Ret ([WSer (SerWrite end_word); WSer SerDrain], false)
  | Some _ =>
    evs ← send_image (p_image p) YUVSIZE jpgLen;
    if p_fopen p then
      yuv ← read_bytes (p_image p) 0 (Z.to_nat YUVSIZE);
      Ret ((WSer <$> evs) ++ [WFile PIC_uyvy yuv], true)
    else Ret (WSer <$> evs, false)
  end.

(** The camera up to the frame: the value to return, or where the frame is. *)

Definition camera_take (p : wpass) : M web (Z + option Z) :=
  ret ← on_app (camera_prepare (p_env p));
  modify (set_ret ret);;
  if ret <? 0 then mret (inl ret)
  else
    ret ← on_app (set_camimage (p_env p));
    modify (set_ret ret);;
    if ret <? 0 then mret (inl ret)
    else
      on_app (on_drv (irqs (p_before p)));;
      r ← on_app (get_camimage (p_env p) (p_frames p));
      (match r with Some (_, n) => modify (set_usedLen n) | None => mret tt end);;
      mret (inr (fst <$> r)).

(** [close(video_fd); free(frame_mem); video_uninitialize();] *)

Definition camera_end : M web unit :=
  on_app (a ← get; close_ (video_fd a);; free_ (frame_mem a);; uninitialize);; mret tt.

Definition camera_command (p : wpass) : M web (list wevent * wresult) :=
  r ← camera_take p;
  match r with
  | inl ret => mret ([], WReturn ret)
  | inr mem =>
    w ← get;
    '(evs, stored) ← lift (send_picture p mem (w_usedLen w));
    if (stored : bool) then camera_end;; mret (evs, WNext) else mret (evs, WReturn (-1))
  end.

(** [fwrite] of [content] to a file that may fail to open. *)

Definition store_command (p : wpass) (f : wfile) (content : list Z) : list wevent * wresult :=
  if p_fopen p then ([WFile f content], WNext) else ([], WReturn (-1)).

(** [buff] is zeroed before each [read] of up to 256 bytes. *)

Definition buff (data : list Z) : list Z :=
  let d := take 256 data in d ++ replicate (256 - length d) 0.

Definition starts (b : list Z) (word : string) : bool :=
  str_eq b (c_string word) (String.length word).

Definition web_pass (p : wpass) : M web (list wevent * wresult) :=
  match p_read p with
  | None => mret ([], WNext)
  | Some data =>
    let b := buff data in
    if starts b "camera" then camera_command p
    else if starts b "set" then mret (store_command p CONFIG_hazard (take 16 (drop 4 b)))
    else if starts b "on" then mret (store_command p CONFIG_switch (take 3 b))
    else mret ([], WNext)
  end.

(** The loop over a sequence of passes: the result of [main], if it returned. *)

Fixpoint web_loop (l : list wpass) (evs : list wevent) : M web (list wevent * option Z) :=
  match l with
  | [] => mret (evs, None)
  | p :: rest =>
    '(evs', r) ← web_pass p;
    match r with
    | WReturn z => mret (evs ++ evs', Some z)
    | WNext =>
      w ← get;
      if w_ret w =? - ESHUTDOWN then mret (evs ++ evs', Some 0)
      else web_loop rest (evs ++ evs')
    end
  end.

End WebSource.
