(* ===== verification/DetectCam.v ===== *)
(** * The camera of the detector

    [src/sprefence/diff_ditect/diff_ditect_main.c]: [camera_prepare],
    [set_camimage], [get_camimage], and a pass of [main] with them:
    [Detect.detect_pass] fed by the driver. *)

From Stdlib Require Import SpecFloat.
From S2P Require Import Prelude FrameBuff VideoState VideoDrv VideoIoctl VideoSys CameraIo Detect.
Import FrameBuff VideoState VideoDrv VideoIoctl VideoSys CameraIo.

Module DetectCam.

Definition shut : AP unit :=
  a ← get; close_ (video_fd a);; uninitialize;; mret tt.

(** [close(video_fd); free(frame_mem); video_uninitialize();] *)

Definition shut_free : AP unit :=
  a ← get; close_ (video_fd a);; free_ (frame_mem a);; uninitialize;; mret tt.

Definition step (e : env) (req : request) (fail : AP unit) (k : AP Z) : AP Z :=
  a ← get;
  ret ← ioctl_z e (video_fd a) req;
  if ret <? 0 then fail;; mret ret else k.

(** [memalign] into a static variable; a failure shuts the camera. *)

Definition alloc (block : option Z) (store : option Z -> app -> app) (k : AP Z) : AP Z :=
  p ← memalign block;
  modify (store p);;
  match p with None => shut;; mret (-1) | Some _ => k end.

Definition camera_prepare (e : env) : AP Z :=
  a ← get;
  if 0 <=? video_fd a then mret 0
  else
    ret ← initialize e dev_video;
    if negb (ret =? 0) then mret (-1)
    else
      fd ← open_ e dev_path;
      modify (set_fd fd);;
      if fd <? 0 then uninitialize;; mret (-1)
      else
        step e (VIDIOC_REQBUFS (e_reqmalloc e) (Some frame_request)) shut_free
          (step e (set_format Detect.VIDEO_HSIZE_QVGA Detect.VIDEO_VSIZE_QVGA V4L2_PIX_FMT_UYVY) shut
            (alloc (e_frame e) set_frame
              (alloc (e_pic e) set_picmem
                (step e (VIDIOC_STREAMON (Some V4L2_BUF_TYPE_VIDEO_CAPTURE)) shut_free (mret 0))))).

(** A null [frame_mem] is address 0. *)

Definition set_camimage (e : env) : AP Z :=
  a ← get;
  let addr := match frame_mem a with Some p => p | None => 0 end in
  ret ← ioctl_z e (video_fd a) (VIDIOC_QBUF (Some (frame_buffer addr Detect.FSIZE)));
  if negb (ret =? 0) then shut_free;; mret ERROR else mret OK.

Definition get_camimage (e : env) (frames : list (Z * Z)) : AP (option Z) :=
  a ← get;
  '(ret, arg) ← ioctl e frames (video_fd a) (VIDIOC_DQBUF (Some dq_buffer));
  if negb (ret =? 0) then mret None
  else
    match arg with
    | VIDIOC_DQBUF (Some b) => mret (Some (b_userptr b))
    | _ => mret None
    end.

(** The camera part of one pass: the result of [set_camimage], and the frame;
    frames complete before and during [VIDIOC_DQBUF]. *)

Definition camera_round (e : env) (before frames : list (Z * Z)) : AP (Z * option Z) :=
  ret ← set_camimage e;
  if ret <? 0 then mret (ret, None)
  else on_drv (irqs before);; r ← get_camimage e frames; mret (ret, r).

(** ** A pass of [main] *)

(** What one pass meets; [d_image] is what the frame's memory holds. *)

Record dpass := mk_dpass {
  d_switch : option (list Z); d_stack : list Z; d_pic : option cbuf;
  d_env : env; d_before : list (Z * Z); d_frames : list (Z * Z); d_image : cbuf }.

(** Does the pass get as far as the camera? *)

Definition uses_camera (p : dpass) (st : Detect.detector) : bool :=
  match d_switch p with
  | Some _ => false
  | None =>
    if negb (Detect.isLoaded st) || (Detect.st_i st =? 0)
    then match d_pic p with Some _ => true | None => false end else true
  end.

Definition pass (h : Detect.hazard) (p : dpass) (st : Detect.detector) : AP Detect.pass :=
  '(ret, cam) ← (if uses_camera p st then camera_round (d_env p) (d_before p) (d_frames p)
                 else mret (OK, None));
  lift (Detect.detect_pass h
    (Detect.mk_world (d_switch p) (d_stack p) (d_pic p) ret
       (match cam with Some _ => Some (d_image p) | None => None end)) st).

End DetectCam.
