(* ===== verification/CameraProps.v ===== *)
(** * The programs with the camera

    What the two programs achieve through the driver: a picture request is
    served, with the frame captured after it; the detector gets a frame in
    every pass; and what happens to a second picture request. *)

From Stdlib Require Import SpecFloat String.
From S2P Require Import Prelude SerialCodec FrameBuff VideoState VideoCtrl VideoDrv VideoIoctl VideoSys VideoSafe VideoProps VideoSettings CameraIo CameraLemmas WebSource Detect DetectCam.
Import SerialCodec FrameBuff VideoState VideoCtrl VideoDrv VideoIoctl VideoSys VideoSafe VideoProps
  VideoSettings CameraIo CameraLemmas.

#[local] Open Scope Z_scope.

Module CameraProps.

(** ** System calls *)

Lemma wp_on_drv {A} (m : VD A) Q a :
  wp m (fun r d => Q r (set_drv d a)) (a_drv a) -> wp (on_drv m) Q a.
Proof. intros (r & d & Hm & HQ). exists r, (set_drv d a). unfold on_drv, zoom. by rewrite Hm. Qed.

Lemma wp_sys_ok ret Q (a : app) : 0 <= ret -> Q ret a -> wp (sys_result ret) Q a.
Proof.
  intros H HQ. unfold sys_result. rewrite (proj2 (Z.ltb_ge _ _) H). by apply wp_ret.
Qed.

(** A request that the driver answers at once with a success. *)

Lemma wp_ioctl_z e fd req Q a :
  fd ∈ a_files a ->
  wp (video_ioctl (e_stack e) req) (fun r d => exists ret arg, r = IoReturn ret arg /\ 0 <= ret /\
    Q ret (set_drv d a)) (a_drv a) ->
  wp (ioctl_z e fd req) Q a.
Proof.
  intros Hfd H. unfold ioctl_z, ioctl. apply wp_bind, wp_bind, wp_get.
  rewrite bool_decide_eq_true_2 by done. apply wp_bind, wp_on_drv.
  eapply wp_mono; [exact H|]. intros r d (ret & arg & -> & Hret & HQ).
  apply wp_bind, wp_sys_ok; [done|]. apply wp_ret. by apply wp_ret.
Qed.

Lemma wp_plain_ok req m Q d :
  wp m (fun r d' => Q (IoReturn r req) d') d -> wp (plain req m) Q d.
Proof. intros H. apply wp_bind. eapply wp_mono; [exact H|]. intros. by apply wp_ret. Qed.

(** ** The camera is accepted *)

(** The devices accept the formats [fmts] on the video stream. *)

Definition accepts (o : imgsensor_ops) (dt : imgdata_ops) (fmts : list video_format) : Prop :=
  exists sv dv, so_validate_frame_setting o = Some sv /\ do_validate_frame_setting dt = Some dv /\
    forall h i,
      sv h V4L2_BUF_TYPE_VIDEO_CAPTURE (Z.of_nat (length fmts)) (convert_to_imgfmt <$> fmts) i = OK /\
      dv h (Z.of_nat (length fmts)) (convert_to_imgfmt <$> fmts) i = OK.

Lemma validate_accepts o dt fmts d i :
  devices_ok d o dt -> accepts o dt fmts ->
  validate_frame_setting V4L2_BUF_TYPE_VIDEO_CAPTURE (Z.of_nat (length fmts)) fmts i d = Ret (OK, d).
Proof.
  intros Hdev (sv & dv & E1 & E2 & H). destruct (H (hist d) i) as [H1 H2].
  unfold validate_frame_setting, both_ops, sensor. munfold.
  rewrite (dv_sensor _ _ _ Hdev), (dv_data _ _ _ Hdev), E1, E2, H1. simpl. by rewrite H2.
Qed.

Lemma s_fmt_main v q d o dt :
  one_cam q VIDEO_STATE_STREAMOFF 0 d o dt ->
  is_subimg (f_pixelformat v) = false -> is_mainimg (f_pixelformat v) = true -> accepts o dt [v] ->
  video_s_fmt (Some (mk_v4l2fmt V4L2_BUF_TYPE_VIDEO_CAPTURE v)) d =
    Ret (OK, upd_inf SVideo (fun t => set_nr_fmt 1 (set_fmt_main v t)) d).
Proof.
  intros Hc Hsub Hmain Hacc. pose proof (oc_dev _ _ _ _ _ _ Hc) as Hdev.
  pose proof (oc_state _ _ _ _ _ _ Hc) as Hst.
  assert (Htry : video_try_fmt (Some (mk_v4l2fmt V4L2_BUF_TYPE_VIDEO_CAPTURE v)) d = Ret (OK, d)).
  { pose proof (validate_accepts o dt [v] d (frame_interval (video_inf d)) Hdev Hacc) as Hv.
    destruct Hacc as (sv & dv & E1 & E2 & _). unfold video_try_fmt, both_ops, sensor.
    unfold get_inf. munfold. rewrite (dv_sensor _ _ _ Hdev), (dv_data _ _ _ Hdev), E1, E2. simpl.
    rewrite Hsub, Hmain. exact Hv. }
  unfold video_s_fmt. rewrite (bind_returns _ _ _ _ _ Htry). simpl.
  unfold get_inf, on_inf. munfold. simpl. by rewrite Hst, Hsub.
Qed.

Lemma s_fmt_sub v q d o dt :
  one_cam q VIDEO_STATE_STREAMOFF 0 d o dt -> is_subimg (f_pixelformat v) = true ->
  f_pixelformat (fmt_main (video_inf d)) = V4L2_PIX_FMT_JPEG_WITH_SUBIMG ->
  accepts o dt [fmt_main (video_inf d); subimg_format v] ->
  video_s_fmt (Some (mk_v4l2fmt V4L2_BUF_TYPE_VIDEO_CAPTURE v)) d =
    Ret (OK, upd_inf SVideo (fun t => set_nr_fmt 2 (set_fmt_sub (subimg_format v) t)) d).
Proof.
  intros Hc Hsub Hmain Hacc. pose proof (oc_dev _ _ _ _ _ _ Hc) as Hdev.
  pose proof (oc_state _ _ _ _ _ _ Hc) as Hst.
  assert (Htry : video_try_fmt (Some (mk_v4l2fmt V4L2_BUF_TYPE_VIDEO_CAPTURE v)) d = Ret (OK, d)).
  { pose proof (validate_accepts o dt _ d (frame_interval (video_inf d)) Hdev Hacc) as Hv.
    destruct Hacc as (sv & dv & E1 & E2 & _). unfold video_try_fmt, both_ops, sensor.
    unfold get_inf. munfold. rewrite (dv_sensor _ _ _ Hdev), (dv_data _ _ _ Hdev), E1, E2. simpl.
    rewrite Hsub, Hmain. simpl. exact Hv. }
  unfold video_s_fmt. rewrite (bind_returns _ _ _ _ _ Htry). simpl.
  unfold get_inf, on_inf. munfold. simpl. by rewrite Hst, Hsub, Hmain.
Qed.

(** ** The program holds the camera *)

(** The device is open once, by this program. *)

Record held (a : app) : Prop := {
  hd_open : open_num (a_drv a) = 1;
  hd_lock : lock_open_num (a_drv a) = 1;
  hd_scenes : Forall gamma_ok (g_video_scene_parameter (a_drv a));
  hd_file : video_fd a ∈ a_files a;
  hd_fd : 0 <= video_fd a;
  hd_init : is_initialized (a_mod a) = true
}.

(** ... and its video stream is in state [st], with the queue [q]. *)

Definition live (q : queue) (st : video_state) (a : app) o dt : Prop :=
  one_cam q st 0 (a_drv a) o dt /\ held a.

(** ... or the hardware fills the program's buffer [b]. *)

Definition filling (x : vptr) (b : v4l2_buffer) (a : app) o dt : Prop :=
  one_filling x b 0 (a_drv a) o dt /\ held a.

Definition same_count (d d' : vdrv) : Prop :=
  open_num d' = open_num d /\ lock_open_num d' = lock_open_num d /\
  g_video_scene_parameter d' = g_video_scene_parameter d.

Lemma same_drv_count d d' : same_drv d d' -> same_count d d'.
Proof. by intros [_ ? ? ? _ _]. Qed.

Lemma held_step a d' : held a -> same_count (a_drv a) d' -> held (set_drv d' a).
Proof. intros [] (E1 & E2 & E3). constructor; simpl; rewrite ?E1, ?E2, ?E3; done. Qed.

Lemma live_step q st q' st' a d' o dt :
  live q st a o dt -> one_cam q' st' 0 d' o dt -> same_count (a_drv a) d' ->
  live q' st' (set_drv d' a) o dt.
Proof. intros [_ H] Hc Hs. split; [done|]. by apply held_step. Qed.

(** ** Opening *)

(** The first use of the camera: nothing is registered yet, a sensor is
    connected, and the system has what the programs ask for. *)

Record boot (e : env) (a : app) (o : imgsensor_ops) (dt : imgdata_ops) : Prop := {
  bt_fd : video_fd a < 0;
  bt_mod : is_initialized (a_mod a) = false;
  bt_malloc1 : e_malloc1 e = true;
  bt_malloc2 : e_malloc2 e = true;
  bt_register : 0 <= e_register e dev_path;
  bt_newfd : 0 <= e_newfd e;
  bt_reqmalloc : e_reqmalloc e = true;
  bt_ready : camera_ready (fresh_device (a_drv a)) o dt
}.

Lemma initialize_boot e a o dt :
  boot e a o dt ->
  initialize e dev_video a = Ret (OK, set_drv (fresh_device (a_drv a))
    (set_mod (mk_module true (Some dev_path) (dev_path :: nodes (a_mod a))) a)).
Proof.
  intros [_ Hm E1 E2 Hr _ _ _]. unfold initialize, video_initialize. munfold. rewrite Hm, E1, E2.
  assert (Hv : video_register true true (e_register e) (Some (cbuf_of_list dev_video)) = Ret (Some dev_path)).
  { change (video_register true true (e_register e) (Some (cbuf_of_list dev_video)))
      with (Ret (if e_register e dev_path <? 0 then None else Some dev_path)).
    by rewrite (proj2 (Z.ltb_ge _ _) Hr). }
  by rewrite Hv.
Qed.

(** What opening and the requests after it leave alone. *)

Definition same_app (a a' : app) : Prop :=
  a_heap a' = a_heap a /\ frame_mem a' = frame_mem a /\ pic_mem a' = pic_mem a /\
  a_files a' = a_files a /\ video_fd a' = video_fd a.

Lemma same_app_drv d a : same_app a (set_drv d a).
Proof. done. Qed.

Lemma open_boot e a o dt (k : Z -> AP Z) Q :
  boot e a o dt ->
  (forall a', live (mk_queue [] [] []) VIDEO_STATE_STREAMOFF a' o dt ->
     same_app (set_fd (e_newfd e) (set_files (e_newfd e :: a_files a) a)) a' ->
     wp (k (e_newfd e)) Q a') ->
  wp (ret ← initialize e dev_video;
      if negb (ret =? 0) then mret (-1) else fd ← open_ e dev_path; modify (set_fd fd);; k fd) Q a.
Proof.
  intros Hb Hk. apply wp_bind. eapply wp_run; [by eapply initialize_boot|].
  apply wp_bind. unfold open_. apply wp_bind, wp_get.
  rewrite bool_decide_eq_true_2 by (apply list_elem_of_here).
  apply wp_bind, wp_on_drv. eapply wp_mono; [apply (open_run _ o dt), Hb|].
  intros r d' [-> Hop]. simpl. pose proof (bt_newfd _ _ _ _ Hb) as Hfd.
  rewrite (proj2 (Z.ltb_ge _ _) Hfd). apply wp_bind, wp_modify, wp_ret. simpl.
  apply wp_bind, wp_modify. apply Hk; [|done].
  pose proof Hop as [? ? _ _ _ _ ?]. split; [|constructor; simpl; try done].
  - eapply open_one; [|exact Hop]. apply Hb.
  - apply list_elem_of_here.
Qed.

(** The requests of [camera_prepare], while the stream is off. *)

Lemma live_reqbufs e q a o dt :
  live q VIDEO_STATE_STREAMOFF a o dt ->
  wp (ioctl_z e (video_fd a) (VIDIOC_REQBUFS true (Some frame_request))) (fun r a' => r = OK /\
    same_app a a' /\ exists x, live (mk_queue [] [] [x]) VIDEO_STATE_STREAMOFF a' o dt) a.
Proof.
  intros Hl. apply wp_ioctl_z; [apply Hl|]. apply wp_plain_ok.
  eapply wp_mono; [eapply reqbufs_one, Hl|]. intros r d' (-> & x & f' & -> & Hc).
  eexists OK, _. do 4 (split; [done|]). exists x. by eapply live_step.
Qed.

Lemma live_fmt_main e v q a o dt :
  live q VIDEO_STATE_STREAMOFF a o dt ->
  is_subimg (f_pixelformat v) = false -> is_mainimg (f_pixelformat v) = true -> accepts o dt [v] ->
  nonempty_fmt v ->
  wp (ioctl_z e (video_fd a) (VIDIOC_S_FMT (Some (mk_v4l2fmt V4L2_BUF_TYPE_VIDEO_CAPTURE v))))
    (fun r a' => r = OK /\ same_app a a' /\ live q VIDEO_STATE_STREAMOFF a' o dt /\
       fmt_main (video_inf (a_drv a')) = v /\ nr_fmt (video_inf (a_drv a')) = 1) a.
Proof.
  intros Hl Hsub Hmain Hacc [Hne1 Hne2]. apply wp_ioctl_z; [apply Hl|]. apply wp_plain_ok.
  eapply wp_run; [by eapply s_fmt_main; [apply Hl|..]|]. eexists OK, _. do 4 (split; [done|]). split; [|done].
  eapply live_step; [exact Hl| |done]. apply one_setting; [apply Hl|done|].
  split; [by left|done].
Qed.

Lemma live_fmt_sub e v q a o dt :
  live q VIDEO_STATE_STREAMOFF a o dt -> is_subimg (f_pixelformat v) = true ->
  f_pixelformat (fmt_main (video_inf (a_drv a))) = V4L2_PIX_FMT_JPEG_WITH_SUBIMG ->
  accepts o dt [fmt_main (video_inf (a_drv a)); subimg_format v] ->
  wp (ioctl_z e (video_fd a) (VIDIOC_S_FMT (Some (mk_v4l2fmt V4L2_BUF_TYPE_VIDEO_CAPTURE v))))
    (fun r a' => r = OK /\ same_app a a' /\ live q VIDEO_STATE_STREAMOFF a' o dt) a.
Proof.
  intros Hl Hsub Hmain Hacc. apply wp_ioctl_z; [apply Hl|]. apply wp_plain_ok.
  eapply wp_run; [by eapply s_fmt_sub; [apply Hl|..]|]. eexists OK, _. do 4 (split; [done|]).
  eapply live_step; [exact Hl| |done]. apply one_setting; [apply Hl|done|].
  destruct (oc_fmt _ _ _ _ _ _ (proj1 Hl)) as [_ [? ?]]. split; [by right|done].
Qed.

Lemma live_streamon e x a o dt :
  live (mk_queue [] [] [x]) VIDEO_STATE_STREAMOFF a o dt ->
  wp (ioctl_z e (video_fd a) (VIDIOC_STREAMON (Some V4L2_BUF_TYPE_VIDEO_CAPTURE))) (fun r a' =>
    r = OK /\ same_app a a' /\ live (mk_queue [] [] [x]) VIDEO_STATE_STREAMON a' o dt) a.
Proof.
  intros Hl. apply wp_ioctl_z; [apply Hl|]. apply wp_plain_ok.
  eapply wp_mono; [eapply streamon_one, Hl|]. intros r d' (-> & Hc & Hs).
  eexists OK, _. do 4 (split; [done|]). eapply live_step; [exact Hl|exact Hc|by apply same_drv_count].
Qed.

(** ** Frames *)

(** Queueing the program's buffer starts a capture into it. *)

Lemma live_qbuf e x addr size a o dt :
  live (mk_queue [] [] [x]) VIDEO_STATE_STREAMON a o dt ->
  wp (ioctl_z e (video_fd a) (VIDIOC_QBUF (Some (frame_buffer addr size)))) (fun r a' => r = OK /\
    same_app a a' /\ filling x (frame_buffer addr size) a' o dt) a.
Proof.
  intros [Hl Hh]. apply wp_ioctl_z; [apply Hh|]. apply wp_plain_ok.
  eapply wp_mono; [by apply qbuf_one|]. intros r d1 (-> & Hf1 & Hs1).
  eexists OK, _. do 4 (split; [done|]). split; [done|].
  apply held_step; [done|]. by apply same_drv_count.
Qed.

(** Frames that complete before the program asks are overwritten. *)

Lemma filling_irqs l x b a o dt :
  filling x b a o dt ->
  wp (on_drv (irqs l)) (fun _ a' => same_app a a' /\ exists b', filling x b' a' o dt /\
    b_userptr b' = b_userptr b) a.
Proof.
  intros [Hf Hh]. apply wp_on_drv. eapply wp_mono; [by apply irqs_one|].
  intros [] d2 (b' & Hf2 & Hs2 & Eb). split; [done|]. exists b'. split; [|done]. split; [done|].
  apply held_step; [done|]. by apply same_drv_count.
Qed.

(** The first frame that completes after the program asked is the one it gets. *)

Lemma filling_dqbuf e x b fr rest a o dt :
  filling x b a o dt ->
  wp (ioctl e (fr :: rest) (video_fd a) (VIDIOC_DQBUF (Some dq_buffer)))
    (fun r a' => r = (OK, VIDIOC_DQBUF (Some (buf_done fr.1 fr.2 b))) /\ same_app a a' /\
       live (mk_queue [] [] [x]) VIDEO_STATE_STREAMON a' o dt) a.
Proof.
  intros [Hf Hh]. unfold ioctl. apply wp_bind, wp_get.
  rewrite bool_decide_eq_true_2 by apply Hh. apply wp_bind, wp_on_drv. unfold video_ioctl.
  apply wp_bind. eapply wp_mono; [by apply dqbuf_one|]. intros r d3 (-> & Hf3 & Hs3).
  apply wp_ret. cbn [dq_reply]. apply wp_bind, wp_on_drv.
  eapply wp_mono; [by apply await_one|]. intros r d4 (-> & Hf4 & Hs4).
  apply wp_bind, wp_sys_ok; [done|]. apply wp_ret. do 2 (split; [done|]). split; [done|].
  apply (held_step a); [done|]. apply same_drv_count. by etransitivity.
Qed.

(** ** The picture server *)

(** The formats of [web_source]: a VGA JPEG with a QVGA image beside it. *)

Definition vga_jpeg : video_format :=
  mk_format VIDEO_HSIZE_VGA VIDEO_VSIZE_VGA V4L2_PIX_FMT_JPEG_WITH_SUBIMG.
Definition qvga_sub : video_format :=
  mk_format VIDEO_HSIZE_QVGA VIDEO_VSIZE_QVGA V4L2_PIX_FMT_SUBIMG_UYVY.
Definition qvga_uyvy : video_format :=
  mk_format VIDEO_HSIZE_QVGA VIDEO_VSIZE_QVGA V4L2_PIX_FMT_UYVY.

Lemma web_prepare_ok e a o dt :
  boot e a o dt -> accepts o dt [vga_jpeg] -> accepts o dt [vga_jpeg; qvga_uyvy] ->
  wp (WebSource.camera_prepare e) (fun r a' => r = 0 /\
    same_app (set_fd (e_newfd e) (set_files (e_newfd e :: a_files a) a)) a' /\
    exists x, live (mk_queue [] [] [x]) VIDEO_STATE_STREAMON a' o dt) a.
Proof.
  intros Hb Hmain Hsub. unfold WebSource.camera_prepare. apply wp_bind, wp_get.
  rewrite (proj2 (Z.leb_gt 0 _)) by apply Hb. eapply open_boot; [exact Hb|]. intros a1 Hl1 S1.
  rewrite (proj2 (Z.ltb_ge _ _)) by apply Hb. rewrite (bt_reqmalloc _ _ _ _ Hb).
  unfold WebSource.step. apply wp_bind, wp_get, wp_bind.
  eapply wp_mono; [by eapply live_reqbufs|]. intros r a2 (-> & S2 & x & Hl2). cbn.
  apply wp_bind, wp_get, wp_bind.
  eapply wp_mono; [by apply (live_fmt_main e vga_jpeg (mk_queue [] [] [x]) a2 o dt)|].
  intros r a3 (-> & S3 & Hl3 & Ef & _). simpl. apply wp_bind, wp_get, wp_bind.
  eapply wp_mono; [apply (live_fmt_sub e qvga_sub (mk_queue [] [] [x]) a3 o dt); by rewrite ?Ef|].
  intros r a4 (-> & S4 & Hl4). simpl. apply wp_bind, wp_get, wp_bind.
  eapply wp_mono; [by eapply live_streamon|]. intros r a5 (-> & S5 & Hl5). apply wp_ret.
  split; [done|]. split; [|by exists x]. unfold same_app in *. naive_solver congruence.
Qed.

(** The buffer is allocated and queued. *)

Lemma web_set_ok e x addr a o dt :
  live (mk_queue [] [] [x]) VIDEO_STATE_STREAMON a o dt -> e_frame e = Some addr ->
  wp (WebSource.set_camimage e) (fun r a' => r = OK /\
    same_app (set_frame (Some addr) (set_heap (addr :: a_heap a) a)) a' /\
    filling x (frame_buffer addr WebSource.FSIZE) a' o dt) a.
Proof.
  intros [Hl Hh] He. unfold WebSource.set_camimage. rewrite He. apply wp_bind, wp_bind, wp_modify, wp_ret.
  apply wp_bind, wp_modify, wp_bind, wp_get, wp_bind.
  eapply wp_mono; [apply (live_qbuf e x addr WebSource.FSIZE (set_frame (Some addr) (set_heap (addr :: a_heap a) a)))|].
  { split; [done|]. by destruct Hh. }
  intros r a' (-> & S & Hf). apply wp_ret. done.
Qed.

(** Reading memory that holds a known list. *)

Lemma read_holds (mem : cbuf) off l :
  holds mem off l -> read_bytes mem off (List.length l) = Ret l.
Proof.
  revert off. induction l as [|y l IH]; intros off H; [done|]. simpl.
  pose proof (H 0%nat y eq_refl) as H0. change (Z.of_nat 0 + off) with off in H0. rewrite H0. simpl.
  rewrite IH; [done|]. intros k z Hk. specialize (H (S k) z Hk).
  by replace (Z.of_nat k + (off + 1)) with (Z.of_nat (S k) + off) by lia.
Qed.

(** Closing, from any of these states. *)

Lemma wp_close_fail q st a o dt Q :
  live q st a o dt -> st <> VIDEO_STATE_CAPTURE ->
  (forall d', closed (a_drv a) d' ->
     Q ERROR (set_errno 1 (set_drv d' (set_files (filter (fun z => z <> video_fd a) (a_files a)) a)))) ->
  wp (close_ (video_fd a)) Q a.
Proof.
  intros [Hc Hh] Hst HQ. unfold close_. apply wp_bind, wp_get.
  rewrite bool_decide_eq_true_2 by apply Hh. apply wp_bind, wp_modify, wp_bind, wp_on_drv.
  destruct (one_inv _ _ _ _ _ _ Hc) as [B Hi]; [done|by left|].
  eapply wp_mono; [apply (close_ok B); [exact Hi|apply Hh..]|]. intros r d' [-> Hcl].
  unfold sys_result. simpl. apply wp_bind, wp_modify, wp_ret. by apply HQ.
Qed.

(** ** A picture request *)

(** The first picture request: the program is waiting for commands, the camera
    is as [boot] describes, and the request comes with enough memory, a frame
    that completes after it, and a card that can be written. *)

Record request_ok (p : WebSource.wpass) (w : WebSource.web) (o : imgsensor_ops) (dt : imgdata_ops)
    (addr : Z) (fr : Z * Z) (yuv jpeg : list Z) : Prop := {
  rq_boot : boot (WebSource.p_env p) (WebSource.w_app w) o dt;
  rq_main : accepts o dt [vga_jpeg];
  rq_sub : accepts o dt [vga_jpeg; qvga_uyvy];
  rq_frame : e_frame (WebSource.p_env p) = Some addr;
  rq_frames : head (WebSource.p_frames p) = Some fr;
  rq_size : fr.2 = Z.of_nat (List.length (yuv ++ jpeg));
  rq_yuv : Z.of_nat (List.length yuv) = WebSource.YUVSIZE;
  rq_int : fr.2 <= INT_MAX;
  rq_image : holds (WebSource.p_image p) 0 (yuv ++ jpeg);
  rq_fopen : WebSource.p_fopen p = true;
  rq_cmd : exists data, WebSource.p_read p = Some data /\
    WebSource.starts (WebSource.buff data) "camera" = true
}.

Lemma wp_on_app {A} (m : AP A) Q w :
  wp m (fun r a => Q r (WebSource.set_app a w)) (WebSource.w_app w) -> wp (WebSource.on_app m) Q w.
Proof. intros (r & a & Hm & HQ). exists r, (WebSource.set_app a w). unfold WebSource.on_app, zoom. by rewrite Hm. Qed.

(** The state after a served request: closed, with the old descriptor kept in
    [video_fd]. *)

Record served (w w' : WebSource.web) (fd : Z) : Prop := {
  sv_open : open_num (a_drv (WebSource.w_app w')) = 0;
  sv_lock : lock_open_num (a_drv (WebSource.w_app w')) = 1;
  sv_hw : hw_running (hist (a_drv (WebSource.w_app w'))) = false;
  sv_fd : video_fd (WebSource.w_app w') = fd;
  sv_files : a_files (WebSource.w_app w') = filter (fun z => z <> fd) (a_files (WebSource.w_app w));
  sv_ret : WebSource.w_ret w' = OK
}.

(** The picture that was captured is sent and stored, the camera is released. *)

Lemma send_picture_ok p addr yuv jpeg :
  holds (WebSource.p_image p) 0 (yuv ++ jpeg) ->
  Z.of_nat (List.length yuv) = WebSource.YUVSIZE -> WebSource.p_fopen p = true ->
  exists sers, WebSource.send_picture p (Some addr) (Z.of_nat (List.length (yuv ++ jpeg))) =
      Ret ((WebSource.WSer <$> sers) ++ [WebSource.WFile WebSource.PIC_uyvy yuv], true) /\
    line_bytes sers = packed_image jpeg ++ end_word /\
    send_image (WebSource.p_image p) WebSource.YUVSIZE (Z.of_nat (List.length jpeg)) = Ret sers.
Proof.
  intros Him Hyuv Hfo. apply holds_app in Him as [H1 H2]. rewrite Hyuv, Z.add_0_r in H2.
  destruct (send_image_spec _ _ _ H2) as (sers & Hs & Hl). exists sers. split; [|by rewrite Hs].
  unfold WebSource.send_picture. rewrite length_app, Nat2Z.inj_add, Hyuv.
  replace (WebSource.YUVSIZE + Z.of_nat (List.length jpeg) - WebSource.YUVSIZE)
    with (Z.of_nat (List.length jpeg)) by lia.
  rewrite Hs. cbn [mbind outcome_bind]. rewrite Hfo.
  replace (Z.to_nat WebSource.YUVSIZE) with (List.length yuv) by lia.
  by rewrite (read_holds _ _ _ H1).
Qed.

#[local] Arguments WebSource.send_picture : simpl never.
#[local] Arguments send_image : simpl never.

(** The frame is taken; then the camera can be closed. *)

Lemma camera_take_ok p w o dt addr fr yuv jpeg :
  request_ok p w o dt addr fr yuv jpeg ->
  wp (WebSource.camera_take p) (fun r w1 => exists mem, r = inr (Some mem) /\
    WebSource.w_usedLen w1 = Z.of_nat (List.length (yuv ++ jpeg)) /\
    wp WebSource.camera_end (fun _ w' => served w w' (e_newfd (WebSource.p_env p)) /\
      a_heap (WebSource.w_app w') = filter (fun z => z <> addr) (a_heap (WebSource.w_app w))) w1) w.
Proof.
  intros [Hb Hm Hs Hfr Hhd Hsz Hyuv Hint Him Hfo _].
  unfold WebSource.camera_take. apply wp_bind, wp_on_app.
  eapply wp_mono; [by eapply web_prepare_ok|]. intros r a1 (-> & S1 & x & Hl1).
  apply wp_bind, wp_modify. simpl. apply wp_bind, wp_on_app.
  eapply wp_mono; [by apply (web_set_ok _ x addr)|]. intros r a2 (-> & S2 & Hf2).
  apply wp_bind, wp_modify. simpl. apply wp_bind, wp_on_app.
  eapply wp_mono; [by apply filling_irqs|]. intros [] a3 (S3 & b & Hf3 & Eb). simpl.
  destruct (WebSource.p_frames p) as [|fr' rest]; [done|]. injection Hhd as ->.
  apply wp_bind, wp_on_app. unfold WebSource.get_camimage. apply wp_bind, wp_get, wp_bind.
  eapply wp_mono; [by apply filling_dqbuf|]. intros r a4 (-> & S4 & Hl4). apply wp_ret.
  apply wp_bind, wp_modify, wp_ret. simpl. rewrite i32_id by (unfold INT_MIN; lia). rewrite Hsz.
  exists (b_userptr b). split_and!; [done|done|].
  apply wp_bind, wp_on_app, wp_bind, wp_get. simpl.
  assert (Ehp : a_heap a4 = addr :: a_heap (WebSource.w_app w) /\ frame_mem a4 = Some addr /\
    a_files a4 = e_newfd (WebSource.p_env p) :: a_files (WebSource.w_app w) /\
    video_fd a4 = e_newfd (WebSource.p_env p)).
  { unfold same_app in *. simpl in *. naive_solver congruence. }
  destruct Ehp as (E1 & E2 & E3 & E4).
  apply wp_bind. eapply wp_close_fail; [exact Hl4|done|]. intros d' [? ? ? _ _ _ _ _ _].
  apply wp_bind. rewrite E2. unfold free_. apply wp_bind, wp_get. simpl.
  rewrite bool_decide_eq_true_2 by (rewrite E1; apply list_elem_of_here). apply wp_modify.
  unfold uninitialize, zoom, video_uninitialize.
  eapply wp_run; [munfold; simpl; rewrite (hd_init _ (proj2 Hl4)); reflexivity|].
  apply wp_ret. split.
  - constructor; simpl; try done. rewrite E3, E4. by rewrite filter_cons_False by (intros ?; done).
  - simpl. rewrite E1. by rewrite filter_cons_False by (intros ?; done).
Qed.

Lemma camera_command_ok p w o dt addr fr yuv jpeg :
  request_ok p w o dt addr fr yuv jpeg ->
  wp (WebSource.camera_command p) (fun r w' => exists sers,
    r = ((WebSource.WSer <$> sers) ++ [WebSource.WFile WebSource.PIC_uyvy yuv], WebSource.WNext) /\
    line_bytes sers = packed_image jpeg ++ end_word /\
    served w w' (e_newfd (WebSource.p_env p)) /\
    a_heap (WebSource.w_app w') = filter (fun z => z <> addr) (a_heap (WebSource.w_app w))) w.
Proof.
  intros Hreq. unfold WebSource.camera_command. apply wp_bind. eapply wp_mono; [by eapply camera_take_ok|].
  intros r w1 (mem & -> & Eu & Hend). apply wp_bind, wp_get. rewrite Eu.
  destruct (send_picture_ok p mem yuv jpeg) as (sers & Hsend & Hline & _); [by apply Hreq..|].
  apply wp_bind. eapply wp_lift; [exact Hsend|]. apply wp_bind. eapply wp_mono; [exact Hend|].
  intros [] w' [? ?]. apply wp_ret. by exists sers.
Qed.

Lemma camera_pass p data :
  WebSource.p_read p = Some data -> WebSource.starts (WebSource.buff data) "camera" = true ->
  WebSource.web_pass p = WebSource.camera_command p.
Proof. intros E1 E2. unfold WebSource.web_pass. by rewrite E1, E2. Qed.

(** A picture request is served: the pass of the loop returns, what goes
    over the line is the packed image of the JPEG part of the frame and the end
    word, which the host decodes to that image when its length is a multiple of
    seven; the QVGA part is stored as the detector's reference picture; the
    device is closed, its hardware stopped and the frame's memory freed.  The
    frame is the first that completes after the program asked for it, whatever
    completed before. *)
Theorem picture_served p w o dt addr fr yuv jpeg
    (Hreq : request_ok p w o dt addr fr yuv jpeg) :
  exists sers w', WebSource.web_pass p w =
      Ret ((WebSource.WSer <$> sers) ++ [WebSource.WFile WebSource.PIC_uyvy yuv], WebSource.WNext, w') /\
    line_bytes sers = packed_image jpeg ++ end_word /\
    (forall m, Forall byte jpeg -> Z.of_nat (List.length jpeg) mod 7 = 0 ->
       holds m 0 (line_bytes sers) -> Z.of_nat (List.length (line_bytes sers)) <= cb_len m ->
       receive_image m (Z.of_nat (List.length (line_bytes sers))) = Ret jpeg) /\
    served w w' (e_newfd (WebSource.p_env p)) /\
    a_heap (WebSource.w_app w') = filter (fun z => z <> addr) (a_heap (WebSource.w_app w)).
Proof.
  destruct (rq_cmd _ _ _ _ _ _ _ _ Hreq) as (data & E1 & E2). rewrite (camera_pass _ _ E1 E2).
  destruct (camera_command_ok _ _ _ _ _ _ _ _ Hreq) as (r & w' & Hrun & sers & -> & Hl & Hs & Hh).
  exists sers, w'. split_and!; try done. rewrite Hl. intros. by apply receive_exact.
Qed.

(** ** The next picture request *)

Lemma wp_uninitialize a Q : (forall m, Q OK (set_mod m a)) -> wp uninitialize Q a.
Proof.
  intros H. unfold uninitialize, zoom, video_uninitialize. munfold.
  destruct (is_initialized (a_mod a)) eqn:E.
  - eapply wp_run; [by rewrite E|]. apply H.
  - destruct (video_unregister (video_handler (a_mod a)) (a_mod a)) as [r m'] eqn:Eu. eapply wp_run; [by rewrite E, Eu|]. apply H.
Qed.

Lemma wp_closed_fd fd a Q :
  fd ∉ a_files a -> Q ERROR (set_errno EBADF a) -> wp (close_ fd) Q a.
Proof.
  intros H HQ. unfold close_. apply wp_bind, wp_get. rewrite bool_decide_eq_false_2 by done.
  unfold sys_result. simpl. by apply wp_bind, wp_modify, wp_ret.
Qed.

(** A request that finds a stale descriptor ends the program. *)

Lemma stale_request p w data :
  WebSource.p_read p = Some data -> WebSource.starts (WebSource.buff data) "camera" = true ->
  0 <= video_fd (WebSource.w_app w) -> video_fd (WebSource.w_app w) ∉ a_files (WebSource.w_app w) ->
  wp (WebSource.web_pass p) (fun r _ => r = ([], WebSource.WReturn (-1))) w.
Proof.
  intros E1 E2 Hfd Hf. rewrite (camera_pass _ _ E1 E2). unfold WebSource.camera_command, WebSource.camera_take.
  apply wp_bind, wp_bind, wp_on_app. unfold WebSource.camera_prepare. apply wp_bind, wp_get.
  rewrite (proj2 (Z.leb_le _ _) Hfd). apply wp_ret, wp_bind, wp_modify. simpl.
  apply wp_bind, wp_on_app. unfold WebSource.set_camimage.
  destruct (e_frame _) as [addr|]; simpl.
  - apply wp_bind, wp_bind, wp_modify, wp_ret, wp_bind, wp_modify, wp_bind, wp_get, wp_bind.
    unfold ioctl_z, ioctl. apply wp_bind, wp_bind, wp_get.
    rewrite bool_decide_eq_false_2 by done. apply wp_bind, wp_bind, wp_modify, wp_ret, wp_ret, wp_ret. simpl.
    apply wp_bind, wp_closed_fd; [done|]. apply wp_bind. unfold free_. apply wp_bind, wp_get. simpl.
    rewrite bool_decide_eq_true_2 by apply list_elem_of_here. apply wp_modify.
    apply wp_bind, wp_uninitialize. intros m. apply wp_ret, wp_bind, wp_modify. by apply wp_ret, wp_ret.
  - apply wp_bind, wp_ret, wp_bind, wp_modify. apply wp_bind. unfold WebSource.shut.
    apply wp_bind, wp_get, wp_bind, wp_closed_fd; [done|]. apply wp_bind, wp_uninitialize. intros m.
    apply wp_ret, wp_ret, wp_bind, wp_modify. by apply wp_ret, wp_ret.
Qed.

(** The program serves one picture request: after it has been served, the
    next one, whatever the state of the camera and the system, finds the stale
    descriptor in [video_fd], does not open the camera again, and makes [main]
    return -1. *)
Theorem one_picture_per_run p p' w o dt addr fr yuv jpeg data
    (Hreq : request_ok p w o dt addr fr yuv jpeg)
    (Hread : WebSource.p_read p' = Some data)
    (Hcmd : WebSource.starts (WebSource.buff data) "camera" = true) :
  exists evs w', WebSource.web_loop [p; p'] [] w = Ret (evs, Some (-1), w').
Proof.
  destruct (rq_cmd _ _ _ _ _ _ _ _ Hreq) as (data1 & E1 & E2).
  destruct (camera_command_ok _ _ _ _ _ _ _ _ Hreq) as (r & w1 & Hrun & sers & -> & _ & Hs & _).
  rewrite <- (camera_pass _ _ E1 E2) in Hrun. destruct Hs as [_ _ _ Hfd Hfs Hret].
  destruct (stale_request p' w1 data Hread Hcmd) as (r & w2 & Hrun2 & ->).
  - rewrite Hfd. apply (rq_boot _ _ _ _ _ _ _ _ Hreq).
  - rewrite Hfd, Hfs. rewrite list_elem_of_filter. naive_solver.
  - eexists _, w2. cbn [WebSource.web_loop]. unfold mbind, M_bind. rewrite Hrun. unfold get.
    rewrite Hret. simpl. rewrite Hrun2. reflexivity.
Qed.

(** ** The detector's camera *)

(** The detector's answers: a frame and a reference picture fit the heap. *)

Record detect_boot (e : env) (a : app) (o : imgsensor_ops) (dt : imgdata_ops) (addr pic : Z) : Prop := {
  db_boot : boot e a o dt;
  db_main : accepts o dt [qvga_uyvy];
  db_frame : e_frame e = Some addr;
  db_pic : e_pic e = Some pic
}.

Lemma wp_alloc p store k Q a :
  wp k Q (store (Some p) (set_heap (p :: a_heap a) a)) ->
  wp (DetectCam.alloc (Some p) store k) Q a.
Proof. intros H. unfold DetectCam.alloc. by apply wp_bind, wp_bind, wp_modify, wp_ret, wp_bind, wp_modify. Qed.

(** The camera is on and the frame's memory is allocated. *)

Definition seeing (addr : Z) (x : vptr) (a : app) o dt : Prop :=
  live (mk_queue [] [] [x]) VIDEO_STATE_STREAMON a o dt /\ frame_mem a = Some addr.

Lemma detect_prepare_ok e a o dt addr pic :
  detect_boot e a o dt addr pic ->
  wp (DetectCam.camera_prepare e) (fun r a' => r = 0 /\ exists x, seeing addr x a' o dt) a.
Proof.
  intros [Hb Hmain Hfr Hpic]. unfold DetectCam.camera_prepare. apply wp_bind, wp_get.
  rewrite (proj2 (Z.leb_gt 0 _)) by apply Hb. eapply open_boot; [exact Hb|]. intros a1 Hl1 S1.
  rewrite (proj2 (Z.ltb_ge _ _)) by apply Hb. rewrite (bt_reqmalloc _ _ _ _ Hb).
  unfold DetectCam.step. apply wp_bind, wp_get, wp_bind.
  eapply wp_mono; [by eapply live_reqbufs|]. intros r a2 (-> & S2 & x & Hl2). cbn.
  apply wp_bind, wp_get, wp_bind.
  eapply wp_mono; [by apply (live_fmt_main e qvga_uyvy (mk_queue [] [] [x]) a2 o dt)|].
  intros r a3 (-> & S3 & [Hc3 Hh3] & _). simpl. rewrite Hfr, Hpic.
  do 2 apply wp_alloc.
  apply wp_bind, wp_get, wp_bind.
  eapply wp_mono; [eapply (live_streamon e x); split; [exact Hc3|by destruct Hh3]|].
  intros r a4 (-> & S4 & Hl4). apply wp_ret. split; [done|]. exists x. split; [done|].
  destruct S4 as (_ & -> & _). done.
Qed.

(** One pass of the detector gets a frame and leaves the camera ready. *)

Lemma round_ok e addr x before fr rest a o dt :
  seeing addr x a o dt ->
  wp (DetectCam.camera_round e before (fr :: rest)) (fun r a' => r = (OK, Some addr) /\
    seeing addr x a' o dt) a.
Proof.
  intros [Hl Hfr]. unfold DetectCam.camera_round, DetectCam.set_camimage. apply wp_bind, wp_bind, wp_get.
  rewrite Hfr. apply wp_bind. eapply wp_mono; [by apply live_qbuf|].
  intros r a1 (-> & S1 & Hf1). apply wp_ret. simpl. apply wp_bind.
  eapply wp_mono; [by apply filling_irqs|]. intros [] a2 (S2 & b & Hf2 & Eb).
  apply wp_bind. unfold DetectCam.get_camimage. apply wp_bind, wp_get, wp_bind.
  eapply wp_mono; [by apply filling_dqbuf|]. intros r a3 (-> & S3 & Hl3). apply wp_ret, wp_ret.
  simpl. rewrite Eb. split; [done|]. split; [done|]. unfold same_app in *. naive_solver congruence.
Qed.

(** What a pass meets when the camera works. *)

Definition world_of (p : DetectCam.dpass) : Detect.world :=
  Detect.mk_world (DetectCam.d_switch p) (DetectCam.d_stack p) (DetectCam.d_pic p) OK
    (Some (DetectCam.d_image p)).

(** A pass that does not get to the camera does not depend on it. *)

Lemma unused_camera h p st cam :
  DetectCam.uses_camera p st = false ->
  Detect.detect_pass h (Detect.mk_world (DetectCam.d_switch p) (DetectCam.d_stack p)
    (DetectCam.d_pic p) OK cam) st = Detect.detect_pass h (world_of p) st.
Proof.
  unfold DetectCam.uses_camera, Detect.detect_pass, world_of. simpl.
  destruct (DetectCam.d_switch p); [done|]. destruct (negb _ || _); [|done].
  by destruct (DetectCam.d_pic p).
Qed.

Lemma pass_run h p st addr x a o dt :
  seeing addr x a o dt -> DetectCam.d_frames p <> [] ->
  exists a', seeing addr x a' o dt /\
    DetectCam.pass h p st a =
      match Detect.detect_pass h (world_of p) st with
      | Ret r => Ret (r, a') | Ub u => Ub u | Blocked => Blocked
      end.
Proof.
  intros Hs Hfr. unfold DetectCam.pass. destruct (DetectCam.uses_camera p st) eqn:E.
  - destruct (DetectCam.d_frames p) as [|fr rest]; [done|].
    destruct (round_ok (DetectCam.d_env p) addr x (DetectCam.d_before p) fr rest a o dt Hs)
      as (r & a' & Hrun & -> & Hs'). exists a'. split; [done|].
    unfold mbind, M_bind. by rewrite Hrun.
  - exists a. split; [done|]. unfold mbind, M_bind, mret, M_ret, lift.
    by rewrite (unused_camera h p st None E).
Qed.

(** ** The switch *)

(** The fence can be switched on from the host, and not off: the command
    "on" writes the switch file, and the detector's pass that finds it closes
    the relay, whatever its state and the rest of the stack buffer; the command
    "off" is ignored by the server, although the detector would understand it. *)
Theorem switch_commands e before frames image w h stk pic set cam st :
  exists content,
    WebSource.web_pass (WebSource.mk_wpass (Some [111; 110]) e before frames image true) w =
      Ret ([WebSource.WFile WebSource.CONFIG_switch content], WebSource.WNext, w) /\
    (exists st' tr, Detect.detect_pass h (Detect.mk_world (Some content) stk pic set cam) st =
        Ret (Detect.Next st' (Detect.Fence_on ++ tr)) /\ Detect.isOn st' = true) /\
    WebSource.web_pass (WebSource.mk_wpass (Some [111; 102; 102]) e before frames image true) w =
      Ret ([], WebSource.WNext, w) /\
    exists st' tr, Detect.detect_pass h
        (Detect.mk_world (Some [111; 102; 102; 0]) stk pic set cam) st =
        Ret (Detect.Next st' (Detect.Fence_off ++ tr)) /\ Detect.isOn st' = false.
Proof.
  exists [111; 110; 0]. split; [reflexivity|]. split; [by eexists _, _|]. split; [reflexivity|].
  by eexists _, _.
Qed.

(** ** Witnesses *)

(** A board with the camera of [VideoProps], which accepts these formats. *)

Definition ex_env : env :=
  mk_env true true (fun _ => 0) 3 true (Some 4096) (Some 8192) ex_stack.
Definition ex_app : app := mk_app (mk_module false None []) ex_drv [0; 1; 2] 0 [] (-1) None None.

Lemma ex_boot : boot ex_env ex_app ex_cam ex_data.
Proof. constructor; try done. destruct ex_ready. by constructor. Qed.

Lemma ex_accepts fmts :
  forallb (fun f => negb (f_width f =? 0) && negb (f_height f =? 0)) (convert_to_imgfmt <$> fmts) = true ->
  accepts ex_cam ex_data fmts.
Proof. intros H. eexists _, _. split; [done|]. split; [done|]. intros h i. simpl. by rewrite H. Qed.

(** A frame: a grey QVGA part and a seven-byte image. *)

Definition ex_yuv : list Z := replicate (Z.to_nat 153600) 128.
Definition ex_jpeg : list Z := [255; 216; 255; 224; 1; 255; 217].
Definition ex_image : cbuf :=
  mk_cbuf WebSource.FSIZE (fun k => if k <? 153600 then 128 else nth (Z.to_nat (k - 153600)) ex_jpeg 0).
Definition ex_pass : WebSource.wpass :=
  WebSource.mk_wpass (Some [99; 97; 109; 101; 114; 97]) ex_env [(0, 200)] [(0, 153607)] ex_image true.
Definition ex_web : WebSource.web := WebSource.mk_web ex_app 0 0.

Lemma ex_image_holds : holds ex_image 0 (ex_yuv ++ ex_jpeg).
Proof.
  intros k y Hk. rewrite Z.add_0_r. pose proof (lookup_lt_Some _ _ _ Hk) as Hlt.
  unfold ex_yuv in *. rewrite length_app, length_replicate in Hlt.
  change (List.length ex_jpeg) with 7%nat in Hlt.
  rewrite cb_read_ok by (cbn [cb_len ex_image]; unfold WebSource.FSIZE, VIDEO_HSIZE_QVGA, VIDEO_VSIZE_QVGA; lia).
  f_equal. cbn [cb_at ex_image]. apply lookup_app_Some in Hk as [Hk|[Hge Hk]].
  - apply lookup_replicate in Hk as [-> Hl]. rewrite (proj2 (Z.ltb_lt _ _)) by lia. done.
  - rewrite length_replicate in *. rewrite (proj2 (Z.ltb_ge _ _)) by lia.
    replace (Z.to_nat (Z.of_nat k - 153600)) with (k - Z.to_nat 153600)%nat by lia.
    by apply nth_lookup_Some.
Qed.

Lemma ex_yuv_length : Z.of_nat (List.length ex_yuv) = WebSource.YUVSIZE.
Proof. unfold ex_yuv. rewrite length_replicate, Z2Nat.id by lia. done. Qed.

Lemma ex_request : request_ok ex_pass ex_web ex_cam ex_data 4096 (0, 153607) ex_yuv ex_jpeg.
Proof.
  constructor; [exact ex_boot|by apply ex_accepts|by apply ex_accepts|reflexivity|reflexivity| |
    exact ex_yuv_length|vm_compute; discriminate|exact ex_image_holds|reflexivity| ].
  - rewrite length_app, Nat2Z.inj_add, ex_yuv_length. reflexivity.
  - eexists. split; [reflexivity|vm_compute; reflexivity].
Qed.

Lemma picture_served_witness :
  exists sers w', WebSource.web_pass ex_pass ex_web =
      Ret ((WebSource.WSer <$> sers) ++ [WebSource.WFile WebSource.PIC_uyvy ex_yuv], WebSource.WNext, w') /\
    line_bytes sers = packed_image ex_jpeg ++ end_word /\
    (forall m, Forall byte ex_jpeg -> Z.of_nat (List.length ex_jpeg) mod 7 = 0 ->
       holds m 0 (line_bytes sers) -> Z.of_nat (List.length (line_bytes sers)) <= cb_len m ->
       receive_image m (Z.of_nat (List.length (line_bytes sers))) = Ret ex_jpeg) /\
    served ex_web w' 3 /\
    a_heap (WebSource.w_app w') = filter (fun z => z <> 4096) (a_heap (WebSource.w_app ex_web)).
Proof. apply (picture_served _ _ _ _ _ _ _ _ ex_request). Defined.

Lemma one_picture_per_run_witness :
  exists evs w', WebSource.web_loop [ex_pass; ex_pass] [] ex_web = Ret (evs, Some (-1), w').
Proof.
  apply (one_picture_per_run _ _ _ _ _ _ _ _ _ [99; 97; 109; 101; 114; 97] ex_request);
    [reflexivity|by vm_compute].
Defined.

End CameraProps.
