(* ===== verification/Stdio.v ===== *)
(** * Buffered streams

    [src/spresense/nuttx/libs/libc/stdio]: a stream ([struct file_struct]) over
    the descriptor of a regular file: [lib_fread], [lib_fwrite], [lib_fflush],
    [lib_rdflush], [lib_wrflush], [fseek], [fread], [fwrite], [fgetc], [ungetc],
    [fflush], [fclose], the modes of [fopen].  One task uses the stream: its
    semaphore is free. *)

From S2P Require Import Prelude.

Module Stdio.

Definition EOF : Z := -1.
Definition NUNGET_CHARS : nat := 2.
Definition STDIO_BUFFER_SIZE : nat := 64.

(** ** The descriptor

    A regular file: its bytes, the position, whether it is open for appending;
    calls are counted.  What
    [read], [write] and [lseek] of the file system do is an argument: call [n]
    fails with [answer n] where that is negative, otherwise it transfers at most
    that many bytes.  A [read] transfers nothing only at the end of the file, a
    [write] may also transfer nothing. *)

Record fdesc := mk_fdesc { f_data : list Z; f_pos : nat; f_append : bool; f_calls : nat }.

(** ** The stream

    Pointers into the buffer are offsets from [fs_bufstart]; [None] is a stream
    without buffer.  [fs_ungotten] has the character that is read next first. *)

Record stream := mk_stream {
  fs_fd : fdesc; fs_rdok : bool; fs_wrok : bool; fs_buf : option (list Z);
  fs_bufpos : nat; fs_bufread : nat; fs_ungotten : list Z; fs_eof : bool; fs_error : bool }.

Definition set_fd v s := mk_stream v (fs_rdok s) (fs_wrok s) (fs_buf s) (fs_bufpos s) (fs_bufread s) (fs_ungotten s) (fs_eof s) (fs_error s).
Definition set_buf v s := mk_stream (fs_fd s) (fs_rdok s) (fs_wrok s) v (fs_bufpos s) (fs_bufread s) (fs_ungotten s) (fs_eof s) (fs_error s).
Definition set_bufpos v s := mk_stream (fs_fd s) (fs_rdok s) (fs_wrok s) (fs_buf s) v (fs_bufread s) (fs_ungotten s) (fs_eof s) (fs_error s).
Definition set_bufread v s := mk_stream (fs_fd s) (fs_rdok s) (fs_wrok s) (fs_buf s) (fs_bufpos s) v (fs_ungotten s) (fs_eof s) (fs_error s).
Definition set_ungotten v s := mk_stream (fs_fd s) (fs_rdok s) (fs_wrok s) (fs_buf s) (fs_bufpos s) (fs_bufread s) v (fs_eof s) (fs_error s).
Definition set_eof v s := mk_stream (fs_fd s) (fs_rdok s) (fs_wrok s) (fs_buf s) (fs_bufpos s) (fs_bufread s) (fs_ungotten s) v (fs_error s).
Definition set_error v s := mk_stream (fs_fd s) (fs_rdok s) (fs_wrok s) (fs_buf s) (fs_bufpos s) (fs_bufread s) (fs_ungotten s) (fs_eof s) v.

Definition MS := M stream.

(** The bytes at the offsets [from] to [to] of a buffer. *)

Definition slice (from to : nat) (b : list Z) : list Z := take (to - from) (drop from b).

(** Storing bytes at an offset. *)

Definition splice (at_ : nat) (l b : list Z) : list Z := take at_ b ++ l ++ drop (at_ + length l) b.

Section Stdio.
Context (answer : nat -> Z).

Definition called (f : fdesc) : fdesc := mk_fdesc (f_data f) (f_pos f) (f_append f) (S (f_calls f)).

(** [_NX_READ(fd, dest, n)]: the result and the bytes. *)

Definition nx_read (n : nat) : MS (Z * list Z) :=
  f ← gets fs_fd;
  let a := answer (f_calls f) in
  if a <? 0 then modify (set_fd (called f));; mret (a, [])
  else
    let l := take (n `min` Z.to_nat (Z.max 1 a)) (drop (f_pos f) (f_data f)) in
    modify (set_fd (mk_fdesc (f_data f) (f_pos f + length l) (f_append f) (S (f_calls f))));;
    mret (Z.of_nat (length l), l).

(** [_NX_WRITE(fd, src, n)] *)

Definition nx_write (l : list Z) : MS Z :=
  f ← gets fs_fd;
  let a := answer (f_calls f) in
  if a <? 0 then modify (set_fd (called f));; mret a
  else
    let l := take (Z.to_nat a) l in
    let pos := if f_append f then length (f_data f) else f_pos f in
    modify (set_fd (mk_fdesc (splice pos l (f_data f)) (pos + length l) (f_append f) (S (f_calls f))));;
    mret (Z.of_nat (length l)).

(** [lseek(fd, - offset, SEEK_CUR)] *)

Definition lseek_back (offset : nat) : MS Z :=
  f ← gets fs_fd;
  if (f_pos f <? offset)%nat then mret (- EINVAL)
  else modify (set_fd (mk_fdesc (f_data f) (f_pos f - offset) (f_append f) (f_calls f)));; mret 0.

(** ** [lib_fflush]

    The loop that writes [nbuffer] bytes from [src] on: [inr] with what is
    left, [inl] with the error. *)

Fixpoint flush_loop (fuel : nat) (bforce : bool) (b : list Z) (src nbuffer : nat) :
    MS (Z + nat * nat) :=
  match fuel with
  | O => blocked
  | S n =>
    w ← nx_write (slice src (src + nbuffer) b);
    if w <? 0 then modify (set_error true);; mret (inl w)
    else
      let src := (src + Z.to_nat w)%nat in
      let nbuffer := (nbuffer - Z.to_nat w)%nat in
      if bforce && negb (nbuffer =? 0)%nat then flush_loop n bforce b src nbuffer
      else mret (inr (src, nbuffer))
  end.

(** [turns] bounds the writes of a flush that has to be complete. *)

Definition lib_fflush (turns : nat) (bforce : bool) : MS Z :=
  s ← get;
  if negb (fs_wrok s) then mret (- EBADF)
  else
    match fs_buf s with
    | None => mret 0
    | Some b =>
      if negb (fs_bufpos s =? 0)%nat then
        if negb (fs_bufread s =? 0)%nat then mret 0
        else
          r ← flush_loop turns bforce b 0 (fs_bufpos s);
          match r with
          | inl ret => mret ret
          | inr (src, nbuffer) =>
            modify (set_buf (Some (splice 0 (slice src (src + nbuffer) b) b)));;
            modify (set_bufpos nbuffer);;
            mret (Z.of_nat nbuffer)
          end
      else mret 0
    end.

Definition lib_wrflush (turns : nat) : MS Z :=
  s ← get;
  match fs_buf s with
  | None => mret OK
  | Some _ => if negb (fs_wrok s) then mret OK else lib_fflush turns true
  end.

(** [lib_rdflush] calls [fseek], which finds the buffer empty when it calls
    [lib_rdflush] itself. *)

Definition lib_rdflush (turns : nat) : MS Z :=
  s ← get;
  match fs_buf s with
  | None => mret OK
  | Some _ =>
    if negb (fs_bufread s =? 0)%nat then
      let rdoffset := (fs_bufread s - fs_bufpos s + length (fs_ungotten s))%nat in
      modify (set_bufpos 0);;
      modify (set_bufread 0);;
      modify (set_ungotten []);;
      w ← lib_wrflush turns;
      if w <? 0 then mret ERROR
      else
        modify (set_ungotten []);;
        r ← lseek_back rdoffset;
        mret (if r <? 0 then ERROR else OK)
    else mret OK
  end.

(** ** [lib_fread]

    How the loop over the file ends: everything read, a short read, or an
    error, with the bytes that were read. *)

Inductive read_end := RDone | RShort | RError (code : Z).

(** An error of [read] after some bytes is a short read. *)

Definition failed (got : list Z) (code : Z) : read_end :=
  match got with [] => RError code | _ => RShort end.

Fixpoint fread_buffered (fuel remaining : nat) (got : list Z) : MS (list Z * read_end) :=
  if (remaining =? 0)%nat then mret (got, RDone)
  else
    match fuel with
    | O => blocked
    | S n =>
      s ← get;
      let b := match fs_buf s with Some b => b | None => [] end in
      let l := take remaining (slice (fs_bufpos s) (fs_bufread s) b) in
      modify (set_bufpos (fs_bufpos s + length l));;
      let got := got ++ l in
      let remaining := (remaining - length l)%nat in
      if (remaining =? 0)%nat then mret (got, RDone)
      else
        modify (set_bufpos 0);;
        modify (set_bufread 0);;
        if (length b <? remaining)%nat then
          '(r, l) ← nx_read remaining;
          if r <? 0 then mret (got, failed got r)
          else if r =? 0 then mret (got, RShort)
          else fread_buffered n (remaining - length l) (got ++ l)
        else
          '(r, l) ← nx_read (length b);
          if r <? 0 then mret (got, failed got r)
          else if r =? 0 then mret (got, RShort)
          else
            modify (set_buf (Some (splice 0 l b)));;
            modify (set_bufread (length l));;
            fread_buffered n remaining got
    end.

Fixpoint fread_direct (fuel remaining : nat) (got : list Z) : MS (list Z * read_end) :=
  if (remaining =? 0)%nat then mret (got, RDone)
  else
    match fuel with
    | O => blocked
    | S n =>
      '(r, l) ← nx_read remaining;
      if r <? 0 then mret (got, failed got r)
      else if r =? 0 then mret (got, RShort)
      else fread_direct n (remaining - length l) (got ++ l)
    end.

(** The result and the bytes stored at [ptr].  A turn of the buffered loop
    takes bytes or fills the buffer: [2 * count] turns are enough. *)

Definition lib_fread (turns count : nat) : MS (Z * list Z) :=
  s ← get;
  if negb (fs_rdok s) then mret (ERROR, [])
  else
    let got := take count (fs_ungotten s) in
    modify (set_ungotten (drop count (fs_ungotten s)));;
    let remaining := (count - length got)%nat in
    '(got, e) ←
      match fs_buf s with
      | Some _ =>
        ret ← lib_wrflush turns;
        if ret <? 0 then mret (got, failed got ret) else fread_buffered (2 * count) remaining got
      | None => fread_direct count remaining got
      end;
    match e with
    | RError _ => modify (set_error true);; mret (ERROR, [])
    | _ =>
      modify (set_eof (negb (length got =? count)%nat));;
      mret (Z.of_nat (length got), got)
    end.

(** [fread(ptr, size, n_items, stream)]: the items and the bytes. *)

Definition fread (turns size n_items : nat) : MS (Z * list Z) :=
  '(r, l) ← lib_fread turns (n_items * size);
  if 0 <? r then
    if (size =? 0)%nat then ub DivByZero else mret (r / Z.of_nat size, l)
  else mret (0, l).

Definition fgetc (turns : nat) : MS Z :=
  '(r, l) ← lib_fread turns 1;
  mret (if 0 <? r then match l with c :: _ => c | [] => EOF end else EOF).

(** A place holds an [unsigned char]; [fgetc] and [lib_fread] give it back. *)

Definition ungetc (c : Z) : MS Z :=
  s ← get;
  if negb (fs_rdok s) then mret EOF
  else if (length (fs_ungotten s) <? NUNGET_CHARS)%nat then
    modify (set_ungotten (u8 c :: fs_ungotten s));; mret c
  else mret EOF.

(** ** [lib_fwrite] *)

Inductive write_end := WDone | WFailed.

Fixpoint fwrite_loop (fuel turns : nat) (src : list Z) : MS write_end :=
  match src with
  | [] => mret WDone
  | _ =>
    match fuel with
    | O => blocked
    | S n =>
      s ← get;
      let b := match fs_buf s with Some b => b | None => [] end in
      let l := take (length b - fs_bufpos s) src in
      modify (set_buf (Some (splice (fs_bufpos s) l b)));;
      modify (set_bufpos (fs_bufpos s + length l));;
      if (length b <=? fs_bufpos s + length l)%nat then
        r ← lib_fflush turns false;
        if r <? 0 then mret WFailed else fwrite_loop n turns (drop (length l) src)
      else fwrite_loop n turns (drop (length l) src)
    end
  end.

(** [ret < 0] leaves the error flag. *)

Definition write_errout (ret : Z) : MS Z :=
  (if ret <? 0 then modify (set_error true) else mret tt);; mret ret.

Definition lib_fwrite (turns : nat) (l : list Z) : MS Z :=
  s ← get;
  if negb (fs_wrok s) then write_errout ERROR
  else
    match fs_buf s with
    | None =>
      ret ← nx_write l;
      write_errout (if ret <? 0 then ERROR else ret)
    | Some _ =>
      r ← lib_rdflush turns;
      if r <? 0 then write_errout ERROR
      else
        e ← fwrite_loop (turns + length l) turns l;
        match e with
        | WDone => write_errout (Z.of_nat (length l))
        | WFailed => write_errout ERROR
        end
    end.

(** [fwrite(ptr, size, n_items, stream)] on the [n_items * size] bytes [l]. *)

Definition fwrite (turns size : nat) (l : list Z) : MS Z :=
  r ← lib_fwrite turns l;
  if 0 <? r then
    if (size =? 0)%nat then ub DivByZero else mret (r / Z.of_nat size)
  else mret 0.

Definition fflush (turns : nat) : MS Z :=
  r ← lib_fflush turns true;
  mret (if r <? 0 then EOF else OK).

(** [status] is the result of [close]. *)

Definition fclose (turns : nat) (status : Z) : MS Z :=
  w ← gets fs_wrok;
  ret ← (if (w : bool) then lib_fflush turns true else mret OK);
  let ret := if ret =? OK then status else ret in
  mret (if negb (ret =? OK) then EOF else OK).

End Stdio.

(** ** [fopen] *)

(** [O_TEXT] is 0: it leaves no trace. *)

Record oflags := mk_oflags {
  O_RDOK : bool; O_WROK : bool; O_CREAT : bool; O_TRUNC : bool; O_APPEND : bool; O_EXCL : bool;
  O_BINARY : bool }.

Definition no_oflags : oflags := mk_oflags false false false false false false false.

Inductive open_mode := MODE_NONE | MODE_R | MODE_W | MODE_A.

(** [oflags &= (O_BINARY | O_EXCL)] and the flags of the update mode. *)

Definition plus (o : oflags) (creat trunc append : bool) : oflags :=
  mk_oflags true true creat trunc append (O_EXCL o) (O_BINARY o).

(** [lib_mode2oflags]: [None] for [ERROR]. *)

Fixpoint mode2oflags (mode : list Z) (st : open_mode) (o : oflags) : option oflags :=
  match mode with
  | [] => Some o
  | c :: r =>
    if c =? 114 then
      match st with
      | MODE_NONE => mode2oflags r MODE_R (mk_oflags true false false false false false false)
      | _ => None
      end
    else if c =? 119 then
      match st with
      | MODE_NONE => mode2oflags r MODE_W (mk_oflags false true true true false false false)
      | _ => None
      end
    else if c =? 97 then
      match st with
      | MODE_NONE => mode2oflags r MODE_A (mk_oflags false true true false true false false)
      | _ => None
      end
    else if c =? 43 then
      match st with
      | MODE_R => mode2oflags r st (plus o false false false)
      | MODE_W => mode2oflags r st (plus o true true false)
      | MODE_A => mode2oflags r st (plus o true false true)
      | MODE_NONE => None
      end
    else if c =? 98 then
      match st with
      | MODE_NONE => None
      | _ => mode2oflags r st (mk_oflags (O_RDOK o) (O_WROK o) (O_CREAT o) (O_TRUNC o) (O_APPEND o) (O_EXCL o) true)
      end
    else if c =? 88 then
      match st with
      | MODE_NONE => None
      | _ => mode2oflags r st (mk_oflags (O_RDOK o) (O_WROK o) (O_CREAT o) (O_TRUNC o) (O_APPEND o) true (O_BINARY o))
      end
    else if c =? 116 then
      match st with
      | MODE_NONE => None
      | _ => mode2oflags r st o
      end
    else None
  end.

Definition lib_mode2oflags (mode : list Z) : option oflags := mode2oflags mode MODE_NONE no_oflags.

(** [fopen]: the file that is there ([None] where there is none), what the
    memory of the buffer holds; [None] for [NULL]. *)

Definition fopen (mode : list Z) (file : option (list Z)) (memory : list Z) : option stream :=
  match lib_mode2oflags mode with
  | None => None
  | Some o =>
    match file with
    | None => if O_CREAT o then
        Some (mk_stream (mk_fdesc [] 0 (O_APPEND o) 0) (O_RDOK o) (O_WROK o) (Some memory) 0 0 [] false false) else None
    | Some data => if O_EXCL o && O_CREAT o then None else
        Some (mk_stream (mk_fdesc (if O_TRUNC o then [] else data) 0 (O_APPEND o) 0) (O_RDOK o) (O_WROK o) (Some memory) 0 0 [] false false)
    end
  end.

End Stdio.
