(* ===== verification/StdioProps.v ===== *)
(** * What buffered streams do

    A stream that is read gives the bytes of its file in order, a stream that is
    written puts them there, however the file system cuts the transfers. *)

From S2P Require Import Prelude Stdio.
Import Stdio.

Module StdioProps.

(** ** Lists *)

Lemma slice_all n m (b : list Z) : n = m -> slice n m b = [].
Proof. intros ->. unfold slice. by rewrite Nat.sub_diag. Qed.

Lemma slice_length n m (b : list Z) : (m <= length b)%nat -> length (slice n m b) = (m - n)%nat.
Proof. intros H. unfold slice. rewrite length_take, length_drop. lia. Qed.

Lemma slice_split n k m (b : list Z) : (n + k <= m)%nat -> slice n m b = take k (slice n m b) ++ slice (n + k) m b.
Proof.
  intros H. unfold slice. rewrite take_take, <- (take_drop k (take (m - n) (drop n b))) at 1.
  rewrite take_take. rewrite skipn_firstn_comm, drop_drop. do 2 f_equal. lia.
Qed.

Lemma splice_0 l b : (length l <= length b)%nat -> slice 0 (length l) (splice 0 l b) = l.
Proof. intros H. unfold slice, splice. rewrite drop_0, Nat.sub_0_r, take_0, app_nil_l. apply take_app_length. Qed.

Lemma splice_length n l b : (n + length l <= length b)%nat -> length (splice n l b) = length b.
Proof. intros H. unfold splice. rewrite !length_app, length_take, length_drop. lia. Qed.

Lemma splice_take n l b : (n + length l <= length b)%nat -> take (n + length l) (splice n l b) = take n b ++ l.
Proof.
  intros H. unfold splice. rewrite app_assoc, take_app_le by (rewrite length_app, length_take; lia).
  apply take_ge. rewrite length_app, length_take. lia.
Qed.

(** ** Reading *)

Record readable (s : stream) (b : list Z) : Prop := {
  rd_ok : fs_rdok s = true;
  rd_wr : fs_wrok s = false;
  rd_buf : fs_buf s = Some b;
  rd_pos : (fs_bufpos s <= fs_bufread s <= length b)%nat;
}.

(** What is left of the file, and of the stream. *)

Definition behind (s : stream) (b : list Z) : list Z :=
  slice (fs_bufpos s) (fs_bufread s) b ++ drop (f_pos (fs_fd s)) (f_data (fs_fd s)).

Section Reading.
Context (answer : nat -> Z).

Definition working : Prop := forall n, 0 <= answer n.

(** One call of [read]. *)

Lemma nx_read_ok n s : (0 < n)%nat ->
  wp (nx_read answer n) (fun r s' => exists f, s' = set_fd f s /\
    ((r.1 < 0 /\ r.2 = [] /\ ~ working /\ drop (f_pos f) (f_data f) = drop (f_pos (fs_fd s)) (f_data (fs_fd s))) \/
     (r.1 = Z.of_nat (length r.2) /\ (length r.2 <= n)%nat /\
      drop (f_pos (fs_fd s)) (f_data (fs_fd s)) = r.2 ++ drop (f_pos f) (f_data f) /\
      (r.2 = [] -> drop (f_pos f) (f_data f) = [])))) s.
Proof.
  intros Hn. unfold nx_read. apply wp_bind, wp_gets. destruct (answer (f_calls (fs_fd s)) <? 0) eqn:E.
  - apply wp_bind, wp_modify, wp_ret. eexists. split; [reflexivity|]. left. to_prop. split_and!; [done|done| |done].
    intros H. specialize (H (f_calls (fs_fd s))). lia.
  - apply wp_bind, wp_modify, wp_ret. eexists. split; [reflexivity|]. right. cbn [fst snd f_pos f_data].
    set (d := drop (f_pos (fs_fd s)) (f_data (fs_fd s))). set (k := Nat.min n _).
    assert (Hk : (0 < k)%nat) by (subst k; to_prop; lia).
    split_and!; [done|rewrite length_take; lia| |].
    + rewrite <- drop_drop. fold d. rewrite length_take. rewrite <- (take_drop k d) at 1. f_equal.
      destruct (decide (k <= length d)%nat); [by replace (k `min` length d)%nat with k by lia|].
      rewrite !drop_ge by lia. done.
    + intros H. rewrite H. cbn [length]. rewrite Nat.add_0_r. fold d. destruct d; [done|]. destruct k; [lia|done].
Qed.

(** The loops of [lib_fread]: the bytes they take are the next ones. *)

Definition taken (l : list Z) (remaining : nat) (rest : list Z) (got : list Z) (r : list Z * read_end) : Prop :=
  r.1 = got ++ l /\ (length l <= remaining)%nat /\ (length l = remaining -> r.2 = RDone) /\
  (forall c, r.2 = RError c -> r.1 = [] /\ ~ working) /\
  (r.2 = RDone -> length l = remaining) /\ (working -> length l = remaining \/ rest = []).

Lemma taken_more l l' n m rest got r : taken l' m rest (got ++ l) r -> (length l + m = n)%nat ->
  taken (l ++ l') n rest got r.
Proof.
  intros (E & Hl & Hd & He & Hd' & Hw) Hn. unfold taken. rewrite length_app, app_assoc. split_and!; try done; try lia.
  - intros H. apply Hd. lia.
  - intros H. specialize (Hd' H). lia.
  - intros H. destruct (Hw H); [left; lia|by right].
Qed.

Lemma taken_failed n rest got c : (0 < n)%nat -> ~ working -> taken [] n rest got (got, failed got c).
Proof.
  intros Hn Hw. unfold taken. cbn [fst snd length]. rewrite app_nil_r. split_and!; try done; try lia.
  - intros c' H. by destruct got.
  - by destruct got.
Qed.

Lemma taken_done got rest : taken [] 0 rest got (got, RDone).
Proof. unfold taken. rewrite app_nil_r. split_and!; try done. by left. Qed.

Lemma taken_short n got : (0 < n)%nat -> taken [] n [] got (got, RShort).
Proof. intros Hn. unfold taken. rewrite app_nil_r. cbn [length fst snd]. split_and!; try done; try lia. by right. Qed.

(** What the loop does from a state [s] on: some bytes of what is behind. *)

Definition reads_on (s : stream) (b : list Z) (remaining : nat) (got : list Z) (r : list Z * read_end) (s' : stream) : Prop :=
  exists b' l, readable s' b' /\ fs_ungotten s' = fs_ungotten s /\ behind s b = l ++ behind s' b' /\
    taken l remaining (behind s' b') got r.

Lemma reads_on_more s b s1 b1 l n m got r s' : fs_ungotten s1 = fs_ungotten s -> behind s b = l ++ behind s1 b1 ->
  reads_on s1 b1 m (got ++ l) r s' -> (length l + m = n)%nat -> reads_on s b n got r s'.
Proof.
  intros Hu Hb (b' & l' & Hr & Hu' & Hb' & Ht) Hn. exists b', (l ++ l'). split_and!; [done|congruence| |].
  - by rewrite Hb, Hb', app_assoc.
  - by eapply taken_more.
Qed.

Lemma reads_on_now s b n got r : readable s b -> taken [] n (behind s b) got r -> reads_on s b n got r s.
Proof. intros. by exists b, []. Qed.

(** With the buffer empty: one call of [read], and what follows it. *)

Lemma refill n m got s b (k : Z -> list Z -> MS (list Z * read_end)) :
  (0 < n)%nat -> (0 < m)%nat -> readable s b -> fs_bufpos s = 0%nat -> fs_bufread s = 0%nat ->
  (forall r l f, l <> [] -> (length l <= n)%nat ->
     behind s b = l ++ drop (f_pos f) (f_data f) -> wp (k r l) (reads_on s b m got) (set_fd f s)) ->
  wp ('(r, l) ← nx_read answer n;
      if r <? 0 then mret (got, failed got r)
      else if r =? 0 then mret (got, RShort)
      else k r l) (reads_on s b m got) s.
Proof.
  intros Hn Hm Hs Hp Hr Hk. apply wp_bind. eapply wp_mono; [by apply (nx_read_ok n s)|].
  assert (Hb : forall f, behind (set_fd f s) b = drop (f_pos f) (f_data f))
    by (intros f; unfold behind; cbn; by rewrite Hp, Hr).
  assert (Hsf : forall f, readable (set_fd f s) b) by (intros f; by destruct Hs).
  intros [r l] s2 (f & -> & [(Hr0 & _ & Hw & Hd)|(Hr0 & Hle & Hd & Hnil)]); cbn [fst snd] in *.
  - rewrite (proj2 (Z.ltb_lt _ _)) by lia. apply wp_ret. exists b, []. split_and!; [done|done| |by apply taken_failed].
    rewrite Hb, Hd. unfold behind. by rewrite Hp, Hr.
  - rewrite (proj2 (Z.ltb_ge _ _)) by lia. destruct (r =? 0) eqn:E0; to_prop.
    + destruct l; [|cbn in *; lia]. apply wp_ret. exists b, []. rewrite Hb, Hnil by done.
      split_and!; [done|done| |by apply taken_short]. unfold behind. rewrite Hp, Hr, Hd, Hnil by done. done.
    + apply Hk; [by intros ->|done|]. unfold behind. by rewrite Hp, Hr, Hd.
Qed.

Lemma fread_buffered_ok fuel : forall remaining got s b, readable s b ->
  (2 * remaining <= fuel + (if decide (fs_bufpos s < fs_bufread s)%nat then 1 else 0))%nat ->
  wp (fread_buffered answer fuel remaining got) (reads_on s b remaining got) s.
Proof.
  induction fuel as [|fuel IH]; intros remaining got s b Hs Hf; cbn [fread_buffered].
  { destruct (Nat.eqb_spec remaining 0) as [->|Hr]; [|case_decide; lia].
    apply wp_ret, reads_on_now; [done|apply taken_done]. }
  destruct (Nat.eqb_spec remaining 0) as [->|Hr]; [apply wp_ret, reads_on_now; [done|apply taken_done]|].
  apply wp_bind, wp_get. rewrite (rd_buf _ _ Hs). destruct Hs as [H1 H2 H3 H4].
  apply wp_bind, wp_modify. set (l := take remaining (slice (fs_bufpos s) (fs_bufread s) b)).
  assert (Hl : length l = (remaining `min` (fs_bufread s - fs_bufpos s))%nat)
    by (subst l; rewrite length_take, slice_length; lia).
  assert (Hsl : slice (fs_bufpos s) (fs_bufread s) b = l ++ slice (fs_bufpos s + length l) (fs_bufread s) b).
  { rewrite (slice_split _ (length l)) at 1 by lia. f_equal. subst l. rewrite length_take, slice_length by lia.
    destruct (decide (remaining <= fs_bufread s - fs_bufpos s)%nat).
    - by replace (remaining `min` _)%nat with remaining by lia.
    - rewrite !take_ge; [done|rewrite slice_length; lia|rewrite slice_length; lia]. }
  destruct (Nat.eqb_spec (remaining - length l) 0) as [E|E].
  { apply wp_ret. eapply (reads_on_more s b (set_bufpos (fs_bufpos s + length l) s) b l remaining 0); [reflexivity| |apply reads_on_now|lia].
    - unfold behind. cbn. by rewrite Hsl, <- app_assoc.
    - constructor; cbn; [done|done|done|lia].
    - apply taken_done. }
  rewrite (slice_all (_ + _)), app_nil_r in Hsl by lia.
  apply wp_bind, wp_modify, wp_bind, wp_modify. set (s1 := set_bufread 0 _).
  assert (Hs1 : readable s1 b) by (constructor; cbn; [done|done|done|lia]).
  assert (Hb1 : behind s b = l ++ behind s1 b) by (unfold behind; cbn; by rewrite Hsl).
  apply (wp_mono _ (reads_on s1 b (remaining - length l) (got ++ l)));
    [|intros r' s' H'; apply (reads_on_more s b s1 b l _ (remaining - length l) got); [done|done|done|lia]].
  destruct (length b <? remaining - length l)%nat eqn:Eb.
  - apply (refill (remaining - length l)); [lia|lia|done|done|done|]. intros r l' f Hl' Hle Hd.
    eapply wp_mono; [apply (IH _ _ (set_fd f s1) b)|].
    + by destruct Hs1.
    + cbn. destruct l'; [done|]. cbn. case_decide; lia.
    + intros r' s' H'. eapply (reads_on_more s1 b (set_fd f s1) b l' _ (remaining - length l - length l')); [reflexivity| |exact H'|lia].
      rewrite Hd. unfold behind. cbn. done.
  - apply Nat.ltb_ge in Eb. apply (refill (length b)); [lia|lia|done|done|done|]. intros r l' f Hl' Hle Hd.
    apply wp_bind, wp_modify, wp_bind, wp_modify. eapply wp_mono; [apply (IH _ _ _ (splice 0 l' b))|].
    + constructor; cbn; [done|done|done|]. rewrite splice_length by lia. lia.
    + cbn -[decide]. rewrite decide_True by (destruct l'; [done|cbn; lia]). revert Hf. case_decide; lia.
    + intros r' s' H'. eapply (reads_on_more s1 b (set_bufread (length l') (set_buf (Some (splice 0 l' b)) (set_fd f s1))) (splice 0 l' b) [] _ (remaining - length l)); [reflexivity| | |reflexivity];
        [|rewrite app_nil_r; exact H'].
      rewrite Hd. unfold behind. cbn -[slice splice]. by rewrite splice_0.
Qed.

(** What the stream still has to give. *)

Definition unread (s : stream) (b : list Z) : list Z := fs_ungotten s ++ behind s b.

Lemma wrflush_readable turns s b : readable s b -> wp (lib_wrflush answer turns) (fun r s' => r = OK /\ s' = s) s.
Proof.
  intros [H1 H2 H3 H4]. unfold lib_wrflush. apply wp_bind, wp_get. rewrite H3, H2. by apply wp_ret.
Qed.

(** A read takes the next bytes, and loses none, whatever the file system
    answers; where it works the result is complete. *)

Definition fread_result (s : stream) (b : list Z) (n : nat) (r : Z * list Z) (s' : stream) : Prop :=
  exists b' got, readable s' b' /\ unread s b = got ++ unread s' b' /\ (length got <= n)%nat /\
    fs_ungotten s' = drop n (fs_ungotten s) /\
    ((r = (Z.of_nat (length got), got) /\ (working -> got = take n (unread s b)) /\
      fs_eof s' = negb (length got =? n)%nat) \/
     (r = (ERROR, []) /\ got = [] /\ ~ working)).

Lemma lib_fread_ok turns n s b : readable s b -> wp (lib_fread answer turns n) (fread_result s b n) s.
Proof.
  intros Hs. pose proof Hs as [H1 H2 H3 H4]. unfold lib_fread. apply wp_bind, wp_get. rewrite H1, H3. cbn [negb].
  set (u := take n (fs_ungotten s)).
  assert (Hu : (length u <= n)%nat) by (subst u; rewrite length_take; lia).
  apply wp_bind, wp_modify. set (s1 := set_ungotten _ s). assert (Hs1 : readable s1 b) by done.
  apply wp_bind, wp_bind. eapply wp_mono; [by apply (wrflush_readable turns s1 b)|]. intros r s2 [-> ->]. cbn [Z.ltb].
  change (OK <? 0) with false. cbv iota.
  eapply wp_mono; [apply (fread_buffered_ok (2 * n)); [exact Hs1|]|].
  { case_decide; lia. }
  intros [got e] s2 (b' & l & Hs2 & Eu & Eb & Ht & Hl & Hdone & Herr & Hdone' & Hw). cbn [fst snd] in *. subst got.
  assert (Hun : unread s b = (u ++ l) ++ unread s2 b').
  { unfold unread. rewrite Eu. cbn. fold u in Eb |- *. destruct (decide (length u < n)%nat) as [Hlt|Hge].
    - assert (Ed : drop n (fs_ungotten s) = []) by (apply drop_ge; subst u; rewrite length_take in Hlt; lia).
      rewrite Ed. cbn. rewrite <- app_assoc, <- Eb. f_equal. rewrite <- (take_drop n (fs_ungotten s)) at 1.
      by rewrite Ed, app_nil_r.
    - destruct l; [|cbn in Hl; lia]. rewrite app_nil_r. change (behind s b) with (behind s1 b). rewrite Eb. cbn.
      subst u. by rewrite app_assoc, take_drop. }
  assert (Hlen : length (u ++ l) = n -> u ++ l = take n (unread s b)).
  { intros E. by rewrite Hun, <- E, take_app_length. }
  assert (Hgot : e <> RDone -> working -> u ++ l = take n (unread s b)).
  { intros He Hwk. destruct (Hw Hwk) as [E|E]; [by destruct (He (Hdone E))|].
    rewrite Hun. unfold unread. rewrite E, Eu. cbn.
    assert (length u < n)%nat. { destruct (decide (length l = n - length u)%nat) as [El|]; [by destruct (He (Hdone El))|lia]. }
    rewrite (drop_ge (fs_ungotten s)) by (subst u; rewrite length_take in *; lia). rewrite !app_nil_r.
    symmetry. apply take_ge. rewrite length_app. lia. }
  assert (Hfin : forall s3, s3 = set_eof (negb (length (u ++ l) =? n)%nat) s2 ->
    (working -> u ++ l = take n (unread s b)) -> fread_result s b n (Z.of_nat (length (u ++ l)), u ++ l) s3).
  { intros s3 -> Hwk. exists b', (u ++ l). split_and!; [by destruct Hs2|exact Hun|rewrite length_app; lia|exact Eu|].
    left. done. }
  destruct e.
  - apply wp_bind, wp_modify, wp_ret, Hfin; [done|]. intros _. apply Hlen. rewrite length_app, Hdone' by done. lia.
  - apply wp_bind, wp_modify, wp_ret, Hfin; [done|]. by apply Hgot.
  - apply wp_bind, wp_modify, wp_ret. destruct (Herr _ eq_refl) as [Hnil Hnw]. exists b', []. rewrite Hun, Hnil.
    split_and!; [by destruct Hs2|done|cbn; lia|exact Eu|]. by right.
Qed.

(** ** Reading as operations on a list

    What a stream gives: the characters that were put back, and the rest of the
    file. *)

Inductive rop := Fread (n : nat) | Fgetc | Ungetc (c : Z).
Inductive rres := Items (n : Z) (l : list Z) | Char (c : Z).

Definition run_rop (turns : nat) (o : rop) : MS rres :=
  match o with
  | Fread n => '(r, l) ← fread answer turns 1 n; mret (Items r l)
  | Fgetc => c ← fgetc answer turns; mret (Char c)
  | Ungetc c => r ← ungetc c; mret (Char r)
  end.

Fixpoint run_rops (turns : nat) (l : list rop) : MS (list rres) :=
  match l with
  | [] => mret []
  | o :: r => x ← run_rop turns o; y ← run_rops turns r; mret (x :: y)
  end.

Definition spec_rop (o : rop) (st : list Z * list Z) : rres * (list Z * list Z) :=
  let '(pushed, rest) := st in
  match o with
  | Fread n =>
    let l := take n (pushed ++ rest) in
    (Items (Z.of_nat (length l)) l, (drop n pushed, drop (n - length pushed) rest))
  | Fgetc =>
    match pushed ++ rest with
    | c :: _ => (Char c, (drop 1 pushed, drop (1 - length pushed) rest))
    | [] => (Char EOF, ([], []))
    end
  | Ungetc c =>
    if (length pushed <? NUNGET_CHARS)%nat then (Char c, (u8 c :: pushed, rest)) else (Char EOF, st)
  end.

Fixpoint spec_rops (l : list rop) (st : list Z * list Z) : list rres :=
  match l with
  | [] => []
  | o :: r => let '(x, st) := spec_rop o st in x :: spec_rops r st
  end.

Definition gives (s : stream) (st : list Z * list Z) : Prop :=
  exists b, readable s b /\ fs_ungotten s = st.1 /\ behind s b = st.2.

(** A complete read, on the list. *)

Lemma fread_spec turns n s u r : working -> gives s (u, r) ->
  wp (lib_fread answer turns n) (fun x s' => let l := take n (u ++ r) in
    x = (Z.of_nat (length l), l) /\ gives s' (drop n u, drop (n - length u) r)) s.
Proof.
  intros Hw (b & Hs & Hu & Hb). cbn in Hu, Hb. eapply wp_mono; [by apply (lib_fread_ok turns n s b)|].
  intros x s' (b' & got & Hs' & Hun & Hle & Eu & [(-> & Hg & _)|(_ & _ & Hn)]); [|done].
  assert (Eun : unread s b = u ++ r) by (unfold unread; by rewrite Hu, Hb). rewrite Eun in *.
  specialize (Hg Hw). subst got. split; [done|]. exists b'. split_and!; [done|by rewrite Eu, Hu|]. cbn.
  unfold unread in Hun. rewrite Eu, Hu in Hun.
  assert (E : drop n (u ++ r) = drop n u ++ behind s' b').
  { rewrite <- (take_drop n (u ++ r)) in Hun at 1. by apply app_inv_head in Hun. }
  rewrite drop_app in E. by apply app_inv_head in E.
Qed.

Lemma rop_spec turns o s st : working -> gives s st ->
  wp (run_rop turns o) (fun x s' => x = (spec_rop o st).1 /\ gives s' (spec_rop o st).2) s.
Proof.
  intros Hw Hg. destruct st as [u r], o as [n| |c]; cbn [run_rop spec_rop].
  - apply wp_bind. unfold fread. apply wp_bind. rewrite Nat.mul_1_r.
    eapply wp_mono; [by apply fread_spec|]. intros x s' [-> Hg']. cbn [fst snd].
    destruct (0 <? Z.of_nat (length (take n (u ++ r)))) eqn:E; cbn [Nat.eqb].
    + apply wp_ret, wp_ret. rewrite Z.div_1_r. done.
    + to_prop. apply wp_ret, wp_ret. split; [|done]. f_equal. lia.
  - apply wp_bind. unfold fgetc. apply wp_bind. eapply wp_mono; [by apply (fread_spec turns 1)|].
    intros x s' [-> Hg']. apply wp_ret, wp_ret. destruct u as [|c u]; [destruct r as [|c r]|]; cbn in *; split; done.
  - apply wp_bind. unfold ungetc. apply wp_bind, wp_get. destruct Hg as (b & Hs & Hu & Hb). cbn in Hu, Hb.
    rewrite (rd_ok _ _ Hs), Hu. cbn [negb]. destruct (length u <? NUNGET_CHARS)%nat; [apply wp_bind, wp_modify|];
      apply wp_ret, wp_ret; (split; [done|]); exists b; by destruct Hs.
Qed.

Lemma rops_spec turns l : forall s st, working -> gives s st ->
  wp (run_rops turns l) (fun x _ => x = spec_rops l st) s.
Proof.
  induction l as [|o l IH]; intros s st Hw Hg; cbn [run_rops spec_rops]; [by apply wp_ret|].
  apply wp_bind. eapply wp_mono; [by apply rop_spec|]. intros x s1 [-> Hg1]. apply wp_bind.
  destruct (spec_rop o st) as [x st1]. eapply wp_mono; [by apply IH|]. intros y s2 ->. by apply wp_ret.
Qed.

(** Reads that may fail. *)

Fixpoint freads (turns : nat) (l : list nat) : MS (list (list Z)) :=
  match l with
  | [] => mret []
  | n :: r => '(_, x) ← lib_fread answer turns n; y ← freads turns r; mret (x :: y)
  end.

Lemma freads_prefix turns l : forall s b, readable s b ->
  wp (freads turns l) (fun x s' => exists b', readable s' b' /\ unread s b = concat x ++ unread s' b') s.
Proof.
  induction l as [|n l IH]; intros s b Hs; cbn [freads]; [apply wp_ret; by exists b|].
  apply wp_bind. eapply wp_mono; [by apply lib_fread_ok|].
  intros [r got'] s1 (b1 & got & Hs1 & Hun & _ & _ & Hr). apply wp_bind. eapply wp_mono; [by apply (IH s1 b1)|].
  intros y s2 (b2 & Hs2 & Hun2). apply wp_ret. exists b2. split; [done|]. cbn [concat].
  assert (got' = got) as -> by (destruct Hr as [([= _ ->] & _)|([= _ ->] & -> & _)]; done).
  by rewrite Hun, Hun2, app_assoc.
Qed.

End Reading.

(** ** Writing *)

(** A stream that is only written, at the end of its file. *)

Record writable (s : stream) (b : list Z) : Prop := {
  wr_ok : fs_wrok s = true;
  wr_rd : fs_bufread s = 0%nat;
  wr_buf : fs_buf s = Some b;
  wr_pos : (fs_bufpos s < length b)%nat;
  wr_append : f_append (fs_fd s) = false;
  wr_end : f_pos (fs_fd s) = length (f_data (fs_fd s))
}.

(** The bytes of the file and those on their way to it. *)

Definition written (s : stream) (b : list Z) : list Z := f_data (fs_fd s) ++ take (fs_bufpos s) b.

(** The file of [s] with [l] appended, and nothing else changed. *)

Definition appended (l : list Z) (s s' : stream) : Prop :=
  exists f, s' = set_fd f s /\ f_data f = f_data (fs_fd s) ++ l /\ f_append f = false /\ f_pos f = length (f_data f).

Section Writing.
Context (answer : nat -> Z).

(** Every [write] transfers something. *)

Definition progress : Prop := forall n, 0 < answer n.

Lemma nx_write_ok l s : progress -> l <> [] -> f_append (fs_fd s) = false -> f_pos (fs_fd s) = length (f_data (fs_fd s)) ->
  wp (nx_write answer l) (fun r s' => exists k, r = Z.of_nat k /\ (0 < k <= length l)%nat /\ appended (take k l) s s') s.
Proof.
  intros Hp Hl Ha He. unfold nx_write. apply wp_bind, wp_gets. pose proof (Hp (f_calls (fs_fd s))) as Hk.
  rewrite (proj2 (Z.ltb_ge _ _)) by lia. apply wp_bind, wp_modify, wp_ret. set (k := Z.to_nat _).
  exists (length (take k l)). rewrite Ha. assert (0 < length l)%nat by (destruct l; [done|cbn; lia]).
  split_and!; [done|rewrite length_take; lia|rewrite length_take; lia|].
  eexists. split; [reflexivity|]. cbn. unfold splice. rewrite He, take_ge, drop_ge, app_nil_r by lia.
  split_and!; [|done|by rewrite length_app]. f_equal. rewrite length_take.
  destruct (decide (k <= length l)%nat); [by replace (k `min` length l)%nat with k by lia|].
  rewrite !take_ge by lia. done.
Qed.

Lemma appended_trans l l' s s1 s2 : appended l s s1 -> appended l' s1 s2 -> appended (l ++ l') s s2.
Proof.
  intros (f & -> & E & _ & _) (f' & -> & E' & Ha & He). exists f'. split_and!; [done| |done|done].
  cbn in E'. by rewrite E', E, app_assoc.
Qed.

Lemma flush_loop_ok fuel : forall bforce b src n s, progress -> (0 < n)%nat -> (src + n <= length b)%nat -> (n <= fuel)%nat ->
  f_append (fs_fd s) = false -> f_pos (fs_fd s) = length (f_data (fs_fd s)) ->
  wp (flush_loop answer fuel bforce b src n) (fun r s' => exists k, (0 < k <= n)%nat /\ r = inr (src + k, n - k)%nat /\
    (bforce = true -> k = n) /\ appended (slice src (src + k) b) s s') s.
Proof.
  induction fuel as [|fuel IH]; intros bforce b src n s Hp Hn Hb Hf Ha He; [lia|]. cbn [flush_loop].
  apply wp_bind. assert (Hlen : length (slice src (src + n) b) = n) by (rewrite slice_length; lia).
  eapply wp_mono; [apply (nx_write_ok (slice src (src + n) b) s); [done|by intros E; rewrite E in Hlen; cbn in Hlen; lia|done|done]|].
  intros r s1 (k & -> & Hk & Hap). rewrite (proj2 (Z.ltb_ge _ _)) by lia. rewrite Nat2Z.id.
  assert (Ek : take k (slice src (src + n) b) = slice src (src + k) b).
  { unfold slice. rewrite take_take. f_equal. lia. }
  rewrite Ek in Hap. rewrite Hlen in Hk. destruct (bforce && negb (n - k =? 0)%nat) eqn:E.
  - apply andb_true_iff in E as [-> E]. apply negb_true_iff, Nat.eqb_neq in E. pose proof Hap as (f & -> & _ & Ha' & He').
    eapply wp_mono; [apply (IH true b (src + k)%nat (n - k)%nat); try done; lia|].
    intros r s2 (k' & Hk' & -> & Hall & Hap'). exists (k + k')%nat. split_and!; [lia|lia|f_equal; f_equal; lia| |].
    + intros _. specialize (Hall eq_refl). lia.
    + replace (slice src (src + (k + k')) b) with (slice src (src + k) b ++ slice (src + k) (src + k + k') b);
        [by eapply appended_trans|].
      rewrite (slice_split src k (src + (k + k'))) by lia. f_equal; [|f_equal; lia].
      unfold slice. rewrite take_take. f_equal. lia.
  - apply wp_ret. exists k. split_and!; [lia|lia|done| |done]. intros ->. cbn in E.
    apply negb_false_iff, Nat.eqb_eq in E. lia.
Qed.

(** A flush writes all that is waiting if it has to, and something otherwise. *)

Lemma lib_fflush_ok turns bforce s b : progress -> fs_wrok s = true -> fs_bufread s = 0%nat -> fs_buf s = Some b ->
  (fs_bufpos s <= length b)%nat -> (0 < length b)%nat -> (length b <= turns)%nat ->
  f_append (fs_fd s) = false -> f_pos (fs_fd s) = length (f_data (fs_fd s)) ->
  wp (lib_fflush answer turns bforce) (fun r s' => exists b', 0 <= r /\ writable s' b' /\ length b' = length b /\
    written s' b' = written s b /\ (bforce = true -> r = 0 /\ fs_bufpos s' = 0%nat)) s.
Proof.
  intros Hp H1 H2 H3 H4 H0 Ht Ha He. unfold lib_fflush. apply wp_bind, wp_get. rewrite H1, H2, H3. cbn [negb Nat.eqb].
  destruct (Nat.eqb_spec (fs_bufpos s) 0) as [E|E]; cbn [negb].
  { apply wp_ret. exists b. split_and!; [lia| |done|done|done]. by constructor; try done; lia. }
  apply wp_bind. eapply wp_mono; [apply (flush_loop_ok turns bforce b 0 (fs_bufpos s) s); try done; lia|].
  intros r s1 (k & Hk & -> & Hall & (f & -> & Ed & Ha' & He')). rewrite !Nat.add_0_l in *. apply wp_bind, wp_modify, wp_bind, wp_modify, wp_ret.
  set (l := slice k (k + (fs_bufpos s - k)) b).
  assert (Hl : length l = (fs_bufpos s - k)%nat) by (subst l; rewrite slice_length; lia).
  exists (splice 0 l b). split_and!; [lia| |by rewrite splice_length; [|lia]| |].
  - constructor; cbn -[splice]; try done. rewrite splice_length by lia. lia.
  - unfold written. cbn -[splice slice]. rewrite <- Hl. pose proof (splice_take 0 l b) as Es. rewrite !Nat.add_0_l in Es.
    rewrite Es by lia. rewrite take_0, Ed, <- app_assoc. f_equal. cbn [app]. subst l. unfold slice.
    rewrite drop_0, !Nat.sub_0_r. replace (k + (fs_bufpos s - k) - k)%nat with (fs_bufpos s - k)%nat by lia.
    rewrite take_drop_commute. replace (k + (fs_bufpos s - k))%nat with (fs_bufpos s) by lia.
    rewrite <- (take_drop k (take (fs_bufpos s) b)) at 2. by rewrite take_take, Nat.min_l by lia.
  - intros Hb. specialize (Hall Hb). cbn. lia.
Qed.

Lemma fwrite_loop_ok fuel turns : forall src s b, progress -> writable s b -> (length src <= fuel)%nat ->
  (length b <= turns)%nat ->
  wp (fwrite_loop answer fuel turns src) (fun r s' => r = WDone /\ exists b', writable s' b' /\ length b' = length b /\
    written s' b' = written s b ++ src) s.
Proof.
  induction fuel as [|fuel IH]; intros src s b Hp Hs Hf Ht; destruct src as [|c src]; cbn [fwrite_loop]; [|cbn in Hf; lia| |].
  1,2: apply wp_ret; (split; [done|]); exists b; by rewrite app_nil_r.
  set (all := c :: src) in *. pose proof Hs as [H1 H2 H3 H4 H5 H6]. apply wp_bind, wp_get. rewrite H3.
  set (l := take (length b - fs_bufpos s) all).
  assert (Hl : (0 < length l <= length b - fs_bufpos s)%nat)
    by (subst l all; rewrite length_take; cbn [length]; lia).
  assert (Hll : length (splice (fs_bufpos s) l b) = length b) by (apply splice_length; lia).
  apply wp_bind, wp_modify, wp_bind, wp_modify. set (s1 := set_bufpos _ _).
  assert (Hw1 : written s1 (splice (fs_bufpos s) l b) = written s b ++ l).
  { unfold written. cbn -[splice]. by rewrite splice_take, app_assoc by lia. }
  assert (Hd : l ++ drop (length l) all = all).
  { subst l. rewrite length_take. destruct (decide (length b - fs_bufpos s <= length all)%nat).
    - rewrite Nat.min_l by done. apply take_drop.
    - rewrite !take_ge, drop_ge, app_nil_r by lia. done. }
  assert (Hrest : forall s2 b2, writable s2 b2 -> length b2 = length b -> written s2 b2 = written s b ++ l ->
    wp (fwrite_loop answer fuel turns (drop (length l) all)) (fun r s' => r = WDone /\ exists b', writable s' b' /\
      length b' = length b /\ written s' b' = written s b ++ all) s2).
  { intros s2 b2 Hs2 Hb2 Hw2. eapply wp_mono; [apply (IH _ s2 b2); [done|done| |lia]|].
    - rewrite length_drop. cbn in Hf. subst all. cbn [length]. lia.
    - intros r s' (-> & b' & Hs' & Hb' & Hw'). split; [done|]. exists b'. split_and!; [done|congruence|].
      by rewrite Hw', Hw2, <- app_assoc, Hd. }
  destruct (length b <=? fs_bufpos s + length l)%nat eqn:E.
  - apply wp_bind. eapply wp_mono; [apply (lib_fflush_ok turns false s1 (splice (fs_bufpos s) l b)); try done;
      cbn -[splice]; lia|].
    intros r s2 (b2 & Hr & Hs2 & Hb2 & Hw2 & _). rewrite (proj2 (Z.ltb_ge _ _)) by lia.
    apply (Hrest s2 b2); [done|congruence|congruence].
  - apply Nat.leb_gt in E. apply (Hrest s1 (splice (fs_bufpos s) l b)); [|done|done].
    constructor; cbn -[splice]; try done. lia.
Qed.

Lemma lib_fwrite_ok turns l s b : progress -> writable s b -> (length b <= turns)%nat ->
  wp (lib_fwrite answer turns l) (fun r s' => r = Z.of_nat (length l) /\ exists b', writable s' b' /\
    length b' = length b /\ written s' b' = written s b ++ l) s.
Proof.
  intros Hp Hs Ht. pose proof Hs as [H1 H2 H3 H4 H5 H6]. unfold lib_fwrite. apply wp_bind, wp_get. rewrite H1, H3. cbn [negb].
  apply wp_bind. unfold lib_rdflush. apply wp_bind, wp_get. rewrite H3, H2. apply wp_ret. cbn [OK Z.ltb].
  change (OK <? 0) with false. cbv iota. apply wp_bind.
  eapply wp_mono; [apply (fwrite_loop_ok (turns + length l) turns l s b); try done; lia|].
  intros r s' (-> & Hex). unfold write_errout. rewrite (proj2 (Z.ltb_ge _ _)) by lia.
  by apply wp_bind, wp_ret, wp_ret.
Qed.

Lemma fclose_ok turns s b : progress -> writable s b -> (length b <= turns)%nat ->
  wp (fclose answer turns OK) (fun r s' => r = OK /\ f_data (fs_fd s') = written s b) s.
Proof.
  intros Hp [H1 H2 H3 H4 H5 H6] Ht. unfold fclose. apply wp_bind, wp_gets. rewrite H1. apply wp_bind.
  eapply wp_mono; [apply (lib_fflush_ok turns true s b); try done; lia|].
  intros r s' (b' & _ & _ & _ & Hw & Hall). destruct (Hall eq_refl) as [-> E]. apply wp_ret. split; [done|].
  rewrite <- Hw. unfold written. by rewrite E, take_0, app_nil_r.
Qed.

(** A program that writes some blocks of bytes and closes the stream. *)

Fixpoint fwrites (turns : nat) (l : list (list Z)) : MS (list Z) :=
  match l with
  | [] => r ← fclose answer turns OK; mret [r]
  | x :: l' => r ← fwrite answer turns 1 x; rs ← fwrites turns l'; mret (r :: rs)
  end.

Lemma fwrites_ok turns l : forall s b, progress -> writable s b -> (length b <= turns)%nat ->
  wp (fwrites turns l) (fun rs s' => rs = ((fun x => Z.of_nat (length x)) <$> l) ++ [OK] /\
    f_data (fs_fd s') = written s b ++ concat l) s.
Proof.
  induction l as [|x l IH]; intros s b Hp Hs Ht; cbn [fwrites].
  - apply wp_bind. eapply wp_mono; [by apply (fclose_ok turns s b)|]. intros r s' [-> E]. apply wp_ret.
    by rewrite E, app_nil_r.
  - apply wp_bind. unfold fwrite. apply wp_bind. eapply wp_mono; [by apply (lib_fwrite_ok turns x s b)|].
    intros r s1 (-> & b1 & Hs1 & Hb1 & Hw1).
    assert (Hgo : wp (rs ← fwrites turns l; mret (Z.of_nat (length x) :: rs)) (fun rs s' =>
      rs = ((fun x => Z.of_nat (length x)) <$> x :: l) ++ [OK] /\ f_data (fs_fd s') = written s b ++ concat (x :: l)) s1).
    { apply wp_bind. eapply wp_mono; [apply (IH s1 b1); [done|done|lia]|]. intros rs s2 [-> E]. apply wp_ret.
      split; [done|]. by rewrite E, Hw1, <- app_assoc. }
    destruct (0 <? Z.of_nat (length x)) eqn:E; cbn [Nat.eqb]; apply wp_ret.
    + by rewrite Z.div_1_r.
    + to_prop. by replace 0 with (Z.of_nat (length x)) by lia.
Qed.

End Writing.

(** ** Files *)

Definition m_r : list Z := [114].
Definition m_rb : list Z := [114; 98].
Definition m_w : list Z := [119].
Definition m_wb : list Z := [119; 98].

(** C15: A stream that is opened for reading gives what its file holds, in order,
    with what is put back in front: reads of any length, single characters and
    [ungetc], in any order, have the results of the same operations on a list,
    however the file system cuts the transfers.  Where transfers fail, the bytes
    that were read and those that are still there make up the file: none is lost
    and none comes twice. *)
Theorem stream_reads answer turns mode data memory ops ns
    (Hmode : mode = m_r \/ mode = m_rb) (Hw : working answer) :
  exists s, fopen mode (Some data) memory = Some s /\
    wp (run_rops answer turns ops) (fun rs _ => rs = spec_rops ops ([], data)) s /\
    forall answer', wp (freads answer' turns ns) (fun xs s' => exists b, data = concat xs ++ unread s' b) s.
Proof.
  assert (Hex : exists s, fopen mode (Some data) memory = Some s /\ readable s memory /\ unread s memory = data).
  { destruct Hmode as [-> | ->]; eexists; (split; [reflexivity|]); (split; [constructor; cbn; done || lia|]); reflexivity. }
  destruct Hex as (s & Ef & Hs & Hu). exists s. split_and!; [done| |].
  - apply rops_spec; [done|]. exists memory. unfold unread in Hu. destruct Hmode as [-> | ->]; injection Ef as <-; done.
  - intros answer'. eapply wp_mono; [by apply (freads_prefix answer' turns ns s memory)|].
    intros xs s' (b' & _ & E). exists b'. by rewrite <- E.
Qed.

(** C16: A file that is written comes back: whatever blocks a program writes to a
    stream opened for writing, whatever was in the file and however the file
    system cuts the transfers, every write returns its whole length, [fclose]
    returns 0, the file holds the blocks one behind the other, and a stream
    that is then opened for reading gives them back. *)
Theorem file_roundtrip answer answer' turns turns' mode mode' file memory memory' blocks ops
    (Hmode : mode = m_w \/ mode = m_wb) (Hmode' : mode' = m_r \/ mode' = m_rb) (Hp : progress answer)
    (Hw : working answer') (Hm : (0 < length memory <= turns)%nat) :
  exists s, fopen mode file memory = Some s /\
    wp (fwrites answer turns blocks) (fun rs s' =>
      rs = ((fun x => Z.of_nat (length x)) <$> blocks) ++ [OK] /\ f_data (fs_fd s') = concat blocks /\
      exists s2, fopen mode' (Some (f_data (fs_fd s'))) memory' = Some s2 /\
        wp (run_rops answer' turns' ops) (fun rs _ => rs = spec_rops ops ([], concat blocks)) s2) s.
Proof.
  assert (Hex : exists s, fopen mode file memory = Some s /\ writable s memory /\ written s memory = []).
  { destruct Hmode as [-> | ->], file as [data|]; eexists; (split; [reflexivity|]); (split; [constructor; cbn; done || lia|]);
      reflexivity. }
  destruct Hex as (s & Ef & Hs & Hwr). exists s. split; [done|].
  eapply wp_mono; [apply (fwrites_ok answer turns blocks s memory); [done|done|lia]|].
  intros rs s' [-> E]. rewrite Hwr in E. cbn [app] in E. split_and!; [done|done|]. rewrite E.
  destruct Hmode' as [-> | ->]; eexists; (split; [reflexivity|]); apply rops_spec; [done| |done|];
    (exists memory'; split_and!; [constructor; cbn; done || lia|done|done]).
Qed.

(** A flush that fails after a partial transfer keeps the bytes it has written:
    the next flush writes them again. *)

Definition cut_then_fail (n : nat) : Z := match n with O => 2 | S O => - 5 | _ => 64 end.

Lemma flush_repeats : exists s s', fopen m_w None (replicate 64 0) = Some s /\
  (a ← fwrite cut_then_fail 64 1 [97; 98; 99; 100]; b ← fflush cut_then_fail 64; c ← fflush cut_then_fail 64;
   mret (a, b, c)) s = Ret ((4, EOF, OK), s') /\
  f_data (fs_fd s') = [97; 98; 97; 98; 99; 100].
Proof. do 2 eexists. split; [reflexivity|]. split; vm_compute; reflexivity. Qed.

(** ** Witnesses *)

Definition in_threes (_ : nat) : Z := 3.

Lemma stream_reads_witness :
  exists s, fopen m_rb (Some [1; 2; 3; 4; 5; 6; 7; 8]) (replicate 4 0) = Some s /\
    wp (run_rops in_threes 9 [Fgetc; Ungetc 65; Fread 3; Fgetc; Fread 9; Fgetc]) (fun rs _ =>
      rs = spec_rops [Fgetc; Ungetc 65; Fread 3; Fgetc; Fread 9; Fgetc] ([], [1; 2; 3; 4; 5; 6; 7; 8])) s /\
    forall answer', wp (freads answer' 9 [2%nat; 5%nat]) (fun xs s' => exists b,
      [1; 2; 3; 4; 5; 6; 7; 8] = concat xs ++ unread s' b) s.
Proof. apply stream_reads; [by right|]. intros n. unfold in_threes. lia. Defined.

Lemma file_roundtrip_witness :
  exists s, fopen m_wb None (replicate 4 0) = Some s /\
    wp (fwrites in_threes 4 [[1; 2; 3; 4; 5]; []; [6]]) (fun rs s' =>
      rs = [5; 0; 1; 0] /\ f_data (fs_fd s') = [1; 2; 3; 4; 5; 6] /\
      exists s2, fopen m_rb (Some (f_data (fs_fd s'))) (replicate 4 0) = Some s2 /\
        wp (run_rops in_threes 4 [Fread 6]) (fun rs _ => rs = spec_rops [Fread 6] ([], [1; 2; 3; 4; 5; 6])) s2) s.
Proof.
  apply (file_roundtrip in_threes in_threes 4 4 m_wb m_rb None (replicate 4 0) (replicate 4 0) [[1; 2; 3; 4; 5]; []; [6]]).
  - by right.
  - by right.
  - intros n. unfold in_threes. lia.
  - intros n. unfold in_threes. lia.
  - cbn. lia.
Defined.

End StdioProps.
