(* ===== verification/Scanf.v ===== *)
(** * Reading numbers from text

    [src/spresense/nuttx/libs/libc]: [isspace] and [isdigit] (ctype), [strtod]
    (stdlib/lib_strtod.c), and of the scanf family (stdio/lib_libvscanf.c) the
    format loop with the conversions to [double], which is what [fscanf] of
    [diff_ditect] uses.  What a stream still has to give is a list of bytes. *)

From Stdlib Require Import SpecFloat.
From S2P Require Import Prelude Detect.
Import Detect.

Module Scanf.

Definition EOF : Z := -1.

Definition isspace (c : Z) : bool :=
  (c =? 32) || (c =? 9) || (c =? 10) || (c =? 13) || (c =? 12) || (c =? 11).

Definition isdigit (c : Z) : bool := (48 <=? c) && (c <=? 57).

(** ** [strtod]

    A string is the list of its characters; the character behind them is NUL.
    The result has the number, whether [errno] became [ERANGE], and the rest of
    the string ([endptr]). *)

Definition DBL_MIN_EXP : Z := -1021.
Definition DBL_MAX_EXP : Z := 1024.

Definition d_zero : spec_float := double_of_int 0.
Definition d_ten : spec_float := double_of_int 10.
Definition infinite : spec_float := ddiv d_one d_zero.

Definition is_real (x : spec_float) : bool :=
  SFltb x infinite && SFleb (SFopp infinite) x.

Fixpoint skip_spaces (p : list Z) : list Z :=
  match p with
  | c :: r => if isspace c then skip_spaces r else p
  | [] => p
  end.

(** An optional sign: whether it is [-]. *)

Definition sign (p : list Z) : bool * list Z :=
  match p with
  | c :: r => if c =? 45 then (true, r) else if c =? 43 then (false, r) else (false, p)
  | [] => (false, p)
  end.

(** A string of digits: [number] and the count of digits. *)

Fixpoint digits (p : list Z) (number : spec_float) (n : Z) : spec_float * Z * list Z :=
  match p with
  | c :: r =>
    if isdigit c then digits r (dadd (dmul number d_ten) (double_of_int (c - 48))) (n + 1)
    else (number, n, p)
  | [] => (number, n, p)
  end.

(** The decimal part: [num_digits] and [num_decimals]. *)

Definition decimals (p : list Z) (number : spec_float) (num_digits : Z) :
    spec_float * Z * Z * list Z :=
  match p with
  | c :: r =>
    if c =? 46 then
      let '(number, k, r) := digits r number 0 in (number, num_digits + k, k, r)
    else (number, num_digits, 0, p)
  | [] => (number, num_digits, 0, p)
  end.

(** The digits of the exponent are an [int]. *)

Fixpoint int_digits (p : list Z) (n : Z) : outcome (Z * list Z) :=
  match p with
  | c :: r =>
    if isdigit c then
      m ← int_ (n * 10);
      n ← int_ (m + (c - 48));
      int_digits r n
    else Ret (n, p)
  | [] => Ret (n, p)
  end.

Definition exponent_part (p : list Z) (exponent : Z) : outcome (Z * list Z) :=
  match p with
  | c :: r =>
    if (c =? 101) || (c =? 69) then
      let '(negative, r) := sign r in
      '(n, r) ← int_digits r 0;
      e ← int_ (if negative then exponent - n else exponent + n);
      Ret (e, r)
    else Ret (exponent, p)
  | [] => Ret (exponent, p)
  end.

(** [while (n) { if (n & 1) ...; n >>= 1; p10 *= p10; }] on the bits of [n]. *)

Fixpoint scale (down : bool) (n : positive) (p10 number : spec_float) : spec_float :=
  let step x := if down then ddiv x p10 else dmul x p10 in
  match n with
  | xH => step number
  | xO n' => scale down n' (dmul p10 p10) number
  | xI n' => scale down n' (dmul p10 p10) (step number)
  end.

Definition scaled (exponent : Z) (number : spec_float) : spec_float :=
  match exponent with
  | Z0 => number
  | Zpos n => scale false n d_ten number
  | Zneg n => scale true n d_ten number
  end.

Definition strtod (str : list Z) : outcome (spec_float * bool * list Z) :=
  let '(negative, p) := sign (skip_spaces str) in
  let '(number, num_digits, p) := digits p d_zero 0 in
  let '(number, num_digits, num_decimals, p) := decimals p number num_digits in
  if num_digits =? 0 then Ret (d_zero, true, p)
  else
    let number := if negative then SFopp number else number in
    '(exponent, p) ← exponent_part p (0 - num_decimals);
    if (exponent <? DBL_MIN_EXP) || (DBL_MAX_EXP <? exponent) then Ret (infinite, true, p)
    else
      let number := scaled exponent number in
      Ret (number, negb (is_real number), p).

(** ** [lib_vscanf]

    [c] is the character read ahead, [rest] what the stream has behind it. *)

Definition getc (rest : list Z) : Z * list Z :=
  match rest with [] => (EOF, []) | b :: r => (b, r) end.

Fixpoint skip_input (c : Z) (rest : list Z) : Z * list Z :=
  if isspace c then match rest with [] => (EOF, []) | b :: r => skip_input b r end
  else (c, rest).

(** The characters of a real number: [sign], [dot], [expnt]; [None] is
    [stopconv]. *)

Record real_flags := mk_flags { f_sign : bool; f_dot : bool; f_expnt : bool }.

Definition real_char (c : Z) (f : real_flags) : option real_flags :=
  if (c =? 45) || (c =? 43) then
    if f_sign f then None else Some (mk_flags true (f_dot f) (f_expnt f))
  else if c =? 46 then
    if f_dot f then None else Some (mk_flags true true (f_expnt f))
  else if (c =? 101) || (c =? 69) then
    if f_expnt f then None else Some (mk_flags false (f_dot f) true)
  else if negb (isdigit c) then None
  else Some (mk_flags true (f_dot f) (f_expnt f)).

(** Copy up to [n] of them into [tmp]. *)

Fixpoint copy_real (n : nat) (f : real_flags) (c : Z) (rest : list Z) :
    list Z * (Z * list Z) :=
  match n with
  | O => ([], (c, rest))
  | S n' =>
    match real_char c f with
    | None => ([], (c, rest))
    | Some f' =>
      let i := getc rest in
      let '(tmp, i) := copy_real n' f' i.1 i.2 in
      (c :: tmp, i)
    end
  end.

Definition MAXLN : Z := 128.

(** The qualifiers of a conversion. *)

Inductive modifier := HH_MOD | H_MOD | NO_MOD | L_MOD | LL_MOD.

#[global] Instance modifier_eq_dec : EqDecision modifier.
Proof. solve_decision. Defined.

Record qualifiers := mk_quals { q_noassign : bool; q_modifier : modifier; q_width : Z }.
Definition no_quals : qualifiers := mk_quals false NO_MOD 0.

(** The state of the loop: input, the objects the argument list points to, the
    next argument, [assigncount], [count], [conv]. *)

Record scan := mk_scan {
  s_c : Z; s_rest : list Z; s_args : list spec_float; s_ap : nat;
  s_assigned : Z; s_count : Z; s_conv : bool }.

Definition set_input (i : Z * list Z) (s : scan) : scan :=
  mk_scan i.1 i.2 (s_args s) (s_ap s) (s_assigned s) (s_count s) (s_conv s).
Definition set_args (l : list spec_float) (s : scan) : scan :=
  mk_scan (s_c s) (s_rest s) l (s_ap s) (s_assigned s) (s_count s) (s_conv s).
Definition set_ap (n : nat) (s : scan) : scan :=
  mk_scan (s_c s) (s_rest s) (s_args s) n (s_assigned s) (s_count s) (s_conv s).
Definition set_conv (b : bool) (s : scan) : scan :=
  mk_scan (s_c s) (s_rest s) (s_args s) (s_ap s) (s_assigned s) (s_count s) b.
Definition counted (assign : bool) (s : scan) : scan :=
  mk_scan (s_c s) (s_rest s) (s_args s) (s_ap s)
    (if assign then s_assigned s + 1 else s_assigned s) (s_count s + 1) (s_conv s).

(** [*pd = v] for the argument number [k]. *)

Definition store_arg (k : nat) (v : spec_float) (s : scan) : outcome scan :=
  if decide (k < length (s_args s))%nat then Ret (set_args (<[k := v]> (s_args s)) s)
  else Ub OutOfBounds.

(** How a conversion ends: the loop goes on, or the function returns. *)

Inductive after := Continue (s : scan) | Stop (s : scan).

(** The qualifiers up to the conversion character. *)

Definition conv_chars : list Z :=
  [100; 105; 98; 111; 117; 120; 88; 99; 115; 101; 69; 102; 70; 103; 71; 97; 65; 110; 37].

Definition is_in (c : Z) (l : list Z) : bool := existsb (Z.eqb c) l.

Definition is_l (c : Z) : bool := (c =? 108) || (c =? 76).
Definition is_h (c : Z) : bool := (c =? 104) || (c =? 72).

(** The digits of a field width: more of them than [tmp] holds are undefined. *)

Fixpoint width_digits (fmt : list Z) : list Z * list Z :=
  match fmt with
  | c :: r => if isdigit c then let '(d, r') := width_digits r in (c :: d, r') else ([], fmt)
  | [] => ([], [])
  end.

(** [strtoul] and [strtol] to the base 10 on digits: both saturate. *)

Definition ULONG_MAX : Z := 4294967295.

Fixpoint ul_digits (p : list Z) (accum : Z) : Z :=
  match p with
  | c :: r =>
    if isdigit c then
      if (ULONG_MAX / 10 <? accum) || (accum =? ULONG_MAX / 10) && (ULONG_MAX mod 10 <? c - 48)
      then ULONG_MAX else ul_digits r (accum * 10 + (c - 48))
    else accum
  | [] => accum
  end.

Definition atoi (d : list Z) : Z :=
  let accum := ul_digits d 0 in if INT_MAX <? accum then INT_MAX else accum.

(** A letter that may be doubled. *)

Definition doubled (p : Z -> bool) (once twice : modifier) (r : list Z) : modifier * list Z :=
  match r with
  | c :: r' => if p c then (twice, r') else (once, r)
  | [] => (once, [])
  end.

(** The [for] loop over the qualifiers; the fuel is the length of the format. *)

Fixpoint qualify (fuel : nat) (fmt : list Z) (q : qualifiers) (conv : bool) :
    outcome (list Z * qualifiers * bool) :=
  match fuel, fmt with
  | S n, c :: r =>
    if is_in c conv_chars then Ret (fmt, q, conv || negb (c =? 37))
    else if c =? 42 then qualify n r (mk_quals true (q_modifier q) (q_width q)) conv
    else if is_l c then
      let '(m, r) := doubled is_l L_MOD LL_MOD r in
      qualify n r (mk_quals (q_noassign q) m (q_width q)) conv
    else if c =? 106 then qualify n r (mk_quals (q_noassign q) LL_MOD (q_width q)) conv
    else if is_h c then
      let '(m, r) := doubled is_h H_MOD HH_MOD r in
      qualify n r (mk_quals (q_noassign q) m (q_width q)) conv
    else if (49 <=? c) && (c <=? 57) then
      let '(d, r') := width_digits fmt in
      if Z.of_nat (length d) <? MAXLN then
        qualify n r' (mk_quals (q_noassign q) (q_modifier q) (atoi d)) conv
      else Ub OutOfBounds
    else qualify n r q conv
  | _, _ => Ret (fmt, q, conv)
  end.

(** A conversion to [double]. *)

Definition width_of (w : Z) : Z := if (w =? 0) || (MAXLN - 1 <? w) then MAXLN - 1 else w.

Definition scan_double (q : qualifiers) (s : scan) : outcome after :=
  let k := s_ap s in
  s ← (if q_noassign q then Ret s else store_arg k d_zero (set_ap (S k) s));
  let s := set_input (skip_input (s_c s) (s_rest s)) s in
  if 0 <? s_c s then
    let '(tmp, i) := copy_real (Z.to_nat (width_of (q_width q))) (mk_flags false false false)
                       (s_c s) (s_rest s) in
    let s := set_input i s in
    '(dvalue, erange, endptr) ← strtod tmp;
    if (Z.of_nat (length endptr) =? Z.of_nat (length tmp)) || (erange : bool) then Ret (Stop s)
    else
      s ← (if q_noassign q then Ret s else store_arg k dvalue s);
      Ret (Continue (counted (negb (q_noassign q)) s))
  else Ret (Continue s).

Definition real_convs : list Z := [97; 65; 102; 70; 101; 69; 103; 71].

Definition is_long (m : modifier) : bool :=
  match m with L_MOD | LL_MOD => true | _ => false end.

(** The other conversions (strings, characters, integers, [float], counts) are
    an argument: the conversion character (0 where the format ends), the
    qualifiers and the state before it. *)

Section Format.
Context (other : Z -> qualifiers -> scan -> outcome after).

Definition convert (c : Z) (q : qualifiers) (s : scan) : outcome after :=
  if is_in c real_convs && is_long (q_modifier q) then scan_double q s
  else if c =? 37 then
    if s_c s =? 37 then Ret (Continue (set_input (getc (s_rest s)) s)) else Ret (Stop s)
  else other c q s.

(** The value a [break] or the end of the format returns, and that of a
    failed conversion. *)

Definition at_end (s : scan) : Z :=
  if negb (s_count s =? 0) || negb (s_conv s) then s_assigned s else EOF.

Fixpoint format (fuel : nat) (fmt : list Z) (s : scan) : outcome (Z * scan) :=
  match fuel, fmt with
  | S n, c0 :: _ =>
    let s := if isspace c0 then set_input (skip_input (s_c s) (s_rest s)) s else s in
    match skip_spaces fmt with
    | [] => Ret (at_end s, s)
    | f :: r =>
      if f =? 37 then
        '(r, q, conv) ← qualify (length r) r no_quals (s_conv s);
        let s := set_conv conv s in
        let c := match r with [] => 0 | c :: _ => c end in
        a ← convert c q s;
        match a with
        | Stop s => Ret (if c =? 37 then at_end s else s_assigned s, s)
        | Continue s =>
          match r with [] => Ub OutOfBounds | _ :: r => format n r s end
        end
      else if 0 <? s_c s then
        if negb (f =? s_c s) then Ret (at_end s, s)
        else format n r (set_input (getc (s_rest s)) s)
      else Ret (at_end s, s)
    end
  | _, _ => Ret (at_end s, s)
  end.

(** [lib_vscanf]: the result and the objects of the argument list. *)

Definition lib_vscanf (input fmt : list Z) (args : list spec_float) : outcome (Z * scan) :=
  let i := getc input in
  format (length fmt) fmt (mk_scan i.1 i.2 args 0 0 0 false).

End Format.

End Scanf.
