(* ===== verification/ScanProps.v ===== *)
(** * What reading numbers does

    The text of a settings file as a grammar ([reads]): what [fscanf] with the
    format of [Load_setting] makes of it; the numbers as [double]s; files
    whose exponents have at most nine digits are always read, an exponent above
    [INT_MAX] overflows. *)

From Stdlib Require Import SpecFloat.
From S2P Require Import Prelude Detect Scanf.
Import Detect Scanf.

Module ScanProps.

#[global] Instance spec_float_eq_dec : EqDecision spec_float.
Proof. solve_decision. Defined.

(** ** Tokens *)

Definition no_flags : real_flags := mk_flags false false false.

Fixpoint flags_through (t : list Z) (f : real_flags) : option real_flags :=
  match t with
  | [] => Some f
  | c :: r => match real_char c f with Some f' => flags_through r f' | None => None end
  end.

(** A character no real number has. *)

Definition delimiter (c : Z) : bool :=
  negb ((c =? 45) || (c =? 43) || (c =? 46) || (c =? 101) || (c =? 69) || isdigit c).

Lemma delimiter_stops c f : delimiter c = true -> real_char c f = None.
Proof.
  unfold delimiter, real_char. intros H. apply negb_true_iff in H.
  repeat (apply orb_false_iff in H as [H ?]). by rewrite H, H0, H1, H2, H3, H4.
Qed.

Lemma real_char_positive c f f' : real_char c f = Some f' -> 0 < c /\ isspace c = false.
Proof.
  unfold real_char, isspace, isdigit. intros H.
  destruct ((c =? 45) || (c =? 43)) eqn:E1; [|destruct (c =? 46) eqn:E2; [|destruct ((c =? 101) || (c =? 69)) eqn:E3;
    [|destruct ((48 <=? c) && (c <=? 57)) eqn:E4; [|done]]]];
    repeat match goal with E : _ || _ = true |- _ => apply orb_true_iff in E as [E|E] end; to_prop; subst; try done.
  split; [lia|]. repeat (rewrite (proj2 (Z.eqb_neq c _)) by lia). done.
Qed.

Lemma copy_real_token n t f f' l :
  flags_through t f = Some f' -> delimiter (getc l).1 = true -> (length t <= n)%nat ->
  copy_real n f (getc (t ++ l)).1 (getc (t ++ l)).2 = (t, getc l).
Proof.
  revert n f. induction t as [|c t IH]; intros n f Ht Hd Hn; cbn [app length flags_through] in *.
  - destruct n; cbn [copy_real]; [by destruct (getc l)|]. rewrite (delimiter_stops _ _ Hd). by destruct (getc l).
  - destruct n as [|n]; [lia|]. destruct (real_char c f) as [f1|] eqn:E; [|done].
    cbn [getc fst snd copy_real]. rewrite E, (IH n f1) by (done || lia). done.
Qed.

Lemma skip_input_spaces sp l : Forall (fun c => isspace c = true) sp -> isspace (getc l).1 = false ->
  skip_input (getc (sp ++ l)).1 (getc (sp ++ l)).2 = getc l.
Proof.
  intros Hs Hl. induction Hs as [|c sp Hc Hs IH]; cbn [app].
  - destruct l as [|b l]; [done|]. cbn [getc fst snd skip_input] in *. by destruct l; cbn [skip_input]; rewrite Hl.
  - cbn [getc fst snd]. destruct (sp ++ l) as [|b r] eqn:E; cbn [skip_input]; rewrite Hc; [by rewrite <- IH|].
    exact IH.
Qed.

(** A number as the conversion takes it: at most 127 characters that
    [strtod] reads to the end as [v]. *)

Record number (t : list Z) (v : spec_float) : Prop := {
  nb_token : exists f, flags_through t no_flags = Some f;
  nb_length : (length t <= 127)%nat;
  nb_some : t <> [];
  nb_value : strtod t = Ret (v, false, [])
}.

(** Nothing more to read: blanks up to the end of the file or a NUL. *)

Definition blank (l : list Z) : Prop :=
  exists sp l', l = sp ++ l' /\ Forall (fun c => isspace c = true) sp /\ (getc l').1 <= 0.

(** Something that is no number: not of its characters, or without digits. *)

Definition garbage (t : list Z) : Prop :=
  (exists f, flags_through t no_flags = Some f) /\ (length t <= 127)%nat /\
  exists v p, strtod t = Ret (v, true, p).

(** [reads k l old new]: of [k] more settings with the values [old] the text
    [l] makes [new]. *)

Inductive reads : nat -> list Z -> list spec_float -> list spec_float -> Prop :=
  | reads_done l : reads 0 l [] []
  | reads_blank k l old : blank l -> length old = S k -> reads (S k) l old (replicate (S k) d_zero)
  | reads_number k sp t l v o old new :
      Forall (fun c => isspace c = true) sp -> number t v -> delimiter (getc l).1 = true ->
      reads k l old new -> reads (S k) (sp ++ t ++ l) (o :: old) (v :: new)
  | reads_garbage k sp t l o old :
      Forall (fun c => isspace c = true) sp -> garbage t -> delimiter (getc l).1 = true ->
      0 < (getc (t ++ l)).1 -> isspace (getc (t ++ l)).1 = false -> length old = k ->
      reads (S k) (sp ++ t ++ l) (o :: old) (d_zero :: old).

Lemma reads_length k l old new : reads k l old new -> length old = k /\ length new = k.
Proof. induction 1; cbn [length]; rewrite ?length_replicate; lia. Qed.

(** ** One conversion *)

Definition lf : qualifiers := mk_quals false L_MOD 0.

(** The state at the next argument, with [done] before it. *)

Definition at_arg (i : Z * list Z) (done todo : list spec_float) (n c : Z) : scan :=
  mk_scan i.1 i.2 (done ++ todo) (length done) n c true.

Lemma set_input_at i j done todo n c : set_input i (at_arg j done todo n c) = at_arg i done todo n c.
Proof. done. Qed.

Lemma store_next i done o todo n c v :
  store_arg (length done) v (at_arg i done (o :: todo) n c) = Ret (at_arg i done (v :: todo) n c).
Proof.
  unfold store_arg, at_arg, set_args. cbn. rewrite decide_True by (rewrite length_app; cbn; lia).
  by rewrite insert_app_r_alt, Nat.sub_diag by lia.
Qed.

Lemma store_past i done o todo n c v :
  store_arg (length done) v (set_ap (S (length done)) (at_arg i done (o :: todo) n c)) =
    Ret (at_arg i (done ++ [v]) todo n c).
Proof.
  unfold store_arg, at_arg, set_args, set_ap. cbn. rewrite decide_True by (rewrite length_app; cbn; lia).
  rewrite insert_app_r_alt, Nat.sub_diag by lia. rewrite <- app_assoc, length_app. do 2 f_equal. cbn; lia.
Qed.

Lemma store_again i done v v' todo n c :
  store_arg (length done) v' (at_arg i (done ++ [v]) todo n c) = Ret (at_arg i (done ++ [v']) todo n c).
Proof.
  unfold store_arg, at_arg, set_args. cbn. rewrite decide_True by (rewrite !length_app; cbn; lia).
  rewrite <- !app_assoc. cbn [app]. rewrite insert_app_r_alt, Nat.sub_diag by lia. cbn.
  rewrite !length_app. done.
Qed.

Lemma first_not_space t l f : flags_through t no_flags = Some f -> t <> [] ->
  0 < (getc (t ++ l)).1 /\ isspace (getc (t ++ l)).1 = false.
Proof.
  destruct t as [|c t]; [done|]. cbn. destruct (real_char c no_flags) as [f'|] eqn:E; [|done].
  intros _ _. by apply real_char_positive in E.
Qed.

Lemma scan_number sp t l v done o todo n c :
  Forall (fun c => isspace c = true) sp -> number t v -> delimiter (getc l).1 = true ->
  scan_double lf (at_arg (getc (sp ++ t ++ l)) done (o :: todo) n c) =
    Ret (Continue (at_arg (getc l) (done ++ [v]) todo (n + 1) (c + 1))).
Proof.
  intros Hsp [[f Hf] Hl Ht Hv] Hd. destruct (first_not_space t l f Hf Ht) as [H0 H1].
  unfold scan_double. cbn [s_ap at_arg q_noassign lf]. rewrite store_past. cbn [mbind outcome_bind s_c s_rest at_arg].
  rewrite skip_input_spaces by done. cbn [set_input s_c s_rest]. rewrite (proj2 (Z.ltb_lt _ _) H0).
  cbn [q_width lf]. change (Z.to_nat (width_of 0)) with 127%nat. change (mk_flags false false false) with no_flags.
  rewrite (copy_real_token 127 t no_flags f l) by done. rewrite Hv. cbn [mbind outcome_bind].
  rewrite (proj2 (Z.eqb_neq _ _)) by (destruct t; cbn [length] in *; [done|lia]). cbn [orb negb].
  rewrite !set_input_at, store_again. done.
Qed.

Lemma scan_blank l done o todo n c : blank l -> exists l', blank l' /\
  scan_double lf (at_arg (getc l) done (o :: todo) n c) =
    Ret (Continue (at_arg (getc l') (done ++ [d_zero]) todo n c)).
Proof.
  intros (sp & l' & -> & Hsp & H0). exists l'. split; [by exists [], l'|].
  assert (Hns : isspace (getc l').1 = false).
  { unfold isspace. repeat (rewrite (proj2 (Z.eqb_neq _ _)) by lia). done. }
  unfold scan_double. cbn [s_ap at_arg q_noassign lf]. rewrite store_past.
  cbn [mbind outcome_bind s_c s_rest at_arg]. rewrite skip_input_spaces by done. cbn [set_input s_c].
  rewrite (proj2 (Z.ltb_ge _ _)) by lia. done.
Qed.

Lemma scan_garbage sp t l done o todo n c :
  Forall (fun c => isspace c = true) sp -> garbage t -> delimiter (getc l).1 = true ->
  0 < (getc (t ++ l)).1 -> isspace (getc (t ++ l)).1 = false ->
  scan_double lf (at_arg (getc (sp ++ t ++ l)) done (o :: todo) n c) =
    Ret (Stop (at_arg (getc l) (done ++ [d_zero]) todo n c)).
Proof.
  intros Hsp ([f Hf] & Hl & v & p & Hv) Hd H0 H1.
  unfold scan_double. cbn [s_ap at_arg q_noassign lf]. rewrite store_past. cbn [mbind outcome_bind s_c s_rest at_arg].
  rewrite skip_input_spaces by done. cbn [set_input s_c s_rest]. rewrite (proj2 (Z.ltb_lt _ _) H0).
  cbn [q_width lf]. change (Z.to_nat (width_of 0)) with 127%nat. change (mk_flags false false false) with no_flags.
  rewrite (copy_real_token 127 t no_flags f l) by done. rewrite Hv. cbn [mbind outcome_bind].
  by rewrite orb_true_r.
Qed.

(** ** The format of the settings *)

Definition lf_conv : list Z := [37; 108; 102].

(** [k] conversions with a blank in front of each. *)

Fixpoint more_lf (k : nat) : list Z :=
  match k with O => [] | S k' => 32 :: lf_conv ++ more_lf k' end.

Section Format.
Context (other : Z -> qualifiers -> scan -> outcome after).

Lemma format_lf n r s :
  format other (S n) (lf_conv ++ r) s =
    (a ← scan_double lf (set_conv true s);
     match a with
     | Stop s => Ret (s_assigned s, s)
     | Continue s => format other n r s
     end).
Proof. cbn -[scan_double]. destruct (s_conv s); reflexivity. Qed.

Lemma skip_input_twice c rest : let i := skip_input c rest in skip_input i.1 i.2 = i.
Proof.
  cbn. revert c. induction rest as [|b r IH]; intros c; cbn [skip_input].
  - by destruct (isspace c) eqn:E; cbn [fst snd skip_input]; [|rewrite E].
  - destruct (isspace c) eqn:E; [apply IH|]. cbn [fst snd skip_input]. by rewrite E.
Qed.

(** A blank in front of the conversion changes nothing: the conversion skips
    blanks itself. *)

Lemma format_blank_lf n r i done o todo k c :
  format other (S n) (32 :: lf_conv ++ r) (at_arg i done (o :: todo) k c) =
    format other (S n) (lf_conv ++ r) (at_arg i done (o :: todo) k c).
Proof.
  transitivity (format other (S n) (lf_conv ++ r) (at_arg (skip_input i.1 i.2) done (o :: todo) k c)); [done|].
  rewrite !format_lf. change (set_conv true (at_arg ?i ?d ?t ?n ?c)) with (at_arg i d t n c).
  unfold scan_double. cbn [s_ap at_arg q_noassign lf]. rewrite !store_past. cbn [mbind outcome_bind s_c s_rest at_arg].
  rewrite skip_input_twice, !set_input_at. done.
Qed.

Lemma format_reads k l old new : reads k l old new -> forall fuel done n c, (k <= fuel)%nat ->
  exists ret s, format other fuel (more_lf k) (at_arg (getc l) done old n c) = Ret (ret, s) /\ s_args s = done ++ new.
Proof.
  induction 1 as [l|k l old Hb Ho|k sp t l v o old new Hsp Hn Hd Hr IH|k sp t l o old Hsp Hg Hd H0 H1 Ho];
    intros fuel done n c Hf.
  - destruct fuel; cbn [format more_lf]; by do 2 eexists.
  - rewrite <- Ho in *. clear k Ho. revert l fuel done Hb Hf. induction old as [|o old IH]; intros l fuel done Hb Hf.
    { cbn. destruct fuel; cbn [format]; do 2 eexists; (split; [reflexivity|]); done. }
    destruct fuel as [|fuel]; [cbn in Hf; lia|]. cbn [length more_lf]. rewrite format_blank_lf, format_lf.
    change (set_conv true (at_arg ?i ?d ?t ?n ?c)) with (at_arg i d t n c).
    destruct (scan_blank l done o old n c Hb) as (l' & Hb' & ->). cbn [mbind outcome_bind].
    destruct (IH l' fuel (done ++ [d_zero]) Hb') as (ret & s & E & Es); [cbn in Hf; lia|]. exists ret, s.
    split; [done|]. by rewrite Es, <- app_assoc.
  - destruct fuel as [|fuel]; [lia|]. cbn [more_lf]. rewrite format_blank_lf, format_lf.
    change (set_conv true (at_arg ?i ?d ?t ?n ?c)) with (at_arg i d t n c).
    rewrite (scan_number sp t l v) by done. cbn [mbind outcome_bind].
    destruct (IH fuel (done ++ [v]) (n + 1) (c + 1)) as (ret & s & E & Es); [lia|]. exists ret, s.
    split; [done|]. by rewrite Es, <- app_assoc.
  - destruct fuel as [|fuel]; [lia|]. cbn [more_lf]. rewrite format_blank_lf, format_lf.
    change (set_conv true (at_arg ?i ?d ?t ?n ?c)) with (at_arg i d t n c).
    rewrite (scan_garbage sp t l) by done. cbn [mbind outcome_bind]. do 2 eexists. split; [reflexivity|].
    cbn [s_args at_arg]. by rewrite <- app_assoc.
Qed.

(** [fscanf] with one conversion for every setting. *)

Definition settings_format (k : nat) : list Z := tail (more_lf k).

Lemma settings_fuel k : (k <= length (settings_format k))%nat.
Proof.
  unfold settings_format. destruct k as [|k]; [done|]. cbn [more_lf tail app lf_conv length].
  enough (k <= length (more_lf k))%nat by lia. induction k; cbn [more_lf length app lf_conv]; lia.
Qed.

Lemma lib_vscanf_blank l k o old :
  lib_vscanf other l (settings_format (S k)) (o :: old) =
    format other (length (settings_format (S k))) (more_lf (S k)) (at_arg (getc l) [] (o :: old) 0 0).
Proof.
  unfold lib_vscanf, settings_format. cbn [more_lf tail].
  change (length (lf_conv ++ more_lf k)) with (S (length (108 :: 102 :: more_lf k))).
  rewrite format_blank_lf, !format_lf. done.
Qed.

Lemma scan_reads k l old new : reads (S k) l old new ->
  exists ret s, lib_vscanf other l (settings_format (S k)) old = Ret (ret, s) /\ s_args s = new.
Proof.
  intros Hr. destruct (reads_length _ _ _ _ Hr) as [Ho _]. destruct old as [|o old]; [done|].
  rewrite lib_vscanf_blank. by apply (format_reads _ _ _ _ Hr _ [] 0 0), settings_fuel.
Qed.

End Format.

(** ** Exponents that fit

    The digits of an exponent are collected in an [int]: nine of them always
    fit. *)

Definition exponent_letter (c : Z) : bool := (c =? 101) || (c =? 69).

(** The digits at the front of a text. *)

Fixpoint run (p : list Z) : nat :=
  match p with c :: r => if isdigit c then S (run r) else O | [] => O end.

(** At most nine digits behind every letter e and its sign. *)

Fixpoint few_digits (l : list Z) : Prop :=
  match l with
  | [] => True
  | c :: r => (exponent_letter c = true -> (run (sign r).2 <= 9)%nat) /\ few_digits r
  end.

Lemma run_prefix a b : (run a <= run (a ++ b))%nat.
Proof. induction a as [|c a IH]; cbn [app run]; [lia|]. destruct (isdigit c); lia. Qed.

Lemma sign_prefix a b : (run (sign a).2 <= run (sign (a ++ b)).2)%nat.
Proof.
  destruct a as [|c a]; [cbn; lia|]. cbn [app sign]. repeat case_match; cbn [snd]; try apply run_prefix.
  apply (run_prefix (c :: a)).
Qed.

Lemma few_prefix a b : few_digits (a ++ b) -> few_digits a.
Proof.
  induction a as [|c a IH]; cbn [app few_digits]; [done|]. intros [H1 H2]. split; [|auto].
  intros E. specialize (H1 E). pose proof (sign_prefix a b). lia.
Qed.

Lemma few_suffix a b : few_digits (a ++ b) -> few_digits b.
Proof. induction a as [|c a IH]; cbn [app few_digits]; [done|]. intros [_ H]. auto. Qed.

Lemma few_suffix_of l k : l `suffix_of` k -> few_digits k -> few_digits l.
Proof. intros [x ->]. apply few_suffix. Qed.

(** The [int] of at most nine digits. *)

Lemma isdigit_range c : isdigit c = true -> 48 <= c <= 57.
Proof. unfold isdigit. intros H. to_prop. lia. Qed.

Lemma int_digits_small p n : 0 <= n -> (n + 1) * 10 ^ Z.of_nat (run p) <= 10 ^ 9 ->
  exists m q, int_digits p n = Ret (m, q) /\ 0 <= m < 10 ^ 9.
Proof.
  revert n. induction p as [|c p IH]; intros n Hn H; cbn [run int_digits] in *.
  { exists n, []. split; [done|]. lia. }
  destruct (isdigit c) eqn:E.
  - apply isdigit_range in E. rewrite Nat2Z.inj_succ, Z.pow_succ_r in H by lia.
    assert (1 <= 10 ^ Z.of_nat (run p)) by (pose proof (Z.pow_pos_nonneg 10 (Z.of_nat (run p))); lia).
    assert ((n + 1) * 10 <= 10 ^ 9) by nia.
    rewrite int_ok by (unfold INT_MIN, INT_MAX; lia). cbn [mbind outcome_bind].
    rewrite int_ok by (unfold INT_MIN, INT_MAX; lia). cbn [mbind outcome_bind]. apply IH; [lia|]. nia.
  - exists n, (c :: p). split; [done|]. lia.
Qed.

Lemma skip_spaces_suffix p : skip_spaces p `suffix_of` p.
Proof.
  induction p as [|c p IH]; cbn [skip_spaces]; [done|]. destruct (isspace c); [|done].
  by apply suffix_cons_r.
Qed.

Lemma sign_suffix p : (sign p).2 `suffix_of` p.
Proof. destruct p as [|c p]; [done|]. cbn. repeat case_match; try done; by apply suffix_cons_r. Qed.

Lemma digits_suffix p x n : (digits p x n).2 `suffix_of` p.
Proof.
  revert x n. induction p as [|c p IH]; intros x n; cbn [digits]; [done|]. destruct (isdigit c); [|done].
  by apply suffix_cons_r.
Qed.

Lemma decimals_suffix p x n : (decimals p x n).2 `suffix_of` p.
Proof.
  destruct p as [|c p]; [done|]. cbn [decimals]. destruct (c =? 46); [|done].
  pose proof (digits_suffix p x 0). destruct (digits p x 0) as [[? ?] ?]. by apply suffix_cons_r.
Qed.

Lemma Forall_suffix_of {A} (P : A -> Prop) l k : l `suffix_of` k -> Forall P k -> Forall P l.
Proof. intros [x ->] H. by apply Forall_app in H as [_ ?]. Qed.

Lemma digits_count p x n : n <= (digits p x n).1.2 <= n + Z.of_nat (length p).
Proof.
  revert x n. induction p as [|c p IH]; intros x n; cbn [digits length]; [cbn; lia|].
  destruct (isdigit c); [|cbn; lia]. specialize (IH (dadd (dmul x d_ten) (double_of_int (c - 48))) (n + 1)). lia.
Qed.

Lemma decimals_count p x n : 0 <= (decimals p x n).1.2 <= Z.of_nat (length p).
Proof.
  destruct p as [|c p]; cbn [decimals length]; [cbn; lia|]. destruct (c =? 46); [|cbn; lia].
  pose proof (digits_count p x 0) as H. destruct (digits p x 0) as [[? ?] ?]. cbn in *. lia.
Qed.

Lemma exponent_fits p e : few_digits p -> - 10 ^ 9 <= e <= 0 -> exists e' q, exponent_part p e = Ret (e', q).
Proof.
  destruct p as [|c p]; intros Hf He; cbn [exponent_part]; [by do 2 eexists|]. destruct Hf as [H _].
  fold (exponent_letter c). destruct (exponent_letter c); [|by do 2 eexists]. specialize (H eq_refl).
  destruct (sign p) as [neg r]. cbn [snd] in H.
  destruct (int_digits_small r 0) as (m & q & -> & Hm); [lia| |].
  - rewrite Z.mul_1_l. apply Z.pow_le_mono_r; lia.
  - cbn [mbind outcome_bind]. rewrite int_ok by (unfold INT_MIN, INT_MAX; destruct neg; lia). by do 2 eexists.
Qed.

Lemma strtod_total t : few_digits t -> (length t <= 127)%nat -> exists v b p, strtod t = Ret (v, b, p) /\
  (b = false -> is_real v = true).
Proof.
  intros Ht Hl. unfold strtod. pose proof (sign_suffix (skip_spaces t)) as S1.
  destruct (sign (skip_spaces t)) as [neg p1]. cbn [snd] in S1. pose proof (digits_suffix p1 d_zero 0) as S2.
  destruct (digits p1 d_zero 0) as [[x n] p2]. cbn [snd] in S2. pose proof (decimals_suffix p2 x n) as S3.
  pose proof (decimals_count p2 x n) as Hk.
  destruct (decimals p2 x n) as [[[y m] k] p3]. cbn [fst snd] in S3, Hk.
  destruct (m =? 0); [by do 3 eexists|].
  assert (H2 : p2 `suffix_of` t) by (do 2 (etrans; [eassumption|]); apply skip_spaces_suffix).
  assert (Hp : few_digits p3) by (eapply few_suffix_of; [|exact Ht]; by etrans).
  apply suffix_length in H2.
  destruct (exponent_fits p3 (0 - k) Hp) as (e & q & ->); [lia|].
  cbn [mbind outcome_bind]. destruct (_ || _); do 3 eexists; (split; [reflexivity|]).
  - done.
  - intros H. by apply negb_false_iff in H.
Qed.

(** The input: the character read ahead and the rest. *)

Definition unread (i : Z * list Z) : Prop := few_digits (i.1 :: i.2).

Lemma getc_unread l : few_digits l -> unread (getc l).
Proof. by destruct l as [|c l]. Qed.

Lemma skip_unread i : unread i -> unread (skip_input i.1 i.2).
Proof.
  destruct i as [c rest]. unfold unread. revert c. induction rest as [|b r IH]; intros c H; cbn [fst snd skip_input] in *.
  - by destruct (isspace c).
  - destruct (isspace c); [|done]. apply IH. apply H.
Qed.

(** What is copied is the front of the input, at most [n] characters of it. *)

Lemma copy_split n f c rest : exists l, c :: rest = (copy_real n f c rest).1 ++ l /\
  (copy_real n f c rest).2 = getc l /\ (length (copy_real n f c rest).1 <= n)%nat.
Proof.
  revert f c rest. induction n as [|n IH]; intros f c rest; cbn [copy_real]; [by exists (c :: rest)|].
  destruct (real_char c f) as [f'|]; [|exists (c :: rest); cbn [fst snd length]; split_and!; [done..|lia]].
  destruct rest as [|b r]; cbn [getc fst snd].
  - exists []. assert (E : forall f, copy_real n f EOF [] = ([], (EOF, []))) by (by destruct n).
    rewrite E. cbn [fst snd length]. split_and!; [done..|lia].
  - destruct (IH f' b r) as (l & E1 & E2 & E3). destruct (copy_real n f' b r) as [tmp i]. cbn [fst snd length] in *.
    exists l. rewrite E1. split_and!; [done..|lia].
Qed.

Lemma copy_unread n f i : unread i -> few_digits (copy_real n f i.1 i.2).1 /\
  (length (copy_real n f i.1 i.2).1 <= n)%nat /\ unread (copy_real n f i.1 i.2).2.
Proof.
  unfold unread at 1. destruct (copy_split n f i.1 i.2) as (l & E & -> & Hl). rewrite E. intros H.
  split_and!; [by eapply few_prefix|done|]. apply getc_unread. by eapply few_suffix.
Qed.

(** Settings: real numbers, neither NaN nor positive infinity. *)

Definition real (v : spec_float) : Prop := is_real v = true.

Lemma scan_total i done o todo n c : unread i -> exists i' v n' c', unread i' /\ real v /\
  (scan_double lf (at_arg i done (o :: todo) n c) = Ret (Continue (at_arg i' (done ++ [v]) todo n' c')) \/
   scan_double lf (at_arg i done (o :: todo) n c) = Ret (Stop (at_arg i' (done ++ [v]) todo n' c'))).
Proof.
  intros Hi. unfold scan_double. cbn [s_ap at_arg q_noassign lf]. rewrite store_past.
  cbn [mbind outcome_bind s_c s_rest at_arg]. apply skip_unread in Hi.
  destruct (skip_input i.1 i.2) as [c0 r0] eqn:E0. cbn [set_input s_c s_rest fst snd].
  destruct (0 <? c0); [|by exists (c0, r0), d_zero, n, c; split_and!; [apply Hi| |left]].
  destruct (copy_unread 127 no_flags (c0, r0) Hi) as (Ht & Hl & Hi').
  cbn [fst snd] in Ht, Hl, Hi'. change (Z.to_nat (width_of (q_width lf))) with 127%nat.
  change (mk_flags false false false) with no_flags.
  destruct (copy_real _ no_flags c0 r0) as [t i'] eqn:E. cbn [fst snd] in *.
  destruct (strtod_total t Ht Hl) as (v & b & p & -> & Hv). cbn [mbind outcome_bind].
  rewrite !set_input_at. destruct (_ || b) eqn:Eb.
  - exists i', d_zero, n, c. split_and!; [done|done|]. right. done.
  - apply orb_false_iff in Eb as [_ ->]. cbn [negb mbind outcome_bind].
    change (set_input ?i (mk_scan c0 r0 ?l ?k ?n ?c true)) with (set_input i (mk_scan c0 r0 l k n c true)).
    exists i', v, (n + 1), (c + 1). split_and!; [done|by apply Hv|]. left.
    change (set_input i' ?s) with (at_arg i' (done ++ [d_zero]) todo n c). by rewrite store_again.
Qed.

Section Total.
Context (other : Z -> qualifiers -> scan -> outcome after).

Lemma format_total todo : forall i fuel done n c, unread i -> Forall real todo -> (length todo <= fuel)%nat ->
  exists ret s new, format other fuel (more_lf (length todo)) (at_arg i done todo n c) = Ret (ret, s) /\
    s_args s = done ++ new /\ length new = length todo /\ Forall real new.
Proof.
  induction todo as [|o todo IH]; intros i fuel done n c Hi Hr Hf; cbn [length] in Hf.
  { cbn. destruct fuel; cbn [format]; do 2 eexists; exists []; (split; [reflexivity|]); done. }
  destruct fuel as [|fuel]; [lia|]. cbn [length more_lf]. rewrite format_blank_lf, format_lf.
  apply Forall_cons in Hr as [_ Hr].
  change (set_conv true (at_arg ?i ?d ?t ?n ?c)) with (at_arg i d t n c).
  destruct (scan_total i done o todo n c Hi) as (i' & v & n' & c' & Hi' & Hv & [-> | ->]); cbn [mbind outcome_bind].
  - destruct (IH i' fuel (done ++ [v]) n' c' Hi' Hr) as (ret & s & new & E & Es & El & Hn); [lia|].
    exists ret, s, (v :: new). cbn [length]. split_and!; [done| |lia|by apply Forall_cons].
    by rewrite Es, <- app_assoc.
  - do 2 eexists. exists (v :: todo). split; [reflexivity|]. cbn [s_args at_arg].
    split_and!; [by rewrite <- app_assoc|done|by apply Forall_cons].
Qed.

Lemma lib_vscanf_total l k old : few_digits l -> length old = S k -> Forall real old ->
  exists ret s, lib_vscanf other l (settings_format (S k)) old = Ret (ret, s) /\
    length (s_args s) = S k /\ Forall real (s_args s).
Proof.
  intros Hl Ho Hr. destruct old as [|o old]; [done|]. injection Ho as Ho. subst k.
  destruct (format_total (o :: old) (getc l) (length (settings_format (S (length old)))) [] 0 0)
    as (ret & s & new & E & Es & En & Hn); [by apply getc_unread|done|apply settings_fuel|].
  exists ret, s. rewrite (lib_vscanf_blank other). change (S (length old)) with (length (o :: old)) in *. by rewrite Es.
Qed.

End Total.

(** ** Exponents that do not fit *)

Definition digit (c : Z) : Prop := isdigit c = true.

(** The number a text of digits continues [n] to. *)

Definition value_from (n : Z) (ds : list Z) : Z := fold_left (fun n c => n * 10 + (c - 48)) ds n.

Lemma value_from_le n ds : 0 <= n -> Forall digit ds -> n <= value_from n ds.
Proof.
  intros Hn H. revert n Hn. induction H as [|c ds Hc _ IH]; intros n Hn; cbn; [lia|].
  apply isdigit_range in Hc. specialize (IH (n * 10 + (c - 48))). unfold value_from in IH. lia.
Qed.

Lemma int_digits_overflow ds more n : 0 <= n <= INT_MAX -> Forall digit ds -> INT_MAX < value_from n ds ->
  int_digits (ds ++ more) n = Ub SignedOverflow.
Proof.
  intros Hn H. revert n Hn. induction H as [|c ds Hc Hds IH]; intros n Hn Hv; cbn in Hv; [lia|].
  cbn [app int_digits]. rewrite Hc. apply isdigit_range in Hc. unfold int_, is_i32.
  rewrite !(proj2 (Z.leb_le INT_MIN _)) by (unfold INT_MIN; lia). cbn [andb].
  destruct (n * 10 <=? INT_MAX) eqn:E1; [|done]. cbn [mbind outcome_bind].
  rewrite (proj2 (Z.leb_le INT_MIN _)) by (unfold INT_MIN; lia). cbn [andb].
  destruct (n * 10 + (c - 48) <=? INT_MAX) eqn:E2; [|done]. cbn [mbind outcome_bind]. to_prop.
  apply IH; [lia|exact Hv].
Qed.

(** A number of digits, an exponent letter, perhaps a sign, and digits whose
    value is more than an [int] holds. *)

Record huge_exponent (t : list Z) : Prop := {
  hx_some : exists m e s ds, t = m ++ [e] ++ s ++ ds /\ m <> [] /\ Forall digit m /\
    exponent_letter e = true /\ (s = [] \/ s = [43] \/ s = [45]) /\ Forall digit ds /\ INT_MAX < value_from 0 ds;
  hx_length : (length t <= 127)%nat
}.

Lemma digit_char c f : digit c -> real_char c f = Some (mk_flags true (f_dot f) (f_expnt f)).
Proof.
  unfold digit, real_char. intros H. rewrite H. apply isdigit_range in H.
  repeat (rewrite (proj2 (Z.eqb_neq c _)) by lia). done.
Qed.

Lemma digits_flags ds f r : Forall digit ds -> ds <> [] ->
  flags_through (ds ++ r) f = flags_through r (mk_flags true (f_dot f) (f_expnt f)).
Proof.
  intros H. revert f. induction H as [|c ds Hc _ IH]; intros f Hn; [done|]. cbn [app flags_through].
  rewrite digit_char by done. destruct ds; [done|]. by rewrite IH.
Qed.

Lemma letter_cases e : exponent_letter e = true -> e = 101 \/ e = 69.
Proof. unfold exponent_letter. intros H. apply orb_true_iff in H as [H|H]; to_prop; auto. Qed.

Lemma huge_flags t : huge_exponent t -> exists f, flags_through t no_flags = Some f.
Proof.
  intros [(m & e & s & ds & -> & Hm & Hd & He & Hs & Hds & Hv) _]. rewrite digits_flags by done.
  assert (Hne : ds <> []) by (intros ->; cbn in Hv; unfold INT_MAX in Hv; lia).
  rewrite <- (app_nil_r ds). cbn [f_dot f_expnt no_flags].
  assert (forall f, exists f', flags_through (ds ++ []) f = Some f')
    by (intros f; rewrite digits_flags by done; by eexists).
  destruct (letter_cases e He) as [-> | ->], Hs as [-> | [-> | ->]]; cbn [app flags_through]; apply H.
Qed.

(** A token is copied whole, with whatever follows it. *)

Lemma copy_real_prefix n t f f' l :
  flags_through t f = Some f' -> (length t <= n)%nat -> t <> [] ->
  exists more, (copy_real n f (getc (t ++ l)).1 (getc (t ++ l)).2).1 = t ++ more.
Proof.
  revert n f. induction t as [|c t IH]; intros n f Ht Hn Hne; [done|]. cbn [app length flags_through] in *.
  destruct n as [|n]; [lia|]. destruct (real_char c f) as [f1|] eqn:E; [|done].
  cbn [getc fst snd copy_real]. rewrite E.
  destruct (decide (t = [])) as [->|Ht0].
  - cbn [app]. destruct (copy_real n f1 (getc l).1 (getc l).2) as [tmp i]. by exists tmp.
  - destruct (IH n f1 Ht) as [more Hm]; [lia|done|].
    destruct (copy_real n f1 (getc (t ++ l)).1 (getc (t ++ l)).2) as [tmp i]. cbn [fst] in *. exists more.
    by rewrite Hm.
Qed.

Lemma digits_past m x n r : Forall digit m -> (forall c, head r = Some c -> isdigit c = false) ->
  exists y, digits (m ++ r) x n = (y, n + Z.of_nat (length m), r).
Proof.
  intros H Hr. revert x n. induction H as [|c m Hc _ IH]; intros x n; cbn [app digits length].
  - exists x. rewrite Z.add_0_r. destruct r as [|c r]; [done|]. cbn [digits]. by rewrite (Hr c).
  - rewrite Hc. destruct (IH (dadd (dmul x d_ten) (double_of_int (c - 48))) (n + 1)) as [y ->]. exists y.
    do 2 f_equal. lia.
Qed.

Lemma strtod_huge t more : huge_exponent t -> strtod (t ++ more) = Ub SignedOverflow.
Proof.
  intros [(m & e & s & ds & -> & Hm & Hd & He & Hs & Hds & Hv) _]. unfold strtod.
  assert (Hne : ds <> []) by (intros ->; cbn in Hv; unfold INT_MAX in Hv; lia).
  set (r := [e] ++ s ++ ds ++ more). replace ((m ++ [e] ++ s ++ ds) ++ more) with (m ++ r)
    by (subst r; by rewrite <- !app_assoc).
  assert (Hfront : sign (skip_spaces (m ++ r)) = (false, m ++ r)).
  { destruct Hd as [|c m Hc Hd]; [done|]. apply isdigit_range in Hc. cbn [app skip_spaces].
    unfold isspace. repeat (rewrite (proj2 (Z.eqb_neq c _)) by lia). cbn [orb sign].
    by repeat (rewrite (proj2 (Z.eqb_neq c _)) by lia). }
  rewrite Hfront. destruct (digits_past m d_zero 0 r Hd) as [y ->].
  { intros c [= <-]. by destruct (letter_cases e He) as [-> | ->]. }
  assert (Hdec : decimals r y (0 + Z.of_nat (length m)) = (y, 0 + Z.of_nat (length m), 0, r))
    by (destruct (letter_cases e He) as [-> | ->]; done).
  rewrite Hdec. rewrite (proj2 (Z.eqb_neq _ 0)) by (destruct m; cbn [length]; [done|lia]).
  assert (Hsign : exists neg, sign (s ++ ds ++ more) = (neg, ds ++ more)).
  { destruct Hs as [-> | [-> | ->]]; [|by eexists..]. exists false. destruct Hds as [|c ds Hc _]; [done|].
    apply isdigit_range in Hc. cbn [app sign]. by repeat (rewrite (proj2 (Z.eqb_neq c _)) by lia). }
  destruct Hsign as [neg Hsign]. subst r. cbn [app exponent_part].
  fold (exponent_letter e). rewrite He, Hsign. rewrite int_digits_overflow; [done|unfold INT_MAX; lia|done|done].
Qed.

Lemma huge_some t : huge_exponent t -> t <> [].
Proof. intros [(m & e & s & ds & -> & Hm & _) _]. by destruct m. Qed.

Lemma scan_huge sp t l done o todo n c : Forall (fun c => isspace c = true) sp -> huge_exponent t ->
  scan_double lf (at_arg (getc (sp ++ t ++ l)) done (o :: todo) n c) = Ub SignedOverflow.
Proof.
  intros Hsp Hx. destruct (huge_flags t Hx) as [f Hf]. pose proof (huge_some t Hx) as Hne.
  destruct (first_not_space t l f Hf Hne) as [H0 H1].
  unfold scan_double. cbn [s_ap at_arg q_noassign lf]. rewrite store_past. cbn [mbind outcome_bind s_c s_rest at_arg].
  rewrite skip_input_spaces by done. cbn [set_input s_c s_rest]. rewrite (proj2 (Z.ltb_lt _ _) H0).
  cbn [q_width lf]. change (Z.to_nat (width_of 0)) with 127%nat. change (mk_flags false false false) with no_flags.
  destruct (copy_real_prefix 127 t no_flags f l Hf (hx_length _ Hx) Hne) as [more Hm].
  destruct (copy_real 127 no_flags (getc (t ++ l)).1 (getc (t ++ l)).2) as [tmp i]. cbn [fst] in Hm. subst tmp.
  by rewrite strtod_huge.
Qed.

(** [overflows k l]: among the first [k] numbers of [l] one has such an
    exponent, and what stands before it is numbers. *)

Inductive overflows : nat -> list Z -> Prop :=
  | overflows_here k sp t l : Forall (fun c => isspace c = true) sp -> huge_exponent t ->
      overflows (S k) (sp ++ t ++ l)
  | overflows_later k sp t l v : Forall (fun c => isspace c = true) sp -> number t v ->
      delimiter (getc l).1 = true -> overflows k l -> overflows (S k) (sp ++ t ++ l).

Section Overflow.
Context (other : Z -> qualifiers -> scan -> outcome after).

Lemma format_overflows k l : overflows k l -> forall fuel done todo n c, (k <= fuel)%nat -> length todo = k ->
  format other fuel (more_lf k) (at_arg (getc l) done todo n c) = Ub SignedOverflow.
Proof.
  induction 1 as [k sp t l Hsp Hx|k sp t l v Hsp Hn Hd Ho IH]; intros fuel done [|o todo] n c Hf Hl; try discriminate Hl;
    (destruct fuel as [|fuel]; [lia|]); cbn [more_lf]; rewrite format_blank_lf, format_lf;
    change (set_conv true (at_arg ?i ?d ?t ?n ?c)) with (at_arg i d t n c).
  - by rewrite scan_huge.
  - rewrite (scan_number sp t l v) by done. cbn [mbind outcome_bind]. apply IH; [lia|]. by injection Hl.
Qed.

Lemma lib_vscanf_overflows k l old : overflows (S k) l -> length old = S k ->
  lib_vscanf other l (settings_format (S k)) old = Ub SignedOverflow.
Proof.
  intros Ho Hl. destruct old as [|o old]; [done|]. rewrite lib_vscanf_blank.
  by apply (format_overflows _ _ Ho _ [] (o :: old) 0 0); [apply settings_fuel|].
Qed.

End Overflow.

End ScanProps.
