(* ===== verification/Card.v ===== *)
(** * The files the programs share

    What [src/sprefence/diff_ditect/diff_ditect_main.c] reads from the card:
    [Load_setting] and [load_pic], and [main] with them; the line with the
    borders the host sends ([src/SprefenceServer/SprefenceServer/WebServer.cs],
    [/sethazard]), which [WebSource] stores. *)

From Stdlib Require Import SpecFloat Ascii String.
From S2P Require Import Prelude CameraIo Detect DetectCam Scanf.
Import CameraIo Scanf.

#[local] Open Scope Z_scope.

Module Card.

(** ** The settings *)

Section Settings.
Context (other : Z -> qualifiers -> scan -> outcome after).

(** [vfscanf]: the character read ahead goes back to a stream that is closed
    next; the result and the objects of the arguments. *)

Definition fscanf (file fmt : list Z) (args : list spec_float) : outcome (Z * list spec_float) :=
  '(n, s) ← lib_vscanf other file fmt args; Ret (n, s_args s).

Definition lit_format : list Z := removelast (c_string "%lf %lf %lf %lf").

Definition arg (l : list spec_float) (k : nat) : spec_float := nth k l S754_nan.

(** [file] is what [fopen] finds: the bytes of [hazard.ini], if it is there. *)

Definition Load_setting (file : option (list Z)) (h : Detect.hazard) : outcome (Z * Detect.hazard) :=
  match file with
  | None => Ret (-1, h)
  | Some content =>
    '(_, l) ← fscanf content lit_format
      [Detect.hazardLT h; Detect.hazardRT h; Detect.hazardLB h; Detect.hazardRB h];
    Ret (0, Detect.mk_hazard (arg l 0) (arg l 1) (arg l 2) (arg l 3))
  end.
End Settings.

(** ** The reference picture *)

(** [fread(b, 1, n, fp)]: the first bytes of [b] become those of the file, up
    to [n]; the rest stays. *)

Definition cb_store (l : list Z) (b : cbuf) : cbuf :=
  mk_cbuf (cb_len b) (fun i =>
    if (0 <=? i) && (i <? Z.of_nat (List.length l)) then nth (Z.to_nat i) l 0 else cb_at b i).

Definition fread (b : cbuf) (n : Z) (file : list Z) : outcome (Z * cbuf) :=
  let l := take (Z.to_nat n) file in
  let sz := Z.of_nat (List.length l) in
  if sz <=? cb_len b then Ret (sz, cb_store l b) else Ub OutOfBounds.

(** [err] and the pointer, with the memory it points to. *)

Definition load_pic (pic_mem : cbuf) (file : option (list Z)) : outcome (Z * option cbuf * cbuf) :=
  match file with
  | None => Ret (-1, None, pic_mem)
  | Some content =>
    '(_, m) ← fread pic_mem Detect.FSIZE content;
    Ret (0, Some m, m)
  end.

(** ** [main] of the detector *)

(** What one pass meets: the files, and the rest as in [DetectCam.dpass]. *)

Record cpass := mk_cpass {
  c_switch : option (list Z); c_stack : list Z; c_pic : option (list Z);
  c_env : env; c_before : list (Z * Z); c_frames : list (Z * Z); c_image : cbuf }.

Definition to_dpass (p : cpass) (pic : option cbuf) : DetectCam.dpass :=
  DetectCam.mk_dpass (c_switch p) (c_stack p) pic (c_env p) (c_before p) (c_frames p) (c_image p).

(** Does the pass call [load_pic]? *)

Definition loads (p : cpass) (st : Detect.detector) : bool :=
  match c_switch p with
  | Some _ => false
  | None => negb (Detect.isLoaded st) || (Detect.st_i st =? 0)
  end.

Definition load (p : cpass) (st : Detect.detector) (pic_mem : cbuf) : outcome (option cbuf * cbuf) :=
  if loads p st then '(_, pic, m) ← load_pic pic_mem (c_pic p); Ret (pic, m) else Ret (None, pic_mem).

Fixpoint main_loop (h : Detect.hazard) (ps : list cpass) (st : Detect.detector) (pic_mem : cbuf)
    (tr : list Detect.event) : AP Detect.pass :=
  match ps with
  | [] => mret (Detect.Next st tr)
  | p :: rest =>
    '(pic, m) ← lift (load p st pic_mem);
    r ← DetectCam.pass h (to_dpass p pic) st;
    match r with
    | Detect.Next st' tr' => main_loop h rest st' m (tr ++ tr')
    | Detect.Return z tr' => mret (Detect.Return z (tr ++ tr'))
    end
  end.

(** [ini] is the settings file; [mem] is what the memory of the picture holds
    when it is allocated. *)

Definition main (other : Z -> qualifiers -> scan -> outcome after) (pull : Z) (ini : option (list Z))
    (e : env) (mem : cbuf) (ps : list cpass) : AP Detect.pass :=
  '(_, h) ← lift (Load_setting other ini Detect.default_hazard);
  ret ← DetectCam.camera_prepare e;
  if ret <? 0 then mret (Detect.Return ret (Detect.GPIO_init pull))
  else main_loop h ps Detect.start mem (Detect.GPIO_init pull).

(** ** The borders on the host *)

(** [float] arithmetic of the host. *)

Definition fadd : spec_float -> spec_float -> spec_float := SFadd 24 128.
Definition fsub : spec_float -> spec_float -> spec_float := SFsub 24 128.
Definition fdiv : spec_float -> spec_float -> spec_float := SFdiv 24 128.
Definition f_one : spec_float := Detect.float_of_int 1.
Definition f_zero : spec_float := Detect.float_of_int 0.

Record point := mk_point { px : spec_float; py : spec_float }.

(** [OrderBy(p => p.y)]: the order is stable. *)

Fixpoint insert_y (p : point) (l : list point) : list point :=
  match l with
  | [] => [p]
  | q :: r => if SFltb (py q) (py p) then q :: insert_y p r else p :: l
  end.

Definition order_by_y (l : list point) : list point := foldr insert_y [] l.

(** The left and the right one of two points; where they are at the same
    place the second is the left one. *)

Definition left_right (p q : point) : point * point := if SFltb (px p) (px q) then (p, q) else (q, p).

Definition slope (t b : point) : spec_float := fdiv (fsub (py t) (py b)) (fsub (px t) (px b)).

Definition at_top (t : point) (d : spec_float) : spec_float := fadd (px t) (fdiv (py t) d).
Definition at_bottom (b : point) (d : spec_float) : spec_float := fadd (px b) (fdiv (fsub f_one (py b)) d).

Definition at_least_0 (x : spec_float) : spec_float := if SFltb x f_zero then f_zero else x.
Definition at_most_1 (x : spec_float) : spec_float := if SFltb f_one x then f_one else x.

(** [ltp], [lbp], [rtp], [rbp]; fewer than four points are an exception. *)

Definition borders (points : list point) : option (list spec_float) :=
  match order_by_y points with
  | p1 :: p2 :: p3 :: p4 :: _ =>
    let '(lt, rt) := left_right p1 p2 in
    let '(lb, rb) := left_right p3 p4 in
    let dlt := slope lt lb in
    let drt := slope rt rb in
    Some [at_least_0 (at_top lt dlt); at_least_0 (at_bottom lb dlt);
          at_most_1 (at_top rt drt); at_most_1 (at_bottom rt drt)]
  | _ => None
  end.

(** The line with the four values in the format [0.00]. *)

Definition set_line (ltp lbp rtp rbp : list Z) : list Z :=
  removelast (c_string "set ") ++ ltp ++ [32] ++ lbp ++ [32] ++ rtp ++ [32] ++ rbp.

End Card.
