(* ===== verification/CardProps.v ===== *)
(** * What reaches the detector over the card

    The settings file, from the host's line to the hazard area; the reference
    picture; the detector on the card and the camera. *)

From Stdlib Require Import SpecFloat Ascii String.
From S2P Require Import Prelude SerialCodec FrameBuff VideoState VideoDrv VideoIoctl VideoSys VideoProps.
From S2P Require Import CameraIo CameraLemmas Detect DetectProps WebSource DetectCam CameraProps.
From S2P Require Import Stdio StdioProps Scanf ScanProps Card.
Import FrameBuff VideoState VideoDrv VideoIoctl VideoSys VideoProps CameraIo CameraLemmas CameraProps Scanf
  ScanProps Card.

#[local] Open Scope Z_scope.

Module CardProps.

(** ** Streams

    [Scanf] and [Card] read lists of bytes; that is what a stream opened for
    reading gives ([StdioProps.stream_reads]). *)

Lemma getc_stream l : StdioProps.spec_rop StdioProps.Fgetc ([], l) = (StdioProps.Char (getc l).1, ([], (getc l).2)).
Proof. destruct l as [|c l]; [done|]. cbn. by rewrite drop_0. Qed.

Lemma fread_stream b n l : 0 <= n -> n <= cb_len b ->
  exists r m, fread b n l = Ret (r, m) /\
    (StdioProps.spec_rop (StdioProps.Fread (Z.to_nat n)) ([], l)).1 = StdioProps.Items r (take (Z.to_nat n) l) /\
    m = cb_store (take (Z.to_nat n) l) b.
Proof.
  intros Hn Hb. unfold fread. rewrite (proj2 (Z.leb_le _ _)) by (rewrite length_take; lia).
  do 2 eexists. split; [reflexivity|]. done.
Qed.

(** ** The settings *)

Definition settings (h : Detect.hazard) : list spec_float :=
  [Detect.hazardLT h; Detect.hazardRT h; Detect.hazardLB h; Detect.hazardRB h].

Lemma lit_format_eq : lit_format = settings_format 4.
Proof. reflexivity. Qed.

Lemma load_reads other content h h' : reads 4 content (settings h) (settings h') ->
  Load_setting other (Some content) h = Ret (0, h').
Proof.
  intros Hr. destruct (scan_reads other 3 content _ _ Hr) as (ret & s & E & Es).
  unfold Load_setting, fscanf. rewrite lit_format_eq. fold (settings h). rewrite E. cbn [mbind outcome_bind].
  rewrite Es. by destruct h'.
Qed.

(** C12: [Load_setting] takes the settings of the file in the order LT, RT, LB, RB:
    each number sets one; where the file ends (or holds a NUL) the remaining
    ones become 0, and where it holds something else the one it stands for
    becomes 0 and the remaining ones stay. *)
Theorem settings_file_read other content h h'
    (Hr : reads 4 content (settings h) (settings h')) :
  Load_setting other (Some content) h = Ret (0, h') /\ Load_setting other None h = Ret (-1, h).
Proof. split; [by apply load_reads|done]. Qed.



(** ** Numbers in the format of the host *)

(** [n] hundredths, [0 <= n < 1000], in the format [0.00]. *)

Definition hundredths (n : Z) : list Z := [48 + n / 100; 46; 48 + n / 10 mod 10; 48 + n mod 10].
Definition dec2 (n : Z) : spec_float := Detect.ddiv (Detect.double_of_int n) (Detect.double_of_int 100).

Definition reads_as (t : list Z) (v : spec_float) : bool :=
  match flags_through t no_flags, strtod t with
  | Some _, Ret (v', false, []) => bool_decide (v' = v)
  | _, _ => false
  end.

Lemma reads_as_number t v : reads_as t v = true -> (List.length t <= 127)%nat -> t <> [] -> number t v.
Proof.
  unfold reads_as. intros H Hl Hn. destruct (flags_through t no_flags) eqn:E; [|done].
  destruct (strtod t) as [[[v' []] []]| |] eqn:Es; try done. apply bool_decide_eq_true in H as ->.
  split; eauto.
Qed.

Lemma below_check (p : Z -> bool) m n : forallb (fun k => p (Z.of_nat k)) (seq 0 m) = true -> 0 <= n < Z.of_nat m ->
  p n = true.
Proof.
  rewrite forallb_forall. intros H Hn. rewrite <- (Z2Nat.id n) by lia. apply H. apply in_seq. lia.
Qed.

Lemma hundredths_number n : 0 <= n < 1000 -> number (hundredths n) (dec2 n).
Proof.
  intros Hn. apply reads_as_number; [|cbn; lia|done].
  apply (below_check (fun n => reads_as (hundredths n) (dec2 n)) 1000 n); [vm_compute; reflexivity|lia].
Qed.

Lemma digit_number n : 0 <= n < 10 -> number [48 + n] (Detect.double_of_int n).
Proof.
  intros Hn. apply reads_as_number; [|cbn; lia|done].
  apply (below_check (fun n => reads_as [48 + n] (Detect.double_of_int n)) 10 n); [vm_compute; reflexivity|lia].
Qed.

(** What sixteen characters of a line with four such numbers hold. *)

Lemma line_reads a b c d h : 0 <= a < 1000 -> 0 <= b < 1000 -> 0 <= c < 1000 -> 0 <= d < 1000 ->
  reads 4 (hundredths a ++ [32] ++ hundredths b ++ [32] ++ hundredths c ++ [32] ++ [48 + d / 100]) (settings h)
    [dec2 a; dec2 b; dec2 c; Detect.double_of_int (d / 100)].
Proof.
  intros Ha Hb Hc Hd.
  apply (reads_number 3 []); [done|by apply hundredths_number|done|].
  apply (reads_number 2 [32]); [by repeat constructor|by apply hundredths_number|done|].
  apply (reads_number 1 [32]); [by repeat constructor|by apply hundredths_number|done|].
  rewrite <- (app_nil_r [48 + d / 100]).
  apply (reads_number 0 [32]); [by repeat constructor| |done|constructor].
  apply digit_number. split; [apply Z.div_pos; lia|apply Z.div_lt_upper_bound; lia].
Qed.

(** ** The host's line *)

Lemma set_command data e before frames image w : WebSource.starts (WebSource.buff data) "camera" = false ->
  WebSource.starts (WebSource.buff data) "set" = true ->
  WebSource.web_pass (WebSource.mk_wpass (Some data) e before frames image true) w =
    Ret ([WebSource.WFile WebSource.CONFIG_hazard (take 16 (drop 4 (WebSource.buff data)))], WebSource.WNext, w).
Proof. intros H1 H2. unfold WebSource.web_pass. cbn [WebSource.p_read]. by rewrite H1, H2. Qed.

(** The borders do not arrive as they were meant: of the line with the borders
    LT, LB, RT, RB in hundredths the server stores sixteen characters, and the
    detector reads them as LT, RT, LB and RB, the last one cut to its integer
    part; the first one alone arrives. *)
Theorem settings_over_line other e before frames image w a b c d h
    (Ha : 0 <= a < 1000) (Hb : 0 <= b < 1000) (Hc : 0 <= c < 1000) (Hd : 0 <= d < 1000) :
  exists content,
    WebSource.web_pass (WebSource.mk_wpass
      (Some (set_line (hundredths a) (hundredths b) (hundredths c) (hundredths d))) e before frames image true) w =
      Ret ([WebSource.WFile WebSource.CONFIG_hazard content], WebSource.WNext, w) /\
    Load_setting other (Some content) h =
      Ret (0, Detect.mk_hazard (dec2 a) (dec2 b) (dec2 c) (Detect.double_of_int (d / 100))).
Proof.
  eexists. split; [by apply set_command|]. apply load_reads. by apply line_reads.
Qed.

(** The settings the detector has after the line with its own initial borders. *)

Definition misread : Detect.hazard :=
  Detect.mk_hazard (dec2 25) (dec2 25) (dec2 75) (Detect.double_of_int 0).

(** The comparison of [double]s on small integers. *)

Definition nonneg (f : spec_float) : Prop :=
  match f with S754_zero _ | S754_finite false _ _ => True | _ => False end.

Lemma ltb_trans f g h : nonneg f -> nonneg g -> nonneg h -> SFltb f g = true -> SFltb g h = true -> SFltb f h = true.
Proof.
  unfold SFltb, SFcompare. destruct f as [| | |[] m1 e1], g as [| | |[] m2 e2], h as [| | |[] m3 e3]; try done.
  intros _ _ _. pose proof (Z.compare_spec e1 e2). pose proof (Z.compare_spec e2 e3). pose proof (Z.compare_spec e1 e3).
  pose proof (Pos.compare_spec m1 m2). pose proof (Pos.compare_spec m2 m3). pose proof (Pos.compare_spec m1 m3).
  change Pos.compare_cont with Pos.compare_cont in *. fold (Pos.compare m1 m2) (Pos.compare m2 m3) (Pos.compare m1 m3).
  repeat match goal with H : CompareSpec _ _ _ _ |- _ => destruct H end; subst; try done; lia.
Qed.

Lemma ltb_asym f g : SFltb f g = true -> SFltb g f = false.
Proof.
  unfold SFltb, SFcompare. destruct f as [[]|[]| |[] m1 e1], g as [[]|[]| |[] m2 e2]; try done;
  rewrite (Z.compare_antisym e2 e1); fold (Pos.compare m1 m2) (Pos.compare m2 m1); rewrite (Pos.compare_antisym m2 m1);
  destruct (e2 ?= e1), (Pos.compare m2 m1)%positive; done.
Qed.

Lemma next_int n : 0 <= n < 1024 -> nonneg (Detect.double_of_int n) /\
  SFltb (Detect.double_of_int n) (Detect.double_of_int (n + 1)) = true.
Proof.
  intros Hn. pose proof (below_check (fun n => match Detect.double_of_int n with S754_zero _ | S754_finite false _ _ => true
    | _ => false end && SFltb (Detect.double_of_int n) (Detect.double_of_int (n + 1))) 1024 n) as H.
  cbv beta in H. specialize (H ltac:(vm_compute; reflexivity) ltac:(lia)). apply andb_true_iff in H as [H ->].
  split; [|done]. unfold nonneg. by destruct (Detect.double_of_int n) as [|[]| |[]].
Qed.

Lemma int_lt n k : 0 <= n -> n + Z.of_nat k + 1 < 1024 ->
  SFltb (Detect.double_of_int n) (Detect.double_of_int (n + Z.of_nat k + 1)) = true.
Proof.
  intros Hn. induction k as [|k IH]; intros Hk.
  - rewrite Z.add_0_r. apply next_int. lia.
  - eapply ltb_trans; [apply next_int; lia| | |apply IH; lia|]; [apply next_int; lia|apply next_int; lia|].
    replace (n + Z.of_nat (S k) + 1) with (n + Z.of_nat k + 1 + 1) by lia. apply next_int. lia.
Qed.

Lemma int_ltb a b : 0 <= a < 1024 -> 0 <= b < 1024 ->
  SFltb (Detect.double_of_int a) (Detect.double_of_int b) = (a <? b).
Proof.
  assert (Hlt : forall a b, 0 <= a < b -> b < 1024 -> SFltb (Detect.double_of_int a) (Detect.double_of_int b) = true).
  { intros a' b' H1 H2. replace b' with (a' + Z.of_nat (Z.to_nat (b' - a' - 1)) + 1) by lia. apply int_lt; lia. }
  intros Ha Hb. destruct (Z.lt_trichotomy a b) as [H|[->|H]].
  - rewrite (proj2 (Z.ltb_lt a b)) by done. apply Hlt; lia.
  - rewrite Z.ltb_irrefl. destruct (SFltb _ _) eqn:E; [|done]. pose proof (ltb_asym _ _ E). congruence.
  - rewrite (proj2 (Z.ltb_ge a b)) by lia. apply ltb_asym, Hlt; lia.
Qed.

(** The two borders of [misread] at height [y]. *)

Lemma misread_borders y : 0 <= y < 240 ->
  let fy := Detect.double_of_float (Detect.float_of_int y) in
  Detect.border (Detect.hazardRT misread) (Detect.hazardRB misread) fy = Detect.double_of_int (4 * y) /\
  match Detect.border (Detect.hazardLT misread) (Detect.hazardLB misread) fy with
  | S754_finite true _ _ => 0 < y
  | _ => y = 0
  end.
Proof.
  intros Hy. pose proof (below_check (fun y => let fy := Detect.double_of_float (Detect.float_of_int y) in
    bool_decide (Detect.border (Detect.hazardRT misread) (Detect.hazardRB misread) fy = Detect.double_of_int (4 * y)) &&
    match Detect.border (Detect.hazardLT misread) (Detect.hazardLB misread) fy with
    | S754_finite true _ _ => 0 <? y
    | _ => y =? 0
    end) 240 y) as H. cbv beta zeta in H |- *. specialize (H ltac:(vm_compute; reflexivity) ltac:(lia)).
  apply andb_true_iff in H as [H1 H2]. apply bool_decide_eq_true in H1. split; [done|].
  revert H2. generalize (Detect.border (Detect.hazardLT misread) (Detect.hazardLB misread) (Detect.double_of_float (Detect.float_of_int y))).
  intros [|[]| |[]] H2; first [apply Z.ltb_lt in H2|apply Z.eqb_eq in H2]; exact H2.
Qed.

Lemma column_exact x : 0 <= x < 320 ->
  Detect.double_of_float (Detect.float_of_int x) = Detect.double_of_int x /\
  SFltb (Detect.double_of_int x) (dec2 75) = (x =? 0) /\
  forall m e, SFltb (Detect.double_of_int x) (S754_finite true m e) = false.
Proof.
  intros Hx. pose proof (below_check (fun x =>
    bool_decide (Detect.double_of_float (Detect.float_of_int x) = Detect.double_of_int x) &&
    Bool.eqb (SFltb (Detect.double_of_int x) (dec2 75)) (x =? 0)) 320 x) as H. cbv beta in H.
  specialize (H ltac:(vm_compute; reflexivity) ltac:(lia)). apply andb_true_iff in H as [H1 H2].
  apply bool_decide_eq_true in H1. apply Bool.eqb_prop in H2. split_and!; [done|done|]. intros m e.
  destruct (next_int x) as [Hn _]; [lia|]. by destruct (Detect.double_of_int x) as [|[]| |[]].
Qed.

(** The detector's own initial borders, sent by the host, make it switch the
    fence on for every point of the first row and every point to the right of
    the line x = 4 y. *)
Theorem initial_borders_misread other h x y (Hx : 0 <= x < 320) (Hy : 0 <= y < 240) :
  exists content, take 16 (drop 4 (set_line (hundredths 25) (hundredths 25) (hundredths 75) (hundredths 75))) = content /\
  exists h', Load_setting other (Some content) h = Ret (0, h') /\
    Detect.IsHazard h' (Detect.float_of_int x) (Detect.float_of_int y) = (y =? 0) || (4 * y <? x).
Proof.
  eexists. split; [reflexivity|]. exists misread. split; [apply load_reads; by apply (line_reads 25 25 75 75)|].
  destruct (misread_borders y Hy) as [Hr Hl]. destruct (column_exact x Hx) as (Ex & E75 & Eneg).
  unfold Detect.IsHazard. rewrite Hr, Ex. rewrite int_ltb by lia.
  destruct (decide (y = 0)) as [->|Hy0].
  - assert (El : Detect.border (Detect.hazardLT misread) (Detect.hazardLB misread)
      (Detect.double_of_float (Detect.float_of_int 0)) = dec2 75) by (vm_compute; reflexivity).
    rewrite El, E75. cbn [Z.eqb orb]. destruct (x =? 0) eqn:E0; [done|]. to_prop.
    by rewrite (proj2 (Z.ltb_lt _ _)) by lia.
  - rewrite (proj2 (Z.eqb_neq y 0)) by done. cbn [orb].
    revert Hl. generalize (Detect.border (Detect.hazardLT misread) (Detect.hazardLB misread) (Detect.double_of_float (Detect.float_of_int y))).
    intros [|[]| |[]] Hl; try (destruct Hy0; exact Hl). rewrite Eneg. by destruct (4 * y <? x).
Qed.

(** ** The reference picture *)

Lemma load_pic_stored pm content : Detect.FSIZE <= cb_len pm -> Z.of_nat (List.length content) = Detect.FSIZE ->
  load_pic pm (Some content) = Ret (0, Some (cb_store content pm), cb_store content pm).
Proof.
  intros Hpm Hl. unfold load_pic, fread. rewrite take_ge by lia. rewrite Hl.
  by rewrite (proj2 (Z.leb_le _ _)).
Qed.

Lemma cb_store_at content pm i : 0 <= i < Z.of_nat (List.length content) ->
  cb_at (cb_store content pm) i = nth (Z.to_nat i) content 0.
Proof. intros Hi. cbn. by rewrite (proj2 (Z.leb_le 0 i)), (proj2 (Z.ltb_lt i _)) by lia. Qed.

Lemma cb_store_bytes content pm : Forall byte content -> cbuf_bytes pm -> cbuf_bytes (cb_store content pm).
Proof.
  intros Hc Hp i Hi. cbn in *. destruct ((0 <=? i) && (i <? _)) eqn:E; [|by apply Hp]. to_prop.
  destruct (lookup_lt_is_Some_2 content (Z.to_nat i)) as [y Hy]; [lia|].
  rewrite (nth_lookup_Some _ _ _ _ Hy). by apply (Forall_lookup_1 _ _ _ _ Hc) in Hy.
Qed.

(** Sums of constants and of multiples of the index. *)

Lemma zsum_const n c : DetectProps.zsum n (fun _ => c) = Z.of_nat n * c.
Proof. induction n as [|n IH]; cbn [DetectProps.zsum]; lia. Qed.

Lemma zsum_linear n c : 2 * DetectProps.zsum n (fun k => c * k) = c * Z.of_nat n * (Z.of_nat n - 1).
Proof. induction n as [|n IH]; cbn [DetectProps.zsum]; nia. Qed.

Lemma image_const c : DetectProps.image_sum 240 320 (fun _ _ => c) = 76800 * c.
Proof.
  unfold DetectProps.image_sum. rewrite (DetectProps.zsum_ext _ _ (fun _ => 320 * c)).
  - rewrite zsum_const. lia.
  - intros k _. rewrite zsum_const. lia.
Qed.

Lemma image_columns c : DetectProps.image_sum 240 320 (fun _ j => c * j) = 12249600 * c.
Proof.
  unfold DetectProps.image_sum. rewrite (DetectProps.zsum_ext _ _ (fun _ => 51040 * c)).
  - rewrite zsum_const. lia.
  - intros k _. pose proof (zsum_linear (Z.to_nat 320) c). lia.
Qed.

Lemma image_rows c : DetectProps.image_sum 240 320 (fun i _ => c * i) = 9177600 * c.
Proof.
  unfold DetectProps.image_sum. rewrite (DetectProps.zsum_ext _ _ (fun i => 320 * c * i)).
  - pose proof (zsum_linear (Z.to_nat 240) (320 * c)). lia.
  - intros k _. rewrite zsum_const. lia.
Qed.

Lemma image_ext f g : (forall i j, 0 <= i < 240 -> 0 <= j < 320 -> f i j = g i j) ->
  DetectProps.image_sum 240 320 f = DetectProps.image_sum 240 320 g.
Proof.
  intros H. unfold DetectProps.image_sum. apply DetectProps.zsum_ext. intros i Hi.
  apply DetectProps.zsum_ext. intros j Hj. apply H; lia.
Qed.

(** A frame that is the picture itself: every pixel weighs what the mean
    difference is. *)

Lemma same_frame pic cam : DetectProps.frame_ok pic -> DetectProps.frame_ok cam ->
  (forall i, 0 <= i < Detect.FSIZE -> cb_at cam i = cb_at pic i) -> DetectProps.mean_diff pic cam <= 87 ->
  Detect.find_black_center pic cam = Ret (if DetectProps.mean_diff pic cam <? 25 then (-1, -1) else (159, 119)).
Proof.
  intros Hp Hc Hsame Hd. set (d := DetectProps.mean_diff pic cam) in *.
  set (v := if d <? 25 then 0 else d).
  assert (Hw : forall i j, 0 <= i < 240 -> 0 <= j < 320 -> DetectProps.black_weight pic cam i j = v).
  { intros i j Hi Hj. unfold DetectProps.black_weight, Detect.YWIDTH, Detect.VIDEO_HSIZE_QVGA.
    rewrite Hsame by (unfold Detect.FSIZE, Detect.VIDEO_HSIZE_QVGA, Detect.VIDEO_VSIZE_QVGA; lia). fold d.
    replace (_ + d - _) with d by lia. done. }
  assert (EW : DetectProps.image_sum 240 320 (DetectProps.black_weight pic cam) = 76800 * v)
    by (rewrite <- image_const; by apply image_ext).
  assert (EX : DetectProps.image_sum 240 320 (fun i j => DetectProps.black_weight pic cam i j * j) = 12249600 * v)
    by (rewrite <- image_columns; apply image_ext; intros; by rewrite Hw).
  assert (EY : DetectProps.image_sum 240 320 (fun i j => DetectProps.black_weight pic cam i j * i) = 9177600 * v)
    by (rewrite <- image_rows; apply image_ext; intros; by rewrite Hw).
  rewrite DetectProps.black_run; [|done|done|].
  all: unfold Detect.YHEIGHT, Detect.YWIDTH, Detect.VIDEO_HSIZE_QVGA, Detect.VIDEO_VSIZE_QVGA in *; rewrite EW.
  - rewrite EX, EY. clear Hw EW EX EY. subst v. destruct (d <? 25) eqn:E; [done|]. to_prop.
    rewrite (proj2 (Z.leb_gt _ _)) by lia. rewrite !Z.quot_div_nonneg by lia. do 2 f_equal.
    + symmetry. apply (Z.div_unique _ _ _ (38400 * d)); lia.
    + symmetry. apply (Z.div_unique _ _ _ (38400 * d)); lia.
  - unfold INT_MAX. subst v. destruct (d <? 25) eqn:E; to_prop; lia.
Qed.

(** C11: The picture a served request stores is the one the detector compares with,
    byte for byte.  Against a frame of the very same scene [find_black_center]
    weighs every pixel with the mean difference of chroma and luma bytes: below
    25 it finds nothing, from 25 to 87 the centre of the frame.  Above 87 the
    theorem says nothing: there the bound under which the weighted sums are
    known to fit an [int] is passed. *)
Theorem picture_on_card p w o dt addr fr yuv jpeg pm
    (Hreq : request_ok p w o dt addr fr yuv jpeg) (Hyuv : Forall byte yuv)
    (Hpm : Detect.FSIZE <= cb_len pm) (Hb : cbuf_bytes pm) :
  exists evs w' m, WebSource.web_pass p w = Ret (evs ++ [WebSource.WFile WebSource.PIC_uyvy yuv], WebSource.WNext, w') /\
    load_pic pm (Some yuv) = Ret (0, Some m, m) /\
    (forall i, 0 <= i < Detect.FSIZE -> cb_at m i = cb_at (WebSource.p_image p) i) /\
    forall cam, DetectProps.frame_ok cam ->
      (forall i, 0 <= i < Detect.FSIZE -> cb_at cam i = cb_at (WebSource.p_image p) i) ->
      DetectProps.mean_diff m cam <= 87 ->
      Detect.find_black_center m cam = Ret (if DetectProps.mean_diff m cam <? 25 then (-1, -1) else (159, 119)).
Proof.
  destruct (rq_cmd _ _ _ _ _ _ _ _ Hreq) as (data & E1 & E2). rewrite (camera_pass _ _ E1 E2).
  destruct (camera_command_ok _ _ _ _ _ _ _ _ Hreq) as (r & w' & Hrun & sers & -> & _).
  assert (Hl : Z.of_nat (List.length yuv) = Detect.FSIZE) by (rewrite (rq_yuv _ _ _ _ _ _ _ _ Hreq); reflexivity).
  assert (Hat : forall i, 0 <= i < Detect.FSIZE -> cb_at (cb_store yuv pm) i = cb_at (WebSource.p_image p) i).
  { intros i Hi. rewrite cb_store_at by lia. pose proof (rq_image _ _ _ _ _ _ _ _ Hreq) as Him.
    apply SerialCodec.holds_app in Him as [Him _]. destruct (lookup_lt_is_Some_2 yuv (Z.to_nat i)) as [y Hy]; [lia|].
    rewrite (nth_lookup_Some _ _ _ _ Hy). apply Him in Hy. rewrite ?Z.add_0_l, ?Z.add_0_r, Z2Nat.id in Hy by lia.
    unfold cb_read in Hy. by destruct (_ && _) in Hy; simplify_eq. }
  exists (WebSource.WSer <$> sers), w', (cb_store yuv pm). split_and!; [exact Hrun|by apply load_pic_stored|done|].
  intros cam Hc Hcam Hd. apply same_frame; [split; [done|by apply cb_store_bytes]|done| |done].
  intros i Hi. by rewrite Hcam, Hat.
Qed.

(** ** The detector on the card and the camera *)

(** The passes without the camera: the files of each pass, and a frame. *)

Fixpoint card_loop (h : Detect.hazard) (ps : list cpass) (st : Detect.detector) (pm : cbuf)
    (tr : list Detect.event) : outcome Detect.pass :=
  match ps with
  | [] => Ret (Detect.Next st tr)
  | p :: rest =>
    '(pic, m) ← load p st pm;
    r ← Detect.detect_pass h (world_of (to_dpass p pic)) st;
    match r with
    | Detect.Next st' tr' => card_loop h rest st' m (tr ++ tr')
    | Detect.Return z tr' => Ret (Detect.Return z (tr ++ tr'))
    end
  end.

(** [m] run from [a] is [o], with some state afterwards. *)

Definition runs {A} (m : AP A) (a : app) (o : outcome A) : Prop :=
  exists a', m a = match o with Ret r => Ret (r, a') | Ub u => Ub u | Blocked => Blocked end.

Lemma card_loop_runs h ps addr o dt : Forall (fun p => c_frames p <> []) ps -> forall st pm tr x a,
  seeing addr x a o dt -> runs (main_loop h ps st pm tr) a (card_loop h ps st pm tr).
Proof.
  induction 1 as [|p ps Hp _ IH]; intros st pm tr x a Ha; cbn [main_loop card_loop]; [by exists a|].
  unfold runs. unfold mbind at 1, M_bind at 1, lift. destruct (load p st pm) as [[pic m]| |] eqn:El;
    cbn [mbind outcome_bind]; [|by exists a..].
  destruct (pass_run h (to_dpass p pic) st addr x a o dt Ha Hp) as (b & Hb & Hpass).
  unfold mbind at 1, M_bind at 1. rewrite Hpass.
  destruct (Detect.detect_pass h (world_of (to_dpass p pic)) st) as [[st1 t1|z t1]| |];
    cbn [mbind outcome_bind]; [by eapply IH|by exists b..].
Qed.

(** C10: [main] of the detector, with the settings and the pictures it reads from
    the card, is the detection loop on these files with a frame in every pass:
    when the system provides what [camera_prepare] asks for, and in every pass a
    frame completes after it was asked for (and any number before), no camera
    call ever fails, and what comes of the run is what the files and the frames
    make of it. *)
Theorem detector_on_card other pull ini e mem ps a o dt addr pic
    (Hboot : detect_boot e a o dt addr pic) (Hframes : Forall (fun p => c_frames p <> []) ps) :
  runs (main other pull ini e mem ps) a
    ('(_, h) ← Load_setting other ini Detect.default_hazard;
     card_loop h ps Detect.start mem (Detect.GPIO_init pull)).
Proof.
  destruct (detect_prepare_ok _ _ _ _ _ _ Hboot) as (r & a1 & Hrun & -> & x & Hs).
  unfold runs, main. unfold mbind at 1, M_bind at 1, lift.
  destruct (Load_setting other ini Detect.default_hazard) as [[ret h]| |]; cbn [mbind outcome_bind]; [|by exists a..].
  unfold mbind, M_bind. rewrite Hrun. by eapply card_loop_runs.
Qed.

(** ** Witnesses *)

Definition no_conv (c : Z) (q : qualifiers) (s : scan) : outcome after := Blocked.

Definition text (s : string) : list Z := removelast (c_string s).

(** A file of one number and a word. *)

Lemma half_file : reads 4 (text "0.10 x") (settings Detect.default_hazard)
  [dec2 10; d_zero; dec2 25; dec2 75].
Proof.
  apply (reads_number 3 [] (text "0.10")); [done|apply (hundredths_number 10); lia|done|].
  apply (reads_garbage 2 [32] []); [by repeat constructor| |done|done|done|done].
  split; [by eexists|]. split; [cbn; lia|]. by do 2 eexists.
Qed.

Lemma settings_file_read_witness :
  Load_setting no_conv (Some (text "0.10 x")) Detect.default_hazard =
    Ret (0, Detect.mk_hazard (dec2 10) d_zero (dec2 25) (dec2 75)) /\
  Load_setting no_conv None Detect.default_hazard = Ret (-1, Detect.default_hazard).
Proof. exact (settings_file_read no_conv (text "0.10 x") Detect.default_hazard
  (Detect.mk_hazard (dec2 10) d_zero (dec2 25) (dec2 75)) half_file). Defined.

(** Two numbers with exponents are read; what the server stores of the line
    [set 1 1e9999999999] is not. *)




Lemma settings_over_line_witness :
  exists content,
    WebSource.web_pass (WebSource.mk_wpass
      (Some (set_line (hundredths 12) (hundredths 34) (hundredths 56) (hundredths 178))) ex_env [] [] ex_image true) ex_web =
      Ret ([WebSource.WFile WebSource.CONFIG_hazard content], WebSource.WNext, ex_web) /\
    Load_setting no_conv (Some content) Detect.default_hazard =
      Ret (0, Detect.mk_hazard (dec2 12) (dec2 34) (dec2 56) (Detect.double_of_int (178 / 100))).
Proof. apply (settings_over_line no_conv); lia. Defined.

Lemma initial_borders_misread_witness :
  exists content, take 16 (drop 4 (set_line (hundredths 25) (hundredths 25) (hundredths 75) (hundredths 75))) = content /\
  exists h', Load_setting no_conv (Some content) Detect.default_hazard = Ret (0, h') /\
    Detect.IsHazard h' (Detect.float_of_int 100) (Detect.float_of_int 30) = (30 =? 0) || (4 * 30 <? 100).
Proof. apply (initial_borders_misread no_conv Detect.default_hazard 100 30); lia. Defined.

Definition grey_memory : cbuf := mk_cbuf 400000 (fun _ => 100).

Lemma picture_on_card_witness :
  exists evs w' m, WebSource.web_pass ex_pass ex_web =
      Ret (evs ++ [WebSource.WFile WebSource.PIC_uyvy ex_yuv], WebSource.WNext, w') /\
    load_pic grey_memory (Some ex_yuv) = Ret (0, Some m, m) /\
    (forall i, 0 <= i < Detect.FSIZE -> cb_at m i = cb_at (WebSource.p_image ex_pass) i) /\
    forall cam, DetectProps.frame_ok cam ->
      (forall i, 0 <= i < Detect.FSIZE -> cb_at cam i = cb_at (WebSource.p_image ex_pass) i) ->
      DetectProps.mean_diff m cam <= 87 ->
      Detect.find_black_center m cam = Ret (if DetectProps.mean_diff m cam <? 25 then (-1, -1) else (159, 119)).
Proof.
  apply (picture_on_card _ _ _ _ _ _ _ _ grey_memory ex_request).
  - apply Forall_replicate. unfold byte. lia.
  - discriminate.
  - intros i _. cbn. lia.
Defined.

Definition ex_cpass (sw : option (list Z)) : cpass :=
  mk_cpass sw [0; 0; 0; 0; 0] (Some ex_yuv) ex_env [(1, 0)] [(0, 153600)] grey_memory.

Lemma detector_on_card_witness :
  runs (main no_conv 0 (Some (text "0.1 0.9")) ex_env grey_memory [ex_cpass (Some [111; 110; 0]); ex_cpass None]) ex_app
    ('(_, h) ← Load_setting no_conv (Some (text "0.1 0.9")) Detect.default_hazard;
     card_loop h [ex_cpass (Some [111; 110; 0]); ex_cpass None] Detect.start grey_memory (Detect.GPIO_init 0)).
Proof.
  apply (detector_on_card no_conv 0 _ ex_env grey_memory _ ex_app ex_cam ex_data 4096 8192).
  - constructor; try done; [exact ex_boot|by apply ex_accepts].
  - apply Forall_cons. split; [discriminate|]. apply Forall_cons. split; [discriminate|]. apply Forall_nil. exact I.
Defined.

(** The left border through (0.25, 0.25) and (0.75, 0.75) meets the top at 0; the
    host takes 0.5. *)

Definition quarter (n : Z) : spec_float := fdiv (Detect.float_of_int n) (Detect.float_of_int 4).

Lemma top_border_mirrored : exists lbp rtp rbp, borders
    [mk_point (quarter 1) (quarter 1); mk_point (quarter 3) (quarter 3);
     mk_point (quarter 4) (quarter 1); mk_point (quarter 4) (quarter 3)] = Some [quarter 2; lbp; rtp; rbp].
Proof. by do 3 eexists. Qed.

End CardProps.
