(* ===== verification/IsxRegs.v ===== *)
(** * Registers and tables of the ISX012 image sensor

    [src/spresense/nuttx/drivers/video/isx012_reg.h] (register addresses and
    values), [isx012_range.h] (the range, register and size of each control),
    and the constants and tables of [isx012.c], with the names of the source. *)

From S2P Require Import Prelude VideoState VideoCtrl.
Import VideoState VideoCtrl.

Module IsxRegs.

#[local] Open Scope Z_scope.

(** ** [isx012_reg.h] *)

Definition ISX012_I2C_SLV_ADDR : Z := 0x1a.
Definition USERCTRL_BASE : Z := 0x0000.
Definition POST_VIF_BASE : Z := 0x1e00.
Definition CPUCONF_BASE : Z := 0x5000.
Definition AE_BASE : Z := 0x5e00.
Definition AWB_BASE : Z := 0x6200.
Definition ADJ_BASE : Z := 0x6800.
Definition MODE_BASE : Z := 0x6a00.
Definition PICT_BASE : Z := 0x6c00.
Definition GAMMA_BASE : Z := 0x7000.
Definition AUTOCOM_BASE : Z := 0x7c00.
Definition SOUT_BASE : Z := 0x8a00.
Definition CXC_DATA_BASE : Z := 0xeb00.
Definition SHD_DATA_BASE : Z := 0xed00.
Definition INCK_SET : Z := USERCTRL_BASE + 0x0006.
Definition PLL_CKSEL : Z := USERCTRL_BASE + 0x0007.
Definition SRCCK_DIV : Z := USERCTRL_BASE + 0x0008.
Definition DRIVABILITY : Z := USERCTRL_BASE + 0x000c.
Definition INTSTS0 : Z := USERCTRL_BASE + 0x000e.
Definition INTCLR0 : Z := USERCTRL_BASE + 0x0012.
Definition DEVICESTS : Z := USERCTRL_BASE + 0x0014.
Definition MODESEL : Z := USERCTRL_BASE + 0x0081.
Definition SENSMODE_MONI : Z := USERCTRL_BASE + 0x0083.
Definition SENSMODE_CAP : Z := USERCTRL_BASE + 0x0084.
Definition SENSMODE_MOVIE : Z := USERCTRL_BASE + 0x0085.
Definition FPSTYPE_MONI : Z := USERCTRL_BASE + 0x0086.
Definition FPSTYPE_CAP : Z := USERCTRL_BASE + 0x0087.
Definition FPSTYPE_MOVIE : Z := USERCTRL_BASE + 0x0088.
Definition OUTFMT_MONI : Z := USERCTRL_BASE + 0x0089.
Definition OUTFMT_CAP : Z := USERCTRL_BASE + 0x008a.
Definition OUTFMT_MOVIE : Z := USERCTRL_BASE + 0x008b.
Definition READVECT_MONI : Z := USERCTRL_BASE + 0x008c.
Definition READVECT_CAP : Z := USERCTRL_BASE + 0x008d.
Definition HSIZE_MONI : Z := USERCTRL_BASE + 0x0090.
Definition HSIZE_CAP : Z := USERCTRL_BASE + 0x0092.
Definition HSIZE_MOVIE : Z := USERCTRL_BASE + 0x0094.
Definition VSIZE_MONI : Z := USERCTRL_BASE + 0x0096.
Definition VSIZE_CAP : Z := USERCTRL_BASE + 0x0098.
Definition VSIZE_MOVIE : Z := USERCTRL_BASE + 0x009a.
Definition HSIZE_TN : Z := USERCTRL_BASE + 0x009c.
Definition VSIZE_TN : Z := USERCTRL_BASE + 0x009e.
Definition HVFREEZOOM : Z := USERCTRL_BASE + 0x00a1.
Definition EZOOM_MAG : Z := USERCTRL_BASE + 0x00a2.
Definition EZOOM_HMAG : Z := USERCTRL_BASE + 0x00a4.
Definition EZOOM_VMAG : Z := USERCTRL_BASE + 0x00a6.
Definition OFFSET_X : Z := USERCTRL_BASE + 0x00a8.
Definition OFFSET_Y : Z := USERCTRL_BASE + 0x00aa.
Definition HSENS_MODE_SEL : Z := USERCTRL_BASE + 0x00af.
Definition AFMODE_MONI : Z := USERCTRL_BASE + 0x00b2.
Definition VIFCONFIG : Z := USERCTRL_BASE + 0x00c2.
Definition VIF_CLKCONFIG1 : Z := USERCTRL_BASE + 0x00c4.
Definition VIF_CLKCONFIG2 : Z := USERCTRL_BASE + 0x00c5.
Definition VIF_CLKCONFIG3 : Z := USERCTRL_BASE + 0x00c6.
Definition VIF_CLKCONFIG4 : Z := USERCTRL_BASE + 0x00c7.
Definition VIF_CLKCONFIG5 : Z := USERCTRL_BASE + 0x00c8.
Definition VIF_CLKCONFIG6 : Z := USERCTRL_BASE + 0x00c9.
Definition VIF_CLKCONFIG7 : Z := USERCTRL_BASE + 0x00ca.
Definition VIF_CLKCONFIG8 : Z := USERCTRL_BASE + 0x00cb.
Definition VIF_CLKCONFIG9 : Z := USERCTRL_BASE + 0x00cc.
Definition VIF_CLKCONFIG10 : Z := USERCTRL_BASE + 0x00cd.
Definition VIF_CLKCONFIG11 : Z := USERCTRL_BASE + 0x00ce.
Definition VIF_CLKCONFIG12 : Z := USERCTRL_BASE + 0x00cf.
Definition YUVCONFIG : Z := USERCTRL_BASE + 0x00de.
Definition YUVCONFIG_TN : Z := USERCTRL_BASE + 0x00e0.
Definition INT_QLTY2 : Z := USERCTRL_BASE + 0x00f9.
Definition JPEG_PRED_MODE : Z := USERCTRL_BASE + 0x011a.
Definition ILCODELEN : Z := USERCTRL_BASE + 0x013a.
Definition EVSEL : Z := USERCTRL_BASE + 0x0180.
Definition CAP_HALF_AE_CTRL : Z := USERCTRL_BASE + 0x0181.
Definition ISOSENS_OUT : Z := USERCTRL_BASE + 0x019a.
Definition SHT_TIME_AUTO_L : Z := USERCTRL_BASE + 0x01a0.
Definition SHT_TIME_AUTO_H : Z := USERCTRL_BASE + 0x01a2.
Definition SHD_EN : Z := USERCTRL_BASE + 0x01bc.
Definition FMODE : Z := USERCTRL_BASE + 0x01c5.
Definition UIBRIGHTNESS : Z := USERCTRL_BASE + 0x01c6.
Definition UICONTRAST : Z := USERCTRL_BASE + 0x01c7.
Definition AWB_SN1 : Z := USERCTRL_BASE + 0x0282.
Definition HALF_AWB_CTRL : Z := USERCTRL_BASE + 0x01ae.
Definition SHT_PREMODE_TYPE1 : Z := USERCTRL_BASE + 0x02a0.
Definition ISO_TYPE1 : Z := USERCTRL_BASE + 0x02a8.
Definition AE_SUB_SN1 : Z := USERCTRL_BASE + 0x02ac.
Definition FRM_FIX_SN1_2 : Z := USERCTRL_BASE + 0x02c8.
Definition UIHUE_TYPE1 : Z := USERCTRL_BASE + 0x039b.
Definition UISATURATION_TYPE1 : Z := USERCTRL_BASE + 0x039e.
Definition UISHARPNESS_POS_TYPE1 : Z := USERCTRL_BASE + 0x03a1.
Definition VIFMODE : Z := POST_VIF_BASE + 0x0000.
Definition CPUEXT : Z := CPUCONF_BASE + 0x0000.
Definition MUTECNT : Z := CPUCONF_BASE + 0x0001.
Definition FAST_MODECHG_EN : Z := CPUCONF_BASE + 0x000a.
Definition FAST_SHT_MODE_SEL : Z := CPUCONF_BASE + 0x000b.
Definition AESPEED_FAST : Z := AE_BASE + 0x0032.
Definition FASTMOVE_TIMEOUT : Z := AE_BASE + 0x003d.
Definition AE_START_LEVEL : Z := AE_BASE + 0x0040.
Definition INIT_CONT_INR : Z := AWB_BASE + 0x0038.
Definition INIT_CONT_INB : Z := AWB_BASE + 0x003a.
Definition INIT_CONT_OUTR : Z := AWB_BASE + 0x003c.
Definition INIT_CONT_OUTB : Z := AWB_BASE + 0x003e.
Definition NORMR : Z := ADJ_BASE + 0x0004.
Definition NORMB : Z := ADJ_BASE + 0x0006.
Definition AWBPRER : Z := ADJ_BASE + 0x0008.
Definition AWBPREB : Z := ADJ_BASE + 0x000a.
Definition SHD_PRER_OFFSET_R2 : Z := ADJ_BASE + 0x0028.
Definition SHD_PRER_OFFSET_RB : Z := ADJ_BASE + 0x002c.
Definition SHD_PREB_OFFSET_RB : Z := ADJ_BASE + 0x0030.
Definition RO_MASK_NUM : Z := MODE_BASE + 0x0001.
Definition VIF_CLKCONFIG13 : Z := MODE_BASE + 0x0012.
Definition VIF_CLKCONFIG14 : Z := MODE_BASE + 0x0013.
Definition VIF_CLKCONFIG15 : Z := MODE_BASE + 0x0014.
Definition VIF_CLKCONFIG16 : Z := MODE_BASE + 0x0015.
Definition VIF_REC601_Y : Z := MODE_BASE + 0x008c.
Definition VIF_REC601_C : Z := MODE_BASE + 0x008e.
Definition SHD_INP_TH_HB_H_R2 : Z := PICT_BASE + 0x0032.
Definition SHD_INP_TH_HB_L_R2 : Z := PICT_BASE + 0x0034.
Definition SHD_INP_TH_LB_H_R2 : Z := PICT_BASE + 0x0036.
Definition SHD_INP_TH_LB_L_R2 : Z := PICT_BASE + 0x0038.
Definition SHD_INP_TH_HB_H_RB : Z := PICT_BASE + 0x003c.
Definition SHD_INP_TH_HB_L_RB : Z := PICT_BASE + 0x003e.
Definition SHD_INP_TH_LB_H_RB : Z := PICT_BASE + 0x0040.
Definition SHD_INP_TH_LB_L_RB : Z := PICT_BASE + 0x0042.
Definition YGAMMA_MODE : Z := PICT_BASE + 0x0093.
Definition AELEVEL : Z := AUTOCOM_BASE + 0x0099.
Definition AESTS : Z := SOUT_BASE + 0x0000.
Definition AWBSTS : Z := SOUT_BASE + 0x0024.
Definition RATIO_R : Z := SOUT_BASE + 0x002e.
Definition RATIO_B : Z := SOUT_BASE + 0x0030.
Definition CXC_VALID : Z := CXC_DATA_BASE + 0x0000.
Definition SHD_VALID : Z := SHD_DATA_BASE + 0x0000.
Definition OM_CHANGED_STS : Z := Z.shiftl 1 0.
Definition CM_CHANGED_STS : Z := Z.shiftl 1 1.
Definition VINT_STS : Z := Z.shiftl 1 5.
Definition REGVAL_VIFMODE_YUV_PARALLEL : Z := 0x00000002.
Definition REGVAL_VIFMODE_JPEG_PARALLEL : Z := 0x0000000a.
Definition REGVAL_VIFMODE_INTERLEAVE_PARALLEL : Z := 0x0000000e.
Definition REGVAL_VIFMODE_RGB_PARALLEL : Z := 0x00000006.
Definition REGVAL_OUTFMT_YUV : Z := 0.
Definition REGVAL_OUTFMT_RGB : Z := 0x04.
Definition REGVAL_OUTFMT_JPEG : Z := 0x08.
Definition REGVAL_OUTFMT_INTERLEAVE : Z := 0x18.
Definition REGVAL_MODESEL_MON : Z := 0.
Definition REGVAL_MODESEL_HREL : Z := 1.
Definition REGVAL_MODESEL_CAP : Z := 2.
Definition REGVAL_MODESEL_MOV : Z := 3.
Definition REGVAL_SENSMODE_ALLPIX : Z := 0.
Definition REGVAL_SENSMODE_1_2 : Z := 1.
Definition REGVAL_SENSMODE_1_4 : Z := 2.
Definition REGVAL_SENSMODE_1_8 : Z := 3.
Definition REGVAL_FPSTYPE_120FPS : Z := 0.
Definition REGVAL_FPSTYPE_60FPS : Z := 1.
Definition REGVAL_FPSTYPE_30FPS : Z := 2.
Definition REGVAL_FPSTYPE_15FPS : Z := 3.
Definition REGVAL_FPSTYPE_10FPS : Z := 4.
Definition REGVAL_FPSTYPE_7_5FPS : Z := 5.
Definition REGVAL_FPSTYPE_6FPS : Z := 6.
Definition REGVAL_FPSTYPE_5FPS : Z := 7.
Definition REGVAL_CPUEXT_BIT_AESTOP : Z := 0x02.
Definition REGVAL_CPUEXT_BIT_AWBSTOP : Z := 0x04.
Definition REGVAL_AESTS_STOP : Z := 0.
Definition REGVAL_AWBSTS_STOP : Z := 2.
Definition REGVAL_READVECT_BIT_V : Z := 0x01.
Definition REGVAL_READVECT_BIT_H : Z := 0x02.
Definition REGVAL_EFFECT_NONE : Z := 0.
Definition REGVAL_EFFECT_SOLARIZATION : Z := 1.
Definition REGVAL_EFFECT_NEGPOS : Z := 2.
Definition REGVAL_EFFECT_SEPIA : Z := 3.
Definition REGVAL_EFFECT_MONOTONE : Z := 4.
Definition REGVAL_EFFECT_PASTEL : Z := 5.
Definition REGVAL_EFFECT_SKETCH : Z := 6.
Definition REGVAL_AWB_ATM : Z := 0x20.
Definition REGVAL_AWB_CLEARWEATHER : Z := 0x04.
Definition REGVAL_AWB_SHADE : Z := 0x05.
Definition REGVAL_AWB_CLOUDYWEATHER : Z := 0x06.
Definition REGVAL_AWB_FLUORESCENTLIGHT : Z := 0x07.
Definition REGVAL_AWB_LIGHTBULB : Z := 0x08.
Definition REGVAL_EXPOSURETIME_AUTO : Z := 0.
Definition REGVAL_PHOTOMETRY_AVERAGE : Z := 0.
Definition REGVAL_PHOTOMETRY_CENTERWEIGHT : Z := 1.
Definition REGVAL_PHOTOMETRY_SPOT : Z := 2.
Definition REGVAL_PHOTOMETRY_MULTIPATTERN : Z := 3.
Definition REGVAL_ISO_AUTO : Z := 0.
Definition REGVAL_ISO_25 : Z := 1.
Definition REGVAL_ISO_32 : Z := 2.
Definition REGVAL_ISO_40 : Z := 3.
Definition REGVAL_ISO_50 : Z := 4.
Definition REGVAL_ISO_64 : Z := 5.
Definition REGVAL_ISO_80 : Z := 6.
Definition REGVAL_ISO_100 : Z := 7.
Definition REGVAL_ISO_125 : Z := 8.
Definition REGVAL_ISO_160 : Z := 9.
Definition REGVAL_ISO_200 : Z := 10.
Definition REGVAL_ISO_250 : Z := 11.
Definition REGVAL_ISO_320 : Z := 12.
Definition REGVAL_ISO_400 : Z := 13.
Definition REGVAL_ISO_500 : Z := 14.
Definition REGVAL_ISO_640 : Z := 15.
Definition REGVAL_ISO_800 : Z := 16.
Definition REGVAL_ISO_1000 : Z := 17.
Definition REGVAL_ISO_1250 : Z := 18.
Definition REGVAL_ISO_1600 : Z := 19.
Definition REGVAL_YGAMMA_AUTO : Z := 0.
Definition REGVAL_YGAMMA_OFF : Z := 1.
Definition DEVICESTS_SLEEP : Z := 2.

Definition CXC_RGB_UNIT (x y : Z) : Z := CXC_DATA_BASE + 0x0002 + (x * 7 + y).
Definition CXC_GRB_UNIT (x y : Z) : Z := CXC_DATA_BASE + 0x00bf + (x * 7 + y).
Definition SHD_RGB_UNIT (x y : Z) : Z := SHD_DATA_BASE + 0x0002 + (x * 11 + y).
Definition SHD_GRB_UNIT (x y : Z) : Z := SHD_DATA_BASE + 0x012b + (x * 11 + y).
Definition SHD_R1_UNIT (x y : Z) : Z := SHD_DATA_BASE + 0x0254 + (x * 11 + y).
Definition SHD_R2_UNIT (x y : Z) : Z := SHD_DATA_BASE + 0x02ee + (x * 11 + y).
Definition SHD_B2_UNIT (x y : Z) : Z := SHD_DATA_BASE + 0x0388 + (x * 11 + y).

(** ** [isx012_range.h] *)

Definition ISX012_DEF_BRIGHTNESS : Z := 0.
Definition ISX012_MIN_BRIGHTNESS : Z := -128.
Definition ISX012_MAX_BRIGHTNESS : Z := 127.
Definition ISX012_STEP_BRIGHTNESS : Z := 1.
Definition ISX012_REG_BRIGHTNESS : Z := UIBRIGHTNESS.
Definition ISX012_SIZE_BRIGHTNESS : Z := 1.
Definition ISX012_DEF_CONTRAST : Z := 0x80.
Definition ISX012_MIN_CONTRAST : Z := 0x00.
Definition ISX012_MAX_CONTRAST : Z := 0xff.
Definition ISX012_STEP_CONTRAST : Z := 1.
Definition ISX012_REG_CONTRAST : Z := UICONTRAST.
Definition ISX012_SIZE_CONTRAST : Z := 1.
Definition ISX012_DEF_SATURATION : Z := 0.
Definition ISX012_MIN_SATURATION : Z := 0.
Definition ISX012_MAX_SATURATION : Z := 255.
Definition ISX012_STEP_SATURATION : Z := 1.
Definition ISX012_REG_SATURATION : Z := UISATURATION_TYPE1.
Definition ISX012_SIZE_SATURATION : Z := 1.
Definition ISX012_DEF_HUE : Z := 0.
Definition ISX012_MIN_HUE : Z := 0.
Definition ISX012_MAX_HUE : Z := 255.
Definition ISX012_STEP_HUE : Z := 1.
Definition ISX012_REG_HUE : Z := UIHUE_TYPE1.
Definition ISX012_SIZE_HUE : Z := 1.
Definition ISX012_DEF_AUTOWB : Z := 1.
Definition ISX012_MIN_AUTOWB : Z := 0.
Definition ISX012_MAX_AUTOWB : Z := 1.
Definition ISX012_STEP_AUTOWB : Z := 1.
Definition ISX012_REG_AUTOWB : Z := CPUEXT.
Definition ISX012_SIZE_AUTOWB : Z := 1.
Definition ISX012_MIN_GAMMACURVE : Z := 0.
Definition ISX012_MAX_GAMMACURVE : Z := 511.
Definition ISX012_STEP_GAMMACURVE : Z := 1.
Definition ISX012_ELEMS_GAMMACURVE : Z := 19.
Definition ISX012_REG_GAMMACURVE : Z := GAMMA_BASE.
Definition ISX012_SIZE_GAMMACURVE : Z := 2.
Definition ISX012_DEF_EXPOSURE : Z := 0.
Definition ISX012_MIN_EXPOSURE : Z := -6.
Definition ISX012_MAX_EXPOSURE : Z := 6.
Definition ISX012_STEP_EXPOSURE : Z := 1.
Definition ISX012_REG_EXPOSURE : Z := EVSEL.
Definition ISX012_SIZE_EXPOSURE : Z := 1.
Definition ISX012_DEF_HFLIP : Z := 0.
Definition ISX012_MIN_HFLIP : Z := 0.
Definition ISX012_MAX_HFLIP : Z := 1.
Definition ISX012_STEP_HFLIP : Z := 1.
Definition ISX012_REG_HFLIP : Z := READVECT_MONI.
Definition ISX012_SIZE_HFLIP : Z := 1.
Definition ISX012_DEF_VFLIP : Z := 0.
Definition ISX012_MIN_VFLIP : Z := 0.
Definition ISX012_MAX_VFLIP : Z := 1.
Definition ISX012_STEP_VFLIP : Z := 1.
Definition ISX012_REG_VFLIP : Z := READVECT_MONI.
Definition ISX012_SIZE_VFLIP : Z := 1.
Definition ISX012_DEF_HFLIP_STILL : Z := 0.
Definition ISX012_MIN_HFLIP_STILL : Z := 0.
Definition ISX012_MAX_HFLIP_STILL : Z := 1.
Definition ISX012_STEP_HFLIP_STILL : Z := 1.
Definition ISX012_REG_HFLIP_STILL : Z := READVECT_CAP.
Definition ISX012_SIZE_HFLIP_STILL : Z := 1.
Definition ISX012_DEF_VFLIP_STILL : Z := 0.
Definition ISX012_MIN_VFLIP_STILL : Z := 0.
Definition ISX012_MAX_VFLIP_STILL : Z := 1.
Definition ISX012_STEP_VFLIP_STILL : Z := 1.
Definition ISX012_REG_VFLIP_STILL : Z := READVECT_CAP.
Definition ISX012_SIZE_VFLIP_STILL : Z := 1.
Definition ISX012_DEF_SHARPNESS : Z := 0.
Definition ISX012_MIN_SHARPNESS : Z := 0.
Definition ISX012_MAX_SHARPNESS : Z := 255.
Definition ISX012_STEP_SHARPNESS : Z := 1.
Definition ISX012_REG_SHARPNESS : Z := UISHARPNESS_POS_TYPE1.
Definition ISX012_SIZE_SHARPNESS : Z := 1.
Definition ISX012_DEF_COLORKILLER : Z := 0.
Definition ISX012_MIN_COLORKILLER : Z := 0.
Definition ISX012_MAX_COLORKILLER : Z := 1.
Definition ISX012_STEP_COLORKILLER : Z := 1.
Definition ISX012_REG_COLORKILLER : Z := FMODE.
Definition ISX012_SIZE_COLORKILLER : Z := 1.
Definition ISX012_REG_COLOREFFECT : Z := FMODE.
Definition ISX012_SIZE_COLOREFFECT : Z := 1.
Definition ISX012_DEF_EXPOSUREAUTO : Z := 0.
Definition ISX012_MIN_EXPOSUREAUTO : Z := 0.
Definition ISX012_MAX_EXPOSUREAUTO : Z := 1.
Definition ISX012_STEP_EXPOSUREAUTO : Z := 1.
Definition ISX012_REG_EXPOSUREAUTOVALUE_LSB : Z := SHT_TIME_AUTO_L.
Definition ISX012_REG_EXPOSUREAUTOVALUE_MSB : Z := SHT_TIME_AUTO_H.
Definition ISX012_SIZE_EXPOSUREAUTOVALUE : Z := 2.
Definition ISX012_DEF_EXPOSURETIME : Z := 0.
Definition ISX012_MIN_EXPOSURETIME : Z := 1.
Definition ISX012_MAX_EXPOSURETIME : Z := 21000.
Definition ISX012_STEP_EXPOSURETIME : Z := 1.
Definition ISX012_REG_EXPOSURETIME : Z := SHT_PREMODE_TYPE1.
Definition ISX012_SIZE_EXPOSURETIME : Z := 2.
Definition ISX012_UNIT_EXPOSURETIME_US : Z := 100.
Definition ISX012_REG_PHOTOMETRY : Z := AE_SUB_SN1.
Definition ISX012_SIZE_PHOTOMETRY : Z := 1.
Definition ISX012_REG_PRESETWB : Z := AWB_SN1.
Definition ISX012_SIZE_PRESETWB : Z := 2.
Definition ISX012_DEF_YGAMMA : Z := 0.
Definition ISX012_MIN_YGAMMA : Z := 0.
Definition ISX012_MAX_YGAMMA : Z := 1.
Definition ISX012_STEP_YGAMMA : Z := 1.
Definition ISX012_REG_YGAMMA : Z := YGAMMA_MODE.
Definition ISX012_SIZE_YGAMMA : Z := 1.
Definition ISX012_REG_ISO : Z := ISO_TYPE1.
Definition ISX012_SIZE_ISO : Z := 1.
Definition ISX012_DEF_ISOAUTO : Z := 0.
Definition ISX012_MIN_ISOAUTO : Z := 0.
Definition ISX012_MAX_ISOAUTO : Z := 1.
Definition ISX012_STEP_ISOAUTO : Z := 1.
Definition ISX012_REG_ISOAUTO : Z := ISO_TYPE1.
Definition ISX012_SIZE_ISOAUTO : Z := 1.
Definition ISX012_REG_ISOAUTOVALUE : Z := ISOSENS_OUT.
Definition ISX012_SIZE_ISOAUTOVALUE : Z := 1.
Definition ISX012_DEF_3ALOCK : Z := 0.
Definition ISX012_MIN_3ALOCK : Z := 0.
Definition ISX012_MAX_3ALOCK : Z := 3.
Definition ISX012_STEP_3ALOCK : Z := 1.
Definition ISX012_REG_3ALOCK : Z := CPUEXT.
Definition ISX012_SIZE_3ALOCK : Z := 1.
Definition ISX012_DEF_JPGQUALITY : Z := 80.
Definition ISX012_MIN_JPGQUALITY : Z := 1.
Definition ISX012_MAX_JPGQUALITY : Z := 100.
Definition ISX012_STEP_JPGQUALITY : Z := 1.
Definition ISX012_REG_JPGQUALITY : Z := INT_QLTY2.
Definition ISX012_SIZE_JPGQUALITY : Z := 1.

(** ** [isx012.c] *)

Definition OUT_YUV_VSIZE_MIN : Z := 64.
Definition OUT_YUV_HSIZE_MIN : Z := 96.
Definition OUT_JPG_VSIZE_MIN : Z := 64.
Definition OUT_JPG_HSIZE_MIN : Z := 96.
Definition OUT_YUV_15FPS_VSIZE_MAX : Z := 600.
Definition OUT_YUV_15FPS_HSIZE_MAX : Z := 800.
Definition OUT_YUV_120FPS_VSIZE_MAX : Z := 240.
Definition OUT_YUV_120FPS_HSIZE_MAX : Z := 320.
Definition OUT_JPG_15FPS_VSIZE_MAX : Z := 1944.
Definition OUT_JPG_15FPS_HSIZE_MAX : Z := 2592.
Definition OUT_JPG_30FPS_VSIZE_MAX : Z := 960.
Definition OUT_JPG_30FPS_HSIZE_MAX : Z := 1280.
Definition OUT_JPG_60FPS_VSIZE_MAX : Z := 480.
Definition OUT_JPG_60FPS_HSIZE_MAX : Z := 640.
Definition OUT_JPG_120FPS_VSIZE_MAX : Z := 240.
Definition OUT_JPG_120FPS_HSIZE_MAX : Z := 320.
Definition OUT_YUVINT_30FPS_VSIZE_MAX : Z := 240.
Definition OUT_YUVINT_30FPS_HSIZE_MAX : Z := 400.
Definition OUT_JPGINT_30FPS_VSIZE_MAX : Z := 960.
Definition OUT_JPGINT_30FPS_HSIZE_MAX : Z := 1280.
Definition OUT_JPGINT_15FPS_VSIZE_MAX : Z := 1224.
Definition OUT_JPGINT_15FPS_HSIZE_MAX : Z := 1632.
Definition VINT_TIMEOUT : Z := 400.
Definition VINT_WAIT_TIME : Z := 5.
Definition VINT_DELAY_TIME : Z := 0.
Definition CAMERA_MODE_TIMEOUT : Z := 800.
Definition CAMERA_MODE_WAIT_TIME : Z := 10.
Definition CAMERA_MODE_DELAY_TIME : Z := 0.
Definition DEVICE_STATE_TIMEOUT : Z := 100.
Definition DEVICE_STATE_WAIT_TIME : Z := 1.
Definition DEVICE_STATE_DELAY_TIME : Z := 2.
Definition I2CFREQ_STANDARD : Z := 100000.
Definition I2CFREQ_FAST : Z := 400000.
Definition CXC_RGB_DATA_UNIT_NUM : Z := 27.
Definition CXC_RGB_DATA_UNIT_SIZE : Z := 7.
Definition CXC_GRB_DATA_UNIT_NUM : Z := 27.
Definition CXC_GRB_DATA_UNIT_SIZE : Z := 7.
Definition SHD_RGB_DATA_UNIT_NUM : Z := 27.
Definition SHD_RGB_DATA_UNIT_SIZE : Z := 11.
Definition SHD_GRB_DATA_UNIT_NUM : Z := 27.
Definition SHD_GRB_DATA_UNIT_SIZE : Z := 11.
Definition SHD_R1_DATA_UNIT_NUM : Z := 14.
Definition SHD_R1_DATA_UNIT_SIZE : Z := 11.
Definition SHD_R2_DATA_UNIT_NUM : Z := 14.
Definition SHD_R2_DATA_UNIT_SIZE : Z := 11.
Definition SHD_B2_DATA_UNIT_NUM : Z := 14.
Definition SHD_B2_DATA_UNIT_SIZE : Z := 11.
Definition ISX012_ELEMS_3APARAM : Z := 3.
Definition BASE_HSIZE_FOR_CLIP_OFFSET : Z := 2592.
Definition BASE_VSIZE_FOR_CLIP_OFFSET : Z := 1944.
Definition ZOOM_UNIT : Z := 0x0100.
Definition CLIP_OFFSET_UNIT : Z := 0x0010.
Definition CLIP_SIZE_UNIT : Z := 8.

(** [imgsensor.h]: values of controls *)

Definition IMGSENSOR_3A_STATUS_AE_OPERATING : Z := Z.shiftl 1 0.
Definition IMGSENSOR_3A_STATUS_AWB_OPERATING : Z := Z.shiftl 1 1.
Definition IMGSENSOR_3A_STATUS_STABLE : Z := 0.
Definition IMGSENSOR_CLIP_INDEX_HEIGHT : Z := 3.
Definition IMGSENSOR_CLIP_INDEX_LEFT : Z := 0.
Definition IMGSENSOR_CLIP_INDEX_TOP : Z := 1.
Definition IMGSENSOR_CLIP_INDEX_WIDTH : Z := 2.
Definition IMGSENSOR_CLIP_NELEM : Z := 4.
Definition IMGSENSOR_COLORFX_BW : Z := 1.
Definition IMGSENSOR_COLORFX_NEGATIVE : Z := 3.
Definition IMGSENSOR_COLORFX_NONE : Z := 0.
Definition IMGSENSOR_COLORFX_PASTEL : Z := 16.
Definition IMGSENSOR_COLORFX_SEPIA : Z := 2.
Definition IMGSENSOR_COLORFX_SKETCH : Z := 5.
Definition IMGSENSOR_COLORFX_SOLARIZATION : Z := 13.
Definition IMGSENSOR_CTRL_TYPE_BITMASK : Z := 8.
Definition IMGSENSOR_CTRL_TYPE_BOOLEAN : Z := 2.
Definition IMGSENSOR_CTRL_TYPE_INTEGER : Z := 1.
Definition IMGSENSOR_CTRL_TYPE_INTEGER_TIMES_3 : Z := 12.
Definition IMGSENSOR_CTRL_TYPE_U8FIXEDPOINT_Q7 : Z := 10.
Definition IMGSENSOR_EXPOSURE_AUTO : Z := 0.
Definition IMGSENSOR_EXPOSURE_MANUAL : Z := 1.
Definition IMGSENSOR_EXPOSURE_METERING_AVERAGE : Z := 0.
Definition IMGSENSOR_EXPOSURE_METERING_CENTER_WEIGHTED : Z := 1.
Definition IMGSENSOR_EXPOSURE_METERING_MATRIX : Z := 3.
Definition IMGSENSOR_EXPOSURE_METERING_SPOT : Z := 2.
Definition IMGSENSOR_FMT_MAIN : Z := 0.
Definition IMGSENSOR_FMT_SUB : Z := 1.
Definition IMGSENSOR_ISO_SENSITIVITY_AUTO : Z := 1.
Definition IMGSENSOR_ISO_SENSITIVITY_MANUAL : Z := 0.
Definition IMGSENSOR_LOCK_EXPOSURE : Z := Z.shiftl 1 0.
Definition IMGSENSOR_LOCK_WHITE_BALANCE : Z := Z.shiftl 1 1.
Definition IMGSENSOR_PIX_FMT_JPEG : Z := 2.
Definition IMGSENSOR_PIX_FMT_JPEG_WITH_SUBIMG : Z := 3.
Definition IMGSENSOR_PIX_FMT_RGB565 : Z := 1.
Definition IMGSENSOR_PIX_FMT_UYVY : Z := 0.
Definition IMGSENSOR_WHITE_BALANCE_AUTO : Z := 1.
Definition IMGSENSOR_WHITE_BALANCE_CLOUDY : Z := 8.
Definition IMGSENSOR_WHITE_BALANCE_DAYLIGHT : Z := 6.
Definition IMGSENSOR_WHITE_BALANCE_FLUORESCENT : Z := 3.
Definition IMGSENSOR_WHITE_BALANCE_INCANDESCENT : Z := 2.
Definition IMGSENSOR_WHITE_BALANCE_SHADE : Z := 9.

(** ** Register tables: address, value, size *)

Record isx012_reg := mk_reg { regaddr : Z; regval : Z; regsize : Z }.

Definition g_isx012_presleep : list isx012_reg :=
  [mk_reg PLL_CKSEL 0x00 0x01;
   mk_reg SRCCK_DIV 0x00 0x01;
   mk_reg INCK_SET 0x17 0x01].

Definition g_isx012_def_init : list isx012_reg :=
  [mk_reg DRIVABILITY 0xaa 0x01;
   mk_reg VIFCONFIG 0x0200 0x02;
   mk_reg YUVCONFIG_TN 0xff0a 0x02;
   mk_reg ILCODELEN 0x00 0x01;
   mk_reg AFMODE_MONI 0x01 0x01;
   mk_reg YUVCONFIG 0xff6a 0x02;
   mk_reg VIF_REC601_Y 0x10fe 0x02;
   mk_reg VIF_REC601_C 0x10f0 0x02;
   mk_reg HSENS_MODE_SEL 0x11 0x01;
   mk_reg VIF_CLKCONFIG1 0x30 0x01;
   mk_reg VIF_CLKCONFIG2 0x30 0x01;
   mk_reg VIF_CLKCONFIG3 0x30 0x01;
   mk_reg VIF_CLKCONFIG4 0x30 0x01;
   mk_reg VIF_CLKCONFIG5 0x30 0x01;
   mk_reg VIF_CLKCONFIG6 0x30 0x01;
   mk_reg VIF_CLKCONFIG7 0x30 0x01;
   mk_reg VIF_CLKCONFIG8 0x30 0x01;
   mk_reg VIF_CLKCONFIG9 0x30 0x01;
   mk_reg VIF_CLKCONFIG10 0x30 0x01;
   mk_reg VIF_CLKCONFIG11 0x30 0x01;
   mk_reg VIF_CLKCONFIG12 0x30 0x01;
   mk_reg VIF_CLKCONFIG13 0x11 0x01;
   mk_reg VIF_CLKCONFIG14 0x11 0x01;
   mk_reg VIF_CLKCONFIG15 0x11 0x01;
   mk_reg VIF_CLKCONFIG16 0x11 0x01;
   mk_reg FRM_FIX_SN1_2 0xff 0x01;
   mk_reg FAST_MODECHG_EN 0x01 0x01;
   mk_reg FAST_SHT_MODE_SEL 0x01 0x01;
   mk_reg CAP_HALF_AE_CTRL 0x07 0x01;
   mk_reg HALF_AWB_CTRL 0x01 0x01;
   mk_reg AESPEED_FAST 0x0f 0x01;
   mk_reg FASTMOVE_TIMEOUT 0x2d 0x01;
   mk_reg YGAMMA_MODE 0x01 0x01;
   mk_reg INT_QLTY2 0x50 0x01;
   mk_reg JPEG_PRED_MODE 0x00 0x01].

Definition g_isx012_shd_thresholds : list isx012_reg :=
  [mk_reg SHD_INP_TH_HB_H_R2 0x1478 2;
   mk_reg SHD_INP_TH_HB_L_R2 0x1380 2;
   mk_reg SHD_INP_TH_LB_H_R2 0x10cc 2;
   mk_reg SHD_INP_TH_LB_L_R2 0x1004 2;
   mk_reg SHD_INP_TH_HB_H_RB 0x10cc 2;
   mk_reg SHD_INP_TH_HB_L_RB 0x1004 2;
   mk_reg SHD_INP_TH_LB_H_RB 0x0000 2;
   mk_reg SHD_INP_TH_LB_L_RB 0x0000 2].

Definition g_isx012_shd_wb : list isx012_reg :=
  [mk_reg NORMR 0x1101 2;
   mk_reg NORMB 0x0f7b 2;
   mk_reg AWBPRER 0x0147 2;
   mk_reg AWBPREB 0x022a 2;
   mk_reg SHD_PRER_OFFSET_R2 0x001b 2;
   mk_reg SHD_PRER_OFFSET_RB 0x000b 2;
   mk_reg SHD_PREB_OFFSET_RB 0x0003 2].

(** ** Shading and colour correction data *)

Definition g_isx012_cxc_rgb_data : list (list Z) :=
  [[0x01; 0x43; 0xc0; 0xf0; 0x4f; 0xfc; 0x13];
   [0x80; 0x44; 0x20; 0x21; 0x48; 0x04; 0x0e];
   [0x81; 0x43; 0xc0; 0x10; 0x30; 0xfc; 0x13];
   [0xff; 0x04; 0x20; 0x11; 0x48; 0x08; 0x12];
   [0x81; 0x43; 0xe0; 0x20; 0x48; 0x08; 0x12];
   [0x80; 0x03; 0xe0; 0x00; 0x38; 0x04; 0x10];
   [0x01; 0x84; 0x20; 0x21; 0x48; 0x04; 0x10];
   [0x01; 0x04; 0xc0; 0x10; 0x20; 0x00; 0x08];
   [0x81; 0x82; 0xc0; 0x20; 0x38; 0x08; 0x0e];
   [0x01; 0x43; 0xc0; 0x10; 0x20; 0x04; 0x04];
   [0x01; 0x41; 0x40; 0x10; 0x20; 0x08; 0x0a];
   [0x82; 0x82; 0x80; 0x20; 0x20; 0x04; 0x04];
   [0x82; 0x80; 0x20; 0x20; 0x08; 0x04; 0x06];
   [0x81; 0x42; 0xa0; 0x10; 0x20; 0x04; 0x08];
   [0x81; 0x80; 0x00; 0x00; 0x00; 0x04; 0x00];
   [0x01; 0x41; 0x80; 0x10; 0x20; 0x00; 0x08];
   [0x00; 0x42; 0x20; 0x20; 0x08; 0x08; 0x00];
   [0x82; 0xc0; 0x40; 0x20; 0x20; 0x08; 0x08];
   [0x80; 0x02; 0xa0; 0x10; 0x20; 0x08; 0x04];
   [0x02; 0x81; 0x60; 0x30; 0x20; 0x08; 0x0a];
   [0x82; 0x42; 0xc0; 0x10; 0x30; 0x04; 0x0a];
   [0x03; 0xc3; 0xa0; 0x40; 0x28; 0x0c; 0x0a];
   [0x03; 0xc3; 0xc0; 0x20; 0x20; 0x08; 0x08];
   [0x82; 0xc2; 0xc0; 0x30; 0x40; 0x10; 0x0e];
   [0x84; 0x03; 0xa1; 0x40; 0x28; 0x08; 0x08];
   [0x02; 0x82; 0xa0; 0x30; 0x30; 0x0c; 0x10];
   [0x84; 0x03; 0xe1; 0x40; 0x28; 0x10; 0x0a]].

Definition g_isx012_cxc_grb_data : list (list Z) :=
  [[0x00; 0x3d; 0x40; 0x0f; 0xc0; 0x03; 0xf2];
   [0x80; 0x7c; 0x80; 0x1f; 0xd8; 0x03; 0xf0];
   [0x00; 0x3c; 0x40; 0x0f; 0xd0; 0x03; 0xf0];
   [0x80; 0x3c; 0x20; 0x1f; 0xe0; 0x07; 0xf6];
   [0x00; 0x3c; 0x00; 0x1f; 0xd0; 0x07; 0xf4];
   [0x00; 0x3d; 0x40; 0x0f; 0xc8; 0x03; 0xf2];
   [0x80; 0xfc; 0x5f; 0xff; 0xd7; 0x07; 0xf4];
   [0x01; 0x7d; 0x40; 0x0f; 0xd0; 0xff; 0xf3];
   [0x7f; 0xfd; 0x3f; 0x0f; 0xc8; 0x03; 0xf2];
   [0x81; 0x7c; 0x20; 0x0f; 0xd0; 0xff; 0xf7];
   [0x7e; 0xfe; 0x5f; 0x0f; 0xd8; 0x03; 0xf6];
   [0x80; 0xbd; 0xa0; 0x2f; 0xe8; 0x07; 0xfa];
   [0x80; 0xfe; 0xbf; 0x0f; 0xe8; 0xff; 0xf9];
   [0x00; 0x3e; 0x80; 0x3f; 0xe8; 0x0f; 0xfa];
   [0x02; 0x40; 0xe0; 0x0f; 0xf8; 0x03; 0xfe];
   [0x80; 0x7f; 0xe0; 0x1f; 0xf8; 0x17; 0xfe];
   [0x85; 0xff; 0xe0; 0x2f; 0x08; 0x04; 0x04];
   [0x81; 0x40; 0x20; 0x20; 0x00; 0x08; 0x00];
   [0x84; 0x00; 0x21; 0x30; 0x10; 0x0c; 0x06];
   [0x02; 0x82; 0x40; 0x20; 0x10; 0x0c; 0x02];
   [0x83; 0x00; 0x21; 0x40; 0x08; 0x10; 0x06];
   [0x83; 0x82; 0xa0; 0x20; 0x20; 0x08; 0x08];
   [0x02; 0x81; 0x40; 0x30; 0x18; 0x0c; 0x06];
   [0x03; 0x81; 0x80; 0x10; 0x20; 0x04; 0x08];
   [0x82; 0x82; 0x80; 0x20; 0x20; 0x0c; 0x06];
   [0x83; 0xc1; 0x40; 0x20; 0x20; 0x04; 0x08];
   [0x01; 0x82; 0xa0; 0x20; 0x20; 0x08; 0x08]].

Definition g_isx012_shd_rgb_data : list (list Z) :=
  [[0xf1; 0x59; 0x52; 0x7b; 0x98; 0xc4; 0x9d; 0x23; 0x29; 0x87; 0x46];
   [0xc6; 0x81; 0xd1; 0x70; 0x56; 0xe4; 0x9c; 0x1b; 0x6d; 0x07; 0x48];
   [0xdd; 0xf1; 0x51; 0x7d; 0xa8; 0xb4; 0x1e; 0x25; 0x49; 0xc7; 0x46];
   [0xbd; 0xf1; 0x50; 0x6d; 0x2a; 0x44; 0x1b; 0x0a; 0x01; 0x87; 0x44];
   [0xd0; 0xa9; 0x51; 0x77; 0x84; 0xd4; 0x9d; 0x1f; 0x2d; 0xc7; 0x44];
   [0xa8; 0xa9; 0xcf; 0x62; 0x98; 0xa3; 0x17; 0xdb; 0xfc; 0x05; 0x38];
   [0x90; 0xe1; 0x8e; 0x6a; 0x08; 0xc4; 0x9b; 0x0e; 0x11; 0x07; 0x43];
   [0xac; 0xa9; 0x4f; 0x5d; 0x4e; 0x13; 0x15; 0xb9; 0xf8; 0x44; 0x2b];
   [0x44; 0x21; 0xcb; 0x56; 0x0e; 0x63; 0x98; 0xe3; 0x78; 0x86; 0x3d];
   [0xab; 0x81; 0x4f; 0x62; 0x7c; 0xc3; 0x94; 0xb4; 0x98; 0x84; 0x26];
   [0x14; 0xe9; 0x48; 0x46; 0x4a; 0x12; 0x93; 0xa4; 0x84; 0xc5; 0x31];
   [0x81; 0xe9; 0x4d; 0x67; 0xac; 0x73; 0x17; 0xd0; 0xdc; 0x24; 0x29];
   [0x12; 0xb9; 0x08; 0x40; 0x02; 0x52; 0x10; 0x84; 0x6c; 0x64; 0x25];
   [0x4c; 0x91; 0xcb; 0x5b; 0x4c; 0xe3; 0x19; 0xec; 0xdc; 0x05; 0x34];
   [0x37; 0x39; 0x8a; 0x44; 0x2a; 0x02; 0x10; 0x80; 0x14; 0xe4; 0x20];
   [0x1c; 0x51; 0x49; 0x53; 0xe4; 0x02; 0x17; 0xd3; 0xb8; 0xe6; 0x3d];
   [0x8b; 0xd9; 0x8d; 0x53; 0xc8; 0x72; 0x12; 0x98; 0x50; 0x24; 0x23];
   [0x19; 0x11; 0x89; 0x4c; 0x8c; 0x32; 0x16; 0xc7; 0x14; 0x06; 0x38];
   [0xca; 0xc1; 0x10; 0x6c; 0xe0; 0x83; 0x97; 0xd0; 0x4c; 0xa5; 0x2d];
   [0x3e; 0x99; 0x0a; 0x51; 0xbc; 0xc2; 0x15; 0xc2; 0x28; 0x26; 0x39];
   [0xa5; 0x89; 0x0f; 0x7b; 0x8c; 0x64; 0x9d; 0x14; 0xb9; 0x46; 0x3e];
   [0x8f; 0x41; 0xce; 0x5e; 0x5e; 0x03; 0x98; 0xdc; 0x50; 0xe6; 0x3a];
   [0xb4; 0x49; 0x90; 0x72; 0x50; 0x74; 0xa1; 0x3a; 0x05; 0x88; 0x4b];
   [0xe1; 0xd1; 0x91; 0x71; 0x38; 0xc4; 0x1b; 0x0a; 0xed; 0x86; 0x42];
   [0xcb; 0x49; 0xd1; 0x78; 0x86; 0x74; 0x9f; 0x2d; 0xb9; 0x88; 0x51];
   [0x11; 0x62; 0x93; 0x7c; 0x9c; 0x94; 0x1d; 0x1b; 0x41; 0x67; 0x46];
   [0xcf; 0x81; 0x91; 0x77; 0x82; 0x54; 0x9f; 0x2a; 0x21; 0xa8; 0x4d]].

Definition g_isx012_shd_grb_data : list (list Z) :=
  [[0xe8; 0xa9; 0x0f; 0x78; 0xe4; 0x13; 0x9d; 0xf0; 0x04; 0xe7; 0x39];
   [0xbd; 0x51; 0x0e; 0x6f; 0x94; 0x63; 0x1c; 0xea; 0x4c; 0x27; 0x3c];
   [0xd7; 0x19; 0x4f; 0x7a; 0xf4; 0xd3; 0x1d; 0xf7; 0x20; 0xe7; 0x3a];
   [0xb6; 0x11; 0x0e; 0x6c; 0x76; 0x03; 0x9b; 0xdd; 0xf0; 0x06; 0x39];
   [0xc9; 0xc1; 0x8e; 0x75; 0xc8; 0xe3; 0x9c; 0xef; 0xf8; 0xa6; 0x39];
   [0xa0; 0x69; 0x0d; 0x62; 0x20; 0x93; 0x97; 0xbf; 0xf4; 0xa5; 0x30];
   [0x8c; 0xb1; 0x8c; 0x68; 0x60; 0x13; 0x9b; 0xe0; 0xcc; 0xa6; 0x38];
   [0x9f; 0x71; 0x0d; 0x5c; 0xf4; 0x12; 0x15; 0xab; 0x00; 0x65; 0x28];
   [0x44; 0x41; 0x0a; 0x56; 0xbc; 0x02; 0x98; 0xc4; 0x50; 0x26; 0x34];
   [0x9a; 0x59; 0x4d; 0x5f; 0x16; 0x83; 0x14; 0xa8; 0x9c; 0x64; 0x25];
   [0x15; 0xc1; 0xc8; 0x46; 0x38; 0x22; 0x13; 0x9a; 0x74; 0x65; 0x2c];
   [0x78; 0x11; 0x4c; 0x63; 0x36; 0xb3; 0x96; 0xbb; 0xcc; 0x44; 0x27];
   [0x11; 0xa1; 0x48; 0x40; 0x04; 0x72; 0x10; 0x83; 0x70; 0x84; 0x23];
   [0x4a; 0x69; 0xca; 0x59; 0xe0; 0xf2; 0x98; 0xcc; 0xb0; 0xa5; 0x2e];
   [0x33; 0xc1; 0x09; 0x44; 0x24; 0x02; 0x10; 0x80; 0x14; 0x84; 0x20];
   [0x1b; 0xd1; 0x48; 0x52; 0x98; 0x72; 0x96; 0xb7; 0x8c; 0x06; 0x35];
   [0x81; 0x39; 0xcc; 0x51; 0x96; 0x32; 0x92; 0x92; 0x48; 0x44; 0x22];
   [0x17; 0xb9; 0x48; 0x4b; 0x5e; 0xa2; 0x15; 0xb0; 0xd8; 0x45; 0x30];
   [0xc0; 0x19; 0xce; 0x69; 0x56; 0x23; 0x97; 0xba; 0x38; 0x05; 0x2a];
   [0x3b; 0xe1; 0x09; 0x50; 0x82; 0x42; 0x95; 0xac; 0xf8; 0x05; 0x31];
   [0x94; 0x19; 0x4d; 0x78; 0xca; 0xe3; 0x9c; 0xe8; 0xa8; 0xa6; 0x35];
   [0x8b; 0x71; 0xcc; 0x5d; 0xf8; 0xa2; 0x97; 0xc0; 0x24; 0xa6; 0x32];
   [0xa4; 0xb1; 0x8d; 0x6d; 0x96; 0xd3; 0xa0; 0x09; 0xe1; 0xa7; 0x3f];
   [0xde; 0x09; 0xcf; 0x70; 0x92; 0x73; 0x9b; 0xe0; 0xcc; 0x06; 0x38];
   [0xc0; 0x89; 0x4e; 0x74; 0xcc; 0x13; 0x1e; 0xfc; 0x84; 0x48; 0x45];
   [0x06; 0x7a; 0xd0; 0x7a; 0xe6; 0x33; 0x1d; 0xef; 0x24; 0x07; 0x3b];
   [0xc4; 0xb1; 0x0e; 0x74; 0xca; 0x33; 0x1e; 0xfc; 0xc4; 0x07; 0x41]].

Definition g_isx012_shd_r1_data : list (list Z) :=
  [[0x10; 0x92; 0x10; 0x82; 0xf8; 0x43; 0x1f; 0xfb; 0xf0; 0xe7; 0x40];
   [0x07; 0x92; 0xd0; 0x82; 0xec; 0x33; 0x9e; 0xed; 0x68; 0xe7; 0x3c];
   [0xfa; 0x21; 0xd0; 0x7e; 0xce; 0xa3; 0x1b; 0xcd; 0x20; 0xe6; 0x31];
   [0xa6; 0x69; 0xce; 0x78; 0xbc; 0xa3; 0x1b; 0xbe; 0x44; 0x25; 0x28];
   [0x45; 0x19; 0xcb; 0x65; 0x78; 0xe3; 0x1b; 0xc8; 0x3c; 0xa5; 0x24];
   [0x15; 0xc1; 0x48; 0x4d; 0xd6; 0x72; 0x99; 0xd3; 0xdc; 0x25; 0x27];
   [0x11; 0x01; 0x08; 0x41; 0x42; 0x42; 0x15; 0xc1; 0xa4; 0x06; 0x2f];
   [0x39; 0x89; 0x08; 0x40; 0x0a; 0x22; 0x12; 0xab; 0x0c; 0x26; 0x38];
   [0x91; 0x71; 0x4a; 0x49; 0x2c; 0xa2; 0x11; 0x9c; 0xc4; 0xa5; 0x33];
   [0xe2; 0xe1; 0x4d; 0x5f; 0xa4; 0x22; 0x94; 0xa3; 0xa0; 0x05; 0x34];
   [0xc7; 0x41; 0x50; 0x7c; 0x7e; 0xd3; 0x19; 0xc5; 0x48; 0x86; 0x35];
   [0xda; 0xa9; 0xcf; 0x8c; 0x42; 0x24; 0x20; 0xf5; 0x8c; 0x67; 0x3c];
   [0xf6; 0x89; 0xd0; 0x88; 0x90; 0x34; 0x23; 0x0b; 0x15; 0xa8; 0x3f];
   [0x00; 0x72; 0x10; 0x89; 0x68; 0x04; 0x69; 0x00; 0x00; 0x19; 0x26]].

Definition g_isx012_shd_r2_data : list (list Z) :=
  [[0x3a; 0xe2; 0x11; 0x8c; 0x42; 0x74; 0xa1; 0x0c; 0x89; 0x08; 0x46];
   [0x30; 0xe2; 0xd1; 0x8c; 0x36; 0x54; 0x20; 0xfe; 0xec; 0x47; 0x41];
   [0x20; 0x5a; 0x91; 0x88; 0x16; 0x94; 0x1d; 0xda; 0x80; 0x26; 0x35];
   [0xc2; 0x69; 0x0f; 0x81; 0x00; 0x94; 0x9d; 0xc9; 0x84; 0xe5; 0x29];
   [0x54; 0xb1; 0x0b; 0x6c; 0xb2; 0xb3; 0x9d; 0xd4; 0x74; 0x85; 0x25];
   [0x1a; 0xf1; 0x08; 0x50; 0xfc; 0xe2; 0x1a; 0xe0; 0x2c; 0x66; 0x28];
   [0x14; 0x01; 0x88; 0x41; 0x4e; 0x32; 0x16; 0xcb; 0x08; 0x87; 0x31];
   [0x42; 0x99; 0x08; 0x40; 0x0c; 0x72; 0x92; 0xb1; 0x58; 0x86; 0x3b];
   [0xa8; 0xd9; 0xca; 0x4a; 0x32; 0xe2; 0x91; 0xa0; 0x04; 0x66; 0x36];
   [0x02; 0xc2; 0x4e; 0x64; 0xbe; 0xd2; 0x94; 0xa9; 0xe0; 0xc5; 0x36];
   [0xe1; 0x61; 0x91; 0x84; 0xb6; 0x43; 0x9b; 0xcf; 0x9c; 0x66; 0x38];
   [0xf6; 0xa1; 0x50; 0x97; 0x8e; 0x34; 0x22; 0x04; 0x01; 0x08; 0x40];
   [0x15; 0x9a; 0x51; 0x92; 0xf2; 0xd4; 0xa5; 0x1d; 0x99; 0xa8; 0x43];
   [0x21; 0x82; 0x91; 0x92; 0xbe; 0xf4; 0x9e; 0xf3; 0x4c; 0x87; 0x38]].

Definition g_isx012_shd_b2_data : list (list Z) :=
  [[0xef; 0x39; 0xcf; 0x74; 0x88; 0xb3; 0x1b; 0xdf; 0x20; 0x47; 0x3b];
   [0xdf; 0x59; 0xcf; 0x77; 0x8c; 0x43; 0x1b; 0xd7; 0xb8; 0x46; 0x37];
   [0xcc; 0xc1; 0x0e; 0x73; 0x78; 0xa3; 0x99; 0xc1; 0xd0; 0x25; 0x2f];
   [0x87; 0x09; 0x0d; 0x6c; 0x64; 0x93; 0x99; 0xb6; 0x30; 0xc5; 0x27];
   [0x3f; 0xb1; 0x0a; 0x5f; 0x2a; 0x93; 0x99; 0xbc; 0x1c; 0x85; 0x24];
   [0x16; 0xc9; 0x48; 0x4c; 0xb6; 0x92; 0x17; 0xc4; 0x94; 0x85; 0x26];
   [0x10; 0x09; 0x88; 0x41; 0x3a; 0x52; 0x94; 0xb2; 0x2c; 0xc6; 0x2c];
   [0x33; 0x79; 0x08; 0x40; 0x08; 0xc2; 0x11; 0xa2; 0x94; 0x65; 0x34];
   [0x7e; 0x39; 0x4a; 0x48; 0x26; 0x52; 0x91; 0x96; 0x64; 0x05; 0x2f];
   [0xbf; 0x09; 0x8d; 0x5b; 0x92; 0xa2; 0x93; 0x9d; 0x4c; 0x65; 0x2f];
   [0x95; 0xf9; 0x0e; 0x73; 0x48; 0x63; 0x98; 0xb9; 0xd8; 0xa5; 0x30];
   [0xa5; 0xb1; 0x8d; 0x83; 0xf4; 0xa3; 0x1d; 0xe0; 0xd0; 0x06; 0x36];
   [0xbe; 0xa9; 0x4e; 0x79; 0x50; 0xd4; 0x20; 0xf6; 0x54; 0xa7; 0x38];
   [0xc5; 0x91; 0xce; 0x7a; 0xf4; 0x03; 0x44; 0x00; 0x60; 0x60; 0x00]].

(** ** Menus: the value of the control and the value of the register *)

Definition g_isx012_colorfx_actual : list Z :=
  [IMGSENSOR_COLORFX_NONE; IMGSENSOR_COLORFX_BW; IMGSENSOR_COLORFX_SEPIA;
   IMGSENSOR_COLORFX_NEGATIVE; IMGSENSOR_COLORFX_SKETCH; IMGSENSOR_COLORFX_SOLARIZATION;
   IMGSENSOR_COLORFX_PASTEL].

Definition g_isx012_colorfx_regval : list Z :=
  [REGVAL_EFFECT_NONE; REGVAL_EFFECT_MONOTONE; REGVAL_EFFECT_SEPIA; REGVAL_EFFECT_NEGPOS;
   REGVAL_EFFECT_SKETCH; REGVAL_EFFECT_SOLARIZATION; REGVAL_EFFECT_PASTEL].

Definition g_isx012_presetwb_actual : list Z :=
  [IMGSENSOR_WHITE_BALANCE_AUTO; IMGSENSOR_WHITE_BALANCE_INCANDESCENT;
   IMGSENSOR_WHITE_BALANCE_FLUORESCENT; IMGSENSOR_WHITE_BALANCE_DAYLIGHT;
   IMGSENSOR_WHITE_BALANCE_CLOUDY; IMGSENSOR_WHITE_BALANCE_SHADE].

Definition g_isx012_presetwb_regval : list Z :=
  [REGVAL_AWB_ATM; REGVAL_AWB_LIGHTBULB; REGVAL_AWB_FLUORESCENTLIGHT; REGVAL_AWB_CLEARWEATHER;
   REGVAL_AWB_CLOUDYWEATHER; REGVAL_AWB_SHADE].

Definition g_isx012_photometry_actual : list Z :=
  [IMGSENSOR_EXPOSURE_METERING_AVERAGE; IMGSENSOR_EXPOSURE_METERING_CENTER_WEIGHTED;
   IMGSENSOR_EXPOSURE_METERING_SPOT; IMGSENSOR_EXPOSURE_METERING_MATRIX].

Definition g_isx012_photometry_regval : list Z :=
  [REGVAL_PHOTOMETRY_AVERAGE; REGVAL_PHOTOMETRY_CENTERWEIGHT; REGVAL_PHOTOMETRY_SPOT;
   REGVAL_PHOTOMETRY_MULTIPATTERN].

Definition g_isx012_iso_actual : list Z :=
  [25 * 1000; 32 * 1000; 40 * 1000; 50 * 1000; 64 * 1000; 80 * 1000; 100 * 1000; 125 * 1000; 160 *
   1000; 200 * 1000; 250 * 1000; 320 * 1000; 400 * 1000; 500 * 1000; 640 * 1000; 800 * 1000; 1000
   * 1000; 1250 * 1000; 1600 * 1000].

Definition g_isx012_iso_regval : list Z :=
  [REGVAL_ISO_25; REGVAL_ISO_32; REGVAL_ISO_40; REGVAL_ISO_50; REGVAL_ISO_64; REGVAL_ISO_80;
   REGVAL_ISO_100; REGVAL_ISO_125; REGVAL_ISO_160; REGVAL_ISO_200; REGVAL_ISO_250; REGVAL_ISO_320;
   REGVAL_ISO_400; REGVAL_ISO_500; REGVAL_ISO_640; REGVAL_ISO_800; REGVAL_ISO_1000;
   REGVAL_ISO_1250; REGVAL_ISO_1600].

End IsxRegs.
