(* ===== verification/Isx012.v ===== *)
(** * The ISX012 image sensor driver

    [src/spresense/nuttx/drivers/video/isx012.c], the driver behind
    [imgsensor_ops] on the camera board.  The sensor itself, the I2C bus and
    the power and reset lines are arguments: they answer according to the
    history of what the driver did to them ([isx_hw]). *)

From S2P Require Import Prelude VideoState VideoCtrl VideoDrv IsxRegs.
Import VideoState VideoCtrl IsxRegs.

#[local] Open Scope Z_scope.

Module Isx012.

(** ** The hardware *)

Inductive bus_event :=
  | BusWrite (freq addr : Z) (bytes : list Z)
  | BusRead (freq addr : Z) (n : Z)
  | Usleep (us : Z)
  | BoardInitialize
  | BoardUninitialize
  | PowerOn
  | PowerOff
  | ReleaseReset
  | SetReset
  | ReleaseSleep
  | SetSleep (kind : Z).

(** [i2c_write], [i2c_read] and the board functions that can fail: the result
    after a history (the latest event first), and the bytes of a read. *)

Record isx_hw := {
  hw_write : list bus_event -> list Z -> Z;
  hw_read : list bus_event -> Z -> Z * list Z;
  hw_power_on : list bus_event -> Z;
  hw_power_off : list bus_event -> Z
}.

(** ** The state: [struct isx012_dev_s] *)

Inductive isx012_state :=
  | STATE_ISX012_PRESLEEP
  | STATE_ISX012_SLEEP
  | STATE_ISX012_ACTIVE
  | STATE_ISX012_POWEROFF.

#[global] Instance isx012_state_eq_dec : EqDecision isx012_state.
Proof. solve_decision. Defined.

Record isx012_rect := mk_irect { ir_left : Z; ir_top : Z; ir_width : Z; ir_height : Z }.

Record isx012_dev := mk_dev {
  i_lock : Z;
  i_addr : Z;
  i_freq : Z;
  i_state : isx012_state;
  i_mode : Z;
  i_clip_video : isx012_rect;
  i_clip_still : isx012_rect;
  i_bus : list bus_event
}.

Definition set_lock v p := mk_dev v (i_addr p) (i_freq p) (i_state p) (i_mode p) (i_clip_video p) (i_clip_still p) (i_bus p).
Definition set_addr v p := mk_dev (i_lock p) v (i_freq p) (i_state p) (i_mode p) (i_clip_video p) (i_clip_still p) (i_bus p).
Definition set_freq v p := mk_dev (i_lock p) (i_addr p) v (i_state p) (i_mode p) (i_clip_video p) (i_clip_still p) (i_bus p).
Definition set_state v p := mk_dev (i_lock p) (i_addr p) (i_freq p) v (i_mode p) (i_clip_video p) (i_clip_still p) (i_bus p).
Definition set_mode v p := mk_dev (i_lock p) (i_addr p) (i_freq p) (i_state p) v (i_clip_video p) (i_clip_still p) (i_bus p).
Definition set_cvideo v p := mk_dev (i_lock p) (i_addr p) (i_freq p) (i_state p) (i_mode p) v (i_clip_still p) (i_bus p).
Definition set_cstill v p := mk_dev (i_lock p) (i_addr p) (i_freq p) (i_state p) (i_mode p) (i_clip_video p) v (i_bus p).
Definition push v p := mk_dev (i_lock p) (i_addr p) (i_freq p) (i_state p) (i_mode p) (i_clip_video p) (i_clip_still p) (v :: i_bus p).

Abbreviation IX A := (M isx012_dev A).

(** A call to the board, or a sleep. *)

Definition ev (e : bus_event) : IX unit := modify (push e).

Definition i2c_lock : IX unit :=
  p ← get; c ← lift (sem_wait (i_lock p)); modify (set_lock c).

Definition i2c_unlock : IX unit := modify (fun p => set_lock (sem_post (i_lock p)) p).

(** ** Integers and memory *)

Definition i8 (z : Z) : Z := let w := u8 z in if w <? 128 then w else w - 256.
Definition i16 (z : Z) : Z := let w := u16 z in if w <? 32768 then w else w - 65536.

(** The [n] low bytes of a value, the lowest first. *)

Fixpoint le_bytes (n : nat) (z : Z) : list Z :=
  match n with O => [] | S n' => u8 z :: le_bytes n' (z / 256) end.

Fixpoint le_value (l : list Z) : Z :=
  match l with [] => 0 | b :: l' => b + 256 * le_value l' end.

(** The [uint16_t] and [uint32_t] elements of an array of bytes. *)

Definition mem_at (w : nat) (m : list Z) (k : nat) : outcome Z :=
  let l := take w (drop (w * k) m) in
  if (length l =? w)%nat then Ret (le_value l) else Ub OutOfBounds.

Definition mem_set16 (m : list Z) (k : nat) (v : Z) : outcome (list Z) :=
  if (2 * k + 2 <=? length m)%nat
  then Ret (take (2 * k) m ++ le_bytes 2 v ++ drop (2 * k + 2) m) else Ub OutOfBounds.

(** Run [f] on each element; stop at a negative result. *)

Fixpoint each {A} (l : list A) (f : A -> IX Z) (ret : Z) : IX Z :=
  match l with
  | [] => mret ret
  | x :: l' => r ← f x; if r <? 0 then mret r else each l' f r
  end.

Section Driver.

Context (hw : isx_hw).

(** ** Register access *)

Definition bus_write (bytes : list Z) : IX Z :=
  p ← get;
  ev (BusWrite (i_freq p) (i_addr p) bytes);;
  mret (hw_write hw (i_bus p) bytes).

Definition bus_read (n : Z) : IX (Z * list Z) :=
  p ← get;
  ev (BusRead (i_freq p) (i_addr p) n);;
  mret (hw_read hw (i_bus p) n).

Definition reg_bytes (regaddr : Z) : list Z := [u8 (Z.shiftr (u16 regaddr) 8); Z.land (u16 regaddr) 255].

(** [buffer] has room for two bytes, and holds the address before the read. *)

Definition isx012_getreg (regaddr regsize : Z) : IX Z :=
  if 2 <? regsize then ub OutOfBounds
  else
    i2c_lock;;
    ret ← bus_write (reg_bytes regaddr);
    '(ret, buffer) ← (if ret <? 0 then mret (ret, [])
                      else
                        '(ret, bytes) ← bus_read regsize;
                        let got := take (Z.to_nat regsize) (u8 <$> bytes) in
                        mret (ret, got ++ drop (length got) (reg_bytes regaddr)));
    i2c_unlock;;
    mret (if 0 <=? ret then le_value (take (Z.to_nat regsize) buffer) else 0).

(** [buffer] has room for the address and two bytes, [regval] is a [uint16_t]. *)

Definition isx012_putreg (regaddr regval regsize : Z) : IX Z :=
  if 2 <? regsize then ub OutOfBounds
  else
    i2c_lock;;
    ret ← bus_write (reg_bytes regaddr ++ le_bytes (Z.to_nat regsize) (u16 regval));
    i2c_unlock;;
    mret ret.

Definition isx012_putreglist (reglist : list isx012_reg) : IX Z :=
  each reglist (fun e => isx012_putreg (regaddr e) (regval e) (regsize e)) OK.

(** The polling loop: [time] is a [uint32_t].  [n] bounds the turns. *)

Fixpoint chk_loop (n : nat) (sts wait_time timeout time : Z) : IX Z :=
  if time <? timeout then
    match n with
    | O => blocked
    | S n' =>
      data ← isx012_getreg INTSTS0 1;
      let data := Z.land data sts in
      if negb (data =? 0) then isx012_putreg INTCLR0 data 1
      else
        ev (Usleep (u32 (wait_time * 1000)));;
        chk_loop n' sts wait_time timeout (u32 (time + wait_time))
    end
  else mret ERROR.

Definition isx012_chk_int_state (sts delay_time wait_time timeout : Z) : IX Z :=
  ev (Usleep (u32 (delay_time * 1000)));;
  chk_loop (Z.to_nat timeout) sts wait_time timeout 0.

(** Wait for [n] frames. *)

Fixpoint skip_frames (n : nat) : IX Z :=
  match n with
  | O => mret OK
  | S n' =>
    ret ← isx012_chk_int_state VINT_STS VINT_DELAY_TIME VINT_WAIT_TIME VINT_TIMEOUT;
    if negb (ret =? 0) then mret ret else skip_frames n'
  end.

(** ** Frames *)

Definition isx012_replace_fmt_to_regval (nr_fmt : Z) (fmt : list video_format) : outcome Z :=
  match head fmt with
  | None => Ub OutOfBounds
  | Some main =>
    let pix := f_pixelformat main in
    Ret (if pix =? IMGSENSOR_PIX_FMT_UYVY then REGVAL_OUTFMT_YUV
         else if pix =? IMGSENSOR_PIX_FMT_RGB565 then REGVAL_OUTFMT_RGB
         else if pix =? IMGSENSOR_PIX_FMT_JPEG then REGVAL_OUTFMT_JPEG
         else if pix =? IMGSENSOR_PIX_FMT_JPEG_WITH_SUBIMG then
           if nr_fmt =? 1 then REGVAL_OUTFMT_JPEG else REGVAL_OUTFMT_INTERLEAVE
         else - EINVAL)
  end.

Definition is_movie_needed (fmt fps : Z) : bool :=
  negb (((u8 fmt =? IMGSENSOR_PIX_FMT_UYVY) || (u8 fmt =? IMGSENSOR_PIX_FMT_RGB565))
        && (REGVAL_FPSTYPE_30FPS <=? u8 fps)).

(** [w], [h], [s_w], [s_h]; the last two stay 0 without a subimage.  The
    arithmetic is that of [uint32_t]. *)

Definition clip_scale (sub clip main : Z) : outcome Z :=
  if 0 <? clip then
    if main =? 0 then Ub DivByZero else Ret (u16 (u32 (sub * clip) / main))
  else Ret sub.

Definition resize_for_clip (nr_fmt : Z) (fmt : list video_format) (clip : isx012_rect) :
    outcome (Z * Z * Z * Z) :=
  match fmt with
  | [] => Ub OutOfBounds
  | main :: rest =>
    let w := if ir_width clip =? 0 then f_width main else u16 (ir_width clip) in
    let h := if ir_height clip =? 0 then f_height main else u16 (ir_height clip) in
    if 1 <? nr_fmt then
      match rest with
      | [] => Ub OutOfBounds
      | sub :: _ =>
        s_w ← clip_scale (f_width sub) (ir_width clip) (f_width main);
        s_h ← clip_scale (f_height sub) (ir_height clip) (f_height main);
        Ret (w, h, s_w, s_h)
      end
    else Ret (w, h, 0, 0)
  end.

(** The zoom ratio (a [uint32_t]) and the offset (an [int32_t]). *)

Definition calc_clip_regval (pos clip_sz frm_sz basis_sz : Z) : outcome (Z * Z) :=
  if negb (clip_sz =? 0) then
    let ratio := u32 (ZOOM_UNIT * frm_sz) / clip_sz in
    o1 ← int_ (CLIP_OFFSET_UNIT * i16 (pos + Z.quot clip_sz 2 - Z.quot frm_sz 2));
    o2 ← int_ (o1 * basis_sz);
    if frm_sz =? 0 then Ub DivByZero else Ret (ratio, Z.quot o2 frm_sz)
  else Ret (ZOOM_UNIT, 0).

Definition is_clipped (clip : isx012_rect) : bool :=
  negb ((ir_left clip =? 0) && (ir_top clip =? 0) && (ir_width clip =? 0) && (ir_height clip =? 0)).

(** [RESCALE_FOR_CLIP] of a [uint32_t] and of an [int32_t]; [a] and [b] are
    three or four times a [uint16_t]. *)

Definition rescale_u (v a b : Z) : outcome Z :=
  if b =? 0 then Ub DivByZero else Ret (u32 (v * a) / b).
Definition rescale_i (v a b : Z) : outcome Z :=
  t ← int_ (v * a); if b =? 0 then Ub DivByZero else Ret (Z.quot t b).

(** The values of the zoom registers: [hvfree], [r_x], [r_y], [x], [y]. *)

Definition clip_regvals (w h : Z) (clip : isx012_rect) : outcome (Z * Z * Z * Z * Z) :=
  if is_clipped clip then
    '(r_x, x) ← calc_clip_regval (u16 (ir_left clip)) (u16 (ir_width clip)) w BASE_HSIZE_FOR_CLIP_OFFSET;
    '(r_y, y) ← calc_clip_regval (u16 (ir_top clip)) (u16 (ir_height clip)) h BASE_VSIZE_FOR_CLIP_OFFSET;
    if h * 4 <? w * 3 then
      r_y ← rescale_u r_y (w * 3) (h * 4);
      y ← rescale_i y (h * 4) (w * 3);
      Ret (1, r_x, r_y, x, y)
    else if w * 3 <? h * 4 then
      r_x ← rescale_u r_x (h * 4) (w * 3);
      x ← rescale_i x (w * 3) (h * 4);
      Ret (1, r_x, r_y, x, y)
    else Ret (1, r_x, r_y, x, y)
  else Ret (0, ZOOM_UNIT, ZOOM_UNIT, 0, 0).

Definition activate_clip (w h : Z) (clip : isx012_rect) : IX unit :=
  '(hvfree, r_x, r_y, x, y) ← lift (clip_regvals w h clip);
  isx012_putreg HVFREEZOOM hvfree 1;;
  isx012_putreg EZOOM_MAG ZOOM_UNIT 2;;
  isx012_putreg EZOOM_HMAG (u16 r_x) 2;;
  isx012_putreg EZOOM_VMAG (u16 r_y) 2;;
  isx012_putreg OFFSET_X (i16 x) 2;;
  isx012_putreg OFFSET_Y (i16 y) 2;;
  mret tt.

(** The largest size of each frame rate. *)

Definition isx012_get_maximum_fps (nr_fmt : Z) (fmt : list video_format) : outcome Z :=
  match fmt with
  | [] => Ub OutOfBounds
  | main :: rest =>
    let main_w := f_width main in
    let main_h := f_height main in
    let pix := f_pixelformat main in
    if (pix =? IMGSENSOR_PIX_FMT_UYVY) || (pix =? IMGSENSOR_PIX_FMT_RGB565) then
      Ret (if (main_w <? OUT_YUV_HSIZE_MIN) || (main_h <? OUT_YUV_VSIZE_MIN)
              || (OUT_YUV_15FPS_HSIZE_MAX <? main_w) || (OUT_YUV_15FPS_VSIZE_MAX <? main_h)
           then - EINVAL
           else if (main_w <=? OUT_YUV_120FPS_HSIZE_MAX) && (main_h <=? OUT_YUV_120FPS_VSIZE_MAX)
           then REGVAL_FPSTYPE_120FPS
           else REGVAL_FPSTYPE_60FPS)
    else if pix =? IMGSENSOR_PIX_FMT_JPEG then
      Ret (if (main_w <? OUT_JPG_HSIZE_MIN) || (main_h <? OUT_JPG_VSIZE_MIN)
              || (OUT_JPG_15FPS_HSIZE_MAX <? main_w) || (OUT_JPG_15FPS_VSIZE_MAX <? main_h)
           then - EINVAL
           else if (main_w <=? OUT_JPG_120FPS_HSIZE_MAX) && (main_h <=? OUT_JPG_120FPS_VSIZE_MAX)
           then REGVAL_FPSTYPE_120FPS
           else if (main_w <=? OUT_JPG_60FPS_HSIZE_MAX) && (main_h <=? OUT_JPG_60FPS_VSIZE_MAX)
           then REGVAL_FPSTYPE_60FPS
           else if (main_w <=? OUT_JPG_30FPS_HSIZE_MAX) && (main_h <=? OUT_JPG_30FPS_VSIZE_MAX)
           then REGVAL_FPSTYPE_30FPS
           else REGVAL_FPSTYPE_15FPS)
    else if pix =? IMGSENSOR_PIX_FMT_JPEG_WITH_SUBIMG then
      sub ← (if nr_fmt =? 1 then Ret (Some (OUT_YUV_HSIZE_MIN, OUT_YUV_VSIZE_MIN))
             else match rest with
                  | [] => Ub OutOfBounds
                  | s :: _ => Ret (if negb (f_pixelformat s =? IMGSENSOR_PIX_FMT_UYVY) then None
                                   else Some (f_width s, f_height s))
                  end);
      Ret match sub with
          | None => - EINVAL
          | Some (sub_w, sub_h) =>
            if (main_w <? OUT_JPG_HSIZE_MIN) || (main_h <? OUT_JPG_VSIZE_MIN)
               || (OUT_JPGINT_15FPS_HSIZE_MAX <? main_w) || (OUT_JPGINT_15FPS_VSIZE_MAX <? main_h)
               || (sub_w <? OUT_YUV_HSIZE_MIN) || (sub_h <? OUT_YUV_VSIZE_MIN)
               || (OUT_YUVINT_30FPS_HSIZE_MAX <? sub_w) || (OUT_YUVINT_30FPS_VSIZE_MAX <? sub_h)
            then - EINVAL
            else if (main_w <=? OUT_JPGINT_30FPS_HSIZE_MAX) && (main_h <=? OUT_JPGINT_30FPS_VSIZE_MAX)
            then REGVAL_FPSTYPE_30FPS
            else REGVAL_FPSTYPE_15FPS
          end
    else Ret (- EINVAL)
  end.

(** [uint32_t] arithmetic. *)

Definition isx012_replace_frameinterval_to_regval (interval : v4l2_fract) : Z :=
  let den := denominator interval in
  let num := numerator interval in
  if negb (u32 (den * 2) / 2 =? den) then - EINVAL
  else if num =? 0 then - EINVAL
  else if negb (u32 (den * 2) mod num =? 0) then - EINVAL
  else
    let fps2 := u32 (den * 2) / num in
    if fps2 =? 240 then REGVAL_FPSTYPE_120FPS
    else if fps2 =? 120 then REGVAL_FPSTYPE_60FPS
    else if fps2 =? 60 then REGVAL_FPSTYPE_30FPS
    else if fps2 =? 30 then REGVAL_FPSTYPE_15FPS
    else if fps2 =? 20 then REGVAL_FPSTYPE_10FPS
    else if fps2 =? 15 then REGVAL_FPSTYPE_7_5FPS
    else if fps2 =? 12 then REGVAL_FPSTYPE_6FPS
    else if fps2 =? 10 then REGVAL_FPSTYPE_5FPS
    else - EINVAL.

Definition isx012_validate_frame_setting (nr_fmt : Z) (fmt : list video_format)
    (interval : v4l2_fract) : outcome Z :=
  if (nr_fmt <? 1) || (2 <? nr_fmt) then Ret (- EINVAL)
  else
    max_fps ← isx012_get_maximum_fps nr_fmt fmt;
    if max_fps =? - EINVAL then Ret (- EINVAL)
    else
      let arg_fps := isx012_replace_frameinterval_to_regval interval in
      if arg_fps =? - EINVAL then Ret (- EINVAL)
      else if arg_fps <? max_fps then Ret (- EINVAL)
      else Ret OK.

(** ** Modes and power *)

Definition vifmode_of (fmt : Z) : Z :=
  if fmt =? REGVAL_OUTFMT_YUV then REGVAL_VIFMODE_YUV_PARALLEL
  else if fmt =? REGVAL_OUTFMT_JPEG then REGVAL_VIFMODE_JPEG_PARALLEL
  else if fmt =? REGVAL_OUTFMT_INTERLEAVE then REGVAL_VIFMODE_INTERLEAVE_PARALLEL
  else if fmt =? REGVAL_OUTFMT_RGB then REGVAL_VIFMODE_RGB_PARALLEL
  else REGVAL_VIFMODE_YUV_PARALLEL.

(** The part of [isx012_change_camera_mode] after the choice of [fmt_addr];
    [vifmode] is a [uint32_t]. *)

Definition switch_mode (mode fmt_addr : Z) : IX Z :=
  fmt ← isx012_getreg fmt_addr 1;
  ret ← isx012_putreg VIFMODE (vifmode_of fmt) 4;
  if ret <? 0 then mret ret
  else
    cur ← isx012_getreg MODESEL 1;
    ret ← (if negb (mode =? cur) then
             isx012_putreg INTCLR0 CM_CHANGED_STS 1;;
             ret ← isx012_putreg MODESEL mode 1;
             if ret <? 0 then mret ret
             else isx012_chk_int_state CM_CHANGED_STS CAMERA_MODE_DELAY_TIME
                    CAMERA_MODE_WAIT_TIME CAMERA_MODE_TIMEOUT
           else mret 0);
    if negb (ret =? 0) then mret ret
    else if negb (mode =? REGVAL_MODESEL_HREL) then
      isx012_putreg INTCLR0 VINT_STS 1;;
      mask_num ← isx012_getreg RO_MASK_NUM 1;
      skip_frames (Z.to_nat mask_num)
    else mret OK.

Definition isx012_change_camera_mode (mode : Z) : IX Z :=
  p ← get;
  if negb (bool_decide (i_state p = STATE_ISX012_ACTIVE)) then mret (- EPERM)
  else if (mode =? REGVAL_MODESEL_MON) || (mode =? REGVAL_MODESEL_HREL) then
    switch_mode mode OUTFMT_MONI
  else if mode =? REGVAL_MODESEL_MOV then switch_mode mode OUTFMT_MOVIE
  else if mode =? REGVAL_MODESEL_CAP then switch_mode mode OUTFMT_CAP
  else mret (- EPERM).

(** After the change of state was asked for. *)

Definition await_state (state : isx012_state) : IX Z :=
  ret ← isx012_chk_int_state OM_CHANGED_STS DEVICE_STATE_DELAY_TIME
          DEVICE_STATE_WAIT_TIME DEVICE_STATE_TIMEOUT;
  if negb (ret =? 0) then mret ret
  else
    modify (set_state state);;
    ret ← (if bool_decide (state = STATE_ISX012_ACTIVE) then
             ret ← isx012_chk_int_state CM_CHANGED_STS CAMERA_MODE_DELAY_TIME
                     CAMERA_MODE_WAIT_TIME CAMERA_MODE_TIMEOUT;
             if negb (ret =? 0) then mret ret
             else
               mute_cnt ← isx012_getreg MUTECNT 1;
               isx012_putreg INTCLR0 VINT_STS 1;;
               skip_frames (Z.to_nat mute_cnt)
           else mret 0);
    if negb (ret =? 0) then mret ret
    else modify (set_mode REGVAL_MODESEL_MON);; mret OK.

Definition isx012_change_device_state (state : isx012_state) : IX Z :=
  p ← get;
  if bool_decide (i_state p = STATE_ISX012_PRESLEEP) || bool_decide (i_state p = state)
  then mret (- EPERM)
  else
    match state with
    | STATE_ISX012_SLEEP =>
      isx012_putreg INTCLR0 OM_CHANGED_STS 1;; ev (SetSleep 1);; await_state state
    | STATE_ISX012_ACTIVE =>
      isx012_putreg INTCLR0 (Z.lor OM_CHANGED_STS CM_CHANGED_STS) 1;;
      ev ReleaseSleep;; await_state state
    | _ => mret (- EPERM)
    end.

(** The registers of a stream type: rate, format, sensor mode, width, height,
    and the mode that shows them. *)

Record mode_regs := mk_mode {
  m_fps : Z; m_fmt : Z; m_smode : Z; m_hsize : Z; m_vsize : Z; m_mode : Z }.

Definition mode_of (type fmt_val fps_val : Z) : mode_regs :=
  if type =? VideoDrv.IMGSENSOR_STREAM_TYPE_VIDEO then
    if is_movie_needed fmt_val fps_val
    then mk_mode FPSTYPE_MOVIE OUTFMT_MOVIE SENSMODE_MOVIE HSIZE_MOVIE VSIZE_MOVIE REGVAL_MODESEL_MOV
    else mk_mode FPSTYPE_MONI OUTFMT_MONI SENSMODE_MONI HSIZE_MONI VSIZE_MONI REGVAL_MODESEL_MON
  else mk_mode FPSTYPE_CAP OUTFMT_CAP SENSMODE_CAP HSIZE_CAP VSIZE_CAP REGVAL_MODESEL_CAP.

Definition smode_of (fps_val : Z) : Z :=
  if fps_val =? REGVAL_FPSTYPE_120FPS then REGVAL_SENSMODE_1_8
  else if fps_val =? REGVAL_FPSTYPE_60FPS then REGVAL_SENSMODE_1_4
  else if fps_val =? REGVAL_FPSTYPE_30FPS then REGVAL_SENSMODE_1_2
  else REGVAL_SENSMODE_ALLPIX.

(** [ret = isx012_putreg(...); if (ret < 0) return ret;] *)

Definition put_or (regaddr regval regsize : Z) (k : IX Z) : IX Z :=
  ret ← isx012_putreg regaddr regval regsize; if ret <? 0 then mret ret else k.

Definition isx012_set_mode_param (type nr_fmt : Z) (fmt : list video_format)
    (interval : v4l2_fract) : IX Z :=
  fmt_val ← lift (isx012_replace_fmt_to_regval nr_fmt fmt);
  let fps_val := isx012_replace_frameinterval_to_regval interval in
  p ← get;
  if (type =? VideoDrv.IMGSENSOR_STREAM_TYPE_VIDEO) && is_movie_needed fmt_val fps_val
     && (i_mode p =? REGVAL_MODESEL_HREL)
  then mret (- EPERM)
  else
    let m := mode_of type fmt_val fps_val in
    let clip := if type =? VideoDrv.IMGSENSOR_STREAM_TYPE_VIDEO then i_clip_video p else i_clip_still p in
    put_or (m_fps m) fps_val 1 (put_or (m_fmt m) fmt_val 1 (put_or (m_smode m) (smode_of fps_val) 1 (
      '(w, h, s_w, s_h) ← lift (resize_for_clip nr_fmt fmt clip);
      '(main_w, main_h) ← lift match fmt with
                               | [] => Ub OutOfBounds
                               | main :: _ => Ret (f_width main, f_height main)
                               end;
      activate_clip main_w main_h clip;;
      put_or (m_hsize m) w 2 (put_or (m_vsize m) h 2 (
        let rest :=
          p ← get;
          (if negb (bool_decide (i_state p = STATE_ISX012_ACTIVE))
           then isx012_change_device_state STATE_ISX012_ACTIVE;; mret tt else mret tt);;
          ret ← isx012_change_camera_mode (m_mode m);
          if ret =? OK then modify (set_mode (m_mode m));; mret ret else mret ret in
        if fmt_val =? REGVAL_OUTFMT_INTERLEAVE
        then put_or HSIZE_TN s_w 2 (put_or VSIZE_TN s_h 2 rest)
        else rest))))).

Definition isx012_start_capture (type nr_fmt : Z) (fmt : list video_format)
    (interval : v4l2_fract) : IX Z :=
  ret ← lift (isx012_validate_frame_setting nr_fmt fmt interval);
  if negb (ret =? OK) then mret ret else isx012_set_mode_param type nr_fmt fmt interval.

Definition isx012_stop_capture (type : Z) : IX Z := mret OK.

(** ** Initialisation *)

(** An element of a two-dimensional table. *)

Definition cell (data : list (list Z)) (u s : Z) : outcome Z :=
  match data !! Z.to_nat u with
  | None => Ub OutOfBounds
  | Some row => match row !! Z.to_nat s with None => Ub OutOfBounds | Some v => Ret v end
  end.

(** The nested loops over the units of a table. *)

Definition put_units (unit : Z -> Z -> Z) (data : list (list Z)) (num size : Z) : IX Z :=
  each (seqZ 0 num) (fun u =>
    each (seqZ 0 size) (fun s => v ← lift (cell data u s); isx012_putreg (unit u s) v 1) OK) OK.

(** [ret = ...; if (ret < 0) return ret;] *)

Definition or_fail (m k : IX Z) : IX Z := ret ← m; if ret <? 0 then mret ret else k.

Definition or_reset (m k : IX Z) : IX Z :=
  ret ← m; if ret <? 0 then ev SetReset;; mret ret else k.

Definition isx012_set_shd : IX Z :=
  or_fail (isx012_putreg SHD_EN 0x50 1) (
  or_fail (isx012_putreg CXC_VALID 0x8282 2) (
  or_fail (put_units CXC_RGB_UNIT g_isx012_cxc_rgb_data CXC_RGB_DATA_UNIT_NUM CXC_RGB_DATA_UNIT_SIZE) (
  or_fail (put_units CXC_GRB_UNIT g_isx012_cxc_grb_data CXC_GRB_DATA_UNIT_NUM CXC_GRB_DATA_UNIT_SIZE) (
  or_fail (isx012_putreg SHD_VALID 0x9191 2) (
  or_fail (put_units SHD_RGB_UNIT g_isx012_shd_rgb_data SHD_RGB_DATA_UNIT_NUM SHD_RGB_DATA_UNIT_SIZE) (
  or_fail (put_units SHD_GRB_UNIT g_isx012_shd_grb_data SHD_GRB_DATA_UNIT_NUM SHD_GRB_DATA_UNIT_SIZE) (
  or_fail (put_units SHD_R1_UNIT g_isx012_shd_r1_data SHD_R1_DATA_UNIT_NUM SHD_R1_DATA_UNIT_SIZE) (
  or_fail (put_units SHD_R2_UNIT g_isx012_shd_r2_data SHD_R2_DATA_UNIT_NUM SHD_R2_DATA_UNIT_SIZE) (
  or_fail (put_units SHD_B2_UNIT g_isx012_shd_b2_data SHD_B2_DATA_UNIT_NUM SHD_B2_DATA_UNIT_SIZE) (
  or_reset (isx012_putreglist g_isx012_shd_thresholds) (
  or_reset (isx012_putreglist g_isx012_shd_wb) (
  or_fail (isx012_putreg SHD_EN 0x57 1) (mret OK))))))))))))).

(** The wait for a change of the operating mode. *)

Definition wait_om : IX Z :=
  isx012_chk_int_state OM_CHANGED_STS DEVICE_STATE_DELAY_TIME DEVICE_STATE_WAIT_TIME
    DEVICE_STATE_TIMEOUT.

Definition init_isx012 : IX Z :=
  ev ReleaseReset;;
  ev (Usleep 6000);;
  ret ← wait_om;
  if negb (ret =? OK) then mret ret
  else
    modify (set_state STATE_ISX012_PRESLEEP);;
    ret ← isx012_putreglist g_isx012_presleep;
    if negb (ret =? OK) then mret ret
    else
      ret ← wait_om;
      if negb (ret =? OK) then mret ret
      else
        modify (set_state STATE_ISX012_SLEEP);;
        modify (set_freq I2CFREQ_FAST);;
        or_reset (isx012_putreglist g_isx012_def_init)
          (ret ← isx012_set_shd; if ret <? 0 then ev SetReset;; mret ret else mret ret).

Definition isx012_init : IX Z :=
  ev BoardInitialize;;
  modify (set_addr ISX012_I2C_SLV_ADDR);;
  modify (set_freq I2CFREQ_STANDARD);;
  p ← get;
  let ret := hw_power_on hw (i_bus p) in
  ev PowerOn;;
  if ret <? 0 then mret ret
  else
    ret ← init_isx012;
    if ret <? 0 then ev SetReset;; ev PowerOff;; mret ret else mret ret.

Definition isx012_uninit : IX Z :=
  p ← get;
  (if bool_decide (i_state p = STATE_ISX012_ACTIVE) then ev (SetSleep 1) else mret tt);;
  ev SetReset;;
  p ← get;
  let ret := hw_power_off hw (i_bus p) in
  ev PowerOff;;
  if ret <? 0 then mret ret
  else
    ev BoardUninitialize;;
    modify (set_freq I2CFREQ_STANDARD);;
    modify (set_state STATE_ISX012_POWEROFF);;
    mret ret.

Definition isx012_is_available : IX bool :=
  isx012_init;;
  sts ← isx012_getreg DEVICESTS 1;
  isx012_uninit;;
  mret (sts =? DEVICESTS_SLEEP).

End Driver.

(** ** Controls: what is supported

    The caller's structure is a union; the member that belongs to the type is
    written. *)

Definition sup_range (type lo hi step def : Z) (v : supported_value) : Z * supported_value :=
  (OK, mk_supported type (mk_range lo hi step def) (sv_discrete v) (sv_elems v)).
Definition sup_discrete (values : list Z) (def : Z) (v : supported_value) : Z * supported_value :=
  (OK, mk_supported IMGSENSOR_CTRL_TYPE_INTEGER_MENU (sv_range v) (mk_discrete values def) (sv_elems v)).
Definition sup_elems (type n lo hi step : Z) (v : supported_value) : Z * supported_value :=
  (OK, mk_supported type (sv_range v) (sv_discrete v) (mk_elems n lo hi step)).

Definition isx012_get_supported_value (id : Z) (v : supported_value) : Z * supported_value :=
  if id =? IMGSENSOR_ID_BRIGHTNESS then
    sup_range IMGSENSOR_CTRL_TYPE_INTEGER ISX012_MIN_BRIGHTNESS ISX012_MAX_BRIGHTNESS
      ISX012_STEP_BRIGHTNESS ISX012_DEF_BRIGHTNESS v
  else if id =? IMGSENSOR_ID_CONTRAST then
    sup_range IMGSENSOR_CTRL_TYPE_U8FIXEDPOINT_Q7 ISX012_MIN_CONTRAST ISX012_MAX_CONTRAST
      ISX012_STEP_CONTRAST ISX012_DEF_CONTRAST v
  else if id =? IMGSENSOR_ID_SATURATION then
    sup_range IMGSENSOR_CTRL_TYPE_INTEGER ISX012_MIN_SATURATION ISX012_MAX_SATURATION
      ISX012_STEP_SATURATION ISX012_DEF_SATURATION v
  else if id =? IMGSENSOR_ID_HUE then
    sup_range IMGSENSOR_CTRL_TYPE_INTEGER ISX012_MIN_HUE ISX012_MAX_HUE ISX012_STEP_HUE
      ISX012_DEF_HUE v
  else if id =? IMGSENSOR_ID_AUTO_WHITE_BALANCE then
    sup_range IMGSENSOR_CTRL_TYPE_BOOLEAN ISX012_MIN_AUTOWB ISX012_MAX_AUTOWB
      ISX012_STEP_AUTOWB ISX012_DEF_AUTOWB v
  else if id =? IMGSENSOR_ID_GAMMA_CURVE then
    sup_elems IMGSENSOR_CTRL_TYPE_U16 ISX012_ELEMS_GAMMACURVE ISX012_MIN_GAMMACURVE
      ISX012_MAX_GAMMACURVE ISX012_STEP_GAMMACURVE v
  else if id =? IMGSENSOR_ID_EXPOSURE then
    sup_range IMGSENSOR_CTRL_TYPE_INTEGER_TIMES_3 ISX012_MIN_EXPOSURE ISX012_MAX_EXPOSURE
      ISX012_STEP_EXPOSURE ISX012_DEF_EXPOSURE v
  else if id =? IMGSENSOR_ID_HFLIP_VIDEO then
    sup_range IMGSENSOR_CTRL_TYPE_BOOLEAN ISX012_MIN_HFLIP ISX012_MAX_HFLIP ISX012_STEP_HFLIP
      ISX012_DEF_HFLIP v
  else if id =? IMGSENSOR_ID_VFLIP_VIDEO then
    sup_range IMGSENSOR_CTRL_TYPE_BOOLEAN ISX012_MIN_VFLIP ISX012_MAX_VFLIP ISX012_STEP_VFLIP
      ISX012_DEF_VFLIP v
  else if id =? IMGSENSOR_ID_HFLIP_STILL then
    sup_range IMGSENSOR_CTRL_TYPE_BOOLEAN ISX012_MIN_HFLIP_STILL ISX012_MAX_HFLIP_STILL
      ISX012_STEP_HFLIP_STILL ISX012_DEF_HFLIP_STILL v
  else if id =? IMGSENSOR_ID_VFLIP_STILL then
    sup_range IMGSENSOR_CTRL_TYPE_BOOLEAN ISX012_MIN_VFLIP_STILL ISX012_MAX_VFLIP_STILL
      ISX012_STEP_VFLIP_STILL ISX012_DEF_VFLIP_STILL v
  else if id =? IMGSENSOR_ID_SHARPNESS then
    sup_range IMGSENSOR_CTRL_TYPE_INTEGER ISX012_MIN_SHARPNESS ISX012_MAX_SHARPNESS
      ISX012_STEP_SHARPNESS ISX012_DEF_SHARPNESS v
  else if id =? IMGSENSOR_ID_COLOR_KILLER then
    sup_range IMGSENSOR_CTRL_TYPE_BOOLEAN ISX012_MIN_COLORKILLER ISX012_MAX_COLORKILLER
      ISX012_STEP_COLORKILLER ISX012_DEF_COLORKILLER v
  else if id =? IMGSENSOR_ID_COLORFX then
    sup_discrete g_isx012_colorfx_actual IMGSENSOR_COLORFX_NONE v
  else if id =? IMGSENSOR_ID_EXPOSURE_AUTO then
    sup_range IMGSENSOR_CTRL_TYPE_INTEGER ISX012_MIN_EXPOSUREAUTO ISX012_MAX_EXPOSUREAUTO
      ISX012_STEP_EXPOSUREAUTO ISX012_DEF_EXPOSUREAUTO v
  else if id =? IMGSENSOR_ID_EXPOSURE_ABSOLUTE then
    sup_range IMGSENSOR_CTRL_TYPE_INTEGER ISX012_MIN_EXPOSURETIME ISX012_MAX_EXPOSURETIME
      ISX012_STEP_EXPOSURETIME ISX012_DEF_EXPOSURETIME v
  else if id =? IMGSENSOR_ID_EXPOSURE_METERING then
    sup_discrete g_isx012_photometry_actual IMGSENSOR_EXPOSURE_METERING_AVERAGE v
  else if id =? IMGSENSOR_ID_AUTO_N_PRESET_WB then
    sup_discrete g_isx012_presetwb_actual IMGSENSOR_WHITE_BALANCE_AUTO v
  else if id =? IMGSENSOR_ID_WIDE_DYNAMIC_RANGE then
    sup_range IMGSENSOR_CTRL_TYPE_BOOLEAN ISX012_MIN_YGAMMA ISX012_MAX_YGAMMA
      ISX012_STEP_YGAMMA ISX012_DEF_YGAMMA v
  else if id =? IMGSENSOR_ID_ISO_SENSITIVITY then sup_discrete g_isx012_iso_actual 0 v
  else if id =? IMGSENSOR_ID_ISO_SENSITIVITY_AUTO then
    sup_range IMGSENSOR_CTRL_TYPE_INTEGER ISX012_MIN_ISOAUTO ISX012_MAX_ISOAUTO
      ISX012_STEP_ISOAUTO ISX012_DEF_ISOAUTO v
  else if id =? IMGSENSOR_ID_3A_LOCK then
    sup_range IMGSENSOR_CTRL_TYPE_BITMASK ISX012_MIN_3ALOCK ISX012_MAX_3ALOCK
      ISX012_STEP_3ALOCK ISX012_DEF_3ALOCK v
  else if id =? IMGSENSOR_ID_3A_PARAMETER then
    sup_elems IMGSENSOR_CTRL_TYPE_U16 ISX012_ELEMS_3APARAM 0 65535 1 v
  else if id =? IMGSENSOR_ID_3A_STATUS then
    sup_range IMGSENSOR_CTRL_TYPE_INTEGER 0 3 1 3 v
  else if id =? IMGSENSOR_ID_JPEG_QUALITY then
    sup_range IMGSENSOR_CTRL_TYPE_INTEGER ISX012_MIN_JPGQUALITY ISX012_MAX_JPGQUALITY
      ISX012_STEP_JPGQUALITY ISX012_DEF_JPGQUALITY v
  else (- EINVAL, v).

(** ** Controls: reading and writing *)

Section Controls.

Context (hw : isx_hw).

#[local] Abbreviation getreg := (isx012_getreg hw).
#[local] Abbreviation putreg := (isx012_putreg hw).

(** The first index [cnt] with [from[cnt] == x], and [to[cnt]] there. *)

Fixpoint search_menu (from to : list Z) (x : Z) : option Z :=
  match from, to with
  | f :: from', t :: to' => if f =? x then Some t else search_menu from' to' x
  | _, _ => None
  end.

(** [value->value32 = ...] *)

Definition answer (v : value_union) (x : Z) : IX (Z * value_union) := mret (OK, v_set_int x v).

Definition answer_menu (regval actual : list Z) (x missing : Z) (v : value_union) :
    IX (Z * value_union) :=
  match search_menu regval actual x with
  | Some y => answer v y
  | None => mret (missing, v)
  end.

(** [(uint16_t)(((msb << 16) | lsb) / ISX012_UNIT_EXPOSURETIME_US)]; the shift
    is one of [int]. *)

Definition auto_exposure : IX Z :=
  lsb ← getreg ISX012_REG_EXPOSUREAUTOVALUE_LSB ISX012_SIZE_EXPOSUREAUTOVALUE;
  msb ← getreg ISX012_REG_EXPOSUREAUTOVALUE_MSB ISX012_SIZE_EXPOSUREAUTOVALUE;
  t ← lift (int_ (Z.shiftl msb 16));
  mret (u16 (Z.quot (Z.lor t lsb) ISX012_UNIT_EXPOSURETIME_US)).

(** The loop over the gamma registers, from [cnt] on. *)

Fixpoint read_gamma (n cnt : nat) (read_src : Z) (m : list Z) : IX (list Z) :=
  match n with
  | O => mret m
  | S n' =>
    x ← getreg read_src ISX012_SIZE_GAMMACURVE;
    m' ← lift (mem_set16 m cnt x);
    read_gamma n' (S cnt) (u16 (read_src + ISX012_SIZE_GAMMACURVE)) m'
  end.

Definition get_gamma (size : Z) (v : value_union) : IX (Z * value_union) :=
  if bool_decide (v_mem v = []) then mret (- EINVAL, v)
  else if negb (size =? ISX012_ELEMS_GAMMACURVE * 2) then mret (- EINVAL, v)
  else
    m ← read_gamma (Z.to_nat ISX012_ELEMS_GAMMACURVE) 0 ISX012_REG_GAMMACURVE (v_mem v);
    mret (OK, mk_value (v_bits v) m).

Definition get_3a_parameter (size : Z) (v : value_union) : IX (Z * value_union) :=
  if bool_decide (v_mem v = []) then mret (- EINVAL, v)
  else if negb (size =? ISX012_ELEMS_3APARAM * 2) then mret (- EINVAL, v)
  else
    r ← getreg RATIO_R 2;
    m0 ← lift (mem_set16 (v_mem v) 0 r);
    b ← getreg RATIO_B 2;
    m1 ← lift (mem_set16 m0 1 b);
    l ← getreg AELEVEL 2;
    m2 ← lift (mem_set16 m1 2 l);
    mret (OK, mk_value (v_bits v) m2).

Definition get_3a_status (v : value_union) : IX (Z * value_union) :=
  threea_enable ← getreg CPUEXT 1;
  s1 ← (if negb (Z.land threea_enable REGVAL_CPUEXT_BIT_AWBSTOP =? REGVAL_CPUEXT_BIT_AWBSTOP) then
          r ← getreg AWBSTS 1;
          mret (if negb (r =? REGVAL_AWBSTS_STOP)
                then Z.lor IMGSENSOR_3A_STATUS_STABLE IMGSENSOR_3A_STATUS_AWB_OPERATING
                else IMGSENSOR_3A_STATUS_STABLE)
        else mret IMGSENSOR_3A_STATUS_STABLE);
  s2 ← (if negb (Z.land threea_enable REGVAL_CPUEXT_BIT_AESTOP =? REGVAL_CPUEXT_BIT_AESTOP) then
          r ← getreg AESTS 1;
          mret (if negb (r =? REGVAL_AESTS_STOP) then Z.lor s1 IMGSENSOR_3A_STATUS_AE_OPERATING else s1)
        else mret s1);
  answer v s2.

(** The controls from brightness to colour killer. *)

Definition get_value_basic (id size : Z) (v : value_union) (k : IX (Z * value_union)) :
    IX (Z * value_union) :=
  if id =? IMGSENSOR_ID_BRIGHTNESS then
    r ← getreg ISX012_REG_BRIGHTNESS ISX012_SIZE_BRIGHTNESS; answer v (i8 (Z.land 255 r))
  else if id =? IMGSENSOR_ID_CONTRAST then
    r ← getreg ISX012_REG_CONTRAST ISX012_SIZE_CONTRAST; answer v r
  else if id =? IMGSENSOR_ID_SATURATION then
    r ← getreg ISX012_REG_SATURATION ISX012_SIZE_SATURATION; answer v r
  else if id =? IMGSENSOR_ID_HUE then
    r ← getreg ISX012_REG_HUE ISX012_SIZE_HUE; answer v r
  else if id =? IMGSENSOR_ID_AUTO_WHITE_BALANCE then
    r ← getreg ISX012_REG_AUTOWB ISX012_SIZE_AUTOWB;
    answer v (if negb (Z.land r REGVAL_CPUEXT_BIT_AWBSTOP =? 0) then 0 else 1)
  else if id =? IMGSENSOR_ID_GAMMA_CURVE then get_gamma size v
  else if id =? IMGSENSOR_ID_EXPOSURE then
    r ← getreg ISX012_REG_EXPOSURE ISX012_SIZE_EXPOSURE; answer v (i8 (Z.land 255 r))
  else if id =? IMGSENSOR_ID_HFLIP_VIDEO then
    r ← getreg ISX012_REG_HFLIP ISX012_SIZE_HFLIP;
    answer v (if negb (Z.land r REGVAL_READVECT_BIT_H =? 0) then 1 else 0)
  else if id =? IMGSENSOR_ID_VFLIP_VIDEO then
    r ← getreg ISX012_REG_VFLIP ISX012_SIZE_VFLIP;
    answer v (if negb (Z.land r REGVAL_READVECT_BIT_V =? 0) then 1 else 0)
  else if id =? IMGSENSOR_ID_HFLIP_STILL then
    r ← getreg ISX012_REG_HFLIP_STILL ISX012_SIZE_HFLIP_STILL;
    answer v (if negb (Z.land r REGVAL_READVECT_BIT_H =? 0) then 1 else 0)
  else if id =? IMGSENSOR_ID_VFLIP_STILL then
    r ← getreg ISX012_REG_VFLIP_STILL ISX012_SIZE_VFLIP_STILL;
    answer v (if negb (Z.land r REGVAL_READVECT_BIT_V =? 0) then 1 else 0)
  else if id =? IMGSENSOR_ID_SHARPNESS then
    r ← getreg ISX012_REG_SHARPNESS ISX012_SIZE_SHARPNESS; answer v r
  else if id =? IMGSENSOR_ID_COLOR_KILLER then
    r ← getreg ISX012_REG_COLORKILLER ISX012_SIZE_COLORKILLER;
    answer v (if r =? REGVAL_EFFECT_MONOTONE then 1 else 0)
  else k.

Definition isx012_get_value (id size : Z) (v : value_union) : IX (Z * value_union) :=
  get_value_basic id size v
  (if id =? IMGSENSOR_ID_COLORFX then
     r ← getreg ISX012_REG_COLOREFFECT ISX012_SIZE_COLOREFFECT;
     answer_menu g_isx012_colorfx_regval g_isx012_colorfx_actual r (- EINVAL) v
   else if id =? IMGSENSOR_ID_EXPOSURE_AUTO then
     r ← getreg ISX012_REG_EXPOSURETIME ISX012_SIZE_EXPOSURETIME;
     answer v (if negb (r =? 0) then IMGSENSOR_EXPOSURE_MANUAL else IMGSENSOR_EXPOSURE_AUTO)
   else if id =? IMGSENSOR_ID_EXPOSURE_ABSOLUTE then
     r ← getreg ISX012_REG_EXPOSURETIME ISX012_SIZE_EXPOSURETIME;
     if r =? REGVAL_EXPOSURETIME_AUTO then x ← auto_exposure; answer v x else answer v r
   else if id =? IMGSENSOR_ID_AUTO_N_PRESET_WB then
     r ← getreg ISX012_REG_PRESETWB ISX012_SIZE_PRESETWB;
     answer_menu g_isx012_presetwb_regval g_isx012_presetwb_actual r OK v
   else if id =? IMGSENSOR_ID_WIDE_DYNAMIC_RANGE then
     r ← getreg ISX012_REG_YGAMMA ISX012_SIZE_YGAMMA;
     answer v (if negb (r =? 0) then 0 else 1)
   else if id =? IMGSENSOR_ID_ISO_SENSITIVITY then
     r ← getreg ISX012_REG_ISOAUTOVALUE ISX012_SIZE_ISOAUTOVALUE;
     answer_menu g_isx012_iso_regval g_isx012_iso_actual r (- EINVAL) v
   else if id =? IMGSENSOR_ID_ISO_SENSITIVITY_AUTO then
     r ← getreg ISX012_REG_ISOAUTO ISX012_SIZE_ISOAUTO;
     answer v (if r =? REGVAL_ISO_AUTO then IMGSENSOR_ISO_SENSITIVITY_AUTO
               else IMGSENSOR_ISO_SENSITIVITY_MANUAL)
   else if id =? IMGSENSOR_ID_EXPOSURE_METERING then
     r ← getreg ISX012_REG_PHOTOMETRY ISX012_SIZE_PHOTOMETRY;
     answer_menu g_isx012_photometry_regval g_isx012_photometry_actual r (- EINVAL) v
   else if id =? IMGSENSOR_ID_3A_PARAMETER then get_3a_parameter size v
   else if id =? IMGSENSOR_ID_3A_STATUS then get_3a_status v
   else if id =? IMGSENSOR_ID_JPEG_QUALITY then
     r ← getreg ISX012_REG_JPGQUALITY ISX012_SIZE_JPGQUALITY; answer v r
   else mret (- EINVAL, v)).

(** [VALIDATE_VALUE] *)

Definition VALIDATE_VALUE (val min max step : Z) : Z :=
  if (min <=? val) && (val <=? max) && (Z.rem (val - min) step =? 0) then OK else - EINVAL.

(** Validate, then continue. *)

Definition checked (val min max step : Z) (k : IX Z) : IX Z :=
  let ret := VALIDATE_VALUE val min max step in if negb (ret =? OK) then mret ret else k.

(** [regval |= bit] and [regval &= ~bit] on a [uint16_t]. *)

Definition put_bit (reg size bit : Z) (on : bool) : IX Z :=
  r ← getreg reg size;
  putreg reg (if on then Z.lor r bit else Z.land r (65535 - bit)) size.

Definition put_menu (actual regval : list Z) (x reg size : Z) : IX Z :=
  match search_menu actual regval x with
  | Some y => putreg reg y size
  | None => mret (- EINVAL)
  end.

(** The loop over the gamma curve; a value out of range ends it, the result of
    a write does not. *)

Fixpoint write_gamma (n cnt : nat) (write_dst ret : Z) (m : list Z) : IX Z :=
  match n with
  | O => mret ret
  | S n' =>
    x ← lift (mem_at 2 m cnt);
    checked x ISX012_MIN_GAMMACURVE ISX012_MAX_GAMMACURVE ISX012_STEP_GAMMACURVE (
      ret ← putreg write_dst x ISX012_SIZE_GAMMACURVE;
      write_gamma n' (S cnt) (u16 (write_dst + ISX012_SIZE_GAMMACURVE)) ret m)
  end.

Definition set_gamma (size : Z) (v : value_union) : IX Z :=
  if bool_decide (v_mem v = []) then mret (- EINVAL)
  else if negb (size =? ISX012_ELEMS_GAMMACURVE * 2) then mret (- EINVAL)
  else write_gamma (Z.to_nat ISX012_ELEMS_GAMMACURVE) 0 ISX012_REG_GAMMACURVE (- EINVAL) (v_mem v).

Definition validate_clip_setting (sz : Z) (clip : list Z) : outcome bool :=
  if negb (sz =? IMGSENSOR_CLIP_NELEM * 4) then Ret false
  else
    w ← mem_at 4 clip (Z.to_nat IMGSENSOR_CLIP_INDEX_WIDTH);
    h ← mem_at 4 clip (Z.to_nat IMGSENSOR_CLIP_INDEX_HEIGHT);
    Ret ((w mod CLIP_SIZE_UNIT =? 0) && (h mod CLIP_SIZE_UNIT =? 0)).

Definition set_clip (size : Z) (val : list Z) (target : isx012_rect -> isx012_dev -> isx012_dev) :
    IX Z :=
  ok ← lift (validate_clip_setting size val);
  if negb ok then mret (- EINVAL)
  else
    l ← lift (mem_at 4 val (Z.to_nat IMGSENSOR_CLIP_INDEX_LEFT));
    t ← lift (mem_at 4 val (Z.to_nat IMGSENSOR_CLIP_INDEX_TOP));
    w ← lift (mem_at 4 val (Z.to_nat IMGSENSOR_CLIP_INDEX_WIDTH));
    h ← lift (mem_at 4 val (Z.to_nat IMGSENSOR_CLIP_INDEX_HEIGHT));
    modify (target (mk_irect (i32 l) (i32 t) w h));;
    mret OK.

Definition set_exposure_auto (x : Z) : IX Z :=
  checked x ISX012_MIN_EXPOSUREAUTO ISX012_MAX_EXPOSUREAUTO ISX012_STEP_EXPOSUREAUTO
    (if x =? IMGSENSOR_EXPOSURE_AUTO
     then putreg ISX012_REG_EXPOSURETIME REGVAL_EXPOSURETIME_AUTO ISX012_SIZE_EXPOSURETIME
     else r ← auto_exposure; putreg ISX012_REG_EXPOSURETIME r ISX012_SIZE_EXPOSURETIME).

Definition set_iso_auto (x : Z) : IX Z :=
  checked x ISX012_MIN_ISOAUTO ISX012_MAX_ISOAUTO ISX012_STEP_ISOAUTO
    (if x =? IMGSENSOR_ISO_SENSITIVITY_AUTO
     then putreg ISX012_REG_ISOAUTO REGVAL_ISO_AUTO ISX012_SIZE_ISOAUTO
     else
       r ← getreg ISX012_REG_ISOAUTOVALUE ISX012_SIZE_ISOAUTOVALUE;
       putreg ISX012_REG_ISO r ISX012_SIZE_ISO).

Definition lock_bits (x : Z) : Z :=
  Z.lor (if Z.land x IMGSENSOR_LOCK_EXPOSURE =? IMGSENSOR_LOCK_EXPOSURE
         then REGVAL_CPUEXT_BIT_AESTOP else 0)
        (if Z.land x IMGSENSOR_LOCK_WHITE_BALANCE =? IMGSENSOR_LOCK_WHITE_BALANCE
         then REGVAL_CPUEXT_BIT_AWBSTOP else 0).

(** Only the result of the last write is returned. *)

Definition set_3a_parameter (v : value_union) : IX Z :=
  red ← lift (mem_at 2 (v_mem v) 0);
  putreg INIT_CONT_INR red 2;;
  putreg INIT_CONT_OUTR red 2;;
  blue ← lift (mem_at 2 (v_mem v) 1);
  putreg INIT_CONT_INB blue 2;;
  putreg INIT_CONT_OUTB blue 2;;
  level ← lift (mem_at 2 (v_mem v) 2);
  putreg AE_START_LEVEL level 2.

(** The controls from brightness to gamma curve. *)

Definition set_value_basic (id size : Z) (v : value_union) (k : IX Z) : IX Z :=
  let x := v_int v in
  if id =? IMGSENSOR_ID_BRIGHTNESS then
    checked x ISX012_MIN_BRIGHTNESS ISX012_MAX_BRIGHTNESS ISX012_STEP_BRIGHTNESS
      (putreg ISX012_REG_BRIGHTNESS x ISX012_SIZE_BRIGHTNESS)
  else if id =? IMGSENSOR_ID_CONTRAST then
    checked x ISX012_MIN_CONTRAST ISX012_MAX_CONTRAST ISX012_STEP_CONTRAST
      (putreg ISX012_REG_CONTRAST x ISX012_SIZE_CONTRAST)
  else if id =? IMGSENSOR_ID_SATURATION then
    checked x ISX012_MIN_SATURATION ISX012_MAX_SATURATION ISX012_STEP_SATURATION
      (putreg ISX012_REG_SATURATION x ISX012_SIZE_SATURATION)
  else if id =? IMGSENSOR_ID_HUE then
    checked x ISX012_MIN_HUE ISX012_MAX_HUE ISX012_STEP_HUE
      (putreg ISX012_REG_HUE x ISX012_SIZE_HUE)
  else if id =? IMGSENSOR_ID_AUTO_WHITE_BALANCE then
    checked x ISX012_MIN_AUTOWB ISX012_MAX_AUTOWB ISX012_STEP_AUTOWB
      (put_bit ISX012_REG_AUTOWB ISX012_SIZE_AUTOWB REGVAL_CPUEXT_BIT_AWBSTOP (x =? 0))
  else if id =? IMGSENSOR_ID_GAMMA_CURVE then set_gamma size v
  else k.

(** Exposure, mirroring, sharpness. *)

Definition set_value_picture (id : Z) (v : value_union) (k : IX Z) : IX Z :=
  let x := v_int v in
  if id =? IMGSENSOR_ID_EXPOSURE then
    checked x ISX012_MIN_EXPOSURE ISX012_MAX_EXPOSURE ISX012_STEP_EXPOSURE
      (putreg ISX012_REG_EXPOSURE x ISX012_SIZE_EXPOSURE)
  else if id =? IMGSENSOR_ID_HFLIP_VIDEO then
    checked x ISX012_MIN_HFLIP ISX012_MAX_HFLIP ISX012_STEP_HFLIP
      (put_bit ISX012_REG_HFLIP ISX012_SIZE_HFLIP REGVAL_READVECT_BIT_H (negb (x =? 0)))
  else if id =? IMGSENSOR_ID_VFLIP_VIDEO then
    checked x ISX012_MIN_VFLIP ISX012_MAX_VFLIP ISX012_STEP_VFLIP
      (put_bit ISX012_REG_VFLIP ISX012_SIZE_VFLIP REGVAL_READVECT_BIT_V (negb (x =? 0)))
  else if id =? IMGSENSOR_ID_HFLIP_STILL then
    checked x ISX012_MIN_HFLIP_STILL ISX012_MAX_HFLIP_STILL ISX012_STEP_HFLIP_STILL
      (put_bit ISX012_REG_HFLIP_STILL ISX012_SIZE_HFLIP_STILL REGVAL_READVECT_BIT_H (negb (x =? 0)))
  else if id =? IMGSENSOR_ID_VFLIP_STILL then
    checked x ISX012_MIN_VFLIP_STILL ISX012_MAX_VFLIP_STILL ISX012_STEP_VFLIP_STILL
      (put_bit ISX012_REG_VFLIP_STILL ISX012_SIZE_VFLIP_STILL REGVAL_READVECT_BIT_V (negb (x =? 0)))
  else if id =? IMGSENSOR_ID_SHARPNESS then
    checked x ISX012_MIN_SHARPNESS ISX012_MAX_SHARPNESS ISX012_STEP_SHARPNESS
      (putreg ISX012_REG_SHARPNESS x ISX012_SIZE_SHARPNESS)
  else k.

(** Colour effects, exposure time, dynamic range, sensitivity. *)

Definition set_value_mode (id : Z) (v : value_union) (k : IX Z) : IX Z :=
  let x := v_int v in
  if id =? IMGSENSOR_ID_COLOR_KILLER then
    checked x ISX012_MIN_COLORKILLER ISX012_MAX_COLORKILLER ISX012_STEP_COLORKILLER
      (putreg ISX012_REG_COLORKILLER
         (if negb (x =? 0) then REGVAL_EFFECT_MONOTONE else REGVAL_EFFECT_NONE)
         ISX012_SIZE_COLORKILLER)
  else if id =? IMGSENSOR_ID_COLORFX then
    put_menu g_isx012_colorfx_actual g_isx012_colorfx_regval x ISX012_REG_COLOREFFECT
      ISX012_SIZE_COLOREFFECT
  else if id =? IMGSENSOR_ID_EXPOSURE_AUTO then set_exposure_auto x
  else if id =? IMGSENSOR_ID_EXPOSURE_ABSOLUTE then
    checked x ISX012_MIN_EXPOSURETIME ISX012_MAX_EXPOSURETIME ISX012_STEP_EXPOSURETIME
      (putreg ISX012_REG_EXPOSURETIME x ISX012_SIZE_EXPOSURETIME)
  else if id =? IMGSENSOR_ID_WIDE_DYNAMIC_RANGE then
    checked x ISX012_MIN_YGAMMA ISX012_MAX_YGAMMA ISX012_STEP_YGAMMA
      (putreg ISX012_REG_YGAMMA
         (if negb (x =? 0) then REGVAL_YGAMMA_AUTO else REGVAL_YGAMMA_OFF) ISX012_SIZE_YGAMMA)
  else if id =? IMGSENSOR_ID_ISO_SENSITIVITY then
    put_menu g_isx012_iso_actual g_isx012_iso_regval x ISX012_REG_ISO ISX012_SIZE_ISO
  else k.

Definition isx012_set_value (id size : Z) (v : value_union) : IX Z :=
  let x := v_int v in
  set_value_basic id size v (set_value_picture id v (set_value_mode id v (
    if id =? IMGSENSOR_ID_ISO_SENSITIVITY_AUTO then set_iso_auto x
    else if id =? IMGSENSOR_ID_EXPOSURE_METERING then
      put_menu g_isx012_photometry_actual g_isx012_photometry_regval x ISX012_REG_PHOTOMETRY
        ISX012_SIZE_PHOTOMETRY
    else if id =? IMGSENSOR_ID_AUTO_N_PRESET_WB then
      put_menu g_isx012_presetwb_actual g_isx012_presetwb_regval x ISX012_REG_PRESETWB
        ISX012_SIZE_PRESETWB
    else if id =? IMGSENSOR_ID_3A_LOCK then
      checked x ISX012_MIN_3ALOCK ISX012_MAX_3ALOCK ISX012_STEP_3ALOCK
        (putreg ISX012_REG_3ALOCK (lock_bits x) ISX012_SIZE_3ALOCK)
    else if id =? IMGSENSOR_ID_3A_PARAMETER then set_3a_parameter v
    else if id =? IMGSENSOR_ID_JPEG_QUALITY then
      checked x ISX012_MIN_JPGQUALITY ISX012_MAX_JPGQUALITY ISX012_STEP_JPGQUALITY
        (putreg ISX012_REG_JPGQUALITY x ISX012_SIZE_JPGQUALITY)
    else if id =? IMGSENSOR_ID_CLIP_VIDEO then set_clip size (v_mem v) set_cvideo
    else if id =? IMGSENSOR_ID_CLIP_STILL then set_clip size (v_mem v) set_cstill
    else mret (- EINVAL)))).

End Controls.

(** [isx012_initialize], after [imgsensor_register] has returned [ret]. *)

Definition isx012_initialize (ret : Z) : IX Z :=
  if negb (ret =? OK) then mret ret
  else modify (set_state STATE_ISX012_POWEROFF);; modify (set_lock 1);; mret OK.

(** [isx012_read_register]: the bytes stored at [buf] ([None] is [NULL]). *)

Definition isx012_read_register (hw : isx_hw) (addr size : Z) (buf : option (list Z)) :
    IX (Z * option (list Z)) :=
  match buf with
  | None => mret (- EINVAL, None)
  | Some m =>
    if 2 <? size then mret (- EINVAL, buf)
    else
      x ← isx012_getreg hw addr size;
      if (Z.to_nat size <=? length m)%nat
      then mret (OK, Some (le_bytes (Z.to_nat size) x ++ drop (Z.to_nat size) m))
      else ub OutOfBounds
  end.

End Isx012.
