(* ===== verification/IsxSafe.v ===== *)
(** * The sensor driver always answers

    Whatever the sensor and the bus do, every operation of [Isx012] returns and
    gives the bus lock back, with the exceptions the theorems name; polling ends
    within its timeout. *)

From S2P Require Import Prelude VideoState VideoCtrl VideoDrv IsxRegs Isx012.
Import VideoState VideoCtrl IsxRegs Isx012.

Module IsxSafe.

(** [m] started with the lock free returns, and frees the lock. *)

Definition calm {A} (m : IX A) : Prop :=
  forall p, i_lock p = 1 -> wp m (fun _ p' => i_lock p' = 1) p.

Create HintDb calm.

Lemma calm_ret {A} (a : A) : calm (mret a).
Proof. intros p Hp. by apply wp_ret. Qed.

Lemma calm_bind {A B} (m : IX A) (f : A -> IX B) :
  calm m -> (forall a, calm (f a)) -> calm (m ≫= f).
Proof.
  intros Hm Hf p Hp. apply wp_bind. eapply wp_mono; [by apply Hm|]. intros a p' Hp'. by apply Hf.
Qed.

Lemma calm_get : calm get.
Proof. intros p Hp. by apply wp_get. Qed.

Lemma calm_modify f : (forall p, i_lock (f p) = i_lock p) -> calm (modify f).
Proof. intros Hf p Hp. apply wp_modify. by rewrite Hf. Qed.

Lemma calm_ev e : calm (ev e).
Proof. by apply calm_modify. Qed.

Lemma calm_lift {A} (o : outcome A) a : o = Ret a -> calm (lift o).
Proof. intros -> p Hp. by eapply wp_lift. Qed.

#[export] Hint Resolve calm_ret calm_get calm_ev : calm.
#[export] Hint Extern 2 (calm (modify _)) => (apply calm_modify; reflexivity) : calm.

(** Take a program apart: binds, conditionals, known parts. *)

Ltac calm :=
  repeat lazymatch goal with
  | |- forall _, _ => intros ?
  | |- calm (mbind _ _) => apply calm_bind
  | |- calm (match _ with _ => _ end) => case_match
  | |- calm (let _ := _ in _) => cbv zeta
  | |- calm (lift _) => eapply calm_lift; (reflexivity || eassumption)
  | |- calm _ => solve [auto with calm]
  end.

Lemma calm_each {A} (l : list A) (f : A -> IX Z) ret :
  (forall x, x ∈ l -> calm (f x)) -> calm (each l f ret).
Proof.
  revert ret. induction l as [|x l IH]; intros ret Hf; cbn [each]; [calm|].
  apply calm_bind; [apply Hf, list_elem_of_here|]. intros r. case_match; [calm|].
  apply IH. intros y Hy. apply Hf. by apply list_elem_of_further.
Qed.

Section Hardware.

Context (hw : isx_hw).

(** ** Register access *)

Lemma getreg_run p a n (Hp : i_lock p = 1) (Hn : n <= 2) :
  exists r es, isx012_getreg hw a n p =
    Ret (r, mk_dev 1 (i_addr p) (i_freq p) (i_state p) (i_mode p) (i_clip_video p) (i_clip_still p)
              (es ++ i_bus p)) /\ 0 <= r < 65536 /\ (length es <= 2)%nat.
Proof.
  unfold isx012_getreg. rewrite (proj2 (Z.ltb_ge 2 n)) by lia.
  destruct p as [lk ad fq st mo cv cs bus]; simpl in Hp; subst lk. munfold. simpl.
  assert (Hb : forall l, Forall byte l -> (length l <= 2)%nat -> 0 <= le_value l < 65536).
  { intros l Hl Hlen. destruct l as [|x [|y [|z l]]]; simpl in *; [lia| | |lia];
      rewrite !Forall_cons in Hl; unfold byte in Hl; lia. }
  destruct (_ <? 0).
  - eexists 0, [_]. simpl. case_match; [|split_and!; [done|lia..]].
    rewrite take_nil. simpl. split_and!; [done|lia..].
  - destruct (hw_read hw _ n) as [ret bytes] eqn:E.
    eexists _, [_; _]. split; [reflexivity|]. split; [|simpl; lia]. case_match; [|lia].
    apply Hb.
    + apply Forall_take, Forall_app. split.
      * apply Forall_take, Forall_fmap, Forall_forall. intros x _. simpl. apply u8_range.
      * apply Forall_drop. unfold reg_bytes. repeat constructor; try apply u8_range.
        -- apply Z.land_nonneg. lia.
        -- rewrite (Z.land_ones _ 8) by lia. apply Z.mod_pos_bound. lia.
    + rewrite length_take. lia.
Qed.

Lemma putreg_run p a v n (Hp : i_lock p = 1) (Hn : n <= 2) :
  exists b, isx012_putreg hw a v n p =
    Ret (hw_write hw (i_bus p) b,
         mk_dev 1 (i_addr p) (i_freq p) (i_state p) (i_mode p) (i_clip_video p) (i_clip_still p)
           (BusWrite (i_freq p) (i_addr p) b :: i_bus p)) /\
    b = reg_bytes a ++ le_bytes (Z.to_nat n) (u16 v).
Proof.
  unfold isx012_putreg. rewrite (proj2 (Z.ltb_ge 2 n)) by lia.
  destruct p as [lk ad fq st mo cv cs bus]; simpl in Hp; subst lk. munfold. simpl. by eexists.
Qed.

Lemma calm_getreg a n : n <= 2 -> calm (isx012_getreg hw a n).
Proof. intros Hn p Hp. destruct (getreg_run p a n) as (r & es & E & _); [done..|]. by eapply wp_run. Qed.

Lemma calm_putreg a v n : n <= 2 -> calm (isx012_putreg hw a v n).
Proof. intros Hn p Hp. destruct (putreg_run p a v n) as (b & E & _); [done..|]. by eapply wp_run. Qed.

Hint Extern 1 (calm (isx012_getreg _ _ _)) => (apply calm_getreg; vm_compute; discriminate) : calm.
Hint Extern 1 (calm (isx012_putreg _ _ _ _)) => (apply calm_putreg; vm_compute; discriminate) : calm.

(** ** Polling *)

Lemma calm_chk_loop n sts wait timeout time :
  1 <= wait -> 0 <= time -> timeout + wait < 4294967296 -> timeout <= time + Z.of_nat n ->
  calm (chk_loop hw n sts wait timeout time).
Proof.
  intros Hw. revert time. induction n as [|n IH]; intros time H0 Hr Hn; cbn [chk_loop].
  - rewrite (proj2 (Z.ltb_ge time timeout)) by lia. calm.
  - destruct (time <? timeout) eqn:E; [|calm]. apply Z.ltb_lt in E.
    apply calm_bind; [calm|]. intros d. case_match; [calm|]. apply calm_bind; [calm|]. intros _.
    apply IH; unfold u32; rewrite ?Z.mod_small by lia; lia.
Qed.

Lemma calm_chk sts delay wait timeout :
  1 <= wait -> 0 <= timeout -> timeout + wait < 4294967296 ->
  calm (isx012_chk_int_state hw sts delay wait timeout).
Proof. intros. apply calm_bind; [calm|]. intros _. apply calm_chk_loop; lia. Qed.

Hint Extern 1 (calm (isx012_chk_int_state _ _ _ _ _)) =>
  (apply calm_chk; vm_compute; first [discriminate | reflexivity]) : calm.

Lemma calm_skip n : calm (skip_frames hw n).
Proof. induction n as [|n IH]; cbn [skip_frames]; calm. Qed.

Hint Resolve calm_skip : calm.

(** ** Initialisation *)

Lemma calm_reglist l : Forall (fun e => regsize e <= 2) l -> calm (isx012_putreglist hw l).
Proof.
  intros Hl. apply calm_each. intros e He. apply calm_putreg. by eapply Forall_forall in Hl.
Qed.

(** Every element the loops name is in the table. *)

Definition table_ok (data : list (list Z)) (num size : Z) : bool :=
  forallb (fun u => forallb (fun s => match cell data u s with Ret _ => true | _ => false end)
             (seqZ 0 size)) (seqZ 0 num).

Lemma table_cell data num size u s :
  table_ok data num size = true -> u ∈ seqZ 0 num -> s ∈ seqZ 0 size -> exists v, cell data u s = Ret v.
Proof.
  unfold table_ok. rewrite forallb_forall. intros H Hu Hs.
  apply list_elem_of_In in Hu. apply list_elem_of_In in Hs.
  specialize (H u Hu). rewrite forallb_forall in H. specialize (H s Hs).
  destruct (cell data u s) as [v| |]; [by exists v|done..].
Qed.

Lemma calm_units unit data num size :
  table_ok data num size = true -> calm (put_units hw unit data num size).
Proof.
  intros Ht. apply calm_each. intros u Hu. apply calm_each. intros s Hs.
  destruct (table_cell _ _ _ _ _ Ht Hu Hs) as [v Hv].
  apply calm_bind; [by eapply calm_lift|]. intros. by apply calm_putreg.
Qed.

Hint Extern 1 (calm (put_units _ _ _ _ _)) => (apply calm_units; vm_compute; reflexivity) : calm.
Hint Extern 1 (calm (isx012_putreglist _ _)) =>
  (apply calm_reglist; repeat (constructor; [vm_compute; discriminate|]); constructor) : calm.

Lemma calm_or_fail m k : calm m -> calm k -> calm (or_fail m k).
Proof. unfold or_fail. calm. Qed.
Lemma calm_or_reset m k : calm m -> calm k -> calm (or_reset m k).
Proof. unfold or_reset. calm. Qed.

Lemma calm_shd : calm (isx012_set_shd hw).
Proof.
  unfold isx012_set_shd.
  repeat first [apply calm_or_fail; [auto with calm|] | apply calm_or_reset; [auto with calm|]].
  auto with calm.
Qed.

Hint Resolve calm_shd : calm.

Lemma calm_init : calm (isx012_init hw).
Proof.
  unfold isx012_init, init_isx012, wait_om, or_reset. calm.
Qed.

Lemma calm_uninit : calm (isx012_uninit hw).
Proof. unfold isx012_uninit. calm. Qed.

Hint Resolve calm_init calm_uninit : calm.

Lemma calm_available : calm (isx012_is_available hw).
Proof. unfold isx012_is_available. calm. Qed.

(** ** Controls *)

(** The sensor does not report an automatic exposure of 2^31 microseconds. *)

Definition exposure_sane : Prop := forall p r p',
  isx012_getreg hw ISX012_REG_EXPOSUREAUTOVALUE_MSB ISX012_SIZE_EXPOSUREAUTOVALUE p = Ret (r, p') ->
  r < 32768.

(** The array behind the pointer of a control has the size the caller says, and
    the three elements [IMGSENSOR_ID_3A_PARAMETER] uses. *)

Definition room (id size : Z) (v : value_union) : Prop :=
  (Z.to_nat size <= length (v_mem v))%nat /\
  (id = IMGSENSOR_ID_3A_PARAMETER -> (6 <= length (v_mem v))%nat).

Lemma mem_at_ok w m k : (w * k + w <= length m)%nat -> exists x, mem_at w m k = Ret x.
Proof.
  intros H. unfold mem_at. rewrite length_take, length_drop, (proj2 (Nat.eqb_eq _ _)) by lia. by eexists.
Qed.

Lemma le_bytes_length n z : length (le_bytes n z) = n.
Proof. revert z. induction n; intros z; simpl; auto. Qed.

Lemma mem_set16_ok m k v : (2 * k + 2 <= length m)%nat ->
  exists m', mem_set16 m k v = Ret m' /\ length m' = length m.
Proof.
  intros H. unfold mem_set16. rewrite (proj2 (Nat.leb_le _ _) H). eexists. split; [done|].
  rewrite !length_app, length_take, length_drop, le_bytes_length. lia.
Qed.

Lemma calm_set16 {B} m k x (f : list Z -> IX B) :
  (2 * k + 2 <= length m)%nat -> (forall m', length m' = length m -> calm (f m')) ->
  calm (lift (mem_set16 m k x) ≫= f).
Proof.
  intros Hm Hf p Hp. destruct (mem_set16_ok m k x Hm) as (m' & E & Hl).
  apply wp_bind. eapply wp_lift; [exact E|]. by apply Hf.
Qed.

Lemma calm_exposure : exposure_sane -> calm (auto_exposure hw).
Proof.
  intros He p Hp. unfold auto_exposure. apply wp_bind.
  destruct (getreg_run p ISX012_REG_EXPOSUREAUTOVALUE_LSB ISX012_SIZE_EXPOSUREAUTOVALUE)
    as (l & es & E & _); [done|by vm_compute|]. eapply wp_run; [exact E|]. clear E.
  set (p1 := mk_dev _ _ _ _ _ _ _ _). apply wp_bind.
  destruct (getreg_run p1 ISX012_REG_EXPOSUREAUTOVALUE_MSB ISX012_SIZE_EXPOSUREAUTOVALUE)
    as (h & es' & E & Hr & _); [done|by vm_compute|]. pose proof (He _ _ _ E).
  eapply wp_run; [exact E|]. apply wp_bind.
  eapply wp_lift; [apply int_ok|by apply wp_ret].
  rewrite Z.shiftl_mul_pow2 by lia. unfold INT_MIN, INT_MAX. lia.
Qed.

Lemma calm_read_gamma n cnt src m :
  (2 * (cnt + n) <= length m)%nat -> calm (read_gamma hw n cnt src m).
Proof.
  revert cnt src m. induction n as [|n IH]; intros cnt src m Hm; cbn [read_gamma]; [calm|].
  apply calm_bind; [auto with calm|]. intros x. apply calm_set16; [lia|]. intros m' Hl.
  apply IH. lia.
Qed.

Lemma calm_checked x lo hi st k : calm k -> calm (checked x lo hi st k).
Proof. unfold checked. calm. Qed.

Lemma calm_write_gamma n cnt dst ret m :
  (2 * (cnt + n) <= length m)%nat -> calm (write_gamma hw n cnt dst ret m).
Proof.
  revert cnt dst ret. induction n as [|n IH]; intros cnt dst ret Hm; cbn [write_gamma]; [calm|].
  destruct (mem_at_ok 2 m cnt) as [x E]; [lia|].
  apply calm_bind; [by eapply calm_lift|]. intros y. apply calm_checked, calm_bind; [auto with calm|].
  intros r. apply IH. lia.
Qed.

Lemma calm_set_clip size m target :
  (Z.to_nat size <= length m)%nat -> (forall r p, i_lock (target r p) = i_lock p) ->
  calm (set_clip size m target).
Proof.
  intros Hm Ht. unfold set_clip, validate_clip_setting.
  destruct (size =? IMGSENSOR_CLIP_NELEM * 4) eqn:E; cbn [negb].
  - apply Z.eqb_eq in E. subst size. change (Z.to_nat (_ * 4)) with 16%nat in Hm.
    assert (forall k, (k < 4)%nat -> exists x, mem_at 4 m k = Ret x) as H
      by (intros; apply mem_at_ok; lia).
    destruct (H (Z.to_nat IMGSENSOR_CLIP_INDEX_WIDTH)) as [w ->]; [vm_compute; lia|].
    destruct (H (Z.to_nat IMGSENSOR_CLIP_INDEX_HEIGHT)) as [h ->]; [vm_compute; lia|].
    destruct (H (Z.to_nat IMGSENSOR_CLIP_INDEX_LEFT)) as [l ->]; [vm_compute; lia|].
    destruct (H (Z.to_nat IMGSENSOR_CLIP_INDEX_TOP)) as [t ->]; [vm_compute; lia|].
    repeat (apply calm_bind; [by eapply calm_lift|intros ?]). case_match; [auto with calm|].
    repeat (apply calm_bind; [by eapply calm_lift|intros ?]).
    apply calm_bind; [by apply calm_modify|auto with calm].
  - intros p Hp. apply wp_bind. eapply wp_lift; [done|]. by apply wp_ret.
Qed.

Lemma calm_set_3a v : (6 <= length (v_mem v))%nat -> calm (set_3a_parameter hw v).
Proof.
  intros Hm. unfold set_3a_parameter.
  destruct (mem_at_ok 2 (v_mem v) 0) as [x ->]; [lia|].
  destruct (mem_at_ok 2 (v_mem v) 1) as [y ->]; [lia|].
  destruct (mem_at_ok 2 (v_mem v) 2) as [z ->]; [lia|].
  calm.
Qed.

Lemma calm_get_3a size v : (6 <= length (v_mem v))%nat -> calm (get_3a_parameter hw size v).
Proof.
  intros Hm. unfold get_3a_parameter. case_bool_decide; [calm|]. case_match; [calm|].
  apply calm_bind; [auto with calm|]. intros x. apply calm_set16; [lia|]. intros m0 Hl0.
  apply calm_bind; [auto with calm|]. intros y. apply calm_set16; [lia|]. intros m1 Hl1.
  apply calm_bind; [auto with calm|]. intros z. apply calm_set16; [lia|]. calm.
Qed.

Hint Resolve calm_checked calm_exposure : calm.

Lemma calm_set_value id size v :
  (id = IMGSENSOR_ID_EXPOSURE_AUTO -> exposure_sane) -> room id size v -> calm (isx012_set_value hw id size v).
Proof.
  intros He [Hs H3].
  unfold isx012_set_value, set_value_basic, set_value_picture, set_value_mode, put_menu, put_bit,
    set_gamma, set_exposure_auto, set_iso_auto.
  repeat lazymatch goal with
  | |- calm (if ?b then _ else _) => let E := fresh in destruct b eqn:E
  | |- calm (checked _ _ _ _ _) => apply calm_checked
  | |- calm (match ?b with _ => _ end) => destruct b
  | |- calm (let _ := _ in _) => cbv zeta
  | |- calm (mbind _ (auto_exposure _)) => apply calm_bind; [apply calm_exposure, He; by apply Z.eqb_eq|intros ?]
  | |- calm (mbind _ _) => apply calm_bind; [auto with calm|intros ?]
  | |- calm (isx012_putreg _ _ _ _) => auto with calm
  end; auto with calm.
  - apply calm_write_gamma. to_prop. subst. change (Z.to_nat (_ * 2)) with 38%nat in *.
    change (Z.to_nat ISX012_ELEMS_GAMMACURVE) with 19%nat. lia.
  - apply calm_set_3a, H3. by apply Z.eqb_eq.
  - by apply calm_set_clip.
  - by apply calm_set_clip.
Qed.

Lemma calm_get_value id size v :
  (id = IMGSENSOR_ID_EXPOSURE_ABSOLUTE -> exposure_sane) -> room id size v -> calm (isx012_get_value hw id size v).
Proof.
  intros He [Hs H3].
  unfold isx012_get_value, get_value_basic, answer_menu, get_gamma, get_3a_status, answer.
  repeat lazymatch goal with
  | |- calm (if ?b then _ else _) => let E := fresh in destruct b eqn:E
  | |- calm (match ?b with _ => _ end) => destruct b
  | |- calm (let _ := _ in _) => cbv zeta
  | |- calm (mbind _ (isx012_getreg _ _ _)) => apply calm_bind; [auto with calm|intros ?]
  | |- calm (mbind _ (auto_exposure _)) => apply calm_bind; [apply calm_exposure, He; by apply Z.eqb_eq|intros ?]
  end; calm.
  - apply calm_read_gamma. to_prop. subst.
    change (Z.to_nat (_ * 2)) with 38%nat in *.
    change (Z.to_nat ISX012_ELEMS_GAMMACURVE) with 19%nat. lia.
  - apply calm_get_3a, H3. by apply Z.eqb_eq.
Qed.

(** ** The time a poll takes *)

(** The microseconds slept in a list of events. *)

Fixpoint slept (es : list bus_event) : Z :=
  match es with
  | [] => 0
  | Usleep us :: es' => us + slept es'
  | _ :: es' => slept es'
  end.

Lemma slept_app es es' : slept (es ++ es') = slept es + slept es'.
Proof. induction es as [|[] es IH]; simpl; lia. Qed.

(** [m] returns, and has slept for at most [T] microseconds. *)

Definition within {A} (T : Z) (m : IX A) (p : isx012_dev) : Prop :=
  exists a p' es, m p = Ret (a, p') /\ i_lock p' = 1 /\ i_bus p' = es ++ i_bus p /\ slept es <= T.

Lemma getreg_within p a n : i_lock p = 1 -> n <= 2 -> within 0 (isx012_getreg hw a n) p.
Proof.
  intros Hp Hn. unfold isx012_getreg, within. rewrite (proj2 (Z.ltb_ge 2 n)) by lia.
  destruct p as [lk ad fq st mo cv cs bus]; simpl in Hp; subst lk. munfold. simpl.
  destruct (_ <? 0).
  - eexists _, _, [_]. done.
  - destruct (hw_read hw _ n) as [ret bytes]. by eexists _, _, [_; _].
Qed.

Lemma putreg_within p a v n : i_lock p = 1 -> n <= 2 -> within 0 (isx012_putreg hw a v n) p.
Proof.
  intros Hp Hn. destruct (putreg_run p a v n Hp Hn) as (b & E & _).
  eexists _, _, [_]. split; [exact E|]. done.
Qed.

Lemma within_bind {A B} T1 T2 (m : IX A) (f : A -> IX B) p :
  within T1 m p -> (forall a p', i_lock p' = 1 -> within T2 (f a) p') -> within (T1 + T2) (m ≫= f) p.
Proof.
  intros (a & p1 & es1 & E1 & L1 & B1 & S1) Hf.
  destruct (Hf a p1 L1) as (b & p2 & es2 & E2 & L2 & B2 & S2).
  exists b, p2, (es2 ++ es1). split_and!; [|done| |].
  - unfold mbind, M_bind. by rewrite E1.
  - by rewrite B2, B1, app_assoc.
  - rewrite slept_app. lia.
Qed.

Lemma within_ret {A} (a : A) p : i_lock p = 1 -> within 0 (mret a) p.
Proof. intros Hp. by exists a, p, []. Qed.

Lemma within_mono {A} T T' (m : IX A) p : within T m p -> T <= T' -> within T' m p.
Proof. intros (a & p' & es & ? & ? & ? & ?) HT. exists a, p', es. split_and!; [done..|lia]. Qed.

Lemma within_sleep us p : i_lock p = 1 -> within us (ev (Usleep us)) p.
Proof. intros Hp. exists tt, (push (Usleep us) p), [Usleep us]. split_and!; simpl; [done..|lia]. Qed.

Lemma chk_loop_within n sts wait timeout time p :
  1 <= wait -> 0 <= time -> (timeout + wait) * 1000 < 4294967296 -> timeout <= time + Z.of_nat n ->
  i_lock p = 1 ->
  within (1000 * Z.max 0 (timeout - time + wait - 1)) (chk_loop hw n sts wait timeout time) p.
Proof.
  intros Hw. revert time p. induction n as [|n IH]; intros time p H0 Hr Hn Hp; cbn [chk_loop].
  { rewrite (proj2 (Z.ltb_ge time timeout)) by lia. eapply within_mono; [by apply within_ret|lia]. }
  destruct (time <? timeout) eqn:E; [|eapply within_mono; [by apply within_ret|lia]]. apply Z.ltb_lt in E.
  replace (1000 * _) with (0 + 1000 * Z.max 0 (timeout - time + wait - 1)) by lia.
  apply within_bind; [by apply getreg_within|]. intros d p1 Hp1.
  case_match; [eapply within_mono; [by apply putreg_within|lia]|].
  apply within_mono with (wait * 1000 + 1000 * Z.max 0 (timeout - (time + wait) + wait - 1)); [|lia].
  apply within_bind.
  - unfold u32. rewrite Z.mod_small by lia. by apply within_sleep.
  - intros _ p2 Hp2. unfold u32. rewrite Z.mod_small by lia. apply IH; [lia..|done].
Qed.

(** Polling ends: whatever the sensor answers, [isx012_chk_int_state]
    returns, gives the bus lock back, and has slept for no longer than the delay
    and the timeout rounded up to whole waits. *)
Theorem polling_ends sts delay wait timeout p
    (Hw : 1 <= wait) (Ht : 0 <= timeout) (Hd : 0 <= delay)
    (Hr : (delay + timeout + wait) * 1000 < 4294967296) (Hp : i_lock p = 1) :
  within (1000 * (delay + timeout + wait - 1)) (isx012_chk_int_state hw sts delay wait timeout) p.
Proof.
  apply within_mono with (delay * 1000 + 1000 * Z.max 0 (timeout - 0 + wait - 1)); [|lia].
  unfold isx012_chk_int_state. apply within_bind.
  - unfold u32. rewrite Z.mod_small by lia. by apply within_sleep.
  - intros _ p1 Hp1. apply chk_loop_within; [lia..|done].
Qed.

(** C35: the driver always answers: whatever the sensor, the bus and the power
    lines do, initialisation, shutdown, the test for a connected sensor and
    every control request return and give the bus lock back.  The array a caller
    passes with a control has the size it says, and three elements for
    [IMGSENSOR_ID_3A_PARAMETER] ([room]).  The two requests that read the
    automatic exposure, setting [IMGSENSOR_ID_EXPOSURE_AUTO] and getting
    [IMGSENSOR_ID_EXPOSURE_ABSOLUTE], need a sensor that reports less than 2^31
    microseconds; all others do not. *)
Theorem sensor_always_answers p (Hp : i_lock p = 1) :
  let free {A} (_ : A) p' := i_lock p' = 1 in
  wp (isx012_init hw) free p /\ wp (isx012_uninit hw) free p /\
  wp (isx012_is_available hw) free p /\
  (forall id size v, room id size v ->
     ((id = IMGSENSOR_ID_EXPOSURE_AUTO -> exposure_sane) -> wp (isx012_set_value hw id size v) free p) /\
     ((id = IMGSENSOR_ID_EXPOSURE_ABSOLUTE -> exposure_sane) -> wp (isx012_get_value hw id size v) free p)).
Proof.
  split_and!; [by apply calm_init|by apply calm_uninit|by apply calm_available|].
  intros id size v Hr. split; intros He; [by apply calm_set_value|by apply calm_get_value].
Qed.

(** ** Starting a capture *)

(** Every result [m] can return satisfies [Q]. *)

Definition post {A} (m : IX A) (Q : A -> Prop) : Prop := forall p a p', m p = Ret (a, p') -> Q a.

Lemma post_bind {A B} (m : IX A) (f : A -> IX B) Q : (forall a, post (f a) Q) -> post (m ≫= f) Q.
Proof. intros Hf p b p' H. apply bind_inv in H as (a & p1 & _ & H). by eapply Hf. Qed.

Lemma post_ret {A} (a : A) (Q : A -> Prop) : Q a -> post (mret a) Q.
Proof. intros HQ p b p' [= <- <-]. done. Qed.

Lemma post_put_or a v n k (Q : Z -> Prop) :
  (forall r, r < 0 -> Q r) -> post k Q -> post (put_or hw a v n k) Q.
Proof.
  intros Hn Hk. apply post_bind. intros r. case_match; [|done]. to_prop. by apply post_ret, Hn.
Qed.

(** The width of [vifmode] does not fit the register access. *)

Lemma post_switch mode addr Q : post (switch_mode hw mode addr) Q.
Proof.
  apply post_bind. intros f. intros p r p' H. apply bind_inv in H as (a & p1 & H & _). done.
Qed.

Lemma post_bind2 {A B} (m : IX A) (f : A -> IX B) P Q :
  post m P -> (forall a, P a -> post (f a) Q) -> post (m ≫= f) Q.
Proof. intros Hm Hf p b p' H. apply bind_inv in H as (a & p1 & Ha & H). by eapply Hf; eauto. Qed.

Lemma post_camera_mode mode : post (isx012_change_camera_mode hw mode) (fun r => r < 0).
Proof.
  apply post_bind. intros p. repeat case_match; try apply post_switch; by apply post_ret.
Qed.

Lemma validate_result nr fmt interval r :
  isx012_validate_frame_setting nr fmt interval = Ret r -> r = OK \/ r = - EINVAL.
Proof.
  unfold isx012_validate_frame_setting. case_match; [naive_solver|].
  destruct (isx012_get_maximum_fps nr fmt); simpl; [|done..]. repeat case_match; naive_solver.
Qed.

Lemma post_set_mode type nr fmt interval :
  post (isx012_set_mode_param hw type nr fmt interval) (fun r => r < 0).
Proof.
  unfold isx012_set_mode_param. apply post_bind. intros fv. apply post_bind. intros p.
  case_match; [by apply post_ret|].
  do 3 (apply post_put_or; [done|]). apply post_bind. intros [[[w h] sw] sh].
  apply post_bind. intros [mw mh]. apply post_bind. intros _.
  do 2 (apply post_put_or; [done|]).
  match goal with |- post (if _ then put_or _ _ _ _ (put_or _ _ _ _ ?rest) else _) _ =>
    assert (Hrest : post rest (fun r => r < 0)) end.
  { apply post_bind. intros q. apply post_bind. intros _.
    eapply post_bind2; [apply post_camera_mode|]. intros r Hr. simpl in Hr.
    case_match; [to_prop; unfold OK in *; lia|by apply post_ret]. }
  case_match; [|done]. by do 2 (apply post_put_or; [done|]).
Qed.

(** A capture never starts within the language: [isx012_putreg] is asked to
    copy the four bytes of [vifmode] from a [uint16_t] into a buffer with two
    bytes left, so every way through [isx012_start_capture] that returns at all
    returns an error. *)
Theorem start_capture_never_ok type nr fmt interval p r p'
    (Hrun : isx012_start_capture hw type nr fmt interval p = Ret (r, p')) : r < 0.
Proof.
  unfold isx012_start_capture in Hrun. apply bind_inv in Hrun as (v & q & Hv & Hrun).
  apply lift_inv in Hv as [Hv ->]. destruct (validate_result _ _ _ _ Hv) as [->| ->]; simpl in Hrun.
  - by eapply post_set_mode.
  - by injection Hrun as <- <-.
Qed.

End Hardware.

(** ** A sensor that answers zero *)

Definition blank_sensor : isx_hw := {|
  hw_write _ _ := OK;
  hw_read _ n := (OK, replicate (Z.to_nat n) 0);
  hw_power_on _ := OK;
  hw_power_off _ := OK
|}.

Definition at_boot : isx012_dev :=
  mk_dev 1 0 0 STATE_ISX012_POWEROFF 0 (mk_irect 0 0 0 0) (mk_irect 0 0 0 0) [].

Lemma blank_sane : exposure_sane blank_sensor.
Proof.
  intros [lk ad fq st mo cv cs bus] r p'. unfold isx012_getreg, i2c_lock. munfold. simpl. unfold sem_wait.
  destruct (0 <? lk); [|done]. by intros [= <- _].
Qed.

(** The sensor never shows the change of state: the wait times out. *)
Lemma polling_ends_witness :
  within (1000 * (DEVICE_STATE_DELAY_TIME + DEVICE_STATE_TIMEOUT + DEVICE_STATE_WAIT_TIME - 1))
    (isx012_chk_int_state blank_sensor OM_CHANGED_STS DEVICE_STATE_DELAY_TIME DEVICE_STATE_WAIT_TIME
       DEVICE_STATE_TIMEOUT) at_boot.
Proof. apply (polling_ends blank_sensor); vm_compute; congruence. Defined.

Lemma sensor_always_answers_witness : i_lock at_boot = 1 /\ exposure_sane blank_sensor /\
  wp (isx012_init blank_sensor) (fun _ p' => i_lock p' = 1) at_boot.
Proof.
  split; [reflexivity|]. split; [exact blank_sane|].
  apply (sensor_always_answers blank_sensor at_boot eq_refl).
Defined.

(** A frame rate that is not supported. *)
Lemma start_capture_never_ok_witness :
  isx012_start_capture blank_sensor 0 1 [mk_format 320 240 0] (mk_fract 1 7) at_boot
    = Ret (- EINVAL, at_boot) /\ - EINVAL < 0.
Proof.
  split; [reflexivity|].
  apply (start_capture_never_ok blank_sensor 0 1 [mk_format 320 240 0] (mk_fract 1 7)
           at_boot (- EINVAL) at_boot eq_refl).
Defined.

End IsxSafe.
