(* ===== verification/IsxCtrl.v ===== *)
(** * The controls of the sensor driver

    The switch statements of [isx012_get_supported_value], [isx012_get_value]
    and [isx012_set_value] against one table: each control is a register with an
    encoding.  From the table: what is offered is what is accepted, a value set
    is the value read back, and controls do not disturb each other. *)

From S2P Require Import Prelude VideoState VideoCtrl VideoDrv IsxRegs Isx012 IsxSafe.
Import VideoState VideoCtrl IsxRegs Isx012 IsxSafe.

Module IsxCtrl.

(** ** The table

    A control: its register, which values it accepts, the register value for a
    control value (given the old register value), which register values stand
    for a control value, and for which. *)

Record control := mk_control {
  c_id : Z; c_reg : Z; c_size : Z; c_accept : Z -> bool; c_keeps : bool;
  c_enc : Z -> Z -> Z; c_valid : Z -> bool; c_dec : Z -> Z }.

Definition in_range (lo hi step : Z) (x : Z) : bool := VALIDATE_VALUE x lo hi step =? OK.

(** A plain number, a signed byte, a bit, a menu. *)

Definition number id reg size lo hi step : control :=
  mk_control id reg size (in_range lo hi step) false (fun _ x => x) (fun _ => true) (fun r => r).
Definition positive id reg size lo hi step : control :=
  mk_control id reg size (in_range lo hi step) false (fun _ x => x) (fun r => negb (r =? 0)) (fun r => r).
Definition signed_byte id reg lo hi step : control :=
  mk_control id reg 1 (in_range lo hi step) false (fun _ x => x) (fun _ => true)
    (fun r => i8 (Z.land 255 r)).
Definition flag id reg bit (inverted : bool) : control :=
  mk_control id reg 1 (in_range 0 1 1) true
    (fun r x => if xorb inverted (negb (x =? 0)) then Z.lor r bit else Z.land r (65535 - bit))
    (fun _ => true)
    (fun r => if xorb inverted (negb (Z.land r bit =? 0)) then 1 else 0).
Definition menu id reg size (actual regval : list Z) : control :=
  mk_control id reg size (fun x => bool_decide (is_Some (search_menu actual regval x))) false
    (fun _ x => default 0 (search_menu actual regval x))
    (fun r => bool_decide (is_Some (search_menu regval actual r)))
    (fun r => default 0 (search_menu regval actual r)).
Definition choice id reg (yes no : Z) : control :=
  mk_control id reg 1 (in_range 0 1 1) false (fun _ x => if negb (x =? 0) then yes else no)
    (fun _ => true) (fun r => if r =? yes then 1 else 0).

Definition controls : list control :=
  [signed_byte IMGSENSOR_ID_BRIGHTNESS UIBRIGHTNESS (-128) 127 1;
   number IMGSENSOR_ID_CONTRAST UICONTRAST 1 0 255 1;
   number IMGSENSOR_ID_SATURATION UISATURATION_TYPE1 1 0 255 1;
   number IMGSENSOR_ID_HUE UIHUE_TYPE1 1 0 255 1;
   flag IMGSENSOR_ID_AUTO_WHITE_BALANCE CPUEXT REGVAL_CPUEXT_BIT_AWBSTOP true;
   signed_byte IMGSENSOR_ID_EXPOSURE EVSEL (-6) 6 1;
   flag IMGSENSOR_ID_HFLIP_VIDEO READVECT_MONI REGVAL_READVECT_BIT_H false;
   flag IMGSENSOR_ID_VFLIP_VIDEO READVECT_MONI REGVAL_READVECT_BIT_V false;
   flag IMGSENSOR_ID_HFLIP_STILL READVECT_CAP REGVAL_READVECT_BIT_H false;
   flag IMGSENSOR_ID_VFLIP_STILL READVECT_CAP REGVAL_READVECT_BIT_V false;
   number IMGSENSOR_ID_SHARPNESS UISHARPNESS_POS_TYPE1 1 0 255 1;
   choice IMGSENSOR_ID_COLOR_KILLER FMODE REGVAL_EFFECT_MONOTONE REGVAL_EFFECT_NONE;
   menu IMGSENSOR_ID_COLORFX FMODE 1 g_isx012_colorfx_actual g_isx012_colorfx_regval;
   positive IMGSENSOR_ID_EXPOSURE_ABSOLUTE SHT_PREMODE_TYPE1 2 1 21000 1;
   choice IMGSENSOR_ID_WIDE_DYNAMIC_RANGE YGAMMA_MODE REGVAL_YGAMMA_AUTO REGVAL_YGAMMA_OFF;
   menu IMGSENSOR_ID_EXPOSURE_METERING AE_SUB_SN1 1 g_isx012_photometry_actual g_isx012_photometry_regval;
   menu IMGSENSOR_ID_AUTO_N_PRESET_WB AWB_SN1 2 g_isx012_presetwb_actual g_isx012_presetwb_regval;
   number IMGSENSOR_ID_JPEG_QUALITY INT_QLTY2 1 1 100 1].

(** Membership in the table, one control at a time. *)

Ltac each_control H :=
  unfold controls in H;
  repeat (apply elem_of_cons in H as [->|H]); [..|by apply elem_of_nil in H].

(** What the table says a request does. *)

Section Spec.

Context (hw : isx_hw).

Definition spec_set (c : control) (x : Z) : IX Z :=
  if c_accept c x then
    if c_keeps c then
      r ← isx012_getreg hw (c_reg c) (c_size c);
      isx012_putreg hw (c_reg c) (c_enc c r x) (c_size c)
    else isx012_putreg hw (c_reg c) (c_enc c 0 x) (c_size c)
  else mret (- EINVAL).

Definition spec_get (c : control) (v : value_union) : IX (Z * value_union) :=
  r ← isx012_getreg hw (c_reg c) (c_size c); answer v (c_dec c r).

(** The shapes of the code for each kind of control. *)

Lemma checked_spec x lo hi st (k : IX Z) p :
  checked x lo hi st k p = if in_range lo hi st x then k p else Ret (- EINVAL, p).
Proof.
  unfold checked, in_range. destruct (_ =? OK) eqn:E; [done|]. cbn [negb].
  unfold VALIDATE_VALUE in *. by case_match.
Qed.

Lemma number_spec id reg size lo hi st x p :
  checked x lo hi st (isx012_putreg hw reg x size) p = spec_set (number id reg size lo hi st) x p.
Proof. rewrite checked_spec. unfold spec_set. simpl. by case_match. Qed.

Lemma positive_spec id reg size lo hi st x p :
  checked x lo hi st (isx012_putreg hw reg x size) p = spec_set (positive id reg size lo hi st) x p.
Proof. rewrite checked_spec. unfold spec_set. simpl. by case_match. Qed.

Lemma signed_spec id reg lo hi st x p :
  checked x lo hi st (isx012_putreg hw reg x 1) p = spec_set (signed_byte id reg lo hi st) x p.
Proof. rewrite checked_spec. unfold spec_set. simpl. by case_match. Qed.

Lemma flag_spec id reg bit inv x p :
  checked x 0 1 1 (put_bit hw reg 1 bit (xorb inv (negb (x =? 0)))) p =
  spec_set (flag id reg bit inv) x p.
Proof. rewrite checked_spec. unfold spec_set. simpl. by case_match. Qed.

Lemma choice_spec id reg yes no x p :
  checked x 0 1 1 (isx012_putreg hw reg (if negb (x =? 0) then yes else no) 1) p =
  spec_set (choice id reg yes no) x p.
Proof. rewrite checked_spec. unfold spec_set. simpl. by case_match. Qed.

Lemma menu_spec id reg size actual regval x p :
  put_menu hw actual regval x reg size p = spec_set (menu id reg size actual regval) x p.
Proof.
  unfold spec_set, put_menu. simpl. case_bool_decide as H.
  - by destruct H as [y ->].
  - destruct (search_menu actual regval x) as [y|]; [|done]. by destruct H.
Qed.

Lemma set_value_spec c size v p : c ∈ controls ->
  isx012_set_value hw (c_id c) size v p = spec_set c (v_int v) p.
Proof.
  intros Hc. each_control Hc; cbn [c_id number positive signed_byte flag menu choice];
    first [rewrite <- number_spec | rewrite <- positive_spec | rewrite <- signed_spec | rewrite <- flag_spec
          | rewrite <- choice_spec | rewrite <- menu_spec]; try reflexivity.
  replace (xorb true (negb (v_int v =? 0))) with (v_int v =? 0) by (by destruct (v_int v =? 0)).
  reflexivity.
Qed.

Lemma get_value_spec c size v p r p' : c ∈ controls ->
  isx012_getreg hw (c_reg c) (c_size c) p = Ret (r, p') -> c_valid c r = true ->
  isx012_get_value hw (c_id c) size v p = Ret ((OK, v_set_int (c_dec c r) v), p').
Proof.
  intros Hc Hg Hv. assert (Hs : forall k : Z -> IX (Z * value_union), (isx012_getreg hw (c_reg c) (c_size c) ≫= k) p = k r p')
    by (intros k; unfold mbind, M_bind; by rewrite Hg).
  each_control Hc;
    cbn [c_id c_reg c_size c_valid c_dec number positive signed_byte flag menu choice] in *;
    (etransitivity; [exact (Hs _)|]); try reflexivity.
  - by destruct (Z.land r REGVAL_CPUEXT_BIT_AWBSTOP =? 0).
  - apply bool_decide_eq_true in Hv as [y E]. unfold answer_menu. by rewrite E.
  - apply negb_true_iff in Hv. unfold REGVAL_EXPOSURETIME_AUTO. by rewrite Hv.
  - unfold REGVAL_YGAMMA_AUTO. by destruct (r =? 0).
  - apply bool_decide_eq_true in Hv as [y E]. unfold answer_menu. by rewrite E.
  - apply bool_decide_eq_true in Hv as [y E]. unfold answer_menu. by rewrite E.
Qed.

End Spec.

(** ** A sensor that keeps its registers *)

(** The byte at address [a] after a history: the last one written. *)

Fixpoint reg_byte (h : list bus_event) (a : Z) : Z :=
  match h with
  | [] => 0
  | BusWrite _ _ (hi :: lo :: data) :: h' =>
    let b := hi * 256 + lo in
    if (b <=? a) && (a <? b + Z.of_nat (length data))
    then nth (Z.to_nat (a - b)) data 0 else reg_byte h' a
  | _ :: h' => reg_byte h' a
  end.

Definition reg_value (h : list bus_event) (a n : Z) : Z :=
  le_value (reg_byte h <$> seqZ a n).

(** Register [a] of [n] bytes keeps what is written to it, and writes succeed. *)

Record keeps (hw : isx_hw) (a n : Z) : Prop := {
  kp_addr : 0 <= a < 65536;
  kp_size : n = 1 \/ n = 2;
  kp_write : forall h b, hw_write hw h b = OK;
  kp_read : forall h f ad,
    hw_read hw (BusWrite f ad (reg_bytes a) :: h) n = (OK, reg_byte h <$> seqZ a n)
}.

(** A sensor with all its registers, whose interrupt flags are always raised. *)

Definition sensor : isx_hw := {|
  hw_write _ _ := OK;
  hw_read h n :=
    match h with
    | BusWrite _ _ [hi; lo] :: h' =>
      let a := hi * 256 + lo in
      (OK, if a =? INTSTS0 then replicate (Z.to_nat n) 255 else reg_byte h' <$> seqZ a n)
    | _ => (- EPERM, [])
    end;
  hw_power_on _ := OK;
  hw_power_off _ := OK
|}.

(** Every byte written is a byte. *)

Definition clean (h : list bus_event) : Prop :=
  Forall (fun e => match e with BusWrite _ _ b => Forall byte b | _ => True end) h.

Lemma reg_byte_range h a : clean h -> byte (reg_byte h a).
Proof.
  induction h as [|e h IH]; intros Hc; cbn [reg_byte]; [unfold byte; lia|].
  apply Forall_cons in Hc as [He Hc]. destruct e; auto.
  destruct bytes as [|hi [|lo data]]; auto. case_match; [|auto]. to_prop.
  destruct (nth_lookup_or_length data (Z.to_nat (a - (hi * 256 + lo))) 0) as [E|]; [|lia].
  rewrite !Forall_cons in He. destruct He as (_ & _ & Hd). by eapply Forall_lookup in Hd.
Qed.

Lemma reg_bytes_value a : 0 <= a < 65536 ->
  exists hi lo, reg_bytes a = [hi; lo] /\ hi * 256 + lo = a /\ byte hi /\ byte lo.
Proof.
  intros Ha. unfold reg_bytes, u16. rewrite Z.mod_small by lia. eexists _, _. split; [done|].
  change 255 with (Z.ones 8). rewrite Z.land_ones, Z.shiftr_div_pow2 by lia. change (2 ^ 8) with 256.
  unfold u8. rewrite (Z.mod_small (a / 256)).
  - split; [pose proof (Z.div_mod a 256); lia|]. split.
    + split; [apply Z.div_pos; lia|apply Z.div_lt_upper_bound; lia].
    + apply Z.mod_pos_bound. lia.
  - split; [apply Z.div_pos; lia|apply Z.div_lt_upper_bound; lia].
Qed.

Lemma reg_bytes_byte a : 0 <= a < 65536 -> Forall byte (reg_bytes a).
Proof.
  intros Ha. destruct (reg_bytes_value a Ha) as (hi & lo & -> & _ & ? & ?).
  constructor; [done|]. constructor; [done|]. constructor.
Qed.

Lemma sensor_keeps a n : 0 <= a < 65536 -> a <> INTSTS0 -> n = 1 \/ n = 2 -> keeps sensor a n.
Proof.
  intros Ha Hi Hn. split; [done..|]. intros h f ad.
  destruct (reg_bytes_value a Ha) as (hi & lo & -> & Hv & _). cbn [sensor hw_read].
  cbv zeta. rewrite Hv. by apply Z.eqb_neq in Hi as ->.
Qed.

Lemma sensor_keeps_controls c : c ∈ controls -> keeps sensor (c_reg c) (c_size c).
Proof. intros Hc. each_control Hc; apply sensor_keeps; by vm_compute; auto. Qed.

Lemma reg_byte_read h f ad a : 0 <= a < 65536 ->
  forall x, reg_byte (BusWrite f ad (reg_bytes a) :: h) x = reg_byte h x.
Proof.
  intros Ha x. destruct (reg_bytes_value a Ha) as (hi & lo & -> & Hv & _). cbn [reg_byte length].
  case_match; [|done]. to_prop. lia.
Qed.

Lemma reg_byte_write h f ad a data x : 0 <= a < 65536 ->
  reg_byte (BusWrite f ad (reg_bytes a ++ data) :: h) x =
    if (a <=? x) && (x <? a + Z.of_nat (length data)) then nth (Z.to_nat (x - a)) data 0
    else reg_byte h x.
Proof.
  intros Ha. destruct (reg_bytes_value a Ha) as (hi & lo & -> & Hv & _). cbn [app reg_byte].
  by rewrite Hv.
Qed.

Lemma seqZ_1 a : seqZ a 1 = [a].
Proof. rewrite seqZ_cons, seqZ_nil by lia. done. Qed.
Lemma seqZ_2 a : seqZ a 2 = [a; a + 1].
Proof. rewrite seqZ_cons by lia. change (Z.pred 2) with 1. by rewrite seqZ_1. Qed.

(** Reading and writing such a register. *)

Lemma getreg_keeps hw p a n :
  keeps hw a n -> i_lock p = 1 -> clean (i_bus p) ->
  exists p', isx012_getreg hw a n p = Ret (reg_value (i_bus p) a n, p') /\ i_lock p' = 1 /\
    clean (i_bus p') /\ (forall x, reg_byte (i_bus p') x = reg_byte (i_bus p) x).
Proof.
  intros [Ha Hn Hw Hr] Hp Hc. unfold isx012_getreg.
  rewrite (proj2 (Z.ltb_ge 2 n)) by lia.
  destruct p as [lk ad fq st mo cv cs bus]; simpl in Hp; subst lk. munfold. simpl. rewrite Hw. simpl.
  rewrite Hr. simpl. eexists. split; [|split_and!].
  - apply (f_equal Ret), f_equal2; [|reflexivity]. unfold reg_value.
    assert (Hb : forall x, u8 (reg_byte bus x) = reg_byte bus x).
    { intros x. apply u8_id, reg_byte_range. done. }
    destruct Hn as [-> | ->]; rewrite ?seqZ_1, ?seqZ_2; simpl; by rewrite !Hb.
  - done.
  - constructor; [done|]. constructor; [by apply reg_bytes_byte|done].
  - intros x. exact (reg_byte_read bus fq ad a Ha x).
Qed.

Lemma le_bytes_byte n z : Forall byte (le_bytes n z).
Proof. revert z. induction n; intros z; simpl; constructor; auto. apply u8_range. Qed.

Lemma putreg_keeps hw p a n v :
  keeps hw a n -> i_lock p = 1 -> clean (i_bus p) ->
  exists p', isx012_putreg hw a v n p = Ret (OK, p') /\ i_lock p' = 1 /\ clean (i_bus p') /\
    reg_value (i_bus p') a n = u16 v mod 256 ^ n /\
    (forall x, ~ (a <= x < a + n) -> reg_byte (i_bus p') x = reg_byte (i_bus p) x).
Proof.
  intros [Ha Hn Hw Hr] Hp Hc. destruct (putreg_run hw p a v n Hp) as (b & E & ->); [lia|].
  rewrite Hw in E. eexists. split; [exact E|]. cbn [i_lock i_bus]. split_and!; [done| | |].
  - constructor; [|done]. apply Forall_app. split; [|apply le_bytes_byte].
    by apply reg_bytes_byte.
  - unfold reg_value. assert (0 <= u16 v < 65536) by (apply Z.mod_pos_bound; lia).
    destruct Hn as [-> | ->]; rewrite ?seqZ_1, ?seqZ_2; cbn [fmap list_fmap];
      rewrite !reg_byte_write by done; rewrite ?le_bytes_length;
      rewrite ?(proj2 (Z.leb_le a a)), ?(proj2 (Z.leb_le a (a + 1))),
        ?(proj2 (Z.ltb_lt a _)), ?(proj2 (Z.ltb_lt (a + 1) _)), ?Z.sub_diag by lia;
      cbn [andb].
    + change (Z.to_nat 1) with 1%nat. change (256 ^ 1) with 256. change (Z.to_nat 0) with 0%nat.
      cbn [le_bytes nth le_value]. unfold u8. lia.
    + replace (a + 1 - a) with 1 by lia.
      change (Z.to_nat 2) with 2%nat. change (Z.to_nat 1) with 1%nat.
      change (Z.to_nat 0) with 0%nat. cbn [le_bytes nth le_value].
      unfold u8. change (256 ^ 2) with 65536.
      rewrite (Z.mod_small (u16 v / 256)), (Z.mod_small (u16 v) 65536); [|lia|].
      * pose proof (Z.div_mod (u16 v) 256). lia.
      * split; [apply Z.div_pos; lia|apply Z.div_lt_upper_bound; lia].
  - intros x Hx. rewrite reg_byte_write by done. rewrite le_bytes_length.
    case_match; [|done]. to_prop. lia.
Qed.

(** ** The encodings *)

Definition stored (c : control) (r x : Z) : Z := u16 (c_enc c r x) mod 256 ^ c_size c.

Lemma search_menu_in from to x y : search_menu from to x = Some y -> x ∈ from.
Proof.
  revert to. induction from as [|f from IH]; intros [|t to]; simpl; try done.
  intros H. case_match.
  - to_prop. subst. apply list_elem_of_here.
  - apply list_elem_of_further. by eapply IH.
Qed.

Lemma search_menu_total from to x : length from = length to -> x ∈ from -> is_Some (search_menu from to x).
Proof.
  revert to. induction from as [|f from IH]; intros [|t to] Hl Hx; simplify_eq/=;
    [by apply elem_of_nil in Hx..|].
  case_match eqn:E; [done|]. apply IH; [done|]. to_prop. apply elem_of_cons in Hx as [->|]; done.
Qed.

(** The values of every control but one are small, so the encodings can be
    checked one by one. *)

Definition small : list Z := seqZ (-128) 384.

Definition encode_check (c : control) : bool :=
  forallb (fun x => if c_accept c x then
      forallb (fun r => c_valid c (stored c r x) && (c_dec c (stored c r x) =? x))
        (if c_keeps c then seqZ 0 256 else [0]) else true) small.

Lemma accept_small c x : c ∈ controls -> c_id c <> IMGSENSOR_ID_EXPOSURE_ABSOLUTE ->
  c_accept c x = true -> x ∈ small.
Proof.
  intros Hc Hid Ha. apply elem_of_seqZ.
  each_control Hc;
    cbn [c_id c_accept number positive signed_byte flag menu choice] in Ha, Hid; try done;
    first
      [ unfold in_range, VALIDATE_VALUE in Ha; case_match; [|done]; to_prop; lia
      | apply bool_decide_eq_true in Ha as [y Hy]; apply search_menu_in in Hy;
        eapply (proj1 (Forall_forall (fun x => -128 <= x < -128 + 384) _)); [|exact Hy];
        repeat constructor; by vm_compute ].
Qed.

Lemma encode_ok c r x : c ∈ controls -> 0 <= r < 256 ^ c_size c -> c_accept c x = true ->
  c_valid c (stored c (if c_keeps c then r else 0) x) = true /\
  c_dec c (stored c (if c_keeps c then r else 0) x) = x.
Proof.
  intros Hc Hr Ha. destruct (decide (c_id c = IMGSENSOR_ID_EXPOSURE_ABSOLUTE)) as [Hid|Hid].
  - each_control Hc; try discriminate. clear Hid. unfold stored. simpl in *.
    unfold in_range, VALIDATE_VALUE in Ha. case_match; [|done]. to_prop.
    unfold u16. change (256 ^ 2) with 65536. rewrite !Z.mod_small by (rewrite ?Z.mod_small; lia).
    split; [|done]. apply negb_true_iff, Z.eqb_neq. lia.
  - pose proof (accept_small c x Hc Hid Ha) as Hx. apply list_elem_of_In in Hx.
    assert (E : encode_check c = true).
    { clear -Hc. each_control Hc; vm_compute; reflexivity. }
    unfold encode_check in E. rewrite forallb_forall in E.
    assert (Hin : In (if c_keeps c then r else 0) (if c_keeps c then seqZ 0 256 else [0])).
    { destruct (c_keeps c) eqn:Ek; [|by left]. apply list_elem_of_In, elem_of_seqZ.
      assert (c_size c = 1) as Es by (clear -Hc Ek; each_control Hc; done).
      rewrite Es in Hr. lia. }
    specialize (E x Hx). rewrite Ha, forallb_forall in E. specialize (E _ Hin). to_prop. done.
Qed.

(** ** Theorems *)

(** What [isx012_get_supported_value] offers. *)

Definition offered (sv : supported_value) (x : Z) : bool :=
  if sv_type sv =? IMGSENSOR_CTRL_TYPE_INTEGER_MENU then bool_decide (x ∈ dc_values (sv_discrete sv))
  else in_range (rg_minimum (sv_range sv)) (rg_maximum (sv_range sv)) (rg_step (sv_range sv)) x.

Lemma menu_offered from to x : length from = length to ->
  bool_decide (x ∈ from) = bool_decide (is_Some (search_menu from to x)).
Proof.
  intros Hl. apply bool_decide_ext. split; [by apply search_menu_total|].
  intros [y Hy]. by eapply search_menu_in.
Qed.

Lemma offered_spec c sv0 : c ∈ controls ->
  exists sv, isx012_get_supported_value (c_id c) sv0 = (OK, sv) /\
    forall x, offered sv x = c_accept c x.
Proof.
  intros Hc. each_control Hc; eexists; (split; [reflexivity|]); intros x;
    first [by apply menu_offered | reflexivity].
Qed.

(** Setting a control whose register works. *)

Lemma spec_set_run hw c x p :
  c ∈ controls -> keeps hw (c_reg c) (c_size c) -> i_lock p = 1 -> clean (i_bus p) ->
  c_accept c x = true ->
  exists p', spec_set hw c x p = Ret (OK, p') /\ i_lock p' = 1 /\ clean (i_bus p') /\
    reg_value (i_bus p') (c_reg c) (c_size c) =
      stored c (if c_keeps c then reg_value (i_bus p) (c_reg c) (c_size c) else 0) x /\
    (forall a, ~ (c_reg c <= a < c_reg c + c_size c) -> reg_byte (i_bus p') a = reg_byte (i_bus p) a).
Proof.
  intros Hc Hk Hp Hcl Ha. unfold spec_set. rewrite Ha. destruct (c_keeps c).
  - destruct (getreg_keeps hw p _ _ Hk Hp Hcl) as (p1 & E1 & L1 & C1 & B1).
    set (v := reg_value (i_bus p) (c_reg c) (c_size c)) in *.
    destruct (putreg_keeps hw p1 _ _ (c_enc c v x) Hk L1 C1) as (p2 & E2 & L2 & C2 & V2 & B2).
    exists p2. unfold mbind, M_bind. rewrite E1. split_and!; [done..|].
    intros a Hx. by rewrite B2, B1.
  - destruct (putreg_keeps hw p _ _ (c_enc c 0 x) Hk Hp Hcl) as (p2 & E2 & L2 & C2 & V2 & B2).
    by exists p2.
Qed.

(** The scalar controls [isx012_set_value] knows: those of the table, and four
    that are no plain register. *)

Definition settable : list Z := (c_id <$> controls) ++
  [IMGSENSOR_ID_EXPOSURE_AUTO; IMGSENSOR_ID_ISO_SENSITIVITY; IMGSENSOR_ID_ISO_SENSITIVITY_AUTO; IMGSENSOR_ID_3A_LOCK].

(** An operation that succeeds whenever the bus is free. *)

Definition wins (m : IX Z) : Prop := forall p, i_lock p = 1 -> wp m (fun r _ => r = OK) p.

Lemma wins_bind {A} (m : IX A) (f : A -> IX Z) : calm m -> (forall a, wins (f a)) -> wins (m ≫= f).
Proof.
  intros Hm Hf p Hp. apply wp_bind. eapply wp_mono; [by apply Hm|]. intros a p' Hp'. by apply Hf.
Qed.

Section Accept.
Context (hw : isx_hw) (Hw : forall h b, hw_write hw h b = OK).

Lemma wins_put a v n : n <= 2 -> wins (isx012_putreg hw a v n).
Proof.
  intros Hn p Hp. destruct (putreg_run hw p a v n Hp Hn) as (b & E & _). rewrite Hw in E. by eapply wp_run.
Qed.

(** What is described is the guard of the operation, and the rest wins. *)

Definition guarded (id : Z) (v : value_union) (sv0 : supported_value) (m : IX Z) : Prop :=
  exists sv k, isx012_get_supported_value id sv0 = (OK, sv) /\ wins k /\
    forall p, m p = if offered sv (v_int v) then k p else Ret (- EINVAL, p).

Lemma guarded_table c size v sv0 : c ∈ controls -> guarded (c_id c) v sv0 (isx012_set_value hw (c_id c) size v).
Proof.
  intros Hc. destruct (offered_spec c sv0 Hc) as (sv & Hs & Ho).
  assert (Hn : c_size c <= 2) by (clear -Hc; each_control Hc; by vm_compute).
  exists sv, (if c_keeps c then r ← isx012_getreg hw (c_reg c) (c_size c);
      isx012_putreg hw (c_reg c) (c_enc c r (v_int v)) (c_size c)
    else isx012_putreg hw (c_reg c) (c_enc c 0 (v_int v)) (c_size c)). split_and!; [done| |].
  - destruct (c_keeps c); [|by apply wins_put]. apply wins_bind; [by apply calm_getreg|]. intros a. by apply wins_put.
  - intros p. rewrite set_value_spec, Ho by done. unfold spec_set. by destruct (c_accept c (v_int v)), (c_keeps c).
Qed.

Lemma guarded_checked id v sv0 sv lo hi st k m : isx012_get_supported_value id sv0 = (OK, sv) ->
  m = checked (v_int v) lo hi st k -> (forall x, offered sv x = in_range lo hi st x) -> wins k -> guarded id v sv0 m.
Proof. intros Hs -> Ho Hk. exists sv, k. split_and!; [done..|]. intros p. by rewrite checked_spec, Ho. Qed.

Lemma guarded_settable id size v sv0 : id ∈ settable -> (id = IMGSENSOR_ID_EXPOSURE_AUTO -> exposure_sane hw) ->
  guarded id v sv0 (isx012_set_value hw id size v).
Proof.
  intros Hid He. apply elem_of_app in Hid as [Hid|Hid].
  { apply list_elem_of_fmap in Hid as (c & -> & Hc). by apply guarded_table. }
  repeat (apply elem_of_cons in Hid as [->|Hid]); [..|by apply elem_of_nil in Hid].
  - eapply guarded_checked; [reflexivity|reflexivity|done|]. destruct (v_int v =? _); [by apply wins_put|].
    apply wins_bind; [by apply calm_exposure, He|]. intros r. by apply wins_put.
  - eexists _, (isx012_putreg hw ISO_TYPE1 (default 0 (search_menu g_isx012_iso_actual g_isx012_iso_regval (v_int v))) 1).
    split_and!; [reflexivity|by apply wins_put|]. intros p.
    change (offered _ (v_int v)) with (bool_decide (v_int v ∈ g_isx012_iso_actual)).
    rewrite (menu_offered _ g_isx012_iso_regval) by reflexivity.
    transitivity (put_menu hw g_isx012_iso_actual g_isx012_iso_regval (v_int v) ISO_TYPE1 1 p); [reflexivity|].
    unfold put_menu. by destruct (search_menu _ _ _).
  - eapply guarded_checked; [reflexivity|reflexivity|done|]. destruct (v_int v =? _); [by apply wins_put|].
    apply wins_bind; [by apply calm_getreg|]. intros r. by apply wins_put.
  - eapply guarded_checked; [reflexivity|reflexivity|done|]. by apply wins_put.
Qed.

End Accept.

(** C36: What the sensor driver offers is what it accepts.  For the eighteen
    controls of the table, the exposure mode, the two ISO controls and the 3A
    lock, [isx012_set_value] succeeds exactly on the values
    [isx012_get_supported_value] describes, and touches nothing otherwise: on a
    free bus whose writes succeed, and for the exposure mode with a sensor that
    reports less than 2^31 microseconds.  The status of the 3A controls is
    described too, but can only be read. *)
Theorem offered_is_accepted hw id size v sv0 p
    (Hid : id ∈ settable) (Hw : forall h b, hw_write hw h b = OK) (Hp : i_lock p = 1)
    (He : id = IMGSENSOR_ID_EXPOSURE_AUTO -> exposure_sane hw) :
  (exists sv r p', isx012_get_supported_value id sv0 = (OK, sv) /\
     isx012_set_value hw id size v p = Ret (r, p') /\
     (r = OK <-> offered sv (v_int v) = true) /\ (r <> OK -> r = - EINVAL /\ p' = p)) /\
  (isx012_get_supported_value IMGSENSOR_ID_3A_STATUS sv0).1 = OK /\
  isx012_set_value hw IMGSENSOR_ID_3A_STATUS size v p = Ret (- EINVAL, p).
Proof.
  split; [|done]. destruct (guarded_settable hw Hw id size v sv0 Hid He) as (sv & k & Hs & Hk & Hm).
  exists sv. rewrite Hm. destruct (offered sv (v_int v)); [|by exists (- EINVAL), p].
  destruct (Hk p Hp) as (r & p' & -> & ->). by exists OK, p'.
Qed.

Lemma reg_value_range c h : c ∈ controls -> clean h ->
  0 <= reg_value h (c_reg c) (c_size c) < 256 ^ c_size c.
Proof.
  intros Hc Hcl. unfold reg_value. pose proof (fun a => reg_byte_range h a Hcl) as Hb. unfold byte in Hb.
  assert (c_size c = 1 \/ c_size c = 2) as [-> | ->] by (each_control Hc; auto);
    rewrite ?seqZ_1, ?seqZ_2; cbn [fmap list_fmap le_value].
  - change (256 ^ 1) with 256. pose proof (Hb (c_reg c)). lia.
  - change (256 ^ 2) with 65536. pose proof (Hb (c_reg c)). pose proof (Hb (c_reg c + 1)). lia.
Qed.

Lemma set_value_run hw c size v p p' :
  c ∈ controls -> keeps hw (c_reg c) (c_size c) -> i_lock p = 1 -> clean (i_bus p) ->
  isx012_set_value hw (c_id c) size v p = Ret (OK, p') ->
  c_accept c (v_int v) = true /\ i_lock p' = 1 /\ clean (i_bus p') /\
    reg_value (i_bus p') (c_reg c) (c_size c) =
      stored c (if c_keeps c then reg_value (i_bus p) (c_reg c) (c_size c) else 0) (v_int v) /\
    (forall a, ~ (c_reg c <= a < c_reg c + c_size c) -> reg_byte (i_bus p') a = reg_byte (i_bus p) a).
Proof.
  intros Hc Hk Hp Hcl Hset. rewrite set_value_spec in Hset by done.
  destruct (c_accept c (v_int v)) eqn:Ha.
  - destruct (spec_set_run hw c (v_int v) p) as (q & E & ?); [done..|].
    rewrite E in Hset. by injection Hset as <-.
  - unfold spec_set in Hset. rewrite Ha in Hset. discriminate.
Qed.

(** C37: A control of the table that was set reads back as the value it was set
    to, whatever its register held before: the eighteen controls of [controls],
    on a free bus, with a sensor whose writes succeed and whose register of the
    control keeps what is written to it.  Not among them are the modes of the
    exposure and of the sensitivity, which copy what the sensor measured when
    they are set to manual, the sensitivity, which is read from another
    register, and the 3A lock, which cannot be read. *)
Theorem control_roundtrip hw c size v p p' size' w
    (Hc : c ∈ controls) (Hk : keeps hw (c_reg c) (c_size c))
    (Hp : i_lock p = 1) (Hcl : clean (i_bus p))
    (Hset : isx012_set_value hw (c_id c) size v p = Ret (OK, p')) :
  exists p'', isx012_get_value hw (c_id c) size' w p' = Ret ((OK, v_set_int (v_int v) w), p'').
Proof.
  destruct (set_value_run _ _ _ _ _ _ Hc Hk Hp Hcl Hset) as (Ha & L & C & V & _).
  destruct (getreg_keeps hw p' _ _ Hk L C) as (p2 & E & _).
  destruct (encode_ok c (reg_value (i_bus p) (c_reg c) (c_size c)) (v_int v) Hc) as [Hv Hd];
    [by apply reg_value_range|done|]. rewrite <- V in Hv, Hd.
  exists p2. erewrite get_value_spec by done. by rewrite Hd.
Qed.

(** Two controls are independent when their registers do not overlap, or when
    the first keeps the bits of the register that the second looks at. *)

Definition apart (c1 c2 : control) : bool :=
  (c_reg c1 + c_size c1 <=? c_reg c2) || (c_reg c2 + c_size c2 <=? c_reg c1).

Definition same_bits (c1 c2 : control) : bool :=
  (c_reg c1 =? c_reg c2) && (c_size c1 =? 1) && (c_size c2 =? 1) && c_keeps c1 &&
  forallb (fun x => if c_accept c1 x then
      forallb (fun r => Bool.eqb (c_valid c2 (stored c1 r x)) (c_valid c2 r)
                        && (c_dec c2 (stored c1 r x) =? c_dec c2 r)) (seqZ 0 256) else true) small.

Definition pairs_check : bool :=
  forallb (fun c1 => forallb (fun c2 =>
    if (c_id c1 =? c_id c2) || ((c_reg c1 =? FMODE) && (c_reg c2 =? FMODE)) || apart c1 c2
    then true else same_bits c1 c2) controls) controls.

Lemma pairs_ok c1 c2 : c1 ∈ controls -> c2 ∈ controls -> c_id c1 <> c_id c2 ->
  (c_reg c1 = FMODE -> c_reg c2 <> FMODE) -> apart c1 c2 = true \/ same_bits c1 c2 = true.
Proof.
  intros H1 H2 Hid Hf. assert (E : pairs_check = true) by (vm_compute; reflexivity).
  unfold pairs_check in E. rewrite forallb_forall in E. apply list_elem_of_In in H1, H2.
  specialize (E c1 H1). rewrite forallb_forall in E. specialize (E c2 H2).
  destruct (_ || _ || _) eqn:E1 in E; [clear E; rename E1 into E|by right].
  apply orb_true_iff in E as [E|E]; [|by left].
  apply orb_true_iff in E as [E|E]; to_prop; [done|]. by destruct Hf.
Qed.

Lemma reg_value_ext h h' a n : (forall x, a <= x < a + n -> reg_byte h' x = reg_byte h x) ->
  reg_value h' a n = reg_value h a n.
Proof.
  intros H. unfold reg_value. f_equal. apply list_fmap_ext. intros i x Hx.
  apply H. apply lookup_seqZ in Hx. lia.
Qed.

(** Setting a control leaves every other control as it was, bits that share
    a register included (the colour killer and the colour effects excepted, which
    are one setting): reading the other one gives what it gave before. *)
Theorem controls_independent hw c1 c2 size v p p' size' w
    (H1 : c1 ∈ controls) (H2 : c2 ∈ controls) (Hid : c_id c1 <> c_id c2)
    (Hfx : c_reg c1 = FMODE -> c_reg c2 <> FMODE)
    (K1 : keeps hw (c_reg c1) (c_size c1)) (K2 : keeps hw (c_reg c2) (c_size c2))
    (Hp : i_lock p = 1) (Hcl : clean (i_bus p))
    (Hv : c_valid c2 (reg_value (i_bus p) (c_reg c2) (c_size c2)) = true)
    (Hset : isx012_set_value hw (c_id c1) size v p = Ret (OK, p')) :
  exists x q q', isx012_get_value hw (c_id c2) size' w p = Ret ((OK, x), q) /\
    isx012_get_value hw (c_id c2) size' w p' = Ret ((OK, x), q').
Proof.
  destruct (set_value_run _ _ _ _ _ _ H1 K1 Hp Hcl Hset) as (Ha & L & C & V & F).
  destruct (getreg_keeps hw p _ _ K2 Hp Hcl) as (q & E & _).
  destruct (getreg_keeps hw p' _ _ K2 L C) as (q' & E' & _).
  exists (v_set_int (c_dec c2 (reg_value (i_bus p) (c_reg c2) (c_size c2))) w), q, q'.
  split; [by apply get_value_spec|].
  enough (c_valid c2 (reg_value (i_bus p') (c_reg c2) (c_size c2)) = true /\
          c_dec c2 (reg_value (i_bus p') (c_reg c2) (c_size c2)) =
          c_dec c2 (reg_value (i_bus p) (c_reg c2) (c_size c2))) as [Hv' <-].
  { by apply get_value_spec. }
  destruct (pairs_ok c1 c2 H1 H2 Hid Hfx) as [Hap|Hsb].
  - rewrite (reg_value_ext (i_bus p) (i_bus p')); [done|]. intros x Hx. apply F.
    unfold apart in Hap. apply orb_true_iff in Hap as [?|?]; to_prop; lia.
  - unfold same_bits in Hsb. rewrite !andb_true_iff, !Z.eqb_eq in Hsb.
    destruct Hsb as [[[[Er S1] S2] Ek] Hsb].
    assert (Hx : v_int v ∈ small).
    { apply (accept_small c1); [done| |done]. intros Hn. each_control H1; done. }
    rewrite forallb_forall in Hsb. apply list_elem_of_In in Hx. specialize (Hsb _ Hx).
    rewrite Ha, forallb_forall in Hsb. pose proof (reg_value_range c1 (i_bus p) H1 Hcl) as Hr.
    rewrite S1 in V, Hr. rewrite Ek in V. rewrite <- Er, S2 in Hv |- *. rewrite V.
    specialize (Hsb (reg_value (i_bus p) (c_reg c1) 1)).
    apply andb_true_iff in Hsb as [Hb Hd].
    + apply eqb_prop in Hb. rewrite Hb. by apply Z.eqb_eq in Hd.
    + apply list_elem_of_In, elem_of_seqZ. change (256 ^ 1) with 256 in Hr. lia.
Qed.

Definition hflip := flag IMGSENSOR_ID_HFLIP_VIDEO READVECT_MONI REGVAL_READVECT_BIT_H false.
Definition vflip := flag IMGSENSOR_ID_VFLIP_VIDEO READVECT_MONI REGVAL_READVECT_BIT_V false.

Definition no_value : supported_value :=
  mk_supported 0 (mk_range 0 0 0 0) (mk_discrete [] 0) (mk_elems 0 0 0 0).

Definition int_value (x : Z) : value_union := mk_value x [].

(** The state after a control was set. *)

Definition after_set (id x : Z) (p : isx012_dev) : isx012_dev :=
  match isx012_set_value sensor id 0 (int_value x) p with Ret (_, p') => p' | _ => p end.

Lemma offered_is_accepted_witness :
  (exists sv r p', isx012_get_supported_value IMGSENSOR_ID_CONTRAST no_value = (OK, sv) /\
     isx012_set_value sensor IMGSENSOR_ID_CONTRAST 0 (int_value 256) at_boot = Ret (r, p') /\
     (r = OK <-> offered sv 256 = true) /\ (r <> OK -> r = - EINVAL /\ p' = at_boot)) /\
  (isx012_get_supported_value IMGSENSOR_ID_3A_STATUS no_value).1 = OK /\
  isx012_set_value sensor IMGSENSOR_ID_3A_STATUS 0 (int_value 256) at_boot = Ret (- EINVAL, at_boot).
Proof.
  apply (offered_is_accepted sensor IMGSENSOR_ID_CONTRAST 0 (int_value 256) no_value at_boot);
    [apply list_elem_of_In; simpl; tauto|reflexivity|reflexivity|discriminate].
Defined.

Lemma control_roundtrip_witness :
  isx012_set_value sensor IMGSENSOR_ID_HFLIP_VIDEO 0 (int_value 1) at_boot
    = Ret (OK, after_set IMGSENSOR_ID_HFLIP_VIDEO 1 at_boot) /\
  exists p'', isx012_get_value sensor IMGSENSOR_ID_HFLIP_VIDEO 0 (int_value 7)
                (after_set IMGSENSOR_ID_HFLIP_VIDEO 1 at_boot) = Ret ((OK, int_value 1), p'').
Proof.
  assert (Hc : hflip ∈ controls) by (apply list_elem_of_In; simpl; tauto).
  split; [vm_compute; reflexivity|].
  apply (control_roundtrip sensor hflip 0 (int_value 1) at_boot
           (after_set IMGSENSOR_ID_HFLIP_VIDEO 1 at_boot) 0 (int_value 7) Hc
           (sensor_keeps_controls hflip Hc) eq_refl (Forall_nil_2 _)).
  vm_compute. reflexivity.
Defined.

(** Both mirrors live in one register. *)
Lemma controls_independent_witness :
  exists x q q', isx012_get_value sensor IMGSENSOR_ID_VFLIP_VIDEO 0 (int_value 7) at_boot
      = Ret ((OK, x), q) /\
    isx012_get_value sensor IMGSENSOR_ID_VFLIP_VIDEO 0 (int_value 7)
      (after_set IMGSENSOR_ID_HFLIP_VIDEO 1 at_boot) = Ret ((OK, x), q').
Proof.
  assert (H1 : hflip ∈ controls) by (apply list_elem_of_In; simpl; tauto).
  assert (H2 : vflip ∈ controls) by (apply list_elem_of_In; simpl; tauto).
  apply (controls_independent sensor hflip vflip 0 (int_value 1) at_boot
           (after_set IMGSENSOR_ID_HFLIP_VIDEO 1 at_boot) 0 (int_value 7) H1 H2);
    [vm_compute; congruence|vm_compute; congruence|by apply sensor_keeps_controls
    |by apply sensor_keeps_controls|reflexivity|apply Forall_nil_2|reflexivity
    |vm_compute; reflexivity].
Defined.

End IsxCtrl.
