(* ===== verification/IsxFrame.v ===== *)
(** * Frames, clipping and the start-up of the sensor driver

    Which frame settings [isx012_validate_frame_setting] accepts, the zoom
    registers of a clipping rectangle, and what a successful [isx012_init] has
    programmed. *)

From S2P Require Import Prelude VideoState VideoCtrl VideoDrv IsxRegs Isx012 IsxSafe IsxCtrl.
Import VideoState VideoCtrl IsxRegs Isx012 IsxSafe IsxCtrl.

Module IsxFrame.

(** ** Frame settings *)

(** The supported rates, in half frames per second, with their codes. *)

Definition rates : list (Z * Z) :=
  [(240, REGVAL_FPSTYPE_120FPS); (120, REGVAL_FPSTYPE_60FPS); (60, REGVAL_FPSTYPE_30FPS);
   (30, REGVAL_FPSTYPE_15FPS); (20, REGVAL_FPSTYPE_10FPS); (15, REGVAL_FPSTYPE_7_5FPS);
   (12, REGVAL_FPSTYPE_6FPS); (10, REGVAL_FPSTYPE_5FPS)].

(** An interval [num / den] is the rate [k / 2]. *)

Definition rate_of (i : v4l2_fract) (k : Z) : Prop :=
  numerator i <> 0 /\ denominator i < 2147483648 /\ denominator i * 2 = k * numerator i.

Lemma interval_spec i c (Hn : 0 <= numerator i < 4294967296) (Hd : 0 <= denominator i < 4294967296) :
  c <> - EINVAL ->
  isx012_replace_frameinterval_to_regval i = c <-> exists k, (k, c) ∈ rates /\ rate_of i k.
Proof.
  intros Hc. unfold isx012_replace_frameinterval_to_regval, rate_of.
  set (n := numerator i) in *. set (d := denominator i) in *.
  destruct (decide (d < 2147483648)) as [Hs|Hs].
  - unfold u32. rewrite Z.mod_small by lia. rewrite Z.div_mul, Z.eqb_refl by lia. cbn [negb].
    destruct (n =? 0) eqn:E; to_prop; [split; [congruence|intros (k & _ & ? & _); lia]|].
    destruct (_ mod n =? 0) eqn:E2; cbn [negb]; to_prop.
    + assert (Hq : d * 2 = (d * 2) / n * n) by (pose proof (Z.div_mod (d * 2) n); lia).
      set (q := d * 2 / n) in *. split.
      * intros H. exists q. split; [|lia].
        repeat (case_match; to_prop; [subst c; match goal with H : q = _ |- _ => rewrite H end;
          unfold rates; repeat (apply list_elem_of_here || apply list_elem_of_further)|]).
        congruence.
      * intros (k & Hk & _ & _ & Hkn). assert (q = k) as -> by nia.
        unfold rates in Hk. repeat (apply elem_of_cons in Hk as [[= -> ->]|Hk]; [done|]).
        by apply elem_of_nil in Hk.
    + split; [congruence|]. intros (k & _ & _ & _ & Hk). rewrite Hk, Z.mod_mul in E2; lia.
  - rewrite (proj2 (Z.eqb_neq _ _)).
    + cbn [negb]. split; [congruence|]. intros (k & _ & _ & ? & _). lia.
    + unfold u32. rewrite <- (Z.mod_unique (d * 2) 4294967296 1 (d * 2 - 4294967296)) by lia.
      intros H. assert ((d * 2 - 4294967296) / 2 = d - 2147483648).
      { replace (d * 2 - 4294967296) with ((d - 2147483648) * 2) by lia. by rewrite Z.div_mul. }
      lia.
Qed.

(** The largest frame of a format at rate [k / 2]. *)

Definition limit (pix k : Z) : Z * Z :=
  if (pix =? IMGSENSOR_PIX_FMT_UYVY) || (pix =? IMGSENSOR_PIX_FMT_RGB565)
  then if 120 <? k then (320, 240) else (800, 600)
  else if pix =? IMGSENSOR_PIX_FMT_JPEG then
    if 120 <? k then (320, 240) else if 60 <? k then (640, 480)
    else if 30 <? k then (1280, 960) else (2592, 1944)
  else if pix =? IMGSENSOR_PIX_FMT_JPEG_WITH_SUBIMG then
    if 60 <? k then (0, 0) else if 30 <? k then (1280, 960) else (1632, 1224)
  else (0, 0).

Definition fits (f : video_format) (m : Z * Z) : Prop :=
  96 <= f_width f <= m.1 /\ 64 <= f_height f <= m.2.

(** A subimage is in the 4:2:2 format, and at most 400 by 240. *)

Definition sub_fits (nr : Z) (main : video_format) (rest : list video_format) : Prop :=
  f_pixelformat main = IMGSENSOR_PIX_FMT_JPEG_WITH_SUBIMG -> nr <> 1 ->
  exists s, head rest = Some s /\ f_pixelformat s = IMGSENSOR_PIX_FMT_UYVY /\ fits s (400, 240).

Ltac consts :=
  cbv [OUT_YUV_HSIZE_MIN OUT_YUV_VSIZE_MIN OUT_YUV_15FPS_HSIZE_MAX OUT_YUV_15FPS_VSIZE_MAX
    OUT_YUV_120FPS_HSIZE_MAX OUT_YUV_120FPS_VSIZE_MAX OUT_JPG_HSIZE_MIN OUT_JPG_VSIZE_MIN
    OUT_JPG_15FPS_HSIZE_MAX OUT_JPG_15FPS_VSIZE_MAX OUT_JPG_120FPS_HSIZE_MAX
    OUT_JPG_120FPS_VSIZE_MAX OUT_JPG_60FPS_HSIZE_MAX OUT_JPG_60FPS_VSIZE_MAX
    OUT_JPG_30FPS_HSIZE_MAX OUT_JPG_30FPS_VSIZE_MAX OUT_JPGINT_15FPS_HSIZE_MAX
    OUT_JPGINT_15FPS_VSIZE_MAX OUT_JPGINT_30FPS_HSIZE_MAX OUT_JPGINT_30FPS_VSIZE_MAX
    OUT_YUVINT_30FPS_HSIZE_MAX OUT_YUVINT_30FPS_VSIZE_MAX REGVAL_FPSTYPE_120FPS
    REGVAL_FPSTYPE_60FPS REGVAL_FPSTYPE_30FPS REGVAL_FPSTYPE_15FPS REGVAL_FPSTYPE_10FPS
    REGVAL_FPSTYPE_7_5FPS REGVAL_FPSTYPE_6FPS REGVAL_FPSTYPE_5FPS EINVAL] in *.

(** A chain of comparisons against a conjunction of bounds. *)

Ltac bounds :=
  consts; cbn [fst snd] in *;
  repeat match goal with
  | H : context [if ?b then _ else _] |- _ => destruct b eqn:?
  | |- context [if ?b then _ else _] => destruct b eqn:?
  end; rewrite ?orb_true_iff, ?orb_false_iff, ?andb_true_iff, ?andb_false_iff, ?Z.ltb_lt, ?Z.ltb_ge,
    ?Z.leb_le, ?Z.leb_gt in *; lia.

(** One case for each rate. *)

Ltac by_rate H :=
  unfold rates in H;
  repeat (apply elem_of_cons in H as [[= -> ->]|H];
    [cbn [Z.ltb Z.compare Pos.compare Pos.compare_cont]; split; intros; bounds|]);
  by apply elem_of_nil in H.

(** The code of the fastest rate is at most [c] exactly when the frame is
    within the limit at the rate with code [c]. *)

Lemma yuv_fastest w h k c : (k, c) ∈ rates ->
  (let m := if (w <? OUT_YUV_HSIZE_MIN) || (h <? OUT_YUV_VSIZE_MIN)
              || (OUT_YUV_15FPS_HSIZE_MAX <? w) || (OUT_YUV_15FPS_VSIZE_MAX <? h)
           then - EINVAL
           else if (w <=? OUT_YUV_120FPS_HSIZE_MAX) && (h <=? OUT_YUV_120FPS_VSIZE_MAX)
           then REGVAL_FPSTYPE_120FPS else REGVAL_FPSTYPE_60FPS in
   m <> - EINVAL /\ m <= c) <->
  (let m := if 120 <? k then (320, 240) else (800, 600) in
   96 <= w <= m.1 /\ 64 <= h <= m.2).
Proof.
  intros Hk. by_rate Hk.
Qed.

Lemma jpeg_fastest w h k c : (k, c) ∈ rates ->
  (let m := if (w <? OUT_JPG_HSIZE_MIN) || (h <? OUT_JPG_VSIZE_MIN)
              || (OUT_JPG_15FPS_HSIZE_MAX <? w) || (OUT_JPG_15FPS_VSIZE_MAX <? h)
           then - EINVAL
           else if (w <=? OUT_JPG_120FPS_HSIZE_MAX) && (h <=? OUT_JPG_120FPS_VSIZE_MAX)
           then REGVAL_FPSTYPE_120FPS
           else if (w <=? OUT_JPG_60FPS_HSIZE_MAX) && (h <=? OUT_JPG_60FPS_VSIZE_MAX)
           then REGVAL_FPSTYPE_60FPS
           else if (w <=? OUT_JPG_30FPS_HSIZE_MAX) && (h <=? OUT_JPG_30FPS_VSIZE_MAX)
           then REGVAL_FPSTYPE_30FPS
           else REGVAL_FPSTYPE_15FPS in
   m <> - EINVAL /\ m <= c) <->
  (let m := if 120 <? k then (320, 240) else if 60 <? k then (640, 480)
            else if 30 <? k then (1280, 960) else (2592, 1944) in
   96 <= w <= m.1 /\ 64 <= h <= m.2).
Proof. intros Hk. by_rate Hk. Qed.

Lemma subimg_fastest w h sub_w sub_h k c : (k, c) ∈ rates ->
  (let m := if (w <? OUT_JPG_HSIZE_MIN) || (h <? OUT_JPG_VSIZE_MIN)
               || (OUT_JPGINT_15FPS_HSIZE_MAX <? w) || (OUT_JPGINT_15FPS_VSIZE_MAX <? h)
               || (sub_w <? OUT_YUV_HSIZE_MIN) || (sub_h <? OUT_YUV_VSIZE_MIN)
               || (OUT_YUVINT_30FPS_HSIZE_MAX <? sub_w) || (OUT_YUVINT_30FPS_VSIZE_MAX <? sub_h)
            then - EINVAL
            else if (w <=? OUT_JPGINT_30FPS_HSIZE_MAX) && (h <=? OUT_JPGINT_30FPS_VSIZE_MAX)
            then REGVAL_FPSTYPE_30FPS else REGVAL_FPSTYPE_15FPS in
   m <> - EINVAL /\ m <= c) <->
  (let m := if 60 <? k then (0, 0) else if 30 <? k then (1280, 960) else (1632, 1224) in
   96 <= w <= m.1 /\ 64 <= h <= m.2) /\ (96 <= sub_w <= 400 /\ 64 <= sub_h <= 240).
Proof. intros Hk. by_rate Hk. Qed.

(** The three formats together. *)

Lemma ret_exists (m c : Z) :
  (exists x, Ret m = Ret x /\ x <> - EINVAL /\ x <= c) <-> m <> - EINVAL /\ m <= c.
Proof. split; [intros (x & [= <-] & H); done|intros H; by exists m]. Qed.

Lemma maximum_spec nr main rest k c :
  (k, c) ∈ rates -> (nr = 1 \/ rest <> []) ->
  (exists m, isx012_get_maximum_fps nr (main :: rest) = Ret m /\ m <> - EINVAL /\ m <= c) <->
  fits main (limit (f_pixelformat main) k) /\ sub_fits nr main rest.
Proof.
  intros Hk Hrest. unfold isx012_get_maximum_fps, limit, sub_fits, fits.
  set (pix := f_pixelformat main). set (w := f_width main). set (h := f_height main). cbv zeta.
  destruct ((pix =? IMGSENSOR_PIX_FMT_UYVY) || (pix =? IMGSENSOR_PIX_FMT_RGB565)) eqn:E1.
  { rewrite ret_exists, (yuv_fastest w h k c Hk). cbv zeta. split; [|tauto]. intros H. split; [done|].
    intros Hp. rewrite Hp in E1. discriminate. }
  destruct (pix =? IMGSENSOR_PIX_FMT_JPEG) eqn:E2.
  { rewrite ret_exists, (jpeg_fastest w h k c Hk). cbv zeta. split; [|tauto]. intros H. split; [done|].
    intros Hp. rewrite Hp in E2. discriminate. }
  destruct (pix =? IMGSENSOR_PIX_FMT_JPEG_WITH_SUBIMG) eqn:E3.
  - apply Z.eqb_eq in E3. destruct (nr =? 1) eqn:En; [apply Z.eqb_eq in En|apply Z.eqb_neq in En].
    + cbn [mbind outcome_bind]. rewrite ret_exists, (subimg_fastest w h _ _ k c Hk).
      split; intros [H1 H2]; (split; [done|]); [intros; lia|]. vm_compute; intuition discriminate.
    + destruct rest as [|s rest]; [by destruct Hrest|]. cbn [mbind outcome_bind head].
      destruct (f_pixelformat s =? IMGSENSOR_PIX_FMT_UYVY) eqn:Es; cbn [negb].
      * apply Z.eqb_eq in Es. rewrite ret_exists, (subimg_fastest w h _ _ k c Hk). cbv zeta.
        split; intros [H1 H2]; (split; [done|]).
        -- intros _ _. by exists s.
        -- destruct (H2 E3 En) as (s' & [= <-] & _ & H). done.
      * rewrite ret_exists. split; [by intros []|]. intros [_ H].
        destruct (H E3 En) as (s' & [= <-] & Hs & _). apply Z.eqb_neq in Es. done.
  - rewrite ret_exists. split; [by intros []|]. cbn [fst snd]. intros [H _]. lia.
Qed.

(** C38: the sensor accepts exactly the frame settings of the table: one of
    eight rates written as a fraction, a frame within the limit of its format at
    that rate, and a subimage (where there is one) in the supported format and
    size.  All other settings are refused with [-EINVAL]. *)
Theorem frame_setting_exact nr main rest i
    (Hn : 0 <= numerator i < 4294967296) (Hd : 0 <= denominator i < 4294967296)
    (Hnr : nr = 1 \/ nr = 2 /\ rest <> []) :
  exists r, isx012_validate_frame_setting nr (main :: rest) i = Ret r /\ (r = OK \/ r = - EINVAL) /\
    (r = OK <-> exists k c, (k, c) ∈ rates /\ rate_of i k /\
                  fits main (limit (f_pixelformat main) k) /\ sub_fits nr main rest).
Proof.
  assert (exists m, isx012_get_maximum_fps nr (main :: rest) = Ret m) as [m Em].
  { unfold isx012_get_maximum_fps. cbv zeta. destruct rest, Hnr as [->|[-> ?]]; try done;
      repeat case_match; first [done | by eexists]. }
  assert (exists r, isx012_validate_frame_setting nr (main :: rest) i = Ret r) as [r Er].
  { unfold isx012_validate_frame_setting. rewrite Em. cbn [mbind outcome_bind].
    repeat case_match; by eexists. }
  exists r. split; [done|]. split; [by eapply validate_result|].
  assert (Hnr' : nr = 1 \/ rest <> []) by tauto.
  unfold isx012_validate_frame_setting in Er. rewrite Em in Er. cbn [mbind outcome_bind] in Er.
  rewrite (proj2 (orb_false_iff _ _)) in Er by (split; apply Z.ltb_ge; lia).
  set (c0 := isx012_replace_frameinterval_to_regval i) in Er.
  split.
  - intros ->. repeat case_match; simplify_eq. to_prop.
    assert (Hc0 : c0 <> - EINVAL) by done.
    destruct (proj1 (interval_spec i c0 Hn Hd Hc0) eq_refl) as (k & Hk & Hrate).
    exists k, c0. split_and!; [done|done|..]; apply (maximum_spec nr main rest k c0 Hk Hnr'); by exists m.
  - intros (k & c & Hk & Hrate & Hf).
    assert (Hc : c <> - EINVAL).
    { intros ->. clear -Hk. unfold rates in Hk. repeat (apply elem_of_cons in Hk as [E|Hk]; [by inversion E|]).
      by apply elem_of_nil in Hk. }
    assert (c0 = c) as E0 by (apply (interval_spec i c Hn Hd Hc); by exists k).
    destruct (proj2 (maximum_spec nr main rest k c Hk Hnr') Hf) as (m' & Em' & Hm & Hle).
    rewrite Em in Em'. injection Em' as <-. rewrite E0 in Er.
    rewrite (proj2 (Z.eqb_neq _ _) Hm), (proj2 (Z.eqb_neq _ _) Hc), (proj2 (Z.ltb_ge _ _) Hle) in Er.
    by injection Er.
Qed.

(** ** Clipping *)

(** A rectangle inside a frame, of a size [validate_clip_setting] accepts. *)

Record inside (clip : isx012_rect) (w h : Z) : Prop := {
  in_left : 0 <= ir_left clip; in_width : 0 <= ir_width clip;
  in_right : ir_left clip + ir_width clip <= w;
  in_top : 0 <= ir_top clip; in_height : 0 <= ir_height clip;
  in_bottom : ir_top clip + ir_height clip <= h;
  in_wunit : ir_width clip mod CLIP_SIZE_UNIT = 0; in_hunit : ir_height clip mod CLIP_SIZE_UNIT = 0
}.

Lemma quot_bound a b f : 0 < f -> Z.abs a <= b * f -> Z.abs (Z.quot a f) <= b.
Proof.
  intros Hf Ha. rewrite <- Z.quot_abs by lia. rewrite (Z.abs_eq f), Z.quot_div_nonneg by lia.
  apply Z.div_le_upper_bound; lia.
Qed.

Lemma i16_id z : -32768 <= z < 32768 -> i16 z = z.
Proof.
  intros Hz. unfold i16, u16. destruct (decide (0 <= z)).
  - rewrite Z.mod_small by lia. case_match; to_prop; lia.
  - rewrite <- (Z.mod_unique z 65536 (-1) (z + 65536)) by lia. case_match; to_prop; lia.
Qed.

Lemma calc_clip_ok pos sz frm basis :
  0 <= pos -> 0 <= sz -> pos + sz <= frm -> sz mod CLIP_SIZE_UNIT = 0 -> 64 <= frm <= 2592 ->
  0 <= basis <= 2592 ->
  exists r o, calc_clip_regval pos sz frm basis = Ret (r, o) /\
    256 <= r <= 32 * frm /\ Z.abs o <= 8 * basis.
Proof.
  intros Hp Hs Hf Hu Hfr Hb. unfold calc_clip_regval, ZOOM_UNIT, CLIP_OFFSET_UNIT, CLIP_SIZE_UNIT in *.
  assert (sz = 0 \/ 8 <= sz) as Hsz by (pose proof (Z.div_mod sz 8); lia).
  destruct (sz =? 0) eqn:E; to_prop; cbn [negb]; [eexists _, _; split; [done|lia]|].
  rewrite !(Z.quot_div_nonneg _ 2) by lia.
  pose proof (Z.div_mod sz 2 ltac:(lia)). pose proof (Z.mod_pos_bound sz 2 ltac:(lia)).
  pose proof (Z.div_mod frm 2 ltac:(lia)). pose proof (Z.mod_pos_bound frm 2 ltac:(lia)).
  set (c := pos + sz / 2 - frm / 2). assert (Hc : 2 * Z.abs c <= frm) by lia.
  rewrite i16_id by lia. rewrite int_ok by (unfold INT_MIN, INT_MAX; lia). cbn [mbind outcome_bind].
  assert (Hm : Z.abs (16 * c * basis) <= 8 * basis * frm) by nia.
  rewrite int_ok by (unfold INT_MIN, INT_MAX; nia). cbn [mbind outcome_bind].
  rewrite (proj2 (Z.eqb_neq frm 0)) by lia. eexists _, _. split; [done|].
  unfold u32. rewrite Z.mod_small by lia. split; [|by apply quot_bound; lia].
  split; [apply Z.div_le_lower_bound; lia|apply Z.div_le_upper_bound; nia].
Qed.

(** Rescaling enlarges the ratio and shrinks the offset. *)

Lemma rescale_ok r o a b :
  256 <= r -> r * a < 4294967296 -> Z.abs o <= 20736 -> 0 < b < a -> a <= 7776 ->
  (exists r', rescale_u r a b = Ret r' /\ r <= r') /\
  (exists o', rescale_i o b a = Ret o' /\ Z.abs o' <= Z.abs o).
Proof.
  intros Hr Hra Ho Hb Ha. unfold rescale_u, rescale_i. rewrite !(proj2 (Z.eqb_neq _ 0)) by lia. split.
  - eexists. split; [done|]. unfold u32. rewrite Z.mod_small by nia. apply Z.div_le_lower_bound; nia.
  - rewrite int_ok by (unfold INT_MIN, INT_MAX; nia). eexists. split; [done|].
    apply quot_bound; [lia|]. rewrite Z.abs_mul, (Z.abs_eq b) by lia. nia.
Qed.

Lemma u16_id z : 0 <= z < 65536 -> u16 z = z.
Proof. apply Z.mod_small. Qed.

(** The zoom registers of a clipping rectangle that lies in its frame are
    computed without overflow or division by zero for every frame the sensor
    accepts; the ratios enlarge (at least 1.0 in their unit of 1/256), the offsets
    stay within half the sensor and fit the 16-bit registers they are written to. *)
Theorem clip_registers_fit w h clip
    (Hw : 96 <= w <= 2592) (Hh : 64 <= h <= 1944) (Hin : inside clip w h) :
  exists hv r_x r_y x y, clip_regvals w h clip = Ret (hv, r_x, r_y, x, y) /\
    ZOOM_UNIT <= r_x /\ ZOOM_UNIT <= r_y /\
    2 * Z.abs x <= CLIP_OFFSET_UNIT * BASE_HSIZE_FOR_CLIP_OFFSET /\
    2 * Z.abs y <= CLIP_OFFSET_UNIT * BASE_VSIZE_FOR_CLIP_OFFSET /\
    i16 x = x /\ i16 y = y.
Proof.
  destruct Hin as [Hl Hwd Hr Ht Hht Hbt Hwu Hhu]. unfold clip_regvals.
  destruct (is_clipped clip); [|by eexists _, _, _, _, _].
  rewrite !u16_id by lia.
  destruct (calc_clip_ok (ir_left clip) (ir_width clip) w BASE_HSIZE_FOR_CLIP_OFFSET)
    as (rx & x & -> & Hrx & Hx); [done || lia..|unfold BASE_HSIZE_FOR_CLIP_OFFSET; lia|]. cbn [mbind outcome_bind].
  destruct (calc_clip_ok (ir_top clip) (ir_height clip) h BASE_VSIZE_FOR_CLIP_OFFSET)
    as (ry & y & -> & Hry & Hy); [done || lia..|unfold BASE_VSIZE_FOR_CLIP_OFFSET; lia|]. cbn [mbind outcome_bind].
  unfold BASE_HSIZE_FOR_CLIP_OFFSET, BASE_VSIZE_FOR_CLIP_OFFSET, ZOOM_UNIT, CLIP_OFFSET_UNIT in *.
  destruct (h * 4 <? w * 3) eqn:E1; to_prop; [|destruct (w * 3 <? h * 4) eqn:E2; to_prop].
  - destruct (rescale_ok ry y (w * 3) (h * 4)) as [(r' & -> & ?) (o' & -> & ?)]; [nia..|].
    cbn [mbind outcome_bind]. eexists _, _, _, _, _. split; [done|]. rewrite !i16_id by lia. lia.
  - destruct (rescale_ok rx x (h * 4) (w * 3)) as [(r' & -> & ?) (o' & -> & ?)]; [nia..|].
    cbn [mbind outcome_bind]. eexists _, _, _, _, _. split; [done|]. rewrite !i16_id by lia. lia.
  - eexists _, _, _, _, _. split; [done|]. rewrite !i16_id by lia. lia.
Qed.

(** A full-HD JPEG picture at 15 frames a second. *)
Lemma frame_setting_exact_witness : exists r,
  isx012_validate_frame_setting 1 [mk_format 1920 1080 IMGSENSOR_PIX_FMT_JPEG] (mk_fract 1 15) = Ret r /\
  (r = OK \/ r = - EINVAL) /\
  (r = OK <-> exists k c, (k, c) ∈ rates /\ rate_of (mk_fract 1 15) k /\
     fits (mk_format 1920 1080 IMGSENSOR_PIX_FMT_JPEG) (limit IMGSENSOR_PIX_FMT_JPEG k) /\
     sub_fits 1 (mk_format 1920 1080 IMGSENSOR_PIX_FMT_JPEG) []).
Proof.
  apply (frame_setting_exact 1 (mk_format 1920 1080 IMGSENSOR_PIX_FMT_JPEG) [] (mk_fract 1 15));
    [simpl; lia|simpl; lia|by left].
Defined.

(** The middle quarter of a quad-VGA frame. *)
Lemma clip_registers_fit_witness :
  exists hv r_x r_y x y, clip_regvals 1280 960 (mk_irect 320 240 640 480) = Ret (hv, r_x, r_y, x, y) /\
    ZOOM_UNIT <= r_x /\ ZOOM_UNIT <= r_y /\
    2 * Z.abs x <= CLIP_OFFSET_UNIT * BASE_HSIZE_FOR_CLIP_OFFSET /\
    2 * Z.abs y <= CLIP_OFFSET_UNIT * BASE_VSIZE_FOR_CLIP_OFFSET /\ i16 x = x /\ i16 y = y.
Proof.
  apply (clip_registers_fit 1280 960 (mk_irect 320 240 640 480)); [lia|lia|].
  split; vm_compute; congruence.
Defined.

End IsxFrame.
