(* ===== verification/IsxInit.v ===== *)
(** * What the start-up of the sensor programs

    A successful [isx012_init] has written the whole initial configuration: the
    reset list, the shading tables, the thresholds and the white balance.  The
    nested loops over the tables are the flat list of their registers. *)

From S2P Require Import Prelude VideoState VideoCtrl VideoDrv IsxRegs Isx012 IsxSafe IsxCtrl.
Import VideoState VideoCtrl IsxRegs Isx012 IsxSafe IsxCtrl.

Module IsxInit.

(** ** Writes *)

Definition write_of (f ad : Z) (e : isx012_reg) : bus_event :=
  BusWrite f ad (reg_bytes (regaddr e) ++ le_bytes (Z.to_nat (regsize e)) (u16 (regval e))).

(** The state after the registers [l] were written, in this order. *)

Definition wrote (l : list isx012_reg) (p : isx012_dev) : isx012_dev :=
  mk_dev (i_lock p) (i_addr p) (i_freq p) (i_state p) (i_mode p) (i_clip_video p) (i_clip_still p)
    (rev (write_of (i_freq p) (i_addr p) <$> l) ++ i_bus p).

Lemma wrote_nil p : wrote [] p = p.
Proof. by destruct p. Qed.

Lemma wrote_bus l p : i_bus (wrote l p) = rev (write_of (i_freq p) (i_addr p) <$> l) ++ i_bus p.
Proof. done. Qed.

Lemma wrote_app l l' p : wrote l' (wrote l p) = wrote (l ++ l') p.
Proof. unfold wrote. simpl. by rewrite fmap_app, rev_app_distr, app_assoc. Qed.

(** When [m] succeeds it has written exactly [l]. *)

Definition writes (m : IX Z) (l : list isx012_reg) : Prop :=
  forall p r p', m p = Ret (r, p') -> 0 <= r -> p' = wrote l p.

Section Hardware.

Context (hw : isx_hw).

Lemma writes_putreg a v n : writes (isx012_putreg hw a v n) [mk_reg a v n].
Proof.
  intros p r p' H _. unfold isx012_putreg in H. case_match; [done|].
  destruct p as [lk ad fq st mo cv cs bus]. unfold i2c_lock, i2c_unlock, bus_write, ev in H.
  munfold. simpl in H. unfold sem_wait in H. destruct (0 <? lk); [|done]. simpl in H.
  injection H as _ <-. unfold wrote, sem_post. simpl. by replace (lk - 1 + 1) with lk by lia.
Qed.

Lemma writes_each {A} (l : list A) (f : A -> IX Z) (w : A -> list isx012_reg) ret :
  (forall x, x ∈ l -> writes (f x) (w x)) -> writes (each l f ret) (l ≫= w).
Proof.
  revert ret. induction l as [|x l IH]; intros ret Hf p r p' H Hr; cbn [each] in H.
  - injection H as <- <-. simpl. by rewrite wrote_nil.
  - apply bind_inv in H as (r1 & p1 & H1 & H). case_match; to_prop.
    + injection H as <- <-. lia.
    + rewrite (Hf x (list_elem_of_here _ _) p r1 p1 H1) in H by done.
      rewrite (IH r1 (fun y Hy => Hf y (list_elem_of_further _ _ _ Hy)) _ _ _ H Hr).
      by rewrite wrote_app.
Qed.

Lemma writes_list l : writes (isx012_putreglist hw l) l.
Proof.
  assert (E : (l ≫= fun e => [e]) = l).
  { induction l as [|e l IH]; [done|]. rewrite bind_cons. simpl. by f_equal. }
  rewrite <- E at 2. apply writes_each. intros [] _. apply writes_putreg.
Qed.

(** A table as a list of registers. *)

Definition unit_regs (unit : Z -> Z -> Z) (data : list (list Z)) (num size : Z) : list isx012_reg :=
  seqZ 0 num ≫= fun u => seqZ 0 size ≫= fun s =>
    match cell data u s with Ret v => [mk_reg (unit u s) v 1] | _ => [] end.

Lemma writes_units unit data num size :
  writes (put_units hw unit data num size) (unit_regs unit data num size).
Proof.
  apply writes_each. intros u _. apply writes_each. intros s _ p r p' H Hr.
  destruct (cell data u s) as [v| |]; [|done..]. by eapply writes_putreg.
Qed.

Lemma writes_or_fail m k l l' : writes m l -> writes k l' -> writes (or_fail m k) (l ++ l').
Proof.
  intros Hm Hk p r p' H Hr. apply bind_inv in H as (r1 & p1 & H1 & H). case_match; to_prop.
  - injection H as <- <-. lia.
  - rewrite (Hm _ _ _ H1) in H by done. rewrite (Hk _ _ _ H Hr). by rewrite wrote_app.
Qed.

Lemma writes_or_reset m k l l' : writes m l -> writes k l' -> writes (or_reset m k) (l ++ l').
Proof.
  intros Hm Hk p r p' H Hr. apply bind_inv in H as (r1 & p1 & H1 & H). case_match; to_prop.
  - apply bind_inv in H as (? & ? & _ & H). injection H as <- <-. lia.
  - rewrite (Hm _ _ _ H1) in H by done. rewrite (Hk _ _ _ H Hr). by rewrite wrote_app.
Qed.

Lemma writes_done : writes (mret OK) [].
Proof. intros p r p' [= <- <-] _. by rewrite wrote_nil. Qed.

(** ** The shading data *)

Definition shading : list isx012_reg :=
  unit_regs CXC_RGB_UNIT g_isx012_cxc_rgb_data CXC_RGB_DATA_UNIT_NUM CXC_RGB_DATA_UNIT_SIZE ++
  unit_regs CXC_GRB_UNIT g_isx012_cxc_grb_data CXC_GRB_DATA_UNIT_NUM CXC_GRB_DATA_UNIT_SIZE ++
  [mk_reg SHD_VALID 0x9191 2] ++
  unit_regs SHD_RGB_UNIT g_isx012_shd_rgb_data SHD_RGB_DATA_UNIT_NUM SHD_RGB_DATA_UNIT_SIZE ++
  unit_regs SHD_GRB_UNIT g_isx012_shd_grb_data SHD_GRB_DATA_UNIT_NUM SHD_GRB_DATA_UNIT_SIZE ++
  unit_regs SHD_R1_UNIT g_isx012_shd_r1_data SHD_R1_DATA_UNIT_NUM SHD_R1_DATA_UNIT_SIZE ++
  unit_regs SHD_R2_UNIT g_isx012_shd_r2_data SHD_R2_DATA_UNIT_NUM SHD_R2_DATA_UNIT_SIZE ++
  unit_regs SHD_B2_UNIT g_isx012_shd_b2_data SHD_B2_DATA_UNIT_NUM SHD_B2_DATA_UNIT_SIZE ++
  g_isx012_shd_thresholds ++ g_isx012_shd_wb.

Lemma writes_shd :
  writes (isx012_set_shd hw)
    (mk_reg SHD_EN 0x50 1 :: mk_reg CXC_VALID 0x8282 2 :: shading ++ [mk_reg SHD_EN 0x57 1]).
Proof.
  eassert (W : writes (isx012_set_shd hw) _).
  { unfold isx012_set_shd.
    repeat first [eapply writes_or_fail | eapply writes_or_reset | apply writes_putreg
      | apply writes_units | apply writes_list | apply writes_done]. }
  intros p r p' H Hr. rewrite (W p r p' H Hr). by f_equal.
Qed.

(** ** Polling leaves the settings alone *)

(** [m] changes nothing but the bus. *)

Definition steady {A} (m : IX A) : Prop := forall p a p', m p = Ret (a, p') ->
  i_lock p' = i_lock p /\ i_addr p' = i_addr p /\ i_freq p' = i_freq p /\ i_state p' = i_state p.

Lemma steady_bind {A B} (m : IX A) (f : A -> IX B) :
  steady m -> (forall a, steady (f a)) -> steady (m ≫= f).
Proof.
  intros Hm Hf p b p' H. apply bind_inv in H as (a & p1 & H1 & H2).
  apply Hm in H1. apply Hf in H2. intuition congruence.
Qed.

Lemma steady_ret {A} (a : A) : steady (mret a).
Proof. by intros p b p' [= <- <-]. Qed.

Lemma steady_ev e : steady (ev e).
Proof. by intros p b p' [= <- <-]. Qed.

Lemma steady_getreg a n : steady (isx012_getreg hw a n).
Proof.
  intros p r p' H. unfold isx012_getreg in H. case_match; [done|].
  destruct p as [lk ad fq st mo cv cs bus]. unfold i2c_lock, i2c_unlock, bus_write, bus_read, ev in H.
  munfold. simpl in H. unfold sem_wait in H. destruct (0 <? lk); [|done]. simpl in H.
  destruct (_ <? 0); simpl in H; [|destruct (hw_read _ _ _); simpl in H];
    injection H as _ <-; simpl; unfold sem_post; split_and!; (lia || done).
Qed.

Lemma steady_putreg a v n : steady (isx012_putreg hw a v n).
Proof.
  intros p r p' H. unfold isx012_putreg in H. case_match; [done|].
  destruct p as [lk ad fq st mo cv cs bus]. unfold i2c_lock, i2c_unlock, bus_write, ev in H.
  munfold. simpl in H. unfold sem_wait in H. destruct (0 <? lk); [|done]. simpl in H.
  injection H as _ <-. simpl. unfold sem_post. split_and!; [lia|done..].
Qed.

Lemma steady_chk_loop n sts wait timeout time : steady (chk_loop hw n sts wait timeout time).
Proof.
  revert time. induction n as [|n IH]; intros time; cbn [chk_loop]; case_match.
  - by intros p a p'.
  - apply steady_ret.
  - apply steady_bind; [apply steady_getreg|]. intros d. case_match; [apply steady_putreg|].
    apply steady_bind; [apply steady_ev|]. auto.
  - apply steady_ret.
Qed.

Lemma steady_wait : steady (wait_om hw).
Proof. apply steady_bind; [apply steady_ev|]. intros _. apply steady_chk_loop. Qed.

(** Take the first step of a run: a board call or an assignment. *)

Ltac take H :=
  apply bind_inv in H as (? & ? & [= <- <-] & H).

(** ** The programmed configuration *)

(** The registers of the configuration, in the order they are written. *)

Definition configuration : list isx012_reg :=
  g_isx012_def_init ++ mk_reg SHD_EN 0x50 1 :: mk_reg CXC_VALID 0x8282 2 :: shading ++
  [mk_reg SHD_EN 0x57 1].

(** The values that are left: the shading is switched on at the end. *)

Definition programmed : list isx012_reg :=
  g_isx012_def_init ++ mk_reg CXC_VALID 0x8282 2 :: shading ++ [mk_reg SHD_EN 0x57 1].

Lemma writes_configuration :
  writes (or_reset (isx012_putreglist hw g_isx012_def_init)
            (ret ← isx012_set_shd hw; if ret <? 0 then ev SetReset;; mret ret else mret ret))
    configuration.
Proof.
  apply writes_or_reset; [apply writes_list|]. intros p r p' H Hr.
  apply bind_inv in H as (r1 & p1 & H1 & H). case_match; to_prop.
  - apply bind_inv in H as (? & ? & _ & H). injection H as <- <-. lia.
  - injection H as <- <-. by eapply writes_shd.
Qed.

(** A step checked with [if (ret != OK) return ret] has succeeded when the whole
    has. *)

Lemma past_check (m : IX Z) (f : Z -> IX Z) p p' :
  (ret ← m; if negb (ret =? OK) then mret ret else f ret) p = Ret (OK, p') ->
  exists p1, m p = Ret (OK, p1) /\ f OK p1 = Ret (OK, p').
Proof.
  intros H. apply bind_inv in H as (r & p1 & H1 & H). case_match; to_prop.
  - by injection H as -> _.
  - subst r. by exists p1.
Qed.

Lemma init_isx012_run p p' : init_isx012 hw p = Ret (OK, p') ->
  exists p1, p' = wrote configuration p1 /\ i_state p1 = STATE_ISX012_SLEEP /\
             i_freq p1 = I2CFREQ_FAST /\ i_addr p1 = i_addr p.
Proof.
  intros H. unfold init_isx012 in H. take H. take H.
  apply past_check in H as (p1 & H1 & H). apply steady_wait in H1 as (_ & A1 & _). take H.
  apply past_check in H as (p2 & H2 & H). apply (fun E => writes_list _ _ _ _ E (Z.le_refl 0)) in H2.
  apply past_check in H as (p3 & H3 & H). apply steady_wait in H3 as (_ & A3 & _). take H. take H.
  eexists. split; [by apply (writes_configuration _ _ _ H)|]. simpl. split_and!; [done..|].
  rewrite A3, H2. exact A1.
Qed.

Lemma init_run p p' : isx012_init hw p = Ret (OK, p') ->
  exists p1, p' = wrote configuration p1 /\ i_state p1 = STATE_ISX012_SLEEP /\
             i_freq p1 = I2CFREQ_FAST /\ i_addr p1 = ISX012_I2C_SLV_ADDR.
Proof.
  intros H. unfold isx012_init in H. take H. take H. take H. take H. take H.
  set (pw := hw_power_on hw _) in H. destruct (Z.ltb_spec pw 0) as [Hn|_]; [injection H as H _; unfold OK in H; lia|].
  apply bind_inv in H as (r & q & H0 & H). case_match; to_prop.
  - take H. take H. injection H as -> _. unfold OK in *. lia.
  - injection H as -> ->. apply init_isx012_run in H0 as (p1 & -> & ? & ? & ?). by exists p1.
Qed.

(** The bytes a list of registers leaves, as a map from addresses. *)

Fixpoint put_bytes (a : Z) (bs : list Z) (m : gmap Z Z) : gmap Z Z :=
  match bs with [] => m | b :: bs' => <[a := b]> (put_bytes (a + 1) bs' m) end.

Definition put_entry (m : gmap Z Z) (e : isx012_reg) : gmap Z Z :=
  put_bytes (regaddr e) (le_bytes (Z.to_nat (regsize e)) (u16 (regval e))) m.

Lemma put_bytes_lookup a bs m x : put_bytes a bs m !! x =
  if (a <=? x) && (x <? a + Z.of_nat (length bs)) then Some (nth (Z.to_nat (x - a)) bs 0) else m !! x.
Proof.
  revert a. induction bs as [|b bs IH]; intros a; cbn [put_bytes length].
  - destruct (Z.leb_spec a x), (Z.ltb_spec x (a + Z.of_nat 0)); (done || lia).
  - destruct (decide (a = x)) as [->|Ha].
    + rewrite lookup_insert_eq. replace (x - x) with 0 by lia.
      by rewrite (proj2 (Z.leb_le x x)), (proj2 (Z.ltb_lt x _)) by lia.
    + rewrite lookup_insert_ne, IH by done.
      destruct (Z.leb_spec (a + 1) x), (Z.leb_spec a x), (Z.ltb_spec x (a + 1 + Z.of_nat (length bs))),
        (Z.ltb_spec x (a + Z.of_nat (S (length bs)))); simpl; try lia; try done.
      by replace (Z.to_nat (x - a)) with (S (Z.to_nat (x - (a + 1)))) by lia.
Qed.

Lemma reg_byte_wrote f ad l h x : Forall (fun e => 0 <= regaddr e < 65536) l ->
  reg_byte (rev (write_of f ad <$> l) ++ h) x = default (reg_byte h x) (foldl put_entry ∅ l !! x).
Proof.
  induction l as [|e l IH] using rev_ind; intros Hl; [done|].
  apply Forall_app in Hl as [Hl [He _]%Forall_cons].
  rewrite fmap_app, rev_app_distr, foldl_app. cbn [fmap list_fmap rev app foldl].
  unfold write_of at 1. rewrite reg_byte_write by done. unfold put_entry at 1.
  rewrite put_bytes_lookup. case_match; [done|auto].
Qed.

(** Every register of [l] reads from the map as the list says. *)

Definition reads_as (m : gmap Z Z) (l : list isx012_reg) : bool :=
  forallb (fun e => bool_decide (le_value <$> mapM (m !!.) (seqZ (regaddr e) (regsize e))
                                 = Some (regval e))) l.

Lemma reads_as_spec f ad w l h e :
  Forall (fun e => 0 <= regaddr e < 65536) w -> reads_as (foldl put_entry ∅ w) l = true -> e ∈ l ->
  reg_value (rev (write_of f ad <$> w) ++ h) (regaddr e) (regsize e) = regval e.
Proof.
  unfold reads_as. rewrite forallb_forall. intros Hw H He%list_elem_of_In.
  apply H, bool_decide_eq_true, fmap_Some in He as (bs & Hm & ->). unfold reg_value. f_equal.
  apply mapM_Some_1 in Hm. induction Hm as [|x b xs bs Hx _ IH]; [done|]. rewrite fmap_cons, IH.
  f_equal. rewrite reg_byte_wrote by done. by rewrite Hx.
Qed.

Lemma configuration_addresses : Forall (fun e => 0 <= regaddr e < 65536) configuration.
Proof.
  apply Forall_forall. intros e He%list_elem_of_In.
  assert (C : forallb (fun e => (0 <=? regaddr e) && (regaddr e <? 65536)) configuration = true)
    by (vm_compute; reflexivity).
  rewrite forallb_forall in C. apply C in He. to_prop. lia.
Qed.

Lemma configuration_reads : reads_as (foldl put_entry ∅ configuration) programmed = true.
Proof. vm_compute. reflexivity. Qed.

(** A start-up of the sensor that succeeds has programmed it: the sensor
    sleeps, the bus is switched to its fast rate, and every register of the
    initial configuration and of the shading tables holds its value, the shading
    enabled last. *)
Theorem init_programs_registers p p' e
    (H : isx012_init hw p = Ret (OK, p')) (He : e ∈ programmed) :
  i_state p' = STATE_ISX012_SLEEP /\ i_freq p' = I2CFREQ_FAST /\
  reg_value (i_bus p') (regaddr e) (regsize e) = regval e.
Proof.
  apply init_run in H as (p1 & -> & Hs & Hf & Ha). split; [exact Hs|]. split; [exact Hf|].
  rewrite wrote_bus, Hf, Ha.
  exact (reads_as_spec _ _ _ _ _ _ configuration_addresses configuration_reads He).
Qed.

End Hardware.

Definition started : isx012_dev :=
  match isx012_init sensor at_boot with Ret (_, p') => p' | _ => at_boot end.

Lemma init_programs_registers_witness :
  isx012_init sensor at_boot = Ret (OK, started) /\
  reg_value (i_bus started) SHD_EN 1 = 0x57.
Proof.
  assert (H : isx012_init sensor at_boot = Ret (OK, started)) by (vm_compute; reflexivity).
  split; [exact H|].
  apply (init_programs_registers sensor at_boot started (mk_reg SHD_EN 0x57 1) H).
  apply list_elem_of_In, in_or_app. right. apply in_cons, in_or_app. right. by left.
Defined.

End IsxInit.
