(* ===== verification/IsxVideo.v ===== *)
(** * The video driver on the ISX012

    The sensor driver as the [imgsensor_ops] the video driver calls.  The frame
    settings the video driver keeps are always ones this sensor accepts, so every
    capture it starts is one the sensor accepts. *)

From S2P Require Import Prelude FrameBuff VideoState VideoCtrl VideoDrv VideoIoctl VideoSys VideoSafe VideoProps IsxRegs Isx012 IsxFrame.
Import FrameBuff VideoState VideoCtrl VideoDrv VideoIoctl VideoSys VideoSafe VideoProps.

Module IsxVideo.

(** ** The interface

    The operations of [g_isx012_ops] that do not talk to the sensor answer as
    [Isx012] says; there is no [get_frame_interval]. *)

Class Isx012Sensor (o : imgsensor_ops) : Prop := {
  ix_validate : exists sv, so_validate_frame_setting o = Some sv /\
    forall h type nr fmts i r,
      Isx012.isx012_validate_frame_setting nr fmts i = Ret r -> sv h type nr fmts i = r;
  ix_start : is_Some (so_start_capture o);
  ix_interval : so_get_frame_interval o = None
}.

Lemma validate_returns nr fmts i : (Z.to_nat nr <= length fmts)%nat ->
  exists r, Isx012.isx012_validate_frame_setting nr fmts i = Ret r.
Proof.
  intros Hl. unfold Isx012.isx012_validate_frame_setting. destruct (_ || _) eqn:E; [by eexists|]. to_prop.
  destruct fmts as [|main rest]; [simpl in Hl; lia|].
  assert (exists m, Isx012.isx012_get_maximum_fps nr (main :: rest) = Ret m) as [m ->].
  { unfold Isx012.isx012_get_maximum_fps. cbv zeta. repeat (case_match; [by eexists|]).
    case_match; [|by eexists]. destruct (nr =? 1) eqn:En; [by eexists|]. to_prop.
    destruct rest; [simpl in Hl; lia|]. by eexists. }
  cbn [mbind outcome_bind]. repeat case_match; by eexists.
Qed.

Lemma accepted_size nr main rest i :
  Isx012.isx012_validate_frame_setting nr (main :: rest) i = Ret OK ->
  (nr = 1 \/ nr = 2) /\ 96 <= f_width main /\ 64 <= f_height main.
Proof.
  unfold Isx012.isx012_validate_frame_setting. destruct (_ || _) eqn:E; [done|]. to_prop.
  destruct (Isx012.isx012_get_maximum_fps nr (main :: rest)) as [m| |] eqn:Em; [|done..].
  cbn [mbind outcome_bind]. destruct (Z.eqb_spec m (- EINVAL)) as [|Hm]; [done|]. intros _.
  split; [lia|]. revert Em. unfold Isx012.isx012_get_maximum_fps, mbind, outcome_bind. cbv zeta.
  unfold IsxRegs.OUT_YUV_HSIZE_MIN, IsxRegs.OUT_YUV_VSIZE_MIN, IsxRegs.OUT_JPG_HSIZE_MIN, IsxRegs.OUT_JPG_VSIZE_MIN.
  destruct (Z.ltb_spec (f_width main) 96), (Z.ltb_spec (f_height main) 64); [..|done]; cbn [orb];
    repeat case_match; intros [= <-]; done.
Qed.

#[export] Instance isx012_frame_sensor o : Isx012Sensor o -> FrameSensor o.
Proof.
  intros [(sv & Hsv & Hv) Hs _]. split; [done|]. intros sv' h type nr main rest i E Hl H.
  rewrite Hsv in E. injection E as <-. destruct (validate_returns nr (main :: rest) i Hl) as [r Hr].
  rewrite (Hv _ _ _ _ _ _ Hr) in H. subst r. apply accepted_size in Hr. split; lia.
Qed.

(** ** The settings the driver keeps *)

Definition settings (t : video_type_inf) : list video_format :=
  convert_to_imgfmt <$> take (Z.to_nat (nr_fmt t)) [fmt_main t; fmt_sub t].

Definition settings_ok (t : video_type_inf) : Prop :=
  Isx012.isx012_validate_frame_setting (nr_fmt t) (settings t) (frame_interval t) = Ret OK.

Definition start_ok (c : dev_call) : Prop :=
  match c with
  | SensorStart _ nr fmts i => Isx012.isx012_validate_frame_setting nr fmts i = Ret OK
  | _ => True
  end.

(** Both streams have settings the sensor accepts, and so had every capture
    started since the history was [h0]. *)

Record sane (o : imgsensor_ops) (h0 : history) (d : vdrv) : Prop := {
  sn_dev : g_video_sensor_ops d = Some o;
  sn_set : forall s, settings_ok (inf s d);
  sn_hist : exists l, hist d = l ++ h0 /\ Forall start_ok l
}.

Section Sensor.

Context (o : imgsensor_ops) `{Ho : Isx012Sensor o} (h0 : history).

Abbreviation Sane := (sane o h0).

(** [m] keeps it so, when it returns. *)

Definition holds {A} (m : VD A) : Prop := forall d a d', Sane d -> m d = Ret (a, d') -> Sane d'.

Create HintDb holds.

Lemma holds_ret {A} (a : A) : holds (mret a).
Proof. by intros d b d' Hd [= <- <-]. Qed.

Lemma holds_bind {A B} (m : VD A) (f : A -> VD B) :
  holds m -> (forall a, holds (f a)) -> holds (m ≫= f).
Proof. intros Hm Hf d b d' Hd H. apply bind_inv in H as (a & d1 & H1 & H2). exact (Hf a _ _ _ (Hm _ _ _ Hd H1) H2). Qed.

Lemma holds_get : holds get.
Proof. by intros d b d' Hd [= <- <-]. Qed.

Lemma holds_gets {A} (f : vdrv -> A) : holds (gets f).
Proof. by intros d b d' Hd [= <- <-]. Qed.

Lemma holds_lift {A} (r : outcome A) : holds (lift r).
Proof. intros d b d' Hd H. by apply lift_inv in H as [_ ->]. Qed.

Lemma holds_ub {A} e : holds (A := A) (ub e).
Proof. by intros d b d' Hd H. Qed.

Lemma holds_call c : start_ok c -> holds (call c).
Proof.
  intros Hc d b d' [Hs Hset (l & Hl & Hf)] [= <- <-]. split; [done..|].
  exists (c :: l). split; [simpl; by rewrite Hl|by constructor].
Qed.

(** An assignment to a stream that is not to its settings. *)

Lemma holds_inf s g :
  (forall t, nr_fmt (g t) = nr_fmt t) -> (forall t, fmt_main (g t) = fmt_main t) ->
  (forall t, fmt_sub (g t) = fmt_sub t) -> (forall t, frame_interval (g t) = frame_interval t) ->
  holds (on_inf s g).
Proof.
  intros H1 H2 H3 H4 d b d' [Hs Hset Hh] [= <- <-]. split; [by destruct s| |by destruct s].
  intros s'. specialize (Hset s'). unfold settings_ok, settings in *.
  destruct s, s'; simpl in *; by rewrite ?H1, ?H2, ?H3, ?H4.
Qed.

Lemma holds_fb {A} s (m : FB A) : holds (fb s m).
Proof.
  intros d b d' Hd H. unfold fb, zoom in H. destruct (m _) as [[x f']| |]; [|done..].
  injection H as <- <-. eapply (holds_inf s (set_bufinf f')); [done..|exact Hd|reflexivity].
Qed.

Lemma holds_sensor : holds sensor.
Proof. apply holds_bind; [apply holds_get|]. intros d. case_match; [apply holds_ret|apply holds_ub]. Qed.

Lemma holds_data : holds data_ops.
Proof. apply holds_bind; [apply holds_get|]. intros d. case_match; [apply holds_ret|apply holds_ub]. Qed.

Hint Resolve holds_ret holds_get holds_gets holds_lift holds_ub holds_fb holds_sensor holds_data : holds.
Hint Extern 2 (holds (on_inf _ _)) => (apply holds_inf; reflexivity) : holds.
Hint Extern 2 (holds (call _)) => (apply holds_call; exact I) : holds.

Ltac holds :=
  repeat lazymatch goal with
  | |- forall _, _ => intros ?
  | |- holds (mbind _ _) => apply holds_bind
  | |- holds (match _ with _ => _ end) => case_match
  | |- holds (let _ := _ in _) => cbv zeta
  | |- holds (get_inf _) => apply holds_gets
  | |- holds _ => solve [auto with holds]
  end.

(** ** Starting a capture *)

Lemma holds_start_capture type nr main sub clip i addr size :
  Isx012.isx012_validate_frame_setting nr (convert_to_imgfmt <$> take (Z.to_nat nr) [main; sub]) i = Ret OK ->
  holds (start_capture type nr main sub clip i addr size).
Proof. intros H. unfold start_capture, both_ops. holds. by apply holds_call. Qed.

Lemma holds_start_stream s type c : holds (start_stream s type c).
Proof.
  intros d a d' Hd H. apply bind_inv in H as (t & ? & [= <- <-] & H).
  apply bind_inv in H as (b & d1 & H1 & H).
  eapply holds_start_capture; [|by eapply holds_fb|exact H]. apply (sn_set _ _ _ Hd).
Qed.

Hint Resolve holds_start_stream : holds.

Lemma holds_change next : holds (change_video_state next).
Proof. unfold change_video_state, stop_capture. holds. Qed.

Hint Resolve holds_change : holds.

Lemma holds_move cause : holds (move_video cause).
Proof. unfold move_video. holds. Qed.

Lemma holds_lock s : holds (video_lock s).
Proof. unfold video_lock. holds. Qed.

Lemma holds_unlock s : holds (video_unlock s).
Proof. unfold video_unlock. holds. Qed.

Hint Resolve holds_move holds_lock holds_unlock : holds.

(** ** The requests *)

Lemma holds_finish s : holds (dq_finish s).
Proof. unfold dq_finish, dq_deliver. holds. Qed.

Hint Resolve holds_finish : holds.

Lemma holds_loop n s type : holds (dq_loop n s type).
Proof. induction n; cbn [dq_loop]; holds. Qed.

Hint Resolve holds_loop : holds.

Lemma holds_resume s type : holds (dq_resume s type).
Proof. unfold dq_resume, dq_wait. holds. Qed.

Lemma holds_irq err size : holds (video_complete_capture err size).
Proof. unfold video_complete_capture, capture_frame, capture_next, notify, stop_capture. holds. Qed.

(** The sensor's answer to a setting, as [Isx012] gives it. *)

Lemma validated type nr l i d r d' : (Z.to_nat nr <= length l)%nat ->
  Sane d -> validate_frame_setting type nr l i d = Ret (r, d') -> d' = d /\
  (r = OK -> Isx012.isx012_validate_frame_setting nr (convert_to_imgfmt <$> l) i = Ret OK).
Proof.
  intros Hl Hd H. destruct Ho as [(sv & Hsv & Hv) _ _].
  unfold validate_frame_setting, both_ops, sensor in H. munfold.
  rewrite (sn_dev _ _ _ Hd) in H. destruct (g_video_data_ops d) as [dt|]; [|done].
  rewrite Hsv in H. destruct (do_validate_frame_setting dt); [|by injection H as <- <-].
  injection H as <- <-. split; [done|].
  destruct (validate_returns nr (convert_to_imgfmt <$> l) i) as [r Hr]; [by rewrite length_fmap|].
  rewrite (Hv _ _ _ _ _ _ Hr), Hr. destruct (Z.eqb_spec r OK) as [->|Hn]; [done|]. intros E. by destruct Hn.
Qed.

Lemma settings_nr t : settings_ok t -> (Z.to_nat (nr_fmt t) <= 2)%nat.
Proof.
  unfold settings_ok, settings. intros H. destruct (Z.to_nat (nr_fmt t)) eqn:E; [lia|].
  cbn [take fmap list_fmap] in H. apply accepted_size in H. lia.
Qed.

(** The new settings of a stream. *)

Lemma sane_set s g d : Sane d -> settings_ok (g (inf s d)) -> Sane (upd_inf s g d).
Proof.
  intros [Hs Hset Hh] Hg. split; [by destruct s| |by destruct s].
  intros s'. specialize (Hset s'). by destruct s, s'.
Qed.

(** Split a run at its first step; close the cases that return at once. *)

Ltac step H := apply bind_inv in H as (? & ? & [= <- <-] & H).
Ltac leave H := by injection H as <- <-; split; [done|discriminate].

Lemma both_run d x d' : both_ops d = Ret (x, d') -> d' = d.
Proof. unfold both_ops, sensor. munfold. repeat case_match; congruence. Qed.

Lemma tried arg d r d' : Sane d -> video_try_fmt arg d = Ret (r, d') -> d' = d /\
  (r = OK -> forall v s, arg = Some v -> get_video_type_inf (vf_type v) = Some s ->
     let t := inf s d in
     if is_subimg (f_pixelformat (vf_pix v)) then
       settings_ok (set_nr_fmt 2 (set_fmt_sub (subimg_format (vf_pix v)) t))
     else settings_ok (set_nr_fmt 1 (set_fmt_main (vf_pix v) t))).
Proof.
  intros Hd H. unfold video_try_fmt in H. apply bind_inv in H as ([o' dt] & d1 & ->%both_run & H).
  destruct (so_validate_frame_setting o'), (do_validate_frame_setting dt), arg as [v|];
    try leave H.
  destruct (get_video_type_inf (vf_type v)) as [s|] eqn:Es; [|leave H].
  step H. destruct (is_subimg _) eqn:Esub; [destruct (negb _); [leave H|]|destruct (is_mainimg _); [|leave H]];
    (apply validated in H as [-> Hr]; [|simpl; lia|done]); (split; [done|]);
    intros E v' s' [= <-] Hs; rewrite Es in Hs; injection Hs as <-; rewrite Esub; exact (Hr E).
Qed.

Lemma holds_s_fmt arg : holds (video_s_fmt arg).
Proof.
  intros d r d' Hd H. apply bind_inv in H as (r1 & d1 & H1 & H).
  apply tried in H1 as [-> Hr]; [|done]. destruct (Z.eqb_spec r1 0) as [->|]; [|by injection H as <- <-].
  destruct arg as [v|]; [|done]. destruct (get_video_type_inf (vf_type v)) as [s|] eqn:Es; [|by injection H as <- <-].
  specialize (Hr eq_refl v s eq_refl Es). step H.
  case_bool_decide; [by injection H as <- <-|]. simpl in Hr.
  destruct (is_subimg _); [case_match; [by injection H as <- <-|]|];
    step H; step H;
    injection H as <- <-; rewrite upd_upd; by apply sane_set.
Qed.

Lemma holds_s_parm arg : holds (video_s_parm arg).
Proof.
  intros d r d' Hd H. unfold video_s_parm in H. apply bind_inv in H as ([o' dt] & d1 & ->%both_run & H).
  destruct (so_validate_frame_setting o'), (do_validate_frame_setting dt), arg as [p|];
    try (by injection H as <- <-).
  destruct (get_video_type_inf (pm_type p)) as [s|]; [|by injection H as <- <-].
  step H. case_bool_decide; [by injection H as <- <-|].
  apply bind_inv in H as (r1 & d1 & H2 & H).
  pose proof (settings_nr _ (sn_set _ _ _ Hd s)) as Hn.
  apply validated in H2 as [-> Hr]; [|rewrite length_take; simpl; lia|done].
  destruct (Z.eqb_spec r1 OK) as [->|]; [|by injection H as <- <-].
  step H. injection H as <- <-.
  apply sane_set; [done|]. exact (Hr eq_refl).
Qed.

Hint Resolve holds_s_fmt holds_s_parm holds_resume : holds.

Lemma holds_s_selection arg : holds (video_s_selection arg).
Proof. unfold video_s_selection, validate_frame_setting, both_ops, sensor_set, dev_query. holds. Qed.

Lemma holds_try_fmt arg : holds (video_try_fmt arg).
Proof. intros d r d' Hd H. by apply tried in H as [-> _]. Qed.

Hint Resolve holds_s_selection holds_try_fmt : holds.

Lemma holds_ioctl stk req x : enabled (AIoctl req) x = true -> holds (video_ioctl stk req).
Proof.
  destruct req; try done; intros _; unfold video_ioctl, plain, inout, video_querycap, video_reqbufs,
    video_qbuf, video_dqbuf, dq_deliver, dq_wait, video_cancel_dqbuf, video_streamon, video_streamoff,
    video_takepict_start, video_takepict_stop, stop_capture, video_g_selection, video_g_parm; holds.
Qed.

Lemma holds_exec stk a x y : Sane (s_drv x) -> enabled a x = true -> exec stk a x = Ret y -> Sane (s_drv y).
Proof.
  intros Hd Hen H. destruct a as [req|s|err size]; unfold exec in H.
  - destruct (video_ioctl stk req (s_drv x)) as [[r d]| |] eqn:E; [|done..]. injection H as <-.
    by eapply (holds_ioctl stk req x).
  - destruct (dq_resume s (buf_type_of s) (s_drv x)) as [[r d]| |] eqn:E; [|done..]. injection H as <-.
    by eapply holds_resume.
  - destruct (video_complete_capture err size (s_drv x)) as [[r d]| |] eqn:E; [|done..].
    injection H as <-. by eapply holds_irq.
Qed.

Lemma steps_sane stk x y : Sane (s_drv x) -> steps stk x y -> Sane (s_drv y).
Proof. intros Hx Hs. induction Hs as [|y a z _ IH Hen Hex]; [done|]. by eapply holds_exec. Qed.

End Sensor.

Lemma opened_sane d d' o dt `{Isx012Sensor o} : opened d d' o dt -> sane o (hist d') d'.
Proof.
  intros Hop. split.
  - apply (dv_sensor _ _ _ (op_dev _ _ _ _ Hop)).
  - intros []; unfold inf; rewrite ?(op_video _ _ _ _ Hop), ?(op_still _ _ _ _ Hop); reflexivity.
  - by exists [].
Qed.

(** C17: every capture the video driver starts on an ISX012 is one this sensor
    accepts: after [open], whatever requests, resumptions and interrupts came in
    whatever order, each [start_capture] the sensor has received since came with
    formats and a frame rate that [isx012_validate_frame_setting] accepts, and so
    are the settings both streams keep. *)
Theorem captures_accepted stk d0 d1 o dt x `{Hisx : Isx012Sensor o}
    (Hready : camera_ready d0 o dt) (Hopen : video_open d0 = Ret (OK, d1))
    (Hsteps : steps stk (mk_sys d1 (fun _ => false)) x) :
  (forall s, settings_ok (inf s (s_drv x))) /\
  exists l, hist (s_drv x) = l ++ hist d1 /\
    forall type nr fmts i, SensorStart type nr fmts i ∈ l ->
      Isx012.isx012_validate_frame_setting nr fmts i = Ret OK.
Proof.
  destruct (open_run _ _ _ Hready) as (r & d' & Hrun & -> & Hop).
  rewrite Hopen in Hrun. injection Hrun as <-.
  destruct (steps_sane o (hist d1) stk (mk_sys d1 (fun _ => false)) x (opened_sane _ _ _ _ Hop) Hsteps) as [_ Hset (l & Hl & Hf)].
  split; [done|]. exists l. split; [done|]. intros type nr fmts i Hin.
  by apply (proj1 (Forall_forall _ _) Hf) in Hin.
Qed.


(** ** An ISX012 on the board *)

Definition isx012_cam : imgsensor_ops := {|
  so_is_available := fun _ => true; so_init := fun _ => 0; so_uninit := fun _ => 0;
  so_get_driver_name := Some [73; 83; 88; 48; 49; 50];
  so_validate_frame_setting := Some (fun _ _ nr fmts i =>
    match Isx012.isx012_validate_frame_setting nr fmts i with Ret r => r | _ => - EINVAL end);
  so_start_capture := Some (fun _ _ _ _ _ => 0);
  so_get_frame_interval := None; so_get_supported_value := None; so_get_value := None;
  so_set_value := Some (fun _ _ _ _ => 0) |}.

#[export] Instance isx012_cam_isx : Isx012Sensor isx012_cam.
Proof. split; [|by eexists|done]. eexists. split; [done|]. intros h type nr fmts i r E. cbv beta. by rewrite E. Qed.

Definition isx_drv : vdrv :=
  set_data (Some ex_data) (set_registered [isx012_cam] (registered_drv (fun _ _ => None))).

Definition isx_open : vdrv := match video_open isx_drv with Ret (_, d) => d | _ => isx_drv end.

Lemma isx_ready : camera_ready isx_drv isx012_cam ex_data.
Proof.
  constructor; try done.
  - by constructor; try done; simpl; [apply _|eexists..].
  - intros a [c Hc]. change (cells (bufinf _)) with (∅ : gmap vptr vbuf_container) in Hc.
    by rewrite lookup_empty in Hc.
  - intros a [c Hc]. change (cells (bufinf _)) with (∅ : gmap vptr vbuf_container) in Hc.
    by rewrite lookup_empty in Hc.
Qed.

(** A format with no such rate is refused, another is taken, and the stream is
    started with it. *)

Definition isx_actions : list action :=
  [AIoctl (VIDIOC_S_FMT (Some (mk_v4l2fmt 1 (mk_format 2608 1960 V4L2_PIX_FMT_JPEG))));
   AIoctl (VIDIOC_S_FMT (Some (mk_v4l2fmt 1 (mk_format 1280 960 V4L2_PIX_FMT_JPEG))));
   AIoctl (VIDIOC_REQBUFS true (Some (mk_reqbufs 1 1 2 0)));
   AIoctl (VIDIOC_QBUF (Some (ex_buf 1 0))); AIoctl (VIDIOC_STREAMON (Some 1))].

Definition isx_state : sys :=
  match run_actions ex_stack isx_actions (mk_sys isx_open (fun _ => false)) with
  | Some x => x
  | None => mk_sys isx_open (fun _ => false)
  end.

Lemma isx_opened : video_open isx_drv = Ret (OK, isx_open).
Proof.
  unfold isx_open. destruct (open_run _ _ _ isx_ready) as (r & d' & H & -> & _). by rewrite H.
Qed.

Lemma isx_reached : steps ex_stack (mk_sys isx_open (fun _ => false)) isx_state.
Proof.
  assert (E : match run_actions ex_stack isx_actions (mk_sys isx_open (fun _ => false)) with
              | Some _ => true | None => false end = true) by (vm_compute; reflexivity).
  unfold isx_state. destruct (run_actions _ _ _) as [x|] eqn:H; [|done].
  by eapply run_actions_steps; [apply steps_refl|].
Qed.

Lemma captures_accepted_witness :
  (forall s, settings_ok (inf s (s_drv isx_state))) /\
  hw_running (hist (s_drv isx_state)) = true /\
  exists l, hist (s_drv isx_state) = l ++ hist isx_open /\
    forall type nr fmts i, SensorStart type nr fmts i ∈ l ->
      Isx012.isx012_validate_frame_setting nr fmts i = Ret OK.
Proof.
  destruct (captures_accepted ex_stack isx_drv isx_open isx012_cam ex_data isx_state isx_ready
              isx_opened isx_reached) as [H1 H2].
  split; [exact H1|]. split; [vm_compute; reflexivity|exact H2].
Defined.

End IsxVideo.
