(* ===== verification/MmHeap.v ===== *)
(** * The heap of the kernel

    [src/spresense/nuttx/mm/mm_heap]: the allocator behind [kmm_malloc],
    [malloc] and [memalign].  One region ([CONFIG_MM_REGIONS] is 1), chunk sizes
    of 32 bits, 32-bit pointers, one processor, assertions enabled.

    Memory is a map from the addresses of 32-bit words to their values: a chunk
    is the words its header describes, the links of a free chunk lie in it, and
    the hooks [mm_nodelist] are words too.  An access to a word that is not
    there is undefined. *)

From S2P Require Import Prelude.

Module MmHeap.

(** ** Layout ([mm.h]) *)

Definition MM_MIN_SHIFT : Z := 4.
Definition MM_MAX_SHIFT : Z := 22.
Definition MM_MIN_CHUNK : Z := 16.
Definition MM_MAX_CHUNK : Z := 4194304.
Definition MM_NNODES : Z := 19.
Definition MM_GRAN_MASK : Z := 15.
Definition MM_ALLOC_BIT : Z := 2147483648.
Definition SIZEOF_MM_ALLOCNODE : Z := 8.
Definition SIZEOF_MM_FREENODE : Z := 16.

Definition not32 (x : Z) : Z := 4294967295 - x.

Definition MM_ALIGN_UP (a : Z) : Z := Z.land (u32 (a + MM_GRAN_MASK)) (not32 MM_GRAN_MASK).
Definition MM_ALIGN_DOWN (a : Z) : Z := Z.land a (not32 MM_GRAN_MASK).

(** [struct mm_heap_s]; [mm_nodelist] is the address of its array. *)

Record mm_heap := mk_heap {
  mm_semaphore : Z;
  mm_heapsize : Z;
  mm_heapstart : Z;
  mm_heapend : Z;
  mm_nodelist : Z;
  mm_delaylist : Z;
  words : gmap Z Z
}.

Definition set_sem v h := mk_heap v (mm_heapsize h) (mm_heapstart h) (mm_heapend h) (mm_nodelist h) (mm_delaylist h) (words h).
Definition set_heapsize v h := mk_heap (mm_semaphore h) v (mm_heapstart h) (mm_heapend h) (mm_nodelist h) (mm_delaylist h) (words h).
Definition set_start v h := mk_heap (mm_semaphore h) (mm_heapsize h) v (mm_heapend h) (mm_nodelist h) (mm_delaylist h) (words h).
Definition set_end v h := mk_heap (mm_semaphore h) (mm_heapsize h) (mm_heapstart h) v (mm_nodelist h) (mm_delaylist h) (words h).
Definition set_delay v h := mk_heap (mm_semaphore h) (mm_heapsize h) (mm_heapstart h) (mm_heapend h) (mm_nodelist h) v (words h).
Definition set_words v h := mk_heap (mm_semaphore h) (mm_heapsize h) (mm_heapstart h) (mm_heapend h) (mm_nodelist h) (mm_delaylist h) v.

Abbreviation MH A := (M mm_heap A).

(** ** Memory *)

Definition load (a : Z) : MH Z :=
  h ← get; match words h !! a with Some v => mret v | None => ub OutOfBounds end.

Definition store (a v : Z) : MH unit :=
  h ← get;
  match words h !! a with
  | Some _ => modify (set_words (<[a := v]> (words h)))
  | None => ub OutOfBounds
  end.

Definition assert (b : bool) : MH unit := if b then mret tt else ub AssertFailed.

(** The members of [struct mm_freenode_s] (and of [struct mm_allocnode_s]). *)

Definition size_ (node : Z) : Z := node.
Definition preceding (node : Z) : Z := node + 4.
Definition flink (node : Z) : Z := node + 8.
Definition blink (node : Z) : Z := node + 12.

Definition is_alloc (p : Z) : bool := negb (Z.land p MM_ALLOC_BIT =? 0).

(** The hook [&heap->mm_nodelist[ndx]]. *)

Definition hook (h : mm_heap) (ndx : Z) : Z := mm_nodelist h + 16 * ndx.

(** A bound for the walks over chunks and nodes: each of them has a word of its own. *)

Definition fuel (h : mm_heap) : nat := size (words h).

(** ** The semaphore ([mm_sem.c])

    Who calls: an interrupt handler, a task that is being switched, the idle
    task, another task. *)

Inductive context := CtxInterrupt | CtxSwitch | CtxIdle | CtxTask.

Definition mm_seminitialize : MH unit := modify (set_sem 1).

Definition mm_takesemaphore (cx : context) : MH bool :=
  match cx with
  | CtxInterrupt | CtxSwitch => mret false
  | CtxIdle =>
    h ← get;
    if 0 <? mm_semaphore h then modify (set_sem (mm_semaphore h - 1));; mret true else mret false
  | CtxTask =>
    h ← get; c ← lift (sem_wait (mm_semaphore h)); modify (set_sem c);; mret true
  end.

Definition mm_givesemaphore : MH unit := modify (fun h => set_sem (sem_post (mm_semaphore h)) h).

(** ** Free chunks ([mm_size2ndx.c], [mm_addfreechunk.c]) *)

(** [size] is a [uint32_t]: 32 turns are enough. *)

Fixpoint ndx_loop (n : nat) (size ndx : Z) : Z :=
  match n with
  | O => ndx
  | S n' => if 1 <? size then ndx_loop n' (Z.shiftr size 1) (ndx + 1) else ndx
  end.

Definition mm_size2ndx (size : Z) : Z :=
  if MM_MAX_CHUNK <=? size then MM_NNODES - 1 else ndx_loop 32 (Z.shiftr size MM_MIN_SHIFT) 0.

(** The place of a chunk of [size] bytes from [prev], [next] on. *)

Fixpoint add_place (n : nat) (size prev next : Z) : MH (Z * Z) :=
  if next =? 0 then mret (prev, next)
  else
    s ← load (size_ next);
    if negb (s =? 0) && (s <? size) then
      match n with
      | O => blocked
      | S n' => f ← load (flink next); add_place n' size next f
      end
    else mret (prev, next).

Definition mm_addfreechunk (node : Z) : MH unit :=
  size ← load (size_ node);
  p ← load (preceding node);
  assert (SIZEOF_MM_FREENODE <=? size);;
  assert (negb (is_alloc p));;
  h ← get;
  let first := hook h (mm_size2ndx size) in
  f ← load (flink first);
  '(prev, next) ← add_place (fuel h) size first f;
  store (flink prev) node;;
  store (blink node) prev;;
  store (flink node) next;;
  if negb (next =? 0) then store (blink next) node else mret tt.

(** Take a node out of the list. *)

Definition unlink (node : Z) : MH unit :=
  b ← load (blink node);
  assert (negb (b =? 0));;
  f ← load (flink node);
  store (flink b) f;;
  f ← load (flink node);
  if negb (f =? 0) then b ← load (blink node); store (blink f) b else mret tt.

(** [x->preceding = size | (x->preceding & MM_ALLOC_BIT)] *)

Definition set_preceding (node size : Z) : MH unit :=
  p ← load (preceding node);
  store (preceding node) (Z.lor size (Z.land p MM_ALLOC_BIT)).

(** ** Is an address in the heap? ([mm_heapmember.c], [mm_brkaddr.c]) *)

Definition mm_heapmember (h : mm_heap) (mem : Z) : bool :=
  (mm_heapstart h <? mem) && (mem <? mm_heapend h).

Definition mm_brkaddr (h : mm_heap) (region : Z) : outcome Z :=
  if negb (region =? 0) then Ub AssertFailed
  else Ret (if negb (mm_heapend h =? 0) then u32 (mm_heapend h + SIZEOF_MM_ALLOCNODE) else 0).

(** ** [mm_free] *)

Definition mm_add_delaylist (mem : Z) : MH unit :=
  h ← get; store mem (mm_delaylist h);; modify (set_delay mem).

(** Merge the chunk after [node] if it is free; the chunk that follows then. *)

Definition merge_next (node : Z) : MH Z :=
  s ← load (size_ node);
  let next := node + s in
  p ← load (preceding next);
  assert (Z.land p (not32 MM_ALLOC_BIT) =? s);;
  if negb (is_alloc p) then
    ns ← load (size_ next);
    let andbeyond := next + ns in
    unlink next;;
    s ← load (size_ node);
    ns ← load (size_ next);
    store (size_ node) (u32 (s + ns));;
    s ← load (size_ node);
    set_preceding andbeyond s;;
    mret andbeyond
  else mret next.

(** Merge [node] into the chunk before it if that is free; the free chunk. *)

Definition merge_prev (node next : Z) : MH Z :=
  p ← load (preceding node);
  let prev := node - p in
  p ← load (preceding node);
  ps ← load (size_ prev);
  assert (Z.land p (not32 MM_ALLOC_BIT) =? ps);;
  pp ← load (preceding prev);
  if negb (is_alloc pp) then
    unlink prev;;
    ps ← load (size_ prev);
    s ← load (size_ node);
    store (size_ prev) (u32 (ps + s));;
    ps ← load (size_ prev);
    set_preceding next ps;;
    mret prev
  else mret node.

(** The work of [mm_free] once the semaphore is taken. *)

Definition free_body (mem : Z) : MH unit :=
  h ← get;
  assert (mm_heapmember h mem);;
  let node := mem - SIZEOF_MM_ALLOCNODE in
  p ← load (preceding node);
  assert (is_alloc p);;
  store (preceding node) (Z.land p (not32 MM_ALLOC_BIT));;
  next ← merge_next node;
  node ← merge_prev node next;
  mm_addfreechunk node.

Definition mm_free (cx : context) (mem : Z) : MH unit :=
  if mem =? 0 then mret tt
  else
    ok ← mm_takesemaphore cx;
    if negb ok then mm_add_delaylist mem
    else free_body mem;; mm_givesemaphore.

(** ** [mm_malloc] *)

Fixpoint free_all (n : nat) (cx : context) (tmp : Z) : MH unit :=
  if tmp =? 0 then mret tt
  else
    match n with
    | O => blocked
    | S n' => next ← load tmp; mm_free cx tmp;; free_all n' cx next
    end.

Definition mm_free_delaylist (cx : context) : MH unit :=
  h ← get;
  modify (set_delay 0);;
  free_all (fuel h) cx (mm_delaylist h).

(** The first node from [node] on that has [size] bytes. *)

Fixpoint find_chunk (n : nat) (size node : Z) : MH Z :=
  if node =? 0 then mret 0
  else
    s ← load (size_ node);
    if s <? size then
      match n with
      | O => blocked
      | S n' =>
        b ← load (blink node);
        bf ← load (flink b);
        assert (bf =? node);;
        f ← load (flink node);
        find_chunk n' size f
      end
    else mret node.

(** Take [alignsize] bytes of the free chunk [node]; the memory. *)

Definition take_chunk (node alignsize : Z) : MH Z :=
  unlink node;;
  s ← load (size_ node);
  let remaining := u32 (s - alignsize) in
  (if SIZEOF_MM_FREENODE <=? remaining then
     s ← load (size_ node);
     let next := node + s in
     let remainder := node + alignsize in
     store (size_ remainder) remaining;;
     store (preceding remainder) alignsize;;
     store (size_ node) alignsize;;
     set_preceding next remaining;;
     mm_addfreechunk remainder
   else mret tt);;
  p ← load (preceding node);
  store (preceding node) (Z.lor p MM_ALLOC_BIT);;
  mret (node + SIZEOF_MM_ALLOCNODE).

(** The search from the hook [ndx] on, and the memory it ends with. *)

Definition malloc_body (ndx alignsize : Z) : MH Z :=
  h ← get;
  f ← load (flink (hook h ndx));
  node ← find_chunk (fuel h) alignsize f;
  if negb (node =? 0) then take_chunk node alignsize else mret 0.

Definition mm_malloc (cx : context) (size : Z) : MH Z :=
  mm_free_delaylist cx;;
  if size <? 1 then mret 0
  else
    let alignsize := MM_ALIGN_UP (u32 (size + SIZEOF_MM_ALLOCNODE)) in
    if alignsize <? size then mret 0
    else
      assert (MM_MIN_CHUNK <=? alignsize);;
      assert (SIZEOF_MM_FREENODE <=? alignsize);;
      mm_takesemaphore cx;;
      let ndx := if MM_MAX_CHUNK <=? alignsize then MM_NNODES - 1 else mm_size2ndx alignsize in
      ret ← malloc_body ndx alignsize;
      h ← get;
      assert ((ret =? 0) || mm_heapmember h ret);;
      mm_givesemaphore;;
      mret ret.

(** ** [mm_zalloc], [mm_calloc], [mm_malloc_size] *)

(** [memset(mem, 0, n)], a byte at a time. *)

Definition zero_byte (b : Z) : MH unit :=
  let a := b - b mod 4 in
  w ← load a; store a (Z.land w (not32 (Z.shiftl 255 (8 * (b mod 4))))).

Fixpoint memset_zero (n : nat) (mem : Z) : MH unit :=
  match n with
  | O => mret tt
  | S n' => zero_byte mem;; memset_zero n' (mem + 1)
  end.

Definition mm_zalloc (cx : context) (size : Z) : MH Z :=
  alloc ← mm_malloc cx size;
  (if negb (alloc =? 0) then memset_zero (Z.to_nat size) alloc else mret tt);;
  mret alloc.

Definition SIZE_MAX : Z := 4294967295.

Definition mm_calloc (cx : context) (n elem_size : Z) : MH Z :=
  if (0 <? n) && (0 <? elem_size) then
    if n <=? SIZE_MAX / elem_size then mm_zalloc cx (u32 (n * elem_size)) else mret 0
  else mret 0.

Definition mm_malloc_size (mem : Z) : MH Z :=
  if mem =? 0 then mret 0
  else
    let node := mem - SIZEOF_MM_ALLOCNODE in
    p ← load (preceding node);
    assert (is_alloc p);;
    s ← load (size_ node);
    mret (u32 (s - SIZEOF_MM_ALLOCNODE)).

(** ** [mm_shrinkchunk], [mm_memalign] *)

Definition mm_shrinkchunk (node size : Z) : MH unit :=
  assert (Z.land size MM_GRAN_MASK =? 0);;
  s ← load (size_ node);
  let next := node + s in
  p ← load (preceding next);
  if negb (is_alloc p) then
    ns ← load (size_ next);
    let andbeyond := next + ns in
    unlink next;;
    let newnode := node + size in
    ns ← load (size_ next);
    s ← load (size_ node);
    store (size_ newnode) (u32 (ns + s - size));;
    store (preceding newnode) size;;
    store (size_ node) size;;
    s ← load (size_ newnode);
    set_preceding andbeyond s;;
    mm_addfreechunk newnode
  else
    s ← load (size_ node);
    if u32 (size + SIZEOF_MM_FREENODE) <=? s then
      let newnode := node + size in
      store (size_ newnode) (u32 (s - size));;
      store (preceding newnode) size;;
      store (size_ node) size;;
      s ← load (size_ newnode);
      store (preceding next) (Z.lor s MM_ALLOC_BIT);;
      mm_addfreechunk newnode
    else mret tt.

(** The leading part: the aligned memory, its node and its size. *)

Definition cut_front (node rawchunk alignedchunk alignment : Z) : MH (Z * Z * Z) :=
  s ← load (size_ node);
  let next := node + s in
  assert (rawchunk + 8 <=? alignedchunk);;
  let first := alignedchunk - SIZEOF_MM_ALLOCNODE in
  let alignedchunk :=
    if first - node <? SIZEOF_MM_FREENODE then alignedchunk + alignment else alignedchunk in
  let newnode := alignedchunk - SIZEOF_MM_ALLOCNODE in
  let precedingsize := newnode - node in
  store (size_ newnode) (u32 (next - newnode));;
  store (preceding newnode) (Z.lor precedingsize MM_ALLOC_BIT);;
  store (size_ node) precedingsize;;
  p ← load (preceding node);
  store (preceding node) (Z.land p (not32 MM_ALLOC_BIT));;
  s ← load (size_ newnode);
  set_preceding next s;;
  s ← load (size_ newnode);
  mm_addfreechunk node;;
  mret (alignedchunk, newnode, u32 (s - SIZEOF_MM_ALLOCNODE)).

(** What memory is before the first alignment point and behind the end goes back
    to the list. *)

Definition trim (rawchunk alignment allocsize size : Z) : MH Z :=
  let mask := u32 (alignment - 1) in
  let node := rawchunk - SIZEOF_MM_ALLOCNODE in
  let alignedchunk := Z.land (u32 (rawchunk + mask)) (not32 mask) in
  '(alignedchunk, node, allocsize) ←
    (if negb (alignedchunk =? rawchunk) then cut_front node rawchunk alignedchunk alignment
     else mret (alignedchunk, node, allocsize));
  let size := MM_ALIGN_UP (u32 (size + SIZEOF_MM_ALLOCNODE)) in
  (if size <? allocsize then mm_shrinkchunk node size else mret tt);;
  mret alignedchunk.

Definition mm_memalign (cx : context) (alignment size : Z) : MH Z :=
  if SIZE_MAX / 2 <=? alignment then mret 0
  else if negb (Z.land alignment (u32 (- alignment)) =? alignment) then mret 0
  else if alignment <=? MM_MIN_CHUNK then mm_malloc cx size
  else
    let newsize := MM_ALIGN_UP size in
    let allocsize := u32 (newsize + 2 * alignment) in
    if (newsize <? size) || (allocsize <? newsize) then mret 0
    else
      rawchunk ← mm_malloc cx allocsize;
      if rawchunk =? 0 then mret 0
      else
        mm_takesemaphore cx;;
        alignedchunk ← trim rawchunk alignment allocsize size;
        mm_givesemaphore;;
        mret alignedchunk.

(** ** [mm_realloc] *)

(** [memcpy], from the front on; all its uses here are of whole aligned words. *)

Fixpoint copy_words (n : nat) (dst src : Z) : MH unit :=
  match n with
  | O => mret tt
  | S n' => w ← load src; store dst w;; copy_words n' (dst + 4) (src + 4)
  end.

Definition memcpy (dst src len : Z) : MH unit := copy_words (Z.to_nat (len / 4)) dst src.

(** What to take from the free chunks before and behind the memory. *)

Definition shares (prevsize nextsize needed : Z) : Z * Z :=
  let '(takeprev, takenext, needed) :=
    if (0 <? prevsize) && ((prevsize <=? nextsize) || (nextsize <? 1)) then
      if prevsize <? needed then (prevsize, needed - prevsize, 0) else (needed, 0, 0)
    else (0, 0, needed) in
  if (0 <? nextsize) && negb (needed =? 0) then
    if nextsize <? needed then (needed - nextsize, nextsize) else (0, needed)
  else (takeprev, takenext).

(** The headers of the memory and of what is left of the chunk before it. *)

Definition take_prev (prev next newnode prevsize oldsize takeprev : Z) : MH unit :=
  if takeprev <? prevsize then
    ps ← load (size_ prev);
    store (size_ prev) (u32 (ps - takeprev));;
    ps ← load (size_ prev);
    assert (SIZEOF_MM_FREENODE <=? ps);;
    store (size_ newnode) (u32 (oldsize + takeprev));;
    ps ← load (size_ prev);
    store (preceding newnode) (Z.lor ps MM_ALLOC_BIT);;
    s ← load (size_ newnode);
    set_preceding next s;;
    mm_addfreechunk prev
  else
    s ← load (size_ newnode);
    store (size_ newnode) (u32 (s + oldsize));;
    p ← load (preceding newnode);
    store (preceding newnode) (Z.lor p MM_ALLOC_BIT);;
    s ← load (size_ newnode);
    set_preceding next s.

(** Extend the memory down; its new address, node and size. *)

Definition grow_prev (prev next oldnode oldmem prevsize oldsize takeprev : Z) : MH (Z * Z * Z) :=
  unlink prev;;
  let newnode := oldnode - takeprev in
  take_prev prev next newnode prevsize oldsize takeprev;;
  let newmem := newnode + SIZEOF_MM_ALLOCNODE in
  memcpy newmem oldmem (u32 (oldsize - SIZEOF_MM_ALLOCNODE));;
  s ← load (size_ newnode);
  mret (newmem, newnode, s).

(** Extend the memory of [node], which has [oldsize] bytes, up. *)

Definition grow_next (node next oldsize nextsize takenext : Z) : MH unit :=
  let andbeyond := next + nextsize in
  unlink next;;
  store (size_ node) (u32 (oldsize + takenext));;
  s ← load (size_ node);
  let newnode := node + s in
  if takenext <? nextsize then
    store (size_ newnode) (u32 (nextsize - takenext));;
    ns ← load (size_ newnode);
    assert (SIZEOF_MM_FREENODE <=? ns);;
    s ← load (size_ node);
    store (preceding newnode) s;;
    ns ← load (size_ newnode);
    set_preceding andbeyond ns;;
    mm_addfreechunk newnode
  else
    s ← load (size_ node);
    set_preceding andbeyond s.

Definition grow (prev next oldnode oldmem prevsize nextsize oldsize newsize : Z) : MH Z :=
  let '(takeprev, takenext) := shares prevsize nextsize (u32 (newsize - oldsize)) in
  '(newmem, oldnode, oldsize) ←
    (if negb (takeprev =? 0) then grow_prev prev next oldnode oldmem prevsize oldsize takeprev
     else mret (oldmem, oldnode, oldsize));
  (if negb (takenext =? 0) then grow_next oldnode next oldsize nextsize takenext else mret tt);;
  mret newmem.

(** The size of a neighbour, 0 if it is allocated. *)

Definition free_size (node : Z) : MH Z :=
  p ← load (preceding node); if negb (is_alloc p) then load (size_ node) else mret 0.

Definition mm_realloc (cx : context) (oldmem size : Z) : MH Z :=
  if oldmem =? 0 then mm_malloc cx size
  else if size <? 1 then mm_free cx oldmem;; mret 0
  else
    let newsize := MM_ALIGN_UP (u32 (size + SIZEOF_MM_ALLOCNODE)) in
    if newsize <? size then assert false;; mret 0
    else
      let oldnode := oldmem - SIZEOF_MM_ALLOCNODE in
      mm_takesemaphore cx;;
      p ← load (preceding oldnode);
      assert (is_alloc p);;
      h ← get;
      assert (mm_heapmember h oldmem);;
      oldsize ← load (size_ oldnode);
      if newsize <=? oldsize then
        (if newsize <? oldsize then mm_shrinkchunk oldnode newsize else mret tt);;
        mm_givesemaphore;;
        mret oldmem
      else
        let next := oldnode + oldsize in
        nextsize ← free_size next;
        p ← load (preceding oldnode);
        let prev := oldnode - Z.land p (not32 MM_ALLOC_BIT) in
        prevsize ← free_size prev;
        if newsize <=? u32 (nextsize + prevsize + oldsize) then
          newmem ← grow prev next oldnode oldmem prevsize nextsize oldsize newsize;
          mm_givesemaphore;;
          mret newmem
        else
          mm_givesemaphore;;
          newmem ← mm_malloc cx size;
          (if negb (newmem =? 0) then memcpy newmem oldmem oldsize;; mm_free cx oldmem else mret tt);;
          mret newmem.

(** ** Regions ([mm_initialize.c], [mm_extend.c]) *)

Definition mm_addregion (cx : context) (heapstart heapsize : Z) : MH unit :=
  mm_takesemaphore cx;;
  let heapbase := MM_ALIGN_UP heapstart in
  let heapend := MM_ALIGN_DOWN (u32 (heapstart + heapsize)) in
  let heapsize := u32 (heapend - heapbase) in
  modify (fun h => set_heapsize (u32 (mm_heapsize h + heapsize)) h);;
  modify (set_start heapbase);;
  store (size_ heapbase) SIZEOF_MM_ALLOCNODE;;
  store (preceding heapbase) MM_ALLOC_BIT;;
  let node := heapbase + SIZEOF_MM_ALLOCNODE in
  store (size_ node) (u32 (heapsize - 2 * SIZEOF_MM_ALLOCNODE));;
  store (preceding node) SIZEOF_MM_ALLOCNODE;;
  let last := heapend - SIZEOF_MM_ALLOCNODE in
  modify (set_end last);;
  store (size_ last) SIZEOF_MM_ALLOCNODE;;
  s ← load (size_ node);
  store (preceding last) (Z.lor s MM_ALLOC_BIT);;
  mm_addfreechunk node;;
  mm_givesemaphore.

(** [memset] of the hooks, and the loop that links them. *)

Fixpoint zero_hooks (n : nat) (i : Z) : MH unit :=
  match n with
  | O => mret tt
  | S n' =>
    h ← get;
    store (size_ (hook h i)) 0;; store (preceding (hook h i)) 0;;
    store (flink (hook h i)) 0;; store (blink (hook h i)) 0;;
    zero_hooks n' (i + 1)
  end.

Fixpoint link_hooks (n : nat) (i : Z) : MH unit :=
  match n with
  | O => mret tt
  | S n' =>
    h ← get;
    store (flink (hook h (i - 1))) (hook h i);;
    store (blink (hook h i)) (hook h (i - 1));;
    link_hooks n' (i + 1)
  end.

(** The structure is [szheap] bytes long and has its hooks at [offs]; [m] is
    the memory. *)

Definition mm_initialize (cx : context) (szheap offs heapstart heapsize : Z) (m : gmap Z Z) :
    outcome mm_heap :=
  let heap_adj := MM_ALIGN_UP heapstart in
  let heapsize := u32 (heapsize - (heap_adj - heapstart)) in
  if heapsize <=? szheap then Ub AssertFailed
  else
    let body :=
      zero_hooks (Z.to_nat MM_NNODES) 0;;
      link_hooks (Z.to_nat MM_NNODES - 1) 1;;
      mm_seminitialize;;
      mm_addregion cx (u32 (heap_adj + szheap)) (u32 (heapsize - szheap)) in
    '(_, h) ← body (mk_heap 0 0 0 0 (heap_adj + offs) 0 m);
    Ret h.

Definition mm_extend (cx : context) (mem size : Z) : MH unit :=
  assert (2 * SIZEOF_MM_ALLOCNODE <=? size);;
  let blockend := u32 (mem + size) in
  assert (MM_ALIGN_UP mem =? mem);;
  assert (MM_ALIGN_DOWN blockend =? blockend);;
  mm_takesemaphore cx;;
  h ← get;
  let oldnode := mm_heapend h in
  assert (u32 (oldnode + SIZEOF_MM_ALLOCNODE) =? mem);;
  store (size_ oldnode) size;;
  p ← load (preceding oldnode);
  assert (is_alloc p);;
  let newnode := blockend - SIZEOF_MM_ALLOCNODE in
  store (size_ newnode) SIZEOF_MM_ALLOCNODE;;
  s ← load (size_ oldnode);
  store (preceding newnode) (Z.lor s MM_ALLOC_BIT);;
  modify (set_end newnode);;
  mm_givesemaphore;;
  mm_free cx mem.

(** ** Looking over the heap ([mm_mallinfo.c], [mm_checkcorruption.c]) *)

Record mallinfo := mk_info {
  arena : Z; ordblks : Z; aordblks : Z; mxordblk : Z; uordblks : Z; fordblks : Z }.

(** The assertions on one node; [prev] is the node before it, 0 at the start. *)

Definition check_node (node prev : Z) : MH unit :=
  p ← load (preceding node);
  s ← load (size_ node);
  (if is_alloc p then assert (SIZEOF_MM_ALLOCNODE <=? s)
   else
     assert (SIZEOF_MM_FREENODE <=? s);;
     b ← load (blink node);
     bf ← load (flink b);
     assert (bf =? node);;
     bs ← load (size_ b);
     assert (bs <=? s);;
     f ← load (flink node);
     if f =? 0 then mret tt
     else
       fb ← load (blink f);
       assert (fb =? node);;
       fs ← load (size_ f);
       assert ((fs =? 0) || (s <=? fs)));;
  if prev =? 0 then mret tt
  else ps ← load (size_ prev); assert (ps =? Z.land p (not32 MM_ALLOC_BIT)).

Definition count_node (p s : Z) (i : mallinfo) : mallinfo :=
  if is_alloc p
  then mk_info (arena i) (ordblks i) (aordblks i + 1) (mxordblk i) (u32 (uordblks i + s)) (fordblks i)
  else mk_info (arena i) (ordblks i + 1) (aordblks i) (if mxordblk i <? s then s else mxordblk i)
         (uordblks i) (u32 (fordblks i + s)).

Fixpoint info_loop (n : nat) (node prev : Z) (i : mallinfo) : MH (Z * mallinfo) :=
  h ← get;
  if node <? mm_heapend h then
    match n with
    | O => blocked
    | S n' =>
      check_node node prev;;
      p ← load (preceding node);
      s ← load (size_ node);
      info_loop n' (node + s) node (count_node p s i)
    end
  else mret (node, i).

Definition mm_mallinfo (cx : context) : MH mallinfo :=
  mm_takesemaphore cx;;
  h ← get;
  '(node, i) ← info_loop (fuel h) (mm_heapstart h) 0 (mk_info 0 0 0 0 0 0);
  assert (node =? mm_heapend h);;
  mm_givesemaphore;;
  let used := u32 (uordblks i + SIZEOF_MM_ALLOCNODE) in
  assert (u32 (used + fordblks i) =? mm_heapsize h);;
  mret (mk_info (mm_heapsize h) (ordblks i) (aordblks i) (mxordblk i) used (fordblks i)).

Fixpoint check_loop (n : nat) (node prev : Z) : MH Z :=
  h ← get;
  if node <? mm_heapend h then
    match n with
    | O => blocked
    | S n' => check_node node prev;; s ← load (size_ node); check_loop n' (node + s) node
    end
  else mret node.

Definition mm_checkcorruption (cx : context) : MH unit :=
  ok ← mm_takesemaphore cx;
  if negb ok then mret tt
  else
    h ← get;
    node ← check_loop (fuel h) (mm_heapstart h) 0;
    assert (node =? mm_heapend h);;
    mm_givesemaphore.

End MmHeap.
