(* ===== verification/MmList.v ===== *)
(** * The list of free chunks

    The doubly linked list of [MmHeap] through the hooks and the free chunks, as
    a list of nodes in the order of their sizes; what taking a node out, putting
    one in and searching do to it. *)

From stdpp Require Import sorting.
From S2P Require Import Prelude MmHeap.
Import MmHeap.

Module MmList.

(** ** Memory *)

Lemma wp_load a v Q h : words h !! a = Some v -> Q v h -> wp (load a) Q h.
Proof. intros E HQ. exists v, h. split; [|done]. unfold load. munfold. by rewrite E. Qed.

Lemma wp_store a v Q h : is_Some (words h !! a) ->
  Q tt (set_words (<[a := v]> (words h)) h) -> wp (store a v) Q h.
Proof. intros [w E] HQ. eexists tt, _. split; [|exact HQ]. unfold store. munfold. by rewrite E. Qed.

Lemma wp_assert b Q h : b = true -> Q tt h -> wp (assert b) Q h.
Proof. intros ->. apply wp_ret. Qed.

Lemma insert_some (m : gmap Z Z) a v b : is_Some (m !! b) -> is_Some (<[a := v]> m !! b).
Proof. rewrite lookup_insert_is_Some'. by right. Qed.

(** ** Nodes *)

Inductive node := Hook (i : Z) | Chunk (a s : Z).

Definition nsize (n : node) : Z := match n with Hook _ => 0 | Chunk _ s => s end.

(** The order of the list: a hook stands before the chunks of its size and more. *)

Definition rank (n : node) : Z :=
  match n with Hook i => 32 * 2 ^ i | Chunk _ s => 2 * s + 1 end.

Definition ordered (L : list node) : Prop := StronglySorted (fun x y => rank x <= rank y) L.

Lemma ordered_app L1 L2 : ordered (L1 ++ L2) <->
  (forall x y, x ∈ L1 -> y ∈ L2 -> rank x <= rank y) /\ ordered L1 /\ ordered L2.
Proof. apply StronglySorted_app. Qed.

Lemma ordered_cons x L : ordered (x :: L) <-> (forall y, y ∈ L -> rank x <= rank y) /\ ordered L.
Proof. unfold ordered. by rewrite StronglySorted_cons, Forall_forall. Qed.

(** Everything after [p] that is at least as large as the first of them. *)

Lemma ordered_after La p Lb r : ordered (La ++ p :: Lb) -> rank p <= r ->
  match Lb with [] => True | c :: _ => r <= rank c end ->
  (forall x, x ∈ La ++ [p] -> rank x <= r) /\ (forall x, x ∈ Lb -> r <= rank x).
Proof.
  rewrite ordered_app, ordered_cons. intros (H1 & _ & H2 & H3) Hp Hc. split.
  - intros x [Hx| ->%list_elem_of_singleton]%elem_of_app; [|done].
    specialize (H1 x p Hx (list_elem_of_here _ _)). lia.
  - destruct Lb as [|c Lb]; [by intros x Hx%elem_of_nil|]. apply ordered_cons in H3 as [H3 _].
    intros x [->|Hx]%elem_of_cons; [done|]. specialize (H3 x Hx). lia.
Qed.

Lemma ordered_insert La p n Lb : ordered (La ++ p :: Lb) -> rank p <= rank n ->
  match Lb with [] => True | c :: _ => rank n <= rank c end -> ordered (La ++ p :: n :: Lb).
Proof.
  intros Ho Hp Hc. destruct (ordered_after _ _ _ _ Ho Hp Hc) as [B1 B2].
  rewrite ordered_app, !ordered_cons in *. destruct Ho as (H1 & H2 & H3 & H4).
  split_and!; [|done| |done..].
  - intros x y Hx [->|[->|Hy]%elem_of_cons]%elem_of_cons.
    + apply H1; [done|by left].
    + apply B1. set_solver.
    + apply H1; [done|by right].
  - intros y [->|Hy]%elem_of_cons; auto.
Qed.

Lemma ordered_remove L1 n L2 : ordered (L1 ++ n :: L2) -> ordered (L1 ++ L2).
Proof.
  rewrite !ordered_app, ordered_cons. intros (H1 & H2 & _ & H3). split_and!; [|done..].
  intros x y Hx Hy. apply H1; [done|by right].
Qed.

(** ** The hook of a size *)

Lemma ndx_loop_log2 n size ndx : 1 <= size -> Z.log2 size <= Z.of_nat n ->
  ndx_loop n size ndx = ndx + Z.log2 size.
Proof.
  revert size ndx. induction n as [|n IH]; intros size ndx Hs Hn; cbn [ndx_loop].
  - pose proof (Z.log2_nonneg size). lia.
  - destruct (Z.ltb_spec 1 size).
    + assert (1 <= Z.log2 size) by (change 1 with (Z.log2 2); apply Z.log2_le_mono; lia).
      rewrite IH; rewrite ?Z.log2_shiftr by lia; try lia.
      rewrite Z.shiftr_div_pow2 by lia. change (2 ^ 1) with 2.
      apply Z.div_le_lower_bound; lia.
    + replace size with 1 by lia. change (Z.log2 1) with 0. lia.
Qed.

Lemma size2ndx_spec s : 16 <= s < 4294967296 ->
  0 <= mm_size2ndx s < 19 /\ 16 * 2 ^ mm_size2ndx s <= s /\
  (mm_size2ndx s = 18 \/ s < 16 * 2 ^ (mm_size2ndx s + 1)).
Proof.
  intros Hs. unfold mm_size2ndx, MM_MAX_CHUNK, MM_NNODES, MM_MIN_SHIFT.
  destruct (Z.leb_spec 4194304 s) as [|Hlt]; [by change (16 * 2 ^ (19 - 1)) with 4194304; lia|].
  assert (H4 : 4 <= Z.log2 s) by (change 4 with (Z.log2 16); apply Z.log2_le_mono; lia).
  assert (H22 : Z.log2 s < 22) by (apply Z.log2_lt_pow2; lia).
  destruct (Z.log2_spec s ltac:(lia)) as [B1 B2].
  rewrite ndx_loop_log2; rewrite ?Z.log2_shiftr by lia; [|rewrite Z.shiftr_div_pow2 by lia;
    change (2 ^ 4) with 16; apply Z.div_le_lower_bound; lia|lia].
  rewrite Z.max_r by lia. split; [lia|].
  replace (Z.log2 s) with (4 + (0 + (Z.log2 s - 4))) in B1, B2 by lia.
  rewrite Z.pow_add_r in B1 by lia.
  replace (Z.succ (4 + (0 + (Z.log2 s - 4)))) with (4 + (0 + (Z.log2 s - 4) + 1)) in B2 by lia.
  rewrite Z.pow_add_r in B2 by lia. change (2 ^ 4) with 16 in *. lia.
Qed.

Section Region.

(** The region of chunks and the hooks, which lie outside it. *)

Context (lo hi nl : Z).

Definition addr (n : node) : Z := match n with Hook i => nl + 16 * i | Chunk a _ => a end.

Record region : Prop := {
  rg_lo : lo mod 16 = 8; rg_hi : hi mod 16 = 8; rg_pos : 0 < lo <= hi; rg_nl : 0 < nl;
  rg_apart : nl + 304 <= lo - 8 \/ hi + 8 <= nl
}.

Definition valid (n : node) : Prop :=
  match n with
  | Hook i => 0 <= i < 19
  | Chunk a s => a mod 16 = 8 /\ s mod 16 = 0 /\ 16 <= s /\ lo <= a /\ a + s <= hi
  end.

Context (Hreg : region).

Lemma addr_pos n : valid n -> 0 < addr n.
Proof using Hreg. destruct Hreg, n; simpl; lia. Qed.

(** ** Linked lists *)

Definition next_or (L : list node) (z : Z) : Z := from_option addr z (head L).
Definition last_or (L : list node) (q : Z) : Z := from_option addr q (last L).

(** The nodes [L] in a row, between [q] and [z]. *)

Fixpoint dll (m : gmap Z Z) (q : Z) (L : list node) (z : Z) : Prop :=
  match L with
  | [] => True
  | n :: L' => m !! flink (addr n) = Some (next_or L' z) /\ m !! blink (addr n) = Some q /\
               dll m (addr n) L' z
  end.

Lemma last_or_cons n L q : last_or (n :: L) q = last_or L (addr n).
Proof. unfold last_or. rewrite last_cons. by destruct (last L). Qed.

Lemma dll_app m q L1 L2 z :
  dll m q (L1 ++ L2) z <-> dll m q L1 (next_or L2 z) /\ dll m (last_or L1 q) L2 z.
Proof.
  revert q. induction L1 as [|n L1 IH]; intros q; [naive_solver|].
  cbn [app dll]. rewrite IH, last_or_cons. unfold next_or. destruct L1; simpl; tauto.
Qed.

(** Only links of nodes of [L] differ. *)

Definition links_only (L : list node) (m m' : gmap Z Z) : Prop :=
  (forall b, is_Some (m !! b) -> is_Some (m' !! b)) /\
  forall b, (forall n, n ∈ L -> b <> flink (addr n) /\ b <> blink (addr n)) -> m' !! b = m !! b.

Lemma links_only_refl L m : links_only L m m.
Proof. done. Qed.

Lemma links_only_trans L m1 m2 m3 : links_only L m1 m2 -> links_only L m2 m3 -> links_only L m1 m3.
Proof.
  intros [D1 E1] [D2 E2]. split; [auto|]. intros b Hb. by rewrite E2, E1.
Qed.

Lemma links_only_mono L L' m m' : (forall n, n ∈ L -> n ∈ L') -> links_only L m m' -> links_only L' m m'.
Proof. intros Hs [D E]. split; [done|]. intros b Hb. apply E. auto. Qed.

Lemma links_only_insert L m n b v : n ∈ L -> b = flink (addr n) \/ b = blink (addr n) ->
  links_only L m (<[b := v]> m).
Proof.
  intros Hn Hb. split.
  - intros c Hc. destruct (decide (b = c)) as [->|]; [rewrite lookup_insert_eq; by eexists|].
    by rewrite lookup_insert_ne.
  - intros c Hc. destruct (Hc n Hn). rewrite lookup_insert_ne; [done|]. by destruct Hb; congruence.
Qed.

(** Different nodes have different links. *)

Lemma links_apart n n' : valid n -> valid n' -> addr n <> addr n' ->
  flink (addr n) <> flink (addr n') /\ blink (addr n) <> blink (addr n') /\
  flink (addr n) <> blink (addr n').
Proof using Hreg.
  unfold flink, blink. intros Hn Hn' Hne. split; [lia|]. split; [lia|].
  destruct Hreg as [Hlo Hhi Hp Hnl Hap], n as [i|a s], n' as [j|a' s']; simpl in *.
  - lia.
  - lia.
  - lia.
  - Z.to_euclidean_division_equations. lia.
Qed.

Lemma dll_frame m m' q L z :
  (forall n, n ∈ L -> m' !! flink (addr n) = m !! flink (addr n) /\
                      m' !! blink (addr n) = m !! blink (addr n)) ->
  dll m q L z -> dll m' q L z.
Proof.
  revert q. induction L as [|n L IH]; intros q Hm; [done|]. intros (H1 & H2 & H3).
  destruct (Hm n (list_elem_of_here _ _)) as [E1 E2]. cbn [dll]. rewrite E1, E2. split_and!; [done..|].
  apply IH; [|done]. intros n' Hn'. apply Hm. by apply list_elem_of_further.
Qed.

(** A store to a link of another node. *)

Lemma dll_other m q L z n b v : valid n -> Forall valid L -> addr n ∉ addr <$> L ->
  b = flink (addr n) \/ b = blink (addr n) -> dll m q L z -> dll (<[b := v]> m) q L z.
Proof using Hreg.
  intros Hn HL Hin Hb. apply dll_frame. intros n' Hn'.
  assert (addr n <> addr n') by (intros E; apply Hin; rewrite E; by apply list_elem_of_fmap_2).
  pose proof (proj1 (Forall_forall _ _) HL n' Hn') as Hv.
  destruct (links_apart n n') as (? & ? & ?); [done..|].
  destruct (links_apart n' n) as (_ & _ & ?); [done..|].
  rewrite !lookup_insert_ne; [done|..]; destruct Hb; congruence.
Qed.

(** The end and the start of a row get a new neighbour. *)

Lemma dll_set_next m q L n z z' : Forall valid (L ++ [n]) -> NoDup (addr <$> L ++ [n]) ->
  dll m q (L ++ [n]) z -> dll (<[flink (addr n) := z']> m) q (L ++ [n]) z'.
Proof using Hreg.
  rewrite fmap_app, Forall_app, NoDup_app, Forall_singleton. intros [HL Hn] (_ & Hd & _).
  rewrite !dll_app. intros [H1 (_ & H2 & _)]. split.
  - eapply dll_other; [exact Hn|done| |by left|exact H1]. intros Hin. eapply Hd; [exact Hin|]. by left.
  - cbn [dll]. rewrite lookup_insert_eq, lookup_insert_ne by (unfold flink, blink; lia). done.
Qed.

Lemma dll_set_prev m q q' n L z : Forall valid (n :: L) -> NoDup (addr <$> n :: L) ->
  dll m q (n :: L) z -> dll (<[blink (addr n) := q']> m) q' (n :: L) z.
Proof using Hreg.
  rewrite fmap_cons, Forall_cons, NoDup_cons. intros [Hn HL] [Hd _] (H1 & H2 & H3). cbn [dll].
  rewrite lookup_insert_eq, lookup_insert_ne by (unfold flink, blink; lia). split_and!; [done..|].
  eapply dll_other; [exact Hn|done..| |exact H3]. by right.
Qed.

(** ** Taking a node out *)

Lemma dll_mid m q L1 n L2 z : dll m q (L1 ++ n :: L2) z ->
  m !! flink (addr n) = Some (next_or L2 z) /\ m !! blink (addr n) = Some (last_or L1 q) /\
  dll m q L1 (addr n) /\ dll m (addr n) L2 z.
Proof. rewrite dll_app. cbn [dll]. unfold next_or at 1. simpl. tauto. Qed.

Lemma dll_remove m L0 b n L2 q :
  Forall valid (L0 ++ b :: n :: L2) -> NoDup (addr <$> L0 ++ b :: n :: L2) ->
  dll m q (L0 ++ b :: n :: L2) 0 ->
  let m1 := <[flink (addr b) := next_or L2 0]> m in
  let m2 := match L2 with [] => m1 | c :: _ => <[blink (addr c) := addr b]> m1 end in
  dll m2 q (L0 ++ b :: L2) 0 /\ links_only (L0 ++ b :: L2) m m2.
Proof using Hreg.
  intros Hv Hnd Hd m1 m2.
  replace (L0 ++ b :: n :: L2) with ((L0 ++ [b]) ++ n :: L2) in * by by rewrite <- (assoc_L (++)).
  replace (L0 ++ b :: L2) with ((L0 ++ [b]) ++ L2) by by rewrite <- (assoc_L (++)).
  apply dll_mid in Hd as (_ & _ & H1 & H2).
  rewrite Forall_app, Forall_cons in Hv. destruct Hv as (Hv1 & Hvn & Hv2).
  assert (Hvb : valid b) by (rewrite Forall_app, Forall_singleton in Hv1; apply Hv1).
  rewrite fmap_app, fmap_cons, NoDup_app in Hnd. destruct Hnd as (Hn1 & Hn12 & Hn2).
  apply NoDup_cons in Hn2 as [_ Hn2].
  assert (Hlast : last_or (L0 ++ [b]) q = addr b) by (unfold last_or; by rewrite last_snoc).
  assert (Hb2 : addr b ∉ addr <$> L2).
  { intros Hin. apply (Hn12 (addr b)); [|by right]. rewrite fmap_app. apply elem_of_app. right. by left. }
  assert (Hb : b ∈ (L0 ++ [b]) ++ L2) by (rewrite !elem_of_app; left; right; by left).
  apply (dll_set_next _ _ _ _ _ (next_or L2 0)) in H1; [|done..]. fold m1 in H1.
  apply (dll_other m _ _ _ b (flink (addr b)) (next_or L2 0)) in H2; [|by auto..]. fold m1 in H2.
  assert (L1 : links_only ((L0 ++ [b]) ++ L2) m m1) by (eapply links_only_insert; [exact Hb|by left]).
  rewrite dll_app, Hlast. subst m2. destruct L2 as [|c L2']; [done|].
  split; [split|].
  - eapply (dll_other m1 _ _ _ c); [by apply Forall_cons in Hv2 as [? _]|done| |by right|exact H1].
    intros Hin. apply (Hn12 _ Hin). right. by left.
  - by eapply dll_set_prev.
  - eapply links_only_trans; [exact L1|]. eapply (links_only_insert _ _ c); [|by right].
    rewrite elem_of_app. right. by left.
Qed.

Lemma unlink_ok h L0 b n L2 Q :
  Forall valid (L0 ++ b :: n :: L2) -> NoDup (addr <$> L0 ++ b :: n :: L2) ->
  dll (words h) 0 (L0 ++ b :: n :: L2) 0 ->
  (forall m', dll m' 0 (L0 ++ b :: L2) 0 -> links_only (L0 ++ b :: L2) (words h) m' ->
     Q tt (set_words m' h)) -> wp (unlink (addr n)) Q h.
Proof using Hreg.
  intros Hv Hnd Hd HQ. pose proof (dll_remove _ _ _ _ _ _ Hv Hnd Hd) as [R1 R2].
  assert (Hnb : addr n <> addr b).
  { rewrite fmap_app, !fmap_cons, NoDup_app, NoDup_cons in Hnd. destruct Hnd as (_ & _ & Hb & _).
    intros E. apply Hb. rewrite E. by left. }
  rewrite Forall_app, !Forall_cons in Hv. destruct Hv as (_ & Hvb & Hvn & Hv2).
  replace (L0 ++ b :: n :: L2) with ((L0 ++ [b]) ++ n :: L2) in Hd by by rewrite <- (assoc_L (++)).
  apply dll_mid in Hd as (F & B & H1 & H2). unfold last_or in B. rewrite last_snoc in B. simpl in B.
  apply dll_mid in H1 as (Fb & _). destruct (links_apart n b) as (A1 & A2 & A3); [done..|].
  destruct (links_apart b n) as (_ & _ & A4); [done..|].
  unfold unlink. apply wp_bind. eapply wp_load; [exact B|].
  apply wp_bind, wp_assert. { pose proof (addr_pos b Hvb). by rewrite (proj2 (Z.eqb_neq _ _)) by lia. }
  apply wp_bind. eapply wp_load; [exact F|]. apply wp_bind, wp_store; [by eexists|].
  apply wp_bind. eapply wp_load; [simpl; rewrite lookup_insert_ne by done; exact F|].
  destruct L2 as [|c L2]; [by apply wp_ret, HQ|]. apply Forall_cons in Hv2 as [Hvc Hv2].
  pose proof (addr_pos c Hvc). change (next_or (c :: L2) 0) with (addr c) in *. rewrite (proj2 (Z.eqb_neq (addr c) 0)) by lia. simpl.
  apply wp_bind. eapply wp_load; [simpl; rewrite lookup_insert_ne by done; exact B|].
  apply wp_store; [|by apply HQ]. simpl in H2 |- *. destruct H2 as (_ & Bc & _).
  apply lookup_insert_is_Some. destruct (decide (flink (addr b) = blink (addr c))); [by left|right].
  split; [done|by eexists].
Qed.

(** ** The list of a heap

    The nodes, their sizes in memory, and the links. *)

Definition hooks : list node := Hook <$> seqZ 0 19.

Record nodes_ok (m : gmap Z Z) (L : list node) : Prop := {
  no_valid : Forall valid L;
  no_nodup : NoDup (addr <$> L);
  no_dll : dll m 0 L 0;
  no_size : forall n, n ∈ L -> m !! addr n = Some (nsize n);
  no_ord : ordered L;
  no_hooks : forall i, 0 <= i < 19 -> Hook i ∈ L
}.

(** Sizes are not links. *)

Lemma size_not_link n n' : valid n -> valid n' ->
  addr n <> flink (addr n') /\ addr n <> blink (addr n').
Proof using Hreg.
  destruct Hreg as [Hlo Hhi Hp Hnl Hap]. unfold flink, blink.
  destruct n as [i|a s], n' as [j|a' s']; simpl; intros Hn Hn'; [lia..|].
  Z.to_euclidean_division_equations. lia.
Qed.

Lemma sizes_links m m' L K : Forall valid L -> Forall valid K -> links_only K m m' ->
  (forall n, n ∈ L -> m !! addr n = Some (nsize n)) -> forall n, n ∈ L -> m' !! addr n = Some (nsize n).
Proof using Hreg.
  intros HL HK [_ E] Hm n Hn. rewrite E; [by apply Hm|]. intros n' Hn'.
  apply size_not_link; [by apply (proj1 (Forall_forall _ _) HL)|by apply (proj1 (Forall_forall _ _) HK)].
Qed.

(** Each node has a word of its own. *)

Lemma dll_words m q L z n : dll m q L z -> n ∈ L -> is_Some (m !! flink (addr n)).
Proof.
  intros H Hn. apply list_elem_of_split in Hn as (L1 & L2 & ->).
  apply dll_mid in H as (F & _). by eexists.
Qed.

Lemma length_fuel m q L z : NoDup (addr <$> L) -> dll m q L z -> (length L <= size m)%nat.
Proof.
  intros Hnd Hd. rewrite <- size_dom.
  replace (length L) with (size (list_to_set (flink <$> (addr <$> L)) : gset Z)).
  - apply subseteq_size. intros b Hb%elem_of_list_to_set. apply elem_of_dom.
    apply list_elem_of_fmap in Hb as (x & -> & Hx). apply list_elem_of_fmap in Hx as (n & -> & Hn).
    by eapply dll_words.
  - rewrite size_list_to_set, !length_fmap; [done|].
    apply NoDup_fmap_2_strong; [|done]. unfold flink. intros x y _ _. lia.
Qed.

(** ** Putting a chunk in *)

Lemma add_place_ok h L k La p Lb a s :
  nodes_ok (words h) L -> L = La ++ p :: Lb -> rank p <= rank (Chunk a s) -> (length Lb <= k)%nat ->
  (forall i, Hook i ∈ Lb -> rank (Chunk a s) <= rank (Hook i)) ->
  exists La' p' Lb', L = La' ++ p' :: Lb' /\ rank p' <= rank (Chunk a s) /\
    match Lb' with [] => True | c :: _ => rank (Chunk a s) <= rank c end /\
    add_place k s (addr p) (next_or Lb 0) h = Ret ((addr p', next_or Lb' 0), h).
Proof using Hreg.
  intros HL. revert La p Lb. induction k as [|k IH]; intros La p Lb E Hp Hk Hh;
    (destruct Lb as [|c Lb]; [exists La, p, []; done|]).
  { simpl in Hk. lia. }
  assert (Hc : c ∈ L) by (rewrite E; set_solver).
  pose proof (proj1 (Forall_forall _ _) (no_valid _ _ HL) c Hc) as Hv.
  pose proof (addr_pos c Hv). change (next_or (c :: Lb) 0) with (addr c).
  cbn [add_place]. rewrite (proj2 (Z.eqb_neq _ _)) by lia.
  rewrite (bind_returns _ _ _ (nsize c) h); [|unfold returns, load; munfold;
    unfold size_; by rewrite (no_size _ _ HL c Hc)].
  destruct (negb (nsize c =? 0) && (nsize c <? s)) eqn:Et; to_prop.
  - assert (Hd : dll (words h) 0 ((La ++ [p]) ++ c :: Lb) 0)
      by (rewrite <- (assoc_L (++)); cbn [app]; rewrite <- E; apply (no_dll _ _ HL)).
    apply dll_mid in Hd as (F & _).
    rewrite (bind_returns _ _ _ (next_or Lb 0) h) by (unfold returns, load; munfold; by rewrite F).
    apply (IH (La ++ [p])).
    + by rewrite <- (assoc_L (++)).
    + destruct c as [i|a' s']; simpl in *; [done|lia].
    + simpl in Hk. lia.
    + intros i Hi. apply Hh. by right.
  - exists La, p, (c :: Lb). split_and!; [done..| |done].
    destruct c as [i|a' s']; simpl in *; [apply (Hh i); by left|].
    apply andb_false_iff in Et as [Et|Et]; to_prop; lia.
Qed.

Lemma dll_insert m La p n Lb q :
  Forall valid (La ++ p :: n :: Lb) -> NoDup (addr <$> La ++ p :: n :: Lb) ->
  dll m q (La ++ p :: Lb) 0 ->
  let m1 := <[flink (addr n) := next_or Lb 0]> (<[blink (addr n) := addr p]>
              (<[flink (addr p) := addr n]> m)) in
  let m2 := match Lb with [] => m1 | c :: _ => <[blink (addr c) := addr n]> m1 end in
  dll m2 q (La ++ p :: n :: Lb) 0 /\ links_only (La ++ p :: n :: Lb) m m2.
Proof using Hreg.
  intros Hv Hnd Hd m1 m2.
  replace (La ++ p :: n :: Lb) with ((La ++ [p]) ++ n :: Lb) in * by by rewrite <- (assoc_L (++)).
  replace (La ++ p :: Lb) with ((La ++ [p]) ++ Lb) in Hd by by rewrite <- (assoc_L (++)).
  apply dll_app in Hd as [H1 H2].
  assert (Hlast : last_or (La ++ [p]) q = addr p) by (unfold last_or; by rewrite last_snoc).
  rewrite Hlast in H2. rewrite Forall_app, Forall_cons in Hv. destruct Hv as (Hv1 & Hvn & Hv2).
  assert (Hvp : valid p) by (rewrite Forall_app, Forall_singleton in Hv1; apply Hv1).
  rewrite fmap_app, fmap_cons, NoDup_app in Hnd. destruct Hnd as (Hn1 & Hn12 & Hn2).
  apply NoDup_cons in Hn2 as [Hn2' Hn2].
  assert (Hp : addr p ∈ addr <$> La ++ [p]) by (rewrite fmap_app, elem_of_app; right; by left).
  assert (Hn1' : addr n ∉ addr <$> La ++ [p]) by (intros Hin; apply (Hn12 _ Hin); by left).
  assert (Hp2 : addr p ∉ addr <$> Lb) by (intros Hin; apply (Hn12 _ Hp); by right).
  assert (Hpn : addr p <> addr n) by congruence.
  pose (L := (La ++ [p]) ++ n :: Lb). assert (HpL : p ∈ L) by set_solver. assert (HnL : n ∈ L) by set_solver.
  assert (K : links_only L m m1).
  { eapply links_only_trans; [eapply (links_only_insert _ _ p); [done|by left]|].
    eapply links_only_trans; [eapply (links_only_insert _ _ n); [done|by right]|].
    eapply (links_only_insert _ _ n); [done|by left]. }
  assert (D1 : dll m1 q (La ++ [p]) (addr n)).
  { do 2 (eapply (dll_other _ _ _ _ n); [done..|by auto|]). by eapply dll_set_next. }
  assert (D2 : dll m1 (addr p) Lb 0).
  { do 2 (eapply (dll_other _ _ _ _ n); [done..|by auto|]). eapply (dll_other _ _ _ _ p); by auto. }
  assert (F : m1 !! flink (addr n) = Some (next_or Lb 0)) by apply lookup_insert_eq.
  assert (B : m1 !! blink (addr n) = Some (addr p)).
  { subst m1. rewrite lookup_insert_ne by (unfold flink, blink; lia). apply lookup_insert_eq. }
  rewrite dll_app, Hlast. cbn [dll]. subst m2. destruct Lb as [|c Lb]; [done|].
  assert (Hvc : valid c) by by apply Forall_cons in Hv2 as [? _].
  assert (Hcn : addr c <> addr n) by (intros E; apply Hn2'; rewrite <- E; by left).
  destruct (links_apart n c) as (_ & A2 & A3); [done..|].
  split; [split; [|split; [|split]]|].
  - eapply (dll_other m1 _ _ _ c); [done..| |by right|exact D1]. intros Hin. apply (Hn12 _ Hin). right. by left.
  - by rewrite lookup_insert_ne.
  - by rewrite lookup_insert_ne.
  - by eapply dll_set_prev.
  - eapply links_only_trans; [exact K|]. eapply (links_only_insert _ _ c); [set_solver|by right].
Qed.

(** [mm_addfreechunk] puts the chunk in its place. *)

Lemma add_ok h L a s Q :
  nl = mm_nodelist h -> nodes_ok (words h) L -> valid (Chunk a s) -> s < 4294967296 ->
  a ∉ addr <$> L ->
  words h !! size_ a = Some s -> (exists p, words h !! preceding a = Some p /\ is_alloc p = false) ->
  is_Some (words h !! flink a) -> is_Some (words h !! blink a) ->
  (forall m' L', nodes_ok m' L' -> L' ≡ₚ Chunk a s :: L -> links_only L' (words h) m' ->
     Q tt (set_words m' h)) -> wp (mm_addfreechunk a) Q h.
Proof using Hreg.
  intros Enl HL Hv Hs Hin Ha (pr & Hpr & Hfree) Hf Hb HQ. pose proof Hv as (_ & _ & H16 & _).
  destruct (size2ndx_spec s ltac:(lia)) as (Hi & Hlo & Hup). set (i := mm_size2ndx s) in *.
  destruct (list_elem_of_split _ _ (no_hooks _ _ HL i Hi)) as (L1 & L2 & EL).
  assert (Hhk : hook h i = addr (Hook i)) by (unfold hook; simpl; by rewrite Enl).
  assert (Hd : dll (words h) 0 (L1 ++ Hook i :: L2) 0) by (rewrite <- EL; apply (no_dll _ _ HL)).
  apply dll_mid in Hd as (F & _).
  destruct (add_place_ok h L (fuel h) L1 (Hook i) L2 a s HL EL) as (La & p & Lb & E & Hp & Hc & Hrun).
  { simpl. lia. }
  { etrans; [|by eapply length_fuel, (no_dll _ _ HL); apply (no_nodup _ _ HL)].
    rewrite EL, length_app. simpl. lia. }
  { intros j Hj. pose proof (no_ord _ _ HL) as Ho. rewrite EL, ordered_app, ordered_cons in Ho.
    destruct Ho as (_ & _ & Ho & _). specialize (Ho _ Hj). simpl in *.
    assert (Hvj : 0 <= j < 19).
    { apply (proj1 (Forall_forall _ _) (no_valid _ _ HL) (Hook j)). rewrite EL. set_solver. }
    assert (i <= j) by (apply (Z.pow_le_mono_r_iff 2); lia).
    assert (i <> j).
    { intros <-. pose proof (no_nodup _ _ HL) as Hnd. rewrite EL, fmap_app, fmap_cons in Hnd.
      apply NoDup_app in Hnd as (_ & _ & Hnd). apply NoDup_cons in Hnd as [Hnd _].
      apply Hnd. by apply (list_elem_of_fmap_2 addr _ (Hook i)). }
    destruct Hup as [?|Hup]; [lia|].
    assert (2 ^ (i + 1) <= 2 ^ j) by (apply Z.pow_le_mono_r; lia). lia. }
  assert (Hv' : Forall valid (La ++ p :: Chunk a s :: Lb)).
  { pose proof (no_valid _ _ HL) as H. rewrite E, Forall_app, Forall_cons in H. rewrite Forall_app, !Forall_cons. tauto. }
  assert (HP : La ++ p :: Chunk a s :: Lb ≡ₚ Chunk a s :: L) by (rewrite E; solve_Permutation).
  assert (Hnd' : NoDup (addr <$> La ++ p :: Chunk a s :: Lb)).
  { rewrite HP, fmap_cons. apply NoDup_cons. split; [done|apply (no_nodup _ _ HL)]. }
  pose proof (no_dll _ _ HL) as Hd. rewrite E in Hd.
  destruct (dll_insert (words h) La p (Chunk a s) Lb 0 Hv' Hnd' Hd) as [D K].
  assert (Hpa : addr p <> a).
  { intros Epa. apply Hin. rewrite E, fmap_app, fmap_cons, elem_of_app. right. rewrite <- Epa. by left. }
  assert (Hvp : valid p) by (apply (proj1 (Forall_forall _ _) Hv'); set_solver).
  destruct (links_apart p (Chunk a s)) as (A1 & A2 & A3); [done..|]. simpl in A1, A2, A3.
  apply dll_mid in Hd as (Fp & _).
  unfold mm_addfreechunk. apply wp_bind. eapply wp_load; [exact Ha|].
  apply wp_bind. eapply wp_load; [exact Hpr|].
  apply wp_bind, wp_assert; [by apply Z.leb_le|]. apply wp_bind, wp_assert; [by rewrite Hfree|].
  apply wp_bind, wp_get. fold i. rewrite Hhk. apply wp_bind. eapply wp_load; [exact F|].
  apply wp_bind. eapply wp_run; [exact Hrun|].
  apply wp_bind, wp_store; [by eexists|]. apply wp_bind, wp_store; [by apply insert_some|].
  apply wp_bind, wp_store; [by do 2 apply insert_some|].
  assert (Hend : forall m', dll m' 0 (La ++ p :: Chunk a s :: Lb) 0 ->
    links_only (La ++ p :: Chunk a s :: Lb) (words h) m' -> Q tt (set_words m' h)).
  { intros m' D' K'. apply (HQ _ (La ++ p :: Chunk a s :: Lb)); [|done..].
    constructor; [done..| | |].
    - intros n Hn. eapply (sizes_links (words h)); [exact Hv'|exact Hv'|done| |done].
      intros n' Hn'. rewrite HP in Hn'. apply elem_of_cons in Hn' as [->|Hn']; [done|].
      by apply (no_size _ _ HL).
    - apply ordered_insert; [rewrite <- E; apply (no_ord _ _ HL)|done..].
    - intros j Hj. rewrite HP. right. by apply (no_hooks _ _ HL). }
  destruct Lb as [|c Lb]; [by apply wp_ret, Hend|].
  assert (Hvc : valid c) by (apply (proj1 (Forall_forall _ _) Hv'); set_solver).
  pose proof (addr_pos c Hvc). change (next_or (c :: Lb) 0) with (addr c) in *.
  rewrite (proj2 (Z.eqb_neq (addr c) 0)) by lia. apply wp_store; [|by apply Hend].
  do 3 apply insert_some. pose proof (no_dll _ _ HL) as Hd. rewrite E in Hd.
  apply dll_mid in Hd as (_ & _ & _ & Hd). destruct Hd as (_ & Bc & _). by eexists.
Qed.

(** [unlink] takes a chunk out. *)

Lemma unlink_chunk h L a s Q :
  nodes_ok (words h) L -> Chunk a s ∈ L ->
  (forall m' L', nodes_ok m' L' -> L ≡ₚ Chunk a s :: L' -> links_only L' (words h) m' ->
     Q tt (set_words m' h)) -> wp (unlink a) Q h.
Proof using Hreg.
  intros HL Hn HQ. destruct (list_elem_of_split _ _ Hn) as (L1 & L2 & E).
  pose proof (proj1 (Forall_forall _ _) (no_valid _ _ HL) _ Hn) as (_ & _ & H16 & _).
  destruct L1 as [|b L0 _] using rev_ind.
  { pose proof (no_ord _ _ HL) as Ho. rewrite E in Ho. apply ordered_cons in Ho as [Ho _].
    pose proof (no_hooks _ _ HL 0 ltac:(lia)) as H0. rewrite E in H0.
    apply elem_of_cons in H0 as [?|H0]; [done|]. specialize (Ho _ H0). simpl in Ho. lia. }
  rewrite <- (assoc_L (++)) in E. cbn [app] in E.
  pose proof HL as [Hv Hnd Hd Hs Ho Hh]. rewrite E in Hv, Hnd, Hd.
  assert (HP : L ≡ₚ Chunk a s :: L0 ++ b :: L2) by (rewrite E; solve_Permutation).
  change a with (addr (Chunk a s)). eapply unlink_ok; [exact Hv|exact Hnd|exact Hd|].
  intros m' D K. apply (HQ m' (L0 ++ b :: L2)); [|done..].
  assert (Hv' : Forall valid (L0 ++ b :: L2)).
  { rewrite Forall_app, !Forall_cons in Hv. rewrite Forall_app, Forall_cons. tauto. }
  constructor; [done| |done| | |].
  - pose proof (no_nodup _ _ HL) as H. rewrite HP, fmap_cons in H. by apply NoDup_cons in H as [_ H].
  - intros n Hn'. eapply (sizes_links (words h)); [exact Hv'|exact Hv'|done| |done].
    intros n' Hn''. apply Hs. rewrite HP. by right.
  - rewrite E in Ho. replace (L0 ++ b :: Chunk a s :: L2) with ((L0 ++ [b]) ++ Chunk a s :: L2) in Ho
      by by rewrite <- (assoc_L (++)).
    apply ordered_remove in Ho. by rewrite <- (assoc_L (++)) in Ho.
  - intros i Hi. specialize (Hh i Hi). rewrite HP in Hh. by apply elem_of_cons in Hh as [?|?].
Qed.

(** ** Searching *)

Lemma find_chunk_ok h L k L1 p L2 size :
  nodes_ok (words h) L -> L = L1 ++ p :: L2 -> (length L2 <= k)%nat -> 0 < size ->
  exists r, find_chunk k size (next_or L2 0) h = Ret (r, h) /\
    ((r = 0 /\ forall a s, Chunk a s ∈ L2 -> s < size) \/
     (exists s, Chunk r s ∈ L2 /\ size <= s /\ r <> 0 /\
        forall a s', Chunk a s' ∈ L2 -> size <= s' -> s <= s')).
Proof using Hreg.
  intros HL. revert L1 p L2. induction k as [|k IH]; intros L1 p L2 E Hk Hs;
    (destruct L2 as [|c L2]; [exists 0; split; [done|left; split; [done|]; by intros a s ?%elem_of_nil]|]).
  { simpl in Hk. lia. }
  assert (Hc : c ∈ L) by (rewrite E; set_solver).
  pose proof (proj1 (Forall_forall _ _) (no_valid _ _ HL) c Hc) as Hv.
  pose proof (addr_pos c Hv). change (next_or (c :: L2) 0) with (addr c).
  cbn [find_chunk]. rewrite (proj2 (Z.eqb_neq _ _)) by lia.
  rewrite (bind_returns _ _ _ (nsize c) h); [|unfold returns, load; munfold;
    unfold size_; by rewrite (no_size _ _ HL c Hc)].
  pose proof (no_dll _ _ HL) as Hd. rewrite E in Hd.
  destruct (Z.ltb_spec (nsize c) size) as [Hlt|Hge].
  - apply dll_mid in Hd as (Fp & _ & _ & Hd2). destruct Hd2 as (F & B & _).
    rewrite (bind_returns _ _ _ (addr p) h) by (unfold returns, load; munfold; by rewrite B).
    rewrite (bind_returns _ _ _ (addr c) h) by (unfold returns, load; munfold; by rewrite Fp).
    rewrite Z.eqb_refl, (bind_returns _ _ _ tt h eq_refl).
    rewrite (bind_returns _ _ _ (next_or L2 0) h) by (unfold returns, load; munfold; by rewrite F).
    destruct (IH (L1 ++ [p]) c L2) as (r & Hr & Hres); [by rewrite <- (assoc_L (++))|simpl in Hk; lia|done|].
    exists r. split; [done|]. destruct Hres as [[-> Hno]|(s & Hin & Hle & Hr0 & Hbest)].
    + left. split; [done|]. intros a s [<-|Hin]%elem_of_cons; [done|eauto].
    + right. exists s. split_and!; [by right|done..|].
      intros a s' [<-|Hin']%elem_of_cons Hs'; [simpl in Hlt; lia|eauto].
  - destruct c as [i|a s]; [simpl in Hge; lia|]. exists a. split; [done|]. right. exists s. simpl in *.
    split_and!; [by left|done|lia|]. intros a' s' [[= -> ->]|Hin]%elem_of_cons Hs'; [done|].
    pose proof (no_ord _ _ HL) as Ho. rewrite E, ordered_app, !ordered_cons in Ho.
    destruct Ho as (_ & _ & _ & Ho & _). specialize (Ho _ Hin). simpl in Ho. lia.
Qed.

(** From the hook of a size, the search finds the best chunk of the whole list. *)

Lemma find_best h L size :
  nl = mm_nodelist h -> nodes_ok (words h) L -> 16 <= size < 4294967296 ->
  exists f r, words h !! flink (hook h (mm_size2ndx size)) = Some f /\
    find_chunk (fuel h) size f h = Ret (r, h) /\
    ((r = 0 /\ forall a s, Chunk a s ∈ L -> s < size) \/
     (exists s, Chunk r s ∈ L /\ size <= s /\ r <> 0 /\
        forall a s', Chunk a s' ∈ L -> size <= s' -> s <= s')).
Proof using Hreg.
  intros Enl HL Hs. destruct (size2ndx_spec size ltac:(lia)) as (Hi & Hlo & _).
  set (i := mm_size2ndx size) in *.
  destruct (list_elem_of_split _ _ (no_hooks _ _ HL i Hi)) as (L1 & L2 & E).
  assert (Hhk : hook h i = addr (Hook i)) by (unfold hook; simpl; by rewrite Enl).
  pose proof (no_dll _ _ HL) as Hd. rewrite E in Hd. apply dll_mid in Hd as (F & _).
  assert (Hsmall : forall a s, Chunk a s ∈ L1 -> s < size).
  { intros a s Hin. pose proof (no_ord _ _ HL) as Ho. rewrite E, ordered_app in Ho.
    destruct Ho as [Ho _]. specialize (Ho _ (Hook i) Hin (list_elem_of_here _ _)). simpl in Ho. lia. }
  destruct (find_chunk_ok h L (fuel h) L1 (Hook i) L2 size HL E) as (r & Hr & Hres).
  { etrans; [|by eapply length_fuel, (no_dll _ _ HL); apply (no_nodup _ _ HL)].
    rewrite E, length_app. simpl. lia. }
  { lia. }
  exists (next_or L2 0), r. rewrite Hhk. split_and!; [done..|].
  assert (Hsplit : forall a s, Chunk a s ∈ L -> Chunk a s ∈ L1 \/ Chunk a s ∈ L2).
  { intros a s Hin. rewrite E in Hin. apply elem_of_app in Hin as [?|Hin]; [by left|].
    apply elem_of_cons in Hin as [?|?]; [done|by right]. }
  destruct Hres as [[-> Hno]|(s & Hin & Hle & Hr0 & Hbest)]; [left|right].
  - split; [done|]. intros a s Hin. destruct (Hsplit _ _ Hin); eauto.
  - exists s. split_and!; [rewrite E; set_solver|done..|].
    intros a s' Hin' Hs'. destruct (Hsplit _ _ Hin') as [?|?]; [|eauto].
    specialize (Hsmall _ _ ltac:(eassumption)). lia.
Qed.

End Region.

End MmList.
