(* ===== verification/MmLayout.v ===== *)
(** * Chunks in a row

    The region of [MmHeap] as a list of chunks, each with its size and whether it
    is allocated, as the headers in memory describe it. *)

From S2P Require Import Prelude MmHeap MmList.
Import MmHeap MmList.

Module MmLayout.

(** ** The [preceding] word *)

Definition pword (p : Z) (b : bool) : Z := if b then p + MM_ALLOC_BIT else p.

Lemma land_bit p : 0 <= p < MM_ALLOC_BIT -> Z.land p MM_ALLOC_BIT = 0.
Proof.
  intros Hp. apply Z.bits_inj'. intros n Hn. rewrite Z.land_spec, Z.bits_0.
  change MM_ALLOC_BIT with (2 ^ 31) in *. rewrite Z.pow2_bits_eqb by lia.
  destruct (Z.eqb_spec 31 n) as [<-|]; [|by rewrite andb_false_r].
  destruct (decide (p = 0)) as [->|]; [by rewrite Z.bits_0|].
  rewrite Z.bits_above_log2; [done|lia|]. apply Z.log2_lt_pow2; lia.
Qed.

Lemma pword_lor p (b : bool) : 0 <= p < MM_ALLOC_BIT -> Z.lor p (if b then MM_ALLOC_BIT else 0) = pword p b.
Proof.
  intros Hp. destruct b; [|apply Z.lor_0_r]. unfold pword.
  by rewrite <- Z.add_nocarry_lor by by apply land_bit.
Qed.

Lemma pword_bit p b : 0 <= p < MM_ALLOC_BIT -> Z.land (pword p b) MM_ALLOC_BIT = if b then MM_ALLOC_BIT else 0.
Proof.
  intros Hp. rewrite <- pword_lor by done. rewrite Z.land_lor_distr_l, land_bit by done.
  by destruct b.
Qed.

Lemma pword_alloc p b : 0 <= p < MM_ALLOC_BIT -> is_alloc (pword p b) = b.
Proof. intros Hp. unfold is_alloc. rewrite pword_bit by done. by destruct b. Qed.

Lemma pword_size p b : 0 <= p < MM_ALLOC_BIT -> Z.land (pword p b) (not32 MM_ALLOC_BIT) = p.
Proof.
  intros Hp. change (not32 MM_ALLOC_BIT) with (Z.ones 31). rewrite Z.land_ones by lia.
  change (2 ^ 31) with MM_ALLOC_BIT. unfold pword, MM_ALLOC_BIT in *. destruct b.
  - rewrite <- (Z.mod_unique _ _ 1 p) by lia. done.
  - by apply Z.mod_small.
Qed.

Lemma pword_set p b : 0 <= p < MM_ALLOC_BIT -> Z.lor (pword p b) MM_ALLOC_BIT = pword p true.
Proof.
  intros Hp. rewrite <- !pword_lor by done. rewrite <- Z.lor_assoc. by destruct b.
Qed.

(** ** Rows of chunks *)

Definition chunk : Type := Z * bool.

Fixpoint total (cs : list chunk) : Z :=
  match cs with [] => 0 | c :: cs' => c.1 + total cs' end.

Definition lastsz (p : Z) (cs : list chunk) : Z := from_option fst p (last cs).

(** The headers of [cs] from [a] on; [p] is the size of the chunk before. *)

Fixpoint chunks (m : gmap Z Z) (a p : Z) (cs : list chunk) : Prop :=
  match cs with
  | [] => True
  | c :: cs' => m !! size_ a = Some c.1 /\ m !! preceding a = Some (pword p c.2) /\
                chunks m (a + c.1) c.1 cs'
  end.

Lemma total_app cs1 cs2 : total (cs1 ++ cs2) = total cs1 + total cs2.
Proof. induction cs1 as [|c cs1 IH]; simpl; lia. Qed.

Lemma lastsz_cons p c cs : lastsz p (c :: cs) = lastsz c.1 cs.
Proof. unfold lastsz. rewrite last_cons. by destruct (last cs). Qed.

Lemma lastsz_app p cs1 cs2 : lastsz p (cs1 ++ cs2) = lastsz (lastsz p cs1) cs2.
Proof.
  revert p. induction cs1 as [|c cs1 IH]; intros p; [done|]. cbn [app]. by rewrite !lastsz_cons.
Qed.

Lemma chunks_app m a p cs1 cs2 :
  chunks m a p (cs1 ++ cs2) <-> chunks m a p cs1 /\ chunks m (a + total cs1) (lastsz p cs1) cs2.
Proof.
  revert a p. induction cs1 as [|c cs1 IH]; intros a p.
  - simpl. replace (a + 0) with a by lia. unfold lastsz. simpl. tauto.
  - cbn [app chunks total]. rewrite IH, lastsz_cons. replace (a + (c.1 + total cs1)) with (a + c.1 + total cs1) by lia.
    tauto.
Qed.

Definition big (c : chunk) : Prop := 8 <= c.1.

Lemma total_nonneg cs : Forall big cs -> 0 <= total cs.
Proof. induction 1 as [|c cs Hc _ IH]; simpl; [lia|]. unfold big in Hc. lia. Qed.

Lemma chunks_range m m' a p cs : Forall big cs ->
  (forall b, a <= b < a + total cs -> m' !! b = m !! b) -> chunks m a p cs -> chunks m' a p cs.
Proof.
  intros Hb. revert a p. induction Hb as [|c cs Hc Hb IH]; intros a p Hm; [done|].
  pose proof (total_nonneg cs Hb). unfold big in Hc. cbn [chunks total] in *. intros (H1 & H2 & H3).
  unfold size_, preceding in *. rewrite !Hm by lia. split_and!; [done..|].
  apply IH; [|done]. intros b Hx. apply Hm. lia.
Qed.

(** Chunks the allocator hands out: multiples of 16. *)

Definition wf (c : chunk) : Prop := 16 <= c.1 /\ c.1 mod 16 = 0.

Lemma wf_big cs : Forall wf cs -> Forall big cs.
Proof. intros H. eapply Forall_impl; [exact H|]. intros c [? _]. unfold big. lia. Qed.

Lemma total_mod cs : Forall wf cs -> total cs mod 16 = 0.
Proof. induction 1 as [|c cs [_ Hc] _ IH]; simpl; [done|]. Z.to_euclidean_division_equations. lia. Qed.

Lemma lastsz_bound p cs : Forall wf cs -> 0 <= p -> 0 <= lastsz p cs <= p + total cs.
Proof.
  intros Hw Hp. revert p Hp. induction Hw as [|c cs [Hc _] Hw IH]; intros p Hp; [unfold lastsz; simpl; lia|].
  rewrite lastsz_cons. specialize (IH c.1 ltac:(lia)). simpl. lia.
Qed.

(** The free chunks of a row. *)

Fixpoint free_nodes (a : Z) (cs : list chunk) : list node :=
  match cs with
  | [] => []
  | c :: cs' => (if c.2 then [] else [Chunk a c.1]) ++ free_nodes (a + c.1) cs'
  end.

Lemma free_nodes_app a cs1 cs2 :
  free_nodes a (cs1 ++ cs2) = free_nodes a cs1 ++ free_nodes (a + total cs1) cs2.
Proof.
  revert a. induction cs1 as [|c cs1 IH]; intros a; simpl; [by replace (a + 0) with a by lia|].
  rewrite IH, <- (assoc_L (++)). by replace (a + c.1 + total cs1) with (a + (c.1 + total cs1)) by lia.
Qed.

Lemma free_nodes_range a cs n : Forall wf cs -> n ∈ free_nodes a cs ->
  exists x s, n = Chunk x s /\ a <= x /\ x + s <= a + total cs /\ (s, false) ∈ cs /\
    (a mod 16 = 8 -> x mod 16 = 8).
Proof.
  intros Hw. revert a. induction Hw as [|c cs [Hc Hc'] Hw IH]; intros a; simpl; [by intros ?%elem_of_nil|].
  pose proof (total_nonneg cs (wf_big _ Hw)). rewrite elem_of_app. intros [Hn|Hn].
  - destruct c as [s []]; simpl in *; [by apply elem_of_nil in Hn|].
    apply list_elem_of_singleton in Hn as ->. exists a, s. split_and!; [done|lia|lia|by left|done].
  - destruct (IH _ Hn) as (x & s & -> & ? & ? & ? & Hm). exists x, s. split_and!; [done|lia|lia|by right|].
    intros Ha. apply Hm. Z.to_euclidean_division_equations. lia.
Qed.

(** No two free chunks are neighbours. *)

Fixpoint coalesced (cs : list chunk) : Prop :=
  match cs with
  | [] => True
  | c :: cs' => match cs' with [] => True | d :: _ => c.2 || d.2 = true end /\ coalesced cs'
  end.

Definition headb (cs : list chunk) : bool := from_option snd true (head cs).
Definition lastb (cs : list chunk) : bool := from_option snd true (last cs).

Lemma coalesced_app cs1 cs2 :
  coalesced (cs1 ++ cs2) <-> coalesced cs1 /\ coalesced cs2 /\ lastb cs1 || headb cs2 = true.
Proof.
  induction cs1 as [|c cs1 IH]; [unfold lastb; simpl; tauto|].
  cbn [app coalesced]. rewrite IH. unfold lastb in *. rewrite last_cons.
  destruct cs1 as [|d cs1]; simpl.
  - destruct cs2 as [|e cs2]; simpl; unfold headb; simpl; [|naive_solver]. rewrite orb_true_r. naive_solver.
  - rewrite last_cons. destruct (last cs1); simpl; tauto.
Qed.

(** ** The layout of a heap

    The region between the two guard chunks. *)

Definition lo (h : mm_heap) : Z := mm_heapstart h + 8.

Definition guard : chunk := (8, true).

Record lay (h : mm_heap) (cs : list chunk) : Prop := {
  ly_reg : region (lo h) (mm_heapend h) (mm_nodelist h);
  ly_small : mm_heapend h + 8 - mm_heapstart h < MM_ALLOC_BIT;
  ly_top : mm_heapend h + 8 <= 4294967296;
  ly_guard : words h !! size_ (mm_heapstart h) = Some 8 /\
             words h !! preceding (mm_heapstart h) = Some MM_ALLOC_BIT;
  ly_chunks : chunks (words h) (lo h) 8 (cs ++ [guard]);
  ly_total : lo h + total cs = mm_heapend h;
  ly_wf : Forall wf cs;
  ly_dom : forall b, b mod 4 = 0 -> lo h <= b < mm_heapend h + 8 -> is_Some (words h !! b)
}.

(** What differs are words from [a] to [e], the [preceding] word of the chunk at
    [e], and links of nodes of [L]. *)

Definition touch (nl a e : Z) (L : list node) (m m' : gmap Z Z) : Prop :=
  (forall b, is_Some (m !! b) -> is_Some (m' !! b)) /\
  forall b, ~ (a <= b < e) -> b <> preceding e ->
    (forall n, n ∈ L -> b <> flink (addr nl n) /\ b <> blink (addr nl n)) -> m' !! b = m !! b.

Lemma touch_trans nl a e L m1 m2 m3 : touch nl a e L m1 m2 -> touch nl a e L m2 m3 -> touch nl a e L m1 m3.
Proof. intros [D1 E1] [D2 E2]. split; [auto|]. intros b H1 H2 H3. by rewrite E2, E1. Qed.

Lemma touch_mono nl a e a' e' L L' m m' : a' <= a <= e -> e <= e' -> (e < e' -> preceding e < e') ->
  (forall n, n ∈ L -> n ∈ L') -> touch nl a e L m m' -> touch nl a' e' L' m m'.
Proof.
  intros Ha He Hp HL [D E]. split; [done|]. intros b H1 H2 H3. apply E; [lia| |auto].
  intros ->. destruct (decide (e = e')) as [->|]; [done|]. specialize (Hp ltac:(lia)).
  apply H1. unfold preceding in *. lia.
Qed.

Lemma touch_links nl a e L m m' : links_only nl L m m' -> touch nl a e L m m'.
Proof. intros [D E]. split; [done|]. auto. Qed.

Lemma touch_insert nl a e L m b v : a <= b < e \/ b = preceding e -> touch nl a e L m (<[b := v]> m).
Proof.
  intros Hb. split; [intros c; apply insert_some|]. intros c H1 H2 _.
  apply lookup_insert_ne. intros <-. by destruct Hb.
Qed.

(** A chunk of the row, and the chunk that follows it. *)

Lemma lay_chunk h cs1 c cs2 : lay h (cs1 ++ c :: cs2) ->
  let a := lo h + total cs1 in
  words h !! size_ a = Some c.1 /\ words h !! preceding a = Some (pword (lastsz 8 cs1) c.2) /\
  words h !! preceding (a + c.1) = Some (pword c.1 (headb cs2)) /\
  a mod 16 = 8 /\ wf c /\ lo h <= a /\ a + c.1 <= mm_heapend h /\ 0 <= lastsz 8 cs1 < MM_ALLOC_BIT /\
  c.1 < MM_ALLOC_BIT.
Proof.
  intros H a. pose proof H as [Hreg Hsm Htop _ Hch Htot Hwf _].
  rewrite <- (assoc_L (++)) in Hch. cbn [app] in Hch. apply chunks_app in Hch as [_ (H1 & H2 & H3)].
  rewrite total_app in Htot. simpl in Htot. apply Forall_app in Hwf as [Hw1 [Hc Hw2]%Forall_cons].
  pose proof (total_nonneg _ (wf_big _ Hw1)). pose proof (total_nonneg _ (wf_big _ Hw2)).
  pose proof (total_mod _ Hw1). pose proof (lastsz_bound 8 cs1 Hw1 ltac:(lia)) as Hl.
  pose proof (rg_lo _ _ _ Hreg). unfold lo, wf in *. split_and!; try done; try lia.
  - destruct cs2 as [|d cs2]; simpl in H3; by destruct H3 as (_ & H3 & _).
  - subst a. Z.to_euclidean_division_equations. lia.
Qed.

(** Linking nodes does not disturb the layout. *)

Lemma lay_links h cs L m' : lay h cs -> Forall (valid (lo h) (mm_heapend h)) L ->
  links_only (mm_nodelist h) L (words h) m' -> lay (set_words m' h) cs.
Proof.
  intros H HL [D E]. pose proof H as [Hreg Hsm Htop [Hg1 Hg2] Hch Htot Hwf Hdom].
  assert (Hlow : forall b, mm_heapstart h <= b < lo h -> m' !! b = words h !! b).
  { intros b Hb. apply E. intros n Hn. pose proof (proj1 (Forall_forall _ _) HL n Hn) as Hv.
    destruct Hreg. unfold lo, flink, blink in *. destruct n; simpl in *; lia. }
  assert (Hhdr : forall b, b mod 16 = 8 \/ b mod 16 = 12 -> lo h <= b < mm_heapend h + 8 -> m' !! b = words h !! b).
  { intros b Hb Hr. apply E. intros n Hn. pose proof (proj1 (Forall_forall _ _) HL n Hn) as Hv.
    destruct Hreg. unfold flink, blink in *. destruct n as [i|x s]; simpl in *; [lia|].
    Z.to_euclidean_division_equations. lia. }
  constructor; try done.
  - simpl. unfold size_, preceding, lo in *. rewrite !Hlow by lia. done.
  - simpl. unfold lo at 1. simpl. fold (lo h).
    assert (Hgen : forall a p ds, a mod 16 = 8 -> lo h <= a -> Forall wf ds -> a + total ds = mm_heapend h ->
      chunks (words h) a p (ds ++ [guard]) -> chunks m' a p (ds ++ [guard])).
    { clear Hch Htot Hwf. intros a p ds. revert a p. induction ds as [|c ds IH]; intros a p Ha Hl Hw Ht.
      - simpl in *. unfold size_, preceding. rewrite !Hhdr; [done|..]; Z.to_euclidean_division_equations; lia.
      - apply Forall_cons in Hw as [[Hc1 Hc2] Hw]. simpl in *. pose proof (total_nonneg _ (wf_big _ Hw)).
        intros (H1 & H2 & H3). unfold size_, preceding in *.
        rewrite !Hhdr; [|Z.to_euclidean_division_equations; lia..].
        split_and!; [done..|]. apply IH; [Z.to_euclidean_division_equations; lia|lia|done|lia|done]. }
    apply Hgen; try done. apply (rg_lo _ _ _ Hreg).
  - intros b Hb Hr. simpl. auto.
Qed.

(** New headers for a part of the row. *)

Lemma lay_replace h cs1 mid mid' cs2 m' :
  lay h (cs1 ++ mid ++ cs2) -> total mid' = total mid -> Forall wf mid' ->
  touch (mm_nodelist h) (lo h + total cs1) (lo h + total cs1 + total mid) [] (words h) m' ->
  chunks m' (lo h + total cs1) (lastsz 8 cs1) mid' ->
  m' !! preceding (lo h + total cs1 + total mid) = Some (pword (lastsz (lastsz 8 cs1) mid') (headb cs2)) ->
  lay (set_words m' h) (cs1 ++ mid' ++ cs2).
Proof.
  intros H Ht Hw' [D E] Hc' Hp. pose proof H as [Hreg Hsm Htop [Hg1 Hg2] Hch Htot Hwf Hdom].
  rewrite !Forall_app in Hwf. destruct Hwf as (Hw1 & Hwm & Hw2).
  pose proof (total_nonneg _ (wf_big _ Hw1)). pose proof (total_nonneg _ (wf_big _ Hwm)).
  assert (HE : forall b, ~ (lo h + total cs1 <= b < lo h + total cs1 + total mid) ->
    b <> preceding (lo h + total cs1 + total mid) -> m' !! b = words h !! b).
  { intros b X1 X2. apply E; [done..|]. by intros n ?%elem_of_nil. }
  unfold preceding in *. constructor; try done.
  - simpl. unfold size_, preceding, lo in *. rewrite !HE by lia. done.
  - simpl. unfold lo at 1. simpl. fold (lo h). rewrite <- !(assoc_L (++)) in Hch |- *.
    rewrite 2!chunks_app in Hch. destruct Hch as (C1 & _ & C2). rewrite 2!chunks_app, Ht. split_and!.
    + eapply chunks_range; [by apply wf_big| |exact C1]. intros b Hb. apply HE; lia.
    + done.
    + destruct cs2 as [|d cs2].
      * cbn [app chunks] in *. destruct C2 as (S2 & _ & _). unfold size_, preceding in *.
        rewrite HE by lia. done.
      * cbn [app chunks] in *. destruct C2 as (S2 & _ & C2). apply Forall_cons in Hw2 as [[Hd _] Hw2].
        unfold size_, preceding in *. rewrite HE by lia. split_and!; [done..|].
        eapply chunks_range; [|intros b Hb; apply HE; lia|exact C2].
        apply Forall_app. split; [by apply wf_big|]. by repeat constructor.
  - simpl. unfold lo at 1. simpl. fold (lo h). rewrite !total_app in *. lia.
  - rewrite !Forall_app. done.
  - intros b Hb Hr. simpl. auto.
Qed.

(** New headers outside the chunks of a list do not disturb it. *)

Lemma nodes_touch h L m' a e : region (lo h) (mm_heapend h) (mm_nodelist h) ->
  nodes_ok (lo h) (mm_heapend h) (mm_nodelist h) (words h) L ->
  a mod 16 = 8 -> e mod 16 = 8 -> lo h <= a <= e -> e <= mm_heapend h ->
  touch (mm_nodelist h) a e [] (words h) m' ->
  (forall x s, Chunk x s ∈ L -> x + s <= a \/ e <= x) ->
  nodes_ok (lo h) (mm_heapend h) (mm_nodelist h) m' L.
Proof.
  intros Hreg HL Ha He Hr1 Hr2 [D E] Hout.
  assert (HE : forall n b, n ∈ L -> b = addr (mm_nodelist h) n \/ b = flink (addr (mm_nodelist h) n) \/
    b = blink (addr (mm_nodelist h) n) -> m' !! b = words h !! b).
  { intros n b Hn Hb. pose proof (proj1 (Forall_forall _ _) (no_valid _ _ _ _ _ HL) n Hn) as Hv.
    apply E; [..|by intros n' ?%elem_of_nil].
    - destruct Hreg. unfold flink, blink, lo in *. destruct n as [i|x s]; simpl in *; [lia|].
      destruct (Hout _ _ Hn); lia.
    - destruct Hreg. unfold flink, blink, preceding, lo in *. destruct n as [i|x s]; simpl in *; [lia|].
      destruct (Hout _ _ Hn); [lia|]. Z.to_euclidean_division_equations. lia. }
  destruct HL as [Hv Hnd Hd Hs Ho Hh]. constructor; try done.
  - eapply dll_frame; [|exact Hd]. intros n Hn. split; eapply HE; eauto.
  - intros n Hn. rewrite (HE n) by eauto. by apply Hs.
Qed.

End MmLayout.
