(* ===== verification/MmSteps.v ===== *)
(** * The steps of the allocator

    The functions of [MmHeap] that change chunks, as changes of the row of chunks
    ([MmLayout]) and of the list of free chunks ([MmList]) together: what
    [take_chunk] and the merges of [mm_free] leave behind, and which words they
    touch. *)

From S2P Require Import Prelude MmHeap MmList MmLayout.
Import MmHeap MmList MmLayout.

Module MmSteps.

(** ** Row and list together

    [F] are the chunks in the list: in the middle of an operation a free chunk
    may not be there. *)

Definition st (h : mm_heap) (cs : list chunk) (F : list node) : Prop :=
  lay h cs /\
  exists L, nodes_ok (lo h) (mm_heapend h) (mm_nodelist h) (words h) L /\ L ≡ₚ hooks ++ F.

Abbreviation htouch h a e F := (touch (mm_nodelist h) a e (hooks ++ F) (words h)).

Lemma st_perm h cs F F' : F ≡ₚ F' -> st h cs F -> st h cs F'.
Proof. intros E (Hl & L & HL & HP). split; [done|]. exists L. split; [done|]. by rewrite HP, E. Qed.

Lemma st_unlink h cs F a s F' Q : st h cs F -> F ≡ₚ Chunk a s :: F' ->
  (forall m', st (set_words m' h) cs F' -> links_only (mm_nodelist h) (hooks ++ F') (words h) m' ->
     Q tt (set_words m' h)) -> wp (unlink a) Q h.
Proof.
  intros (Hl & L & HL & HP) HF HQ.
  assert (HP' : L ≡ₚ Chunk a s :: hooks ++ F') by (rewrite HP, HF; solve_Permutation).
  eapply unlink_chunk; [apply (ly_reg _ _ Hl)|exact HL|rewrite HP'; by left|].
  intros m' L' HL' E K. rewrite HP' in E. apply (inj (cons _)) in E.
  assert (HK : links_only (mm_nodelist h) (hooks ++ F') (words h) m').
  { eapply links_only_mono; [|exact K]. intros n. by rewrite E. }
  apply HQ; [|done]. split; [|exists L'; by rewrite E].
  eapply lay_links; [exact Hl| |exact K]. apply (no_valid _ _ _ _ _ HL').
Qed.

Lemma chunk_apart h cs a i : lay h cs -> lo h <= a < mm_heapend h -> 0 <= i < 19 ->
  a <> addr (mm_nodelist h) (Hook i).
Proof. intros [[] _ _ _ _ _ _ _] Ha Hi. simpl. lia. Qed.

Lemma hooks_elem n : n ∈ hooks <-> exists i, n = Hook i /\ 0 <= i < 19.
Proof.
  unfold hooks. rewrite list_elem_of_fmap. setoid_rewrite elem_of_seqZ. split.
  - intros (i & -> & Hi). exists i. split; [done|lia].
  - intros (i & -> & Hi). exists i. split; [done|lia].
Qed.

Lemma st_add h cs1 s cs2 F Q : let a := lo h + total cs1 in
  st h (cs1 ++ (s, false) :: cs2) F -> (forall x t, Chunk x t ∈ F -> x <> a) ->
  (forall m', st (set_words m' h) (cs1 ++ (s, false) :: cs2) (Chunk a s :: F) ->
     links_only (mm_nodelist h) (hooks ++ Chunk a s :: F) (words h) m' ->
     Q tt (set_words m' h)) -> wp (mm_addfreechunk a) Q h.
Proof.
  intros a (Hl & L & HL & HP) Hout HQ.
  destruct (lay_chunk _ _ _ _ Hl) as (Hs & Hp & _ & Hm & [Hw Hw'] & Ha & He & Hlt & Hsl). fold a in Hs, Hp, Hm, Ha, He.
  cbn [fst snd] in *. pose proof (ly_small _ _ Hl). unfold MM_ALLOC_BIT in *.
  eapply add_ok; [apply (ly_reg _ _ Hl)|done|exact HL|..|exact Hs| | | |].
  - simpl. split_and!; done || lia.
  - lia.
  - intros Hin. apply list_elem_of_fmap in Hin as (n & -> & Hn). rewrite HP in Hn.
    apply elem_of_app in Hn as [(i & -> & Hi)%hooks_elem|Hn].
    + eapply (chunk_apart h); [exact Hl|..|exact Hi|done]. lia.
    + destruct n as [i|x t]; [|by eapply Hout; [exact Hn|]].
      pose proof (no_valid _ _ _ _ _ HL) as Hv. rewrite Forall_forall in Hv.
      eapply (chunk_apart h _ _ i); [exact Hl|..|done]; [lia|]. apply (Hv (Hook i)). rewrite HP. set_solver.
  - eexists. split; [exact Hp|]. by apply pword_alloc.
  - apply (ly_dom _ _ Hl); unfold flink; [|lia]. Z.to_euclidean_division_equations. lia.
  - apply (ly_dom _ _ Hl); unfold blink; [|lia]. Z.to_euclidean_division_equations. lia.
  - intros m' L' HL' E K.
    assert (HP' : L' ≡ₚ hooks ++ Chunk a s :: F) by (rewrite E, HP; solve_Permutation).
    apply HQ.
    + split; [|by exists L']. eapply lay_links; [exact Hl|apply (no_valid _ _ _ _ _ HL')|exact K].
    + eapply links_only_mono; [|exact K]. intros n. by rewrite HP'.
Qed.

Lemma st_replace h cs1 mid mid' cs2 F m' : let a := lo h + total cs1 in
  st h (cs1 ++ mid ++ cs2) F -> total mid' = total mid -> Forall wf mid' ->
  touch (mm_nodelist h) a (a + total mid) [] (words h) m' ->
  chunks m' a (lastsz 8 cs1) mid' ->
  m' !! preceding (a + total mid) = Some (pword (lastsz (lastsz 8 cs1) mid') (headb cs2)) ->
  (forall x s, Chunk x s ∈ F -> x + s <= a \/ a + total mid <= x) ->
  st (set_words m' h) (cs1 ++ mid' ++ cs2) F.
Proof.
  intros a (Hl & L & HL & HP) Ht Hw Htch Hc Hp Hout. split; [by eapply lay_replace|].
  exists L. split; [|done]. pose proof Hl as [Hreg _ _ _ _ Htot Hwf _].
  rewrite !Forall_app in Hwf. destruct Hwf as (Hw1 & Hwm & Hw2).
  pose proof (total_nonneg _ (wf_big _ Hw1)). pose proof (total_nonneg _ (wf_big _ Hwm)).
  pose proof (total_nonneg _ (wf_big _ Hw2)). rewrite !total_app in Htot.
  pose proof (total_mod _ Hw1). pose proof (total_mod _ Hwm). pose proof (rg_lo _ _ _ Hreg).
  eapply (nodes_touch h); [exact Hreg|exact HL|..|exact Htch| ].
  - subst a. Z.to_euclidean_division_equations. lia.
  - subst a. Z.to_euclidean_division_equations. lia.
  - lia.
  - lia.
  - intros x s Hx. rewrite HP in Hx. apply elem_of_app in Hx as [(i & ? & _)%hooks_elem|Hx]; [done|auto].
Qed.

(** ** Splitting: [take_chunk] *)

(** The free chunks but the one between [cs1] and [cs2], which has [s] bytes. *)

Definition others (h : mm_heap) (cs1 : list chunk) (s : Z) (cs2 : list chunk) : list node :=
  free_nodes (lo h) cs1 ++ free_nodes (lo h + total cs1 + s) cs2.

Lemma others_apart h cs1 s cs2 x t : Forall wf cs1 -> Forall wf cs2 -> 0 <= s ->
  Chunk x t ∈ others h cs1 s cs2 ->
  (x + t <= lo h + total cs1 \/ lo h + total cs1 + s <= x) /\ 16 <= t.
Proof.
  intros H1 H2 Hs [Hn|Hn]%elem_of_app; apply free_nodes_range in Hn as (x' & t' & [= <- <-] & Hx & Hx' & Hin & _);
    try done; rewrite Forall_forall in H1, H2.
  - specialize (H1 _ Hin) as [? _]. simpl in *. lia.
  - specialize (H2 _ Hin) as [? _]. simpl in *. lia.
Qed.

Lemma free_nodes_split h cs1 mid cs2 :
  free_nodes (lo h) (cs1 ++ mid ++ cs2) ≡ₚ
    free_nodes (lo h + total cs1) mid ++ others h cs1 (total mid) cs2.
Proof.
  unfold others. rewrite !free_nodes_app. solve_Permutation.
Qed.

(** Links of a node inside the region count as words of the region. *)

Lemma touch_absorb nl a e L n m m' :
  a <= flink (addr nl n) -> blink (addr nl n) < e ->
  touch nl a e (n :: L) m m' -> touch nl a e L m m'.
Proof.
  intros H1 H2 [D E]. split; [done|]. intros b Hb Hp HL. apply E; [done..|].
  intros n' [->|Hn']%elem_of_cons; [|auto]. unfold flink, blink in *. lia.
Qed.

(** What is left of a free chunk of [s] bytes when [n] are taken. *)

Definition taken (n s : Z) : list chunk := (n, true) :: if n <? s then [(s - n, false)] else [].

(** Look words up through stores. *)

Ltac look :=
  cbn [words set_words set_sem] in *; unfold size_, preceding in *;
  repeat first [rewrite lookup_insert_eq | rewrite lookup_insert_ne by lia]; try done.

Lemma wp_set_preceding x p b n Q h : words h !! preceding x = Some (pword p b) ->
  0 <= p < MM_ALLOC_BIT -> 0 <= n < MM_ALLOC_BIT ->
  Q tt (set_words (<[preceding x := pword n b]> (words h)) h) -> wp (set_preceding x n) Q h.
Proof.
  intros Hx Hp Hn HQ. unfold set_preceding. apply wp_bind. eapply wp_load; [exact Hx|].
  rewrite pword_bit, pword_lor by done. apply wp_store; [by eexists|done].
Qed.

(** The stores that split a chunk in two. *)

Lemma st_split h cs1 s b cs2 F n : let a := lo h + total cs1 in
  st h (cs1 ++ (s, b) :: cs2) F -> (forall x t, Chunk x t ∈ F -> x + t <= a \/ a + s <= x) ->
  16 <= n -> n mod 16 = 0 -> n + 16 <= s ->
  let m' := <[preceding (a + s) := pword (s - n) (headb cs2)]> (<[size_ a := n]>
              (<[preceding (a + n) := n]> (<[size_ (a + n) := s - n]> (words h)))) in
  st (set_words m' h) (cs1 ++ (n, b) :: (s - n, false) :: cs2) F /\
  touch (mm_nodelist h) a (a + s) [] (words h) m'.
Proof.
  intros a H HF Hn Hn16 Hns m'.
  destruct (lay_chunk _ _ _ _ (proj1 H)) as (Hs & Hp & Hx & Hm & [_ Hw] & _). fold a in Hs, Hp, Hx, Hm.
  cbn [fst snd] in *.
  assert (T : touch (mm_nodelist h) a (a + s) [] (words h) m').
  { do 3 (eapply touch_trans; [|apply touch_insert; unfold size_, preceding; lia]).
    apply touch_insert. unfold size_, preceding. lia. }
  split; [|done].
  apply (st_replace h cs1 [(s, b)] [(n, b); (s - n, false)] cs2); [done| | |simpl; by replace (s + 0) with s by lia|..].
  - simpl. lia.
  - rewrite !Forall_cons. unfold wf. cbn [fst]. split_and!; [lia|lia|lia| |done].
    Z.to_euclidean_division_equations. lia.
  - subst m'. cbn [chunks fst snd]. split_and!; try done; look.
  - subst m'. cbn [total fst]. fold a. replace (s + 0) with s by lia. look.
  - simpl. replace (s + 0) with s by lia. done.
Qed.

(** The allocation bit of a chunk that is not in the list. *)

Lemma st_set_bit h cs1 s b b' cs2 F : let a := lo h + total cs1 in
  st h (cs1 ++ (s, b) :: cs2) F -> (forall x t, Chunk x t ∈ F -> x + t <= a \/ a + s <= x) ->
  let m' := <[preceding a := pword (lastsz 8 cs1) b']> (words h) in
  st (set_words m' h) (cs1 ++ (s, b') :: cs2) F /\ touch (mm_nodelist h) a (a + s) [] (words h) m'.
Proof.
  intros a H HF m'.
  destruct (lay_chunk _ _ _ _ (proj1 H)) as (Hs & Hp & Hx & Hm & Hw & _). fold a in Hs, Hp, Hx, Hm.
  cbn [fst snd] in *. pose proof (proj1 Hw). cbn [fst] in *.
  assert (T : touch (mm_nodelist h) a (a + s) [] (words h) m').
  { apply touch_insert. unfold preceding. lia. }
  split; [|done].
  apply (st_replace h cs1 [(s, b)] [(s, b')] cs2); [done|done| |simpl; by replace (s + 0) with s by lia|..].
  - by apply Forall_singleton.
  - subst m'. cbn [chunks fst snd]. split_and!; try done; look.
  - subst m'. cbn [total fst]. fold a. replace (s + 0) with s by lia. look.
  - simpl. replace (s + 0) with s by lia. done.
Qed.

Lemma u32_small x : 0 <= x < 4294967296 -> u32 x = x.
Proof. apply Z.mod_small. Qed.

Lemma links_touch h a e F m m' :
  links_only (mm_nodelist h) (hooks ++ F) m m' -> touch (mm_nodelist h) a e (hooks ++ F) m m'.
Proof. apply touch_links. Qed.

Lemma touch_nil nl a e L m m' : touch nl a e [] m m' -> touch nl a e L m m'.
Proof. intros [D E]. split; [done|]. intros b H1 H2 _. apply E; [done..|]. by intros n ?%elem_of_nil. Qed.

(** A shorter region that ends inside the longer one. *)

Lemma touch_inner nl a e e' L m m' : a <= e -> e + 8 <= e' -> touch nl a e L m m' -> touch nl a e' L m m'.
Proof. intros Ha He. apply touch_mono; [lia|lia| |done]. unfold preceding. lia. Qed.

(** The end of [take_chunk]. *)

Lemma mark_ok h cs1 n cs2 F Q : let a := lo h + total cs1 in
  st h (cs1 ++ (n, false) :: cs2) F -> (forall x t, Chunk x t ∈ F -> x + t <= a \/ a + n <= x) ->
  (forall m', st (set_words m' h) (cs1 ++ (n, true) :: cs2) F ->
     touch (mm_nodelist h) a (a + n) [] (words h) m' -> Q (a + 8) (set_words m' h)) ->
  wp (p ← load (preceding a); store (preceding a) (Z.lor p MM_ALLOC_BIT);;
      mret (a + SIZEOF_MM_ALLOCNODE)) Q h.
Proof.
  intros a H HF HQ. destruct (lay_chunk _ _ _ _ (proj1 H)) as (_ & Hp & _ & _ & _ & _ & _ & Hlz & _).
  fold a in Hp. apply wp_bind. eapply wp_load; [exact Hp|]. rewrite pword_set by done.
  apply wp_bind, wp_store; [by eexists|]. apply wp_ret.
  destruct (st_set_bit _ _ _ _ true _ _ H HF) as [H' T]. by apply HQ.
Qed.

Lemma take_chunk_ok h cs1 s cs2 n Q : let a := lo h + total cs1 in
  st h (cs1 ++ (s, false) :: cs2) (Chunk a s :: others h cs1 s cs2) ->
  16 <= n <= s -> n mod 16 = 0 ->
  (forall m', let cs' := cs1 ++ taken n s ++ cs2 in
     st (set_words m' h) cs' (free_nodes (lo h) cs') ->
     htouch h a (a + s) (others h cs1 s cs2) m' -> Q (a + 8) (set_words m' h)) ->
  wp (take_chunk a n) Q h.
Proof.
  intros a H Hn Hn16 HQ. set (F := others h cs1 s cs2) in *.
  destruct (lay_chunk _ _ _ _ (proj1 H)) as (_ & _ & _ & Hm & [Hw Hw'] & Ha & He & Hlz & Hsl).
  fold a in Hm, Ha, He. cbn [fst] in *. pose proof (ly_wf _ _ (proj1 H)) as Hwf. rewrite Forall_app, Forall_cons in Hwf.
  destruct Hwf as (Hw1 & _ & Hw2).
  assert (HF : forall x t, Chunk x t ∈ F -> (x + t <= a \/ a + s <= x) /\ 16 <= t).
  { intros x t Hx. apply (others_apart h cs1 s cs2) in Hx; [done..|lia]. }
  unfold take_chunk. apply wp_bind. eapply st_unlink; [exact H|done|]. intros m1 H1 T1.
  apply (links_touch h a (a + s)) in T1.
  destruct (lay_chunk _ _ _ _ (proj1 H1)) as (Hs & Hp & Hx & _). change (lo (set_words m1 h)) with (lo h) in *.
  fold a in Hs, Hp, Hx. cbn [fst snd] in *.
  apply wp_bind. eapply wp_load; [exact Hs|].
  rewrite (u32_small (s - n)) by (unfold MM_ALLOC_BIT in *; lia).
  unfold SIZEOF_MM_FREENODE, taken in *. destruct (Z.leb_spec 16 (s - n)) as [Hbig|Hsmall].
  - rewrite (proj2 (Z.ltb_lt n s)) in HQ by lia.
    apply wp_bind, wp_bind. eapply wp_load; [exact Hs|].
    assert (Hdom : forall b, b mod 4 = 0 -> a <= b < a + s -> is_Some (m1 !! b)).
    { intros b Hb Hr. apply (ly_dom _ _ (proj1 H1)); [done|]. cbn [mm_heapend set_words]. change (lo (set_words m1 h)) with (lo h). lia. }
    apply wp_bind, wp_store; [apply Hdom; unfold size_; Z.to_euclidean_division_equations; lia|].
    apply wp_bind, wp_store; [apply insert_some, Hdom; unfold preceding; Z.to_euclidean_division_equations; lia|].
    apply wp_bind, wp_store; [do 2 apply insert_some; by eexists|].
    apply wp_bind, (wp_set_preceding _ s (headb cs2)); [look|lia|lia|].
    destruct (st_split _ _ _ _ _ _ n H1) as [H2 T2]; [intros; by eapply HF|lia..|].
    change (lo (set_words m1 h)) with (lo h) in *. fold a in H2, T2.
    apply (touch_nil _ _ _ (hooks ++ F)) in T2. pose proof (touch_trans _ _ _ _ _ _ _ T1 T2) as T.
    cbn [words set_words] in *. match type of T with touch _ _ _ _ _ ?m => set (m2 := m) in * end.
    change (set_words m2 (set_words m1 h)) with (set_words m2 h) in H2.
    pose proof (st_add (set_words m2 h) (cs1 ++ [(n, false)]) (s - n) cs2 F) as A.
    change (lo (set_words m2 h)) with (lo h) in A. rewrite <- (assoc_L (++)), total_app in A. cbn [total app fst] in A.
    replace (lo h + (total cs1 + (n + 0))) with (a + n) in A by lia.
    apply A; [done| |clear A; intros m3 H3 T3].
    { intros x t Hx'. specialize (HF x t Hx'). lia. }
    apply (links_touch h a (a + s)) in T3.
    change (set_words m3 (set_words m2 h)) with (set_words m3 h) in H3 |- *.
    apply (mark_ok (set_words m3 h) cs1 n ((s - n, false) :: cs2) (Chunk (a + n) (s - n) :: F)).
    { done. }
    { change (lo (set_words m3 h)) with (lo h). fold a.
      intros x t [[= -> ->]|Hx']%elem_of_cons; [by right|]. specialize (HF x t Hx'). lia. }
    intros m4 H4 T4. change (lo (set_words m3 h)) with (lo h) in *. fold a in T4 |- *.
    change (set_words m4 (set_words m3 h)) with (set_words m4 h) in H4 |- *.
    apply HQ; [|].
    + eapply st_perm; [|exact H4]. rewrite (free_nodes_split h cs1 [(n, true); (s - n, false)] cs2).
      simpl. fold a. replace (n + (s - n + 0)) with s by lia. done.
    + eapply touch_trans; [exact T|]. eapply touch_trans.
      * apply (touch_absorb _ _ _ _ (Chunk (a + n) (s - n))); [unfold flink; simpl; lia|unfold blink; simpl; lia|].
        eapply touch_mono; [..|exact T3]; [lia|lia|lia|]. set_solver.
      * apply touch_nil. eapply touch_inner; [..|exact T4]; lia.
  - assert (s = n) as -> by (Z.to_euclidean_division_equations; lia).
    rewrite (proj2 (Z.ltb_ge n n)) in HQ by lia. apply wp_bind, wp_ret.
    apply (mark_ok (set_words m1 h) cs1 n cs2 F); [done|intros; by eapply HF|].
    intros m2 H2 T2. change (lo (set_words m1 h)) with (lo h) in *. fold a in T2 |- *.
    change (set_words m2 (set_words m1 h)) with (set_words m2 h) in H2 |- *. apply HQ.
    + eapply st_perm; [|exact H2]. rewrite (free_nodes_split h cs1 [(n, true)] cs2).
      simpl. by replace (n + 0) with n by lia.
    + eapply touch_trans; [exact T1|]. by apply touch_nil.
Qed.

(** ** Merging: the steps of [mm_free] *)

(** The stores that make one chunk of two. *)

Lemma st_join h cs1 s b n b' cs2 F : let a := lo h + total cs1 in
  st h (cs1 ++ (s, b) :: (n, b') :: cs2) F ->
  (forall x t, Chunk x t ∈ F -> x + t <= a \/ a + s + n <= x) ->
  let m' := <[preceding (a + s + n) := pword (s + n) (headb cs2)]> (<[size_ a := s + n]> (words h)) in
  st (set_words m' h) (cs1 ++ (s + n, b) :: cs2) F /\
  touch (mm_nodelist h) a (a + s + n) [] (words h) m'.
Proof.
  intros a H HF m'.
  destruct (lay_chunk _ _ _ _ (proj1 H)) as (_ & Hp & _ & Hm & [Hw Hw'] & _). fold a in Hp, Hm.
  pose proof (ly_wf _ _ (proj1 H)) as Hwf. rewrite Forall_app, !Forall_cons in Hwf.
  destruct Hwf as (_ & _ & [Hn Hn'] & _). cbn [fst snd] in *.
  assert (T : touch (mm_nodelist h) a (a + s + n) [] (words h) m').
  { eapply touch_trans; [|apply touch_insert; by right]. apply touch_insert. unfold size_. lia. }
  split; [|done].
  apply (st_replace h cs1 [(s, b); (n, b')] [(s + n, b)] cs2); [done|simpl; lia| |..];
    cbn [total fst]; fold a; replace (a + (s + (n + 0))) with (a + s + n) by lia; [|done| | |done].
  - apply Forall_singleton. split; simpl; [lia|]. Z.to_euclidean_division_equations. lia.
  - subst m'. cbn [chunks fst snd]. split_and!; try done; look.
  - subst m'. look.
Qed.

(** The reads and stores that make one free chunk of two, once the free chunk
    [x] of them is out of the list. *)

Lemma join_ok h cs1 s n cs2 F x t (r : Z) Q : let a := lo h + total cs1 in
  st h (cs1 ++ (s, false) :: (n, false) :: cs2) F -> F ≡ₚ Chunk x t :: others h cs1 (s + n) cs2 ->
  (forall m', st (set_words m' h) (cs1 ++ (s + n, false) :: cs2) (others h cs1 (s + n) cs2) ->
     htouch h a (a + (s + n)) (others h cs1 (s + n) cs2) m' -> Q r (set_words m' h)) ->
  wp (unlink x;; v ← load (size_ a); w ← load (size_ (a + s)); store (size_ a) (u32 (v + w));;
      v ← load (size_ a); set_preceding (a + s + n) v;; mret r) Q h.
Proof.
  intros a H HF HQ. pose proof (ly_wf _ _ (proj1 H)) as Hwf. rewrite Forall_app, !Forall_cons in Hwf.
  destruct Hwf as (Hw1 & [Hsw _] & [Hnw _] & Hw2). cbn [fst] in *.
  pose proof (total_nonneg _ (wf_big _ Hw1)). pose proof (ly_small _ _ (proj1 H)) as Hsm.
  apply wp_bind. eapply st_unlink; [exact H|exact HF|]. intros m1 H1 T1. apply (links_touch h a (a + (s + n))) in T1.
  destruct (lay_chunk _ _ _ _ (proj1 H1)) as (Hs & _). change (lo (set_words m1 h)) with (lo h) in *. fold a in Hs.
  assert (Hn : st (set_words m1 h) ((cs1 ++ [(s, false)]) ++ (n, false) :: cs2) (others h cs1 (s + n) cs2))
    by by rewrite <- (assoc_L (++)).
  destruct (lay_chunk _ _ _ _ (proj1 Hn)) as (Hns & _ & Hnx & _ & _ & _ & He & _ & _).
  change (lo (set_words m1 h)) with (lo h) in *. rewrite total_app in Hns, Hnx, He. cbn [total fst snd] in *.
  replace (lo h + (total cs1 + (s + 0))) with (a + s) in Hns, Hnx, He by lia.
  change (mm_heapend (set_words m1 h)) with (mm_heapend h) in He.
  apply wp_bind. eapply wp_load; [exact Hs|]. apply wp_bind. eapply wp_load; [exact Hns|].
  assert (Hsn : s + n < MM_ALLOC_BIT) by (unfold a, lo in He; lia).
  rewrite u32_small by (unfold MM_ALLOC_BIT in *; lia).
  apply wp_bind, wp_store; [by eexists|]. apply wp_bind. eapply wp_load; [look|].
  apply wp_bind, (wp_set_preceding _ n (headb cs2)); [look|lia|lia|]. apply wp_ret.
  destruct (st_join _ _ _ _ _ _ _ _ H1) as [H2 T2].
  { intros y t' Hy. apply others_apart in Hy; [|done|done|lia]. change (lo (set_words m1 h)) with (lo h). lia. }
  change (lo (set_words m1 h)) with (lo h) in *. fold a in H2, T2.
  replace (a + s + n) with (a + (s + n)) in * by lia. apply HQ; [exact H2|].
  eapply touch_trans; [exact T1|]. by apply touch_nil.
Qed.

(** A chunk and the free chunk after it. *)

Definition join_next (s : Z) (cs2 : list chunk) : Z * list chunk :=
  match cs2 with
  | (n, false) :: r => (s + n, r)
  | _ => (s, cs2)
  end.

Lemma merge_next_ok h cs1 s cs2 Q : let a := lo h + total cs1 in
  let '(s', cs2') := join_next s cs2 in
  st h (cs1 ++ (s, false) :: cs2) (others h cs1 s cs2) ->
  (forall m', st (set_words m' h) (cs1 ++ (s', false) :: cs2') (others h cs1 s' cs2') ->
     htouch h a (a + s') (others h cs1 s' cs2') m' -> Q (a + s') (set_words m' h)) ->
  wp (merge_next a) Q h.
Proof.
  intros a. destruct (join_next s cs2) as [s' cs2'] eqn:EJ. intros H HQ.
  destruct (lay_chunk _ _ _ _ (proj1 H)) as (Hs & _ & Hx & _ & [Hw _] & Ha & He & _ & Hsl).
  fold a in Hs, Hx, Ha, He. cbn [fst snd] in *.
  unfold merge_next. apply wp_bind. eapply wp_load; [exact Hs|]. apply wp_bind. eapply wp_load; [exact Hx|].
  apply wp_bind, wp_assert; [rewrite pword_size by lia; apply Z.eqb_refl|]. rewrite pword_alloc by lia.
  destruct cs2 as [|[n []] r]; simpl in EJ; injection EJ as <- <-; cbn [headb head from_option snd negb];
    [apply wp_ret; destruct h; by apply HQ..|].
  assert (Hn : st h ((cs1 ++ [(s, false)]) ++ (n, false) :: r) (others h cs1 s ((n, false) :: r)))
    by by rewrite <- (assoc_L (++)).
  destruct (lay_chunk _ _ _ _ (proj1 Hn)) as (Hns & _ & Hnx & _ & [Hnw _] & _ & Hne & _ & _).
  rewrite total_app in Hns, Hnx, Hne. cbn [total fst snd] in *.
  replace (lo h + (total cs1 + (s + 0))) with (a + s) in Hns, Hnx, Hne by lia.
  apply wp_bind. eapply wp_load; [exact Hns|]. apply (join_ok h cs1 s n r (others h cs1 s ((n, false) :: r)) (a + s) n).
  - done.
  - unfold others. simpl. fold a. replace (a + s + n) with (a + (s + n)) by lia. solve_Permutation.
  - intros m' H' T'. replace (a + s + n) with (a + (s + n)) by lia. by apply HQ.
Qed.

(** The free chunk before a chunk, and the chunk. *)

Definition join_prev (cs1 : list chunk) (s : Z) : list chunk * Z :=
  match last cs1 with
  | Some (p, false) => (removelast cs1, p + s)
  | _ => (cs1, s)
  end.

(** The chunk before the one at the end of [cs1]. *)

Lemma lay_before h cs1 c cs2 : lay h (cs1 ++ c :: cs2) ->
  exists q, words h !! size_ (lo h + total cs1 - lastsz 8 cs1) = Some (lastsz 8 cs1) /\
    words h !! preceding (lo h + total cs1 - lastsz 8 cs1) = Some (pword q (lastb cs1)) /\
    0 <= q < MM_ALLOC_BIT.
Proof.
  intros H. destruct cs1 as [|[p b] cs1 _] using rev_ind.
  - destruct (ly_guard _ _ H) as [G1 G2]. exists 0. unfold lastsz, lastb, lo. simpl.
    replace (mm_heapstart h + 8 + 0 - 8) with (mm_heapstart h) by lia. by unfold pword.
  - rewrite <- (assoc_L (++)) in H. destruct (lay_chunk _ _ _ _ H) as (Hs & Hp & _ & _ & _ & _ & _ & Hl & _).
    exists (lastsz 8 cs1). unfold lastb. rewrite lastsz_app, total_app, last_snoc. cbn.
    by replace (lo h + (total cs1 + (p + 0)) - p) with (lo h + total cs1) by lia.
Qed.

Lemma merge_prev_ok h cs1 s cs2 Q : let a := lo h + total cs1 in
  let '(cs1', s') := join_prev cs1 s in
  st h (cs1 ++ (s, false) :: cs2) (others h cs1 s cs2) ->
  (forall m', st (set_words m' h) (cs1' ++ (s', false) :: cs2) (others h cs1' s' cs2) ->
     htouch h (lo h + total cs1') (a + s) (others h cs1' s' cs2) m' ->
     Q (lo h + total cs1') (set_words m' h)) ->
  wp (merge_prev a (a + s)) Q h.
Proof.
  intros a. destruct (join_prev cs1 s) as [cs1' s'] eqn:EJ. intros H HQ.
  destruct (lay_chunk _ _ _ _ (proj1 H)) as (_ & Hp & _ & _ & [Hw _] & _ & He & Hl & _).
  destruct (lay_before _ _ _ _ (proj1 H)) as (q & Hbs & Hbp & Hq).
  fold a in Hp, Hbs, Hbp, He. cbn [fst snd] in *.
  unfold merge_prev. do 2 (apply wp_bind; eapply wp_load; [exact Hp|]).
  cbn [pword]. apply wp_bind. eapply wp_load; [exact Hbs|].
  apply wp_bind, wp_assert. { change (lastsz 8 cs1) with (pword (lastsz 8 cs1) false) at 1. rewrite pword_size by done. apply Z.eqb_refl. }
  apply wp_bind. eapply wp_load; [exact Hbp|]. rewrite pword_alloc by done.
  destruct cs1 as [|[p b] cs1 _] using rev_ind; [injection EJ as <- <-; apply wp_ret; destruct h; by apply HQ|].
  unfold join_prev, lastb in *. rewrite last_snoc in *. cbn [from_option snd] in *.
  destruct b; [injection EJ as <- <-; apply wp_ret; destruct h; by apply HQ|].
  rewrite removelast_last in EJ. injection EJ as <- <-.
  rewrite <- (assoc_L (++)) in H. cbn [app] in H. rewrite lastsz_app. cbn [negb lastsz last from_option fst].
  subst a. rewrite total_app in *. cbn [total fst] in *. set (a := lo h + total cs1) in *.
  replace (lo h + (total cs1 + (p + 0)) - p) with a by lia.
  replace (lo h + (total cs1 + (p + 0))) with (a + p) in * by lia.
  apply (join_ok h cs1 p s cs2 (others h (cs1 ++ [(p, false)]) s cs2) a p).
  - done.
  - unfold others. rewrite free_nodes_app, total_app. simpl. fold a.
    replace (lo h + (total cs1 + (p + 0)) + s) with (a + (p + s)) by lia. solve_Permutation.
  - intros m' H' T'. apply HQ; [done|]. by replace (a + p + s) with (a + (p + s)) by lia.
Qed.

End MmSteps.
