(* ===== verification/MmSpec.v ===== *)
(** * What the allocator promises

    The abstract heap: a row of chunks.  Freeing marks a chunk free and joins the
    free neighbours ([coalesce]); allocating takes the front of a smallest free
    chunk that is large enough ([malloc_spec]). *)

From S2P Require Import Prelude MmHeap MmList MmLayout MmSteps.
Import MmHeap MmList MmLayout MmSteps.

Module MmSpec.

(** ** Live memory

    [live a cs d]: [d] is what the allocator returned for an allocated chunk of
    the row [cs] at [a]; [held a cs b]: [b] is an address of such memory. *)

Fixpoint live (a : Z) (cs : list chunk) (d : Z) : Prop :=
  match cs with
  | [] => False
  | c :: cs' => (c.2 = true /\ d = a + 8) \/ live (a + c.1) cs' d
  end.

Fixpoint held (a : Z) (cs : list chunk) (b : Z) : Prop :=
  match cs with
  | [] => False
  | c :: cs' => (c.2 = true /\ a + 8 <= b < a + c.1) \/ held (a + c.1) cs' b
  end.

(** The size of the memory at [d]. *)

Fixpoint usable (a : Z) (cs : list chunk) (d : Z) : Z :=
  match cs with
  | [] => 0
  | c :: cs' => if a + 8 =? d then c.1 - 8 else usable (a + c.1) cs' d
  end.

(** ** Operations *)

Fixpoint mark (a d : Z) (cs : list chunk) : list chunk :=
  match cs with
  | [] => []
  | c :: cs' => if a + 8 =? d then (c.1, false) :: cs' else c :: mark (a + c.1) d cs'
  end.

Fixpoint coalesce (cs : list chunk) : list chunk :=
  match cs with
  | [] => []
  | c :: cs' =>
    match c.2, coalesce cs' with
    | false, (t, false) :: r => (c.1 + t, false) :: r
    | _, r => c :: r
    end
  end.

Definition release (a : Z) (cs : list chunk) (d : Z) : list chunk := coalesce (mark a d cs).

(** The bytes a request of [n] bytes takes. *)

Definition need (n : Z) : Z := 16 * ((n + 8 + 15) / 16).

Inductive malloc_spec (a n : Z) (cs : list chunk) : Z -> list chunk -> Prop :=
| spec_null : (n = 0 \/ forall s, (s, false) ∈ cs -> s < need n) -> malloc_spec a n cs 0 cs
| spec_best cs1 s cs2 : 0 < n -> cs = cs1 ++ (s, false) :: cs2 -> need n <= s ->
    (forall t, (t, false) ∈ cs -> need n <= t -> s <= t) ->
    malloc_spec a n cs (a + total cs1 + 8) (cs1 ++ taken (need n) s ++ cs2).

(** ** Facts about rows *)

Lemma held_app a cs1 cs2 b : held a (cs1 ++ cs2) b <-> held a cs1 b \/ held (a + total cs1) cs2 b.
Proof.
  revert a. induction cs1 as [|c cs1 IH]; intros a; simpl; [replace (a + 0) with a by lia; tauto|].
  rewrite IH. replace (a + c.1 + total cs1) with (a + (c.1 + total cs1)) by lia. tauto.
Qed.

Lemma live_app a cs1 cs2 d : live a (cs1 ++ cs2) d <-> live a cs1 d \/ live (a + total cs1) cs2 d.
Proof.
  revert a. induction cs1 as [|c cs1 IH]; intros a; simpl; [replace (a + 0) with a by lia; tauto|].
  rewrite IH. replace (a + c.1 + total cs1) with (a + (c.1 + total cs1)) by lia. tauto.
Qed.

Lemma live_split a cs d : live a cs d <->
  exists cs1 s cs2, cs = cs1 ++ (s, true) :: cs2 /\ d = a + total cs1 + 8.
Proof.
  split.
  - revert a. induction cs as [|[s b] cs IH]; intros a; simpl; [done|]. intros [[-> ->]|H].
    + exists [], s, cs. simpl. split; [done|lia].
    + destruct (IH _ H) as (cs1 & t & cs2 & -> & ->). exists ((s, b) :: cs1), t, cs2. simpl. split; [done|lia].
  - intros (cs1 & s & cs2 & -> & ->). rewrite live_app. right. by left.
Qed.

Lemma held_range a cs b : Forall wf cs -> held a cs b -> a + 8 <= b < a + total cs.
Proof.
  intros Hw. revert a. induction Hw as [|c cs [Hc _] Hw IH]; intros a; simpl; [done|].
  pose proof (total_nonneg _ (wf_big _ Hw)). intros [[_ X]|X]; [lia|]. specialize (IH _ X). lia.
Qed.

Lemma live_range a cs d : Forall wf cs -> live a cs d -> a + 8 <= d /\ d + 8 <= a + total cs.
Proof.
  intros Hw. revert a. induction Hw as [|c cs [Hc _] Hw IH]; intros a; simpl; [done|].
  pose proof (total_nonneg _ (wf_big _ Hw)). intros [[_ X]|X]; [lia|]. specialize (IH _ X). lia.
Qed.

Lemma held_free a cs b x s : Forall wf cs -> held a cs b -> Chunk x s ∈ free_nodes a cs -> b < x \/ x + s <= b.
Proof.
  intros Hw. revert a. induction Hw as [|[t []] cs [Hc _] Hw IH]; intros a; simpl in *; [done|..].
  - intros [[_ H]|H] Hx; [|by eauto].
    destruct (free_nodes_range _ _ _ Hw Hx) as (? & ? & [= <- <-] & ? & _). lia.
  - intros [[? _]|H]; [done|]. pose proof (held_range _ _ _ Hw H).
    intros [[= -> ->]|Hx]%elem_of_cons; [lia|eauto].
Qed.

Lemma live_held a cs d : Forall wf cs -> live a cs d -> held a cs d.
Proof.
  intros Hw. revert a. induction Hw as [|c cs [Hc _] Hw IH]; intros a; simpl; [done|].
  intros [[H ->]|H]; [left; split; [done|lia]|right; auto].
Qed.

Lemma coalesce_cons c cs : coalesce (c :: cs) =
  match c.2, coalesce cs with
  | false, (t, false) :: r => (c.1 + t, false) :: r
  | _, r => c :: r
  end.
Proof. done. Qed.

Lemma held_coalesce a cs b : held a (coalesce cs) b <-> held a cs b.
Proof.
  revert a. induction cs as [|[s f] cs IH]; intros a; [done|]. rewrite coalesce_cons. cbn [held fst snd].
  rewrite <- IH. destruct f; [done|]. destruct (coalesce cs) as [|[t []] r]; [done..|].
  simpl. replace (a + (s + t)) with (a + s + t) by lia. naive_solver.
Qed.

Lemma live_coalesce a cs d : live a (coalesce cs) d <-> live a cs d.
Proof.
  revert a. induction cs as [|[s f] cs IH]; intros a; [done|]. rewrite coalesce_cons. cbn [live fst snd].
  rewrite <- IH. destruct f; [done|]. destruct (coalesce cs) as [|[t []] r]; [done..|].
  simpl. replace (a + (s + t)) with (a + s + t) by lia. naive_solver.
Qed.

Lemma coalesced_coalesce cs : coalesced (coalesce cs).
Proof.
  induction cs as [|[s f] cs IH]; [done|]. rewrite coalesce_cons. cbn [fst snd].
  destruct f; [simpl; by destruct (coalesce cs)|].
  destruct (coalesce cs) as [|[t []] [|[u []] r]]; simpl in *; tauto.
Qed.

Lemma coalesce_id cs : coalesced cs -> coalesce cs = cs.
Proof.
  induction cs as [|[s f] cs IH]; [done|]. cbn [coalesced]. intros [H1 H2].
  rewrite coalesce_cons, IH by done. destruct f; [done|]. by destruct cs as [|[t []] r].
Qed.

Lemma mark_app a cs1 s b cs2 : Forall wf cs1 ->
  mark a (a + total cs1 + 8) (cs1 ++ (s, b) :: cs2) = cs1 ++ (s, false) :: cs2.
Proof.
  intros Hw. revert a. induction Hw as [|c cs1 [Hc _] Hw IH]; intros a; simpl.
  - by rewrite (proj2 (Z.eqb_eq _ _)) by lia.
  - pose proof (total_nonneg _ (wf_big _ Hw)). rewrite (proj2 (Z.eqb_neq _ _)) by lia.
    replace (a + (c.1 + total cs1) + 8) with (a + c.1 + total cs1 + 8) by lia. by rewrite IH.
Qed.

Lemma live_mark a cs d d' : Forall wf cs -> d <> d' -> live a cs d' -> live a (mark a d cs) d'.
Proof.
  intros Hw Hne. revert a. induction Hw as [|c cs [Hc _] Hw IH]; intros a; simpl; [done|].
  destruct (Z.eqb_spec (a + 8) d) as [E|E]; simpl; intros [[H1 H2]|H]; [lia|by right|by left|right; auto].
Qed.

Lemma live_release a cs d d' : Forall wf cs -> d <> d' -> live a cs d' -> live a (release a cs d) d'.
Proof. intros. unfold release. rewrite live_coalesce. by apply live_mark. Qed.

(** Joining the free neighbours of one chunk is [coalesce]. *)

Lemma coalesce_app cs1 cs2 : coalesced cs1 -> lastb cs1 = true -> coalesce (cs1 ++ cs2) = cs1 ++ coalesce cs2.
Proof.
  induction cs1 as [|[s f] cs1 IH]; [done|]. cbn [app coalesced]. intros [H1 H2] Hl.
  assert (Hl' : lastb cs1 = true).
  { destruct cs1; [done|]. unfold lastb in *. by rewrite last_cons_cons in Hl. }
  rewrite coalesce_cons, IH by done. destruct f; [done|]. destruct cs1 as [|[t []] r]; [done..|].
  simpl in H1. done.
Qed.

Lemma coalesce_next s cs2 : coalesced cs2 ->
  coalesce ((s, false) :: cs2) = let '(s', cs2') := join_next s cs2 in (s', false) :: cs2'.
Proof.
  intros H. rewrite coalesce_cons, coalesce_id by done. by destruct cs2 as [|[t []] r].
Qed.

Lemma join_next_mid s cs2 : let '(s', cs2') := join_next s cs2 in
  exists mid, (s, false) :: cs2 = mid ++ cs2' /\ total mid = s' /\ Forall (fun c => c.2 = false) mid.
Proof.
  destruct cs2 as [|[t []] r]; simpl.
  - exists [(s, false)]. split_and!; [done|simpl; lia|by repeat constructor].
  - exists [(s, false)]. split_and!; [done|simpl; lia|by repeat constructor].
  - exists [(s, false); (t, false)]. split_and!; [done|simpl; lia|by repeat constructor].
Qed.

Lemma coalesce_join cs1 s cs2 : coalesced cs1 -> coalesced cs2 ->
  let '(s', cs2') := join_next s cs2 in
  let '(cs1', s'') := join_prev cs1 s' in
  coalesce (cs1 ++ (s, false) :: cs2) = cs1' ++ (s'', false) :: cs2' /\
  exists mid, cs1 ++ (s, false) :: cs2 = cs1' ++ mid ++ cs2' /\ total mid = s'' /\
    Forall (fun c => c.2 = false) mid.
Proof.
  intros H1 H2. pose proof (join_next_mid s cs2) as Hm. pose proof (coalesce_next s cs2 H2) as Hc.
  destruct (join_next s cs2) as [s' cs2'] eqn:EJ. destruct Hm as (mid & E & T & Hf).
  assert (Hnof : lastb cs1 = true -> coalesce (cs1 ++ (s, false) :: cs2) = cs1 ++ (s', false) :: cs2').
  { intros Hl. by rewrite coalesce_app, Hc. }
  destruct cs1 as [|[p b] cs1 _] using rev_ind; [split; [by apply Hnof|by exists mid]|].
  unfold join_prev, lastb in *. rewrite last_snoc in *. destruct b; [split; [auto|]; exists mid; by rewrite E|].
  rewrite removelast_last. apply coalesced_app in H1 as (H1 & _ & Hl). rewrite orb_false_r in Hl.
  rewrite <- !(assoc_L (++)). cbn [app]. split.
  - rewrite coalesce_app by done. f_equal. by rewrite coalesce_cons, Hc.
  - exists ((p, false) :: mid). rewrite E. split_and!; [done|simpl; lia|by constructor].
Qed.

End MmSpec.
