(* ===== verification/MmFree.v ===== *)
(** * Allocating and freeing

    The invariant of the kernel heap and the behaviour of [mm_malloc], [mm_free]
    and the list of delayed frees against the abstract heap of [MmSpec]. *)

From S2P Require Import Prelude MmHeap MmList MmLayout MmSteps MmSpec.
Import MmHeap MmList MmLayout MmSteps MmSpec.

Module MmFree.

(** ** The invariant *)

(** The memory that waits to be freed, linked through its first word. *)

Fixpoint chain (m : gmap Z Z) (p : Z) (ds : list Z) : Prop :=
  match ds with
  | [] => p = 0
  | d :: ds' => p = d /\ exists q, m !! d = Some q /\ chain m q ds'
  end.

Record heap_inv (h : mm_heap) (cs : list chunk) (ds : list Z) : Prop := {
  hi_st : st h cs (free_nodes (lo h) cs);
  hi_co : coalesced cs;
  hi_sem : 0 < mm_semaphore h;
  hi_chain : chain (words h) (mm_delaylist h) ds;
  hi_live : Forall (live (lo h) cs) ds;
  hi_nodup : NoDup ds;
  hi_size : mm_heapsize h = mm_heapend h + 8 - mm_heapstart h
}.

(** The heap is still at the same place, and the memory in use is unchanged. *)

Definition same_place (h h' : mm_heap) : Prop :=
  mm_heapstart h' = mm_heapstart h /\ mm_heapend h' = mm_heapend h /\ mm_nodelist h' = mm_nodelist h /\
  mm_heapsize h' = mm_heapsize h /\ mm_semaphore h' = mm_semaphore h.

Definition kept (h : mm_heap) (cs : list chunk) (m' : gmap Z Z) : Prop :=
  forall b, held (lo h) cs b -> m' !! b = words h !! b.

Lemma st_sem v h cs F : st h cs F -> st (set_sem v h) cs F.
Proof. intros ([] & L & HL & HP). split; [by constructor|by exists L]. Qed.

Lemma st_delay v h cs F : st h cs F -> st (set_delay v h) cs F.
Proof. intros ([] & L & HL & HP). split; [by constructor|by exists L]. Qed.

(** Words outside the memory in use. *)

Lemma held_header a cs1 cs2 b : Forall wf cs1 -> Forall wf cs2 -> held a (cs1 ++ cs2) b ->
  b <> preceding (a + total cs1).
Proof.
  intros H1 H2. rewrite held_app. unfold preceding. intros [H|H].
  - apply held_range in H; [lia|done].
  - apply held_range in H; [lia|done].
Qed.

Lemma held_mid a mid b : Forall (fun c => c.2 = false) mid -> ~ held a mid b.
Proof.
  intros Hf. revert a. induction Hf as [|c mid Hc Hf IH]; intros a; simpl; [auto|].
  rewrite Hc. intros [[? _]|H]; [done|by eapply IH].
Qed.

Lemma touch_kept h cs0 cs1 mid cs2 m' : lay h cs0 -> Forall wf (cs1 ++ mid ++ cs2) ->
  total (cs1 ++ mid ++ cs2) = total cs0 -> Forall (fun c => c.2 = false) mid ->
  htouch h (lo h + total cs1) (lo h + total cs1 + total mid) (others h cs1 (total mid) cs2) m' ->
  kept h (cs1 ++ mid ++ cs2) m'.
Proof.
  intros Hl Hw Ht Hf [_ E] b Hb. pose proof Hw as Hw'. rewrite !Forall_app in Hw'. destruct Hw' as (Hw1 & Hwm & Hw2).
  pose proof (held_range _ _ _ Hw Hb) as Hr.
  assert (Hfn : forall x s, Chunk x s ∈ others h cs1 (total mid) cs2 -> Chunk x s ∈ free_nodes (lo h) (cs1 ++ mid ++ cs2)).
  { intros x s Hx. rewrite free_nodes_split. set_solver. }
  apply E.
  - intros Hin. rewrite !held_app in Hb. destruct Hb as [H|[H|H]].
    + apply held_range in H; [lia|done].
    + by eapply held_mid.
    + apply held_range in H; [lia|done].
  - rewrite (assoc_L (++)) in Hb. apply held_header in Hb; [|by apply Forall_app|done].
    by rewrite total_app, Z.add_assoc in Hb.
  - intros n [(i & -> & Hi)%hooks_elem|Hn]%elem_of_app.
    + pose proof (ly_reg _ _ Hl) as []. pose proof (ly_total _ _ Hl). unfold flink, blink. simpl. lia.
    + destruct n as [i|x s].
      * apply elem_of_app in Hn as [Hn|Hn]; [apply (free_nodes_range _ _ _ Hw1) in Hn
          |apply (free_nodes_range _ _ _ Hw2) in Hn]; by destruct Hn as (? & ? & ? & _).
      * specialize (Hfn _ _ Hn). pose proof (held_free _ _ _ _ _ Hw Hb Hfn).
        destruct (free_nodes_range _ _ _ Hw Hfn) as (? & ? & [= <- <-] & _ & _ & Hin & _).
        rewrite Forall_forall in Hw. destruct (Hw _ Hin) as [H16 _]. unfold flink, blink. simpl in *. lia.
Qed.

(** ** [mm_free] *)

Lemma touch_sub nl a e L L' m m' :
  (forall n, n ∈ L -> n ∈ L' \/ (a <= flink (addr nl n) /\ blink (addr nl n) < e)) ->
  touch nl a e L m m' -> touch nl a e L' m m'.
Proof.
  intros HL [D E]. split; [done|]. intros b H1 H2 H3. apply E; [done..|]. intros n Hn.
  destruct (HL n Hn) as [?|[? ?]]; [auto|]. unfold flink, blink in *. lia.
Qed.

Lemma join_next_bound s cs2 : Forall wf cs2 -> (join_next s cs2).1 = s \/ s + 16 <= (join_next s cs2).1.
Proof.
  intros Hw. destruct cs2 as [|[n []] r]; simpl; [by left..|]. apply Forall_cons in Hw as [[? _] _].
  simpl in *. lia.
Qed.

Lemma join_prev_others h cs1 s cs2 : Forall wf cs1 -> 0 <= s ->
  let '(cs1', s') := join_prev cs1 s in
  total cs1' + s' = total cs1 + s /\ total cs1' <= total cs1 /\
  forall n, n ∈ others h cs1 s cs2 -> n ∈ others h cs1' s' cs2 \/
    exists p, n = Chunk (lo h + total cs1') p /\ 16 <= p <= s'.
Proof.
  intros Hw Hs. unfold join_prev. destruct cs1 as [|[p b] cs1 _] using rev_ind; [split_and!; auto; lia|].
  rewrite last_snoc. destruct b; [split_and!; auto; lia|]. rewrite removelast_last, total_app. simpl.
  apply Forall_app in Hw as [_ [[Hp _] _]%Forall_cons]. simpl in Hp. split_and!; [lia|lia|].
  intros n. unfold others. rewrite free_nodes_app, total_app. simpl.
  replace (lo h + (total cs1 + (p + 0)) + s) with (lo h + total cs1 + (p + s)) by lia.
  intros [[Hn|Hn]%elem_of_app|Hn]%elem_of_app.
  - left. set_solver.
  - right. apply list_elem_of_singleton in Hn as ->. exists p. split; [done|lia].
  - left. set_solver.
Qed.

Lemma free_body_ok h cs1 s cs2 Q : let d := lo h + total cs1 + 8 in
  let cs := cs1 ++ (s, true) :: cs2 in
  st h cs (free_nodes (lo h) cs) -> coalesced cs ->
  (forall m', st (set_words m' h) (release (lo h) cs d) (free_nodes (lo h) (release (lo h) cs d)) ->
     (forall b, is_Some (words h !! b) -> is_Some (m' !! b)) ->
     kept h (mark (lo h) d cs) m' -> Q tt (set_words m' h)) ->
  wp (free_body d) Q h.
Proof.
  intros d cs H Hco HQ. pose proof (ly_wf _ _ (proj1 H)) as Hwf. subst cs. rewrite Forall_app, Forall_cons in Hwf.
  destruct Hwf as (Hw1 & [Hw Hw'] & Hw2). cbn [fst] in *.
  destruct (lay_chunk _ _ _ _ (proj1 H)) as (_ & Hp & _ & _ & _ & Ha & He & Hlz & _).
  unfold release in HQ. unfold d in HQ. rewrite mark_app in HQ by done. set (a := lo h + total cs1) in *. cbn [fst snd] in *.
  apply coalesced_app in Hco as (Hco1 & [_ Hco2] & _).
  pose proof (coalesce_join cs1 s cs2 Hco1 Hco2) as HJ.
  unfold free_body. apply wp_bind, wp_get. apply wp_bind, wp_assert.
  { unfold mm_heapmember, lo in *. apply andb_true_intro. split; apply Z.ltb_lt; lia. }
  unfold SIZEOF_MM_ALLOCNODE, d. replace (a + 8 - 8) with a by lia. apply wp_bind. eapply wp_load; [exact Hp|].
  rewrite pword_alloc, pword_size by done. apply wp_bind, wp_assert; [done|]. apply wp_bind, wp_store; [by eexists|].
  destruct (st_set_bit _ _ _ _ false _ _ H) as [H1 T1].
  { intros x t Hx. rewrite (free_nodes_split h cs1 [(s, true)] cs2) in Hx. simpl in Hx.
    apply others_apart in Hx as [Hx _]; [|done|done|lia]. replace (s + 0) with s in Hx by lia. done. }
  fold a in H1, T1. cbn [pword] in *. set (m1 := <[preceding a:=lastsz 8 cs1]> (words h)) in *.
  eapply st_perm in H1; [|apply (free_nodes_split h cs1 [(s, true)] cs2)]. simpl in H1. replace (s + 0) with s in H1 by lia.
  apply wp_bind. pose proof (merge_next_ok (set_words m1 h) cs1 s cs2) as MN.
  destruct (join_next s cs2) as [s' cs2'] eqn:EJ. apply MN; [done|clear MN].
  intros m2 H2 T2. change (lo (set_words m1 h)) with (lo h) in *. fold a in T2 |- *.
  change (set_words m2 (set_words m1 h)) with (set_words m2 h) in *.
  apply wp_bind. pose proof (merge_prev_ok (set_words m2 h) cs1 s' cs2') as MP. 
  destruct (join_prev cs1 s') as [cs1' s''] eqn:EP. apply MP; [done|clear MP].
  intros m3 H3 T3. change (lo (set_words m2 h)) with (lo h) in *. fold a in T3.
  change (set_words m3 (set_words m2 h)) with (set_words m3 h) in *.
  pose proof (join_next_bound s cs2 Hw2) as Hjn. rewrite EJ in Hjn. cbn [fst] in Hjn.
  pose proof (join_prev_others h cs1 s' cs2' Hw1 ltac:(lia)) as HO. rewrite EP in HO.
  destruct HO as (Etot & Hle & HO). destruct HJ as (Ecoal & mid & Emid & Etm & Hfree).
  set (a' := lo h + total cs1') in *.
  assert (Hs3 : Forall wf (cs1' ++ (s'', false) :: cs2')) by apply (ly_wf _ _ (proj1 H3)).
  rewrite Forall_app, Forall_cons in Hs3. destruct Hs3 as (Hw1' & [Hw'' _] & Hw2'). cbn [fst] in *.
  apply (st_add (set_words m3 h) cs1' s'' cs2' (others h cs1' s'' cs2')); [done| |].
  { intros x t Hx. apply others_apart in Hx; [|done|done|lia]. change (lo (set_words m3 h)) with (lo h). lia. }
  intros m4 H4 T4. change (lo (set_words m3 h)) with (lo h) in *. fold a' in H4, T4.
  change (set_words m4 (set_words m3 h)) with (set_words m4 h) in *.
  assert (Hcs : cs1' ++ (s'', false) :: cs2' = cs1' ++ [(s'', false)] ++ cs2') by done.
  assert (Eae : a' + s'' = a + s') by lia.
  assert (T : htouch h a' (a' + s'') (others h cs1' s'' cs2') m4).
  { eapply touch_trans; [apply touch_nil|eapply touch_trans; [|eapply touch_trans]].
    - eapply touch_mono; [..|exact T1]; [lia|lia|unfold preceding; lia|done].
    - apply (touch_sub _ _ _ (hooks ++ others h cs1 s' cs2')).
      + intros n [?|Hn]%elem_of_app; [left; apply elem_of_app; by left|].
        destruct (HO n Hn) as [?|(p & -> & Hp')]; [left; apply elem_of_app; by right|].
        right. unfold flink, blink. simpl. fold a'. lia.
      + eapply touch_mono; [..|exact T2]; [lia|lia|unfold preceding; lia|done].
    - rewrite Eae. exact T3.
    - apply (touch_sub _ _ _ (hooks ++ Chunk a' s'' :: others h cs1' s'' cs2')).
      + intros n [?|[->|?]%elem_of_cons]%elem_of_app; [left; apply elem_of_app; by left| |left; apply elem_of_app; by right].
        right. unfold flink, blink. simpl. lia.
      + by apply touch_links. }
  apply HQ.
  - rewrite Ecoal. eapply st_perm; [|exact H4].
    rewrite (free_nodes_split h cs1' [(s'', false)] cs2'). simpl. fold a'. by replace (s'' + 0) with s'' by lia.
  - intros b Hb. by apply (proj1 T).
  - rewrite Emid. apply (touch_kept h (cs1 ++ (s, true) :: cs2)).
    + exact (proj1 H).
    + rewrite <- Emid, Forall_app, Forall_cons. done.
    + rewrite <- Emid, !total_app. done.
    + done.
    + fold a'. by rewrite Etm.
Qed.

(** The semaphore of a task that finds it free. *)

Lemma wp_take h Q : 0 < mm_semaphore h -> Q true (set_sem (mm_semaphore h - 1) h) ->
  wp (mm_takesemaphore CtxTask) Q h.
Proof.
  intros Hs HQ. unfold mm_takesemaphore. apply wp_bind, wp_get. apply wp_bind.
  eapply wp_lift; [unfold sem_wait; by rewrite (proj2 (Z.ltb_lt _ _)) by lia|].
  apply wp_bind, wp_modify. by apply wp_ret.
Qed.

Lemma chain_kept m m' p ds (H : forall d, d ∈ ds -> m' !! d = m !! d) : chain m p ds -> chain m' p ds.
Proof.
  revert p. induction ds as [|d ds IH]; intros p; [done|]. intros (-> & q & Hq & Hc). split; [done|].
  exists q. split; [by rewrite H by (by left)|]. apply IH; [|done]. intros d' Hd. apply H. by right.
Qed.

(** What an operation that does not disturb the delayed frees leaves. *)

Record freed (h : mm_heap) (cs : list chunk) (ds : list Z) (d : Z) (h' : mm_heap) : Prop := {
  fr_inv : heap_inv h' (release (lo h) cs d) ds;
  fr_place : same_place h h';
  fr_delay : mm_delaylist h' = mm_delaylist h;
  fr_kept : kept h (mark (lo h) d cs) (words h')
}.

Lemma mm_free_ok h cs ds d : heap_inv h cs ds -> live (lo h) cs d -> d ∉ ds ->
  wp (mm_free CtxTask d) (fun _ h' => freed h cs ds d h') h.
Proof.
  intros [H Hco Hsem Hch Hlv Hnd Hsz] Hd Hin. pose proof (ly_wf _ _ (proj1 H)) as Hw.
  pose proof (live_range _ _ _ Hw Hd) as Hr. pose proof (rg_pos _ _ _ (ly_reg _ _ (proj1 H))) as Hpos.
  apply live_split in Hd as (cs1 & s & cs2 & Ecs & Ed).
  assert (Hout : forall d', d' ∈ ds -> live (lo h) (mark (lo h) d cs) d').
  { intros d' Hd'. apply live_mark; [done|congruence|]. by apply (proj1 (Forall_forall _ _) Hlv). }
  unfold mm_free. rewrite (proj2 (Z.eqb_neq _ _)) by lia. apply wp_bind, wp_take; [done|]. cbn [negb].
  apply wp_bind. subst cs d. apply st_sem with (v := mm_semaphore h - 1) in H as H'.
  apply (free_body_ok (set_sem (mm_semaphore h - 1) h) cs1 s cs2); [done..|].
  change (lo (set_sem (mm_semaphore h - 1) h)) with (lo h).
  intros m' Hst _ Hk. apply wp_modify. constructor.
  - constructor.
    + by apply st_sem.
    + apply coalesced_coalesce.
    + cbn. unfold sem_post. lia.
    + cbn. eapply chain_kept; [|exact Hch]. intros d' Hd'. apply Hk. apply live_held; [|by apply Hout].
      rewrite mark_app by (by apply Forall_app in Hw as [? _]).
      by rewrite Forall_app, Forall_cons in Hw |- *.
    + apply Forall_forall. intros d' Hd'. cbn. unfold release. rewrite live_coalesce. by apply Hout.
    + done.
    + done.
  - repeat split. cbn. unfold sem_post. lia.
  - done.
  - done.
Qed.

(** ** Delayed frees *)

Lemma held_mark a d cs b : held a (mark a d cs) b -> held a cs b.
Proof.
  revert a. induction cs as [|c cs IH]; intros a; simpl; [done|].
  destruct (a + 8 =? d); simpl; [by intros [[? _]|?]; [|right]|]. intros [?|?]; [by left|right; auto].
Qed.

Lemma held_releases a cs ds b : held a (foldl (release a) cs ds) b -> held a cs b.
Proof.
  revert cs. induction ds as [|d ds IH]; intros cs; [done|]. cbn [foldl]. intros H%IH.
  unfold release in H. rewrite held_coalesce in H. by apply held_mark in H.
Qed.

Lemma length_chain m p ds : NoDup ds -> chain m p ds -> (length ds <= size m)%nat.
Proof.
  intros Hnd Hc. rewrite <- size_dom, <- (size_list_to_set (C := gset Z) ds) by done.
  apply subseteq_size. intros d Hd%elem_of_list_to_set. apply elem_of_dom. clear Hnd.
  revert p Hc Hd. induction ds as [|d' ds IH]; intros p; [by intros _ ?%elem_of_nil|].
  intros (_ & q & Hq & Hc) [->|Hd]%elem_of_cons; [by eexists|by eapply IH].
Qed.

Lemma same_place_trans h1 h2 h3 : same_place h1 h2 -> same_place h2 h3 -> same_place h1 h3.
Proof. unfold same_place. intros (-> & -> & -> & -> & ->). tauto. Qed.

Lemma same_lo h h' : same_place h h' -> lo h' = lo h.
Proof. unfold lo. by intros (-> & _). Qed.

Lemma free_all_ok n h cs p ds : heap_inv h cs [] -> chain (words h) p ds ->
  Forall (live (lo h) cs) ds -> NoDup ds -> (length ds <= n)%nat ->
  wp (free_all n CtxTask p) (fun _ h' =>
    let cs' := foldl (release (lo h)) cs ds in
    heap_inv h' cs' [] /\ same_place h h' /\ kept h cs' (words h')) h.
Proof.
  revert h cs p ds. induction n as [|n IH]; intros h cs p ds Hi Hc Hlv Hnd Hn;
    (destruct ds as [|d ds]; [simpl in Hc; subst p; by apply wp_ret|]); [simpl in Hn; lia|].
  destruct Hc as (-> & q & Hq & Hc). apply Forall_cons in Hlv as [Hd Hlv]. apply NoDup_cons in Hnd as [Hnin Hnd].
  pose proof (ly_wf _ _ (proj1 (hi_st _ _ _ Hi))) as Hw.
  pose proof (live_range _ _ _ Hw Hd). pose proof (rg_pos _ _ _ (ly_reg _ _ (proj1 (hi_st _ _ _ Hi)))).
  cbn [free_all foldl]. rewrite (proj2 (Z.eqb_neq _ _)) by lia.
  apply wp_bind. eapply wp_load; [exact Hq|].
  apply wp_bind. eapply wp_mono; [apply (mm_free_ok _ _ _ _ Hi Hd); by intros ?%elem_of_nil|].
  intros _ h1 [Hi1 Hp1 _ Hk1]. pose proof (same_lo _ _ Hp1) as El.
  assert (Hlv' : Forall (live (lo h) (mark (lo h) d cs)) ds).
  { apply Forall_forall. intros d' Hd'. apply live_mark; [done|congruence|]. by apply (proj1 (Forall_forall _ _) Hlv). }
  assert (Hw' : Forall wf (mark (lo h) d cs)).
  { apply live_split in Hd as (cs1 & s & cs2 & -> & ->). apply Forall_app in Hw as [? Hw2].
    rewrite mark_app by done. rewrite Forall_app, Forall_cons. by apply Forall_cons in Hw2 as [??]. }
  eapply wp_mono; [apply (IH h1 (release (lo h) cs d) q ds Hi1)|].
  - eapply chain_kept; [|exact Hc]. intros d' Hd'. apply Hk1, live_held; [done|].
    by apply (proj1 (Forall_forall _ _) Hlv').
  - rewrite El. eapply Forall_impl; [exact Hlv'|]. intros d' ?. unfold release. by rewrite live_coalesce.
  - done.
  - simpl in Hn. lia.
  - intros _ h2 (Hi2 & Hp2 & Hk2). rewrite El in Hi2, Hk2. split_and!; [done|by eapply same_place_trans|].
    intros b Hb. rewrite Hk2 by by rewrite El. apply Hk1. apply held_releases in Hb.
    unfold release in Hb. by rewrite held_coalesce in Hb.
Qed.

Lemma delaylist_ok h cs ds : heap_inv h cs ds ->
  wp (mm_free_delaylist CtxTask) (fun _ h' =>
    let cs' := foldl (release (lo h)) cs ds in
    heap_inv h' cs' [] /\ same_place h h' /\ kept h cs' (words h')) h.
Proof.
  intros Hi. pose proof Hi as [H Hco Hs Hch Hlv Hnd Hsz]. unfold mm_free_delaylist.
  apply wp_bind, wp_get. apply wp_bind, wp_modify.
  apply (free_all_ok (fuel h) (set_delay 0 h) cs); try done; [|by eapply length_chain].
  constructor; [by apply st_delay|done..|by constructor|by constructor|done].
Qed.

(** Storing to memory in use does not disturb the heap. *)

Lemma held_split a cs b : held a cs b ->
  exists cs1 s cs2, cs = cs1 ++ (s, true) :: cs2 /\ a + total cs1 + 8 <= b < a + total cs1 + s.
Proof.
  revert a. induction cs as [|[s f] cs IH]; intros a; simpl; [done|]. intros [[-> H]|H].
  - exists [], s, cs. simpl. split; [done|lia].
  - destruct (IH _ H) as (cs1 & t & cs2 & -> & ?). exists ((s, f) :: cs1), t, cs2. simpl. split; [done|lia].
Qed.

Lemma st_write h cs b v : st h cs (free_nodes (lo h) cs) -> held (lo h) cs b ->
  st (set_words (<[b := v]> (words h)) h) cs (free_nodes (lo h) cs).
Proof.
  intros H Hb. pose proof (ly_wf _ _ (proj1 H)) as Hw. apply held_split in Hb as (cs1 & s & cs2 & -> & Hb).
  destruct (lay_chunk _ _ _ _ (proj1 H)) as (Hs & Hp & Hx & _ & _). set (a := lo h + total cs1) in *. cbn [fst snd] in *.
  rewrite Forall_app, Forall_cons in Hw. destruct Hw as (Hw1 & Hws & Hw2).
  apply (st_replace h cs1 [(s, true)] [(s, true)] cs2); [done|done|by apply Forall_singleton|..];
    cbn [total fst]; fold a; replace (s + 0) with s by lia.
  - apply touch_insert. lia.
  - cbn [chunks fst snd]. split_and!; try done; look.
  - look.
  - intros x t Hx'. rewrite (free_nodes_split h cs1 [(s, true)] cs2) in Hx'. simpl in Hx'.
    apply others_apart in Hx' as [Hx' _]; [|done|done|destruct Hws; simpl in *; lia]. by replace (s + 0) with s in Hx' by lia.
Qed.

(** In an interrupt handler the memory joins the list. *)

Lemma mm_free_irq_ok h cs ds d cx : cx = CtxInterrupt \/ cx = CtxSwitch ->
  heap_inv h cs ds -> live (lo h) cs d -> d ∉ ds ->
  wp (mm_free cx d) (fun _ h' => heap_inv h' cs (d :: ds) /\ same_place h h' /\
    forall b, b <> d -> words h' !! b = words h !! b) h.
Proof.
  intros Hcx [H Hco Hs Hch Hlv Hnd Hsz] Hd Hin. pose proof (ly_wf _ _ (proj1 H)) as Hw.
  pose proof (live_range _ _ _ Hw Hd). pose proof (live_held _ _ _ Hw Hd) as Hh.
  pose proof (ly_reg _ _ (proj1 H)) as [Hlo _ Hpos _ _].
  assert (Hdom : is_Some (words h !! d)).
  { apply (ly_dom _ _ (proj1 H)); [|pose proof (ly_total _ _ (proj1 H)); lia].
    apply live_split in Hd as (cs1 & s & cs2 & -> & ->). apply Forall_app in Hw as [Hw1 _].
    pose proof (total_mod _ Hw1). Z.to_euclidean_division_equations. lia. }
  unfold mm_free. rewrite (proj2 (Z.eqb_neq _ _)) by lia.
  apply wp_bind. eapply (wp_run _ _ _ false h); [by destruct Hcx as [->| ->]|]. cbn [negb].
  unfold mm_add_delaylist. apply wp_bind, wp_get. apply wp_bind, wp_store; [done|]. apply wp_modify.
  split_and!; [|by repeat split|intros b Hb; cbn; by rewrite lookup_insert_ne by congruence].
  constructor; [apply (st_delay d); by apply (st_write h)|done|done| |by constructor|by constructor|done].
  cbn. split; [done|]. exists (mm_delaylist h). split; [by rewrite lookup_insert_eq|].
  eapply chain_kept; [|exact Hch]. intros d' Hd'. rewrite lookup_insert_ne; [done|]. congruence.
Qed.

(** ** [mm_malloc] *)

Lemma land_gran x : 0 <= x < 4294967296 -> Z.land x (not32 MM_GRAN_MASK) = 16 * (x / 16).
Proof.
  intros Hx. replace (16 * (x / 16)) with (Z.shiftl (Z.shiftr x 4) 4)
    by (rewrite Z.shiftl_mul_pow2, Z.shiftr_div_pow2 by lia; change (2 ^ 4) with 16; lia).
  change (not32 MM_GRAN_MASK) with (Z.shiftl (Z.ones 28) 4). apply Z.bits_inj'. intros n Hn.
  rewrite Z.land_spec, !Z.shiftl_spec by lia. destruct (Z.ltb_spec n 4).
  - rewrite !(Z.testbit_neg_r _ (n - 4)) by lia. apply andb_false_r.
  - rewrite Z.shiftr_spec by lia. replace (n - 4 + 4) with n by lia.
    rewrite Z.testbit_ones_nonneg by lia. destruct (Z.ltb_spec (n - 4) 28); [apply andb_true_r|].
    rewrite andb_false_r. destruct (decide (x = 0)) as [->|]; [by rewrite Z.bits_0|].
    rewrite Z.bits_above_log2; [done|lia|]. assert (Z.log2 x < 32); [|lia]. apply Z.log2_lt_pow2; lia.
Qed.

(** The size the code computes is the mathematical one, or it is recognised as an overflow. *)

Lemma align_need n : 0 <= n < 4294967296 ->
  let s := MM_ALIGN_UP (u32 (n + SIZEOF_MM_ALLOCNODE)) in
  (n <= s /\ s = need n /\ need n < 4294967296) \/ (s < n /\ 4294967296 <= need n).
Proof.
  intros Hn s. unfold s, MM_ALIGN_UP, need, SIZEOF_MM_ALLOCNODE, MM_GRAN_MASK.
  rewrite land_gran by (apply Z.mod_pos_bound; lia). unfold u32.
  Z.to_euclidean_division_equations. lia.
Qed.

Lemma free_nodes_split_at a cs x s : Chunk x s ∈ free_nodes a cs ->
  exists cs1 cs2, cs = cs1 ++ (s, false) :: cs2 /\ x = a + total cs1.
Proof.
  revert a. induction cs as [|[t f] cs IH]; intros a; simpl; [by intros ?%elem_of_nil|].
  intros [Hx|Hx]%elem_of_app.
  - destruct f; [by apply elem_of_nil in Hx|]. apply list_elem_of_singleton in Hx as [= -> ->].
    exists [], cs. simpl. split; [done|lia].
  - destruct (IH _ Hx) as (cs1 & cs2 & -> & ->). exists ((t, f) :: cs1), cs2. simpl. split; [done|lia].
Qed.

Lemma free_nodes_elem a cs s : (s, false) ∈ cs -> exists x, Chunk x s ∈ free_nodes a cs.
Proof.
  intros (cs1 & cs2 & ->)%list_elem_of_split. exists (a + total cs1).
  rewrite free_nodes_app. apply elem_of_app. right. by left.
Qed.

Lemma coalesced_taken cs1 n s cs2 : coalesced (cs1 ++ (s, false) :: cs2) ->
  coalesced (cs1 ++ taken n s ++ cs2).
Proof.
  intros (H1 & H2 & H3)%coalesced_app. apply coalesced_app.
  assert (Hh : headb cs2 = true) by (destruct cs2 as [|[t f] r]; [done|]; by destruct H2).
  split_and!; [done| |unfold taken; by rewrite orb_true_r].
  assert (H2' : coalesced cs2) by apply H2. unfold taken. destruct (n <? s); simpl; [|by destruct cs2].
  split; [done|]. split; [|done]. destruct cs2 as [|[t f] r]; [done|]. unfold headb in Hh. simpl in *. by subst f.
Qed.

(** The search and the split, the semaphore being held. *)

Lemma malloc_body_ok h cs n : st h cs (free_nodes (lo h) cs) -> 0 < n -> need n < 4294967296 ->
  wp (malloc_body (mm_size2ndx (need n)) (need n))
    (fun p h' => exists m' cs', h' = set_words m' h /\ malloc_spec (lo h) n cs p cs' /\
       st h' cs' (free_nodes (lo h) cs') /\ kept h cs m' /\
       (p = 0 \/ lo h < p < mm_heapend h)) h.
Proof.
  intros (Hl & L & HL & HP) Hn Hneed. assert (Hn16 : 16 <= need n /\ need n mod 16 = 0).
  { unfold need. split; [Z.to_euclidean_division_equations; lia|]. rewrite Z.mul_comm. by apply Z.mod_mul. }
  destruct (find_best _ _ _ (ly_reg _ _ Hl) h L (need n)) as (f & r & Hf & Hr & Hres); [done|done|lia|].
  assert (HLc : forall x s, Chunk x s ∈ L <-> Chunk x s ∈ free_nodes (lo h) cs).
  { intros x s. rewrite HP, elem_of_app, hooks_elem. naive_solver. }
  apply wp_bind, wp_get. apply wp_bind. eapply wp_load; [exact Hf|]. apply wp_bind. eapply wp_run; [exact Hr|].
  destruct Hres as [[-> Hno]|(s & Hin & Hle & Hr0 & Hbest)].
  - apply wp_ret. exists (words h), cs. split_and!; [by destruct h| |by split; [|exists L]|done|by left].
    constructor. right. intros s Hs. destruct (free_nodes_elem (lo h) cs s Hs) as [x Hx].
    eapply Hno. by apply HLc.
  - rewrite (proj2 (Z.eqb_neq _ _)) by done. cbn [negb]. apply HLc in Hin.
    destruct (free_nodes_split_at _ _ _ _ Hin) as (cs1 & cs2 & Ecs & ->). subst cs.
    assert (HF : free_nodes (lo h) (cs1 ++ (s, false) :: cs2) ≡ₚ Chunk (lo h + total cs1) s :: others h cs1 s cs2).
    { rewrite (free_nodes_split h cs1 [(s, false)] cs2). simpl. by replace (s + 0) with s by lia. }
    destruct (lay_chunk _ _ _ _ Hl) as (_ & _ & _ & _ & [Hw _] & Ha & He & _ & _). cbn [fst] in *.
    apply (take_chunk_ok h cs1 s cs2); [split; [done|]; exists L; by rewrite <- HF|lia|tauto|].
    intros m' H' T'. exists m', (cs1 ++ taken (need n) s ++ cs2). split_and!; [done| |done| |right; lia].
    + apply (spec_best _ _ _ cs1 s cs2); [done|done|lia|]. intros t Ht Hnt.
      destruct (free_nodes_elem (lo h) _ t Ht) as [x Hx]. eapply Hbest; [by apply HLc|done].
    + apply (touch_kept h (cs1 ++ (s, false) :: cs2) cs1 [(s, false)] cs2); [done|apply (ly_wf _ _ Hl)|done|by repeat constructor|].
      simpl. by replace (s + 0) with s by lia.
Qed.

Definition malloced (h : mm_heap) (cs : list chunk) (ds : list Z) (n p : Z) (h' : mm_heap) : Prop :=
  let cs0 := foldl (release (lo h)) cs ds in
  exists cs', malloc_spec (lo h) n cs0 p cs' /\ heap_inv h' cs' [] /\ same_place h h' /\
    kept h cs0 (words h').

Lemma mm_malloc_ok h cs ds n : heap_inv h cs ds -> 0 <= n < 4294967296 ->
  wp (mm_malloc CtxTask n) (malloced h cs ds n) h.
Proof.
  intros Hi Hn. unfold mm_malloc, malloced. apply wp_bind. eapply wp_mono; [by apply delaylist_ok|].
  intros _ h1 (Hi1 & Hp1 & Hk1). set (cs0 := foldl (release (lo h)) cs ds) in *. pose proof (same_lo _ _ Hp1) as El.
  destruct (Z.ltb_spec n 1).
  { apply wp_ret. exists cs0. split_and!; [constructor; left; lia|done..]. }
  destruct (align_need n Hn) as [(H1 & H2 & H3)|(H1 & H2)]; cbn zeta in *.
  2:{ rewrite (proj2 (Z.ltb_lt _ _)) by done. apply wp_ret. exists cs0. split_and!; [|done..].
      constructor. right. intros s Hs. apply list_elem_of_split in Hs as (cs1 & cs2 & E). rewrite E in Hi1.
      destruct (lay_chunk _ _ _ _ (proj1 (hi_st _ _ _ Hi1))) as (_ & _ & _ & _ & _ & _ & _ & _ & Hs).
      unfold MM_ALLOC_BIT in Hs. simpl in Hs. lia. }
  rewrite (proj2 (Z.ltb_ge _ _)), H2 by done.
  assert (16 <= need n) by (unfold need; Z.to_euclidean_division_equations; lia).
  apply wp_bind, wp_assert; [by apply Z.leb_le|]. apply wp_bind, wp_assert; [by apply Z.leb_le|].
  destruct Hi1 as [Hst Hco Hsem Hch Hlv Hnd Hsz]. apply wp_bind, wp_take; [done|].
  replace (if MM_MAX_CHUNK <=? need n then _ else _) with (mm_size2ndx (need n))
    by (unfold mm_size2ndx; by destruct (MM_MAX_CHUNK <=? need n)).
  apply wp_bind. eapply wp_mono; [apply (malloc_body_ok _ cs0); [by apply st_sem|lia|done]|].
  intros p h2 (m' & cs' & -> & Hspec & Hst' & Hk & Hp). apply wp_bind, wp_get.
  apply wp_bind, wp_assert.
  { destruct Hp as [->|Hp]; [done|]. apply orb_true_intro. right. unfold mm_heapmember, lo in *. cbn in *.
    apply andb_true_intro. split; apply Z.ltb_lt; lia. }
  apply wp_bind, wp_modify. apply wp_ret. exists cs'. change (lo (set_sem (mm_semaphore h1 - 1) h1)) with (lo h1) in *.
  rewrite El in *. split_and!; [done| | |].
  - constructor; [|destruct Hspec as [|cs1 s cs2 ? Ecs]; [done|]; rewrite Ecs in Hco; by apply (coalesced_taken _ _ s)|cbn; unfold sem_post; lia|done|by constructor|done|done].
    eapply st_sem. cbn. replace (lo _) with (lo h) by by rewrite <- El. done.
  - eapply same_place_trans; [exact Hp1|]. repeat split. cbn. unfold sem_post. lia.
  - intros b Hb. cbn. rewrite Hk by (unfold lo in *; cbn in *; by rewrite El). cbn. by apply Hk1.
Qed.

End MmFree.
