(* ===== verification/MmInfo.v ===== *)
(** * Looking over the heap

    [mm_checkcorruption] and [mm_mallinfo] walk over the row of chunks and check
    it against the list: on a heap in its invariant no assertion fails, and the
    figures are those of the row. *)

From S2P Require Import Prelude MmHeap MmList MmLayout MmSteps MmSpec MmFree.
Import MmHeap MmList MmLayout MmSteps MmSpec MmFree.

Module MmInfo.

(** ** One node *)

(** The neighbours of a free chunk in the list. *)

Lemma list_neighbours h L a s : region (lo h) (mm_heapend h) (mm_nodelist h) ->
  nodes_ok (lo h) (mm_heapend h) (mm_nodelist h) (words h) L -> Chunk a s ∈ L ->
  exists b bs f, words h !! blink a = Some b /\ words h !! flink b = Some a /\
    words h !! size_ b = Some bs /\ bs <= s /\ words h !! flink a = Some f /\
    (f = 0 \/ f <> 0 /\ words h !! blink f = Some a /\
      exists fs, words h !! size_ f = Some fs /\ (fs = 0 \/ s <= fs)).
Proof.
  intros Hreg HL Hn. destruct (list_elem_of_split _ _ Hn) as (L1 & L2 & E).
  pose proof HL as [Hv Hnd Hd Hs Ho Hh].
  destruct L1 as [|b L1 _] using rev_ind.
  { rewrite E in Ho. apply ordered_cons in Ho as [Ho _].
    pose proof (proj1 (Forall_forall _ _) Hv _ Hn) as (_ & _ & H16 & _).
    specialize (Hh 0 ltac:(lia)). rewrite E in Hh. apply elem_of_cons in Hh as [?|Hh]; [done|].
    specialize (Ho _ Hh). simpl in Ho. lia. }
  assert (Hb : b ∈ L) by (rewrite E; set_solver).
  rewrite E, <- (assoc_L (++)) in Ho. apply ordered_app in Ho as (_ & _ & Ho). cbn [app] in Ho.
  apply ordered_cons in Ho as [Ho1 [Ho2 _]%ordered_cons].
  rewrite E in Hd. apply dll_mid in Hd as (F & B & Hd1 & Hd2).
  apply dll_mid in Hd1 as (Fb & _). unfold last_or in B. rewrite last_snoc in B. cbn [from_option addr] in *.
  exists (addr (mm_nodelist h) b), (nsize b), (next_or (mm_nodelist h) L2 0).
  split_and!; [done|done|by apply Hs| |done|].
  - specialize (Ho1 _ (list_elem_of_here _ _)). pose proof (proj1 (Forall_forall _ _) Hv _ Hn) as (_ & _ & H16 & _).
    destruct b; simpl in *; lia.
  - destruct L2 as [|c L2]; [by left|right]. assert (Hc : c ∈ L) by (rewrite E; set_solver).
    pose proof (addr_pos _ _ _ Hreg c (proj1 (Forall_forall _ _) Hv _ Hc)).
    unfold next_or. cbn [head from_option]. destruct Hd2 as (_ & Bc & _).
    split_and!; [lia|done|]. exists (nsize c). split; [by apply Hs|].
    specialize (Ho2 _ (list_elem_of_here _ _)). destruct c; simpl in *; lia.
Qed.

Lemma check_node_ok h cs1 c cs2 Q : let a := lo h + total cs1 in
  st h (cs1 ++ c :: cs2) (free_nodes (lo h) (cs1 ++ c :: cs2)) -> Q tt h ->
  wp (check_node a (a - lastsz 8 cs1)) Q h.
Proof.
  intros a H HQ. destruct (lay_chunk _ _ _ _ (proj1 H)) as (Hs & Hp & _ & _ & [Hw _] & Ha & _ & Hl & _).
  destruct (lay_before _ _ _ _ (proj1 H)) as (q & Hbs & _). fold a in Hs, Hp, Ha, Hbs.
  pose proof (ly_wf _ _ (proj1 H)) as Hwf. apply Forall_app in Hwf as [Hw1 _].
  unfold check_node. apply wp_bind. eapply wp_load; [exact Hp|]. apply wp_bind. eapply wp_load; [exact Hs|].
  rewrite pword_alloc by done. apply wp_bind.
  assert (Hend : wp (if a - lastsz 8 cs1 =? 0 then mret tt
    else ps ← load (size_ (a - lastsz 8 cs1));
         assert (ps =? Z.land (pword (lastsz 8 cs1) c.2) (not32 MM_ALLOC_BIT))) Q h).
  { destruct (_ =? 0); [by apply wp_ret|]. apply wp_bind. eapply wp_load; [exact Hbs|].
    apply wp_assert; [|done]. rewrite pword_size by done. apply Z.eqb_refl. }
  destruct c as [s []]; cbn [fst snd] in *.
  - apply wp_assert; [|exact Hend]. apply Z.leb_le. unfold SIZEOF_MM_ALLOCNODE. lia.
  - apply wp_bind, wp_assert; [apply Z.leb_le; unfold SIZEOF_MM_FREENODE; lia|].
    destruct H as (Hlay & L & HL & HP).
    assert (Hin : Chunk a s ∈ L).
    { rewrite HP, free_nodes_app. apply elem_of_app. right. apply elem_of_app. right. by left. }
    destruct (list_neighbours h L a s (ly_reg _ _ Hlay) HL Hin) as (b & bs & f & B & Fb & Sb & Hle & F & Hf).
    apply wp_bind. eapply wp_load; [exact B|]. apply wp_bind. eapply wp_load; [exact Fb|].
    apply wp_bind, wp_assert; [apply Z.eqb_refl|]. apply wp_bind. eapply wp_load; [exact Sb|].
    apply wp_bind, wp_assert; [by apply Z.leb_le|]. apply wp_bind. eapply wp_load; [exact F|].
    destruct Hf as [->|(Hf & Bf & fs & Sf & Hfs)]; [by apply wp_ret|].
    rewrite (proj2 (Z.eqb_neq _ _)) by done. apply wp_bind. eapply wp_load; [exact Bf|].
    apply wp_bind, wp_assert; [apply Z.eqb_refl|]. apply wp_bind. eapply wp_load; [exact Sf|].
    apply wp_assert; [|exact Hend]. destruct Hfs as [->|Hfs]; [done|].
    apply orb_true_intro. right. by apply Z.leb_le.
Qed.

(** ** The walks *)

Definition sizes (b : bool) (cs : list chunk) : list Z := fst <$> filter (fun c => c.2 = b) cs.
Definition sumZ : list Z -> Z := foldr Z.add 0.
Definition maxZ : list Z -> Z := foldr Z.max 0.

(** The figures after the chunks [cs]. *)

Definition tally (i : mallinfo) (cs : list chunk) : mallinfo :=
  mk_info (arena i) (ordblks i + Z.of_nat (length (sizes false cs)))
    (aordblks i + Z.of_nat (length (sizes true cs))) (Z.max (mxordblk i) (maxZ (sizes false cs)))
    (uordblks i + sumZ (sizes true cs)) (fordblks i + sumZ (sizes false cs)).

Lemma sizes_cons b s f cs : sizes b ((s, f) :: cs) = (if Bool.eqb f b then [s] else []) ++ sizes b cs.
Proof. unfold sizes. rewrite filter_cons. by destruct f, b. Qed.

Lemma sizes_total cs : sumZ (sizes true cs) + sumZ (sizes false cs) = total cs.
Proof.
  induction cs as [|[s f] cs IH]; [done|]. rewrite !sizes_cons. destruct f; simpl in *; lia.
Qed.

Lemma sumZ_nonneg b cs : Forall wf cs -> 0 <= sumZ (sizes b cs).
Proof.
  induction 1 as [|[s f] cs [Hs _] Hw IH]; [done|]. rewrite sizes_cons. simpl in Hs.
  destruct (Bool.eqb f b); simpl in *; lia.
Qed.

Lemma tally_cons i s f cs p : Forall wf ((s, f) :: cs) -> 0 <= uordblks i -> 0 <= fordblks i -> 0 <= mxordblk i ->
  0 <= p < MM_ALLOC_BIT -> uordblks i + fordblks i + total ((s, f) :: cs) < 4294967296 ->
  tally i ((s, f) :: cs) = tally (count_node (pword p f) s i) cs.
Proof.
  intros [[Hs _] Hw]%Forall_cons Hu Hf Hm Hp Ht. pose proof (sizes_total cs).
  pose proof (sumZ_nonneg true cs Hw). pose proof (sumZ_nonneg false cs Hw). cbn [fst total] in *.
  unfold count_node. rewrite pword_alloc by done. unfold tally. rewrite !sizes_cons.
  destruct f; simpl; rewrite u32_small by lia; f_equal; try lia.
  destruct (Z.ltb_spec (mxordblk i) s); lia.
Qed.

Lemma count_node_bound i s f cs p : Forall wf ((s, f) :: cs) -> 0 <= uordblks i -> 0 <= fordblks i -> 0 <= mxordblk i ->
  0 <= p < MM_ALLOC_BIT -> uordblks i + fordblks i + total ((s, f) :: cs) < 4294967296 ->
  let j := count_node (pword p f) s i in
  0 <= uordblks j /\ 0 <= fordblks j /\ 0 <= mxordblk j /\ uordblks j + fordblks j + total cs < 4294967296.
Proof.
  intros [[Hs _] Hw]%Forall_cons Hu Hf Hm Hp Ht. pose proof (total_nonneg _ (wf_big _ Hw)). cbn [fst total] in *.
  unfold count_node. rewrite pword_alloc by done. destruct f; simpl; rewrite u32_small by lia.
  - lia.
  - destruct (mxordblk i <? s); lia.
Qed.

Lemma info_loop_ok h n cs1 cs2 i :
  st h (cs1 ++ cs2) (free_nodes (lo h) (cs1 ++ cs2)) -> (length cs2 <= n)%nat ->
  0 <= uordblks i -> 0 <= fordblks i -> 0 <= mxordblk i ->
  uordblks i + fordblks i + total cs2 < 4294967296 ->
  info_loop n (lo h + total cs1) (lo h + total cs1 - lastsz 8 cs1) i h = Ret ((mm_heapend h, tally i cs2), h).
Proof.
  revert cs1 cs2 i. induction n as [|n IH]; intros cs1 cs2 i H Hn Hu Hf Hm Ht;
    pose proof (ly_wf _ _ (proj1 H)) as Hw; apply Forall_app in Hw as [Hw1 Hw2];
    pose proof (total_nonneg _ (wf_big _ Hw2)); pose proof (ly_total _ _ (proj1 H)) as Htot; rewrite total_app in Htot;
    cbn [info_loop]; rewrite (bind_returns _ _ _ h h eq_refl);
    (destruct cs2 as [|[s f] cs2]; [simpl in Htot; rewrite (proj2 (Z.ltb_ge _ _)) by lia; unfold tally, sizes; simpl;
       rewrite Z.max_l, !Z.add_0_r by lia; destruct i; simpl; replace (lo h + total cs1) with (mm_heapend h) by lia; done|]).
  { simpl in Hn. lia. }
  apply Forall_cons in Hw2 as Hw2'. destruct Hw2' as [[Hs _] Hw2']. pose proof (total_nonneg _ (wf_big _ Hw2')).
  cbn [total fst] in *. rewrite (proj2 (Z.ltb_lt _ _)) by lia.
  destruct (lay_chunk _ _ _ _ (proj1 H)) as (Hsz & Hp & _ & _ & _ & _ & _ & Hl & _). cbn [fst snd] in *.
  destruct (check_node_ok h cs1 (s, f) cs2 (fun _ h' => h' = h) H eq_refl) as ([] & h' & Hc & ->).
  rewrite (bind_returns _ _ _ tt h Hc).
  rewrite (bind_returns _ _ _ (pword (lastsz 8 cs1) f) h) by (unfold returns, load; munfold; by rewrite Hp).
  rewrite (bind_returns _ _ _ s h) by (unfold returns, load; munfold; by rewrite Hsz).
  destruct (count_node_bound i s f cs2 (lastsz 8 cs1)) as (B1 & B2 & B3 & B4); [done..|].
  trans (Ret ((mm_heapend h, tally (count_node (pword (lastsz 8 cs1) f) s i) cs2), h));
    [|do 3 f_equal; symmetry; by apply tally_cons].
  specialize (IH (cs1 ++ [(s, f)]) cs2 (count_node (pword (lastsz 8 cs1) f) s i)).
  rewrite <- (assoc_L (++)), total_app, lastsz_app in IH. cbn [app total fst lastsz last from_option] in IH.
  replace (lo h + (total cs1 + (s + 0)) - s) with (lo h + total cs1) in IH by lia.
  replace (lo h + (total cs1 + (s + 0))) with (lo h + total cs1 + s) in IH by lia.
  apply IH; [done|simpl in Hn; lia|done..].
Qed.

Lemma check_loop_ok h n cs1 cs2 :
  st h (cs1 ++ cs2) (free_nodes (lo h) (cs1 ++ cs2)) -> (length cs2 <= n)%nat ->
  check_loop n (lo h + total cs1) (lo h + total cs1 - lastsz 8 cs1) h = Ret (mm_heapend h, h).
Proof.
  revert cs1 cs2. induction n as [|n IH]; intros cs1 cs2 H Hn;
    pose proof (ly_total _ _ (proj1 H)) as Htot; rewrite total_app in Htot;
    cbn [check_loop]; rewrite (bind_returns _ _ _ h h eq_refl);
    (destruct cs2 as [|[s f] cs2]; [simpl in Htot; rewrite (proj2 (Z.ltb_ge _ _)) by lia;
       replace (lo h + total cs1) with (mm_heapend h) by lia; done|]); [simpl in Hn; lia|].
  destruct (lay_chunk _ _ _ _ (proj1 H)) as (Hsz & _ & _ & _ & [Hw _] & _ & He & _ & _). cbn [fst snd] in *.
  rewrite (proj2 (Z.ltb_lt _ _)) by lia.
  destruct (check_node_ok h cs1 (s, f) cs2 (fun _ h' => h' = h) H eq_refl) as ([] & h' & Hc & ->).
  rewrite (bind_returns _ _ _ tt h Hc).
  rewrite (bind_returns _ _ _ s h) by (unfold returns, load; munfold; by rewrite Hsz).
  specialize (IH (cs1 ++ [(s, f)]) cs2).
  rewrite <- (assoc_L (++)), total_app, lastsz_app in IH. cbn [app total fst lastsz last from_option] in IH.
  replace (lo h + (total cs1 + (s + 0)) - s) with (lo h + total cs1) in IH by lia.
  replace (lo h + (total cs1 + (s + 0))) with (lo h + total cs1 + s) in IH by lia.
  apply IH; [done|simpl in Hn; lia].
Qed.

(** The chunks and the guard before them fit in the fuel. *)

Lemma chunks_starts m a p cs : Forall big cs -> chunks m a p cs ->
  exists ds, length ds = length cs /\ NoDup ds /\ forall d, d ∈ ds -> a <= d /\ is_Some (m !! d).
Proof.
  intros Hb. revert a p. induction Hb as [|c cs Hc Hb IH]; intros a p.
  - intros _. exists []. split_and!; [done|constructor|]. by intros d ?%elem_of_nil.
  - intros (Hs & _ & H). destruct (IH _ _ H) as (ds & El & Hnd & Hds). unfold big in Hc. exists (a :: ds). split_and!.
    + simpl. lia.
    + constructor; [|done]. intros Hin. apply Hds in Hin as [? _]. lia.
    + intros d [->|Hd]%elem_of_cons; [split; [lia|by eexists]|]. specialize (Hds d Hd). split; [lia|tauto].
Qed.

Lemma length_dom (m : gmap Z Z) (ds : list Z) : NoDup ds -> (forall d, d ∈ ds -> is_Some (m !! d)) ->
  (length ds <= size m)%nat.
Proof.
  intros Hnd Hd. rewrite <- size_dom, <- (size_list_to_set (C := gset Z) ds) by done.
  apply subseteq_size. intros d Hd'%elem_of_list_to_set. by apply elem_of_dom, Hd.
Qed.

Lemma length_row h cs : lay h cs -> (length cs < fuel h)%nat.
Proof.
  intros H. pose proof (ly_chunks _ _ H) as Hc. 
  assert (Hb : Forall big (cs ++ [guard])).
  { apply Forall_app. split; [apply wf_big, (ly_wf _ _ H)|by apply Forall_singleton]. }
  destruct (chunks_starts _ _ _ _ Hb Hc) as (ds & El & Hnd & Hds).
  rewrite length_app in El. simpl in El. pose proof (length_dom (words h) ds Hnd) as Hle. unfold fuel.
  assert (length ds <= size (words h))%nat; [|lia]. apply Hle. intros d Hd. by apply Hds.
Qed.

(** The walk starts at the guard. *)

Lemma check_guard h cs : lay h cs -> check_node (mm_heapstart h) 0 h = Ret (tt, h).
Proof.
  intros H. destruct (ly_guard _ _ H) as [G1 G2]. unfold check_node.
  rewrite (bind_returns _ _ _ MM_ALLOC_BIT h) by (unfold returns, load; munfold; by rewrite G2).
  rewrite (bind_returns _ _ _ 8 h) by (unfold returns, load; munfold; by rewrite G1). done.
Qed.

Lemma walk_start h cs : st h cs (free_nodes (lo h) cs) ->
  exists k, fuel h = S k /\ (length cs <= k)%nat /\ mm_heapstart h < mm_heapend h /\
    mm_heapstart h + 8 = lo h + total [] /\ mm_heapstart h = lo h + total [] - lastsz 8 [].
Proof.
  intros H. pose proof (length_row _ _ (proj1 H)). pose proof (rg_pos _ _ _ (ly_reg _ _ (proj1 H))).
  destruct (fuel h) as [|k]; [lia|]. exists k. unfold lo, lastsz in *. simpl. split_and!; [done|lia..].
Qed.

Lemma mallinfo_body h cs : st h cs (free_nodes (lo h) cs) ->
  info_loop (fuel h) (mm_heapstart h) 0 (mk_info 0 0 0 0 0 0) h =
    Ret ((mm_heapend h, mk_info 0 (Z.of_nat (length (sizes false cs))) (1 + Z.of_nat (length (sizes true cs)))
      (Z.max 0 (maxZ (sizes false cs))) (8 + sumZ (sizes true cs)) (sumZ (sizes false cs))), h).
Proof.
  intros H. destruct (walk_start h cs H) as (k & -> & Hk & Hlt & E1 & E2). cbn [info_loop].
  rewrite (bind_returns _ _ _ h h eq_refl), (proj2 (Z.ltb_lt _ _)) by lia.
  rewrite (bind_returns _ _ _ tt h (check_guard _ _ (proj1 H))).
  destruct (ly_guard _ _ (proj1 H)) as [G1 G2].
  rewrite (bind_returns _ _ _ MM_ALLOC_BIT h) by (unfold returns, load; munfold; by rewrite G2).
  rewrite (bind_returns _ _ _ 8 h) by (unfold returns, load; munfold; by rewrite G1).
  rewrite E1, E2. rewrite (info_loop_ok h k [] cs); [done|done|done|done|done|done|].
  pose proof (ly_total _ _ (proj1 H)). pose proof (ly_small _ _ (proj1 H)). unfold lo, MM_ALLOC_BIT in *. change (uordblks _ + fordblks _) with 8. lia.
Qed.

Lemma mallinfo_ok h cs ds : heap_inv h cs ds ->
  mm_mallinfo CtxTask h = Ret (mk_info (mm_heapsize h) (Z.of_nat (length (sizes false cs)))
    (1 + Z.of_nat (length (sizes true cs))) (Z.max 0 (maxZ (sizes false cs)))
    (16 + sumZ (sizes true cs)) (sumZ (sizes false cs)), h).
Proof.
  intros [H Hco Hsem Hch Hlv Hnd Hsz]. set (h1 := set_sem (mm_semaphore h - 1) h).
  assert (Ht : returns (mm_takesemaphore CtxTask) h true h1).
  { unfold returns, mm_takesemaphore, sem_wait. munfold. by rewrite (proj2 (Z.ltb_lt _ _)) by lia. }
  unfold mm_mallinfo. rewrite (bind_returns _ _ _ _ _ Ht), (bind_returns _ _ _ h1 h1 eq_refl).
  rewrite (bind_returns _ _ _ _ _ (mallinfo_body h1 cs (st_sem _ _ _ _ H))).
  rewrite Z.eqb_refl, (bind_returns _ _ _ tt h1 eq_refl).
  pose proof (sizes_total cs). pose proof (ly_total _ _ (proj1 H)). pose proof (ly_small _ _ (proj1 H)).
  pose proof (ly_wf _ _ (proj1 H)) as Hw. pose proof (sumZ_nonneg true cs Hw). pose proof (sumZ_nonneg false cs Hw).
  assert (Hh : set_sem (sem_post (mm_semaphore h1)) h1 = h).
  { destruct h. unfold set_sem, sem_post. simpl in *. f_equal. lia. }
  rewrite (bind_returns _ _ _ tt h) by (unfold returns; munfold; unfold mm_givesemaphore; munfold; by rewrite Hh).
  unfold SIZEOF_MM_ALLOCNODE, lo, MM_ALLOC_BIT in *. cbn [uordblks fordblks ordblks aordblks mxordblk].
  rewrite !u32_small by lia. rewrite (proj2 (Z.eqb_eq _ _)) by (cbn; lia).
  replace (8 + sumZ (sizes true cs) + 8) with (16 + sumZ (sizes true cs)) by lia. done.
Qed.

Lemma checkcorruption_ok h cs ds : heap_inv h cs ds -> mm_checkcorruption CtxTask h = Ret (tt, h).
Proof.
  intros [H Hco Hsem Hch Hlv Hnd Hsz]. set (h1 := set_sem (mm_semaphore h - 1) h).
  assert (Ht : returns (mm_takesemaphore CtxTask) h true h1).
  { unfold returns, mm_takesemaphore, sem_wait. munfold. by rewrite (proj2 (Z.ltb_lt _ _)) by lia. }
  apply (st_sem (mm_semaphore h - 1)) in H. fold h1 in H.
  unfold mm_checkcorruption. rewrite (bind_returns _ _ _ _ _ Ht). cbn [negb].
  rewrite (bind_returns _ _ _ h1 h1 eq_refl).
  destruct (walk_start h1 cs H) as (k & -> & Hk & Hlt & E1 & E2).
  destruct (ly_guard _ _ (proj1 H)) as [G1 _].
  assert (Hl : check_loop (S k) (mm_heapstart h1) 0 h1 = Ret (mm_heapend h1, h1)).
  { cbn [check_loop]. rewrite (bind_returns _ _ _ h1 h1 eq_refl), (proj2 (Z.ltb_lt _ _)) by lia.
    rewrite (bind_returns _ _ _ tt h1 (check_guard _ _ (proj1 H))).
    rewrite (bind_returns _ _ _ 8 h1) by (unfold returns, load; munfold; by rewrite G1).
    rewrite E1, E2. by apply (check_loop_ok h1 k [] cs). }
  rewrite (bind_returns _ _ _ _ _ Hl), Z.eqb_refl, (bind_returns _ _ _ tt h1 eq_refl).
  unfold mm_givesemaphore. munfold. do 2 f_equal. destruct h. unfold set_sem, sem_post. simpl in *. f_equal. lia.
Qed.

End MmInfo.
