(* ===== verification/MmInit.v ===== *)
(** * The first state of the heap

    [mm_initialize] links the hooks and makes one free chunk of the region: the
    invariant of the heap holds. *)

From S2P Require Import Prelude MmHeap MmList MmLayout MmSteps MmSpec MmFree.
Import MmHeap MmList MmLayout MmSteps MmSpec MmFree.

Module MmInit.

(** ** The hooks *)

Definition hook_words (m : gmap Z Z) (a : Z) : Prop :=
  is_Some (m !! size_ a) /\ is_Some (m !! preceding a) /\ is_Some (m !! flink a) /\ is_Some (m !! blink a).

Definition grows (m m' : gmap Z Z) : Prop := forall b, is_Some (m !! b) -> is_Some (m' !! b).

Lemma grows_insert m a v : grows m (<[a := v]> m).
Proof. intros b. apply insert_some. Qed.

Lemma hook_grows m m' a : grows m m' -> hook_words m a -> hook_words m' a.
Proof. intros G (H1 & H2 & H3 & H4). split_and!; by apply G. Qed.

(** Hooks [i] to [i + n - 1] are zero. *)

Lemma zero_hooks_ok n i h Q :
  (forall j, i <= j < i + Z.of_nat n -> hook_words (words h) (hook h j)) ->
  (forall m', grows (words h) m' ->
     (forall b, ~ (hook h i <= b < hook h (i + Z.of_nat n)) -> m' !! b = words h !! b) ->
     (forall j, i <= j < i + Z.of_nat n -> m' !! size_ (hook h j) = Some 0 /\
        m' !! flink (hook h j) = Some 0 /\ m' !! blink (hook h j) = Some 0) ->
     Q tt (set_words m' h)) ->
  wp (zero_hooks n i) Q h.
Proof.
  revert i h Q. induction n as [|n IH]; intros i h Q Hd HQ.
  - apply wp_ret. replace h with (set_words (words h) h) by by destruct h. apply HQ; [by intros b|done|lia].
  - pose proof (Hd i ltac:(lia)) as (D1 & D2 & D3 & D4). cbn [zero_hooks]. apply wp_bind, wp_get.
    apply wp_bind, wp_store; [done|]. apply wp_bind, wp_store; [by apply insert_some|].
    apply wp_bind, wp_store; [by do 2 apply insert_some|]. apply wp_bind, wp_store; [by do 3 apply insert_some|].
    match goal with |- wp _ _ ?x => set (h1 := x) end.
    assert (G1 : grows (words h) (words h1)) by (intros b Hb; by do 4 apply insert_some).
    assert (O1 : forall b, ~ (hook h i <= b < hook h i + 16) -> words h1 !! b = words h !! b).
    { intros b Hb. cbn. unfold size_, preceding, flink, blink. by rewrite !lookup_insert_ne by lia. }
    apply IH.
    + intros j Hj. change (hook h1 j) with (hook h j). eapply hook_grows; [exact G1|]. apply Hd. lia.
    + intros m' G O Z. change (set_words m' h1) with (set_words m' h). apply HQ.
      * intros b Hb. by apply G, G1.
      * unfold hook in *. cbn in O, O1. intros b Hb. rewrite O, O1 by lia. done.
      * intros j Hj. destruct (decide (j = i)) as [->|]; [|apply Z; lia].
        unfold hook in *. cbn in O. unfold size_, flink, blink. rewrite !O by lia. cbn.
        unfold size_, preceding, flink, blink.
        repeat first [rewrite lookup_insert_eq | rewrite lookup_insert_ne by lia]. done.
Qed.

(** The links [link_hooks] sets for the hooks [i] to [i + n - 1]. *)

Lemma link_hooks_ok n i h Q :
  (forall j, i - 1 <= j < i + Z.of_nat n -> hook_words (words h) (hook h j)) ->
  (forall m', grows (words h) m' ->
     (forall b, (forall j, i - 1 <= j < i + Z.of_nat n - 1 -> b <> flink (hook h j)) ->
        (forall j, i <= j < i + Z.of_nat n -> b <> blink (hook h j)) -> m' !! b = words h !! b) ->
     (forall j, i <= j < i + Z.of_nat n -> m' !! flink (hook h (j - 1)) = Some (hook h j) /\
        m' !! blink (hook h j) = Some (hook h (j - 1))) ->
     Q tt (set_words m' h)) ->
  wp (link_hooks n i) Q h.
Proof.
  revert i h Q. induction n as [|n IH]; intros i h Q Hd HQ.
  - apply wp_ret. replace h with (set_words (words h) h) by by destruct h. apply HQ; [by intros b|done|lia].
  - pose proof (Hd i ltac:(lia)) as (_ & _ & _ & D). pose proof (Hd (i - 1) ltac:(lia)) as (_ & _ & D' & _).
    cbn [link_hooks]. apply wp_bind, wp_get.
    apply wp_bind, wp_store; [done|]. apply wp_bind, wp_store; [by apply insert_some|].
    match goal with |- wp _ _ ?x => set (h1 := x) end.
    assert (G1 : grows (words h) (words h1)) by (intros b Hb; by do 2 apply insert_some).
    apply IH.
    + intros j Hj. change (hook h1 j) with (hook h j). eapply hook_grows; [exact G1|]. apply Hd. lia.
    + intros m' G O Z. change (set_words m' h1) with (set_words m' h). apply HQ.
      * intros b Hb. by apply G, G1.
      * intros b F B. rewrite O.
        -- cbn. rewrite lookup_insert_ne by (apply not_eq_sym, B; lia). apply lookup_insert_ne, not_eq_sym, F. lia.
        -- intros j Hj. change (hook h1 j) with (hook h j). apply F. lia.
        -- intros j Hj. change (hook h1 j) with (hook h j). apply B. lia.
      * intros j Hj. destruct (decide (j = i)) as [->|]; [|apply Z; lia].
        unfold hook, flink, blink in *. cbn in O.
        rewrite !O by (intros; lia). rewrite lookup_insert_eq, lookup_insert_ne, lookup_insert_eq by lia. done.
Qed.

(** The list of the hooks alone. *)

Lemma dll_hooks m nl n i q :
  (forall j, i <= j < i + Z.of_nat n ->
     m !! flink (nl + 16 * j) = Some (if j =? i + Z.of_nat n - 1 then 0 else nl + 16 * (j + 1)) /\
     m !! blink (nl + 16 * j) = Some (if j =? i then q else nl + 16 * (j - 1))) ->
  dll nl m q (Hook <$> seqZ i (Z.of_nat n)) 0.
Proof.
  revert i q. induction n as [|n IH]; intros i q H; [done|].
  rewrite seqZ_cons by lia. rewrite fmap_cons. cbn [dll addr]. destruct (H i ltac:(lia)) as [F B].
  rewrite Z.eqb_refl in B. split_and!; [rewrite F; f_equal|done|].
  - destruct n as [|n]; [by rewrite (proj2 (Z.eqb_eq _ _)) by lia|].
    rewrite (proj2 (Z.eqb_neq _ _)) by lia. rewrite seqZ_cons by lia. unfold next_or. rewrite fmap_cons. cbn [head from_option addr]. lia.
  - replace (Z.succ i) with (i + 1) by lia. replace (Z.pred (Z.of_nat (S n))) with (Z.of_nat n) by lia.
    apply IH. intros j Hj. destruct (H j ltac:(lia)) as [F' B']. rewrite F', B'.
    split; f_equal.
    + by replace (i + 1 + Z.of_nat n - 1) with (i + Z.of_nat (S n) - 1) by lia.
    + rewrite (proj2 (Z.eqb_neq j i)) by lia. destruct (Z.eqb_spec j (i + 1)); [|done]. subst j. f_equal. lia.
Qed.

Lemma hooks_ordered n i : 0 <= i -> ordered (Hook <$> seqZ i (Z.of_nat n)).
Proof.
  revert i. induction n as [|n IH]; intros i Hi; [constructor|].
  rewrite seqZ_cons by lia. rewrite fmap_cons, ordered_cons.
  replace (Z.pred (Z.of_nat (S n))) with (Z.of_nat n) by lia. split; [|apply IH; lia].
  intros y (j & -> & Hj%elem_of_seqZ)%list_elem_of_fmap. simpl.
  assert (2 ^ i <= 2 ^ j) by (apply Z.pow_le_mono_r; lia). lia.
Qed.

Lemma hooks_ok lo hi nl m :
  (forall j, 0 <= j < 19 -> m !! (nl + 16 * j) = Some 0 /\
     m !! flink (nl + 16 * j) = Some (if j =? 18 then 0 else nl + 16 * (j + 1)) /\
     m !! blink (nl + 16 * j) = Some (if j =? 0 then 0 else nl + 16 * (j - 1))) ->
  nodes_ok lo hi nl m hooks.
Proof.
  intros H. constructor.
  - apply Forall_forall. intros n (i & -> & Hi)%hooks_elem. done.
  - unfold hooks. rewrite <- list_fmap_compose. apply NoDup_fmap_2; [|apply NoDup_seqZ].
    intros x y. simpl. lia.
  - apply (dll_hooks m nl 19 0 0). intros j Hj. by apply H.
  - intros n (i & -> & Hi)%hooks_elem. by apply H.
  - apply (hooks_ordered 19 0). lia.
  - intros i Hi. apply hooks_elem. by exists i.
Qed.

(** Linked hooks in memory. *)

Lemma link_all_ok h Q :
  (forall j, 0 <= j < 19 -> hook_words (words h) (hook h j)) ->
  (forall m', grows (words h) m' ->
     (forall b, ~ (hook h 0 <= b < hook h 19) -> m' !! b = words h !! b) ->
     (forall l u, nodes_ok l u (mm_nodelist h) m' hooks) -> Q tt (set_words m' h)) ->
  wp (zero_hooks (Z.to_nat MM_NNODES) 0) (fun _ => wp (link_hooks (Z.to_nat MM_NNODES - 1) 1) Q) h.
Proof.
  intros Hd HQ. change (Z.to_nat MM_NNODES) with 19%nat. change (19 - 1)%nat with 18%nat.
  apply (zero_hooks_ok 19 0); [exact Hd|]. intros m1 G1 O1 Z1. change (0 + Z.of_nat 19) with 19 in *.
  apply (link_hooks_ok 18 1).
  { intros j Hj. change (hook (set_words m1 h) j) with (hook h j). eapply hook_grows; [exact G1|]. apply Hd. lia. }
  intros m2 G2 O2 L2. change (set_words m2 (set_words m1 h)) with (set_words m2 h).
  change (1 + Z.of_nat 18) with 19 in *. change (1 - 1) with 0 in *. change (19 - 1) with 18 in *.
  unfold hook in *. cbn [mm_nodelist set_words words] in *. apply HQ.
  - intros b Hb. by apply G2, G1.
  - intros b Hb. rewrite O2, O1; [done|lia|..]; intros j Hj; unfold flink, blink; lia.
  - intros l u. apply hooks_ok. intros j Hj. destruct (Z1 j Hj) as (S0 & F0 & B0). unfold flink, blink, size_ in *. split_and!.
    + rewrite O2; [done|..]; intros; lia.
    + destruct (Z.eqb_spec j 18) as [->|].
      * rewrite O2; [done|..]; intros; lia.
      * destruct (L2 (j + 1) ltac:(lia)) as [F _]. by replace (j + 1 - 1) with j in F by lia.
    + destruct (Z.eqb_spec j 0) as [->|].
      * rewrite O2; [done|..]; intros; lia.
      * by destruct (L2 j ltac:(lia)) as [_ B].
Qed.

(** ** The region *)

(** A list is not disturbed by stores elsewhere. *)

Lemma hooks_frame l u nl m m' : (forall b, nl <= b < nl + 304 -> m' !! b = m !! b) ->
  nodes_ok l u nl m hooks -> nodes_ok l u nl m' hooks.
Proof.
  intros E [Hv Hnd Hd Hs Ho Hh]. constructor; try done.
  - eapply dll_frame; [|exact Hd]. intros n (i & -> & Hi)%hooks_elem. unfold flink, blink. simpl.
    rewrite !E by lia. done.
  - intros n Hn. rewrite E; [by apply Hs|]. apply hooks_elem in Hn as (i & -> & Hi). simpl. lia.
Qed.

Definition up (x : Z) : Z := 16 * ((x + 15) / 16).
Definition down (x : Z) : Z := 16 * (x / 16).

Lemma align_up x : 0 <= x -> x + 15 < 4294967296 -> MM_ALIGN_UP x = up x.
Proof.
  intros H1 H2. unfold MM_ALIGN_UP, up, MM_GRAN_MASK. rewrite u32_small by lia. apply land_gran. lia.
Qed.

Lemma align_down x : 0 <= x < 4294967296 -> MM_ALIGN_DOWN x = down x.
Proof. apply land_gran. Qed.

(** The stores of [mm_addregion] make one chunk of the region. *)

Lemma region_lay h b e : b mod 16 = 0 -> e mod 16 = 0 -> 0 < b -> b + 32 <= e ->
  e - b < MM_ALLOC_BIT -> e <= 4294967296 -> 0 < mm_nodelist h -> mm_nodelist h + 304 <= b ->
  mm_heapstart h = b -> mm_heapend h = e - 8 ->
  (forall x, x mod 4 = 0 -> b <= x < e -> is_Some (words h !! x)) ->
  (forall l u, nodes_ok l u (mm_nodelist h) (words h) hooks) ->
  let N := e - b - 16 in
  let m' := <[preceding (e - 8) := pword N true]> (<[size_ (e - 8) := 8]> (<[preceding (b + 8) := 8]>
              (<[size_ (b + 8) := N]> (<[preceding b := MM_ALLOC_BIT]> (<[size_ b := 8]> (words h)))))) in
  st (set_words m' h) [(N, false)] [].
Proof.
  intros Hb He Hb0 Hlen Hsm Htop Hnl Hap Es Ee Hdom HN N m'.
  assert (G : forall x, is_Some (words h !! x) -> is_Some (m' !! x)) by (intros x Hx; by do 6 apply insert_some).
  assert (El : lo (set_words m' h) = b + 8) by (unfold lo; cbn; lia).
  split; [|exists hooks; rewrite app_nil_r; split; [|done]].
  - constructor; rewrite ?El; cbn [mm_heapend mm_heapstart mm_nodelist words set_words]; rewrite ?Es, ?Ee; try lia.
    + constructor; try lia; Z.to_euclidean_division_equations; lia.
    + split; look; unfold m', size_, preceding; repeat first [rewrite lookup_insert_eq | rewrite lookup_insert_ne by lia]; done.
    + unfold m'. cbn [app chunks fst snd]. unfold size_, preceding. replace (b + 8 + N) with (e - 8) by lia.
      split_and!; try done; repeat first [rewrite lookup_insert_eq | rewrite lookup_insert_ne by lia]; done.
    + simpl. lia.
    + apply Forall_singleton. split; simpl; [lia|]. Z.to_euclidean_division_equations. lia.
    + intros x Hx Hr. apply G, Hdom; [done|lia].
  - eapply hooks_frame; [|apply HN]. cbn. intros x Hx. unfold m', size_, preceding.
    by rewrite !lookup_insert_ne by lia.
Qed.

Lemma wp_take_own cx h Q : cx = CtxTask \/ cx = CtxIdle -> 0 < mm_semaphore h ->
  Q true (set_sem (mm_semaphore h - 1) h) -> wp (mm_takesemaphore cx) Q h.
Proof.
  intros [->| ->] Hs HQ; [by apply wp_take|]. unfold mm_takesemaphore. apply wp_bind, wp_get.
  rewrite (proj2 (Z.ltb_lt _ _)) by lia. apply wp_bind, wp_modify. by apply wp_ret.
Qed.

Lemma heap_eq h h' : mm_semaphore h = mm_semaphore h' -> mm_heapsize h = mm_heapsize h' ->
  mm_heapstart h = mm_heapstart h' -> mm_heapend h = mm_heapend h' -> mm_nodelist h = mm_nodelist h' ->
  mm_delaylist h = mm_delaylist h' -> words h = words h' -> h = h'.
Proof. destruct h, h'. simpl. congruence. Qed.

Lemma addregion_ok cx start len nl m Q : cx = CtxTask \/ cx = CtxIdle ->
  0 < start -> 0 <= len -> start + len + 16 < 4294967296 -> len < MM_ALLOC_BIT ->
  up start + 32 <= down (start + len) -> 0 < nl -> nl + 304 <= start ->
  (forall x, x mod 4 = 0 -> start <= x < start + len -> is_Some (m !! x)) ->
  (forall l u, nodes_ok l u nl m hooks) ->
  (forall h', heap_inv h' [(down (start + len) - up start - 16, false)] [] ->
     mm_heapstart h' = up start -> mm_heapend h' = down (start + len) - 8 -> Q tt h') ->
  wp (mm_addregion cx start len) Q (mk_heap 1 0 0 0 nl 0 m).
Proof.
  intros Hcx H1 H2 H3 H4 H5 H6 H7 Hdom HN HQ.
  assert (Hu : start <= up start < start + 16 /\ up start mod 16 = 0)
    by (unfold up; split; Z.to_euclidean_division_equations; lia).
  assert (Hd : start + len - 16 < down (start + len) <= start + len /\ down (start + len) mod 16 = 0)
    by (unfold down; split; Z.to_euclidean_division_equations; lia).
  assert (Hw : forall x, x mod 4 = 0 -> up start <= x < down (start + len) -> is_Some (m !! x)).
  { intros x Hx Hr. apply Hdom; [done|lia]. }
  unfold mm_addregion. apply wp_bind, wp_take_own; [done|done|].
  rewrite align_up, (u32_small (start + len)), align_down by lia.
  set (b := up start) in *. set (e := down (start + len)) in *.
  rewrite (u32_small (e - b)) by (unfold MM_ALLOC_BIT in *; lia). unfold SIZEOF_MM_ALLOCNODE.
  rewrite (u32_small (e - b - 2 * 8)) by (unfold MM_ALLOC_BIT in *; lia).
  apply wp_bind, wp_modify. apply wp_bind, wp_modify.
  assert (Hp : (is_Some (m !! size_ b) /\ is_Some (m !! preceding b) /\ is_Some (m !! size_ (b + 8)) /\
    is_Some (m !! preceding (b + 8)) /\ is_Some (m !! size_ (e - 8)) /\ is_Some (m !! preceding (e - 8)))).
  { destruct Hu as [_ Hu], Hd as [_ Hd].
    split_and!; apply Hw; unfold size_, preceding; try lia; Z.to_euclidean_division_equations; lia. }
  destruct Hp as (P1 & P2 & P3 & P4 & P5 & P6).
  apply wp_bind, wp_store; [done|]. apply wp_bind, wp_store; [by apply insert_some|].
  apply wp_bind, wp_store; [by do 2 apply insert_some|]. apply wp_bind, wp_store; [by do 3 apply insert_some|].
  apply wp_bind, wp_modify. apply wp_bind, wp_store; [by do 4 apply insert_some|].
  apply wp_bind. eapply wp_load; [cbn [words set_words set_end]; unfold size_, preceding;
    rewrite lookup_insert_ne by lia; rewrite lookup_insert_ne by lia; apply lookup_insert_eq|].
  apply wp_bind, wp_store; [by do 5 apply insert_some|].
  set (h1 := mk_heap 0 (e - b) b (e - 8) nl 0 m).
  pose proof (region_lay h1 b e) as R. cbn zeta in R.
  match goal with |- wp _ _ ?x => replace x with (set_words
    (<[preceding (e - 8) := pword (e - b - 16) true]> (<[size_ (e - 8) := 8]> (<[preceding (b + 8) := 8]>
              (<[size_ (b + 8) := e - b - 16]> (<[preceding b := MM_ALLOC_BIT]> (<[size_ b := 8]> m)))))) h1) end.
  2:{ apply heap_eq; [done|cbn [mm_heapsize set_words set_end set_start set_heapsize set_sem h1]; symmetry;
        apply u32_small; unfold MM_ALLOC_BIT in *; lia|done|done|done|done|].
      cbn [words set_words set_end set_start set_heapsize set_sem]. rewrite <- (pword_lor _ true) by lia. done. }
  assert (Hst := R ltac:(tauto) ltac:(tauto) ltac:(lia) ltac:(lia) ltac:(lia) ltac:(lia) H6 ltac:(cbn; lia) eq_refl eq_refl Hw HN).
  clear R. match type of Hst with st ?x _ _ => set (h2 := x) in * end.
  apply wp_bind. match goal with |- wp _ _ ?x => change x with h2 end.
  assert (E : b + 8 = lo h2 + total []) by (unfold lo, h2, h1; cbn; lia). rewrite E.
  apply (st_add h2 [] (e - b - 16) [] []); [done|by intros x t ?%elem_of_nil|].
  intros m' Hst' _. apply wp_modify. apply HQ; [|done|done].
  constructor; [|done|done|done|by constructor|by constructor|unfold h2, h1; cbn; lia].
  apply st_sem. replace (free_nodes _ _) with [Chunk (lo h2 + total []) (e - b - 16)]; [done|].
  unfold lo, h2, h1. simpl. by replace (b + 8 + 0) with (b + 8) by lia.
Qed.

(** ** [mm_initialize] *)

(** Memory for a heap: [size] bytes from [start] on, with room for the structure
    and a chunk. *)

Record room (szheap offs start size : Z) (m : gmap Z Z) : Prop := {
  rm_start : 0 < start;
  rm_size : 0 <= size < MM_ALLOC_BIT;
  rm_top : start + size + 16 < 4294967296;
  rm_offs : 0 <= offs /\ offs mod 4 = 0 /\ offs + 304 <= szheap;
  rm_chunk : up (up start + szheap) + 32 <= down (start + size);
  rm_words : forall x, x mod 4 = 0 -> start <= x < start + size -> is_Some (m !! x)
}.

Lemma initialize_ok cx szheap offs start size m : cx = CtxTask \/ cx = CtxIdle ->
  room szheap offs start size m ->
  let b := up (up start + szheap) in
  let e := down (start + size) in
  exists h, mm_initialize cx szheap offs start size m = Ret h /\
    heap_inv h [(e - b - 16, false)] [] /\ mm_heapstart h = b /\ mm_heapend h = e - 8.
Proof.
  intros Hcx [H1 H2 H3 (H4 & H5 & H6) H7 Hw] b e. unfold MM_ALLOC_BIT in *.
  assert (Hu : start <= up start < start + 16 /\ up start mod 16 = 0)
    by (unfold up; split; Z.to_euclidean_division_equations; lia).
  assert (Hb : up start + szheap <= b) by (unfold b, up at 2; Z.to_euclidean_division_equations; lia).
  assert (He : e <= start + size) by (unfold e, down; Z.to_euclidean_division_equations; lia).
  unfold mm_initialize. rewrite align_up by lia. rewrite (u32_small (size - _)) by lia.
  rewrite (proj2 (Z.leb_gt _ _)) by lia. rewrite (u32_small (up start + szheap)), u32_small by lia.
  set (h0 := mk_heap 0 0 0 0 (up start + offs) 0 m). 
  match goal with |- context [(?B h0) ≫= _] => set (body := B) end.
  assert (W : wp body (fun _ h => heap_inv h [(e - b - 16, false)] [] /\ mm_heapstart h = b /\ mm_heapend h = e - 8) h0).
  { unfold body. apply wp_bind. 
    eapply (wp_mono _ (fun _ => wp _ _)); [|intros [] h' Hh'; apply wp_bind; exact Hh'].
    apply link_all_ok.
    - intros j Hj. destruct Hu as [Hu Hu'].
      repeat split; apply Hw; unfold hook, size_, preceding, flink, blink; cbn [mm_nodelist h0]; try lia;
        Z.to_euclidean_division_equations; lia.
    - intros m' G O HN. apply wp_bind, wp_modify.
      change (set_sem 1 (set_words m' h0)) with (mk_heap 1 0 0 0 (up start + offs) 0 m').
      assert (El : up start + szheap + (size - (up start - start) - szheap) = start + size) by lia.
      apply addregion_ok; rewrite ?El; try done; try (unfold MM_ALLOC_BIT in *; lia).
      intros x Hx Hr. apply G, Hw; [done|lia]. }
  destruct W as ([] & h & Hrun & Hi). exists h. split; [|done]. unfold mbind, outcome_bind. by rewrite Hrun.
Qed.

(** A heap in 4 KiB of memory, for examples: the structure takes 344 bytes. *)

Definition demo_mem : gmap Z Z := list_to_map ((fun i => (4096 + 4 * i, 0)) <$> seqZ 0 1024).

Lemma demo_room : room 344 16 4096 4096 demo_mem.
Proof.
  constructor; [lia|unfold MM_ALLOC_BIT; lia|lia|done|by vm_compute|].
  intros x Hx Hr. exists 0. apply elem_of_list_to_map.
  - rewrite <- list_fmap_compose. apply NoDup_fmap_2; [intros i j; simpl; lia|apply NoDup_seqZ].
  - apply list_elem_of_fmap. exists ((x - 4096) / 4). split; [f_equal|apply elem_of_seqZ];
      Z.to_euclidean_division_equations; lia.
Qed.

Definition demo_row : list chunk := [(3728, false)].

Lemma demo_heap : exists h, mm_initialize CtxTask 344 16 4096 4096 demo_mem = Ret h /\
  heap_inv h demo_row [] /\ lo h = 4456.
Proof.
  destruct (initialize_ok CtxTask _ _ _ _ _ ltac:(by left) demo_room) as (h & Hrun & Hi & Es & _).
  exists h. split_and!; [done|done|]. unfold lo. rewrite Es. done.
Qed.

End MmInit.
