(* ===== verification/MmProps.v ===== *)
(** * The heap as its clients see it

    The operations of the kernel heap refine the abstract heap of [MmSpec]; a heap
    that [mm_initialize] set up stays in its invariant whatever tasks and
    interrupt handlers allocate, free and store. *)

From S2P Require Import Prelude MmHeap MmList MmLayout MmSteps MmSpec MmFree MmInfo MmInit.
Import MmHeap MmList MmLayout MmSteps MmSpec MmFree MmInfo MmInit.

Module MmProps.

(** ** Operations of clients *)

Inductive op :=
| OMalloc (n : Z)       (** [mm_malloc], from a task *)
| OFree (d : Z)         (** [mm_free], from a task *)
| OFreeIrq (d : Z)      (** [mm_free], from an interrupt handler *)
| OStore (a v : Z)      (** a store to memory of the client *)
| OCheck                (** [mm_checkcorruption] *)
| OInfo.                (** [mm_mallinfo] *)

Inductive result := RPtr (p : Z) | RUnit | RInfo (i : mallinfo).

Definition exec (o : op) : MH result :=
  match o with
  | OMalloc n => p ← mm_malloc CtxTask n; mret (RPtr p)
  | OFree d => mm_free CtxTask d;; mret RUnit
  | OFreeIrq d => mm_free CtxInterrupt d;; mret RUnit
  | OStore a v => store a v;; mret RUnit
  | OCheck => mm_checkcorruption CtxTask;; mret RUnit
  | OInfo => i ← mm_mallinfo CtxTask; mret (RInfo i)
  end.

(** The abstract heap: where its row starts, the row, and the memory whose
    release waits for the next allocation. *)

Record aheap := mk_aheap { base : Z; row : list chunk; waiting : list Z }.

(** What a client may do: free memory it has, once, and store to memory it has. *)

Definition allowed (A : aheap) (o : op) : Prop :=
  match o with
  | OMalloc n => 0 <= n < 4294967296
  | OFree d | OFreeIrq d => live (base A) (row A) d /\ d ∉ waiting A
  | OStore a _ => a mod 4 = 0 /\ held (base A) (row A) a /\
      forall d, d ∈ waiting A -> ~ (d <= a < d + usable (base A) (row A) d)
  | OCheck | OInfo => True
  end.

Definition released (A : aheap) : list chunk := foldl (release (base A)) (row A) (waiting A).

Inductive astep (A : aheap) : op -> result -> aheap -> Prop :=
| a_malloc n p cs : malloc_spec (base A) n (released A) p cs ->
    astep A (OMalloc n) (RPtr p) (mk_aheap (base A) cs [])
| a_free d : astep A (OFree d) RUnit (mk_aheap (base A) (release (base A) (row A) d) (waiting A))
| a_free_irq d : astep A (OFreeIrq d) RUnit (mk_aheap (base A) (row A) (d :: waiting A))
| a_store a v : astep A (OStore a v) RUnit A
| a_check : astep A OCheck RUnit A
| a_info : astep A OInfo (RInfo (mk_info (total (row A) + 16) (Z.of_nat (length (sizes false (row A))))
    (1 + Z.of_nat (length (sizes true (row A)))) (Z.max 0 (maxZ (sizes false (row A))))
    (16 + sumZ (sizes true (row A))) (sumZ (sizes false (row A))))) A.

Definition rel (h : mm_heap) (A : aheap) : Prop :=
  base A = lo h /\ heap_inv h (row A) (waiting A).

(** Memory of clients that an operation leaves to them, and the word at [b]
    afterwards. *)

Definition survives (A : aheap) (o : op) (b : Z) : Prop :=
  match o with
  | OMalloc _ => held (base A) (released A) b
  | OFree d => held (base A) (mark (base A) d (row A)) b
  | OFreeIrq d => held (base A) (row A) b /\ b <> d
  | OStore _ _ | OCheck | OInfo => True
  end.

Definition word_after (o : op) (h : mm_heap) (b : Z) : option Z :=
  match o with
  | OStore a v => if b =? a then Some v else words h !! b
  | _ => words h !! b
  end.

Lemma usable_live a cs d : Forall wf cs -> live a cs d -> 8 <= usable a cs d.
Proof.
  intros Hw. revert a. induction Hw as [|c cs [Hc _] Hw IH]; intros a; simpl; [done|].
  destruct (Z.eqb_spec (a + 8) d); [lia|]. intros [[_ ?]|?]; [lia|auto].
Qed.

(** ** Stores of clients *)

Lemma store_ok h A a v : rel h A -> allowed A (OStore a v) ->
  wp (store a v) (fun _ h' => rel h' A /\ same_place h h' /\
    forall b, words h' !! b = word_after (OStore a v) h b) h.
Proof.
  intros [Eb [H Hco Hsem Hch Hlv Hnd Hsz]] (Ha & Hh & Hout). rewrite Eb in *.
  pose proof (ly_wf _ _ (proj1 H)) as Hw. pose proof (held_range _ _ _ Hw Hh).
  pose proof (ly_total _ _ (proj1 H)).
  apply wp_store; [apply (ly_dom _ _ (proj1 H)); [done|lia]|]. split_and!; [|by repeat split|].
  - split; [done|]. constructor; try done; [by apply (st_write h)|].
    cbn. eapply chain_kept; [|exact Hch]. intros d Hd. apply lookup_insert_ne. intros ->.
    apply (Hout d Hd). pose proof (usable_live _ _ _ Hw (proj1 (Forall_forall _ _) Hlv d Hd)). lia.
  - intros b. cbn. destruct (Z.eqb_spec b a) as [->|]; [apply lookup_insert_eq|by apply lookup_insert_ne].
Qed.

(** One operation, against the abstract heap. *)

Lemma step_ok h A o : rel h A -> allowed A o ->
  exists r h' A', exec o h = Ret (r, h') /\ astep A o r A' /\ rel h' A' /\ same_place h h' /\
    forall b, survives A o b -> words h' !! b = word_after o h b.
Proof.
  intros Hr Ho.
  enough (W : wp (exec o) (fun r h' => exists A', astep A o r A' /\ rel h' A' /\ same_place h h' /\
    forall b, survives A o b -> words h' !! b = word_after o h b) h) by (destruct W as (r & h' & ? & A' & ?); eauto 7).
  pose proof Hr as [Eb Hi]. destruct o as [n|d|d|a v| |]; cbn [exec allowed] in *; apply wp_bind.
  - eapply wp_mono; [by apply mm_malloc_ok|]. intros p h' (cs' & Hs & Hi' & Hp & Hk). apply wp_ret.
    eexists. split_and!; [apply a_malloc; unfold released; rewrite Eb; exact Hs| |done|].
    + split; [|done]. simpl. by rewrite (same_lo _ _ Hp).
    + intros b Hb. cbn in Hb. unfold released in Hb. rewrite Eb in Hb. by apply Hk.
  - rewrite Eb in Ho. destruct Ho as [Hd Hn]. eapply wp_mono; [by apply mm_free_ok|].
    intros _ h' [Hi' Hp _ Hk]. apply wp_ret. eexists. split_and!; [apply a_free| |done|].
    + split; simpl; [by rewrite (same_lo _ _ Hp)|]. by rewrite Eb.
    + intros b Hb. cbn in Hb. rewrite Eb in Hb. by apply Hk.
  - rewrite Eb in Ho. destruct Ho as [Hd Hn]. eapply wp_mono; [eapply mm_free_irq_ok; eauto|].
    intros _ h' (Hi' & Hp & Hk). apply wp_ret. eexists. split_and!; [apply a_free_irq| |done|].
    + split; simpl; [by rewrite (same_lo _ _ Hp)|done].
    + intros b [_ Hb]. by apply Hk.
  - eapply wp_mono; [by apply (store_ok h A)|]. intros _ h' (Hr' & Hp & Hk). apply wp_ret.
    exists A. split_and!; [constructor|done|done|]. intros b _. apply Hk.
  - eapply wp_run; [by eapply checkcorruption_ok|]. apply wp_ret. exists A. split_and!; [constructor|done..].
  - eapply wp_run; [by eapply mallinfo_ok|]. apply wp_ret. exists A. split_and!; [|done..].
    replace (mm_heapsize h) with (total (row A) + 16); [constructor|].
    pose proof (ly_total _ _ (proj1 (hi_st _ _ _ Hi))). pose proof (hi_size _ _ _ Hi). unfold lo in *. lia.
Qed.

(** C3: the kernel heap implements the abstract heap.  Whatever an allowed client does (allocate, free
    from a task or from an interrupt handler, store to its memory, look the heap over), the code
    returns (no assertion fails, no word outside the heap is touched, no loop runs on), the result and
    the new row are those of the abstract heap, the invariant holds again, and the memory that stays
    with the clients has the contents it had. *)
Theorem heap_simulation h A o : rel h A -> allowed A o ->
  exists r h' A', exec o h = Ret (r, h') /\ astep A o r A' /\ rel h' A' /\ same_place h h' /\
    forall b, survives A o b -> words h' !! b = word_after o h b.
Proof. apply step_ok. Qed.

Lemma heap_simulation_witness : exists h A, rel h A /\ allowed A (OMalloc 100) /\
  exists r h' A', exec (OMalloc 100) h = Ret (r, h') /\ astep A (OMalloc 100) r A' /\ rel h' A' /\
    same_place h h' /\ forall b, survives A (OMalloc 100) b -> words h' !! b = word_after (OMalloc 100) h b.
Proof.
  destruct demo_heap as (h & _ & Hi & El).
  assert (Hr : rel h (mk_aheap 4456 demo_row [])) by (split; [done|exact Hi]).
  assert (Ha : allowed (mk_aheap 4456 demo_row []) (OMalloc 100)) by (split; lia).
  exists h, (mk_aheap 4456 demo_row []). split; [exact Hr|]. split; [exact Ha|].
  apply (heap_simulation h _ _ Hr Ha).
Defined.

(** ** Histories of a heap *)

(** The result of an allocation tells which chunk was taken. *)

Lemma split_unique cs1 c cs2 cs1' c' cs2' : Forall wf (cs1 ++ c :: cs2) ->
  cs1 ++ c :: cs2 = cs1' ++ c' :: cs2' -> total cs1 = total cs1' -> cs1 = cs1' /\ c = c' /\ cs2 = cs2'.
Proof.
  revert cs1'. induction cs1 as [|d cs1 IH]; intros [|d' cs1'] Hw E Ht; simpl in *.
  - by simplify_eq.
  - simplify_eq. rewrite Forall_cons, Forall_app in Hw. destruct Hw as ([? _] & Hw1 & _).
    pose proof (total_nonneg _ (wf_big _ Hw1)). lia.
  - simplify_eq. rewrite Forall_cons, Forall_app in Hw. destruct Hw as ([? _] & Hw1 & _).
    pose proof (total_nonneg _ (wf_big _ Hw1)). lia.
  - simplify_eq. rewrite Forall_cons in Hw. destruct Hw as [_ Hw].
    destruct (IH cs1' Hw ltac:(done) ltac:(lia)) as (-> & -> & ->). done.
Qed.

Lemma malloc_spec_det a n cs p cs' cs'' : Forall wf cs -> 0 < a ->
  malloc_spec a n cs p cs' -> malloc_spec a n cs p cs'' -> cs' = cs''.
Proof.
  intros Hw Ha H1 H2. destruct H1 as [|cs1 s cs2 _ E _ _].
  - remember 0 as z eqn:Ez in H2. destruct H2 as [|cs1 s cs2 _ E _ _]; [done|].
    rewrite E, Forall_app in Hw. pose proof (total_nonneg _ (wf_big _ (proj1 Hw))). lia.
  - remember (a + total cs1 + 8) as z eqn:Ez in H2. destruct H2 as [|cs1' s' cs2' _ E' _ _].
    + rewrite E, Forall_app in Hw. pose proof (total_nonneg _ (wf_big _ (proj1 Hw))). lia.
    + rewrite E in Hw, E'. destruct (split_unique _ _ _ _ _ _ Hw E' ltac:(lia)) as (-> & [= ->] & ->). done.
Qed.

Lemma wf_coalesce cs : Forall wf cs -> Forall wf (coalesce cs).
Proof.
  induction 1 as [|[s f] cs Hs Hw IH]; [done|]. rewrite coalesce_cons. cbn [fst snd].
  destruct f; [by constructor|]. destruct (coalesce cs) as [|[t []] r]; [by constructor..|].
  apply Forall_cons in IH as [Ht IH]. constructor; [|done]. unfold wf in *. simpl in *.
  split; [lia|]. Z.to_euclidean_division_equations. lia.
Qed.

Lemma wf_mark a d cs : Forall wf cs -> Forall wf (mark a d cs).
Proof.
  intros Hw. revert a. induction Hw as [|c cs Hc Hw IH]; intros a; simpl; [done|].
  destruct (a + 8 =? d); by constructor.
Qed.

Lemma wf_releases a cs ds : Forall wf cs -> Forall wf (foldl (release a) cs ds).
Proof.
  revert cs. induction ds as [|d ds IH]; intros cs Hw; [done|]. simpl. by apply IH, wf_coalesce, wf_mark.
Qed.

Lemma astep_det A o r A' A'' : Forall wf (row A) -> 0 < base A ->
  astep A o r A' -> astep A o r A'' -> A' = A''.
Proof.
  intros Hw Ha H1 H2. destruct H1; inversion H2; subst; try done.
  f_equal. eapply malloc_spec_det; [|done..]. by apply wf_releases.
Qed.

(** Everything that allowed clients can do from the heap [h0] on. *)

Inductive history (h0 : mm_heap) (A0 : aheap) : mm_heap -> aheap -> Prop :=
| history_start : history h0 A0 h0 A0
| history_step h A o r h' A' : history h0 A0 h A -> allowed A o -> exec o h = Ret (r, h') ->
    astep A o r A' -> history h0 A0 h' A'.

Lemma history_rel h0 A0 h A : rel h0 A0 -> history h0 A0 h A -> rel h A /\ same_place h0 h.
Proof.
  intros H0. induction 1 as [|h A o r h' A' _ [IH Hp] Ho He Hs]; [done|].
  destruct (step_ok h A o IH Ho) as (r2 & h2 & A2 & He2 & Hs2 & Hr2 & Hp2 & _).
  rewrite He in He2. injection He2 as <- <-. destruct IH as [Eb [[Hl _] _ _ _ _ _ _]].
  split; [|by eapply same_place_trans].
  rewrite (astep_det A o r A' A2); [done| |rewrite Eb; apply (ly_reg _ _ Hl)|done..]. apply (ly_wf _ _ Hl).
Qed.

(** C4: the heap never breaks.  After [mm_initialize] on memory with room for it, and whatever
    history of allocations, frees (of tasks and of interrupt handlers) and stores follows, the next
    operation of an allowed client returns, [mm_checkcorruption] finds nothing, the chunks fill the
    region exactly, and no two free chunks are neighbours. *)
Theorem heap_never_breaks cx szheap offs start size m :
  cx = CtxTask \/ cx = CtxIdle -> room szheap offs start size m ->
  let b := up (up start + szheap) in
  let e := down (start + size) in
  exists h0, mm_initialize cx szheap offs start size m = Ret h0 /\
    forall h A, history h0 (mk_aheap (b + 8) [(e - b - 16, false)] []) h A ->
      (forall o, allowed A o -> exists r h', exec o h = Ret (r, h')) /\
      mm_checkcorruption CtxTask h = Ret (tt, h) /\
      total (row A) = e - b - 16 /\ coalesced (row A).
Proof.
  intros Hcx Hr b e. destruct (initialize_ok _ _ _ _ _ _ Hcx Hr) as (h0 & Hrun & Hi & Es & Ee).
  fold b e in Hi, Es, Ee. exists h0. split; [done|]. intros h A Hh.
  assert (H0 : rel h0 (mk_aheap (b + 8) [(e - b - 16, false)] [])) by (split; [unfold lo; simpl; lia|done]).
  destruct (history_rel _ _ _ _ H0 Hh) as [HA (Es' & Ee' & _)]. split_and!.
  - intros o Ho. destruct (step_ok _ _ _ HA Ho) as (r & h' & A' & ? & _). eauto.
  - destruct HA as [_ HA]. by eapply checkcorruption_ok.
  - destruct HA as [Eb HA]. pose proof (ly_total _ _ (proj1 (hi_st _ _ _ HA))). unfold lo in *. lia.
  - apply HA.
Qed.

Lemma heap_never_breaks_witness : room 344 16 4096 4096 demo_mem /\
  exists h0, mm_initialize CtxIdle 344 16 4096 4096 demo_mem = Ret h0 /\
    forall h A, history h0 (mk_aheap 4456 demo_row []) h A ->
      (forall o, allowed A o -> exists r h', exec o h = Ret (r, h')) /\
      mm_checkcorruption CtxTask h = Ret (tt, h) /\ total (row A) = 3728 /\ coalesced (row A).
Proof.
  split; [exact demo_room|].
  apply (heap_never_breaks CtxIdle 344 16 4096 4096 demo_mem (or_intror eq_refl) demo_room).
Defined.

(** ** Fresh memory *)

Lemma need_ge n : n + 8 <= need n /\ need n mod 16 = 0.
Proof.
  unfold need. split; [Z.to_euclidean_division_equations; lia|]. rewrite Z.mul_comm. by apply Z.mod_mul.
Qed.

Lemma usable_app a cs1 s b cs2 : Forall wf cs1 -> usable a (cs1 ++ (s, b) :: cs2) (a + total cs1 + 8) = s - 8.
Proof.
  intros Hw. revert a. induction Hw as [|c cs1 [Hc _] Hw IH]; intros a; simpl.
  - by rewrite (proj2 (Z.eqb_eq _ _)) by lia.
  - pose proof (total_nonneg _ (wf_big _ Hw)). rewrite (proj2 (Z.eqb_neq _ _)) by lia.
    replace (a + (c.1 + total cs1) + 8) with (a + c.1 + total cs1 + 8) by lia. by rewrite IH.
Qed.

(** The memory of the chunk between [cs1] and [cs2]. *)

Lemma held_here a cs1 s b' cs2 b : Forall wf cs1 -> Forall wf cs2 -> 0 <= s ->
  a + total cs1 <= b < a + total cs1 + s ->
  held a (cs1 ++ (s, b') :: cs2) b <-> b' = true /\ a + total cs1 + 8 <= b.
Proof.
  intros H1 H2 Hs Hb. rewrite held_app. simpl. split.
  - intros [H|[[-> H]|H]]; [apply held_range in H; [lia|done]|split; [done|lia]|].
    apply held_range in H; [lia|done].
  - intros [-> H]. right. left. split; [done|lia].
Qed.

(** What a client learns from the result of an allocation. *)

Record fresh (a n : Z) (cs cs' : list chunk) (p : Z) : Prop := {
  fs_aligned : a mod 16 = 8 -> p mod 16 = 0;
  fs_live : live a cs' p;
  fs_room : n <= usable a cs' p;
  fs_new : forall b, p <= b < p + usable a cs' p -> held a cs' b /\ ~ held a cs b;
  fs_old : forall b, held a cs b -> held a cs' b
}.

Lemma spec_fresh a n cs cs1 s cs2 : Forall wf cs -> cs = cs1 ++ (s, false) :: cs2 -> need n <= s ->
  fresh a n cs (cs1 ++ taken (need n) s ++ cs2) (a + total cs1 + 8).
Proof.
  intros Hw -> Hs. rewrite Forall_app, Forall_cons in Hw. destruct Hw as (Hw1 & [Hsw Hsw'] & Hw2). cbn [fst] in *.
  destruct (need_ge n) as [Hn Hn']. pose proof (total_mod _ Hw1).
  set (rest := (if need n <? s then [(s - need n, false)] else []) ++ cs2).
  assert (E : cs1 ++ taken (need n) s ++ cs2 = cs1 ++ (need n, true) :: rest) by done. rewrite E.
  assert (Hu : usable a (cs1 ++ (need n, true) :: rest) (a + total cs1 + 8) = need n - 8) by by apply usable_app.
  constructor.
  - intros Ha. Z.to_euclidean_division_equations. lia.
  - rewrite live_app. right. by left.
  - rewrite Hu. lia.
  - rewrite Hu. intros b Hb. split.
    + rewrite held_app. right. cbn [held fst snd]. left. split; [done|lia].
    + intros X. apply held_here in X as [? _]; [done|done|done|lia|lia].
  - intros b. rewrite !held_app. intros [X|[[? _]|X]]; [by left|done|]. right. right. unfold rest. simpl in *.
    destruct (Z.ltb_spec (need n) s); cbn [app held fst snd].
    + right. by replace (a + total cs1 + need n + (s - need n)) with (a + total cs1 + s) by lia.
    + by replace (a + total cs1 + need n) with (a + total cs1 + s) by lia.
Qed.

(** C20: allocation.  [mm_malloc] of [n] bytes answers NULL only for [n = 0] or when every free chunk is
    smaller than the [n + 8] bytes rounded up to 16 that it needs (an overflow of that sum included).
    Otherwise the memory is aligned to 16 bytes, has room for [n] bytes, overlaps no memory in use,
    comes from a smallest chunk that is large enough, and all memory in use keeps its contents. *)
Theorem malloc_fresh h cs ds n : heap_inv h cs ds -> 0 <= n < 4294967296 ->
  let cs0 := foldl (release (lo h)) cs ds in
  exists p h' cs', mm_malloc CtxTask n h = Ret (p, h') /\ heap_inv h' cs' [] /\
    (forall b, held (lo h) cs0 b -> words h' !! b = words h !! b) /\
    (p = 0 /\ cs' = cs0 /\ (n = 0 \/ forall s, (s, false) ∈ cs0 -> s < need n) \/
     p <> 0 /\ fresh (lo h) n cs0 cs' p /\ p mod 16 = 0 /\
     exists s, (s, false) ∈ cs0 /\ need n <= s /\ forall t, (t, false) ∈ cs0 -> need n <= t -> s <= t).
Proof.
  intros Hi Hn cs0. destruct (mm_malloc_ok h cs ds n Hi Hn) as (p & h' & Hrun & cs' & Hs & Hi' & Hp & Hk).
  exists p, h', cs'. split_and!; [done..|]. fold cs0 in Hs.
  pose proof (ly_reg _ _ (proj1 (hi_st _ _ _ Hi))) as [Hlo _ Hpos _ _].
  assert (Hw : Forall wf cs0) by (apply wf_releases, (ly_wf _ _ (proj1 (hi_st _ _ _ Hi)))).
  destruct Hs as [Hno|cs1 s cs2 Hn0 E Hle Hbest]; [by left|right].
  pose proof (spec_fresh (lo h) n cs0 cs1 s cs2 Hw E Hle) as Hf. split_and!; [|done|by apply Hf|].
  - rewrite E, Forall_app in Hw. pose proof (total_nonneg _ (wf_big _ (proj1 Hw))). lia.
  - exists s. split_and!; [rewrite E; set_solver|done|done].
Qed.

Lemma malloc_fresh_witness : exists h, heap_inv h demo_row [] /\
  exists p h' cs', mm_malloc CtxTask 100 h = Ret (p, h') /\ heap_inv h' cs' [] /\
    (forall b, held (lo h) demo_row b -> words h' !! b = words h !! b) /\
    (p = 0 /\ cs' = demo_row /\ (100 = 0 \/ forall s, (s, false) ∈ demo_row -> s < need 100) \/
     p <> 0 /\ fresh (lo h) 100 demo_row cs' p /\ p mod 16 = 0 /\
     exists s, (s, false) ∈ demo_row /\ need 100 <= s /\
       forall t, (t, false) ∈ demo_row -> need 100 <= t -> s <= t).
Proof.
  destruct demo_heap as (h & _ & Hi & El). exists h. split; [exact Hi|].
  apply (malloc_fresh h demo_row [] 100 Hi). lia.
Defined.

(** ** Freeing what was allocated *)

Lemma release_taken a cs1 n s cs2 : Forall wf cs1 -> n <= s -> coalesced (cs1 ++ (s, false) :: cs2) ->
  release a (cs1 ++ taken n s ++ cs2) (a + total cs1 + 8) = cs1 ++ (s, false) :: cs2.
Proof.
  intros Hw Hn Hco. unfold release, taken. cbn [app]. rewrite mark_app by done.
  apply coalesced_app in Hco as (H1 & H2 & H3). rewrite orb_false_r in H3.
  rewrite coalesce_app by done. f_equal. destruct H2 as [Hh H2].
  destruct (Z.ltb_spec n s); cbn [app].
  - etransitivity; [apply coalesce_next; by split|]. simpl. by replace (n + (s - n)) with s by lia.
  - replace n with s by lia. apply coalesce_id. by split.
Qed.

(** Round trip.  Memory that is allocated and freed again leaves the row of chunks as it was, the
    free chunk joined again, and the contents of all memory in use; so does a failed allocation. *)
Theorem malloc_free_roundtrip h cs n : heap_inv h cs [] -> 0 <= n < 4294967296 ->
  exists h', (p ← mm_malloc CtxTask n; mm_free CtxTask p) h = Ret (tt, h') /\ heap_inv h' cs [] /\
    forall b, held (lo h) cs b -> words h' !! b = words h !! b.
Proof.
  intros Hi Hn. enough (W : wp (p ← mm_malloc CtxTask n; mm_free CtxTask p) (fun _ h' => heap_inv h' cs [] /\
    forall b, held (lo h) cs b -> words h' !! b = words h !! b) h) by (destruct W as ([] & h' & ?); eauto).
  pose proof (ly_wf _ _ (proj1 (hi_st _ _ _ Hi))) as Hw.
  apply wp_bind. eapply wp_mono; [by apply mm_malloc_ok|]. intros p h1 (cs1 & Hs & Hi1 & Hp1 & Hk1). cbn [foldl] in *.
  destruct Hs as [Hno|cs1 s cs2 Hn0 E Hle Hbest]; [by apply wp_ret|]. pose proof (same_lo _ _ Hp1) as El.
  pose proof (spec_fresh (lo h) n cs cs1 s cs2 Hw E Hle) as Hf.
  eapply wp_mono; [eapply mm_free_ok; [exact Hi1|rewrite El; apply Hf|by intros ?%elem_of_nil]|].
  intros _ h2 [Hi2 _ _ Hk2]. rewrite El in Hi2. subst cs. pose proof (hi_co _ _ _ Hi) as Hco.
  rewrite Forall_app in Hw. rewrite release_taken in Hi2 by (tauto || lia). split; [done|].
  intros b Hb. unfold kept in Hk2. rewrite El in Hk2. rewrite Hk2; [by apply Hk1|].
  rewrite <- held_coalesce. fold (release (lo h) (cs1 ++ taken (need n) s ++ cs2) (lo h + total cs1 + 8)).
  by rewrite release_taken by (tauto || lia).
Qed.

Lemma malloc_free_roundtrip_witness : exists h, heap_inv h demo_row [] /\
  exists h', (p ← mm_malloc CtxTask 100; mm_free CtxTask p) h = Ret (tt, h') /\ heap_inv h' demo_row [] /\
    forall b, held (lo h) demo_row b -> words h' !! b = words h !! b.
Proof.
  destruct demo_heap as (h & _ & Hi & El). exists h. split; [exact Hi|].
  apply (malloc_free_roundtrip h demo_row 100 Hi). lia.
Defined.

(** ** Figures *)

(** The figures of the heap.  [mm_mallinfo] changes nothing, runs into none of its assertions (the
    links of every free chunk, the sizes of neighbours, the sum over the region) and counts exactly
    the chunks of the row: the free and the used ones (the guard in front included), the largest free
    one, and the bytes of each kind (the guards included). *)
Theorem mallinfo_exact h cs ds : heap_inv h cs ds ->
  mm_mallinfo CtxTask h = Ret (mk_info (mm_heapsize h) (Z.of_nat (length (sizes false cs)))
    (1 + Z.of_nat (length (sizes true cs))) (Z.max 0 (maxZ (sizes false cs)))
    (16 + sumZ (sizes true cs)) (sumZ (sizes false cs)), h) /\
  sumZ (sizes true cs) + sumZ (sizes false cs) + 16 = mm_heapsize h.
Proof.
  intros Hi. split; [by eapply mallinfo_ok|]. rewrite sizes_total, (hi_size _ _ _ Hi).
  pose proof (ly_total _ _ (proj1 (hi_st _ _ _ Hi))). unfold lo in *. lia.
Qed.

Lemma mallinfo_exact_witness : exists h, heap_inv h demo_row [] /\
  mm_mallinfo CtxTask h = Ret (mk_info (mm_heapsize h) 1 1 3728 16 3728, h) /\ 3728 + 16 = mm_heapsize h.
Proof.
  destruct demo_heap as (h & _ & Hi & El). exists h. split; [exact Hi|].
  apply (mallinfo_exact h demo_row [] Hi).
Defined.

End MmProps.
