(* ===== verification/MmZero.v ===== *)
(** * Cleared memory

    [mm_zalloc] and [mm_calloc]: the memory they return is zero in every byte, and
    a product of element count and size that does not fit is refused. *)

From S2P Require Import Prelude MmHeap MmList MmLayout MmSteps MmSpec MmFree MmInfo MmInit MmProps.
Import MmHeap MmList MmLayout MmSteps MmSpec MmFree MmInit MmProps.

Module MmZero.

(** ** Bytes of the memory *)

Definition byte_of (w k : Z) : Z := Z.land (Z.shiftr w (8 * k)) 255.

Definition byte (m : gmap Z Z) (a : Z) : option Z :=
  (fun w => byte_of w (a mod 4)) <$> m !! (a - a mod 4).

Lemma byte_clear w j k : 0 <= j < 4 -> 0 <= k < 4 ->
  byte_of (Z.land w (not32 (Z.shiftl 255 (8 * k)))) j = if j =? k then 0 else byte_of w j.
Proof.
  intros Hj Hk. unfold byte_of. rewrite Z.shiftr_land, <- Z.land_assoc.
  assert (j = 0 \/ j = 1 \/ j = 2 \/ j = 3) as Ej by lia. assert (k = 0 \/ k = 1 \/ k = 2 \/ k = 3) as Ek by lia.
  destruct Ej as [->|[->|[->| ->]]], Ek as [->|[->|[->| ->]]];
    (match goal with |- Z.land ?x ?y = _ => let z := eval vm_compute in y in change y with z end);
    done || apply Z.land_0_r.
Qed.

Lemma byte_insert m a v b : a mod 4 = 0 ->
  byte (<[a := v]> m) b = if b - b mod 4 =? a then Some (byte_of v (b mod 4)) else byte m b.
Proof.
  intros Ha. unfold byte. destruct (Z.eqb_spec (b - b mod 4) a) as [->|Hne]; [by rewrite lookup_insert_eq|].
  by rewrite lookup_insert_ne.
Qed.

Lemma floor4 a : (a - a mod 4) mod 4 = 0 /\ a - a mod 4 <= a < a - a mod 4 + 4.
Proof. split; Z.to_euclidean_division_equations; lia. Qed.

(** ** [memset] *)

Lemma zero_byte_ok h cs a : heap_inv h cs [] -> held (lo h) cs (a - a mod 4) ->
  wp (zero_byte a) (fun _ h' => heap_inv h' cs [] /\ same_place h h' /\
    forall b, byte (words h') b = if b =? a then Some 0 else byte (words h) b) h.
Proof.
  intros Hi Hh. destruct (floor4 a) as [Hm Hr]. pose proof (hi_st _ _ _ Hi) as H.
  assert (Hs : is_Some (words h !! (a - a mod 4))).
  { apply (ly_dom _ _ (proj1 H)); [done|]. pose proof (held_range _ _ _ (ly_wf _ _ (proj1 H)) Hh).
    pose proof (ly_total _ _ (proj1 H)). lia. }
  destruct Hs as [w Hw]. unfold zero_byte. apply wp_bind. eapply wp_load; [exact Hw|].
  eapply wp_mono; [apply (store_ok h (mk_aheap (lo h) cs [])); [by split|]|].
  { split_and!; [done|done|]. by intros d ?%elem_of_nil. }
  intros _ h' ([_ Hi'] & Hp & Hb). split_and!; [done|done|]. intros b. unfold byte at 1. rewrite Hb.
  cbn [word_after]. destruct (Z.eqb_spec (b - b mod 4) (a - a mod 4)) as [E|E].
  - cbn. rewrite byte_clear by (apply Z.mod_pos_bound; lia).
    destruct (Z.eqb_spec (b mod 4) (a mod 4)), (Z.eqb_spec b a); try lia; [done|].
    unfold byte. by rewrite E, Hw.
  - rewrite (proj2 (Z.eqb_neq b a)) by congruence. done.
Qed.

Lemma memset_zero_ok n p h cs : heap_inv h cs [] ->
  (forall a, p <= a < p + Z.of_nat n -> held (lo h) cs (a - a mod 4)) ->
  wp (memset_zero n p) (fun _ h' => heap_inv h' cs [] /\ same_place h h' /\
    forall b, byte (words h') b = if (p <=? b) && (b <? p + Z.of_nat n) then Some 0 else byte (words h) b) h.
Proof.
  revert p h. induction n as [|n IH]; intros p h Hi Hh.
  - apply wp_ret. split_and!; [done|done|]. intros b.
    destruct (Z.leb_spec p b), (Z.ltb_spec b (p + Z.of_nat 0)); simpl; lia || done.
  - cbn [memset_zero]. apply wp_bind. eapply wp_mono; [apply (zero_byte_ok h cs p Hi); apply Hh; lia|].
    intros _ h1 (Hi1 & Hp1 & Hb1). pose proof (same_lo _ _ Hp1) as El. eapply wp_mono; [apply (IH (p + 1) h1 Hi1)|].
    + rewrite El. intros a Ha. apply Hh. lia.
    + intros _ h2 (Hi2 & Hp2 & Hb2). split_and!; [done|by eapply same_place_trans|]. intros b. rewrite Hb2, Hb1.
      destruct (Z.leb_spec (p + 1) b), (Z.ltb_spec b (p + 1 + Z.of_nat n)), (Z.leb_spec p b),
        (Z.ltb_spec b (p + Z.of_nat (S n))), (Z.eqb_spec b p); simpl; lia || done.
Qed.

(** ** [mm_zalloc] and [mm_calloc] *)

Definition zeroed (h : mm_heap) (cs : list chunk) (n p : Z) (h' : mm_heap) : Prop :=
  exists cs', heap_inv h' cs' [] /\ same_place h h' /\
    (forall b, held (lo h) cs (b - b mod 4) -> byte (words h') b = byte (words h) b) /\
    (p = 0 /\ cs' = cs /\ (n = 0 \/ forall s, (s, false) ∈ cs -> s < need n) \/
     p <> 0 /\ fresh (lo h) n cs cs' p /\ forall b, p <= b < p + n -> byte (words h') b = Some 0).

Lemma zalloc_ok h cs n : heap_inv h cs [] -> 0 <= n < 4294967296 ->
  wp (mm_zalloc CtxTask n) (zeroed h cs n) h.
Proof.
  intros Hi Hn. unfold mm_zalloc. apply wp_bind. eapply wp_mono; [by apply mm_malloc_ok|].
  intros p h1 (cs' & Hs & Hi1 & Hp1 & Hk1). cbn [foldl] in *. pose proof (same_lo _ _ Hp1) as El.
  pose proof (ly_reg _ _ (proj1 (hi_st _ _ _ Hi))) as [Hlo _ Hpos _ _].
  pose proof (ly_wf _ _ (proj1 (hi_st _ _ _ Hi))) as Hw.
  assert (Hkb : forall b, held (lo h) cs (b - b mod 4) -> byte (words h1) b = byte (words h) b).
  { intros b Hb. unfold byte. by rewrite Hk1. }
  destruct Hs as [Hno|cs1 s cs2 Hn0 E Hle Hbest].
  { apply wp_bind, wp_ret, wp_ret. exists cs. split_and!; [done..|by left]. }
  pose proof (spec_fresh (lo h) n cs cs1 s cs2 Hw E Hle) as Hf.
  set (p := lo h + total cs1 + 8) in *. set (cs' := cs1 ++ taken (need n) s ++ cs2) in *.
  assert (Hp0 : 0 < p).
  { rewrite E, Forall_app in Hw. pose proof (total_nonneg _ (wf_big _ (proj1 Hw))). lia. }
  pose proof (fs_aligned _ _ _ _ _ Hf Hlo) as Hal. pose proof (fs_room _ _ _ _ _ Hf) as Hroom.
  rewrite (proj2 (Z.eqb_neq p 0)) by lia. apply wp_bind.
  eapply wp_mono; [apply (memset_zero_ok _ p h1 cs' Hi1)|].
  { rewrite El, Z2Nat.id by lia. intros a Ha. apply (fs_new _ _ _ _ _ Hf).
    split; [|destruct (floor4 a); lia]. Z.to_euclidean_division_equations. lia. }
  intros _ h2 (Hi2 & Hp2 & Hb2). rewrite Z2Nat.id in Hb2 by lia. apply wp_ret. exists cs'.
  split_and!; [done|by eapply same_place_trans| |right; split_and!; [lia|done|]].
  - intros b Hb. rewrite Hb2. destruct (Z.leb_spec p b), (Z.ltb_spec b (p + n)); simpl; try by apply Hkb.
    destruct (fs_new _ _ _ _ _ Hf (b - b mod 4)) as [_ []]; [|done].
    split; [|destruct (floor4 b); lia]. Z.to_euclidean_division_equations. lia.
  - intros b Hb. rewrite Hb2, (proj2 (Z.leb_le _ _)), (proj2 (Z.ltb_lt _ _)) by lia. done.
Qed.

(** C30: cleared memory.  On a heap in order with no free of an interrupt handler pending, [mm_calloc] of [n] elements of [e] bytes returns: NULL with the heap as it was
    when [n * e] is 0, does not fit in 32 bits or finds no chunk, and else memory for [n * e] bytes,
    every byte of them zero; the bytes of all memory in use stay as they were. *)
Theorem calloc_zeroes h cs n e : heap_inv h cs [] -> 0 <= n < 4294967296 -> 0 <= e < 4294967296 ->
  exists p h', mm_calloc CtxTask n e h = Ret (p, h') /\ zeroed h cs (n * e) p h' /\
    (p <> 0 -> n * e < 4294967296).
Proof.
  intros Hi Hn He. unfold mm_calloc, SIZE_MAX.
  assert (Hno : n * e = 0 \/ 4294967296 <= n * e -> zeroed h cs (n * e) 0 h).
  { intros Hz. exists cs. split_and!; [done|done|done|]. left. split_and!; [done|done|].
    destruct Hz as [?|Hz]; [by left|right]. intros s Hs.
    apply list_elem_of_split in Hs as (cs1 & cs2 & ->).
    destruct (lay_chunk _ _ _ _ (proj1 (hi_st _ _ _ Hi))) as (_ & _ & _ & _ & _ & _ & _ & _ & Hs).
    pose proof (proj1 (need_ge (n * e))). unfold MM_ALLOC_BIT in Hs. simpl in Hs. lia. }
  destruct (Z.ltb_spec 0 n); simpl; [|exists 0, h; split_and!; [done|apply Hno; left; nia|done]].
  destruct (Z.ltb_spec 0 e); simpl; [|exists 0, h; split_and!; [done|apply Hno; left; nia|done]].
  destruct (Z.leb_spec n (4294967295 / e)) as [Hle|Hgt].
  - assert (n * e < 4294967296) by (pose proof (Z.mul_div_le 4294967295 e ltac:(lia)); nia).
    rewrite u32_small by nia. destruct (zalloc_ok h cs (n * e) Hi ltac:(nia)) as (p & h' & Hrun & Hz). eauto.
  - assert (4294967296 <= n * e) by (pose proof (Z.mul_succ_div_gt 4294967295 e ltac:(lia)); nia).
    exists 0, h. split_and!; [done|apply Hno; by right|done].
Qed.

Lemma calloc_zeroes_witness : exists h, heap_inv h demo_row [] /\
  exists p h', mm_calloc CtxTask 5 12 h = Ret (p, h') /\ zeroed h demo_row 60 p h' /\ (p <> 0 -> 60 < 4294967296).
Proof.
  destruct demo_heap as (h & _ & Hi & El). exists h. split; [exact Hi|].
  apply (calloc_zeroes h demo_row 5 12 Hi); lia.
Defined.

End MmZero.
