(* ===== verification/MmAlign.v ===== *)
(** * Aligned memory

    [mm_shrinkchunk] and [mm_memalign]: the front and the tail of an allocated
    chunk go back to the list. *)

From S2P Require Import Prelude MmHeap MmList MmLayout MmSteps MmSpec MmFree MmInfo MmInit MmProps.
Import MmHeap MmList MmLayout MmSteps MmSpec MmFree MmInit MmProps.

Module MmAlign.

(** ** New headers for two chunks *)

Lemma elem_mid {X} (L F : list X) x z : z ∈ L ++ x :: F -> z ∈ x :: L ++ F.
Proof. rewrite elem_of_cons, !elem_of_app, elem_of_cons. tauto. Qed.

Lemma st_recut h cs1 mid x b1 y b2 cs2 F m' : let a := lo h + total cs1 in
  st h (cs1 ++ mid ++ cs2) F -> total mid = x + y -> wf (x, b1) -> wf (y, b2) ->
  touch (mm_nodelist h) a (a + (x + y)) [] (words h) m' ->
  m' !! size_ a = Some x -> m' !! preceding a = Some (pword (lastsz 8 cs1) b1) ->
  m' !! size_ (a + x) = Some y -> m' !! preceding (a + x) = Some (pword x b2) ->
  m' !! preceding (a + (x + y)) = Some (pword y (headb cs2)) ->
  (forall z s, Chunk z s ∈ F -> z + s <= a \/ a + (x + y) <= z) ->
  st (set_words m' h) (cs1 ++ (x, b1) :: (y, b2) :: cs2) F.
Proof.
  intros a H Ht W1 W2 T S1 P1 S2 P2 P3 HF.
  apply (st_replace h cs1 mid [(x, b1); (y, b2)] cs2); fold a; rewrite ?Ht; try done.
  - simpl. lia.
  - by repeat apply Forall_cons_2.
Qed.

(** ** The tail: [mm_shrinkchunk] *)

Definition shrunk (M N : Z) (rest : list chunk) : list chunk :=
  let '(s, r) := join_next (N - M) rest in (M, true) :: (s, false) :: r.

Lemma shrunk_coalesce M N rest : coalesced rest ->
  shrunk M N rest = (M, true) :: coalesce ((N - M, false) :: rest).
Proof. intros H. unfold shrunk. rewrite coalesce_next by done. by destruct (join_next (N - M) rest). Qed.

(** Linking does not reach memory between the nodes. *)

Lemma links_inside h cs F m m' x y : lay h cs -> links_only (mm_nodelist h) (hooks ++ F) m m' ->
  lo h <= x -> y <= mm_heapend h -> (forall n, n ∈ F -> exists z t, n = Chunk z t /\ 16 <= t /\ (z + t <= x \/ y <= z)) ->
  forall b, x <= b < y -> m' !! b = m !! b.
Proof.
  intros Hl [_ E] Hx Hy HF b Hb. apply E. intros n [(i & -> & Hi)%hooks_elem|Hn]%elem_of_app.
  - pose proof (ly_reg _ _ Hl) as []. unfold flink, blink. simpl. lia.
  - destruct (HF n Hn) as (z & t & -> & Ht & Hz). unfold flink, blink. simpl. lia.
Qed.

Lemma others_nodes h cs1 s cs2 n : Forall wf cs1 -> Forall wf cs2 -> 0 <= s -> n ∈ others h cs1 s cs2 ->
  exists z t, n = Chunk z t /\ 16 <= t /\ (z + t <= lo h + total cs1 \/ lo h + total cs1 + s <= z).
Proof.
  intros H1 H2 Hs Hn. assert (exists z t, n = Chunk z t) as (z & t & ->).
  { apply elem_of_app in Hn as [Hn|Hn]; [apply (free_nodes_range _ _ _ H1) in Hn
      |apply (free_nodes_range _ _ _ H2) in Hn]; destruct Hn as (z & t & -> & _); eauto. }
  exists z, t. split; [done|]. apply others_apart in Hn; [tauto|done|done|lia].
Qed.

(** The last step of both branches: the new chunk is added. *)

Lemma shrink_add h cs1 M s r F Q : let a := lo h + total cs1 in
  st h (cs1 ++ (M, true) :: (s, false) :: r) F ->
  (forall z t, Chunk z t ∈ F -> z + t <= a \/ a + (M + s) <= z) -> 16 <= M -> 16 <= s ->
  (forall m', st (set_words m' h) (cs1 ++ (M, true) :: (s, false) :: r) (Chunk (a + M) s :: F) ->
     touch (mm_nodelist h) a (a + (M + s)) (hooks ++ F) (words h) m' ->
     links_only (mm_nodelist h) (hooks ++ Chunk (a + M) s :: F) (words h) m' -> Q tt (set_words m' h)) ->
  wp (mm_addfreechunk (a + M)) Q h.
Proof.
  intros a H HF HM Hs HQ. pose proof (st_add h (cs1 ++ [(M, true)]) s r F Q) as A.
  rewrite <- (assoc_L (++)), total_app in A. cbn [app total fst] in A.
  replace (lo h + (total cs1 + (M + 0))) with (a + M) in A by lia. apply A; [done| |].
  - intros z t Hz. specialize (HF z t Hz). 
    destruct H as (Hl & L & HL & HP). assert (Hv : valid (lo h) (mm_heapend h) (Chunk z t)).
    { apply (proj1 (Forall_forall _ _) (no_valid _ _ _ _ _ HL)). rewrite HP. set_solver. }
    simpl in Hv. lia.
  - intros m' H' T'. apply HQ; [done| |done].
    apply (touch_absorb _ _ _ _ (Chunk (a + M) s)); [unfold flink; simpl; lia|unfold blink; simpl; lia|].
    eapply touch_mono; [..|apply (touch_links _ a (a + (M + s))); exact T']; [lia|lia|lia|]. set_solver.
Qed.

(** What is left once the headers are written: [mid] becomes two chunks. *)

Definition unmark (cs : list chunk) : list chunk := (fun c => (c.1, false)) <$> cs.

Lemma unmark_total cs : total (unmark cs) = total cs.
Proof. induction cs as [|c cs IH]; simpl; [done|]. by rewrite IH. Qed.

Lemma unmark_wf cs : Forall wf cs -> Forall wf (unmark cs).
Proof. intros H. apply Forall_fmap. eapply Forall_impl; [exact H|]. by intros [s b]. Qed.

Lemma unmark_free cs : Forall (fun c => c.2 = false) (unmark cs).
Proof. apply Forall_fmap, Forall_true. done. Qed.

Lemma shrink_end h cs0 m1 cs1 mid M s r m2 Q : let a := lo h + total cs1 in
  lay h cs0 -> st (set_words m1 h) (cs1 ++ mid ++ r) (others h cs1 (M + s) r) ->
  htouch h a (a + (M + s)) (others h cs1 (M + s) r) m1 ->
  total mid = M + s -> wf (M, true) -> wf (s, false) ->
  touch (mm_nodelist h) a (a + (M + s)) [] m1 m2 ->
  m2 !! size_ a = Some M -> m2 !! preceding a = Some (pword (lastsz 8 cs1) true) ->
  m2 !! size_ (a + M) = Some s -> m2 !! preceding (a + M) = Some (pword M false) ->
  m2 !! preceding (a + (M + s)) = Some (pword s (headb r)) ->
  (forall m', let cs' := cs1 ++ (M, true) :: (s, false) :: r in
     st (set_words m' h) cs' (free_nodes (lo h) cs') ->
     kept h (cs1 ++ unmark mid ++ r) m' -> (forall b, a <= b < a + M -> m' !! b = m2 !! b) ->
     Q tt (set_words m' h)) ->
  wp (mm_addfreechunk (a + M)) Q (set_words m2 h).
Proof.
  intros a Hl H1 T1 Ht WM Ws T2 S1 P1 S2 P2 P3 HQ.
  pose proof (ly_wf _ _ (proj1 H1)) as Hwf. rewrite !Forall_app in Hwf. destruct Hwf as (Hw1 & Hwm & Hw2).
  pose proof (proj1 WM) as HM. pose proof (proj1 Ws) as Hs. cbn [fst] in *.
  assert (HF : forall z t, Chunk z t ∈ others h cs1 (M + s) r -> z + t <= a \/ a + (M + s) <= z).
  { intros z t Hz. apply others_apart in Hz as [Hz _]; [|done|done|lia]. done. }
  assert (H2 : st (set_words m2 h) (cs1 ++ (M, true) :: (s, false) :: r) (others h cs1 (M + s) r))
    by by apply (st_recut (set_words m1 h) cs1 mid M true s false r).
  apply (shrink_add (set_words m2 h) cs1 M s r (others h cs1 (M + s) r)); [done|done|lia|lia|].
  intros m3 H3 T3 K3. change (lo (set_words m2 h)) with (lo h) in *. fold a in H3, T3, K3.
  change (set_words m3 (set_words m2 h)) with (set_words m3 h) in *. apply HQ.
  - eapply st_perm; [|exact H3]. rewrite (free_nodes_split h cs1 [(M, true); (s, false)] r). simpl. fold a.
    by replace (M + (s + 0)) with (M + s) by lia.
  - apply (touch_kept h cs0); [done|rewrite !Forall_app; split_and!; [done|by apply unmark_wf|done]| |apply unmark_free|].
    + rewrite !total_app, unmark_total. pose proof (ly_total _ _ (proj1 H1)) as E1. pose proof (ly_total _ _ Hl) as E0.
      change (lo (set_words m1 h)) with (lo h) in E1. cbn in E1. rewrite !total_app in E1. lia.
    + rewrite unmark_total, Ht. fold a. eapply touch_trans; [exact T1|].
      eapply touch_trans; [apply touch_nil; exact T2|exact T3].
  - destruct (lay_chunk _ _ _ _ (proj1 H2)) as (_ & _ & _ & _ & _ & Ha & He & _ & _).
    change (lo (set_words m2 h)) with (lo h) in *. fold a in Ha, He. cbn [fst mm_heapend set_words] in He.
    eapply (links_inside (set_words m2 h)); [exact (proj1 H2)|exact K3|done|done|].
    intros n [->|Hn]%elem_of_cons; [exists (a + M), s; split_and!; [done|done|by right]|].
    destruct (others_nodes h cs1 (M + s) r n) as (z & t & -> & Ht' & Hz); [done|done|lia|done|].
    exists z, t. split_and!; [done|done|]. fold a in Hz. lia.
Qed.

(** The tail joins the free chunk that follows. *)

Lemma shrink_free_ok h cs1 N n r M Q : let a := lo h + total cs1 in
  st h (cs1 ++ (N, true) :: (n, false) :: r) (Chunk (a + N) n :: others h cs1 (M + (N - M + n)) r) ->
  16 <= M -> M mod 16 = 0 -> M + 16 <= N ->
  (forall m', let cs' := cs1 ++ (M, true) :: (N - M + n, false) :: r in
     st (set_words m' h) cs' (free_nodes (lo h) cs') ->
     kept h (cs1 ++ (N, false) :: (n, false) :: r) m' ->
     (forall b, a + 8 <= b < a + M -> m' !! b = words h !! b) -> Q tt (set_words m' h)) ->
  wp (unlink (a + N);; v ← load (size_ (a + N)); w ← load (size_ a);
      store (size_ (a + M)) (u32 (v + w - M));; store (preceding (a + M)) M;; store (size_ a) M;;
      v ← load (size_ (a + M)); set_preceding (a + N + n) v;; mm_addfreechunk (a + M)) Q h.
Proof.
  intros a H HM HM16 HN HQ.
  pose proof (ly_wf _ _ (proj1 H)) as Hwf. rewrite Forall_app, !Forall_cons in Hwf.
  destruct Hwf as (Hw1 & [HNw HNw'] & [Hnw Hnw'] & Hw2). cbn [fst] in *. pose proof (ly_small _ _ (proj1 H)) as Hsm.
  pose proof (total_nonneg _ (wf_big _ Hw1)) as Hn1. pose proof (total_nonneg _ (wf_big _ Hw2)) as Hn2.
  pose proof (ly_total _ _ (proj1 H)) as Htot. rewrite total_app in Htot. cbn [total fst] in Htot.
  apply wp_bind. eapply st_unlink; [exact H|done|]. intros m1 H1 T1.
  assert (I1 : forall b, a <= b < a + (N + n) -> m1 !! b = words h !! b).
  { eapply (links_inside h); [exact (proj1 H)|exact T1|lia|lia|]. intros x Hx.
    destruct (others_nodes h cs1 (M + (N - M + n)) r x) as (z & u & -> & Hu & Hz); [done|done|lia|done|].
    exists z, u. fold a in Hz. split_and!; [done|done|lia]. }
  apply (links_touch h a (a + (M + (N - M + n)))) in T1.
  destruct (lay_chunk _ _ _ _ (proj1 H1)) as (Hs & Hp & _ & Hm & _ & _ & _ & _ & _). change (lo (set_words m1 h)) with (lo h) in *.
  fold a in Hs, Hp, Hm.
  assert (Hn : st (set_words m1 h) ((cs1 ++ [(N, true)]) ++ (n, false) :: r) (others h cs1 (M + (N - M + n)) r))
    by by rewrite <- (assoc_L (++)).
  destruct (lay_chunk _ _ _ _ (proj1 Hn)) as (Hns & _ & Hnx & _ & _ & _ & _ & _ & _).
  change (lo (set_words m1 h)) with (lo h) in *. rewrite total_app in Hns, Hnx. cbn [total fst snd] in *.
  replace (lo h + (total cs1 + (N + 0))) with (a + N) in Hns, Hnx by lia.
  apply wp_bind. eapply wp_load; [exact Hns|]. apply wp_bind. eapply wp_load; [exact Hs|].
  assert (HNn : N + n < MM_ALLOC_BIT) by (unfold lo in *; lia). rewrite u32_small by (unfold MM_ALLOC_BIT in *; lia).
  assert (Hdom : forall b, b mod 4 = 0 -> a <= b < a + N -> is_Some (m1 !! b)).
  { intros b Hb Hr. apply (ly_dom _ _ (proj1 H1)); [done|]. cbn [mm_heapend set_words].
    change (lo (set_words m1 h)) with (lo h). lia. }
  apply wp_bind, wp_store; [apply Hdom; unfold size_; Z.to_euclidean_division_equations; lia|].
  apply wp_bind, wp_store; [apply insert_some, Hdom; unfold preceding; Z.to_euclidean_division_equations; lia|].
  apply wp_bind, wp_store; [do 2 apply insert_some; by eexists|].
  apply wp_bind. eapply wp_load; [look|]. apply wp_bind, (wp_set_preceding _ n (headb r)); [look|lia|lia|].
  replace (n + N - M) with (N - M + n) in * by lia. assert (Ee : a + (M + (N - M + n)) = a + N + n) by lia.
  apply (shrink_end h (cs1 ++ (N, true) :: (n, false) :: r) m1 cs1 [(N, true); (n, false)] M (N - M + n) r);
    fold a; rewrite ?Ee.
  - exact (proj1 H).
  - done.
  - by rewrite Ee in T1.
  - simpl. lia.
  - done.
  - split; simpl; [lia|]. Z.to_euclidean_division_equations. lia.
  - do 3 (eapply touch_trans; [|apply touch_insert; unfold size_, preceding; lia]).
    apply touch_insert. unfold size_, preceding. lia.
  - look.
  - look.
  - look.
  - look.
  - look.
  - cbn zeta. intros m' H' K' O'. apply HQ; [done|done|]. intros b Hb. rewrite O' by lia.
    rewrite <- (I1 b) by lia. look.
Qed.

Lemma shrink_ok h cs1 N rest M Q : let a := lo h + total cs1 in
  let cs := cs1 ++ (N, true) :: rest in
  st h cs (free_nodes (lo h) cs) -> 16 <= M -> M mod 16 = 0 -> M + 16 <= N ->
  (forall m', let cs' := cs1 ++ shrunk M N rest in
     st (set_words m' h) cs' (free_nodes (lo h) cs') ->
     kept h (cs1 ++ (N, false) :: rest) m' ->
     (forall b, a + 8 <= b < a + M -> m' !! b = words h !! b) -> Q tt (set_words m' h)) ->
  wp (mm_shrinkchunk a M) Q h.
Proof.
  intros a cs H HM HM16 HN HQ. subst cs.
  destruct (lay_chunk _ _ _ _ (proj1 H)) as (Hs & Hp & Hx & Hm & [Hw Hw'] & Ha & He & Hlz & Hsl).
  fold a in Hs, Hp, Hx, Hm, Ha, He. cbn [fst snd] in *.
  pose proof (ly_wf _ _ (proj1 H)) as Hwf. rewrite Forall_app, Forall_cons in Hwf. destruct Hwf as (Hw1 & _ & Hw2).
  pose proof (ly_small _ _ (proj1 H)) as Hsm.
  assert (HF0 : free_nodes (lo h) (cs1 ++ (N, true) :: rest) ≡ₚ others h cs1 N rest).
  { rewrite (free_nodes_split h cs1 [(N, true)] rest). simpl. by replace (N + 0) with N by lia. }
  apply st_perm with (F' := others h cs1 N rest) in H; [|done].
  unfold mm_shrinkchunk. apply wp_bind, wp_assert.
  { apply Z.eqb_eq. change MM_GRAN_MASK with (Z.ones 4). by rewrite Z.land_ones by lia. }
  apply wp_bind. eapply wp_load; [exact Hs|]. apply wp_bind. eapply wp_load; [exact Hx|].
  rewrite pword_alloc by lia. destruct (negb (headb rest)) eqn:Eh.
  - destruct rest as [|[n []] r]; try done.
    assert (Hn : st h ((cs1 ++ [(N, true)]) ++ (n, false) :: r) (others h cs1 N ((n, false) :: r)))
      by by rewrite <- (assoc_L (++)).
    destruct (lay_chunk _ _ _ _ (proj1 Hn)) as (Hns & _). rewrite total_app in Hns. cbn [total fst snd] in Hns.
    replace (lo h + (total cs1 + (N + 0))) with (a + N) in Hns by lia.
    apply wp_bind. eapply wp_load; [exact Hns|]. apply (shrink_free_ok h cs1 N n r M); [|done..].
    eapply st_perm; [|exact H]. unfold others. simpl. fold a.
    replace (a + N + n) with (a + (M + (N - M + n))) by lia. solve_Permutation.
  - assert (Ej : join_next (N - M) rest = (N - M, rest)) by (destruct rest as [|[n []] r]; done).
    unfold shrunk in HQ. rewrite Ej in HQ. apply negb_false_iff in Eh. rewrite Eh in Hx.
    apply wp_bind. eapply wp_load; [exact Hs|]. rewrite !u32_small by (unfold SIZEOF_MM_FREENODE, MM_ALLOC_BIT in *; lia).
    rewrite (proj2 (Z.leb_le _ _)) by (unfold SIZEOF_MM_FREENODE; lia).
    assert (Hdom : forall b, b mod 4 = 0 -> a <= b < a + N -> is_Some (words h !! b)).
    { intros b Hb Hr. apply (ly_dom _ _ (proj1 H)); [done|lia]. }
    apply wp_bind, wp_store; [apply Hdom; unfold size_; Z.to_euclidean_division_equations; lia|].
    apply wp_bind, wp_store; [apply insert_some, Hdom; unfold preceding; Z.to_euclidean_division_equations; lia|].
    apply wp_bind, wp_store; [do 2 apply insert_some; by eexists|].
    apply wp_bind. eapply wp_load; [look|]. rewrite (pword_lor _ true) by lia.
    apply wp_bind, wp_store; [do 3 apply insert_some; by eexists|].
    assert (Eh' : a + (M + (N - M)) = a + N) by lia.
    apply (shrink_end h (cs1 ++ (N, true) :: rest) (words h) cs1 [(N, true)] M (N - M) rest);
      fold a; rewrite ?Eh'.
    + exact (proj1 H).
    + replace (M + (N - M)) with N by lia. by destruct h.
    + done.
    + simpl. lia.
    + done.
    + split; simpl; [lia|]. Z.to_euclidean_division_equations. lia.
    + do 3 (eapply touch_trans; [|apply touch_insert; unfold size_, preceding; lia]).
      apply touch_insert. unfold size_, preceding. lia.
    + look.
    + look.
    + look.
    + look.
    + rewrite Eh. look.
    + cbn zeta. intros m' H' K' O'. apply HQ; [done|done|]. intros b Hb. rewrite O' by lia. look.
Qed.

(** ** The front *)

Lemma cut_front_ok h cs1 N rest k A Q : let a := lo h + total cs1 in
  let cs := cs1 ++ (N, true) :: rest in
  st h cs (free_nodes (lo h) cs) -> 16 <= k -> k mod 16 = 0 -> k + 16 <= N ->
  (forall m', let cs' := cs1 ++ (k, false) :: (N - k, true) :: rest in
     st (set_words m' h) cs' (free_nodes (lo h) cs') ->
     kept h (cs1 ++ (N, false) :: rest) m' -> Q (a + 8 + k, a + k, N - k - 8) (set_words m' h)) ->
  wp (cut_front a (a + 8) (a + 8 + k) A) Q h.
Proof.
  intros a cs H Hk Hk16 HN HQ. subst cs.
  destruct (lay_chunk _ _ _ _ (proj1 H)) as (Hs & Hp & Hx & Hm & [Hw Hw'] & Ha & He & Hlz & Hsl).
  fold a in Hs, Hp, Hx, Hm, Ha, He. cbn [fst snd] in *.
  pose proof (ly_wf _ _ (proj1 H)) as Hwf. rewrite Forall_app, Forall_cons in Hwf. destruct Hwf as (Hw1 & _ & Hw2).
  assert (HF0 : free_nodes (lo h) (cs1 ++ (N, true) :: rest) ≡ₚ others h cs1 N rest).
  { rewrite (free_nodes_split h cs1 [(N, true)] rest). simpl. by replace (N + 0) with N by lia. }
  apply st_perm with (F' := others h cs1 N rest) in H; [|done].
  assert (HF : forall z t, Chunk z t ∈ others h cs1 N rest -> (z + t <= a \/ a + N <= z) /\ 16 <= t).
  { intros z t Hz. by apply others_apart in Hz; [|done|done|lia]. }
  assert (Hdom : forall b, b mod 4 = 0 -> a <= b < a + N -> is_Some (words h !! b)).
  { intros b Hb Hr. apply (ly_dom _ _ (proj1 H)); [done|lia]. }
  unfold cut_front, SIZEOF_MM_ALLOCNODE, SIZEOF_MM_FREENODE. apply wp_bind. eapply wp_load; [exact Hs|].
  apply wp_bind, wp_assert; [apply Z.leb_le; lia|].
  rewrite (proj2 (Z.ltb_ge (a + 8 + k - 8 - a) 16)) by lia. replace (a + 8 + k - 8) with (a + k) by lia.
  replace (a + k - a) with k by lia. replace (a + N - (a + k)) with (N - k) by lia.
  rewrite (u32_small (N - k)), (pword_lor k true) by (unfold MM_ALLOC_BIT in *; lia).
  apply wp_bind, wp_store; [apply Hdom; unfold size_; Z.to_euclidean_division_equations; lia|].
  apply wp_bind, wp_store; [apply insert_some, Hdom; unfold preceding; Z.to_euclidean_division_equations; lia|].
  apply wp_bind, wp_store; [do 2 apply insert_some; by eexists|].
  apply wp_bind. eapply wp_load; [look|]. rewrite pword_size by done.
  apply wp_bind, wp_store; [do 3 apply insert_some; by eexists|].
  apply wp_bind. eapply wp_load; [look|]. apply wp_bind, (wp_set_preceding _ N (headb rest)); [look|lia|lia|].
  apply wp_bind. eapply wp_load; [look|]. rewrite u32_small by (unfold MM_ALLOC_BIT in *; lia).
  match goal with |- wp _ _ ?x => set (h2 := x) end.
  assert (T : touch (mm_nodelist h) a (a + N) [] (words h) (words h2)).
  { do 4 (eapply touch_trans; [|apply touch_insert; unfold size_, preceding; lia]).
    apply touch_insert. unfold size_, preceding. lia. }
  assert (H2 : st (set_words (words h2) h) (cs1 ++ (k, false) :: (N - k, true) :: rest) (others h cs1 N rest)).
  { apply (st_recut h cs1 [(N, true)] k false (N - k) true rest); fold a; replace (k + (N - k)) with N by lia; try done.
    - simpl. lia.
    - split; simpl; [lia|]. Z.to_euclidean_division_equations. lia.
    - unfold h2. look.
    - unfold h2. look.
    - unfold h2. look.
    - unfold h2. look.
    - unfold h2. look.
    - intros z t Hz. by apply HF in Hz as [? _]. }
  change h2 with (set_words (words h2) h). apply wp_bind.
  apply (st_add (set_words (words h2) h) cs1 k ((N - k, true) :: rest) (others h cs1 N rest)); [done| |].
  { intros z t Hz. apply HF in Hz. change (lo (set_words (words h2) h)) with (lo h). fold a. lia. }
  intros m3 H3 T3. change (lo (set_words (words h2) h)) with (lo h) in *. fold a in H3, T3.
  change (set_words m3 (set_words (words h2) h)) with (set_words m3 h) in *. apply wp_ret. apply HQ.
  - eapply st_perm; [|exact H3]. rewrite (free_nodes_split h cs1 [(k, false); (N - k, true)] rest). simpl. fold a.
    by replace (k + (N - k + 0)) with N by lia.
  - apply (touch_kept h (cs1 ++ (N, true) :: rest) cs1 [(N, false)] rest).
    + exact (proj1 H).
    + rewrite !Forall_app, Forall_singleton. done.
    + rewrite !total_app. simpl. lia.
    + by apply Forall_singleton.
    + simpl. replace (N + 0) with N by lia. fold a. eapply touch_trans; [apply touch_nil; exact T|].
      apply (touch_absorb _ _ _ _ (Chunk a k)); [unfold flink; simpl; lia|unfold blink; simpl; lia|].
      eapply touch_mono; [..|apply (touch_links _ a (a + N)); exact T3]; [lia|lia|lia|].
      intros z Hz. by apply (elem_mid hooks).
Qed.

(** ** Powers of two *)

Lemma land_mask k x : 0 <= k <= 32 -> 0 <= x < 4294967296 ->
  Z.land x (not32 (2 ^ k - 1)) = x - x mod 2 ^ k.
Proof.
  intros Hk Hx. assert (Hp : 0 < 2 ^ k) by (apply Z.pow_pos_nonneg; lia).
  replace (x - x mod 2 ^ k) with (Z.shiftl (Z.shiftr x k) k)
    by (rewrite Z.shiftl_mul_pow2, Z.shiftr_div_pow2 by lia; pose proof (Z.div_mod x (2 ^ k)); lia).
  assert (E : not32 (2 ^ k - 1) = Z.shiftl (Z.ones (32 - k)) k).
  { rewrite Z.shiftl_mul_pow2, Z.ones_equiv by lia. unfold not32.
    assert (2 ^ (32 - k) * 2 ^ k = 4294967296) by (rewrite <- Z.pow_add_r by lia; by replace (32 - k + k) with 32 by lia). lia. }
  rewrite E. apply Z.bits_inj'. intros n Hn.
  rewrite Z.land_spec, !Z.shiftl_spec by lia. destruct (Z.ltb_spec n k).
  - rewrite !(Z.testbit_neg_r _ (n - k)) by lia. apply andb_false_r.
  - rewrite Z.shiftr_spec by lia. replace (n - k + k) with n by lia.
    rewrite Z.testbit_ones_nonneg by lia. destruct (Z.ltb_spec (n - k) (32 - k)); [apply andb_true_r|].
    rewrite andb_false_r. destruct (decide (x = 0)) as [->|]; [by rewrite Z.bits_0|].
    rewrite Z.bits_above_log2; [done|lia|]. assert (Z.log2 x < 32); [|lia]. apply Z.log2_lt_pow2; lia.
Qed.

(** The test [(alignment & -alignment) != alignment] of the code. *)

Lemma pow2_test A : 0 < A < 2147483648 -> Z.land A (u32 (- A)) = A -> A = 2 ^ Z.log2 A.
Proof.
  intros HA E. set (k := Z.log2 A). destruct (Z.log2_spec A ltac:(lia)) as [H1 H2]. fold k in H1, H2.
  pose proof (Z.log2_nonneg A) as Hk0. fold k in Hk0.
  assert (Hk : k < 31) by (apply Z.log2_lt_pow2; lia).
  destruct (decide (A = 2 ^ k)) as [|Hne]; [done|exfalso].
  assert (Hb : Z.testbit (u32 (- A)) k = false).
  { unfold u32. change 4294967296 with (2 ^ 32). rewrite Z.mod_pow2_bits_low by lia.
    rewrite Z.testbit_eqb by lia. apply Z.eqb_neq. rewrite Z.pow_succ_r in H2 by lia.
    assert (Hp : 0 < 2 ^ k) by (apply Z.pow_pos_nonneg; lia).
    replace (- A / 2 ^ k) with (-2); [done|]. apply Z.div_unique with (2 * 2 ^ k - A); lia. }
  assert (Ht : Z.testbit A k = true) by (apply Z.bit_log2; lia).
  rewrite <- E, Z.land_spec, Hb, andb_false_r in Ht. done.
Qed.

(** ** [mm_memalign] *)

Definition front (k : Z) : list chunk := if k =? 0 then [] else [(k, false)].

Lemma front_total k : total (front k) = k.
Proof. unfold front. destruct (Z.eqb_spec k 0); simpl; lia. Qed.

Lemma kept_trans h h1 cs cs' m : lo h1 = lo h -> (forall b, held (lo h) cs b -> held (lo h) cs' b) ->
  kept h cs (words h1) -> kept h1 cs' m -> kept h cs m.
Proof. intros El Hs H1 H2 b Hb. rewrite H2, H1; [done|done|]. rewrite El. auto. Qed.

(** The first multiple of [A] from [x] on is at most [A - 16] bytes away. *)

Lemma first_point k x : 5 <= k -> 0 < x -> x mod 16 = 0 ->
  let y := x + 2 ^ k - 1 - (x + 2 ^ k - 1) mod 2 ^ k in
  x <= y <= x + 2 ^ k - 16 /\ y mod 2 ^ k = 0 /\ y mod 16 = 0.
Proof.
  intros Hk Hx Hx16 y. set (q := 2 ^ (k - 4)).
  assert (HA : 2 ^ k = 16 * q) by (unfold q; change 16 with (2 ^ 4); rewrite <- Z.pow_add_r by lia; f_equal; lia).
  assert (Hq : 0 < q) by (apply Z.pow_pos_nonneg; lia). subst y. rewrite HA.
  pose proof (Z.mod_pos_bound (x + 16 * q - 1) (16 * q) ltac:(lia)) as Hr.
  pose proof (Z.div_mod (x + 16 * q - 1) (16 * q) ltac:(lia)) as Hd.
  set (r := (x + 16 * q - 1) mod (16 * q)) in *. set (d := (x + 16 * q - 1) / (16 * q)) in *.
  assert (Ey : x + 16 * q - 1 - r = 16 * (q * d)) by lia. rewrite Ey.
  replace (16 * (q * d)) with (d * (16 * q)) at 3 by lia. rewrite Z.mod_mul by lia.
  replace (16 * (q * d)) with ((q * d) * 16) at 3 by lia. rewrite Z.mod_mul by lia.
  apply Z.div_exact in Hx16; [|lia]. set (z := x / 16) in *. set (e := q * d) in *. split_and!; [lia|lia|done|done].
Qed.

Lemma trim_ok h cs1 N rest A al n : let a := lo h + total cs1 in
  let cs := cs1 ++ (N, true) :: rest in
  st h cs (free_nodes (lo h) cs) -> coalesced rest ->
  A = 2 ^ Z.log2 A -> 32 <= A -> 0 <= n -> need n + A <= N -> need n < al ->
  wp (trim (a + 8) A al n) (fun p h' => exists m' k, h' = set_words m' h /\ p = a + 8 + k /\
    0 <= k /\ k + need n + 16 <= N /\ k mod 16 = 0 /\ (k = 0 \/ 16 <= k) /\ p mod A = 0 /\
    let cs' := cs1 ++ front k ++ (need n, true) :: coalesce ((N - k - need n, false) :: rest) in
    st h' cs' (free_nodes (lo h) cs') /\ kept h (cs1 ++ (N, false) :: rest) m') h.
Proof.
  intros a cs H Hco HA H32 Hn HN Hal. subst cs.
  destruct (lay_chunk _ _ _ _ (proj1 H)) as (_ & _ & _ & Hm & _ & Ha & He & _ & Hsl).
  fold a in Hm, Ha, He. cbn [fst] in *. pose proof (ly_top _ _ (proj1 H)) as Htop.
  pose proof (rg_pos _ _ _ (ly_reg _ _ (proj1 H))) as Hpos. destruct (need_ge n) as [Hg Hg16].
  assert (Hn16 : 16 <= need n) by (unfold need; Z.to_euclidean_division_equations; lia).
  assert (Hk5 : 5 <= Z.log2 A) by (change 5 with (Z.log2 32); apply Z.log2_le_mono; lia).
  assert (Hk32 : Z.log2 A < 31) by (apply Z.log2_lt_pow2; unfold MM_ALLOC_BIT in *; lia).
  assert (Hraw : (a + 8) mod 16 = 0) by (Z.to_euclidean_division_equations; lia).
  destruct (first_point (Z.log2 A) (a + 8) Hk5 ltac:(lia) Hraw) as (Hy & HyA & Hy16). rewrite <- HA in Hy, HyA, Hy16.
  unfold trim. rewrite (u32_small (A - 1)), (u32_small (a + 8 + (A - 1))) by (unfold MM_ALLOC_BIT in *; lia).
  replace (a + 8 + (A - 1)) with (a + 8 + A - 1) by lia.
  pose proof (land_mask (Z.log2 A) (a + 8 + A - 1) ltac:(lia) ltac:(unfold MM_ALLOC_BIT in *; lia)) as Hland.
  rewrite <- HA in Hland. rewrite Hland. clear Hland. set (y := a + 8 + A - 1 - (a + 8 + A - 1) mod A) in *. clearbody y.
  unfold SIZEOF_MM_ALLOCNODE. replace (a + 8 - 8) with a by lia.
  assert (Hsz : MM_ALIGN_UP (u32 (n + 8)) = need n).
  { destruct (align_need n ltac:(unfold MM_ALLOC_BIT in *; lia)) as [(_ & E & _)|[_ ?]]; [done|unfold MM_ALLOC_BIT in *; lia]. }
  rewrite Hsz. apply wp_bind. destruct (Z.eqb_spec y (a + 8)) as [Ey|Ey]; cbn [negb].
  - apply wp_ret. rewrite (proj2 (Z.ltb_lt _ _)) by lia. apply wp_bind.
    apply (shrink_ok h cs1 N rest (need n)); [done|lia|done|lia|]. cbn zeta. intros m' H' K' _. apply wp_ret.
    exists m', 0. split_and!; [done|lia|lia|lia|done|by left|done| |done].
    rewrite shrunk_coalesce in H' by done. by replace (N - 0) with N by lia.
  - set (k := y - (a + 8)). assert (Hk : 16 <= k /\ k mod 16 = 0).
    { unfold k in *. split; Z.to_euclidean_division_equations; lia. }
    replace y with (a + 8 + k) by lia. apply (cut_front_ok h cs1 N rest k A); [done|tauto|tauto|lia|].
    cbn zeta. intros m1 H1 K1. fold a. rewrite (proj2 (Z.ltb_lt _ _)) by lia. apply wp_bind.
    pose proof (shrink_ok (set_words m1 h) (cs1 ++ [(k, false)]) (N - k) rest (need n)) as S.
    change (lo (set_words m1 h)) with (lo h) in S. rewrite total_app in S. cbn [total fst] in S.
    replace (lo h + (total cs1 + (k + 0))) with (a + k) in S by lia. rewrite <- !(assoc_L (++)) in S. cbn [app] in S.
    apply S; [done|lia|done|lia|clear S]. cbn zeta. intros m2 H2 K2 _. apply wp_ret.
    change (set_words m2 (set_words m1 h)) with (set_words m2 h) in *.
    exists m2, k. split_and!; [done|done|lia|lia|tauto|right; tauto|by replace (a + 8 + k) with y by lia| |].
    + rewrite shrunk_coalesce in H2 by done. unfold front. by rewrite (proj2 (Z.eqb_neq k 0)) by lia.
    + apply (kept_trans h (set_words m1 h) _ (cs1 ++ (k, false) :: (N - k, false) :: rest)); [done| |done|done].
      intros b. rewrite !held_app. cbn [held fst snd].
      replace (lo h + total cs1 + k + (N - k)) with (lo h + total cs1 + N) by lia. naive_solver.
Qed.

(** What is left behind the chunk that [mm_malloc] took. *)

Definition behind (N s : Z) (cs2 : list chunk) : list chunk :=
  (if N <? s then [(s - N, false)] else []) ++ cs2.

Lemma behind_held x N s cs2 b : N <= s -> held (x + s) cs2 b -> held (x + N) (behind N s cs2) b.
Proof.
  intros HN H. unfold behind. destruct (Z.ltb_spec N s); cbn [app held fst snd].
  - right. by replace (x + N + (s - N)) with (x + s) by lia.
  - by replace (x + N) with (x + s) by lia.
Qed.

Lemma behind_coalesced N s cs2 : coalesced ((s, false) :: cs2) -> coalesced (behind N s cs2).
Proof. intros [H1 H2]. unfold behind. by destruct (N <? s). Qed.

Lemma front_wf k : k mod 16 = 0 -> k = 0 \/ 16 <= k -> Forall wf (front k).
Proof.
  intros H1 H2. unfold front. destruct (Z.eqb_spec k 0); [done|]. apply Forall_singleton. split; simpl; [lia|done].
Qed.

Lemma aligned_coalesced cs1 s cs2 k M X : coalesced (cs1 ++ (s, false) :: cs2) ->
  coalesced (cs1 ++ front k ++ (M, true) :: coalesce X).
Proof.
  intros (H1 & _ & H3)%coalesced_app. rewrite orb_false_r in H3. apply coalesced_app.
  rewrite H3. split_and!; [done| |done]. apply coalesced_app.
  assert (coalesced ((M, true) :: coalesce X)).
  { split; [by destruct (coalesce X)|apply coalesced_coalesce]. }
  unfold front. destruct (k =? 0); split_and!; done.
Qed.

Lemma aligned_fresh a n cs cs1 s cs2 N k : Forall wf cs -> cs = cs1 ++ (s, false) :: cs2 -> N <= s ->
  0 <= n -> 0 <= k -> k + need n + 16 <= N -> k mod 16 = 0 -> k = 0 \/ 16 <= k ->
  fresh a n cs (cs1 ++ front k ++ (need n, true) :: coalesce ((N - k - need n, false) :: behind N s cs2))
    (a + total cs1 + 8 + k).
Proof.
  intros Hw -> HN Hn Hk HkN Hk16 Hk0. rewrite Forall_app, Forall_cons in Hw.
  destruct Hw as (Hw1 & [Hsw _] & Hw2). cbn [fst] in *. destruct (need_ge n) as [Hg _].
  pose proof (total_mod _ Hw1) as Hm1. set (X := coalesce _). rewrite (assoc_L (++)).
  assert (Hwf : Forall wf (cs1 ++ front k)) by (apply Forall_app; split; [done|by apply front_wf]).
  assert (Ht : a + total cs1 + 8 + k = a + total (cs1 ++ front k) + 8) by (rewrite total_app, front_total; lia).
  assert (Hu : usable a ((cs1 ++ front k) ++ (need n, true) :: X) (a + total cs1 + 8 + k) = need n - 8)
    by (rewrite Ht; by apply usable_app).
  constructor.
  - intros Ha. Z.to_euclidean_division_equations. lia.
  - rewrite live_app, Ht. right. by left.
  - rewrite Hu. lia.
  - rewrite Hu. intros b Hb. split.
    + rewrite held_app, total_app, front_total. right. cbn [held fst snd]. left. split; [done|lia].
    + intros F. apply held_here in F as [? _]; [done|done|done|lia|lia].
  - intros b. rewrite !held_app, !total_app, front_total. intros [F|F]; [by left; left|].
    cbn [held fst snd] in F |- *. destruct F as [[? _]|F]; [done|]. right. right. unfold X. rewrite held_coalesce.
    cbn [held fst snd]. right. replace (a + (total cs1 + k) + need n + (N - k - need n)) with (a + total cs1 + N) by lia.
    by apply behind_held.
Qed.

Lemma align_size n : 0 <= n < 4294967296 -> (n <= MM_ALIGN_UP n /\ MM_ALIGN_UP n = up n) \/ MM_ALIGN_UP n < n.
Proof.
  intros Hn. unfold MM_ALIGN_UP, MM_GRAN_MASK, up.
  rewrite land_gran by (apply Z.mod_pos_bound; lia). unfold u32. Z.to_euclidean_division_equations. lia.
Qed.

(** The memory at [p] is cut out of one free chunk, and nothing is lost: in front of
    it and behind it there is one free chunk each, where there is space at all. *)

Definition cut_out (a n : Z) (cs cs' : list chunk) (p : Z) : Prop :=
  exists cs1 s cs2 k, cs = cs1 ++ (s, false) :: cs2 /\ p = a + total cs1 + 8 + k /\
    0 <= k /\ k + need n <= s /\ cs' = cs1 ++ front k ++ (need n, true) :: front (s - k - need n) ++ cs2.

(** When there is no memory: the alignment is too large or no power of two, or no
    free chunk has room, for larger alignments with two of them in reserve. *)

Definition no_room (cs : list chunk) (N : Z) : Prop := forall s, (s, false) ∈ cs -> s < N.

Definition refused (cs : list chunk) (A n : Z) : Prop :=
  2147483647 <= A \/ (0 < A /\ A <> 2 ^ Z.log2 A) \/ (A <= 16 /\ (n = 0 \/ no_room cs (need n))) \/
  (16 < A /\ (4294967296 <= up n + 2 * A \/ no_room cs (need (up n + 2 * A)))).

(** What [mm_memalign] leaves: nothing new, or fresh memory at a multiple of [A]. *)

Definition aligned (h : mm_heap) (cs : list chunk) (A n p : Z) (h' : mm_heap) : Prop :=
  exists cs', heap_inv h' cs' [] /\ kept h cs (words h') /\
    (p = 0 /\ cs' = cs /\ refused cs A n \/
     p <> 0 /\ fresh (lo h) n cs cs' p /\ cut_out (lo h) n cs cs' p /\ (0 < A -> A = 2 ^ Z.log2 A /\ p mod A = 0)).

Lemma aligned_null h cs A n : heap_inv h cs [] -> refused cs A n -> aligned h cs A n 0 h.
Proof. intros Hi Hr. exists cs. split_and!; [done|done|by left]. Qed.

Lemma taken_front N s : N <= s -> taken N s = (N, true) :: front (s - N).
Proof.
  intros H. unfold taken, front. destruct (Z.ltb_spec N s); [by rewrite (proj2 (Z.eqb_neq _ _)) by lia|].
  by replace (s - N =? 0) with true by (symmetry; apply Z.eqb_eq; lia).
Qed.

Lemma behind_joined M N s cs2 : 0 < M -> N <= s -> coalesced ((s, false) :: cs2) ->
  coalesce ((M, false) :: behind N s cs2) = front (M + (s - N)) ++ cs2.
Proof.
  intros HM HN [H1 H2]. unfold front. rewrite (proj2 (Z.eqb_neq (M + (s - N)) 0)) by lia.
  unfold behind. rewrite coalesce_cons. cbn [fst snd].
  destruct (Z.ltb_spec N s); cbn [app]; rewrite coalesce_id by done; [done|].
  replace (M + (s - N)) with M by lia. by destruct cs2 as [|[t []] ?].
Qed.

(** The test for powers of two is exact. *)

Lemma pow2_tested k : (k < 31)%nat -> Z.land (2 ^ Z.of_nat k) (u32 (- 2 ^ Z.of_nat k)) = 2 ^ Z.of_nat k.
Proof. intros H. do 31 (destruct k as [|k]; [reflexivity|]). lia. Qed.

Lemma pow2_refused A : 0 <= A < 2147483647 -> Z.land A (u32 (- A)) <> A -> 0 < A /\ A <> 2 ^ Z.log2 A.
Proof.
  intros HA Ht. assert (0 < A) by (destruct (decide (A = 0)) as [->|]; [done|lia]). split; [done|]. intros E. apply Ht.
  pose proof (Z.log2_nonneg A). assert (Z.log2 A < 31) by (apply Z.log2_lt_pow2; lia).
  rewrite E. rewrite <- (Z2Nat.id (Z.log2 A)) by done. apply pow2_tested. lia.
Qed.

Lemma small_divides A p : 0 < A <= 16 -> A = 2 ^ Z.log2 A -> p mod 16 = 0 -> p mod A = 0.
Proof.
  intros HA E Hp. assert (0 <= Z.log2 A < 5) by (split; [apply Z.log2_nonneg|apply Z.log2_lt_pow2; lia]).
  assert (E' : Z.log2 A = 0 \/ Z.log2 A = 1 \/ Z.log2 A = 2 \/ Z.log2 A = 3 \/ Z.log2 A = 4) by lia.
  rewrite E. destruct E' as [->|[->|[->|[->| ->]]]]; simpl; Z.to_euclidean_division_equations; lia.
Qed.

Lemma malloc_aligned h cs A n : heap_inv h cs [] -> 0 <= n < 4294967296 -> 0 <= A <= 16 ->
  (0 < A -> A = 2 ^ Z.log2 A) -> wp (mm_malloc CtxTask n) (aligned h cs A n) h.
Proof.
  intros Hi Hn HA Hpow. eapply wp_mono; [by apply mm_malloc_ok|]. intros p h' (cs' & Hs & Hi' & _ & Hk). cbn [foldl] in *.
  pose proof (ly_reg _ _ (proj1 (hi_st _ _ _ Hi))) as [Hlo _ Hpos _ _].
  pose proof (ly_wf _ _ (proj1 (hi_st _ _ _ Hi))) as Hw.
  destruct Hs as [Hno|cs1 s cs2 Hn0 E Hle Hbest].
  { exists cs. split_and!; [done|done|left]. split_and!; [done|done|]. right; right; left. split; [lia|].
    destruct Hno; [by left|by right]. }
  pose proof (spec_fresh (lo h) n cs cs1 s cs2 Hw E Hle) as Hf.
  eexists. split_and!; [exact Hi'|done|right; split_and!; [|done| |]].
  - rewrite E, Forall_app in Hw. pose proof (total_nonneg _ (wf_big _ (proj1 Hw))). lia.
  - exists cs1, s, cs2, 0. split_and!; [done|lia|lia|lia|]. rewrite taken_front by done.
    by replace (s - 0 - need n) with (s - need n) by lia.
  - intros HA0. split; [auto|]. apply small_divides; [lia|auto|]. by apply (fs_aligned _ _ _ _ _ Hf).
Qed.

(** Trimming the chunk that [mm_malloc] took. *)

Lemma trimmed h h1 cs A n al cs1 s cs2 : heap_inv h cs [] -> cs = cs1 ++ (s, false) :: cs2 ->
  heap_inv h1 (cs1 ++ taken (need al) s ++ cs2) [] -> same_place h h1 -> kept h cs (words h1) ->
  A = 2 ^ Z.log2 A -> 32 <= A -> 0 <= n -> al = up n + 2 * A -> need al <= s ->
  wp (mm_takesemaphore CtxTask;; p ← trim (lo h + total cs1 + 8) A al n; mm_givesemaphore;; mret p)
    (aligned h cs A n) h1.
Proof.
  intros Hi E [H1 Hco1 Hsem1 Hch1 _ _ Hsz1] Hp1 Hk1 HA H32 Hn Hal Hs. pose proof (same_lo _ _ Hp1) as El.
  pose proof (ly_wf _ _ (proj1 (hi_st _ _ _ Hi))) as Hw. pose proof (hi_co _ _ _ Hi) as Hco.
  destruct (need_ge al) as [Hga Hga16]. set (N := need al) in *.
  assert (HNN : need n <= up n + 16) by (unfold need, up; Z.to_euclidean_division_equations; lia).
  change (cs1 ++ taken N s ++ cs2) with (cs1 ++ (N, true) :: behind N s cs2) in H1, Hco1.
  assert (Hcb : coalesced (behind N s cs2)).
  { apply behind_coalesced. rewrite E in Hco. by apply coalesced_app in Hco as (_ & ? & _). }
  apply wp_bind, wp_take; [done|]. apply wp_bind. apply (st_sem (mm_semaphore h1 - 1)) in H1.
  set (h1' := set_sem (mm_semaphore h1 - 1) h1) in *. replace (lo h) with (lo h1') by done.
  eapply wp_mono; [apply (trim_ok h1' cs1 N (behind N s cs2) A al n); [exact H1|done|done|done|done|lia|lia]|].
  cbn beta. intros p h2 (m' & k & -> & -> & Hk0 & HkN & Hk16 & Hk & HpA & Hst & Hkept).
  apply wp_bind, wp_modify. apply wp_ret. change (lo h1') with (lo h1) in *. rewrite El in *.
  pose proof (aligned_fresh (lo h) n cs cs1 s cs2 N k Hw E Hs Hn Hk0 HkN Hk16 Hk) as Hf.
  exists (cs1 ++ front k ++ (need n, true) :: coalesce ((N - k - need n, false) :: behind N s cs2)).
  split_and!; [|eapply kept_trans; [exact El| |exact Hk1|exact Hkept]|right; split_and!; [|exact Hf| |done]].
  - assert (El' : forall v, lo (set_sem v (set_words m' h1')) = lo h) by (intros v; exact El).
    constructor; [apply st_sem; by rewrite El'|rewrite E in Hco; by apply (aligned_coalesced cs1 s cs2)|unfold h1'; cbn; unfold sem_post; lia
      |done|by constructor|by constructor|done].
  - intros b. rewrite E, !held_app. intros [F|F]; [by left|right]. cbn [held fst snd] in F |- *.
    destruct F as [[? _]|F]; [done|right]. by apply behind_held.
  - pose proof (ly_reg _ _ (proj1 (hi_st _ _ _ Hi))) as [_ _ Hpos _ _].
    rewrite E, Forall_app in Hw. pose proof (total_nonneg _ (wf_big _ (proj1 Hw))). lia.
  - exists cs1, s, cs2, k. split_and!; [done|lia|lia|lia|]. do 3 f_equal.
    rewrite E in Hco. apply coalesced_app in Hco as (_ & Hco & _).
    rewrite behind_joined by (done || lia). by replace (N - k - need n + (s - N)) with (s - k - need n) by lia.
Qed.

Lemma up_refused cs A n : 16 < A -> 4294967296 <= up n + 2 * A -> refused cs A n.
Proof. intros HA H. do 3 right. split; [done|by left]. Qed.

Lemma align_over n A : 0 <= A -> MM_ALIGN_UP n < n < 4294967296 -> 0 <= n -> 4294967296 <= up n + 2 * A.
Proof.
  intros HA [H1 H2] Hn. unfold MM_ALIGN_UP, MM_GRAN_MASK in H1. rewrite land_gran in H1 by (apply Z.mod_pos_bound; lia).
  unfold u32, up in *. Z.to_euclidean_division_equations. lia.
Qed.

Lemma sum_over u A : 0 <= u -> 0 <= A -> u32 (u + 2 * A) < u -> 4294967296 <= u + 2 * A.
Proof.
  intros Hu HA H. unfold u32 in H. destruct (Z.ltb_spec (u + 2 * A) 4294967296); [|done].
  rewrite Z.mod_small in H by lia. lia.
Qed.

(** C28: aligned memory.  On a heap in order, with no free of an interrupt handler pending, [mm_memalign]
    of [n] bytes at an alignment of [A] returns: NULL, with the heap as it was, only where the
    alignment is too large or no power of two, nothing is asked for, or no free chunk has the room the
    code asks for ([refused]); or fresh memory for [n] bytes whose address is a multiple of [A] (an [A] of 0 asks for no alignment, and any other is a power of two then).
    It is cut out of one free chunk of which nothing is lost: the memory has the size the request needs,
    the space in front of it is one free chunk, the space behind it another one, and all other
    chunks are as before; the memory in use keeps its contents. *)
Theorem memalign_aligned h cs A n : heap_inv h cs [] -> 0 <= A < 4294967296 -> 0 <= n < 4294967296 ->
  exists p h', mm_memalign CtxTask A n h = Ret (p, h') /\ aligned h cs A n p h'.
Proof.
  intros Hi HA Hn. change (wp (mm_memalign CtxTask A n) (aligned h cs A n) h).
  pose proof (aligned_null h cs A n Hi) as Hnull. unfold mm_memalign. change (SIZE_MAX / 2) with 2147483647.
  destruct (Z.leb_spec 2147483647 A); [by apply wp_ret, Hnull; left|].
  destruct (Z.eqb_spec (Z.land A (u32 (- A))) A) as [Eb|Eb]; [cbn [negb]|apply wp_ret, Hnull; right; left; apply pow2_refused; [lia|done]].
  assert (Hpow : 0 < A -> A = 2 ^ Z.log2 A) by (intros ?; apply pow2_test; [lia|done]).
  unfold MM_MIN_CHUNK. destruct (Z.leb_spec A 16) as [|H16]; [apply malloc_aligned; [done|done|lia|done]|].
  assert (H32 : 32 <= A).
  { assert (4 < Z.log2 A); [apply (Z.pow_lt_mono_r_iff 2); [lia|apply Z.log2_nonneg|]; rewrite <- Hpow by lia; lia|].
    rewrite Hpow by lia. change 32 with (2 ^ 5). apply Z.pow_le_mono_r; lia. }
  destruct (align_size n Hn) as [[H1 H2]|H1]; [|rewrite (proj2 (Z.ltb_lt _ _)) by done; apply wp_ret, Hnull, up_refused; [done|apply (align_over n A); lia]].
  rewrite (proj2 (Z.ltb_ge _ _)) by done. cbn [orb]. rewrite H2 in *.
  assert (Hu : up n < 4294967296) by (rewrite <- H2; unfold MM_ALIGN_UP, MM_GRAN_MASK;
    rewrite land_gran by (apply Z.mod_pos_bound; lia); unfold u32; Z.to_euclidean_division_equations; lia).
  destruct (Z.ltb_spec (u32 (up n + 2 * A)) (up n)) as [Hov|Hno]; [apply wp_ret, Hnull, up_refused; [done|apply (sum_over (up n) A); lia]|].
  assert (Eal : u32 (up n + 2 * A) = up n + 2 * A).
  { unfold u32 in *. destruct (Z.ltb_spec (up n + 2 * A) 4294967296); [apply Z.mod_small; lia|].
    rewrite <- (Z.mod_unique _ _ 1 (up n + 2 * A - 4294967296)) in Hno by lia. lia. }
  rewrite Eal. apply wp_bind. eapply wp_mono; [apply mm_malloc_ok; [exact Hi|rewrite <- Eal; split; [lia|apply Z.mod_pos_bound; lia]]|].
  intros raw h1 (cs' & Hs & Hi1 & Hp1 & Hk1). cbn [foldl] in *.
  destruct Hs as [Hfull|cs1 s cs2 _ E Hle _].
  { apply wp_ret. exists cs. split_and!; [done|done|left]. split_and!; [done|done|]. do 3 right. split; [done|].
    destruct Hfull; [lia|by right]. }
  pose proof (ly_reg _ _ (proj1 (hi_st _ _ _ Hi))) as [_ _ Hpos _ _].
  pose proof (ly_wf _ _ (proj1 (hi_st _ _ _ Hi))) as Hw. rewrite E, Forall_app in Hw.
  pose proof (total_nonneg _ (wf_big _ (proj1 Hw))). rewrite (proj2 (Z.eqb_neq _ _)) by lia.
  eapply trimmed; try done; [by apply Hpow; lia|lia].
Qed.

Lemma memalign_aligned_witness : exists h, heap_inv h demo_row [] /\
  exists p h', mm_memalign CtxTask 64 50 h = Ret (p, h') /\ aligned h demo_row 64 50 p h'.
Proof.
  destruct demo_heap as (h & _ & Hi & El). exists h. split; [exact Hi|].
  apply (memalign_aligned h demo_row 64 50 Hi); lia.
Defined.

(** A run: memory, aligned memory, cleared memory, a free in an interrupt handler, a request that does
    not fit, and the figures. *)

Definition demo {A} (m : MH A) : option A :=
  match mm_initialize CtxTask 344 16 4096 4096 demo_mem with
  | Ret h => match m h with Ret (a, _) => Some a | _ => None end
  | _ => None
  end.

Example demo_run :
  demo (a ← mm_malloc CtxTask 100; b ← mm_memalign CtxTask 64 50; c ← mm_calloc CtxTask 5 12;
        mm_free CtxInterrupt a;; d ← mm_malloc CtxTask 4000; i ← mm_mallinfo CtxTask;
        mret (a, b, c, d, i))
  = Some (4464, 4608, 4672, 0, mk_info 3744 2 3 3440 160 3584).
Proof. vm_compute. reflexivity. Qed.

End MmAlign.
