(* ===== verification/MmRealloc.v ===== *)
(** * Resized memory

    [mm_realloc]: shrinking, growing into the free chunks on both sides, and
    moving, against the row of chunks; the contents come along. *)

From S2P Require Import Prelude MmHeap MmList MmLayout MmSteps MmSpec MmFree MmInfo MmInit MmProps MmAlign.
Import MmHeap MmList MmLayout MmSteps MmSpec MmFree MmInit MmProps MmAlign.

Module MmRealloc.

(** ** [memcpy]

    Copying from the front on is right when the target starts below the source or
    behind it. *)

Lemma copy_words_ok n dst src h Q : dst <= src \/ src + 4 * Z.of_nat n <= dst ->
  (forall i, 0 <= i < Z.of_nat n -> is_Some (words h !! (src + 4 * i)) /\ is_Some (words h !! (dst + 4 * i))) ->
  (forall m', grows (words h) m' ->
     (forall i, 0 <= i < Z.of_nat n -> m' !! (dst + 4 * i) = words h !! (src + 4 * i)) ->
     (forall b, (forall i, 0 <= i < Z.of_nat n -> b <> dst + 4 * i) -> m' !! b = words h !! b) ->
     Q tt (set_words m' h)) ->
  wp (copy_words n dst src) Q h.
Proof.
  revert dst src h. induction n as [|n IH]; intros dst src h Hd Hw HQ.
  - apply wp_ret. replace h with (set_words (words h) h) by by destruct h. apply HQ; [by intros b|lia|done].
  - destruct (Hw 0 ltac:(lia)) as [[w Hs] Ht]. replace (src + 4 * 0) with src in Hs by lia.
    replace (dst + 4 * 0) with dst in Ht by lia. cbn [copy_words].
    apply wp_bind. eapply wp_load; [exact Hs|]. apply wp_bind, wp_store; [done|].
    apply IH; [lia| |].
    + intros i Hi. destruct (Hw (i + 1) ltac:(lia)) as [H1 H2]. cbn.
      replace (src + 4 + 4 * i) with (src + 4 * (i + 1)) by lia.
      replace (dst + 4 + 4 * i) with (dst + 4 * (i + 1)) by lia. split; by apply insert_some.
    + cbn [words set_words]. intros m' G C O. apply (HQ m').
      * intros b Hb. by apply G, insert_some.
      * intros i Hi. destruct (decide (i = 0)) as [->|].
        -- replace (dst + 4 * 0) with dst by lia. replace (src + 4 * 0) with src by lia.
           rewrite O by lia. by rewrite lookup_insert_eq.
        -- replace (dst + 4 * i) with (dst + 4 + 4 * (i - 1)) by lia. rewrite C by lia.
           rewrite lookup_insert_ne by lia. f_equal. lia.
      * intros b Hb. rewrite O by (intros i Hi; specialize (Hb (i + 1) ltac:(lia)); lia).
        apply lookup_insert_ne. specialize (Hb 0 ltac:(lia)). lia.
Qed.

(** New contents for an allocated chunk. *)

Lemma st_fill h cs1 s cs2 F m' : let a := lo h + total cs1 in
  st h (cs1 ++ (s, true) :: cs2) F -> (forall x t, Chunk x t ∈ F -> x + t <= a \/ a + s <= x) ->
  grows (words h) m' -> (forall b, ~ (a + 8 <= b < a + s) -> m' !! b = words h !! b) ->
  st (set_words m' h) (cs1 ++ (s, true) :: cs2) F.
Proof.
  intros a H HF G E. destruct (lay_chunk _ _ _ _ (proj1 H)) as (Hs & Hp & Hx & _ & Hw & _). fold a in Hs, Hp, Hx.
  pose proof (proj1 Hw) as H16. cbn [fst snd] in *.
  apply (st_replace h cs1 [(s, true)] [(s, true)] cs2); [done|done|by apply Forall_singleton|..];
    cbn [total fst]; fold a; replace (s + 0) with s by lia.
  - split; [done|]. intros b Hb _ _. apply E. lia.
  - cbn [chunks fst snd]. unfold size_, preceding in *. rewrite !E by lia. done.
  - unfold preceding in *. rewrite E by lia. done.
  - done.
Qed.

(** The memory in use outside a part of the row. *)

Lemma held_outside a cs1 mid cs2 b : Forall wf (cs1 ++ mid ++ cs2) -> Forall (fun c => c.2 = false) mid ->
  held a (cs1 ++ mid ++ cs2) b -> b < a + total cs1 \/ a + total cs1 + total mid <= b.
Proof.
  rewrite !Forall_app. intros (H1 & H2 & H3) Hf. rewrite !held_app. intros [H|[H|H]].
  - apply held_range in H; [lia|done].
  - by apply held_mid in H.
  - apply held_range in H; [lia|done].
Qed.

(** ** Growing up *)

Lemma grow_next_ok h cs1 N q r t Q : let a := lo h + total cs1 in
  let cs := cs1 ++ (N, true) :: (q, false) :: r in
  st h cs (free_nodes (lo h) cs) -> 16 <= t <= q -> t mod 16 = 0 ->
  (forall m', let cs' := cs1 ++ (N + t, true) :: front (q - t) ++ r in
     st (set_words m' h) cs' (free_nodes (lo h) cs') ->
     (forall b, a + 8 <= b < a + N -> m' !! b = words h !! b) ->
     kept h (cs1 ++ (N, false) :: (q, false) :: r) m' -> Q tt (set_words m' h)) ->
  wp (grow_next a (a + N) N q t) Q h.
Proof.
  intros a cs H Ht Ht16 HQ. subst cs.
  pose proof (ly_wf _ _ (proj1 H)) as Hwf. rewrite Forall_app, !Forall_cons in Hwf.
  destruct Hwf as (Hw1 & [HNw HNw'] & [Hqw Hqw'] & Hw2). cbn [fst] in *. pose proof (ly_small _ _ (proj1 H)) as Hsm.
  pose proof (total_nonneg _ (wf_big _ Hw1)) as Hn1. pose proof (total_nonneg _ (wf_big _ Hw2)) as Hn2.
  pose proof (ly_total _ _ (proj1 H)) as Htot. rewrite total_app in Htot. cbn [total fst] in Htot.
  assert (HNq : N + q < MM_ALLOC_BIT) by (unfold lo in *; lia).
  assert (HF : free_nodes (lo h) (cs1 ++ (N, true) :: (q, false) :: r) ≡ₚ Chunk (a + N) q :: others h cs1 (N + q) r).
  { rewrite (free_nodes_split h cs1 [(N, true); (q, false)] r). simpl. fold a.
    by replace (N + (q + 0)) with (N + q) by lia. }
  unfold grow_next. apply wp_bind. eapply st_unlink; [exact H|exact HF|]. intros m1 H1 T1.
  pose proof (others_nodes h cs1 (N + q) r) as HO.
  assert (I1 : forall b, a <= b < a + (N + q) -> m1 !! b = words h !! b).
  { eapply (links_inside h); [exact (proj1 H)|exact T1|lia|lia|]. intros n Hn.
    destruct (HO n) as (z & u & -> & Hu & Hz); [done|done|lia|done|]. exists z, u. fold a in Hz. split_and!; [done|done|lia]. }
  apply (links_touch h a (a + (N + q))) in T1.
  destruct (lay_chunk _ _ _ _ (proj1 H1)) as (Hs & Hp & _ & Hm & _). change (lo (set_words m1 h)) with (lo h) in *.
  fold a in Hs, Hp, Hm.
  assert (Hq : st (set_words m1 h) ((cs1 ++ [(N, true)]) ++ (q, false) :: r) (others h cs1 (N + q) r))
    by by rewrite <- (assoc_L (++)).
  destruct (lay_chunk _ _ _ _ (proj1 Hq)) as (_ & _ & Hqx & _).
  change (lo (set_words m1 h)) with (lo h) in *. rewrite total_app in Hqx. cbn [total fst snd] in *.
  replace (lo h + (total cs1 + (N + 0))) with (a + N) in Hqx by lia.
  assert (Hdom : forall b, b mod 4 = 0 -> a <= b < a + N + q -> is_Some (m1 !! b)).
  { intros b Hb Hr. apply (ly_dom _ _ (proj1 H1)); [done|]. cbn [mm_heapend set_words].
    change (lo (set_words m1 h)) with (lo h). lia. }
  rewrite (u32_small (N + t)) by (unfold MM_ALLOC_BIT in *; lia).
  apply wp_bind, wp_store; [by eexists|]. apply wp_bind. eapply wp_load; [look|].
  unfold front in HQ. destruct (Z.ltb_spec t q) as [Htq|Htq].
  - rewrite (u32_small (q - t)) by (unfold MM_ALLOC_BIT in *; lia). rewrite (proj2 (Z.eqb_neq _ _)) in HQ by lia.
    assert (H16 : 16 <= q - t) by (Z.to_euclidean_division_equations; lia).
    apply wp_bind, wp_store; [apply insert_some, Hdom; unfold size_; Z.to_euclidean_division_equations; lia|].
    apply wp_bind. eapply wp_load; [look|]. apply wp_bind, wp_assert; [apply Z.leb_le; unfold SIZEOF_MM_FREENODE; lia|].
    apply wp_bind. eapply wp_load; [look|].
    apply wp_bind, wp_store; [do 2 apply insert_some; apply Hdom; unfold preceding; Z.to_euclidean_division_equations; lia|].
    apply wp_bind. eapply wp_load; [look|]. apply wp_bind, (wp_set_preceding _ q (headb r)); [look|lia|lia|].
    assert (Ee : a + (N + t + (q - t)) = a + N + q) by lia.
    apply (shrink_end h (cs1 ++ (N, true) :: (q, false) :: r) m1 cs1 [(N, true); (q, false)] (N + t) (q - t) r);
      fold a; rewrite ?Ee.
    + exact (proj1 H).
    + by replace (N + t + (q - t)) with (N + q) by lia.
    + replace (N + t + (q - t)) with (N + q) by lia. by replace (a + N + q) with (a + (N + q)) by lia.
    + simpl. lia.
    + split; simpl; [lia|]. Z.to_euclidean_division_equations. lia.
    + split; simpl; [lia|]. Z.to_euclidean_division_equations. lia.
    + do 3 (eapply touch_trans; [|apply touch_insert; unfold size_, preceding; lia]).
      apply touch_insert. unfold size_, preceding. lia.
    + look.
    + look.
    + look.
    + look.
    + look.
    + cbn zeta. intros m' H' K' O'. apply HQ; [done| |done]. intros b Hb. rewrite O' by lia.
      rewrite <- (I1 b) by lia. look.
  - replace t with q in * by lia. rewrite Z.sub_diag in HQ. cbn [Z.eqb app] in HQ.
    apply wp_bind. eapply wp_load; [look|]. apply (wp_set_preceding _ q (headb r)); [look|lia|lia|].
    destruct (st_join _ _ _ _ _ _ _ _ H1) as [H2 T2].
    { intros y u Hy. apply others_apart in Hy; [|done|done|lia]. change (lo (set_words m1 h)) with (lo h). lia. }
    change (lo (set_words m1 h)) with (lo h) in *. fold a in H2, T2. apply HQ.
    + eapply st_perm; [|exact H2]. rewrite (free_nodes_split h cs1 [(N + q, true)] r). simpl.
      by replace (N + q + 0) with (N + q) by lia.
    + intros b Hb. rewrite <- (I1 b) by lia. look.
    + apply (touch_kept h (cs1 ++ (N, true) :: (q, false) :: r) cs1 [(N, false); (q, false)] r).
      * exact (proj1 H).
      * rewrite !Forall_app, !Forall_cons. done.
      * rewrite !total_app. simpl. lia.
      * by repeat constructor.
      * simpl. replace (N + (q + 0)) with (N + q) by lia. fold a. eapply touch_trans; [exact T1|].
        apply touch_nil. by replace (a + (N + q)) with (a + N + q) by lia.
Qed.

(** ** Growing down *)

Lemma take_prev_part h cs1 P N rest t Q : let a := lo h + total cs1 in
  let F := others h cs1 (P + N) rest in
  st h (cs1 ++ (P, false) :: (N, true) :: rest) F -> 16 <= t -> t + 16 <= P -> t mod 16 = 0 ->
  (forall m', let cs' := cs1 ++ (P - t, false) :: (N + t, true) :: rest in
     st (set_words m' h) cs' (free_nodes (lo h) cs') ->
     htouch h a (a + (P + N)) F m' ->
     (forall b, a + P + 8 <= b < a + P + N -> m' !! b = words h !! b) -> Q tt (set_words m' h)) ->
  wp (take_prev a (a + P + N) (a + P - t) P N t) Q h.
Proof.
  intros a F H Ht HtP Ht16 HQ.
  pose proof (ly_wf _ _ (proj1 H)) as Hwf. rewrite Forall_app, !Forall_cons in Hwf.
  destruct Hwf as (Hw1 & [HPw HPw'] & [HNw HNw'] & Hw2). cbn [fst] in *. pose proof (ly_small _ _ (proj1 H)) as Hsm.
  pose proof (total_nonneg _ (wf_big _ Hw1)) as Hn1. pose proof (total_nonneg _ (wf_big _ Hw2)) as Hn2.
  pose proof (ly_total _ _ (proj1 H)) as Htot. rewrite total_app in Htot. cbn [total fst] in Htot.
  assert (HPN : P + N < MM_ALLOC_BIT) by (unfold lo in *; lia).
  destruct (lay_chunk _ _ _ _ (proj1 H)) as (Hs & Hp & _ & Hm & _). fold a in Hs, Hp, Hm.
  assert (Hq : st h ((cs1 ++ [(P, false)]) ++ (N, true) :: rest) F) by by rewrite <- (assoc_L (++)).
  destruct (lay_chunk _ _ _ _ (proj1 Hq)) as (_ & _ & Hx & _). rewrite total_app in Hx. cbn [total fst snd] in *.
  replace (lo h + (total cs1 + (P + 0))) with (a + P) in Hx by lia.
  assert (Hdom : forall b, b mod 4 = 0 -> a <= b < a + P -> is_Some (words h !! b)).
  { intros b Hb Hr. apply (ly_dom _ _ (proj1 H)); [done|lia]. }
  assert (HF : forall n, n ∈ F -> exists z u, n = Chunk z u /\ 16 <= u /\ (z + u <= a \/ a + (P + N) <= z)).
  { intros n Hn. by destruct (others_nodes h cs1 (P + N) rest n) as (z & u & -> & Hu & Hz); [done|done|lia|done|]; eauto 6. }
  unfold take_prev. rewrite (proj2 (Z.ltb_lt _ _)) by lia. apply wp_bind. eapply wp_load; [exact Hs|].
  rewrite (u32_small (P - t)), (u32_small (N + t)) by (unfold MM_ALLOC_BIT in *; lia).
  apply wp_bind, wp_store; [by eexists|]. apply wp_bind. eapply wp_load; [look|].
  apply wp_bind, wp_assert; [apply Z.leb_le; unfold SIZEOF_MM_FREENODE; lia|].
  apply wp_bind, wp_store; [apply insert_some, Hdom; unfold size_; Z.to_euclidean_division_equations; lia|].
  apply wp_bind. eapply wp_load; [look|]. rewrite (pword_lor (P - t) true) by lia.
  apply wp_bind, wp_store; [do 2 apply insert_some; apply Hdom; unfold preceding; Z.to_euclidean_division_equations; lia|].
  apply wp_bind. eapply wp_load; [look|]. apply wp_bind, (wp_set_preceding _ N (headb rest)); [look|lia|lia|].
  match goal with |- wp _ _ ?x => set (h2 := x) end.
  assert (T : touch (mm_nodelist h) a (a + (P + N)) [] (words h) (words h2)).
  { do 3 (eapply touch_trans; [|apply touch_insert; unfold size_, preceding; lia]).
    apply touch_insert. unfold size_, preceding. lia. }
  assert (H2 : st (set_words (words h2) h) (cs1 ++ (P - t, false) :: (N + t, true) :: rest) F).
  { apply (st_recut h cs1 [(P, false); (N, true)] (P - t) false (N + t) true rest); fold a;
      replace (P - t + (N + t)) with (P + N) by lia; try done.
    - simpl. lia.
    - split; simpl; [lia|]. Z.to_euclidean_division_equations. lia.
    - split; simpl; [lia|]. Z.to_euclidean_division_equations. lia.
    - unfold h2. look.
    - unfold h2. look.
    - replace (a + (P - t)) with (a + P - t) by lia. unfold h2. look.
    - replace (a + (P - t)) with (a + P - t) by lia. unfold h2. look.
    - replace (a + (P + N)) with (a + P + N) by lia. unfold h2. look.
    - intros z u Hz. destruct (HF _ Hz) as (z' & u' & [= <- <-] & _ & ?). done. }
  assert (I2 : forall b, a + P + 8 <= b < a + P + N -> words h2 !! b = words h !! b) by (intros b Hb; unfold h2; look).
  change h2 with (set_words (words h2) h). clearbody h2.
  apply (st_add (set_words (words h2) h) cs1 (P - t) ((N + t, true) :: rest) F); [done| |].
  { intros z u Hz. destruct (HF _ Hz) as (z' & u' & [= <- <-] & ? & ?). change (lo (set_words (words h2) h)) with (lo h). fold a. lia. }
  intros m3 H3 T3. change (lo (set_words (words h2) h)) with (lo h) in *. fold a in H3, T3.
  change (set_words m3 (set_words (words h2) h)) with (set_words m3 h) in *. apply HQ.
  - eapply st_perm; [|exact H3]. rewrite (free_nodes_split h cs1 [(P - t, false); (N + t, true)] rest). simpl. fold a.
    by replace (P - t + (N + t + 0)) with (P + N) by lia.
  - eapply touch_trans; [apply touch_nil; exact T|].
    apply (touch_absorb _ _ _ _ (Chunk a (P - t))); [unfold flink; simpl; lia|unfold blink; simpl; lia|].
    eapply touch_mono; [..|apply (touch_links _ a (a + (P + N))); exact T3]; [lia|lia|lia|].
    intros z Hz. by apply (elem_mid hooks).
  - intros b Hb. rewrite <- I2 by done.
    eapply (links_inside (set_words (words h2) h) _ _ _ _ (a + P) (a + P + N)); [exact (proj1 H2)|exact T3| | | |lia].
    + change (lo (set_words (words h2) h)) with (lo h). lia.
    + change (mm_heapend (set_words (words h2) h)) with (mm_heapend h). lia.
    + intros n [->|Hn]%elem_of_cons; [exists a, (P - t); split_and!; [done|lia|left; lia]|].
      destruct (HF n Hn) as (z & u & -> & Hu & Hz). exists z, u. split_and!; [done|done|lia].
Qed.

Lemma take_prev_all h cs1 P N rest Q : let a := lo h + total cs1 in
  let F := others h cs1 (P + N) rest in
  st h (cs1 ++ (P, false) :: (N, true) :: rest) F ->
  (forall m', let cs' := cs1 ++ (N + P, true) :: rest in
     st (set_words m' h) cs' (free_nodes (lo h) cs') ->
     htouch h a (a + (P + N)) F m' ->
     (forall b, a + P + 8 <= b < a + P + N -> m' !! b = words h !! b) -> Q tt (set_words m' h)) ->
  wp (take_prev a (a + P + N) a P N P) Q h.
Proof.
  intros a F H HQ.
  pose proof (ly_wf _ _ (proj1 H)) as Hwf. rewrite Forall_app, !Forall_cons in Hwf.
  destruct Hwf as (Hw1 & [HPw HPw'] & [HNw HNw'] & Hw2). cbn [fst] in *. pose proof (ly_small _ _ (proj1 H)) as Hsm.
  pose proof (total_nonneg _ (wf_big _ Hw1)) as Hn1. pose proof (total_nonneg _ (wf_big _ Hw2)) as Hn2.
  pose proof (ly_total _ _ (proj1 H)) as Htot. rewrite total_app in Htot. cbn [total fst] in Htot.
  assert (HPN : P + N < MM_ALLOC_BIT) by (unfold lo in *; lia).
  destruct (lay_chunk _ _ _ _ (proj1 H)) as (Hs & Hp & _ & Hm & _ & _ & _ & Hlz & _). fold a in Hs, Hp, Hm.
  assert (Hq : st h ((cs1 ++ [(P, false)]) ++ (N, true) :: rest) F) by by rewrite <- (assoc_L (++)).
  destruct (lay_chunk _ _ _ _ (proj1 Hq)) as (_ & _ & Hx & _). rewrite total_app in Hx. cbn [total fst snd] in *.
  replace (lo h + (total cs1 + (P + 0))) with (a + P) in Hx by lia.
  unfold take_prev. rewrite (proj2 (Z.ltb_ge P P)) by lia. apply wp_bind. eapply wp_load; [exact Hs|].
  rewrite u32_small by (unfold MM_ALLOC_BIT in *; lia). apply wp_bind, wp_store; [by eexists|].
  apply wp_bind. eapply wp_load; [look|]. rewrite pword_set by done. apply wp_bind, wp_store; [apply insert_some; by eexists|].
  apply wp_bind. eapply wp_load; [look|]. apply (wp_set_preceding _ N (headb rest)); [look|lia|lia|].
  match goal with |- Q tt ?x => set (h2 := x) end.
  assert (T : touch (mm_nodelist h) a (a + (P + N)) [] (words h) (words h2)).
  { do 2 (eapply touch_trans; [|apply touch_insert; unfold size_, preceding; lia]).
    apply touch_insert. unfold size_, preceding. lia. }
  assert (H2 : st (set_words (words h2) h) (cs1 ++ (N + P, true) :: rest) F).
  { apply (st_replace h cs1 [(P, false); (N, true)] [(N + P, true)] rest); [done|simpl; lia| |..];
      cbn [total fst]; fold a; replace (P + (N + 0)) with (P + N) by lia; [|done|..].
    - apply Forall_singleton. split; simpl; [lia|]. Z.to_euclidean_division_equations. lia.
    - cbn [chunks fst snd]. split_and!; try done; unfold h2; look. f_equal. lia.
    - replace (a + (P + N)) with (a + P + N) by lia. unfold h2. look. unfold lastsz. simpl. do 2 f_equal. lia.
    - intros z u Hz. apply others_apart in Hz as [Hz _]; [|done|done|lia]. done. }
  change h2 with (set_words (words h2) h). apply HQ.
  - eapply st_perm; [|exact H2]. rewrite (free_nodes_split h cs1 [(N + P, true)] rest). simpl.
    unfold F. by replace (N + P + 0) with (P + N) by lia.
  - by apply touch_nil.
  - intros b Hb. unfold h2. look.
Qed.

(** Both cases, with the chunk out of the list. *)

Lemma take_prev_ok h cs1 P N rest t Q : let a := lo h + total cs1 in
  let F := others h cs1 (P + N) rest in
  st h (cs1 ++ (P, false) :: (N, true) :: rest) F -> 16 <= t <= P -> t mod 16 = 0 ->
  (forall m', let cs' := (cs1 ++ front (P - t)) ++ (N + t, true) :: rest in
     st (set_words m' h) cs' (free_nodes (lo h) cs') ->
     htouch h a (a + (P + N)) F m' ->
     (forall b, a + P + 8 <= b < a + P + N -> m' !! b = words h !! b) -> Q tt (set_words m' h)) ->
  wp (take_prev a (a + P + N) (a + P - t) P N t) Q h.
Proof.
  intros a F H Ht Ht16 HQ. unfold front in HQ. destruct (Z.eqb_spec (P - t) 0) as [E|E].
  - replace t with P in * by lia. replace (a + P - P) with a by lia. rewrite app_nil_r in HQ. by apply (take_prev_all h cs1 P N rest).
  - pose proof (ly_wf _ _ (proj1 H)) as Hwf. rewrite Forall_app, !Forall_cons in Hwf.
    destruct Hwf as (_ & [_ HP] & _). cbn [fst] in HP. rewrite <- (assoc_L (++)) in HQ.
    apply (take_prev_part h cs1 P N rest); [done|lia|Z.to_euclidean_division_equations; lia|done|done].
Qed.

(** The free chunks of a row stay clear of an allocated chunk. *)

Lemma row_apart h cs1 s cs2 x t : Forall wf (cs1 ++ (s, true) :: cs2) ->
  Chunk x t ∈ free_nodes (lo h) (cs1 ++ (s, true) :: cs2) ->
  x + t <= lo h + total cs1 \/ lo h + total cs1 + s <= x.
Proof.
  rewrite Forall_app, Forall_cons. intros (H1 & [Hs _] & H2) Hx. cbn [fst] in *.
  rewrite (free_nodes_split h cs1 [(s, true)] cs2) in Hx. simpl in Hx.
  apply others_apart in Hx as [Hx _]; [|done|done|lia]. by replace (s + 0) with s in Hx by lia.
Qed.

(** Filling an allocated chunk from memory below which it starts. *)

Lemma memcpy_down_ok h cs1 s cs2 src len Q : let a := lo h + total cs1 in
  let cs := cs1 ++ (s, true) :: cs2 in
  st h cs (free_nodes (lo h) cs) -> 0 <= len -> len mod 4 = 0 -> len <= s - 8 -> src mod 4 = 0 ->
  a + 8 <= src \/ src + len <= a + 8 -> lo h <= src -> src + len <= mm_heapend h + 8 ->
  (forall m', st (set_words m' h) cs (free_nodes (lo h) cs) ->
     (forall i, 0 <= i < len / 4 -> m' !! (a + 8 + 4 * i) = words h !! (src + 4 * i)) ->
     (forall b, ~ (a + 8 <= b < a + s) -> m' !! b = words h !! b) -> Q tt (set_words m' h)) ->
  wp (memcpy (a + 8) src len) Q h.
Proof.
  intros a cs H Hlen Hl4 Hls Hs4 Hov Hlo Hhi HQ. subst cs.
  destruct (lay_chunk _ _ _ _ (proj1 H)) as (_ & _ & _ & Hm & _ & Ha & He & _ & _). fold a in Hm, Ha, He. cbn [fst] in *.
  assert (El : 4 * (len / 4) = len) by (Z.to_euclidean_division_equations; lia).
  assert (Hnn : 0 <= len / 4) by (apply Z.div_pos; lia).
  unfold memcpy. apply copy_words_ok; rewrite ?Z2Nat.id by lia; [lia| |].
  - intros i Hi. split; apply (ly_dom _ _ (proj1 H)); try lia; Z.to_euclidean_division_equations; lia.
  - intros m' G C O. assert (HO : forall b, ~ (a + 8 <= b < a + s) -> m' !! b = words h !! b).
    { intros b Hb. apply O. intros i Hi. lia. }
    apply HQ; [|done|done]. apply st_fill; [done| |done|done].
    intros x t. apply row_apart, (ly_wf _ _ (proj1 H)).
Qed.

Lemma grow_prev_ok h cs1 P N rest t Q : let a := lo h + total cs1 in
  let cs := cs1 ++ (P, false) :: (N, true) :: rest in
  st h cs (free_nodes (lo h) cs) -> 16 <= t <= P -> t mod 16 = 0 ->
  (forall m', let cs' := (cs1 ++ front (P - t)) ++ (N + t, true) :: rest in
     st (set_words m' h) cs' (free_nodes (lo h) cs') ->
     (forall i, 0 <= i < (N - 8) / 4 -> m' !! (a + P - t + 8 + 4 * i) = words h !! (a + P + 8 + 4 * i)) ->
     kept h (cs1 ++ (P, false) :: (N, false) :: rest) m' ->
     Q (a + P - t + 8, a + P - t, N + t) (set_words m' h)) ->
  wp (grow_prev a (a + P + N) (a + P) (a + P + 8) P N t) Q h.
Proof.
  intros a cs H Ht Ht16 HQ. subst cs.
  pose proof (ly_wf _ _ (proj1 H)) as Hwf. rewrite Forall_app, !Forall_cons in Hwf.
  destruct Hwf as (Hw1 & [HPw HPw'] & [HNw HNw'] & Hw2). cbn [fst] in *. pose proof (ly_small _ _ (proj1 H)) as Hsm.
  pose proof (total_nonneg _ (wf_big _ Hw1)) as Hn1. pose proof (total_nonneg _ (wf_big _ Hw2)) as Hn2.
  pose proof (ly_total _ _ (proj1 H)) as Htot. rewrite total_app in Htot. cbn [total fst] in Htot.
  pose proof (total_mod _ Hw1) as Hm1. pose proof (rg_lo _ _ _ (ly_reg _ _ (proj1 H))) as Hlo8.
  set (F := others h cs1 (P + N) rest).
  assert (HF : free_nodes (lo h) (cs1 ++ (P, false) :: (N, true) :: rest) ≡ₚ Chunk a P :: F).
  { rewrite (free_nodes_split h cs1 [(P, false); (N, true)] rest). simpl. fold a.
    by replace (P + (N + 0)) with (P + N) by lia. }
  unfold grow_prev. apply wp_bind. eapply st_unlink; [exact H|exact HF|]. intros m1 H1 T1.
  assert (I1 : forall b, a <= b < a + (P + N) -> m1 !! b = words h !! b).
  { eapply (links_inside h); [exact (proj1 H)|exact T1|lia|lia|]. intros n Hn.
    destruct (others_nodes h cs1 (P + N) rest n) as (z & u & -> & Hu & Hz); [done|done|lia|done|].
    exists z, u. fold a in Hz. split_and!; [done|done|lia]. }
  apply (links_touch h a (a + (P + N))) in T1. apply wp_bind.
  apply (take_prev_ok (set_words m1 h) cs1 P N rest t); [done|done|done|]. cbn zeta.
  change (lo (set_words m1 h)) with (lo h). fold a. intros m2 H2 T2 I2.
  change (set_words m2 (set_words m1 h)) with (set_words m2 h) in *. cbn [words set_words] in *.
  unfold SIZEOF_MM_ALLOCNODE. rewrite (u32_small (N - 8)) by (unfold lo, MM_ALLOC_BIT in *; lia).
  assert (Ea : a + P - t = lo (set_words m2 h) + total (cs1 ++ front (P - t)))
    by (change (lo (set_words m2 h)) with (lo h); rewrite total_app, front_total; lia).
  apply wp_bind. rewrite Ea.
  apply (memcpy_down_ok (set_words m2 h) (cs1 ++ front (P - t)) (N + t) rest (a + P + 8) (N - 8)).
  - exact H2.
  - lia.
  - Z.to_euclidean_division_equations. lia.
  - lia.
  - subst a. Z.to_euclidean_division_equations. lia.
  - rewrite <- Ea. left. lia.
  - change (lo (set_words m2 h)) with (lo h). lia.
  - change (mm_heapend (set_words m2 h)) with (mm_heapend h). lia.
  - rewrite <- Ea. intros m3 H3 C3 O3. change (set_words m3 (set_words m2 h)) with (set_words m3 h) in *.
    cbn [words set_words] in *. change (lo (set_words m2 h)) with (lo h) in H3.
    destruct (lay_chunk _ _ _ _ (proj1 H3)) as (Hs3 & _). change (lo (set_words m3 h)) with (lo (set_words m2 h)) in Hs3.
    rewrite <- Ea in Hs3. apply wp_bind. eapply wp_load; [exact Hs3|]. apply wp_ret. apply HQ; [exact H3| |].
    + intros i Hi. rewrite C3 by done. rewrite I2, I1; [done|..]; Z.to_euclidean_division_equations; lia.
    + assert (K2 : kept h (cs1 ++ [(P, false); (N, false)] ++ rest) m2).
      { apply (touch_kept h (cs1 ++ (P, false) :: (N, true) :: rest)).
        - exact (proj1 H).
        - rewrite !Forall_app, !Forall_cons. done.
        - rewrite !total_app. simpl. lia.
        - by repeat constructor.
        - simpl. replace (P + (N + 0)) with (P + N) by lia. fold a. by eapply touch_trans. }
      intros b Hb. rewrite O3; [by apply K2|].
      apply (held_outside (lo h) cs1 [(P, false); (N, false)] rest) in Hb;
        [|rewrite !Forall_app, !Forall_cons; done|by repeat constructor]. simpl in Hb. fold a in Hb. lia.
Qed.

(** ** Growing on both sides *)

Lemma shares_ok P q need : 0 <= P -> 0 <= q -> 0 < need -> need <= P + q ->
  P mod 16 = 0 -> q mod 16 = 0 -> need mod 16 = 0 ->
  let '(tp, tn) := shares P q need in
  tp + tn = need /\ 0 <= tp <= P /\ 0 <= tn <= q /\ tp mod 16 = 0 /\ tn mod 16 = 0.
Proof.
  intros HP Hq Hn Hle HP16 Hq16 Hn16. unfold shares.
  destruct (Z.ltb_spec 0 P), (Z.leb_spec P q), (Z.ltb_spec q 1); cbn [andb orb]; cbn iota;
    try destruct (Z.ltb_spec P need); try destruct (Z.ltb_spec 0 q); cbn [andb]; cbn iota;
    rewrite ?Z.eqb_refl; try rewrite (proj2 (Z.eqb_neq need 0)) by lia; cbn [negb]; cbn iota;
    try destruct (Z.ltb_spec q need); split_and!; try lia; Z.to_euclidean_division_equations; lia.
Qed.

Lemma held_swap a cs1 mid mid' cs2 b : Forall (fun c => c.2 = false) mid -> Forall (fun c => c.2 = false) mid' ->
  total mid = total mid' -> held a (cs1 ++ mid ++ cs2) b -> held a (cs1 ++ mid' ++ cs2) b.
Proof.
  intros H1 H2 E. rewrite !held_app, E. intros [H|[H|H]]; [by left|by apply held_mid in H|by right; right].
Qed.

Lemma front_free k : Forall (fun c => c.2 = false) (front k).
Proof. unfold front. destruct (k =? 0); by repeat constructor. Qed.

(** A row with room on both sides of an allocated chunk, and the row with the chunk grown. *)

Definition side_row (cs1 : list chunk) (P N : Z) (b : bool) (q : Z) (cs2 : list chunk) : list chunk :=
  (cs1 ++ front P) ++ (N, b) :: front q ++ cs2.

Lemma side_swap a cs1 P N q P' N' q' cs2 b : P + N + q = P' + N' + q' ->
  held a (side_row cs1 P N false q cs2) b -> held a (side_row cs1 P' N' false q' cs2) b.
Proof.
  intros E. unfold side_row. rewrite <- !(assoc_L (++)).
  change (front P ++ (N, false) :: front q ++ cs2) with (front P ++ [(N, false)] ++ front q ++ cs2).
  change (front P' ++ (N', false) :: front q' ++ cs2) with (front P' ++ [(N', false)] ++ front q' ++ cs2).
  rewrite !(assoc_L (++)), <- !(assoc_L (++) cs1). apply held_swap.
  - rewrite !Forall_app. split_and!; [apply front_free|by repeat constructor|apply front_free].
  - rewrite !Forall_app. split_and!; [apply front_free|by repeat constructor|apply front_free].
  - rewrite !total_app, !front_total. simpl. lia.
Qed.

(** The part behind, if any of it is taken. *)

Lemma next_part h cs1 N q cs2 tn : let a := lo h + total cs1 in
  let cs := cs1 ++ (N, true) :: front q ++ cs2 in
  st h cs (free_nodes (lo h) cs) -> 0 <= tn <= q -> tn mod 16 = 0 ->
  wp (if negb (tn =? 0) then grow_next a (a + N) N q tn else mret tt)
    (fun _ h' => exists m', h' = set_words m' h /\
       let cs' := cs1 ++ (N + tn, true) :: front (q - tn) ++ cs2 in
       st h' cs' (free_nodes (lo h) cs') /\
       (forall b, a + 8 <= b < a + N -> m' !! b = words h !! b) /\
       kept h (cs1 ++ (N, false) :: front q ++ cs2) m') h.
Proof.
  intros a cs H Hn Hn16. subst cs. destruct (Z.eqb_spec tn 0) as [->|Hn0]; cbn [negb].
  - apply wp_ret. exists (words h). rewrite Z.add_0_r, Z.sub_0_r. split_and!; [by destruct h|done|done|done].
  - assert (Eq : front q = [(q, false)]) by (unfold front; by rewrite (proj2 (Z.eqb_neq _ _)) by lia).
    rewrite Eq in *. cbn [app] in *.
    apply (grow_next_ok h cs1 N q cs2 tn); [done|split; [Z.to_euclidean_division_equations|]; lia|done|].
    cbn zeta. intros m' H' I' K'. exists m'. done.
Qed.

Lemma grow_ok h cs1 P N q cs2 M prev Q : let a := lo h + total cs1 in
  let cs := side_row cs1 P N true q cs2 in
  st h cs (free_nodes (lo h) cs) -> 0 <= P -> 0 <= q -> N < M -> M <= P + N + q ->
  P mod 16 = 0 -> q mod 16 = 0 -> M mod 16 = 0 -> (P <> 0 -> prev = a) ->
  (forall m' tp tn, 0 <= tp <= P -> 0 <= tn <= q -> tp + tn = M - N -> tp mod 16 = 0 -> tn mod 16 = 0 ->
     let cs' := side_row cs1 (P - tp) M true (q - tn) cs2 in
     st (set_words m' h) cs' (free_nodes (lo h) cs') ->
     (forall i, 0 <= i < (N - 8) / 4 -> m' !! (a + P - tp + 8 + 4 * i) = words h !! (a + P + 8 + 4 * i)) ->
     kept h (side_row cs1 P N false q cs2) m' -> Q (a + P - tp + 8) (set_words m' h)) ->
  wp (grow prev (a + P + N) (a + P) (a + P + 8) P q N M) Q h.
Proof.
  intros a cs H HP Hq HN HM HP16 Hq16 HM16 Hprev HQ. subst cs.
  assert (Hnode : lo h + total (cs1 ++ front P) = a + P) by (rewrite total_app, front_total; lia).
  destruct (lay_chunk _ _ _ _ (proj1 H)) as (_ & _ & _ & _ & [HNw HNw'] & _ & _ & _ & _). cbn [fst] in *.
  pose proof (ly_wf _ _ (proj1 H)) as Hwf. unfold side_row in Hwf. rewrite !Forall_app, Forall_cons in Hwf.
  destruct Hwf as ((Hw1 & HwP) & _ & Hwq). pose proof (ly_total _ _ (proj1 H)) as Htot.
  unfold side_row in Htot. rewrite total_app in Htot. cbn [total fst] in Htot. rewrite !total_app, !front_total in Htot.
  apply Forall_app in Hwq as [Hwq Hw2]. pose proof (total_nonneg _ (wf_big _ Hw1)) as Hn1. pose proof (total_nonneg _ (wf_big _ Hw2)) as Hn2.
  pose proof (ly_small _ _ (proj1 H)) as Hsm. unfold grow.
  rewrite u32_small by (unfold lo, MM_ALLOC_BIT in *; lia).
  pose proof (shares_ok P q (M - N) HP Hq ltac:(lia) ltac:(lia) HP16 Hq16 ltac:(Z.to_euclidean_division_equations; lia)) as S.
  destruct (shares P q (M - N)) as [tp tn]. destruct S as (St & Sp & Sn & Sp16 & Sn16).
  apply wp_bind. destruct (Z.eqb_spec tp 0) as [->|Hp0]; cbn [negb].
  - apply wp_ret. apply wp_bind. eapply wp_mono.
    + rewrite <- Hnode. apply (next_part h (cs1 ++ front P) N q cs2 tn H); lia || done.
    + cbn beta zeta. rewrite Hnode. intros _ h' (m' & -> & H' & I' & K'). apply wp_ret.
      replace (a + P + 8) with (a + P - 0 + 8) by lia. apply (HQ m' 0 tn); try done.
      * unfold side_row. replace (P - 0) with P by lia. by replace M with (N + tn) by lia.
      * intros i Hi. replace (a + P - 0) with (a + P) by lia. apply I'. Z.to_euclidean_division_equations. lia.
  - assert (EP : front P = [(P, false)]) by (unfold front; by rewrite (proj2 (Z.eqb_neq _ _)) by lia).
    rewrite Hprev by lia. unfold side_row in H. rewrite EP, <- (assoc_L (++)) in H. cbn [app] in H.
    apply (grow_prev_ok h cs1 P N (front q ++ cs2) tp); [done|split; [Z.to_euclidean_division_equations|]; lia|done|].
    cbn zeta. fold a. intros m1 H1 C1 K1. apply wp_bind.
    assert (Ea : lo (set_words m1 h) + total (cs1 ++ front (P - tp)) = a + P - tp)
      by (change (lo (set_words m1 h)) with (lo h); rewrite total_app, front_total; lia).
    eapply wp_mono.
    + rewrite <- Ea. replace (a + P + N) with (lo (set_words m1 h) + total (cs1 ++ front (P - tp)) + (N + tp)) by lia.
      apply (next_part (set_words m1 h) (cs1 ++ front (P - tp)) (N + tp) q cs2 tn); done || lia.
    + cbn beta zeta. rewrite Ea. intros _ h' (m' & -> & H' & I' & K'). apply wp_ret.
      change (set_words m' (set_words m1 h)) with (set_words m' h) in *. cbn [words set_words] in *.
      apply (HQ m' tp tn); try done.
      * unfold side_row. by replace M with (N + tp + tn) by lia.
      * intros i Hi. rewrite I' by (Z.to_euclidean_division_equations; lia). by apply C1.
      * apply (kept_trans h (set_words m1 h) _ (side_row cs1 (P - tp) (N + tp) false q cs2)); [done| | |done].
        -- intros b. apply side_swap. lia.
        -- unfold side_row. rewrite EP, <- (assoc_L (++)). done.
Qed.

(** ** The neighbours *)

Lemma front_size q : q <> 0 -> front q = [(q, false)].
Proof. intros H. unfold front. by rewrite (proj2 (Z.eqb_neq _ _) H). Qed.

Lemma next_room h cs1 N cs2 : lay h (cs1 ++ (N, true) :: cs2) ->
  exists q R, cs2 = front q ++ R /\ 0 <= q /\ q mod 16 = 0 /\ free_size (lo h + total cs1 + N) h = Ret (q, h).
Proof.
  intros H. destruct (lay_chunk _ _ _ _ H) as (_ & _ & Hx & _ & [Hw _] & _ & _ & _ & Hs). cbn [fst snd] in *.
  enough (W : exists q R, cs2 = front q ++ R /\ 0 <= q /\ q mod 16 = 0 /\
    wp (free_size (lo h + total cs1 + N)) (fun r h' => r = q /\ h' = h) h).
  { destruct W as (q & R & ? & ? & ? & (r & h' & Hrun & -> & ->)). eauto 7. }
  destruct cs2 as [|[q []] R]; cbn [headb head from_option snd] in Hx.
  - exists 0, []. split_and!; [done..|]. apply wp_bind. eapply wp_load; [exact Hx|].
    rewrite pword_alloc by lia. by apply wp_ret.
  - exists 0, ((q, true) :: R). split_and!; [done..|]. apply wp_bind. eapply wp_load; [exact Hx|].
    rewrite pword_alloc by lia. by apply wp_ret.
  - change (cs1 ++ (N, true) :: (q, false) :: R) with (cs1 ++ [(N, true)] ++ (q, false) :: R) in H.
    rewrite (assoc_L (++)) in H. destruct (lay_chunk _ _ _ _ H) as (Hq & _ & _ & _ & [Hqw Hq16] & _).
    rewrite total_app in Hq. cbn [total fst] in *. replace (lo h + (total cs1 + (N + 0))) with (lo h + total cs1 + N) in Hq by lia.
    exists q, R. rewrite front_size by lia. split_and!; [done|lia|done|]. apply wp_bind. eapply wp_load; [exact Hx|].
    rewrite pword_alloc by lia. cbn [negb]. by eapply wp_load.
Qed.

Lemma prev_room h cs1 N cs2 : lay h (cs1 ++ (N, true) :: cs2) ->
  exists P L, cs1 = L ++ front P /\ 0 <= P /\ P mod 16 = 0 /\
    free_size (lo h + total cs1 - lastsz 8 cs1) h = Ret (P, h) /\
    (P <> 0 -> lo h + total cs1 - lastsz 8 cs1 = lo h + total L).
Proof.
  intros H. destruct (lay_before _ _ _ _ H) as (v & Hs & Hp & Hv).
  enough (W : exists P L, cs1 = L ++ front P /\ 0 <= P /\ P mod 16 = 0 /\
    wp (free_size (lo h + total cs1 - lastsz 8 cs1)) (fun r h' => r = P /\ h' = h) h /\
    (P <> 0 -> lo h + total cs1 - lastsz 8 cs1 = lo h + total L)).
  { destruct W as (P & L & ? & ? & ? & (r & h' & Hrun & -> & ->) & ?). eauto 9. }
  destruct (lastb cs1) eqn:El.
  - exists 0, cs1. rewrite app_nil_r. split_and!; [done..| |done]. apply wp_bind. eapply wp_load; [exact Hp|].
    rewrite pword_alloc by done. by apply wp_ret.
  - destruct cs1 as [|[P b] L _] using rev_ind; [done|]. unfold lastb in El. rewrite last_snoc in El. cbn in El. subst b.
    rewrite lastsz_app, total_app in *. cbn -[pword free_size] in Hs, Hp |- *.
    pose proof (ly_wf _ _ H) as Hw. rewrite !Forall_app, Forall_singleton in Hw. destruct Hw as ((_ & [HP HP16]) & _).
    cbn [fst] in *. exists P, L. rewrite front_size by lia. split_and!; [done|lia|done| |lia].
    apply wp_bind. eapply wp_load; [exact Hp|]. rewrite pword_alloc by done. cbn [negb]. by eapply wp_load.
Qed.

Lemma side_coalesced L P N q R P' N' q' : coalesced (side_row L P N true q R) ->
  (P = 0 -> P' = 0) -> (q = 0 -> q' = 0) -> coalesced (side_row L P' N' true q' R).
Proof.
  unfold side_row, front. intros H HP Hq.
  destruct (Z.eqb_spec P 0) as [E|E]; [rewrite HP by done; cbn [Z.eqb]|destruct (Z.eqb_spec P' 0)];
    (destruct (Z.eqb_spec q 0) as [F|F]; [rewrite Hq by done; cbn [Z.eqb]|destruct (Z.eqb_spec q' 0)]);
    revert H; rewrite !coalesced_app; cbn [app coalesced]; unfold headb, lastb; rewrite ?app_nil_r, ?last_snoc; simpl;
    destruct R as [|[? []] R]; simpl; rewrite ?orb_true_r; tauto.
Qed.

(** ** Fresh memory in the place of old *)

Lemma fresh_row a n L X Y M Z R : Forall wf (L ++ Y) -> Forall wf R -> 16 <= M -> M mod 16 = 0 ->
  Forall (fun c => c.2 = false) X -> Forall (fun c => c.2 = false) Z ->
  0 <= total Z -> total X = total Y + M + total Z -> n <= M - 8 ->
  fresh a n (L ++ X ++ R) ((L ++ Y) ++ (M, true) :: Z ++ R) (a + total L + total Y + 8).
Proof.
  intros Hw HR HM HM16 HX HZ HZ0 Ht Hn. pose proof (total_mod _ Hw) as Hm.
  assert (Hp : a + total L + total Y + 8 = a + total (L ++ Y) + 8) by (rewrite total_app; lia).
  assert (Hu : usable a ((L ++ Y) ++ (M, true) :: Z ++ R) (a + total L + total Y + 8) = M - 8)
    by (rewrite Hp; by apply usable_app).
  apply Forall_app in Hw as [HL HY]. pose proof (total_nonneg _ (wf_big _ HY)) as HY0.
  constructor.
  - rewrite Hp. intros Ha. Z.to_euclidean_division_equations. lia.
  - rewrite Hp, live_app. right. by left.
  - by rewrite Hu.
  - rewrite Hu. intros b Hb. split.
    + rewrite held_app, total_app. right. cbn [held fst snd]. left. split; [done|lia].
    + rewrite !held_app. intros [F|[F|F]]; [apply held_range in F; [lia|done]|by apply held_mid in F|].
      apply held_range in F; [lia|done].
  - intros b. rewrite !held_app, Ht, total_app. cbn [held fst snd]. rewrite held_app.
    replace (a + (total L + total Y) + M + total Z) with (a + total L + (total Y + M + total Z)) by lia.
    intros [F|[F|F]]; [tauto|by apply held_mid in F|tauto].
Qed.

Lemma usable_coalesce a cs p : Forall wf cs -> live a cs p -> usable a (coalesce cs) p = usable a cs p.
Proof.
  intros Hw. revert a. induction Hw as [|[s f] cs [Hs _] Hw IH]; intros a; [done|].
  rewrite coalesce_cons. cbn [live usable fst snd] in *. destruct (Z.eqb_spec (a + 8) p) as [E|E].
  - intros [[-> _]|H]; [simpl; by rewrite (proj2 (Z.eqb_eq _ _) E)|]. apply live_range in H; [lia|done].
  - intros [[_ H]|H]; [lia|]. rewrite <- IH by done. destruct f; simpl.
    { by rewrite (proj2 (Z.eqb_neq _ _) E). }
    destruct (coalesce cs) as [|[t []] r] eqn:Ec; simpl; rewrite (proj2 (Z.eqb_neq _ _) E); try done.
    rewrite <- live_coalesce, Ec in H. cbn [live fst snd] in H.
    destruct (Z.eqb_spec (a + s + 8) p) as [F|F]; [|by replace (a + s + t) with (a + (s + t)) by lia].
    destruct H as [[? _]|H]; [done|]. pose proof (wf_coalesce _ Hw) as Hc. rewrite Ec, Forall_cons in Hc.
    destruct Hc as [[Ht _] Hc]. apply live_range in H; [simpl in *; lia|done].
Qed.

Lemma fresh_coalesce a n cs cs' p : Forall wf cs' -> fresh a n cs cs' p -> fresh a n cs (coalesce cs') p.
Proof.
  intros Hw [F1 F2 F3 F4 F5]. pose proof (usable_coalesce a cs' p Hw F2) as Hu.
  constructor; rewrite ?Hu; [done|by apply live_coalesce|done| |]; intros b; rewrite held_coalesce; auto.
Qed.

(** Freeing a chunk on one side of the place of another. *)

Lemma mark_l a d cs1 X : live a cs1 d -> mark a d (cs1 ++ X) = mark a d cs1 ++ X.
Proof.
  revert a. induction cs1 as [|c cs1 IH]; intros a; [done|]. cbn [live app mark].
  destruct (Z.eqb_spec (a + 8) d); [done|]. intros [[_ H]|H]; [lia|]. cbn [app]. by rewrite IH.
Qed.

Lemma mark_r a d cs1 X : Forall wf cs1 -> a + total cs1 + 8 <= d -> mark a d (cs1 ++ X) = cs1 ++ mark (a + total cs1) d X.
Proof.
  intros Hw. revert a. induction Hw as [|c cs1 [Hc _] Hw IH]; intros a Hd; simpl in *; [by replace (a + 0) with a by lia|].
  pose proof (total_nonneg _ (wf_big _ Hw)) as Hn. rewrite (proj2 (Z.eqb_neq _ _)) by lia.
  rewrite IH by lia. by replace (a + (c.1 + total cs1)) with (a + c.1 + total cs1) by lia.
Qed.

Lemma total_mark a d cs : total (mark a d cs) = total cs.
Proof. revert a. induction cs as [|c cs IH]; intros a; simpl; [done|]. destruct (a + 8 =? d); simpl; [done|by rewrite IH]. Qed.

Lemma mark_taken a d n cs1 s cs2 : Forall wf (cs1 ++ (s, false) :: cs2) -> Forall wf (taken n s) -> total (taken n s) = s ->
  live a (cs1 ++ (s, false) :: cs2) d -> exists e1 e2,
    mark a d (cs1 ++ (s, false) :: cs2) = e1 ++ (s, false) :: e2 /\
    mark a d (cs1 ++ taken n s ++ cs2) = e1 ++ taken n s ++ e2 /\ total e1 = total cs1.
Proof.
  intros Hw Ht Et Hd. rewrite Forall_app, Forall_cons in Hw. destruct Hw as (Hw1 & Hs & Hw2).
  apply live_app in Hd as [Hd|[[? _]|Hd]]; [|done|].
  - exists (mark a d cs1), cs2. rewrite !mark_l, total_mark by done. done.
  - cbn [fst] in Hd. exists cs1, (mark (a + total cs1 + s) d cs2). pose proof (live_range _ _ _ Hw2 Hd) as [Hr _].
    change (cs1 ++ (s, false) :: cs2) with (cs1 ++ [(s, false)] ++ cs2). rewrite !(assoc_L (++)).
    rewrite !mark_r; try (rewrite ?Forall_app, ?Forall_singleton; done); try (rewrite total_app, ?Et; simpl; lia).
    rewrite !total_app, Et. simpl. replace (a + (total cs1 + (s + 0))) with (a + total cs1 + s) by lia.
    replace (a + (total cs1 + s)) with (a + total cs1 + s) by lia. by rewrite <- !(assoc_L (++)).
Qed.

Lemma live_taken a d n cs1 s cs2 : total (taken n s) = s ->
  live a (cs1 ++ (s, false) :: cs2) d -> live a (cs1 ++ taken n s ++ cs2) d.
Proof.
  intros Et. rewrite !live_app, Et. cbn [live fst snd]. intros [H|[[? _]|H]]; [by left|done|by right; right].
Qed.

(** The semaphore around an operation. *)

Lemma give_back m h : let h1 := set_words m (set_sem (mm_semaphore h - 1) h) in
  set_sem (sem_post (mm_semaphore h1)) h1 = set_words m h.
Proof. cbn zeta. apply heap_eq; try done. cbn. unfold sem_post. lia. Qed.

Lemma heap_words h cs cs' m : heap_inv h cs [] -> coalesced cs' ->
  st (set_words m (set_sem (mm_semaphore h - 1) h)) cs' (free_nodes (lo h) cs') -> heap_inv (set_words m h) cs' [].
Proof.
  intros [_ _ Hsem Hch _ _ Hsz] Hco H. constructor; [|done|done|done|by constructor|by constructor|done].
  rewrite <- give_back at 1. by apply st_sem.
Qed.

(** What [mm_realloc] leaves: the memory as it was, or fresh memory with its contents. *)

Definition reallocated (h : mm_heap) (cs : list chunk) (d n p : Z) (h' : mm_heap) : Prop :=
  exists cs', heap_inv h' cs' [] /\
    (p = 0 /\ cs' = cs /\ kept h cs (words h') /\ (forall s, (s, false) ∈ cs -> s < need n) \/
     p <> 0 /\ fresh (lo h) n (mark (lo h) d cs) cs' p /\ kept h (mark (lo h) d cs) (words h') /\
     forall i, 0 <= i -> 4 * i + 4 <= usable (lo h) cs d -> 4 * i + 4 <= usable (lo h) cs' p ->
       words h' !! (p + 4 * i) = words h !! (d + 4 * i)).

Lemma need_min n : 1 <= n -> 16 <= need n.
Proof. intros Hn. unfold need. Z.to_euclidean_division_equations. lia. Qed.

Section Paths.
Context (h : mm_heap) (cs1 : list chunk) (N : Z) (cs2 : list chunk) (n : Z).

Let cs := cs1 ++ (N, true) :: cs2.
Let a := lo h + total cs1.
Let h0 := set_sem (mm_semaphore h - 1) h.

Hypothesis Hi : heap_inv h cs [].
Hypothesis Hn : 1 <= n.

Lemma old_wf : Forall wf cs1 /\ wf (N, true) /\ Forall wf cs2.
Proof. pose proof (ly_wf _ _ (proj1 (hi_st _ _ _ Hi))) as H. unfold cs in H. by rewrite Forall_app, Forall_cons in H. Qed.

Lemma old_mark : mark (lo h) (a + 8) cs = cs1 ++ (N, false) :: cs2.
Proof. apply mark_app, old_wf. Qed.

Lemma old_usable : usable (lo h) cs (a + 8) = N - 8.
Proof. apply usable_app, old_wf. Qed.

Lemma old_pos : 0 < lo h /\ lo h <= a.
Proof.
  destruct old_wf as [H _]. pose proof (total_nonneg _ (wf_big _ H)).
  pose proof (rg_pos _ _ _ (ly_reg _ _ (proj1 (hi_st _ _ _ Hi)))). unfold a. lia.
Qed.

(** The memory stays where it is. *)

Lemma shrink_path Q : need n <= N ->
  (forall m, reallocated h cs (a + 8) n (a + 8) (set_words m h) -> Q tt (set_words m h0)) ->
  wp (if need n <? N then mm_shrinkchunk a (need n) else mret tt) Q h0.
Proof.
  intros HN HQ. destruct old_wf as (Hw1 & [HNw HN16] & Hw2). cbn [fst] in *. destruct (need_ge n) as [Hg Hg16].
  pose proof (need_min n Hn) as Hmin. pose proof old_pos as Hpos. pose proof (hi_co _ _ _ Hi) as Hco.
  apply coalesced_app in Hco as (Hc1 & [_ Hc2] & _).
  assert (F : fresh (lo h) n (cs1 ++ (N, false) :: cs2)
    (cs1 ++ (need n, true) :: (if need n <? N then (N - need n, false) :: cs2 else cs2)) (a + 8)).
  { replace (a + 8) with (lo h + total cs1 + total [] + 8) by (unfold a; simpl; lia).
    rewrite <- (app_nil_r cs1) at 2.
    destruct (Z.ltb_spec (need n) N).
    - apply (fresh_row (lo h) n cs1 [(N, false)] [] (need n) [(N - need n, false)] cs2); rewrite ?app_nil_r; try done;
        try (by repeat constructor); simpl; lia.
    - apply (fresh_row (lo h) n cs1 [(N, false)] [] (need n) [] cs2); rewrite ?app_nil_r; try done;
        try (by repeat constructor); simpl; lia. }
  assert (Hst : st h0 cs (free_nodes (lo h) cs)) by apply st_sem, Hi.
  destruct (Z.ltb_spec (need n) N).
  - apply (shrink_ok h0 cs1 N cs2 (need n)); [exact Hst|done|done|Z.to_euclidean_division_equations; lia|].
    cbn zeta. intros m H' K' I'. change (lo h0) with (lo h) in *. apply HQ.
    assert (Hw : Forall wf (cs1 ++ (need n, true) :: (N - need n, false) :: cs2)).
    { rewrite Forall_app, !Forall_cons. split_and!; [done|by split| |done].
      split; simpl; Z.to_euclidean_division_equations; lia. }
    exists (coalesce (cs1 ++ (need n, true) :: (N - need n, false) :: cs2)).
    assert (E : coalesce (cs1 ++ (need n, true) :: (N - need n, false) :: cs2) = cs1 ++ shrunk (need n) N cs2).
    { rewrite shrunk_coalesce by done. change ((need n, true) :: (N - need n, false) :: cs2)
        with ([(need n, true)] ++ (N - need n, false) :: cs2). rewrite (assoc_L (++)), coalesce_app, <- (assoc_L (++)); [done| |].
      - apply coalesced_app. unfold headb. simpl. by rewrite orb_true_r.
      - unfold lastb. by rewrite last_snoc. }
    split; [|right; rewrite old_mark; split_and!; [lia| |exact K'|]].
    + eapply heap_words; [exact Hi|apply coalesced_coalesce|by rewrite E].
    + by apply fresh_coalesce.
    + rewrite usable_coalesce by (done || apply F). unfold a. rewrite usable_app by done. intros i Hi0 _ Hi1. apply I'. unfold a in *. lia.
  - replace (need n) with N in * by lia. apply wp_ret. replace h0 with (set_words (words h) h0) by by destruct h.
    apply HQ. replace (set_words (words h) h) with h by by destruct h.
    exists cs. split; [done|]. right. rewrite old_mark. split_and!; [lia|done|done|done].
Qed.

(** The memory takes from its neighbours. *)

Lemma grow_path L P q R prev Q : cs1 = L ++ front P -> cs2 = front q ++ R -> 0 <= P -> 0 <= q ->
  P mod 16 = 0 -> q mod 16 = 0 -> N < need n -> need n <= P + N + q -> (P <> 0 -> prev = lo h + total L) ->
  (forall m p, reallocated h cs (a + 8) n p (set_words m h) -> Q p (set_words m h0)) ->
  wp (grow prev (a + N) a (a + 8) P q N (need n)) Q h0.
Proof.
  intros E1 E2 HP Hq HP16 Hq16 HN Hle Hprev HQ. destruct (need_ge n) as [Hg Hg16].
  destruct old_wf as (Hw1 & _ & Hw2). rewrite E1, E2, Forall_app in *. pose proof (need_min n Hn) as Hmin.
  assert (Ea : a = lo h0 + total L + P) by (unfold a; rewrite E1, total_app, front_total; change (lo h0) with (lo h); lia).
  assert (Ecs : cs = side_row L P N true q R) by (unfold cs; by rewrite E1, E2).
  pose proof old_mark as Em. pose proof old_usable as Eu. pose proof old_pos as Hpos. pose proof (hi_co _ _ _ Hi) as Hco.
  assert (Hst : st h0 cs (free_nodes (lo h) cs)) by apply st_sem, Hi.
  rewrite Ecs in *. rewrite E1, E2 in Em. change ((L ++ front P) ++ (N, false) :: front q ++ R) with (side_row L P N false q R) in Em.
  rewrite Ea in *. apply (grow_ok h0 L P N q R (need n) prev); try done.
  cbn zeta. intros m tp tn Htp Htn Hsum Htp16 Htn16 H' C' K'. change (lo h0) with (lo h) in *.
  set (p := lo h + total L + P - tp + 8) in *. apply HQ.
  assert (HwY : Forall wf (L ++ front (P - tp))).
  { apply Forall_app. split; [tauto|]. apply front_wf; Z.to_euclidean_division_equations; lia. }
  assert (F : fresh (lo h) n (side_row L P N false q R) (side_row L (P - tp) (need n) true (q - tn) R) p).
  { replace p with (lo h + total L + total (front (P - tp)) + 8) by (rewrite front_total; lia).
    replace (side_row L P N false q R) with (L ++ (front P ++ (N, false) :: front q) ++ R)
      by (unfold side_row; by rewrite <- !(assoc_L (++))).
    apply fresh_row; try done; try apply front_free.
    - tauto.
    - rewrite Forall_app, Forall_cons. split_and!; [apply front_free|done|apply front_free].
    - rewrite front_total. lia.
    - rewrite !total_app. simpl. rewrite !front_total. lia.
    - lia. }
  exists (side_row L (P - tp) (need n) true (q - tn) R). split; [|right; split_and!].
  - eapply heap_words; [exact Hi|eapply side_coalesced; [exact Hco|lia|lia]|done].
  - pose proof (total_nonneg _ (wf_big _ (proj1 Hw1))) as HL. unfold p. lia.
  - by rewrite Em.
  - by rewrite Em.
  - rewrite Eu. intros i Hi0 Hi1 _. unfold p. rewrite C'; [done|]. Z.to_euclidean_division_equations. lia.
Qed.

(** The memory moves. *)

Lemma move_path : N < need n -> need n < 4294967296 ->
  wp (newmem ← mm_malloc CtxTask n;
      (if negb (newmem =? 0) then memcpy newmem (a + 8) N;; mm_free CtxTask (a + 8) else mret tt);;
      mret newmem) (reallocated h cs (a + 8) n) h.
Proof.
  intros HN Hsm. destruct (need_ge n) as [Hg Hg16]. pose proof old_pos as Hpos.
  pose proof (ly_wf _ _ (proj1 (hi_st _ _ _ Hi))) as Hw. destruct old_wf as (_ & [HNw HN16] & _). cbn [fst] in *.
  pose proof (lay_chunk _ _ _ _ (proj1 (hi_st _ _ _ Hi))) as (_ & _ & _ & Ha & _ & _ & He & _). fold a in Ha, He.
  cbn [fst] in He. assert (Hd : live (lo h) cs (a + 8)) by (apply live_app; right; by left).
  apply wp_bind. eapply wp_mono; [apply mm_malloc_ok; [exact Hi|lia]|].
  intros p h1 (cs' & Hs & Hi1 & Hp1 & Hk1). cbn [foldl] in *. pose proof (same_lo _ _ Hp1) as El.
  destruct Hs as [Hno|k1 s k2 _ E Hle _].
  { apply wp_bind, wp_ret, wp_ret. exists cs. split; [done|]. left. split_and!; [done..|]. destruct Hno; [lia|done]. }
  assert (Hap : lo h + total k1 + s <= a \/ a + N <= lo h + total k1).
  { assert (HF : Chunk (lo h + total k1) s ∈ free_nodes (lo h) cs)
      by (rewrite E, free_nodes_app, elem_of_app; right; by left).
    by apply (row_apart h cs1 N cs2) in HF. }
  assert (Ht : Forall wf (taken (need n) s) /\ total (taken (need n) s) = s).
  { rewrite E, Forall_app, Forall_cons in Hw. destruct Hw as (_ & [_ Hs16] & _). cbn [fst] in Hs16.
    pose proof (need_min n Hn) as Hmin. unfold taken. destruct (Z.ltb_spec (need n) s); simpl;
      (split; [repeat constructor; simpl; try done; Z.to_euclidean_division_equations; lia|lia]). }
  rewrite E in Hw, Hd. destruct (mark_taken _ _ (need n) _ _ _ Hw (proj1 Ht) (proj2 Ht) Hd) as (e1 & e2 & M1 & M2 & Te).
  assert (We : Forall wf (mark (lo h) (a + 8) cs)) by (rewrite E; by apply wf_mark).
  pose proof (spec_fresh (lo h) n (mark (lo h) (a + 8) cs) e1 s e2 We ltac:(by rewrite E) Hle) as F.
  assert (Hu : usable (lo h) (mark (lo h) (a + 8) (k1 ++ taken (need n) s ++ k2)) (lo h + total k1 + 8) = need n - 8).
  { rewrite M2, <- Te. apply usable_app. rewrite E, M1, Forall_app in We. tauto. }
  rewrite <- M2, Te in F. set (p := lo h + total k1 + 8) in *. set (cs' := k1 ++ taken (need n) s ++ k2) in *.
  assert (Hp0 : 0 < p) by (rewrite Forall_app in Hw; pose proof (total_nonneg _ (wf_big _ (proj1 Hw))); unfold p; lia).
  rewrite (proj2 (Z.eqb_neq p 0)) by lia. cbn [negb]. apply wp_bind, wp_bind.
  unfold p. rewrite <- El. apply (memcpy_down_ok h1 k1 (need n) (behind (need n) s k2) (a + 8) N).
  - apply Hi1.
  - lia.
  - Z.to_euclidean_division_equations. lia.
  - Z.to_euclidean_division_equations. lia.
  - Z.to_euclidean_division_equations. lia.
  - rewrite El. fold p. unfold p. lia.
  - rewrite El. lia.
  - destruct Hp1 as (_ & -> & _). lia.
  - rewrite El. fold p. intros m2 H2 C2 O2.
    assert (Hi2 : heap_inv (set_words m2 h1) cs' []).
    { destruct Hi1 as [_ Hco1 Hsem1 Hch1 _ _ Hsz1].
      constructor; [by change (lo (set_words m2 h1)) with (lo h1); rewrite El|done|done|done|by constructor|by constructor|done]. }
    eapply wp_mono; [apply (mm_free_ok _ cs' []); [exact Hi2| |by intros ?%elem_of_nil]|].
    + change (lo (set_words m2 h1)) with (lo h1). rewrite El. apply live_taken; [apply Ht|done].
    + intros _ h3 [Hi3 _ _ Hk3]. change (lo (set_words m2 h1)) with (lo h1) in *. rewrite El in *. apply wp_ret.
      exists (release (lo h) cs' (a + 8)). split; [done|]. right.
      assert (Hw' : Forall wf (mark (lo h) (a + 8) cs')) by apply wf_mark, (ly_wf _ _ (proj1 (hi_st _ _ _ Hi2))).
      split_and!; [lia|by apply fresh_coalesce| |].
      * intros b Hb. rewrite Hk3 by (change (lo (set_words m2 h1)) with (lo h1); rewrite El; by apply (fs_old _ _ _ _ _ F)).
        cbn. rewrite O2; [apply Hk1; by eapply held_mark|].
        intros Hin. eapply (fs_new _ _ _ _ _ F b); [|exact Hb]. rewrite Hu. unfold p. lia.
      * intros i Hi0 Ho Hr. rewrite old_usable in Ho. unfold release in Hr.
        rewrite usable_coalesce, Hu in Hr by (done || apply F).
        rewrite Hk3 by (change (lo (set_words m2 h1)) with (lo h1); rewrite El; apply (fs_new _ _ _ _ _ F); rewrite Hu; lia).
        cbn. unfold p. rewrite C2 by (Z.to_euclidean_division_equations; lia). apply Hk1.
        apply held_app. right. cbn [held fst snd]. left. unfold a. split; [done|lia].
Qed.

End Paths.

Lemma realloc_ok h cs d n : heap_inv h cs [] -> live (lo h) cs d -> 1 <= n -> need n < 4294967296 ->
  exists p h', mm_realloc CtxTask d n h = Ret (p, h') /\ reallocated h cs d n p h'.
Proof.
  intros Hi Hd Hn Hsm. change (wp (mm_realloc CtxTask d n) (reallocated h cs d n) h).
  pose proof (live_range _ _ _ (ly_wf _ _ (proj1 (hi_st _ _ _ Hi))) Hd) as Hr.
  pose proof (rg_pos _ _ _ (ly_reg _ _ (proj1 (hi_st _ _ _ Hi)))) as Hpos.
  pose proof (ly_total _ _ (proj1 (hi_st _ _ _ Hi))) as Htot. pose proof (need_ge n) as [Hg _].
  apply live_split in Hd as (cs1 & N & cs2 & -> & ->). set (a := lo h + total cs1) in *.
  set (h0 := set_sem (mm_semaphore h - 1) h).
  assert (Hst : st h0 (cs1 ++ (N, true) :: cs2) (free_nodes (lo h) (cs1 ++ (N, true) :: cs2))) by apply st_sem, Hi.
  destruct (lay_chunk _ _ _ _ (proj1 Hst)) as (Hs & Hp & _ & _ & [HNw _] & _ & _ & Hl & HNs).
  change (lo h0) with (lo h) in Hs, Hp. fold a in Hs, Hp. cbn [fst snd] in *.
  unfold mm_realloc. rewrite (proj2 (Z.eqb_neq _ _)), (proj2 (Z.ltb_ge _ _)) by lia.
  destruct (align_need n ltac:(lia)) as [(Ho & En & _)|[_ ?]]; [|lia]. cbn zeta in *. rewrite En in *.
  rewrite (proj2 (Z.ltb_ge _ _)) by lia. unfold SIZEOF_MM_ALLOCNODE. replace (a + 8 - 8) with a by lia.
  apply wp_bind, wp_take; [apply Hi|]. fold h0.
  apply wp_bind. eapply wp_load; [exact Hp|]. apply wp_bind, wp_assert; [by apply pword_alloc|].
  apply wp_bind, wp_get. apply wp_bind, wp_assert.
  { unfold mm_heapmember, lo in *. cbn. apply andb_true_intro. split; apply Z.ltb_lt; lia. }
  apply wp_bind. eapply wp_load; [exact Hs|]. destruct (Z.leb_spec (need n) N) as [HN|HN].
  - apply wp_bind. apply (shrink_path h cs1 N cs2 n Hi Hn); [done|]. intros m Hm. fold h0.
    apply wp_bind, wp_modify, wp_ret. unfold h0. by rewrite (give_back m h).
  - destruct (next_room _ _ _ _ (proj1 Hst)) as (q & R & Eq & Hq & Hq16 & Hnext).
    destruct (prev_room _ _ _ _ (proj1 Hst)) as (P & L & EP & HP & HP16 & Hprev & Hat).
    change (lo h0) with (lo h) in Hnext, Hprev, Hat. fold a in Hnext, Hprev, Hat.
    apply wp_bind. eapply wp_run; [exact Hnext|]. apply wp_bind. eapply wp_load; [exact Hp|].
    rewrite pword_size by done. apply wp_bind. eapply wp_run; [exact Hprev|].
    assert (Hsum : P + N + q < MM_ALLOC_BIT).
    { pose proof (ly_small _ _ (proj1 (hi_st _ _ _ Hi))) as Hsml. pose proof (ly_wf _ _ (proj1 (hi_st _ _ _ Hi))) as Hw.
      rewrite Forall_app, Forall_cons, EP, Eq, !Forall_app in Hw. destruct Hw as ((HL & _) & _ & _ & HR).
      pose proof (total_nonneg _ (wf_big _ HL)). pose proof (total_nonneg _ (wf_big _ HR)).
      rewrite EP, Eq, !total_app in Htot. cbn [total fst] in Htot. rewrite total_app, !front_total in Htot. unfold lo in *. lia. }
    rewrite u32_small by (unfold MM_ALLOC_BIT in *; lia). destruct (Z.leb_spec (need n) (q + P + N)).
    + apply wp_bind. apply (grow_path h cs1 N cs2 n Hi Hn L P q R); try done; [lia|]. intros m p Hm. fold h0.
      apply wp_bind, wp_modify, wp_ret. unfold h0. by rewrite (give_back m h).
    + apply wp_bind, wp_modify. replace (set_sem _ h0) with h by (apply heap_eq; try done; unfold h0; cbn; unfold sem_post; lia).
      by apply move_path.
Qed.

(** A size that overflows fails an assertion, where [mm_malloc] answers NULL. *)

Lemma realloc_overflow cx d n h : d <> 0 -> 1 <= n < 4294967296 -> 4294967296 <= need n ->
  mm_realloc cx d n h = Ub AssertFailed.
Proof.
  intros Hd Hn Ho. unfold mm_realloc. rewrite (proj2 (Z.eqb_neq _ _)), (proj2 (Z.ltb_ge _ _)) by lia.
  destruct (align_need n ltac:(lia)) as [(_ & _ & ?)|[H _]]; [lia|]. cbn zeta in *. by rewrite (proj2 (Z.ltb_lt _ _) H).
Qed.

(** C29: resized memory.  What [mm_realloc] of memory that a client has does, for every size [n],
    on a heap in order with no free of an interrupt handler pending.  For
    0 it frees the memory and answers NULL.  For a size to which the header can be added it returns, and
    either answers NULL, because no free chunk is large enough, with the memory and all others as they
    were; or answers memory that is fresh but for the old memory it replaces (it may overlap the old
    memory, and no other), has room for [n] bytes and is aligned to 16 bytes, with the contents of the
    old memory word by word up to the smaller of the two sizes; all other memory in use keeps its
    contents, and the old memory is free but for what the new one covers.  For a larger size, within 23
    bytes of 2^32, an assertion fails. *)
Theorem realloc_keeps h cs d n (Hi : heap_inv h cs []) (Hd : live (lo h) cs d) (Hn : 0 <= n < 4294967296) :
  (n = 0 -> exists h', mm_realloc CtxTask d n h = Ret (0, h') /\ freed h cs [] d h') /\
  (1 <= n -> need n < 4294967296 -> exists p h', mm_realloc CtxTask d n h = Ret (p, h') /\ reallocated h cs d n p h') /\
  (4294967296 <= need n -> 4294967296 - 23 <= n /\ mm_realloc CtxTask d n h = Ub AssertFailed).
Proof.
  assert (Hd0 : d <> 0).
  { pose proof (live_range _ _ _ (ly_wf _ _ (proj1 (hi_st _ _ _ Hi))) Hd).
    pose proof (rg_pos _ _ _ (ly_reg _ _ (proj1 (hi_st _ _ _ Hi)))). lia. }
  split_and!.
  - intros ->. destruct (mm_free_ok h cs [] d Hi Hd) as ([] & h' & E & Hf); [by intros ?%elem_of_nil|].
    exists h'. split; [|exact Hf]. unfold mm_realloc. rewrite (proj2 (Z.eqb_neq _ _)) by done. cbn [Z.ltb Z.compare].
    unfold mbind, M_bind. by rewrite E.
  - intros H1 Hsm. by apply realloc_ok.
  - intros Ho. unfold need in Ho. split; [Z.to_euclidean_division_equations; lia|].
    apply realloc_overflow; [done| |done]. Z.to_euclidean_division_equations. lia.
Qed.

Lemma realloc_keeps_witness : exists h cs, heap_inv h cs [] /\ live (lo h) cs 4464 /\
  exists p h', mm_realloc CtxTask 4464 300 h = Ret (p, h') /\ reallocated h cs 4464 300 p h'.
Proof.
  destruct demo_heap as (h0 & _ & Hi0 & El0).
  destruct (mm_malloc_ok h0 demo_row [] 100 Hi0 ltac:(lia)) as (p & h & _ & cs & Hs & Hi & Hp & _). cbn [foldl] in Hs.
  assert (Hl : live (lo h) cs 4464).
  { rewrite (same_lo _ _ Hp), El0 in *. inversion Hs as [Hno|cs1 s cs2 _ E _ _]; subst.
    - destruct Hno as [Hno|Hno]; [lia|]. specialize (Hno 3728 ltac:(by left)). by vm_compute in Hno.
    - destruct cs1 as [|c [|]]; inversion E; subst. by left. }
  exists h, cs. split; [exact Hi|]. split; [exact Hl|].
  destruct (realloc_keeps h cs 4464 300 Hi Hl ltac:(lia)) as (_ & H & _). apply H; [lia|reflexivity].
Defined.

(** A run: memory grows into the free chunk before it, then shrinks; the words come along. *)

Example realloc_run :
  demo (a ← mm_malloc CtxTask 100; b ← mm_malloc CtxTask 40; c ← mm_malloc CtxTask 40;
        store b 7;; store (b + 36) 9;; mm_free CtxTask a;;
        p ← mm_realloc CtxTask b 120; x ← load p; y ← load (p + 36);
        q ← mm_realloc CtxTask p 20; z ← load q;
        mret (b, p, x, y, q, z))
  = Some (4576, 4496, 7, 9, 4496, 7).
Proof. vm_compute. reflexivity. Qed.

End MmRealloc.
