(* ===== verification/Serial.v ===== *)
(** * The serial driver, upper half

    [src/spresense/nuttx/drivers/serial/serial.c] and [serial_io.c] (with
    termios and removable devices, without DMA, flow control and signals from
    the terminal), over the operations [uart_ops] of a lower half.

    A call of the driver runs in a task and is interrupted: [sched] lists, batch
    by batch, the interrupts that are served where the code can be interrupted
    ([irq_point]), and while it waits for a semaphore. *)

From S2P Require Import Prelude.

Module Serial.

Definition EINTR : Z := 4.
Definition EAGAIN : Z := 11.
Definition EMFILE : Z := 24.
Definition EBADFD : Z := 81.
Definition ETIMEDOUT : Z := 116.
Definition ENOTCONN : Z := 128.

(** Input and output modes ([include/termios.h]). *)

Definition INLCR : Z := 64.
Definition IGNCR : Z := 128.
Definition ICRNL : Z := 256.
Definition OPOST : Z := 1.
Definition ONLCR : Z := 4.
Definition OCRNL : Z := 8.
Definition ONLRET : Z := 32.
Definition ISIG : Z := 1.

Definition has (flags bit : Z) : bool := negb (Z.land flags bit =? 0).

Definition CR : Z := 13.
Definition LF : Z := 10.

(** Events of [poll] ([include/sys/poll.h]). *)

Definition POLLIN : Z := 1.
Definition POLLOUT : Z := 4.
Definition POLLERR : Z := 8.
Definition POLLHUP : Z := 16.

Definition TCIFLUSH : Z := 0.
Definition TCOFLUSH : Z := 1.
Definition TCIOFLUSH : Z := 2.

(** ** State *)

(** [struct uart_buffer_s] *)

Record uart_buffer := mk_ub {
  ub_sem : Z;
  ub_head : Z;
  ub_tail : Z;
  ub_size : Z;
  ub_buffer : list Z
}.

Definition set_ub_sem v b := mk_ub v (ub_head b) (ub_tail b) (ub_size b) (ub_buffer b).
Definition set_ub_head v b := mk_ub (ub_sem b) v (ub_tail b) (ub_size b) (ub_buffer b).
Definition set_ub_tail v b := mk_ub (ub_sem b) (ub_head b) v (ub_size b) (ub_buffer b).
Definition set_ub_buffer v b := mk_ub (ub_sem b) (ub_head b) (ub_tail b) (ub_size b) v.

(** [struct pollfd]: what is asked for, what happened, the semaphore of the
    waiting thread, and the slot of the driver it is bound to ([priv]). *)

Record pollfd := mk_pollfd { events : Z; revents : Z; p_sem : Z; p_priv : option nat }.

(** [struct uart_dev_s]; [fds] are pointers to the structures in [polls]. *)

Record uart_dev := mk_dev {
  open_count : Z;
  xmitwaiting : bool;
  recvwaiting : bool;
  disconnected : bool;
  isconsole : bool;
  tc_iflag : Z;
  tc_oflag : Z;
  tc_lflag : Z;
  closesem : Z;
  xmitsem : Z;
  recvsem : Z;
  pollsem : Z;
  xmit : uart_buffer;
  recv : uart_buffer;
  fds : list (option nat);
  polls : gmap nat pollfd
}.

Definition set_open_count v d := mk_dev v (xmitwaiting d) (recvwaiting d) (disconnected d) (isconsole d) (tc_iflag d) (tc_oflag d) (tc_lflag d) (closesem d) (xmitsem d) (recvsem d) (pollsem d) (xmit d) (recv d) (fds d) (polls d).
Definition set_xmitwaiting v d := mk_dev (open_count d) v (recvwaiting d) (disconnected d) (isconsole d) (tc_iflag d) (tc_oflag d) (tc_lflag d) (closesem d) (xmitsem d) (recvsem d) (pollsem d) (xmit d) (recv d) (fds d) (polls d).
Definition set_recvwaiting v d := mk_dev (open_count d) (xmitwaiting d) v (disconnected d) (isconsole d) (tc_iflag d) (tc_oflag d) (tc_lflag d) (closesem d) (xmitsem d) (recvsem d) (pollsem d) (xmit d) (recv d) (fds d) (polls d).
Definition set_disconnected v d := mk_dev (open_count d) (xmitwaiting d) (recvwaiting d) v (isconsole d) (tc_iflag d) (tc_oflag d) (tc_lflag d) (closesem d) (xmitsem d) (recvsem d) (pollsem d) (xmit d) (recv d) (fds d) (polls d).
Definition set_modes i o l d := mk_dev (open_count d) (xmitwaiting d) (recvwaiting d) (disconnected d) (isconsole d) i o l (closesem d) (xmitsem d) (recvsem d) (pollsem d) (xmit d) (recv d) (fds d) (polls d).
Definition set_closesem v d := mk_dev (open_count d) (xmitwaiting d) (recvwaiting d) (disconnected d) (isconsole d) (tc_iflag d) (tc_oflag d) (tc_lflag d) v (xmitsem d) (recvsem d) (pollsem d) (xmit d) (recv d) (fds d) (polls d).
Definition set_xmitsem v d := mk_dev (open_count d) (xmitwaiting d) (recvwaiting d) (disconnected d) (isconsole d) (tc_iflag d) (tc_oflag d) (tc_lflag d) (closesem d) v (recvsem d) (pollsem d) (xmit d) (recv d) (fds d) (polls d).
Definition set_recvsem v d := mk_dev (open_count d) (xmitwaiting d) (recvwaiting d) (disconnected d) (isconsole d) (tc_iflag d) (tc_oflag d) (tc_lflag d) (closesem d) (xmitsem d) v (pollsem d) (xmit d) (recv d) (fds d) (polls d).
Definition set_pollsem v d := mk_dev (open_count d) (xmitwaiting d) (recvwaiting d) (disconnected d) (isconsole d) (tc_iflag d) (tc_oflag d) (tc_lflag d) (closesem d) (xmitsem d) (recvsem d) v (xmit d) (recv d) (fds d) (polls d).
Definition set_xmit v d := mk_dev (open_count d) (xmitwaiting d) (recvwaiting d) (disconnected d) (isconsole d) (tc_iflag d) (tc_oflag d) (tc_lflag d) (closesem d) (xmitsem d) (recvsem d) (pollsem d) v (recv d) (fds d) (polls d).
Definition set_recv v d := mk_dev (open_count d) (xmitwaiting d) (recvwaiting d) (disconnected d) (isconsole d) (tc_iflag d) (tc_oflag d) (tc_lflag d) (closesem d) (xmitsem d) (recvsem d) (pollsem d) (xmit d) v (fds d) (polls d).
Definition set_fds v d := mk_dev (open_count d) (xmitwaiting d) (recvwaiting d) (disconnected d) (isconsole d) (tc_iflag d) (tc_oflag d) (tc_lflag d) (closesem d) (xmitsem d) (recvsem d) (pollsem d) (xmit d) (recv d) v (polls d).
Definition set_polls v d := mk_dev (open_count d) (xmitwaiting d) (recvwaiting d) (disconnected d) (isconsole d) (tc_iflag d) (tc_oflag d) (tc_lflag d) (closesem d) (xmitsem d) (recvsem d) (pollsem d) (xmit d) (recv d) (fds d) v.

Abbreviation MD A := (M uart_dev A).

(** ** Waking up *)

Definition load_poll (id : nat) : MD pollfd :=
  d ← get; match polls d !! id with Some p => mret p | None => ub DanglingDeref end.

Definition store_poll (id : nat) (p : pollfd) : MD unit :=
  modify (fun d => set_polls (<[id := p]> (polls d)) d).

(** One turn of [uart_pollnotify]. *)

Definition notify_one (eventset : Z) (slot : option nat) : MD unit :=
  match slot with
  | None => mret tt
  | Some id =>
    p ← load_poll id;
    let r := Z.lor (revents p) (Z.land (Z.lor (events p) (Z.lor POLLERR POLLHUP)) eventset) in
    store_poll id (mk_pollfd (events p) r
      (if negb (r =? 0) && (p_sem p <? 1) then sem_post (p_sem p) else p_sem p) (p_priv p))
  end.

Fixpoint notify_all (eventset : Z) (slots : list (option nat)) : MD unit :=
  match slots with
  | [] => mret tt
  | slot :: slots' => notify_one eventset slot;; notify_all eventset slots'
  end.

Definition uart_pollnotify (eventset : Z) : MD unit := d ← get; notify_all eventset (fds d).

(** Post [recvsem] or [xmitsem] if a thread waits for it. *)

Definition wake_recv : MD unit :=
  d ← get;
  if recvwaiting d then modify (set_recvwaiting false);; modify (fun d => set_recvsem (sem_post (recvsem d)) d)
  else mret tt.

Definition wake_xmit : MD unit :=
  d ← get;
  if xmitwaiting d then modify (set_xmitwaiting false);; modify (fun d => set_xmitsem (sem_post (xmitsem d)) d)
  else mret tt.

Definition uart_datareceived : MD unit := uart_pollnotify POLLIN;; wake_recv.

Definition uart_datasent : MD unit := uart_pollnotify POLLOUT;; wake_xmit.

Definition uart_connected (connected : bool) : MD unit :=
  modify (set_disconnected (negb connected));;
  if negb connected then
    uart_pollnotify (Z.lor POLLERR POLLHUP);; wake_xmit;; wake_recv
  else mret tt.

Definition uart_reset_sem : MD unit :=
  modify (set_xmitsem 0);;
  modify (set_recvsem 0);;
  modify (fun d => set_xmit (set_ub_sem 1 (xmit d)) d);;
  modify (fun d => set_recv (set_ub_sem 1 (recv d)) d);;
  modify (set_pollsem 1).

(** ** Circular buffers *)

(** The index after [i]. *)

Definition next_index (b : uart_buffer) (i : Z) : Z := if ub_size b <=? i + 1 then 0 else i + 1.

Definition load_char (b : uart_buffer) (i : Z) : outcome Z :=
  if i <? 0 then Ub OutOfBounds
  else match ub_buffer b !! Z.to_nat i with Some c => Ret c | None => Ub OutOfBounds end.

Definition store_char (b : uart_buffer) (i ch : Z) : outcome uart_buffer :=
  if (0 <=? i) && (i <? Z.of_nat (length (ub_buffer b)))
  then Ret (set_ub_buffer (<[Z.to_nat i := u8 ch]> (ub_buffer b)) b) else Ub OutOfBounds.

(** Take the character at the tail; put one at the head, whose successor is
    [nexthead]. *)

Definition pop_xmit : MD Z :=
  d ← get;
  c ← lift (load_char (xmit d) (ub_tail (xmit d)));
  modify (set_xmit (set_ub_tail (next_index (xmit d) (ub_tail (xmit d))) (xmit d)));;
  mret c.

Definition pop_recv : MD Z :=
  d ← get;
  c ← lift (load_char (recv d) (ub_tail (recv d)));
  modify (set_recv (set_ub_tail (next_index (recv d) (ub_tail (recv d))) (recv d)));;
  mret c.

Definition push_xmit (nexthead ch : Z) : MD unit :=
  d ← get;
  b ← lift (store_char (xmit d) (ub_head (xmit d)) ch);
  modify (set_xmit (set_ub_head nexthead b)).

Definition push_recv (nexthead ch : Z) : MD unit :=
  d ← get;
  b ← lift (store_char (recv d) (ub_head (recv d)) ch);
  modify (set_recv (set_ub_head nexthead b)).

(** The number of characters in a buffer and the room left in it ([FIONREAD],
    [FIONWRITE], [FIONSPACE]). *)

Definition buffered (b : uart_buffer) : Z :=
  if ub_tail b <=? ub_head b then ub_head b - ub_tail b else ub_size b - (ub_tail b - ub_head b).

Definition space (b : uart_buffer) : Z :=
  if ub_head b <? ub_tail b then ub_tail b - ub_head b - 1 else ub_size b - (ub_head b - ub_tail b) - 1.

(** ** The lower half *)

(** A device with the private state [P] of its lower half. *)

Record port (P : Type) := mk_port { serdev : uart_dev; priv : P }.
Arguments mk_port {P}.
Arguments serdev {P}.
Arguments priv {P}.

Definition set_serdev {P} (d : uart_dev) (p : port P) : port P := mk_port d (priv p).
Definition set_priv {P} (v : P) (p : port P) : port P := mk_port (serdev p) v.

Definition on_dev {P A} (m : MD A) : M (port P) A := zoom serdev set_serdev m.

(** Requests of [ioctl] and what they fill in. *)

Record termios := mk_termios { c_iflag : Z; c_oflag : Z; c_cflag : Z; c_lflag : Z }.

Inductive ioctl_req :=
| FIONREAD | FIONWRITE | FIONSPACE
| TCFLSH (queue : Z)
| TCDRN
| TCGETS (arg : option termios)
| TCSETS (arg : option termios)
| CMD (cmd arg : Z).        (** the requests of one lower half *)

Inductive reply := NoReply | IntReply (z : Z) | TermiosReply (t : termios) | BytesReply (l : list Z).

(** [struct uart_ops_s]; an operation that is [None] is a null pointer. *)

Class uart_ops (P : Type) := {
  op_setup : M (port P) Z;
  op_shutdown : M (port P) unit;
  op_attach : M (port P) Z;
  op_detach : M (port P) unit;
  op_ioctl : ioctl_req -> M (port P) (Z * reply);
  op_receive : option (M (port P) Z);
  op_rxint : bool -> M (port P) unit;
  op_rxavailable : option (M (port P) bool);
  op_send : option (Z -> M (port P) unit);
  op_txint : bool -> M (port P) unit;
  op_txready : option (M (port P) bool);
  op_txempty : M (port P) bool
}.

Definition fetch {S A} (o : option A) : M S A :=
  match o with Some a => mret a | None => ub NullDeref end.

(** ** Characters at interrupt level ([serial_io.c]) *)

Section Irq.
Context {P : Type} `{uart_ops P}.

(** The loop of [uart_xmitchars]; every turn takes a character out of the
    buffer. *)

Fixpoint xmit_loop (n : nat) (nbytes : Z) : M (port P) Z :=
  p ← get;
  if ub_head (xmit (serdev p)) =? ub_tail (xmit (serdev p)) then mret nbytes
  else
    txready ← fetch op_txready;
    r ← txready;
    if negb r then mret nbytes
    else
      match n with
      | O => blocked
      | S n' =>
        send ← fetch op_send;
        p ← get;
        c ← lift (load_char (xmit (serdev p)) (ub_tail (xmit (serdev p))));
        send c;;
        on_dev pop_xmit;;
        xmit_loop n' (u16 (nbytes + 1))
      end.

Definition uart_xmitchars : M (port P) unit :=
  p ← get;
  nbytes ← xmit_loop (length (ub_buffer (xmit (serdev p)))) 0;
  p ← get;
  (if ub_head (xmit (serdev p)) =? ub_tail (xmit (serdev p)) then op_txint false else mret tt);;
  if negb (nbytes =? 0) then on_dev uart_datasent else mret tt.

(** The loop of [uart_recvchars], at most [n] characters that the hardware
    has. *)

Fixpoint recv_loop (n : nat) (nexthead nbytes : Z) : M (port P) Z :=
  rxavailable ← fetch op_rxavailable;
  r ← rxavailable;
  if negb r then mret nbytes
  else
    match n with
    | O => blocked
    | S n' =>
      p ← get;
      let is_full := nexthead =? ub_tail (recv (serdev p)) in
      receive ← fetch op_receive;
      ch ← receive;
      if negb is_full then
        on_dev (push_recv nexthead ch);;
        p ← get;
        recv_loop n' (next_index (recv (serdev p)) nexthead) (u16 (nbytes + 1))
      else recv_loop n' nexthead nbytes
    end.

Definition uart_recvchars (n : nat) : M (port P) unit :=
  p ← get;
  nbytes ← recv_loop n (next_index (recv (serdev p)) (ub_head (recv (serdev p)))) 0;
  if negb (nbytes =? 0) then on_dev uart_datareceived else mret tt.

End Irq.

(** ** Tasks

    [E] are the interrupts of the lower half, [handle] their handlers. *)

Inductive event (E : Type) := Irq (e : E) | Signal.
Arguments Irq {E}.
Arguments Signal {E}.

(** The interrupts served at one point, and the clock ticks that pass if the
    task sleeps there. *)

Record batch (E : Type) := mk_batch { b_events : list (event E); b_ticks : Z }.
Arguments mk_batch {E}.
Arguments b_events {E}.
Arguments b_ticks {E}.

Record sys (P E : Type) := mk_sys { prt : port P; sched : list (batch E); now : Z }.
Arguments mk_sys {P E}.
Arguments prt {P E}.
Arguments sched {P E}.
Arguments now {P E}.

(** [struct file], as far as the driver looks at it. *)

Record file := mk_file { f_inode : bool; f_nonblock : bool }.

(** A semaphore of the device. *)

Record semref := mk_sem { sem_get : uart_dev -> Z; sem_set : Z -> uart_dev -> uart_dev }.

Definition XMITSEM : semref := mk_sem xmitsem set_xmitsem.
Definition RECVSEM : semref := mk_sem recvsem set_recvsem.
Definition CLOSESEM : semref := mk_sem closesem set_closesem.
Definition POLLSEM : semref := mk_sem pollsem set_pollsem.
Definition XMIT_SEM : semref :=
  mk_sem (fun d => ub_sem (xmit d)) (fun v d => set_xmit (set_ub_sem v (xmit d)) d).
Definition RECV_SEM : semref :=
  mk_sem (fun d => ub_sem (recv d)) (fun v d => set_recv (set_ub_sem v (recv d)) d).

Section Upper.
Context {P E : Type} `{uart_ops P} (handle : E -> M (port P) unit).

Abbreviation MS A := (M (sys P E) A).

Definition set_prt (p : port P) (s : sys P E) : sys P E := mk_sys p (sched s) (now s).
Definition set_sched (l : list (batch E)) (s : sys P E) : sys P E := mk_sys (prt s) l (now s).
Definition set_now (t : Z) (s : sys P E) : sys P E := mk_sys (prt s) (sched s) t.

Definition on_port {A} (m : M (port P) A) : MS A := zoom prt set_prt m.
Definition on_udev {A} (m : MD A) : MS A := on_port (on_dev m).
Definition udev {A} (f : uart_dev -> A) : MS A := gets (fun s => f (serdev (prt s))).

(** *** Interrupts *)

Fixpoint serve (l : list (event E)) : M (port P) unit :=
  match l with
  | [] => mret tt
  | Irq e :: l' => handle e;; serve l'
  | Signal :: l' => serve l'
  end.

Definition irq_point : MS unit :=
  s ← get;
  match sched s with
  | [] => mret tt
  | b :: l => modify (set_sched l);; on_port (serve (b_events b))
  end.

Definition signalled (b : batch E) : bool :=
  existsb (fun e => match e with Signal => true | _ => false end) (b_events b).

(** [uart_takesem]: interrupts are served until the semaphore is free; a
    signal ends the wait if [errout]. *)

Fixpoint take_loop (r : semref) (errout : bool) (l : list (batch E)) : MS Z :=
  c ← udev (sem_get r);
  if 0 <? c then on_udev (modify (sem_set r (c - 1)));; mret OK
  else
    match l with
    | [] => blocked
    | b :: l' =>
      modify (set_sched l');;
      on_port (serve (b_events b));;
      c ← udev (sem_get r);
      if errout && signalled b && (c <=? 0) then mret (- EINTR) else take_loop r errout l'
    end.

Definition uart_takesem (r : semref) (errout : bool) : MS Z := s ← get; take_loop r errout (sched s).

Definition uart_givesem (r : semref) : MS unit :=
  on_udev (modify (fun d => sem_set r (sem_post (sem_get r d)) d)).

(** [nxsig_usleep] for less than a tick. *)

Definition usleep : MS unit :=
  s ← get;
  match sched s with
  | [] => modify (set_now (u32 (now s + 1)))
  | b :: _ => modify (set_now (u32 (now s + Z.max 1 (b_ticks b))));; irq_point
  end.

(** *** Transmission *)

(** Turns of the loops that wait: each waits for a semaphore that is free
    already, or serves a batch. *)

Definition turns (s : sys P E) : nat :=
  2 * length (sched s) + Z.to_nat (xmitsem (serdev (prt s))) + Z.to_nat (recvsem (serdev (prt s))) + 4.

(** Wait until characters have been taken from the buffer. *)

Definition wait_room : MS Z :=
  on_udev (modify (set_xmitwaiting true));;
  on_port (op_txint true);;
  ret ← uart_takesem XMITSEM true;
  on_port (op_txint false);;
  mret ret.

Fixpoint put_loop (n : nat) (nexthead ch : Z) (oktoblock : bool) : MS Z :=
  match n with
  | O => blocked
  | S n' =>
    irq_point;;
    x ← udev xmit;
    if negb (nexthead =? ub_tail x) then on_udev (push_xmit nexthead ch);; mret OK
    else if oktoblock then
      irq_point;;
      x ← udev xmit;
      gone ← udev disconnected;
      ret ←
        (if negb (nexthead =? ub_tail x) then mret OK
         else if (gone : bool) then mret (- ENOTCONN)
         else wait_room);
      gone ← udev disconnected;
      if (gone : bool) then mret (- ENOTCONN)
      else if ret <? 0 then mret (- EINTR)
      else put_loop n' nexthead ch oktoblock
    else mret (- EAGAIN)
  end.

Definition uart_putxmitchar (ch : Z) (oktoblock : bool) : MS Z :=
  s ← get;
  let x := xmit (serdev (prt s)) in
  put_loop (turns s) (next_index x (ub_head x)) ch oktoblock.

(** [uart_putc] polls the hardware, at most [spin] times. *)

Fixpoint uart_putc (spin : nat) (ch : Z) : M (port P) unit :=
  txready ← fetch op_txready;
  r ← txready;
  if (r : bool) then send ← fetch op_send; send ch
  else match spin with O => blocked | S spin' => uart_putc spin' ch end.

(** Output processing: the character that is sent, and whether a carriage
    return goes before it. *)

Definition output_char (oflag ch : Z) : Z * bool :=
  if has oflag OPOST then
    let ch := if (ch =? CR) && has oflag OCRNL then LF else ch in
    (ch, (ch =? LF) && has oflag (Z.lor ONLCR ONLRET))
  else (ch, false).

Fixpoint uart_irqwrite (spin : nat) (buf : list Z) : M (port P) unit :=
  match buf with
  | [] => mret tt
  | ch :: buf' =>
    p ← get;
    let '(ch, cr) := output_char (tc_oflag (serdev p)) ch in
    (if (cr : bool) then uart_putc spin CR else mret tt);;
    uart_putc spin ch;;
    uart_irqwrite spin buf'
  end.

(** One character of [uart_write], processed. *)

Definition write_char (ch : Z) (oktoblock : bool) : MS Z :=
  oflag ← udev tc_oflag;
  let '(ch, cr) := output_char oflag ch in
  ret ← (if (cr : bool) then uart_putxmitchar CR oktoblock else mret OK);
  if 0 <=? ret then uart_putxmitchar ch oktoblock else mret ret.

(** The loop of [uart_write] over the characters that are left of [buflen]. *)

Fixpoint write_loop (buflen : Z) (oktoblock : bool) (buf : list Z) : MS Z :=
  match buf with
  | [] => mret buflen
  | ch :: buf' =>
    ret ← write_char ch oktoblock;
    if ret <? 0 then
      let left := Z.of_nat (length buf) in
      mret (if left <? buflen then buflen - left else ret)
    else write_loop buflen oktoblock buf'
  end.

(** [direct]: called from an interrupt handler or the idle task. *)

Definition uart_write (direct : bool) (spin : nat) (f : file) (buf : list Z) : MS Z :=
  if negb (f_inode f) then ub NullDeref
  else if direct then
    gone ← udev disconnected;
    if (gone : bool) then mret (- ENOTCONN)
    else on_port (uart_irqwrite spin buf);; mret (Z.of_nat (length buf))
  else
    ret ← uart_takesem XMIT_SEM true;
    if ret <? 0 then mret ret
    else
      gone ← udev disconnected;
      if (gone : bool) then uart_givesem XMIT_SEM;; mret (- ENOTCONN)
      else
        on_port (op_txint false);;
        nwritten ← write_loop (Z.of_nat (length buf)) (negb (f_nonblock f)) buf;
        x ← udev xmit;
        (if negb (ub_head x =? ub_tail x) then on_port (op_txint true) else mret tt);;
        uart_givesem XMIT_SEM;;
        mret nwritten.

(** *** Draining *)

Fixpoint drain_loop (n : nat) : MS Z :=
  x ← udev xmit;
  if ub_head x =? ub_tail x then mret OK
  else
    match n with
    | O => blocked
    | S n' =>
      ret ← wait_room;
      if 0 <=? ret then drain_loop n' else mret ret
    end.

(** The busy wait: [None] for a timeout.  Every turn lasts at least a tick. *)

Fixpoint empty_loop (n : nat) (start timeout : Z) : MS (option unit) :=
  e ← on_port op_txempty;
  if (e : bool) then mret (Some tt)
  else
    match n with
    | O => blocked
    | S n' =>
      usleep;;
      t ← gets now;
      if timeout <=? u32 (t - start) then mret None else empty_loop n' start timeout
    end.

Definition uart_tcdrain (timeout : Z) : MS Z :=
  ret ← uart_takesem XMIT_SEM true;
  if 0 <=? ret then
    gone ← udev disconnected;
    ret ←
      (if (gone : bool) then
         on_udev (modify (fun d => set_xmit (set_ub_tail (ub_head (xmit d)) (xmit d)) d));; mret (- ENOTCONN)
       else s ← get; drain_loop (turns s));
    start ← gets now;
    sch ← gets sched;
    r ← (if 0 <=? ret then empty_loop (S (length sch + Z.to_nat timeout)) start timeout else mret (Some tt));
    match r with
    | None => mret (- ETIMEDOUT)
    | Some _ => uart_givesem XMIT_SEM;; mret ret
    end
  else mret ret.

(** *** Open and close *)

Definition uart_open (f : file) : MS Z :=
  if negb (f_inode f) then ub NullDeref
  else
    ret ← uart_takesem CLOSESEM true;
    if ret <? 0 then mret ret
    else
      ret ←
        (d ← udev id;
         if disconnected d then mret (- ENOTCONN)
         else
           let tmp := u8 (open_count d + 1) in
           if tmp =? 0 then mret (- EMFILE)
           else
             ret ←
               (if tmp =? 1 then
                  ret ← (if negb (isconsole d) then on_port op_setup else mret ret);
                  if ret <? 0 then mret ret
                  else
                    ret ← on_port op_attach;
                    if ret <? 0 then on_port op_shutdown;; mret ret
                    else on_port (op_rxint true);; mret ret
                else mret ret);
             (if ret <? 0 then mret tt else on_udev (modify (set_open_count tmp)));;
             mret ret);
      uart_givesem CLOSESEM;;
      mret ret.

Definition uart_close (tick_per_sec : Z) (f : file) : MS Z :=
  if negb (f_inode f) then ub NullDeref
  else
    uart_takesem CLOSESEM false;;
    d ← udev id;
    if 1 <? open_count d then
      on_udev (modify (set_open_count (open_count d - 1)));;
      uart_givesem CLOSESEM;;
      mret OK
    else
      on_udev (modify (set_open_count 0));;
      on_port (op_rxint false);;
      (if negb (f_nonblock f) then uart_tcdrain (4 * tick_per_sec) else mret OK);;
      on_port op_detach;;
      c ← udev isconsole;
      (if negb c then on_port op_shutdown else mret tt);;
      on_udev uart_datareceived;;
      on_udev uart_reset_sem;;
      uart_givesem CLOSESEM;;
      mret OK.

(** *** Reception *)

(** Input processing: [None] for a character that is dropped.  The test for
    [IGNCR] is a bitwise conjunction with the result of a comparison. *)

Definition input_char (iflag ch : Z) : option Z :=
  if has iflag (Z.lor INLCR (Z.lor IGNCR ICRNL)) then
    let ch := if (ch =? LF) && has iflag INLCR then CR
              else if (ch =? CR) && has iflag ICRNL then LF else ch in
    if negb (Z.land (if ch =? CR then 1 else 0) (Z.land iflag IGNCR) =? 0) then None else Some ch
  else Some ch.

(** The loop of [uart_read]: the result and the characters stored so far. *)

Fixpoint read_loop (n : nat) (f : file) (buflen : Z) (got : list Z) : MS (Z * list Z) :=
  let recvd := Z.of_nat (length got) in
  if buflen <=? recvd then mret (recvd, got)
  else
    match n with
    | O => blocked
    | S n' =>
      irq_point;;
      d ← udev id;
      if disconnected d then mret (if recvd =? 0 then - ENOTCONN else recvd, got)
      else if negb (ub_head (recv d) =? ub_tail (recv d)) then
        ch ← on_udev pop_recv;
        match input_char (tc_iflag d) ch with
        | None => read_loop n' f buflen got
        | Some ch => read_loop n' f buflen (got ++ [ch])
        end
      else if 0 <? recvd then mret (recvd, got)
      else if negb (f_inode f) then mret (- EBADFD, got)
      else if f_nonblock f then mret (- EAGAIN, got)
      else
        irq_point;;
        on_port (op_rxint false);;
        d ← udev id;
        if ub_head (recv d) =? ub_tail (recv d) then
          on_port (op_rxint true);;
          d ← udev id;
          if negb (ub_head (recv d) =? ub_tail (recv d)) then read_loop n' f buflen got
          else
            ret ←
              (if disconnected d then mret (- ENOTCONN)
               else on_udev (modify (set_recvwaiting true));; uart_takesem RECVSEM true);
            gone ← udev disconnected;
            if (ret <? 0) || gone then
              mret (if recvd =? 0 then (if (gone : bool) then - ENOTCONN else - EINTR) else recvd, got)
            else read_loop n' f buflen got
        else
          on_port (op_rxint true);;
          read_loop n' f buflen got
    end.

Definition uart_read (f : file) (buflen : Z) : MS (Z * list Z) :=
  if negb (f_inode f) then ub NullDeref
  else
    ret ← uart_takesem RECV_SEM true;
    if ret <? 0 then mret (ret, [])
    else
      s ← get;
      r ← read_loop (Z.to_nat buflen + turns s) f buflen [];
      on_port (op_rxint true);;
      uart_givesem RECV_SEM;;
      mret r.

(** *** Requests *)

Definition uart_ioctl (tick_per_sec : Z) (req : ioctl_req) : MS (Z * reply) :=
  '(ret, rep) ← on_port (op_ioctl req);
  if ret =? - ENOTTY then
    d ← udev id;
    match req with
    | FIONREAD => mret (0, IntReply (buffered (recv d)))
    | FIONWRITE => mret (0, IntReply (buffered (xmit d)))
    | FIONSPACE => mret (0, IntReply (space (xmit d)))
    | TCFLSH queue =>
      (if (queue =? TCIFLUSH) || (queue =? TCIOFLUSH) then
         on_udev (modify (fun d => set_recv (set_ub_tail (ub_head (recv d)) (recv d)) d))
       else mret tt);;
      (if (queue =? TCOFLUSH) || (queue =? TCIOFLUSH) then
         on_udev (modify (fun d => set_xmit (set_ub_tail (ub_head (xmit d)) (xmit d)) d);; uart_datasent)
       else mret tt);;
      mret (0, NoReply)
    | TCDRN => ret ← uart_tcdrain (10 * tick_per_sec); mret (ret, NoReply)
    | _ => mret (ret, rep)
    end
  else if ret =? OK then
    match req with
    | TCGETS arg =>
      match arg with
      | None => mret (- EINVAL, rep)
      | Some t =>
        d ← udev id;
        let t := match rep with TermiosReply t => t | _ => t end in
        mret (ret, TermiosReply (mk_termios (tc_iflag d) (tc_oflag d) (c_cflag t) (tc_lflag d)))
      end
    | TCSETS arg =>
      match arg with
      | None => mret (- EINVAL, rep)
      | Some t => on_udev (modify (set_modes (c_iflag t) (c_oflag t) (c_lflag t)));; mret (ret, rep)
      end
    | _ => mret (ret, rep)
    end
  else mret (ret, rep).

(** *** [poll] *)

(** The first free slot. *)

Fixpoint free_slot (i : nat) (slots : list (option nat)) : option nat :=
  match slots with
  | [] => None
  | None :: _ => Some i
  | Some _ :: slots' => free_slot (S i) slots'
  end.

Definition set_p_priv (v : option nat) (p : pollfd) : pollfd := mk_pollfd (events p) (revents p) (p_sem p) v.

Definition uart_poll (id : nat) (setup : bool) : MS Z :=
  ret ← uart_takesem POLLSEM true;
  if ret <? 0 then mret ret
  else
    p ← on_udev (load_poll id);
    d ← udev (fun d => d);
    ret ←
      (if setup then
         match free_slot 0 (fds d) with
         | None => on_udev (store_poll id (set_p_priv None p));; mret (- EBUSY)
         | Some i =>
           on_udev (modify (set_fds (<[i := Some id]> (fds d))));;
           on_udev (store_poll id (set_p_priv (Some i) p));;
           uart_takesem XMIT_SEM false;;
           x ← udev xmit;
           let out := if negb (next_index x (ub_head x) =? ub_tail x) then Z.land (events p) POLLOUT else 0 in
           uart_givesem XMIT_SEM;;
           uart_takesem RECV_SEM false;;
           r ← udev recv;
           let inn := if negb (ub_head r =? ub_tail r) then Z.land (events p) POLLIN else 0 in
           uart_givesem RECV_SEM;;
           gone ← udev disconnected;
           let eventset := Z.lor (Z.lor out inn) (if (gone : bool) then Z.lor POLLERR POLLHUP else 0) in
           (if negb (eventset =? 0) then on_udev (uart_pollnotify eventset) else mret tt);;
           mret ret
         end
       else
         match p_priv p with
         | Some i =>
           on_udev (modify (set_fds (<[i := None]> (fds d))));;
           on_udev (store_poll id (set_p_priv None p));;
           mret ret
         | None => mret ret
         end);
    uart_givesem POLLSEM;;
    mret ret.

(** *** Registration; [registered] is the answer of [register_driver]. *)

Definition uart_register (registered : Z) : MS Z :=
  d ← udev id;
  (if isconsole d then on_udev (modify (set_modes (tc_iflag d) (Z.lor OPOST ONLCR) (Z.lor (tc_lflag d) ISIG)))
   else mret tt);;
  on_udev (modify (fun d => set_xmit (set_ub_sem 1 (xmit d)) d);;
           modify (fun d => set_recv (set_ub_sem 1 (recv d)) d);;
           modify (set_closesem 1);;
           modify (set_xmitsem 0);;
           modify (set_recvsem 0);;
           modify (set_pollsem 1));;
  mret registered.

End Upper.

End Serial.
