(* ===== verification/SerialRing.v ===== *)
(** * The circular buffers of the serial driver as queues

    The characters from the tail to the head; taking and putting characters. *)

From S2P Require Import Prelude Serial.
Import Serial.

Module SerialRing.

Record ring_ok (b : uart_buffer) : Prop := {
  ro_head : 0 <= ub_head b < ub_size b;
  ro_tail : 0 <= ub_tail b < ub_size b;
  ro_size : 2 <= ub_size b <= 32767;
  ro_len : Z.of_nat (length (ub_buffer b)) = ub_size b
}.

Definition queue (b : uart_buffer) : list Z :=
  if ub_tail b <=? ub_head b
  then take (Z.to_nat (ub_head b - ub_tail b)) (drop (Z.to_nat (ub_tail b)) (ub_buffer b))
  else drop (Z.to_nat (ub_tail b)) (ub_buffer b) ++ take (Z.to_nat (ub_head b)) (ub_buffer b).

Lemma queue_length b : ring_ok b -> Z.of_nat (length (queue b)) = buffered b.
Proof.
  intros [H1 H2 H3 H4]. unfold queue, buffered. destruct (Z.leb_spec (ub_tail b) (ub_head b));
    rewrite ?length_app, length_take, length_drop; lia.
Qed.

Lemma queue_nil b : ring_ok b -> queue b = [] <-> ub_head b = ub_tail b.
Proof.
  intros H. pose proof (queue_length b H) as Hl. rewrite <- length_zero_iff_nil. destruct H.
  unfold buffered in Hl. destruct (Z.leb_spec (ub_tail b) (ub_head b)); lia.
Qed.

Lemma next_index_ok b i : 0 <= i < ub_size b -> 0 <= next_index b i < ub_size b.
Proof. intros H. unfold next_index. destruct (Z.leb_spec (ub_size b) (i + 1)); lia. Qed.

(** The buffer is full when one place is left. *)

Lemma queue_full b : ring_ok b -> next_index b (ub_head b) = ub_tail b <-> Z.of_nat (length (queue b)) = ub_size b - 1.
Proof.
  intros H. rewrite queue_length by done. destruct H. unfold next_index, buffered.
  destruct (Z.leb_spec (ub_size b) (ub_head b + 1)), (Z.leb_spec (ub_tail b) (ub_head b)); lia.
Qed.

Lemma queue_bound b : ring_ok b -> Z.of_nat (length (queue b)) <= ub_size b - 1.
Proof.
  intros H. rewrite queue_length by done. destruct H. unfold buffered. destruct (Z.leb_spec (ub_tail b) (ub_head b)); lia.
Qed.

Lemma space_left b : ring_ok b -> space b = ub_size b - 1 - Z.of_nat (length (queue b)).
Proof.
  intros H. rewrite queue_length by done. unfold space, buffered.
  destruct (Z.ltb_spec (ub_head b) (ub_tail b)), (Z.leb_spec (ub_tail b) (ub_head b)); lia.
Qed.

(** ** Taking the character at the tail *)

Lemma pop_ok b : ring_ok b -> ub_head b <> ub_tail b ->
  exists c, load_char b (ub_tail b) = Ret c /\
    let b' := set_ub_tail (next_index b (ub_tail b)) b in queue b = c :: queue b' /\ ring_ok b'.
Proof.
  intros Hb Hne. pose proof Hb as [Hh Ht Hs Hl]. unfold load_char. rewrite (proj2 (Z.ltb_ge _ _)) by lia.
  destruct (lookup_lt_is_Some_2 (ub_buffer b) (Z.to_nat (ub_tail b)) ltac:(lia)) as [c Hc]. rewrite Hc.
  exists c. split; [done|]. split; [|constructor; simpl; [done|by apply next_index_ok|done|done]].
  pose proof (drop_S _ _ _ Hc) as Hd.
  unfold queue, next_index. cbn [ub_head ub_tail ub_buffer set_ub_tail].
  destruct (Z.leb_spec (ub_tail b) (ub_head b)) as [Hle|Hle]; destruct (Z.leb_spec (ub_size b) (ub_tail b + 1)) as [Hw|Hw]; [lia|..].
  - rewrite (proj2 (Z.leb_le _ _)) by lia. rewrite Hd.
    replace (Z.to_nat (ub_head b - ub_tail b)) with (S (Z.to_nat (ub_head b - (ub_tail b + 1)))) by lia.
    cbn [take]. f_equal. by replace (Z.to_nat (ub_tail b + 1)) with (S (Z.to_nat (ub_tail b))) by lia.
  - rewrite (proj2 (Z.leb_le _ _)) by lia. rewrite Hd, (drop_ge _ (S _)) by lia. cbn [app]. f_equal.
    rewrite drop_0. by replace (ub_head b - 0) with (ub_head b) by lia.
  - rewrite (proj2 (Z.leb_gt _ _)) by lia. rewrite Hd. cbn [app]. f_equal.
    by replace (Z.to_nat (ub_tail b + 1)) with (S (Z.to_nat (ub_tail b))) by lia.
Qed.

(** ** Putting a character at the head *)

Lemma take_insert_end {A} (l : list A) i x : (i < length l)%nat -> take (S i) (<[i := x]> l) = take i l ++ [x].
Proof.
  intros Hi. rewrite (take_S_r _ _ x) by (by apply list_lookup_insert_eq). by rewrite take_insert_ge by lia.
Qed.

Lemma push_ok b ch : ring_ok b -> next_index b (ub_head b) <> ub_tail b ->
  exists b1, store_char b (ub_head b) ch = Ret b1 /\
    let b' := set_ub_head (next_index b (ub_head b)) b1 in
    queue b' = queue b ++ [u8 ch] /\ ring_ok b' /\ ub_tail b' = ub_tail b /\ ub_size b' = ub_size b /\ ub_sem b' = ub_sem b.
Proof.
  intros Hb Hne. pose proof Hb as [Hh Ht Hs Hl]. unfold store_char.
  rewrite (proj2 (Z.leb_le _ _)), (proj2 (Z.ltb_lt _ _)) by lia. cbn [andb]. eexists. split; [done|].
  split_and!; [|constructor; simpl; [by apply next_index_ok|done|done|by rewrite length_insert]|done|done|done].
  unfold queue, next_index in *. cbn [ub_head ub_tail ub_buffer set_ub_head set_ub_buffer].
  set (h := ub_head b) in *. set (t := ub_tail b) in *. set (m := ub_buffer b) in *.
  destruct (Z.leb_spec t h) as [Hle|Hle]; destruct (Z.leb_spec (ub_size b) (h + 1)) as [Hw|Hw]; [..|lia|].
  - rewrite (proj2 (Z.leb_gt t 0)) by lia. rewrite take_0, app_nil_r.
    assert (Eh : Z.to_nat h = (length m - 1)%nat) by lia.
    rewrite drop_insert_ge by lia. replace (Z.to_nat (h - t)) with (Z.to_nat h - Z.to_nat t)%nat by lia.
    rewrite <- take_insert_end with (l := drop (Z.to_nat t) m) by (rewrite length_drop; lia).
    rewrite take_ge; [done|]. rewrite length_insert, length_drop. lia.
  - rewrite (proj2 (Z.leb_le t (h + 1))) by lia. rewrite drop_insert_ge by lia.
    replace (Z.to_nat (h + 1 - t)) with (S (Z.to_nat h - Z.to_nat t)) by lia.
    rewrite take_insert_end by (rewrite length_drop; lia). by replace (Z.to_nat h - Z.to_nat t)%nat with (Z.to_nat (h - t)) by lia.
  - rewrite (proj2 (Z.leb_gt t (h + 1))) by lia. rewrite drop_insert_lt by lia.
    replace (Z.to_nat (h + 1)) with (S (Z.to_nat h)) by lia. rewrite take_insert_end by lia. by rewrite (assoc_L (++)).
Qed.

End SerialRing.
