(* ===== verification/SerialProps.v ===== *)
(** * What the upper half of the serial driver does

    [StreamLower] is what a lower half promises: it takes characters out of the
    transmit buffer in order and puts received ones into the receive buffer in
    order, whenever it is called or interrupts.  Against it: what [uart_write],
    [uart_read] and [uart_tcdrain] do with the characters, for every schedule of
    interrupts. *)

From S2P Require Import Prelude Serial SerialRing.
Import Serial SerialRing.

Module SerialProps.

(** ** Code that may wait for ever

    [wpl live m Q s]: [m] runs into nothing undefined; if it returns then with
    [Q]; it does return if [live]. *)

Definition wpl {S A} (live : bool) (m : M S A) (Q : A -> S -> Prop) (s : S) : Prop :=
  match m s with
  | Ret (a, s') => Q a s'
  | Blocked => live = false
  | Ub _ => False
  end.

Lemma wpl_wp {S A} live (m : M S A) Q s : wp m Q s -> wpl live m Q s.
Proof. intros (a & s' & Hm & HQ). unfold wpl. by rewrite Hm. Qed.

Lemma wp_wpl {S A} (m : M S A) Q s : wpl true m Q s -> wp m Q s.
Proof. unfold wpl, wp. destruct (m s) as [[a s']| |]; [eauto|done|done]. Qed.

Lemma wpl_mono {S A} live (m : M S A) (Q R : A -> S -> Prop) s :
  wpl live m Q s -> (forall a s', Q a s' -> R a s') -> wpl live m R s.
Proof. unfold wpl. destruct (m s) as [[a s']| |]; auto. Qed.

Lemma wpl_ret {S A} live (a : A) (Q : A -> S -> Prop) s : Q a s -> wpl live (mret a) Q s.
Proof. done. Qed.

Lemma wpl_bind {S A B} live (m : M S A) (f : A -> M S B) Q s :
  wpl live m (fun a => wpl live (f a) Q) s -> wpl live (m ≫= f) Q s.
Proof. unfold wpl, mbind, M_bind. destruct (m s) as [[a s']| |]; auto. Qed.

Lemma wpl_get {S} live (Q : S -> S -> Prop) s : Q s s -> wpl live get Q s.
Proof. done. Qed.

Lemma wpl_gets {S A} live (f : S -> A) (Q : A -> S -> Prop) s : Q (f s) s -> wpl live (gets f) Q s.
Proof. done. Qed.

Lemma wpl_modify {S} live (f : S -> S) (Q : unit -> S -> Prop) s : Q tt (f s) -> wpl live (modify f) Q s.
Proof. done. Qed.

Lemma wpl_blocked {S A} (Q : A -> S -> Prop) s : wpl false blocked Q s.
Proof. done. Qed.

Lemma wpl_zoom {S T A} live (proj : T -> S) inj (m : M S A) (Q : A -> T -> Prop) t :
  wpl live m (fun a s => Q a (inj s t)) (proj t) -> wpl live (zoom proj inj m) Q t.
Proof. unfold wpl, zoom. destruct (m (proj t)) as [[a s']| |]; auto. Qed.

Lemma wp_zoom {S T A} (proj : T -> S) inj (m : M S A) (Q : A -> T -> Prop) t :
  wp m (fun a s => Q a (inj s t)) (proj t) -> wp (zoom proj inj m) Q t.
Proof. intros (a & s & Hm & HQ). exists a, (inj s t). split; [|done]. unfold zoom. by rewrite Hm. Qed.

(** ** Devices *)

Definition polls_ok (d : uart_dev) : Prop :=
  Forall (fun slot => forall id, slot = Some id -> is_Some (polls d !! id)) (fds d).

Record dev_ok (d : uart_dev) : Prop := {
  dk_xmit : ring_ok (xmit d);
  dk_recv : ring_ok (recv d);
  dk_polls : polls_ok d;
  dk_xsem : 0 <= xmitsem d;
  dk_rsem : 0 <= recvsem d
}.

(** What no lower half touches, and what no call changes but open, close and requests. *)

Definition fixed (d : uart_dev) :=
  (open_count d, disconnected d, isconsole d, (tc_iflag d, tc_oflag d, tc_lflag d), closesem d, pollsem d, fds d,
   ub_size (xmit d), ub_size (recv d), dom (polls d)).

Definition static (d : uart_dev) :=
  (fixed d, (ub_sem (xmit d), ub_head (xmit d)), (ub_sem (recv d), ub_tail (recv d))).

(** The flag [w] of a waiting thread and its semaphore [n], when the characters [k] have moved. *)

Definition woken (k : list Z) (w : bool) (n : Z) (w' : bool) (n' : Z) : Prop :=
  match k with
  | [] => w' = w /\ n' = n
  | _ :: _ => w' = false /\ n' = n + Z.b2z w
  end.

Lemma woken_trans k1 k2 w n w1 n1 w2 n2 : woken k1 w n w1 n1 -> woken k2 w1 n1 w2 n2 -> woken (k1 ++ k2) w n w2 n2.
Proof.
  destruct k1; [by intros [-> ->]|]. intros [-> ->]. destruct k2; simpl; intros [-> ->]; split; try done; lia.
Qed.

(** ** The lower half *)

(** The characters a lower half has sent, those that arrived, those of them that
    have not reached the receive buffer; when it cannot send; the number of transfers that are
    not complete, at most [out_max]; the interrupts of transfers that have succeeded and failed. *)

Class StreamView (P E : Type) := {
  sent : P -> list Z;
  fed : P -> list Z;
  pend : P -> list Z;
  low_inv : P -> Prop;
  busy : P -> Prop;
  outstanding : P -> nat;
  out_max : nat;
  calm : E -> Prop;
  completes : E -> Prop;
  fails : E -> Prop
}.

Section Moves.
Context {P E : Type} `{StreamView P E}.

Definition idle (v : P) : Prop := outstanding v = 0%nat.

Definition port_ok (p : port P) : Prop := dev_ok (serdev p) /\ low_inv (priv p).

Record moves (p p' : port P) : Prop := {
  mv_static : static (serdev p') = static (serdev p);
  mv_out : exists k, queue (xmit (serdev p)) = k ++ queue (xmit (serdev p')) /\
    sent (priv p') = sent (priv p) ++ k /\
    woken k (xmitwaiting (serdev p)) (xmitsem (serdev p)) (xmitwaiting (serdev p')) (xmitsem (serdev p'));
  mv_in : exists k new, queue (recv (serdev p')) = queue (recv (serdev p)) ++ k /\
    fed (priv p') = fed (priv p) ++ new /\ pend (priv p) ++ new = k ++ pend (priv p') /\
    woken k (recvwaiting (serdev p)) (recvsem (serdev p)) (recvwaiting (serdev p')) (recvsem (serdev p'))
}.

(** Some characters have been taken from the transmit buffer. *)

Definition took (p p' : port P) : Prop :=
  (length (queue (xmit (serdev p'))) < length (queue (xmit (serdev p))))%nat.

Lemma moves_refl p : moves p p.
Proof.
  constructor; [done| |].
  - exists []. by rewrite app_nil_r.
  - exists [], []. by rewrite !app_nil_r.
Qed.

Lemma moves_trans p1 p2 p3 : moves p1 p2 -> moves p2 p3 -> moves p1 p3.
Proof.
  intros [A1 (k1 & B1 & C1 & D1) (j1 & n1 & E1 & F1 & G1 & I1)] [A2 (k2 & B2 & C2 & D2) (j2 & n2 & E2 & F2 & G2 & I2)].
  constructor; [congruence| |].
  - exists (k1 ++ k2). rewrite B1, B2, C2, C1, !(assoc_L (++)). split_and!; [done..|by eapply woken_trans].
  - exists (j1 ++ j2), (n1 ++ n2). rewrite E2, E1, F2, F1, !(assoc_L (++)).
    split_and!; [done|done| |by eapply woken_trans]. by rewrite G1, <- !(assoc_L (++)), G2.
Qed.

Lemma took_or_not p p' : moves p p' -> took p p' \/ queue (xmit (serdev p')) = queue (xmit (serdev p)).
Proof.
  intros [_ ([|c k] & E1 & _) _]; [by right|left]. unfold took. rewrite E1, length_app. simpl. lia.
Qed.

Lemma moves_length p p' : moves p p' -> (length (queue (xmit (serdev p'))) <= length (queue (xmit (serdev p))))%nat.
Proof. intros [_ (k & -> & _) _]. rewrite length_app. lia. Qed.

Lemma moves_empty p p' : moves p p' -> queue (xmit (serdev p)) = [] -> queue (xmit (serdev p')) = [].
Proof. intros M E0. pose proof (moves_length _ _ M) as L. rewrite E0 in L. by apply length_zero_iff_nil, Nat.le_0_r. Qed.

(** No more transfers than before; one less if [one] and there were some. *)

Definition fewer (one : Prop) (p p' : port P) : Prop :=
  (outstanding (priv p') <= outstanding (priv p))%nat /\
  (one -> (outstanding (priv p') <= outstanding (priv p) - 1)%nat).

(** ** Streams *)

Definition stream (p : port P) : list Z := sent (priv p) ++ queue (xmit (serdev p)).
Definition inflow (p : port P) : list Z := queue (recv (serdev p)) ++ pend (priv p).

(** [w] was written, [raw] was read. *)

Record passed (w raw : list Z) (p p' : port P) : Prop := {
  ps_ok : port_ok p';
  ps_fixed : fixed (serdev p') = fixed (serdev p);
  ps_stream : stream p' = stream p ++ w;
  ps_in : exists new, fed (priv p') = fed (priv p) ++ new /\ inflow p ++ new = raw ++ inflow p'
}.

Lemma moves_passed p p' : port_ok p' -> moves p p' -> passed [] [] p p'.
Proof.
  intros Hok [A (k & B & C & _) (j & n & D & F & G & _)]. constructor; [done|exact (f_equal (fun t => t.1.1) A)| |].
  - unfold stream. by rewrite C, B, app_nil_r, (assoc_L (++)).
  - exists n. split; [done|]. unfold inflow. by rewrite D, <- !(assoc_L (++)), G.
Qed.

Lemma passed_trans w1 w2 r1 r2 p1 p2 p3 : passed w1 r1 p1 p2 -> passed w2 r2 p2 p3 ->
  passed (w1 ++ w2) (r1 ++ r2) p1 p3.
Proof.
  intros [_ A1 B1 (n1 & C1 & D1)] [K A2 B2 (n2 & C2 & D2)]. constructor; [done|congruence| |].
  - by rewrite B2, B1, (assoc_L (++)).
  - exists (n1 ++ n2). rewrite C2, C1, !(assoc_L (++)). split; [done|].
    by rewrite D1, <- !(assoc_L (++)), D2.
Qed.

End Moves.

(** What a lower half promises. *)

Class StreamLower (P E : Type) `{uart_ops P} `{StreamView P E} (handle : E -> M (port P) unit) := {
  low_txint : forall b p, port_ok p ->
    wp (op_txint b) (fun _ p' => port_ok p' /\ moves p p' /\
      (b = true -> queue (xmit (serdev p')) = [] \/ busy (priv p'))) p;
  low_rxint : forall b p, port_ok p -> wp (op_rxint b) (fun _ p' => port_ok p' /\ moves p p') p;
  low_handle : forall e p, port_ok p -> calm e ->
    wp (handle e) (fun _ p' => port_ok p' /\ moves p p' /\
      (busy (priv p) -> queue (xmit (serdev p)) <> [] -> ~ fails e -> took p p' \/ (busy (priv p') /\ ~ completes e)) /\
      (queue (xmit (serdev p)) = [] -> fewer (completes e) p p')) p;
  low_txempty : forall p, port_ok p ->
    wp op_txempty (fun b p' => p' = p /\ (b = true <-> idle (priv p))) p;
  low_bound : forall p, port_ok p -> (outstanding (priv p) <= out_max)%nat
}.

(** ** Calls *)

Lemma wp_and {S A} (m : M S A) (Q R : A -> S -> Prop) s : wp m Q s -> wp m R s -> wp m (fun a s' => Q a s' /\ R a s') s.
Proof. intros (a & s' & Hm & HQ) (a' & s'' & Hm' & HR). rewrite Hm in Hm'. injection Hm' as <- <-. by exists a, s'. Qed.

Section Upper.
Context {P E : Type} `{Hops : uart_ops P} `{Hview : StreamView P E} (handle : E -> M (port P) unit).
Context `{Hlow : !StreamLower P E handle}.

(** Nothing on the way but characters. *)

Record flows (p p' : port P) : Prop := {
  fl_static : static (serdev p') = static (serdev p);
  fl_passed : passed [] [] p p';
  fl_length : (length (queue (xmit (serdev p'))) <= length (queue (xmit (serdev p))))%nat;
  fl_recv : (length (queue (recv (serdev p))) <= length (queue (recv (serdev p'))))%nat
}.

Lemma moves_flows p p' : port_ok p' -> moves p p' -> flows p p'.
Proof.
  intros H1 H2. constructor; [apply H2|by apply moves_passed|by apply moves_length|].
  destruct H2 as [_ _ (k & n & -> & _)]. rewrite length_app. lia.
Qed.

Lemma flows_refl p : port_ok p -> flows p p.
Proof. intros H. apply moves_flows; [done|apply moves_refl]. Qed.

Lemma flows_trans p1 p2 p3 : flows p1 p2 -> flows p2 p3 -> flows p1 p3.
Proof.
  intros [A1 B1 C1 D1] [A2 B2 C2 D2]. constructor; [congruence| |lia|lia]. exact (passed_trans _ _ _ _ _ _ _ B1 B2).
Qed.

(** Flags and counters of waiting threads. *)

Lemma flows_flags p d' : port_ok p -> static d' = static (serdev p) -> xmit d' = xmit (serdev p) ->
  recv d' = recv (serdev p) -> polls d' = polls (serdev p) -> 0 <= xmitsem d' -> 0 <= recvsem d' ->
  flows p (set_serdev d' p).
Proof.
  intros [[H1 H2 H3 H4 H5] Hi] Hs Ex Er Ep Hx Hr. constructor; [done| |by simpl; rewrite Ex|by simpl; rewrite Er].
  assert (Ef : fixed d' = fixed (serdev p)) by exact (f_equal (fun t => t.1.1) Hs).
  constructor; [|done| |].
  - split; [|done]. constructor; simpl; rewrite ?Ex, ?Er; try done. unfold polls_ok in *. rewrite Ep.
    assert (Efd : fds d' = fds (serdev p)) by exact (f_equal (fun t => t.1.1.1.2) Ef). by rewrite Efd.
  - unfold stream. simpl. by rewrite Ex, app_nil_r.
  - exists []. unfold inflow. simpl. by rewrite Er, !app_nil_r.
Qed.

(** *** Interrupts *)

Definition calm_event (ev : event E) : Prop := match ev with Irq e => calm e | Signal => True end.
Definition calm_sched (l : list (batch E)) : Prop := Forall (fun b => Forall calm_event (b_events b)) l.

Definition finishing (l : list (event E)) : Prop := exists e, Irq e ∈ l /\ completes e.
Definition smooth_event (ev : event E) : Prop := match ev with Irq e => ~ fails e | Signal => True end.

(** In every batch a transfer completes, none fails, and no signal arrives. *)

Definition prompt (l : list (batch E)) : Prop :=
  Forall (fun b => finishing (b_events b) /\ Forall smooth_event (b_events b) /\ signalled b = false) l.

Lemma serve_ok l p : port_ok p -> Forall calm_event l ->
  wp (serve handle l) (fun _ p' => port_ok p' /\ moves p p' /\
    (busy (priv p) -> queue (xmit (serdev p)) <> [] -> Forall smooth_event l ->
      took p p' \/ (busy (priv p') /\ ~ finishing l)) /\
    (queue (xmit (serdev p)) = [] -> fewer (finishing l) p p')) p.
Proof using Hlow.
  revert p. induction l as [|[e|] l IH]; intros p Hp Hc.
  - apply wp_ret. split_and!; [done|apply moves_refl|..].
    + intros Hb _ _. right. split; [done|]. intros (e & He & _). by apply elem_of_nil in He.
    + intros _. split; [done|]. intros (e & He & _). by apply elem_of_nil in He.
  - apply Forall_cons in Hc as [He Hc]. cbn [serve]. apply wp_bind.
    eapply wp_mono; [by apply low_handle|]. intros _ p1 (Hp1 & M1 & B1 & O1).
    eapply wp_mono; [by apply IH|]. intros _ p2 (Hp2 & M2 & B2 & O2). split_and!; [done|by eapply moves_trans|..].
    2:{ intros Eq. destruct (O1 Eq) as [L1 D1], (O2 (moves_empty _ _ M1 Eq)) as [L2 D2]. split; [lia|].
        intros (e' & [E'|Hin]%elem_of_cons & Hc'); [injection E' as ->; specialize (D1 Hc'); lia|].
        specialize (D2 (ex_intro _ e' (conj Hin Hc'))). lia. }
    intros Hb Hq [Hs1 Hs2]%Forall_cons. pose proof (moves_length _ _ M2) as L2. destruct (B1 Hb Hq Hs1) as [T1|[Hb1 Hn]]; [left; unfold took in *; lia|].
    destruct (took_or_not _ _ M1) as [T1|E1]; [left; unfold took in *; lia|].
    rewrite E1 in B2. destruct (B2 Hb1 Hq Hs2) as [T2|[Hb2 Hn2]]; [left; unfold took in *; rewrite E1 in T2; lia|].
    right. split; [done|]. intros (e' & [E'|Hin]%elem_of_cons & Hc'); [by injection E' as ->|]. apply Hn2. by exists e'.
  - apply Forall_cons in Hc as [_ Hc]. cbn [serve]. eapply wp_mono; [by apply IH|]. intros _ p' (Hp' & Hm & Hb & Ho).
    split_and!; [done|done|..].
    2:{ intros Eq. destruct (Ho Eq) as [L1 D1]. split; [done|]. intros (e & [?|Hin]%elem_of_cons & He); [done|].
        apply D1. by exists e. }
    intros H1 H2 [_ H3]%Forall_cons. destruct (Hb H1 H2 H3) as [?|[? Hn]]; [by left|right]. split; [done|].
    intros (e & [?|Hin]%elem_of_cons & He); [done|]. apply Hn. by exists e.
Qed.

Lemma irq_served s : port_ok (prt s) -> calm_sched (sched s) ->
  wp (irq_point handle) (fun _ s' => port_ok (prt s') /\ moves (prt s) (prt s') /\
    sched s' = drop 1 (sched s) /\ now s' = now s /\
    (queue (xmit (serdev (prt s))) = [] -> fewer (exists b l, sched s = b :: l /\ finishing (b_events b)) (prt s) (prt s'))) s.
Proof using Hlow.
  intros Hp Hc. unfold irq_point. apply wp_bind, wp_get. destruct (sched s) as [|b l] eqn:El.
  - apply wp_ret. rewrite El. split_and!; [done|apply moves_refl|done|done|]. intros _. split; [done|]. by intros (b & l & ? & _).
  - apply Forall_cons in Hc as [Hc _]. apply wp_bind, wp_modify, wp_zoom.
    eapply wp_mono; [by apply serve_ok|]. intros _ p' (H1 & H2 & _ & Ho). split_and!; [done|done|by rewrite ?El|done|].
    intros Eq. destruct (Ho Eq) as [L1 D1]. split; [done|]. intros (b' & l' & [= <- <-] & Hf). by apply D1.
Qed.

(** *** Waiting *)

Definition waits (r : semref) : Prop := r = XMITSEM \/ r = RECVSEM.

Lemma take_ok live r l s : waits r -> sched s = l -> port_ok (prt s) -> calm_sched l ->
  (live = true -> 0 < sem_get r (serdev (prt s)) \/
    exists b l', l = b :: l' /\ signalled b = false /\
      wp (serve handle (b_events b)) (fun _ p' => 0 < sem_get r (serdev p')) (prt s)) ->
  wpl live (take_loop handle r true l) (fun ret s' =>
    (exists p1, port_ok p1 /\ moves (prt s) p1 /\
      (ret = OK /\ 0 < sem_get r (serdev p1) /\
         prt s' = set_serdev (sem_set r (sem_get r (serdev p1) - 1) (serdev p1)) p1 \/
       ret = - EINTR /\ live = false /\ prt s' = p1)) /\
    (exists k, sched s = k ++ sched s' /\ (live = true -> (length k <= 1)%nat) /\
      (0 < sem_get r (serdev (prt s)) -> k = [])) /\ now s' = now s) s.
Proof using Hlow.
  intros Hr El Hp Hc Hlive. revert s El Hp Hlive. induction Hc as [|b l Hb Hc IH]; intros s El Hp Hlive;
    cbn [take_loop]; apply wpl_bind, wpl_gets; destruct (Z.ltb_spec 0 (sem_get r (serdev (prt s)))) as [Hs|Hs].
  1, 3: apply wpl_bind, wpl_zoom, wpl_zoom, wpl_modify, wpl_ret; split_and!;
    [exists (prt s); split_and!; [done|apply moves_refl|by left]|exists []; split_and!; [done|simpl; lia|done]|done].
  - destruct live; [|done]. destruct (Hlive eq_refl) as [?|(b & l' & ? & _)]; [lia|done].
  - apply wpl_bind, wpl_modify. apply wpl_bind, wpl_zoom. apply wpl_wp.
    pose proof (serve_ok (b_events b) (prt s) Hp Hb) as HS.
    assert (HS' : wp (serve handle (b_events b)) (fun _ p' => port_ok p' /\ moves (prt s) p' /\
      (live = true -> 0 < sem_get r (serdev p') /\ signalled b = false)) (prt s)).
    { destruct live; [|by eapply wp_mono; [exact HS|]; naive_solver].
      destruct (Hlive eq_refl) as [?|(b' & l' & [= <- <-] & Hsg & Hw)]; [lia|].
      eapply wp_mono; [apply (wp_and _ _ _ _ HS Hw)|]. naive_solver. }
    change (prt (set_sched l s)) with (prt s). eapply wp_mono; [exact HS'|]. clear HS HS'.
    intros _ p1 (Hp1 & M1 & L1). apply wpl_bind, wpl_gets. change (prt (set_prt p1 (set_sched l s))) with p1.
    destruct (true && signalled b && (sem_get r (serdev p1) <=? 0)) eqn:Esig.
    + apply wpl_ret. destruct live; [destruct (L1 eq_refl) as [_ Eb]; rewrite Eb in Esig; done|].
      split_and!; [exists p1; split_and!; [done|done|by right]|exists [b]; rewrite El; split_and!; [done|done|lia]|done].
    + eapply wpl_mono; [apply (IH (set_prt p1 (set_sched l s))); [done|done|]|].
      * intros Ht. left. by apply L1.
      * intros ret s' ((p2 & Hp2 & M2 & HR) & (k & Ek & _ & Lk) & En). split_and!; [|exists (b :: k)|done].
        { exists p2. split_and!; [done|by eapply moves_trans|done]. }
        rewrite El. simpl in Ek, Lk |- *. rewrite Ek. split_and!; [done| |lia].
        intros Ht. rewrite Lk by (by apply L1). simpl. lia.
Qed.

(** *** One character *)

Definition d (s : sys P E) : uart_dev := serdev (prt s).

(** A call: what it wrote and read, and that its locks are as they were. *)

Record step (w raw : list Z) (s s' : sys P E) : Prop := {
  st_passed : passed w raw (prt s) (prt s');
  st_locks : ub_sem (xmit (d s')) = ub_sem (xmit (d s)) /\ ub_sem (recv (d s')) = ub_sem (recv (d s));
  st_sched : exists k, sched s = k ++ sched s'
}.

Lemma step_trans w1 w2 r1 r2 s1 s2 s3 : step w1 r1 s1 s2 -> step w2 r2 s2 s3 -> step (w1 ++ w2) (r1 ++ r2) s1 s3.
Proof.
  intros [A1 [B1 C1] (k1 & D1)] [A2 [B2 C2] (k2 & D2)]. constructor.
  - by eapply passed_trans.
  - split; congruence.
  - exists (k1 ++ k2). by rewrite D1, D2, (assoc_L (++)).
Qed.

Lemma step_after w raw s1 s2 s3 : step [] [] s1 s2 -> step w raw s2 s3 -> step w raw s1 s3.
Proof. exact (step_trans [] w [] raw s1 s2 s3). Qed.

Lemma flows_step s s' k : flows (prt s) (prt s') -> sched s = k ++ sched s' -> step [] [] s s'.
Proof.
  intros [A B _ _] Hk. constructor; [done| |by exists k]. unfold static in A. unfold d. by simplify_eq.
Qed.

Lemma step_calm w raw s s' : step w raw s s' -> calm_sched (sched s) -> calm_sched (sched s').
Proof. intros [_ _ (k & ->)] Hc. by apply Forall_app in Hc as [_ ?]. Qed.

Lemma step_prompt w raw s s' : step w raw s s' -> prompt (sched s) -> prompt (sched s').
Proof. intros [_ _ (k & ->)] Hc. by apply Forall_app in Hc as [_ ?]. Qed.

Definition room (p : port P) : Prop := next_index (xmit (serdev p)) (ub_head (xmit (serdev p))) <> ub_tail (xmit (serdev p)).

Lemma static_xmit (p p' : port P) : static (serdev p') = static (serdev p) ->
  ub_head (xmit (serdev p')) = ub_head (xmit (serdev p)) /\ ub_size (xmit (serdev p')) = ub_size (xmit (serdev p)).
Proof. unfold static, fixed. intros. by simplify_eq. Qed.

Lemma room_length p : port_ok p -> room p <-> Z.of_nat (length (queue (xmit (serdev p)))) < ub_size (xmit (serdev p)) - 1.
Proof.
  intros [Hd _]. unfold room. rewrite queue_full by apply Hd. pose proof (queue_bound _ (dk_xmit _ Hd)). lia.
Qed.

Lemma flows_room p p' : port_ok p -> flows p p' -> room p -> room p'.
Proof.
  intros Hp [A [B _ _ _] C _]. rewrite !room_length by done. destruct (static_xmit _ _ A) as [_ ->]. lia.
Qed.

Lemma took_room p p' : port_ok p -> port_ok p' -> static (serdev p') = static (serdev p) -> took p p' -> room p'.
Proof.
  intros Hp Hp' A T. rewrite room_length by done. destruct (static_xmit _ _ A) as [_ ->].
  pose proof (queue_bound _ (dk_xmit _ (proj1 Hp))). unfold took in T. lia.
Qed.

(** No thread is to be woken. *)

Definition quiet (s : sys P E) : Prop := xmitwaiting (d s) = false /\ xmitsem (d s) = 0.

Lemma push_step s ch : port_ok (prt s) -> room (prt s) ->
  wp (on_udev (push_xmit (next_index (xmit (d s)) (ub_head (xmit (d s)))) ch))
    (fun _ s' => step [u8 ch] [] s s' /\ sched s' = sched s /\ now s' = now s /\ (quiet s -> quiet s')) s.
Proof.
  intros [Hd Hi] Hr. destruct (push_ok (xmit (d s)) ch (dk_xmit _ Hd) Hr) as (b1 & Hst & Hq & Hok & _ & Hsz & Hsem).
  unfold on_udev, on_port, on_dev. apply wp_zoom, wp_zoom. unfold push_xmit. apply wp_bind, wp_get. apply wp_bind.
  eapply wp_lift; [exact Hst|]. apply wp_modify.
  set (b' := set_ub_head (next_index (xmit (d s)) (ub_head (xmit (d s)))) b1) in *. clearbody b'.
  split_and!; [|done|done|done]. constructor; [|done|by exists []]. destruct Hd. constructor.
  - split; [|done]. by constructor.
  - unfold fixed. cbn. unfold d in Hsz. by rewrite Hsz.
  - unfold stream. cbn. unfold d in Hq. by rewrite Hq, (assoc_L (++)).
  - exists []. unfold inflow. cbn. by rewrite !app_nil_r.
Qed.

(** Interrupts that are served between two steps of a task. *)

Definition nexthead (s : sys P E) : Z := next_index (xmit (d s)) (ub_head (xmit (d s))).

Lemma flows_nexthead s s' : flows (prt s) (prt s') -> nexthead s' = nexthead s.
Proof. intros F. destruct (static_xmit _ _ (fl_static _ _ F)) as [Eh Es]. unfold nexthead, next_index, d. by rewrite Eh, Es. Qed.

Lemma moves_quiet s s' : moves (prt s) (prt s') -> quiet s -> quiet s'.
Proof.
  intros [_ (k & _ & _ & Hk) _] [Hw Hs]. unfold quiet, d in *. rewrite Hw, Hs in Hk.
  destruct k; by destruct Hk as [-> ->].
Qed.

Lemma irq_step s : port_ok (prt s) -> calm_sched (sched s) ->
  wp (irq_point handle) (fun _ s1 => flows (prt s) (prt s1) /\ step [] [] s s1 /\ sched s1 = drop 1 (sched s) /\
    now s1 = now s /\ (quiet s -> quiet s1)) s.
Proof using Hlow.
  intros Hp Hc. eapply wp_mono; [by apply irq_served|]. intros _ s1 (Hp1 & M1 & E1 & N1 & _).
  pose proof (moves_flows _ _ Hp1 M1) as F1. split_and!; [done| |done|done|by apply moves_quiet].
  apply (flows_step s s1 (take 1 (sched s)) F1). by rewrite E1, take_drop.
Qed.

Lemma step_port_ok w raw s s' : step w raw s s' -> port_ok (prt s').
Proof. intros [H _ _]. apply H. Qed.

(** There is room: the character goes into the buffer. *)

Lemma put_room live n s ch okb : port_ok (prt s) -> calm_sched (sched s) -> room (prt s) ->
  wpl live (put_loop handle (S n) (nexthead s) ch okb)
    (fun ret s' => ret = OK /\ step [u8 ch] [] s s' /\ (quiet s -> quiet s') /\
      (length (sched s) <= length (sched s') + 1)%nat) s.
Proof using Hlow.
  intros Hp Hc Hr. cbn [put_loop]. apply wpl_bind. apply wpl_wp. eapply wp_mono; [by apply irq_step|].
  intros _ s1 (F1 & S1 & E1 & _ & Q1). apply wpl_bind, wpl_gets. pose proof (flows_room _ _ Hp F1 Hr) as Hr1.
  rewrite <- (flows_nexthead _ _ F1). unfold nexthead, d. rewrite (proj2 (Z.eqb_neq _ _) Hr1). cbn [negb].
  apply wpl_bind. apply wpl_wp. eapply wp_mono; [apply push_step; [by eapply step_port_ok|done]|].
  intros _ s2 (S2 & Es2 & _ & Q2). apply wpl_ret. split_and!; [done|by eapply step_after|auto|].
  rewrite Es2, E1, length_drop. lia.
Qed.

(** *** Waiting for room *)

Lemma took_woken p p' : moves p p' -> took p p' ->
  xmitwaiting (serdev p') = false /\ xmitsem (serdev p') = xmitsem (serdev p) + Z.b2z (xmitwaiting (serdev p)).
Proof.
  intros [_ ([|c k] & Eq & _ & Hk) _] T; [|done]. unfold took in T. rewrite Eq in T. simpl in T. lia.
Qed.

(** A thread that waits for room is woken when a transfer completes. *)

Lemma take_xmit live s : port_ok (prt s) -> calm_sched (sched s) ->
  (live = true -> 0 < xmitsem (d s) \/
    (xmitwaiting (d s) = true /\ busy (priv (prt s)) /\ queue (xmit (d s)) <> [] /\ prompt (sched s) /\ sched s <> [])) ->
  wpl live (uart_takesem handle XMITSEM true) (fun ret s' =>
    (exists p1, port_ok p1 /\ moves (prt s) p1 /\
      (ret = OK /\ 0 < xmitsem (serdev p1) /\
         prt s' = set_serdev (set_xmitsem (xmitsem (serdev p1) - 1) (serdev p1)) p1 \/
       ret = - EINTR /\ live = false /\ prt s' = p1)) /\
    (exists k, sched s = k ++ sched s' /\ (live = true -> (length k <= 1)%nat)) /\ now s' = now s) s.
Proof using Hlow.
  intros Hp Hc Hlive. unfold uart_takesem. apply wpl_bind, wpl_get. eapply wpl_mono.
  - apply (take_ok live XMITSEM (sched s) s); [by left|done|done|done|]. intros Ht.
    destruct (Hlive Ht) as [?|(Hw & Hb & Hq & Hpr & Hne)]; [by left|right].
    destruct (sched s) as [|b l]; [done|]. exists b, l. unfold prompt in Hpr. apply Forall_cons in Hpr as [(Hf & Hsm & Hsg) _].
    apply Forall_cons in Hc as [Hc _]. split_and!; [done|done|].
    eapply wp_mono; [by apply serve_ok|]. intros _ p' (Hp' & M & Hm & _).
    destruct (Hm Hb Hq Hsm) as [T|[_ ?]]; [|done]. destruct (took_woken _ _ M T) as [_ E']. unfold d in Hw. rewrite Hw in E'.
    pose proof (dk_xsem _ (proj1 Hp)). simpl in *. lia.
  - cbn beta. intros ret s' (H1 & (k & Ek & Lk & _) & H3). split_and!; [exact H1|by exists k|done].
Qed.

Lemma wait_ok live s : port_ok (prt s) -> calm_sched (sched s) -> queue (xmit (d s)) <> [] ->
  (live = true -> quiet s /\ prompt (sched s) /\ sched s <> []) ->
  wpl live (wait_room handle) (fun ret s' => flows (prt s) (prt s') /\ now s' = now s /\
    (exists k, sched s = k ++ sched s' /\ (live = true -> (length k <= 1)%nat)) /\
    (ret = OK \/ ret = - EINTR /\ live = false) /\
    (live = true -> took (prt s) (prt s') /\ quiet s')) s.
Proof using Hlow.
  intros Hp Hc Hq Hlive. pose proof Hp as [Hd Hi]. unfold wait_room.
  set (p0 := set_serdev (set_xmitwaiting true (d s)) (prt s)).
  assert (F0 : flows (prt s) p0) by (apply flows_flags; try done; apply Hd).
  assert (Hp0 : port_ok p0) by apply F0.
  apply wpl_bind, wpl_zoom, wpl_zoom, wpl_modify. change (set_prt _ s) with (set_prt p0 s).
  apply wpl_bind, wpl_zoom. apply wpl_wp. eapply wp_mono; [by apply low_txint|].
  intros _ p1 (Hp1 & M1 & T1). change (prt (set_prt p0 s)) with p0 in *. specialize (T1 eq_refl).
  change (set_prt p1 (set_prt p0 s)) with (set_prt p1 s). apply wpl_bind.
  assert (Hsig : live = true -> (took p0 p1 -> xmitwaiting (serdev p1) = false /\ xmitsem (serdev p1) = 1) /\
    (queue (xmit (serdev p1)) = queue (xmit (d s)) -> xmitwaiting (serdev p1) = true /\ xmitsem (serdev p1) = 0)).
  { intros Ht. destruct (Hlive Ht) as [[_ Hs] _]. split.
    - intros T. destruct (took_woken _ _ M1 T) as [-> ->]. unfold p0, d in *. cbn. rewrite Hs. done.
    - intros Eq. destruct M1 as [_ (k & Ek & _ & Hk) _]. rewrite Eq in Ek. unfold p0, d in *. cbn in Ek.
      destruct k as [|c k]; [destruct Hk as [-> ->]; done|]. apply (f_equal length) in Ek. rewrite length_app in Ek. simpl in Ek. lia. }
  eapply wpl_mono; [apply (take_xmit live (set_prt p1 s)); [done|done|]|].
  { intros Ht. destruct (Hlive Ht) as (_ & Hpr & Hne). destruct (Hsig Ht) as [S1 S2].
    destruct (took_or_not _ _ M1) as [T|Eq]; [left; destruct (S1 T) as [_ Hs]; unfold d; cbn; lia|].
    right. destruct (S2 Eq) as [Hw _]. split_and!; [done| |unfold d in *; cbn; by rewrite Eq|done|done].
    destruct T1 as [T|Hb]; [|done]. rewrite Eq in T. done. }
  cbn beta. intros ret s2 ((p2 & Hp2 & M2 & HR) & (k & Ek & Lk) & En). change (prt (set_prt p1 s)) with p1 in M2.
  pose proof (moves_flows _ _ Hp1 M1) as F1. pose proof (moves_flows _ _ Hp2 M2) as F2.
  assert (F3 : flows p2 (prt s2)).
  { destruct HR as [(_ & Hs & ->)|(_ & _ & ->)]; [|by apply flows_refl].
    apply flows_flags; try done; [simpl; lia|apply Hp2]. }
  assert (Hp3 : port_ok (prt s2)) by apply F3.
  apply wpl_bind, wpl_zoom. apply wpl_wp. eapply wp_mono; [by apply low_txint|]. intros _ p4 (Hp4 & M4 & _).
  pose proof (moves_flows _ _ Hp4 M4) as F4. apply wpl_ret.
  assert (F : flows (prt s) p4) by (eapply flows_trans; [exact F0|]; eapply flows_trans; [exact F1|];
    eapply flows_trans; [exact F2|]; eapply flows_trans; [exact F3|exact F4]).
  split_and!; [done|done|by exists k| |].
  - destruct HR as [(-> & _)|(-> & ? & _)]; [by left|by right].
  - intros Ht. destruct (Hsig Ht) as [S1 S2].
    destruct HR as [(_ & Hs & E3)|(_ & ? & _)]; [|congruence].
    assert (T02 : took p0 p2 /\ xmitwaiting (serdev p2) = false /\ xmitsem (serdev p2) = 1).
    { destruct (took_or_not _ _ M1) as [T|Eq].
      - destruct (S1 T) as [W1 N1]. split; [unfold took in *; pose proof (moves_length _ _ M2); lia|].
        destruct M2 as [_ (j & _ & _ & Hj) _]. rewrite W1, N1 in Hj. destruct j; by destruct Hj as [-> ->].
      - destruct (S2 Eq) as [W1 N1]. destruct (took_or_not _ _ M2) as [T|Eq2].
        + destruct (took_woken _ _ M2 T) as [-> ->]. rewrite W1, N1. split; [|done]. unfold took, p0, d in *. cbn in *. by rewrite Eq in T.
        + destruct M2 as [_ (j & Ej & _ & Hj) _]. rewrite Eq2 in Ej. destruct j as [|c j].
          * destruct Hj as [_ E2]. lia.
          * apply (f_equal length) in Ej. rewrite length_app in Ej. simpl in Ej. lia. }
    destruct T02 as (T02 & W2 & N2). split.
    + unfold took in *. pose proof (fl_length _ _ F3). pose proof (fl_length _ _ F4). unfold p0, d in *. cbn in *. lia.
    + unfold quiet, d. cbn. destruct M4 as [_ (j & _ & _ & Hj) _]. rewrite E3 in Hj. cbn in Hj. rewrite W2, N2 in Hj.
      destruct j; by destruct Hj as [-> ->].
Qed.

Definition connected (s : sys P E) : Prop := disconnected (d s) = false.

Lemma flows_connected s s' : flows (prt s) (prt s') -> connected s -> connected s'.
Proof. intros [A _ _ _]. unfold connected, d. unfold static, fixed in A. simplify_eq. congruence. Qed.

(** What [put_loop] leaves: the character is written, or the wait was given up. *)

Definition put_post (live : bool) (ch : Z) (s : sys P E) (ret : Z) (s' : sys P E) : Prop :=
  (ret = OK /\ step [u8 ch] [] s s' \/
   live = false /\ (ret = - EINTR \/ ret = - EAGAIN) /\ step [] [] s s') /\
  (live = true -> quiet s' /\ (length (sched s) <= length (sched s') + 4)%nat).

Lemma put_post_after ch s s1 ret s2 : step [] [] s s1 -> put_post false ch s1 ret s2 -> put_post false ch s ret s2.
Proof.
  intros S1 [[[-> S2]|(_ & Hr & S2)] _]; (split; [|done]); [left|right]; split_and!; try done; by eapply step_after.
Qed.

Lemma put_loop_ok live n s ch okb : port_ok (prt s) -> calm_sched (sched s) -> connected s ->
  (live = true -> okb = true /\ quiet s /\ prompt (sched s) /\ (4 <= length (sched s))%nat /\ (2 <= n)%nat) ->
  wpl live (put_loop handle n (nexthead s) ch okb) (put_post live ch s) s.
Proof using Hlow.
  revert s. induction n as [|n IH]; intros s Hp Hc Hcon Hlive.
  { destruct live; [|done]. destruct (Hlive eq_refl) as (_ & _ & _ & _ & ?). lia. }
  cbn [put_loop]. apply wpl_bind. apply wpl_wp. eapply wp_mono; [by apply irq_step|].
  intros _ s1 (F1 & S1 & E1 & _ & Q1). pose proof (step_port_ok _ _ _ _ S1) as Hp1. pose proof (step_calm _ _ _ _ S1 Hc) as Hc1.
  rewrite <- (flows_nexthead _ _ F1). apply wpl_bind, wpl_gets.
  destruct (Z.eqb_spec (nexthead s1) (ub_tail (xmit (serdev (prt s1))))) as [Hfull|Hroom]; cbn [negb].
  2:{ apply wpl_bind. apply wpl_wp. eapply wp_mono; [by apply push_step|]. intros _ s2 (S2 & Es2 & _ & Q2). apply wpl_ret.
      split; [left; split; [done|by eapply step_after]|]. intros Ht. destruct (Hlive Ht) as (_ & Hq & _).
      split; [auto|]. rewrite Es2, E1, length_drop. lia. }
  destruct okb; [|apply wpl_ret; destruct live; [destruct (Hlive eq_refl) as [? _]; done|]; split; [right; eauto|done]].
  apply wpl_bind. apply wpl_wp. eapply wp_mono; [by apply irq_step|].
  intros _ s2 (F2 & S2 & E2 & _ & Q2). pose proof (step_port_ok _ _ _ _ S2) as Hp2. pose proof (step_calm _ _ _ _ S2 Hc1) as Hc2.
  rewrite <- (flows_nexthead _ _ F2). apply wpl_bind, wpl_gets. apply wpl_bind, wpl_gets.
  assert (Hcon2 : connected s2) by (eapply flows_connected; [exact F2|]; by eapply flows_connected; [exact F1|]).
  rewrite (Hcon2 : disconnected (serdev (prt s2)) = false). apply wpl_bind.
  assert (S02 : step [] [] s s2) by by eapply step_after.
  (* the next turn *)
  assert (Hnext : forall k s3, flows (prt s2) (prt s3) -> sched s2 = k ++ sched s3 ->
    (live = true -> room (prt s3) /\ quiet s3 /\ (length (sched s) <= length (sched s3) + 3)%nat) ->
    wpl live (put_loop handle n (nexthead s2) ch true) (put_post live ch s) s3).
  { intros k s3 F3 Ek HL. pose proof (flows_step _ _ _ F3 Ek) as S3. pose proof (step_after _ _ _ _ _ S02 S3) as S03.
    pose proof (step_port_ok _ _ _ _ S3) as Hp3. pose proof (step_calm _ _ _ _ S3 Hc2) as Hc3.
    rewrite <- (flows_nexthead _ _ F3). destruct live.
    - destruct (Hlive eq_refl) as (_ & _ & _ & _ & Hn). destruct (HL eq_refl) as (Hr & Hq & Hlen). destruct n as [|n']; [lia|].
      eapply wpl_mono; [by apply put_room|]. cbn beta. intros ret s4 (-> & S4 & Q4 & L4).
      split; [left; split; [done|by eapply step_after]|]. intros _. split; [auto|lia].
    - eapply wpl_mono; [apply IH; [done|done|by eapply flows_connected|done]|]. intros ret s4 H4. by eapply put_post_after. }
  destruct (Z.eqb_spec (nexthead s2) (ub_tail (xmit (serdev (prt s2))))) as [Hfull2|Hroom2]; cbn [negb].
  - eapply wpl_mono.
    + apply (wait_ok live s2); [done|done| |].
      * intros En. apply (queue_nil _ (dk_xmit _ (proj1 Hp2))) in En. unfold nexthead, d in Hfull2.
        destruct (dk_xmit _ (proj1 Hp2)). unfold next_index in Hfull2. case_match; to_prop; lia.
      * intros Ht. destruct (Hlive Ht) as (_ & Hq & Hpr & Hlen & _). split_and!; [auto|by eapply step_prompt|].
        intros En. rewrite E2, E1 in En. apply (f_equal length) in En. rewrite !length_drop in En. simpl in En. lia.
    + cbn beta. intros ret s3 (F3 & _ & (k & Ek & Lk) & Hret & HL). apply wpl_bind, wpl_gets.
      assert (Hcon3 : connected s3) by by eapply flows_connected.
      rewrite (Hcon3 : disconnected (serdev (prt s3)) = false). destruct Hret as [->|[-> ->]].
      * apply (Hnext k); [done|done|]. intros Ht. destruct (HL Ht) as [T Hq]. split_and!; [|done|].
        -- eapply took_room; [exact Hp2|apply F3|apply F3|done].
        -- specialize (Lk Ht). apply (f_equal length) in Ek. rewrite length_app, E2, E1, !length_drop in Ek. lia.
      * apply wpl_ret. split; [|done]. right. split_and!; [done|by left|]. eapply step_after; [exact S02|].
        by eapply flows_step.
  - apply wpl_ret. apply wpl_bind, wpl_gets. rewrite (Hcon2 : disconnected (serdev (prt s2)) = false). apply (Hnext []); [by apply flows_refl|done|].
    intros Ht. destruct (Hlive Ht) as (_ & Hq & _). split_and!; [done|auto|]. rewrite E2, E1, !length_drop. lia.
Qed.

(** ** [uart_write] *)

Lemma putxmitchar_ok live s ch okb : port_ok (prt s) -> calm_sched (sched s) -> connected s ->
  (live = true -> okb = true /\ quiet s /\ prompt (sched s) /\ (4 <= length (sched s))%nat) ->
  wpl live (uart_putxmitchar handle ch okb) (put_post live ch s) s.
Proof using Hlow.
  intros Hp Hc Hcon Hlive. unfold uart_putxmitchar. apply wpl_bind, wpl_get. apply put_loop_ok; [done|done|done|].
  intros Ht. destruct (Hlive Ht) as (? & ? & ? & ?). split_and!; [done..|]. unfold turns. lia.
Qed.

(** What goes over the line for [buf]. *)

Definition cooked (oflag ch : Z) : list Z :=
  let '(c, cr) := output_char oflag ch in (if (cr : bool) then [CR] else []) ++ [u8 c].

Definition expand (oflag : Z) (buf : list Z) : list Z := buf ≫= cooked oflag.

Lemma step_fixed w raw s s' : step w raw s s' -> fixed (d s') = fixed (d s).
Proof. intros [H _ _]. apply H. Qed.

Lemma step_connected w raw s s' : step w raw s s' -> connected s -> connected s'.
Proof. intros H%step_fixed. unfold connected, fixed in *. simplify_eq. congruence. Qed.

Lemma step_oflag w raw s s' : step w raw s s' -> tc_oflag (d s') = tc_oflag (d s).
Proof. intros H%step_fixed. unfold fixed in *. by simplify_eq. Qed.

Definition given_up (ret : Z) : Prop := ret = - EINTR \/ ret = - EAGAIN.

(** One character of [uart_write], with the carriage return before it. *)

Lemma cooked_ok live s ch okb : port_ok (prt s) -> calm_sched (sched s) -> connected s ->
  (live = true -> okb = true /\ quiet s /\ prompt (sched s) /\ (8 <= length (sched s))%nat) ->
  wpl live (write_char handle ch okb)
    (fun ret s' =>
      (ret = OK /\ step (cooked (tc_oflag (d s)) ch) [] s s' \/
       live = false /\ given_up ret /\
         exists extra, (extra = [] \/ extra = [CR] /\ has (tc_oflag (d s)) OPOST = true) /\ step extra [] s s') /\
      (live = true -> quiet s' /\ (length (sched s) <= length (sched s') + 8)%nat)) s.
Proof using Hlow.
  intros Hp Hc Hcon Hlive. unfold cooked, write_char. apply wpl_bind, wpl_gets. fold (d s).
  assert (Hcr : (output_char (tc_oflag (d s)) ch).2 = true -> has (tc_oflag (d s)) OPOST = true)
    by (unfold output_char; by destruct (has (tc_oflag (d s)) OPOST)).
  destruct (output_char (tc_oflag (d s)) ch) as [c cr] eqn:Eo. apply wpl_bind.
  destruct cr.
  - eapply wpl_mono; [apply putxmitchar_ok; [done..|]|].
    { intros Ht. destruct (Hlive Ht) as (? & ? & ? & ?). split_and!; [done..|lia]. }
    intros ret s1 [[[-> S1]|(-> & Hret & S1)] HL].
    + cbn [Z.leb Z.compare OK]. change (0 <=? OK) with true. cbn iota.
      eapply wpl_mono; [apply putxmitchar_ok; [by eapply step_port_ok|by eapply step_calm|by eapply step_connected|]|].
      { intros Ht. destruct (Hlive Ht) as (? & ? & ? & ?), (HL Ht) as [? ?]. split_and!; [done|done|by eapply step_prompt|lia]. }
      intros ret s2 [[[-> S2]|(-> & Hret & S2)] HL2].
      * split; [left; split; [done|]; exact (step_trans _ _ _ _ _ _ _ S1 S2)|].
        intros Ht. destruct (HL Ht), (HL2 Ht). split; [done|lia].
      * split; [right|done]. split_and!; [done|done|]. exists [CR]. split; [right; auto|].
        exact (step_trans [u8 CR] [] [] [] _ _ _ S1 S2).
    + assert (E0 : (0 <=? ret) = false) by (destruct Hret as [-> | ->]; done). rewrite E0. apply wpl_ret.
      split; [right|done]. split_and!; [done|done|]. exists []. split; [by left|done].
  - apply wpl_ret. change (0 <=? OK) with true. cbn iota.
    eapply wpl_mono; [apply putxmitchar_ok; [done..|]|].
    { intros Ht. destruct (Hlive Ht) as (? & ? & ? & ?). split_and!; [done..|lia]. }
    intros ret s2 [[[-> S2]|(-> & Hret & S2)] HL2].
    + split; [by left|]. intros Ht. destruct (HL2 Ht). split; [done|lia].
    + split; [right|done]. split_and!; [done|done|]. exists []. split; [by left|done].
Qed.

(** The loop over the characters: [k] of them are written. *)

Lemma write_loop_ok live N okb buf s : port_ok (prt s) -> calm_sched (sched s) -> connected s ->
  (live = true -> okb = true /\ quiet s /\ prompt (sched s) /\ (8 * length buf <= length (sched s))%nat) ->
  wpl live (write_loop handle N okb buf) (fun ret s' => exists k extra,
    step (expand (tc_oflag (d s)) (take k buf) ++ extra) [] s s' /\
    (k = length buf /\ ret = N /\ extra = [] \/
     live = false /\ (k < length buf)%nat /\ (extra = [] \/ extra = [CR] /\ has (tc_oflag (d s)) OPOST = true) /\
       let left := Z.of_nat (length buf - k) in
       exists e, given_up e /\ ret = if left <? N then N - left else e) /\
    (live = true -> quiet s' /\ (length (sched s) <= length (sched s') + 8 * length buf)%nat)) s.
Proof using Hlow.
  revert s. induction buf as [|ch buf IH]; intros s Hp Hc Hcon Hlive; cbn [write_loop].
  { apply wpl_ret. exists 0%nat, []. split_and!; [|by left|intros Ht; destruct (Hlive Ht) as (_ & ? & _); split; [done|lia]].
    apply (flows_step s s []); [by apply flows_refl|done]. }
  apply wpl_bind. eapply wpl_mono; [apply (cooked_ok live s ch okb Hp Hc Hcon)|].
  { intros Ht. destruct (Hlive Ht) as (? & ? & ? & Hlen). simpl in Hlen. split_and!; [done..|lia]. }
  intros ret s1 [[[-> S1]|(-> & Hret & extra & Hex & S1)] HL].
  - change (OK <? 0) with false. cbn iota. pose proof (step_oflag _ _ _ _ S1) as Eof.
    eapply wpl_mono; [apply IH; [by eapply step_port_ok|by eapply step_calm|by eapply step_connected|]|].
    { intros Ht. destruct (Hlive Ht) as (? & ? & ? & Hlen), (HL Ht) as [? ?]. simpl in Hlen.
      split_and!; [done|done|by eapply step_prompt|lia]. }
    cbn beta. rewrite Eof. intros ret s2 (k & extra & S2 & HR & HL2). exists (S k), extra.
    split_and!; [| |intros Ht; destruct (HL Ht), (HL2 Ht); split; [done|simpl; lia]].
    + cbn [take expand mbind list_bind]. rewrite <- (assoc_L (++)). exact (step_trans _ _ [] [] _ _ _ S1 S2).
    + destruct HR as [(-> & -> & ->)|(? & Hk & Hex & e & He & ->)]; [by left|right]. split_and!; [done|simpl; lia|done|].
      exists e. split; [done|]. by replace (length (ch :: buf) - S k)%nat with (length buf - k)%nat by (simpl; lia).
  - assert (E0 : (ret <? 0) = true) by (destruct Hret as [-> | ->]; done). rewrite E0. apply wpl_ret.
    exists 0%nat, extra. split_and!; [done|right|done]. split_and!; [done|simpl; lia|done|]. exists ret. split; [done|].
    by rewrite Nat.sub_0_r.
Qed.

(** *** Locks *)

Definition is_lock (r : semref) : Prop := r = XMIT_SEM \/ r = RECV_SEM.

Lemma lock_passed r v p : is_lock r -> port_ok p -> passed [] [] p (set_serdev (sem_set r v (serdev p)) p).
Proof.
  intros Hr [[[A1 A2 A3 A4] [B1 B2 B3 B4] C D1 D2] Hi].
  destruct Hr as [-> | ->]; (constructor; [split; [constructor; try done; by constructor|done]|done|
    unfold stream; by rewrite app_nil_r|exists []; unfold inflow; by rewrite !app_nil_r]).
Qed.

Lemma lock_ok live r s : is_lock r -> sem_get r (d s) = 1 ->
  wpl live (uart_takesem handle r true) (fun ret s' => ret = OK /\
    s' = set_prt (set_serdev (sem_set r 0 (d s)) (prt s)) s) s.
Proof.
  intros Hr Hs. unfold uart_takesem. apply wpl_bind, wpl_get. destruct (sched s); cbn [take_loop];
    apply wpl_bind, wpl_gets; fold (d s); rewrite Hs; cbn [Z.ltb Z.compare];
    by apply wpl_bind, wpl_zoom, wpl_zoom, wpl_modify, wpl_ret.
Qed.

Lemma unlock_ok live r s (Q : unit -> sys P E -> Prop) : 
  Q tt (set_prt (set_serdev (sem_set r (sem_get r (d s) + 1) (d s)) (prt s)) s) -> wpl live (uart_givesem r) Q s.
Proof. intros HQ. apply wpl_zoom, wpl_zoom, wpl_modify. exact HQ. Qed.

(** A call between taking and giving a lock. *)

Lemma locked_step r w raw s s' : is_lock r -> port_ok (prt s) -> sem_get r (d s) = 1 ->
  step w raw (set_prt (set_serdev (sem_set r 0 (d s)) (prt s)) s) s' ->
  step w raw s (set_prt (set_serdev (sem_set r (sem_get r (d s') + 1) (d s')) (prt s')) s').
Proof.
  intros Hr Hp Hs [A [B C] D]. pose proof (lock_passed r 0 (prt s) Hr Hp) as L0.
  pose proof (lock_passed r (sem_get r (d s') + 1) (prt s') Hr (ps_ok _ _ _ _ A)) as L1.
  constructor; [|destruct Hr as [-> | ->]; unfold d in *; cbn in *; split; lia|done].
  pose proof (passed_trans _ _ _ _ _ _ _ (passed_trans _ _ _ _ _ _ _ L0 A) L1) as H.
  by rewrite !app_nil_r in H.
Qed.

Definition written (live : bool) (buf : list Z) (s : sys P E) (ret : Z) (s' : sys P E) : Prop :=
  exists extra,
    (0 <= ret <= Z.of_nat (length buf) /\ step (expand (tc_oflag (d s)) (take (Z.to_nat ret) buf) ++ extra) [] s s' \/
     given_up ret /\ step extra [] s s') /\
    (extra = [] \/ extra = [CR] /\ has (tc_oflag (d s)) OPOST = true /\ ret < Z.of_nat (length buf)) /\
    (live = true -> ret = Z.of_nat (length buf) /\ quiet s' /\ (length (sched s) <= length (sched s') + 8 * length buf)%nat) /\
    (queue (xmit (d s')) = [] \/ busy (priv (prt s'))).

Lemma step_moves w raw s s' p : step w raw s s' -> port_ok p -> moves (prt s') p -> step w raw s (set_prt p s').
Proof.
  intros H Hp M. assert (S1 : step [] [] s' (set_prt p s')).
  { apply (flows_step s' (set_prt p s') []); [by apply moves_flows|done]. }
  pose proof (step_trans _ _ _ _ _ _ _ H S1) as H'. by rewrite !app_nil_r in H'.
Qed.

Lemma write_ok live spin f buf s : port_ok (prt s) -> calm_sched (sched s) -> connected s ->
  f_inode f = true -> ub_sem (xmit (d s)) = 1 ->
  (live = true -> f_nonblock f = false /\ quiet s /\ prompt (sched s) /\ (8 * length buf <= length (sched s))%nat) ->
  wpl live (uart_write handle false spin f buf) (written live buf s) s.
Proof using Hlow.
  intros Hp Hc Hcon Hf Hlk Hlive. unfold uart_write. rewrite Hf. cbn [negb].
  apply wpl_bind. eapply wpl_mono; [apply lock_ok; [by left|done]|]. intros ret s0 [-> ->]. cbn [OK Z.ltb Z.compare].
  change (OK <? 0) with false. cbn iota. apply wpl_bind, wpl_gets.
  set (s0 := set_prt (set_serdev (sem_set XMIT_SEM 0 (d s)) (prt s)) s).
  assert (L0 : passed [] [] (prt s) (prt s0)) by (apply lock_passed; [by left|done]).
  change (disconnected (serdev (prt s0))) with (disconnected (d s)). rewrite (Hcon : disconnected (d s) = false).
  apply wpl_bind, wpl_zoom. apply wpl_wp. eapply wp_mono; [apply low_txint, L0|]. intros _ p1 (Hp1 & M1 & _).
  set (s1 := set_prt p1 s0).
  assert (S1 : step [] [] s0 s1) by (apply (flows_step s0 s1 []); [by apply moves_flows|done]).
  apply wpl_bind. eapply wpl_mono; [apply (write_loop_ok live (Z.of_nat (length buf)) (negb (f_nonblock f)) buf s1); [done|done| |]|].
  { by eapply step_connected; [exact S1|]. }
  { intros Ht. destruct (Hlive Ht) as (-> & Hq & ? & ?). split_and!; [done|by apply (moves_quiet s0 s1 M1)|done|done]. }
  cbn beta. rewrite (step_oflag _ _ _ _ S1). change (tc_oflag (d s0)) with (tc_oflag (d s)).
  intros ret s2 (k & extra & S2 & HR & HL). pose proof (step_port_ok _ _ _ _ S2) as Hp2.
  pose proof (step_after _ _ _ _ _ S1 S2) as S02. apply wpl_bind, wpl_gets.
  (* the end *)
  assert (Hend : forall s3, step (expand (tc_oflag (d s)) (take k buf) ++ extra) [] s0 s3 ->
    (live = true -> quiet s3 /\ (length (sched s) <= length (sched s3) + 8 * length buf)%nat) -> (queue (xmit (d s3)) = [] \/ busy (priv (prt s3))) ->
    written live buf s ret (set_prt (set_serdev (sem_set XMIT_SEM (sem_get XMIT_SEM (d s3) + 1) (d s3)) (prt s3)) s3)).
  { intros s3 S3 Q3 B3. assert (S4 := locked_step XMIT_SEM _ _ s s3 (or_introl eq_refl) Hp Hlk S3).
    exists extra. split_and!; [| | |done].
    - destruct HR as [(-> & -> & ->)|(_ & Hk & _ & e & He & ->)].
      + left. split; [lia|]. by rewrite Nat2Z.id.
      + destruct k as [|k]; [right; rewrite (proj2 (Z.ltb_ge _ _)) by lia|left; rewrite (proj2 (Z.ltb_lt _ _)) by lia].
        * done.
        * split; [lia|]. by replace (Z.to_nat _) with (S k) by lia.
    - destruct HR as [(-> & -> & ->)|(_ & Hk & [->|[-> Ho]] & e & He & ->)]; [by left|by left|right].
      split_and!; [done|done|]. case_match; to_prop; [lia|]. destruct He as [-> | ->]; unfold EINTR, EAGAIN; lia.
    - intros Ht. destruct HR as [(-> & -> & ->)|(? & _)]; [|congruence]. split; [done|]. destruct (Q3 Ht). by split. }
  destruct (Z.eqb_spec (ub_head (xmit (serdev (prt s2)))) (ub_tail (xmit (serdev (prt s2))))) as [Ee|Ee]; cbn [negb].
  - apply wpl_bind, wpl_ret. apply wpl_bind, unlock_ok, wpl_ret. apply Hend; [done|done|left].
    by apply queue_nil; [apply Hp2|].
  - apply wpl_bind, wpl_zoom. apply wpl_wp. eapply wp_mono; [by apply low_txint|]. intros _ p3 (Hp3 & M3 & B3).
    apply wpl_bind, unlock_ok, wpl_ret. apply Hend; [by apply step_moves| |by apply B3].
    intros Ht. destruct (HL Ht). split; [|done]. by apply (moves_quiet s2 (set_prt p3 s2) M3).
Qed.

(** ** [uart_read] *)

(** A carriage return is never dropped: the test for [IGNCR] has two different bits. *)

Lemma input_char_some iflag ch : exists c, input_char iflag ch = Some c.
Proof.
  unfold input_char. destruct (has iflag _); [|eauto]. cbn zeta.
  assert (Hz : forall x : bool, Z.land (if x then 1 else 0) (Z.land iflag IGNCR) = 0).
  { intros x. rewrite (Z.land_comm iflag), Z.land_assoc. by destruct x. }
  rewrite Hz. cbn [Z.eqb negb]. eauto.
Qed.

Definition cook_in (iflag ch : Z) : Z := default ch (input_char iflag ch).

Lemma pop_step s : port_ok (prt s) -> queue (recv (d s)) <> [] ->
  wp (on_udev pop_recv) (fun c s' => step [] [c] s s' /\ sched s' = sched s) s.
Proof.
  intros [[A1 A2 A3 A4 A5] Hi] Hq. rewrite queue_nil in Hq by done. destruct (pop_ok (recv (d s)) A2 Hq) as (c & Hc & Eq & Hok).
  unfold on_udev, on_port, on_dev. apply wp_zoom, wp_zoom. unfold pop_recv. apply wp_bind, wp_get. apply wp_bind.
  eapply wp_lift; [exact Hc|]. apply wp_bind, wp_modify, wp_ret. split; [|done]. constructor; [|done|by exists []].
  unfold d in *. set (b' := set_ub_tail _ (recv (serdev (prt s)))) in *.
  assert (Ez : ub_size b' = ub_size (recv (serdev (prt s)))) by done. clearbody b'. constructor.
  - split; [by constructor|done].
  - unfold fixed. cbn. by rewrite Ez.
  - unfold stream. cbn. by rewrite app_nil_r.
  - exists []. unfold inflow. cbn. by rewrite Eq, !app_nil_r.
Qed.

Lemma step_iflag w raw s s' : step w raw s s' -> tc_iflag (d s') = tc_iflag (d s).
Proof. intros H%step_fixed. unfold fixed in *. by simplify_eq. Qed.

(** [raw] are the characters taken, [got] the ones stored before. *)

Definition read_post (iflag buflen : Z) (got : list Z) (s : sys P E) (r : Z * list Z) (s' : sys P E) : Prop :=
  exists raw, step [] raw s s' /\ r.2 = got ++ (cook_in iflag <$> raw) /\
    (r.1 = Z.of_nat (length r.2) /\ (0 < r.1 \/ buflen <= 0) \/ r.2 = [] /\ given_up r.1) /\
    Z.of_nat (length raw) <= Z.max 0 (buflen - Z.of_nat (length got)).

Lemma read_post_after iflag buflen got s s1 r s2 : step [] [] s s1 ->
  read_post iflag buflen got s1 r s2 -> read_post iflag buflen got s r s2.
Proof. intros S1 (raw & S2 & H). exists raw. split; [by eapply step_after|done]. Qed.

Lemma rxint_step s b : port_ok (prt s) -> wp (on_port (op_rxint b)) (fun _ s' => step [] [] s s' /\ sched s' = sched s) s.
Proof using Hlow.
  intros Hp. apply wp_zoom. eapply wp_mono; [by apply low_rxint|]. intros _ p (Hp' & M). split; [|done].
  apply (flows_step s (set_prt p s) []); [by apply moves_flows|done].
Qed.

(** Waiting for characters. *)

Lemma wait_recv s : port_ok (prt s) -> calm_sched (sched s) ->
  wpl false (on_udev (modify (set_recvwaiting true));; uart_takesem handle RECVSEM true)
    (fun ret s' => (ret = OK \/ ret = - EINTR) /\ step [] [] s s') s.
Proof using Hlow.
  intros Hp Hc. set (p0 := set_serdev (set_recvwaiting true (d s)) (prt s)).
  assert (F0 : flows (prt s) p0) by (apply flows_flags; try done; apply Hp).
  apply wpl_bind, wpl_zoom, wpl_zoom, wpl_modify. change (set_prt _ s) with (set_prt p0 s).
  unfold uart_takesem. apply wpl_bind, wpl_get. eapply wpl_mono;
    [apply (take_ok false RECVSEM (sched s) (set_prt p0 s)); [by right|done|apply F0|done|done]|].
  cbn beta. intros ret s' ((p1 & Hp1 & M1 & HR) & (k & Ek & _) & _). change (prt (set_prt p0 s)) with p0 in M1.
  pose proof (moves_flows _ _ Hp1 M1) as F1. pose proof (flows_trans _ _ _ F0 F1) as F. split; [naive_solver|].
  apply (flows_step s s' k); [|done]. destruct HR as [(_ & Hs & ->)|(_ & _ & ->)]; [|done].
  eapply flows_trans; [exact F|]. apply flows_flags; try done; [apply Hp1|simpl in *; lia].
Qed.

Lemma read_loop_ok live n f buflen got s : port_ok (prt s) -> calm_sched (sched s) -> connected s -> f_inode f = true ->
  (live = true -> (got <> [] \/ queue (recv (d s)) <> []) /\ buflen - Z.of_nat (length got) < Z.of_nat n) ->
  wpl live (read_loop handle n f buflen got) (fun r s' => read_post (tc_iflag (d s)) buflen got s r s' /\
    (live = true -> 0 < buflen -> 0 < r.1)) s.
Proof using Hlow.
  revert got s. induction n as [|n IH]; intros got s Hp Hc Hcon Hf Hlive; cbn [read_loop]; cbn zeta.
  all: assert (Hrefl : step [] [] s s) by (apply (flows_step s s []); [by apply flows_refl|done]).
  all: destruct (Z.leb_spec buflen (Z.of_nat (length got))) as [Hfin|Hmore].
  1, 3: apply wpl_ret; split; [exists []; rewrite app_nil_r; split_and!; [done|done|left; simpl; lia|simpl; lia]|simpl; lia].
  { destruct live; [|done]. destruct (Hlive eq_refl) as [_ ?]. lia. }
  apply wpl_bind. apply wpl_wp. eapply wp_mono; [by apply irq_step|].
  intros _ s1 (F1 & S1 & E1 & _). pose proof (step_port_ok _ _ _ _ S1) as Hp1. pose proof (step_calm _ _ _ _ S1 Hc) as Hc1.
  pose proof (flows_connected _ _ F1 Hcon) as Hcon1. apply wpl_bind, wpl_gets. unfold id. cbn beta. fold (d s1). rewrite (Hcon1 : disconnected (d s1) = false).
  rewrite <- (step_iflag _ _ _ _ S1).
  (* the next turn, with nothing taken *)
  assert (Hagain : forall s2, step [] [] s1 s2 -> live = false ->
    wpl live (read_loop handle n f buflen got) (fun r s' => read_post (tc_iflag (d s1)) buflen got s r s' /\
      (live = true -> 0 < buflen -> 0 < r.1)) s2).
  { intros s2 S2 ->. rewrite <- (step_iflag _ _ _ _ S2).
    eapply wpl_mono; [apply IH; [by eapply step_port_ok|by eapply step_calm|by eapply step_connected|done|done]|].
    intros r s' [HR _]. split; [|done]. eapply read_post_after; [|exact HR]. by eapply step_after. }
  destruct (Z.eqb_spec (ub_head (recv (d s1))) (ub_tail (recv (d s1)))) as [Hemp|Hne]; cbn [negb].
  - assert (Eq1 : queue (recv (d s1)) = []) by by apply queue_nil; [apply Hp1|].
    assert (Hg : live = true -> got <> []).
    { intros Ht. destruct (Hlive Ht) as [[?|Hq] _]; [done|]. exfalso. pose proof (fl_recv _ _ F1) as Hlen. fold (d s) (d s1) in Hlen.
      rewrite Eq1 in Hlen. destruct (queue (recv (d s))); [done|simpl in Hlen; lia]. }
    destruct (Z.ltb_spec 0 (Z.of_nat (length got))) as [Hpos|Hpos].
    { apply wpl_ret. split; [|simpl; lia]. exists []. rewrite app_nil_r. split_and!; [done|done|left; simpl; lia|simpl; lia]. }
    assert (Eg : got = []) by (destruct got; [done|simpl in Hpos; lia]). subst got.
    assert (El : live = false) by (destruct live; [by destruct (Hg eq_refl)|done]). subst live. clear Hg Hlive.
    rewrite Hf. cbn [negb].
    destruct (f_nonblock f).
    { apply wpl_ret. split; [|done]. exists []. split_and!; [done|done|right; split; [done|by right]|simpl; lia]. }
    apply wpl_bind. apply wpl_wp. eapply wp_mono; [by apply irq_step|].
    intros _ s2 (F2 & S2 & _ & _). pose proof (step_port_ok _ _ _ _ S2) as Hp2. pose proof (step_calm _ _ _ _ S2 Hc1) as Hc2.
    apply wpl_bind. apply wpl_wp. eapply wp_mono; [by apply rxint_step|]. intros _ s3 (S3 & E3).
    pose proof (step_after _ _ _ _ _ S2 S3) as S13. pose proof (step_port_ok _ _ _ _ S3) as Hp3.
    apply wpl_bind, wpl_gets. cbn beta.
    destruct (Z.eqb_spec (ub_head (recv (serdev (prt s3)))) (ub_tail (recv (serdev (prt s3))))) as [He3|He3].
    + apply wpl_bind. apply wpl_wp. eapply wp_mono; [by apply rxint_step|]. intros _ s4 (S4 & E4).
      pose proof (step_after _ _ _ _ _ S13 S4) as S14. pose proof (step_port_ok _ _ _ _ S4) as Hp4.
      apply wpl_bind, wpl_gets. cbn beta. fold (d s4).
      destruct (negb (ub_head (recv (d s4)) =? ub_tail (recv (d s4)))); [by apply Hagain|].
      pose proof (step_connected _ _ _ _ S14 Hcon1) as Hcon4. rewrite (Hcon4 : disconnected (d s4) = false).
      apply wpl_bind. eapply wpl_mono; [apply wait_recv; [done|by rewrite E4, E3]|]. cbn beta. intros ret s5 (Hret & S5).
      pose proof (step_after _ _ _ _ _ S14 S5) as S15. apply wpl_bind, wpl_gets. fold (d s5).
      pose proof (step_connected _ _ _ _ S15 Hcon1) as Hcon5. rewrite (Hcon5 : disconnected (d s5) = false).
      destruct Hret as [-> | ->]; [by apply Hagain|]. apply wpl_ret. split; [|done]. exists [].
      split_and!; [by eapply step_after|done|right; split; [done|by left]|simpl; lia].
    + apply wpl_bind. apply wpl_wp. eapply wp_mono; [by apply rxint_step|]. intros _ s4 (S4 & _).
      apply Hagain; [by eapply step_after|done].
  - assert (Hq1 : queue (recv (d s1)) <> []) by (intros Eq%queue_nil; [done|apply Hp1]).
    apply wpl_bind. apply wpl_wp. eapply wp_mono; [by apply pop_step|]. intros ch s2 (S2 & E2).
    destruct (input_char_some (tc_iflag (d s1)) ch) as [c Ec]. rewrite Ec.
    eapply wpl_mono; [apply (IH (got ++ [c]) s2); [by eapply step_port_ok|by eapply step_calm|by eapply step_connected|done|]|].
    { intros Ht. destruct (Hlive Ht) as [_ Hn]. split; [left; by destruct got|]. rewrite length_app. simpl. lia. }
    rewrite (step_iflag _ _ _ _ S2). intros r s' ((raw & S3 & Hr & HR & HL) & Hpos). split; [|done].
    rewrite length_app in HL. simpl in HL. exists (ch :: raw). split_and!; [|..|simpl; lia].
    + exact (step_after _ _ _ _ _ S1 (step_trans [] [] [ch] raw _ _ _ S2 S3)).
    + rewrite Hr, <- (assoc_L (++)). cbn [fmap list_fmap app]. unfold cook_in at 2. by rewrite Ec.
    + done.
Qed.

Lemma read_ok live f buflen s : port_ok (prt s) -> calm_sched (sched s) -> connected s -> f_inode f = true ->
  ub_sem (recv (d s)) = 1 -> (live = true -> queue (recv (d s)) <> []) ->
  wpl live (uart_read handle f buflen) (fun r s' => read_post (tc_iflag (d s)) buflen [] s r s' /\
    (live = true -> 0 < buflen -> 0 < r.1)) s.
Proof using Hlow.
  intros Hp Hc Hcon Hf Hlk Hlive. unfold uart_read. rewrite Hf. cbn [negb].
  apply wpl_bind. eapply wpl_mono; [apply lock_ok; [by right|done]|]. intros ret s0 [-> ->].
  change (OK <? 0) with false. cbn iota. set (s0 := set_prt (set_serdev (sem_set RECV_SEM 0 (d s)) (prt s)) s).
  assert (L0 : passed [] [] (prt s) (prt s0)) by (apply lock_passed; [by right|done]).
  apply wpl_bind, wpl_get. apply wpl_bind.
  eapply wpl_mono; [apply (read_loop_ok live _ f buflen [] s0); [apply L0|done|done|done|]|].
  { intros Ht. split; [right; by apply Hlive|]. simpl. unfold turns. lia. }
  cbn beta. change (tc_iflag (d s0)) with (tc_iflag (d s)). intros r s1 ((raw & S1 & HR) & Hpos).
  apply wpl_bind. apply wpl_wp. eapply wp_mono; [apply rxint_step; by eapply step_port_ok|]. intros _ s2 (S2 & _).
  apply wpl_bind, unlock_ok, wpl_ret. split; [|done]. exists raw. split; [|done].
  apply (locked_step RECV_SEM _ _ s s2); [by right|done|done|].
  pose proof (step_trans _ _ _ _ _ _ _ S1 S2) as S3. by rewrite !app_nil_r in S3.
Qed.

(** A character is taken from the front of the buffer. *)

Lemma pop_front s : port_ok (prt s) -> queue (recv (d s)) <> [] ->
  wp (on_udev pop_recv) (fun c s' => step [] [c] s s' /\ sched s' = sched s /\ (quiet s -> quiet s') /\
    queue (recv (d s)) = c :: queue (recv (d s'))) s.
Proof.
  intros Hp Hq. assert (Hx : wp (on_udev pop_recv) (fun c s' => xmitwaiting (d s') = xmitwaiting (d s) /\
    xmitsem (d s') = xmitsem (d s) /\ queue (recv (d s)) = c :: queue (recv (d s'))) s).
  { destruct Hp as [[A1 A2 A3 A4 A5] Hi]. rewrite queue_nil in Hq by done.
    destruct (pop_ok (recv (d s)) A2 Hq) as (c & Hc & Eq & Hok). unfold on_udev, on_port, on_dev. apply wp_zoom, wp_zoom.
    unfold pop_recv. apply wp_bind, wp_get. apply wp_bind. eapply wp_lift; [exact Hc|]. by apply wp_bind, wp_modify, wp_ret. }
  eapply wp_mono; [exact (wp_and _ _ _ _ (pop_step s Hp Hq) Hx)|]. cbn beta. intros c s' [[S1 E1] (Ex & Ey & Hr)].
  split_and!; [done|done|by unfold quiet; rewrite Ex, Ey|done].
Qed.

(** After the interrupts of the next point the buffer begins with [q]. *)

Definition brings (q : list Z) (s : sys P E) : Prop :=
  wp (irq_point handle) (fun _ s1 => exists rest, queue (recv (d s1)) = q ++ rest) s.

Lemma queued_brings q rest s : port_ok (prt s) -> calm_sched (sched s) -> queue (recv (d s)) = q ++ rest -> brings q s.
Proof using Hlow.
  intros Hp Hc Hq. eapply wp_mono; [by apply irq_served|]. intros _ s1 (_ & [_ _ (k & n & Ek & _)] & _).
  fold (d s1) (d s) in Ek. exists (rest ++ k). by rewrite Ek, Hq, (assoc_L (++)).
Qed.

(** What is in the buffer when a read begins is read, if there is room for it;
    it takes a batch of interrupts for every character, and one more. *)

Definition read_whole (iflag buflen : Z) (got q : list Z) (s : sys P E) (r : Z * list Z) (s' : sys P E) : Prop :=
  exists raw, step [] raw s s' /\ (quiet s -> quiet s') /\ r.2 = got ++ (cook_in iflag <$> raw) /\
    r.1 = Z.of_nat (length r.2) /\
    (Z.of_nat (length got + length q) <= buflen -> exists more, raw = q ++ more) /\
    Z.of_nat (length got + length raw) <= Z.max buflen (Z.of_nat (length got)) /\
    (length (sched s) <= length (sched s') + S (length raw))%nat.

Lemma read_queued_loop n f buflen got q s : port_ok (prt s) -> calm_sched (sched s) -> connected s ->
  brings q s -> (got <> [] \/ q <> []) -> buflen - Z.of_nat (length got) < Z.of_nat n ->
  wp (read_loop handle n f buflen got) (read_whole (tc_iflag (d s)) buflen got q s) s.
Proof using Hlow.
  revert got q s. induction n as [|n IH]; intros got q s Hp Hc Hcon Hq Hsome Hn; cbn [read_loop]; cbn zeta.
  all: assert (Hrefl : step [] [] s s) by (apply (flows_step s s []); [by apply flows_refl|done]).
  all: destruct (Z.leb_spec buflen (Z.of_nat (length got))) as [Hfin|Hmore]; [|try lia].
  1, 2: apply wp_ret; exists []; rewrite app_nil_r; cbn; split_and!; try done; [|lia..];
    intros ?; exists []; destruct q; [done|simpl in *; lia].
  apply wp_bind. eapply wp_mono; [exact (wp_and _ _ _ _ (irq_step s Hp Hc) Hq)|]. cbn beta.
  intros _ s1 [(F1 & S1 & E1 & _ & Q1) [rest Eq]]. pose proof (step_port_ok _ _ _ _ S1) as Hp1. pose proof (step_calm _ _ _ _ S1 Hc) as Hc1.
  pose proof (flows_connected _ _ F1 Hcon) as Hcon1. apply wp_bind, wp_gets. unfold id. cbn beta. fold (d s1).
  rewrite (Hcon1 : disconnected (d s1) = false). rewrite <- (step_iflag _ _ _ _ S1).
  pose proof (f_equal length E1) as Es. rewrite length_drop in Es.
  destruct (Z.eqb_spec (ub_head (recv (d s1))) (ub_tail (recv (d s1)))) as [Hemp|Hne]; cbn [negb].
  - assert (Eq1 : queue (recv (d s1)) = []) by by apply queue_nil; [apply Hp1|]. rewrite Eq1 in Eq.
    symmetry in Eq. apply app_eq_nil in Eq as [-> ->]. destruct Hsome as [Hg|?]; [|done].
    destruct (Z.ltb_spec 0 (Z.of_nat (length got))) as [Hpos|Hpos]; [|destruct got; [done|simpl in Hpos; lia]].
    apply wp_ret. exists []. rewrite app_nil_r. cbn. split_and!; try done; [by exists []|lia|lia].
  - assert (Hq1 : queue (recv (d s1)) <> []) by (intros En%queue_nil; [done|apply Hp1]).
    apply wp_bind. eapply wp_mono; [by apply pop_front|]. intros ch s2 (S2 & E2 & Q2 & L2).
    destruct (input_char_some (tc_iflag (d s1)) ch) as [c Ec]. rewrite Ec.
    pose proof (step_port_ok _ _ _ _ S2) as Hp2. assert (Hc2 : calm_sched (sched s2)) by by rewrite E2.
    assert (Htl : exists rest', queue (recv (d s2)) = tail q ++ rest').
    { rewrite L2 in Eq. destruct q as [|c' q]; [by exists (queue (recv (d s2)))|]. injection Eq as _ Eq. by exists rest. }
    destruct Htl as [rest' Htl].
    eapply wp_mono; [apply (IH (got ++ [c]) (tail q) s2); [done|done|by eapply step_connected|by eapply queued_brings|left; by destruct got|]|].
    { rewrite length_app. simpl. lia. }
    rewrite (step_iflag _ _ _ _ S2). intros r s' (raw & S3 & Q3 & Hr & Hn3 & Hpre & Hmax & Hs3).
    rewrite length_app in Hpre, Hmax. simpl in Hpre, Hmax. exists (ch :: raw). rewrite E2 in Hs3. cbn [length]. split_and!; [|tauto|..|lia|lia].
    + exact (step_after _ _ _ _ _ S1 (step_trans [] [] [ch] raw _ _ _ S2 S3)).
    + rewrite Hr, <- (assoc_L (++)). cbn [fmap list_fmap app]. unfold cook_in at 2. by rewrite Ec.
    + done.
    + intros Hlen. destruct q as [|c' q]; [by exists (ch :: raw)|]. rewrite L2 in Eq. injection Eq as -> _. simpl in Hlen, Hpre.
      destruct Hpre as [more ->]; [lia|]. by exists more.
Qed.

(** The device with the lock of its receive buffer taken. *)

Definition reading (s : sys P E) : sys P E := set_prt (set_serdev (sem_set RECV_SEM 0 (d s)) (prt s)) s.

Lemma read_queued f buflen q s : port_ok (prt s) -> calm_sched (sched s) -> connected s -> f_inode f = true ->
  ub_sem (recv (d s)) = 1 -> brings q (reading s) -> q <> [] ->
  wp (uart_read handle f buflen) (read_whole (tc_iflag (d s)) buflen [] q s) s.
Proof using Hlow.
  intros Hp Hc Hcon Hf Hlk Hq Hne. unfold uart_read. rewrite Hf. cbn [negb].
  apply wp_bind, wp_wpl. eapply wpl_mono; [apply (lock_ok true); [by right|done]|]. intros ret s0 [-> ->].
  change (OK <? 0) with false. cbn iota. fold (reading s).
  assert (L0 : passed [] [] (prt s) (prt (reading s))) by (apply lock_passed; [by right|done]).
  apply wp_bind, wp_get. apply wp_bind.
  eapply wp_mono; [apply (read_queued_loop _ f buflen [] q (reading s)); [apply L0|done|done|done|by right|]|].
  { simpl. unfold turns. lia. }
  cbn beta. change (tc_iflag (d (reading s))) with (tc_iflag (d s)).
  intros r s1 (raw & S1 & Q1 & Hr & Hn & Hpre & Hmax & Hs).
  apply wp_bind, wp_zoom. eapply wp_mono; [apply low_rxint; by eapply step_port_ok|]. intros _ p2 (Hp2 & M2).
  apply wp_bind, wp_wpl, unlock_ok, wp_ret. exists raw.
  pose proof (step_moves _ _ _ _ _ S1 Hp2 M2) as S2. split_and!; try done.
  - exact (locked_step RECV_SEM _ _ s (set_prt p2 s1) (or_intror eq_refl) Hp Hlk S2).
  - intros Q. exact (moves_quiet s1 (set_prt p2 s1) M2 (Q1 Q)).
Qed.

(** ** [uart_tcdrain] *)

Lemma drain_ok live n s : port_ok (prt s) -> calm_sched (sched s) ->
  (live = true -> quiet s /\ prompt (sched s) /\ (length (queue (xmit (d s))) <= length (sched s))%nat /\
    (length (queue (xmit (d s))) <= n)%nat) ->
  wpl live (drain_loop handle n) (fun ret s' => step [] [] s s' /\
    (ret = OK /\ queue (xmit (d s')) = [] \/ ret = - EINTR /\ live = false) /\
    (live = true -> quiet s' /\ (length (sched s) <= length (sched s') + length (queue (xmit (d s))))%nat)) s.
Proof using Hlow.
  revert s. induction n as [|n IH]; intros s Hp Hc Hlive; cbn [drain_loop]; apply wpl_bind, wpl_gets; fold (d s).
  all: pose proof (queue_nil _ (dk_xmit _ (proj1 Hp))) as Hnil; fold (d s) in Hnil.
  all: destruct (Z.eqb_spec (ub_head (xmit (d s))) (ub_tail (xmit (d s)))) as [Ee|Ee].
  1, 3: apply wpl_ret; split_and!; [apply (flows_step s s []); [by apply flows_refl|done]|left; tauto|];
    intros Ht; destruct (Hlive Ht) as (? & _); split; [done|lia].
  - destruct live; [|done]. destruct (Hlive eq_refl) as (_ & _ & _ & Hn). apply Nat.le_0_r, length_zero_iff_nil in Hn. tauto.
  - assert (Hq : queue (xmit (d s)) <> []) by tauto.
    apply wpl_bind. eapply wpl_mono; [apply (wait_ok live s Hp Hc Hq)|].
    { intros Ht. destruct (Hlive Ht) as (? & ? & Hlen & _). split_and!; [done|done|]. intros En. rewrite En in Hlen.
      destruct (queue (xmit (d s))); [done|simpl in Hlen; lia]. }
    cbn beta. intros ret s1 (F1 & _ & (k & Ek & Lk) & Hret & HL). pose proof (flows_step _ _ _ F1 Ek) as S1.
    destruct Hret as [->|[-> ->]]; [change (0 <=? OK) with true|change (0 <=? - EINTR) with false]; cbn iota.
    + eapply wpl_mono; [apply IH; [apply F1|by eapply step_calm|]|].
      * intros Ht. destruct (Hlive Ht) as (? & ? & Hlen & Hn), (HL Ht) as [T ?]. split_and!; [done|by eapply step_prompt|..].
        -- specialize (Lk Ht). apply (f_equal length) in Ek. rewrite length_app in Ek. unfold took, d in *. lia.
        -- unfold took, d in *. lia.
      * intros ret s2 (S2 & HR & HL2). split_and!; [by eapply step_after|done|]. intros Ht. destruct (HL2 Ht) as [Q2 L2], (HL Ht) as [T _].
        split; [done|]. specialize (Lk Ht). apply (f_equal length) in Ek. rewrite length_app in Ek. unfold took, d in *. lia.
    + apply wpl_ret. split_and!; [done|by right|done].
Qed.

Lemma step_now t w raw s s' : step w raw s s' -> step w raw s (set_now t s').
Proof. intros [A B C]. by constructor. Qed.

Lemma tick_next start t : u32 (t - start) < 4294967295 -> u32 (u32 (t + 1) - start) = u32 (t - start) + 1.
Proof.
  intros Hb. unfold u32 in *. rewrite Zminus_mod_idemp_l. symmetry. apply (Z.mod_unique _ _ ((t - start) / 4294967296)).
  - pose proof (Z.mod_pos_bound (t - start) 4294967296 ltac:(lia)). lia.
  - pose proof (Z.div_mod (t - start) 4294967296 ltac:(lia)). lia.
Qed.

(** The busy wait ends: every turn lasts a tick at least. *)

Lemma empty_ok n start timeout s : port_ok (prt s) -> calm_sched (sched s) -> 0 <= timeout < 4294967295 ->
  u32 (now s - start) <= timeout ->
  Z.of_nat (length (sched s)) + (match sched s with [] => timeout - u32 (now s - start) | _ => timeout end) < Z.of_nat n ->
  wp (empty_loop handle n start timeout) (fun r s' => step [] [] s s' /\
    (length (queue (xmit (d s'))) <= length (queue (xmit (d s))))%nat /\ (r = None \/ r = Some tt /\ idle (priv (prt s')))) s.
Proof using Hlow.
  revert s. induction n as [|n IH]; intros s Hp Hc Ht He Hn; cbn [empty_loop].
  all: apply wp_bind, wp_zoom; eapply wp_mono; [by apply low_txempty|]; intros b p' [-> Hb]; cbn beta.
  all: replace (set_prt (prt s) s) with s by by destruct s.
  all: assert (Hrefl : step [] [] s s) by (apply (flows_step s s []); [by apply flows_refl|done]).
  all: destruct b; [apply wp_ret; split_and!; [done|done|right; tauto]|].
  { destruct (sched s); simpl in Hn; lia. }
  unfold usleep. apply wp_bind, wp_bind, wp_get. destruct (sched s) as [|b l] eqn:El.
  - apply wp_modify. apply wp_bind, wp_gets. cbn [now set_now].
    pose proof (tick_next start (now s) ltac:(lia)) as Et.
    destruct (Z.leb_spec timeout (u32 (u32 (now s + 1) - start))) as [|Hlt];
      [apply wp_ret; split_and!; [by apply step_now|done|by left]|].
    eapply wp_mono; [apply IH; [done|by cbn; rewrite El|done|cbn; lia|cbn; rewrite El; simpl in *; lia]|].
    intros r s' ([A B C] & L1 & R1). split_and!; [|done|done]. by constructor.
  - apply wp_bind, wp_modify. eapply wp_mono; [apply irq_step; [done|by cbn; rewrite El]|].
    intros _ s1 (F1 & S1 & E1 & _). apply wp_bind, wp_gets.
    assert (S01 : step [] [] s s1) by (destruct S1 as [A B C]; constructor; [exact A|exact B|exact C]).
    destruct (Z.leb_spec timeout (u32 (now s1 - start))); [apply wp_ret; split_and!; [done|apply F1|by left]|].
    eapply wp_mono; [apply IH; [by eapply step_port_ok|by eapply step_calm; [exact S01|rewrite El]|done|lia|]|].
    + cbn in E1. rewrite El in E1. simpl in E1. rewrite E1. simpl in Hn.
      pose proof (Z.mod_pos_bound (now s1 - start) 4294967296 ltac:(lia)). unfold u32. destruct l; simpl in *; lia.
    + intros r s2 (S2 & L2 & R2). split_and!; [by eapply step_after| |done]. pose proof (fl_length _ _ F1). unfold d in *. cbn in *. lia.
Qed.

(** All characters are out of the driver and out of the hardware. *)

Definition drained (s : sys P E) : Prop := queue (xmit (d s)) = [] /\ idle (priv (prt s)).

Definition drain_post (live : bool) (s : sys P E) (ret : Z) (s' : sys P E) : Prop :=
  (ret = OK /\ step [] [] s s' /\ drained s') \/
  (ret = - EINTR /\ live = false /\ step [] [] s s') \/
  (ret = - ETIMEDOUT /\ passed [] [] (prt s) (prt s') /\ queue (xmit (d s')) = [] /\ ub_sem (xmit (d s')) = 0).

Lemma tcdrain_ok live timeout s : port_ok (prt s) -> calm_sched (sched s) -> connected s ->
  ub_sem (xmit (d s)) = 1 -> 0 <= timeout < 4294967295 ->
  (live = true -> quiet s /\ prompt (sched s) /\ (length (queue (xmit (d s))) <= length (sched s))%nat) ->
  wpl live (uart_tcdrain handle timeout) (drain_post live s) s.
Proof using Hlow.
  intros Hp Hc Hcon Hlk Ht Hlive. unfold uart_tcdrain.
  apply wpl_bind. eapply wpl_mono; [apply lock_ok; [by left|done]|]. intros ret s0 [-> ->].
  change (0 <=? OK) with true. cbn iota. set (s0 := set_prt (set_serdev (sem_set XMIT_SEM 0 (d s)) (prt s)) s).
  assert (L0 : passed [] [] (prt s) (prt s0)) by (apply lock_passed; [by left|done]).
  apply wpl_bind, wpl_gets. change (disconnected (serdev (prt s0))) with (disconnected (d s)).
  rewrite (Hcon : disconnected (d s) = false). apply wpl_bind, wpl_bind, wpl_get.
  eapply wpl_mono; [apply (drain_ok live _ s0); [apply L0|done|]|].
  { intros Hl. destruct (Hlive Hl) as (? & ? & Hlen). split_and!; [done..|]. unfold turns. change (sched s0) with (sched s).
    change (queue (xmit (d s0))) with (queue (xmit (d s))). lia. }
  cbn beta. intros ret s1 (S1 & HR & _). apply wpl_bind, wpl_gets. apply wpl_bind, wpl_gets.
  destruct HR as [(-> & Hq)|(-> & ->)]; [change (0 <=? OK) with true|change (0 <=? - EINTR) with false]; cbn iota; apply wpl_bind.
  - apply wpl_wp. eapply wp_mono; [apply empty_ok; [by eapply step_port_ok|by eapply step_calm|done|..]|].
    { rewrite Z.sub_diag. unfold u32. rewrite Z.mod_0_l by lia. lia. }
    { rewrite Z.sub_diag. unfold u32. rewrite Z.mod_0_l by lia. destruct (sched s1); simpl length; lia. }
    cbn beta. intros r s2 (S2 & Hlen & HR). rewrite Hq in Hlen. apply Nat.le_0_r, length_zero_iff_nil in Hlen.
    pose proof (step_after _ _ _ _ _ S1 S2) as S02. destruct HR as [->|(-> & Hid)].
    + apply wpl_ret. right; right. split_and!; [done| |done|].
      * exact (passed_trans [] [] [] [] _ _ _ L0 (st_passed _ _ _ _ S02)).
      * destruct (st_locks _ _ _ _ S02) as [-> _]. done.
    + apply wpl_bind, unlock_ok, wpl_ret. left. split_and!; [done| |done].
      by apply (locked_step XMIT_SEM _ _ s s2); [left|..].
  - apply wpl_ret. apply wpl_bind, unlock_ok, wpl_ret. right; left. split_and!; [done|done|].
    by apply (locked_step XMIT_SEM _ _ s s1); [left|..].
Qed.

(** *** Draining in time *)

Definition timely (l : list (batch E)) : Prop := Forall (fun b => b_ticks b <= 1) l.

Lemma step_timely w raw s s' : step w raw s s' -> timely (sched s) -> timely (sched s').
Proof. intros [_ _ (k & ->)] Hc. by apply Forall_app in Hc as [_ ?]. Qed.

(** Every batch completes a transfer in a tick: the wait ends before the timeout. *)

Lemma empty_live n start timeout s : port_ok (prt s) -> calm_sched (sched s) -> quiet s ->
  queue (xmit (d s)) = [] -> prompt (sched s) -> timely (sched s) ->
  (outstanding (priv (prt s)) <= length (sched s))%nat -> (outstanding (priv (prt s)) <= n)%nat ->
  u32 (now s - start) + Z.of_nat (outstanding (priv (prt s))) < timeout -> timeout <= 4294967295 ->
  wp (empty_loop handle n start timeout) (fun r s' => r = Some tt /\ step [] [] s s' /\ drained s' /\ quiet s' /\
    (length (sched s) <= length (sched s') + outstanding (priv (prt s)))%nat) s.
Proof using Hlow.
  revert s. induction n as [|n IH]; intros s Hp Hc Hq Ee Hpr Htm Ho Hn Hb Ht; cbn [empty_loop].
  all: apply wp_bind, wp_zoom; eapply wp_mono; [by apply low_txempty|]; intros b p' [-> Hi]; cbn beta.
  all: replace (set_prt (prt s) s) with s by by destruct s.
  all: assert (Hrefl : step [] [] s s) by (apply (flows_step s s []); [by apply flows_refl|done]).
  all: destruct b; [apply wp_ret; split_and!; [done|done|split; [done|by apply Hi]|done|lia]|].
  all: assert (Hpos : (0 < outstanding (priv (prt s)))%nat)
    by (destruct (outstanding (priv (prt s))) eqn:E0; [discriminate (proj2 Hi E0)|lia]).
  { lia. }
  unfold usleep. apply wp_bind, wp_bind, wp_get. destruct (sched s) as [|b l] eqn:El; [simpl in Ho; lia|].
  pose proof Hpr as Hpr0. unfold prompt in Hpr0. apply Forall_cons in Hpr0 as [(Hf & _) _]. pose proof Htm as Htm0. apply Forall_cons in Htm0 as [Hb1 _].
  apply wp_bind, wp_modify. replace (Z.max 1 (b_ticks b)) with 1 by lia.
  eapply wp_mono; [apply irq_served; [done|by cbn; rewrite El]|]. intros _ s1 (Hp1 & M1 & E1 & N1 & F1). cbn in E1, N1, F1, M1.
  assert (S1 : step [] [] s s1).
  { apply (flows_step s s1 [b]); [by apply moves_flows|]. rewrite E1, El. done. }
  destruct (F1 Ee) as [_ D1]. specialize (D1 (ex_intro _ b (ex_intro _ l (conj El Hf)))).
  apply wp_bind, wp_gets. rewrite N1, tick_next by lia. rewrite (proj2 (Z.leb_gt _ _)) by lia.
  rewrite El in E1. cbn in E1. rewrite drop_0 in E1.
  eapply wp_mono; [apply IH|].
  - done.
  - eapply step_calm; [exact S1|by rewrite El].
  - by apply (moves_quiet s s1).
  - by apply (moves_empty _ _ M1).
  - eapply step_prompt; [exact S1|by rewrite El].
  - eapply step_timely; [exact S1|by rewrite El].
  - rewrite E1. simpl in Ho. lia.
  - lia.
  - rewrite N1, tick_next by lia. lia.
  - done.
  - cbn beta. intros r s2 (-> & S2 & D2 & Q2 & L2). split_and!; [done|by eapply step_after|done|done|].
    rewrite E1 in L2. simpl in *. lia.
Qed.

Lemma tcdrain_live timeout s : port_ok (prt s) -> calm_sched (sched s) -> connected s -> ub_sem (xmit (d s)) = 1 ->
  quiet s -> prompt (sched s) -> timely (sched s) ->
  (length (queue (xmit (d s))) + out_max <= length (sched s))%nat -> Z.of_nat out_max < timeout <= 4294967295 ->
  wp (uart_tcdrain handle timeout) (fun ret s' => ret = OK /\ step [] [] s s' /\ drained s' /\ quiet s' /\
    (length (sched s) <= length (sched s') + length (queue (xmit (d s))) + out_max)%nat) s.
Proof using Hlow.
  intros Hp Hc Hcon Hlk Hq Hpr Htm Hlen Ht. apply wp_wpl. unfold uart_tcdrain.
  apply wpl_bind. eapply wpl_mono; [apply lock_ok; [by left|done]|]. intros ret s0 [-> ->].
  change (0 <=? OK) with true. cbn iota. set (s0 := set_prt (set_serdev (sem_set XMIT_SEM 0 (d s)) (prt s)) s).
  assert (L0 : passed [] [] (prt s) (prt s0)) by (apply lock_passed; [by left|done]).
  apply wpl_bind, wpl_gets. change (disconnected (serdev (prt s0))) with (disconnected (d s)).
  rewrite (Hcon : disconnected (d s) = false). apply wpl_bind, wpl_bind, wpl_get.
  eapply wpl_mono; [apply (drain_ok true _ s0); [apply L0|done|]|].
  { intros _. split_and!; [done|done|..]; unfold turns; change (sched s0) with (sched s);
      change (queue (xmit (d s0))) with (queue (xmit (d s))); lia. }
  cbn beta. intros ret s1 (S1 & HR & HL). destruct HR as [(-> & Hemp)|(_ & ?)]; [|done]. destruct (HL eq_refl) as [Q1 L1].
  change (sched s0) with (sched s) in L1. change (queue (xmit (d s0))) with (queue (xmit (d s))) in L1.
  apply wpl_bind, wpl_gets. apply wpl_bind, wpl_gets. change (0 <=? OK) with true. cbn iota. apply wpl_bind.
  pose proof (low_bound _ (step_port_ok _ _ _ _ S1)) as Hmax.
  apply wpl_wp. eapply wp_mono; [apply empty_live|].
  - by eapply step_port_ok.
  - by eapply step_calm.
  - done.
  - done.
  - by eapply step_prompt.
  - by eapply step_timely.
  - lia.
  - lia.
  - rewrite Z.sub_diag. unfold u32. rewrite Z.mod_0_l by lia. lia.
  - lia.
  - cbn beta. intros r s2 (-> & S2 & D2 & Q2 & L2). apply wpl_bind, unlock_ok, wpl_ret.
    pose proof (step_after _ _ _ _ _ S1 S2) as S02.
    split_and!; [done|by apply (locked_step XMIT_SEM _ _ s s2); [left|..]|done|done|]. simpl. lia.
Qed.

End Upper.

End SerialProps.
