(* ===== verification/SerialSafe.v ===== *)
(** * The serial driver never breaks

    Whatever the interrupts do, a disconnection in the middle of a call
    included: every call of the driver keeps its data well formed and runs into
    nothing undefined.  [shape] is what stays: the sizes of the buffers and the
    structures of waiting threads. *)

From S2P Require Import Prelude Serial SerialRing SerialProps.
Import Serial SerialRing SerialProps.

Module SerialSafe.

Definition shape (d : uart_dev) : Z * Z * gset nat := (ub_size (xmit d), ub_size (recv d), dom (polls d)).

(** A change of the device that keeps it well formed. *)

Definition tame (sz : Z * Z * gset nat) (g : uart_dev -> uart_dev) : Prop :=
  forall d, dev_ok d -> shape d = sz -> dev_ok (g d) /\ shape (g d) = sz.

(** The slots name structures that exist. *)

Definition slots_ok (sz : Z * Z * gset nat) (slots : list (option nat)) : Prop :=
  Forall (fun slot => forall id, slot = Some id -> id ∈ sz.2) slots.

Lemma polls_slots d : polls_ok d <-> slots_ok (shape d) (fds d).
Proof.
  unfold polls_ok, slots_ok. apply Forall_iff. intros slot.
  split; intros H id E; specialize (H id E); cbn in *; by apply elem_of_dom.
Qed.

Lemma tame_flag sz g : (forall d, xmit (g d) = xmit d /\ recv (g d) = recv d /\ polls (g d) = polls d /\ fds (g d) = fds d /\
    (0 <= xmitsem d -> 0 <= xmitsem (g d)) /\ (0 <= recvsem d -> 0 <= recvsem (g d))) -> tame sz g.
Proof.
  intros H d [A B C D E] Hs. destruct (H d) as (E1 & E2 & E3 & E4 & E5 & E6). split.
  - constructor; [by rewrite E1|by rewrite E2| |auto|auto]. unfold polls_ok. by rewrite E3, E4.
  - unfold shape. by rewrite E1, E2, E3.
Qed.

Lemma tame_xmit sz g : (forall b, ring_ok b -> ring_ok (g b) /\ ub_size (g b) = ub_size b) -> tame sz (fun d => set_xmit (g (xmit d)) d).
Proof.
  intros H d [A B C D E] Hs. destruct (H _ A) as [H1 H2]. split; [by constructor|]. unfold shape in *. cbn. by rewrite H2.
Qed.

Lemma tame_recv sz g : (forall b, ring_ok b -> ring_ok (g b) /\ ub_size (g b) = ub_size b) -> tame sz (fun d => set_recv (g (recv d)) d).
Proof.
  intros H d [A B C D E] Hs. destruct (H _ B) as [H1 H2]. split; [by constructor|]. unfold shape in *. cbn. by rewrite H2.
Qed.

Lemma tame_fds sz slots : slots_ok sz slots -> tame sz (set_fds slots).
Proof.
  intros H d [A B C D E] Hs. split; [|done]. constructor; try done. apply polls_slots. by rewrite <- Hs in H.
Qed.

Lemma tame_polls sz id q : id ∈ sz.2 -> tame sz (fun d => set_polls (<[id := q]> (polls d)) d).
Proof.
  intros Hid d [A B C D E] <-. assert (Hdom : dom (<[id := q]> (polls d)) = dom (polls d)).
  { apply dom_insert_lookup_L. by apply elem_of_dom. }
  assert (Es : shape (set_polls (<[id := q]> (polls d)) d) = shape d) by (unfold shape; cbn; by rewrite Hdom).
  split; [|done]. constructor; try done. apply polls_slots. rewrite Es. exact (proj1 (polls_slots d) C).
Qed.

(** ** Safe code *)

(** On a state with a device in it, an invariant of which is [inv]. *)

Definition safe {S A} (inv : S -> Prop) (m : M S A) : Prop := forall s, inv s -> wpl false m (fun _ => inv) s.

Section Rules.
Context {S : Type} (inv : S -> Prop).

Lemma safe_ret {A} (a : A) : safe inv (mret a).
Proof. intros s Hs. by apply wpl_ret. Qed.

Lemma safe_bind {A B} (m : M S A) (k : A -> M S B) : safe inv m -> (forall a, safe inv (k a)) -> safe inv (m ≫= k).
Proof. intros Hm Hk s Hs. apply wpl_bind. eapply wpl_mono; [by apply Hm|]. intros a s'. apply Hk. Qed.

Lemma safe_blocked {A} : safe inv (blocked : M S A).
Proof. intros s Hs. apply wpl_blocked. Qed.

Lemma safe_gets {A} (f : S -> A) : safe inv (gets f).
Proof. intros s Hs. by apply wpl_gets. Qed.

Lemma safe_get : safe inv get.
Proof. intros s Hs. by apply wpl_get. Qed.

Lemma safe_modify f : (forall s, inv s -> inv (f s)) -> safe inv (modify f).
Proof. intros H s Hs. by apply wpl_modify, H. Qed.

Lemma safe_get_bind {B} (k : S -> M S B) : (forall s, inv s -> safe inv (k s)) -> safe inv (get ≫= k).
Proof. intros H s Hs. apply wpl_bind, wpl_get. by apply H. Qed.

Lemma safe_gets_bind {A B} (f : S -> A) (k : A -> M S B) : (forall s, inv s -> safe inv (k (f s))) -> safe inv (gets f ≫= k).
Proof. intros H s Hs. apply wpl_bind, wpl_gets. by apply H. Qed.

Lemma safe_if {A} (b : bool) (m1 m2 : M S A) : safe inv m1 -> safe inv m2 -> safe inv (if b then m1 else m2).
Proof. by destruct b. Qed.

End Rules.

(** The device alone. *)

Section Dev.
Context (sz : Z * Z * gset nat).

Definition dev_inv (d : uart_dev) : Prop := dev_ok d /\ shape d = sz.

Lemma safe_tame g : tame sz g -> safe dev_inv (modify g).
Proof. intros H. apply safe_modify. intros d [H1 H2]. by apply H. Qed.

Lemma load_poll_safe id : id ∈ sz.2 -> safe dev_inv (load_poll id).
Proof.
  intros Hid d [Hd Hs]. rewrite <- Hs in Hid. unfold load_poll. apply wpl_bind, wpl_get. unfold shape in Hid. cbn [snd] in Hid.
  apply elem_of_dom in Hid as [p ->]. by apply wpl_ret.
Qed.

Lemma store_poll_safe id q : id ∈ sz.2 -> safe dev_inv (store_poll id q).
Proof. intros Hid. by apply safe_tame, tame_polls. Qed.

Lemma notify_safe ev slots : slots_ok sz slots -> safe dev_inv (notify_all ev slots).
Proof.
  induction 1 as [|slot slots Hs _ IH]; [apply safe_ret|]. cbn [notify_all]. apply safe_bind; [|done].
  destruct slot as [id|]; [|apply safe_ret]. cbn [notify_one]. specialize (Hs id eq_refl).
  apply safe_bind; [by apply load_poll_safe|]. intros p. by apply store_poll_safe.
Qed.

Lemma pollnotify_safe ev : safe dev_inv (uart_pollnotify ev).
Proof. apply safe_get_bind. intros d [Hd Hs]. apply notify_safe. rewrite <- Hs. exact (proj1 (polls_slots d) (dk_polls _ Hd)). Qed.

Ltac flags := apply safe_tame, tame_flag; intros ?; cbn; unfold sem_post; split_and!; try done; lia.

Lemma wake_safe : safe dev_inv wake_recv /\ safe dev_inv wake_xmit.
Proof. split; apply safe_bind; try apply safe_get; intros d; apply safe_if; try apply safe_ret; apply safe_bind; try intros _; flags. Qed.

Lemma datareceived_safe : safe dev_inv uart_datareceived.
Proof. apply safe_bind; [apply pollnotify_safe|]. intros _. apply wake_safe. Qed.

Lemma datasent_safe : safe dev_inv uart_datasent.
Proof. apply safe_bind; [apply pollnotify_safe|]. intros _. apply wake_safe. Qed.

Lemma connected_safe b : safe dev_inv (uart_connected b).
Proof.
  apply safe_bind; [flags|]. intros _. apply safe_if; [|apply safe_ret].
  apply safe_bind; [apply pollnotify_safe|]. intros _. apply safe_bind; [|intros _]; apply wake_safe.
Qed.

Lemma ub_sem_ok v b : ring_ok b -> ring_ok (set_ub_sem v b) /\ ub_size (set_ub_sem v b) = ub_size b.
Proof. intros [A B C D]. split; [by constructor|done]. Qed.

Lemma reset_sem_safe : safe dev_inv uart_reset_sem.
Proof.
  do 4 (apply safe_bind; [first [flags|apply safe_tame, tame_xmit, ub_sem_ok|apply safe_tame, tame_recv, ub_sem_ok]|intros _]). flags.
Qed.

(** *** Characters *)

Lemma pop_safe b : ring_ok b -> exists c, load_char b (ub_tail b) = Ret c /\ ring_ok (set_ub_tail (next_index b (ub_tail b)) b).
Proof.
  intros [H1 H2 H3 H4]. unfold load_char. rewrite (proj2 (Z.ltb_ge _ _)) by lia.
  destruct (lookup_lt_is_Some_2 (ub_buffer b) (Z.to_nat (ub_tail b)) ltac:(lia)) as [c ->]. exists c. split; [done|].
  constructor; cbn; [done|by apply next_index_ok|done|done].
Qed.

Lemma pop_recv_safe : safe dev_inv pop_recv.
Proof.
  intros d [[A B C D E] Hs]. destruct (pop_safe _ B) as (c & Hc & Hr). unfold pop_recv. apply wpl_bind, wpl_get. rewrite Hc.
  apply wpl_bind. cbn. by split; [constructor|].
Qed.

Lemma push_safe b h ch : ring_ok b -> 0 <= h < ub_size b ->
  exists b', store_char b (ub_head b) ch = Ret b' /\ ring_ok (set_ub_head h b') /\ ub_size b' = ub_size b.
Proof.
  intros [H1 H2 H3 H4] Hh. unfold store_char. rewrite (proj2 (Z.leb_le _ _)), (proj2 (Z.ltb_lt _ _)) by lia. eexists. split; [done|].
  split; [|done]. constructor; cbn; [done|done|done|by rewrite length_insert].
Qed.

Lemma push_xmit_safe h ch : 0 <= h < sz.1.1 -> safe dev_inv (push_xmit h ch).
Proof.
  intros Hh d [[A B C D E] Hs]. rewrite <- Hs in Hh. destruct (push_safe (xmit d) h ch A Hh) as (b' & Hb & Hr & Es). unfold push_xmit.
  apply wpl_bind, wpl_get. rewrite Hb. apply wpl_bind. cbn. split; [by constructor|]. rewrite <- Hs. unfold shape. cbn. by rewrite Es.
Qed.

End Dev.

(** ** The lower half *)

Section Port.
Context {P : Type} (LI : P -> Prop) (sz : Z * Z * gset nat).

Definition port_inv (p : port P) : Prop := dev_inv sz (serdev p) /\ LI (priv p).

Lemma safe_zoom {S T A} (invS : S -> Prop) (invT : T -> Prop) proj inj (m : M S A) :
  (forall t, invT t -> invS (proj t)) -> (forall s t, invT t -> invS s -> invT (inj s t)) ->
  safe invS m -> safe invT (zoom proj inj m).
Proof.
  intros H1 H2 Hm t Ht. apply wpl_zoom. eapply wpl_mono; [by apply Hm, H1|]. intros a s Hs. by apply H2.
Qed.

Lemma safe_on_dev {A} (m : MD A) : safe (dev_inv sz) m -> safe port_inv (on_dev m).
Proof. apply safe_zoom; [by intros p []|]. intros d p [_ Hp] Hd. by split. Qed.

End Port.

(** What a lower half promises. *)

Class SafeLower (P E : Type) `{uart_ops P} (handle : E -> M (port P) unit) (LI : P -> Prop) (benign : E -> Prop) := {
  sl_setup : forall sz, safe (port_inv LI sz) op_setup;
  sl_shutdown : forall sz, safe (port_inv LI sz) op_shutdown;
  sl_attach : forall sz, safe (port_inv LI sz) op_attach;
  sl_detach : forall sz, safe (port_inv LI sz) op_detach;
  sl_ioctl : forall sz req, safe (port_inv LI sz) (op_ioctl req);
  sl_rxint : forall sz b, safe (port_inv LI sz) (op_rxint b);
  sl_txint : forall sz b, safe (port_inv LI sz) (op_txint b);
  sl_txempty : forall sz, safe (port_inv LI sz) op_txempty;
  sl_handle : forall sz e, benign e -> safe (port_inv LI sz) (handle e)
}.

(** ** The upper half *)

Section Upper.
Context {P E : Type} `{Hops : uart_ops P} (handle : E -> M (port P) unit) (LI : P -> Prop) (benign : E -> Prop).
Context `{Hlow : !SafeLower P E handle LI benign} (sz : Z * Z * gset nat).

Definition benign_event (ev : event E) : Prop := match ev with Irq e => benign e | Signal => True end.
Definition benign_sched (l : list (batch E)) : Prop := Forall (fun b => Forall benign_event (b_events b)) l.

Definition sys_inv (s : sys P E) : Prop := port_inv LI sz (prt s) /\ benign_sched (sched s).

Lemma safe_port {A} (m : M (port P) A) : safe (port_inv LI sz) m -> safe sys_inv (on_port m).
Proof. apply safe_zoom; [by intros s []|]. intros p s [_ Hs] Hp. by split. Qed.

Lemma safe_udev {A B} (f : uart_dev -> A) (k : A -> M (sys P E) B) :
  (forall d, dev_ok d -> shape d = sz -> safe sys_inv (k (f d))) -> safe sys_inv (udev f ≫= k).
Proof. intros H. apply safe_gets_bind. intros s [[[H1 H2] _] _]. by apply H. Qed.

Lemma safe_on_udev {A} (m : MD A) : safe (dev_inv sz) m -> safe sys_inv (on_udev m).
Proof. intros H. by apply safe_port, safe_on_dev. Qed.

Lemma safe_dev_modify g : tame sz g -> safe sys_inv (on_udev (modify g)).
Proof. intros H. by apply safe_on_udev, safe_tame. Qed.

(** *** Interrupts and semaphores *)

Lemma serve_safe l : Forall benign_event l -> safe (port_inv LI sz) (serve handle l).
Proof using Hlow.
  induction 1 as [|[e|] l He _ IH]; [apply safe_ret| |exact IH]. apply safe_bind; [by apply sl_handle|]. by intros _.
Qed.

Lemma irq_safe : safe sys_inv (irq_point handle).
Proof using Hlow.
  apply safe_get_bind. intros s [_ Hs]. destruct (sched s) as [|b l]; [apply safe_ret|]. apply Forall_cons in Hs as [Hb Hl].
  apply safe_bind; [apply safe_modify; by intros s' [H1 _]|]. intros _. by apply safe_port, serve_safe.
Qed.

Definition counts (r : semref) : Prop := forall v, 0 <= v -> tame sz (sem_set r v).
Definition locks (r : semref) : Prop := tame sz (fun d => sem_set r (sem_post (sem_get r d)) d).

Lemma take_safe r e l : counts r -> benign_sched l -> safe sys_inv (take_loop handle r e l).
Proof using Hlow.
  intros Hr. induction 1 as [|b l Hb Hl IH]; cbn [take_loop]; apply safe_udev; intros d1 _ _;
    (destruct (Z.ltb_spec 0 (sem_get r d1)); [apply safe_bind; [apply safe_dev_modify, Hr; lia|intros _; apply safe_ret]|]); [apply safe_blocked|].
  apply safe_bind; [apply safe_modify; by intros s [H1 _]|]. intros _.
  apply safe_bind; [by apply safe_port, serve_safe|]. intros _.
  apply safe_udev. intros d2 _ _. apply safe_if; [apply safe_ret|exact IH].
Qed.

Lemma takesem_safe r e : counts r -> safe sys_inv (uart_takesem handle r e).
Proof using Hlow. intros Hr. apply safe_get_bind. intros s [_ Hs]. by apply take_safe. Qed.

Lemma givesem_safe r : locks r -> safe sys_inv (uart_givesem r).
Proof. intros Hr. by apply safe_dev_modify. Qed.

Lemma all_count r : r ∈ [XMITSEM; RECVSEM; CLOSESEM; POLLSEM; XMIT_SEM; RECV_SEM] -> counts r.
Proof.
  intros Hr v Hv. apply list_elem_of_In in Hr. cbn in Hr. destruct Hr as [<-|[<-|[<-|[<-|[<-|[<-|[]]]]]]].
  1-4: apply tame_flag; intros d; cbn; by split_and!.
  - apply (tame_xmit sz (set_ub_sem v)), ub_sem_ok.
  - apply (tame_recv sz (set_ub_sem v)), ub_sem_ok.
Qed.

Lemma all_locks r : r ∈ [CLOSESEM; POLLSEM; XMIT_SEM; RECV_SEM] -> locks r.
Proof.
  intros Hr. apply list_elem_of_In in Hr. cbn in Hr. destruct Hr as [<-|[<-|[<-|[<-|[]]]]].
  1-2: apply tame_flag; intros d; cbn; by split_and!.
  - apply (tame_xmit sz (fun b => set_ub_sem (sem_post (ub_sem b)) b)). intros b. apply ub_sem_ok.
  - apply (tame_recv sz (fun b => set_ub_sem (sem_post (ub_sem b)) b)). intros b. apply ub_sem_ok.
Qed.

(** Code is taken apart down to its calls. *)

Ltac member := repeat first [apply list_elem_of_here|apply list_elem_of_further].

Ltac safe_leaf :=
  first
    [ assumption
    | apply safe_ret
    | apply safe_blocked
    | apply irq_safe
    | apply takesem_safe, all_count; member
    | apply givesem_safe, all_locks; member
    | apply safe_port; first [apply sl_setup|apply sl_shutdown|apply sl_attach|apply sl_detach|apply sl_ioctl|apply sl_rxint|apply sl_txint|apply sl_txempty]
    | apply safe_on_udev; first [apply datareceived_safe|apply datasent_safe|apply reset_sem_safe|apply pop_recv_safe|apply pollnotify_safe|apply connected_safe]
    | apply safe_dev_modify, tame_flag; intros ?; cbn; by split_and!
    | apply safe_modify; intros ? [? ?]; by split ].

Ltac safe_tac :=
  cbn zeta; intros;
  lazymatch goal with
  | |- safe _ (udev _ ≫= _) => apply safe_udev; safe_tac
  | |- safe _ (gets _ ≫= _) => apply safe_gets_bind; safe_tac
  | |- safe _ (get ≫= _) => apply safe_get_bind; safe_tac
  | |- safe _ (_ ≫= _) => apply safe_bind; safe_tac
  | |- safe _ (match ?x with _ => _ end) => destruct x; safe_tac
  | |- safe _ _ => try safe_leaf
  | _ => idtac
  end.

(** *** Transmission *)

Lemma wait_room_safe : safe sys_inv (wait_room handle).
Proof using Hlow. unfold wait_room. safe_tac. Qed.

Lemma put_loop_safe n h ch okb : 0 <= h < sz.1.1 -> safe sys_inv (put_loop handle n h ch okb).
Proof using Hlow.
  intros Hh. pose proof wait_room_safe as Hw. induction n as [|n IH]; cbn [put_loop]; safe_tac. by apply safe_on_udev, push_xmit_safe.
Qed.

Lemma putxmitchar_safe ch okb : safe sys_inv (uart_putxmitchar handle ch okb).
Proof using Hlow.
  apply safe_get_bind. intros s [[[Hd Hs] _] _]. apply put_loop_safe. rewrite <- Hs. apply next_index_ok. by destruct (dk_xmit _ Hd).
Qed.

Lemma write_safe spin f buf : f_inode f = true -> safe sys_inv (uart_write handle false spin f buf).
Proof using Hlow.
  intros Hf. unfold uart_write. rewrite Hf. cbn [negb].
  assert (Hl : forall n b, safe sys_inv (write_loop handle n b buf)).
  { intros n b. induction buf as [|ch l IH]; cbn [write_loop]; [apply safe_ret|]. apply safe_bind; [|safe_tac].
    pose proof putxmitchar_safe as Hput. unfold write_char. apply safe_udev. intros d0 _ _. destruct (output_char _ _) as [c cr].
    safe_tac; apply Hput. }
  safe_tac. apply Hl.
Qed.

(** *** Draining *)

Lemma drain_loop_safe n : safe sys_inv (drain_loop handle n).
Proof using Hlow. pose proof wait_room_safe as Hw. induction n as [|n IH]; cbn [drain_loop]; safe_tac. Qed.

Lemma usleep_safe : safe sys_inv (usleep handle).
Proof using Hlow. unfold usleep. safe_tac. Qed.

Lemma empty_loop_safe n start timeout : safe sys_inv (empty_loop handle n start timeout).
Proof using Hlow. pose proof usleep_safe as Hu. induction n as [|n IH]; cbn [empty_loop]; safe_tac. Qed.

Lemma tame_flush_xmit : tame sz (fun d => set_xmit (set_ub_tail (ub_head (xmit d)) (xmit d)) d).
Proof. apply (tame_xmit sz (fun b => set_ub_tail (ub_head b) b)). intros b [A B C D]. split; [by constructor|done]. Qed.

Lemma tame_flush_recv : tame sz (fun d => set_recv (set_ub_tail (ub_head (recv d)) (recv d)) d).
Proof. apply (tame_recv sz (fun b => set_ub_tail (ub_head b) b)). intros b [A B C D]. split; [by constructor|done]. Qed.

Lemma tcdrain_safe timeout : safe sys_inv (uart_tcdrain handle timeout).
Proof using Hlow.
  unfold uart_tcdrain. pose proof tame_flush_xmit as Hf.
  safe_tac; first [apply drain_loop_safe|apply empty_loop_safe|by apply safe_dev_modify].
Qed.

(** *** The calls *)

Lemma open_safe f : f_inode f = true -> safe sys_inv (uart_open handle f).
Proof using Hlow. intros Hf. unfold uart_open. rewrite Hf. cbn [negb]. safe_tac. Qed.

Lemma close_safe tick f : f_inode f = true -> safe sys_inv (uart_close handle tick f).
Proof using Hlow. intros Hf. unfold uart_close. rewrite Hf. cbn [negb]. safe_tac. apply tcdrain_safe. Qed.

Lemma read_safe f buflen : f_inode f = true -> safe sys_inv (uart_read handle f buflen).
Proof using Hlow.
  intros Hf. unfold uart_read. rewrite Hf. cbn [negb].
  assert (Hl : forall n got, safe sys_inv (read_loop handle n f buflen got)).
  { induction n as [|n IH]; intros got; cbn [read_loop]; rewrite ?Hf; cbn [negb]; safe_tac; apply IH. }
  safe_tac. apply Hl.
Qed.

Lemma ioctl_safe tick req : safe sys_inv (uart_ioctl handle tick req).
Proof using Hlow.
  unfold uart_ioctl. pose proof tame_flush_xmit as Hf. pose proof tame_flush_recv as Hg.
  safe_tac; try by apply safe_dev_modify. 2: apply tcdrain_safe.
  apply safe_on_udev, safe_bind; [by apply safe_tame|intros _; apply datasent_safe].
Qed.

Lemma poll_safe id setup : id ∈ sz.2 -> safe sys_inv (uart_poll handle id setup).
Proof using Hlow.
  intros Hid. unfold uart_poll.
  assert (Hst : forall q, safe sys_inv (on_udev (store_poll id q))) by (intros q; by apply safe_on_udev, store_poll_safe).
  assert (Hsl : forall d i o, dev_ok d -> shape d = sz -> (forall j, o = Some j -> j ∈ sz.2) -> tame sz (set_fds (<[i := o]> (fds d)))).
  { intros d0 i o Hd Hs Ho. apply tame_fds, Forall_insert; [|done]. rewrite <- Hs. exact (proj1 (polls_slots d0) (dk_polls _ Hd)). }
  safe_tac; try apply Hst.
  - by apply safe_on_udev, load_poll_safe.
  - apply safe_dev_modify, Hsl; [done..|]. by intros j [= ->].
  - apply safe_dev_modify, Hsl; done.
Qed.

End Upper.

End SerialSafe.
