(* ===== verification/CdcDesc.v ===== *)
(** * The descriptors of the USB serial device

    [src/spresense/nuttx/drivers/usbdev/cdcacm_desc.c] (dual speed, not part of a
    composite device): what the device tells the host about itself, as bytes. *)

From S2P Require Import Prelude.

Module CdcDesc.

(** Values of [include/nuttx/usb/usb.h], [cdc.h] and [drivers/usbdev/cdcacm.h]. *)

Definition USB_DIR_IN : Z := 128.
Definition USB_DESC_TYPE_DEVICE : Z := 1.
Definition USB_DESC_TYPE_CONFIG : Z := 2.
Definition USB_DESC_TYPE_STRING : Z := 3.
Definition USB_DESC_TYPE_INTERFACE : Z := 4.
Definition USB_DESC_TYPE_ENDPOINT : Z := 5.
Definition USB_DESC_TYPE_DEVICEQUALIFIER : Z := 6.
Definition USB_DESC_TYPE_OTHERSPEEDCONFIG : Z := 7.
Definition USB_DESC_TYPE_CSINTERFACE : Z := 36.
Definition USB_SIZEOF_DEVDESC : Z := 18.
Definition USB_SIZEOF_CFGDESC : Z := 9.
Definition USB_SIZEOF_IFDESC : Z := 9.
Definition USB_SIZEOF_EPDESC : Z := 7.
Definition USB_SIZEOF_QUALDESC : Z := 10.
Definition SIZEOF_HDR_FUNCDESC : Z := 5.
Definition SIZEOF_ACM_FUNCDESC : Z := 4.
Definition SIZEOF_CALLMGMT_FUNCDESC : Z := 5.
Definition USB_SPEED_HIGH : Z := 3.
Definition USB_CLASS_CDC : Z := 2.
Definition USB_CLASS_CDC_DATA : Z := 10.
Definition USB_CLASS_VENDOR_SPEC : Z := 255.
Definition CDC_SUBCLASS_NONE : Z := 0.
Definition CDC_SUBCLASS_ACM : Z := 2.
Definition CDC_PROTO_NONE : Z := 0.
Definition CDC_PROTO_ATM : Z := 1.
Definition CDC_DATA_SUBCLASS_NONE : Z := 0.
Definition CDC_DATA_PROTO_NONE : Z := 0.
Definition CDC_DSUBTYPE_HDR : Z := 0.
Definition CDC_DSUBTYPE_CALLMGMT : Z := 1.
Definition CDC_DSUBTYPE_ACM : Z := 2.
Definition USB_CONFIG_ATTR_WAKEUP : Z := 32.
Definition USB_CONFIG_ATTR_SELFPOWER : Z := 64.
Definition USB_CONFIG_ATTR_ONE : Z := 128.
Definition USB_EP_ATTR_XFER_BULK : Z := 2.
Definition USB_EP_ATTR_XFER_INT : Z := 3.
Definition CDC_VERSIONNO : Z := 272.
Definition CDCACM_VERSIONNO : Z := 257.
Definition CDCACM_STR_LANGUAGE : Z := 1033.
Definition CDCACM_MXDESCLEN : Z := 64.
Definition CDCACM_MAXSTRLEN : Z := CDCACM_MXDESCLEN - 2.
Definition CDCACM_NOTALTIFID : Z := 0.
Definition CDCACM_DATAALTIFID : Z := 0.
Definition CDCACM_MANUFACTURERSTRID : Z := 1.
Definition CDCACM_PRODUCTSTRID : Z := 2.
Definition CDCACM_SERIALSTRID : Z := 3.
Definition CDCACM_CONFIGSTRID : Z := 4.
Definition CDCACM_NCONFIGS : Z := 1.
Definition CDCACM_CONFIGIDNONE : Z := 0.
Definition CDCACM_CONFIGID : Z := 1.
Definition CDCACM_NINTERFACES : Z := 2.

Definition LSBYTE (v : Z) : Z := Z.land v 255.
Definition MSBYTE (v : Z) : Z := Z.land (Z.shiftr v 8) 255.

(** The configuration of the descriptors, and the part of [struct
    usbdev_devinfo_s] they use. *)

Record desc_cfg := mk_desc_cfg {
  EP0MAXPACKET : Z;
  VENDORID : Z;
  PRODUCTID : Z;
  VENDORSTR : list Z;
  PRODUCTSTR : list Z;
  SERIALSTR : list Z;
  CONFIGSTR : list Z;
  EPINTIN_FSSIZE : Z;
  EPINTIN_HSSIZE : Z;
  EPBULKOUT_FSSIZE : Z;
  EPBULKOUT_HSSIZE : Z;
  EPBULKIN_FSSIZE : Z;
  EPBULKIN_HSSIZE : Z;
  selfpowered : bool;
  remotewakeup : bool;
  MAXPOWER : Z;
  ifnobase : Z;
  epno_intin : Z;
  epno_bulkin : Z;
  epno_bulkout : Z
}.

Inductive epdesc := CDCACM_EPINTIN | CDCACM_EPBULKOUT | CDCACM_EPBULKIN.

Section Desc.
Context (c : desc_cfg).

Definition CDCACM_SELFPOWERED : Z := if selfpowered c then USB_CONFIG_ATTR_SELFPOWER else 0.
Definition CDCACM_REMOTEWAKEUP : Z := if remotewakeup c then USB_CONFIG_ATTR_WAKEUP else 0.

Definition CDCACM_MKEPINTIN : Z := Z.lor USB_DIR_IN (epno_intin c).
Definition CDCACM_MKEPBULKIN : Z := Z.lor USB_DIR_IN (epno_bulkin c).
Definition CDCACM_MKEPBULKOUT : Z := epno_bulkout c.

Definition g_devdesc : list Z :=
  [USB_SIZEOF_DEVDESC; USB_DESC_TYPE_DEVICE; LSBYTE 512; MSBYTE 512; USB_CLASS_CDC; CDC_SUBCLASS_NONE; CDC_PROTO_NONE;
   u8 (EP0MAXPACKET c); LSBYTE (VENDORID c); MSBYTE (VENDORID c); LSBYTE (PRODUCTID c); MSBYTE (PRODUCTID c);
   LSBYTE CDCACM_VERSIONNO; MSBYTE CDCACM_VERSIONNO; CDCACM_MANUFACTURERSTRID; CDCACM_PRODUCTSTRID; CDCACM_SERIALSTRID;
   CDCACM_NCONFIGS].

Definition g_qualdesc : list Z :=
  [USB_SIZEOF_QUALDESC; USB_DESC_TYPE_DEVICEQUALIFIER; LSBYTE 512; MSBYTE 512; USB_CLASS_VENDOR_SPEC; 0; 0;
   u8 (EP0MAXPACKET c); CDCACM_NCONFIGS; 0].

(** ** String descriptors: the bytes, or an error *)

(** Two bytes for each of the first characters. *)

Definition string_desc (str : list Z) : Z * list Z :=
  let len := Z.of_nat (length str) in
  let len := if CDCACM_MAXSTRLEN / 2 <? len then CDCACM_MAXSTRLEN / 2 else len in
  let data := take (Z.to_nat len) str ≫= (fun ch => [u8 ch; 0]) in
  let n := u8 (Z.of_nat (length data) + 2) in (n, [n; USB_DESC_TYPE_STRING] ++ data).

Definition cdcacm_mkstrdesc (id : Z) : Z * list Z :=
  if id =? 0 then (4, [4; USB_DESC_TYPE_STRING; LSBYTE CDCACM_STR_LANGUAGE; MSBYTE CDCACM_STR_LANGUAGE])
  else if id =? CDCACM_MANUFACTURERSTRID then string_desc (VENDORSTR c)
  else if id =? CDCACM_PRODUCTSTRID then string_desc (PRODUCTSTR c)
  else if id =? CDCACM_SERIALSTRID then string_desc (SERIALSTR c)
  else if id =? CDCACM_CONFIGSTRID then string_desc (CONFIGSTR c)
  else (- EINVAL, []).

(** ** Endpoints *)

Definition cdcacm_copy_epdesc (ep : epdesc) (hispeed : bool) : list Z :=
  match ep with
  | CDCACM_EPINTIN =>
    let size := if hispeed then EPINTIN_HSSIZE c else EPINTIN_FSSIZE c in
    [USB_SIZEOF_EPDESC; USB_DESC_TYPE_ENDPOINT; u8 CDCACM_MKEPINTIN; USB_EP_ATTR_XFER_INT; LSBYTE size; MSBYTE size; 10]
  | CDCACM_EPBULKOUT =>
    let size := if hispeed then EPBULKOUT_HSSIZE c else EPBULKOUT_FSSIZE c in
    [USB_SIZEOF_EPDESC; USB_DESC_TYPE_ENDPOINT; u8 CDCACM_MKEPBULKOUT; USB_EP_ATTR_XFER_BULK; LSBYTE size; MSBYTE size; 1]
  | CDCACM_EPBULKIN =>
    let size := if hispeed then EPBULKIN_HSSIZE c else EPBULKIN_FSSIZE c in
    [USB_SIZEOF_EPDESC; USB_DESC_TYPE_ENDPOINT; u8 CDCACM_MKEPBULKIN; USB_EP_ATTR_XFER_BULK; LSBYTE size; MSBYTE size; 1]
  end.

(** ** The configuration descriptor

    A step of the construction: the bytes so far and the length so far; with
    [buf] false only the length is counted. *)

Definition emit (buf : bool) (size : Z) (bytes : list Z) (st : list Z * Z) : list Z * Z :=
  (if buf then st.1 ++ bytes else st.1, st.2 + size).

Definition build_cfgdesc (buf : bool) (size : Z) (hispeed : bool) (type : Z) : list Z * Z :=
  let st := ([], 0) in
  let st := emit buf USB_SIZEOF_CFGDESC
    [USB_SIZEOF_CFGDESC; u8 type; LSBYTE size; MSBYTE size; CDCACM_NINTERFACES; CDCACM_CONFIGID; CDCACM_CONFIGSTRID;
     Z.lor (Z.lor USB_CONFIG_ATTR_ONE CDCACM_SELFPOWERED) CDCACM_REMOTEWAKEUP; u8 ((MAXPOWER c + 1) / 2)] st in
  let st := emit buf USB_SIZEOF_IFDESC
    [USB_SIZEOF_IFDESC; USB_DESC_TYPE_INTERFACE; u8 (ifnobase c); CDCACM_NOTALTIFID; 1; USB_CLASS_CDC; CDC_SUBCLASS_ACM;
     CDC_PROTO_ATM; 0] st in
  let st := emit buf SIZEOF_HDR_FUNCDESC
    [SIZEOF_HDR_FUNCDESC; USB_DESC_TYPE_CSINTERFACE; CDC_DSUBTYPE_HDR; LSBYTE CDC_VERSIONNO; MSBYTE CDC_VERSIONNO] st in
  let st := emit buf SIZEOF_ACM_FUNCDESC [SIZEOF_ACM_FUNCDESC; USB_DESC_TYPE_CSINTERFACE; CDC_DSUBTYPE_ACM; 6] st in
  let st := emit buf SIZEOF_CALLMGMT_FUNCDESC
    [SIZEOF_CALLMGMT_FUNCDESC; USB_DESC_TYPE_CSINTERFACE; CDC_DSUBTYPE_CALLMGMT; 3; u8 (ifnobase c + 1)] st in
  let st := emit buf USB_SIZEOF_EPDESC (cdcacm_copy_epdesc CDCACM_EPINTIN hispeed) st in
  let st := emit buf USB_SIZEOF_IFDESC
    [USB_SIZEOF_IFDESC; USB_DESC_TYPE_INTERFACE; u8 (ifnobase c + 1); CDCACM_DATAALTIFID; 2; USB_CLASS_CDC_DATA;
     CDC_DATA_SUBCLASS_NONE; CDC_DATA_PROTO_NONE; 0] st in
  let st := emit buf USB_SIZEOF_EPDESC (cdcacm_copy_epdesc CDCACM_EPBULKOUT hispeed) st in
  emit buf USB_SIZEOF_EPDESC (cdcacm_copy_epdesc CDCACM_EPBULKIN hispeed) st.

(** The length and the bytes; the size in the descriptor is that of a first
    construction without a buffer. *)

Definition cdcacm_mkcfgdesc (speed type : Z) : Z * list Z :=
  let hispeed := speed =? USB_SPEED_HIGH in
  let hispeed := if type =? USB_DESC_TYPE_OTHERSPEEDCONFIG then negb hispeed else hispeed in
  let size := (build_cfgdesc false 0 hispeed type).2 in
  let '(bytes, length) := build_cfgdesc true size hispeed type in (length, bytes).

End Desc.

End CdcDesc.
