(* ===== verification/CdcAcm.v ===== *)
(** * The USB serial device

    [src/spresense/nuttx/drivers/usbdev/cdcacm.c], the CDC/ACM lower half of
    [/dev/ttyACM0] (one configuration, without flow control): requests on the
    bulk endpoints, the queue of pending packets, configuration and connection.

    The USB controller is what it is told ([usb]) and what it does: it takes or
    refuses a request ([ans_in], [ans_out], [ans_conf], functions of what it was
    told before) and completes requests in their order, as interrupts. *)

From S2P Require Import Prelude Serial CdcDesc.
Import Serial CdcDesc.

Module CdcAcm.

Definition ENOSPC : Z := 28.
Definition CS8 : Z := 48.
Definition EDOM : Z := 33.
Definition EOPNOTSUPP : Z := 95.

(** Control requests ([include/nuttx/usb/usb.h], [cdc.h], [cdcacm.h]). *)

Definition USB_DIR_OUT : Z := 0.
Definition USB_REQ_TYPE_MASK : Z := 96.
Definition USB_REQ_TYPE_STANDARD : Z := 0.
Definition USB_REQ_TYPE_CLASS : Z := 32.
Definition USB_REQ_RECIPIENT_INTERFACE : Z := 1.
Definition USB_REQ_GETDESCRIPTOR : Z := 6.
Definition USB_REQ_GETCONFIGURATION : Z := 8.
Definition USB_REQ_SETCONFIGURATION : Z := 9.
Definition USB_REQ_GETINTERFACE : Z := 10.
Definition USB_REQ_SETINTERFACE : Z := 11.
Definition ACM_SET_LINE_CODING : Z := 32.
Definition ACM_GET_LINE_CODING : Z := 33.
Definition ACM_SET_CTRL_LINE_STATE : Z := 34.
Definition ACM_SEND_BREAK : Z := 35.
Definition SIZEOF_CDC_LINECODING : Z := 7.
Definition CDCACM_EVENT_LINECODING : Z := 0.
Definition CDCACM_EVENT_CTRLLINE : Z := 1.
Definition CDCACM_EVENT_SENDBREAK : Z := 2.

Definition CAIOC_REGISTERCB : Z := 3329.
Definition CAIOC_GETLINECODING : Z := 3330.
Definition CAIOC_GETCTRLLINE : Z := 3331.

(** ** State *)

Inductive endpoint := EpIntIn | EpBulkIn | EpBulkOut.

(** What the controller is told, with its answer, and what it receives. *)

Inductive usb_act :=
| SubmitIn (id : nat) (data : list Z) (ret : Z)
| SubmitOut (id : nat) (ret : Z)
| EpConfigure (ep : endpoint) (ret : Z)
| EpDisable (ep : endpoint)
| DevConnect
| DevSelfPowered
| SubmitEp0 (data : list Z) (ret : Z)
| CallBack (event : Z)         (** the function a program has registered is called *)
| Arrived (data : list Z).     (** a packet of the host *)

(** The container of a read request with what the request received. *)

Record rdreq := mk_rdreq { rd_data : list Z; offset : Z }.

(** [struct cdcacm_dev_s]; write containers and read containers are numbered.
    [bulkin] and [bulkout] are the requests the controller has. *)

Record cdcacm := mk_cdc {
  config : Z;
  nwrq : Z;
  nrdq : Z;
  ctrlline : Z;
  rxenabled : bool;
  linecoding : list Z;   (** [struct cdc_linecoding_s], its seven bytes *)
  callback : Z;
  rxfailsafe : bool;
  txfree : list nat;
  rxpending : list nat;
  rdreqs : gmap nat rdreq;
  bulkin : list nat;
  bulkout : list nat;
  usb : list usb_act
}.

Definition set_config v c := mk_cdc v (nwrq c) (nrdq c) (ctrlline c) (rxenabled c) (linecoding c) (callback c) (rxfailsafe c) (txfree c) (rxpending c) (rdreqs c) (bulkin c) (bulkout c) (usb c).
Definition set_nwrq v c := mk_cdc (config c) v (nrdq c) (ctrlline c) (rxenabled c) (linecoding c) (callback c) (rxfailsafe c) (txfree c) (rxpending c) (rdreqs c) (bulkin c) (bulkout c) (usb c).
Definition set_nrdq v c := mk_cdc (config c) (nwrq c) v (ctrlline c) (rxenabled c) (linecoding c) (callback c) (rxfailsafe c) (txfree c) (rxpending c) (rdreqs c) (bulkin c) (bulkout c) (usb c).
Definition set_ctrlline v c := mk_cdc (config c) (nwrq c) (nrdq c) v (rxenabled c) (linecoding c) (callback c) (rxfailsafe c) (txfree c) (rxpending c) (rdreqs c) (bulkin c) (bulkout c) (usb c).
Definition set_linecoding v c := mk_cdc (config c) (nwrq c) (nrdq c) (ctrlline c) (rxenabled c) v (callback c) (rxfailsafe c) (txfree c) (rxpending c) (rdreqs c) (bulkin c) (bulkout c) (usb c).
Definition set_rxenabled v c := mk_cdc (config c) (nwrq c) (nrdq c) (ctrlline c) v (linecoding c) (callback c) (rxfailsafe c) (txfree c) (rxpending c) (rdreqs c) (bulkin c) (bulkout c) (usb c).
Definition set_callback v c := mk_cdc (config c) (nwrq c) (nrdq c) (ctrlline c) (rxenabled c) (linecoding c) v (rxfailsafe c) (txfree c) (rxpending c) (rdreqs c) (bulkin c) (bulkout c) (usb c).
Definition set_rxfailsafe v c := mk_cdc (config c) (nwrq c) (nrdq c) (ctrlline c) (rxenabled c) (linecoding c) (callback c) v (txfree c) (rxpending c) (rdreqs c) (bulkin c) (bulkout c) (usb c).
Definition set_txfree v c := mk_cdc (config c) (nwrq c) (nrdq c) (ctrlline c) (rxenabled c) (linecoding c) (callback c) (rxfailsafe c) v (rxpending c) (rdreqs c) (bulkin c) (bulkout c) (usb c).
Definition set_rxpending v c := mk_cdc (config c) (nwrq c) (nrdq c) (ctrlline c) (rxenabled c) (linecoding c) (callback c) (rxfailsafe c) (txfree c) v (rdreqs c) (bulkin c) (bulkout c) (usb c).
Definition set_rdreqs v c := mk_cdc (config c) (nwrq c) (nrdq c) (ctrlline c) (rxenabled c) (linecoding c) (callback c) (rxfailsafe c) (txfree c) (rxpending c) v (bulkin c) (bulkout c) (usb c).
Definition set_bulkin v c := mk_cdc (config c) (nwrq c) (nrdq c) (ctrlline c) (rxenabled c) (linecoding c) (callback c) (rxfailsafe c) (txfree c) (rxpending c) (rdreqs c) v (bulkout c) (usb c).
Definition set_bulkout v c := mk_cdc (config c) (nwrq c) (nrdq c) (ctrlline c) (rxenabled c) (linecoding c) (callback c) (rxfailsafe c) (txfree c) (rxpending c) (rdreqs c) (bulkin c) v (usb c).
Definition set_usb v c := mk_cdc (config c) (nwrq c) (nrdq c) (ctrlline c) (rxenabled c) (linecoding c) (callback c) (rxfailsafe c) (txfree c) (rxpending c) (rdreqs c) (bulkin c) (bulkout c) v.

Abbreviation MC A := (M (port cdcacm) A).

Definition on_cdc {A} (m : M cdcacm A) : MC A := zoom priv set_priv m.
Definition cdc {A} (f : cdcacm -> A) : MC A := gets (fun p => f (priv p)).
Definition dev {A} (f : uart_dev -> A) : MC A := gets (fun p => f (serdev p)).

Definition assert (b : bool) : MC unit := if b then mret tt else ub AssertFailed.

(** A control request of the host ([struct usb_ctrlreq_s]). *)

Record ctrlreq := mk_ctrl { ctrl_type : Z; ctrl_req : Z; ctrl_value : Z; ctrl_index : Z; ctrl_len : Z }.

(** Interrupts: completions by the controller (with the result of the request,
    and the data of a packet that arrived), the failsafe timer, events of the
    bus, control requests with the data that came along. *)

Inductive cdc_irq :=
| WrComplete (result : Z)
| RdComplete (result : Z) (data : list Z)
| RxTimeout
| Disconnect
| Suspend
| Resume
| Setup (ctrl : ctrlreq) (dataout : option (list Z)).

(** The configuration of the driver. *)

Record cdc_cfg := mk_cfg {
  NWRREQS : nat;        (** [CONFIG_CDCACM_NWRREQS] *)
  NRDREQS : nat;        (** [CONFIG_CDCACM_NRDREQS] *)
  RXBUFSIZE : Z;        (** [CONFIG_CDCACM_RXBUFSIZE] *)
  TXBUFSIZE : Z;        (** [CONFIG_CDCACM_TXBUFSIZE] *)
  BULKIN_REQLEN : Z;    (** [CONFIG_CDCACM_BULKIN_REQLEN] *)
  maxpacket : Z;        (** [ep->maxpacket] of the bulk IN endpoint *)
  usb_speed : Z;        (** [dev->speed] *)
  desc : desc_cfg
}.

Class controller := {
  ans_in : list usb_act -> Z;
  ans_out : list usb_act -> Z;
  ans_conf : list usb_act -> Z;
  ans_ep0 : list usb_act -> Z
}.

Section Cdc.
Context (cfg : cdc_cfg) `{controller}.

Definition tell (a : usb_act) : MC unit := on_cdc (modify (fun c => set_usb (usb c ++ [a]) c)).

(** [EP_SUBMIT] on the bulk endpoints. *)

Definition submit_in (id : nat) (data : list Z) : MC Z :=
  h ← cdc usb;
  let ret := ans_in h in
  tell (SubmitIn id data ret);;
  (if ret =? OK then on_cdc (modify (fun c => set_bulkin (bulkin c ++ [id]) c)) else mret tt);;
  mret ret.

Definition submit_out (id : nat) : MC Z :=
  h ← cdc usb;
  let ret := ans_out h in
  tell (SubmitOut id ret);;
  (if ret =? OK then on_cdc (modify (fun c => set_bulkout (bulkout c ++ [id]) c)) else mret tt);;
  mret ret.

(** ** Transmission *)

(** [cdcuart_txint] with [enable] false does nothing. *)

Definition uart_disabletxint : MC unit := mret tt.

Fixpoint fill_loop (n : nat) (data : list Z) : MC (list Z) :=
  x ← dev xmit;
  if ub_head x =? ub_tail x then mret data
  else
    match n with
    | O => mret data
    | S n' => c ← on_dev pop_xmit; fill_loop n' (data ++ [c])
    end.

Definition cdcacm_fillrequest (reqlen : Z) : MC (list Z) :=
  data ← fill_loop (Z.to_nat reqlen) [];
  x ← dev xmit;
  (if ub_head x =? ub_tail x then uart_disabletxint else mret tt);;
  (if negb (Z.of_nat (length data) =? 0) then on_dev uart_datasent else mret tt);;
  mret data.

(** The loop of [cdcacm_sndpacket] over the free containers. *)

Fixpoint snd_loop (reqlen : Z) (free : list nat) : MC Z :=
  match free with
  | [] => mret OK
  | id :: free' =>
    data ← cdcacm_fillrequest reqlen;
    if 0 <? Z.of_nat (length data) then
      on_cdc (modify (set_txfree free'));;
      on_cdc (modify (fun c => set_nwrq (u8 (nwrq c - 1)) c));;
      ret ← submit_in id data;
      if negb (ret =? OK) then mret ret else snd_loop reqlen free'
    else mret OK
  end.

Definition cdcacm_sndpacket : MC Z :=
  free ← cdc txfree;
  snd_loop (Z.max (BULKIN_REQLEN cfg) (maxpacket cfg)) free.

(** ** Reception *)

Fixpoint recv_bytes (nexthead nbytes : Z) (data : list Z) : MC Z :=
  match data with
  | [] => mret nbytes
  | ch :: data' =>
    r ← dev recv;
    if negb (nexthead =? ub_tail r) then
      on_dev (push_recv nexthead ch);;
      recv_bytes (next_index r nexthead) (nbytes + 1) data'
    else mret nbytes
  end.

Definition load_rd (id : nat) : MC rdreq :=
  c ← cdc rdreqs; match c !! id with Some r => mret r | None => ub NullDeref end.

Definition store_rd (id : nat) (r : rdreq) : MC unit :=
  on_cdc (modify (fun c => set_rdreqs (<[id := r]> (rdreqs c)) c)).

Definition cdcacm_recvpacket (id : nat) : MC Z :=
  e ← cdc rxenabled;
  assert e;;
  rd ← load_rd id;
  let reqlen := u16 (Z.of_nat (length (rd_data rd)) - offset rd) in
  let data := take (Z.to_nat reqlen) (drop (Z.to_nat (offset rd)) (rd_data rd)) in
  r ← dev recv;
  nbytes ← recv_bytes (next_index r (ub_head r)) 0 data;
  (if 0 <? nbytes then on_dev uart_datareceived else mret tt);;
  if nbytes <? reqlen then
    store_rd id (mk_rdreq (rd_data rd) (u16 (offset rd + nbytes)));;
    mret (- ENOSPC)
  else mret OK.

Definition cdcacm_requeue_rdrequest (id : nat) : MC Z :=
  rd ← load_rd id;
  store_rd id (mk_rdreq (rd_data rd) 0);;
  submit_out id.

Fixpoint release_loop (pending : list nat) : MC Z :=
  match pending with
  | [] => mret OK
  | id :: pending' =>
    ret ← cdcacm_recvpacket id;
    if ret <? 0 then mret ret
    else
      on_cdc (modify (set_rxpending pending'));;
      cdcacm_requeue_rdrequest id;;
      release_loop pending'
  end.

Definition cdcacm_release_rxpending : MC unit :=
  on_cdc (modify (set_rxfailsafe false));;
  e ← cdc rxenabled;
  (if (e : bool) then pending ← cdc rxpending; release_loop pending;; mret tt else mret tt);;
  pending ← cdc rxpending;
  match pending with [] => mret tt | _ :: _ => on_cdc (modify (set_rxfailsafe true)) end.

Definition cdcacm_rxtimeout : MC unit := cdcacm_release_rxpending.

(** ** Completions *)

Definition cdcacm_rdcomplete (id : nat) (result : Z) : MC unit :=
  rd ← load_rd id;
  if result =? 0 then
    store_rd id (mk_rdreq (rd_data rd) 0);;
    on_cdc (modify (fun c => set_rxpending (rxpending c ++ [id]) c));;
    cdcacm_release_rxpending
  else if result =? - ESHUTDOWN then
    on_cdc (modify (fun c => set_nrdq (u8 (nrdq c - 1)) c))
  else cdcacm_requeue_rdrequest id;; mret tt.

Definition cdcacm_wrcomplete (id : nat) (result : Z) : MC unit :=
  on_cdc (modify (fun c => set_txfree (txfree c ++ [id]) c));;
  on_cdc (modify (fun c => set_nwrq (u8 (nwrq c + 1)) c));;
  if result =? OK then cdcacm_sndpacket;; mret tt else mret tt.

(** ** Configuration *)

Definition cdcacm_resetconfig : MC unit :=
  c ← cdc config;
  if negb (c =? CDCACM_CONFIGIDNONE) then
    on_cdc (modify (set_config CDCACM_CONFIGIDNONE));;
    on_dev (uart_connected false);;
    tell (EpDisable EpIntIn);;
    tell (EpDisable EpBulkIn);;
    tell (EpDisable EpBulkOut)
  else mret tt.

Definition configure (ep : endpoint) : MC Z :=
  h ← cdc usb;
  tell (EpConfigure ep (ans_conf h));;
  mret (ans_conf h).

(** Queue the read requests from [i] on. *)

Fixpoint queue_reads (n i : nat) : MC Z :=
  match n with
  | O => mret OK
  | S n' =>
    ret ← submit_out i;
    if negb (ret =? OK) then mret ret
    else on_cdc (modify (fun c => set_nrdq (u8 (nrdq c + 1)) c));; queue_reads n' (S i)
  end.

Definition cdcacm_setconfig (conf : Z) : MC Z :=
  c ← cdc config;
  if conf =? c then mret 0
  else
    cdcacm_resetconfig;;
    if conf =? CDCACM_CONFIGIDNONE then mret 0
    else if negb (conf =? CDCACM_CONFIGID) then mret (- EINVAL)
    else
      ret ← configure EpIntIn;
      if ret <? 0 then cdcacm_resetconfig;; mret ret
      else
        ret ← configure EpBulkIn;
        if ret <? 0 then cdcacm_resetconfig;; mret ret
        else
          ret ← configure EpBulkOut;
          if ret <? 0 then cdcacm_resetconfig;; mret ret
          else
            n ← cdc nrdq;
            assert (n =? 0);;
            ret ← queue_reads (NRDREQS cfg) 0;
            if negb (ret =? OK) then cdcacm_resetconfig;; mret ret
            else
              on_cdc (modify (set_config conf));;
              on_dev (uart_connected true);;
              mret OK.

(** ** Control requests *)

(** [priv->callback(event)], if there is one. *)

Definition call_back (event : Z) : MC unit :=
  f ← cdc callback; if negb (f =? 0) then tell (CallBack event) else mret tt.

(** The result of a request and the bytes of the response. *)

Definition get_descriptor (ctrl : ctrlreq) : Z * list Z :=
  let type := MSBYTE (ctrl_value ctrl) in
  if type =? USB_DESC_TYPE_DEVICE then (USB_SIZEOF_DEVDESC, g_devdesc (desc cfg))
  else if type =? USB_DESC_TYPE_DEVICEQUALIFIER then (USB_SIZEOF_QUALDESC, g_qualdesc (desc cfg))
  else if (type =? USB_DESC_TYPE_OTHERSPEEDCONFIG) || (type =? USB_DESC_TYPE_CONFIG)
    then cdcacm_mkcfgdesc (desc cfg) (usb_speed cfg) type
  else if type =? USB_DESC_TYPE_STRING then cdcacm_mkstrdesc (desc cfg) (LSBYTE (ctrl_value ctrl))
  else (- EOPNOTSUPP, []).

(** The notification and the data interface have one alternate setting each. *)

Definition interface_ok (ctrl : ctrlreq) : bool :=
  ((ctrl_index ctrl =? ifnobase (desc cfg)) && (ctrl_value ctrl =? CDCACM_NOTALTIFID)) ||
  ((ctrl_index ctrl =? ifnobase (desc cfg) + 1) && (ctrl_value ctrl =? CDCACM_DATAALTIFID)).

Definition standard_request (ctrl : ctrlreq) : MC (Z * list Z) :=
  let req := ctrl_req ctrl in
  if req =? USB_REQ_GETDESCRIPTOR then mret (get_descriptor ctrl)
  else if req =? USB_REQ_SETCONFIGURATION then
    if ctrl_type ctrl =? 0 then ret ← cdcacm_setconfig (u8 (ctrl_value ctrl)); mret (ret, [])
    else mret (- EOPNOTSUPP, [])
  else if req =? USB_REQ_GETCONFIGURATION then
    c ← cdc config;
    mret (if ctrl_type ctrl =? USB_DIR_IN then (1, [c]) else (- EOPNOTSUPP, []))
  else if req =? USB_REQ_SETINTERFACE then
    c ← cdc config;
    if (ctrl_type ctrl =? USB_REQ_RECIPIENT_INTERFACE) && (c =? CDCACM_CONFIGID) && interface_ok ctrl then
      cdcacm_resetconfig;;
      c ← cdc config;
      cdcacm_setconfig c;;
      mret (0, [])
    else mret (- EOPNOTSUPP, [])
  else if req =? USB_REQ_GETINTERFACE then
    c ← cdc config;
    mret
      (if (ctrl_type ctrl =? Z.lor USB_DIR_IN USB_REQ_RECIPIENT_INTERFACE) && (c =? CDCACM_CONFIGIDNONE) then
         if interface_ok ctrl then (1, [u8 (ctrl_value ctrl)]) else (- EDOM, [])
       else (- EOPNOTSUPP, []))
  else mret (- EOPNOTSUPP, []).

(** Requests of the class go to the notification interface. *)

Definition to_interface (ctrl : ctrlreq) (dir : Z) : bool :=
  (ctrl_type ctrl =? Z.lor (Z.lor dir USB_REQ_TYPE_CLASS) USB_REQ_RECIPIENT_INTERFACE) &&
  (ctrl_index ctrl =? ifnobase (desc cfg)).

Definition class_request (ctrl : ctrlreq) (dataout : option (list Z)) : MC (Z * list Z) :=
  let req := ctrl_req ctrl in
  if req =? ACM_GET_LINE_CODING then
    l ← cdc linecoding;
    mret (if to_interface ctrl USB_DIR_IN then (SIZEOF_CDC_LINECODING, l) else (- EOPNOTSUPP, []))
  else if req =? ACM_SET_LINE_CODING then
    if to_interface ctrl USB_DIR_OUT && (ctrl_len ctrl =? SIZEOF_CDC_LINECODING) then
      (match dataout with
       | Some data =>
         if Z.of_nat (length data) <? SIZEOF_CDC_LINECODING then ub OutOfBounds
         else on_cdc (modify (set_linecoding (take (Z.to_nat SIZEOF_CDC_LINECODING) data)))
       | None => mret tt
       end);;
      call_back CDCACM_EVENT_LINECODING;;
      mret (0, [])
    else mret (- EOPNOTSUPP, [])
  else if req =? ACM_SET_CTRL_LINE_STATE then
    if to_interface ctrl USB_DIR_OUT then
      on_cdc (modify (set_ctrlline (Z.land (ctrl_value ctrl) 3)));;
      call_back CDCACM_EVENT_CTRLLINE;;
      mret (0, [])
    else mret (- EOPNOTSUPP, [])
  else if req =? ACM_SEND_BREAK then
    if to_interface ctrl USB_DIR_OUT then call_back CDCACM_EVENT_SENDBREAK;; mret (0, [])
    else mret (- EOPNOTSUPP, [])
  else mret (- EOPNOTSUPP, []).

(** The buffer of the control request. *)

Definition respond (len : Z) (bytes : list Z) : MC Z :=
  if len <? 0 then ub OutOfBounds
  else
    h ← cdc usb;
    tell (SubmitEp0 (take (Z.to_nat len) bytes) (ans_ep0 h));;
    mret (ans_ep0 h).

Definition cdcacm_setup (ctrl : ctrlreq) (dataout : option (list Z)) : MC Z :=
  let type := Z.land (ctrl_type ctrl) USB_REQ_TYPE_MASK in
  '(ret, bytes) ←
    (if type =? USB_REQ_TYPE_STANDARD then standard_request ctrl
     else if type =? USB_REQ_TYPE_CLASS then class_request ctrl dataout
     else mret (- EOPNOTSUPP, []));
  if 0 <=? ret then respond (Z.min (ctrl_len ctrl) ret) bytes else mret ret.

Definition cdcacm_disconnect : MC unit :=
  on_dev (uart_connected false);;
  cdcacm_resetconfig;;
  on_dev (modify (fun d => set_xmit (set_ub_tail 0 (set_ub_head 0 (xmit d))) d));;
  tell DevConnect.

Definition cdcacm_suspend : MC unit := on_dev (uart_connected false).

Definition cdcacm_resume : MC unit :=
  c ← cdc config;
  if negb (c =? CDCACM_CONFIGIDNONE) then on_dev (uart_connected true) else mret tt.

(** ** The operations of the serial device *)

Definition cdcuart_setup : MC Z :=
  c ← cdc config; mret (if c =? CDCACM_CONFIGIDNONE then - ENOTCONN else OK).

Definition cdcuart_rxint (enable : bool) : MC unit :=
  if enable then on_cdc (modify (set_rxenabled true));; cdcacm_release_rxpending
  else on_cdc (modify (set_rxenabled false)).

Definition cdcuart_txint (enable : bool) : MC unit :=
  x ← dev xmit;
  if enable && negb (ub_head x =? ub_tail x) then cdcacm_sndpacket;; mret tt else mret tt.

Definition cdcuart_txempty : MC bool := n ← cdc nwrq; mret (Z.of_nat (NWRREQS cfg) <=? n).

Definition cdcuart_ioctl (req : ioctl_req) : MC (Z * reply) :=
  d ← dev id;
  c ← cdc id;
  match req with
  | CMD cmd arg =>
    if cmd =? CAIOC_REGISTERCB then on_cdc (modify (set_callback arg));; mret (OK, NoReply)
    else if cmd =? CAIOC_GETLINECODING then
      mret (if negb (arg =? 0) then (OK, BytesReply (linecoding c)) else (- EINVAL, NoReply))
    else if cmd =? CAIOC_GETCTRLLINE then
      mret (if negb (arg =? 0) then (OK, IntReply (ctrlline c)) else (- EINVAL, NoReply))
    else mret (- ENOTTY, NoReply)
  | TCGETS None | TCSETS None => mret (- EINVAL, NoReply)
  | TCGETS (Some _) => mret (OK, TermiosReply (mk_termios (tc_iflag d) (tc_oflag d) CS8 (tc_lflag d)))
  | TCSETS (Some t) => on_dev (modify (set_modes (c_iflag t) (c_oflag t) (c_lflag t)));; mret (OK, NoReply)
  | FIONREAD => mret (0, IntReply (buffered (recv d)))
  | FIONWRITE => mret (0, IntReply (buffered (xmit d)))
  | FIONSPACE => mret (0, IntReply (space (xmit d)))
  | TCFLSH _ | TCDRN => mret (- ENOTTY, NoReply)
  end.

(** [g_uartops]: there is no access to single characters. *)

#[global] Instance g_uartops : uart_ops cdcacm := {
  op_setup := cdcuart_setup;
  op_shutdown := mret tt;
  op_attach := mret OK;
  op_detach := mret tt;
  op_ioctl := cdcuart_ioctl;
  op_receive := None;
  op_rxint := cdcuart_rxint;
  op_rxavailable := None;
  op_send := None;
  op_txint := cdcuart_txint;
  op_txready := None;
  op_txempty := cdcuart_txempty
}.

(** ** Interrupts

    The controller completes the oldest request of an endpoint; where it has
    none, nothing happens. *)

Definition cdc_handle (e : cdc_irq) : MC unit :=
  match e with
  | WrComplete result =>
    l ← cdc bulkin;
    match l with
    | [] => mret tt
    | id :: l' => on_cdc (modify (set_bulkin l'));; cdcacm_wrcomplete id result
    end
  | RdComplete result data =>
    l ← cdc bulkout;
    match l with
    | [] => mret tt
    | id :: l' =>
      on_cdc (modify (set_bulkout l'));;
      rd ← load_rd id;
      store_rd id (mk_rdreq data (offset rd));;
      (if result =? 0 then tell (Arrived data) else mret tt);;
      cdcacm_rdcomplete id result
    end
  | RxTimeout => t ← cdc rxfailsafe; if (t : bool) then cdcacm_rxtimeout else mret tt
  | Disconnect => cdcacm_disconnect
  | Suspend => cdcacm_suspend
  | Resume => cdcacm_resume
  | Setup ctrl dataout => cdcacm_setup ctrl dataout;; mret tt
  end.

(** ** The device after [cdcacm_classobject] and [cdcacm_bind] *)

Definition initial_dev : uart_dev :=
  mk_dev 0 false false true false 0 0 0 0 0 0 0
    (mk_ub 0 0 0 (TXBUFSIZE cfg) (replicate (Z.to_nat (TXBUFSIZE cfg)) 0))
    (mk_ub 0 0 0 (RXBUFSIZE cfg) (replicate (Z.to_nat (RXBUFSIZE cfg)) 0))
    (replicate 4 None) ∅.

(** 115200 baud, one stop bit, no parity, eight bits. *)

Definition fake_linecoding : list Z := [0; 194; 1; 0; 0; 0; 8].

Definition initial_cdc : cdcacm :=
  mk_cdc CDCACM_CONFIGIDNONE (Z.of_nat (NWRREQS cfg)) 0 0 false fake_linecoding 0 false (seq 0 (NWRREQS cfg)) []
    (list_to_map ((fun i => (i, mk_rdreq [] 0)) <$> seq 0 (NRDREQS cfg))) [] []
    ((if selfpowered (desc cfg) then [DevSelfPowered] else []) ++ [DevConnect]).

End Cdc.

End CdcAcm.
