(* ===== verification/CdcCtrl.v ===== *)
(** * Control requests of the USB serial device

    What a control request can change where it neither sets the configuration
    nor an interface: the line settings, one call of the registered function and
    one response, which fits the host's request and the buffer.  With it, what a
    host finds that walks through the configuration descriptor. *)

From S2P Require Import Prelude Serial SerialRing SerialProps CdcDesc CdcAcm.
Import Serial SerialRing SerialProps CdcDesc CdcAcm.

Module CdcCtrl.

(** ** Streams of the device *)

Definition act_sent (a : usb_act) : list Z :=
  match a with SubmitIn _ data ret => if ret =? OK then data else [] | _ => [] end.

Definition act_fed (a : usb_act) : list Z := match a with Arrived data => data | _ => [] end.

(** What the controller is told without moving a byte. *)

Definition silent (l : list usb_act) : Prop := l ≫= act_sent = [] /\ l ≫= act_fed = [].

Lemma silent_app l1 l2 : silent l1 -> silent l2 -> silent (l1 ++ l2).
Proof. intros [A1 B1] [A2 B2]. unfold silent. by rewrite !bind_app, A1, A2, B1, B2. Qed.

(** ** Descriptors *)

(** Reading descriptors one after the other, each by its first byte: its length. *)

Fixpoint walk (fuel : nat) (bytes : list Z) : option (list (list Z)) :=
  match fuel, bytes with
  | _, [] => Some []
  | O, _ :: _ => None
  | S n, len :: _ =>
    if (len <? 2) || (Z.of_nat (length bytes) <? len) then None
    else cons (take (Z.to_nat len) bytes) <$> walk n (drop (Z.to_nat len) bytes)
  end.

Lemma lsb_range v : 0 <= LSBYTE v < 256.
Proof. unfold LSBYTE. change 255 with (Z.ones 8). rewrite Z.land_ones by lia. apply Z.mod_pos_bound. lia. Qed.

Lemma msb_range v : 0 <= MSBYTE v < 256.
Proof. apply (lsb_range (Z.shiftr v 8)). Qed.

#[export] Hint Resolve lsb_range msb_range u8_range : core.

Lemma string_desc_len str : (string_desc str).1 = Z.of_nat (length (string_desc str).2) /\ (string_desc str).1 <= CDCACM_MXDESCLEN.
Proof.
  unfold string_desc. cbn zeta. set (n := Z.to_nat _). set (data := take n str ≫= _).
  assert (Hl : (length data <= 62)%nat).
  { assert (He : length data = (2 * length (take n str))%nat).
    { subst data. generalize (take n str). intros l. induction l as [|ch l IH]; [done|].
      cbn [mbind list_bind]. rewrite length_app, IH. simpl. lia. }
    rewrite He, length_take. subst n. change (CDCACM_MAXSTRLEN / 2) with 31.
    destruct (Z.ltb_spec 31 (Z.of_nat (length str))); lia. }
  cbn [fst snd]. rewrite length_app. unfold u8, CDCACM_MXDESCLEN. rewrite Z.mod_small by lia. simpl length. lia.
Qed.

Lemma mkstrdesc_len c id : (cdcacm_mkstrdesc c id).1 <= CDCACM_MXDESCLEN.
Proof.
  unfold cdcacm_mkstrdesc. repeat (case_match; [first [apply string_desc_len|by vm_compute]|]). by vm_compute.
Qed.

Lemma mkcfgdesc_len c speed type : (cdcacm_mkcfgdesc c speed type).1 = 62.
Proof. done. Qed.

Lemma descriptor_len cfg ctrl : (get_descriptor cfg ctrl).1 <= CDCACM_MXDESCLEN.
Proof.
  unfold get_descriptor. cbn zeta. repeat (case_match; [first [by vm_compute|by rewrite mkcfgdesc_len; vm_compute|apply mkstrdesc_len]|]).
  by vm_compute.
Qed.

(** ** Requests that set neither configuration nor interface *)

Definition plain (ctrl : ctrlreq) : Prop :=
  ctrl_req ctrl <> USB_REQ_SETCONFIGURATION /\ ctrl_req ctrl <> USB_REQ_SETINTERFACE.

(** The data of the request is as long as its header says. *)

Definition request_ok (ctrl : ctrlreq) (dataout : option (list Z)) : Prop :=
  0 <= ctrl_len ctrl /\ forall data, dataout = Some data -> ctrl_len ctrl <= Z.of_nat (length data).

Definition is_callback (a : usb_act) : Prop := match a with CallBack _ => True | _ => False end.

Definition changed (acts : list usb_act) (l : list Z) (w : Z) (p : port cdcacm) : port cdcacm :=
  set_priv (set_usb (usb (priv p) ++ acts) (set_linecoding l (set_ctrlline w (priv p)))) p.

Section Ctrl.
Context (cfg : cdc_cfg) `{Hctl : controller}.

Lemma standard_plain ctrl p : plain ctrl ->
  wp (standard_request cfg ctrl) (fun r p' => p' = p /\ r.1 <= CDCACM_MXDESCLEN) p.
Proof.
  intros [H1%Z.eqb_neq H2%Z.eqb_neq]. unfold standard_request. cbn zeta. rewrite H1, H2.
  destruct (ctrl_req ctrl =? USB_REQ_GETDESCRIPTOR); [apply wp_ret; split; [done|apply descriptor_len]|].
  destruct (ctrl_req ctrl =? USB_REQ_GETCONFIGURATION); [apply wp_bind, wp_gets, wp_ret; split; [done|by case_match]|].
  destruct (ctrl_req ctrl =? USB_REQ_GETINTERFACE); [apply wp_bind, wp_gets, wp_ret; split; [done|by repeat case_match]|]. by apply wp_ret.
Qed.

Lemma call_back_ok event p :
  wp (call_back event) (fun _ p' => exists acts, Forall is_callback acts /\ (length acts <= 1)%nat /\
    p' = set_priv (set_usb (usb (priv p) ++ acts) (priv p)) p) p.
Proof.
  unfold call_back. apply wp_bind, wp_gets. destruct (negb _).
  - apply wp_zoom, wp_modify. exists [CallBack event]. split_and!; [by repeat constructor|done|done].
  - apply wp_ret. exists []. split_and!; [done|simpl; lia|]. rewrite app_nil_r. by destruct p as [? []].
Qed.

(** What a class request does: nothing, or a call and new settings. *)

Definition settled (p : port cdcacm) (r : Z * list Z) (p' : port cdcacm) : Prop :=
  r.1 <= CDCACM_MXDESCLEN /\
  (p' = p \/ 0 <= r.1 /\ exists acts l w, Forall is_callback acts /\ (length acts <= 1)%nat /\ p' = changed acts l w p).

Lemma call_back_settled event l w p :
  wp (call_back event;; mret (0, [])) (settled p) (set_priv (set_linecoding l (set_ctrlline w (priv p))) p).
Proof.
  apply wp_bind. eapply wp_mono; [apply call_back_ok|]. intros _ p' (acts & Ha & Hl & ->). apply wp_ret.
  split; [done|]. right. split; [done|]. by exists acts, l, w.
Qed.

(** The host sets the line coding with less data than the header says. *)

Definition overreads (ctrl : ctrlreq) (dataout : option (list Z)) : bool :=
  (Z.land (ctrl_type ctrl) USB_REQ_TYPE_MASK =? USB_REQ_TYPE_CLASS) && (ctrl_req ctrl =? ACM_SET_LINE_CODING) &&
  (to_interface cfg ctrl USB_DIR_OUT && (ctrl_len ctrl =? SIZEOF_CDC_LINECODING)) &&
  match dataout with Some data => Z.of_nat (length data) <? SIZEOF_CDC_LINECODING | None => false end.

Lemma request_reads ctrl dataout : request_ok ctrl dataout -> overreads ctrl dataout = false.
Proof.
  intros [_ H]. unfold overreads. destruct dataout as [data|]; [|by rewrite andb_false_r]. specialize (H _ eq_refl).
  destruct (Z.eqb_spec (ctrl_len ctrl) SIZEOF_CDC_LINECODING) as [E|]; [|by rewrite andb_false_r, andb_false_r].
  rewrite (proj2 (Z.ltb_ge _ _)) by lia. by rewrite andb_false_r.
Qed.

Lemma overread_setup ctrl dataout p : overreads ctrl dataout = true -> cdcacm_setup cfg ctrl dataout p = Ub OutOfBounds.
Proof.
  intros H. unfold overreads in H. apply andb_true_iff in H as [[[H1%Z.eqb_eq H2%Z.eqb_eq]%andb_true_iff H3]%andb_true_iff H4].
  unfold cdcacm_setup. cbn zeta. rewrite H1. unfold class_request. cbn zeta. rewrite H2.
  change (USB_REQ_TYPE_CLASS =? USB_REQ_TYPE_STANDARD) with false. change (USB_REQ_TYPE_CLASS =? USB_REQ_TYPE_CLASS) with true.
  change (ACM_SET_LINE_CODING =? ACM_GET_LINE_CODING) with false. change (ACM_SET_LINE_CODING =? ACM_SET_LINE_CODING) with true.
  cbn iota. rewrite H3. destruct dataout as [data|]; [|done]. by rewrite H4.
Qed.

Lemma class_plain ctrl dataout p : Z.land (ctrl_type ctrl) USB_REQ_TYPE_MASK = USB_REQ_TYPE_CLASS ->
  overreads ctrl dataout = false -> wp (class_request cfg ctrl dataout) (settled p) p.
Proof.
  intros Hty Hdata. unfold overreads in Hdata. rewrite Hty in Hdata. change (USB_REQ_TYPE_CLASS =? USB_REQ_TYPE_CLASS) with true in Hdata. cbn [andb] in Hdata. assert (Hno : settled p (- EOPNOTSUPP, []) p) by (split; [done|by left]).
  unfold class_request. cbn zeta. destruct (ctrl_req ctrl =? ACM_GET_LINE_CODING).
  { clear Hdata. apply wp_bind, wp_gets, wp_ret. split; [by case_match|by left]. }
  destruct (ctrl_req ctrl =? ACM_SET_LINE_CODING).
  { destruct (to_interface cfg ctrl USB_DIR_OUT && (ctrl_len ctrl =? SIZEOF_CDC_LINECODING)); [|by apply wp_ret]. cbn [andb] in Hdata. apply wp_bind.
    eapply wp_mono with (Q := fun _ p' => exists l, p' = set_priv (set_linecoding l (set_ctrlline (ctrlline (priv p)) (priv p))) p).
    - destruct dataout as [data|].
      + rewrite Hdata. apply wp_zoom, wp_modify. eexists. by destruct p as [? []].
      + apply wp_ret. exists (linecoding (priv p)). by destruct p as [? []].
    - intros _ p1 [l ->]. apply call_back_settled. }
  destruct (ctrl_req ctrl =? ACM_SET_CTRL_LINE_STATE).
  { destruct (to_interface _ _ _); [|by apply wp_ret]. apply wp_bind, wp_zoom, wp_modify.
    match goal with |- wp _ _ ?p1 => replace p1 with (set_priv (set_linecoding (linecoding (priv p)) (set_ctrlline (Z.land (ctrl_value ctrl) 3) (priv p))) p) end;
      [apply call_back_settled|by destruct p as [? []]]. }
  destruct (ctrl_req ctrl =? ACM_SEND_BREAK); [|by apply wp_ret]. destruct (to_interface _ _ _); [|by apply wp_ret].
  replace p with (set_priv (set_linecoding (linecoding (priv p)) (set_ctrlline (ctrlline (priv p)) (priv p))) p) at 2 by (by destruct p as [? []]).
  apply call_back_settled.
Qed.

(** An error changes nothing; otherwise there is one response, not longer than
    what the host asked for and than the buffer. *)

Definition answered (ctrl : ctrlreq) (p : port cdcacm) (ret : Z) (p' : port cdcacm) : Prop :=
  ret < 0 /\ p' = p \/
  exists calls bytes l w, Forall is_callback calls /\ (length calls <= 1)%nat /\
    Z.of_nat (length bytes) <= Z.min (ctrl_len ctrl) CDCACM_MXDESCLEN /\
    p' = changed (calls ++ [SubmitEp0 bytes ret]) l w p.

Lemma respond_ok len bytes p : 0 <= len ->
  wp (respond len bytes) (fun ret p' => exists sub, Z.of_nat (length sub) <= len /\
    p' = set_priv (set_usb (usb (priv p) ++ [SubmitEp0 sub ret]) (priv p)) p) p.
Proof.
  intros Hl. unfold respond. rewrite (proj2 (Z.ltb_ge _ _)) by done. apply wp_bind, wp_gets. apply wp_bind, wp_zoom, wp_modify, wp_ret.
  eexists. split; [|done]. rewrite length_take. lia.
Qed.

Lemma setup_plain ctrl dataout p : 0 <= ctrl_len ctrl -> overreads ctrl dataout = false -> plain ctrl ->
  wp (cdcacm_setup cfg ctrl dataout) (answered ctrl p) p.
Proof.
  intros Hlen Hreq Hpl. unfold cdcacm_setup. cbn zeta. apply wp_bind. eapply wp_mono with (Q := settled p).
  - destruct (Z.land (ctrl_type ctrl) USB_REQ_TYPE_MASK =? USB_REQ_TYPE_STANDARD); [eapply wp_mono; [by apply standard_plain|]; intros r p' [-> ?]; split; [done|by left]|].
    destruct (Z.eqb_spec (Z.land (ctrl_type ctrl) USB_REQ_TYPE_MASK) USB_REQ_TYPE_CLASS); [by apply class_plain|]. apply wp_ret. split; [done|by left].
  - intros [ret bytes] p1 [Hb Hp]. cbn [fst] in *. destruct (Z.leb_spec 0 ret) as [H0|H0].
    + eapply wp_mono; [apply respond_ok; lia|]. intros ret' p' (sub & Hs & ->). right.
      destruct Hp as [->|(_ & acts & l & w & Ha & Hl & ->)].
      * exists [], sub, (linecoding (priv p)), (ctrlline (priv p)). split_and!; [done|simpl; lia|lia|by destruct p as [? []]].
      * exists acts, sub, l, w. split_and!; [done|done|lia|]. unfold changed. cbn. by rewrite <- (assoc_L (++)).
    + apply wp_ret. left. split; [done|]. destruct Hp as [->|[? _]]; [done|lia].
Qed.

Lemma callbacks_silent calls : Forall is_callback calls -> silent calls.
Proof. induction 1 as [|[] calls Hc _ IH]; try done; split; apply IH. Qed.

Lemma answered_silent ctrl p ret p' : answered ctrl p ret p' ->
  exists acts l w, silent acts /\ p' = changed acts l w p.
Proof.
  intros [[_ ->]|(calls & bytes & l & w & Hc & _ & _ & ->)].
  - exists [], (linecoding (priv p)), (ctrlline (priv p)). split; [done|]. unfold changed. rewrite app_nil_r. by destruct p as [? []].
  - exists (calls ++ [SubmitEp0 bytes ret]), l, w. split; [|done]. apply silent_app; [by apply callbacks_silent|done].
Qed.

End Ctrl.

End CdcCtrl.
