(* ===== verification/CdcProps.v ===== *)
(** * The USB serial device as a pair of streams

    The CDC/ACM lower half keeps the promise of [StreamLower]; with the upper
    half, what a program that writes to and reads from [/dev/ttyACM0] gets. *)

From S2P Require Import Prelude Serial SerialRing SerialProps CdcAcm CdcCtrl.
Import Serial SerialRing SerialProps CdcAcm CdcCtrl.

Module CdcProps.

(** ** Streams of the device *)

(** What is left of the packet of a read container. *)

Definition rest_of (m : gmap nat rdreq) (id : nat) : list Z :=
  match m !! id with Some r => drop (Z.to_nat (offset r)) (rd_data r) | None => [] end.

Definition good_rd (r : rdreq) : Prop :=
  0 <= offset r <= Z.of_nat (length (rd_data r)) /\ Z.of_nat (length (rd_data r)) <= 65535 /\
  Forall (fun b => 0 <= b < 256) (rd_data r).

Record cdc_inv (cfg : cdc_cfg) (c : cdcacm) : Prop := {
  ci_nwrq : nwrq c = Z.of_nat (length (txfree c));
  ci_count : (length (txfree c) + length (bulkin c) = NWRREQS cfg)%nat;
  ci_nodup : NoDup (rxpending c ++ bulkout c);
  ci_reqs : forall id, id ∈ rxpending c ++ bulkout c -> exists r, rdreqs c !! id = Some r /\ good_rd r
}.

Definition cdc_calm (e : cdc_irq) : Prop :=
  match e with
  | WrComplete _ | RxTimeout => True
  | RdComplete _ data => Z.of_nat (length data) <= 65535 /\ Forall (fun b => 0 <= b < 256) data
  | Setup ctrl dataout => request_ok ctrl dataout /\ plain ctrl
  | _ => False
  end.

#[global] Instance cdc_view (cfg : cdc_cfg) : StreamView cdcacm cdc_irq := {
  sent c := usb c ≫= act_sent;
  fed c := usb c ≫= act_fed;
  pend c := rxpending c ≫= rest_of (rdreqs c);
  low_inv := cdc_inv cfg;
  busy c := txfree c = [];
  outstanding c := length (bulkin c);
  out_max := NWRREQS cfg;
  calm := cdc_calm;
  completes e := e = WrComplete OK;
  fails e := exists result, e = WrComplete result /\ result <> OK
}.

(** ** Waking up *)

Lemma polls_insert d id p : polls_ok d -> polls_ok (set_polls (<[id := p]> (polls d)) d).
Proof.
  unfold polls_ok. cbn. intros H. eapply Forall_impl; [exact H|]. cbn. intros slot Hs id' E.
  destruct (decide (id = id')) as [->|]; [rewrite lookup_insert_eq; eauto|rewrite lookup_insert_ne by done; auto].
Qed.

Lemma notify_ok ev slots d : (forall slot, slot ∈ slots -> slot ∈ fds d) -> polls_ok d ->
  wp (notify_all ev slots) (fun _ d' => exists m, d' = set_polls m d /\ polls_ok d' /\ dom m = dom (polls d)) d.
Proof.
  revert d. induction slots as [|slot slots IH]; intros d Hin Hp; cbn [notify_all].
  { apply wp_ret. exists (polls d). split_and!; [by destruct d|done|done]. }
  apply wp_bind. destruct slot as [id|]; cbn [notify_one].
  - destruct (proj1 (Forall_forall _ _) Hp (Some id) (Hin _ ltac:(by left)) id eq_refl) as [p Ep].
    apply wp_bind. unfold load_poll. apply wp_bind, wp_get. rewrite Ep. apply wp_ret. apply wp_modify.
    eapply wp_mono; [apply IH|].
    + intros slot Hs. cbn. apply Hin. by right.
    + by apply polls_insert.
    + intros _ d' (m & -> & Hm & Hd). exists m. split_and!; [done|done|]. rewrite Hd. cbn. by apply dom_insert_lookup_L.
  - apply wp_ret. apply IH; [|done]. intros slot Hs. apply Hin. by right.
Qed.

Lemma pollnotify_ok ev d : polls_ok d ->
  wp (uart_pollnotify ev) (fun _ d' => exists m, d' = set_polls m d /\ polls_ok d' /\ dom m = dom (polls d)) d.
Proof. intros H. unfold uart_pollnotify. apply wp_bind, wp_get. by apply notify_ok. Qed.

Lemma datasent_ok d : dev_ok d ->
  wp uart_datasent (fun _ d' => dev_ok d' /\ static d' = static d /\ xmit d' = xmit d /\ recv d' = recv d /\
    xmitwaiting d' = false /\ xmitsem d' = xmitsem d + Z.b2z (xmitwaiting d) /\
    recvwaiting d' = recvwaiting d /\ recvsem d' = recvsem d) d.
Proof.
  intros [H1 H2 H3 H4 H5]. unfold uart_datasent. apply wp_bind. eapply wp_mono; [by apply pollnotify_ok|].
  intros _ d1 (m & -> & Hm & Hdm). unfold wake_xmit. apply wp_bind, wp_get. cbn [xmitwaiting set_polls].
  destruct (xmitwaiting d) eqn:Ew.
  - assert (Hst : static (set_polls m d) = static d) by (unfold static, fixed; cbn; by rewrite Hdm).
    apply wp_bind, wp_modify, wp_modify. split_and!; try done. constructor; try done. cbn. unfold sem_post. lia.
  - apply wp_ret. split_and!; try done; [unfold static, fixed; cbn; by rewrite Hdm|cbn; lia].
Qed.

Lemma datareceived_ok d : dev_ok d ->
  wp uart_datareceived (fun _ d' => dev_ok d' /\ static d' = static d /\ xmit d' = xmit d /\ recv d' = recv d /\
    recvwaiting d' = false /\ recvsem d' = recvsem d + Z.b2z (recvwaiting d) /\
    xmitwaiting d' = xmitwaiting d /\ xmitsem d' = xmitsem d) d.
Proof.
  intros [H1 H2 H3 H4 H5]. unfold uart_datareceived. apply wp_bind. eapply wp_mono; [by apply pollnotify_ok|].
  intros _ d1 (m & -> & Hm & Hdm). unfold wake_recv. apply wp_bind, wp_get. cbn [recvwaiting set_polls].
  destruct (recvwaiting d) eqn:Ew.
  - assert (Hst : static (set_polls m d) = static d) by (unfold static, fixed; cbn; by rewrite Hdm).
    apply wp_bind, wp_modify, wp_modify. split_and!; try done. constructor; try done. cbn. unfold sem_post. lia.
  - apply wp_ret. split_and!; try done; [unfold static, fixed; cbn; by rewrite Hdm|cbn; lia].
Qed.

(** ** Transmission *)

(** The upper half of a device after [k] was taken from its transmit buffer. *)

Record tx_took (k : list Z) (d d' : uart_dev) : Prop := {
  tt_ok : dev_ok d';
  tt_static : static d' = static d;
  tt_queue : queue (xmit d) = k ++ queue (xmit d');
  tt_woken : woken k (xmitwaiting d) (xmitsem d) (xmitwaiting d') (xmitsem d');
  tt_recv : recv d' = recv d /\ recvwaiting d' = recvwaiting d /\ recvsem d' = recvsem d
}.

Lemma fill_ok n acc p : dev_ok (serdev p) ->
  wp (fill_loop n acc) (fun data p' => exists k b, data = acc ++ k /\ p' = set_serdev (set_xmit b (serdev p)) p /\
    ring_ok b /\ queue (xmit (serdev p)) = k ++ queue b /\
    (ub_sem b, ub_head b, ub_size b) = (ub_sem (xmit (serdev p)), ub_head (xmit (serdev p)), ub_size (xmit (serdev p))) /\
    (queue b = [] \/ length k = n)) p.
Proof.
  revert acc p. induction n as [|n IH]; intros acc p Hd; cbn [fill_loop]; apply wp_bind, wp_gets;
    destruct (Z.eqb_spec (ub_head (xmit (serdev p))) (ub_tail (xmit (serdev p)))) as [E|E].
  1-3: apply wp_ret; exists [], (xmit (serdev p)); rewrite app_nil_r;
    split_and!; [done|by destruct p as [[] ?]|apply Hd|done|done|..].
  1, 3: left; by apply queue_nil; [apply Hd|].
  - by right.
  - destruct (pop_ok _ (dk_xmit _ Hd) E) as (c & Hc & Hq & Hok). apply wp_bind. unfold on_dev. apply wp_zoom.
    unfold pop_xmit. apply wp_bind, wp_get. apply wp_bind. eapply wp_lift; [exact Hc|]. apply wp_bind, wp_modify, wp_ret.
    set (b := set_ub_tail _ (xmit (serdev p))) in *. eapply wp_mono; [apply IH|].
    + destruct Hd. by constructor.
    + cbn beta. intros data p' (k & b' & -> & -> & Hb' & Hq' & Hs' & Hr'). exists (c :: k), b'.
      split_and!; [by rewrite <- (assoc_L (++))|done|done| |done|].
      * cbn in Hq'. by rewrite Hq, Hq'.
      * destruct Hr' as [?|<-]; [by left|by right].
Qed.

Lemma fillrequest_ok reqlen p : dev_ok (serdev p) -> 0 < reqlen ->
  wp (cdcacm_fillrequest reqlen) (fun data p' => tx_took data (serdev p) (serdev p') /\ priv p' = priv p /\
    (queue (xmit (serdev p)) <> [] -> data <> [])) p.
Proof.
  intros Hd Hl. unfold cdcacm_fillrequest. apply wp_bind. eapply wp_mono; [by apply fill_ok|].
  cbn beta. intros data p1 (k & b & -> & -> & Hb & Hq & Hs & Hr). cbn [app]. injection Hs as E1 E2 E3.
  apply wp_bind, wp_gets. apply wp_bind.
  assert (Hd1 : dev_ok (set_xmit b (serdev p))) by (destruct Hd; by constructor).
  assert (Hst : static (set_xmit b (serdev p)) = static (serdev p)) by (unfold static, fixed; cbn; by rewrite E1, E2, E3).
  assert (Hne : queue (xmit (serdev p)) <> [] -> k <> []).
  { intros Hn ->. destruct Hr as [Hr|Hr]; [by rewrite Hq, Hr in Hn|simpl in Hr; lia]. }
  eapply wp_mono with (Q := fun _ p' => p' = set_serdev (set_xmit b (serdev p)) p); [case_match; by apply wp_ret|].
  intros _ p1 ->. apply wp_bind. destruct k as [|c k].
  { cbn [length Z.of_nat Z.eqb negb]. apply wp_ret, wp_ret. split_and!; [|done|done]. by constructor. }
  rewrite (proj2 (Z.eqb_neq _ _)) by (simpl; lia). cbn [negb]. apply wp_zoom.
  eapply wp_mono; [by apply datasent_ok|]. cbn beta. intros _ d' (K1 & K2 & K3 & K4 & K5 & K6 & K7 & K8).
  apply wp_ret. split_and!; [|done|done]. constructor; cbn in *; [done|by rewrite K2|by rewrite K3|done|done].
Qed.

(** ** Reception *)

(** The upper half of a device after [k] was put into its receive buffer. *)

Record rx_got (k : list Z) (d d' : uart_dev) : Prop := {
  rg_ok : dev_ok d';
  rg_static : static d' = static d;
  rg_queue : queue (recv d') = queue (recv d) ++ k;
  rg_woken : woken k (recvwaiting d) (recvsem d) (recvwaiting d') (recvsem d');
  rg_xmit : xmit d' = xmit d /\ xmitwaiting d' = xmitwaiting d /\ xmitsem d' = xmitsem d
}.

Definition full (b : uart_buffer) : Prop := next_index b (ub_head b) = ub_tail b.

Lemma recv_bytes_ok n data p : dev_ok (serdev p) -> Forall (fun b => 0 <= b < 256) data ->
  wp (recv_bytes (next_index (recv (serdev p)) (ub_head (recv (serdev p)))) n data) (fun n' p' => exists k rest b,
    data = k ++ rest /\ n' = n + Z.of_nat (length k) /\ p' = set_serdev (set_recv b (serdev p)) p /\ ring_ok b /\
    queue b = queue (recv (serdev p)) ++ k /\ (rest = [] \/ full b) /\
    (ub_sem b, ub_tail b, ub_size b) = (ub_sem (recv (serdev p)), ub_tail (recv (serdev p)), ub_size (recv (serdev p)))) p.
Proof.
  intros Hd Hb. revert n p Hd. induction Hb as [|ch data Hc Hb IH]; intros n p Hd; cbn [recv_bytes].
  { apply wp_ret. exists [], [], (recv (serdev p)). rewrite !app_nil_r.
    split_and!; [done|simpl; lia|by destruct p as [[] ?]|apply Hd|done|by left|done]. }
  apply wp_bind, wp_gets.
  destruct (Z.eqb_spec (next_index (recv (serdev p)) (ub_head (recv (serdev p)))) (ub_tail (recv (serdev p)))) as [Ef|Ef]; cbn [negb].
  - apply wp_ret. exists [], (ch :: data), (recv (serdev p)). rewrite app_nil_r.
    split_and!; [done|simpl; lia|by destruct p as [[] ?]|apply Hd|done|by right|done].
  - destruct (push_ok _ ch (dk_recv _ Hd) Ef) as (b1 & Hst & Hq & Hok & Et & Es & Esem).
    apply wp_bind, wp_zoom. unfold push_recv. apply wp_bind, wp_get. apply wp_bind.
    eapply wp_lift; [exact Hst|]. apply wp_modify.
    set (b := set_ub_head _ b1) in *. set (p1 := set_serdev _ p).
    assert (Eh : next_index (recv (serdev p)) (next_index (recv (serdev p)) (ub_head (recv (serdev p)))) =
                 next_index (recv (serdev p1)) (ub_head (recv (serdev p1)))).
    { change (recv (serdev p1)) with b. change (ub_head b) with (next_index (recv (serdev p)) (ub_head (recv (serdev p)))).
      generalize (next_index (recv (serdev p)) (ub_head (recv (serdev p)))). intros i. unfold next_index. by rewrite Es. }
    rewrite Eh. eapply wp_mono; [apply IH; destruct Hd; by constructor|].
    cbn beta. intros n' p' (k & rest & b' & -> & -> & -> & Hb' & Hq' & Hf' & Hs'). exists (ch :: k), rest, b'.
    split_and!; [done|simpl; lia|done|done| |done|].
    + cbn in Hq'. rewrite Hq', Hq. unfold u8. rewrite Z.mod_small by done. by rewrite <- (assoc_L (++)).
    + rewrite Hs'. change (recv (serdev p1)) with b. by rewrite Et, Es, Esem.
Qed.

Lemma rd_rest rd : good_rd rd ->
  let reqlen := u16 (Z.of_nat (length (rd_data rd)) - offset rd) in
  let data := drop (Z.to_nat (offset rd)) (rd_data rd) in
  take (Z.to_nat reqlen) data = data /\ reqlen = Z.of_nat (length data) /\ Forall (fun b => 0 <= b < 256) data.
Proof.
  intros (Ho & Hl & Hb). cbn zeta. unfold u16. rewrite Z.mod_small by lia. rewrite take_ge by (rewrite length_drop; lia).
  split_and!; [done|rewrite length_drop; lia|by apply Forall_drop].
Qed.

Lemma recvpacket_ok id rd p : dev_ok (serdev p) -> rxenabled (priv p) = true -> rdreqs (priv p) !! id = Some rd -> good_rd rd ->
  wp (cdcacm_recvpacket id) (fun ret p' => exists k rest,
    drop (Z.to_nat (offset rd)) (rd_data rd) = k ++ rest /\ rx_got k (serdev p) (serdev p') /\
    (ret = OK /\ rest = [] /\ priv p' = priv p \/
     ret = - ENOSPC /\ rest <> [] /\ full (recv (serdev p')) /\
       priv p' = set_rdreqs (<[id := mk_rdreq (rd_data rd) (offset rd + Z.of_nat (length k))]> (rdreqs (priv p))) (priv p))) p.
Proof.
  intros Hd He Hr Hg. pose proof Hg as (Ho & Hl & _). destruct (rd_rest rd Hg) as (E1 & E2 & Hb). cbn zeta in *.
  unfold cdcacm_recvpacket. apply wp_bind, wp_gets. rewrite He. apply wp_bind, wp_ret. apply wp_bind.
  unfold load_rd. apply wp_bind, wp_gets. rewrite Hr. apply wp_ret. cbn zeta. rewrite E1, E2. clear E1 E2.
  apply wp_bind, wp_gets. apply wp_bind. eapply wp_mono; [by apply recv_bytes_ok|]. cbn beta.
  intros nb p1 (k & rest & b & Ek & -> & -> & Hok & Hq & Hf & Hs). injection Hs as Es Et Ez. apply wp_bind.
  assert (Hd1 : dev_ok (set_recv b (serdev p))) by (destruct Hd; by constructor).
  assert (Hst : static (set_recv b (serdev p)) = static (serdev p)) by (unfold static, fixed; cbn; by rewrite Es, Et, Ez).
  assert (Hlen : (length k + length rest = length (rd_data rd) - Z.to_nat (offset rd))%nat)
    by (rewrite <- length_app, <- Ek, length_drop; done).
  eapply wp_mono with (Q := fun _ p' => priv p' = priv p /\ rx_got k (serdev p) (serdev p') /\ recv (serdev p') = b).
  { destruct k as [|c k]; [apply wp_ret; split_and!; [done|by constructor|done]|].
    rewrite (proj2 (Z.ltb_lt _ _)) by (simpl; lia). apply wp_zoom. eapply wp_mono; [by apply datareceived_ok|].
    cbn beta. intros _ d' (K1 & K2 & K3 & K4 & K5 & K6 & K7 & K8). split_and!; [done| |done].
    constructor; cbn in *; [done|by rewrite K2|by rewrite K4|done|done]. }
  intros _ p1 (Ep & Hg1 & Eb). rewrite Ek, length_app. destruct rest as [|c rest].
  - rewrite (proj2 (Z.ltb_ge _ _)) by (simpl; lia). apply wp_ret. exists k, []. split_and!; [done|done|by left].
  - rewrite (proj2 (Z.ltb_lt _ _)) by (simpl; lia). apply wp_bind, wp_zoom, wp_modify, wp_ret. exists k, (c :: rest).
    split_and!; [done|done|right]. destruct Hf as [?|Hf]; [done|]. split_and!; [done|done|by cbn; rewrite Eb|].
    cbn. rewrite Ep. unfold u16. rewrite Z.mod_small by (simpl in Hlen; lia). done.
Qed.

(** ** The promise of the lower half *)

Section Lower.
Context (cfg : cdc_cfg) `{Hctl : controller}.

Record cfg_ok : Prop := {
  co_reqlen : 0 < Z.max (BULKIN_REQLEN cfg) (maxpacket cfg);
  co_wr : (0 < NWRREQS cfg <= 255)%nat
}.

Abbreviation port_ok := (@SerialProps.port_ok cdcacm cdc_irq (cdc_view cfg)).
Abbreviation moves := (@SerialProps.moves cdcacm cdc_irq (cdc_view cfg)).

Lemma took_moves k p p' : tx_took k (serdev p) (serdev p') ->
  usb (priv p') ≫= act_sent = (usb (priv p) ≫= act_sent) ++ k ->
  usb (priv p') ≫= act_fed = usb (priv p) ≫= act_fed ->
  rxpending (priv p') = rxpending (priv p) -> rdreqs (priv p') = rdreqs (priv p) -> moves p p'.
Proof.
  intros [A B C D (E1 & E2 & E3)] Hs Hf Hp Hr. constructor; [done|by exists k|].
  exists [], []. cbn. rewrite E1, E2, E3, Hf, Hp, Hr, !app_nil_r. done.
Qed.

(** *** Reception *)

Lemma rest_of_insert m id r l : id ∉ l -> l ≫= rest_of (<[id := r]> m) = l ≫= rest_of m.
Proof.
  induction l as [|i l IH]; [done|]. intros [Hne Hl]%not_elem_of_cons. cbn [mbind list_bind].
  rewrite IH by done. unfold rest_of. by rewrite lookup_insert_ne.
Qed.

Definition same_tx (c c' : cdcacm) : Prop := txfree c' = txfree c /\ bulkin c' = bulkin c /\ nwrq c' = nwrq c.

Lemma same_tx_trans c1 c2 c3 : same_tx c1 c2 -> same_tx c2 c3 -> same_tx c1 c3.
Proof. unfold same_tx. intuition congruence. Qed.

Lemma got_moves k new p p' : rx_got k (serdev p) (serdev p') ->
  usb (priv p') ≫= act_sent = usb (priv p) ≫= act_sent ->
  usb (priv p') ≫= act_fed = (usb (priv p) ≫= act_fed) ++ new ->
  (rxpending (priv p) ≫= rest_of (rdreqs (priv p))) ++ new = k ++ (rxpending (priv p') ≫= rest_of (rdreqs (priv p'))) ->
  moves p p'.
Proof.
  intros [A B C D (E1 & E2 & E3)] Hs Hf Hp. constructor; [done| |by exists k, new].
  exists []. cbn. rewrite E1, E2, E3, Hs, app_nil_r. done.
Qed.

Lemma rx_got_refl d : dev_ok d -> rx_got [] d d.
Proof. intros Hd. constructor; try done. by rewrite app_nil_r. Qed.

(** The container [id], which holds [data], is neither pending nor with the controller. *)

Record spare (c : cdcacm) (id : nat) (data : list Z) : Prop := {
  sp_inv : cdc_inv cfg c;
  sp_out : id ∉ (rxpending c ++ bulkout c);
  sp_req : exists off, rdreqs c !! id = Some (mk_rdreq data off);
  sp_data : Z.of_nat (length data) <= 65535 /\ Forall (fun b => 0 <= b < 256) data
}.

(** The invariant with another list of requests. *)

Lemma inv_reqs c c' : cdc_inv cfg c -> same_tx c c' -> NoDup (rxpending c' ++ bulkout c') ->
  (forall id, id ∈ rxpending c' ++ bulkout c' -> exists r, rdreqs c' !! id = Some r /\ good_rd r) -> cdc_inv cfg c'.
Proof. intros [A B _ _] (E1 & E2 & E3) Hn Hr. constructor; [by rewrite E3, E1|by rewrite E1, E2|done|done]. Qed.

Lemma reqs_insert c id r : cdc_inv cfg c -> good_rd r ->
  forall i, i = id \/ i ∈ rxpending c ++ bulkout c -> exists r', <[id := r]> (rdreqs c) !! i = Some r' /\ good_rd r'.
Proof.
  intros [_ _ _ D] Hr i Hi. destruct (decide (i = id)) as [->|Hne]; [exists r; by rewrite lookup_insert_eq|].
  destruct Hi as [?|Hi]; [done|]. rewrite lookup_insert_ne by done. by apply D.
Qed.

Lemma requeue_ok id data p : dev_ok (serdev p) -> spare (priv p) id data ->
  wp (cdcacm_requeue_rdrequest id) (fun _ p' => port_ok p' /\ moves p p' /\ same_tx (priv p) (priv p') /\
    serdev p' = serdev p /\ rxpending (priv p') = rxpending (priv p) /\ rxenabled (priv p') = rxenabled (priv p) /\
    rxfailsafe (priv p') = rxfailsafe (priv p)) p.
Proof.
  intros Hd [Hi Ho (off & Hr) [Hl Hb]]. unfold cdcacm_requeue_rdrequest, load_rd.
  apply wp_bind, wp_bind, wp_gets. rewrite Hr. apply wp_ret. apply wp_bind, wp_zoom, wp_modify.
  unfold submit_out. apply wp_bind, wp_gets. cbn zeta. apply wp_bind, wp_zoom, wp_modify. cbn [rd_data].
  pose proof (reqs_insert _ id (mk_rdreq data 0) Hi ltac:(split_and!; simpl; [lia|lia|done|done])) as Hins.
  apply not_elem_of_app in Ho as [Ho1 Ho2]. pose proof (ci_nodup _ _ Hi) as Hnd.
  assert (Hend : forall bo, bo = bulkout (priv p) ++ [id] \/ bo = bulkout (priv p) ->
    forall p', p' = set_priv (set_bulkout bo (set_usb (usb (priv p) ++ [SubmitOut id (ans_out (usb (priv p)))])
      (set_rdreqs (<[id := mk_rdreq data 0]> (rdreqs (priv p))) (priv p)))) p ->
    port_ok p' /\ moves p p' /\ same_tx (priv p) (priv p') /\ serdev p' = serdev p /\
    rxpending (priv p') = rxpending (priv p) /\ rxenabled (priv p') = rxenabled (priv p) /\
    rxfailsafe (priv p') = rxfailsafe (priv p)).
  { intros bo Hbo p' ->. split_and!; try done.
    - split; [done|]. apply (inv_reqs (priv p)); [done|done|..]; cbn.
      + destruct Hbo as [-> | ->]; [|done]. rewrite (assoc_L (++)). apply NoDup_app. split_and!; [done| |apply NoDup_singleton].
        intros i Hi' ->%list_elem_of_singleton. apply elem_of_app in Hi'. tauto.
      + intros i Hi'. apply Hins. destruct Hbo as [-> | ->]; [|by right]. rewrite (assoc_L (++)), elem_of_app, list_elem_of_singleton in Hi'. tauto.
    - apply (got_moves [] []); [by apply rx_got_refl|cbn; by rewrite bind_app, app_nil_r|cbn; by rewrite bind_app|].
      cbn. by rewrite rest_of_insert, app_nil_r. }
  destruct (_ =? OK); apply wp_bind.
  - apply wp_zoom, wp_modify, wp_ret. apply (Hend _ (or_introl eq_refl)). done.
  - apply wp_ret, wp_ret. apply (Hend _ (or_intror eq_refl)). done.
Qed.
(** The pending packets go to the receive buffer, as far as it has room. *)

Lemma head_rest c id l : cdc_inv cfg c -> rxpending c = id :: l ->
  exists rd, rdreqs c !! id = Some rd /\ good_rd rd /\ (id ∉ l ++ bulkout c) /\ NoDup (l ++ bulkout c).
Proof.
  intros [_ _ C D] El. rewrite El in C, D. cbn [app] in C, D. apply NoDup_cons in C as [Ho Hn].
  destruct (D id ltac:(by left)) as (rd & Hr & Hg). eauto.
Qed.

Lemma release_loop_ok pending p : port_ok p -> rxpending (priv p) = pending -> rxenabled (priv p) = true ->
  wp (release_loop pending) (fun _ p' => port_ok p' /\ moves p p' /\ same_tx (priv p) (priv p') /\
    rxfailsafe (priv p') = rxfailsafe (priv p) /\ (rxpending (priv p') = [] \/ full (recv (serdev p')))) p.
Proof.
  revert p. induction pending as [|id l IH]; intros p [Hd Hi] El He; cbn [release_loop].
  { apply wp_ret. split_and!; [done|apply moves_refl|done|done|by left]. }
  destruct (head_rest _ _ _ Hi El) as (rd & Hr & Hg & Ho & Hn).
  apply wp_bind. eapply wp_mono; [by apply (recvpacket_ok id rd)|]. cbn beta.
  intros ret p1 (k & rest & Ek & G & [(-> & -> & Ep)|(-> & Hne & Hf & Ep)]).
  - change (OK <? 0) with false. cbn iota. apply wp_bind, wp_zoom, wp_modify. rewrite Ep. rewrite app_nil_r in Ek.
    set (p2 := set_priv (set_rxpending l (priv p)) p1).
    assert (M2 : moves p p2).
    { apply (got_moves k []); [exact G|done|by rewrite app_nil_r|]. cbn. rewrite El. cbn [mbind list_bind].
      unfold rest_of at 1. by rewrite Hr, Ek, app_nil_r. }
    assert (Hsp : spare (priv p2) id (rd_data rd)).
    { constructor; [|exact Ho|exists (offset rd); cbn; rewrite Hr; by destruct rd|destruct Hg as (_ & ? & ?); done].
      apply (inv_reqs (priv p)); [done|done|done|]. intros i Hin'. apply (ci_reqs _ _ Hi). rewrite El. by right. }
    apply wp_bind. eapply wp_mono; [apply (requeue_ok id (rd_data rd) p2); [exact (rg_ok _ _ _ G)|exact Hsp]|]. cbn beta.
    intros _ p3 (Hp3 & M3 & T3 & _ & E3 & R3 & F3).
    eapply wp_mono; [apply IH; [done|by rewrite E3|by rewrite R3]|]. cbn beta. intros _ p4 (Hp4 & M4 & T4 & F4 & L4).
    split_and!; [done| |exact (same_tx_trans _ _ _ T3 T4)|by rewrite F4, F3|done].
    eapply moves_trans; [exact M2|]. by eapply moves_trans.
  - change (- ENOSPC <? 0) with true. cbn iota. apply wp_ret.
    destruct Hg as (Hoff & Hlen & Hb). pose proof (f_equal length Ek) as Hk. rewrite length_app, length_drop in Hk.
    split_and!; [split; [apply G|]|..|by rewrite Ep|by rewrite Ep|by right].
    + rewrite Ep. apply (inv_reqs (priv p)); [done|done|apply Hi|]. intros i Hin'. apply (reqs_insert (priv p)); [done| |by right].
      split_and!; simpl; [lia|lia|lia|done].
    + apply (got_moves k []); [exact G|by rewrite Ep|by rewrite Ep, app_nil_r|]. rewrite Ep. cbn. rewrite El. cbn [mbind list_bind].
      rewrite rest_of_insert by set_solver. unfold rest_of at 1 3. rewrite Hr, lookup_insert_eq. cbn [offset rd_data].
      rewrite app_nil_r, (assoc_L (++)), Ek. f_equal. rewrite Z2Nat.inj_add, Nat2Z.id, <- drop_drop, Ek by lia.
      by rewrite drop_app_length.
Qed.

Lemma moves_cdc p c' : dev_ok (serdev p) -> usb c' = usb (priv p) -> rxpending c' = rxpending (priv p) ->
  rdreqs c' = rdreqs (priv p) -> moves p (set_priv c' p).
Proof.
  intros Hd E1 E2 E3. apply (got_moves [] []); [by apply rx_got_refl|..]; cbn; rewrite ?E1, ?E2, ?E3, ?app_nil_r; done.
Qed.

Lemma release_ok p : port_ok p ->
  wp cdcacm_release_rxpending (fun _ p' => port_ok p' /\ moves p p' /\ same_tx (priv p) (priv p') /\
    (rxpending (priv p') = [] \/ rxfailsafe (priv p') = true) /\
    (rxenabled (priv p) = true -> rxpending (priv p') = [] \/ full (recv (serdev p')))) p.
Proof.
  intros [Hd Hi]. unfold cdcacm_release_rxpending. apply wp_bind, wp_zoom, wp_modify.
  set (p1 := set_priv _ p). assert (Hp1 : port_ok p1) by (split; [done|]; by apply (inv_reqs (priv p)); try done; apply Hi).
  assert (M1 : moves p p1) by by apply moves_cdc.
  apply wp_bind, wp_gets. apply wp_bind.
  eapply wp_mono with (Q := fun _ p2 => port_ok p2 /\ moves p p2 /\ same_tx (priv p) (priv p2) /\
    (rxenabled (priv p) = true -> rxpending (priv p2) = [] \/ full (recv (serdev p2)))).
  { change (rxenabled (priv p1)) with (rxenabled (priv p)). destruct (rxenabled (priv p)) eqn:Ee; [|by apply wp_ret].
    apply wp_bind, wp_gets. apply wp_bind. eapply wp_mono; [by apply release_loop_ok|]. cbn beta.
    intros _ p2 (Hp2 & M2 & T2 & _ & L2). apply wp_ret. split_and!; [done| |done|done]. by eapply moves_trans. }
  intros _ p2 (Hp2 & M2 & T2 & L2). apply wp_bind, wp_gets. destruct (rxpending (priv p2)) as [|id l] eqn:El.
  { apply wp_ret. split_and!; [done|done|done|by left|by left]. }
  apply wp_zoom, wp_modify. split_and!; [split; [apply Hp2|]|..|done|by right|].
  - apply (inv_reqs (priv p2)); try done; apply Hp2.
  - eapply moves_trans; [exact M2|]. apply moves_cdc; [apply Hp2|done..].
  - cbn. by rewrite El.
Qed.
(** *** Interrupts *)

(** A packet that arrives while the device waits for one goes to the receive
    buffer, if there is room. *)

Record listening (c : cdcacm) : Prop := {
  ls_rx : rxenabled c = true;
  ls_pending : rxpending c = [];
  ls_out : bulkout c <> []
}.

Definition fits (data : list Z) (d : uart_dev) : Prop :=
  Z.of_nat (length (queue (recv d))) + Z.of_nat (length data) < ub_size (recv d).

Lemma prefix_of_moved (data new k l : list Z) : data ++ new = k ++ l -> (length data <= length k)%nat ->
  exists rest, k = data ++ rest.
Proof.
  intros E L. exists (drop (length data) k). rewrite <- (take_drop (length data) k) at 1. f_equal.
  apply (f_equal (take (length data))) in E. by rewrite take_app_length, take_app_le in E by lia.
Qed.

Lemma heard_packet data p p' : port_ok p -> port_ok p' -> moves p p' ->
  rxpending (priv p) ≫= rest_of (rdreqs (priv p)) = data -> fits data (serdev p) ->
  rxpending (priv p') = [] \/ full (recv (serdev p')) ->
  exists rest, queue (recv (serdev p')) = queue (recv (serdev p)) ++ data ++ rest.
Proof.
  intros Hp [Hd' _] [Hst _ (k & new & Eq & _ & Ek & _)] Epd Hfit Hend. rewrite Eq.
  cbn [pend cdc_view] in Ek. rewrite Epd in Ek.
  assert (Hk : exists rest, k = data ++ rest).
  { destruct Hend as [E|Hf].
    - rewrite E in Ek. cbn in Ek. rewrite app_nil_r in Ek. by exists new.
    - eapply prefix_of_moved; [exact Ek|]. unfold full in Hf. rewrite queue_full, Eq, length_app in Hf by apply Hd'.
      assert (Ez : ub_size (recv (serdev p')) = ub_size (recv (serdev p))) by (unfold static, fixed in Hst; by simplify_eq).
      unfold fits in Hfit. lia. }
  destruct Hk as [rest ->]. by exists rest.
Qed.

Lemma rd_handle result data p : port_ok p -> cdc_calm (RdComplete result data) ->
  wp (cdc_handle cfg (RdComplete result data)) (fun _ p' => port_ok p' /\ moves p p' /\ same_tx (priv p) (priv p') /\
    (result = 0 -> listening (priv p) -> fits data (serdev p) ->
      exists rest, queue (recv (serdev p')) = queue (recv (serdev p)) ++ data ++ rest)) p.
Proof.
  intros [Hd Hi] [Hl Hb]. cbn [cdc_handle]. apply wp_bind, wp_gets.
  destruct (bulkout (priv p)) as [|id l] eqn:Eo; [apply wp_ret; split_and!; [done|apply moves_refl|done|by intros _ [_ _ []]]|].
  assert (Hnd : (id ∉ rxpending (priv p) ++ l) /\ NoDup (rxpending (priv p) ++ l)).
  { pose proof (ci_nodup _ _ Hi) as Hn. rewrite Eo, (comm (R := Permutation) (++)) in Hn. cbn [app] in Hn.
    by rewrite NoDup_cons, (comm (R := Permutation) (++) l) in Hn. }
  destruct Hnd as [Ho Hnd]. destruct (ci_reqs _ _ Hi id ltac:(rewrite Eo, elem_of_app; right; by left)) as (rd & Hr & _).
  apply wp_bind, wp_zoom, wp_modify. apply wp_bind. unfold load_rd. apply wp_bind, wp_gets. cbn. rewrite Hr. apply wp_ret.
  apply wp_bind, wp_zoom, wp_modify.
  set (c1 := set_rdreqs (<[id := mk_rdreq data (offset rd)]> (rdreqs (priv p))) (set_bulkout l (priv p))).
  assert (Hsp : spare c1 id data).
  { constructor; [|done|exists (offset rd); cbn; by rewrite lookup_insert_eq|done].
    apply (inv_reqs (priv p)); [done|done|done|]. intros i Hin'. cbn.
    rewrite lookup_insert_ne by (intros ->; done). apply (ci_reqs _ _ Hi). rewrite Eo. set_solver. }
  assert (M1 : moves p (set_priv c1 p)).
  { apply (got_moves [] []); [by apply rx_got_refl|done|by rewrite app_nil_r|]. cbn. rewrite rest_of_insert by set_solver. by rewrite app_nil_r. }
  change (set_priv _ _) with (set_priv c1 p). apply wp_bind. unfold cdcacm_rdcomplete, load_rd.
  destruct (Z.eqb_spec result 0) as [->|Hne].
  - apply wp_zoom, wp_modify. apply wp_bind, wp_bind, wp_gets. cbn. rewrite lookup_insert_eq. apply wp_ret. cbn [Z.eqb].
    apply wp_bind, wp_zoom, wp_modify. apply wp_bind, wp_zoom, wp_modify. cbn. rewrite insert_insert_eq.
    set (p2 := set_priv _ _).
    assert (Hp2 : port_ok p2).
    { split; [done|]. apply (inv_reqs (priv p)); [done|done|..]; cbn; rewrite <- (assoc_L (++)).
      - change ([id] ++ l) with (id :: l). rewrite <- Eo. apply Hi.
      - intros i Hin'. apply (reqs_insert (priv p)); [done|split_and!; simpl; [lia|lia|done|done]|]. rewrite Eo. set_solver. }
    assert (M2 : moves p p2).
    { apply (got_moves [] data); [by apply rx_got_refl|cbn; by rewrite bind_app, app_nil_r|cbn; rewrite bind_app; cbn; by rewrite app_nil_r|].
      cbn. rewrite bind_app. cbn. rewrite rest_of_insert by set_solver. unfold rest_of at 3. rewrite lookup_insert_eq. cbn.
      by rewrite drop_0, app_nil_r. }
    eapply wp_mono; [by apply release_ok|]. cbn beta. intros _ p3 (Hp3 & M3 & T3 & _ & R3).
    split_and!; [done|by eapply moves_trans|done|]. intros _ [L1 L2 _] Hfit.
    apply (heard_packet data p2 p3); [done|done|done| |done|by apply R3].
    cbn. rewrite L2. cbn. unfold rest_of. rewrite lookup_insert_eq. cbn. by rewrite drop_0, app_nil_r.
  - apply wp_ret. apply wp_bind, wp_bind, wp_gets. cbn. rewrite lookup_insert_eq. apply wp_ret.
    destruct (result =? - ESHUTDOWN).
    + apply wp_zoom, wp_modify. split_and!; [split; [done|]| |done|done].
      * destruct Hsp as [A _ _ _]. by apply (inv_reqs c1); [done|..]; try apply A.
      * eapply moves_trans; [exact M1|]. by apply moves_cdc.
    + apply wp_bind. eapply wp_mono; [by apply (requeue_ok id data)|]. cbn beta. intros _ p2 (Hp2 & M2 & T2 & _). apply wp_ret.
      split_and!; [done|by eapply moves_trans|done|done].
Qed.

Lemma rxint_ok b p : port_ok p ->
  wp (cdcuart_rxint b) (fun _ p' => port_ok p' /\ moves p p' /\
    (b = true -> rxpending (priv p') = [] \/ full (recv (serdev p')) /\ rxfailsafe (priv p') = true)) p.
Proof.
  intros [Hd Hi]. assert (Hp1 : forall v, port_ok (set_priv (set_rxenabled v (priv p)) p))
    by (intros v; split; [done|]; by apply (inv_reqs (priv p)); try done; apply Hi).
  assert (M1 : forall v, moves p (set_priv (set_rxenabled v (priv p)) p)) by (intros v; by apply moves_cdc).
  destruct b; cbn [cdcuart_rxint]; [|apply wp_zoom, wp_modify; by split_and!].
  apply wp_bind, wp_zoom, wp_modify. eapply wp_mono; [apply release_ok, Hp1|]. cbn beta.
  intros _ p' (Hp' & M' & _ & R1 & R2). split_and!; [done|by eapply moves_trans|]. intros _. cbn in R2. specialize (R2 eq_refl). tauto.
Qed.

Lemma rxint_idle p : rxpending (priv p) = [] ->
  wp (cdcuart_rxint true) (fun _ p' => p' = set_priv (set_rxfailsafe false (set_rxenabled true (priv p))) p) p.
Proof using. intros E. eexists _, _. split; [|reflexivity]. destruct p as [dd [? ? ? ? ? ? ? ? ? ? ? ? ? ?]]. cbn in E. by subst. Qed.

Lemma setup_handle ctrl dataout p : port_ok p -> cdc_calm (Setup ctrl dataout) ->
  wp (cdc_handle cfg (Setup ctrl dataout)) (fun _ p' => port_ok p' /\ moves p p' /\ same_tx (priv p) (priv p') /\
    serdev p' = serdev p) p.
Proof.
  intros [Hd Hi] [Hreq Hpl]. cbn [cdc_handle]. apply wp_bind.
  eapply wp_mono; [apply setup_plain; [apply Hreq|by apply request_reads|done]|].
  intros ret p' (acts & l & w & [Hs Hf] & ->)%answered_silent. apply wp_ret. split_and!; [split; [done|]|..|done|done].
  - by apply (inv_reqs (priv p)); try done; apply Hi.
  - apply (got_moves [] []); cbn; rewrite ?bind_app, ?Hs, ?Hf, ?app_nil_r; [by apply rx_got_refl|done..].
Qed.

(** *** Transmission

    Here the controller takes every request to send. *)

Context (Hcfg : cfg_ok) (Hin : forall h, ans_in h = OK).

Lemma submit_in_ok id data p :
  wp (submit_in id data) (fun ret p' => ret = OK /\
    p' = set_priv (set_bulkin (bulkin (priv p) ++ [id]) (set_usb (usb (priv p) ++ [SubmitIn id data OK]) (priv p))) p) p.
Proof using Hin.
  unfold submit_in. apply wp_bind, wp_gets. cbn zeta. rewrite Hin. apply wp_bind, wp_zoom, wp_modify.
  change (OK =? OK) with true. cbn iota. apply wp_bind, wp_zoom, wp_modify, wp_ret. done.
Qed.

Lemma snd_loop_ok reqlen free p : port_ok p -> txfree (priv p) = free -> 0 < reqlen ->
  wp (snd_loop reqlen free) (fun _ p' => port_ok p' /\ moves p p' /\
    (queue (xmit (serdev p')) = [] \/ txfree (priv p') = []) /\
    (free <> [] -> queue (xmit (serdev p)) <> [] -> took p p') /\
    (queue (xmit (serdev p)) = [] -> priv p' = priv p)) p.
Proof using Hcfg Hin.
  intros Hp Ef Hl. revert p Hp Ef. induction free as [|id free IH]; intros p Hp Ef; cbn [snd_loop].
  { apply wp_ret. split_and!; [done|apply moves_refl|by right|done|done]. }
  destruct Hp as [Hd Hi]. apply wp_bind. eapply wp_mono; [by apply fillrequest_ok|]. cbn beta.
  intros data p1 (T1 & Ep1 & Hne). destruct (Z.ltb_spec 0 (Z.of_nat (length data))) as [Hpos|Hz].
  - apply wp_bind, wp_zoom, wp_modify. apply wp_bind, wp_zoom, wp_modify. apply wp_bind.
    eapply wp_mono; [apply submit_in_ok|]. cbn beta. intros ret p2 [-> ->]. cbn [negb Z.eqb OK].
    change (negb (OK =? OK)) with false. cbn iota. cbn [priv set_priv]. rewrite Ep1.
    set (c' := set_bulkin _ _). set (p' := set_priv c' _).
    assert (Hi' : cdc_inv cfg c').
    { destruct Hi as [A B C D]. rewrite Ef in A, B. cbn [length] in A, B. destruct Hcfg as [_ Hw].
      constructor; [|cbn; rewrite length_app; simpl; lia|done|done]. cbn. rewrite A. unfold u8. rewrite Z.mod_small; lia. }
    assert (M1 : moves p p').
    { apply (took_moves data); [exact T1|..|done|done]; cbn; rewrite bind_app; cbn; by rewrite app_nil_r. }
    eapply wp_mono; [apply IH; [split; [apply T1|exact Hi']|done]|]. cbn beta.
    intros _ p2 (Hp2 & M2 & HB & _). split_and!; [done|by eapply moves_trans|done|intros _ _|].
    2:{ intros En. pose proof (tt_queue _ _ _ T1) as Eq. rewrite En in Eq. destruct data; [simpl in Hpos; lia|done]. }
    pose proof (moves_length _ _ M2) as L2. unfold took. rewrite (tt_queue _ _ _ T1), length_app. cbn in L2. lia.
  - assert (data = []) as -> by (destruct data; [done|simpl in Hz; lia]). pose proof (tt_queue _ _ _ T1) as Eq.
    assert (En : queue (xmit (serdev p)) = []) by (destruct (queue (xmit (serdev p))); [done|by destruct (Hne ltac:(done))]).
    apply wp_ret. split_and!; [|..|by intros _ ?|done].
    + split; [apply T1|by rewrite Ep1].
    + apply (took_moves []); rewrite ?app_nil_r, ?Ep1; done.
    + left. cbn [app] in Eq. by rewrite <- Eq.
Qed.

Lemma sndpacket_ok p : port_ok p ->
  wp (cdcacm_sndpacket cfg) (fun _ p' => port_ok p' /\ moves p p' /\
    (queue (xmit (serdev p')) = [] \/ txfree (priv p') = []) /\
    (txfree (priv p) <> [] -> queue (xmit (serdev p)) <> [] -> took p p') /\
    (queue (xmit (serdev p)) = [] -> priv p' = priv p)) p.
Proof using Hcfg Hin.
  intros Hp. unfold cdcacm_sndpacket. apply wp_bind, wp_gets. apply snd_loop_ok; [done|done|apply Hcfg].
Qed.

Lemma wr_handle result p : port_ok p ->
  wp (cdc_handle cfg (WrComplete result)) (fun _ p' => port_ok p' /\ moves p p' /\
    (txfree (priv p) = [] -> queue (xmit (serdev p)) <> [] -> result = OK -> took p p') /\
    (queue (xmit (serdev p)) = [] -> length (bulkin (priv p')) = length (bulkin (priv p)) - 1)%nat) p.
Proof using Hcfg Hin.
  intros [Hd Hi]. cbn [cdc_handle]. apply wp_bind, wp_gets. pose proof Hcfg as [_ Hw]. pose proof (ci_count _ _ Hi) as Hc.
  destruct (bulkin (priv p)) as [|id l] eqn:Eb.
  { apply wp_ret. split_and!; [done|apply moves_refl|..].
    - intros Ef. rewrite Ef in Hc. simpl in Hc. lia.
    - by rewrite Eb. }
  apply wp_bind, wp_zoom, wp_modify. unfold cdcacm_wrcomplete.
  apply wp_bind, wp_zoom, wp_modify. apply wp_bind, wp_zoom, wp_modify.
  set (p1 := set_priv _ _).
  assert (Hp1 : port_ok p1).
  { split; [done|]. destruct Hi as [A B C D]. simpl in Hc. constructor; cbn; [|rewrite length_app; simpl; lia|done|done].
    rewrite length_app, A. unfold u8. rewrite Z.mod_small; simpl; lia. }
  assert (M1 : moves p p1) by (change p1 with (set_priv (priv p1) p); by apply moves_cdc).
  destruct (Z.eqb_spec result OK) as [->|Hne].
  - apply wp_bind. eapply wp_mono; [by apply sndpacket_ok|]. cbn beta. intros _ p2 (Hp2 & M2 & _ & T2 & U2). apply wp_ret.
    split_and!; [done|by eapply moves_trans|..|intros Eq; rewrite (U2 Eq); simpl; lia]. intros _ Hq _. apply T2; [|done]. cbn. by destruct (txfree (priv p)).
  - apply wp_ret. split_and!; [done|done|done|]. intros _. simpl. lia.
Qed.

Lemma txint_ok b p : port_ok p ->
  wp (cdcuart_txint cfg b) (fun _ p' => port_ok p' /\ moves p p' /\
    (b = true -> queue (xmit (serdev p')) = [] \/ txfree (priv p') = [])) p.
Proof using Hcfg Hin.
  intros Hp. unfold cdcuart_txint. apply wp_bind, wp_gets. pose proof (queue_nil _ (dk_xmit _ (proj1 Hp))) as Hn.
  destruct b; [|apply wp_ret; split_and!; [done|apply moves_refl|done]]. cbn [andb].
  destruct (Z.eqb_spec (ub_head (xmit (serdev p))) (ub_tail (xmit (serdev p)))) as [Ee|Ee]; cbn [negb].
  - apply wp_ret. split_and!; [done|apply moves_refl|]. intros _. left. tauto.
  - apply wp_bind. eapply wp_mono; [by apply sndpacket_ok|]. cbn beta. intros _ p' (Hp' & M & B & _). apply wp_ret. by split_and!.
Qed.

Lemma cdc_lower : @StreamLower cdcacm cdc_irq (g_uartops cfg) (cdc_view cfg) (cdc_handle cfg).
Proof using Hcfg Hin.
  constructor.
  - exact txint_ok.
  - intros b p Hp. eapply wp_mono; [by apply rxint_ok|]. cbn beta. naive_solver.
  - intros [result|result data| | | | |ctrl dataout] p Hp Hc; try done.
    + eapply wp_mono; [by apply wr_handle|]. cbn beta. intros _ p' (Hp' & M & T & O). split_and!; [done|done| |intros Eq; specialize (O Eq); split; simpl in *; lia].
      intros Hb Hq Hf. left. apply T; [done|done|]. destruct (decide (result = OK)); [done|]. exfalso. apply Hf. by exists result.
    + eapply wp_mono; [by apply rd_handle|]. cbn beta. intros _ p' (Hp' & M & (T & B & _) & _).
      split_and!; [done|done| |intros _; split; [simpl; by rewrite B|done]].
      intros Hb _ _. right. split; [|done]. cbn. by rewrite T.
    + cbn [cdc_handle]. apply wp_bind, wp_gets.
      destruct (rxfailsafe (priv p)); [|apply wp_ret; split_and!; [done|apply moves_refl|intros ?; by right|done]].
      eapply wp_mono; [by apply release_ok|]. cbn beta. intros _ p' (Hp' & M & (T & B & _) & _).
      split_and!; [done|done| |intros _; split; [simpl; by rewrite B|done]].
      intros Hb _ _. right. split; [|done]. cbn. by rewrite T.
    + eapply wp_mono; [by apply setup_handle|]. cbn beta. intros _ p' (Hp' & M & (T & B & _) & _).
      split_and!; [done|done| |intros _; split; [simpl; by rewrite B|done]].
      intros Hb _ _. right. split; [|done]. cbn. by rewrite T.
  - intros p [_ Hi]. cbn [op_txempty g_uartops]. unfold cdcuart_txempty. apply wp_bind, wp_gets. apply wp_ret. split; [done|].
    destruct Hi as [A B _ _]. rewrite A, Z.leb_le. unfold idle. cbn. lia.
  - intros p [_ Hi]. cbn. pose proof (ci_count _ _ Hi). lia.
Qed.

End Lower.

End CdcProps.
