(* ===== verification/UsbSerial.v ===== *)
(** * What a program gets from [/dev/ttyACM0]

    The upper half of the serial driver over the CDC/ACM lower half: opening,
    writing, reading and draining, and the picture of [web_source] sent through
    both to the host. *)

From S2P Require Import Prelude SerialCodec Serial SerialRing SerialProps CdcDesc CdcAcm CdcCtrl CdcProps.
Import SerialCodec Serial SerialRing SerialProps CdcDesc CdcAcm CdcCtrl CdcProps.

Module UsbSerial.

(** ** The picture over the line

    The calls of [web_source] on the open device; between a [tcdrain] and the
    next group it sleeps, and interrupts are served. *)

Section Play.
Context {P E : Type} `{uart_ops P} (handle : E -> M (port P) unit).
Context (spin : nat) (tick_per_sec : Z) (f : file).

Definition tcdrain : M (sys P E) Z := '(ret, _) ← uart_ioctl handle tick_per_sec TCDRN; mret ret.

Fixpoint play (evs : list ser_event) : M (sys P E) unit :=
  match evs with
  | [] => mret tt
  | SerWrite bs :: evs' => uart_write handle false spin f bs;; play evs'
  | SerDrain :: evs' =>
    tcdrain;;
    (match evs' with [] => mret tt | _ :: _ => irq_point handle end);;
    play evs'
  end.

End Play.

Section Usb.
Context (cfg : cdc_cfg) `{Hctl : controller}.

#[local] Instance ops : uart_ops cdcacm := g_uartops cfg.
#[local] Instance view : StreamView cdcacm cdc_irq := cdc_view cfg.

Abbreviation tty_sys := (sys cdcacm cdc_irq).
Abbreviation handle := (cdc_handle cfg).

(** The open, connected device between calls. *)

Record tty (s : tty_sys) : Prop := {
  ty_ok : port_ok (prt s);
  ty_connected : connected s;
  ty_locks : ub_sem (xmit (d s)) = 1 /\ ub_sem (recv (d s)) = 1
}.

(** The bytes handed to the controller, and those that arrived. *)

Definition wire (s : tty_sys) : list Z := usb (priv (prt s)) ≫= act_sent.
Definition arrived (s : tty_sys) : list Z := usb (priv (prt s)) ≫= act_fed.

(** What the program has written: on the wire, or waiting in the buffer; what
    it has not read: in the buffer, or in pending packets. *)

Definition written_so_far (s : tty_sys) : list Z := wire s ++ queue (xmit (d s)).
Definition unread (s : tty_sys) : list Z :=
  queue (recv (d s)) ++ (rxpending (priv (prt s)) ≫= rest_of (rdreqs (priv (prt s)))).

Context (Hcfg : cfg_ok cfg) (Hin : forall h, ans_in h = OK).

#[local] Instance lower : StreamLower cdcacm cdc_irq handle := cdc_lower cfg Hcfg Hin.

Lemma tty_step w raw s s' : tty s -> step w raw s s' -> tty s'.
Proof.
  intros [A B [C1 C2]] S. destruct (st_locks _ _ _ _ S) as [E1 E2].
  constructor; [by eapply step_port_ok|by eapply step_connected|split; congruence].
Qed.

Lemma step_written w raw s s' : step w raw s s' -> written_so_far s' = written_so_far s ++ w.
Proof. intros [A _ _]. exact (ps_stream _ _ _ _ A). Qed.

Lemma step_unread w raw s s' : step w raw s s' ->
  exists new, arrived s' = arrived s ++ new /\ unread s ++ new = raw ++ unread s'.
Proof. intros [A _ _]. exact (ps_in _ _ _ _ A). Qed.

(** ** Writing *)

(** C21: A write to the open USB serial device while it stays connected.  The
    controller takes every request to send, and the interrupts are calm
    ([calm_sched]): transfers that complete with or without error, packets,
    timeouts, control requests that choose no configuration or interface, and
    signals, in any order at any point; no disconnection, suspension or
    resumption.  The write runs into nothing undefined; when it returns, the
    bytes handed to the controller followed by those in the buffer are the old
    ones followed by exactly the first characters that the result counts, each
    with its output processing (a carriage return of a character that was given
    up may be there); and if transfers keep completing, a blocking write does
    return, with all characters written. *)
Theorem usb_write_stream spin f buf s (Hs : tty s) (Hc : calm_sched (sched s)) (Hf : f_inode f = true) :
  wpl false (uart_write handle false spin f buf) (fun ret s' => tty s' /\ exists extra,
    (0 <= ret <= Z.of_nat (length buf) /\
       written_so_far s' = written_so_far s ++ expand (tc_oflag (d s)) (take (Z.to_nat ret) buf) ++ extra \/
     given_up ret /\ written_so_far s' = written_so_far s ++ extra) /\
    (extra = [] \/ extra = [CR] /\ has (tc_oflag (d s)) OPOST = true /\ ret < Z.of_nat (length buf))) s /\
  (f_nonblock f = false -> quiet s -> prompt (sched s) -> (8 * length buf <= length (sched s))%nat ->
    wp (uart_write handle false spin f buf) (fun ret s' => ret = Z.of_nat (length buf) /\ tty s' /\
      written_so_far s' = written_so_far s ++ expand (tc_oflag (d s)) buf) s).
Proof using Hcfg Hin.
  destruct Hs as [Hp Hcon [L1 L2]]. split.
  - eapply wpl_mono; [by apply (write_ok handle false)|]. intros ret s' (extra & HR & Hex & _).
    destruct HR as [[Hr S]|[Hg S]]; (split; [by eapply tty_step|]); exists extra; (split; [|done]).
    + left. split; [done|]. by apply step_written in S.
    + right. split; [done|]. by apply step_written in S.
  - intros Hnb Hq Hpr Hlen. apply wp_wpl. eapply wpl_mono; [by apply (write_ok handle true)|].
    intros ret s' (extra & HR & Hex & HL & _). destruct (HL eq_refl) as [-> _]. split; [done|].
    destruct Hex as [->|(_ & _ & ?)]; [|lia].
    destruct HR as [[_ S]|[[?|?] _]]; [|unfold EINTR in *; lia|unfold EAGAIN in *; lia].
    rewrite Nat2Z.id, firstn_all, app_nil_r in S. split; [by eapply tty_step|by apply step_written in S].
Qed.

(** ** Reading *)

(** C22: A read from the open USB serial device while it stays connected (as for
    [usb_write_stream]: calm interrupts in any order, a controller that takes
    every request to send): what it returns is the next characters of those that
    arrived, in order, with their input processing; those that arrived and were
    not returned are still unread, in the receive buffer or in packets the driver
    keeps pending.  So a full receive buffer loses nothing here: the rest of a
    packet stays pending ([rxpending]) and is delivered later, other than the
    comment in [cdcacm_recvpacket] says.  The read returns at once where there is
    something to read. *)
Theorem usb_read_stream f buflen s (Hs : tty s) (Hc : calm_sched (sched s)) (Hf : f_inode f = true) :
  wpl false (uart_read handle f buflen) (fun r s' => tty s' /\ written_so_far s' = written_so_far s /\
    exists raw new, arrived s' = arrived s ++ new /\ unread s ++ new = raw ++ unread s' /\
      r.2 = cook_in (tc_iflag (d s)) <$> raw /\ Z.of_nat (length raw) <= Z.max 0 buflen /\
      (r.1 = Z.of_nat (length r.2) /\ (0 < r.1 \/ buflen <= 0) \/ r.2 = [] /\ given_up r.1)) s /\
  (queue (recv (d s)) <> [] -> 0 < buflen ->
    wp (uart_read handle f buflen) (fun r _ => 0 < r.1 <= buflen) s).
Proof using Hcfg Hin.
  destruct Hs as [Hp Hcon [L1 L2]]. split.
  - eapply wpl_mono; [by apply (read_ok handle false)|]. intros r s' [(raw & S & Hr & HR & HL) _].
    pose proof (step_written _ _ _ _ S) as Hw. rewrite app_nil_r in Hw.
    destruct (step_unread _ _ _ _ S) as (new & Hn1 & Hn2). simpl in HL.
    split_and!; [by eapply tty_step|done|]. exists raw, new. split_and!; [done..|lia|done].
  - intros Hq Hb. apply wp_wpl. eapply wpl_mono; [by apply (read_ok handle true)|].
    intros r s' [(raw & S & Hr & HR & HL) Hpos]. specialize (Hpos eq_refl Hb). split; [done|].
    destruct HR as [[-> _]|[_ [E|E]]]; [|rewrite E in Hpos; unfold EINTR in Hpos; lia|rewrite E in Hpos; unfold EAGAIN in Hpos; lia].
    rewrite Hr. cbn [app]. rewrite length_fmap. simpl in HL. lia.
Qed.

(** ** Draining *)

Lemma tcdrain_ioctl tick s (Q : Z -> tty_sys -> Prop) live :
  wpl live (uart_tcdrain handle (10 * tick)) Q s -> wpl live (tcdrain handle tick) Q s.
Proof.
  intros HQ. unfold tcdrain, uart_ioctl. apply wpl_bind, wpl_bind, wpl_zoom.
  cbn [op_ioctl ops g_uartops]. unfold cdcuart_ioctl. apply wpl_bind, wpl_gets. apply wpl_bind, wpl_gets. apply wpl_ret.
  change (set_prt (prt s) s) with (mk_sys (prt s) (sched s) (now s)).
  replace (mk_sys (prt s) (sched s) (now s)) with s by by destruct s.
  change (- ENOTTY =? - ENOTTY) with true. cbn iota. apply wpl_bind, wpl_gets.
  apply wpl_bind. eapply wpl_mono; [exact HQ|]. intros ret s' HQ'. apply wpl_ret, wpl_ret. exact HQ'.
Qed.

(** A lock that is taken stays taken under interrupts: who waits for it gets [-EINTR] or waits. *)

Lemma static_lock (p p' : port cdcacm) : static (serdev p') = static (serdev p) -> ub_sem (xmit (serdev p')) = ub_sem (xmit (serdev p)).
Proof. unfold static. intros. by simplify_eq. Qed.

Lemma take_locked l s : sched s = l -> port_ok (prt s) -> calm_sched l -> ub_sem (xmit (d s)) = 0 ->
  wpl false (take_loop handle XMIT_SEM true l) (fun ret s' => ret = - EINTR /\ step [] [] s s') s.
Proof using Hcfg Hin.
  intros El Hp Hc Hs. revert s El Hp Hs. induction Hc as [|b l Hb Hc IH]; intros s El Hp Hs; cbn [take_loop];
    apply wpl_bind, wpl_gets; cbn [sem_get XMIT_SEM]; fold (d s); rewrite Hs; cbn [Z.ltb Z.compare]; [done|].
  apply wpl_bind, wpl_modify. apply wpl_bind, wpl_zoom. apply wpl_wp. change (prt (set_sched l s)) with (prt s).
  eapply wp_mono; [exact (serve_ok handle (b_events b) (prt s) Hp Hb)|]. intros _ p1 (Hp1 & M1 & _).
  change (set_prt p1 (set_sched l s)) with (mk_sys p1 l (now s)). set (s1 := mk_sys p1 l (now s)).
  assert (S1 : step [] [] s s1) by (apply (flows_step s s1 [b]); [by apply moves_flows|done]).
  pose proof (st_locks _ _ _ _ S1) as [E1 _]. rewrite Hs in E1. apply wpl_bind, wpl_gets. cbn [sem_get]. fold (d s1). rewrite E1.
  destruct (true && signalled b && (0 <=? 0)); [by apply wpl_ret|].
  eapply wpl_mono; [by apply IH|]. intros ret s2 [-> S2]. split; [done|by eapply step_after].
Qed.

(** C23: A drain of the open USB serial device while it stays connected (as for
    [usb_write_stream]: calm interrupts, a controller that takes every request to
    send) ends or is interrupted: with 0, and then every byte has been handed to
    the controller and every transfer is complete; or with a timeout, the buffer
    empty, and the lock of the transmit buffer still taken: from then on a write
    sends nothing, it waits for ever or is interrupted.  If transfers keep
    completing in time the result is 0. *)
Theorem usb_drain tick s (Hs : tty s) (Hc : calm_sched (sched s)) (Ht : 0 <= tick < 429496729) :
  wpl false (tcdrain handle tick) (fun ret s' =>
    (ret = OK /\ tty s' /\ wire s' = written_so_far s /\ bulkin (priv (prt s')) = [] \/
     ret = - EINTR /\ tty s' /\ written_so_far s' = written_so_far s \/
     ret = - ETIMEDOUT /\ wire s' = written_so_far s /\
       forall s2 spin f buf, serdev (prt s2) = serdev (prt s') -> port_ok (prt s2) -> calm_sched (sched s2) -> f_inode f = true ->
         wpl false (uart_write handle false spin f buf) (fun ret s3 => ret = - EINTR /\ written_so_far s3 = written_so_far s2) s2)) s /\
  (quiet s -> prompt (sched s) -> timely (sched s) ->
    (length (queue (xmit (d s))) + NWRREQS cfg <= length (sched s))%nat -> Z.of_nat (NWRREQS cfg) < 10 * tick ->
    wp (tcdrain handle tick) (fun ret s' => ret = OK /\ tty s' /\ quiet s' /\ wire s' = written_so_far s /\
      (exists k, sched s = k ++ sched s' /\ (length k <= length (queue (xmit (d s))) + NWRREQS cfg)%nat)) s).
Proof using Hcfg Hin.
  destruct Hs as [Hp Hcon [L1 L2]]. assert (Hs : tty s) by done.
  assert (Hw : forall s', step [] [] s s' -> queue (xmit (d s')) = [] -> wire s' = written_so_far s).
  { intros s' S%step_written E. unfold written_so_far in S at 1. by rewrite E, !app_nil_r in S. }
  split.
  - apply tcdrain_ioctl. eapply wpl_mono; [apply (tcdrain_ok handle false); [done..|lia|done]|].
    intros ret s' [(-> & S & [Eq Hi])|[(-> & _ & S)|(-> & S & Eq & Hl)]]; [left|right; left|right; right].
    + split_and!; [done|by eapply tty_step|by apply Hw|by apply length_zero_iff_nil].
    + split_and!; [done|by eapply tty_step|]. apply step_written in S. by rewrite app_nil_r in S.
    + split_and!; [done| |].
      * pose proof (ps_stream _ _ _ _ S) as E. unfold stream in E. unfold d in Eq. rewrite Eq, !app_nil_r in E. exact E.
      * intros s2 spin f buf Ed Hp2 Hc2 Hf. unfold uart_write. rewrite Hf. cbn [negb]. apply wpl_bind. unfold uart_takesem.
        apply wpl_bind, wpl_get. eapply wpl_mono; [apply (take_locked (sched s2) s2); [done..|unfold d; by rewrite Ed]|].
        intros r s3 [-> S3]. change (- EINTR <? 0) with true. apply wpl_ret. split; [done|].
        apply step_written in S3. by rewrite app_nil_r in S3.
  - intros Hq Hpr Htm Hlen Hto. apply wp_wpl, tcdrain_ioctl. apply wpl_wp.
    eapply wp_mono; [apply (tcdrain_live handle); try done; change (@out_max cdcacm cdc_irq view) with (NWRREQS cfg); lia|]. cbn beta. intros ret s' (-> & S & [Eq _] & Q & Hsch).
    split_and!; [done|by eapply tty_step|done|by apply Hw|].
    destruct (st_sched _ _ _ _ S) as [k Ek]. exists k. split; [done|]. rewrite Ek, length_app in Hsch. cbn in Hsch. lia.
Qed.

(** ** The picture *)

Lemma expand_raw oflag bs : has oflag OPOST = false -> Forall byte bs -> expand oflag bs = bs.
Proof.
  intros Ho Hb. unfold expand. induction Hb as [|b bs Hb _ IH]; [done|]. cbn [mbind list_bind]. rewrite IH.
  unfold cooked, output_char. rewrite Ho. cbn [app]. f_equal. unfold u8. by rewrite Z.mod_small.
Qed.

(** The batches of interrupts that are enough for the calls, [cap] being the size of the buffer. *)

Definition cost (cap : nat) (evs : list ser_event) : nat :=
  sum_list_with (fun e => match e with SerWrite bs => 8 * length bs | SerDrain => cap + NWRREQS cfg + 1 end)%nat evs.

(** The device with transfers that keep completing in time. *)

Record running (s : tty_sys) : Prop := {
  rn_tty : tty s;
  rn_calm : calm_sched (sched s);
  rn_quiet : quiet s;
  rn_prompt : prompt (sched s);
  rn_timely : timely (sched s)
}.

Lemma running_step w raw s s' : running s -> step w raw s s' -> quiet s' -> running s'.
Proof.
  intros [A B C D0 E0] S Hq. constructor; [by eapply tty_step|by eapply step_calm|done|by eapply step_prompt|by eapply step_timely].
Qed.

Lemma live_write spin f bs s : running s -> f_inode f = true -> f_nonblock f = false -> (8 * length bs <= length (sched s))%nat ->
  wp (uart_write handle false spin f bs) (fun ret s' => step (expand (tc_oflag (d s)) bs) [] s s' /\ quiet s' /\
    (length (sched s) <= length (sched s') + 8 * length bs)%nat) s.
Proof using Hcfg Hin.
  intros [[Hp Hcon [L1 L2]] Hc Hq Hpr _] Hf Hnb Hlen. apply wp_wpl. eapply wpl_mono; [by apply (write_ok handle true)|].
  intros ret s' (extra & HR & Hex & HL & _). destruct (HL eq_refl) as (-> & Q & L). split_and!; [|done|done].
  destruct Hex as [->|(_ & _ & ?)]; [|lia].
  destruct HR as [[_ S]|[[?|?] _]]; [|unfold EINTR in *; lia|unfold EAGAIN in *; lia].
  by rewrite Nat2Z.id, firstn_all, app_nil_r in S.
Qed.

Lemma live_drain tick cap s : running s -> Z.of_nat cap = ub_size (xmit (d s)) -> (cap + NWRREQS cfg <= length (sched s))%nat ->
  Z.of_nat (NWRREQS cfg) < 10 * tick <= 4294967295 ->
  wp (tcdrain handle tick) (fun _ s' => step [] [] s s' /\ quiet s' /\ queue (xmit (d s')) = [] /\
    (length (sched s) <= length (sched s') + (cap + NWRREQS cfg))%nat) s.
Proof using Hcfg Hin.
  intros [[Hp Hcon [L1 L2]] Hc Hq Hpr Htm] Hcap Hlen Ht. pose proof (queue_bound _ (dk_xmit _ (proj1 Hp))) as Hb. fold (d s) in Hb.
  apply wp_wpl, tcdrain_ioctl. apply wpl_wp.
  eapply wp_mono; [apply (tcdrain_live handle); try done; change (@out_max cdcacm cdc_irq view) with (NWRREQS cfg); lia|].
  cbn beta. change (@out_max cdcacm cdc_irq view) with (NWRREQS cfg). intros ret s' (_ & S & [Eq _] & Q & L).
  split_and!; [done|done|done|lia].
Qed.

Lemma step_size w raw s s' : step w raw s s' -> ub_size (xmit (d s')) = ub_size (xmit (d s)).
Proof. intros H%step_fixed. unfold fixed in *. by simplify_eq. Qed.

Lemma play_ok spin tick f cap evs s : running s -> f_inode f = true -> f_nonblock f = false ->
  has (tc_oflag (d s)) OPOST = false -> Forall byte (line_bytes evs) -> Z.of_nat cap = ub_size (xmit (d s)) ->
  (cost cap evs <= length (sched s))%nat -> Z.of_nat (NWRREQS cfg) < 10 * tick <= 4294967295 ->
  wp (play handle spin tick f evs) (fun _ s' => step (line_bytes evs) [] s s' /\ quiet s' /\
    (last evs = Some SerDrain -> queue (xmit (d s')) = [])) s.
Proof using Hcfg Hin.
  intros Hr Hf Hnb Ho Hby Hcap Hcost Ht. revert s Hr Ho Hcap Hcost. induction evs as [|e evs IH]; intros s Hr Ho Hcap Hcost; cbn [play].
  { apply wp_ret. split_and!; [apply (flows_step s s []); [by apply flows_refl, Hr|done]|by apply Hr|done]. }
  assert (Hcons : forall bs, line_bytes (SerWrite bs :: evs) = bs ++ line_bytes evs) by done.
  destruct e as [bs|]; cbn [cost sum_list_with] in Hcost; fold (cost cap evs) in Hcost.
  - rewrite Hcons in Hby |- *. apply Forall_app in Hby as [Hb1 Hb2]. apply wp_bind.
    eapply wp_mono; [apply live_write; [done|done|done|lia]|]. cbn beta. rewrite (expand_raw _ _ Ho Hb1). intros _ s1 (S1 & Q1 & L1).
    eapply wp_mono; [apply IH; [done|by eapply running_step|by rewrite (step_oflag _ _ _ _ S1)|by rewrite (step_size _ _ _ _ S1)|lia]|].
    intros _ s2 (S2 & Q2 & E2). split_and!; [exact (step_trans _ _ [] [] _ _ _ S1 S2)|done|].
    intros Hl. apply E2. by destruct evs.
  - apply wp_bind. eapply wp_mono; [apply (live_drain tick cap); [done|done|lia|done]|]. cbn beta. intros _ s1 (S1 & Q1 & E1 & L1).
    pose proof (running_step _ _ _ _ Hr S1 Q1) as Hr1. change (line_bytes (SerDrain :: evs)) with (line_bytes evs) in *.
    destruct evs as [|e evs']; [apply wp_bind, wp_ret, wp_ret; by split_and!|].
    apply wp_bind. eapply wp_mono; [apply (irq_step handle); apply Hr1|]. intros _ s2 (_ & S2 & K2 & _ & Q2).
    pose proof (running_step _ _ _ _ Hr1 S2 (Q2 Q1)) as Hr2. pose proof (step_after _ _ _ _ _ S1 S2) as S02.
    eapply wp_mono; [apply (IH Hby s2); [done|by rewrite (step_oflag _ _ _ _ S02)|by rewrite (step_size _ _ _ _ S02)|]|].
    { rewrite K2, length_drop. lia. }
    intros _ s3 (S3 & Q3 & E3). split_and!; [by eapply step_after|done|]. intros Hl. exact (E3 Hl).
Qed.

(** The image goes out whole. *)

Lemma picture_bytes mem yuvsize bs evs : holds mem yuvsize bs -> send_image mem yuvsize (Z.of_nat (length bs)) = Ret evs ->
  line_bytes evs = packed_image bs ++ end_word /\ Forall byte (line_bytes evs) /\ last evs = Some SerDrain.
Proof.
  intros Hmem Hev. destruct (send_image_spec mem yuvsize bs Hmem) as (evs' & Hev' & Hline). rewrite Hev in Hev'. injection Hev' as <-.
  split_and!; [done| |].
  - rewrite Hline. apply Forall_app. split; [|by forall_bytes].
    eapply Forall_impl; [apply packed_image_printable|]. unfold printable, byte. intros; lia.
  - unfold send_image in Hev. destruct (send_groups _ _ _ _ _) as [evs0| |]; [|done..]. injection Hev as <-. by rewrite last_app.
Qed.

Lemma picture_sent spin tick f cap mem yuvsize bs evs s : running s -> f_inode f = true -> f_nonblock f = false ->
  has (tc_oflag (d s)) OPOST = false -> Z.of_nat cap = ub_size (xmit (d s)) -> Z.of_nat (NWRREQS cfg) < 10 * tick <= 4294967295 ->
  holds mem yuvsize bs -> send_image mem yuvsize (Z.of_nat (length bs)) = Ret evs -> (cost cap evs <= length (sched s))%nat ->
  wp (play handle spin tick f evs) (fun _ s' => running s' /\ step (line_bytes evs) [] s s' /\
    wire s' = written_so_far s ++ line_bytes evs) s.
Proof using Hcfg Hin.
  intros Hr Hf Hnb Ho Hcap Ht Hmem Hev Hcost. destruct (picture_bytes _ _ _ _ Hmem Hev) as (_ & Hby & Hlast).
  eapply wp_mono; [by apply (play_ok spin tick f cap)|]. intros _ s' (S & Q & Hd).
  split_and!; [by eapply running_step|done|]. apply step_written in S. unfold written_so_far in S at 1.
  by rewrite (Hd Hlast), app_nil_r in S.
Qed.

(** The host has its picture: it recognises [got] as complete and decodes it. *)

Definition picture_given (got bs : list Z) : Prop :=
  isEnd (cbuf_of_list got) (Z.of_nat (length got)) = Ret true /\
  exists out, receive_image (cbuf_of_list got) (Z.of_nat (length got)) = Ret out /\ decoded bs out.

Lemma picture_decoded mem yuvsize bs evs : Forall byte bs -> holds mem yuvsize bs ->
  send_image mem yuvsize (Z.of_nat (length bs)) = Ret evs -> picture_given (line_bytes evs) bs.
Proof.
  intros Hbytes Hmem Hev. destruct (picture_bytes _ _ _ _ Hmem Hev) as (Hline & _ & _).
  assert (Hgot : holds (cbuf_of_list (line_bytes evs)) 0 (line_bytes evs)).
  { intros k x Hk. rewrite Z.add_0_r. by apply cb_read_list. }
  split.
  - rewrite (isEnd_framing mem yuvsize bs evs); [by rewrite Z.eqb_refl|done|done|done|simpl; lia|].
    rewrite Hline, length_app. simpl. lia.
  - rewrite Hline in *. apply receive_decoded; [done|done|]. simpl. lia.
Qed.

(** C8: The picture of [web_source] reaches the host.  On an open, connected
    device without output processing, on a controller that takes every request
    to send, with transfers that keep completing in time ([running]) and enough
    of them ([cost]): packing the image, writing its groups to the device and
    draining it returns, and the bytes the controller was given since, followed
    by nothing else, are what the host recognises as complete and decodes to the
    image; exactly where its length is a multiple of seven, otherwise to all of
    its full groups and seven more bytes. *)
Theorem picture_over_usb spin tick f cap mem yuvsize bs s (Hr : running s)
    (Hf : f_inode f = true) (Hnb : f_nonblock f = false) (Ho : has (tc_oflag (d s)) OPOST = false)
    (Hcap : Z.of_nat cap = ub_size (xmit (d s))) (Ht : Z.of_nat (NWRREQS cfg) < 10 * tick <= 4294967295)
    (Hbytes : Forall byte bs) (Hmem : holds mem yuvsize bs) :
  exists evs, send_image mem yuvsize (Z.of_nat (length bs)) = Ret evs /\
    ((cost cap evs <= length (sched s))%nat ->
     wp (play handle spin tick f evs) (fun _ s' => running s' /\ exists got, wire s' = written_so_far s ++ got /\ picture_given got bs) s).
Proof using Hcfg Hin.
  destruct (send_image_spec mem yuvsize bs Hmem) as (evs & Hev & Hline). exists evs. split; [done|]. intros Hcost.
  eapply wp_mono; [by apply (picture_sent spin tick f cap mem yuvsize bs evs)|]. intros _ s' (Hr' & _ & Hw). split; [done|].
  exists (line_bytes evs). split; [done|]. by apply (picture_decoded mem yuvsize).
Qed.

(** ** Bringing the device up *)

Record sizes_ok : Prop := {
  so_tx : 2 <= TXBUFSIZE cfg <= 32767;
  so_rx : 2 <= RXBUFSIZE cfg <= 32767;
  so_rd : (0 < NRDREQS cfg <= 255)%nat
}.

Context (Hout : forall h, ans_out h = OK) (Hconf : forall h, ans_conf h = OK) (Hsz : sizes_ok).

Lemma submit_out_ok id p :
  wp (submit_out id) (fun ret p' => ret = OK /\
    p' = set_priv (set_bulkout (bulkout (priv p) ++ [id]) (set_usb (usb (priv p) ++ [SubmitOut id OK]) (priv p))) p) p.
Proof using Hout.
  unfold submit_out. apply wp_bind, wp_gets. cbn zeta. rewrite Hout. apply wp_bind, wp_zoom, wp_modify.
  change (OK =? OK) with true. cbn iota. apply wp_bind, wp_zoom, wp_modify, wp_ret. done.
Qed.

Definition with_reads (n i : nat) (acts : list usb_act) (c : cdcacm) : cdcacm :=
  set_nrdq (nrdq c + Z.of_nat n) (set_bulkout (bulkout c ++ seq i n) (set_usb (usb c ++ acts) c)).

Lemma queue_reads_ok n i p : 0 <= nrdq (priv p) -> nrdq (priv p) + Z.of_nat n <= 255 ->
  wp (queue_reads n i) (fun ret p' => ret = OK /\ exists acts, silent acts /\ p' = set_priv (with_reads n i acts (priv p)) p) p.
Proof using Hout.
  revert i p. induction n as [|n IH]; intros i p H0 Hn; cbn [queue_reads].
  { apply wp_ret. split; [done|]. exists []. split; [done|]. unfold with_reads. cbn [seq]. rewrite !app_nil_r, Z.add_0_r.
    by destruct p as [? []]. }
  apply wp_bind. eapply wp_mono; [apply submit_out_ok|]. intros ret p1 [-> ->]. change (negb (OK =? OK)) with false. cbn iota.
  apply wp_bind, wp_zoom, wp_modify. cbn [priv set_priv nrdq set_bulkout set_usb]. unfold u8. rewrite Z.mod_small by lia.
  eapply wp_mono; [apply IH; cbn; lia|]. intros ret p2 (-> & acts & Ha & ->). split; [done|].
  exists (SubmitOut i OK :: acts). split; [exact (silent_app [SubmitOut i OK] acts (conj eq_refl eq_refl) Ha)|].
  unfold with_reads. cbn. rewrite <- !(assoc_L (++)). by replace (nrdq (priv p) + 1 + Z.of_nat n) with (nrdq (priv p) + Z.of_nat (S n)) by lia.
Qed.

Lemma configure_ok ep p :
  wp (configure ep) (fun ret p' => ret = OK /\ p' = set_priv (set_usb (usb (priv p) ++ [EpConfigure ep OK]) (priv p)) p) p.
Proof using Hconf. unfold configure. apply wp_bind, wp_gets. rewrite Hconf. apply wp_bind, wp_zoom, wp_modify, wp_ret. done. Qed.

(** The first configuration. *)

Lemma setconfig_ok p : config (priv p) = CDCACM_CONFIGIDNONE -> nrdq (priv p) = 0 ->
  wp (cdcacm_setconfig cfg CDCACM_CONFIGID) (fun ret p' => ret = OK /\ exists acts, silent acts /\
    p' = mk_port (set_disconnected false (serdev p)) (set_config CDCACM_CONFIGID (with_reads (NRDREQS cfg) 0 acts (priv p)))) p.
Proof using Hout Hconf Hsz.
  intros Ec En. unfold cdcacm_setconfig. apply wp_bind, wp_gets. rewrite Ec. change (CDCACM_CONFIGID =? CDCACM_CONFIGIDNONE) with false.
  cbn iota. apply wp_bind. unfold cdcacm_resetconfig at 1. apply wp_bind, wp_gets. rewrite Ec. apply wp_ret.
  change (negb (CDCACM_CONFIGID =? CDCACM_CONFIGID)) with false. cbn iota.
  apply wp_bind. eapply wp_mono; [apply configure_ok|]. intros r1 p1 [-> ->]. change (OK <? 0) with false. cbn iota.
  apply wp_bind. eapply wp_mono; [apply configure_ok|]. intros r2 p2 [-> ->]. change (OK <? 0) with false. cbn iota.
  apply wp_bind. eapply wp_mono; [apply configure_ok|]. intros r3 p3 [-> ->]. change (OK <? 0) with false. cbn iota.
  apply wp_bind, wp_gets. cbn [priv set_priv nrdq set_usb]. rewrite En. apply wp_bind, wp_ret. apply wp_bind.
  eapply wp_mono; [apply queue_reads_ok; cbn; rewrite En; [done|destruct Hsz; lia]|].
  intros r4 p4 (-> & acts & Ha & ->). change (negb (OK =? OK)) with false. cbn iota.
  apply wp_bind, wp_zoom, wp_modify. apply wp_bind, wp_zoom. unfold uart_connected. apply wp_bind, wp_modify. apply wp_ret, wp_ret.
  split; [done|]. exists ([EpConfigure EpIntIn OK; EpConfigure EpBulkIn OK; EpConfigure EpBulkOut OK] ++ acts).
  split; [by apply silent_app|]. unfold with_reads. cbn. by rewrite <- !(assoc_L (++)).
Qed.

(** The host's request for the configuration, on a device that was not configured. *)

Definition set_configuration : ctrlreq := mk_ctrl USB_DIR_OUT USB_REQ_SETCONFIGURATION CDCACM_CONFIGID 0 0.

Lemma set_configuration_ok p : config (priv p) = CDCACM_CONFIGIDNONE -> nrdq (priv p) = 0 ->
  wp (handle (Setup set_configuration None)) (fun _ p' => exists acts, silent acts /\
    p' = mk_port (set_disconnected false (serdev p)) (set_config CDCACM_CONFIGID (with_reads (NRDREQS cfg) 0 acts (priv p)))) p.
Proof using Hout Hconf Hsz.
  intros Ec En. cbn [cdc_handle]. apply wp_bind. unfold cdcacm_setup. cbn zeta. apply wp_bind.
  change (Z.land (ctrl_type set_configuration) USB_REQ_TYPE_MASK =? USB_REQ_TYPE_STANDARD) with true. cbn iota.
  unfold standard_request. cbn zeta.
  change (ctrl_req set_configuration =? USB_REQ_GETDESCRIPTOR) with false.
  change (ctrl_req set_configuration =? USB_REQ_SETCONFIGURATION) with true. change (ctrl_type set_configuration =? 0) with true. cbn iota.
  apply wp_bind. change (u8 (ctrl_value set_configuration)) with CDCACM_CONFIGID.
  eapply wp_mono; [by apply setconfig_ok|]. intros ret p1 (-> & acts & Ha & ->). apply wp_ret.
  change (0 <=? OK) with true. cbn iota. eapply wp_mono; [apply respond_ok; by vm_compute|].
  intros ret p2 (sub & _ & ->). apply wp_ret. exists (acts ++ [SubmitEp0 sub ret]).
  split; [by apply silent_app|]. unfold with_reads. cbn. by rewrite <- (assoc_L (++)).
Qed.

(** The device between registration, configuration and the first open. *)

Definition registered_dev : uart_dev :=
  let d := initial_dev cfg in
  set_pollsem 1 (set_recvsem 0 (set_xmitsem 0 (set_closesem 1
    (set_recv (set_ub_sem 1 (recv d)) (set_xmit (set_ub_sem 1 (xmit d)) d))))).

Definition configured (acts : list usb_act) : port cdcacm :=
  mk_port (set_disconnected false registered_dev)
    (set_config CDCACM_CONFIGID (with_reads (NRDREQS cfg) 0 acts (initial_cdc cfg))).

Lemma configured_ok acts : port_ok (configured acts).
Proof using Hcfg Hsz.
  destruct Hsz, Hcfg as [_ Hw]. split.
  - constructor; cbn; [..|done|done].
    1, 2: constructor; cbn; rewrite ?length_replicate; lia.
    unfold polls_ok. cbn. repeat constructor; done.
  - constructor; cbn.
    + by rewrite length_seq.
    + rewrite length_seq. lia.
    + apply NoDup_seq.
    + intros i Hi. exists (mk_rdreq [] 0). split; [|split_and!; simpl; [lia|lia|lia|constructor]].
      apply elem_of_list_to_map_1; [|apply list_elem_of_fmap; by exists i].
      rewrite <- list_fmap_compose. cbn. rewrite list_fmap_id. apply NoDup_seq.
Qed.

Lemma cdc_open_ok s f : port_ok (prt s) -> connected s -> closesem (d s) = 1 -> open_count (d s) = 0 -> isconsole (d s) = false ->
  config (priv (prt s)) <> CDCACM_CONFIGIDNONE -> rxpending (priv (prt s)) = [] -> f_inode f = true ->
  wp (uart_open handle f) (fun ret s' => ret = OK /\ sched s' = sched s /\
    exists p1, port_ok p1 /\ priv p1 = set_rxfailsafe false (set_rxenabled true (priv (prt s))) /\ moves (set_serdev (set_closesem 0 (d s)) (prt s)) p1 /\
      prt s' = set_serdev (set_closesem (closesem (serdev p1) + 1) (set_open_count 1 (serdev p1))) p1) s.
Proof using Hcfg Hin.
  intros Hp Hcon Hcl Hcnt Hcs Hconf' Hpd Hf. unfold uart_open. rewrite Hf. cbn [negb]. apply wp_bind. unfold uart_takesem. apply wp_bind, wp_get.
  set (s0 := set_prt (set_serdev (set_closesem 0 (d s)) (prt s)) s).
  eapply wp_mono with (Q := fun ret s' => ret = OK /\ s' = s0).
  { destruct (sched s); cbn [take_loop]; apply wp_bind, wp_gets; cbn [sem_get CLOSESEM]; fold (d s); rewrite Hcl;
      cbn [Z.ltb Z.compare]; by apply wp_bind, wp_zoom, wp_zoom, wp_modify, wp_ret. }
  intros ret s1 [-> ->]. change (OK <? 0) with false. cbn iota. apply wp_bind. apply wp_bind, wp_gets. unfold id. cbn beta. fold (d s0).
  change (disconnected (d s0)) with (disconnected (d s)). change (open_count (d s0)) with (open_count (d s)).
  change (isconsole (d s0)) with (isconsole (d s)). rewrite (Hcon : disconnected (d s) = false), Hcnt, Hcs. cbn zeta.
  change (u8 (0 + 1)) with 1. cbn [Z.eqb Pos.eqb negb]. apply wp_bind. apply wp_bind, wp_zoom.
  cbn [op_setup ops g_uartops]. unfold cdcuart_setup. apply wp_bind, wp_gets, wp_ret. change (config (priv (prt s0))) with (config (priv (prt s))).
  rewrite (proj2 (Z.eqb_neq _ _) Hconf'). change (OK <? 0) with false. cbn iota.
  apply wp_bind, wp_zoom, wp_ret. change (OK <? 0) with false. cbn iota.
  assert (Hp0 : port_ok (prt s0)) by (destruct Hp as [[A B C D0 E0] F]; split; [by constructor|exact F]).
  apply wp_bind, wp_zoom. eapply wp_mono; [exact (wp_and _ _ _ _ (rxint_ok cfg true (prt s0) Hp0) (rxint_idle (prt s0) Hpd))|].
  cbn beta. intros _ p1 [(Hp1 & M1 & _) Ei]. apply wp_ret.
  change (OK <? 0) with false. cbn iota. apply wp_bind, wp_zoom, wp_zoom, wp_modify, wp_ret.
  apply wp_bind, wp_zoom, wp_zoom, wp_modify, wp_ret. split_and!; [done|done|]. exists p1. split_and!; [done| |done|done]. by rewrite Ei.
Qed.

Lemma register_ok registered c sch t :
  wp (uart_register registered : M tty_sys Z) (fun ret s' => ret = registered /\ s' = mk_sys (mk_port registered_dev c) sch t)
    (mk_sys (mk_port (initial_dev cfg) c) sch t).
Proof.
  unfold uart_register. apply wp_bind, wp_gets. unfold id. cbn. apply wp_bind, wp_ret. apply wp_bind, wp_zoom, wp_zoom.
  do 5 apply wp_bind, wp_modify. by apply wp_modify, wp_ret.
Qed.

(** The configuration by the host and the first open, on the registered device. *)

Lemma boot_ok sch t f (Hf : f_inode f = true) :
  wp (on_port (handle (Setup set_configuration None));; uart_open handle f)
    (fun ret s' => ret = OK /\ tty s' /\ quiet s' /\ sched s' = sch /\
      written_so_far s' = [] /\ unread s' = arrived s' /\ tc_oflag (d s') = 0 /\ tc_iflag (d s') = 0 /\ ub_size (xmit (d s')) = TXBUFSIZE cfg /\
      ub_size (recv (d s')) = RXBUFSIZE cfg /\ listening (priv (prt s')))
    (mk_sys (mk_port registered_dev (initial_cdc cfg)) sch t).
Proof using Hcfg Hin Hout Hconf Hsz.
  apply wp_bind, wp_zoom.
  eapply wp_mono; [by apply set_configuration_ok|]. intros _ p1 (acts & [Ha1 Ha2] & ->).
  change (set_prt _ _) with (mk_sys (configured acts) sch t).
  eapply wp_mono; [apply cdc_open_ok; [apply configured_ok|done..]|].
  intros ret2 s2 (-> & Es & p2 & Hp2 & Ei2 & M & Ep). split; [done|].
  set (p0 := set_serdev _ _) in *.
  assert (Hq : quiet (mk_sys p2 sch t)) by (apply (moves_quiet (mk_sys p0 sch t)); done).
  destruct (moves_flows _ _ Hp2 M) as [Hst [_ _ Hstr (new & Hn1 & Hn2)] _ _].
  assert (Hd : serdev (prt s2) = set_closesem (closesem (serdev p2) + 1) (set_open_count 1 (serdev p2)) /\ priv (prt s2) = priv p2) by by rewrite Ep.
  assert (Hfix : fixed (serdev p2) = fixed (serdev p0)) by exact (f_equal (fun x => x.1.1) Hst).
  unfold static in Hst. injection Hst as _ Hsx _ Hsr _. unfold fixed in Hfix. cbn in Hfix. injection Hfix as _ Hcon _ Hif Hof _ _ _ _ Hsize Hrsize _.
  unfold quiet, written_so_far, unread, wire, arrived, connected, d in *. destruct Hd as [Hd Hpr]. rewrite Hd, Hpr. cbn in *.
  split_and!; [|apply Hq|apply Hq|done|..].
  - constructor; unfold connected, d; rewrite ?Hd; cbn; [|done|done]. rewrite Ep.
    destruct Hp2 as [[A B C D0 E0] F]. split; [by constructor|exact F].
  - rewrite Hstr. unfold stream. cbn. rewrite bind_app, Ha1. by destruct (selfpowered _).
  - rewrite Hn1. cbn. rewrite bind_app, Ha2. destruct (selfpowered _); symmetry; exact Hn2.
  - done.
  - done.
  - done.
  - done.
  - rewrite Ei2. constructor; [done|done|]. destruct Hsz as [_ _ [Hrd _]]. cbn. by destruct (NRDREQS cfg); [lia|].
Qed.

Lemma ready_ok registered sch t f (Hf : f_inode f = true) :
  wp (uart_register registered;; on_port (handle (Setup set_configuration None));; uart_open handle f)
    (fun ret s' => ret = OK /\ tty s' /\ quiet s' /\ sched s' = sch /\
      written_so_far s' = [] /\ unread s' = arrived s' /\ tc_oflag (d s') = 0 /\ tc_iflag (d s') = 0 /\ ub_size (xmit (d s')) = TXBUFSIZE cfg)
    (mk_sys (mk_port (initial_dev cfg) (initial_cdc cfg)) sch t).
Proof using Hcfg Hin Hout Hconf Hsz.
  apply wp_bind. eapply wp_mono; [by apply register_ok|]. intros _ s0 [_ ->]. eapply wp_mono; [by apply boot_ok|]. intros ret s' (H1 & H2 & H3 & H4 & H5 & H6 & H7 & H8 & H9 & _). by split_and!.
Qed.

(** After registration, the configuration by the host and the first open,
    with a controller that takes every request, the device is ready: open
    returns 0, the invariant holds, nothing was sent, what arrived is unread, and
    no processing is on. *)
Theorem usb_ready registered sch t f (Hf : f_inode f = true) :
  wp (uart_register registered;; on_port (handle (Setup set_configuration None));; uart_open handle f)
    (fun ret s' => ret = OK /\ tty s' /\ quiet s' /\ sched s' = sch /\
      written_so_far s' = [] /\ unread s' = arrived s' /\ tc_oflag (d s') = 0 /\ tc_iflag (d s') = 0 /\ ub_size (xmit (d s')) = TXBUFSIZE cfg)
    (mk_sys (mk_port (initial_dev cfg) (initial_cdc cfg)) sch t).
Proof using Hcfg Hin Hout Hconf Hsz. by apply ready_ok. Qed.

End Usb.

(** ** The configuration of [sdk.config] with a controller that takes every request *)

Definition acm_desc : desc_cfg :=
  mk_desc_cfg 64 1356 3010 [83; 79; 78; 89] [67; 68; 67; 47; 65; 67; 77; 32; 83; 101; 114; 105; 97; 108] [48] [66; 117; 108; 107]
    64 64 64 512 64 512 true false 100 0 6 4 5.

Definition acm_cfg : cdc_cfg := mk_cfg 4 4 513 769 768 64 USB_SPEED_HIGH acm_desc.

#[local] Instance obliging : controller := {| ans_in _ := OK; ans_out _ := OK; ans_conf _ := OK; ans_ep0 _ := OK |}.

Lemma acm_ok : cfg_ok acm_cfg.
Proof. split; simpl; lia. Qed.

Lemma acm_sizes : sizes_ok acm_cfg.
Proof. split; simpl; lia. Qed.

Definition rw_file : file := mk_file true false.

(** A transfer completes in each of [n] batches. *)

Definition busy_line (n : nat) : list (batch cdc_irq) := replicate n (mk_batch [Irq (WrComplete OK)] 1).

Lemma busy_calm n : calm_sched (Hview := cdc_view acm_cfg) (busy_line n).
Proof. apply Forall_replicate. by repeat constructor. Qed.

Lemma busy_prompt n : prompt (Hview := cdc_view acm_cfg) (busy_line n).
Proof.
  apply Forall_replicate. split_and!; [|by repeat constructor; intros (? & [= <-] & ?)|done].
  exists (WrComplete OK). split; [by left|done].
Qed.

Lemma busy_timely n : timely (busy_line n).
Proof. by apply Forall_replicate. Qed.

Lemma device_up sch : exists s, tty acm_cfg s /\ quiet s /\ sched s = sch /\ written_so_far s = [] /\
  tc_oflag (d s) = 0 /\ ub_size (xmit (d s)) = 769.
Proof.
  destruct (ready_ok (Hctl := obliging) acm_cfg acm_ok (fun _ => eq_refl) (fun _ => eq_refl) (fun _ => eq_refl) acm_sizes 0 sch 0 rw_file eq_refl)
    as (ret & s & _ & _ & A & B & C & D & _ & F & _ & G). by exists s.
Qed.

Lemma usb_ready_witness :
  rw_file.(f_inode) = true /\
  exists ret s', (uart_register 0;; on_port (cdc_handle acm_cfg (Setup set_configuration None));;
      uart_open (H := g_uartops acm_cfg) (cdc_handle acm_cfg) rw_file)
    (mk_sys (mk_port (initial_dev acm_cfg) (initial_cdc acm_cfg)) (busy_line 2) 0) = Ret (ret, s') /\ ret = OK /\ tty acm_cfg s'.
Proof.
  split; [reflexivity|].
  destruct (usb_ready (Hctl := obliging) acm_cfg acm_ok (fun _ => eq_refl) (fun _ => eq_refl) (fun _ => eq_refl) acm_sizes
    0 (busy_line 2) 0 rw_file eq_refl) as (ret & s & E & A & B & _).
  exists ret, s. split; [exact E|]. split; [exact A|exact B].
Defined.

Lemma usb_write_stream_witness :
  exists s ret s', uart_write (H := g_uartops acm_cfg) (cdc_handle acm_cfg) false 0 rw_file [104; 105; 10] s = Ret (ret, s') /\
    ret = 3 /\ written_so_far s' = [104; 105; 10].
Proof.
  destruct (device_up (busy_line 24)) as (s & Ht & Hq & Es & Hw & Ho & _). exists s.
  destruct (usb_write_stream (Hctl := obliging) acm_cfg acm_ok (fun _ => eq_refl) 0 rw_file [104; 105; 10] s Ht
    ltac:(rewrite Es; apply busy_calm) eq_refl) as [_ HL].
  destruct (HL eq_refl Hq ltac:(rewrite Es; apply busy_prompt) ltac:(rewrite Es; simpl; lia)) as (ret & s' & E & -> & _ & Hs).
  exists 3, s'. split_and!; [exact E|done|]. rewrite Hs, Hw, Ho. reflexivity.
Defined.

Lemma usb_read_stream_witness :
  exists s, tty acm_cfg s /\ wpl false (uart_read (H := g_uartops acm_cfg) (cdc_handle acm_cfg) rw_file 5)
    (fun r s' => tty acm_cfg s' /\ written_so_far s' = []) s.
Proof.
  destruct (device_up [mk_batch [Irq (RdComplete OK [111; 107]); Signal] 1]) as (s & Ht & Hq & Es & Hw & Ho & _). exists s.
  split; [done|].
  destruct (usb_read_stream (Hctl := obliging) acm_cfg acm_ok (fun _ => eq_refl) rw_file 5 s Ht) as [HS _].
  - rewrite Es. repeat constructor; simpl; lia.
  - reflexivity.
  - eapply wpl_mono; [exact HS|]. intros r s' (A & B & _). rewrite Hw in B. by split.
Defined.

Lemma usb_drain_witness :
  exists s ret s', tcdrain (H := g_uartops acm_cfg) (cdc_handle acm_cfg) 100 s = Ret (ret, s') /\ ret = OK /\ wire s' = [].
Proof.
  destruct (device_up (busy_line 800)) as (s & Ht & Hq & Es & Hw & _ & Hz). exists s.
  pose proof (queue_bound _ (dk_xmit _ (proj1 (ty_ok _ _ Ht)))) as Hb. fold (d s) in Hb. rewrite Hz in Hb.
  destruct (usb_drain (Hctl := obliging) acm_cfg acm_ok (fun _ => eq_refl) 100 s Ht
    ltac:(rewrite Es; apply busy_calm) ltac:(lia)) as [_ HL].
  destruct (HL Hq ltac:(rewrite Es; apply busy_prompt) ltac:(rewrite Es; apply busy_timely)) as (ret & s' & E & -> & _ & _ & Hs & _).
  - rewrite Es. unfold busy_line. rewrite length_replicate. simpl. lia.
  - simpl. lia.
  - exists OK, s'. split_and!; [exact E|done|]. by rewrite Hs.
Defined.

Lemma picture_over_usb_witness :
  exists evs s s', send_image sample_mem 4 14 = Ret evs /\
    play (H := g_uartops acm_cfg) (cdc_handle acm_cfg) 0 100 rw_file evs s = Ret (tt, s') /\
    receive_image (cbuf_of_list (wire s')) (Z.of_nat (length (wire s'))) = Ret sample_image.
Proof.
  destruct (device_up (busy_line 1000)) as (s & Ht & Hq & Es & Hw & Ho & Hz).
  assert (Hrun : running acm_cfg s).
  { constructor; [done|rewrite Es; apply busy_calm|done|rewrite Es; apply busy_prompt|rewrite Es; apply busy_timely]. }
  destruct (picture_over_usb (Hctl := obliging) acm_cfg acm_ok (fun _ => eq_refl) 0 100 rw_file 769 sample_mem 4 sample_image s)
    as (evs & Hev & HL); [done|reflexivity|reflexivity|by rewrite Ho|by rewrite Hz|simpl; lia|forall_bytes|apply sample_holds|].
  destruct HL as ([] & s' & E & _ & got & Hgot & _ & out & Hrec & _ & _ & Hsame).
  - rewrite Es. unfold busy_line. rewrite length_replicate. vm_compute in Hev. injection Hev as <-. vm_compute. lia.
  - exists evs, s, s'. split_and!; [done|exact E|]. rewrite Hgot, Hw. cbn [app]. by rewrite Hrec, (Hsame eq_refl).
Defined.

End UsbSerial.
