(* ===== verification/UsbSafe.v ===== *)
(** * The USB serial device never breaks

    Calls of programs on [/dev/ttyACM0] in any order, with transfers that succeed
    or fail, packets, timeouts, signals, suspensions and disconnections at every
    point where the code can be interrupted, on a controller that takes or
    refuses requests as it likes. *)

From S2P Require Import Prelude Serial SerialRing SerialProps SerialSafe CdcDesc CdcAcm CdcCtrl CdcProps UsbSerial.
Import Serial SerialRing SerialProps SerialSafe CdcDesc CdcAcm CdcCtrl CdcProps UsbSerial.

Module UsbSafe.

(** All interrupts but the host's choice of the configuration, which can run into
    the assertion on [nrdq]; packets have at most 65535 bytes, and the data of a
    control request is as long as its header says. *)

Definition benign (e : cdc_irq) : Prop :=
  match e with
  | RdComplete _ data => Z.of_nat (length data) <= 65535 /\ Forall (fun b => 0 <= b < 256) data
  | Setup ctrl dataout =>
    request_ok ctrl dataout /\ (ctrl_req ctrl = USB_REQ_SETCONFIGURATION -> u8 (ctrl_value ctrl) <> CDCACM_CONFIGID)
  | _ => True
  end.

(** ** Calls *)

Inductive call :=
| Open (f : file)
| Close (f : file)
| Read (f : file) (buflen : Z)
| Write (f : file) (buf : list Z)
| Ioctl (req : ioctl_req)
| Poll (id : nat) (setup : bool).

Section Safe.
Context (cfg : cdc_cfg) `{Hctl : controller}.

#[local] Instance ops : uart_ops cdcacm := g_uartops cfg.

Abbreviation tty_sys := (sys cdcacm cdc_irq).
Abbreviation handle := (cdc_handle cfg).

Definition do_call (spin : nat) (tick : Z) (c : call) : M tty_sys unit :=
  match c with
  | Open f => uart_open handle f;; mret tt
  | Close f => uart_close handle tick f;; mret tt
  | Read f buflen => uart_read handle f buflen;; mret tt
  | Write f buf => uart_write handle false spin f buf;; mret tt
  | Ioctl req => uart_ioctl handle tick req;; mret tt
  | Poll id setup => uart_poll handle id setup;; mret tt
  end.

Fixpoint do_calls (spin : nat) (tick : Z) (cs : list call) : M tty_sys unit :=
  match cs with [] => mret tt | c :: cs' => do_call spin tick c;; do_calls spin tick cs' end.

(** The file is open, and the structure of [poll] exists. *)

Definition allowed (polled : gset nat) (c : call) : Prop :=
  match c with
  | Open f | Close f | Read f _ | Write f _ => f_inode f = true
  | Ioctl _ => True
  | Poll id _ => id ∈ polled
  end.

(** Well-formed data of the lower half.  It is the invariant of the streams for
    as many containers as there are: where the controller refuses a request, its
    container is lost. *)

Record cdc_wf (c : cdcacm) : Prop := {
  cw_nwrq : nwrq c = Z.of_nat (length (txfree c));
  cw_count : (length (txfree c) + length (bulkin c) <= NWRREQS cfg)%nat;
  cw_nodup : NoDup (rxpending c ++ bulkout c);
  cw_reqs : forall id, id ∈ rxpending c ++ bulkout c -> exists r, rdreqs c !! id = Some r /\ good_rd r
}.

Definition with_nwr (n : nat) : cdc_cfg :=
  mk_cfg n (NRDREQS cfg) (RXBUFSIZE cfg) (TXBUFSIZE cfg) (BULKIN_REQLEN cfg) (maxpacket cfg) (usb_speed cfg) (desc cfg).

Lemma wf_inv c : cdc_wf c -> exists n, (n <= NWRREQS cfg)%nat /\ cdc_inv (with_nwr n) c.
Proof. intros [A B C D]. exists (length (txfree c) + length (bulkin c))%nat. by split. Qed.

Lemma inv_wf n c : (n <= NWRREQS cfg)%nat -> cdc_inv (with_nwr n) c -> cdc_wf c.
Proof. intros Hn [A B C D]. cbn in B. constructor; try done. lia. Qed.

Context (Hcfg : cfg_ok cfg).

Abbreviation safe_at sz := (safe (port_inv cdc_wf sz)).

Lemma static_shape d d' : static d' = static d -> shape d' = shape d.
Proof. intros Hst. unfold static, fixed in Hst. unfold shape. simplify_eq. congruence. Qed.

(** What only moves characters is safe. *)

Lemma moves_safe {A} sz (m : M (port cdcacm) A) :
  (forall n p, @port_ok _ _ (cdc_view (with_nwr n)) p ->
     wp m (fun _ p' => @port_ok _ _ (cdc_view (with_nwr n)) p' /\ @moves _ _ (cdc_view (with_nwr n)) p p') p) ->
  safe_at sz m.
Proof.
  intros H p [[Hd Hs] Hi]. destruct (wf_inv _ Hi) as (n & Hn & Hi'). apply wpl_wp.
  eapply wp_mono; [by apply (H n)|]. intros _ p' [[Hd' Hi2] [Hst _ _]].
  split; [|by apply (inv_wf n)]. split; [done|]. rewrite <- Hs. by apply static_shape.
Qed.

(** Transmission, where the controller may refuse. *)

Lemma submit_in_wf id data p : dev_ok (serdev p) -> (length (txfree (priv p)) + S (length (bulkin (priv p))) <= NWRREQS cfg)%nat ->
  cdc_wf (priv p) -> wp (submit_in id data) (fun _ p' => serdev p' = serdev p /\ txfree (priv p') = txfree (priv p) /\ cdc_wf (priv p')) p.
Proof using.
  intros Hd Hlen [A B C D]. unfold submit_in. apply wp_bind, wp_gets. cbn zeta. apply wp_bind, wp_zoom, wp_modify. apply wp_bind.
  destruct (_ =? OK); [apply wp_zoom, wp_modify|apply wp_ret]; apply wp_ret; split_and!; try done; constructor; try done.
  cbn. rewrite length_app. simpl. lia.
Qed.

Lemma snd_loop_wf reqlen free p : dev_ok (serdev p) -> cdc_wf (priv p) -> txfree (priv p) = free -> 0 < reqlen ->
  wp (snd_loop reqlen free) (fun _ p' => dev_ok (serdev p') /\ static (serdev p') = static (serdev p) /\ cdc_wf (priv p')) p.
Proof using Hcfg.
  intros Hd Hi Ef Hl. revert p Hd Hi Ef. induction free as [|id free IH]; intros p Hd Hi Ef; cbn [snd_loop].
  { by apply wp_ret. }
  apply wp_bind. eapply wp_mono; [by apply fillrequest_ok|]. cbn beta. intros data p1 ([T1 T2 _ _ _] & Ep1 & _).
  destruct (0 <? Z.of_nat (length data)); [|apply wp_ret; by rewrite Ep1].
  apply wp_bind, wp_zoom, wp_modify. apply wp_bind, wp_zoom, wp_modify. apply wp_bind. cbn [priv set_priv]. rewrite Ep1.
  destruct Hi as [A B C D]. rewrite Ef in A, B. cbn [length] in A, B. pose proof (co_wr _ Hcfg) as Hw.
  assert (Hi' : cdc_wf (set_nwrq (u8 (nwrq (set_txfree free (priv p)) - 1)) (set_txfree free (priv p)))).
  { constructor; cbn; try done; [|lia]. rewrite A. unfold u8. rewrite Z.mod_small; lia. }
  eapply wp_mono; [apply submit_in_wf; [exact T1|cbn; lia|exact Hi']|]. cbn beta. intros ret p2 (E2 & F2 & Hi2).
  destruct (negb _); [apply wp_ret; by rewrite E2|].
  eapply wp_mono; [apply IH; [by rewrite E2|done|by rewrite F2]|]. cbn beta. intros _ p3 (D3 & S3 & I3).
  split_and!; [done| |done]. by rewrite S3, E2.
Qed.

Lemma snd_safe sz : safe_at sz (cdcacm_sndpacket cfg).
Proof using Hcfg.
  intros p [[Hd Hs] Hi]. apply wpl_wp. unfold cdcacm_sndpacket. apply wp_bind, wp_gets.
  eapply wp_mono; [by apply snd_loop_wf; [..|apply (co_reqlen _ Hcfg)]|]. cbn beta. intros _ p' (Hd' & Hst & Hi').
  split; [|done]. split; [done|]. rewrite <- Hs. by apply static_shape.
Qed.

Lemma txint_safe sz b : safe_at sz (cdcuart_txint cfg b).
Proof using Hcfg.
  unfold cdcuart_txint. apply safe_gets_bind. intros p _. destruct (_ && _); [|apply safe_ret].
  apply safe_bind; [apply snd_safe|intros _; apply safe_ret].
Qed.

Lemma wr_safe sz result : safe_at sz (handle (WrComplete result)).
Proof using Hcfg.
  intros p [[Hd Hs] Hi]. cbn [cdc_handle]. apply wpl_bind, wpl_gets. destruct (bulkin (priv p)) as [|id l] eqn:Eb; [by apply wpl_ret|].
  apply wpl_bind, wpl_zoom, wpl_modify. unfold cdcacm_wrcomplete.
  apply wpl_bind, wpl_zoom, wpl_modify. apply wpl_bind, wpl_zoom, wpl_modify.
  assert (Hp : forall p1, serdev p1 = serdev p -> priv p1 = set_nwrq (u8 (nwrq (priv p) + 1)) (set_txfree (txfree (priv p) ++ [id]) (set_bulkin l (priv p))) ->
    port_inv cdc_wf sz p1).
  { intros p1 E1 E2. split; [by rewrite E1|]. rewrite E2. destruct Hi as [A B C D]. rewrite Eb in B. simpl in B.
    pose proof (co_wr _ Hcfg) as Hw. constructor; cbn; try done; rewrite length_app; simpl; [|lia].
    rewrite A. unfold u8. rewrite Z.mod_small; lia. }
  destruct (result =? OK); [|apply wpl_ret; by apply Hp].
  apply wpl_bind. eapply wpl_mono; [apply snd_safe; by apply Hp|]. intros ? p2 H2. by apply wpl_ret.
Qed.

(** Changes of the lower half that touch none of the queues. *)

Lemma safe_on_cdc sz g : (forall c, nwrq (g c) = nwrq c /\ txfree (g c) = txfree c /\ bulkin (g c) = bulkin c /\
    rxpending (g c) = rxpending c /\ bulkout (g c) = bulkout c /\ rdreqs (g c) = rdreqs c) -> safe_at sz (on_cdc (modify g)).
Proof.
  intros H p [Hd [A B C D]]. apply wpl_zoom, wpl_modify. split; [done|].
  destruct (H (priv p)) as (E1 & E2 & E3 & E4 & E5 & E6). constructor; cbn; rewrite ?E1, ?E2, ?E3, ?E4, ?E5, ?E6; [exact A|exact B|exact C|exact D].
Qed.

Lemma resetconfig_safe sz : safe_at sz cdcacm_resetconfig.
Proof.
  unfold cdcacm_resetconfig. apply safe_gets_bind. intros p _. destruct (negb _); [|apply safe_ret].
  apply safe_bind; [by apply safe_on_cdc|intros _]. apply safe_bind; [apply safe_on_dev, connected_safe|intros _].
  apply safe_bind; [by apply safe_on_cdc|intros _]. apply safe_bind; [by apply safe_on_cdc|intros _]. by apply safe_on_cdc.
Qed.

Lemma disconnect_safe sz : safe_at sz cdcacm_disconnect.
Proof.
  unfold cdcacm_disconnect. apply safe_bind; [apply safe_on_dev, connected_safe|intros _].
  apply safe_bind; [apply resetconfig_safe|intros _]. apply safe_bind; [|intros _; by apply safe_on_cdc].
  apply safe_on_dev, safe_tame, (tame_xmit sz (fun b => set_ub_tail 0 (set_ub_head 0 b))).
  intros b [A B C D]. split; [constructor; cbn; lia|done].
Qed.

Lemma ioctl_lower sz req : safe_at sz (cdcuart_ioctl req).
Proof.
  unfold cdcuart_ioctl. apply safe_gets_bind. intros p _. apply safe_gets_bind. intros p' _.
  destruct req as [| | |q| |[t|]|[t|]|cmd arg]; try apply safe_ret.
  - apply safe_bind; [|intros _; apply safe_ret]. apply safe_on_dev, safe_tame, tame_flag. intros d. by split_and!.
  - destruct (_ =? _); [apply safe_bind; [by apply safe_on_cdc|intros _; apply safe_ret]|].
    destruct (_ =? _); [apply safe_ret|]. destruct (_ =? _); apply safe_ret.
Qed.

Lemma setconfig_safe sz conf : conf <> CDCACM_CONFIGID -> safe_at sz (cdcacm_setconfig cfg conf).
Proof.
  intros Hc. unfold cdcacm_setconfig. apply safe_gets_bind. intros p _. destruct (_ =? _); [apply safe_ret|].
  apply safe_bind; [apply resetconfig_safe|intros _]. destruct (conf =? CDCACM_CONFIGIDNONE); [apply safe_ret|].
  rewrite (proj2 (Z.eqb_neq _ _) Hc). apply safe_ret.
Qed.

(** After a reset the configuration is none, and setting it again does nothing. *)

Lemma reset_again_safe sz : safe_at sz (cdcacm_resetconfig;; c ← cdc config; cdcacm_setconfig cfg c;; mret (0, [] : list Z)).
Proof.
  intros p Hp. apply wpl_bind. assert (Hsafe := resetconfig_safe sz p Hp).
  eapply wpl_mono; [exact Hsafe|]. cbn beta; intros _ p1 Hp1. apply wpl_bind, wpl_gets. apply wpl_bind.
  unfold cdcacm_setconfig. apply wpl_bind, wpl_gets. rewrite Z.eqb_refl. by apply wpl_ret, wpl_ret.
Qed.

Lemma respond_safe sz len bytes : 0 <= len -> safe_at sz (respond len bytes).
Proof.
  intros Hl. unfold respond. rewrite (proj2 (Z.ltb_ge _ _)) by done. apply safe_gets_bind. intros p _.
  apply safe_bind; [by apply safe_on_cdc|intros _; apply safe_ret].
Qed.

Lemma standard_safe sz ctrl : ctrl_req ctrl = USB_REQ_SETCONFIGURATION \/ ctrl_req ctrl = USB_REQ_SETINTERFACE ->
  (ctrl_req ctrl = USB_REQ_SETCONFIGURATION -> u8 (ctrl_value ctrl) <> CDCACM_CONFIGID) ->
  safe_at sz (standard_request cfg ctrl).
Proof.
  intros Hreq Hset. unfold standard_request. cbn zeta. destruct Hreq as [E|E]; rewrite E.
  - change (USB_REQ_SETCONFIGURATION =? USB_REQ_GETDESCRIPTOR) with false. rewrite Z.eqb_refl.
    destruct (_ =? 0); [|apply safe_ret]. apply safe_bind; [by apply setconfig_safe, Hset|]. intros ret. apply safe_ret.
  - change (USB_REQ_SETINTERFACE =? USB_REQ_GETDESCRIPTOR) with false. change (USB_REQ_SETINTERFACE =? USB_REQ_SETCONFIGURATION) with false.
    change (USB_REQ_SETINTERFACE =? USB_REQ_GETCONFIGURATION) with false. rewrite Z.eqb_refl.
    apply safe_gets_bind. intros p _. destruct (_ && _); [apply reset_again_safe|apply safe_ret].
Qed.

Lemma setup_safe sz ctrl dataout : benign (Setup ctrl dataout) -> (~ plain ctrl) -> safe_at sz (cdcacm_setup cfg ctrl dataout).
Proof.
  intros [[Hlen _] Hset] Hpl. unfold plain in Hpl.
  assert (Hreq : ctrl_req ctrl = USB_REQ_SETCONFIGURATION \/ ctrl_req ctrl = USB_REQ_SETINTERFACE) by (destruct (decide (ctrl_req ctrl = USB_REQ_SETCONFIGURATION)), (decide (ctrl_req ctrl = USB_REQ_SETINTERFACE)); tauto).
  unfold cdcacm_setup. cbn zeta. apply safe_bind.
  - destruct (_ =? USB_REQ_TYPE_STANDARD); [by apply standard_safe|]. destruct (_ =? USB_REQ_TYPE_CLASS); [|apply safe_ret].
    unfold class_request. cbn zeta. destruct Hreq as [E|E]; rewrite E; apply safe_ret.
  - intros [ret bytes]. destruct (Z.leb_spec 0 ret); [apply respond_safe; lia|apply safe_ret].
Qed.

Lemma cdc_safe : SafeLower cdcacm cdc_irq handle cdc_wf benign.
Proof using Hcfg.
  constructor.
  - intros sz. apply safe_gets_bind. intros p _. apply safe_ret.
  - intros sz. apply safe_ret.
  - intros sz. apply safe_ret.
  - intros sz. apply safe_ret.
  - intros sz req. apply ioctl_lower.
  - intros sz b. apply moves_safe. intros n p Hp. eapply wp_mono; [by apply rxint_ok|]. naive_solver.
  - intros sz b. apply txint_safe.
  - intros sz. apply safe_gets_bind. intros p _. apply safe_ret.
  - intros sz e He.
    destruct e as [result|result data| | | | |ctrl dataout].
    + apply wr_safe.
    + apply moves_safe. intros n p Hp. change handle with (cdc_handle cfg).
      eapply wp_mono; [apply (rd_handle (with_nwr n) result data p Hp He)|]. naive_solver.
    + apply moves_safe. intros n p Hp. cbn [cdc_handle]. apply wp_bind, wp_gets.
      destruct (rxfailsafe (priv p)); [|apply wp_ret; split; [done|apply moves_refl]].
      eapply wp_mono; [by apply release_ok|]. naive_solver.
    + apply disconnect_safe.
    + cbn [cdc_handle]. apply safe_on_dev, connected_safe.
    + cbn [cdc_handle]. apply safe_gets_bind. intros p _. destruct (negb _); [apply safe_on_dev, connected_safe|apply safe_ret].
    + destruct (decide (ctrl_req ctrl = USB_REQ_SETCONFIGURATION \/ ctrl_req ctrl = USB_REQ_SETINTERFACE)) as [Hr|Hr].
      * cbn [cdc_handle]. apply safe_bind; [apply setup_safe; [done|unfold plain; tauto]|]. intros _. apply safe_ret.
      * apply moves_safe. intros n p Hp.
        eapply wp_mono; [apply (setup_handle (with_nwr n) ctrl dataout p Hp (conj (proj1 He) (conj (fun E => Hr (or_introl E)) (fun E => Hr (or_intror E)))))|].
        naive_solver.
Qed.

(** The types of the data: indices within their buffers, counters that are the
    lengths of their queues, containers in one queue at a time with what they
    hold in bounds, slots that name existing structures. *)

Definition well_formed (s : tty_sys) : Prop :=
  dev_ok (serdev (prt s)) /\ cdc_wf (priv (prt s)) /\ benign_sched benign (sched s).

(** C9: Well-formed data stays well formed: whatever calls programs make on the
    open USB serial device, in whatever order, whatever requests the controller
    takes or refuses, and whatever succeeds, fails, arrives, times out, is
    suspended or disconnected at any point of them, every call waits or returns
    with the types of the data intact and the buffers as large as before;
    nothing undefined happens.  The interrupts are all but two ([benign]): the
    choice of configuration 1, and a control request with less data than its
    header says. *)
Theorem usb_never_breaks spin tick cs s (Hs : well_formed s)
    (Hcs : Forall (allowed (dom (polls (d s)))) cs) :
  wpl false (do_calls spin tick cs) (fun _ s' => well_formed s' /\ shape (d s') = shape (d s)) s.
Proof using Hcfg.
  pose proof cdc_safe as Hl. set (sz := shape (d s)).
  assert (Hall : safe (sys_inv cdc_wf benign sz) (do_calls spin tick cs)).
  { change (dom (polls (d s))) with sz.2 in Hcs. clearbody sz. clear Hs. induction Hcs as [|c cs Hc _ IH]; [apply safe_ret|].
    apply safe_bind; [|by intros _]. destruct c; cbn [do_call]; (apply safe_bind; [|intros _; apply safe_ret]).
    - by apply (open_safe handle).
    - by apply (close_safe handle).
    - by apply (read_safe handle).
    - by apply (write_safe handle).
    - by apply (ioctl_safe handle).
    - by apply (poll_safe handle). }
  destruct Hs as (A & B & C). eapply wpl_mono; [by apply Hall|].
  intros _ s' [[[A' Hs'] B'] C']. by split.
Qed.

End Safe.

#[local] Existing Instance obliging.

(** A controller that refuses every other request to send. *)

Definition moody : controller :=
  {| ans_in h := if Nat.even (length h) then OK else - EBUSY; ans_out _ := OK; ans_conf _ := OK; ans_ep0 _ := OK |}.

Lemma usb_never_breaks_witness :
  exists s, well_formed acm_cfg s /\
    wpl false (do_calls (Hctl := moody) acm_cfg 0 100
      [Poll 7 true; Write rw_file [104; 105]; Ioctl TCDRN; Read rw_file 10; Poll 7 false; Close rw_file; Open rw_file])
      (fun _ s' => well_formed acm_cfg s') s.
Proof.
  destruct (device_up []) as (s0 & [[Hd Hi] _ _] & _).
  set (dv := set_polls (<[7%nat := mk_pollfd POLLIN 0 0 None]> (polls (d s0))) (d s0)).
  set (s := mk_sys (mk_port dv (priv (prt s0)))
    [mk_batch [Irq (RdComplete OK [111]); Irq Disconnect; Irq (WrComplete (- ESHUTDOWN))] 1; mk_batch [Signal; Irq RxTimeout; Irq (Setup (mk_ctrl 1 11 0 0 0) None); Irq (Setup (mk_ctrl 33 32 0 0 7) (Some [0; 194; 1; 0; 0; 0; 8])); Irq Resume] 1] 0).
  assert (Hw : well_formed acm_cfg s).
  { split_and!; [|destruct Hi as [A B C D]; constructor; [done|by apply Nat.eq_le_incl|done|done]|].
    - destruct Hd as [A B C D E]. constructor; try done. apply (polls_insert (d s0)); exact C.
    - unfold s. cbn [sched]. unfold benign_sched. rewrite !Forall_cons, !Forall_nil.
      split_and!; simpl; try done; try lia; repeat constructor; try lia; intros; simplify_eq; simpl; lia. }
  exists s. split; [exact Hw|].
  eapply wpl_mono; [apply (usb_never_breaks (Hctl := moody) acm_cfg acm_ok); [exact Hw|]|by intros _ s' [? _]].
  assert (H7 : 7%nat ∈ dom (polls (d s))) by (apply elem_of_dom; exists (mk_pollfd POLLIN 0 0 None); apply lookup_insert_eq).
  repeat (apply Forall_cons_2; [first [exact H7|reflexivity|exact I]|]). apply Forall_nil_2.
Defined.

End UsbSafe.
