(* ===== verification/UsbCtrl.v ===== *)
(** * Control requests of the host

    The answers of the device, the line settings a host stores and reads back,
    what a host finds in the configuration descriptor, and the choice of an
    interface. *)

From S2P Require Import Prelude Serial SerialRing SerialProps CdcDesc CdcAcm CdcCtrl CdcProps UsbSerial.
Import Serial SerialRing SerialProps CdcDesc CdcAcm CdcCtrl CdcProps UsbSerial.

Module UsbCtrl.

(** ** What a host reads off descriptors *)

Definition le16 (lo hi : Z) : Z := lo + 256 * hi.

Definition field (d : list Z) (i : nat) : Z := nth i d 0.

Fixpoint endpoints_after (ds : list (list Z)) : Z :=
  match ds with
  | [] => 0
  | d :: ds' =>
    if field d 1 =? USB_DESC_TYPE_INTERFACE then 0
    else (if field d 1 =? USB_DESC_TYPE_ENDPOINT then 1 else 0) + endpoints_after ds'
  end.

(** For each interface its number, the endpoints it declares and those that
    follow it. *)

Fixpoint interfaces (ds : list (list Z)) : list (Z * Z * Z) :=
  match ds with
  | [] => []
  | d :: ds' =>
    if field d 1 =? USB_DESC_TYPE_INTERFACE then (field d 2, field d 4, endpoints_after ds') :: interfaces ds'
    else interfaces ds'
  end.

(** Address and packet size of each endpoint. *)

Fixpoint endpoints (ds : list (list Z)) : list (Z * Z) :=
  match ds with
  | [] => []
  | d :: ds' =>
    if field d 1 =? USB_DESC_TYPE_ENDPOINT then (field d 2, le16 (field d 4) (field d 5)) :: endpoints ds'
    else endpoints ds'
  end.

(** The endpoints for a speed. *)

Definition endpoints_for (c : desc_cfg) (hispeed : bool) : list (Z * Z) :=
  [(CDCACM_MKEPINTIN c, if hispeed then EPINTIN_HSSIZE c else EPINTIN_FSSIZE c);
   (CDCACM_MKEPBULKOUT c, if hispeed then EPBULKOUT_HSSIZE c else EPBULKOUT_FSSIZE c);
   (CDCACM_MKEPBULKIN c, if hispeed then EPBULKIN_HSSIZE c else EPBULKIN_FSSIZE c)].

(** What a configuration descriptor has to be. *)

Record config_descriptor (c : desc_cfg) (hispeed : bool) (type : Z) (full : list Z) : Prop := {
  cd_length : Z.of_nat (length full) <= CDCACM_MXDESCLEN;
  cd_bytes : Forall byte full;
  cd_total : le16 (field full 2) (field full 3) = Z.of_nat (length full);
  cd_walk : exists ds, walk (length full) full = Some ds /\ concat ds = full /\
    field (nth 0 ds []) 1 = type /\
    field full 4 = Z.of_nat (length (interfaces ds)) /\
    interfaces ds = [(ifnobase c, 1, 1); (ifnobase c + 1, 2, 2)] /\
    endpoints ds = endpoints_for c hispeed
}.

(** Numbers that fit the fields they go to. *)

Record desc_ok (c : desc_cfg) : Prop := {
  do_if : 0 <= ifnobase c < 255;
  do_ep : byte (CDCACM_MKEPINTIN c) /\ byte (CDCACM_MKEPBULKIN c) /\ byte (CDCACM_MKEPBULKOUT c);
  do_sizes : Forall (fun s => 0 <= s < 65536)
    [EPINTIN_FSSIZE c; EPINTIN_HSSIZE c; EPBULKOUT_FSSIZE c; EPBULKOUT_HSSIZE c; EPBULKIN_FSSIZE c; EPBULKIN_HSSIZE c]
}.

Lemma le16_bytes v : 0 <= v < 65536 -> le16 (LSBYTE v) (MSBYTE v) = v.
Proof.
  intros H. unfold le16, LSBYTE, MSBYTE. change 255 with (Z.ones 8). rewrite !Z.land_ones, Z.shiftr_div_pow2 by lia.
  change (2 ^ 8) with 256. rewrite (Z.mod_small (v / 256)) by (split; [apply Z.div_pos; lia|apply Z.div_lt_upper_bound; lia]).
  pose proof (Z.div_mod v 256). lia.
Qed.

Lemma u8_small v : byte v -> u8 v = v.
Proof. intros H. unfold u8. by rewrite Z.mod_small. Qed.

Lemma attributes_byte c : byte (Z.lor (Z.lor USB_CONFIG_ATTR_ONE (CDCACM_SELFPOWERED c)) (CDCACM_REMOTEWAKEUP c)).
Proof. unfold CDCACM_SELFPOWERED, CDCACM_REMOTEWAKEUP. destruct (selfpowered c), (remotewakeup c); by vm_compute. Qed.

Lemma epdesc_bytes c ep hispeed : Forall byte (cdcacm_copy_epdesc c ep hispeed) /\ length (cdcacm_copy_epdesc c ep hispeed) = 7%nat.
Proof. destruct ep; (split; [|done]); cbn; repeat (constructor; [first [by unfold byte; auto|done]|]); constructor. Qed.

Lemma cfgdesc_bytes c size hispeed type : Forall byte (build_cfgdesc c true size hispeed type).1.
Proof.
  unfold build_cfgdesc, emit. cbn [fst snd app]. pose proof (attributes_byte c) as Ha.
  repeat (apply Forall_app; split); try apply epdesc_bytes;
    repeat (constructor; [first [exact Ha|by unfold byte; auto|done]|]); constructor.
Qed.

Lemma endpoint_sizes c hispeed : desc_ok c ->
  endpoints ((fun ep => cdcacm_copy_epdesc c ep hispeed) <$> [CDCACM_EPINTIN; CDCACM_EPBULKOUT; CDCACM_EPBULKIN]) = endpoints_for c hispeed.
Proof.
  intros [Hif (E1 & E2 & E3) Hs]. rewrite !Forall_cons in Hs. cbn. rewrite !u8_small by done.
  rewrite !le16_bytes by (destruct hispeed; tauto). reflexivity.
Qed.

Lemma cfgdesc_ok c speed type : desc_ok c -> type = USB_DESC_TYPE_CONFIG \/ type = USB_DESC_TYPE_OTHERSPEEDCONFIG ->
  let hispeed := xorb (speed =? USB_SPEED_HIGH) (type =? USB_DESC_TYPE_OTHERSPEEDCONFIG) in
  config_descriptor c hispeed type (cdcacm_mkcfgdesc c speed type).2 /\
  (cdcacm_mkcfgdesc c speed type).1 = Z.of_nat (length (cdcacm_mkcfgdesc c speed type).2).
Proof.
  intros Hc Ht hispeed. assert (E : (cdcacm_mkcfgdesc c speed type).2 = (build_cfgdesc c true 62 hispeed type).1).
  { unfold cdcacm_mkcfgdesc, hispeed. cbn zeta. destruct (_ =? USB_DESC_TYPE_OTHERSPEEDCONFIG); [rewrite xorb_true_r|rewrite xorb_false_r]; reflexivity. }
  assert (Hl : length (build_cfgdesc c true 62 hispeed type).1 = 62%nat) by reflexivity.
  rewrite E. split; [|by rewrite Hl]. clearbody hispeed. pose proof (do_if _ Hc). constructor.
  - rewrite Hl. by vm_compute.
  - apply cfgdesc_bytes.
  - reflexivity.
  - rewrite Hl. eexists. split; [reflexivity|]. split; [reflexivity|].
    rewrite <- (endpoint_sizes c hispeed Hc). destruct Ht as [-> | ->]; (split_and!; [done|reflexivity| |reflexivity]);
      (transitivity [(u8 (ifnobase c), 1, 1); (u8 (ifnobase c + 1), 2, 2)]; [reflexivity|]); rewrite !u8_small by (unfold byte; lia); reflexivity.
Qed.

Section Host.
Context (cfg : cdc_cfg) `{Hctl : controller}.

(** ** Requests *)

Definition get_configuration_descriptor (type index lang len : Z) : ctrlreq :=
  mk_ctrl USB_DIR_IN USB_REQ_GETDESCRIPTOR (256 * type + index) lang len.

Definition set_line_coding : ctrlreq := mk_ctrl 33 ACM_SET_LINE_CODING 0 (ifnobase (desc cfg)) SIZEOF_CDC_LINECODING.
Definition get_line_coding (len : Z) : ctrlreq := mk_ctrl 161 ACM_GET_LINE_CODING 0 (ifnobase (desc cfg)) len.

(** The choice of the only setting of one of the two interfaces. *)

Definition set_interface (i : Z) : ctrlreq := mk_ctrl USB_REQ_RECIPIENT_INTERFACE USB_REQ_SETINTERFACE 0 i 0.

(** C25: What the host reads is what the device is: the answer to a request for
    the configuration descriptor (or that of the other speed) is the beginning
    of a descriptor that fits the buffer, whose bytes are bytes, whose length
    field is its length, and that reads, descriptor by descriptor, as the two
    interfaces with the endpoints each declares, with the addresses and the
    packet sizes of that speed. *)
Theorem configuration_read type index lang len p (Hc : desc_ok (desc cfg))
    (Ht : type = USB_DESC_TYPE_CONFIG \/ type = USB_DESC_TYPE_OTHERSPEEDCONFIG) (Hi : byte index) (Hl : 0 <= len) :
  wp (cdcacm_setup cfg (get_configuration_descriptor type index lang len) None) (fun ret p' => exists full,
    config_descriptor (desc cfg) (xorb (usb_speed cfg =? USB_SPEED_HIGH) (type =? USB_DESC_TYPE_OTHERSPEEDCONFIG)) type full /\
    p' = set_priv (set_usb (usb (priv p) ++ [SubmitEp0 (take (Z.to_nat len) full) ret]) (priv p)) p) p.
Proof.
  destruct (cfgdesc_ok (desc cfg) (usb_speed cfg) type Hc Ht) as [Hcd Hn].
  assert (Hg : get_descriptor cfg (get_configuration_descriptor type index lang len) = cdcacm_mkcfgdesc (desc cfg) (usb_speed cfg) type).
  { unfold get_descriptor. cbn [get_configuration_descriptor ctrl_value]. replace (MSBYTE (256 * type + index)) with type.
    - by destruct Ht as [-> | ->].
    - unfold MSBYTE. rewrite Z.shiftr_div_pow2 by lia. change (2 ^ 8) with 256. unfold byte in Hi.
      replace ((256 * type + index) / 256) with type by (apply (Z.div_unique _ _ _ index); lia). by destruct Ht as [-> | ->]. }
  unfold cdcacm_setup. cbn zeta. apply wp_bind. change (Z.land _ _ =? USB_REQ_TYPE_STANDARD) with true. cbn iota.
  unfold standard_request. cbn zeta. change (ctrl_req _ =? USB_REQ_GETDESCRIPTOR) with true. cbn iota. rewrite Hg. apply wp_ret.
  destruct (cdcacm_mkcfgdesc (desc cfg) (usb_speed cfg) type) as [n full]. cbn [fst snd] in *. subst n.
  rewrite (proj2 (Z.leb_le _ _)) by lia. unfold respond. change (ctrl_len _) with len. rewrite (proj2 (Z.ltb_ge _ _)) by lia.
  apply wp_bind, wp_gets. apply wp_bind, wp_zoom, wp_modify, wp_ret. exists full. split; [done|].
  replace (take (Z.to_nat (Z.min len (Z.of_nat (length full)))) full) with (take (Z.to_nat len) full); [done|].
  destruct (Z.min_spec len (Z.of_nat (length full))) as [[? ->]|[? ->]]; [done|]. by rewrite !take_ge by lia.
Qed.

(** C26: Control requests are answered within bounds.  A request that sets
    neither configuration nor interface, unless it sets the line coding with
    fewer than the seven bytes of data its header announces, runs into nothing
    undefined; where it is an error for the host (a stall) the device is
    unchanged; otherwise there is exactly one response, not longer than what the
    host asked for and than the buffer of 64 bytes, after at most one call of
    the function a program registered, and nothing but the line settings has
    changed.  The exception reads past the end of the data. *)
Theorem setup_answered ctrl dataout p (Hlen : 0 <= ctrl_len ctrl) (Hpl : plain ctrl) :
  (overreads cfg ctrl dataout = false -> wp (cdcacm_setup cfg ctrl dataout) (answered ctrl p) p) /\
  (overreads cfg ctrl dataout = true -> cdcacm_setup cfg ctrl dataout p = Ub OutOfBounds).
Proof. split; intros H; [by apply setup_plain|by apply overread_setup]. Qed.

(** *** The line coding *)

Lemma set_line_coding_ok data p : length data = 7%nat ->
  wp (cdcacm_setup cfg set_line_coding (Some data)) (fun ret p' => serdev p' = serdev p /\ linecoding (priv p') = data /\
    callback (priv p') = callback (priv p)) p.
Proof.
  intros Hl. unfold cdcacm_setup. cbn zeta. apply wp_bind. change (Z.land _ _ =? USB_REQ_TYPE_STANDARD) with false.
  change (Z.land _ _ =? USB_REQ_TYPE_CLASS) with true. cbn iota. unfold class_request. cbn zeta.
  change (ctrl_req _ =? ACM_GET_LINE_CODING) with false. change (ctrl_req _ =? ACM_SET_LINE_CODING) with true. cbn iota.
  unfold to_interface. change (ctrl_type set_line_coding =? _) with true. change (ctrl_index set_line_coding) with (ifnobase (desc cfg)).
  rewrite Z.eqb_refl. change (true && true && (ctrl_len set_line_coding =? SIZEOF_CDC_LINECODING)) with true. cbn iota.
  rewrite Hl. change (Z.of_nat 7 <? SIZEOF_CDC_LINECODING) with false. cbn iota.
  apply wp_bind, wp_zoom, wp_modify. apply wp_bind. eapply wp_mono; [apply call_back_ok|]. intros _ p1 (acts & _ & _ & ->). apply wp_ret.
  change (0 <=? 0) with true. cbn iota. eapply wp_mono; [apply respond_ok; by vm_compute|]. intros ret p2 (sub & _ & ->).
  split_and!; [done| |done]. cbn. apply (firstn_all2 data). rewrite Hl. by vm_compute.
Qed.

Lemma get_line_coding_ok len p : 7 <= len -> length (linecoding (priv p)) = 7%nat ->
  wp (cdcacm_setup cfg (get_line_coding len) None) (fun ret p' =>
    p' = set_priv (set_usb (usb (priv p) ++ [SubmitEp0 (linecoding (priv p)) ret]) (priv p)) p) p.
Proof.
  intros Hlen Hl. unfold cdcacm_setup. cbn zeta. apply wp_bind. change (Z.land _ _ =? USB_REQ_TYPE_STANDARD) with false.
  change (Z.land _ _ =? USB_REQ_TYPE_CLASS) with true. cbn iota. unfold class_request. cbn zeta.
  change (ctrl_req _ =? ACM_GET_LINE_CODING) with true. cbn iota. apply wp_bind, wp_gets.
  unfold to_interface. change (ctrl_type (get_line_coding len) =? _) with true. change (ctrl_index (get_line_coding len)) with (ifnobase (desc cfg)).
  rewrite Z.eqb_refl. cbn [andb]. apply wp_ret. change (0 <=? SIZEOF_CDC_LINECODING) with true. cbn iota.
  change (ctrl_len (get_line_coding len)) with len. unfold SIZEOF_CDC_LINECODING. rewrite Z.min_r by done. unfold respond.
  change (7 <? 0) with false. cbn iota. apply wp_bind, wp_gets. apply wp_bind, wp_zoom, wp_modify, wp_ret.
  change (Z.to_nat 7) with 7%nat. by rewrite take_ge by (rewrite Hl; lia).
Qed.

(** The line coding makes the round trip: the seven bytes a host sets are
    the ones the device answers when the host asks, and the ones a program on
    the board gets with [CAIOC_GETLINECODING]. *)
Theorem line_coding_roundtrip data len arg p (Hd : length data = 7%nat) (Hlen : 7 <= len) (Harg : arg <> 0) :
  wp (cdcacm_setup cfg set_line_coding (Some data);; ret ← cdcacm_setup cfg (get_line_coding len) None;
      r ← cdcuart_ioctl (CMD CAIOC_GETLINECODING arg); mret (ret, r))
    (fun r p' => last (usb (priv p')) = Some (SubmitEp0 data r.1) /\ r.2 = (OK, BytesReply data)) p.
Proof.
  apply wp_bind. eapply wp_mono; [by apply set_line_coding_ok|]. intros _ p1 (_ & El & _). rewrite <- El in Hd.
  apply wp_bind. eapply wp_mono; [by apply get_line_coding_ok|]. intros ret p2 ->. apply wp_bind. unfold cdcuart_ioctl.
  apply wp_bind, wp_gets. apply wp_bind, wp_gets. change (CAIOC_GETLINECODING =? CAIOC_REGISTERCB) with false.
  change (CAIOC_GETLINECODING =? CAIOC_GETLINECODING) with true. cbn iota. rewrite (proj2 (Z.eqb_neq _ _) Harg).
  apply wp_ret, wp_ret. cbn. by rewrite last_snoc, El.
Qed.

(** *** The choice of an interface *)

Lemma wake_ok d :
  wp (wake_xmit;; wake_recv) (fun _ d' => disconnected d' = disconnected d /\ open_count d' = open_count d) d.
Proof.
  apply wp_bind. unfold wake_xmit. apply wp_bind, wp_get. destruct (xmitwaiting d).
  - apply wp_bind, wp_modify, wp_modify. unfold wake_recv. apply wp_bind, wp_get. destruct (recvwaiting _); [|by apply wp_ret].
    by apply wp_bind, wp_modify, wp_modify.
  - apply wp_ret. unfold wake_recv. apply wp_bind, wp_get. destruct (recvwaiting _); [|by apply wp_ret].
    by apply wp_bind, wp_modify, wp_modify.
Qed.

Lemma disconnect_ok p : dev_ok (serdev p) ->
  wp (on_dev (uart_connected false) : MC unit) (fun _ p' => priv p' = priv p /\ disconnected (serdev p') = true) p.
Proof.
  intros [A B C D E]. unfold on_dev. apply wp_zoom. unfold uart_connected. apply wp_bind, wp_modify. cbn [negb].
  apply wp_bind. eapply wp_mono; [by apply pollnotify_ok|]. intros _ d' (m & -> & _ & _).
  eapply wp_mono; [apply wake_ok|]. intros _ d'' [Hd _]. split; [done|]. cbn. by rewrite Hd.
Qed.

Lemma resetconfig_ok p : dev_ok (serdev p) -> config (priv p) <> CDCACM_CONFIGIDNONE ->
  wp cdcacm_resetconfig (fun _ p' => config (priv p') = CDCACM_CONFIGIDNONE /\ disconnected (serdev p') = true /\
    usb (priv p') = usb (priv p) ++ [EpDisable EpIntIn; EpDisable EpBulkIn; EpDisable EpBulkOut]) p.
Proof.
  intros Hd Hc. unfold cdcacm_resetconfig. apply wp_bind, wp_gets. rewrite (proj2 (Z.eqb_neq _ _) Hc). cbn [negb].
  apply wp_bind, wp_zoom, wp_modify. apply wp_bind. eapply wp_mono; [by apply disconnect_ok|]. cbn beta. intros _ p1 [E1 E2].
  apply wp_bind, wp_zoom, wp_modify. apply wp_bind, wp_zoom, wp_modify. apply wp_zoom, wp_modify. cbn. rewrite E1.
  split_and!; [done|done|]. cbn. by rewrite <- !(assoc_L (++)).
Qed.

(** C27: The choice of the only setting an interface has, on a configured
    device, is answered as done, but leaves the device without configuration:
    the endpoints are off, waiting programs are told of a disconnection, and
    until the host sets the configuration again no program can open the device. *)
Theorem set_interface_unconfigures i p (Hd : dev_ok (serdev p)) (Hc : config (priv p) = CDCACM_CONFIGID)
    (Hi : i = ifnobase (desc cfg) \/ i = ifnobase (desc cfg) + 1) :
  wp (ret ← cdcacm_setup cfg (set_interface i) None; opened ← cdcuart_setup; mret (ret, opened)) (fun r p' =>
    r.2 = - ENOTCONN /\ config (priv p') = CDCACM_CONFIGIDNONE /\ disconnected (serdev p') = true /\
    usb (priv p') = usb (priv p) ++
      [EpDisable EpIntIn; EpDisable EpBulkIn; EpDisable EpBulkOut; SubmitEp0 [] r.1]) p.
Proof.
  apply wp_bind. unfold cdcacm_setup. cbn zeta. apply wp_bind. change (Z.land _ _ =? USB_REQ_TYPE_STANDARD) with true. cbn iota.
  unfold standard_request. cbn zeta. change (ctrl_req _ =? USB_REQ_GETDESCRIPTOR) with false.
  change (ctrl_req _ =? USB_REQ_SETCONFIGURATION) with false. change (ctrl_req _ =? USB_REQ_GETCONFIGURATION) with false.
  change (ctrl_req _ =? USB_REQ_SETINTERFACE) with true. cbn iota. apply wp_bind, wp_gets. rewrite Hc.
  assert (Hok : interface_ok cfg (set_interface i) = true).
  { unfold interface_ok. cbn. rewrite !andb_true_r, orb_true_iff, !Z.eqb_eq. done. }
  rewrite Hok. change (_ && _ && true) with true. cbn iota.
  apply wp_bind. eapply wp_mono; [apply resetconfig_ok; [done|by rewrite Hc]|]. intros _ p1 (E1 & E2 & E3).
  apply wp_bind, wp_gets. rewrite E1. apply wp_bind. unfold cdcacm_setconfig. apply wp_bind, wp_gets. rewrite E1, Z.eqb_refl. apply wp_ret, wp_ret.
  change (0 <=? 0) with true. cbn iota. unfold respond. change (Z.min (ctrl_len (set_interface i)) 0) with 0. change (0 <? 0) with false. cbn iota.
  apply wp_bind, wp_gets. apply wp_bind, wp_zoom, wp_modify, wp_ret. apply wp_bind. unfold cdcuart_setup.
  apply wp_bind, wp_gets, wp_ret, wp_ret. cbn. rewrite E1, E3, <- !(assoc_L (++)). done.
Qed.

End Host.

(** ** The device of [sdk.config] *)

#[local] Existing Instance obliging.

Definition blank : port cdcacm := mk_port (initial_dev acm_cfg) (initial_cdc acm_cfg).

Lemma blank_ok : dev_ok (serdev blank).
Proof.
  constructor; simpl; [..|lia|lia].
  1, 2: by constructor; vm_compute.
  repeat constructor; done.
Qed.

Lemma acm_desc_ok : desc_ok (desc acm_cfg).
Proof. constructor; [simpl; lia|by split_and!; vm_compute|]. repeat (constructor; [simpl; lia|]). constructor. Qed.

Lemma configuration_read_witness :
  exists ret p' full, cdcacm_setup acm_cfg (get_configuration_descriptor 2 0 0 255) None blank = Ret (ret, p') /\
    config_descriptor acm_desc true 2 full /\ last (usb (priv p')) = Some (SubmitEp0 (take 255 full) ret).
Proof.
  destruct (configuration_read (Hctl := obliging) acm_cfg USB_DESC_TYPE_CONFIG 0 0 255 blank acm_desc_ok (or_introl eq_refl)
    ltac:(unfold byte; lia) ltac:(lia)) as (ret & p' & E & full & Hf & ->).
  eexists ret, _, full. split; [exact E|]. split; [exact Hf|]. reflexivity.
Defined.

Lemma setup_answered_witness :
  exists ret p', cdcacm_setup acm_cfg (mk_ctrl 128 6 (256 * 3 + 2) 1033 255) None blank = Ret (ret, p') /\
    answered (mk_ctrl 128 6 (256 * 3 + 2) 1033 255) blank ret p'.
Proof.
  destruct (setup_answered (Hctl := obliging) acm_cfg (mk_ctrl 128 6 (256 * 3 + 2) 1033 255) None blank) as [H _].
  - simpl. lia.
  - split; done.
  - destruct (H eq_refl) as (ret & p' & E & A). exists ret, p'. by split.
Defined.

Lemma line_coding_roundtrip_witness :
  exists r p', (cdcacm_setup acm_cfg (set_line_coding acm_cfg) (Some [128; 37; 0; 0; 0; 0; 8]);;
      ret ← cdcacm_setup acm_cfg (get_line_coding acm_cfg 7) None;
      r ← cdcuart_ioctl (CMD CAIOC_GETLINECODING 4096); mret (ret, r)) blank = Ret (r, p') /\
    last (usb (priv p')) = Some (SubmitEp0 [128; 37; 0; 0; 0; 0; 8] r.1).
Proof.
  destruct (line_coding_roundtrip (Hctl := obliging) acm_cfg [128; 37; 0; 0; 0; 0; 8] 7 4096 blank eq_refl ltac:(lia) ltac:(lia))
    as (r & p' & E & A & _).
  exists r, p'. split; [exact E|exact A].
Defined.

Lemma set_interface_unconfigures_witness :
  exists p r p', config (priv p) = CDCACM_CONFIGID /\
    (ret ← cdcacm_setup acm_cfg (set_interface 1) None; opened ← cdcuart_setup; mret (ret, opened)) p = Ret (r, p') /\
    r.2 = - ENOTCONN.
Proof.
  set (p := set_priv (set_config CDCACM_CONFIGID (priv blank)) blank).
  destruct (set_interface_unconfigures (Hctl := obliging) acm_cfg 1 p blank_ok eq_refl (or_intror eq_refl)) as (r & p' & E & A & _).
  exists p, r, p'. split; [reflexivity|]. split; [exact E|exact A].
Defined.

End UsbCtrl.
