(* ===== verification/CdcBind.v ===== *)
(** * Setting the USB serial device up and taking it down

    [cdcacm_classobject], [cdcacm_bind] and [cdcacm_unbind] of [cdcacm.c]: the
    endpoints, the requests with their buffers and the containers, every
    allocation of which can fail.  [asserts] is [CONFIG_DEBUG_ASSERTIONS]. *)

From S2P Require Import Prelude Serial SerialRing SerialProps CdcDesc CdcAcm CdcCtrl CdcProps UsbSerial.
Import Serial SerialRing SerialProps CdcDesc CdcAcm CdcCtrl CdcProps UsbSerial.

Module CdcBind.

(** ** State *)

Inductive owner := Ep0 | On (ep : endpoint).

(** What the controller driver lends: requests and buffers of an endpoint, and
    endpoints. *)

Inductive resource := Req (o : owner) | Buf (o : owner) | Ep (ep : endpoint).

#[export] Instance endpoint_eq : EqDecision endpoint.
Proof. solve_decision. Defined.
#[export] Instance owner_eq : EqDecision owner.
Proof. solve_decision. Defined.
#[export] Instance resource_eq : EqDecision resource.
Proof. solve_decision. Defined.

Inductive loan := Asked (r : resource) (granted : bool) | Given (r : resource).

Class lender := { grants : list loan -> bool }.

(** The device with the pointers of [struct cdcacm_dev_s] that [cdcacm_bind]
    sets, as whether they are set; the requests of the containers are the
    containers that have one. *)

Record bound := mk_bound {
  cport : port cdcacm;
  epintin : bool;
  epbulkin : bool;
  epbulkout : bool;
  ctrlreq_set : bool;
  rd_req : gset nat;
  wr_req : gset nat;
  loans : list loan
}.

Definition set_cport v b := mk_bound v (epintin b) (epbulkin b) (epbulkout b) (ctrlreq_set b) (rd_req b) (wr_req b) (loans b).
Definition set_epintin v b := mk_bound (cport b) v (epbulkin b) (epbulkout b) (ctrlreq_set b) (rd_req b) (wr_req b) (loans b).
Definition set_epbulkin v b := mk_bound (cport b) (epintin b) v (epbulkout b) (ctrlreq_set b) (rd_req b) (wr_req b) (loans b).
Definition set_epbulkout v b := mk_bound (cport b) (epintin b) (epbulkin b) v (ctrlreq_set b) (rd_req b) (wr_req b) (loans b).
Definition set_ctrlreq v b := mk_bound (cport b) (epintin b) (epbulkin b) (epbulkout b) v (rd_req b) (wr_req b) (loans b).
Definition set_rd_req v b := mk_bound (cport b) (epintin b) (epbulkin b) (epbulkout b) (ctrlreq_set b) v (wr_req b) (loans b).
Definition set_wr_req v b := mk_bound (cport b) (epintin b) (epbulkin b) (epbulkout b) (ctrlreq_set b) (rd_req b) v (loans b).
Definition set_loans v b := mk_bound (cport b) (epintin b) (epbulkin b) (epbulkout b) (ctrlreq_set b) (rd_req b) (wr_req b) v.

Abbreviation MB A := (M bound A).

Definition on_cport {A} (m : MC A) : MB A := zoom cport set_cport m.
Definition bcdc {A} (f : cdcacm -> A) : MB A := gets (fun b => f (priv (cport b))).

Section Bind.
Context (cfg : cdc_cfg) `{Hctl : controller} `{Hlend : lender} (asserts : bool).

Definition debug_assert (b : bool) : MB unit := if asserts && negb b then ub AssertFailed else mret tt.

(** ** Loans *)

Definition ask (r : resource) : MB bool :=
  l ← gets loans;
  modify (set_loans (l ++ [Asked r (grants l)]));;
  mret (grants l).

Definition give (r : resource) : MB unit := l ← gets loans; modify (set_loans (l ++ [Given r])).

(** A request with its buffer; its length is in the configuration. *)

Definition cdcacm_allocreq (o : owner) : MB bool :=
  req ← ask (Req o);
  if (req : bool) then
    buf ← ask (Buf o);
    if (buf : bool) then mret true else give (Req o);; mret false
  else mret false.

(** [ep] and [req] tell whether the pointers are set. *)

Definition cdcacm_freereq (o : owner) (ep req : bool) : MB unit :=
  if ep && req then give (Buf o);; give (Req o) else mret tt.

(** ** [cdcacm_unbind]

    [during]: what the interrupts do while it waits for the requests. *)

Fixpoint serve_all (l : list cdc_irq) : MC unit :=
  match l with [] => mret tt | e :: l' => cdc_handle cfg e;; serve_all l' end.

Fixpoint free_rd (n i : nat) : MB unit :=
  match n with
  | O => mret tt
  | S n' =>
    b ← get;
    (if decide (i ∈ rd_req b) then
       cdcacm_freereq (On EpBulkOut) (epbulkout b) true;; modify (fun b => set_rd_req (rd_req b ∖ {[i]}) b)
     else mret tt);;
    free_rd n' (S i)
  end.

Fixpoint free_wr (free : list nat) : MB unit :=
  match free with
  | [] => mret tt
  | id :: free' =>
    on_cport (on_cdc (modify (set_txfree free')));;
    b ← get;
    (if decide (id ∈ wr_req b) then
       cdcacm_freereq (On EpBulkIn) (epbulkin b) true;;
       on_cport (on_cdc (modify (fun c => set_nwrq (u8 (nwrq c - 1)) c)))
     else mret tt);;
    free_wr free'
  end.

Definition free_ep (ep : endpoint) (set : bool) (clear : bound -> bound) : MB unit :=
  if set then give (Ep ep);; modify clear else mret tt.

Definition cdcacm_unbind (during : list cdc_irq) : MB unit :=
  on_cport cdcacm_resetconfig;;
  on_cport (serve_all during);;
  b ← get;
  free_ep EpIntIn (epintin b) (set_epintin false);;
  (if ctrlreq_set b then cdcacm_freereq Ep0 true true;; modify (set_ctrlreq false) else mret tt);;
  n ← bcdc nrdq;
  debug_assert (n =? 0);;
  free_rd (NRDREQS cfg) 0;;
  free_ep EpBulkOut (epbulkout b) (set_epbulkout false);;
  n ← bcdc nwrq;
  debug_assert (n =? Z.of_nat (NWRREQS cfg));;
  free ← bcdc txfree;
  free_wr free;;
  n ← bcdc nwrq;
  debug_assert (n =? 0);;
  free_ep EpBulkIn (epbulkin b) (set_epbulkin false);;
  on_cport (on_dev (modify (fun d => set_xmit (set_ub_tail 0 (set_ub_head 0 (xmit d))) d))).

(** ** [cdcacm_bind] *)

Fixpoint alloc_rd (n i : nat) : MB bool :=
  match n with
  | O => mret true
  | S n' =>
    req ← cdcacm_allocreq (On EpBulkOut);
    modify (fun b => set_rd_req (if (req : bool) then {[i]} ∪ rd_req b else rd_req b ∖ {[i]}) b);;
    if (req : bool) then
      on_cport (on_cdc (modify (fun c => set_rdreqs (<[i := mk_rdreq [] 0]> (rdreqs c)) c)));;
      alloc_rd n' (S i)
    else mret false
  end.

Fixpoint alloc_wr (n i : nat) : MB bool :=
  match n with
  | O => mret true
  | S n' =>
    req ← cdcacm_allocreq (On EpBulkIn);
    modify (fun b => set_wr_req (if (req : bool) then {[i]} ∪ wr_req b else wr_req b ∖ {[i]}) b);;
    if (req : bool) then
      on_cport (on_cdc (modify (fun c => set_txfree (txfree c ++ [i]) c)));;
      on_cport (on_cdc (modify (fun c => set_nwrq (u8 (nwrq c + 1)) c)));;
      alloc_wr n' (S i)
    else mret false
  end.

Definition errout (ret : Z) : MB Z := cdcacm_unbind [];; mret ret.

Definition cdcacm_bind : MB Z :=
  req ← cdcacm_allocreq Ep0;
  modify (set_ctrlreq req);;
  if negb req then errout (- ENOMEM) else
  ep ← ask (Ep EpIntIn);
  modify (set_epintin ep);;
  if negb ep then errout (- ENODEV) else
  ep ← ask (Ep EpBulkIn);
  modify (set_epbulkin ep);;
  if negb ep then errout (- ENODEV) else
  ep ← ask (Ep EpBulkOut);
  modify (set_epbulkout ep);;
  if negb ep then errout (- ENODEV) else
  all ← alloc_rd (NRDREQS cfg) 0;
  if negb all then errout (- ENOMEM) else
  all ← alloc_wr (NWRREQS cfg) 0;
  if negb all then errout (- ENOMEM) else
  (if selfpowered (desc cfg) then on_cport (tell DevSelfPowered) else mret tt);;
  on_cport (tell DevConnect);;
  mret OK.

(** ** [cdcacm_classobject]

    The answers of [kmm_malloc] and [register_driver]; the result with the class
    object, which is freed where the registration fails. *)

Definition class_cdc : cdcacm := mk_cdc 0 0 0 0 false fake_linecoding 0 false [] [] ∅ [] [] [].

Definition cdcacm_classobject (malloc : bool) (registered : Z) (sch : list (batch cdc_irq)) (t : Z)
    : outcome (Z * option (sys cdcacm cdc_irq)) :=
  if negb malloc then Ret (- ENOMEM, None)
  else
    '(ret, s) ← uart_register registered (mk_sys (mk_port (initial_dev cfg) class_cdc) sch t);
    Ret (if ret <? 0 then (ret, None) else (OK, Some s)).

(** ** [cdcacm_initialize] and [cdcacm_uninitialize]

    [usbdev_register] and [usbdev_unregister] belong to the controller driver;
    they call the methods above.  The result with the handle, which is also
    returned where the registration of the class driver fails. *)

Definition unbound (p : port cdcacm) : bound := mk_bound p false false false false ∅ ∅ [].

Definition cdcacm_initialize (malloc : bool) (registered : Z) (usbdev_register : MB Z) (sch : list (batch cdc_irq)) (t : Z)
    : outcome (Z * option bound) :=
  '(ret, o) ← cdcacm_classobject malloc registered sch t;
  match o with
  | Some s => '(ret, b) ← usbdev_register (unbound (prt s)); Ret (ret, Some b)
  | None => Ret (ret, None)
  end.

(** The class object is freed at the end. *)

Definition cdcacm_uninitialize (usbdev_unregister : MB unit) : MB unit :=
  usbdev_unregister;;
  on_cport (on_cdc (modify (set_rxfailsafe false))).

End Bind.

(** ** What the device owes *)

Fixpoint held (l : list loan) (r : resource) : Z :=
  match l with
  | [] => 0
  | Asked r' granted :: l' => (if granted && bool_decide (r' = r) then 1 else 0) + held l' r
  | Given r' :: l' => (if bool_decide (r' = r) then - 1 else 0) + held l' r
  end.

Lemma held_loans_app l1 l2 r : held (l1 ++ l2) r = held l1 r + held l2 r.
Proof. induction l1 as [|[] l1 IH]; [done|..]; cbn [app held]; rewrite IH; lia. Qed.

Definition one (b : bool) (r r' : resource) : Z := if b && bool_decide (r = r') then 1 else 0.

(** What its pointers and queues say the device has. *)

Definition reqs_of (b : bound) (o : owner) : Z :=
  match o with
  | Ep0 => Z.b2z (ctrlreq_set b)
  | On EpIntIn => 0
  | On EpBulkIn => Z.of_nat (length (txfree (priv (cport b))))
  | On EpBulkOut => Z.of_nat (size (rd_req b))
  end.

Definition owns (b : bound) (r : resource) : Z :=
  match r with
  | Req o | Buf o => reqs_of b o
  | Ep EpIntIn => Z.b2z (epintin b)
  | Ep EpBulkIn => Z.b2z (epbulkin b)
  | Ep EpBulkOut => Z.b2z (epbulkout b)
  end.

Definition accounted (b : bound) : Prop := forall r, held (loans b) r = owns b r.

(** The device without configuration, part of the way through [cdcacm_bind]. *)

Record partway (cfg : cdc_cfg) (b : bound) : Prop := {
  pw_account : accounted b;
  pw_config : config (priv (cport b)) = CDCACM_CONFIGIDNONE;
  pw_nrdq : nrdq (priv (cport b)) = 0;
  pw_nwrq : nwrq (priv (cport b)) = Z.of_nat (length (txfree (priv (cport b))));
  pw_count : (length (txfree (priv (cport b))) <= NWRREQS cfg)%nat;
  pw_wr : Forall (fun id => id ∈ wr_req b) (txfree (priv (cport b)));
  pw_in : epbulkin b = true \/ txfree (priv (cport b)) = [];
  pw_rd : rd_req b ⊆ list_to_set (seq 0 (NRDREQS cfg));
  pw_out : epbulkout b = true \/ rd_req b = ∅
}.

Ltac tally := unfold owns, one; cbn -[seq]; repeat case_bool_decide; simplify_eq; cbn -[seq]; try lia.

Section Account.
Context (cfg : cdc_cfg) `{Hctl : controller} `{Hlend : lender} (asserts : bool).

Lemma give_ok r b : wp (give r) (fun _ b' => b' = set_loans (loans b ++ [Given r]) b) b.
Proof. unfold give. by apply wp_bind, wp_gets, wp_modify. Qed.

Lemma freereq_ok o b :
  wp (cdcacm_freereq o true true) (fun _ b' => exists l, b' = set_loans l b /\
    forall r, held l r = held (loans b) r - one true (Req o) r - one true (Buf o) r) b.
Proof.
  unfold cdcacm_freereq. cbn [andb]. apply wp_bind. eapply wp_mono; [apply give_ok|]. intros _ b1 ->.
  eapply wp_mono; [apply give_ok|]. intros _ b2 ->. eexists. split; [reflexivity|]. intros r.
  unfold one. cbn. rewrite !held_loans_app. cbn. repeat case_bool_decide; simplify_eq; lia.
Qed.

Lemma free_rd_ok n i b : accounted b -> (epbulkout b = true \/ rd_req b = ∅) ->
  wp (free_rd n i) (fun _ b' => accounted b' /\ exists l, b' = set_loans l (set_rd_req (rd_req b ∖ list_to_set (seq i n)) b)) b.
Proof.
  revert i b. induction n as [|n IH]; intros i b Ha Ho; cbn [free_rd].
  { apply wp_ret. split; [done|]. exists (loans b). cbn. replace (rd_req b ∖ ∅) with (rd_req b) by set_solver. by destruct b. }
  apply wp_bind, wp_get. apply wp_bind. destruct (decide (i ∈ rd_req b)) as [Hi|Hi].
  - destruct Ho as [Ho|Ho]; [|set_solver]. rewrite Ho. apply wp_bind. eapply wp_mono; [apply freereq_ok|].
    intros _ b1 (l & -> & Hl). apply wp_modify.
    eapply wp_mono; [apply IH|].
    + intros r. cbn. rewrite Hl, Ha. unfold one. cbn [andb].
      assert (Hs : (size (rd_req b) = S (size (rd_req b ∖ {[i]})))%nat).
      { rewrite size_difference, size_singleton by set_solver.
        assert (size (rd_req b) <> 0%nat) by (intros E%size_empty_inv; set_solver). lia. }
      destruct r as [[|[]]|[|[]]|[]]; unfold owns; cbn; repeat case_bool_decide; simplify_eq; lia.
    + left. done.
    + cbn. intros _ b2 [Ha2 [l2 ->]]. split; [done|]. exists l2.
      assert (E : rd_req b ∖ {[i]} ∖ list_to_set (seq (S i) n) = rd_req b ∖ ({[i]} ∪ list_to_set (seq (S i) n))) by set_solver.
      by rewrite E.
  - apply wp_ret. eapply wp_mono; [by apply IH|]. intros _ b2 [Ha2 [l2 ->]]. split; [done|]. exists l2. cbn [seq list_to_set].
    assert (E : rd_req b ∖ list_to_set (seq (S i) n) = rd_req b ∖ ({[i]} ∪ list_to_set (seq (S i) n))) by set_solver.
    by rewrite <- E.
Qed.

Lemma free_wr_ok free b : accounted b -> txfree (priv (cport b)) = free -> nwrq (priv (cport b)) = Z.of_nat (length free) ->
  Z.of_nat (length free) <= 255 -> Forall (fun id => id ∈ wr_req b) free -> (epbulkin b = true \/ free = []) ->
  wp (free_wr free) (fun _ b' => accounted b' /\ exists l c, b' = set_loans l (set_cport c b) /\ nwrq (priv c) = 0 /\ txfree (priv c) = []) b.
Proof.
  intros Ha Ef En Hl Hw Ho. revert b Ha Ef En Hw Ho. induction free as [|id free IH]; intros b Ha Ef En Hw Ho; cbn [free_wr].
  { apply wp_ret. split; [done|]. exists (loans b), (cport b). split_and!; [by destruct b|done|done]. }
  apply Forall_cons in Hw as [Hid Hw]. destruct Ho as [Ho|?]; [|done]. cbn [length] in *.
  apply wp_bind, wp_zoom, wp_zoom, wp_modify. apply wp_bind, wp_get. apply wp_bind. rewrite decide_True by done.
  cbn [epbulkin set_cport]. rewrite Ho. apply wp_bind. eapply wp_mono; [apply freereq_ok|]. intros _ b1 (l & -> & Hlo).
  apply wp_zoom, wp_zoom, wp_modify. eapply wp_mono; [apply IH|].
  - lia.
  - intros r. cbn. rewrite Hlo. cbn. rewrite Ha. unfold one. cbn [andb].
    destruct r as [[|[]]|[|[]]|[]]; unfold owns; cbn; rewrite ?Ef; cbn [length]; repeat case_bool_decide; simplify_eq; lia.
  - done.
  - cbn. rewrite En. unfold u8. rewrite Z.mod_small; lia.
  - done.
  - by left.
  - cbn. intros _ b2 [Ha2 (l2 & c & -> & E1 & E2)]. split; [done|]. exists l2, c. by split_and!.
Qed.

(** Runs that may end in a failed assertion, where assertions are compiled in
    and the controller refused something. *)

Definition refused : Prop := ~ (forall h, grants h = true).

Definition wpa {A} (m : MB A) (Q : A -> bound -> Prop) (b : bound) : Prop :=
  match m b with Ret (a, b') => Q a b' | Ub AssertFailed => asserts = true /\ refused | _ => False end.

Lemma wpa_wp {A} (m : MB A) Q b : wp m Q b -> wpa m Q b.
Proof. intros (a & b' & E & HQ). unfold wpa. by rewrite E. Qed.

Lemma wpa_bind {A B} (m : MB A) (k : A -> MB B) Q b : wpa m (fun a => wpa (k a) Q) b -> wpa (m ≫= k) Q b.
Proof. unfold wpa, mbind, M_bind. by destruct (m b) as [[a b']| |]. Qed.

Lemma wpa_mono {A} (m : MB A) (Q R : A -> bound -> Prop) b : wpa m Q b -> (forall a b', Q a b' -> R a b') -> wpa m R b.
Proof. unfold wpa. destruct (m b) as [[a b']|[]|]; auto. Qed.

Lemma wpa_step {A B} (m : MB A) (k : A -> MB B) (P : A -> bound -> Prop) Q b :
  wp m P b -> (forall a b', P a b' -> wpa (k a) Q b') -> wpa (m ≫= k) Q b.
Proof. intros Hm Hk. by eapply wpa_bind, wpa_mono; [apply wpa_wp|]. Qed.

Lemma debug_assert_ok e b : e = true \/ refused ->
  wpa (debug_assert asserts e) (fun _ b' => b' = b /\ (asserts = true -> e = true)) b.
Proof. unfold debug_assert, wpa. intros [-> |H]; [by destruct asserts|by destruct asserts, e]. Qed.

(** ** Taking down *)

Lemma free_ep_ok ep set clear b : accounted b -> owns b (Ep ep) = Z.b2z set ->
  (forall r l, owns (clear (set_loans l b)) r = owns b r - one set (Ep ep) r) ->
  (forall b', loans (clear b') = loans b') -> (set = false -> clear b = b) ->
  wp (free_ep ep set clear) (fun _ b' => accounted b' /\ exists l, b' = clear (set_loans l b)) b.
Proof.
  intros Ha He Ho Hc Hn. unfold free_ep. destruct set.
  - apply wp_bind. eapply wp_mono; [apply give_ok|]. intros _ b1 ->. apply wp_modify. split; [|by eexists].
    intros r. rewrite Hc, Ho. cbn. rewrite held_loans_app, Ha. unfold one. cbn. case_bool_decide; lia.
  - apply wp_ret. split; [done|]. exists (loans b). rewrite <- Hn at 1 by done. by destruct b.
Qed.

Lemma ctrlreq_ok b : accounted b ->
  wp (if ctrlreq_set b then cdcacm_freereq Ep0 true true;; modify (set_ctrlreq false) else mret tt)
    (fun _ b' => accounted b' /\ exists l, b' = set_ctrlreq false (set_loans l b)) b.
Proof.
  intros Ha. destruct (ctrlreq_set b) eqn:E.
  - apply wp_bind. eapply wp_mono; [apply freereq_ok|]. intros _ b1 (l & -> & Hl). apply wp_modify. split; [|by exists l].
    intros r. cbn. rewrite Hl, Ha. unfold one. cbn [andb].
    destruct r as [[|[]]|[|[]]|[]]; unfold owns; cbn; rewrite ?E; repeat case_bool_decide; simplify_eq; cbn; lia.
  - apply wp_ret. split; [done|]. exists (loans b). rewrite <- E. by destruct b.
Qed.

Context (Hw : (NWRREQS cfg <= 255)%nat).

Lemma wpa_gets {A B} (f : bound -> A) (k : A -> MB B) Q b : wpa (k (f b)) Q b -> wpa (gets f ≫= k) Q b.
Proof. intros H. by apply wpa_bind. Qed.

(** The part after the endpoints and requests of reception are back. *)

Lemma unbind_tx b : accounted b -> nwrq (priv (cport b)) = Z.of_nat (length (txfree (priv (cport b)))) ->
  (length (txfree (priv (cport b))) <= NWRREQS cfg)%nat -> Forall (fun id => id ∈ wr_req b) (txfree (priv (cport b))) ->
  (epbulkin b = true \/ txfree (priv (cport b)) = []) ->
  length (txfree (priv (cport b))) = NWRREQS cfg \/ refused ->
  ctrlreq_set b = false -> epintin b = false -> epbulkout b = false -> rd_req b = ∅ ->
  wpa (n ← bcdc nwrq; debug_assert asserts (n =? Z.of_nat (NWRREQS cfg));;
       free ← bcdc txfree; free_wr free;;
       n ← bcdc nwrq; debug_assert asserts (n =? 0);;
       free_ep EpBulkIn (epbulkin b) (set_epbulkin false);;
       on_cport (on_dev (modify (fun d => set_xmit (set_ub_tail 0 (set_ub_head 0 (xmit d))) d))))
    (fun _ b' => (forall r, held (loans b') r = 0) /\ (asserts = true -> length (txfree (priv (cport b))) = NWRREQS cfg)) b.
Proof using Hw.
  intros Ha Hq Hcnt Hwr Hin Hfull E1 E2 E3 E4. apply wpa_gets, wpa_bind.
  eapply wpa_mono; [apply debug_assert_ok; rewrite Hq, Z.eqb_eq; destruct Hfull; [left; lia|by right]|].
  cbn beta. intros _ b' [-> Has]. apply wpa_gets. eapply wpa_step; [apply free_wr_ok; try done; lia|].
  intros _ b1 [Ha1 (l & c & -> & Ec1 & Ec2)]. apply wpa_gets. cbn [cport set_loans set_cport]. rewrite Ec1.
  apply wpa_bind. eapply wpa_mono; [apply debug_assert_ok; by left|]. cbn beta. intros _ b' [-> _].
  eapply wpa_step.
  { apply free_ep_ok; [done|done|..|done|intros E; destruct b; cbn in E; by subst].
    intros [[|[]]|[|[]]|[]] l'; unfold owns, one; cbn; destruct (epbulkin b); tally. }
  intros _ b2 [Ha2 [l2 ->]]. apply wpa_wp. apply wp_zoom, wp_zoom, wp_modify. split.
  - intros r. pose proof (Ha2 r) as Hr. cbn in Hr |- *. rewrite Hr.
    destruct r as [[|[]]|[|[]]|[]]; unfold owns; cbn; by rewrite ?E1, ?E2, ?E3, ?E4, ?Ec2.
  - intros Hs. specialize (Has Hs). rewrite Hq in Has. lia.
Qed.

Lemma unbind_ok b : partway cfg b -> length (txfree (priv (cport b))) = NWRREQS cfg \/ refused ->
  wpa (cdcacm_unbind cfg asserts []) (fun _ b' => (forall r, held (loans b') r = 0) /\
    (asserts = true -> length (txfree (priv (cport b))) = NWRREQS cfg)) b.
Proof using Hw.
  intros [Ha Hc Hn Hq Hcnt Hwr Hin Hrd Hout] Hfull. unfold cdcacm_unbind.
  eapply wpa_step with (P := fun _ b' => b' = b).
  { apply wp_zoom. unfold cdcacm_resetconfig. apply wp_bind, wp_gets. rewrite Hc. apply wp_ret. by destruct b. }
  intros _ b0 ->. eapply wpa_step with (P := fun _ b' => b' = b); [apply wp_zoom, wp_ret; by destruct b|].
  intros _ b0 ->. eapply wpa_step; [apply wp_get with (Q := fun x y => x = b /\ y = b); done|]. intros x b0 [-> ->].
  eapply wpa_step.
  { apply free_ep_ok; [done|done|..|done|intros E; destruct b; cbn in E; by subst].
    intros [[|[]]|[|[]]|[]] l; unfold owns, one; cbn; destruct (epintin b); tally. }
  intros _ b1 [Ha1 [l1 ->]]. change (ctrlreq_set b) with (ctrlreq_set (set_epintin false (set_loans l1 b))).
  eapply wpa_step; [by apply ctrlreq_ok|]. intros _ b2 [Ha2 [l2 ->]]. clear Ha1.
  apply wpa_gets. cbn [cport set_loans set_ctrlreq set_epintin]. rewrite Hn. apply wpa_bind. eapply wpa_mono; [apply debug_assert_ok; by left|].
  cbn beta. intros _ b3 [-> _]. eapply wpa_step; [by apply free_rd_ok|]. intros _ b3 [Ha3 [l3 ->]]. clear Ha2.
  cbn [rd_req set_ctrlreq set_loans set_epintin] in *.
  assert (E : rd_req b ∖ list_to_set (seq 0 (NRDREQS cfg)) = ∅) by set_solver. rewrite E in Ha3 |- *. clear E.
  eapply wpa_step.
  { apply free_ep_ok; [exact Ha3|done|..|done|intros E; destruct b; cbn in E; by subst].
    intros [[|[]]|[|[]]|[]] l; unfold owns, one; cbn; destruct (epbulkout b); tally. }
  intros _ b4 [Ha4 [l4 ->]]. change (epbulkin b) with (epbulkin (set_epbulkout false (set_loans l4 (set_loans l3 (set_rd_req ∅ (set_ctrlreq false (set_loans l2 (set_epintin false (set_loans l1 b))))))))).
  eapply wpa_mono; [by apply unbind_tx|]. done.
Qed.

(** ** Setting up *)

Lemma ask_ok r b :
  wp (ask r) (fun ok b' => ok = grants (loans b) /\ b' = set_loans (loans b ++ [Asked r ok]) b) b.
Proof. unfold ask. by apply wp_bind, wp_gets, wp_bind, wp_modify, wp_ret. Qed.

(** A request with its buffer, or nothing. *)

Lemma allocreq_ok o b :
  wp (cdcacm_allocreq o) (fun ok b' => exists l, b' = set_loans l b /\
    (forall r, held l r = held (loans b) r + one ok (Req o) r + one ok (Buf o) r) /\ ((forall h, grants h = true) -> ok = true)) b.
Proof.
  unfold cdcacm_allocreq. apply wp_bind. eapply wp_mono; [apply ask_ok|]. intros req b1 [Er ->]. destruct req.
  - apply wp_bind. eapply wp_mono; [apply ask_ok|]. intros buf b2 [Eb ->]. destruct buf.
    + apply wp_ret. eexists. split; [reflexivity|]. split; [|done]. intros r. cbn. rewrite !held_loans_app. unfold one. cbn. lia.
    + apply wp_bind. eapply wp_mono; [apply give_ok|]. intros _ b3 ->. apply wp_ret. eexists. split; [reflexivity|]. split.
      * intros r. cbn. rewrite !held_loans_app. unfold one. cbn. case_bool_decide; lia.
      * intros Hg. by rewrite Hg in Eb.
  - apply wp_ret. eexists. split; [reflexivity|]. split; [|intros Hg; by rewrite Hg in Er].
    intros r. rewrite held_loans_app. unfold one. cbn. lia.
Qed.

(** Containers get requests from the first on, until an allocation fails. *)

Lemma seq_next i : ({[i]} ∪ list_to_set (seq 0 i) : gset nat) = list_to_set (seq 0 (S i)).
Proof. rewrite seq_S, list_to_set_app_L. cbn. set_solver. Qed.

Lemma size_next i (X : gset nat) : i ∉ X -> size ({[i]} ∪ X) = S (size X).
Proof. intros H. rewrite size_union by set_solver. by rewrite size_singleton. Qed.

Lemma without i (X : gset nat) : i ∉ X -> X ∖ {[i]} = X.
Proof. set_solver. Qed.

Lemma alloc_rd_ok n i b : partway cfg b -> epbulkout b = true -> rd_req b = list_to_set (seq 0 i) -> (i + n = NRDREQS cfg)%nat ->
  wp (alloc_rd n i) (fun all b' => partway cfg b' /\ ((forall h, grants h = true) -> all = true) /\
    exists l x m, b' = set_loans l (set_rd_req x (set_cport (set_priv (set_rdreqs m (priv (cport b))) (cport b)) b)) /\
      (all = true -> x = list_to_set (seq 0 (i + n)) /\
        forall j, m !! j = if decide (i <= j < i + n)%nat then Some (mk_rdreq [] 0) else rdreqs (priv (cport b)) !! j)) b.
Proof.
  revert i b. induction n as [|n IH]; intros i b Hp Ho Hr Hi; cbn [alloc_rd].
  { apply wp_ret. split_and!; [done|done|]. exists (loans b), (rd_req b), (rdreqs (priv (cport b))).
    split; [by destruct b as [[? []]]|]. intros _. rewrite Nat.add_0_r. split; [done|]. intros j. by rewrite decide_False by lia. }
  apply wp_bind. eapply wp_mono; [apply allocreq_ok|]. intros req b1 (l & -> & Hl & Hg). apply wp_bind, wp_modify.
  assert (Hni : i ∉ (list_to_set (seq 0 i) : gset nat)) by (rewrite elem_of_list_to_set, elem_of_seq; lia).
  destruct Hp as [Ha Hc Hn Hq Hcnt Hwr Hin Hrd Hout]. destruct req; cbn [rd_req set_loans].
  - apply wp_bind, wp_zoom, wp_zoom, wp_modify. rewrite Hr, seq_next.
    set (b2 := set_cport _ _). assert (Hp2 : partway cfg b2).
    { constructor; try done; [| |by left].
      - intros r. cbn -[seq]. rewrite Hl, Ha. assert (Hs : size (list_to_set (seq 0 (S i)) : gset nat) = S (size (rd_req b))).
        { by rewrite Hr, <- seq_next, size_next. }
        destruct r as [[|[]]|[|[]]|[]]; tally.
      - cbn -[seq]. rewrite <- Hi. intros j. rewrite !elem_of_list_to_set, !elem_of_seq. lia. }
    eapply wp_mono; [apply (IH (S i) b2 Hp2); [done|done|lia]|]. cbn beta. intros all b3 (Hp3 & Hg3 & l3 & x & m & -> & Hx).
    split_and!; [done|done|]. exists l3, x, m. split; [done|]. intros E. destruct (Hx E) as [-> Hm].
    split; [do 2 f_equal; lia|]. intros j. rewrite Hm. cbn. destruct (decide (j = i)) as [->|Hj].
    + rewrite decide_False by lia. rewrite decide_True by lia. by rewrite lookup_insert_eq.
    + rewrite lookup_insert_ne by done. repeat case_decide; by try lia.
  - apply wp_ret. assert (Hsame : rd_req b ∖ {[i]} = rd_req b) by (rewrite Hr; by apply without). rewrite Hsame. split_and!; [|by intros ?%Hg|].
    + constructor; try done; cbn. intros r. cbn. rewrite Hl, Ha. destruct r as [[|[]]|[|[]]|[]]; tally.
    + exists l, (rd_req b), (rdreqs (priv (cport b))). split; [by destruct b as [[? []]]|done].
Qed.

Lemma alloc_wr_ok n i b : partway cfg b -> epbulkin b = true -> txfree (priv (cport b)) = seq 0 i -> (i + n = NWRREQS cfg)%nat ->
  wp (alloc_wr n i) (fun all b' => partway cfg b' /\ ((forall h, grants h = true) -> all = true) /\
    (all = false -> (length (txfree (priv (cport b'))) < NWRREQS cfg)%nat) /\
    exists l x k, b' = set_loans l (set_wr_req x (set_cport (set_priv (set_nwrq (Z.of_nat (i + k)) (set_txfree (seq 0 (i + k)) (priv (cport b)))) (cport b)) b)) /\
      (all = true -> k = n)) b.
Proof using Hw.
  revert i b. induction n as [|n IH]; intros i b Hp Ho Hf Hi; cbn [alloc_wr].
  { apply wp_ret. split_and!; [done|done|done|]. exists (loans b), (wr_req b), 0%nat. split; [|done].
    pose proof (pw_nwrq _ _ Hp) as Hq. rewrite Hf, length_seq in Hq. rewrite Nat.add_0_r, <- Hf, <- Hq. by destruct b as [[? []]]. }
  apply wp_bind. eapply wp_mono; [apply allocreq_ok|]. intros req b1 (l & -> & Hl & Hg). apply wp_bind, wp_modify.
  destruct Hp as [Ha Hc Hn Hq Hcnt Hwr Hin Hrd Hout]. rewrite Hf, length_seq in Hq. destruct req; cbn [wr_req set_loans].
  - apply wp_bind, wp_zoom, wp_zoom, wp_modify. apply wp_bind, wp_zoom, wp_zoom, wp_modify. cbn. rewrite Hf, Hq.
    change [i] with [(0 + i)%nat]. rewrite <- seq_S. unfold u8. rewrite Z.mod_small by lia. replace (Z.of_nat i + 1) with (Z.of_nat (S i)) by lia.
    set (b2 := set_cport _ _). assert (Hp2 : partway cfg b2).
    { constructor; try done; cbn -[seq]; rewrite ?length_seq; [|done|lia| |by left].
      - intros r. cbn -[seq]. rewrite Hl, Ha. destruct r as [[|[]]|[|[]]|[]]; unfold owns, one; cbn -[seq]; rewrite ?Hf, ?length_seq;
          repeat case_bool_decide; simplify_eq; cbn; lia.
      - rewrite Hf in Hwr. rewrite seq_S. apply Forall_app. split; [eapply Forall_impl; [exact Hwr|]; set_solver|].
        repeat constructor. set_solver. }
    eapply wp_mono; [apply (IH (S i) b2 Hp2); [done|done|lia]|]. cbn beta. intros all b3 (Hp3 & Hg3 & Hf3 & l3 & x & k & -> & Hk).
    split_and!; [done|done|done|]. exists l3, x, (S k). split; [|intros E; by rewrite (Hk E)].
    by replace (i + S k)%nat with (S i + k)%nat by lia.
  - apply wp_ret. split_and!; [|by intros ?%Hg| |].
    + constructor; try done; cbn.
      * intros r. cbn. rewrite Hl, Ha. destruct r as [[|[]]|[|[]]|[]]; tally.
      * by rewrite Hf, length_seq.
      * rewrite Hf in Hwr |- *. rewrite Forall_forall in Hwr |- *. intros j Hj. specialize (Hwr j Hj). apply elem_of_seq in Hj. apply elem_of_difference. split; [done|]. rewrite elem_of_singleton. lia.
    + intros _. cbn. rewrite Hf, length_seq. lia.
    + exists l, (wr_req b ∖ {[i]}), 0%nat. split; [|done]. rewrite Nat.add_0_r, <- Hf, <- Hq. by destruct b as [[? []]].
Qed.

(** The pointers set so far. *)

Lemma partway_ctrl b l req : partway cfg b -> ctrlreq_set b = false ->
  (forall r, held l r = held (loans b) r + one req (Req Ep0) r + one req (Buf Ep0) r) ->
  partway cfg (set_ctrlreq req (set_loans l b)).
Proof.
  intros [Ha Hc Hn Hq Hcnt Hwr Hin Hrd Hout] E Hl. constructor; try done. intros r. cbn. rewrite Hl, Ha.
  destruct r as [[|[]]|[|[]]|[]]; destruct req; unfold owns; cbn; rewrite ?E; tally.
Qed.

Lemma partway_ep b ep ok set : partway cfg b -> owns b (Ep ep) = 0 ->
  (forall r l, owns (set (set_loans l b)) r = owns b r + one ok (Ep ep) r) ->
  (forall l, cport (set (set_loans l b)) = cport b /\ rd_req (set (set_loans l b)) = rd_req b /\ wr_req (set (set_loans l b)) = wr_req b /\
    loans (set (set_loans l b)) = l) -> txfree (priv (cport b)) = [] -> rd_req b = ∅ ->
  partway cfg (set (set_loans (loans b ++ [Asked (Ep ep) ok]) b)).
Proof.
  intros [Ha Hc Hn Hq Hcnt Hwr Hin Hrd Hout] E Ho Hs Hf Hr. destruct (Hs (loans b ++ [Asked (Ep ep) ok])) as (E1 & E2 & E3 & E4).
  constructor; rewrite ?E1, ?E2, ?E3; try done; [|by right|by right].
  intros r. rewrite E4, Ho, held_loans_app, Ha. unfold one. cbn. lia.
Qed.

Lemma errout_ok ret b : partway cfg b -> refused -> (length (txfree (priv (cport b))) < NWRREQS cfg)%nat ->
  wpa (errout cfg asserts ret) (fun r b' => r = ret /\ asserts = false /\ forall r, held (loans b') r = 0) b.
Proof using Hw.
  intros Hp Hr Hl. unfold errout. apply wpa_bind. eapply wpa_mono; [apply unbind_ok; [done|by right]|]. intros _ b' [Hz Has].
  apply wpa_wp, wp_ret. split_and!; [done| |done]. destruct asserts; [|done]. specialize (Has eq_refl). lia.
Qed.

Definition fresh (d : uart_dev) : bound := unbound (mk_port d class_cdc).

Lemma fresh_partway d : partway cfg (fresh d).
Proof.
  constructor; try done; [by intros [[|[]]|[|[]]|[]]|simpl; lia|by right|by right].
Qed.

Context (Hpos : (0 < NWRREQS cfg)%nat).

(** All of it, as [initial_cdc] and [accounted] have it, or an error. *)

Definition bound_or_not (d : uart_dev) (ret : Z) (b : bound) : Prop :=
  ret = OK /\ partway cfg b /\ cport b = mk_port d (initial_cdc cfg) \/
  (ret = - ENOMEM \/ ret = - ENODEV) /\ asserts = false /\ (forall r, held (loans b) r = 0) /\ refused.

Lemma failed d e b : (e = - ENOMEM \/ e = - ENODEV) -> partway cfg b -> (length (txfree (priv (cport b))) < NWRREQS cfg)%nat ->
  refused -> wpa (errout cfg asserts e) (bound_or_not d) b.
Proof using Hw.
  intros He Hp Hl Hg. eapply wpa_mono; [by apply errout_ok|]. cbn beta. intros ret b' (-> & Has & Hz). right. by split_and!.
Qed.

Lemma partway_tell b a : partway cfg b ->
  partway cfg (set_cport (set_priv (set_usb (usb (priv (cport b)) ++ [a]) (priv (cport b))) (cport b)) b).
Proof. intros [Ha Hc Hn Hq Hcnt Hwr Hin Hrd Hout]. by constructor. Qed.

Lemma reads_map n (m : gmap nat rdreq) :
  (forall j, m !! j = if decide (0 <= j < 0 + n)%nat then Some (mk_rdreq [] 0) else None) ->
  m = list_to_map ((fun i => (i, mk_rdreq [] 0)) <$> seq 0 n).
Proof.
  intros Hm. apply map_eq. intros j. rewrite Hm.
  destruct (decide (0 <= j < 0 + n)%nat) as [Hj|Hj]; symmetry.
  - apply elem_of_list_to_map_1; [rewrite <- list_fmap_compose; cbn; rewrite list_fmap_id; apply NoDup_seq|].
    apply list_elem_of_fmap. exists j. split; [done|]. apply elem_of_seq. lia.
  - apply not_elem_of_list_to_map_1. rewrite <- list_fmap_compose. cbn. rewrite list_fmap_id, elem_of_seq. lia.
Qed.

(** One endpoint, and what follows if it is granted. *)

Lemma ep_step d ep (set : bool -> bound -> bound) (k : MB Z) b : partway cfg b -> owns b (Ep ep) = 0 ->
  (forall ok r l, owns (set ok (set_loans l b)) r = owns b r + one ok (Ep ep) r) ->
  (forall ok l, cport (set ok (set_loans l b)) = cport b /\ rd_req (set ok (set_loans l b)) = rd_req b /\
    wr_req (set ok (set_loans l b)) = wr_req b /\ loans (set ok (set_loans l b)) = l) ->
  txfree (priv (cport b)) = [] -> rd_req b = ∅ ->
  (forall l, partway cfg (set true (set_loans l b)) -> wpa k (bound_or_not d) (set true (set_loans l b))) ->
  wpa (ok ← ask (Ep ep); modify (set ok);; if negb ok then errout cfg asserts (- ENODEV) else k) (bound_or_not d) b.
Proof using Hw Hpos.
  intros Hp He Ho Hs Hf Hr Hk. eapply wpa_step; [apply ask_ok|]. cbn beta. intros ok b1 [E ->].
  eapply wpa_step; [by apply wp_modify with (Q := fun _ y => y = set ok (set_loans (loans b ++ [Asked (Ep ep) ok]) b))|]. intros _ b1 ->.
  assert (P := partway_ep b ep ok (set ok) Hp He (Ho ok) (Hs ok) Hf Hr). destruct ok; cbn [negb]; [by apply Hk|].
  apply failed; [by right|done| |intros Hg; by rewrite Hg in E].
  destruct (Hs false (loans b ++ [Asked (Ep ep) false])) as (-> & _). by rewrite Hf.
Qed.

Lemma bind_ok d : wpa (cdcacm_bind cfg asserts) (bound_or_not d) (fresh d).
Proof using Hw Hpos.
  unfold cdcacm_bind. assert (H0 : (length (txfree class_cdc) < NWRREQS cfg)%nat) by (simpl; lia).
  eapply wpa_step; [apply allocreq_ok|]. cbn beta. intros req b1 (l & -> & Hl & Hg).
  eapply wpa_step; [by apply wp_modify with (Q := fun _ y => y = set_ctrlreq req (set_loans l (fresh d)))|]. intros _ b1 ->.
  pose proof (partway_ctrl (fresh d) l req (fresh_partway d) eq_refl Hl) as P1. set (b1 := set_ctrlreq _ _) in *.
  destruct req; cbn [negb]; [|apply failed; [by left|done|done|by intros ?%Hg]].
  apply ep_step; [done|done|intros ok [[|[]]|[|[]]|[]] l'; destruct ok; tally|done|done|done|]. intros l2 P2. set (b2 := set_epintin _ _) in *.
  apply ep_step; [done|done|intros ok [[|[]]|[|[]]|[]] l'; destruct ok; tally|done|done|done|]. intros l3 P3. set (b3 := set_epbulkin _ _) in *.
  apply ep_step; [done|done|intros ok [[|[]]|[|[]]|[]] l'; destruct ok; tally|done|done|done|]. intros l4 P4. set (b4 := set_epbulkout _ _) in *.
  eapply wpa_step; [by apply (alloc_rd_ok (NRDREQS cfg) 0 b4)|]. cbn beta.
  intros all b5 (P5 & Hg5 & l5 & x5 & m & -> & Hm). set (b5 := set_loans l5 _) in *.
  destruct all; cbn [negb]; [|apply failed; [by left|done|done|by intros ?%Hg5]].
  eapply wpa_step; [by apply (alloc_wr_ok (NWRREQS cfg) 0 b5)|]. cbn beta.
  intros all b6 (P6 & Hg6 & Hf6 & l6 & x6 & k & E6 & Hk).
  destruct all; cbn [negb]; [|apply failed; [by left|done|by apply Hf6|by intros ?%Hg6]].
  specialize (Hk eq_refl). subst k. destruct (Hm eq_refl) as [_ Hmm].
  eapply wpa_step with (P := fun _ b' => partway cfg b' /\
    cport b' = mk_port d (set_usb (if selfpowered (desc cfg) then [DevSelfPowered] else []) (priv (cport b6)))).
  { assert (Ec : cport b6 = mk_port d (set_usb [] (priv (cport b6)))) by by rewrite E6.
    destruct (selfpowered (desc cfg)); [|by apply wp_ret].
    apply wp_zoom, wp_zoom, wp_modify. split; [by apply partway_tell|]. rewrite E6. done. }
  intros _ b7 [P7 E7]. eapply wpa_step with (P := fun _ b' => partway cfg b' /\
    cport b' = mk_port d (set_usb (usb (priv (cport b7)) ++ [DevConnect]) (priv (cport b7)))).
  { apply wp_zoom, wp_zoom, wp_modify. split; [by apply partway_tell|]. cbn. by rewrite E7. }
  intros _ b8 [P8 E8]. apply wpa_wp, wp_ret. left. split_and!; [done|done|]. rewrite E8, E7, E6. unfold initial_cdc.
  rewrite <- (reads_map _ m); [done|]. intros j. rewrite Hmm. done.
Qed.

(** What bind borrowed goes back, in an error of bind or with unbind. *)

Lemma bind_unbind_ok d :
  wpa (ret ← cdcacm_bind cfg asserts; (if ret =? OK then cdcacm_unbind cfg asserts [] else mret tt);; mret ret)
    (fun ret b => (ret = OK \/ (ret = - ENOMEM \/ ret = - ENODEV) /\ asserts = false) /\
      ((forall h, grants h = true) -> ret = OK) /\ forall r, held (loans b) r = 0) (fresh d).
Proof using Hw Hpos.
  apply wpa_bind. eapply wpa_mono; [apply bind_ok|]. cbn beta. intros ret b [(-> & Hp & Ec)|(He & Has & Hz & Hg)].
  - change (OK =? OK) with true. cbn iota. apply wpa_bind. eapply wpa_mono; [apply unbind_ok; [done|left; rewrite Ec; apply length_seq]|]. intros _ b' [Hz _].
    apply wpa_wp, wp_ret. split_and!; [by left|done|done].
  - assert (E : (ret =? OK) = false) by (destruct He as [-> | ->]; done). rewrite E. apply wpa_bind, wpa_wp, wp_ret.
    apply wpa_wp, wp_ret. split_and!; [by right|done|done].
Qed.

(** C24: Setting up borrows all it needs or nothing stays borrowed: whichever of
    the requests, buffers and endpoints the controller refuses, [cdcacm_bind]
    returns 0 or an error (an error only where something was refused and
    assertions are compiled out: with them, the error path ends in the failing
    assertion of [cdcacm_unbind] on the write requests); after an error, and
    after [cdcacm_unbind] otherwise, every request, buffer and endpoint has been
    given back exactly as often as it was granted. *)
Theorem bind_returns_loans d :
  wpa (ret ← cdcacm_bind cfg asserts; (if ret =? OK then cdcacm_unbind cfg asserts [] else mret tt);; mret ret)
    (fun ret b => (ret = OK \/ (ret = - ENOMEM \/ ret = - ENODEV) /\ asserts = false) /\
      ((forall h, grants h = true) -> ret = OK) /\ forall r, held (loans b) r = 0) (fresh d).
Proof using Hw Hpos. apply bind_unbind_ok. Qed.

End Account.

(** ** From nothing to an open device *)

Section Boot.
Context (cfg : cdc_cfg) `{Hctl : controller} `{Hlend : lender} (asserts : bool).
Context (Hcfg : cfg_ok cfg) (Hsz : sizes_ok cfg).
Context (Hin : forall h, ans_in h = OK) (Hout : forall h, ans_out h = OK) (Hconf : forall h, ans_conf h = OK).
Context (Hgrant : forall h, grants h = true).

#[local] Instance ops : uart_ops cdcacm := g_uartops cfg.

(** What the controller driver does with a class driver it registers. *)

Context (usbdev_register : MB Z).
Context (Hregister : forall b b', cdcacm_bind cfg asserts b = Ret (OK, b') -> usbdev_register b = Ret (OK, b')).

(** The device comes up: with memory, a free name and a controller that
    grants and takes every request, and that binds the class driver it is given,
    [cdcacm_initialize] returns 0 and a handle, and when the host has set the
    configuration, the first open returns 0 and the device is ready: nothing was
    sent, what arrived is unread, and neither input nor output is processed. *)
Theorem usb_boot registered sch0 t0 f (Hreg : 0 <= registered) (Hf : f_inode f = true) :
  exists b, cdcacm_initialize cfg true registered usbdev_register sch0 t0 = Ret (OK, Some b) /\ forall sch t,
    wp (on_port (cdc_handle cfg (Setup set_configuration None));; uart_open (cdc_handle cfg) f)
      (fun ret s' => ret = OK /\ tty cfg s' /\ quiet s' /\ sched s' = sch /\ written_so_far s' = [] /\
        unread s' = arrived s' /\ tc_oflag (d s') = 0 /\ tc_iflag (d s') = 0 /\ ub_size (xmit (d s')) = TXBUFSIZE cfg /\
        ub_size (recv (d s')) = RXBUFSIZE cfg /\ listening (priv (prt s')))
      (mk_sys (cport b) sch t).
Proof using Hcfg Hsz Hin Hout Hconf Hgrant Hregister.
  destruct (register_ok cfg registered class_cdc sch0 t0) as (ret & s & Er & -> & ->).
  pose proof (bind_ok cfg asserts ltac:(destruct Hcfg; lia) ltac:(destruct Hcfg; lia) (registered_dev cfg)) as Hb.
  unfold wpa in Hb. destruct (cdcacm_bind cfg asserts (fresh (registered_dev cfg))) as [[ret b]|u|] eqn:Eb; [|destruct u; try done; by destruct Hb|done].
  destruct Hb as [(-> & _ & Ec)|(_ & _ & _ & Hn)]; [|done]. exists b. split.
  - unfold cdcacm_initialize, cdcacm_classobject. cbn [negb]. rewrite Er. cbn. rewrite (proj2 (Z.ltb_ge _ _)) by done. cbn.
    apply Hregister in Eb. unfold fresh in Eb. by rewrite Eb.
  - intros sch t. rewrite Ec. by apply boot_ok.
Qed.

End Boot.

(** A controller that grants everything, and one that refuses all but the first
    [n] requests. *)

#[local] Existing Instance obliging.

Definition generous : lender := {| grants _ := true |}.
Definition scarce (n : nat) : lender := {| grants h := (length h <? n)%nat |}.

(** With ten answers yes, the eleventh stops [cdcacm_bind] at a buffer; the loans
    are the eleven answers and what was given back. *)

Lemma bind_returns_loans_witness :
  (match cdcacm_bind (Hlend := scarce 10) acm_cfg false (fresh (initial_dev acm_cfg)) with
   | Ret (ret, b) => Some (ret, length (loans b)) | _ => None end) = Some (- ENOMEM, 21%nat) /\
  wpa (Hlend := scarce 10) false
    (ret ← cdcacm_bind (Hlend := scarce 10) acm_cfg false;
     (if ret =? OK then cdcacm_unbind acm_cfg false [] else mret tt);; mret ret)
    (fun ret b => (ret = OK \/ (ret = - ENOMEM \/ ret = - ENODEV) /\ false = false) /\
      ((forall h, @grants (scarce 10) h = true) -> ret = OK) /\ forall r, held (loans b) r = 0) (fresh (initial_dev acm_cfg)).
Proof.
  split; [vm_compute; reflexivity|].
  exact (bind_returns_loans (Hlend := scarce 10) acm_cfg false ltac:(simpl; lia) ltac:(simpl; lia) (initial_dev acm_cfg)).
Defined.

Lemma usb_boot_witness :
  rw_file.(f_inode) = true /\
  exists b, cdcacm_initialize acm_cfg true 0 (cdcacm_bind (Hlend := generous) acm_cfg true) (busy_line 2) 0 = Ret (OK, Some b).
Proof.
  split; [reflexivity|].
  destruct (usb_boot (Hctl := obliging) (Hlend := generous) acm_cfg true acm_ok acm_sizes (fun _ => eq_refl) (fun _ => eq_refl)
    (fun _ => eq_refl) (fun _ => eq_refl) (cdcacm_bind (Hlend := generous) acm_cfg true) (fun _ _ E => E) 0 (busy_line 2) 0 rw_file
    ltac:(lia) eq_refl) as (b & A & _).
  exists b. exact A.
Defined.

End CdcBind.
