(* ===== verification/WebMain.v ===== *)
(** * The image server on its line

    [main] of [src/sprefence/web_source/web_source_main.c]: the connection of
    the USB serial device, the settings of the terminal, and the loop, with the
    commands read from the line, the answers written to it and the files
    written to the card.  [boardctl] is in [src/spresense/nuttx/boards/boardctl.c],
    the functions for terminals in [src/spresense/nuttx/libs/libc/termios]. *)

From Stdlib Require Import Ascii String.
From S2P Require Import Prelude SerialCodec CameraIo WebSource Stdio Serial CdcDesc CdcAcm UsbSerial CdcBind.
Import SerialCodec WebSource Serial CdcDesc CdcAcm UsbSerial CdcBind.

#[local] Open Scope Z_scope.

Module WebMain.

(** ** Terminals *)

Definition ICANON : Z := 2.
Definition ECHO : Z := 8.
Definition ECHONL : Z := 64.
Definition IEXTEN : Z := 32768.

Definition CBAUD : Z := 4111.
Definition BOTHER : Z := 4096.
Definition B115200 : Z := 4098.

Definition TCSANOW : Z := 0.
Definition TCSAFLUSH : Z := 2.

(** Baud rates with their codes in [c_cflag]. *)

Definition g_baud_table : list (Z * Z) :=
  [(0, 0); (50, 1); (75, 2); (110, 3); (134, 4); (150, 5); (200, 6); (300, 7); (600, 8); (1200, 9); (1800, 10);
   (2400, 11); (4800, 12); (9600, 13); (19200, 14); (38400, 15); (57600, 4097); (115200, 4098); (230400, 4099);
   (460800, 4100); (500000, 4101); (576000, 4102); (921600, 4103); (1000000, 4104); (1152000, 4105);
   (1500000, 4106); (2000000, 4107); (2500000, 4108); (3000000, 4109); (3500000, 4110); (4000000, 4111)].

(** The rate and its code, found by either; of a rate that is not in the table
    the code says that it is another one. *)

Fixpoint find_speed (l : list (Z * Z)) (speed : Z) : Z * Z :=
  match l with
  | [] => (speed, BOTHER)
  | (value, mask) :: l' =>
    if speed =? mask then (value, speed)
    else if speed =? value then (speed, mask)
    else find_speed l' speed
  end.

(** [c_speed] and the structure. *)

Definition cfsetspeed (t : termios) (speed : Z) : Z * termios :=
  let '(c_speed, code) := find_speed g_baud_table speed in
  (c_speed, mk_termios (c_iflag t) (c_oflag t) (Z.lor (Z.ldiff (c_cflag t) CBAUD) code) (c_lflag t)).

Section Main.
Context (cfg : cdc_cfg) `{Hctl : controller} `{Hlend : lender} (asserts : bool).
Context (spin : nat) (tick_per_sec : Z).

#[local] Instance ops : uart_ops cdcacm := g_uartops cfg.

Abbreviation line := (sys cdcacm cdc_irq).
Abbreviation handle := (cdc_handle cfg).

(** [/dev/ttyACM0], opened with [O_RDWR | O_NOCTTY]. *)

Definition ttyfile : file := mk_file true false.

Definition tcgetattr (t : termios) : M line termios :=
  '(_, rep) ← uart_ioctl handle tick_per_sec (TCGETS (Some t));
  mret (match rep with TermiosReply t' => t' | _ => t end).

Definition tcflush (cmd : Z) : M line Z :=
  '(ret, _) ← uart_ioctl handle tick_per_sec (TCFLSH cmd);
  mret ret.

Definition tcsetattr (options : Z) (t : termios) : M line Z :=
  (if negb (options =? TCSANOW) then tcdrain handle tick_per_sec;; mret tt else mret tt);;
  (if options =? TCSAFLUSH then tcflush TCIFLUSH;; mret tt else mret tt);;
  '(ret, _) ← uart_ioctl handle tick_per_sec (TCSETS (Some t));
  mret ret.

(** [tio] is what the structure holds before [tcgetattr]. *)

Definition set_up (tio : termios) : M line unit :=
  tio ← tcgetattr tio;
  let tio := mk_termios (c_iflag tio) (Z.ldiff (c_oflag tio) (Z.lor ONLCR OCRNL)) CS8
    (Z.ldiff (c_lflag tio) (Z.lor ECHO (Z.lor ECHONL (Z.lor ICANON (Z.lor ISIG IEXTEN))))) in
  let '(_, tio) := cfsetspeed tio B115200 in
  tcsetattr TCSANOW tio;;
  tcflush TCIOFLUSH;;
  mret tt.

(** ** The commands *)

(** The files on the card, where they are there. *)

Record card := mk_card { k_pic : option (list Z); k_hazard : option (list Z); k_switch : option (list Z) }.

Definition on_card (f : wfile) (k : card) : option (list Z) :=
  match f with PIC_uyvy => k_pic k | CONFIG_hazard => k_hazard k | CONFIG_switch => k_switch k end.

Definition put_card (f : wfile) (v : option (list Z)) (k : card) : card :=
  match f with
  | PIC_uyvy => mk_card v (k_hazard k) (k_switch k)
  | CONFIG_hazard => mk_card (k_pic k) v (k_switch k)
  | CONFIG_switch => mk_card (k_pic k) (k_hazard k) v
  end.

Definition mode_of (f : wfile) : list Z := match f with PIC_uyvy => [119; 98] | _ => [119] end.

Record station := mk_station { s_line : line; s_web : web; s_card : card }.

Definition set_sline v s := mk_station v (s_web s) (s_card s).
Definition set_sweb v s := mk_station (s_line s) v (s_card s).
Definition set_scard v s := mk_station (s_line s) (s_web s) v.

Definition on_line {A} (m : M line A) : M station A := zoom s_line set_sline m.
Definition on_web {A} (m : M web A) : M station A := zoom s_web set_sweb m.

(** What a pass meets: as in [WebSource.wpass], but for the bytes, which come
    from the line; what the file system answers to the writes of a file, and
    what the memory of its buffer holds.  [flushes] bounds the writes of one
    flush. *)

Record lpass := mk_lpass { l_pass : wpass; l_answer : nat -> Z; l_memory : list Z }.

Context (flushes : nat).

(** [fp = fopen(...); fwrite(content, 1, n, fp); fclose(fp);] where the file can
    be opened. *)

Definition save (p : lpass) (f : wfile) (content : list Z) : M station unit :=
  k ← gets s_card;
  match Stdio.fopen (mode_of f) (on_card f k) (l_memory p) with
  | None => ub NullDeref
  | Some fp =>
    '(_, fp) ← lift (Stdio.fwrite (l_answer p) flushes 1 content fp);
    '(_, fp) ← lift (Stdio.fclose (l_answer p) flushes OK fp);
    modify (set_scard (put_card f (Some (Stdio.f_data (Stdio.fs_fd fp))) k))
  end.

Fixpoint save_all (p : lpass) (evs : list wevent) : M station unit :=
  match evs with
  | [] => mret tt
  | WFile f content :: evs' => save p f content;; save_all p evs'
  | WSer _ :: evs' => save_all p evs'
  end.

Definition to_line (ev : wevent) : option ser_event := match ev with WSer e => Some e | WFile _ _ => None end.

(** The files are written when everything is on the line. *)

Definition perform (p : lpass) (evs : list wevent) : M station unit :=
  on_line (play handle spin tick_per_sec ttyfile (omap to_line evs));;
  save_all p evs.

Definition line_camera (p : lpass) : M station wresult :=
  r ← on_web (camera_take (l_pass p));
  match r with
  | inl ret => mret (WReturn ret)
  | inr mem =>
    w ← gets s_web;
    '(evs, stored) ← lift (send_picture (l_pass p) mem (w_usedLen w));
    perform p evs;;
    if (stored : bool) then on_web camera_end;; mret WNext else mret (WReturn (-1))
  end.

Definition line_store (p : lpass) (f : wfile) (content : list Z) : M station wresult :=
  let '(evs, r) := store_command (l_pass p) f content in
  perform p evs;;
  mret r.

Definition line_pass (p : lpass) : M station wresult :=
  '(sz, data) ← on_line (uart_read handle ttyfile 256);
  if sz <? 0 then mret WNext
  else
    let b := buff data in
    if starts b "camera" then line_camera p
    else if starts b "set" then line_store p CONFIG_hazard (take 16 (drop 4 b))
    else if starts b "on" then line_store p CONFIG_switch (take 3 b)
    else mret WNext.

(** The loop over a sequence of passes: whether it goes on, was left, or [main]
    returned. *)

Inductive loop_end := Running | Left | Returned (ret : Z).

Fixpoint line_loop (l : list lpass) : M station loop_end :=
  match l with
  | [] => mret Running
  | p :: rest =>
    r ← line_pass p;
    match r with
    | WReturn z => mret (Returned z)
    | WNext =>
      w ← gets s_web;
      if w_ret w =? - ESHUTDOWN then mret Left else line_loop rest
    end
  end.

(** ** The device *)

Inductive action := INITIALIZE | CONNECT | DISCONNECT.

(** What [cdcacm_initialize] needs from outside, and what the controller driver
    does with a class driver. *)

Record usb_env := mk_usb {
  u_malloc : bool; u_registered : Z; u_register : MB Z; u_unregister : MB unit }.

(** [ctrl.handle] points to [handle], which nothing sets before
    [cdcacm_initialize] does: [None].  The result is that of [boardctl]. *)

Definition boardctl (u : usb_env) (a : action) (sch : list (batch cdc_irq)) (t : Z) (handle : option bound) :
    outcome (Z * option bound) :=
  match a with
  | INITIALIZE => Ret (OK, handle)
  | CONNECT =>
    '(ret, o) ← cdcacm_initialize cfg (u_malloc u) (u_registered u) (u_register u) sch t;
    Ret (if ret <? 0 then ERROR else OK, match o with Some b => Some b | None => handle end)
  | DISCONNECT =>
    match handle with
    | None => Ub DanglingDeref
    | Some b => '(_, b) ← cdcacm_uninitialize (u_unregister u) b; Ret (OK, Some b)
    end
  end.

(** The end of [main]: [DISCONNECT], with the device as it is now. *)

Definition disconnect (u : usb_env) (handle : option bound) (p : option (port cdcacm)) : outcome unit :=
  '(_, _) ← boardctl u DISCONNECT [] 0 (match p with Some p => set_cport p <$> handle | None => handle end);
  Ret tt.

Definition finish (u : usb_env) (handle : option bound) (r : loop_end) (s : station) : outcome (Z + station) :=
  match r with
  | Running => Ret (inr s)
  | Returned z => Ret (inl z)
  | Left => disconnect u handle (Some (prt (s_line s)));; Ret (inl 0)
  end.

(** [there] is the device at [/dev/ttyACM0] where this program has not
    registered one.  The interrupts of the [sleep] are the first batch.  The
    result: what [main] returns, or the station where it goes on. *)

Definition main (u : usb_env) (there : option (port cdcacm)) (sch : list (batch cdc_irq)) (t : Z) (tio : termios)
    (w : web) (k : card) (ps : list lpass) : outcome (Z + station) :=
  '(ret, h) ← boardctl u CONNECT sch t None;
  match (match h with Some b => Some (cport b) | None => there end) with
  | None => disconnect u h None;; Ret (inl CameraIo.ENOENT)
  | Some p =>
    '(_, l) ← irq_point handle (mk_sys p sch t);
    '(rwfd, l) ← uart_open handle ttyfile l;
    if rwfd <? 0 then disconnect u h (Some (prt l));; Ret (inl (- rwfd))
    else
      '(_, l) ← set_up tio l;
      '(r, s) ← line_loop ps (mk_station l (set_ret ret w) k);
      finish u h r s
  end.

End Main.

End WebMain.
