(* ===== verification/WebLine.v ===== *)
(** * The image server and its host

    What a command that arrives over the USB line does, through the line, the
    camera and the card; how the server gets to its loop. *)

From Stdlib Require Import Ascii String.
From S2P Require Import Prelude SerialCodec VideoState VideoProps CameraIo WebSource CameraProps Stdio StdioProps.
From S2P Require Import Detect Scanf ScanProps Card CardProps Serial SerialRing SerialProps.
From S2P Require Import CdcDesc CdcAcm CdcCtrl CdcProps UsbSerial CdcBind WebMain.
Import SerialCodec WebSource Serial SerialRing SerialProps CdcDesc CdcAcm CdcCtrl CdcProps UsbSerial CdcBind WebMain.

#[local] Open Scope Z_scope.

Module WebLine.

Definition word (s : string) : list Z := removelast (CameraIo.c_string s).

(** ** Files *)

Lemma fopen_writable f old memory : (0 < List.length memory)%nat ->
  exists fp, Stdio.fopen (mode_of f) old memory = Some fp /\ StdioProps.writable fp memory /\ StdioProps.written fp memory = [].
Proof.
  intros Hm. destruct f, old as [data|]; (eexists; split; [reflexivity|]; split; [constructor; cbn; done || lia|reflexivity]).
Qed.

Lemma fwrite_ok answer turns l fp b : StdioProps.progress answer -> StdioProps.writable fp b -> (List.length b <= turns)%nat ->
  wp (Stdio.fwrite answer turns 1 l) (fun _ fp' => exists b', StdioProps.writable fp' b' /\ List.length b' = List.length b /\
    StdioProps.written fp' b' = StdioProps.written fp b ++ l) fp.
Proof.
  intros Hp Hw Ht. unfold Stdio.fwrite. apply wp_bind. eapply wp_mono; [by apply StdioProps.lib_fwrite_ok|].
  intros r fp' (_ & b' & H). destruct (0 <? r); apply wp_ret; by exists b'.
Qed.

Lemma save_ok flushes p f content s : StdioProps.progress (l_answer p) -> (0 < List.length (l_memory p) <= flushes)%nat ->
  wp (save flushes p f content) (fun _ s' => s' = set_scard (put_card f (Some content) (s_card s)) s) s.
Proof.
  intros Hp Hm. unfold save. apply wp_bind, wp_gets.
  destruct (fopen_writable f (on_card f (s_card s)) (l_memory p)) as (fp & -> & Hw & E0); [lia|].
  destruct (fwrite_ok (l_answer p) flushes content fp (l_memory p) Hp Hw) as (r1 & fp1 & E1 & b1 & Hw1 & Hl1 & Hc1); [lia|].
  destruct (StdioProps.fclose_ok (l_answer p) flushes fp1 b1 Hp Hw1) as (r2 & fp2 & E2 & _ & Hd); [lia|].
  apply wp_bind. eapply wp_lift; [exact E1|]. apply wp_bind. eapply wp_lift; [exact E2|].
  apply wp_modify. by rewrite Hd, Hc1, E0.
Qed.

(** ** Commands *)

Section Line.
Context (cfg : cdc_cfg) `{Hctl : controller} (spin : nat) (tick : Z) (flushes : nat).
Context (Hcfg : cfg_ok cfg) (Hin : forall h, ans_in h = OK).

#[local] Instance ops : uart_ops cdcacm := g_uartops cfg.
#[local] Instance view : StreamView cdcacm cdc_irq := cdc_view cfg.
#[local] Instance lower : StreamLower cdcacm cdc_irq (cdc_handle cfg) := cdc_lower cfg Hcfg Hin.

(** The line between two commands: no character is changed on its way. *)

Record idle_line (s : sys cdcacm cdc_irq) : Prop := {
  il_run : running cfg s;
  il_in : has (tc_iflag (d s)) (Z.lor INLCR (Z.lor IGNCR ICRNL)) = false;
  il_out : has (tc_oflag (d s)) OPOST = false
}.

Lemma idle_step w raw s s' : idle_line s -> step w raw s s' -> running cfg s' -> idle_line s'.
Proof. intros [A B C] S R. constructor; [done|by rewrite (step_iflag _ _ _ _ S)|by rewrite (step_oflag _ _ _ _ S)]. Qed.

Lemma cook_raw iflag (l : list Z) : has iflag (Z.lor INLCR (Z.lor IGNCR ICRNL)) = false -> cook_in iflag <$> l = l.
Proof. intros H. rewrite <- (list_fmap_id l) at 2. apply list_fmap_ext. intros _ c _. unfold cook_in, input_char. by rewrite H. Qed.

(** A command that is there, or comes in one packet before anything else. *)

Definition heard (cmd : list Z) (s : sys cdcacm cdc_irq) : Prop :=
  (exists rest, queue (recv (d s)) = cmd ++ rest) \/
  (exists b evs l, sched s = b :: l /\ b_events b = Irq (RdComplete OK cmd) :: evs /\
    queue (recv (d s)) = [] /\ listening (priv (prt s)) /\ Z.of_nat (List.length cmd) < ub_size (recv (d s))).

Lemma heard_brings cmd s : idle_line s -> heard cmd s -> brings (cdc_handle cfg) cmd (reading s).
Proof using Hcfg Hin.
  intros Hs Hh. destruct (il_run _ Hs) as [[Hp Hcon [L1 L2]] Hc _ _ _].
  assert (Hp0 : port_ok (prt (reading s))) by exact (ps_ok _ _ _ _ (lock_passed RECV_SEM 0 (prt s) (or_intror eq_refl) Hp)).
  destruct Hh as [[rest Hq]|(b & evs & l & Es & Eb & Hq & Hls & Hlen)]; [by apply (queued_brings (cdc_handle cfg) cmd rest)|].
  rewrite Es in Hc. apply Forall_cons in Hc as [Hcb _]. rewrite Eb in Hcb. apply Forall_cons in Hcb as [Hce Hcv].
  unfold brings, irq_point. apply wp_bind, wp_get. change (sched (reading s)) with (sched s). rewrite Es.
  apply wp_bind, wp_modify, wp_zoom. rewrite Eb. cbn [serve]. apply wp_bind.
  change (prt (Serial.set_sched l (reading s))) with (prt (reading s)).
  eapply wp_mono; [apply (rd_handle cfg OK cmd); [done|exact Hce]|]. intros _ p1 (Hp1 & _ & _ & Hr).
  destruct (Hr eq_refl Hls) as [rest1 Er].
  { unfold fits. change (queue (recv (serdev (prt (reading s))))) with (queue (recv (d s))). rewrite Hq. simpl. exact Hlen. }
  change (queue (recv (serdev (prt (reading s))))) with (queue (recv (d s))) in Er. rewrite Hq in Er.
  eapply wp_mono; [by apply (serve_ok (cdc_handle cfg))|]. intros _ p2 (_ & [_ _ (k & n & E & _)] & _).
  exists (rest1 ++ k). unfold d. cbn. rewrite E, Er. cbn [app]. by rewrite <- (assoc_L (++)).
Qed.

(** It is read whole. *)

Lemma read_command cmd s : idle_line s -> heard cmd s -> cmd <> [] -> Z.of_nat (List.length cmd) <= 256 ->
  wp (uart_read (cdc_handle cfg) ttyfile 256) (fun r s' => exists more, r.2 = cmd ++ more /\ 0 < r.1 /\
    idle_line s' /\ step [] (cmd ++ more) s s' /\ (List.length (sched s) <= List.length (sched s') + 257)%nat) s.
Proof using Hcfg Hin.
  intros Hs Hh Hne Hl. destruct (il_run _ Hs) as [[Hp Hcon [L1 L2]] Hc Hqt _ _].
  eapply wp_mono; [apply (read_queued (cdc_handle cfg) ttyfile 256 cmd s); try done; by apply heard_brings|].
  intros r s' (raw & S & Hq' & Hr & Hn & Hpre & Hmax & Hsch). rewrite (cook_raw _ _ (il_in _ Hs)) in Hr. cbn [app] in Hr.
  destruct (Hpre ltac:(simpl; lia)) as [more ->]. exists more. cbn [List.length] in Hmax.
  assert (0 < List.length cmd)%nat by (destruct cmd; [done|simpl; lia]).
  rewrite length_app in *. split_and!; [done|rewrite Hn, Hr, length_app; lia| |done|lia].
  eapply idle_step; [done..|]. eapply running_step; [apply Hs|done|by apply Hq'].
Qed.

(** The line settings and the size of the buffer that a command depends on. *)

Context (Hclock : Z.of_nat (NWRREQS cfg) < 10 * tick <= 4294967295).

Abbreviation pass := (line_pass cfg spin tick flushes).

(** The request as [WebSource] has it, for a pass that reads the word. *)

Definition asked (p : wpass) : wpass :=
  mk_wpass (Some (word "camera")) (p_env p) (p_before p) (p_frames p) (p_image p) (p_fopen p).

(** A card that takes what is written, in pieces as it likes. *)

Definition card_ok (p : lpass) : Prop :=
  StdioProps.progress (l_answer p) /\ (0 < List.length (l_memory p) <= flushes)%nat.

Lemma save_one p f content evs s : card_ok p -> save_all flushes p evs = (fun s => Ret (tt, s)) ->
  wp (save_all flushes p (WFile f content :: evs)) (fun _ s' => s' = set_scard (put_card f (Some content) (s_card s)) s) s.
Proof using.
  intros [Hp Hm] E. cbn [save_all]. apply wp_bind. eapply wp_mono; [by apply save_ok|]. intros _ s' ->.
  rewrite E. by eexists _, _.
Qed.

Lemma omap_line sers f content : omap to_line ((WSer <$> sers) ++ [WFile f content]) = sers.
Proof using. rewrite omap_app. cbn. rewrite app_nil_r. induction sers as [|e l IH]; [done|]. cbn. by rewrite IH. Qed.

Lemma save_line p sers evs : save_all flushes p ((WSer <$> sers) ++ evs) = save_all flushes p evs.
Proof using. induction sers as [|e l IH]; [done|]. exact IH. Qed.

(** What has become of the station: the picture given, the reference picture on
    the card, the camera closed and its memory [addr] freed. *)

Record gave_picture (p : wpass) (addr : Z) (yuv jpeg : list Z) (s s' : station) : Prop := {
  gp_line : idle_line (s_line s');
  gp_wire : exists got, wire (s_line s') = written_so_far (s_line s) ++ got /\ picture_given got jpeg;
  gp_card : s_card s' = put_card PIC_uyvy (Some yuv) (s_card s);
  gp_web : CameraProps.served (s_web s) (s_web s') (CameraIo.e_newfd (p_env p));
  gp_heap : CameraIo.a_heap (w_app (s_web s')) = filter (fun z => z <> addr) (CameraIo.a_heap (w_app (s_web s)))
}.

Lemma camera_served p s cap o dt addr fr yuv jpeg : idle_line (s_line s) -> heard (word "camera") (s_line s) ->
  Z.of_nat cap = ub_size (xmit (d (s_line s))) -> CameraProps.request_ok (asked (l_pass p)) (s_web s) o dt addr fr yuv jpeg ->
  card_ok p -> Forall byte jpeg ->
  exists evs, send_image (p_image (l_pass p)) YUVSIZE (Z.of_nat (List.length jpeg)) = Ret evs /\
    ((257 + cost cfg cap evs <= List.length (sched (s_line s)))%nat ->
     wp (pass p) (fun r s' => r = WNext /\ gave_picture (l_pass p) addr yuv jpeg s s') s).
Proof using Hcfg Hin Hclock.
  intros Hline Hword Hcap Hreq Hcard Hbytes.
  destruct (CameraProps.camera_take_ok _ _ _ _ _ _ _ _ Hreq) as (r & w1 & Htake & mem & -> & Eu & Hend).
  destruct (CameraProps.send_picture_ok _ mem yuv jpeg (CameraProps.rq_image _ _ _ _ _ _ _ _ Hreq) (CameraProps.rq_yuv _ _ _ _ _ _ _ _ Hreq) (CameraProps.rq_fopen _ _ _ _ _ _ _ _ Hreq))
    as (sers & Hsend & Hbts & Hev).
  exists sers. split; [exact Hev|]. intros Hcost. pose proof (CameraProps.rq_image _ _ _ _ _ _ _ _ Hreq) as Him.
  apply holds_app in Him as [_ Him]. rewrite (CameraProps.rq_yuv _ _ _ _ _ _ _ _ Hreq), Z.add_0_r in Him.
  unfold line_pass. apply wp_bind, wp_zoom.
  eapply wp_mono; [by apply (read_command (word "camera"))|].
  intros [sz data] l1 (more & E & Hsz & Hl1 & S1 & Hsch). cbn [fst snd] in *. subst data.
  rewrite (proj2 (Z.ltb_ge _ _)) by lia. change (starts (buff (word "camera" ++ more)) "camera") with true. cbn iota zeta.
  unfold line_camera. apply wp_bind, wp_zoom. cbn [s_web set_sline]. exists (inr (Some mem)), w1. split; [exact Htake|].
  cbn iota. apply wp_bind, wp_gets. cbn [s_web set_sweb]. rewrite Eu.
  change (send_picture (l_pass p)) with (send_picture (asked (l_pass p))).
  apply wp_bind. eapply wp_lift; [exact Hsend|]. unfold perform. rewrite omap_line, save_line.
  apply wp_bind, wp_bind, wp_zoom. cbn [s_line set_sweb set_sline].
  pose proof (step_size cfg _ _ _ _ S1) as Esz.
  eapply wp_mono; [apply (picture_sent cfg Hcfg Hin spin tick ttyfile cap (p_image (asked (l_pass p))) YUVSIZE jpeg sers); try done; try apply Hl1; [by rewrite Esz|lia]|].
  intros _ l2 (Hr2 & S2 & Hw2). eapply wp_mono; [apply save_one; [done|reflexivity]|]. intros _ s3 ->.
  apply wp_bind, wp_zoom. cbn [s_web set_scard set_sline set_sweb]. eapply wp_mono; [exact Hend|]. intros [] w' [Hsv Hhp]. apply wp_ret.
  cbn [s_line s_web s_card set_scard set_sline set_sweb]. split; [done|]. constructor; try done; [by eapply idle_step|].
  cbn [s_line set_scard set_sweb set_sline]. exists (line_bytes sers). split; [|by apply (picture_decoded (p_image (asked (l_pass p))) YUVSIZE)].
  rewrite Hw2. apply step_written in S1. by rewrite S1, app_nil_r.
Qed.


(** A command whose characters are stored. *)

Lemma store_over_line p f cmd content s : idle_line (s_line s) -> heard cmd (s_line s) -> cmd <> [] ->
  Z.of_nat (List.length cmd) <= 256 -> p_fopen (l_pass p) = true -> card_ok p ->
  (forall more, starts (buff (cmd ++ more)) "camera" = false /\
    (starts (buff (cmd ++ more)) "set" = true /\ f = CONFIG_hazard /\ take 16 (drop 4 (buff (cmd ++ more))) = content more \/
     starts (buff (cmd ++ more)) "set" = false /\ starts (buff (cmd ++ more)) "on" = true /\ f = CONFIG_switch /\
       take 3 (buff (cmd ++ more)) = content more)) ->
  wp (pass p) (fun r s' => r = WNext /\ idle_line (s_line s') /\ s_web s' = s_web s /\
    exists more, step [] (cmd ++ more) (s_line s) (s_line s') /\ s_card s' = put_card f (Some (content more)) (s_card s)) s.
Proof using Hcfg Hin.
  intros Hl Hq Hne Hlen Hfo Hcard Hcmd. unfold line_pass. apply wp_bind, wp_zoom.
  eapply wp_mono; [by apply (read_command cmd)|].
  intros [sz data] l1 (more & E & Hsz & Hl1 & S1 & _). cbn [fst snd] in *. subst data.
  rewrite (proj2 (Z.ltb_ge _ _)) by lia. cbn zeta. destruct (Hcmd more) as [-> H].
  assert (Hst : wp (line_store cfg spin tick flushes p f (content more)) (fun r s' => r = WNext /\
    s' = set_scard (put_card f (Some (content more)) (s_card s)) (set_sline l1 s)) (set_sline l1 s)).
  { unfold line_store, store_command. rewrite Hfo. apply wp_bind. unfold perform.
    change (omap to_line [WFile f (content more)]) with (@nil ser_event). cbn [play]. apply wp_bind, wp_zoom, wp_ret.
    eapply wp_mono; [apply save_one; [done|reflexivity]|]. intros _ s' ->. by apply wp_ret. }
  destruct H as [(-> & -> & ->)|(-> & -> & -> & ->)];
    (eapply wp_mono; [exact Hst|]; intros r s' [-> ->]; split_and!; [done|done|done|by exists more]).
Qed.

(** C13: The borders do not arrive as they were meant.  Let the line be as for
    [camera_over_line], let the file open and the card take what is written, and
    let the line the host sends for the borders LT, LB, RT, RB, each from 0.00 to
    9.99 in hundredths, have arrived or come whole in the next packet.  Then it is
    read from the USB device, sixteen of its characters are written to the card,
    and the detector reads from that file LT, RT, LB and RB, the last one cut to
    its integer part; the first one alone arrives.  The camera and the other files
    are untouched. *)
Theorem settings_over_usb p s other lt lb rt rb h
    (Hlt : 0 <= lt < 1000) (Hlb : 0 <= lb < 1000) (Hrt : 0 <= rt < 1000) (Hrb : 0 <= rb < 1000)
    (Hline : idle_line (s_line s)) (Hfopen : p_fopen (l_pass p) = true) (Hcard : card_ok p)
    (Hhost : heard (Card.set_line (CardProps.hundredths lt) (CardProps.hundredths lb)
       (CardProps.hundredths rt) (CardProps.hundredths rb)) (s_line s)) :
  wp (pass p) (fun r s' => r = WNext /\ idle_line (s_line s') /\ s_web s' = s_web s /\
    k_pic (s_card s') = k_pic (s_card s) /\ k_switch (s_card s') = k_switch (s_card s) /\
    Card.Load_setting other (k_hazard (s_card s')) h =
      Ret (0, Detect.mk_hazard (CardProps.dec2 lt) (CardProps.dec2 lb) (CardProps.dec2 rt) (Detect.double_of_int (rb / 100)))) s.
Proof using Hcfg Hin.
  eapply wp_mono; [eapply (store_over_line p CONFIG_hazard _ (fun _ => CardProps.hundredths lt ++ [32] ++
    CardProps.hundredths lb ++ [32] ++ CardProps.hundredths rt ++ [32] ++ [48 + rb / 100])); [done|exact Hhost|done|done|done|done|]|].
  - intros more. split; [reflexivity|]. left. by split_and!.
  - intros r s' (-> & Hl & Hw & more & _ & ->). split_and!; try done. apply CardProps.load_reads. by apply CardProps.line_reads.
Qed.

End Line.
(** ** From nothing to the loop *)

Section SetUp.
Context (cfg : cdc_cfg) `{Hctl : controller} (tick : Z).

#[local] Instance ops1 : uart_ops cdcacm := g_uartops cfg.
#[local] Instance view1 : StreamView cdcacm cdc_irq := cdc_view cfg.

Lemma getattr_ok tio s : wp (tcgetattr cfg tick tio) (fun t s' => s' = s /\
  t = mk_termios (tc_iflag (d s)) (tc_oflag (d s)) CS8 (tc_lflag (d s))) s.
Proof. eexists _, _. split; [reflexivity|]. split; [|done]. by destruct s as [[] ? ?]. Qed.

Definition with_modes (t : termios) (s : sys cdcacm cdc_irq) : sys cdcacm cdc_irq :=
  set_prt (set_serdev (set_modes (c_iflag t) (c_oflag t) (c_lflag t) (d s)) (prt s)) s.

Lemma setattr_ok t s : wp (tcsetattr cfg tick TCSANOW t) (fun _ s' => s' = with_modes t s) s.
Proof. eexists _, _. split; reflexivity. Qed.

(** What was received and not read is dropped, and so is what was to be sent. *)

Definition emptied (b : uart_buffer) : uart_buffer := set_ub_tail (ub_head b) b.

Lemma emptied_ok b : ring_ok b -> ring_ok (emptied b) /\ queue (emptied b) = [].
Proof.
  intros [A B C D0]. assert (H : ring_ok (emptied b)) by by constructor. split; [done|]. by apply queue_nil.
Qed.

Lemma flush_ok s : tty cfg s -> quiet s ->
  wp (tcflush cfg tick TCIOFLUSH) (fun _ s' => tty cfg s' /\ quiet s' /\ sched s' = sched s /\ priv (prt s') = priv (prt s) /\
    fixed (d s') = fixed (d s) /\ queue (recv (d s')) = [] /\ queue (xmit (d s')) = []) s.
Proof.
  intros [Hp Hcon [L1 L2]] [Q1 Q2]. pose proof (proj1 Hp) as [A1 A2 A3 A4 A5]. fold (d s) in A1, A2, A3, A4, A5.
  destruct (emptied_ok _ A1) as [B1 C1], (emptied_ok _ A2) as [B2 C2].
  set (d1 := set_xmit (emptied (xmit (d s))) (set_recv (emptied (recv (d s))) (d s))).
  assert (Hd1 : dev_ok d1) by by constructor.
  unfold tcflush, uart_ioctl. apply wp_bind, wp_bind, wp_zoom. cbn [op_ioctl ops1 g_uartops]. unfold cdcuart_ioctl.
  apply wp_bind, wp_gets. apply wp_bind, wp_gets. apply wp_ret. change (- ENOTTY =? - ENOTTY) with true. cbn iota.
  apply wp_bind, wp_gets. change ((TCIOFLUSH =? TCIFLUSH) || (TCIOFLUSH =? TCIOFLUSH)) with true.
  change ((TCIOFLUSH =? TCOFLUSH) || (TCIOFLUSH =? TCIOFLUSH)) with true. cbn iota.
  apply wp_bind, wp_zoom, wp_zoom, wp_modify. apply wp_bind, wp_zoom, wp_zoom, wp_bind, wp_modify.
  match goal with |- wp _ _ ?x => change x with d1 end.
  eapply wp_mono; [by apply datasent_ok|]. intros _ d2 (Hd2 & Hst & Ex & Er & W1 & W2 & W3 & W4). apply wp_ret, wp_ret.
  change (xmitsem d1) with (xmitsem (d s)) in W2. change (xmitwaiting d1) with (xmitwaiting (d s)) in W2. rewrite Q1, Q2 in W2.
  assert (Hfix : fixed d2 = fixed d1) by exact (f_equal (fun x => x.1.1) Hst).
  unfold static in Hst. injection Hst as _ Hs1 _ Hs2 _.
  unfold quiet, connected, d in *. cbn. rewrite Ex, Er. split_and!; try done.
  constructor; unfold connected, d; cbn; [split; [done|apply Hp]| |split; congruence].
  unfold fixed in Hfix. cbn in Hfix. injection Hfix as _ Hdc _ _ _ _ _ _ _ _ _ _. by rewrite Hdc.
Qed.

End SetUp.

(** The terminal as the server wants it. *)

Lemma with_modes_tty cfg t s : tty cfg s -> quiet s -> tty cfg (with_modes t s) /\ quiet (with_modes t s).
Proof. intros [[[A B C D0 E] F] G H] Q. split; [|exact Q]. constructor; [split; [by constructor|exact F]|exact G|exact H]. Qed.

Lemma set_up_ok cfg `{Hctl : controller} tick tio s : tty cfg s -> quiet s ->
  wp (set_up cfg tick tio) (fun _ s' => tty cfg s' /\ quiet s' /\ sched s' = sched s /\ priv (prt s') = priv (prt s) /\
    queue (recv (d s')) = [] /\ queue (xmit (d s')) = [] /\ tc_iflag (d s') = tc_iflag (d s) /\
    tc_oflag (d s') = Z.ldiff (tc_oflag (d s)) (Z.lor ONLCR OCRNL) /\ ub_size (xmit (d s')) = ub_size (xmit (d s)) /\
    ub_size (recv (d s')) = ub_size (recv (d s))) s.
Proof.
  intros Ht Hq. unfold set_up. apply wp_bind. eapply wp_mono; [apply getattr_ok|]. intros tio1 s1 [-> ->].
  cbn zeta. destruct (cfsetspeed _ _) as [speed tio2] eqn:E. apply wp_bind. eapply wp_mono; [apply setattr_ok|]. intros _ s1 ->.
  destruct (with_modes_tty cfg tio2 s Ht Hq) as [Ht1 Hq1]. apply wp_bind. eapply wp_mono; [by apply flush_ok|].
  intros _ s2 (Ht2 & Hq2 & Es & Ep & Ef & Er & Ex). apply wp_ret. unfold cfsetspeed in E. destruct (find_speed _ _) in E.
  injection E as _ <-. unfold fixed in Ef. cbn in Ef. injection Ef as _ _ _ Ei Eo _ _ _ _ Ez Ez' _. by split_and!.
Qed.

Section Ready.
Context (cfg : cdc_cfg) `{Hctl : controller} `{Hlend : lender} (asserts : bool) (spin : nat) (tick : Z) (flushes : nat).
Context (Hcfg : cfg_ok cfg) (Hsz : sizes_ok cfg).
Context (Hin : forall h, ans_in h = OK) (Hout : forall h, ans_out h = OK) (Hconf : forall h, ans_conf h = OK).
Context (Hgrant : forall h, grants h = true).

#[local] Instance ops2 : uart_ops cdcacm := g_uartops cfg.
#[local] Instance view2 : StreamView cdcacm cdc_irq := cdc_view cfg.

(** The controller driver binds the class driver it is given, and the USB
    device has a name. *)

Record connects (u : usb_env) : Prop := {
  cn_malloc : u_malloc u = true;
  cn_name : 0 <= u_registered u;
  cn_bind : forall b b', cdcacm_bind cfg asserts b = Ret (OK, b') -> u_register u b = Ret (OK, b')
}.

(** The server gets to its loop: the device is registered and opened, the
    terminal set up, and the line is ready: connected, nothing sent, nothing to
    read, and no character changed on its way in or out. *)

Lemma server_ready u there up rest t tio w k ps : connects u ->
  b_events up = [Irq (Setup set_configuration None)] -> calm_sched rest -> prompt rest -> timely rest ->
  exists b l, main cfg spin tick flushes u there (up :: rest) t tio w k ps =
      ('(r, s) ← line_loop cfg spin tick flushes ps (mk_station l (set_ret OK w) k); finish cfg u (Some b) r s) /\
    idle_line cfg l /\ sched l = rest /\ written_so_far l = [] /\ queue (recv (d l)) = [] /\ listening (priv (prt l)) /\
    ub_size (xmit (d l)) = TXBUFSIZE cfg /\ ub_size (recv (d l)) = RXBUFSIZE cfg.
Proof using Hcfg Hsz Hin Hout Hconf Hgrant.
  intros [Hmalloc Hname Hbind] Hhost Hcalm Hprompt Htime.
  destruct (usb_boot cfg asserts Hcfg Hsz Hin Hout Hconf Hgrant (u_register u) Hbind (u_registered u) (up :: rest) t ttyfile Hname eq_refl)
    as (b & Einit & Hboot).
  destruct (Hboot rest t) as (ret & l0 & Eboot & -> & Ht0 & Hq0 & Es0 & Hw0 & _ & Eo & Ei & Ez & Ezr & Hls).
  destruct (set_up_ok cfg tick tio l0 Ht0 Hq0) as ([] & l & Eset & Ht & Hq & Es & Ep & Er & Ex & Ei1 & Eo1 & Ez1 & Ez2).
  exists b, l. split.
  - apply bind_inv in Eboot as ([] & s1 & E1 & E2).
    unfold main, boardctl. rewrite Hmalloc, Einit. cbn [mbind outcome_bind]. change (OK <? 0) with false. cbn iota.
    assert (Eirq : irq_point (cdc_handle cfg) (mk_sys (cport b) (up :: rest) t) = Ret (tt, s1)).
    { unfold irq_point, mbind, M_bind, get. cbn [sched]. unfold modify. rewrite Hhost. cbn [serve].
      unfold on_port, zoom in E1 |- *. cbn [prt Serial.set_sched] in E1 |- *. unfold mbind, M_bind.
      destruct (cdc_handle cfg _ (cport b)) as [[[] p1]| |]; [|done..]. cbn. by injection E1 as <-. }
    rewrite Eirq. cbn [mbind outcome_bind]. rewrite (E2 : @uart_open _ _ (WebMain.ops cfg) (cdc_handle cfg) ttyfile s1 = _).
    cbn [mbind outcome_bind]. change (OK <? 0) with false. cbn iota. by rewrite Eset.
  - assert (Ho : tc_oflag (d l) = 0 /\ tc_iflag (d l) = 0) by (rewrite Eo1, Ei1, Eo, Ei; done).
    destruct Ho as [Ho1 Ho2]. split_and!; [|congruence| |done|by rewrite Ep|congruence|congruence].
    + constructor; [|by rewrite Ho2|by rewrite Ho1]. constructor; try done; rewrite Es, Es0; done.
    + unfold written_so_far in Hw0. apply app_eq_nil in Hw0 as [Hw0 _]. unfold written_so_far, wire. by rewrite Ep, Ex, app_nil_r.
Qed.

Context (Hclock : Z.of_nat (NWRREQS cfg) < 10 * tick <= 4294967295).

(** C6: From nothing to a picture.  Let there be memory and a name, a controller
    that grants and takes every request and binds the class driver it is given
    ([connects]), a host that sets the configuration while the server sleeps and
    then sends the word camera in one packet, transfers that keep completing
    ([calm_sched], [prompt], [timely]), a camera whose requests are granted
    ([request_ok]) and a card that takes what is written ([card_ok]).  Then
    [main] registers and opens the USB device, sets the terminal up, reads the
    word, takes the picture and goes on with its loop: all the host was sent is
    what it recognises as complete and decodes to the picture, exactly where the
    length is a multiple of seven and otherwise to all of its full groups and
    seven more bytes; the reference picture is on the card, the camera is
    closed. *)
Theorem picture_from_nothing u there up ask evs rest t tio w k p cap o dt addr fr yuv jpeg
    (Hu : connects u) (Hhost : b_events up = [Irq (Setup set_configuration None)])
    (Hask : b_events ask = Irq (RdComplete OK (word "camera")) :: evs) (Hroom : 6 < RXBUFSIZE cfg)
    (Hcalm : calm_sched (ask :: rest)) (Hprompt : prompt (ask :: rest)) (Htime : timely (ask :: rest))
    (Hcap : Z.of_nat cap = TXBUFSIZE cfg)
    (Hreq : CameraProps.request_ok (asked (l_pass p)) (set_ret OK w) o dt addr fr yuv jpeg) (Hcard : card_ok flushes p)
    (Hbytes : Forall byte jpeg) :
  exists sers, send_image (p_image (l_pass p)) YUVSIZE (Z.of_nat (List.length jpeg)) = Ret sers /\
    ((257 + cost cfg cap sers <= List.length (ask :: rest))%nat ->
     exists s', main cfg spin tick flushes u there (up :: ask :: rest) t tio w k [p] = Ret (inr s') /\
       idle_line cfg (s_line s') /\ picture_given (wire (s_line s')) jpeg /\ s_card s' = put_card PIC_uyvy (Some yuv) k /\
       CameraProps.served (set_ret OK w) (s_web s') (CameraIo.e_newfd (p_env (l_pass p)))).
Proof using Hcfg Hsz Hin Hout Hconf Hgrant Hclock.
  destruct (server_ready u there up (ask :: rest) t tio w k [p] Hu Hhost Hcalm Hprompt Htime)
    as (b & l & Emain & Hl & Es & Hw & Er & Hls & Ez & Ezr).
  destruct (camera_served cfg spin tick flushes Hcfg Hin Hclock p (mk_station l (set_ret OK w) k) cap o dt addr fr yuv jpeg)
    as (sers & Esend & Hrun); try done; [|by cbn [s_line]; rewrite Ez|].
  { right. exists ask, evs, rest. split_and!; [done|done|done|done|]. cbn [s_line]. by rewrite Ezr. }
  exists sers. split; [exact Esend|]. intros Hlen. destruct Hrun as (r & s' & Epass & -> & [G1 (got & G2 & G3) G4 G5 _]); [cbn [s_line]; by rewrite Es|].
  exists s'. rewrite Emain. cbn [line_loop]. unfold mbind at 1, outcome_bind at 1. unfold mbind at 1, M_bind at 1. rewrite Epass.
  unfold mbind at 1, M_bind at 1, gets. rewrite (CameraProps.sv_ret _ _ _ G5). cbn. cbn in G2. rewrite Hw in G2. rewrite G2. by split_and!.
Qed.

End Ready.

(** Where the device could not be registered and none is there, the end of
    [main] disconnects through a handle that nothing has set. *)

Lemma no_device cfg `{Hctl : controller} spin tick flushes u sch t tio w k ps : u_malloc u = false ->
  main cfg spin tick flushes u None sch t tio w k ps = Ub DanglingDeref.
Proof. intros E. unfold main, boardctl. by rewrite E. Qed.

(** ** A run *)

#[local] Existing Instance obliging.
#[local] Existing Instance generous.

Definition ex_usb : usb_env := mk_usb true 0 (cdcacm_bind acm_cfg true) (cdcacm_unbind acm_cfg true []).
Definition ex_up : batch cdc_irq := mk_batch [Irq (Setup set_configuration None)] 1.
Definition ex_ask (cmd : list Z) : batch cdc_irq := mk_batch [Irq (RdComplete OK cmd); Irq (WrComplete OK)] 1.
Definition ex_lpass : lpass := mk_lpass CameraProps.ex_pass (fun _ => 100) (replicate 64 0).
Definition ex_card : card := mk_card None (Some [1; 2]) None.

Lemma ex_connects : connects acm_cfg true ex_usb.
Proof. constructor; [done|done|]. intros b b' E. exact E. Qed.

Lemma ask_calm cmd n : Z.of_nat (List.length cmd) <= 65535 -> Forall (fun b => 0 <= b < 256) cmd ->
  calm_sched (Hview := cdc_view acm_cfg) (ex_ask cmd :: busy_line n).
Proof. intros H1 H2. apply Forall_cons. split; [|apply busy_calm]. repeat apply Forall_cons_2; [by split|done|by apply Forall_nil]. Qed.

Lemma ask_prompt cmd n : prompt (Hview := cdc_view acm_cfg) (ex_ask cmd :: busy_line n).
Proof.
  apply Forall_cons. split; [|apply busy_prompt]. split_and!; [exists (WrComplete OK); split; [right; by left|done]| |done].
  repeat apply Forall_cons_2; [by intros (? & ? & ?)|by intros (? & [= <-] & ?)|by apply Forall_nil].
Qed.

Lemma ask_timely cmd n : timely (ex_ask cmd :: busy_line n).
Proof. apply Forall_cons. split; [done|apply busy_timely]. Qed.

(** A station whose line hears [cmd] next. *)

Lemma ex_station cmd n : Z.of_nat (List.length cmd) <= 256 -> Forall (fun b => 0 <= b < 256) cmd ->
  exists l, idle_line acm_cfg l /\ heard cmd l /\ sched l = ex_ask cmd :: busy_line n /\ ub_size (xmit (d l)) = 769.
Proof.
  intros H1 H2. destruct (server_ready (Hctl := obliging) (Hlend := generous) acm_cfg true 0 100 64 acm_ok acm_sizes (fun _ => eq_refl) (fun _ => eq_refl) (fun _ => eq_refl)
    (fun _ => eq_refl) ex_usb None ex_up (ex_ask cmd :: busy_line n) 0 (mk_termios 0 0 0 0) CameraProps.ex_web ex_card [] ex_connects
    eq_refl (ask_calm cmd n ltac:(lia) H2) (ask_prompt cmd n) (ask_timely cmd n)) as (b & l & _ & Hl & Es & _ & Er & Hls & Ez & Ezr).
  exists l. split_and!; [done| |done|done]. right. exists (ex_ask cmd), [Irq (WrComplete OK)], (busy_line n). split_and!; [done|done|done|done|].
  rewrite Ezr. simpl. lia.
Qed.


Lemma settings_over_usb_witness : exists s s' r,
  line_pass acm_cfg 0 100 64 ex_lpass s = Ret (r, s') /\
  Card.Load_setting CardProps.no_conv (k_hazard (s_card s')) Detect.default_hazard =
    Ret (0, Detect.mk_hazard (CardProps.dec2 12) (CardProps.dec2 34) (CardProps.dec2 56) (Detect.double_of_int (178 / 100))).
Proof.
  destruct (ex_station (Card.set_line (CardProps.hundredths 12) (CardProps.hundredths 34) (CardProps.hundredths 56) (CardProps.hundredths 178)) 30
    ltac:(vm_compute; discriminate) ltac:(by repeat constructor)) as (l & Hl & Hh & _ & _).
  exists (mk_station l CameraProps.ex_web ex_card).
  destruct (settings_over_usb (Hctl := obliging) acm_cfg 0 100 64 acm_ok (fun _ => eq_refl) ex_lpass (mk_station l CameraProps.ex_web ex_card) CardProps.no_conv
    12 34 56 178 Detect.default_hazard ltac:(lia) ltac:(lia) ltac:(lia) ltac:(lia) Hl eq_refl ltac:(split; [done|simpl; lia]) Hh)
    as (r & s' & E & _ & _ & _ & _ & _ & HL).
  exists s', r. split; [exact E|exact HL].
Defined.

Lemma picture_from_nothing_witness : exists s',
  main acm_cfg 0 100 64 ex_usb None (ex_up :: ex_ask (word "camera") :: busy_line 1500) 0 (mk_termios 0 0 0 0)
    CameraProps.ex_web ex_card [ex_lpass] = Ret (inr s') /\ picture_given (wire (s_line s')) CameraProps.ex_jpeg.
Proof.
  destruct (picture_from_nothing (Hctl := obliging) (Hlend := generous) acm_cfg true 0 100 64 acm_ok acm_sizes (fun _ => eq_refl) (fun _ => eq_refl) (fun _ => eq_refl)
    (fun _ => eq_refl) ltac:(simpl; lia) ex_usb None ex_up (ex_ask (word "camera")) [Irq (WrComplete OK)] (busy_line 1500) 0 (mk_termios 0 0 0 0)
    CameraProps.ex_web ex_card ex_lpass 769 VideoProps.ex_cam VideoProps.ex_data 4096 (0, 153607) CameraProps.ex_yuv CameraProps.ex_jpeg
    ex_connects eq_refl eq_refl ltac:(simpl; lia) (ask_calm (word "camera") 1500 ltac:(simpl; lia) ltac:(by repeat constructor)) (ask_prompt _ _) (ask_timely _ _)
    eq_refl CameraProps.ex_request ltac:(split; [done|simpl; lia]) ltac:(by repeat constructor)) as (sers & Hev & Hrun).
  destruct Hrun as (s' & E & _ & Hp & _).
  - vm_compute in Hev. injection Hev as <-. vm_compute. lia.
  - exists s'. split; [exact E|exact Hp].
Defined.

End WebLine.
